(* ===== verification/_CoqProject ===== *)
-Q . S2P
Prelude.v
CMonad.v
MnlMsg.v
MnlAttr.v
Tlv.v
TlvParse.v
MnlCallback.v
Bitops.v
CtObject.v
CtSetter.v
CtGetter.v
CtCopy.v
CtApi.v
CtMemory.v
CtMemoryProps.v
CtAttrs.v
CtCopyProps.v
CtCompare.v
CtObjopt.v
Ctnl.v
CtBuild.v
CtBuildProps.v
CtParse.v
CtParseSafe.v
TlvTable.v
CtParseTree.v
CtWire.v
CtRoundTrip.v
NfqMsg.v
CtLabels.v
CtLabelsMem.v
CtFilter.v
HttpChar.v
HttpUrl.v
HttpUrlRoundTrip.v
HttpParser.v
HttpParserSafe.v
NfnlMsg.v
Nfnl.v
NfnlProps.v
MnlSocket.v
CtQuery.v
CtQueryProps.v
CDouble.v
CText.v
CDoubleProps.v
MnlPrint.v
CtSnprintf.v
CtSnprintfProps.v
LinuxList.v
LinuxHlist.v
Chain.v
Rtnl.v
NfqHandle.v
NfqPacket.v
NfqHandleProps.v
CJson.v
CJsonParse.v
CJsonPrint.v
CJsonPrintProps.v
CJsonRoundTrip.v
CJsonHeap.v
CJsonHeapProps.v
CJsonTree.v
CJsonMinify.v
