(* ===== verification/Prelude.v ===== *)
(** * Verification of the C code of net-policy

    net-policy classifies and tracks the connections of a host.  Its C code is
    the netlink stack it talks to the kernel with: libmnl (messages, attributes,
    dispatch, sockets), libnetfilter_conntrack (the conntrack object and its
    conversion to and from messages and text), libnfnetlink (handles,
    subsystems, routing helpers) and libnetfilter_queue (packet queues), and two
    parsers (http_parser.c and cjson.c).  C++ and Rust parts sit on top of it.

    ** How the parts work together

    A client creates a conntrack object (api.c), sets attributes (setter.c),
    completes or undoes tuples (objopt.c) and has the object written into a
    message (build_mnl.c) with the attribute writers of libmnl (attr.c), which
    is sent through a handle of libnfnetlink (conn-main.c, libnfnetlink.c).  In
    the other direction a receive buffer is cut into messages
    (libmnl/callback.c, libnfnetlink.c), each is handed to the callback of its
    subsystem and type (callback.c), and parsed attribute by attribute
    (parse_mnl.c) into an object, which the client reads (getter.c), compares
    (compare.c), copies (copy.c), clones (api.c) and prints (snprintf*.c).
    Packets for user space take the same way through the queue handle
    (libnetfilter_queue.c); verdicts go back as messages.

    ** Memory and effects

    CMonad.v: a call runs in the monad [M] over a [world] of the netlink buffer
    (a list of bytes; a [struct nlmsghdr *] or [struct nlattr *] is an offset in
    it), [errno] and the outcomes of the coming allocations.  A call ends in
    [Ok], in [Ub] (a read or write outside of the object a pointer designates),
    in [Exit] (a failed assertion, [abi_breakage]) or in [Fuel].  Integers are
    [Z] with their width written out ([wrap], [sint]); the host is
    little-endian, so that the byte order functions are byte swaps.  A C union is
    its bytes, which makes its members alias.  Linked structures (JSON items,
    queue handles, routing handlers, the lists of linux_list.h, the blocks of
    conntrack objects) are heaps with addresses, so that aliasing, dangling
    pointers and second releases are visible.  System calls, callbacks of the
    client, the clock and the locale are parameters; what the theorems need of
    them are named hypotheses with a witness.

    ** Fuel and bounds

    The loops over attributes and messages take fuel: every attribute that
    passes [mnl_attr_ok] is at least four bytes long, so [loop_fuel len], the
    number of remaining bytes plus one, is never used up (nfct_nlmsg_parse_safe
    excludes [Fuel]).  The loop of [mnl_cb_run] gets its fuel from the caller,
    because it can fail to end (mnl_cb_run_diverges); mnl_cb_run_messages gives
    the fuel that is enough for well-formed messages.  The loops of the HTTP
    parser are bounded by the length of the data and the number of times one
    byte is looked at again by the longest chain of states that do it, 8; http_parser_execute_safe
    excludes [Fuel].  The JSON parser recurses to the nesting limit
    ([nesting_fuel], the limit plus one) and reads each character at most once
    ([text_fuel]); cJSON_ParseWithOpts_safe excludes [Fuel].  Walks over linked
    structures take the number of live nodes, which only a cycle exhausts; the
    theorems on lists and trees exclude [Fuel], and register_twice_diverges shows
    a cycle that the code can make.

    ** Files

    Foundations:
    - Prelude.v: machine integers, bytes, slices and splices of byte lists.
    - CMonad.v: the monad and its weakest preconditions.
    - CDouble.v, CDoubleProps.v, CText.v: doubles, strtod and printf as the code
      uses them, and formatted output into a buffer.
    - LinuxList.v, LinuxHlist.v: linux_list.h.  Chain.v: singly linked chains,
      a class with two instances (queue handles, routing handlers).

    libmnl:
    - MnlMsg.v: mnlmsg.c; message headers, iteration, batches.  MnlPrint.v: the
      dump of messages.
    - MnlAttr.v: attr.c; attributes: access, validation, iteration, writing.
    - Tlv.v, TlvParse.v, TlvTable.v: the abstract view, a forest of typed
      attributes; when a buffer holds one; what the writers, the iterators and
      the tables of parsed attributes do in these terms.
    - MnlCallback.v: callback.c; [mnl_cb_run].  MnlSocket.v: socket.c.

    libnetfilter_conntrack:
    - Bitops.v: internal/bitops.h and the bitmask object of api.c; a bit outside of
      its array is a fault.
    - CtObject.v: internal/object.h; [struct nf_conntrack] and the attributes.
    - CtSetter.v, CtGetter.v, CtCopy.v, CtCompare.v, CtObjopt.v: setter.c,
      getter.c, copy.c, compare.c and objopt.c, one definition per function and
      the tables that dispatch to them.
    - CtApi.v: the object functions of api.c on values.  CtMemory.v: the same
      functions on memory, with the blocks that objects own, and the release of
      objects; CtMemoryProps.v: ownership.
    - CtAttrs.v, CtCopyProps.v: properties of set, get, copy and clone.
    - Ctnl.v: linux_nfnetlink_conntrack.h and its companions.
    - CtBuild.v: build_mnl.c.  CtBuildProps.v: [ct_tree], the attribute forest
      of an object, and the proof that the builder writes it.
    - CtParse.v: parse_mnl.c.  CtParseSafe.v: the parser on arbitrary bytes.
      CtParseTree.v: [tree_parse], the object that a forest describes, and the
      proof that the parser computes it.
    - CtWire.v, CtRoundTrip.v: which attributes a message carries, and the
      round trip from the builder to the parser.
    - CtLabels.v: labels.c, on values.  CtLabelsMem.v: the same on memory, with
      the table of names pointing into the buckets and the release of maps.  CtFilter.v: filter.c and the filters of api.c.
    - CtSnprintf.v, CtSnprintfProps.v: snprintf.c, snprintf_default.c.
    - CtQuery.v, CtQueryProps.v: conn-main.c, callback.c and the handle functions
      of api.c, over libnfnetlink.

    libnfnetlink and libnetfilter_queue:
    - NfnlMsg.v: the attribute writers and readers of libnfnetlink.c.
    - Nfnl.v, NfnlProps.v: handle, subsystems, dispatch and receive loops.
    - Rtnl.v: rtnl.c.
    - NfqMsg.v: libnetfilter_queue/nlmsg.c; messages to and from a queue.
    - NfqHandle.v, NfqPacket.v, NfqHandleProps.v: libnetfilter_queue.c; handles,
      packets and their text.

    Parsers:
    - HttpChar.v, HttpParser.v, HttpParserSafe.v: the tables and the state machine
      of http/http1/http_parser.c, one definition per state, and its invariant.
    - HttpUrl.v, HttpUrlRoundTrip.v: the URL parser of the same file.
    - CJson.v, CJsonParse.v: the parser of cjson.c.  CJsonPrint.v,
      CJsonPrintProps.v: its printer.  CJsonRoundTrip.v: their composition.
    - CJsonHeap.v, CJsonHeapProps.v, CJsonTree.v: the items in memory.
      CJsonMinify.v: [cJSON_Minify].

    ** What the theorems show

    - Conversion: the builder refines [ct_tree], the parser refines
      [tree_parse], and their composition is the identity on the attributes that
      a message carries (build_parse_roundtrip); through a handle and back
      through the dispatch and the callback (query_event_roundtrip,
      conntrack_event_delivered).
    - Safety of parsers on arbitrary bytes: HTTP, URLs, JSON texts and datagrams
      of the routing socket stay inside of their buffers and end.  So do conntrack
      messages in a buffer that ends with a NUL, but for the two attribute types
      that overrun one table, and packets of libnfnetlink, but for those that end
      one byte after a multiple of four where the memory ends; the theorems on
      these state both the safe cases and the faults
      (nfct_nlmsg_parse_safe, nfnl_handle_packet_safe).
    - The object: set and get, independence of attributes, copy of the documented
      groups with all values, clone, comparison against a declarative
      specification, undoing of translations, completion of the reply tuple, and
      the ownership of memory: the functions on memory refine those on values,
      release every block once and lose only what an overriding copy overwrites
      (memory_sessions).  Where the documentation of api.c and the code disagree
      (unsettable attributes, flags of nfct_cmp, output types) the theorems are
      about the calls on which they agree, and separate ones show the difference.
    - Text: what is printed for an object, a packet and a dumped message is the
      text that describes it, cut to the buffer (for objects with IPv6 addresses
      or labels, when the buffer has room to spare; otherwise it can be overrun).
    - libmnl: which function is called with which message of a receive buffer and
      what the run answers ([deliver] over [reaction_to]), validation of
      attributes, the batch state machine, its limit and its contents.
    - libnfnetlink: what is dispatched, what the attribute table holds, and the
      callbacks of a handle over every history of operations, failing ones
      included; which handler of the routing socket gets which message.
    - Queues: messages round trip; the list of queues refines the set of queues
      in every history; a packet reaches the function of its queue.
    - JSON: the printer refines the text of an item, printing then parsing gives
      the item back, children refine lists, deletion frees a tree exactly once,
      duplication copies it, minifying gives the compact text.
    - Lists of linux_list.h refine sequences and leave other lists alone, bitmasks
      refine finite sets; label maps
      and filters after any file or history; reading a label file leaks nothing
      and a map is given back entirely (labelmap_memory).
    - Defects: theorems that show where the code does not do what it means to
      (among others an endless dispatch loop, a batch reset with an overlapping
      memcpy, a clone that loses helper data, a copy that leaks, table overruns,
      a read after the end of a packet, writes after the buffer in the text
      output).

    ** Not modelled

    [nfnl_dump_packet] (prints addresses of the process), [nfct_sizeof] and
    [nfct_maxsize] (constants of the compiler), the macros of linux_list.h that start in the
    middle of a list or serve readers with memory barriers, concurrency (the
    libraries do not synchronise), llhttp (generated) and all code that is not
    C: the daemon, the connection manager, the Rust engines and the gRPC
    interface call these libraries and services outside of the repository. *)
From stdpp Require Export prelude.
From Stdlib Require Export ZArith Lia.
Open Scope Z_scope.

(** * Machine integers *)

(** Value of [z] stored in an unsigned [w]-bit integer. *)
Definition wrap (w z : Z) : Z := z mod 2 ^ w.

(** Value of [z] stored in a two's-complement [w]-bit integer. *)
Definition sint (w z : Z) : Z :=
  let u := z mod 2 ^ w in if u <? 2 ^ (w - 1) then u else u - 2 ^ w.

Lemma wrap_small w z : 0 <= z < 2 ^ w -> wrap w z = z.
Proof. intros H. by apply Z.mod_small. Qed.

Lemma wrap_range w z : 0 <= w -> 0 <= wrap w z < 2 ^ w.
Proof. intros H. apply Z.mod_pos_bound. lia. Qed.

(** The 32-bit two's-complement reading of an unsigned word. *)
Lemma sint32_cases z : 0 <= z < 2 ^ 32 -> sint 32 z = if z <? 2 ^ 31 then z else z - 2 ^ 32.
Proof. intros H. unfold sint. by rewrite Z.mod_small. Qed.

(** Testing a word with a one-bit mask. *)
Lemma land_mask_testbit j x : 0 <= j -> negb (Z.land (Z.shiftl 1 j) x =? 0) = Z.testbit x j.
Proof.
  intros Hj. destruct (Z.testbit x j) eqn:E.
  - apply negb_true_iff, Z.eqb_neq. intros H0.
    assert (Hb : Z.testbit (Z.land (Z.shiftl 1 j) x) j = true).
    { rewrite Z.land_spec, Z.shiftl_spec, Z.sub_diag, E by lia. done. }
    by rewrite H0, Z.bits_0 in Hb.
  - apply negb_false_iff, Z.eqb_eq, Z.bits_inj_0. intros k.
    rewrite Z.land_spec. destruct (decide (k = j)) as [->|Hne]; [by rewrite E, andb_false_r|].
    destruct (decide (k < 0)); [by rewrite (Z.testbit_neg_r _ k)|].
    rewrite Z.shiftl_spec by lia.
    destruct (decide (k < j)); [by rewrite (Z.testbit_neg_r 1) by lia|].
    rewrite Z.bits_above_log2 by (cbn; lia). done.
Qed.

Lemma sint_small w z : 0 < w -> - 2 ^ (w - 1) <= z < 2 ^ (w - 1) -> sint w z = z.
Proof.
  intros Hw Hz. unfold sint.
  assert (2 ^ w = 2 * 2 ^ (w - 1)) as Hp
    by (rewrite <- Z.pow_succ_r by lia; f_equal; lia).
  destruct (Z.ltb_spec z 0).
  - assert (z mod 2 ^ w = z + 2 ^ w) as ->.
    { symmetry. apply Z.mod_unique_pos with (q := -1); lia. }
    case_match eqn:E; [apply Z.ltb_lt in E; lia | lia].
  - rewrite Z.mod_small by lia. case_match eqn:E; [done | apply Z.ltb_ge in E; lia].
Qed.

(** * Bytes and little-endian encodings

    The program runs on a little-endian host (x86-64): the in-memory form of an
    [n]-byte integer is [le_enc n], and [htons], [htonl], [be64toh] and their
    inverses are byte swaps. *)

Definition byte_ok (b : Z) : Prop := 0 <= b < 256.

(** Decision procedure for concrete byte strings. *)
Definition bytes_okb (m : list Z) : bool := forallb (fun b => (0 <=? b) && (b <? 256)) m.

Lemma bytes_okb_ok m : bytes_okb m = true -> Forall byte_ok m.
Proof.
  unfold bytes_okb. rewrite forallb_forall. intros H. apply Forall_forall. intros x Hx.
  apply list_elem_of_In, H, andb_true_iff in Hx as [?%Z.leb_le ?%Z.ltb_lt].
  unfold byte_ok. lia.
Qed.

Fixpoint le_enc (n : nat) (z : Z) : list Z :=
  match n with
  | O => []
  | S n => z mod 256 :: le_enc n (z / 256)
  end.

Fixpoint le_dec (bs : list Z) : Z :=
  match bs with
  | [] => 0
  | b :: bs => b + 256 * le_dec bs
  end.

Definition bswap (n : nat) (z : Z) : Z := le_dec (rev (le_enc n z)).
Definition ntohs : Z -> Z := bswap 2.
Definition htons : Z -> Z := bswap 2.
Definition ntohl : Z -> Z := bswap 4.
Definition htonl : Z -> Z := bswap 4.
Definition be64toh : Z -> Z := bswap 8.

Lemma length_le_enc n z : length (le_enc n z) = n.
Proof. revert z. induction n as [|n IH]; intros z; simpl; [done | by rewrite IH]. Qed.

Lemma le_enc_bytes n z : Forall byte_ok (le_enc n z).
Proof.
  revert z. induction n as [|n IH]; intros z; simpl; constructor; auto.
  unfold byte_ok. by apply Z.mod_pos_bound.
Qed.

Lemma pow256_S n : 2 ^ (8 * Z.of_nat (S n)) = 256 * 2 ^ (8 * Z.of_nat n).
Proof.
  replace (8 * Z.of_nat (S n)) with (8 + 8 * Z.of_nat n) by lia.
  rewrite Z.pow_add_r by lia. reflexivity.
Qed.

Lemma le_dec_enc n z : le_dec (le_enc n z) = z mod 2 ^ (8 * Z.of_nat n).
Proof.
  revert z. induction n as [|n IH]; intros z; simpl le_enc; simpl le_dec.
  - by rewrite Z.mod_1_r.
  - rewrite IH, pow256_S, Z.rem_mul_r by lia. lia.
Qed.

Lemma le_dec_enc_small n z : 0 <= z < 2 ^ (8 * Z.of_nat n) -> le_dec (le_enc n z) = z.
Proof. intros H. rewrite le_dec_enc. by apply Z.mod_small. Qed.

Lemma le_enc_dec bs : Forall byte_ok bs -> le_enc (length bs) (le_dec bs) = bs.
Proof.
  induction 1 as [|b bs Hb Hbs IH]; simpl; [done |].
  unfold byte_ok in Hb. f_equal.
  - rewrite (Z.mul_comm 256), Z.mod_add by lia. by apply Z.mod_small.
  - replace ((b + 256 * le_dec bs) / 256) with (le_dec bs); [done |].
    apply Z.div_unique_pos with (r := b); lia.
Qed.

Lemma le_dec_range bs :
  Forall byte_ok bs -> 0 <= le_dec bs < 2 ^ (8 * Z.of_nat (length bs)).
Proof.
  induction 1 as [|b bs Hb Hbs IH]; [done |].
  simpl le_dec. simpl length. rewrite pow256_S. unfold byte_ok in Hb. lia.
Qed.

Lemma le_enc_mod n z : le_enc n (z mod 2 ^ (8 * Z.of_nat n)) = le_enc n z.
Proof.
  rewrite <- le_dec_enc. rewrite <- (length_le_enc n z) at 1.
  apply le_enc_dec, le_enc_bytes.
Qed.

Lemma bswap_range n z : 0 <= bswap n z < 2 ^ (8 * Z.of_nat n).
Proof.
  unfold bswap. pose proof (le_dec_range (rev (le_enc n z))) as H.
  rewrite length_rev, length_le_enc in H. apply H.
  apply Forall_rev, le_enc_bytes.
Qed.

(** Swapping bytes twice gives the value back. *)
Lemma bswap_invol n z : 0 <= z < 2 ^ (8 * Z.of_nat n) -> bswap n (bswap n z) = z.
Proof.
  intros Hz. unfold bswap at 1. unfold bswap.
  assert (le_enc n (le_dec (rev (le_enc n z))) = rev (le_enc n z)) as ->.
  { rewrite <- (length_le_enc n z) at 1. rewrite <- length_rev.
    apply le_enc_dec, Forall_rev, le_enc_bytes. }
  by rewrite rev_involutive, le_dec_enc_small.
Qed.

(** * Byte arrays addressed by [Z] offsets *)

Definition zlen {A} (l : list A) : Z := Z.of_nat (length l).

(** [n] bytes from offset [o]. *)
Definition slice (o n : Z) (m : list Z) : list Z :=
  take (Z.to_nat n) (drop (Z.to_nat o) m).

(** [m] with the bytes from offset [o] replaced by [bs]. *)
Definition splice (o : Z) (bs m : list Z) : list Z :=
  take (Z.to_nat o) m ++ bs ++ drop (Z.to_nat o + length bs) m.

Definition in_range (o n : Z) (m : list Z) : bool :=
  (0 <=? o) && (0 <=? n) && (o + n <=? zlen m).

Lemma in_range_true o n m :
  in_range o n m = true <-> 0 <= o /\ 0 <= n /\ o + n <= zlen m.
Proof. unfold in_range. rewrite !andb_true_iff, !Z.leb_le. lia. Qed.

Lemma zlen_nonneg {A} (l : list A) : 0 <= zlen l.
Proof. unfold zlen. lia. Qed.

Lemma zlen_nil {A} : zlen (@nil A) = 0.
Proof. done. Qed.

Lemma zlen_cons {A} (x : A) l : zlen (x :: l) = 1 + zlen l.
Proof. unfold zlen. simpl length. lia. Qed.

Lemma zlen_app {A} (l k : list A) : zlen (l ++ k) = zlen l + zlen k.
Proof. unfold zlen. rewrite length_app. lia. Qed.

Lemma zlen_le_enc n z : zlen (le_enc n z) = Z.of_nat n.
Proof. unfold zlen. by rewrite length_le_enc. Qed.

Lemma zlen_replicate {A} n (x : A) : zlen (replicate n x) = Z.of_nat n.
Proof. unfold zlen. by rewrite length_replicate. Qed.

Lemma length_splice o bs m :
  0 <= o -> o + zlen bs <= zlen m -> length (splice o bs m) = length m.
Proof.
  unfold splice, zlen. intros ? ?. rewrite !length_app, length_take, length_drop. lia.
Qed.

Lemma zlen_splice o bs m :
  0 <= o -> o + zlen bs <= zlen m -> zlen (splice o bs m) = zlen m.
Proof. intros. unfold zlen at 1. by rewrite length_splice. Qed.

Lemma zlen_slice o n m :
  0 <= o -> 0 <= n -> o + n <= zlen m -> zlen (slice o n m) = n.
Proof. unfold slice, zlen. intros ? ? ?. rewrite length_take, length_drop. lia. Qed.

(** Byte [i] of a slice is byte [o + i] of the array. *)
Lemma lookup_slice o n m (i : nat) :
  0 <= o -> Z.of_nat i < n -> slice o n m !! i = m !! (Z.to_nat o + i)%nat.
Proof.
  intros ? ?. unfold slice. rewrite lookup_take_lt by lia. apply lookup_drop.
Qed.

Lemma lookup_splice_in o bs m (i : nat) :
  0 <= o -> o + zlen bs <= zlen m -> o <= Z.of_nat i < o + zlen bs ->
  splice o bs m !! i = bs !! (i - Z.to_nat o)%nat.
Proof.
  unfold splice, zlen. intros ? ? ?.
  rewrite lookup_app_r by (rewrite length_take; lia).
  rewrite length_take. rewrite lookup_app_l by lia. f_equal. lia.
Qed.

Lemma lookup_splice_out o bs m (i : nat) :
  0 <= o -> o + zlen bs <= zlen m ->
  Z.of_nat i < o \/ o + zlen bs <= Z.of_nat i ->
  splice o bs m !! i = m !! i.
Proof.
  unfold splice, zlen. intros ? ? [?|?].
  - rewrite lookup_app_l by (rewrite length_take; lia). apply lookup_take_lt. lia.
  - rewrite lookup_app_r by (rewrite length_take; lia).
    rewrite lookup_app_r by (rewrite length_take; lia).
    rewrite lookup_drop, length_take. f_equal. lia.
Qed.

(** Two slices are equal when the arrays agree on the bytes read. *)
Lemma slice_ext o n m m' :
  0 <= o ->
  (forall i : nat, o <= Z.of_nat i < o + n -> m !! i = m' !! i) ->
  slice o n m = slice o n m'.
Proof.
  intros Ho H. apply list_eq. intros i.
  destruct (decide (Z.of_nat i < n)).
  - rewrite !lookup_slice by lia. apply H. lia.
  - unfold slice. rewrite !lookup_take_ge; [done | lia | lia].
Qed.

Lemma slice_all m : slice 0 (zlen m) m = m.
Proof. unfold slice, zlen. rewrite Nat2Z.id. apply firstn_all. Qed.

Lemma slice_splice_eq o bs m :
  0 <= o -> o + zlen bs <= zlen m -> slice o (zlen bs) (splice o bs m) = bs.
Proof.
  intros ? ?. apply list_eq. intros i.
  destruct (decide (Z.of_nat i < zlen bs)).
  - rewrite lookup_slice by lia. rewrite lookup_splice_in by lia. f_equal. lia.
  - unfold slice. rewrite lookup_take_ge by lia.
    symmetry. apply lookup_ge_None. unfold zlen in *. lia.
Qed.

Lemma slice_splice_ne o bs o' n m :
  0 <= o -> o + zlen bs <= zlen m -> 0 <= o' -> o' + n <= o \/ o + zlen bs <= o' ->
  slice o' n (splice o bs m) = slice o' n m.
Proof.
  intros ? ? ? ?. apply slice_ext; [lia |]. intros i ?.
  apply lookup_splice_out; lia.
Qed.

Lemma splice_bytes o bs m :
  Forall byte_ok bs -> Forall byte_ok m -> Forall byte_ok (splice o bs m).
Proof.
  intros. unfold splice. auto using Forall_app_2, Forall_take, Forall_drop.
Qed.

Lemma slice_bytes o n m : Forall byte_ok m -> Forall byte_ok (slice o n m).
Proof. intros. unfold slice. auto using Forall_take, Forall_drop. Qed.

(** Taking [k] bytes off a slice. *)
Lemma slice_split o n k (m : list Z) :
  0 <= o -> 0 <= k <= n -> o + n <= zlen m -> slice o n m = slice o k m ++ slice (o + k) (n - k) m.
Proof.
  intros. unfold slice. rewrite Z2Nat.inj_add, Z2Nat.inj_sub by lia. rewrite <- drop_drop.
  rewrite <- (take_drop (Z.to_nat k) (take (Z.to_nat n) (drop (Z.to_nat o) m))) at 1.
  rewrite take_take, Nat.min_l by lia. f_equal. rewrite drop_take_drop || rewrite skipn_firstn_comm. done.
Qed.

Lemma slice_nil o n (m : list Z) : n <= 0 -> slice o n m = [].
Proof. intros. unfold slice. by replace (Z.to_nat n) with 0%nat by lia. Qed.

(** An invariant of every step is an invariant of every run. *)
Lemma rtc_preserves {A} (R : relation A) (P : A -> Prop) :
  (forall x y, R x y -> P x -> P y) -> forall x y, rtc R x y -> P x -> P y.
Proof. intros HR x y H. induction H; eauto. Qed.

Create Rewrite HintDb zlen.
#[export] Hint Rewrite @zlen_nil @zlen_cons @zlen_app zlen_le_enc @zlen_replicate : zlen.

(** [zl] normalises lengths of byte arrays and closes linear side conditions. *)
Ltac zl := autorewrite with zlen in *; try lia.

#[global] Arguments le_enc : simpl never.
#[global] Arguments le_dec : simpl never.
#[global] Arguments slice : simpl never.
#[global] Arguments splice : simpl never.
#[global] Arguments zlen : simpl never.
