(* ===== verification/CMonad.v ===== *)
(** The effects of the modelled C code: a state monad over the process state a
    function of the libraries can observe (the netlink message buffer, [errno]
    and the allocator), with the four ways a call can end, and a weakest
    precondition calculus for it. *)
From S2P Require Import Prelude.

(** * Outcomes *)

(** [Ok a] the call returned [a]; [Ub] it accessed memory outside the object a
    pointer designates; [Exit] it terminated the process ([abi_breakage],
    [assert]); [Fuel] a loop did not end within its fuel. *)
Inductive res (A : Type) : Type :=
| Ok (a : A)
| Ub
| Exit
| Fuel.
Arguments Ok {A} a.
Arguments Ub {A}.
Arguments Exit {A}.
Arguments Fuel {A}.

(** * The process state *)

Record world := mk_world {
  w_mem : list Z;      (** bytes of the netlink buffer; a pointer is an offset in it *)
  w_errno : Z;
  w_alloc : list bool  (** outcome of each coming allocation; succeeds when exhausted *)
}.

Definition with_mem (m : list Z) (w : world) : world :=
  mk_world m (w_errno w) (w_alloc w).
Definition with_errno (e : Z) (w : world) : world :=
  mk_world (w_mem w) e (w_alloc w).
Definition with_alloc (l : list bool) (w : world) : world :=
  mk_world (w_mem w) (w_errno w) l.

(** * The monad *)

Definition M (A : Type) : Type := world -> res (A * world).

Definition ret {A} (a : A) : M A := fun w => Ok (a, w).

Definition bind {A B} (c : M A) (k : A -> M B) : M B := fun w =>
  match c w with
  | Ok (a, w') => k a w'
  | Ub => Ub
  | Exit => Exit
  | Fuel => Fuel
  end.

Definition ub {A} : M A := fun _ => Ub.
Definition exit {A} : M A := fun _ => Exit.
Definition no_fuel {A} : M A := fun _ => Fuel.

Declare Scope c_scope.
Delimit Scope c_scope with c.
Notation "'let!' x := c 'in' k" := (bind c (fun x => k))
  (at level 10, x pattern, c at level 200, k at level 200) : c_scope.
Notation "c ;;; k" := (bind c (fun _ => k))
  (at level 199, k at level 200, right associativity) : c_scope.
Open Scope c_scope.

(** [errno = e]. *)
Definition set_errno (e : Z) : M unit := fun w => Ok (tt, with_errno e w).

(** [malloc]/[calloc]/[strdup]: whether the allocation succeeds. *)
Definition malloc_ok : M bool := fun w =>
  match w_alloc w with
  | [] => Ok (true, w)
  | b :: l => Ok (b, with_alloc l w)
  end.

(** [memcpy(dst, buf + o, n)] out of the message buffer. *)
Definition load_bytes (o n : Z) : M (list Z) := fun w =>
  if in_range o n (w_mem w) then Ok (slice o n (w_mem w), w) else Ub.

(** [memcpy(buf + o, bs, zlen bs)] into the message buffer. *)
Definition store_bytes (o : Z) (bs : list Z) : M unit := fun w =>
  if in_range o (zlen bs) (w_mem w)
  then Ok (tt, with_mem (splice o bs (w_mem w)) w) else Ub.

(** The [n]-byte unsigned integer stored at offset [o] of [m]. *)
Definition rd (n : nat) (o : Z) (m : list Z) : Z := le_dec (slice o (Z.of_nat n) m).

(** Reading and writing an [n]-byte unsigned integer through a pointer. *)
Definition load (n : nat) (o : Z) : M Z :=
  let! bs := load_bytes o (Z.of_nat n) in ret (le_dec bs).
Definition store (n : nat) (o v : Z) : M unit := store_bytes o (le_enc n v).

Definition load8 := load 1.
Definition load16 := load 2.
Definition load32 := load 4.
Definition load64 := load 8.
Definition store16 := store 2.
Definition store32 := store 4.

(** * errno values used by the libraries (asm-generic/errno.h) *)

Definition ESRCH : Z := 3.
Definition EINTR : Z := 4.
Definition EINVAL : Z := 22.
Definition ERANGE : Z := 34.
Definition ENODATA : Z := 61.
Definition EPROTO : Z := 71.
Definition EBADMSG : Z := 74.
Definition EOPNOTSUPP : Z := 95.
Definition ENOTSUP : Z := 95.
Definition EBUSY : Z := 16.

(** * Weakest preconditions

    [wp E c Q w]: run from [w], [c] returns [a] in a state [w'] with [Q a w'],
    or, when [E] holds, terminates the process; it never faults and never runs
    out of fuel. [E := False] is total correctness, [E := True] safety. *)

Definition wp {A} (E : Prop) (c : M A) (Q : A -> world -> Prop) (w : world) : Prop :=
  match c w with
  | Ok (a, w') => Q a w'
  | Exit => E
  | Ub | Fuel => False
  end.

Section Wp.
Context {A B : Type} (E : Prop).

Lemma wp_ret (a : A) (Q : A -> world -> Prop) w : Q a w -> wp E (ret a) Q w.
Proof. done. Qed.

Lemma wp_bind (c : M A) (k : A -> M B) Q w :
  wp E c (fun a w' => wp E (k a) Q w') w -> wp E (bind c k) Q w.
Proof. unfold wp, bind. by destruct (c w) as [[? ?]| | |]. Qed.

Lemma wp_bind_inv (c : M A) (k : A -> M B) Q w :
  wp E (bind c k) Q w -> wp E c (fun a w' => wp E (k a) Q w') w.
Proof. unfold wp, bind. by destruct (c w) as [[? ?]| | |]. Qed.

Lemma wp_mono (c : M A) (P Q : A -> world -> Prop) w :
  wp E c P w -> (forall a w', P a w' -> Q a w') -> wp E c Q w.
Proof. unfold wp. destruct (c w) as [[? ?]| | |]; auto. Qed.

Lemma wp_and (c : M A) (P Q : A -> world -> Prop) w :
  wp E c P w -> wp E c Q w -> wp E c (fun a w' => P a w' /\ Q a w') w.
Proof. unfold wp. destruct (c w) as [[? ?]| | |]; auto. Qed.

Lemma wp_exit (Q : A -> world -> Prop) w : E -> wp E exit Q w.
Proof. done. Qed.

Lemma wp_weaken (E' : Prop) (c : M A) Q w : (E -> E') -> wp E c Q w -> wp E' c Q w.
Proof. unfold wp. destruct (c w) as [[? ?]| | |]; auto. Qed.
End Wp.

Section WpOps.
Context (E : Prop).

Lemma wp_set_errno e (Q : unit -> world -> Prop) w :
  Q tt (with_errno e w) -> wp E (set_errno e) Q w.
Proof. done. Qed.

Lemma wp_malloc (Q : bool -> world -> Prop) w :
  (forall b l, Q b (with_alloc l w)) -> wp E malloc_ok Q w.
Proof.
  intros H. unfold wp, malloc_ok. destruct w as [m e [|b l]]; simpl in *; apply H.
Qed.

Lemma wp_load_bytes o n (Q : list Z -> world -> Prop) w :
  0 <= o -> 0 <= n -> o + n <= zlen (w_mem w) ->
  Q (slice o n (w_mem w)) w -> wp E (load_bytes o n) Q w.
Proof.
  intros ? ? ? HQ. unfold wp, load_bytes.
  by rewrite (proj2 (in_range_true o n (w_mem w))).
Qed.

Lemma wp_load n o (Q : Z -> world -> Prop) w :
  0 <= o -> o + Z.of_nat n <= zlen (w_mem w) ->
  Q (rd n o (w_mem w)) w -> wp E (load n o) Q w.
Proof.
  intros ? ? HQ. unfold load. apply wp_bind, wp_load_bytes; auto with lia.
Qed.

Lemma load_ok n o w :
  0 <= o -> o + Z.of_nat n <= zlen (w_mem w) -> load n o w = Ok (rd n o (w_mem w), w).
Proof.
  intros. unfold load, bind, load_bytes.
  by rewrite (proj2 (in_range_true o (Z.of_nat n) (w_mem w))) by lia.
Qed.

(** A load that returns did not fault. *)
Lemma load_inv n o w v w' :
  load n o w = Ok (v, w') ->
  w' = w /\ v = rd n o (w_mem w) /\ 0 <= o /\ o + Z.of_nat n <= zlen (w_mem w).
Proof.
  unfold load, bind, load_bytes.
  destruct (in_range o (Z.of_nat n) (w_mem w)) eqn:Hr; [| done].
  apply in_range_true in Hr. unfold ret. intros [= <- <-]. unfold rd. auto with lia.
Qed.

Lemma wp_store_bytes o bs (Q : unit -> world -> Prop) w :
  0 <= o -> o + zlen bs <= zlen (w_mem w) ->
  Q tt (with_mem (splice o bs (w_mem w)) w) -> wp E (store_bytes o bs) Q w.
Proof.
  intros ? ? HQ. unfold wp, store_bytes.
  pose proof (zlen_nonneg bs).
  by rewrite (proj2 (in_range_true o (zlen bs) (w_mem w))).
Qed.
End WpOps.

(** * Integers in the buffer *)

(** Every byte of the buffer is a byte value. *)
Definition mem_ok (w : world) : Prop := Forall byte_ok (w_mem w).

Lemma rd_range n o m :
  Forall byte_ok m -> 0 <= o -> o + Z.of_nat n <= zlen m ->
  0 <= rd n o m < 2 ^ (8 * Z.of_nat n).
Proof.
  intros Hm ? ?. unfold rd.
  assert (length (slice o (Z.of_nat n) m) = n) as Hl.
  { pose proof (zlen_slice o (Z.of_nat n) m). unfold zlen in *. lia. }
  rewrite <- Hl at 3. apply le_dec_range, slice_bytes, Hm.
Qed.

Lemma rd_splice_eq n o v m :
  0 <= o -> o + Z.of_nat n <= zlen m ->
  rd n o (splice o (le_enc n v) m) = wrap (8 * Z.of_nat n) v.
Proof.
  intros ? ?. unfold rd, wrap. rewrite <- le_dec_enc. f_equal.
  rewrite <- (zlen_le_enc n v) at 1. apply slice_splice_eq; zl.
Qed.

Lemma rd_splice_ne n o o' bs m :
  0 <= o -> o + zlen bs <= zlen m -> 0 <= o' ->
  o' + Z.of_nat n <= o \/ o + zlen bs <= o' ->
  rd n o' (splice o bs m) = rd n o' m.
Proof. intros. unfold rd. by rewrite slice_splice_ne. Qed.

(** Running a computation whose weakest precondition is known. *)
Lemma wp_run {A} (c : M A) Q w :
  wp False c Q w -> exists a w', c w = Ok (a, w') /\ Q a w'.
Proof. unfold wp. destruct (c w) as [[a w']| | |]; naive_solver. Qed.

(** [safe c w]: running [c] from [w] never faults and never diverges. *)
Definition safe {A} (c : M A) (w : world) : Prop := wp True c (fun _ _ => True) w.

Lemma safe_not_ub {A} (c : M A) w : safe c w -> c w <> Ub /\ c w <> Fuel.
Proof. unfold safe, wp. by destruct (c w) as [[a w']| | |]. Qed.

(** [wps] runs one step of the calculus. *)
Ltac wps :=
  lazymatch goal with
  | |- wp _ (bind _ _) _ _ => apply wp_bind
  | |- wp _ (ret _) _ _ => apply wp_ret
  | |- wp _ (set_errno _) _ _ => apply wp_set_errno
  | |- wp _ malloc_ok _ _ => apply wp_malloc; intros ? ?
  | |- wp _ exit _ _ => apply wp_exit
  end.
