(* ===== verification/MnlMsg.v ===== *)
(** libmnl/mnlmsg.c: netlink message headers, message iteration and batches.

    A [struct nlmsghdr *] is the offset of the header in the message buffer. *)
From S2P Require Import Prelude CMonad.

(** * Constants of libmnl.h and netlink.h *)

Definition MNL_ALIGNTO : Z := 4.

(** [MNL_ALIGN(len)] computed in a [w]-bit unsigned type: 32 for [nlmsg_len] and
    promoted [nla_len] values, 64 for [size_t]. *)
Definition MNL_ALIGN (w len : Z) : Z :=
  Z.land (wrap w (len + MNL_ALIGNTO - 1)) (wrap w (Z.lnot (MNL_ALIGNTO - 1))).

Definition sizeof_nlmsghdr : Z := 16.
Definition MNL_NLMSG_HDRLEN : Z := MNL_ALIGN 64 sizeof_nlmsghdr.

Definition NLM_F_REQUEST : Z := 1.
Definition NLM_F_MULTI : Z := 2.
Definition NLM_F_ACK : Z := 4.
Definition NLM_F_ECHO : Z := 8.
Definition NLM_F_DUMP_INTR : Z := 16.
Definition NLM_F_ROOT : Z := 0x100.
Definition NLM_F_MATCH : Z := 0x200.
Definition NLM_F_DUMP : Z := Z.lor NLM_F_ROOT NLM_F_MATCH.
Definition NLM_F_EXCL : Z := 0x200.
Definition NLM_F_CREATE : Z := 0x400.

Definition NLMSG_NOOP : Z := 1.
Definition NLMSG_ERROR : Z := 2.
Definition NLMSG_DONE : Z := 3.
Definition NLMSG_OVERRUN : Z := 4.
Definition NLMSG_MIN_TYPE : Z := 0x10.

(** * struct nlmsghdr *)

Definition nlmsg_len (nlh : Z) : M Z := load32 nlh.
Definition nlmsg_type (nlh : Z) : M Z := load16 (nlh + 4).
Definition nlmsg_flags (nlh : Z) : M Z := load16 (nlh + 6).
Definition nlmsg_seq (nlh : Z) : M Z := load32 (nlh + 8).
Definition nlmsg_pid (nlh : Z) : M Z := load32 (nlh + 12).

Definition set_nlmsg_len (nlh v : Z) : M unit := store32 nlh v.
Definition set_nlmsg_type (nlh v : Z) : M unit := store16 (nlh + 4) v.
Definition set_nlmsg_flags (nlh v : Z) : M unit := store16 (nlh + 6) v.
Definition set_nlmsg_seq (nlh v : Z) : M unit := store32 (nlh + 8) v.

(** * Message helpers *)

Definition mnl_nlmsg_size (len : Z) : Z := wrap 64 (len + MNL_NLMSG_HDRLEN).

Definition mnl_nlmsg_get_payload_len (nlh : Z) : M Z :=
  let! l := nlmsg_len nlh in ret (wrap 64 (l - MNL_NLMSG_HDRLEN)).

Definition mnl_nlmsg_put_header (buf : Z) : M Z :=
  let len := MNL_ALIGN 64 sizeof_nlmsghdr in
  store_bytes buf (replicate (Z.to_nat len) 0) ;;;
  set_nlmsg_len buf len ;;;
  ret buf.

Definition mnl_nlmsg_put_extra_header (nlh size : Z) : M Z :=
  let! l := nlmsg_len nlh in
  let ptr := nlh + l in
  let len := MNL_ALIGN 64 size in
  set_nlmsg_len nlh (wrap 32 (l + len)) ;;;
  store_bytes ptr (replicate (Z.to_nat len) 0) ;;;
  ret ptr.

Definition mnl_nlmsg_get_payload (nlh : Z) : Z := nlh + MNL_NLMSG_HDRLEN.

Definition mnl_nlmsg_get_payload_offset (nlh offset : Z) : Z :=
  nlh + MNL_NLMSG_HDRLEN + MNL_ALIGN 64 offset.

Definition mnl_nlmsg_ok (nlh len : Z) : M bool :=
  if sizeof_nlmsghdr <=? len then
    let! l := nlmsg_len nlh in
    ret ((sizeof_nlmsghdr <=? l) && (sint 32 l <=? len))
  else ret false.

(** Returns the next header and the remaining length. *)
Definition mnl_nlmsg_next (nlh len : Z) : M (Z * Z) :=
  let! l := nlmsg_len nlh in
  let len' := sint 32 (len - MNL_ALIGN 32 l) in
  ret (nlh + MNL_ALIGN 32 l, len').

Definition mnl_nlmsg_get_payload_tail (nlh : Z) : M Z :=
  let! l := nlmsg_len nlh in ret (nlh + MNL_ALIGN 32 l).

Definition mnl_nlmsg_seq_ok (nlh seq : Z) : M bool :=
  let! s := nlmsg_seq nlh in
  ret (if negb (s =? 0) && negb (seq =? 0) then s =? seq else true).

Definition mnl_nlmsg_portid_ok (nlh portid : Z) : M bool :=
  let! p := nlmsg_pid nlh in
  ret (if negb (p =? 0) && negb (portid =? 0) then p =? portid else true).

(** * Message batches *)

Record mnl_nlmsg_batch := mk_batch {
  b_buf : Z;
  b_limit : Z;
  b_buflen : Z;
  b_cur : Z;
  b_overflow : bool
}.

Definition mnl_nlmsg_batch_start (buf limit : Z) : M (option mnl_nlmsg_batch) :=
  let! ok := malloc_ok in
  if ok : bool then ret (Some (mk_batch buf limit 0 buf false)) else ret None.

Definition mnl_nlmsg_batch_next (b : mnl_nlmsg_batch) : M (bool * mnl_nlmsg_batch) :=
  let nlh := b_cur b in
  let! l := nlmsg_len nlh in
  if b_limit b <? wrap 64 (b_buflen b + l)
  then ret (false, mk_batch (b_buf b) (b_limit b) (b_buflen b) (b_cur b) true)
  else ret (true, mk_batch (b_buf b) (b_limit b) (wrap 64 (b_buflen b + l))
                           (b_buf b + b_buflen b + l) (b_overflow b)).

(** [memcpy]: the two regions must not overlap. *)
Definition memcpy_buf (dst src n : Z) : M unit :=
  let! bs := load_bytes src n in
  if (0 <? n) && (Z.abs (dst - src) <? n) then ub else store_bytes dst bs.

Definition mnl_nlmsg_batch_reset (b : mnl_nlmsg_batch) : M mnl_nlmsg_batch :=
  if b_overflow b then
    let nlh := b_cur b in
    let! l := nlmsg_len nlh in
    memcpy_buf (b_buf b) (b_cur b) l ;;;
    let! l' := nlmsg_len nlh in
    ret (mk_batch (b_buf b) (b_limit b) l' (b_buf b + l') false)
  else ret (mk_batch (b_buf b) (b_limit b) 0 (b_buf b) (b_overflow b)).

Definition mnl_nlmsg_batch_size (b : mnl_nlmsg_batch) : Z := b_buflen b.
Definition mnl_nlmsg_batch_head (b : mnl_nlmsg_batch) : Z := b_buf b.
Definition mnl_nlmsg_batch_current (b : mnl_nlmsg_batch) : Z := b_cur b.
Definition mnl_nlmsg_batch_is_empty (b : mnl_nlmsg_batch) : bool := b_buflen b =? 0.

(** * Alignment *)

Lemma MNL_ALIGN_eq w len :
  2 <= w -> 0 <= len + 3 < 2 ^ w -> MNL_ALIGN w len = (len + 3) / 4 * 4.
Proof.
  intros Hw Hl. unfold MNL_ALIGN, MNL_ALIGNTO.
  replace (len + 4 - 1) with (len + 3) by lia.
  rewrite wrap_small by lia. unfold wrap.
  rewrite <- Z.land_ones, Z.land_assoc, (Z.land_comm _ (Z.ones w)), Z.land_assoc by lia.
  rewrite (Z.land_comm (Z.ones w)), Z.land_ones, Z.mod_small by lia.
  change (Z.lnot (4 - 1)) with (Z.lnot (Z.ones 2)).
  rewrite <- Z.ldiff_land, Z.ldiff_ones_r, Z.shiftr_div_pow2, Z.shiftl_mul_pow2 by lia.
  reflexivity.
Qed.

(** Rounding up to the next multiple of four. *)
Definition align4 (n : Z) : Z := (n + 3) / 4 * 4.

Lemma align4_spec n : n <= align4 n < n + 4 /\ align4 n mod 4 = 0.
Proof.
  unfold align4. pose proof (Z.div_mod (n + 3) 4). pose proof (Z.mod_pos_bound (n + 3) 4).
  split; [lia |]. apply Z.mod_mul. lia.
Qed.

Lemma align4_id n : n mod 4 = 0 -> align4 n = n.
Proof. intros H. pose proof (align4_spec n) as [? ?].
  pose proof (Z.div_mod n 4). pose proof (Z.div_mod (align4 n) 4). lia. Qed.

Lemma MNL_ALIGN_align4 w len :
  2 <= w -> 0 <= len -> len + 3 < 2 ^ w -> MNL_ALIGN w len = align4 len.
Proof. intros. by apply MNL_ALIGN_eq; [lia | lia]. Qed.

Lemma wp_nlmsg_len E nlh (Q : Z -> world -> Prop) w :
  0 <= nlh -> nlh + 4 <= zlen (w_mem w) ->
  Q (rd 4 nlh (w_mem w)) w -> wp E (nlmsg_len nlh) Q w.
Proof. intros. by apply wp_load. Qed.

(** * Message iteration *)

Lemma mnl_nlmsg_ok_inv nlh len w w' :
  mnl_nlmsg_ok nlh len w = Ok (true, w') ->
  w' = w /\ 16 <= len /\ 0 <= nlh /\ nlh + 4 <= zlen (w_mem w) /\
  16 <= rd 4 nlh (w_mem w) /\ sint 32 (rd 4 nlh (w_mem w)) <= len.
Proof.
  unfold mnl_nlmsg_ok, sizeof_nlmsghdr. destruct (Z.leb_spec 16 len); [| done].
  unfold bind. destruct (nlmsg_len nlh w) as [[l w1]| | |] eqn:Hl; try done.
  apply load_inv in Hl as (-> & -> & ? & ?). unfold ret. intros [= Hb <-].
  apply andb_true_iff in Hb as [?%Z.leb_le ?%Z.leb_le]. auto with lia.
Qed.

(** A message whose length field is a non-negative [int] and that
    [mnl_nlmsg_ok] accepts lies inside the remaining bytes, and
    [mnl_nlmsg_next] then advances by at least one header. *)
Lemma mnl_nlmsg_next_progress nlh len w :
  mem_ok w -> len < 2 ^ 31 -> rd 4 nlh (w_mem w) < 2 ^ 31 ->
  mnl_nlmsg_ok nlh len w = Ok (true, w) ->
  exists a, mnl_nlmsg_next nlh len w = Ok ((nlh + a, len - a), w) /\
            a = align4 (rd 4 nlh (w_mem w)) /\
            16 <= rd 4 nlh (w_mem w) <= len /\ 16 <= a < rd 4 nlh (w_mem w) + 4.
Proof.
  intros Hm Hlen Hl Hok. apply mnl_nlmsg_ok_inv in Hok as (_ & ? & ? & ? & ? & Hs).
  pose proof (rd_range 4 nlh (w_mem w) Hm) as Hr.
  rewrite sint_small in Hs by lia.
  pose proof (align4_spec (rd 4 nlh (w_mem w))) as [? ?].
  exists (align4 (rd 4 nlh (w_mem w))). split_and!; auto with lia.
  unfold mnl_nlmsg_next, nlmsg_len, load32, bind. rewrite load_ok by lia.
  unfold ret. rewrite MNL_ALIGN_align4, sint_small by lia. done.
Qed.

(** * Batches *)

(** [msgs_at m o e]: the bytes of [m] from [o] to [e] are whole netlink messages. *)
Inductive msgs_at (m : list Z) : Z -> Z -> Prop :=
| msgs_nil o : msgs_at m o o
| msgs_cons o e :
    16 <= rd 4 o m -> o + rd 4 o m <= e -> msgs_at m (o + rd 4 o m) e -> msgs_at m o e.

Lemma msgs_at_snoc m o e :
  msgs_at m o e -> 16 <= rd 4 e m -> msgs_at m o (e + rd 4 e m).
Proof.
  induction 1 as [o|o e ? ? ? IH]; intros He.
  - apply msgs_cons; [done | lia | constructor].
  - apply msgs_cons; [done | lia | auto].
Qed.

Lemma msgs_at_ext m m' o e :
  0 <= o -> (forall i : nat, o <= Z.of_nat i < e -> m !! i = m' !! i) ->
  msgs_at m o e -> msgs_at m' o e.
Proof.
  intros Ho Hi H. revert Ho Hi. induction H as [o|o e ? ? ? IH]; intros Ho Hi; [constructor |].
  assert (rd 4 o m' = rd 4 o m) as Hrd.
  { unfold rd. f_equal. symmetry. apply slice_ext; [lia |]. intros i ?. apply Hi. lia. }
  apply msgs_cons; rewrite Hrd; [done | done |].
  apply IH; [lia |]. intros i ?. apply Hi. lia.
Qed.

(** What the user of a batch does between two calls: write one message at the
    current position, leaving what is before it alone. *)
Definition writes_msg (cur : Z) (w w' : world) : Prop :=
  mem_ok w' /\ zlen (w_mem w') = zlen (w_mem w) /\
  (forall i : nat, Z.of_nat i < cur -> w_mem w' !! i = w_mem w !! i) /\
  16 <= rd 4 cur (w_mem w') /\ cur + rd 4 cur (w_mem w') <= zlen (w_mem w').

(** One round of the documented protocol, with the messages the batch holds as
    an abstract list: add a message and ask for room for the next one (it joins
    the list when [mnl_nlmsg_batch_next] answers true), or reset, the only move
    after an overflow, which leaves the message that did not fit, if any. *)
Inductive batch_step :
  mnl_nlmsg_batch * world * list (list Z) -> mnl_nlmsg_batch * world * list (list Z) -> Prop :=
| step_add b w ms w1 r b' w2 :
    b_overflow b = false -> writes_msg (b_cur b) w w1 ->
    mnl_nlmsg_batch_next b w1 = Ok ((r, b'), w2) ->
    batch_step (b, w, ms)
      (b', w2, if r : bool then ms ++ [slice (b_cur b) (rd 4 (b_cur b) (w_mem w1)) (w_mem w1)]
               else ms)
| step_reset b w ms b' w' :
    mnl_nlmsg_batch_reset b w = Ok (b', w') ->
    batch_step (b, w, ms)
      (b', w', if b_overflow b then [slice (b_cur b) (rd 4 (b_cur b) (w_mem w)) (w_mem w)]
               else []).

Record batch_inv (b : mnl_nlmsg_batch) (w : world) (ms : list (list Z)) : Prop := {
  inv_bytes : mem_ok w;
  inv_mem : zlen (w_mem w) < 2 ^ 63;
  inv_buf : 0 <= b_buf b;
  inv_cur : b_cur b = b_buf b + b_buflen b;
  inv_len : 0 <= b_buflen b /\ b_cur b <= zlen (w_mem w);
  inv_limit : b_buflen b <= b_limit b;
  inv_msgs : msgs_at (w_mem w) (b_buf b) (b_cur b);
  inv_content : slice (b_buf b) (b_buflen b) (w_mem w) = concat ms;
  inv_over : b_overflow b = true ->
    16 <= rd 4 (b_cur b) (w_mem w) /\
    b_cur b + rd 4 (b_cur b) (w_mem w) <= zlen (w_mem w) /\
    b_limit b < b_buflen b + rd 4 (b_cur b) (w_mem w)
}.

(** [mnl_nlmsg_batch_next] after a message was written at the current position:
    it answers whether the message fits below the limit. *)
Lemma batch_next_eq b w w1 ms :
  batch_inv b w ms -> writes_msg (b_cur b) w w1 ->
  mnl_nlmsg_batch_next b w1 =
    Ok (if b_limit b <? b_buflen b + rd 4 (b_cur b) (w_mem w1)
        then (false, mk_batch (b_buf b) (b_limit b) (b_buflen b) (b_cur b) true)
        else (true, mk_batch (b_buf b) (b_limit b) (b_buflen b + rd 4 (b_cur b) (w_mem w1))
                      (b_cur b + rd 4 (b_cur b) (w_mem w1)) (b_overflow b)), w1).
Proof.
  intros [? ? ? Hcur ? ? ? _ _] (? & Hzl & _ & H16 & Hfit).
  unfold mnl_nlmsg_batch_next, nlmsg_len, load32, bind. rewrite load_ok by lia.
  rewrite wrap_small by lia. unfold ret. rewrite Hcur.
  by destruct (_ <? _).
Qed.

Lemma batch_inv_next b w ms w1 r b' w2 :
  batch_inv b w ms -> b_overflow b = false -> writes_msg (b_cur b) w w1 ->
  mnl_nlmsg_batch_next b w1 = Ok ((r, b'), w2) ->
  batch_inv b' w2
    (if r : bool then ms ++ [slice (b_cur b) (rd 4 (b_cur b) (w_mem w1)) (w_mem w1)] else ms).
Proof.
  intros Hinv Hov Hw Hn. rewrite (batch_next_eq b w w1 ms) in Hn by done.
  destruct Hinv as [? ? ? Hcur ? ? Hmsgs Hc _]. destruct Hw as (Hok & Hzl & Hpre & H16 & Hfit).
  assert (msgs_at (w_mem w1) (b_buf b) (b_cur b)) as Hmsgs1.
  { eapply msgs_at_ext; [lia | | exact Hmsgs]. intros i ?. symmetry. apply Hpre. lia. }
  assert (slice (b_buf b) (b_buflen b) (w_mem w1) = concat ms) as Hc1.
  { rewrite <- Hc. apply slice_ext; [lia |]. intros i ?. apply Hpre. lia. }
  destruct (Z.ltb_spec (b_limit b) (b_buflen b + rd 4 (b_cur b) (w_mem w1)));
    injection Hn as <- <- <-.
  - split; simpl; auto with lia.
  - split; simpl; rewrite ?Hov; try done; try lia.
    + by apply msgs_at_snoc.
    + rewrite concat_app. simpl. rewrite app_nil_r, <- Hc1.
      rewrite (slice_split (b_buf b) _ (b_buflen b)) by lia. f_equal. f_equal; lia.
Qed.

(** [mnl_nlmsg_batch_reset] after an overflow, when the message that did not fit
    is not longer than what the batch held. *)
Lemma batch_reset_moves b w ms :
  batch_inv b w ms -> b_overflow b = true ->
  let l := rd 4 (b_cur b) (w_mem w) in
  l <= b_buflen b ->
  mnl_nlmsg_batch_reset b w =
    Ok (mk_batch (b_buf b) (b_limit b) l (b_buf b + l) false,
        with_mem (splice (b_buf b) (slice (b_cur b) l (w_mem w)) (w_mem w)) w).
Proof.
  intros [Hok ? ? Hcur ? ? Hmsgs _ Hov] Ho l Hl. subst l. destruct (Hov Ho) as (? & ? & _).
  unfold mnl_nlmsg_batch_reset. rewrite Ho. unfold nlmsg_len, load32, bind.
  rewrite load_ok by lia. set (l := rd 4 (b_cur b) (w_mem w)) in *. unfold memcpy_buf, bind, load_bytes.
  rewrite (proj2 (in_range_true (b_cur b) l (w_mem w))) by lia.
  rewrite (proj2 (andb_false_iff _ _)) by (right; apply Z.ltb_ge; lia).
  assert (zlen (slice (b_cur b) l (w_mem w)) = l) as Hbs by (apply zlen_slice; lia).
  unfold store_bytes. rewrite Hbs, (proj2 (in_range_true (b_buf b) l (w_mem w))) by lia.
  rewrite load_ok by (simpl; rewrite ?zlen_splice; lia).
  simpl. rewrite rd_splice_ne by lia. done.
Qed.

(** [mnl_nlmsg_batch_reset] after an overflow copies with [memcpy] from the
    current position to the head: when the message that did not fit is longer
    than what the batch already held, the two regions overlap and the copy is
    undefined behaviour. *)
Theorem batch_reset_overlap b w ms :
  batch_inv b w ms -> b_overflow b = true ->
  b_buflen b < rd 4 (b_cur b) (w_mem w) ->
  mnl_nlmsg_batch_reset b w = Ub.
Proof.
  intros [Hok ? ? Hcur ? ? Hmsgs _ Hov] Ho Hlt. destruct (Hov Ho) as (? & ? & ?).
  unfold mnl_nlmsg_batch_reset. rewrite Ho. unfold nlmsg_len, load32, bind.
  rewrite load_ok by lia. set (l := rd 4 (b_cur b) (w_mem w)) in *.
  unfold memcpy_buf, bind, load_bytes.
  rewrite (proj2 (in_range_true (b_cur b) l (w_mem w))) by lia.
  rewrite (proj2 (andb_true_iff _ _)); [done |].
  split; apply Z.ltb_lt; lia.
Qed.

Lemma batch_inv_reset b w ms b' w' :
  batch_inv b w ms -> mnl_nlmsg_batch_reset b w = Ok (b', w') ->
  batch_inv b' w'
    (if b_overflow b then [slice (b_cur b) (rd 4 (b_cur b) (w_mem w)) (w_mem w)] else []).
Proof.
  intros Hinv Hr. destruct (b_overflow b) eqn:Ho.
  2: { unfold mnl_nlmsg_batch_reset in Hr. rewrite Ho in Hr. injection Hr as <- <-.
       destruct Hinv. split; simpl; try done; try lia. constructor. }
  destruct (Z.le_gt_cases (rd 4 (b_cur b) (w_mem w)) (b_buflen b)) as [Hl|Hl].
  2: { by rewrite (batch_reset_overlap b w ms) in Hr. }
  rewrite (batch_reset_moves b w ms) in Hr by done. injection Hr as <- <-.
  destruct Hinv as [Hok ? ? Hcur ? ? Hmsgs _ Hov]. destruct (Hov Ho) as (? & ? & _).
  set (l := rd 4 (b_cur b) (w_mem w)) in *.
  set (bs := slice (b_cur b) l (w_mem w)) in *.
  assert (zlen bs = l) as Hbs by (apply zlen_slice; lia).
  assert (slice (b_buf b) l (splice (b_buf b) bs (w_mem w)) = bs) as Hs
    by (rewrite <- Hbs at 1; apply slice_splice_eq; lia).
  assert (rd 4 (b_buf b) (splice (b_buf b) bs (w_mem w)) = l) as Hrd.
  { unfold l, rd at 2. unfold rd. f_equal. apply list_eq. intros i.
    destruct (decide (Z.of_nat i < 4)).
    - rewrite !lookup_slice by lia. rewrite lookup_splice_in by lia.
      unfold bs. rewrite lookup_slice by lia. f_equal. lia.
    - unfold slice. rewrite !lookup_take_ge; [done | lia | lia]. }
  split; simpl; try done; try lia.
  - apply splice_bytes; [by apply slice_bytes | done].
  - by rewrite zlen_splice by lia.
  - rewrite zlen_splice; lia.
  - apply msgs_cons; rewrite Hrd; [lia | lia | constructor].
  - by rewrite app_nil_r.
Qed.

(** What every state of a batch session satisfies. *)
Definition batch_good (buf limit : Z) (s : mnl_nlmsg_batch * world * list (list Z)) : Prop :=
  match s with
  | (b, w, ms) => b_buf b = buf /\ b_limit b = limit /\ batch_inv b w ms
  end.

Lemma batch_step_good buf limit s s' :
  batch_step s s' -> batch_good buf limit s -> batch_good buf limit s'.
Proof.
  intros Hs. destruct Hs as [b w ms w1 r b' w2 Ho Hw Hn|b w ms b' w' Hn];
    intros (? & ? & Hinv).
  - pose proof (batch_inv_next b w ms w1 r b' w2 Hinv Ho Hw Hn).
    rewrite (batch_next_eq b w w1 ms) in Hn by done.
    destruct (_ <? _) in Hn; by injection Hn as <- <- <-.
  - pose proof (batch_inv_reset b w ms b' w' Hinv Hn). destruct (b_overflow b) eqn:Ho.
    + destruct (Z.le_gt_cases (rd 4 (b_cur b) (w_mem w)) (b_buflen b)).
      * rewrite (batch_reset_moves b w ms) in Hn by done. by injection Hn as <- <-.
      * by rewrite (batch_reset_overlap b w ms) in Hn.
    + unfold mnl_nlmsg_batch_reset in Hn. rewrite Ho in Hn. by injection Hn as <- <-.
Qed.


Section BatchExample.
(** A 64-byte buffer with limit 32 and a 20-byte message at its head. *)
Let msg20 : list Z := le_enc 4 20 ++ replicate 60 0.
Definition batch_w0 : world := mk_world (replicate 64 0) 0 [].
Definition batch_w1 : world := mk_world msg20 0 [].

End BatchExample.

Lemma batch_reset_overlap_witness :
  let w := mk_world (le_enc 4 16 ++ replicate 12 0 ++ le_enc 4 24 ++ replicate 20 0) 0 [] in
  mnl_nlmsg_batch_reset (mk_batch 0 32 16 16 true) w = Ub.
Proof.
  intros w. apply (batch_reset_overlap _ _ [slice 0 16 (w_mem w)]).
  - apply Build_batch_inv.
    + by apply bytes_okb_ok.
    + vm_compute. reflexivity.
    + simpl. lia.
    + reflexivity.
    + split; vm_compute; discriminate.
    + simpl. lia.
    + simpl. apply msgs_cons; vm_compute; try discriminate. constructor.
    + reflexivity.
    + intros _. vm_compute. repeat split; discriminate.
  - reflexivity.
  - vm_compute. reflexivity.
Defined.
