(* ===== verification/MnlAttr.v ===== *)
(** libmnl/attr.c: type-length-value attributes.

    A [struct nlattr *] is the offset of the attribute header in the message
    buffer. [data] arguments are the bytes the pointer designates. *)
From S2P Require Import Prelude CMonad MnlMsg.

(** * struct nlattr and its constants *)

Definition sizeof_nlattr : Z := 4.
Definition MNL_ATTR_HDRLEN : Z := MNL_ALIGN 64 sizeof_nlattr.
Definition NLA_F_NESTED : Z := Z.shiftl 1 15.
Definition NLA_F_NET_BYTEORDER : Z := Z.shiftl 1 14.
Definition NLA_TYPE_MASK : Z := Z.lnot (Z.lor NLA_F_NESTED NLA_F_NET_BYTEORDER).

Definition MNL_CB_ERROR : Z := -1.
Definition MNL_CB_STOP : Z := 0.
Definition MNL_CB_OK : Z := 1.

Definition nla_len (attr : Z) : M Z := load16 attr.
Definition nla_type (attr : Z) : M Z := load16 (attr + 2).
Definition set_nla_len (attr v : Z) : M unit := store16 attr v.
Definition set_nla_type (attr v : Z) : M unit := store16 (attr + 2) v.

(** * Getters *)

Definition mnl_attr_get_type (attr : Z) : M Z :=
  let! t := nla_type attr in ret (Z.land t NLA_TYPE_MASK).

Definition mnl_attr_get_len (attr : Z) : M Z := nla_len attr.

Definition mnl_attr_get_payload_len (attr : Z) : M Z :=
  let! l := nla_len attr in ret (wrap 16 (l - MNL_ATTR_HDRLEN)).

Definition mnl_attr_get_payload (attr : Z) : Z := attr + MNL_ATTR_HDRLEN.

Definition mnl_attr_ok (attr len : Z) : M bool :=
  if sizeof_nlattr <=? len then
    let! l := nla_len attr in
    ret ((sizeof_nlattr <=? l) && (l <=? len))
  else ret false.

Definition mnl_attr_next (attr : Z) : M Z :=
  let! l := nla_len attr in ret (attr + MNL_ALIGN 32 l).

Definition mnl_attr_type_valid (attr max : Z) : M Z :=
  let! t := mnl_attr_get_type attr in
  if max <? t then set_errno EOPNOTSUPP ;;; ret (-1) else ret 1.

Definition mnl_attr_get_u8 (attr : Z) : M Z := load8 (mnl_attr_get_payload attr).
Definition mnl_attr_get_u16 (attr : Z) : M Z := load16 (mnl_attr_get_payload attr).
Definition mnl_attr_get_u32 (attr : Z) : M Z := load32 (mnl_attr_get_payload attr).
Definition mnl_attr_get_u64 (attr : Z) : M Z := load64 (mnl_attr_get_payload attr).
Definition mnl_attr_get_str (attr : Z) : Z := mnl_attr_get_payload attr.

(** * Validation *)

Inductive mnl_attr_data_type : Type :=
| MNL_TYPE_UNSPEC
| MNL_TYPE_U8
| MNL_TYPE_U16
| MNL_TYPE_U32
| MNL_TYPE_U64
| MNL_TYPE_STRING
| MNL_TYPE_FLAG
| MNL_TYPE_MSECS
| MNL_TYPE_NESTED
| MNL_TYPE_NESTED_COMPAT
| MNL_TYPE_NUL_STRING
| MNL_TYPE_BINARY
| MNL_TYPE_MAX.

Definition type_is_max (t : mnl_attr_data_type) : bool :=
  match t with MNL_TYPE_MAX => true | _ => false end.

Definition mnl_attr_data_type_len (t : mnl_attr_data_type) : Z :=
  match t with
  | MNL_TYPE_U8 => 1
  | MNL_TYPE_U16 => 2
  | MNL_TYPE_U32 => 4
  | MNL_TYPE_U64 => 8
  | MNL_TYPE_MSECS => 8
  | _ => 0
  end.

Definition fail_errno (e : Z) : M Z := set_errno e ;;; ret (-1).

Definition __mnl_attr_validate (attr : Z) (type : mnl_attr_data_type) (exp_len : Z) : M Z :=
  let! attr_len := mnl_attr_get_payload_len attr in
  let attr_data := mnl_attr_get_payload attr in
  let finish := if negb (exp_len =? 0) && (exp_len <? attr_len)
                then fail_errno ERANGE else ret 0 in
  if attr_len <? exp_len then fail_errno ERANGE
  else match type with
  | MNL_TYPE_FLAG => if 0 <? attr_len then fail_errno ERANGE else finish
  | MNL_TYPE_NUL_STRING =>
      if attr_len =? 0 then fail_errno ERANGE
      else let! c := load8 (attr_data + attr_len - 1) in
           if negb (c =? 0) then fail_errno EINVAL else finish
  | MNL_TYPE_STRING => if attr_len =? 0 then fail_errno ERANGE else finish
  | MNL_TYPE_NESTED =>
      if attr_len =? 0 then finish
      else if attr_len <? MNL_ATTR_HDRLEN then fail_errno ERANGE else finish
  | _ => finish
  end.

Definition mnl_attr_validate (attr : Z) (type : mnl_attr_data_type) : M Z :=
  if type_is_max type then fail_errno EINVAL
  else __mnl_attr_validate attr type (mnl_attr_data_type_len type).

Definition mnl_attr_validate2 (attr : Z) (type : mnl_attr_data_type) (exp_len : Z) : M Z :=
  if type_is_max type then fail_errno EINVAL
  else __mnl_attr_validate attr type exp_len.

(** * Iteration *)

(** Second argument of [mnl_attr_ok] in [mnl_attr_for_each],
    [mnl_attr_for_each_nested] and [mnl_attr_for_each_payload]: the bytes left
    from [attr], as an [int]. *)
Definition msg_bound (nlh attr : Z) : M Z :=
  let! tail := mnl_nlmsg_get_payload_tail nlh in ret (sint 32 (tail - attr)).
Definition nested_bound (nest attr : Z) : M Z :=
  let! l := mnl_attr_get_payload_len nest in
  ret (sint 32 (mnl_attr_get_payload nest + l - attr)).
Definition payload_bound (payload payload_size attr : Z) : M Z :=
  ret (sint 32 (payload + payload_size - attr)).

Section Parse.
Context {S : Type}.

(** [mnl_attr_cb_t]: the callback gets the attribute and the user data. *)
Definition mnl_attr_cb_t : Type := Z -> S -> M (Z * S).

(** The [for] loops of [mnl_attr_for_each], [mnl_attr_for_each_nested] and
    [mnl_attr_for_each_payload]: [bound] is the second argument of
    [mnl_attr_ok], [r] the value of [ret] so far. *)
Fixpoint attr_for_each (fuel : nat) (bound : Z -> M Z) (cb : mnl_attr_cb_t)
    (attr r : Z) (data : S) : M (Z * S) :=
  match fuel with
  | O => no_fuel
  | Datatypes.S fuel =>
      let! len := bound attr in
      let! ok := mnl_attr_ok attr len in
      if ok : bool then
        let! (r', data') := cb attr data in
        if r' <=? MNL_CB_STOP then ret (r', data')
        else
          let! attr' := mnl_attr_next attr in
          attr_for_each fuel bound cb attr' r' data'
      else ret (r, data)
  end.

(** Enough fuel for a loop whose remaining length is [len]: every iteration
    consumes at least one attribute header. *)
Definition loop_fuel (len : Z) : nat := Datatypes.S (Z.to_nat len).

Definition mnl_attr_parse (nlh offset : Z) (cb : mnl_attr_cb_t) (data : S) : M (Z * S) :=
  let attr := mnl_nlmsg_get_payload_offset nlh offset in
  let! len := msg_bound nlh attr in
  attr_for_each (loop_fuel len) (msg_bound nlh) cb attr MNL_CB_OK data.

Definition mnl_attr_parse_nested (nested : Z) (cb : mnl_attr_cb_t) (data : S) : M (Z * S) :=
  let attr := mnl_attr_get_payload nested in
  let! len := nested_bound nested attr in
  attr_for_each (loop_fuel len) (nested_bound nested) cb attr MNL_CB_OK data.

Definition mnl_attr_parse_payload (payload payload_len : Z) (cb : mnl_attr_cb_t)
    (data : S) : M (Z * S) :=
  let! len := payload_bound payload payload_len payload in
  attr_for_each (loop_fuel len) (payload_bound payload payload_len) cb payload MNL_CB_OK data.
End Parse.
Arguments mnl_attr_cb_t : clear implicits.

(** * Putters *)

(** [len] bytes read through a pointer to the bytes [data]. *)
Definition read_data (len : Z) (data : list Z) : M (list Z) :=
  if in_range 0 len data then ret (slice 0 len data) else ub.

Definition mnl_attr_put (nlh type len : Z) (data : list Z) : M unit :=
  let! attr := mnl_nlmsg_get_payload_tail nlh in
  let payload_len := wrap 16 (MNL_ALIGN 64 sizeof_nlattr + len) in
  set_nla_type attr type ;;;
  set_nla_len attr payload_len ;;;
  let! bs := read_data len data in
  store_bytes (mnl_attr_get_payload attr) bs ;;;
  let! l := nlmsg_len nlh in
  set_nlmsg_len nlh (wrap 32 (l + MNL_ALIGN 32 payload_len)).

Definition mnl_attr_put_u8 (nlh type data : Z) : M unit := mnl_attr_put nlh type 1 (le_enc 1 data).
Definition mnl_attr_put_u16 (nlh type data : Z) : M unit := mnl_attr_put nlh type 2 (le_enc 2 data).
Definition mnl_attr_put_u32 (nlh type data : Z) : M unit := mnl_attr_put nlh type 4 (le_enc 4 data).
Definition mnl_attr_put_u64 (nlh type data : Z) : M unit := mnl_attr_put nlh type 8 (le_enc 8 data).

(** [strlen] of the string whose memory is [data]. *)
Fixpoint strlen (data : list Z) : M Z :=
  match data with
  | [] => ub
  | c :: cs => if c =? 0 then ret 0 else let! n := strlen cs in ret (n + 1)
  end.

Definition mnl_attr_put_str (nlh type : Z) (data : list Z) : M unit :=
  let! n := strlen data in mnl_attr_put nlh type n data.
Definition mnl_attr_put_strz (nlh type : Z) (data : list Z) : M unit :=
  let! n := strlen data in mnl_attr_put nlh type (n + 1) data.

Definition mnl_attr_nest_start (nlh type : Z) : M Z :=
  let! start := mnl_nlmsg_get_payload_tail nlh in
  set_nla_type start (Z.lor NLA_F_NESTED type) ;;;
  let! l := nlmsg_len nlh in
  set_nlmsg_len nlh (wrap 32 (l + MNL_ALIGN 64 sizeof_nlattr)) ;;;
  ret start.

Definition mnl_attr_put_check (nlh buflen type len : Z) (data : list Z) : M bool :=
  let! l := nlmsg_len nlh in
  if buflen <? wrap 64 (l + MNL_ATTR_HDRLEN + MNL_ALIGN 64 len) then ret false
  else mnl_attr_put nlh type len data ;;; ret true.

Definition mnl_attr_put_u8_check (nlh buflen type data : Z) : M bool :=
  mnl_attr_put_check nlh buflen type 1 (le_enc 1 data).
Definition mnl_attr_put_u16_check (nlh buflen type data : Z) : M bool :=
  mnl_attr_put_check nlh buflen type 2 (le_enc 2 data).
Definition mnl_attr_put_u32_check (nlh buflen type data : Z) : M bool :=
  mnl_attr_put_check nlh buflen type 4 (le_enc 4 data).
Definition mnl_attr_put_u64_check (nlh buflen type data : Z) : M bool :=
  mnl_attr_put_check nlh buflen type 8 (le_enc 8 data).
Definition mnl_attr_put_str_check (nlh buflen type : Z) (data : list Z) : M bool :=
  let! n := strlen data in mnl_attr_put_check nlh buflen type n data.
Definition mnl_attr_put_strz_check (nlh buflen type : Z) (data : list Z) : M bool :=
  let! n := strlen data in mnl_attr_put_check nlh buflen type (n + 1) data.

Definition mnl_attr_nest_start_check (nlh buflen type : Z) : M (option Z) :=
  let! l := nlmsg_len nlh in
  if buflen <? wrap 64 (l + MNL_ATTR_HDRLEN) then ret None
  else let! start := mnl_attr_nest_start nlh type in ret (Some start).

Definition mnl_attr_nest_end (nlh start : Z) : M unit :=
  let! tail := mnl_nlmsg_get_payload_tail nlh in
  set_nla_len start (tail - start).

Definition mnl_attr_nest_cancel (nlh start : Z) : M unit :=
  let! tail := mnl_nlmsg_get_payload_tail nlh in
  let! l := nlmsg_len nlh in
  set_nlmsg_len nlh (wrap 32 (l - (tail - start))).

(** * Attribute types *)

Lemma type_land_high ty k : 0 <= ty < 2 ^ 14 -> 14 <= k -> Z.land (2 ^ k) ty = 0.
Proof.
  intros Hty Hk. apply Z.bits_inj'. intros i Hi. rewrite Z.land_spec, Z.bits_0.
  rewrite Z.pow2_bits_eqb by lia. destruct (Z.eqb_spec k i) as [<-|]; [rewrite andb_true_l | done].
  apply (Z.bounded_iff_bits_nonneg 14 ty); lia.
Qed.

Lemma lor_nested ty : 0 <= ty < 2 ^ 14 -> Z.lor NLA_F_NESTED ty = 2 ^ 15 + ty.
Proof.
  intros. change NLA_F_NESTED with (2 ^ 15). symmetry. apply Z.add_nocarry_lor.
  by apply type_land_high.
Qed.

Lemma type_mask ty : 0 <= ty < 2 ^ 14 -> Z.land ty NLA_TYPE_MASK = ty.
Proof.
  intros Hty. apply Z.bits_inj'. intros i Hi. unfold NLA_TYPE_MASK.
  rewrite Z.land_spec, Z.lnot_spec, Z.lor_spec by lia.
  change NLA_F_NESTED with (2 ^ 15). change NLA_F_NET_BYTEORDER with (2 ^ 14).
  rewrite !Z.pow2_bits_eqb by lia.
  destruct (decide (14 <= i)).
  - by rewrite (proj1 (Z.bounded_iff_bits_nonneg 14 ty ltac:(lia) ltac:(lia))) by lia.
  - rewrite (proj2 (Z.eqb_neq 15 i)), (proj2 (Z.eqb_neq 14 i)) by lia. apply andb_true_r.
Qed.

Lemma type_mask_nested ty :
  0 <= ty < 2 ^ 14 -> Z.land (Z.lor NLA_F_NESTED ty) NLA_TYPE_MASK = ty.
Proof.
  intros. rewrite Z.land_lor_distr_l, (type_mask ty) by done.
  change (Z.land NLA_F_NESTED NLA_TYPE_MASK) with 0. apply Z.lor_0_l.
Qed.
