(* ===== verification/Tlv.v ===== *)
(** The abstract view of a netlink message: a sequence of attribute trees, what
    it means for the message buffer to hold one, and what the libmnl primitives
    of MnlAttr.v do in these terms. *)
From S2P Require Import Prelude CMonad MnlMsg MnlAttr.

(** * Attribute trees *)

#[local] Set Warnings "-register-all".
Inductive tlv : Type :=
| Leaf (ty : Z) (d : list Z)
| Nest (ty : Z) (l : list tlv).

Definition tlv_type (t : tlv) : Z := match t with Leaf ty _ | Nest ty _ => ty end.

(** Bytes an attribute takes in the message, padding included. *)
Fixpoint tlv_size (t : tlv) : Z :=
  match t with
  | Leaf _ d => align4 (4 + zlen d)
  | Nest _ l => 4 + (fix go l := match l with [] => 0 | t :: l => tlv_size t + go l end) l
  end.

Fixpoint tlvs_size (l : list tlv) : Z :=
  match l with [] => 0 | t :: l => tlv_size t + tlvs_size l end.

Lemma tlv_size_Nest ty l : tlv_size (Nest ty l) = 4 + tlvs_size l.
Proof. reflexivity. Qed.

Section AttrAt.
Context (m : list Z).

(** [attr_at m o t]: an attribute equal to [t] starts at offset [o] of [m]. *)
Fixpoint attr_at (o : Z) (t : tlv) {struct t} : Prop :=
  match t with
  | Leaf ty d =>
      0 <= o /\ rd 2 o m = 4 + zlen d /\ rd 2 (o + 2) m = ty /\
      slice (o + 4) (zlen d) m = d /\ o + align4 (4 + zlen d) <= zlen m /\
      4 + zlen d < 2 ^ 16 /\ 0 <= ty < 2 ^ 14
  | Nest ty l =>
      0 <= o /\ rd 2 o m = tlv_size t /\ rd 2 (o + 2) m = Z.lor NLA_F_NESTED ty /\
      tlv_size t < 2 ^ 16 /\ 0 <= ty < 2 ^ 14 /\
      (fix go o l := match l with
                     | [] => o <= zlen m
                     | t :: l => attr_at o t /\ go (o + tlv_size t) l
                     end) (o + 4) l
  end.

Fixpoint attrs_at (o : Z) (l : list tlv) {struct l} : Prop :=
  match l with
  | [] => o <= zlen m
  | t :: l => attr_at o t /\ attrs_at (o + tlv_size t) l
  end.
End AttrAt.

Lemma attr_at_Nest m o ty l :
  attr_at m o (Nest ty l) <->
  0 <= o /\ rd 2 o m = 4 + tlvs_size l /\ rd 2 (o + 2) m = Z.lor NLA_F_NESTED ty /\
  4 + tlvs_size l < 2 ^ 16 /\ 0 <= ty < 2 ^ 14 /\ attrs_at m (o + 4) l.
Proof. reflexivity. Qed.

(** Induction over trees and forests. *)
Lemma tlv_forest_ind (P : tlv -> Prop) (Q : list tlv -> Prop) :
  (forall ty d, P (Leaf ty d)) -> (forall ty l, Q l -> P (Nest ty l)) ->
  Q [] -> (forall t l, P t -> Q l -> Q (t :: l)) ->
  (forall t, P t) /\ (forall l, Q l).
Proof.
  intros HL HN H0 HC.
  assert (forall t, P t) as HP.
  { refine (fix F t := match t with
                       | Leaf ty d => HL ty d
                       | Nest ty l => HN ty l _
                       end).
    induction l as [|t' l IH]; [done |]. by apply HC. }
  split; [done |]. intros l. induction l; auto.
Qed.

Lemma tlv_sizes_spec :
  (forall t, 4 <= tlv_size t /\ tlv_size t mod 4 = 0) /\
  (forall l, 0 <= tlvs_size l /\ tlvs_size l mod 4 = 0).
Proof.
  apply tlv_forest_ind; intros.
  - simpl. pose proof (align4_spec (4 + zlen d)). pose proof (zlen_nonneg d). lia.
  - rewrite tlv_size_Nest. rewrite Z.add_mod by lia. replace (tlvs_size l mod 4) with 0 by lia.
    split; [lia | done].
  - done.
  - simpl. rewrite Z.add_mod by lia. destruct H as [? ->], H0 as [? ->]. split; [lia | done].
Qed.

Lemma tlv_size_ge t : 4 <= tlv_size t.
Proof. apply (proj1 tlv_sizes_spec t). Qed.
Lemma tlvs_size_nonneg l : 0 <= tlvs_size l.
Proof. apply (proj2 tlv_sizes_spec l). Qed.
Lemma tlvs_size_mod l : tlvs_size l mod 4 = 0.
Proof. apply (proj2 tlv_sizes_spec l). Qed.

Lemma tlvs_size_app l k : tlvs_size (l ++ k) = tlvs_size l + tlvs_size k.
Proof. induction l as [|t l IH]; simpl; lia. Qed.

(** * Locality of [attrs_at] *)

Lemma rd_ext n o m m' :
  0 <= o -> (forall i : nat, o <= Z.of_nat i < o + Z.of_nat n -> m !! i = m' !! i) ->
  rd n o m = rd n o m'.
Proof. intros. unfold rd. f_equal. by apply slice_ext. Qed.

Lemma attr_at_ext_both m m' :
  zlen m' = zlen m ->
  (forall t o, attr_at m o t ->
     (forall i : nat, o <= Z.of_nat i < o + tlv_size t -> m !! i = m' !! i) -> attr_at m' o t) /\
  (forall l o, 0 <= o -> attrs_at m o l ->
     (forall i : nat, o <= Z.of_nat i < o + tlvs_size l -> m !! i = m' !! i) -> attrs_at m' o l).
Proof.
  intros Hz. apply tlv_forest_ind.
  - intros ty d o (? & Hl & Ht & Hd & ? & ? & ?) Hi. simpl in Hi.
    pose proof (align4_spec (4 + zlen d)). pose proof (zlen_nonneg d).
    rewrite (rd_ext 2 o m m') in Hl by (intros; try apply Hi; lia).
    rewrite (rd_ext 2 (o + 2) m m') in Ht by (intros; try apply Hi; lia).
    rewrite (slice_ext (o + 4) (zlen d) m m') in Hd by (intros; try apply Hi; lia).
    simpl. split_and!; auto with lia.
  - intros ty l IH o Ha Hi. rewrite attr_at_Nest in Ha. destruct Ha as (? & Hl & Ht & ? & ? & Hs).
    rewrite tlv_size_Nest in Hi. pose proof (tlvs_size_nonneg l).
    rewrite (rd_ext 2 o m m') in Hl by (intros; try apply Hi; lia).
    rewrite (rd_ext 2 (o + 2) m m') in Ht by (intros; try apply Hi; lia).
    apply attr_at_Nest. split_and!; try done; try lia.
    apply IH; [lia | done |]. intros. apply Hi. lia.
  - intros o ? ? _. simpl in *. lia.
  - intros t l IHt IHl o Ho [Ha Hs] Hi. simpl in Hi.
    pose proof (tlv_size_ge t). pose proof (tlvs_size_nonneg l). split.
    + apply IHt; [done |]. intros. apply Hi. lia.
    + apply IHl; [lia | done |]. intros. apply Hi. lia.
Qed.

Lemma attrs_at_ext m m' l o :
  zlen m' = zlen m -> 0 <= o -> attrs_at m o l ->
  (forall i : nat, o <= Z.of_nat i < o + tlvs_size l -> m !! i = m' !! i) -> attrs_at m' o l.
Proof. intros Hz. apply (proj2 (attr_at_ext_both m m' Hz)). Qed.

Lemma attrs_at_app m o l k :
  attrs_at m o l -> attrs_at m (o + tlvs_size l) k -> attrs_at m o (l ++ k).
Proof.
  revert o. induction l as [|t l IH]; intros o; simpl.
  - intros _. by rewrite Z.add_0_r.
  - intros [? ?] ?. split; [done |]. apply IH; [done |].
    by replace (o + tlv_size t + tlvs_size l) with (o + (tlv_size t + tlvs_size l)) by lia.
Qed.

Lemma attrs_at_bound m o l : attrs_at m o l -> o + tlvs_size l <= zlen m.
Proof.
  revert o. induction l as [|t l IH]; intros o; simpl; [lia |].
  intros [_ H]. apply IH in H. lia.
Qed.

(** * Building: appending trees to a message *)

Section Build.
Context (nlh : Z).

(** The message at [nlh] is [L] bytes long and inside the buffer. *)
Record msg_len (L : Z) (w : world) : Prop := {
  ml_len : rd 4 nlh (w_mem w) = L;
  ml_mod : L mod 4 = 0;
  ml_min : 4 <= L;
  ml_nlh : 0 <= nlh;
  ml_fit : nlh + L <= zlen (w_mem w);
  ml_mem : zlen (w_mem w) < 2 ^ 31
}.

(** Nothing but the length field and the bytes after the first [L] of the
    message changed. *)
Record same_msg (L : Z) (w w' : world) : Prop := {
  sm_zlen : zlen (w_mem w') = zlen (w_mem w);
  sm_errno : w_errno w' = w_errno w;
  sm_alloc : w_alloc w' = w_alloc w;
  sm_bytes : forall i : nat, Z.of_nat i < nlh \/ nlh + 4 <= Z.of_nat i < nlh + L ->
               w_mem w' !! i = w_mem w !! i
}.

(** [appends room c ts Q]: on a message with at least [room] free bytes, [c]
    returns a value in [Q] and appends exactly the attributes [ts]. *)
Definition appends {A} (room : Z) (c : M A) (ts : list tlv) (Q : A -> Prop) : Prop :=
  forall w L, msg_len L w -> nlh + L + room <= zlen (w_mem w) ->
    wp False c (fun a w' => Q a /\ msg_len (L + tlvs_size ts) w' /\
                            attrs_at (w_mem w') (nlh + L) ts /\ same_msg L w w') w.

Lemma same_msg_refl L w : same_msg L w w.
Proof. by split. Qed.

Lemma same_msg_trans L L' w w' w'' :
  L <= L' -> same_msg L w w' -> same_msg L' w' w'' -> same_msg L w w''.
Proof.
  intros ? [] []. split; try congruence. intros i Hi.
  rewrite sm_bytes1 by lia. by apply sm_bytes0.
Qed.

Lemma same_msg_attrs L w w' l o :
  same_msg L w w' -> nlh + 4 <= o -> 0 <= nlh -> o + tlvs_size l <= nlh + L ->
  attrs_at (w_mem w) o l -> attrs_at (w_mem w') o l.
Proof.
  intros [] ? ? ? Ha. eapply attrs_at_ext; [done | lia | done |].
  intros. symmetry. apply sm_bytes0. lia.
Qed.

Lemma appends_ret {A} (a : A) room Q : 0 <= room -> Q a -> appends room (ret a) [] Q.
Proof.
  intros ? Ha w L Hm ?. apply wp_ret. simpl. rewrite Z.add_0_r.
  split_and!; [done | done | destruct Hm; lia | apply same_msg_refl].
Qed.

Lemma appends_weaken {A} room room' (c : M A) ts (Q Q' : A -> Prop) :
  appends room c ts Q -> room <= room' -> (forall a, Q a -> Q' a) -> appends room' c ts Q'.
Proof.
  intros Hc ? HQ w L Hm ?. eapply wp_mono; [apply Hc; [done | lia] |].
  intros a w' (? & ? & ? & ?). auto.
Qed.

Lemma appends_bind {A B} r1 r2 room (c : M A) (k : A -> M B) ts1 ts2 Q1 Q2 :
  appends r1 c ts1 Q1 -> (forall a, Q1 a -> appends r2 (k a) ts2 Q2) ->
  r1 <= room -> tlvs_size ts1 + r2 <= room ->
  appends room (bind c k) (ts1 ++ ts2) Q2.
Proof.
  intros Hc Hk ? ? w L Hm ?. apply wp_bind.
  eapply wp_mono; [apply Hc; [done | lia] |]. intros a w1 (Ha & Hm1 & Hat & Hs).
  eapply wp_mono.
  { apply (Hk a Ha w1 _ Hm1). destruct Hs. lia. }
  intros b w2 (Hb & Hm2 & Hat2 & Hs2). pose proof (tlvs_size_nonneg ts1).
  destruct Hm. split_and!.
  - done.
  - by rewrite tlvs_size_app, Z.add_assoc.
  - apply attrs_at_app.
    + eapply same_msg_attrs; [exact Hs2 | lia | lia | lia | done].
    + by replace (nlh + L + tlvs_size ts1) with (nlh + (L + tlvs_size ts1)) by lia.
  - eapply same_msg_trans; [| exact Hs | exact Hs2]. lia.
Qed.

(** Sequencing when the first part appends nothing or the second does. *)
Lemma appends_seq {A B} r1 r2 (c : M A) (k : A -> M B) ts1 ts2 Q1 Q2 :
  appends r1 c ts1 Q1 -> (forall a, Q1 a -> appends r2 (k a) ts2 Q2) ->
  0 <= r2 -> tlvs_size ts1 <= r1 ->
  appends (r1 + r2) (bind c k) (ts1 ++ ts2) Q2.
Proof. intros. eapply appends_bind; eauto; lia. Qed.

Lemma wp_tail E L (Q : Z -> world -> Prop) w :
  msg_len L w -> Q (nlh + L) w -> wp E (mnl_nlmsg_get_payload_tail nlh) Q w.
Proof.
  intros [] HQ. unfold mnl_nlmsg_get_payload_tail. apply wp_bind, wp_nlmsg_len; try lia.
  apply wp_ret. rewrite ml_len0, MNL_ALIGN_align4, align4_id by (try done; lia). done.
Qed.

Lemma msg_len_splice L o bs w :
  msg_len L w -> nlh + 4 <= o -> o + zlen bs <= zlen (w_mem w) ->
  msg_len L (with_mem (splice o bs (w_mem w)) w).
Proof.
  intros [] ? ?. split; simpl; try done.
  - rewrite rd_splice_ne by lia. done.
  - rewrite zlen_splice by lia. lia.
  - rewrite zlen_splice by lia. lia.
Qed.

Lemma same_msg_splice L o bs w :
  0 <= nlh -> nlh + L <= o -> 4 <= L -> o + zlen bs <= zlen (w_mem w) ->
  same_msg L w (with_mem (splice o bs (w_mem w)) w).
Proof.
  intros ? ? ? ?. split; simpl; try done.
  - apply zlen_splice; lia.
  - intros. apply lookup_splice_out; lia.
Qed.

(** Updating the length field. *)
Lemma wp_set_len E L L' (Q : unit -> world -> Prop) w :
  msg_len L w -> L' mod 4 = 0 -> 4 <= L' -> nlh + L' <= zlen (w_mem w) ->
  (forall w', msg_len L' w' -> same_msg L' w w' -> Q tt w') ->
  wp E (set_nlmsg_len nlh (wrap 32 L')) Q w.
Proof.
  intros [] ? ? ? HQ. unfold set_nlmsg_len, store32, store.
  rewrite (wrap_small 32) by lia.
  apply wp_store_bytes; [lia | zl |].
  assert (zlen (splice nlh (le_enc 4 L') (w_mem w)) = zlen (w_mem w)) as Hz
    by (apply zlen_splice; zl).
  apply HQ; split; simpl; try done; try lia.
  - rewrite rd_splice_eq by lia. apply wrap_small. simpl. lia.
  - intros i Hi. apply lookup_splice_out; zl.
Qed.
End Build.

Section BuildOps.
Context (nlh : Z).

Lemma wp_store_tail {E L n o v} {Q : unit -> world -> Prop} {w} :
  msg_len nlh L w -> nlh + L <= o -> o + Z.of_nat n <= zlen (w_mem w) ->
  (forall w', w' = with_mem (splice o (le_enc n v) (w_mem w)) w ->
              msg_len nlh L w' -> same_msg nlh L w w' -> Q tt w') ->
  wp E (store n o v) Q w.
Proof.
  intros Hm ? ? HQ. pose proof Hm as []. unfold store. apply wp_store_bytes; [lia | zl |].
  apply HQ; [done | apply msg_len_splice; zl; done | apply same_msg_splice; zl].
Qed.

(** [mnl_attr_put] appends one attribute with the given type and payload. *)
Lemma appends_put ty len data :
  0 <= ty < 2 ^ 14 -> 0 <= len <= zlen data -> 4 + len < 2 ^ 16 ->
  appends nlh (align4 (4 + len)) (mnl_attr_put nlh ty len data)
          [Leaf ty (slice 0 len data)] (fun _ => True).
Proof.
  intros Hty Hlen Hl16 w L Hm Hroom. pose proof Hm as [].
  pose proof (align4_spec (4 + len)) as [? Hmod4].
  unfold mnl_attr_put. apply wp_bind, (wp_tail nlh False L); [done |].
  change (MNL_ALIGN 64 sizeof_nlattr) with 4. rewrite (wrap_small 16) by lia.
  apply wp_bind, (wp_store_tail Hm); [lia | lia |]. intros w1 Hw1 Hm1 Hs1.
  assert (zlen (w_mem w1) = zlen (w_mem w)) as Hz1 by apply Hs1.
  apply wp_bind, (wp_store_tail Hm1); [lia | lia |]. intros w2 Hw2 Hm2 Hs2.
  assert (zlen (w_mem w2) = zlen (w_mem w)) as Hz2 by (rewrite <- Hz1; apply Hs2).
  apply wp_bind. unfold read_data.
  rewrite (proj2 (in_range_true 0 len data)) by lia. apply wp_ret.
  assert (zlen (slice 0 len data) = len) as Hzd by (apply zlen_slice; lia).
  unfold mnl_attr_get_payload. change MNL_ATTR_HDRLEN with 4.
  apply wp_bind, wp_store_bytes; [lia | lia |].
  set (m3 := splice (nlh + L + 4) (slice 0 len data) (w_mem w2)).
  assert (msg_len nlh L (with_mem m3 w2)) as Hm3 by (apply msg_len_splice; [done | lia | lia]).
  assert (same_msg nlh L w2 (with_mem m3 w2)) as Hs3 by (apply same_msg_splice; lia).
  assert (zlen m3 = zlen (w_mem w)) as Hz3 by (unfold m3; rewrite zlen_splice; lia).
  apply wp_bind, wp_nlmsg_len; simpl; [lia | lia |].
  rewrite (ml_len _ _ _ Hm3 : rd 4 nlh m3 = L).
  rewrite MNL_ALIGN_align4 by lia.
  eapply (wp_set_len nlh False L (L + align4 (4 + len))); [done | | lia | simpl; lia |].
  { rewrite Z.add_mod, ml_mod0, Hmod4 by lia. done. }
  intros w4 Hm4 Hs4. simpl. rewrite Hzd, Z.add_0_r.
  pose proof (sm_zlen _ _ _ _ Hs4) as Hz4. simpl in Hz4.
  split; [done |]. split; [done |]. split; [split |].
  -
    assert (forall i : nat, nlh + L <= Z.of_nat i < nlh + L + align4 (4 + len) ->
              w_mem w4 !! i = m3 !! i) as Hi by (intros; apply Hs4; lia).
    rewrite (rd_ext 2 (nlh + L) _ m3) by (intros; try apply Hi; lia).
    rewrite (rd_ext 2 (nlh + L + 2) _ m3) by (intros; try apply Hi; lia).
    rewrite (slice_ext (nlh + L + 4) _ _ m3) by (intros; try apply Hi; lia).
    assert (slice (nlh + L + 4) len m3 = slice 0 len data) as ->.
    { unfold m3. rewrite <- Hzd at 1. apply slice_splice_eq; lia. }
    unfold m3. rewrite !rd_splice_ne by lia. rewrite Hw2. simpl.
    rewrite rd_splice_eq by lia. rewrite rd_splice_ne by zl.
    rewrite Hw1. simpl. rewrite rd_splice_eq by lia.
    split_and!; try lia; try done; apply wrap_small; simpl; lia.
  - lia.
  - eapply same_msg_trans; [| exact Hs1 |]; [done |].
    eapply same_msg_trans; [| exact Hs2 |]; [done |].
    eapply same_msg_trans; [| exact Hs3 |]; [done |].
    destruct Hs4. split; try done. intros. apply sm_bytes0. lia.
Qed.

Lemma wp_nest_start E L ty w (Q : Z -> world -> Prop) :
  msg_len nlh L w -> nlh + L + 4 <= zlen (w_mem w) -> 0 <= ty < 2 ^ 14 ->
  (forall w', msg_len nlh (L + 4) w' -> same_msg nlh L w w' ->
     rd 2 (nlh + L + 2) (w_mem w') = Z.lor NLA_F_NESTED ty -> Q (nlh + L) w') ->
  wp E (mnl_attr_nest_start nlh ty) Q w.
Proof.
  intros Hm Hroom Hty HQ. pose proof Hm as [].
  unfold mnl_attr_nest_start. apply wp_bind, (wp_tail nlh E L); [done |].
  apply wp_bind, (wp_store_tail Hm); [lia | lia |]. intros w1 Hw1 Hm1 Hs1.
  pose proof (sm_zlen _ _ _ _ Hs1) as Hz1.
  apply wp_bind, wp_nlmsg_len; [lia | lia |]. rewrite (ml_len _ _ _ Hm1).
  change (MNL_ALIGN 64 sizeof_nlattr) with 4.
  apply wp_bind, (wp_set_len nlh E L (L + 4)); [done | | lia | lia |].
  { rewrite Z.add_mod, ml_mod0 by lia. done. }
  intros w2 Hm2 Hs2. apply wp_ret, HQ; [done | |].
  - eapply same_msg_trans; [| exact Hs1 |]; [done |].
    destruct Hs2. split; try done. intros. apply sm_bytes0. lia.
  - rewrite (rd_ext 2 _ _ (w_mem w1)) by (intros; try apply Hs2; lia).
    rewrite Hw1. simpl. rewrite rd_splice_eq by lia. apply wrap_small.
    rewrite lor_nested by done. simpl. lia.
Qed.

(** Closing a nest: the attributes appended since its start become its payload. *)
Lemma appends_nest {A B} room ty (body : M A) ts (Q0 : A -> Prop) (K : A -> Z -> M B) (g : A -> B) :
  0 <= ty < 2 ^ 14 -> 4 + tlvs_size ts < 2 ^ 16 -> tlvs_size ts <= room ->
  appends nlh room body ts Q0 ->
  (forall a s, Q0 a -> K a s = (mnl_attr_nest_end nlh s ;;; ret (g a))) ->
  appends nlh (4 + room)
    (let! s := mnl_attr_nest_start nlh ty in let! a := body in K a s)
    [Nest ty ts] (fun b => exists a, Q0 a /\ b = g a).
Proof.
  intros Hty H16 Hts Hbody HK w L Hm Hroom. pose proof Hm as [].
  pose proof (tlvs_size_nonneg ts).
  apply wp_bind, (wp_nest_start False L); [done | lia | done |]. intros w1 Hm1 Hs1 Hrd1.
  pose proof (sm_zlen _ _ _ _ Hs1) as Hz1.
  apply wp_bind. eapply wp_mono; [apply (Hbody w1 _ Hm1); lia |].
  intros a w2 (Ha & Hm2 & Hat2 & Hs2). rewrite (HK a (nlh + L) Ha).
  pose proof (sm_zlen _ _ _ _ Hs2) as Hz2. pose proof (ml_fit _ _ _ Hm2).
  apply wp_bind. unfold mnl_attr_nest_end. apply wp_bind, (wp_tail nlh False _ _ _ Hm2).
  replace (nlh + (L + 4 + tlvs_size ts) - (nlh + L)) with (4 + tlvs_size ts) by lia.
  unfold set_nla_len, store16, store. apply wp_store_bytes; [lia | zl |].
  set (m3 := splice (nlh + L) (le_enc 2 (4 + tlvs_size ts)) (w_mem w2)).
  assert (zlen m3 = zlen (w_mem w2)) as Hz3 by (unfold m3; rewrite zlen_splice; zl).
  apply wp_ret. split; [by exists a |]. 
  assert (L + tlvs_size [Nest ty ts] = L + 4 + tlvs_size ts) as ->
    by (change (tlvs_size [Nest ty ts]) with (4 + tlvs_size ts + 0); lia).
  split; [apply msg_len_splice; [done | lia | zl] |]. split.
  - change (w_mem (with_mem m3 w2)) with m3.
    split; [| rewrite tlv_size_Nest; change (nlh + L + (4 + tlvs_size ts) <= zlen m3); lia].
    apply attr_at_Nest. split_and!; try lia; try done.
    + unfold m3. rewrite rd_splice_eq by lia. apply wrap_small. simpl. lia.
    + unfold m3. rewrite rd_splice_ne by zl. rewrite <- Hrd1.
      apply rd_ext; [lia |]. intros. apply Hs2. lia.
    + replace (nlh + L + 4) with (nlh + (L + 4)) by lia.
      eapply attrs_at_ext; [done | lia | done |]. intros i Hi.
      symmetry. apply lookup_splice_out; zl.
  - eapply same_msg_trans; [| exact Hs1 |]; [done |].
    eapply (same_msg_trans _ _ L _ w2); [done | |].
    + destruct Hs2. split; try done. intros. apply sm_bytes0. lia.
    + apply same_msg_splice; zl.
Qed.

(** Cancelling a nest: the message is as long as before its start. *)
Lemma appends_nest_cancel {A B} room ty (body : M A) ts (Q0 : A -> Prop)
    (K : A -> Z -> M B) (g : A -> B) :
  0 <= ty < 2 ^ 14 -> tlvs_size ts <= room -> appends nlh room body ts Q0 ->
  (forall a s, Q0 a -> K a s = (mnl_attr_nest_cancel nlh s ;;; ret (g a))) ->
  appends nlh (4 + room)
    (let! s := mnl_attr_nest_start nlh ty in let! a := body in K a s)
    [] (fun b => exists a, Q0 a /\ b = g a).
Proof.
  intros Hty Hts Hbody HK w L Hm Hroom. pose proof Hm as [].
  pose proof (tlvs_size_nonneg ts).
  apply wp_bind, (wp_nest_start False L); [done | lia | done |]. intros w1 Hm1 Hs1 Hrd1.
  pose proof (sm_zlen _ _ _ _ Hs1) as Hz1.
  apply wp_bind. eapply wp_mono; [apply (Hbody w1 _ Hm1); lia |].
  intros a w2 (Ha & Hm2 & Hat2 & Hs2). rewrite (HK a (nlh + L) Ha).
  pose proof (sm_zlen _ _ _ _ Hs2) as Hz2. pose proof (ml_fit _ _ _ Hm2).
  apply wp_bind. unfold mnl_attr_nest_cancel. apply wp_bind, (wp_tail nlh False _ _ _ Hm2).
  apply wp_bind, wp_nlmsg_len; [lia | lia |]. rewrite (ml_len _ _ _ Hm2).
  replace (L + 4 + tlvs_size ts - (nlh + (L + 4 + tlvs_size ts) - (nlh + L))) with L by lia.
  apply (wp_set_len nlh False _ L _ _ Hm2); [done | done | lia |].
  intros w3 Hm3 Hs3. apply wp_ret. simpl. rewrite Z.add_0_r.
  split; [by exists a |]. split; [done |]. split; [destruct Hm3; lia |].
  eapply same_msg_trans; [| exact Hs1 |]; [done |].
  eapply (same_msg_trans _ _ L _ w2); [done | | exact Hs3].
  destruct Hs2. split; try done. intros. apply sm_bytes0. lia.
Qed.
End BuildOps.
