(* ===== verification/TlvParse.v ===== *)
(** What the libmnl iterators and validators of MnlAttr.v do: on any buffer
    (bounds and termination) and on a buffer that holds attribute trees. *)
From S2P Require Import Prelude CMonad MnlMsg MnlAttr Tlv.

(** * Attributes inside the buffer *)

(** A whole attribute starts at offset [attr] of [m]. *)
Definition valid_attr (m : list Z) (attr : Z) : Prop :=
  0 <= attr /\ 4 <= rd 2 attr m < 2 ^ 16 /\ attr + rd 2 attr m <= zlen m.

Definition payload (attr : Z) (m : list Z) : list Z := slice (attr + 4) (rd 2 attr m - 4) m.

Lemma zlen_payload m attr : valid_attr m attr -> zlen (payload attr m) = rd 2 attr m - 4.
Proof. intros (? & ? & ?). apply zlen_slice; lia. Qed.

(** A state change that keeps the buffer: only [errno] and the allocator moved. *)
Definition keeps_mem (w w' : world) : Prop := w_mem w' = w_mem w.

Section Getters.
Context (E : Prop) (attr : Z) (w : world).
Hypothesis Hv : valid_attr (w_mem w) attr.

Lemma wp_nla_len (Q : Z -> world -> Prop) :
  Q (rd 2 attr (w_mem w)) w -> wp E (nla_len attr) Q w.
Proof. destruct Hv as (? & ? & ?). intros. apply wp_load; auto with lia. Qed.

Lemma wp_get_type (Q : Z -> world -> Prop) :
  Q (Z.land (rd 2 (attr + 2) (w_mem w)) NLA_TYPE_MASK) w -> wp E (mnl_attr_get_type attr) Q w.
Proof.
  destruct Hv as (? & ? & ?). intros. unfold mnl_attr_get_type.
  apply wp_bind, wp_load; [lia | lia |]. by apply wp_ret.
Qed.

Lemma wp_payload_len (Q : Z -> world -> Prop) :
  Q (zlen (payload attr (w_mem w))) w -> wp E (mnl_attr_get_payload_len attr) Q w.
Proof.
  intros HQ. rewrite zlen_payload in HQ by done. destruct Hv as (? & ? & ?).
  unfold mnl_attr_get_payload_len. apply wp_bind, wp_nla_len, wp_ret.
  change MNL_ATTR_HDRLEN with 4. rewrite wrap_small by lia. done.
Qed.

Lemma wp_get_int n (Q : Z -> world -> Prop) :
  zlen (payload attr (w_mem w)) = Z.of_nat n -> Q (le_dec (payload attr (w_mem w))) w ->
  wp E (load n (mnl_attr_get_payload attr)) Q w.
Proof.
  intros Hn HQ. rewrite zlen_payload in Hn by done. destruct Hv as (? & ? & ?).
  unfold mnl_attr_get_payload. change MNL_ATTR_HDRLEN with 4.
  apply wp_load; [lia | lia |]. unfold payload in HQ. rewrite Hn in HQ. done.
Qed.

Lemma wp_get_bytes n (Q : list Z -> world -> Prop) :
  zlen (payload attr (w_mem w)) = n -> Q (payload attr (w_mem w)) w ->
  wp E (load_bytes (mnl_attr_get_payload attr) n) Q w.
Proof.
  intros Hn HQ. rewrite zlen_payload in Hn by done. destruct Hv as (? & ? & ?).
  unfold mnl_attr_get_payload. change MNL_ATTR_HDRLEN with 4.
  apply wp_load_bytes; [lia | lia | lia |]. unfold payload in HQ. rewrite Hn in HQ. done.
Qed.

Lemma wp_type_valid max (Q : Z -> world -> Prop) :
  (let t := Z.land (rd 2 (attr + 2) (w_mem w)) NLA_TYPE_MASK in
   if max <? t then Q (-1) (with_errno EOPNOTSUPP w) else Q 1 w) ->
  wp E (mnl_attr_type_valid attr max) Q w.
Proof.
  intros HQ. unfold mnl_attr_type_valid. apply wp_bind, wp_get_type. simpl in HQ.
  destruct (max <? _); [apply wp_bind, wp_set_errno |]; by apply wp_ret.
Qed.
End Getters.

(** * Validation *)

(** The payloads [__mnl_attr_validate] accepts. *)
Definition validate_ok (type : mnl_attr_data_type) (exp_len : Z) (d : list Z) : bool :=
  (exp_len <=? zlen d) &&
  match type with
  | MNL_TYPE_FLAG => zlen d =? 0
  | MNL_TYPE_NUL_STRING => negb (zlen d =? 0) && (le_dec (slice (zlen d - 1) 1 d) =? 0)
  | MNL_TYPE_STRING => negb (zlen d =? 0)
  | MNL_TYPE_NESTED => (zlen d =? 0) || (4 <=? zlen d)
  | _ => true
  end &&
  ((exp_len =? 0) || (zlen d <=? exp_len)).

Lemma slice_slice o n i k m :
  0 <= o -> 0 <= i -> 0 <= k -> i + k <= n -> slice i k (slice o n m) = slice (o + i) k m.
Proof.
  intros. unfold slice. rewrite skipn_firstn_comm, take_take, drop_drop. f_equal; [lia |].
  f_equal. lia.
Qed.

(** The error [__mnl_attr_validate] reports for a payload it rejects. *)
Definition validate_errno (type : mnl_attr_data_type) (exp_len : Z) (d : list Z) : Z :=
  match type with
  | MNL_TYPE_NUL_STRING =>
      if (exp_len <=? zlen d) && negb (zlen d =? 0) && negb (le_dec (slice (zlen d - 1) 1 d) =? 0)
      then EINVAL else ERANGE
  | _ => ERANGE
  end.

Lemma payload_len_run attr w :
  valid_attr (w_mem w) attr ->
  mnl_attr_get_payload_len attr w = Ok (zlen (payload attr (w_mem w)), w).
Proof.
  intros Hv. rewrite zlen_payload by done. destruct Hv as (? & ? & ?).
  unfold mnl_attr_get_payload_len, nla_len, load16, bind. rewrite load_ok by lia.
  unfold ret. change MNL_ATTR_HDRLEN with 4. by rewrite wrap_small by lia.
Qed.

Lemma validate_run attr type exp_len w :
  valid_attr (w_mem w) attr -> 0 <= exp_len ->
  let d := payload attr (w_mem w) in
  __mnl_attr_validate attr type exp_len w =
    if validate_ok type exp_len d then Ok (0, w)
    else Ok (-1, with_errno (validate_errno type exp_len d) w).
Proof.
  intros Hv He d. unfold __mnl_attr_validate, bind at 1. rewrite payload_len_run by done. fold d.
  pose proof (zlen_payload _ _ Hv) as Hz. fold d in Hz. destruct Hv as (? & ? & ?).
  assert (zlen d <> 0 -> load8 (mnl_attr_get_payload attr + zlen d - 1) w
            = Ok (le_dec (slice (zlen d - 1) 1 d), w)) as Hlast.
  { intros. unfold load8, mnl_attr_get_payload. change MNL_ATTR_HDRLEN with 4.
    rewrite load_ok by lia.
    assert (slice (zlen d - 1) 1 d = slice (attr + 4 + (zlen d - 1)) 1 (w_mem w)) as ->
      by (unfold d at 2, payload; apply slice_slice; lia).
    unfold rd. do 4 f_equal. lia. }
  unfold validate_ok, validate_errno. change MNL_ATTR_HDRLEN with 4.
  destruct (Z.ltb_spec (zlen d) exp_len).
  { rewrite (proj2 (Z.leb_gt exp_len (zlen d))) by lia. by destruct type. }
  rewrite (proj2 (Z.leb_le exp_len (zlen d))) by lia.
  set (F := if negb (exp_len =? 0) && (exp_len <? zlen d) then fail_errno ERANGE else ret 0).
  set (b := (exp_len =? 0) || (zlen d <=? exp_len)).
  assert (F w = if b then Ok (0, w) else Ok (-1, with_errno ERANGE w)) as Hfin.
  { unfold F, b. rewrite Z.leb_antisym. destruct (exp_len =? 0), (exp_len <? zlen d); done. }
  clearbody F b. pose proof (zlen_nonneg d). destruct type; simpl; rewrite ?Hfin; try done.
  - destruct (Z.eqb_spec (zlen d) 0); simpl; [done | by rewrite Hfin].
  - destruct (Z.ltb_spec 0 (zlen d)), (Z.eqb_spec (zlen d) 0); simpl; try lia; [done | by rewrite Hfin].
  - destruct (Z.eqb_spec (zlen d) 0); simpl; [by rewrite Hfin |].
    destruct (Z.ltb_spec (zlen d) 4), (Z.leb_spec 4 (zlen d)); simpl; try lia; [done | by rewrite Hfin].
  - destruct (Z.eqb_spec (zlen d) 0) as [|Hn]; simpl; [done |].
    unfold bind. rewrite Hlast by done. destruct (_ =? 0); simpl; [by rewrite Hfin | done].
Qed.

(** * Iteration over an arbitrary buffer *)

(** The attributes an iteration that starts at [o] and ends at [e] can reach. *)
Inductive in_attrs (m : list Z) (e : Z) : Z -> Z -> Prop :=
| in_here o : 4 <= rd 2 o m <= e - o -> in_attrs m e o o
| in_next o a : 4 <= rd 2 o m <= e - o -> in_attrs m e (o + align4 (rd 2 o m)) a -> in_attrs m e o a.

(** The same as a list; every attribute takes at least four bytes. *)
Fixpoint attr_list (fuel : nat) (m : list Z) (e o : Z) : list Z :=
  match fuel with
  | O => []
  | S fuel => if (4 <=? rd 2 o m) && (rd 2 o m <=? e - o)
              then o :: attr_list fuel m e (o + align4 (rd 2 o m)) else []
  end.

Lemma in_attrs_list m e o a : in_attrs m e o a ->
  forall fuel, (Z.to_nat (e - o) < fuel)%nat -> a ∈ attr_list fuel m e o.
Proof.
  induction 1 as [o Hr|o a Hr _ IH]; intros [|fuel] Hf; try lia; cbn [attr_list].
  all: rewrite (proj2 (andb_true_iff _ _)) by (split; apply Z.leb_le; lia).
  - by left.
  - right. apply IH. pose proof (align4_spec (rd 2 o m)). lia.
Qed.

(** What an attribute callback promises to the iterators: on an attribute that
    lies in the buffer and satisfies [V] it does not fault (it may terminate the
    process when [E]), it leaves the buffer alone and it keeps the invariant [I]
    of its user data. *)
Class AttrCb {S} (E : Prop) (V : list Z -> Z -> Prop) (cb : mnl_attr_cb_t S) (I : list Z -> S -> Prop)
  : Prop :=
  attr_cb_ok : forall attr data w,
    mem_ok w -> valid_attr (w_mem w) attr -> V (w_mem w) attr -> I (w_mem w) data ->
    wp E (cb attr data) (fun '(_, data') w' => w_mem w' = w_mem w /\ I (w_mem w) data') w.

Section Loop.
Context {S : Type} (E : Prop) (V : list Z -> Z -> Prop).
Context (cb : mnl_attr_cb_t S) (I : list Z -> S -> Prop).
Context `{Hcb : !AttrCb E V cb I}.

(** The loop ends and stays in the buffer, for any contents of the buffer. *)
Lemma attr_for_each_safe fuel bound attr e r data w :
  mem_ok w -> 0 <= attr -> e <= zlen (w_mem w) -> zlen (w_mem w) < 2 ^ 31 - 4 ->
  e - attr < 2 ^ 31 -> - 2 ^ 31 <= e - attr ->
  (forall a w', w_mem w' = w_mem w -> bound a w' = Ok (sint 32 (e - a), w')) ->
  (Z.to_nat (e - attr) < fuel)%nat -> (forall a, in_attrs (w_mem w) e attr a -> V (w_mem w) a) ->
  I (w_mem w) data ->
  wp E (attr_for_each fuel bound cb attr r data)
     (fun '(_, data') w' => w_mem w' = w_mem w /\ I (w_mem w) data') w.
Proof.
  revert attr r data w. induction fuel as [|fuel IH]; intros attr r data w Hm Ha He Hz H1 H2 Hb Hf HV HI;
    [lia |].
  simpl. apply wp_bind. unfold wp at 1. rewrite Hb by done. rewrite sint_small by lia.
  apply wp_bind. unfold mnl_attr_ok, sizeof_nlattr.
  destruct (Z.leb_spec 4 (e - attr)); [| by apply wp_ret, wp_ret].
  apply wp_bind, wp_load; [lia | lia |]. apply wp_ret.
  pose proof (rd_range 2 attr (w_mem w) Hm ltac:(lia) ltac:(lia)) as Hr.
  destruct (_ && _) eqn:Hok; [| by apply wp_ret].
  apply andb_true_iff in Hok as [?%Z.leb_le ?%Z.leb_le].
  assert (valid_attr (w_mem w) attr) as Hv by (split_and!; simpl in *; lia).
  apply wp_bind. eapply wp_mono.
  { apply (attr_cb_ok (E := E)); try done. apply HV. constructor. simpl in *. lia. }
  intros [r' data'] w' [Hw HI']. destruct (r' <=? MNL_CB_STOP); [by apply wp_ret |].
  apply wp_bind. unfold mnl_attr_next. apply wp_bind, wp_load; rewrite ?Hw; [lia | lia |].
  apply wp_ret. rewrite MNL_ALIGN_align4 by (simpl in *; lia).
  pose proof (align4_spec (rd 2 attr (w_mem w))).
  rewrite <- Hw. apply IH; rewrite ?Hw; try done; try lia.
  - unfold mem_ok. by rewrite Hw.
  - intros a Hin. apply HV. apply in_next; [simpl in *; lia | done].
Qed.

Lemma parse_nested_safe attr data w :
  mem_ok w -> zlen (w_mem w) < 2 ^ 31 - 4 -> valid_attr (w_mem w) attr ->
  (forall a, in_attrs (w_mem w) (attr + rd 2 attr (w_mem w)) (attr + 4) a -> V (w_mem w) a) ->
  I (w_mem w) data ->
  wp E (mnl_attr_parse_nested attr cb data)
     (fun '(_, data') w' => w_mem w' = w_mem w /\ I (w_mem w) data') w.
Proof.
  intros Hm Hz Hv HV HI. pose proof (zlen_payload _ _ Hv) as Hl.
  unfold mnl_attr_parse_nested.
  assert (forall a w', w_mem w' = w_mem w ->
            nested_bound attr a w' = Ok (sint 32 (attr + rd 2 attr (w_mem w) - a), w')) as Hb.
  { intros a w' Hw. unfold nested_bound, bind. rewrite payload_len_run by by rewrite Hw.
    rewrite Hw, Hl. unfold ret, mnl_attr_get_payload. change MNL_ATTR_HDRLEN with 4.
    do 3 f_equal. lia. }
  destruct Hv as (? & ? & ?). unfold mnl_attr_get_payload. change MNL_ATTR_HDRLEN with 4.
  apply wp_bind. unfold wp at 1. rewrite Hb by done. rewrite sint_small by lia.
  apply (attr_for_each_safe _ _ _ (attr + rd 2 attr (w_mem w))); try done; try lia.
  unfold loop_fuel. lia.
Qed.

Lemma parse_payload_safe p n data w :
  mem_ok w -> zlen (w_mem w) < 2 ^ 31 - 4 -> 0 <= p -> 0 <= n -> p + n <= zlen (w_mem w) ->
  (forall a, in_attrs (w_mem w) (p + n) p a -> V (w_mem w) a) ->
  I (w_mem w) data ->
  wp E (mnl_attr_parse_payload p n cb data)
     (fun '(_, data') w' => w_mem w' = w_mem w /\ I (w_mem w) data') w.
Proof.
  intros. unfold mnl_attr_parse_payload. apply wp_bind, wp_ret. rewrite sint_small by lia.
  apply (attr_for_each_safe _ _ _ (p + n)); try done; try lia. unfold loop_fuel. lia.
Qed.
End Loop.

(** * Iteration over attribute trees *)

Lemma attr_at_valid m o t : attr_at m o t -> valid_attr m o.
Proof.
  destruct t as [ty d|ty l].
  - intros (? & Hr & _ & _ & ? & ? & _). pose proof (align4_spec (4 + zlen d)).
    pose proof (zlen_nonneg d). unfold valid_attr. lia.
  - rewrite attr_at_Nest. intros (? & Hr & _ & ? & _ & Hs). apply attrs_at_bound in Hs.
    pose proof (tlvs_size_nonneg l). unfold valid_attr. lia.
Qed.

Lemma attr_at_type m o t :
  attr_at m o t -> Z.land (rd 2 (o + 2) m) NLA_TYPE_MASK = tlv_type t.
Proof.
  destruct t as [ty d|ty l].
  - intros (_ & _ & -> & _ & _ & _ & ?). by apply type_mask.
  - rewrite attr_at_Nest. intros (_ & _ & -> & _ & ? & _). by apply type_mask_nested.
Qed.

Lemma attr_at_payload_Leaf m o ty d : attr_at m o (Leaf ty d) -> payload o m = d.
Proof.
  intros (_ & Hr & _ & Hd & _). unfold payload. rewrite Hr.
  by replace (4 + zlen d - 4) with (zlen d) by lia.
Qed.

Lemma attr_at_payload_len_Nest m o ty l :
  attr_at m o (Nest ty l) -> zlen (payload o m) = tlvs_size l.
Proof.
  intros Ha. rewrite zlen_payload by by eapply attr_at_valid.
  rewrite attr_at_Nest in Ha. destruct Ha as (_ & -> & _). lia.
Qed.

Lemma attr_at_next m o t : attr_at m o t -> align4 (rd 2 o m) = tlv_size t.
Proof.
  destruct t as [ty d|ty l].
  - intros (_ & -> & _). done.
  - rewrite attr_at_Nest, tlv_size_Nest. intros (_ & -> & _). apply align4_id.
    pose proof (proj1 tlv_sizes_spec (Nest ty l)) as [_ H]. exact H.
Qed.

(** The attributes of a forest with their offsets. *)
Fixpoint offs (o : Z) (l : list tlv) : list (Z * tlv) :=
  match l with [] => [] | t :: l => (o, t) :: offs (o + tlv_size t) l end.

Section Forest.
Context {S : Type} (E : Prop) (cb : mnl_attr_cb_t S) (m : list Z).
(** What holds of the user data after the attributes of a prefix. *)
Context (I : list (Z * tlv) -> S -> Prop).
(** What holds of the process state throughout, and of the attributes. *)
Context (W : world -> Prop) (HW : forall w, W w -> w_mem w = m) (V : tlv -> Prop).
Hypothesis Hcb : forall done o t data w,
  W w -> attr_at m o t -> V t -> I done data ->
  wp E (cb o data) (fun '(r, data') w' => 0 < r /\ W w' /\ I (done ++ [(o, t)]) data') w.

Lemma attr_for_each_forest fuel bound attr l done r data w :
  W w -> zlen m < 2 ^ 31 - 4 -> 0 <= attr -> attrs_at m attr l -> Forall V l ->
  (forall a w', w_mem w' = m -> bound a w' = Ok (sint 32 (attr + tlvs_size l - a), w')) ->
  (Z.to_nat (tlvs_size l) < fuel)%nat -> 0 < r -> I done data ->
  wp E (attr_for_each fuel bound cb attr r data)
     (fun '(r', data') w' => 0 < r' /\ W w' /\ I (done ++ offs attr l) data') w.
Proof.
  intros Hw Hz Ha Hat HV Hb Hf Hr HI.
  remember (attr + tlvs_size l) as e eqn:He.
  revert attr l done r data w Hw Ha Hat HV He Hf Hr HI.
  induction fuel as [|fuel IH]; intros attr l done r data w Hw Ha Hat HV He Hf Hr HI; [lia |].
  pose proof (HW _ Hw) as Hwm.
  pose proof (attrs_at_bound _ _ _ Hat). pose proof (tlvs_size_nonneg l).
  simpl. apply wp_bind. unfold wp at 1. rewrite Hb by done. rewrite sint_small by lia.
  apply wp_bind. unfold mnl_attr_ok, sizeof_nlattr. destruct l as [|t l].
  { simpl in He. rewrite (proj2 (Z.leb_gt 4 (e - attr))) by lia.
    apply wp_ret, wp_ret. simpl. rewrite app_nil_r. auto. }
  destruct Hat as [Ht Hl]. apply Forall_cons in HV as [HVt HVl]. simpl in He, Hf. pose proof (tlv_size_ge t).
  pose proof (attr_at_valid _ _ _ Ht) as (? & ? & ?). pose proof (attr_at_next _ _ _ Ht) as Hn.
  pose proof (tlvs_size_nonneg l). pose proof (align4_spec (rd 2 attr m)).
  rewrite (proj2 (Z.leb_le 4 (e - attr))) by lia.
  apply wp_bind, wp_load; rewrite ?Hwm; [lia | lia |]. apply wp_ret.
  rewrite (proj2 (andb_true_iff _ _)) by (split; apply Z.leb_le; lia).
  apply wp_bind. eapply wp_mono; [by apply Hcb |]. intros [r' data'] w' (Hr' & Hw' & HI'). pose proof (HW _ Hw') as Hwm'.
  rewrite (proj2 (Z.leb_gt r' MNL_CB_STOP)) by (unfold MNL_CB_STOP; lia).
  apply wp_bind. unfold mnl_attr_next. apply wp_bind, wp_load; rewrite ?Hwm'; [lia | lia |].
  apply wp_ret. rewrite MNL_ALIGN_align4, Hn by lia.
  eapply wp_mono; [apply (IH _ l); try done; lia |].
  intros [r'' d''] w'' (? & ? & HI''). rewrite <- app_assoc in HI''. auto.
Qed.

Lemma parse_nested_forest attr ty l data w :
  W w -> zlen m < 2 ^ 31 - 4 -> attr_at m attr (Nest ty l) -> Forall V l -> I [] data ->
  wp E (mnl_attr_parse_nested attr cb data)
     (fun '(r', data') w' => 0 < r' /\ W w' /\ I (offs (attr + 4) l) data') w.
Proof.
  intros Hw Hz Hat HV HI. pose proof (attr_at_valid _ _ _ Hat) as Hv.
  pose proof (attr_at_payload_len_Nest _ _ _ _ Hat) as Hl.
  assert (forall a w', w_mem w' = m ->
            nested_bound attr a w' = Ok (sint 32 (attr + 4 + tlvs_size l - a), w')) as Hb.
  { intros a w' Hw'. unfold nested_bound, bind. rewrite payload_len_run by by rewrite Hw'.
    rewrite Hw', Hl. done. }
  unfold mnl_attr_parse_nested, mnl_attr_get_payload. change MNL_ATTR_HDRLEN with 4.
  rewrite attr_at_Nest in Hat. destruct Hat as (? & _ & _ & ? & _ & Hs). pose proof (attrs_at_bound _ _ _ Hs).
  pose proof (tlvs_size_nonneg l).
  apply wp_bind. unfold wp at 1. rewrite Hb by auto. rewrite sint_small by lia.
  apply (attr_for_each_forest _ _ (attr + 4) l []); try done; try lia. unfold loop_fuel. lia.
Qed.

Lemma parse_payload_forest p l data w :
  W w -> zlen m < 2 ^ 31 - 4 -> 0 <= p -> attrs_at m p l -> Forall V l -> I [] data ->
  wp E (mnl_attr_parse_payload p (tlvs_size l) cb data)
     (fun '(r', data') w' => 0 < r' /\ W w' /\ I (offs p l) data') w.
Proof.
  intros Hw Hz Hp Hs HV HI. pose proof (attrs_at_bound _ _ _ Hs). pose proof (tlvs_size_nonneg l).
  unfold mnl_attr_parse_payload. apply wp_bind, wp_ret. rewrite sint_small by lia.
  apply (attr_for_each_forest _ _ p l []); try done. unfold loop_fuel. lia.
Qed.
End Forest.

(** * Iteration as a fold *)

(** The callback as a function: over the list of attributes, up to the first
    result that stops the iteration. *)
Fixpoint run_cb {S} (f : Z -> S -> Z * S) (l : list Z) (r : Z) (data : S) : Z * S :=
  match l with
  | [] => (r, data)
  | a :: l => let '(r', data') := f a data in
              if r' <=? MNL_CB_STOP then (r', data') else run_cb f l r' data'
  end.

Section Fold.
Context {S : Type} (cb : mnl_attr_cb_t S) (m : list Z) (f : Z -> S -> Z * S) (I : S -> Prop).
Hypothesis Hm : Forall byte_ok m.
Hypothesis Hz : zlen m < 2 ^ 31 - 4.
Hypothesis Hcb : forall a data w, w_mem w = m -> valid_attr m a -> I data ->
  exists w', cb a data w = Ok (f a data, w') /\ w_mem w' = m /\ I (f a data).2.

(** On a buffer of arbitrary bytes the loop ends and is the fold of the callback
    over the attributes from [attr] to [e]. *)
Lemma attr_for_each_fold fuel bound attr e r data w :
  w_mem w = m -> 0 <= attr -> e <= zlen m -> - 2 ^ 31 <= e - attr < 2 ^ 31 ->
  (forall a w', w_mem w' = m -> bound a w' = Ok (sint 32 (e - a), w')) ->
  (Z.to_nat (e - attr) < fuel)%nat -> I data ->
  exists w', attr_for_each fuel bound cb attr r data w
             = Ok (run_cb f (attr_list fuel m e attr) r data, w') /\ w_mem w' = m.
Proof.
  revert attr r data w. induction fuel as [|fuel IH]; intros attr r data w Hw Ha He Hr Hb Hf HI; [lia|].
  cbn [attr_for_each attr_list]. unfold bind at 1. rewrite Hb by done. rewrite sint_small by lia.
  unfold mnl_attr_ok, sizeof_nlattr, nla_len, load16.
  destruct (Z.leb_spec 4 (e - attr)); cycle 1.
  { exists w. rewrite andb_comm. destruct (Z.leb_spec (rd 2 attr m) (e - attr)); [|done].
    rewrite (proj2 (Z.leb_gt 4 _)) by lia. done. }
  unfold bind at 1 2. rewrite load_ok by (rewrite ?Hw; lia). rewrite Hw. unfold ret at 1.
  pose proof (rd_range 2 attr m Hm Ha ltac:(lia)) as Hrd. simpl in Hrd.
  destruct (_ && _) eqn:Hok; [|by exists w].
  apply andb_true_iff in Hok as [?%Z.leb_le ?%Z.leb_le].
  destruct (Hcb attr data w Hw) as (w' & Hrun & Hw' & HI'); [split_and!; simpl; lia|done|].
  cbn [run_cb]. unfold bind at 1. rewrite Hrun. destruct (f attr data) as [r' data'].
  destruct (r' <=? MNL_CB_STOP); [by exists w'|].
  unfold mnl_attr_next, nla_len, load16, bind at 1 2. rewrite load_ok by (rewrite ?Hw'; lia).
  rewrite Hw'. unfold ret at 1. rewrite MNL_ALIGN_align4 by lia.
  pose proof (align4_spec (rd 2 attr m)). apply IH; try done; lia.
Qed.
End Fold.

(** The attributes of a forest are those an iteration over it meets. *)
Lemma attr_list_forest m l : forall fuel o, (Z.to_nat (tlvs_size l) < fuel)%nat -> attrs_at m o l ->
  attr_list fuel m (o + tlvs_size l) o = map fst (offs o l).
Proof.
  induction l as [|t l IH]; intros [|fuel] o Hf Hat; try (cbn [tlvs_size] in *; lia); cbn [attr_list offs map].
  - rewrite andb_comm. destruct (Z.leb_spec (rd 2 o m) (o + tlvs_size [] - o)); [|done].
    cbn [tlvs_size] in *. by rewrite (proj2 (Z.leb_gt 4 _)) by lia.
  - destruct Hat as [Ht Hl]. cbn [tlvs_size] in *. pose proof (tlv_size_ge t). pose proof (tlvs_size_nonneg l).
    pose proof (attr_at_valid _ _ _ Ht) as (? & ? & ?). pose proof (attr_at_next _ _ _ Ht) as Hn.
    pose proof (align4_spec (rd 2 o m)).
    rewrite (proj2 (andb_true_iff _ _)) by (split; apply Z.leb_le; lia). f_equal.
    rewrite Hn, Z.add_assoc. apply IH; [lia|done].
Qed.

(** * The validators *)

(** C34: [mnl_attr_validate] decides the contract of its data type on every
    attribute that lies in the buffer: it returns 0 without touching anything
    when the payload has exactly the width of a fixed-width type, is non-empty
    for a string, ends with a NUL for a NUL string, is empty or can hold a
    header for a nest; otherwise it returns -1 with ERANGE or EINVAL in
    [errno], and an unknown type is refused with EINVAL. *)
Theorem mnl_attr_validate_spec attr type w :
  valid_attr (w_mem w) attr ->
  let d := payload attr (w_mem w) in
  let n := mnl_attr_data_type_len type in
  mnl_attr_validate attr type w =
    if type_is_max type then Ok (-1, with_errno EINVAL w)
    else if validate_ok type n d then Ok (0, w)
    else Ok (-1, with_errno (validate_errno type n d) w).
Proof.
  intros Hv d n. unfold mnl_attr_validate. destruct (type_is_max type); [done|].
  apply validate_run; [done|]. by destruct type.
Qed.

(** A NUL string that lacks its terminator. *)
Definition unterminated : world := mk_world (le_enc 2 6 ++ le_enc 2 1 ++ [65; 66; 0; 0]) 0 [].

Lemma mnl_attr_validate_spec_witness :
  mnl_attr_validate 0 MNL_TYPE_NUL_STRING unterminated = Ok (-1, with_errno EINVAL unterminated).
Proof.
  etransitivity; [apply (mnl_attr_validate_spec 0 MNL_TYPE_NUL_STRING unterminated)|reflexivity].
  repeat split; vm_compute; congruence.
Defined.
