(* ===== verification/MnlCallback.v ===== *)
(** libmnl/callback.c: running callbacks over the messages of a receive buffer. *)
From S2P Require Import Prelude CMonad MnlMsg MnlAttr.

Section Run.
Context {S : Type}.

(** [mnl_cb_t]: message and user data to a return code and new user data. *)
Definition mnl_cb_t : Type := Z -> S -> M (Z * S).

Definition mnl_cb_noop : mnl_cb_t := fun _ data => ret (MNL_CB_OK, data).

Definition sizeof_nlmsgerr : Z := 20.

Definition mnl_cb_error : mnl_cb_t := fun nlh data =>
  let err := mnl_nlmsg_get_payload nlh in
  let! l := nlmsg_len nlh in
  if l <? mnl_nlmsg_size sizeof_nlmsgerr then
    set_errno EBADMSG ;;; ret (MNL_CB_ERROR, data)
  else
    let! e := load32 err in
    let error := sint 32 e in
    set_errno (if error <? 0 then sint 32 (- error) else error) ;;;
    ret (if error =? 0 then MNL_CB_STOP else MNL_CB_ERROR, data).

Definition mnl_cb_stop : mnl_cb_t := fun _ data => ret (MNL_CB_STOP, data).

(** [default_cb_array]: entries that are not listed are NULL. *)
Definition default_cb_array (type : Z) : option mnl_cb_t :=
  if type =? NLMSG_NOOP then Some mnl_cb_noop
  else if type =? NLMSG_ERROR then Some mnl_cb_error
  else if type =? NLMSG_DONE then Some mnl_cb_stop
  else if type =? NLMSG_OVERRUN then Some mnl_cb_noop
  else None.

(** [cb_ctl_array[type]]: reading past the array is a fault. *)
Definition ctl_entry (arr : list (option mnl_cb_t)) (type : Z) : M (option mnl_cb_t) :=
  match arr !! Z.to_nat type with Some e => ret e | None => ub end.

Section Loop.
Context (seq portid : Z) (cb_data : option mnl_cb_t)
        (cb_ctl_array : option (list (option mnl_cb_t))) (cb_ctl_array_len : Z).

(** The callback selected for a message of this type, if any. *)
Definition select_cb (type : Z) : M (option mnl_cb_t) :=
  if NLMSG_MIN_TYPE <=? type then ret cb_data
  else if type <? cb_ctl_array_len then
    match cb_ctl_array with
    | Some arr => ctl_entry arr type
    | None => ret None
    end
  else ret (default_cb_array type).

(** One iteration of the [while] loop up to the [goto out]: [inl] the value
    returned by the function, [inr] the value of [ret] to go on with. *)
Definition cb_step (nlh r : Z) (data : S) : M ((Z * S) + (Z * S)) :=
  let! okp := mnl_nlmsg_portid_ok nlh portid in
  if negb okp then set_errno ESRCH ;;; ret (inl (-1, data)) else
  let! oks := mnl_nlmsg_seq_ok nlh seq in
  if negb oks then set_errno EPROTO ;;; ret (inl (-1, data)) else
  let! flags := nlmsg_flags nlh in
  if negb (Z.land flags NLM_F_DUMP_INTR =? 0) then set_errno EINTR ;;; ret (inl (-1, data)) else
  let! type := nlmsg_type nlh in
  let! cb := select_cb type in
  match cb with
  | Some f =>
      let! (r', data') := f nlh data in
      if r' <=? MNL_CB_STOP then ret (inl (r', data')) else ret (inr (r', data'))
  | None => ret (inr (r, data))
  end.

Fixpoint cb_loop (fuel : nat) (nlh len r : Z) (data : S) : M (Z * S) :=
  match fuel with
  | O => no_fuel
  | Datatypes.S fuel =>
      let! ok := mnl_nlmsg_ok nlh len in
      if ok : bool then
        let! out := cb_step nlh r data in
        match out with
        | inl res => ret res
        | inr (r', data') =>
            let! (nlh', len') := mnl_nlmsg_next nlh len in
            cb_loop fuel nlh' len' r' data'
        end
      else ret (r, data)
  end.

Definition __mnl_cb_run (fuel : nat) (buf numbytes : Z) (data : S) : M (Z * S) :=
  cb_loop fuel buf (sint 32 numbytes) MNL_CB_OK data.
End Loop.

Definition mnl_cb_run2 (fuel : nat) (buf numbytes seq portid : Z) (cb_data : option mnl_cb_t)
    (data : S) (cb_ctl_array : option (list (option mnl_cb_t))) (cb_ctl_array_len : Z) : M (Z * S) :=
  __mnl_cb_run seq portid cb_data cb_ctl_array cb_ctl_array_len fuel buf numbytes data.

Definition mnl_cb_run (fuel : nat) (buf numbytes seq portid : Z) (cb_data : option mnl_cb_t)
    (data : S) : M (Z * S) :=
  __mnl_cb_run seq portid cb_data None 0 fuel buf numbytes data.

(** * Reference: the messages of the buffer, one after the other *)

(** [nl_msgs m o e l]: from [o] to [e] the buffer holds the (aligned) messages
    that start at the offsets [l]. *)
Inductive nl_msgs (m : list Z) : Z -> Z -> list Z -> Prop :=
| nl_msgs_nil o e : e - o < 16 -> nl_msgs m o e []
| nl_msgs_cons o e l :
    16 <= rd 4 o m < 2 ^ 31 -> o + rd 4 o m <= e ->
    nl_msgs m (o + align4 (rd 4 o m)) e l -> nl_msgs m o e (o :: l).

(** A callback that does not write to the message buffer. *)
Definition reads_only {A} (c : M A) : Prop := forall w a w', c w = Ok (a, w') -> w_mem w' = w_mem w.

(** * What a run is supposed to do *)

(** What a message calls for: the run fails with an [errno], ends because of an
    acknowledgement or of the last message of a dump, goes on with
    [MNL_CB_OK], goes on as if the message were not there, or the message is
    handed to a function of the caller. *)
Inductive reaction :=
| Refuse (errno : Z)
| Acknowledge
| Finish
| Pass
| Skip
| Hand (f : mnl_cb_t).

(** 0 stands for any port and any sequence number. *)
Definition foreign (expected actual : Z) : bool :=
  negb (expected =? 0) && negb (actual =? 0) && negb (expected =? actual).

(** The [errno] of an error code that came over the wire, in either sign. *)
Definition wire_errno (error : Z) : Z := if error =? - 2 ^ 31 then error else Z.abs error.

(** The header fields at [o]: length, type, flags, sequence number, port. *)
Definition reaction_to (seq portid : Z) (cb_data : option mnl_cb_t)
    (cb_ctl_array : option (list (option mnl_cb_t))) (n : Z) (m : list Z) (o : Z) : reaction :=
  let type := rd 2 (o + 4) m in
  if foreign portid (rd 4 (o + 12) m) then Refuse ESRCH
  else if foreign seq (rd 4 (o + 8) m) then Refuse EPROTO
  else if Z.testbit (rd 2 (o + 6) m) 4 then Refuse EINTR
  else if 16 <=? type then from_option Hand Skip cb_data
  else if type <? n then
    from_option Hand Skip (arr ← cb_ctl_array; mjoin (arr !! Z.to_nat type))
  else if type =? 2 then
    if rd 4 o m <? 36 then Refuse EBADMSG
    else if rd 4 (o + 16) m =? 0 then Acknowledge
    else Refuse (wire_errno (sint 32 (rd 4 (o + 16) m)))
  else if type =? 3 then Finish
  else if (type =? 1) || (type =? 4) then Pass
  else Skip.

(** The run over the messages at [l]: every message that is to be handed over
    is, in order, with the data the previous call left, until a result that is
    not positive. *)
Fixpoint deliver (react : Z -> reaction) (l : list Z) (r : Z) (data : S) : M (Z * S) :=
  match l with
  | [] => ret (r, data)
  | o :: l =>
      match react o with
      | Refuse e => fun w => Ok ((-1, data), with_errno e w)
      | Acknowledge => fun w => Ok ((0, data), with_errno 0 w)
      | Finish => ret (0, data)
      | Pass => deliver react l 1 data
      | Skip => deliver react l r data
      | Hand f =>
          let! (r', data') := f o data in
          if 0 <? r' then deliver react l r' data' else ret (r', data')
      end
  end.
End Run.
Arguments mnl_cb_t : clear implicits.

(** * The loop is the run that is wanted *)

Section Claims.
Context {S : Type}.

(** A control array that is as long as the caller says. *)
Definition ctl_ok (arr : option (list (option (mnl_cb_t S)))) (n : Z) : Prop :=
  forall a, arr = Some a -> n <= zlen a.

(** The functions a caller passes do not write to the receive buffer. *)
Definition readers (cb : option (mnl_cb_t S)) (arr : option (list (option (mnl_cb_t S)))) : Prop :=
  (forall f, cb = Some f -> forall nlh d, reads_only (f nlh d)) /\
  (forall a f, arr = Some a -> Some f ∈ a -> forall nlh d, reads_only (f nlh d)).

Lemma portid_ok_eq o portid w :
  0 <= o -> o + 16 <= zlen (w_mem w) ->
  mnl_nlmsg_portid_ok o portid w = Ok (negb (foreign portid (rd 4 (o + 12) (w_mem w))), w).
Proof.
  intros. unfold mnl_nlmsg_portid_ok, nlmsg_pid, load32, bind. rewrite load_ok by lia.
  unfold ret, foreign. set (p := rd 4 (o + 12) (w_mem w)). rewrite (Z.eqb_sym portid p).
  by destruct (p =? 0), (portid =? 0), (p =? portid).
Qed.

Lemma seq_ok_eq o seq w :
  0 <= o -> o + 16 <= zlen (w_mem w) ->
  mnl_nlmsg_seq_ok o seq w = Ok (negb (foreign seq (rd 4 (o + 8) (w_mem w))), w).
Proof.
  intros. unfold mnl_nlmsg_seq_ok, nlmsg_seq, load32, bind. rewrite load_ok by lia.
  unfold ret, foreign. set (p := rd 4 (o + 8) (w_mem w)). rewrite (Z.eqb_sym seq p).
  by destruct (p =? 0), (seq =? 0), (p =? seq).
Qed.

Lemma dump_intr_eq flags :
  negb (Z.land flags NLM_F_DUMP_INTR =? 0) = Z.testbit flags 4.
Proof. rewrite Z.land_comm. by apply (land_mask_testbit 4). Qed.

(** An [NLMSG_ERROR] message, as the built-in function reads it. *)
Lemma cb_error_eq o (data : S) w :
  mem_ok w -> 0 <= o -> 16 <= rd 4 o (w_mem w) -> o + rd 4 o (w_mem w) <= zlen (w_mem w) ->
  let m := w_mem w in let e := rd 4 (o + 16) m in
  mnl_cb_error o data w =
    if rd 4 o m <? 36 then Ok ((-1, data), with_errno EBADMSG w)
    else if e =? 0 then Ok ((0, data), with_errno 0 w)
    else Ok ((-1, data), with_errno (wire_errno (sint 32 e)) w).
Proof.
  intros Hm Ho H16 Hfit m e. fold m in H16, Hfit. unfold mnl_cb_error, bind, nlmsg_len, load32.
  rewrite load_ok by (fold m; lia). fold m. change (mnl_nlmsg_size sizeof_nlmsgerr) with 36.
  change (mnl_nlmsg_get_payload o) with (o + 16).
  destruct (Z.ltb_spec (rd 4 o m) 36); [done |]. rewrite load_ok by (fold m; lia). fold m. fold e.
  assert (0 <= e < 2 ^ 32) as Hr by (apply (rd_range 4); [done | lia | lia]).
  unfold set_errno, ret, wire_errno. rewrite sint32_cases by lia.
  destruct (Z.eqb_spec e 0) as [->|Hne]; [done |].
  destruct (Z.ltb_spec e (2 ^ 31)).
  - rewrite (proj2 (Z.ltb_ge e 0)), (proj2 (Z.eqb_neq e 0)), (proj2 (Z.eqb_neq e _)) by lia.
    by rewrite Z.abs_eq by lia.
  - rewrite (proj2 (Z.ltb_lt (e - 2 ^ 32) 0)), (proj2 (Z.eqb_neq (e - 2 ^ 32) 0)) by lia.
    destruct (Z.eqb_spec (e - 2 ^ 32) (- 2 ^ 31)) as [->|]; [done |].
    by rewrite sint_small, Z.abs_neq by lia.
Qed.

(** One round of the loop does what the message calls for. *)
Lemma cb_step_reacts seq portid (cb : option (mnl_cb_t S)) arr n o r data w :
  mem_ok w -> 0 <= o -> 16 <= rd 4 o (w_mem w) -> o + rd 4 o (w_mem w) <= zlen (w_mem w) ->
  ctl_ok arr n ->
  cb_step seq portid cb arr n o r data w =
    match reaction_to seq portid cb arr n (w_mem w) o with
    | Refuse e => Ok (inl (-1, data), with_errno e w)
    | Acknowledge => Ok (inl (0, data), with_errno 0 w)
    | Finish => Ok (inl (0, data), w)
    | Pass => Ok (inr (1, data), w)
    | Skip => Ok (inr (r, data), w)
    | Hand f =>
        (let! (r', data') := f o data in
         if 0 <? r' then ret (inr (r', data')) else ret (inl (r', data'))) w
    end.
Proof.
  intros Hm Ho H16 Hfit Harr. set (m := w_mem w) in *.
  assert (0 <= rd 2 (o + 4) m < 2 ^ 16) as Hty by (apply (rd_range 2); [done | lia | lia]).
  unfold cb_step, reaction_to. unfold bind at 1. rewrite portid_ok_eq by (fold m; lia). fold m.
  destruct (foreign portid _); [done |]. cbn [negb]. unfold bind at 1. rewrite seq_ok_eq by (fold m; lia). fold m.
  destruct (foreign seq _); [done |]. cbn [negb].
  unfold bind at 1, nlmsg_flags, load16. rewrite load_ok by (fold m; lia). fold m. rewrite dump_intr_eq.
  destruct (Z.testbit _ 4); [done |]. unfold bind at 1, nlmsg_type, load16.
  rewrite load_ok by (fold m; lia). fold m. set (ty := rd 2 (o + 4) m) in *.
  assert (forall f : mnl_cb_t S,
    (let! (r', data') := f o data in
     if r' <=? MNL_CB_STOP then ret (inl (r', data')) else ret (inr (r', data'))) w =
    (let! (r', data') := f o data in
     if 0 <? r' then ret (inr (r', data')) else ret (@inl _ (Z * S) (r', data'))) w) as Hcall.
  { intros f. unfold bind. destruct (f o data w) as [[[r' d'] w']| | |]; try done.
    unfold MNL_CB_STOP. rewrite Z.ltb_antisym. by destruct (r' <=? 0). }
  unfold bind at 1, select_cb, NLMSG_MIN_TYPE.
  destruct (16 <=? ty); [destruct cb; [apply Hcall | done] |].
  destruct (Z.ltb_spec ty n) as [Hlt|_].
  { destruct arr as [a|]; [| done]. pose proof (Harr a eq_refl) as Ha. unfold ctl_entry. cbn.
    destruct (a !! Z.to_nat ty) as [[f|]|] eqn:E; [apply Hcall | done |].
    apply lookup_ge_None in E. unfold zlen in Ha. lia. }
  unfold ret at 1, default_cb_array, NLMSG_NOOP, NLMSG_ERROR, NLMSG_DONE, NLMSG_OVERRUN.
  destruct (Z.eqb_spec ty 1) as [->|]; [done |].
  destruct (Z.eqb_spec ty 2) as [->|].
  { unfold bind. rewrite cb_error_eq by (fold m; lia || done). fold m.
    destruct (_ <? 36); [done |]. by destruct (_ =? 0). }
  destruct (Z.eqb_spec ty 3) as [->|]; [done |]. by destruct (Z.eqb_spec ty 4) as [->|].
Qed.

Lemma hand_reads_only seq portid (cb : option (mnl_cb_t S)) arr n m o f d :
  readers cb arr -> reaction_to seq portid cb arr n m o = Hand f -> reads_only (f o d).
Proof.
  intros [Hcb Hctl] Hre. unfold reaction_to in Hre.
  destruct (foreign portid _); [done |]. destruct (foreign seq _); [done |].
  destruct (Z.testbit _ 4); [done |].
  destruct (16 <=? _); [destruct cb; [injection Hre as ->; auto | done] |].
  destruct (_ <? n).
  - destruct arr as [a|]; [| done]. cbn in Hre.
    destruct (a !! _) as [[g|]|] eqn:E; try done. injection Hre as ->.
    eapply Hctl; [done |]. by eapply list_elem_of_lookup_2.
  - repeat (case_match; try done).
Qed.

Lemma cb_loop_delivers seq portid (cb : option (mnl_cb_t S)) arr n m fuel o e l r data w :
  w_mem w = m -> Forall byte_ok m -> 0 <= o -> e <= zlen m -> zlen m < 2 ^ 31 - 4 ->
  - 2 ^ 31 <= e - o -> ctl_ok arr n -> readers cb arr ->
  nl_msgs m o e l -> (length l < fuel)%nat ->
  cb_loop seq portid cb arr n fuel o (e - o) r data w =
    deliver (reaction_to seq portid cb arr n m) l r data w.
Proof.
  intros Hw Hb Ho He Hz H31 Harr Hrd Hl. revert fuel r data w Hw Ho H31.
  induction Hl as [o e Hlt|o e l Hlen Hfit Hl IH]; intros fuel r data w Hw Ho H31 Hf;
    (destruct fuel as [|fuel]; [simpl in *; lia |]); simpl; unfold bind at 1, mnl_nlmsg_ok, sizeof_nlmsghdr.
  { by rewrite (proj2 (Z.leb_gt 16 (e - o))) by lia. }
  rewrite (proj2 (Z.leb_le 16 (e - o))) by lia.
  assert (forall w, w_mem w = m -> nlmsg_len o w = Ok (rd 4 o m, w)) as Hlenw
    by (intros w' <-; unfold nlmsg_len, load32; rewrite load_ok; (done || lia)).
  unfold bind at 1. rewrite Hlenw by done. unfold ret at 1. rewrite sint_small by lia.
  rewrite (proj2 (andb_true_iff _ _)) by (split; apply Z.leb_le; lia).
  pose proof (align4_spec (rd 4 o m)).
  assert (forall r' d' w', w_mem w' = m ->
    (let! (nlh', len') := mnl_nlmsg_next o (e - o) in cb_loop seq portid cb arr n fuel nlh' len' r' d') w' =
    deliver (reaction_to seq portid cb arr n m) l r' d' w') as Hnext.
  { intros r' d' w' Hw'. unfold bind at 1, mnl_nlmsg_next, bind at 1. rewrite Hlenw by done. unfold ret at 1.
    rewrite MNL_ALIGN_align4, sint_small by lia.
    replace (e - o - align4 (rd 4 o m)) with (e - (o + align4 (rd 4 o m))) by lia.
    apply IH; try done; simpl in Hf; lia. }
  unfold bind at 1. rewrite cb_step_reacts by (unfold mem_ok; rewrite ?Hw; first [done | lia]). rewrite Hw.
  destruct (reaction_to seq portid cb arr n m o) as [| | | | |f] eqn:Hre; try done; [by apply Hnext | by apply Hnext |].
  unfold bind at 1 3. destruct (f o data w) as [[[r' d'] w']| | |] eqn:Ef; try done.
  apply (hand_reads_only _ _ _ _ _ _ _ _ _ Hrd Hre) in Ef. rewrite Hw in Ef.
  destruct (0 <? r'); [| done]. by apply Hnext.
Qed.

Lemma cb_run2_delivers fuel buf numbytes seq portid (cb : option (mnl_cb_t S)) data arr n l w :
  mem_ok w -> 0 <= buf -> 0 <= numbytes -> buf + numbytes <= zlen (w_mem w) ->
  zlen (w_mem w) < 2 ^ 31 - 4 -> ctl_ok arr n -> readers cb arr ->
  nl_msgs (w_mem w) buf (buf + numbytes) l -> (length l < fuel)%nat ->
  mnl_cb_run2 fuel buf numbytes seq portid cb data arr n w =
    deliver (reaction_to seq portid cb arr n (w_mem w)) l MNL_CB_OK data w.
Proof.
  intros. unfold mnl_cb_run2, __mnl_cb_run. rewrite sint_small by lia.
  replace numbytes with (buf + numbytes - buf) at 1 by lia.
  apply cb_loop_delivers; try done; lia.
Qed.


(** A [NLMSG_ERROR] message (with matching port and sequence) ends the run:
    error code 0 is an acknowledgement and gives [MNL_CB_STOP], any other code
    gives [MNL_CB_ERROR] with its absolute value in [errno]. *)
Theorem mnl_cb_run_error_message fuel nlh len seq portid (cb : option (mnl_cb_t S)) data w :
  let m := w_mem w in
  let error := sint 32 (rd 4 (nlh + 16) m) in
  mem_ok w -> 0 <= nlh -> nlh + 36 <= zlen m -> 36 <= rd 4 nlh m <= len -> len < 2 ^ 31 ->
  rd 2 (nlh + 4) m = NLMSG_ERROR -> Z.land (rd 2 (nlh + 6) m) NLM_F_DUMP_INTR = 0 ->
  (rd 4 (nlh + 8) m = 0 \/ seq = 0 \/ rd 4 (nlh + 8) m = seq) ->
  (rd 4 (nlh + 12) m = 0 \/ portid = 0 \/ rd 4 (nlh + 12) m = portid) ->
  - 2 ^ 31 < error ->
  mnl_cb_run (Datatypes.S fuel) nlh len seq portid cb data w =
    Ok ((if error =? 0 then MNL_CB_STOP else MNL_CB_ERROR, data), with_errno (Z.abs error) w).
Proof.
  intros m error Hm Hn Hz Hl Hlen Hty Hfl Hseq Hpid He.
  unfold mnl_cb_run, __mnl_cb_run. rewrite sint_small by lia. simpl cb_loop.
  unfold mnl_nlmsg_ok, sizeof_nlmsghdr. rewrite (proj2 (Z.leb_le 16 len)) by lia.
  unfold bind at 1 2, nlmsg_len, load32. rewrite load_ok by (fold m; lia). fold m. unfold ret at 1.
  rewrite sint_small by lia. rewrite (proj2 (andb_true_iff _ _)) by (split; apply Z.leb_le; lia).
  assert (cb_step seq portid cb None 0 nlh MNL_CB_OK data w =
    Ok (inl (if error =? 0 then MNL_CB_STOP else MNL_CB_ERROR, data), with_errno (Z.abs error) w)) as Hs.
  { unfold cb_step, mnl_nlmsg_portid_ok, mnl_nlmsg_seq_ok, nlmsg_pid, nlmsg_seq, nlmsg_flags,
      nlmsg_type, load32, load16, bind.
    rewrite !load_ok by (fold m; lia). fold m. unfold ret at 1.
    assert ((if negb (rd 4 (nlh + 12) m =? 0) && negb (portid =? 0)
             then rd 4 (nlh + 12) m =? portid else true) = true) as ->.
    { destruct Hpid as [-> | [-> | ->]]; [done | by rewrite andb_false_r |].
      destruct (negb _ && negb _); [apply Z.eqb_refl | done]. }
    change (negb true) with false. cbv iota beta. rewrite !load_ok by (fold m; lia). fold m. unfold ret at 1.
    assert ((if negb (rd 4 (nlh + 8) m =? 0) && negb (seq =? 0)
             then rd 4 (nlh + 8) m =? seq else true) = true) as ->.
    { destruct Hseq as [-> | [-> | ->]]; [done | by rewrite andb_false_r |].
      destruct (negb _ && negb _); [apply Z.eqb_refl | done]. }
    change (negb true) with false. cbv iota beta. rewrite load_ok by (fold m; lia). fold m. rewrite Hfl. change (negb (0 =? 0)) with false. cbv iota beta.
    rewrite load_ok by (fold m; lia). fold m. rewrite Hty.
    change (select_cb cb None 0 NLMSG_ERROR w) with (Ok (Some (@mnl_cb_error S), w)). cbv iota beta.
    unfold mnl_cb_error, bind, nlmsg_len, load32. rewrite load_ok by (fold m; lia). fold m.
    change (mnl_nlmsg_size sizeof_nlmsgerr) with 36.
    rewrite (proj2 (Z.ltb_ge (rd 4 nlh m) 36)) by lia.
    change (mnl_nlmsg_get_payload nlh) with (nlh + 16).
    rewrite load_ok by (fold m; lia). fold m. fold error. unfold set_errno, ret.
    pose proof (rd_range 4 (nlh + 16) m Hm) as Hr.
    assert (error < 2 ^ 31) as He2 by (unfold error, sint; case_match eqn:Hc; 
       [apply Z.ltb_lt in Hc; exact Hc | pose proof (Z.mod_pos_bound (rd 4 (nlh + 16) m) (2 ^ 32)); lia]).
    assert ((if error <? 0 then sint 32 (- error) else error) = Z.abs error) as ->.
    { destruct (Z.ltb_spec error 0); [rewrite sint_small by lia |]; lia. }
    destruct (error =? 0); done. }
  unfold bind at 1. rewrite Hs. done.
Qed.
End Claims.

(** A 36-byte [NLMSG_ERROR] message carrying [-ENOENT], sequence 7. *)
Definition error_msg : list Z :=
  le_enc 4 36 ++ le_enc 2 NLMSG_ERROR ++ le_enc 2 0 ++ le_enc 4 7 ++ le_enc 4 0 ++
  le_enc 4 (-2) ++ replicate 16 0.

(** A data message of type [ty] with a header only. *)
Definition plain_msg (ty : Z) : list Z :=
  le_enc 4 16 ++ le_enc 2 ty ++ le_enc 2 0 ++ le_enc 4 7 ++ le_enc 4 0.

(** Two data messages, a no-op, a third data message, the end of the dump, and
    a message that comes too late. *)
Definition dump_buffer : list Z :=
  plain_msg 16 ++ plain_msg 18 ++ plain_msg NLMSG_NOOP ++ plain_msg 20 ++
  plain_msg NLMSG_DONE ++ plain_msg 22.

(** A client function that notes the type of each message it is called on. *)
Definition note_type : mnl_cb_t (list Z) := fun nlh data =>
  let! ty := nlmsg_type nlh in ret (MNL_CB_OK, data ++ [ty]).

Lemma note_type_reads nlh d : reads_only (note_type nlh d).
Proof.
  intros w a w' H. unfold note_type, nlmsg_type, load16, bind in H.
  destruct (load 2 (nlh + 4) w) as [[ty w1]| | |] eqn:E; try done.
  apply load_inv in E as (-> & _). by injection H as <- <-.
Qed.


Lemma mnl_cb_run_error_message_witness :
  mnl_cb_run 1 0 36 7 0 None tt (mk_world error_msg 0 []) =
    Ok ((MNL_CB_ERROR, tt), mk_world error_msg 2 []).
Proof.
  apply (mnl_cb_run_error_message 0 0 36 7 0 None tt (mk_world error_msg 0 [])).
  - by apply bytes_okb_ok.
  - lia.
  - vm_compute. discriminate.
  - vm_compute. split; discriminate.
  - lia.
  - vm_compute. reflexivity.
  - vm_compute. reflexivity.
  - right. right. vm_compute. reflexivity.
  - left. vm_compute. reflexivity.
  - vm_compute. reflexivity.
Defined.

(** A [NLMSG_NOOP] header whose length field is [0xffffffff]. *)
Definition huge_len_msg : list Z :=
  le_enc 4 0xffffffff ++ le_enc 2 NLMSG_NOOP ++ le_enc 2 0 ++ le_enc 4 0 ++ le_enc 4 0.

(** [mnl_nlmsg_ok] compares the length field as an [int], so it accepts a
    length of [0xffffffff], and [mnl_nlmsg_next] rounds that length up to 0:
    on a 16-byte buffer with such a message [mnl_cb_run] never ends. *)
Theorem mnl_cb_run_diverges fuel e al :
  mnl_cb_run fuel 0 16 0 0 None tt (mk_world huge_len_msg e al) = Fuel.
Proof.
  unfold mnl_cb_run, __mnl_cb_run. change (sint 32 16) with 16.
  generalize MNL_CB_OK as r. induction fuel as [|fuel IH]; intros r; [done |].
  simpl. unfold bind at 1.
  assert (forall w, w_mem w = huge_len_msg -> mnl_nlmsg_ok 0 16 w = Ok (true, w)) as ->.
  { intros w Hw. unfold mnl_nlmsg_ok, bind, nlmsg_len, load32. simpl.
    rewrite load_ok by (rewrite ?Hw; vm_compute; discriminate). rewrite Hw. reflexivity. }
  2: done.
  unfold bind at 1.
  assert (cb_step 0 0 (None : option (mnl_cb_t unit)) None 0 0 r tt (mk_world huge_len_msg e al) =
          Ok (inr (MNL_CB_OK, tt), mk_world huge_len_msg e al)) as -> by reflexivity.
  unfold bind at 1.
  assert (mnl_nlmsg_next 0 16 (mk_world huge_len_msg e al) =
          Ok ((0, 16), mk_world huge_len_msg e al)) as -> by reflexivity.
  apply IH.
Qed.
