(* ===== verification/Bitops.v ===== *)
(** Bit sets over arrays of 32-bit words: the inline helpers of
    [src/libnetfilter_conntrack/internal/bitops.h] and the [nfct_bitmask]
    object of [src/libnetfilter_conntrack/api.c].  An array of [uint32_t] is a
    list of [Z].  [set_bit], [unset_bit] and [test_bit] take an unchecked index:
    an access outside of the array is a fault.  [or_bit], [clear_bit] and
    [has_bit] are what they do to an array that has the word, for the callers
    whose index is a constant of an enumeration. *)
From stdpp Require Import gmap.
From S2P Require Import Prelude CMonad.
Open Scope c_scope.

(** ** The helpers of bitops.h *)

(** The word that holds bit [nr] exists. *)
Definition bit_in_range (nr : Z) (addr : list Z) : bool :=
  (0 <=? nr) && (Z.shiftr nr 5 <? zlen addr).

Definition or_bit (nr : Z) (addr : list Z) : list Z :=
  alter (fun x => wrap 32 (Z.lor x (Z.shiftl 1 (Z.land nr 31)))) (Z.to_nat (Z.shiftr nr 5)) addr.

Definition clear_bit (nr : Z) (addr : list Z) : list Z :=
  alter (fun x => wrap 32 (Z.land x (Z.lnot (Z.shiftl 1 (Z.land nr 31)))))
        (Z.to_nat (Z.shiftr nr 5)) addr.

Definition has_bit (nr : Z) (addr : list Z) : bool :=
  match addr !! Z.to_nat (Z.shiftr nr 5) with
  | Some x => negb (Z.land (Z.shiftl 1 (Z.land nr 31)) x =? 0)
  | None => false
  end.

Definition set_bit (nr : Z) (addr : list Z) : M (list Z) :=
  if bit_in_range nr addr then ret (or_bit nr addr) else ub.

Definition unset_bit (nr : Z) (addr : list Z) : M (list Z) :=
  if bit_in_range nr addr then ret (clear_bit nr addr) else ub.

Definition test_bit (nr : Z) (addr : list Z) : M bool :=
  if bit_in_range nr addr then ret (has_bit nr addr) else ub.

(** The word of 16 bits that holds bit [nr] exists. *)
Definition bit_in_range_u16 (nr : Z) (addr : list Z) : bool :=
  (0 <=? nr) && (Z.shiftr nr 4 <? zlen addr).

Definition set_bit_u16 (nr : Z) (addr : list Z) : M (list Z) :=
  if bit_in_range_u16 nr addr then
    ret (alter (fun x => wrap 16 (Z.lor x (Z.shiftl 1 (Z.land nr 15)))) (Z.to_nat (Z.shiftr nr 4)) addr)
  else ub.

Definition unset_bit_u16 (nr : Z) (addr : list Z) : M (list Z) :=
  if bit_in_range_u16 nr addr then
    ret (alter (fun x => wrap 16 (Z.land x (Z.lnot (Z.shiftl 1 (Z.land nr 15)))))
           (Z.to_nat (Z.shiftr nr 4)) addr)
  else ub.

(** The loops [for (i = 0; i < len; i++)] over two arrays of [len] words. *)
Fixpoint set_bitmask_u32 (buf1 buf2 : list Z) (len : nat) : list Z :=
  match len, buf1, buf2 with
  | S n, x :: b1, y :: b2 => Z.lor x y :: set_bitmask_u32 b1 b2 n
  | _, _, _ => buf1
  end.

Fixpoint unset_bitmask_u32 (buf1 buf2 : list Z) (len : nat) : list Z :=
  match len, buf1, buf2 with
  | S n, x :: b1, y :: b2 => Z.land x (Z.lnot y) :: unset_bitmask_u32 b1 b2 n
  | _, _, _ => buf1
  end.

Fixpoint test_bitmask_u32 (buf1 buf2 : list Z) (len : nat) : bool :=
  match len, buf1, buf2 with
  | S n, x :: b1, y :: b2 =>
      if negb (Z.land x y =? y) then false else test_bitmask_u32 b1 b2 n
  | _, _, _ => true
  end.

Fixpoint test_bitmask_u32_or (buf1 buf2 : list Z) (len : nat) : bool :=
  match len, buf1, buf2 with
  | S n, x :: b1, y :: b2 =>
      if negb (Z.land x y =? 0) then true else test_bitmask_u32_or b1 b2 n
  | _, _, _ => false
  end.

Definition DIV_ROUND_UP (n d : Z) : Z := (n + d - 1) / d.

(** ** The nfct_bitmask object *)

(** [struct nfct_bitmask]: the word count and the flexible array. *)
Record nfct_bitmask := mk_bitmask { bm_words : Z; bm_bits : list Z }.

#[export] Instance nfct_bitmask_eq_dec : EqDecision nfct_bitmask.
Proof. solve_decision. Defined.

(** [None] is the NULL pointer the function returns on error. *)
Definition nfct_bitmask_new (max : Z) : M (option nfct_bitmask) :=
  if 0xffff <? max then ret None else
  let words := DIV_ROUND_UP (max + 1) 32 in
  let! ok := malloc_ok in
  if (ok : bool) then ret (Some (mk_bitmask words (replicate (Z.to_nat words) 0)))
  else ret None.

Definition nfct_bitmask_clone (b : nfct_bitmask) : M (option nfct_bitmask) :=
  let! ok := malloc_ok in
  if (ok : bool) then ret (Some b) else ret None.

Definition nfct_bitmask_set_bit (b : nfct_bitmask) (bit : Z) : M nfct_bitmask :=
  let bits := wrap 32 (bm_words b * 32) in
  if bit <? bits then
    let! l := set_bit bit (bm_bits b) in ret (mk_bitmask (bm_words b) l)
  else ret b.

Definition nfct_bitmask_test_bit (b : nfct_bitmask) (bit : Z) : M bool :=
  let bits := wrap 32 (bm_words b * 32) in
  if bit <? bits then test_bit bit (bm_bits b) else ret false.

Definition nfct_bitmask_unset_bit (b : nfct_bitmask) (bit : Z) : M nfct_bitmask :=
  let bits := wrap 32 (bm_words b * 32) in
  if bit <? bits then
    let! l := unset_bit bit (bm_bits b) in ret (mk_bitmask (bm_words b) l)
  else ret b.

Definition nfct_bitmask_maxbit (b : nfct_bitmask) : Z :=
  wrap 32 (wrap 32 (bm_words b * 32) - 1).

Definition nfct_bitmask_clear (b : nfct_bitmask) : nfct_bitmask :=
  mk_bitmask (bm_words b) (replicate (Z.to_nat (bm_words b)) 0).

Definition nfct_bitmask_equal (b1 b2 : nfct_bitmask) : bool :=
  if negb (bm_words b1 =? bm_words b2) then false
  else bool_decide (bm_bits b1 = bm_bits b2).

(** ** Bit sets as sets of bit numbers *)

Definition word_ok (x : Z) : Prop := 0 <= x < 2 ^ 32.

Lemma shiftr5 nr : Z.shiftr nr 5 = nr / 32.
Proof. by rewrite Z.shiftr_div_pow2. Qed.

Lemma land31 nr : Z.land nr 31 = nr mod 32.
Proof. change 31 with (Z.ones 5). by rewrite Z.land_ones. Qed.

Lemma test_bit_testbit nr addr :
  has_bit nr addr = Z.testbit (default 0 (addr !! Z.to_nat (nr / 32))) (nr mod 32).
Proof.
  unfold has_bit. rewrite shiftr5, land31. destruct (addr !! _); cbn.
  - apply land_mask_testbit, Z.mod_pos_bound; lia.
  - by rewrite Z.bits_0.
Qed.

Lemma testbit_wrap32 x j : 0 <= j < 32 -> Z.testbit (wrap 32 x) j = Z.testbit x j.
Proof. intros. unfold wrap. rewrite Z.mod_pow2_bits_low by lia. done. Qed.

Lemma testbit_one_shiftl i j : 0 <= i -> 0 <= j -> Z.testbit (Z.shiftl 1 i) j = (j =? i).
Proof.
  intros. rewrite Z.shiftl_spec by lia. destruct (Z.eqb_spec j i) as [->|Hn].
  - by rewrite Z.sub_diag.
  - destruct (decide (j < i)); [by rewrite Z.testbit_neg_r by lia|].
    by rewrite Z.bits_above_log2 by (cbn; lia).
Qed.

(** Two bit numbers are equal when they agree on the word and on the bit. *)
Lemma bit_split nr k : 0 <= nr -> 0 <= k ->
  (k =? nr) = ((k mod 32 =? nr mod 32) && bool_decide (Z.to_nat (k / 32) = Z.to_nat (nr / 32))).
Proof.
  intros. pose proof (Z.div_pos nr 32). pose proof (Z.div_pos k 32).
  pose proof (Z_div_mod_eq_full nr 32). pose proof (Z_div_mod_eq_full k 32).
  destruct (Z.eqb_spec k nr) as [->|Hn]; [by rewrite Z.eqb_refl, bool_decide_eq_true_2|].
  destruct (Z.eqb_spec (k mod 32) (nr mod 32)); [|done]. cbn. symmetry.
  apply bool_decide_eq_false. intros E. apply Z2Nat.inj in E; lia.
Qed.

Lemma bit_in_range_lookup nr addr : bit_in_range nr addr = true ->
  0 <= nr /\ is_Some (addr !! Z.to_nat (nr / 32)).
Proof.
  unfold bit_in_range, zlen. rewrite shiftr5. intros [H1 H2]%andb_prop.
  split; [lia|]. apply lookup_lt_is_Some. pose proof (Z.div_pos nr 32). lia.
Qed.

Lemma test_set_bit k nr addr : bit_in_range nr addr = true -> 0 <= k ->
  has_bit k (or_bit nr addr) = (k =? nr) || has_bit k addr.
Proof.
  intros [Hnr [x Hx]]%bit_in_range_lookup Hk. unfold or_bit.
  pose proof (Z.mod_pos_bound k 32). pose proof (Z.mod_pos_bound nr 32).
  rewrite !test_bit_testbit, shiftr5, land31, (bit_split nr k) by lia.
  destruct (decide (Z.to_nat (k / 32) = Z.to_nat (nr / 32))) as [E|E].
  - rewrite E, list_lookup_alter_eq, Hx, bool_decide_eq_true_2, andb_true_r by done. cbn.
    rewrite testbit_wrap32, Z.lor_spec, testbit_one_shiftl by lia. apply orb_comm.
  - rewrite list_lookup_alter_ne, bool_decide_eq_false_2, andb_false_r by done. done.
Qed.

Lemma test_unset_bit k nr addr : bit_in_range nr addr = true -> 0 <= k ->
  has_bit k (clear_bit nr addr) = negb (k =? nr) && has_bit k addr.
Proof.
  intros [Hnr [x Hx]]%bit_in_range_lookup Hk. unfold clear_bit.
  pose proof (Z.mod_pos_bound k 32). pose proof (Z.mod_pos_bound nr 32).
  rewrite !test_bit_testbit, shiftr5, land31, (bit_split nr k) by lia.
  destruct (decide (Z.to_nat (k / 32) = Z.to_nat (nr / 32))) as [E|E].
  - rewrite E, list_lookup_alter_eq, Hx, bool_decide_eq_true_2, andb_true_r by done. cbn.
    rewrite testbit_wrap32, Z.land_spec, Z.lnot_spec, testbit_one_shiftl by lia. apply andb_comm.
  - rewrite list_lookup_alter_ne, bool_decide_eq_false_2, andb_false_r by done. done.
Qed.

Lemma length_set_bit nr addr : length (or_bit nr addr) = length addr.
Proof. apply length_alter. Qed.

Lemma length_unset_bit nr addr : length (clear_bit nr addr) = length addr.
Proof. apply length_alter. Qed.

Lemma set_bit_ok nr addr : Forall word_ok addr -> Forall word_ok (or_bit nr addr).
Proof. intros H. apply Forall_alter; [done|]. intros. apply wrap_range; lia. Qed.

Lemma unset_bit_ok nr addr : Forall word_ok addr -> Forall word_ok (clear_bit nr addr).
Proof. intros H. apply Forall_alter; [done|]. intros. apply wrap_range; lia. Qed.

(** Bit arrays with the same bits are equal. *)
Lemma words_ext a b : length a = length b -> Forall word_ok a -> Forall word_ok b ->
  (forall k, 0 <= k < 32 * zlen a -> has_bit k a = has_bit k b) -> a = b.
Proof.
  intros Hl Ha Hb H. apply list_eq_same_length with (length b); [done..|].
  intros i x y Hi Hx Hy. rewrite Forall_lookup in Ha, Hb.
  apply Ha in Hx as Hwx. apply Hb in Hy as Hwy.
  apply Z.bits_inj_iff'. intros j Hj. unfold word_ok in *. unfold zlen in H.
  destruct (decide (j < 32)) as [Hj32|Hj32].
  - specialize (H (32 * Z.of_nat i + j) ltac:(lia)).
    rewrite !test_bit_testbit in H.
    rewrite (Z.mul_comm 32), Z.div_add_l, Z.div_small, Z.add_0_r, Nat2Z.id in H by lia.
    rewrite Z.add_comm, Z.mod_add, Z.mod_small in H by lia.
    by rewrite Hx, Hy in H.
  - rewrite <- (Z.mod_small x (2 ^ 32)), <- (Z.mod_small y (2 ^ 32)) by done.
    by rewrite !Z.mod_pow2_bits_high by lia.
Qed.

(** ** The bitmask object refines a finite set *)

(** Type invariant of the object, as [nfct_bitmask_new] establishes it. *)
Definition bitmask_ok (b : nfct_bitmask) : Prop :=
  1 <= bm_words b <= 2048 /\ zlen (bm_bits b) = bm_words b /\ Forall word_ok (bm_bits b).

(** The highest bit number plus one. *)
Definition bm_limit (b : nfct_bitmask) : Z := 32 * bm_words b.

(** Bit [k] of the bitmask; there are none above the capacity. *)
Definition bm_has (b : nfct_bitmask) (k : Z) : bool := (k <? bm_limit b) && has_bit k (bm_bits b).

(** The set of bit numbers that a bitmask holds. *)
Definition bm_rel (b : nfct_bitmask) (s : gset Z) : Prop :=
  bitmask_ok b /\
  (forall k, k ∈ s -> 0 <= k < bm_limit b) /\
  (forall k, 0 <= k -> bm_has b k = bool_decide (k ∈ s)).

Inductive bm_op := BmSet (k : Z) | BmUnset (k : Z) | BmClear.

Definition bm_step (b : nfct_bitmask) (o : bm_op) : M nfct_bitmask :=
  match o with
  | BmSet k => nfct_bitmask_set_bit b k
  | BmUnset k => nfct_bitmask_unset_bit b k
  | BmClear => ret (nfct_bitmask_clear b)
  end.

Fixpoint bm_run (ops : list bm_op) (b : nfct_bitmask) : M nfct_bitmask :=
  match ops with
  | [] => ret b
  | o :: ops => let! b := bm_step b o in bm_run ops b
  end.

(** The abstract operations on the set of bit numbers below [lim]. *)
Definition set_step (lim : Z) (s : gset Z) (o : bm_op) : gset Z :=
  match o with
  | BmSet k => if k <? lim then {[ k ]} ∪ s else s
  | BmUnset k => s ∖ {[ k ]}
  | BmClear => ∅
  end.

Definition bm_op_ok (o : bm_op) : Prop :=
  match o with BmSet k | BmUnset k => 0 <= k | BmClear => True end.

Lemma wrap_words b : bitmask_ok b -> wrap 32 (bm_words b * 32) = bm_limit b.
Proof. intros [? _]. unfold bm_limit. rewrite wrap_small; lia. Qed.

Lemma bm_bit_in_range b k : bitmask_ok b -> 0 <= k < bm_limit b ->
  bit_in_range k (bm_bits b) = true.
Proof.
  intros (? & Hl & _) Hk. unfold bit_in_range, bm_limit in *. rewrite shiftr5, Hl.
  apply andb_true_intro. split; [lia|]. apply Z.ltb_lt, Z.div_lt_upper_bound; lia.
Qed.

Lemma test_bit_zeros k n : has_bit k (replicate n 0) = false.
Proof.
  rewrite test_bit_testbit. destruct (replicate n 0 !! _) eqn:E; cbn; [|apply Z.bits_0].
  apply lookup_replicate in E as [-> _]. apply Z.bits_0.
Qed.

Lemma zeros_ok n : Forall word_ok (replicate n 0).
Proof. apply Forall_replicate. unfold word_ok. lia. Qed.

Lemma bm_rel_zeros words : 1 <= words <= 2048 ->
  bm_rel (mk_bitmask words (replicate (Z.to_nat words) 0)) ∅.
Proof.
  intros H. repeat split; cbn -[wrap]; try lia; [zl|apply zeros_ok|set_solver|set_solver|].
  intros k Hk. unfold bm_has. cbn [bm_bits].
  rewrite test_bit_zeros, andb_false_r. symmetry. by apply bool_decide_eq_false.
Qed.

(** The operations stay inside of the array and return what the bits say. *)
Lemma bitmask_test_bit_run b k w : bitmask_ok b -> 0 <= k ->
  nfct_bitmask_test_bit b k w = Ok (bm_has b k, w).
Proof.
  intros Hok Hk. unfold nfct_bitmask_test_bit, bm_has, test_bit. rewrite wrap_words by done.
  destruct (Z.ltb_spec k (bm_limit b)); [|done]. by rewrite bm_bit_in_range.
Qed.

Lemma bitmask_set_bit_run b k w : bitmask_ok b -> 0 <= k ->
  nfct_bitmask_set_bit b k w =
    Ok (if k <? bm_limit b then mk_bitmask (bm_words b) (or_bit k (bm_bits b)) else b, w).
Proof.
  intros Hok Hk. unfold nfct_bitmask_set_bit, set_bit, bind. rewrite wrap_words by done.
  destruct (Z.ltb_spec k (bm_limit b)); [|done]. by rewrite bm_bit_in_range.
Qed.

Lemma bitmask_unset_bit_run b k w : bitmask_ok b -> 0 <= k ->
  nfct_bitmask_unset_bit b k w =
    Ok (if k <? bm_limit b then mk_bitmask (bm_words b) (clear_bit k (bm_bits b)) else b, w).
Proof.
  intros Hok Hk. unfold nfct_bitmask_unset_bit, unset_bit, bind. rewrite wrap_words by done.
  destruct (Z.ltb_spec k (bm_limit b)); [|done]. by rewrite bm_bit_in_range.
Qed.

Lemma bitmask_or_ok b k : bitmask_ok b -> bitmask_ok (mk_bitmask (bm_words b) (or_bit k (bm_bits b))).
Proof.
  intros (H1 & H2 & H3). repeat split; cbn; [lia|lia| |by apply set_bit_ok].
  unfold zlen in *. by rewrite length_set_bit.
Qed.

Lemma bitmask_clear_ok b k : bitmask_ok b -> bitmask_ok (mk_bitmask (bm_words b) (clear_bit k (bm_bits b))).
Proof.
  intros (H1 & H2 & H3). repeat split; cbn; [lia|lia| |by apply unset_bit_ok].
  unfold zlen in *. by rewrite length_unset_bit.
Qed.

Lemma bm_rel_or b s n : 0 <= n < bm_limit b -> bm_rel b s ->
  bm_rel (mk_bitmask (bm_words b) (or_bit n (bm_bits b))) ({[ n ]} ∪ s).
Proof.
  intros Hn (Hok & Hs & Ht). split; [by apply bitmask_or_ok|].
  unfold bm_limit in *. cbn. split; [set_solver|].
  intros k Hk. specialize (Ht k Hk). unfold bm_has, bm_limit in *. cbn in *.
  rewrite test_set_bit, andb_orb_distrib_r, Ht by (auto using bm_bit_in_range; lia).
  rewrite (bool_decide_ext (k ∈ {[n]} ∪ s) (k = n \/ k ∈ s)) by (by rewrite elem_of_union, elem_of_singleton).
  rewrite bool_decide_or. f_equal.
  destruct (Z.eqb_spec k n) as [->|]; [rewrite bool_decide_eq_true_2 by done; lia|].
  by rewrite bool_decide_eq_false_2, andb_false_r.
Qed.

Lemma bm_rel_clear_bit b s n : 0 <= n < bm_limit b -> bm_rel b s ->
  bm_rel (mk_bitmask (bm_words b) (clear_bit n (bm_bits b))) (s ∖ {[ n ]}).
Proof.
  intros Hn (Hok & Hs & Ht). split; [by apply bitmask_clear_ok|].
  unfold bm_limit in *. cbn. split; [set_solver|].
  intros k Hk. specialize (Ht k Hk). unfold bm_has, bm_limit in *. cbn in *.
  rewrite test_unset_bit by (auto using bm_bit_in_range; lia).
  rewrite (bool_decide_ext (k ∈ s ∖ {[n]}) (k <> n /\ k ∈ s))
    by (rewrite elem_of_difference, elem_of_singleton; tauto).
  rewrite bool_decide_and, <- Ht.
  destruct (Z.eqb_spec k n); [rewrite bool_decide_eq_false_2 by lia | rewrite bool_decide_eq_true_2 by done];
    cbn; by rewrite ?andb_false_r.
Qed.

Lemma bm_step_refines b s o w : bm_op_ok o -> bm_rel b s ->
  exists b', bm_step b o w = Ok (b', w) /\ bm_words b' = bm_words b /\
             bm_rel b' (set_step (bm_limit b) s o).
Proof.
  intros Ho Hr. pose proof Hr as (Hok & Hs & _). destruct o as [n|n|]; cbn in *.
  - eexists. split; [by apply bitmask_set_bit_run|].
    destruct (Z.ltb_spec n (bm_limit b)); [|done]. split; [done|]. by apply bm_rel_or.
  - eexists. split; [by apply bitmask_unset_bit_run|].
    destruct (Z.ltb_spec n (bm_limit b)) as [Hn|Hn]; (split; [done|]); [by apply bm_rel_clear_bit|].
    assert (s ∖ {[n]} = s) as -> by (apply set_eq; intros k; specialize (Hs k); set_solver by lia).
    done.
  - eexists. split; [done|]. split; [done|]. apply bm_rel_zeros. apply Hok.
Qed.

Lemma bm_run_refines ops b s w : Forall bm_op_ok ops -> bm_rel b s ->
  exists b', bm_run ops b w = Ok (b', w) /\ bm_words b' = bm_words b /\
             bm_rel b' (foldl (set_step (bm_limit b)) s ops).
Proof.
  intros Hops. revert b s. induction Hops as [|o ops Ho _ IH]; intros b s Hr; cbn; [by exists b|].
  destruct (bm_step_refines b s o w Ho Hr) as (b1 & Hb & Hw & Hr1). unfold bind. rewrite Hb.
  destruct (IH b1 _ Hr1) as (b2 & ? & ? & Hr2). exists b2.
  unfold bm_limit in *. rewrite Hw in *. done.
Qed.

(** C35: a bitmask created by [nfct_bitmask_new] and used through any sequence
    of set, unset and clear calls behaves like a finite set of bit numbers: no
    call touches a word outside of the array, the bitmask stays well formed (the
    word count matches the array, every word has 32 bits) and afterwards
    [nfct_bitmask_test_bit] answers, for every bit number, membership in the set
    that the abstract operations compute, bits above the capacity being
    ignored. *)
Theorem bitmask_refines_set max ops w b w' :
  0 <= max <= 0xffff -> Forall bm_op_ok ops ->
  nfct_bitmask_new max w = Ok (Some b, w') ->
  bm_limit b = 32 * (max / 32 + 1) /\
  exists b', bm_run ops b w' = Ok (b', w') /\ bitmask_ok b' /\ bm_limit b' = bm_limit b /\
    forall k w1, 0 <= k ->
      nfct_bitmask_test_bit b' k w1 =
        Ok (bool_decide (k ∈ foldl (set_step (bm_limit b)) (∅ : gset Z) ops), w1).
Proof.
  intros Hmax Hops Hnew.
  assert (Hb : b = mk_bitmask (max / 32 + 1) (replicate (Z.to_nat (max / 32 + 1)) 0)).
  { unfold nfct_bitmask_new, DIV_ROUND_UP in Hnew.
    destruct (Z.ltb_spec 0xffff max); [lia|].
    replace (max + 1 + 32 - 1) with (max + 1 * 32) in Hnew by lia.
    rewrite Z.div_add in Hnew by lia.
    unfold bind, malloc_ok, ret in Hnew. repeat case_match; by simplify_eq. }
  assert (Hr : bm_rel b ∅).
  { subst b. apply bm_rel_zeros. split; [pose proof (Z.div_pos max 32); lia|].
    pose proof (Z.div_lt_upper_bound max 32 2048). lia. }
  split; [by subst b|].
  destruct (bm_run_refines ops b ∅ w' Hops Hr) as (b' & Hrun & Hw & Hok & Hs & Ht).
  exists b'. split; [done|]. split; [done|]. split; [unfold bm_limit; by rewrite Hw|].
  intros k w1 Hk. by rewrite bitmask_test_bit_run, Ht.
Qed.

Lemma bitmask_refines_set_witness :
  exists b', bm_run [BmSet 3; BmSet 40; BmUnset 3; BmSet 200] (mk_bitmask 2 [0; 0]) (mk_world [] 0 []) =
               Ok (b', mk_world [] 0 []) /\
    nfct_bitmask_test_bit b' 40 (mk_world [] 0 []) = Ok (true, mk_world [] 0 []) /\
    nfct_bitmask_test_bit b' 200 (mk_world [] 0 []) = Ok (false, mk_world [] 0 []).
Proof.
  edestruct (bitmask_refines_set 40 [BmSet 3; BmSet 40; BmUnset 3; BmSet 200]
           (mk_world [] 0 []) (mk_bitmask 2 [0; 0]) (mk_world [] 0 [])) as (_ & b' & Hrun & _ & _ & Ht);
    [lia | repeat constructor; cbn; lia | reflexivity |].
  exists b'. split; [exact Hrun|]. split; rewrite Ht by lia; reflexivity.
Defined.

(** [nfct_bitmask_equal] decides equality of the represented sets, for
    bitmasks of the same capacity, and tells bitmasks of different capacity
    apart. *)
Theorem bitmask_equal_iff b1 b2 s1 s2 :
  bm_rel b1 s1 -> bm_rel b2 s2 ->
  nfct_bitmask_equal b1 b2 = true <-> bm_limit b1 = bm_limit b2 /\ s1 = s2.
Proof.
  intros (H1 & Hs1 & Ht1) (H2 & Hs2 & Ht2). unfold nfct_bitmask_equal, bm_limit in *.
  destruct (Z.eqb_spec (bm_words b1) (bm_words b2)) as [Hw|Hw]; cbn; [|split; [done|lia]].
  rewrite bool_decide_eq_true. split.
  - intros Hb. split; [lia|]. apply set_eq. intros k. destruct (decide (0 <= k)).
    + pose proof (Ht1 k l) as A. pose proof (Ht2 k l) as B.
      unfold bm_has, bm_limit in A, B. rewrite Hw, Hb, B in A.
      rewrite <- (bool_decide_eq_true (k ∈ s1)), <- (bool_decide_eq_true (k ∈ s2)), A. done.
    + split; intros Hk; [apply Hs1 in Hk | apply Hs2 in Hk]; lia.
  - intros [_ ->]. pose proof H1 as (? & Hl1 & ?). pose proof H2 as (? & Hl2 & ?).
    apply words_ext; auto; [unfold zlen in *; lia|].
    intros k Hk. specialize (Ht1 k ltac:(lia)). specialize (Ht2 k ltac:(lia)).
    unfold bm_has, bm_limit in Ht1, Ht2. rewrite <- Ht2 in Ht1. rewrite Hl1 in Hk.
    by rewrite <- Hw, (proj2 (Z.ltb_lt k (32 * bm_words b1))) in Ht1 by lia.
Qed.

Lemma bitmask_equal_iff_witness :
  nfct_bitmask_equal (mk_bitmask 1 [0]) (mk_bitmask 1 [0]) = true
  <-> bm_limit (mk_bitmask 1 [0]) = bm_limit (mk_bitmask 1 [0]) /\ (∅ : gset Z) = ∅.
Proof.
  exact (bitmask_equal_iff (mk_bitmask 1 [0]) (mk_bitmask 1 [0]) ∅ ∅
           (bm_rel_zeros 1 ltac:(lia)) (bm_rel_zeros 1 ltac:(lia))).
Defined.
