(* ===== verification/CtObject.v ===== *)
(** The conntrack object: [struct nf_conntrack] and the structures it is made of
    ([src/libnetfilter_conntrack/internal/object.h]) and the attribute numbers
    of [src/libnetfilter_conntrack/libnetfilter_conntrack.h].

    A C structure is a record with the same fields.  A C union is its bytes, so
    that the members alias the way they do in memory: an address is 16 bytes
    whose first four are the IPv4 member, the layer 4 destination is two bytes
    (port, or ICMP type and code), the protocol information is 16 bytes.  A
    pointer to a heap block is an option ([None] is NULL) of the block. *)
From S2P Require Import Prelude CMonad Bitops.
Open Scope c_scope.

(** ** Attribute numbers *)

(** [enum nf_conntrack_attr], in the order of the header; the aliases
    [ATTR_IPV4_SRC], [ATTR_PORT_SRC], [ATTR_L3PROTO] and so on are the same
    numbers. *)

Inductive nf_conntrack_attr :=
| ATTR_ORIG_IPV4_SRC
| ATTR_ORIG_IPV4_DST
| ATTR_REPL_IPV4_SRC
| ATTR_REPL_IPV4_DST
| ATTR_ORIG_IPV6_SRC
| ATTR_ORIG_IPV6_DST
| ATTR_REPL_IPV6_SRC
| ATTR_REPL_IPV6_DST
| ATTR_ORIG_PORT_SRC
| ATTR_ORIG_PORT_DST
| ATTR_REPL_PORT_SRC
| ATTR_REPL_PORT_DST
| ATTR_ICMP_TYPE
| ATTR_ICMP_CODE
| ATTR_ICMP_ID
| ATTR_ORIG_L3PROTO
| ATTR_REPL_L3PROTO
| ATTR_ORIG_L4PROTO
| ATTR_REPL_L4PROTO
| ATTR_TCP_STATE
| ATTR_SNAT_IPV4
| ATTR_DNAT_IPV4
| ATTR_SNAT_PORT
| ATTR_DNAT_PORT
| ATTR_TIMEOUT
| ATTR_MARK
| ATTR_ORIG_COUNTER_PACKETS
| ATTR_REPL_COUNTER_PACKETS
| ATTR_ORIG_COUNTER_BYTES
| ATTR_REPL_COUNTER_BYTES
| ATTR_USE
| ATTR_ID
| ATTR_STATUS
| ATTR_TCP_FLAGS_ORIG
| ATTR_TCP_FLAGS_REPL
| ATTR_TCP_MASK_ORIG
| ATTR_TCP_MASK_REPL
| ATTR_MASTER_IPV4_SRC
| ATTR_MASTER_IPV4_DST
| ATTR_MASTER_IPV6_SRC
| ATTR_MASTER_IPV6_DST
| ATTR_MASTER_PORT_SRC
| ATTR_MASTER_PORT_DST
| ATTR_MASTER_L3PROTO
| ATTR_MASTER_L4PROTO
| ATTR_SECMARK
| ATTR_ORIG_NAT_SEQ_CORRECTION_POS
| ATTR_ORIG_NAT_SEQ_OFFSET_BEFORE
| ATTR_ORIG_NAT_SEQ_OFFSET_AFTER
| ATTR_REPL_NAT_SEQ_CORRECTION_POS
| ATTR_REPL_NAT_SEQ_OFFSET_BEFORE
| ATTR_REPL_NAT_SEQ_OFFSET_AFTER
| ATTR_SCTP_STATE
| ATTR_SCTP_VTAG_ORIG
| ATTR_SCTP_VTAG_REPL
| ATTR_HELPER_NAME
| ATTR_DCCP_STATE
| ATTR_DCCP_ROLE
| ATTR_DCCP_HANDSHAKE_SEQ
| ATTR_TCP_WSCALE_ORIG
| ATTR_TCP_WSCALE_REPL
| ATTR_ZONE
| ATTR_SECCTX
| ATTR_TIMESTAMP_START
| ATTR_TIMESTAMP_STOP
| ATTR_HELPER_INFO
| ATTR_CONNLABELS
| ATTR_CONNLABELS_MASK
| ATTR_ORIG_ZONE
| ATTR_REPL_ZONE
| ATTR_SNAT_IPV6
| ATTR_DNAT_IPV6
| ATTR_SYNPROXY_ISN
| ATTR_SYNPROXY_ITS
| ATTR_SYNPROXY_TSOFF.

Definition ATTR_MAX : Z := 75.

(** The attributes in the order of their numbers. *)

Definition all_attrs : list nf_conntrack_attr :=
  [ATTR_ORIG_IPV4_SRC; ATTR_ORIG_IPV4_DST; ATTR_REPL_IPV4_SRC; ATTR_REPL_IPV4_DST;
   ATTR_ORIG_IPV6_SRC; ATTR_ORIG_IPV6_DST; ATTR_REPL_IPV6_SRC; ATTR_REPL_IPV6_DST;
   ATTR_ORIG_PORT_SRC; ATTR_ORIG_PORT_DST; ATTR_REPL_PORT_SRC; ATTR_REPL_PORT_DST;
   ATTR_ICMP_TYPE; ATTR_ICMP_CODE; ATTR_ICMP_ID; ATTR_ORIG_L3PROTO;
   ATTR_REPL_L3PROTO; ATTR_ORIG_L4PROTO; ATTR_REPL_L4PROTO; ATTR_TCP_STATE;
   ATTR_SNAT_IPV4; ATTR_DNAT_IPV4; ATTR_SNAT_PORT; ATTR_DNAT_PORT;
   ATTR_TIMEOUT; ATTR_MARK; ATTR_ORIG_COUNTER_PACKETS; ATTR_REPL_COUNTER_PACKETS;
   ATTR_ORIG_COUNTER_BYTES; ATTR_REPL_COUNTER_BYTES; ATTR_USE; ATTR_ID;
   ATTR_STATUS; ATTR_TCP_FLAGS_ORIG; ATTR_TCP_FLAGS_REPL; ATTR_TCP_MASK_ORIG;
   ATTR_TCP_MASK_REPL; ATTR_MASTER_IPV4_SRC; ATTR_MASTER_IPV4_DST; ATTR_MASTER_IPV6_SRC;
   ATTR_MASTER_IPV6_DST; ATTR_MASTER_PORT_SRC; ATTR_MASTER_PORT_DST; ATTR_MASTER_L3PROTO;
   ATTR_MASTER_L4PROTO; ATTR_SECMARK; ATTR_ORIG_NAT_SEQ_CORRECTION_POS; ATTR_ORIG_NAT_SEQ_OFFSET_BEFORE;
   ATTR_ORIG_NAT_SEQ_OFFSET_AFTER; ATTR_REPL_NAT_SEQ_CORRECTION_POS; ATTR_REPL_NAT_SEQ_OFFSET_BEFORE; ATTR_REPL_NAT_SEQ_OFFSET_AFTER;
   ATTR_SCTP_STATE; ATTR_SCTP_VTAG_ORIG; ATTR_SCTP_VTAG_REPL; ATTR_HELPER_NAME;
   ATTR_DCCP_STATE; ATTR_DCCP_ROLE; ATTR_DCCP_HANDSHAKE_SEQ; ATTR_TCP_WSCALE_ORIG;
   ATTR_TCP_WSCALE_REPL; ATTR_ZONE; ATTR_SECCTX; ATTR_TIMESTAMP_START;
   ATTR_TIMESTAMP_STOP; ATTR_HELPER_INFO; ATTR_CONNLABELS; ATTR_CONNLABELS_MASK;
   ATTR_ORIG_ZONE; ATTR_REPL_ZONE; ATTR_SNAT_IPV6; ATTR_DNAT_IPV6;
   ATTR_SYNPROXY_ISN; ATTR_SYNPROXY_ITS; ATTR_SYNPROXY_TSOFF].

(** The number of an attribute. *)
Definition attr_idx (a : nf_conntrack_attr) : Z :=
  match a with
  | ATTR_ORIG_IPV4_SRC => 0
  | ATTR_ORIG_IPV4_DST => 1
  | ATTR_REPL_IPV4_SRC => 2
  | ATTR_REPL_IPV4_DST => 3
  | ATTR_ORIG_IPV6_SRC => 4
  | ATTR_ORIG_IPV6_DST => 5
  | ATTR_REPL_IPV6_SRC => 6
  | ATTR_REPL_IPV6_DST => 7
  | ATTR_ORIG_PORT_SRC => 8
  | ATTR_ORIG_PORT_DST => 9
  | ATTR_REPL_PORT_SRC => 10
  | ATTR_REPL_PORT_DST => 11
  | ATTR_ICMP_TYPE => 12
  | ATTR_ICMP_CODE => 13
  | ATTR_ICMP_ID => 14
  | ATTR_ORIG_L3PROTO => 15
  | ATTR_REPL_L3PROTO => 16
  | ATTR_ORIG_L4PROTO => 17
  | ATTR_REPL_L4PROTO => 18
  | ATTR_TCP_STATE => 19
  | ATTR_SNAT_IPV4 => 20
  | ATTR_DNAT_IPV4 => 21
  | ATTR_SNAT_PORT => 22
  | ATTR_DNAT_PORT => 23
  | ATTR_TIMEOUT => 24
  | ATTR_MARK => 25
  | ATTR_ORIG_COUNTER_PACKETS => 26
  | ATTR_REPL_COUNTER_PACKETS => 27
  | ATTR_ORIG_COUNTER_BYTES => 28
  | ATTR_REPL_COUNTER_BYTES => 29
  | ATTR_USE => 30
  | ATTR_ID => 31
  | ATTR_STATUS => 32
  | ATTR_TCP_FLAGS_ORIG => 33
  | ATTR_TCP_FLAGS_REPL => 34
  | ATTR_TCP_MASK_ORIG => 35
  | ATTR_TCP_MASK_REPL => 36
  | ATTR_MASTER_IPV4_SRC => 37
  | ATTR_MASTER_IPV4_DST => 38
  | ATTR_MASTER_IPV6_SRC => 39
  | ATTR_MASTER_IPV6_DST => 40
  | ATTR_MASTER_PORT_SRC => 41
  | ATTR_MASTER_PORT_DST => 42
  | ATTR_MASTER_L3PROTO => 43
  | ATTR_MASTER_L4PROTO => 44
  | ATTR_SECMARK => 45
  | ATTR_ORIG_NAT_SEQ_CORRECTION_POS => 46
  | ATTR_ORIG_NAT_SEQ_OFFSET_BEFORE => 47
  | ATTR_ORIG_NAT_SEQ_OFFSET_AFTER => 48
  | ATTR_REPL_NAT_SEQ_CORRECTION_POS => 49
  | ATTR_REPL_NAT_SEQ_OFFSET_BEFORE => 50
  | ATTR_REPL_NAT_SEQ_OFFSET_AFTER => 51
  | ATTR_SCTP_STATE => 52
  | ATTR_SCTP_VTAG_ORIG => 53
  | ATTR_SCTP_VTAG_REPL => 54
  | ATTR_HELPER_NAME => 55
  | ATTR_DCCP_STATE => 56
  | ATTR_DCCP_ROLE => 57
  | ATTR_DCCP_HANDSHAKE_SEQ => 58
  | ATTR_TCP_WSCALE_ORIG => 59
  | ATTR_TCP_WSCALE_REPL => 60
  | ATTR_ZONE => 61
  | ATTR_SECCTX => 62
  | ATTR_TIMESTAMP_START => 63
  | ATTR_TIMESTAMP_STOP => 64
  | ATTR_HELPER_INFO => 65
  | ATTR_CONNLABELS => 66
  | ATTR_CONNLABELS_MASK => 67
  | ATTR_ORIG_ZONE => 68
  | ATTR_REPL_ZONE => 69
  | ATTR_SNAT_IPV6 => 70
  | ATTR_DNAT_IPV6 => 71
  | ATTR_SYNPROXY_ISN => 72
  | ATTR_SYNPROXY_ITS => 73
  | ATTR_SYNPROXY_TSOFF => 74
  end.

(** The attribute with a given number; [None] when the number is [ATTR_MAX] or more. *)
Definition attr_of_idx (z : Z) : option nf_conntrack_attr :=
  if z <? 0 then None else all_attrs !! Z.to_nat z.

Lemma attr_of_idx_idx a : attr_of_idx (attr_idx a) = Some a.
Proof. by destruct a. Qed.

#[export] Instance attr_idx_inj : Inj (=) (=) attr_idx.
Proof. intros a b H. apply (f_equal attr_of_idx) in H. rewrite !attr_of_idx_idx in H. congruence. Qed.

#[export] Instance nf_conntrack_attr_eq_dec : EqDecision nf_conntrack_attr.
Proof.
  intros a b. destruct (decide (attr_idx a = attr_idx b)) as [H|H];
    [left; by apply (inj attr_idx) | right; congruence].
Defined.

Lemma attr_idx_range a : 0 <= attr_idx a < ATTR_MAX.
Proof. by destruct a. Qed.

Lemma all_attrs_lookup i a : all_attrs !! i = Some a <-> attr_idx a = Z.of_nat i.
Proof.
  split.
  - intros H. do 75 (destruct i as [|i]; [by injection H as <-|]). done.
  - intros H. pose proof (attr_of_idx_idx a) as Ha. rewrite H in Ha. unfold attr_of_idx in Ha.
    destruct (Z.ltb_spec (Z.of_nat i) 0); [lia|]. by rewrite Nat2Z.id in Ha.
Qed.

Lemma elem_of_all_attrs a : a ∈ all_attrs.
Proof.
  apply list_elem_of_lookup. exists (Z.to_nat (attr_idx a)). apply all_attrs_lookup.
  pose proof (attr_idx_range a). lia.
Qed.

(** ** Unions as bytes *)

(** The [n]-byte member at offset [o] of a union, and its assignment. *)
Definition u_get (n : nat) (o : Z) (u : list Z) : Z := rd n o u.
Definition u_set (n : nat) (o v : Z) (u : list Z) : list Z := splice o (le_enc n v) u.

(** [union __nfct_address]: the IPv4 member; the IPv6 member is all of it. *)
Definition addr_v4 (u : list Z) : Z := u_get 4 0 u.
Definition set_addr_v4 (v : Z) (u : list Z) : list Z := u_set 4 0 v u.

(** [union __nfct_l4_dst]. *)
Definition l4dst_all (u : list Z) : Z := u_get 2 0 u.
Definition set_l4dst_all (v : Z) (u : list Z) : list Z := u_set 2 0 v u.
Definition icmp_type (u : list Z) : Z := u_get 1 0 u.
Definition set_icmp_type (v : Z) (u : list Z) : list Z := u_set 1 0 v u.
Definition icmp_code (u : list Z) : Z := u_get 1 1 u.
Definition set_icmp_code (v : Z) (u : list Z) : list Z := u_set 1 1 v u.

(** Array index of the two directions, and an array of [__DIR_MAX] elements. *)
Inductive nfct_dir := DIR_ORIG | DIR_REPL.

Record dirs (A : Type) := mk_dirs { d_orig : A; d_repl : A }.
Arguments mk_dirs {A} _ _.
Arguments d_orig {A} _.
Arguments d_repl {A} _.

Definition dget {A} (d : nfct_dir) (x : dirs A) : A :=
  match d with DIR_ORIG => d_orig x | DIR_REPL => d_repl x end.
Definition dset {A} (d : nfct_dir) (v : A) (x : dirs A) : dirs A :=
  match d with DIR_ORIG => mk_dirs v (d_repl x) | DIR_REPL => mk_dirs (d_orig x) v end.

(** Offsets of the members of [union __nfct_protoinfo]. *)
Definition tcp_state_off : Z := 0.
Definition tcp_flags_value_off (d : nfct_dir) : Z := match d with DIR_ORIG => 1 | DIR_REPL => 3 end.
Definition tcp_flags_mask_off (d : nfct_dir) : Z := match d with DIR_ORIG => 2 | DIR_REPL => 4 end.
Definition tcp_wscale_off (d : nfct_dir) : Z := match d with DIR_ORIG => 5 | DIR_REPL => 6 end.
Definition sctp_state_off : Z := 0.
Definition sctp_vtag_off (d : nfct_dir) : Z := match d with DIR_ORIG => 4 | DIR_REPL => 8 end.
Definition dccp_state_off : Z := 0.
Definition dccp_role_off : Z := 1.
Definition dccp_handshake_seq_off : Z := 8.

(** ** The structures *)

(** [struct __nfct_tuple]. *)
Record __nfct_tuple := mk_tuple {
  tp_src : list Z;
  tp_dst : list Z;
  tp_l3protonum : Z;
  tp_protonum : Z;
  tp_zone : Z;
  tp_l4src : Z;
  tp_l4dst : list Z
}.

(** [struct nfct_tuple_head]: the original tuple and the presence bits. *)
Record nfct_tuple_head := mk_head {
  head_orig : __nfct_tuple;
  head_set : list Z
}.

(** [struct __nfct_counters]. *)
Record __nfct_counters := mk_counters {
  ctr_packets : Z;
  ctr_bytes : Z
}.

(** [struct __nfct_nat]. *)
Record __nfct_nat := mk_nat {
  nat_min_ip : list Z;
  nat_max_ip : list Z;
  nat_l4min : Z;
  nat_l4max : Z
}.

(** The anonymous structure of [natseq]. *)
Record nfct_natseq := mk_natseq {
  seq_correction_pos : Z;
  seq_offset_before : Z;
  seq_offset_after : Z
}.

(** The anonymous structure of [timestamp]. *)
Record nfct_timestamp := mk_timestamp {
  ts_start : Z;
  ts_stop : Z
}.

(** The anonymous structure of [synproxy]. *)
Record nfct_synproxy := mk_synproxy {
  syn_isn : Z;
  syn_its : Z;
  syn_tsoff : Z
}.

(** [struct nf_conntrack]. *)
Record nf_conntrack := mk_ct {
  ct_head : nfct_tuple_head;
  ct_repl : __nfct_tuple;
  ct_master : __nfct_tuple;
  ct_timeout : Z;
  ct_mark : Z;
  ct_secmark : Z;
  ct_status : Z;
  ct_use : Z;
  ct_id : Z;
  ct_zone : Z;
  ct_helper_name : list Z;
  ct_secctx : option (list Z);
  ct_protoinfo : list Z;
  ct_counters : dirs __nfct_counters;
  ct_snat : __nfct_nat;
  ct_dnat : __nfct_nat;
  ct_natseq : dirs nfct_natseq;
  ct_timestamp : nfct_timestamp;
  ct_synproxy : nfct_synproxy;
  ct_helper_info : option (list Z);
  ct_helper_info_len : Z;
  ct_connlabels : option nfct_bitmask;
  ct_connlabels_mask : option nfct_bitmask
}.

(** ** Field assignments *)

Definition with_tp_src (v : list Z) (x : __nfct_tuple) : __nfct_tuple :=
  mk_tuple v (tp_dst x) (tp_l3protonum x) (tp_protonum x) (tp_zone x) (tp_l4src x) (tp_l4dst x).
Definition with_tp_dst (v : list Z) (x : __nfct_tuple) : __nfct_tuple :=
  mk_tuple (tp_src x) v (tp_l3protonum x) (tp_protonum x) (tp_zone x) (tp_l4src x) (tp_l4dst x).
Definition with_tp_l3protonum (v : Z) (x : __nfct_tuple) : __nfct_tuple :=
  mk_tuple (tp_src x) (tp_dst x) v (tp_protonum x) (tp_zone x) (tp_l4src x) (tp_l4dst x).
Definition with_tp_protonum (v : Z) (x : __nfct_tuple) : __nfct_tuple :=
  mk_tuple (tp_src x) (tp_dst x) (tp_l3protonum x) v (tp_zone x) (tp_l4src x) (tp_l4dst x).
Definition with_tp_zone (v : Z) (x : __nfct_tuple) : __nfct_tuple :=
  mk_tuple (tp_src x) (tp_dst x) (tp_l3protonum x) (tp_protonum x) v (tp_l4src x) (tp_l4dst x).
Definition with_tp_l4src (v : Z) (x : __nfct_tuple) : __nfct_tuple :=
  mk_tuple (tp_src x) (tp_dst x) (tp_l3protonum x) (tp_protonum x) (tp_zone x) v (tp_l4dst x).
Definition with_tp_l4dst (v : list Z) (x : __nfct_tuple) : __nfct_tuple :=
  mk_tuple (tp_src x) (tp_dst x) (tp_l3protonum x) (tp_protonum x) (tp_zone x) (tp_l4src x) v.

Definition with_ctr_packets (v : Z) (x : __nfct_counters) : __nfct_counters :=
  mk_counters v (ctr_bytes x).
Definition with_ctr_bytes (v : Z) (x : __nfct_counters) : __nfct_counters :=
  mk_counters (ctr_packets x) v.

Definition with_nat_min_ip (v : list Z) (x : __nfct_nat) : __nfct_nat :=
  mk_nat v (nat_max_ip x) (nat_l4min x) (nat_l4max x).
Definition with_nat_max_ip (v : list Z) (x : __nfct_nat) : __nfct_nat :=
  mk_nat (nat_min_ip x) v (nat_l4min x) (nat_l4max x).
Definition with_nat_l4min (v : Z) (x : __nfct_nat) : __nfct_nat :=
  mk_nat (nat_min_ip x) (nat_max_ip x) v (nat_l4max x).
Definition with_nat_l4max (v : Z) (x : __nfct_nat) : __nfct_nat :=
  mk_nat (nat_min_ip x) (nat_max_ip x) (nat_l4min x) v.

Definition with_seq_correction_pos (v : Z) (x : nfct_natseq) : nfct_natseq :=
  mk_natseq v (seq_offset_before x) (seq_offset_after x).
Definition with_seq_offset_before (v : Z) (x : nfct_natseq) : nfct_natseq :=
  mk_natseq (seq_correction_pos x) v (seq_offset_after x).
Definition with_seq_offset_after (v : Z) (x : nfct_natseq) : nfct_natseq :=
  mk_natseq (seq_correction_pos x) (seq_offset_before x) v.

Definition with_ts_start (v : Z) (x : nfct_timestamp) : nfct_timestamp :=
  mk_timestamp v (ts_stop x).
Definition with_ts_stop (v : Z) (x : nfct_timestamp) : nfct_timestamp :=
  mk_timestamp (ts_start x) v.

Definition with_syn_isn (v : Z) (x : nfct_synproxy) : nfct_synproxy :=
  mk_synproxy v (syn_its x) (syn_tsoff x).
Definition with_syn_its (v : Z) (x : nfct_synproxy) : nfct_synproxy :=
  mk_synproxy (syn_isn x) v (syn_tsoff x).
Definition with_syn_tsoff (v : Z) (x : nfct_synproxy) : nfct_synproxy :=
  mk_synproxy (syn_isn x) (syn_its x) v.

Definition with_ct_head (v : nfct_tuple_head) (x : nf_conntrack) : nf_conntrack :=
  mk_ct v (ct_repl x) (ct_master x) (ct_timeout x) (ct_mark x) (ct_secmark x) (ct_status x)
    (ct_use x) (ct_id x) (ct_zone x) (ct_helper_name x) (ct_secctx x) (ct_protoinfo x)
    (ct_counters x) (ct_snat x) (ct_dnat x) (ct_natseq x) (ct_timestamp x) (ct_synproxy x)
    (ct_helper_info x) (ct_helper_info_len x) (ct_connlabels x) (ct_connlabels_mask x).
Definition with_ct_repl (v : __nfct_tuple) (x : nf_conntrack) : nf_conntrack :=
  mk_ct (ct_head x) v (ct_master x) (ct_timeout x) (ct_mark x) (ct_secmark x) (ct_status x)
    (ct_use x) (ct_id x) (ct_zone x) (ct_helper_name x) (ct_secctx x) (ct_protoinfo x)
    (ct_counters x) (ct_snat x) (ct_dnat x) (ct_natseq x) (ct_timestamp x) (ct_synproxy x)
    (ct_helper_info x) (ct_helper_info_len x) (ct_connlabels x) (ct_connlabels_mask x).
Definition with_ct_master (v : __nfct_tuple) (x : nf_conntrack) : nf_conntrack :=
  mk_ct (ct_head x) (ct_repl x) v (ct_timeout x) (ct_mark x) (ct_secmark x) (ct_status x)
    (ct_use x) (ct_id x) (ct_zone x) (ct_helper_name x) (ct_secctx x) (ct_protoinfo x)
    (ct_counters x) (ct_snat x) (ct_dnat x) (ct_natseq x) (ct_timestamp x) (ct_synproxy x)
    (ct_helper_info x) (ct_helper_info_len x) (ct_connlabels x) (ct_connlabels_mask x).
Definition with_ct_timeout (v : Z) (x : nf_conntrack) : nf_conntrack :=
  mk_ct (ct_head x) (ct_repl x) (ct_master x) v (ct_mark x) (ct_secmark x) (ct_status x) (ct_use
    x) (ct_id x) (ct_zone x) (ct_helper_name x) (ct_secctx x) (ct_protoinfo x) (ct_counters x)
    (ct_snat x) (ct_dnat x) (ct_natseq x) (ct_timestamp x) (ct_synproxy x) (ct_helper_info x)
    (ct_helper_info_len x) (ct_connlabels x) (ct_connlabels_mask x).
Definition with_ct_mark (v : Z) (x : nf_conntrack) : nf_conntrack :=
  mk_ct (ct_head x) (ct_repl x) (ct_master x) (ct_timeout x) v (ct_secmark x) (ct_status x)
    (ct_use x) (ct_id x) (ct_zone x) (ct_helper_name x) (ct_secctx x) (ct_protoinfo x)
    (ct_counters x) (ct_snat x) (ct_dnat x) (ct_natseq x) (ct_timestamp x) (ct_synproxy x)
    (ct_helper_info x) (ct_helper_info_len x) (ct_connlabels x) (ct_connlabels_mask x).
Definition with_ct_secmark (v : Z) (x : nf_conntrack) : nf_conntrack :=
  mk_ct (ct_head x) (ct_repl x) (ct_master x) (ct_timeout x) (ct_mark x) v (ct_status x) (ct_use
    x) (ct_id x) (ct_zone x) (ct_helper_name x) (ct_secctx x) (ct_protoinfo x) (ct_counters x)
    (ct_snat x) (ct_dnat x) (ct_natseq x) (ct_timestamp x) (ct_synproxy x) (ct_helper_info x)
    (ct_helper_info_len x) (ct_connlabels x) (ct_connlabels_mask x).
Definition with_ct_status (v : Z) (x : nf_conntrack) : nf_conntrack :=
  mk_ct (ct_head x) (ct_repl x) (ct_master x) (ct_timeout x) (ct_mark x) (ct_secmark x) v
    (ct_use x) (ct_id x) (ct_zone x) (ct_helper_name x) (ct_secctx x) (ct_protoinfo x)
    (ct_counters x) (ct_snat x) (ct_dnat x) (ct_natseq x) (ct_timestamp x) (ct_synproxy x)
    (ct_helper_info x) (ct_helper_info_len x) (ct_connlabels x) (ct_connlabels_mask x).
Definition with_ct_use (v : Z) (x : nf_conntrack) : nf_conntrack :=
  mk_ct (ct_head x) (ct_repl x) (ct_master x) (ct_timeout x) (ct_mark x) (ct_secmark x)
    (ct_status x) v (ct_id x) (ct_zone x) (ct_helper_name x) (ct_secctx x) (ct_protoinfo x)
    (ct_counters x) (ct_snat x) (ct_dnat x) (ct_natseq x) (ct_timestamp x) (ct_synproxy x)
    (ct_helper_info x) (ct_helper_info_len x) (ct_connlabels x) (ct_connlabels_mask x).
Definition with_ct_id (v : Z) (x : nf_conntrack) : nf_conntrack :=
  mk_ct (ct_head x) (ct_repl x) (ct_master x) (ct_timeout x) (ct_mark x) (ct_secmark x)
    (ct_status x) (ct_use x) v (ct_zone x) (ct_helper_name x) (ct_secctx x) (ct_protoinfo x)
    (ct_counters x) (ct_snat x) (ct_dnat x) (ct_natseq x) (ct_timestamp x) (ct_synproxy x)
    (ct_helper_info x) (ct_helper_info_len x) (ct_connlabels x) (ct_connlabels_mask x).
Definition with_ct_zone (v : Z) (x : nf_conntrack) : nf_conntrack :=
  mk_ct (ct_head x) (ct_repl x) (ct_master x) (ct_timeout x) (ct_mark x) (ct_secmark x)
    (ct_status x) (ct_use x) (ct_id x) v (ct_helper_name x) (ct_secctx x) (ct_protoinfo x)
    (ct_counters x) (ct_snat x) (ct_dnat x) (ct_natseq x) (ct_timestamp x) (ct_synproxy x)
    (ct_helper_info x) (ct_helper_info_len x) (ct_connlabels x) (ct_connlabels_mask x).
Definition with_ct_helper_name (v : list Z) (x : nf_conntrack) : nf_conntrack :=
  mk_ct (ct_head x) (ct_repl x) (ct_master x) (ct_timeout x) (ct_mark x) (ct_secmark x)
    (ct_status x) (ct_use x) (ct_id x) (ct_zone x) v (ct_secctx x) (ct_protoinfo x) (ct_counters
    x) (ct_snat x) (ct_dnat x) (ct_natseq x) (ct_timestamp x) (ct_synproxy x) (ct_helper_info x)
    (ct_helper_info_len x) (ct_connlabels x) (ct_connlabels_mask x).
Definition with_ct_secctx (v : option (list Z)) (x : nf_conntrack) : nf_conntrack :=
  mk_ct (ct_head x) (ct_repl x) (ct_master x) (ct_timeout x) (ct_mark x) (ct_secmark x)
    (ct_status x) (ct_use x) (ct_id x) (ct_zone x) (ct_helper_name x) v (ct_protoinfo x)
    (ct_counters x) (ct_snat x) (ct_dnat x) (ct_natseq x) (ct_timestamp x) (ct_synproxy x)
    (ct_helper_info x) (ct_helper_info_len x) (ct_connlabels x) (ct_connlabels_mask x).
Definition with_ct_protoinfo (v : list Z) (x : nf_conntrack) : nf_conntrack :=
  mk_ct (ct_head x) (ct_repl x) (ct_master x) (ct_timeout x) (ct_mark x) (ct_secmark x)
    (ct_status x) (ct_use x) (ct_id x) (ct_zone x) (ct_helper_name x) (ct_secctx x) v
    (ct_counters x) (ct_snat x) (ct_dnat x) (ct_natseq x) (ct_timestamp x) (ct_synproxy x)
    (ct_helper_info x) (ct_helper_info_len x) (ct_connlabels x) (ct_connlabels_mask x).
Definition with_ct_counters (v : dirs __nfct_counters) (x : nf_conntrack) : nf_conntrack :=
  mk_ct (ct_head x) (ct_repl x) (ct_master x) (ct_timeout x) (ct_mark x) (ct_secmark x)
    (ct_status x) (ct_use x) (ct_id x) (ct_zone x) (ct_helper_name x) (ct_secctx x)
    (ct_protoinfo x) v (ct_snat x) (ct_dnat x) (ct_natseq x) (ct_timestamp x) (ct_synproxy x)
    (ct_helper_info x) (ct_helper_info_len x) (ct_connlabels x) (ct_connlabels_mask x).
Definition with_ct_snat (v : __nfct_nat) (x : nf_conntrack) : nf_conntrack :=
  mk_ct (ct_head x) (ct_repl x) (ct_master x) (ct_timeout x) (ct_mark x) (ct_secmark x)
    (ct_status x) (ct_use x) (ct_id x) (ct_zone x) (ct_helper_name x) (ct_secctx x)
    (ct_protoinfo x) (ct_counters x) v (ct_dnat x) (ct_natseq x) (ct_timestamp x) (ct_synproxy
    x) (ct_helper_info x) (ct_helper_info_len x) (ct_connlabels x) (ct_connlabels_mask x).
Definition with_ct_dnat (v : __nfct_nat) (x : nf_conntrack) : nf_conntrack :=
  mk_ct (ct_head x) (ct_repl x) (ct_master x) (ct_timeout x) (ct_mark x) (ct_secmark x)
    (ct_status x) (ct_use x) (ct_id x) (ct_zone x) (ct_helper_name x) (ct_secctx x)
    (ct_protoinfo x) (ct_counters x) (ct_snat x) v (ct_natseq x) (ct_timestamp x) (ct_synproxy
    x) (ct_helper_info x) (ct_helper_info_len x) (ct_connlabels x) (ct_connlabels_mask x).
Definition with_ct_natseq (v : dirs nfct_natseq) (x : nf_conntrack) : nf_conntrack :=
  mk_ct (ct_head x) (ct_repl x) (ct_master x) (ct_timeout x) (ct_mark x) (ct_secmark x)
    (ct_status x) (ct_use x) (ct_id x) (ct_zone x) (ct_helper_name x) (ct_secctx x)
    (ct_protoinfo x) (ct_counters x) (ct_snat x) (ct_dnat x) v (ct_timestamp x) (ct_synproxy x)
    (ct_helper_info x) (ct_helper_info_len x) (ct_connlabels x) (ct_connlabels_mask x).
Definition with_ct_timestamp (v : nfct_timestamp) (x : nf_conntrack) : nf_conntrack :=
  mk_ct (ct_head x) (ct_repl x) (ct_master x) (ct_timeout x) (ct_mark x) (ct_secmark x)
    (ct_status x) (ct_use x) (ct_id x) (ct_zone x) (ct_helper_name x) (ct_secctx x)
    (ct_protoinfo x) (ct_counters x) (ct_snat x) (ct_dnat x) (ct_natseq x) v (ct_synproxy x)
    (ct_helper_info x) (ct_helper_info_len x) (ct_connlabels x) (ct_connlabels_mask x).
Definition with_ct_synproxy (v : nfct_synproxy) (x : nf_conntrack) : nf_conntrack :=
  mk_ct (ct_head x) (ct_repl x) (ct_master x) (ct_timeout x) (ct_mark x) (ct_secmark x)
    (ct_status x) (ct_use x) (ct_id x) (ct_zone x) (ct_helper_name x) (ct_secctx x)
    (ct_protoinfo x) (ct_counters x) (ct_snat x) (ct_dnat x) (ct_natseq x) (ct_timestamp x) v
    (ct_helper_info x) (ct_helper_info_len x) (ct_connlabels x) (ct_connlabels_mask x).
Definition with_ct_helper_info (v : option (list Z)) (x : nf_conntrack) : nf_conntrack :=
  mk_ct (ct_head x) (ct_repl x) (ct_master x) (ct_timeout x) (ct_mark x) (ct_secmark x)
    (ct_status x) (ct_use x) (ct_id x) (ct_zone x) (ct_helper_name x) (ct_secctx x)
    (ct_protoinfo x) (ct_counters x) (ct_snat x) (ct_dnat x) (ct_natseq x) (ct_timestamp x)
    (ct_synproxy x) v (ct_helper_info_len x) (ct_connlabels x) (ct_connlabels_mask x).
Definition with_ct_helper_info_len (v : Z) (x : nf_conntrack) : nf_conntrack :=
  mk_ct (ct_head x) (ct_repl x) (ct_master x) (ct_timeout x) (ct_mark x) (ct_secmark x)
    (ct_status x) (ct_use x) (ct_id x) (ct_zone x) (ct_helper_name x) (ct_secctx x)
    (ct_protoinfo x) (ct_counters x) (ct_snat x) (ct_dnat x) (ct_natseq x) (ct_timestamp x)
    (ct_synproxy x) (ct_helper_info x) v (ct_connlabels x) (ct_connlabels_mask x).
Definition with_ct_connlabels (v : option nfct_bitmask) (x : nf_conntrack) : nf_conntrack :=
  mk_ct (ct_head x) (ct_repl x) (ct_master x) (ct_timeout x) (ct_mark x) (ct_secmark x)
    (ct_status x) (ct_use x) (ct_id x) (ct_zone x) (ct_helper_name x) (ct_secctx x)
    (ct_protoinfo x) (ct_counters x) (ct_snat x) (ct_dnat x) (ct_natseq x) (ct_timestamp x)
    (ct_synproxy x) (ct_helper_info x) (ct_helper_info_len x) v (ct_connlabels_mask x).
Definition with_ct_connlabels_mask (v : option nfct_bitmask) (x : nf_conntrack) : nf_conntrack
    :=
  mk_ct (ct_head x) (ct_repl x) (ct_master x) (ct_timeout x) (ct_mark x) (ct_secmark x)
    (ct_status x) (ct_use x) (ct_id x) (ct_zone x) (ct_helper_name x) (ct_secctx x)
    (ct_protoinfo x) (ct_counters x) (ct_snat x) (ct_dnat x) (ct_natseq x) (ct_timestamp x)
    (ct_synproxy x) (ct_helper_info x) (ct_helper_info_len x) (ct_connlabels x) v.

Definition ct_orig (ct : nf_conntrack) : __nfct_tuple := head_orig (ct_head ct).
Definition ct_set (ct : nf_conntrack) : list Z := head_set (ct_head ct).
Definition with_ct_orig (t : __nfct_tuple) (ct : nf_conntrack) : nf_conntrack :=
  with_ct_head (mk_head t (ct_set ct)) ct.
Definition with_ct_set (s : list Z) (ct : nf_conntrack) : nf_conntrack :=
  with_ct_head (mk_head (ct_orig ct) s) ct.

(** [ct->head.orig.f = e] and the like: update a structure inside of the object. *)
Definition upd_orig (f : __nfct_tuple -> __nfct_tuple) (ct : nf_conntrack) : nf_conntrack :=
  with_ct_orig (f (ct_orig ct)) ct.
Definition upd_repl (f : __nfct_tuple -> __nfct_tuple) (ct : nf_conntrack) : nf_conntrack :=
  with_ct_repl (f (ct_repl ct)) ct.
Definition upd_master (f : __nfct_tuple -> __nfct_tuple) (ct : nf_conntrack) : nf_conntrack :=
  with_ct_master (f (ct_master ct)) ct.
Definition upd_protoinfo (f : list Z -> list Z) (ct : nf_conntrack) : nf_conntrack :=
  with_ct_protoinfo (f (ct_protoinfo ct)) ct.
Definition upd_snat (f : __nfct_nat -> __nfct_nat) (ct : nf_conntrack) : nf_conntrack :=
  with_ct_snat (f (ct_snat ct)) ct.
Definition upd_dnat (f : __nfct_nat -> __nfct_nat) (ct : nf_conntrack) : nf_conntrack :=
  with_ct_dnat (f (ct_dnat ct)) ct.
Definition upd_natseq (d : nfct_dir) (f : nfct_natseq -> nfct_natseq) (ct : nf_conntrack) :=
  with_ct_natseq (dset d (f (dget d (ct_natseq ct))) (ct_natseq ct)) ct.
Definition upd_counters (d : nfct_dir) (f : __nfct_counters -> __nfct_counters) (ct : nf_conntrack) :=
  with_ct_counters (dset d (f (dget d (ct_counters ct))) (ct_counters ct)) ct.
Definition upd_timestamp (f : nfct_timestamp -> nfct_timestamp) (ct : nf_conntrack) :=
  with_ct_timestamp (f (ct_timestamp ct)) ct.
Definition upd_synproxy (f : nfct_synproxy -> nfct_synproxy) (ct : nf_conntrack) :=
  with_ct_synproxy (f (ct_synproxy ct)) ct.

(** [test_bit(a, ct->head.set)] and [set_bit(a, ct->head.set)] for a constant of
    the enumeration, which is in the array ([attr_bit_ops]). *)
Definition attr_is_set (a : nf_conntrack_attr) (ct : nf_conntrack) : bool :=
  has_bit (attr_idx a) (ct_set ct).
Definition attr_set (a : nf_conntrack_attr) (ct : nf_conntrack) : nf_conntrack :=
  with_ct_set (or_bit (attr_idx a) (ct_set ct)) ct.
Definition attr_unset (a : nf_conntrack_attr) (ct : nf_conntrack) : nf_conntrack :=
  with_ct_set (clear_bit (attr_idx a) (ct_set ct)) ct.

(** ** A zeroed object *)

Definition NFCT_HELPER_NAME_MAX : Z := 16.
Definition __NFCT_BITSET : Z := 3.

Definition zero_addr : list Z := replicate 16 0.
Definition zero_tuple : __nfct_tuple := mk_tuple zero_addr zero_addr 0 0 0 0 [0; 0].
Definition zero_nat : __nfct_nat := mk_nat zero_addr zero_addr 0 0.

(** The object after [memset(ct, 0, sizeof(struct nf_conntrack))]. *)
Definition zero_ct : nf_conntrack :=
  mk_ct (mk_head zero_tuple [0; 0; 0]) zero_tuple zero_tuple 0 0 0 0 0 0 0
        (replicate 16 0) None (replicate 16 0)
        (mk_dirs (mk_counters 0 0) (mk_counters 0 0)) zero_nat zero_nat
        (mk_dirs (mk_natseq 0 0 0) (mk_natseq 0 0 0)) (mk_timestamp 0 0) (mk_synproxy 0 0 0)
        None 0 None None.

(** ** Type invariant *)

(** A [w]-bit unsigned integer. *)
Definition uint (w z : Z) : Prop := 0 <= z < 2 ^ w.
(** [n] bytes. *)
Definition blob (n : Z) (u : list Z) : Prop := zlen u = n /\ Forall byte_ok u.

Definition tuple_ok (t : __nfct_tuple) : Prop :=
  blob 16 (tp_src t) /\ blob 16 (tp_dst t) /\ uint 8 (tp_l3protonum t) /\
  uint 8 (tp_protonum t) /\ uint 16 (tp_zone t) /\ uint 16 (tp_l4src t) /\ blob 2 (tp_l4dst t).
Definition counters_ok (c : __nfct_counters) : Prop :=
  uint 64 (ctr_packets c) /\ uint 64 (ctr_bytes c).
Definition nat_ok (n : __nfct_nat) : Prop :=
  blob 16 (nat_min_ip n) /\ blob 16 (nat_max_ip n) /\ uint 16 (nat_l4min n) /\ uint 16 (nat_l4max n).
Definition natseq_ok (s : nfct_natseq) : Prop :=
  uint 32 (seq_correction_pos s) /\ uint 32 (seq_offset_before s) /\ uint 32 (seq_offset_after s).
Definition timestamp_ok (t : nfct_timestamp) : Prop :=
  uint 64 (ts_start t) /\ uint 64 (ts_stop t).
Definition synproxy_ok (s : nfct_synproxy) : Prop :=
  uint 32 (syn_isn s) /\ uint 32 (syn_its s) /\ uint 32 (syn_tsoff s).
Definition set_ok (s : list Z) : Prop := zlen s = __NFCT_BITSET /\ Forall word_ok s.
Definition dirs_ok {A} (P : A -> Prop) (x : dirs A) : Prop := P (d_orig x) /\ P (d_repl x).
Definition opt_ok {A} (P : A -> Prop) (x : option A) : Prop := from_option P True x.

(** Every field of the object holds a value of its C type. *)
Record ct_ok (ct : nf_conntrack) : Prop := {
  ok_set : set_ok (ct_set ct);
  ok_orig : tuple_ok (ct_orig ct);
  ok_repl : tuple_ok (ct_repl ct);
  ok_master : tuple_ok (ct_master ct);
  ok_timeout : uint 32 (ct_timeout ct);
  ok_mark : uint 32 (ct_mark ct);
  ok_secmark : uint 32 (ct_secmark ct);
  ok_status : uint 32 (ct_status ct);
  ok_use : uint 32 (ct_use ct);
  ok_id : uint 32 (ct_id ct);
  ok_zone : uint 16 (ct_zone ct);
  ok_helper_name : blob NFCT_HELPER_NAME_MAX (ct_helper_name ct);
  ok_secctx : opt_ok (Forall byte_ok) (ct_secctx ct);
  ok_protoinfo : blob 16 (ct_protoinfo ct);
  ok_counters : dirs_ok counters_ok (ct_counters ct);
  ok_snat : nat_ok (ct_snat ct);
  ok_dnat : nat_ok (ct_dnat ct);
  ok_natseq : dirs_ok natseq_ok (ct_natseq ct);
  ok_timestamp : timestamp_ok (ct_timestamp ct);
  ok_synproxy : synproxy_ok (ct_synproxy ct);
  ok_helper_info : opt_ok (Forall byte_ok) (ct_helper_info ct);
  ok_helper_info_len : uint 64 (ct_helper_info_len ct);
  ok_connlabels : opt_ok bitmask_ok (ct_connlabels ct);
  ok_connlabels_mask : opt_ok bitmask_ok (ct_connlabels_mask ct)
}.

(** ** Lemmas on bytes and presence bits *)

Create HintDb ct.

Lemma blob_splice n o bs u : blob n u -> Forall byte_ok bs -> 0 <= o -> o + zlen bs <= n ->
  blob n (splice o bs u).
Proof.
  intros [Hl Hu] Hb Ho Hn. split; [rewrite zlen_splice; lia|by apply splice_bytes].
Qed.

Lemma blob_u_set k n o v u : blob n u -> 0 <= o -> o + Z.of_nat k <= n -> blob n (u_set k o v u).
Proof. intros. apply blob_splice; auto using le_enc_bytes. by zl. Qed.

Lemma blob_replicate n k : n = Z.of_nat k -> blob n (replicate k 0).
Proof. intros ->. split; [by zl|]. apply Forall_replicate. unfold byte_ok. lia. Qed.

Lemma blob_slice o n k u : blob k u -> 0 <= o -> 0 <= n -> o + n <= k -> blob n (slice o n u).
Proof. intros [? ?] ? ? ?. split; [rewrite zlen_slice; lia|by apply slice_bytes]. Qed.

Lemma le_dec_uint bs n : zlen bs = n -> Forall byte_ok bs -> uint (8 * n) (le_dec bs).
Proof. intros <- H. apply le_dec_range in H. unfold uint, zlen. lia. Qed.

Lemma attr_bit_in_range a ct : set_ok (ct_set ct) -> bit_in_range (attr_idx a) (ct_set ct) = true.
Proof.
  intros [Hl _]. unfold bit_in_range. rewrite Hl, shiftr5. pose proof (attr_idx_range a) as [H1 H2].
  unfold ATTR_MAX, __NFCT_BITSET in *. apply andb_true_intro.
  split; [lia|]. apply Z.ltb_lt, Z.div_lt_upper_bound; lia.
Qed.

(** The checked operations never fault on an attribute of the enumeration. *)
Lemma attr_bit_ops a ct w : set_ok (ct_set ct) ->
  test_bit (attr_idx a) (ct_set ct) w = Ok (attr_is_set a ct, w) /\
  set_bit (attr_idx a) (ct_set ct) w = Ok (ct_set (attr_set a ct), w) /\
  unset_bit (attr_idx a) (ct_set ct) w = Ok (ct_set (attr_unset a ct), w).
Proof.
  intros H. unfold test_bit, set_bit, unset_bit. by rewrite (attr_bit_in_range a ct H).
Qed.

Lemma attr_is_set_attr_set b a ct : set_ok (ct_set ct) ->
  attr_is_set b (attr_set a ct) = bool_decide (b = a) || attr_is_set b ct.
Proof.
  intros H. unfold attr_is_set, attr_set, ct_set at 1. cbn.
  rewrite test_set_bit by (auto using attr_bit_in_range; apply attr_idx_range). f_equal.
  destruct (Z.eqb_spec (attr_idx b) (attr_idx a)) as [E|E].
  - by rewrite bool_decide_eq_true_2 by (by apply (inj attr_idx)).
  - rewrite bool_decide_eq_false_2; congruence.
Qed.

Lemma attr_is_set_attr_unset b a ct : set_ok (ct_set ct) ->
  attr_is_set b (attr_unset a ct) = negb (bool_decide (b = a)) && attr_is_set b ct.
Proof.
  intros H. unfold attr_is_set, attr_unset, ct_set at 1. cbn.
  rewrite test_unset_bit by (auto using attr_bit_in_range; apply attr_idx_range). f_equal.
  destruct (Z.eqb_spec (attr_idx b) (attr_idx a)) as [E|E].
  - by rewrite bool_decide_eq_true_2 by (by apply (inj attr_idx)).
  - rewrite bool_decide_eq_false_2; congruence.
Qed.

Lemma set_ok_set_bit nr s : set_ok s -> set_ok (or_bit nr s).
Proof.
  intros [Hl Hs]. split; [unfold zlen in *; by rewrite length_set_bit|by apply set_bit_ok].
Qed.

Lemma set_ok_unset_bit nr s : set_ok s -> set_ok (clear_bit nr s).
Proof.
  intros [Hl Hs]. split; [unfold zlen in *; by rewrite length_unset_bit|by apply unset_bit_ok].
Qed.

#[export] Hint Resolve blob_u_set blob_slice le_dec_uint set_ok_set_bit set_ok_unset_bit : ct.

(** Preservation of [ct_ok] by field assignments: open the record of the
    object and prove the changed fields. *)
Ltac ct_ok_with H := destruct H; constructor; cbn in *; try assumption.
Ltac ct_ok_solve := match goal with H : ct_ok ?ct |- ct_ok _ => ct_ok_with H end.

Lemma ct_ok_attr_set a ct : ct_ok ct -> ct_ok (attr_set a ct).
Proof. intros H. ct_ok_solve. by apply set_ok_set_bit. Qed.

Lemma ct_ok_attr_unset a ct : ct_ok ct -> ct_ok (attr_unset a ct).
Proof. intros H. ct_ok_solve. by apply set_ok_unset_bit. Qed.

#[export] Hint Resolve ct_ok_attr_set ct_ok_attr_unset : ct.

Lemma uint_0 w : 0 <= w -> uint w 0.
Proof. intros. split; [lia|]. apply Z.pow_pos_nonneg; lia. Qed.

Lemma zero_ct_ok : ct_ok zero_ct.
Proof.
  assert (H16 : blob 16 zero_addr) by (by apply blob_replicate).
  assert (Ht : tuple_ok zero_tuple).
  { unfold tuple_ok. split_and!; auto; try (apply uint_0; lia). by apply (blob_replicate 2 2). }
  assert (Hn : nat_ok zero_nat).
  { unfold nat_ok. split_and!; auto; apply uint_0; lia. }
  constructor; auto; try (apply uint_0; lia); try done;
    try (split; [|]; repeat split; done).
  split; [done|]. apply (zeros_ok 3).
Qed.

Lemma attr_is_set_zero a : attr_is_set a zero_ct = false.
Proof. by destruct a. Qed.
