(* ===== verification/CtSetter.v ===== *)
(** The attribute setters of [src/libnetfilter_conntrack/setter.c], one
    definition per function and the table that dispatches to them.

    A setter takes the object, the pointer [value] and the length, and returns
    the object after the call.  The pointer is a [cvalue]: the bytes of the
    block it points to, or a bitmask object.  Reading past the end of the block,
    or indexing one of the ICMP maps out of its bounds, is undefined. *)
From S2P Require Import Prelude CMonad Bitops CtObject.
Open Scope c_scope.

(** What a [const void *] argument or result points to. *)
Inductive cvalue :=
| VBytes (bs : list Z)
| VMask (b : nfct_bitmask).

Definition setter : Type := nf_conntrack -> cvalue -> Z -> M nf_conntrack.

(** [memcpy] of [n] bytes from the pointer. *)
Definition val_bytes (n : Z) (value : cvalue) : M (list Z) :=
  match value with
  | VBytes bs => if n <=? zlen bs then ret (slice 0 n bs) else ub
  | VMask _ => ub
  end.

(** [*((uintN_t * ) value)], with [N = 8 * n]. *)
Definition val_u (n : nat) (value : cvalue) : M Z :=
  let! bs := val_bytes (Z.of_nat n) value in ret (le_dec bs).

(** [strncpy(dst, src, n)]: the bytes written; [None] when [src] is read past
    its end. *)
Fixpoint strncpy (n : nat) (src : list Z) : option (list Z) :=
  match n with
  | O => Some []
  | S n' =>
      match src with
      | [] => None
      | c :: t => if c =? 0 then Some (replicate n 0) else cons c <$> strncpy n' t
      end
  end.

(** [strncpy] into a [char\[NFCT_HELPER_NAME_MAX\]] and the termination of the
    array. *)
Definition copy_helper_name (src : list Z) : M (list Z) :=
  match strncpy (Z.to_nat NFCT_HELPER_NAME_MAX) src with
  | Some bs => ret (<[Z.to_nat (NFCT_HELPER_NAME_MAX - 1) := 0]> bs)
  | None => ub
  end.

Definition AF_INET : Z := 2.
Definition AF_INET6 : Z := 10.

(** [invmap_icmp]: reply type plus one of every ICMP query, 0 elsewhere. *)
Definition invmap_icmp : list Z :=
  [9; 0; 0; 0; 0; 0; 0; 0; 1; 0; 0; 0; 0; 15; 14; 17; 16; 19; 18].

(** [invmap_icmpv6], indexed by the type minus 128. *)
Definition invmap_icmpv6 : list Z :=
  [130; 129; 0; 0; 0; 0; 0; 0; 0; 0; 0; 140; 141].

(** Array read [t[i]]. *)
Definition array_get (t : list Z) (i : Z) : M Z :=
  if i <? 0 then ub else
  match t !! Z.to_nat i with Some x => ret x | None => ub end.


Definition set_attr_orig_ipv4_src : setter := fun ct value len =>
  let! v := val_u 4 value in
  ret (upd_orig (fun t => with_tp_src (set_addr_v4 v (tp_src t)) t) ct).

Definition set_attr_orig_ipv4_dst : setter := fun ct value len =>
  let! v := val_u 4 value in
  ret (upd_orig (fun t => with_tp_dst (set_addr_v4 v (tp_dst t)) t) ct).

Definition set_attr_repl_ipv4_src : setter := fun ct value len =>
  let! v := val_u 4 value in
  ret (upd_repl (fun t => with_tp_src (set_addr_v4 v (tp_src t)) t) ct).

Definition set_attr_repl_ipv4_dst : setter := fun ct value len =>
  let! v := val_u 4 value in
  ret (upd_repl (fun t => with_tp_dst (set_addr_v4 v (tp_dst t)) t) ct).

Definition set_attr_orig_ipv6_src : setter := fun ct value len =>
  let! v := val_bytes 16 value in
  ret (upd_orig (with_tp_src v) ct).

Definition set_attr_orig_ipv6_dst : setter := fun ct value len =>
  let! v := val_bytes 16 value in
  ret (upd_orig (with_tp_dst v) ct).

Definition set_attr_repl_ipv6_src : setter := fun ct value len =>
  let! v := val_bytes 16 value in
  ret (upd_repl (with_tp_src v) ct).

Definition set_attr_repl_ipv6_dst : setter := fun ct value len =>
  let! v := val_bytes 16 value in
  ret (upd_repl (with_tp_dst v) ct).

Definition set_attr_orig_port_src : setter := fun ct value len =>
  let! v := val_u 2 value in
  ret (upd_orig (with_tp_l4src v) ct).

Definition set_attr_orig_port_dst : setter := fun ct value len =>
  let! v := val_u 2 value in
  ret (upd_orig (fun t => with_tp_l4dst (set_l4dst_all v (tp_l4dst t)) t) ct).

Definition set_attr_repl_port_src : setter := fun ct value len =>
  let! v := val_u 2 value in
  ret (upd_repl (with_tp_l4src v) ct).

Definition set_attr_repl_port_dst : setter := fun ct value len =>
  let! v := val_u 2 value in
  ret (upd_repl (fun t => with_tp_l4dst (set_l4dst_all v (tp_l4dst t)) t) ct).

Definition set_attr_orig_zone : setter := fun ct value len =>
  let! v := val_u 2 value in
  ret (upd_orig (with_tp_zone v) ct).

Definition set_attr_repl_zone : setter := fun ct value len =>
  let! v := val_u 2 value in
  ret (upd_repl (with_tp_zone v) ct).

Definition set_attr_icmp_type : setter := fun ct value len =>
  let! v := val_u 1 value in
  let ct := upd_orig (fun t => with_tp_l4dst (set_icmp_type v (tp_l4dst t)) t) ct in
  let! rtype :=
    (if tp_l3protonum (ct_orig ct) =? AF_INET then array_get invmap_icmp v
     else if tp_l3protonum (ct_orig ct) =? AF_INET6 then array_get invmap_icmpv6 (v - 128)
     else ret 0) in
  let rt := if negb (rtype =? 0) then rtype - 1 else 255 in
  ret (upd_repl (fun t => with_tp_l4dst (set_icmp_type rt (tp_l4dst t)) t) ct).

Definition set_attr_icmp_code : setter := fun ct value len =>
  let! v := val_u 1 value in
  ret (upd_repl (fun t => with_tp_l4dst (set_icmp_code v (tp_l4dst t)) t)
         (upd_orig (fun t => with_tp_l4dst (set_icmp_code v (tp_l4dst t)) t) ct)).

Definition set_attr_icmp_id : setter := fun ct value len =>
  let! v := val_u 2 value in
  ret (upd_repl (with_tp_l4src v) (upd_orig (with_tp_l4src v) ct)).

Definition set_attr_orig_l3proto : setter := fun ct value len =>
  let! v := val_u 1 value in
  ret (upd_orig (with_tp_l3protonum v) ct).

Definition set_attr_repl_l3proto : setter := fun ct value len =>
  let! v := val_u 1 value in
  ret (upd_repl (with_tp_l3protonum v) ct).

Definition set_attr_orig_l4proto : setter := fun ct value len =>
  let! v := val_u 1 value in
  ret (upd_orig (with_tp_protonum v) ct).

Definition set_attr_repl_l4proto : setter := fun ct value len =>
  let! v := val_u 1 value in
  ret (upd_repl (with_tp_protonum v) ct).

Definition set_attr_tcp_state : setter := fun ct value len =>
  let! v := val_u 1 value in
  ret (upd_protoinfo (u_set 1 tcp_state_off v) ct).

Definition set_attr_tcp_flags_orig : setter := fun ct value len =>
  let! v := val_u 1 value in
  ret (upd_protoinfo (u_set 1 (tcp_flags_value_off DIR_ORIG) v) ct).

Definition set_attr_tcp_mask_orig : setter := fun ct value len =>
  let! v := val_u 1 value in
  ret (upd_protoinfo (u_set 1 (tcp_flags_mask_off DIR_ORIG) v) ct).

Definition set_attr_tcp_flags_repl : setter := fun ct value len =>
  let! v := val_u 1 value in
  ret (upd_protoinfo (u_set 1 (tcp_flags_value_off DIR_REPL) v) ct).

Definition set_attr_tcp_mask_repl : setter := fun ct value len =>
  let! v := val_u 1 value in
  ret (upd_protoinfo (u_set 1 (tcp_flags_mask_off DIR_REPL) v) ct).

Definition set_attr_sctp_state : setter := fun ct value len =>
  let! v := val_u 1 value in
  ret (upd_protoinfo (u_set 1 sctp_state_off v) ct).

Definition set_attr_sctp_vtag_orig : setter := fun ct value len =>
  let! v := val_u 4 value in
  ret (upd_protoinfo (u_set 4 (sctp_vtag_off DIR_ORIG) v) ct).

Definition set_attr_sctp_vtag_repl : setter := fun ct value len =>
  let! v := val_u 4 value in
  ret (upd_protoinfo (u_set 4 (sctp_vtag_off DIR_REPL) v) ct).

Definition set_attr_snat_ipv4 : setter := fun ct value len =>
  let! v := val_u 4 value in
  ret (upd_snat (fun n => with_nat_min_ip (set_addr_v4 v (nat_min_ip n))
                   (with_nat_max_ip (set_addr_v4 v (nat_max_ip n)) n)) ct).

Definition set_attr_dnat_ipv4 : setter := fun ct value len =>
  let! v := val_u 4 value in
  ret (upd_dnat (fun n => with_nat_min_ip (set_addr_v4 v (nat_min_ip n))
                   (with_nat_max_ip (set_addr_v4 v (nat_max_ip n)) n)) ct).

Definition set_attr_snat_ipv6 : setter := fun ct value len =>
  let! v := val_bytes 16 value in
  ret (upd_snat (fun n => with_nat_max_ip v (with_nat_min_ip v n)) ct).

Definition set_attr_dnat_ipv6 : setter := fun ct value len =>
  let! v := val_bytes 16 value in
  ret (upd_dnat (fun n => with_nat_max_ip v (with_nat_min_ip v n)) ct).

Definition set_attr_snat_port : setter := fun ct value len =>
  let! v := val_u 2 value in
  ret (upd_snat (fun n => with_nat_l4min v (with_nat_l4max v n)) ct).

Definition set_attr_dnat_port : setter := fun ct value len =>
  let! v := val_u 2 value in
  ret (upd_dnat (fun n => with_nat_l4min v (with_nat_l4max v n)) ct).

Definition set_attr_timeout : setter := fun ct value len =>
  let! v := val_u 4 value in
  ret (with_ct_timeout v ct).

Definition set_attr_mark : setter := fun ct value len =>
  let! v := val_u 4 value in
  ret (with_ct_mark v ct).

Definition set_attr_secmark : setter := fun ct value len =>
  let! v := val_u 4 value in
  ret (with_ct_secmark v ct).

Definition set_attr_status : setter := fun ct value len =>
  let! v := val_u 4 value in
  ret (with_ct_status v ct).

Definition set_attr_id : setter := fun ct value len =>
  let! v := val_u 4 value in
  ret (with_ct_id v ct).

Definition set_attr_master_ipv4_src : setter := fun ct value len =>
  let! v := val_u 4 value in
  ret (upd_master (fun t => with_tp_src (set_addr_v4 v (tp_src t)) t) ct).

Definition set_attr_master_ipv4_dst : setter := fun ct value len =>
  let! v := val_u 4 value in
  ret (upd_master (fun t => with_tp_dst (set_addr_v4 v (tp_dst t)) t) ct).

Definition set_attr_master_ipv6_src : setter := fun ct value len =>
  let! v := val_bytes 16 value in
  ret (upd_master (with_tp_src v) ct).

Definition set_attr_master_ipv6_dst : setter := fun ct value len =>
  let! v := val_bytes 16 value in
  ret (upd_master (with_tp_dst v) ct).

Definition set_attr_master_port_src : setter := fun ct value len =>
  let! v := val_u 2 value in
  ret (upd_master (with_tp_l4src v) ct).

Definition set_attr_master_port_dst : setter := fun ct value len =>
  let! v := val_u 2 value in
  ret (upd_master (fun t => with_tp_l4dst (set_l4dst_all v (tp_l4dst t)) t) ct).

Definition set_attr_master_l3proto : setter := fun ct value len =>
  let! v := val_u 1 value in
  ret (upd_master (with_tp_l3protonum v) ct).

Definition set_attr_master_l4proto : setter := fun ct value len =>
  let! v := val_u 1 value in
  ret (upd_master (with_tp_protonum v) ct).

Definition set_attr_orig_cor_pos : setter := fun ct value len =>
  let! v := val_u 4 value in
  ret (upd_natseq DIR_ORIG (with_seq_correction_pos v) ct).

Definition set_attr_orig_off_bfr : setter := fun ct value len =>
  let! v := val_u 4 value in
  ret (upd_natseq DIR_ORIG (with_seq_offset_before v) ct).

Definition set_attr_orig_off_aft : setter := fun ct value len =>
  let! v := val_u 4 value in
  ret (upd_natseq DIR_ORIG (with_seq_offset_after v) ct).

Definition set_attr_repl_cor_pos : setter := fun ct value len =>
  let! v := val_u 4 value in
  ret (upd_natseq DIR_REPL (with_seq_correction_pos v) ct).

Definition set_attr_repl_off_bfr : setter := fun ct value len =>
  let! v := val_u 4 value in
  ret (upd_natseq DIR_REPL (with_seq_offset_before v) ct).

Definition set_attr_repl_off_aft : setter := fun ct value len =>
  let! v := val_u 4 value in
  ret (upd_natseq DIR_REPL (with_seq_offset_after v) ct).

Definition set_attr_helper_name : setter := fun ct value len =>
  match value with
  | VBytes bs => let! name := copy_helper_name bs in ret (with_ct_helper_name name ct)
  | VMask _ => ub
  end.

Definition set_attr_dccp_state : setter := fun ct value len =>
  let! v := val_u 1 value in
  ret (upd_protoinfo (u_set 1 dccp_state_off v) ct).

Definition set_attr_dccp_role : setter := fun ct value len =>
  let! v := val_u 1 value in
  ret (upd_protoinfo (u_set 1 dccp_role_off v) ct).

Definition set_attr_dccp_handshake_seq : setter := fun ct value len =>
  let! v := val_u 8 value in
  ret (upd_protoinfo (u_set 8 dccp_handshake_seq_off v) ct).

Definition set_attr_tcp_wscale_orig : setter := fun ct value len =>
  let! v := val_u 1 value in
  ret (upd_protoinfo (u_set 1 (tcp_wscale_off DIR_ORIG) v) ct).

Definition set_attr_tcp_wscale_repl : setter := fun ct value len =>
  let! v := val_u 1 value in
  ret (upd_protoinfo (u_set 1 (tcp_wscale_off DIR_REPL) v) ct).

Definition set_attr_zone : setter := fun ct value len =>
  let! v := val_u 2 value in
  ret (with_ct_zone v ct).

(** The old block is freed; when the allocation fails the pointer stays NULL. *)
Definition set_attr_helper_info : setter := fun ct value len =>
  let! ok := malloc_ok in
  if negb ok then ret (with_ct_helper_info None ct) else
  let! bs := val_bytes len value in
  ret (with_ct_helper_info (Some bs) ct).

(** The object takes the ownership of the bitmask; the previous one is destroyed
    ([do_set_attr_connlabels]). *)
Definition set_attr_connlabels : setter := fun ct value len =>
  match value with
  | VMask b => ret (with_ct_connlabels (Some b) ct)
  | VBytes _ => ub
  end.

Definition set_attr_connlabels_mask : setter := fun ct value len =>
  match value with
  | VMask b => ret (with_ct_connlabels_mask (Some b) ct)
  | VBytes _ => ub
  end.

Definition set_attr_synproxy_isn : setter := fun ct value len =>
  let! v := val_u 4 value in
  ret (upd_synproxy (with_syn_isn v) ct).

Definition set_attr_synproxy_its : setter := fun ct value len =>
  let! v := val_u 4 value in
  ret (upd_synproxy (with_syn_its v) ct).

Definition set_attr_synproxy_tsoff : setter := fun ct value len =>
  let! v := val_u 4 value in
  ret (upd_synproxy (with_syn_tsoff v) ct).

Definition set_attr_do_nothing : setter := fun ct value len => ret ct.

(** [set_attr_array]. *)
Definition set_attr_array (a : nf_conntrack_attr) : setter :=
  match a with
  | ATTR_ORIG_IPV4_SRC => set_attr_orig_ipv4_src
  | ATTR_ORIG_IPV4_DST => set_attr_orig_ipv4_dst
  | ATTR_REPL_IPV4_SRC => set_attr_repl_ipv4_src
  | ATTR_REPL_IPV4_DST => set_attr_repl_ipv4_dst
  | ATTR_ORIG_IPV6_SRC => set_attr_orig_ipv6_src
  | ATTR_ORIG_IPV6_DST => set_attr_orig_ipv6_dst
  | ATTR_REPL_IPV6_SRC => set_attr_repl_ipv6_src
  | ATTR_REPL_IPV6_DST => set_attr_repl_ipv6_dst
  | ATTR_ORIG_PORT_SRC => set_attr_orig_port_src
  | ATTR_ORIG_PORT_DST => set_attr_orig_port_dst
  | ATTR_REPL_PORT_SRC => set_attr_repl_port_src
  | ATTR_REPL_PORT_DST => set_attr_repl_port_dst
  | ATTR_ICMP_TYPE => set_attr_icmp_type
  | ATTR_ICMP_CODE => set_attr_icmp_code
  | ATTR_ICMP_ID => set_attr_icmp_id
  | ATTR_ORIG_L3PROTO => set_attr_orig_l3proto
  | ATTR_REPL_L3PROTO => set_attr_repl_l3proto
  | ATTR_ORIG_L4PROTO => set_attr_orig_l4proto
  | ATTR_REPL_L4PROTO => set_attr_repl_l4proto
  | ATTR_TCP_STATE => set_attr_tcp_state
  | ATTR_SNAT_IPV4 => set_attr_snat_ipv4
  | ATTR_DNAT_IPV4 => set_attr_dnat_ipv4
  | ATTR_SNAT_PORT => set_attr_snat_port
  | ATTR_DNAT_PORT => set_attr_dnat_port
  | ATTR_TIMEOUT => set_attr_timeout
  | ATTR_MARK => set_attr_mark
  | ATTR_ORIG_COUNTER_PACKETS => set_attr_do_nothing
  | ATTR_REPL_COUNTER_PACKETS => set_attr_do_nothing
  | ATTR_ORIG_COUNTER_BYTES => set_attr_do_nothing
  | ATTR_REPL_COUNTER_BYTES => set_attr_do_nothing
  | ATTR_USE => set_attr_do_nothing
  | ATTR_ID => set_attr_id
  | ATTR_STATUS => set_attr_status
  | ATTR_TCP_FLAGS_ORIG => set_attr_tcp_flags_orig
  | ATTR_TCP_FLAGS_REPL => set_attr_tcp_flags_repl
  | ATTR_TCP_MASK_ORIG => set_attr_tcp_mask_orig
  | ATTR_TCP_MASK_REPL => set_attr_tcp_mask_repl
  | ATTR_MASTER_IPV4_SRC => set_attr_master_ipv4_src
  | ATTR_MASTER_IPV4_DST => set_attr_master_ipv4_dst
  | ATTR_MASTER_IPV6_SRC => set_attr_master_ipv6_src
  | ATTR_MASTER_IPV6_DST => set_attr_master_ipv6_dst
  | ATTR_MASTER_PORT_SRC => set_attr_master_port_src
  | ATTR_MASTER_PORT_DST => set_attr_master_port_dst
  | ATTR_MASTER_L3PROTO => set_attr_master_l3proto
  | ATTR_MASTER_L4PROTO => set_attr_master_l4proto
  | ATTR_SECMARK => set_attr_secmark
  | ATTR_ORIG_NAT_SEQ_CORRECTION_POS => set_attr_orig_cor_pos
  | ATTR_ORIG_NAT_SEQ_OFFSET_BEFORE => set_attr_orig_off_bfr
  | ATTR_ORIG_NAT_SEQ_OFFSET_AFTER => set_attr_orig_off_aft
  | ATTR_REPL_NAT_SEQ_CORRECTION_POS => set_attr_repl_cor_pos
  | ATTR_REPL_NAT_SEQ_OFFSET_BEFORE => set_attr_repl_off_bfr
  | ATTR_REPL_NAT_SEQ_OFFSET_AFTER => set_attr_repl_off_aft
  | ATTR_SCTP_STATE => set_attr_sctp_state
  | ATTR_SCTP_VTAG_ORIG => set_attr_sctp_vtag_orig
  | ATTR_SCTP_VTAG_REPL => set_attr_sctp_vtag_repl
  | ATTR_HELPER_NAME => set_attr_helper_name
  | ATTR_DCCP_STATE => set_attr_dccp_state
  | ATTR_DCCP_ROLE => set_attr_dccp_role
  | ATTR_DCCP_HANDSHAKE_SEQ => set_attr_dccp_handshake_seq
  | ATTR_TCP_WSCALE_ORIG => set_attr_tcp_wscale_orig
  | ATTR_TCP_WSCALE_REPL => set_attr_tcp_wscale_repl
  | ATTR_ZONE => set_attr_zone
  | ATTR_ORIG_ZONE => set_attr_orig_zone
  | ATTR_REPL_ZONE => set_attr_repl_zone
  | ATTR_SECCTX => set_attr_do_nothing
  | ATTR_TIMESTAMP_START => set_attr_do_nothing
  | ATTR_TIMESTAMP_STOP => set_attr_do_nothing
  | ATTR_HELPER_INFO => set_attr_helper_info
  | ATTR_CONNLABELS => set_attr_connlabels
  | ATTR_CONNLABELS_MASK => set_attr_connlabels_mask
  | ATTR_SNAT_IPV6 => set_attr_snat_ipv6
  | ATTR_DNAT_IPV6 => set_attr_dnat_ipv6
  | ATTR_SYNPROXY_ISN => set_attr_synproxy_isn
  | ATTR_SYNPROXY_ITS => set_attr_synproxy_its
  | ATTR_SYNPROXY_TSOFF => set_attr_synproxy_tsoff
  end.
