(* ===== verification/CtGetter.v ===== *)
(** The attribute getters of [src/libnetfilter_conntrack/getter.c], one
    definition per function and the table that dispatches to them.  A getter
    returns a pointer into the object: the model returns what the pointer points
    to, the bytes of the field ([None] for NULL). *)
From S2P Require Import Prelude CMonad Bitops CtObject CtSetter.

Definition getter : Type := nf_conntrack -> option cvalue.

Definition get_attr_orig_ipv4_src : getter := fun ct => Some (VBytes (slice 0 4 (tp_src (ct_orig ct)))).
Definition get_attr_orig_ipv4_dst : getter := fun ct => Some (VBytes (slice 0 4 (tp_dst (ct_orig ct)))).
Definition get_attr_repl_ipv4_src : getter := fun ct => Some (VBytes (slice 0 4 (tp_src (ct_repl ct)))).
Definition get_attr_repl_ipv4_dst : getter := fun ct => Some (VBytes (slice 0 4 (tp_dst (ct_repl ct)))).
Definition get_attr_orig_ipv6_src : getter := fun ct => Some (VBytes (tp_src (ct_orig ct))).
Definition get_attr_orig_ipv6_dst : getter := fun ct => Some (VBytes (tp_dst (ct_orig ct))).
Definition get_attr_repl_ipv6_src : getter := fun ct => Some (VBytes (tp_src (ct_repl ct))).
Definition get_attr_repl_ipv6_dst : getter := fun ct => Some (VBytes (tp_dst (ct_repl ct))).
Definition get_attr_orig_port_src : getter := fun ct => Some (VBytes (le_enc 2 (tp_l4src (ct_orig ct)))).
Definition get_attr_orig_port_dst : getter := fun ct => Some (VBytes (slice 0 2 (tp_l4dst (ct_orig ct)))).
Definition get_attr_repl_port_src : getter := fun ct => Some (VBytes (le_enc 2 (tp_l4src (ct_repl ct)))).
Definition get_attr_repl_port_dst : getter := fun ct => Some (VBytes (slice 0 2 (tp_l4dst (ct_repl ct)))).
Definition get_attr_orig_zone : getter := fun ct => Some (VBytes (le_enc 2 (tp_zone (ct_orig ct)))).
Definition get_attr_repl_zone : getter := fun ct => Some (VBytes (le_enc 2 (tp_zone (ct_repl ct)))).
Definition get_attr_icmp_type : getter := fun ct => Some (VBytes (slice 0 1 (tp_l4dst (ct_orig ct)))).
Definition get_attr_icmp_code : getter := fun ct => Some (VBytes (slice 1 1 (tp_l4dst (ct_orig ct)))).
Definition get_attr_icmp_id : getter := fun ct => Some (VBytes (le_enc 2 (tp_l4src (ct_orig ct)))).
Definition get_attr_orig_l3proto : getter := fun ct => Some (VBytes (le_enc 1 (tp_l3protonum (ct_orig ct)))).
Definition get_attr_repl_l3proto : getter := fun ct => Some (VBytes (le_enc 1 (tp_l3protonum (ct_repl ct)))).
Definition get_attr_orig_l4proto : getter := fun ct => Some (VBytes (le_enc 1 (tp_protonum (ct_orig ct)))).
Definition get_attr_repl_l4proto : getter := fun ct => Some (VBytes (le_enc 1 (tp_protonum (ct_repl ct)))).
Definition get_attr_master_ipv4_src : getter := fun ct => Some (VBytes (slice 0 4 (tp_src (ct_master ct)))).
Definition get_attr_master_ipv4_dst : getter := fun ct => Some (VBytes (slice 0 4 (tp_dst (ct_master ct)))).
Definition get_attr_master_ipv6_src : getter := fun ct => Some (VBytes (tp_src (ct_master ct))).
Definition get_attr_master_ipv6_dst : getter := fun ct => Some (VBytes (tp_dst (ct_master ct))).
Definition get_attr_master_port_src : getter := fun ct => Some (VBytes (le_enc 2 (tp_l4src (ct_master ct)))).
Definition get_attr_master_port_dst : getter := fun ct => Some (VBytes (slice 0 2 (tp_l4dst (ct_master ct)))).
Definition get_attr_master_l3proto : getter := fun ct => Some (VBytes (le_enc 1 (tp_l3protonum (ct_master ct)))).
Definition get_attr_master_l4proto : getter := fun ct => Some (VBytes (le_enc 1 (tp_protonum (ct_master ct)))).
Definition get_attr_tcp_state : getter := fun ct => Some (VBytes (slice tcp_state_off 1 (ct_protoinfo ct))).
Definition get_attr_tcp_flags_orig : getter := fun ct => Some (VBytes (slice (tcp_flags_value_off DIR_ORIG) 1 (ct_protoinfo ct))).
Definition get_attr_tcp_mask_orig : getter := fun ct => Some (VBytes (slice (tcp_flags_mask_off DIR_ORIG) 1 (ct_protoinfo ct))).
Definition get_attr_tcp_flags_repl : getter := fun ct => Some (VBytes (slice (tcp_flags_value_off DIR_REPL) 1 (ct_protoinfo ct))).
Definition get_attr_tcp_mask_repl : getter := fun ct => Some (VBytes (slice (tcp_flags_mask_off DIR_REPL) 1 (ct_protoinfo ct))).
Definition get_attr_tcp_wscale_orig : getter := fun ct => Some (VBytes (slice (tcp_wscale_off DIR_ORIG) 1 (ct_protoinfo ct))).
Definition get_attr_tcp_wscale_repl : getter := fun ct => Some (VBytes (slice (tcp_wscale_off DIR_REPL) 1 (ct_protoinfo ct))).
Definition get_attr_sctp_state : getter := fun ct => Some (VBytes (slice sctp_state_off 1 (ct_protoinfo ct))).
Definition get_attr_sctp_vtag_orig : getter := fun ct => Some (VBytes (slice (sctp_vtag_off DIR_ORIG) 4 (ct_protoinfo ct))).
Definition get_attr_sctp_vtag_repl : getter := fun ct => Some (VBytes (slice (sctp_vtag_off DIR_REPL) 4 (ct_protoinfo ct))).
Definition get_attr_snat_ipv4 : getter := fun ct => Some (VBytes (slice 0 4 (nat_min_ip (ct_snat ct)))).
Definition get_attr_dnat_ipv4 : getter := fun ct => Some (VBytes (slice 0 4 (nat_min_ip (ct_dnat ct)))).
Definition get_attr_snat_ipv6 : getter := fun ct => Some (VBytes (nat_min_ip (ct_snat ct))).
Definition get_attr_dnat_ipv6 : getter := fun ct => Some (VBytes (nat_min_ip (ct_dnat ct))).
Definition get_attr_snat_port : getter := fun ct => Some (VBytes (le_enc 2 (nat_l4min (ct_snat ct)))).
Definition get_attr_dnat_port : getter := fun ct => Some (VBytes (le_enc 2 (nat_l4min (ct_dnat ct)))).
Definition get_attr_timeout : getter := fun ct => Some (VBytes (le_enc 4 (ct_timeout ct))).
Definition get_attr_mark : getter := fun ct => Some (VBytes (le_enc 4 (ct_mark ct))).
Definition get_attr_secmark : getter := fun ct => Some (VBytes (le_enc 4 (ct_secmark ct))).
Definition get_attr_orig_counter_packets : getter := fun ct => Some (VBytes (le_enc 8 (ctr_packets (dget DIR_ORIG (ct_counters ct))))).
Definition get_attr_orig_counter_bytes : getter := fun ct => Some (VBytes (le_enc 8 (ctr_bytes (dget DIR_ORIG (ct_counters ct))))).
Definition get_attr_repl_counter_packets : getter := fun ct => Some (VBytes (le_enc 8 (ctr_packets (dget DIR_REPL (ct_counters ct))))).
Definition get_attr_repl_counter_bytes : getter := fun ct => Some (VBytes (le_enc 8 (ctr_bytes (dget DIR_REPL (ct_counters ct))))).
Definition get_attr_status : getter := fun ct => Some (VBytes (le_enc 4 (ct_status ct))).
Definition get_attr_use : getter := fun ct => Some (VBytes (le_enc 4 (ct_use ct))).
Definition get_attr_id : getter := fun ct => Some (VBytes (le_enc 4 (ct_id ct))).
Definition get_attr_orig_cor_pos : getter := fun ct => Some (VBytes (le_enc 4 (seq_correction_pos (dget DIR_ORIG (ct_natseq ct))))).
Definition get_attr_orig_off_bfr : getter := fun ct => Some (VBytes (le_enc 4 (seq_offset_before (dget DIR_ORIG (ct_natseq ct))))).
Definition get_attr_orig_off_aft : getter := fun ct => Some (VBytes (le_enc 4 (seq_offset_after (dget DIR_ORIG (ct_natseq ct))))).
Definition get_attr_repl_cor_pos : getter := fun ct => Some (VBytes (le_enc 4 (seq_correction_pos (dget DIR_REPL (ct_natseq ct))))).
Definition get_attr_repl_off_bfr : getter := fun ct => Some (VBytes (le_enc 4 (seq_offset_before (dget DIR_REPL (ct_natseq ct))))).
Definition get_attr_repl_off_aft : getter := fun ct => Some (VBytes (le_enc 4 (seq_offset_after (dget DIR_REPL (ct_natseq ct))))).
Definition get_attr_helper_name : getter := fun ct => Some (VBytes (ct_helper_name ct)).
Definition get_attr_dccp_state : getter := fun ct => Some (VBytes (slice dccp_state_off 1 (ct_protoinfo ct))).
Definition get_attr_dccp_role : getter := fun ct => Some (VBytes (slice dccp_role_off 1 (ct_protoinfo ct))).
Definition get_attr_dccp_handshake_seq : getter := fun ct => Some (VBytes (slice dccp_handshake_seq_off 8 (ct_protoinfo ct))).
Definition get_attr_zone : getter := fun ct => Some (VBytes (le_enc 2 (ct_zone ct))).
Definition get_attr_secctx : getter := fun ct => VBytes <$> ct_secctx ct.
Definition get_attr_timestamp_start : getter := fun ct => Some (VBytes (le_enc 8 (ts_start (ct_timestamp ct)))).
Definition get_attr_timestamp_stop : getter := fun ct => Some (VBytes (le_enc 8 (ts_stop (ct_timestamp ct)))).
Definition get_attr_helper_info : getter := fun ct => VBytes <$> ct_helper_info ct.
Definition get_attr_connlabels : getter := fun ct => VMask <$> ct_connlabels ct.
Definition get_attr_connlabels_mask : getter := fun ct => VMask <$> ct_connlabels_mask ct.
Definition get_attr_synproxy_isn : getter := fun ct => Some (VBytes (le_enc 4 (syn_isn (ct_synproxy ct)))).
Definition get_attr_synproxy_its : getter := fun ct => Some (VBytes (le_enc 4 (syn_its (ct_synproxy ct)))).
Definition get_attr_synproxy_tsoff : getter := fun ct => Some (VBytes (le_enc 4 (syn_tsoff (ct_synproxy ct)))).

(** [get_attr_array]. *)
Definition get_attr_array (a : nf_conntrack_attr) : getter :=
  match a with
  | ATTR_ORIG_IPV4_SRC => get_attr_orig_ipv4_src
  | ATTR_ORIG_IPV4_DST => get_attr_orig_ipv4_dst
  | ATTR_REPL_IPV4_SRC => get_attr_repl_ipv4_src
  | ATTR_REPL_IPV4_DST => get_attr_repl_ipv4_dst
  | ATTR_ORIG_IPV6_SRC => get_attr_orig_ipv6_src
  | ATTR_ORIG_IPV6_DST => get_attr_orig_ipv6_dst
  | ATTR_REPL_IPV6_SRC => get_attr_repl_ipv6_src
  | ATTR_REPL_IPV6_DST => get_attr_repl_ipv6_dst
  | ATTR_ORIG_PORT_SRC => get_attr_orig_port_src
  | ATTR_ORIG_PORT_DST => get_attr_orig_port_dst
  | ATTR_REPL_PORT_SRC => get_attr_repl_port_src
  | ATTR_REPL_PORT_DST => get_attr_repl_port_dst
  | ATTR_ICMP_TYPE => get_attr_icmp_type
  | ATTR_ICMP_CODE => get_attr_icmp_code
  | ATTR_ICMP_ID => get_attr_icmp_id
  | ATTR_ORIG_L3PROTO => get_attr_orig_l3proto
  | ATTR_REPL_L3PROTO => get_attr_repl_l3proto
  | ATTR_ORIG_L4PROTO => get_attr_orig_l4proto
  | ATTR_REPL_L4PROTO => get_attr_repl_l4proto
  | ATTR_TCP_STATE => get_attr_tcp_state
  | ATTR_SNAT_IPV4 => get_attr_snat_ipv4
  | ATTR_DNAT_IPV4 => get_attr_dnat_ipv4
  | ATTR_SNAT_PORT => get_attr_snat_port
  | ATTR_DNAT_PORT => get_attr_dnat_port
  | ATTR_TIMEOUT => get_attr_timeout
  | ATTR_MARK => get_attr_mark
  | ATTR_ORIG_COUNTER_PACKETS => get_attr_orig_counter_packets
  | ATTR_ORIG_COUNTER_BYTES => get_attr_orig_counter_bytes
  | ATTR_REPL_COUNTER_PACKETS => get_attr_repl_counter_packets
  | ATTR_REPL_COUNTER_BYTES => get_attr_repl_counter_bytes
  | ATTR_USE => get_attr_use
  | ATTR_ID => get_attr_id
  | ATTR_STATUS => get_attr_status
  | ATTR_TCP_FLAGS_ORIG => get_attr_tcp_flags_orig
  | ATTR_TCP_FLAGS_REPL => get_attr_tcp_flags_repl
  | ATTR_TCP_MASK_ORIG => get_attr_tcp_mask_orig
  | ATTR_TCP_MASK_REPL => get_attr_tcp_mask_repl
  | ATTR_MASTER_IPV4_SRC => get_attr_master_ipv4_src
  | ATTR_MASTER_IPV4_DST => get_attr_master_ipv4_dst
  | ATTR_MASTER_IPV6_SRC => get_attr_master_ipv6_src
  | ATTR_MASTER_IPV6_DST => get_attr_master_ipv6_dst
  | ATTR_MASTER_PORT_SRC => get_attr_master_port_src
  | ATTR_MASTER_PORT_DST => get_attr_master_port_dst
  | ATTR_MASTER_L3PROTO => get_attr_master_l3proto
  | ATTR_MASTER_L4PROTO => get_attr_master_l4proto
  | ATTR_SECMARK => get_attr_secmark
  | ATTR_ORIG_NAT_SEQ_CORRECTION_POS => get_attr_orig_cor_pos
  | ATTR_ORIG_NAT_SEQ_OFFSET_BEFORE => get_attr_orig_off_bfr
  | ATTR_ORIG_NAT_SEQ_OFFSET_AFTER => get_attr_orig_off_aft
  | ATTR_REPL_NAT_SEQ_CORRECTION_POS => get_attr_repl_cor_pos
  | ATTR_REPL_NAT_SEQ_OFFSET_BEFORE => get_attr_repl_off_bfr
  | ATTR_REPL_NAT_SEQ_OFFSET_AFTER => get_attr_repl_off_aft
  | ATTR_SCTP_STATE => get_attr_sctp_state
  | ATTR_SCTP_VTAG_ORIG => get_attr_sctp_vtag_orig
  | ATTR_SCTP_VTAG_REPL => get_attr_sctp_vtag_repl
  | ATTR_HELPER_NAME => get_attr_helper_name
  | ATTR_DCCP_STATE => get_attr_dccp_state
  | ATTR_DCCP_ROLE => get_attr_dccp_role
  | ATTR_DCCP_HANDSHAKE_SEQ => get_attr_dccp_handshake_seq
  | ATTR_TCP_WSCALE_ORIG => get_attr_tcp_wscale_orig
  | ATTR_TCP_WSCALE_REPL => get_attr_tcp_wscale_repl
  | ATTR_ZONE => get_attr_zone
  | ATTR_ORIG_ZONE => get_attr_orig_zone
  | ATTR_REPL_ZONE => get_attr_repl_zone
  | ATTR_SECCTX => get_attr_secctx
  | ATTR_TIMESTAMP_START => get_attr_timestamp_start
  | ATTR_TIMESTAMP_STOP => get_attr_timestamp_stop
  | ATTR_HELPER_INFO => get_attr_helper_info
  | ATTR_CONNLABELS => get_attr_connlabels
  | ATTR_CONNLABELS_MASK => get_attr_connlabels_mask
  | ATTR_SNAT_IPV6 => get_attr_snat_ipv6
  | ATTR_DNAT_IPV6 => get_attr_dnat_ipv6
  | ATTR_SYNPROXY_ISN => get_attr_synproxy_isn
  | ATTR_SYNPROXY_ITS => get_attr_synproxy_its
  | ATTR_SYNPROXY_TSOFF => get_attr_synproxy_tsoff
  end.
