(* ===== verification/CtCopy.v ===== *)
(** The attribute copies of [src/libnetfilter_conntrack/copy.c], one definition
    per function, the table that dispatches to them and the fast copy.  A copy
    takes the destination and the origin and returns the destination after the
    call.  Freed blocks are forgotten, allocations may fail. *)
From S2P Require Import Prelude CMonad Bitops CtObject CtSetter CtGetter.
Open Scope c_scope.

Definition copier : Type := nf_conntrack -> nf_conntrack -> M nf_conntrack.

(** [strdup(s)]: the copy of the string, NULL when the allocation fails; undefined when the block has no terminator. *)
Fixpoint cstring (s : list Z) : option (list Z) :=
  match s with
  | [] => None
  | c :: t => if c =? 0 then Some [0] else cons c <$> cstring t
  end.

Definition strdup (s : list Z) : M (option (list Z)) :=
  match cstring s with
  | None => ub
  | Some c => let! ok := malloc_ok in if (ok : bool) then ret (Some c) else ret None
  end.


Definition copy_attr_orig_ipv4_src : copier := fun dest orig =>
  ret (upd_orig (fun t => with_tp_src (set_addr_v4 (addr_v4 (tp_src (ct_orig orig))) (tp_src t)) t) dest).

Definition copy_attr_orig_ipv4_dst : copier := fun dest orig =>
  ret (upd_orig (fun t => with_tp_dst (set_addr_v4 (addr_v4 (tp_dst (ct_orig orig))) (tp_dst t)) t) dest).

Definition copy_attr_repl_ipv4_src : copier := fun dest orig =>
  ret (upd_repl (fun t => with_tp_src (set_addr_v4 (addr_v4 (tp_src (ct_repl orig))) (tp_src t)) t) dest).

Definition copy_attr_repl_ipv4_dst : copier := fun dest orig =>
  ret (upd_repl (fun t => with_tp_dst (set_addr_v4 (addr_v4 (tp_dst (ct_repl orig))) (tp_dst t)) t) dest).

Definition copy_attr_orig_ipv6_src : copier := fun dest orig =>
  ret (upd_orig (with_tp_src (tp_src (ct_orig orig))) dest).

Definition copy_attr_orig_ipv6_dst : copier := fun dest orig =>
  ret (upd_orig (with_tp_dst (tp_dst (ct_orig orig))) dest).

Definition copy_attr_repl_ipv6_src : copier := fun dest orig =>
  ret (upd_repl (with_tp_src (tp_src (ct_repl orig))) dest).

Definition copy_attr_repl_ipv6_dst : copier := fun dest orig =>
  ret (upd_repl (with_tp_dst (tp_dst (ct_repl orig))) dest).

Definition copy_attr_orig_port_src : copier := fun dest orig =>
  ret (upd_orig (with_tp_l4src (tp_l4src (ct_orig orig))) dest).

Definition copy_attr_orig_port_dst : copier := fun dest orig =>
  ret (upd_orig (fun t => with_tp_l4dst (set_l4dst_all (l4dst_all (tp_l4dst (ct_orig orig))) (tp_l4dst t)) t) dest).

Definition copy_attr_repl_port_src : copier := fun dest orig =>
  ret (upd_repl (with_tp_l4src (tp_l4src (ct_repl orig))) dest).

Definition copy_attr_repl_port_dst : copier := fun dest orig =>
  ret (upd_repl (fun t => with_tp_l4dst (set_l4dst_all (l4dst_all (tp_l4dst (ct_repl orig))) (tp_l4dst t)) t) dest).

Definition copy_attr_orig_zone : copier := fun dest orig =>
  ret (upd_orig (with_tp_zone (tp_zone (ct_orig orig))) dest).

Definition copy_attr_repl_zone : copier := fun dest orig =>
  ret (upd_repl (with_tp_zone (tp_zone (ct_repl orig))) dest).

Definition copy_attr_icmp_type : copier := fun dest orig =>
  ret (upd_orig (fun t => with_tp_l4dst (set_icmp_type (icmp_type (tp_l4dst (ct_orig orig))) (tp_l4dst t)) t) dest).

Definition copy_attr_icmp_code : copier := fun dest orig =>
  ret (upd_orig (fun t => with_tp_l4dst (set_icmp_code (icmp_code (tp_l4dst (ct_orig orig))) (tp_l4dst t)) t) dest).

Definition copy_attr_icmp_id : copier := fun dest orig =>
  ret (upd_orig (with_tp_l4src (tp_l4src (ct_orig orig))) dest).

Definition copy_attr_orig_l3proto : copier := fun dest orig =>
  ret (upd_orig (with_tp_l3protonum (tp_l3protonum (ct_orig orig))) dest).

Definition copy_attr_repl_l3proto : copier := fun dest orig =>
  ret (upd_repl (with_tp_l3protonum (tp_l3protonum (ct_repl orig))) dest).

Definition copy_attr_orig_l4proto : copier := fun dest orig =>
  ret (upd_orig (with_tp_protonum (tp_protonum (ct_orig orig))) dest).

Definition copy_attr_repl_l4proto : copier := fun dest orig =>
  ret (upd_repl (with_tp_protonum (tp_protonum (ct_repl orig))) dest).

Definition copy_attr_master_ipv4_src : copier := fun dest orig =>
  ret (upd_master (fun t => with_tp_src (set_addr_v4 (addr_v4 (tp_src (ct_master orig))) (tp_src t)) t) dest).

Definition copy_attr_master_ipv4_dst : copier := fun dest orig =>
  ret (upd_master (fun t => with_tp_dst (set_addr_v4 (addr_v4 (tp_dst (ct_master orig))) (tp_dst t)) t) dest).

Definition copy_attr_master_ipv6_src : copier := fun dest orig =>
  ret (upd_master (with_tp_src (tp_src (ct_master orig))) dest).

Definition copy_attr_master_ipv6_dst : copier := fun dest orig =>
  ret (upd_master (with_tp_dst (tp_dst (ct_master orig))) dest).

Definition copy_attr_master_port_src : copier := fun dest orig =>
  ret (upd_master (with_tp_l4src (tp_l4src (ct_master orig))) dest).

Definition copy_attr_master_port_dst : copier := fun dest orig =>
  ret (upd_master (fun t => with_tp_l4dst (set_l4dst_all (l4dst_all (tp_l4dst (ct_master orig))) (tp_l4dst t)) t) dest).

Definition copy_attr_master_l3proto : copier := fun dest orig =>
  ret (upd_master (with_tp_l3protonum (tp_l3protonum (ct_master orig))) dest).

Definition copy_attr_master_l4proto : copier := fun dest orig =>
  ret (upd_master (with_tp_protonum (tp_protonum (ct_master orig))) dest).

Definition copy_attr_tcp_state : copier := fun dest orig =>
  ret (upd_protoinfo (u_set 1 tcp_state_off (u_get 1 tcp_state_off (ct_protoinfo orig))) dest).

Definition copy_attr_tcp_flags_orig : copier := fun dest orig =>
  ret (upd_protoinfo (u_set 1 (tcp_flags_value_off DIR_ORIG) (u_get 1 (tcp_flags_value_off DIR_ORIG) (ct_protoinfo orig))) dest).

Definition copy_attr_tcp_flags_repl : copier := fun dest orig =>
  ret (upd_protoinfo (u_set 1 (tcp_flags_value_off DIR_REPL) (u_get 1 (tcp_flags_value_off DIR_REPL) (ct_protoinfo orig))) dest).

Definition copy_attr_tcp_mask_orig : copier := fun dest orig =>
  ret (upd_protoinfo (u_set 1 (tcp_flags_mask_off DIR_ORIG) (u_get 1 (tcp_flags_mask_off DIR_ORIG) (ct_protoinfo orig))) dest).

Definition copy_attr_tcp_mask_repl : copier := fun dest orig =>
  ret (upd_protoinfo (u_set 1 (tcp_flags_mask_off DIR_REPL) (u_get 1 (tcp_flags_mask_off DIR_REPL) (ct_protoinfo orig))) dest).

Definition copy_attr_tcp_wscale_orig : copier := fun dest orig =>
  ret (upd_protoinfo (u_set 1 (tcp_wscale_off DIR_ORIG) (u_get 1 (tcp_wscale_off DIR_ORIG) (ct_protoinfo orig))) dest).

Definition copy_attr_tcp_wscale_repl : copier := fun dest orig =>
  ret (upd_protoinfo (u_set 1 (tcp_wscale_off DIR_REPL) (u_get 1 (tcp_wscale_off DIR_REPL) (ct_protoinfo orig))) dest).

Definition copy_attr_sctp_state : copier := fun dest orig =>
  ret (upd_protoinfo (u_set 1 sctp_state_off (u_get 1 sctp_state_off (ct_protoinfo orig))) dest).

Definition copy_attr_sctp_vtag_orig : copier := fun dest orig =>
  ret (upd_protoinfo (u_set 4 (sctp_vtag_off DIR_ORIG) (u_get 4 (sctp_vtag_off DIR_ORIG) (ct_protoinfo orig))) dest).

Definition copy_attr_sctp_vtag_repl : copier := fun dest orig =>
  ret (upd_protoinfo (u_set 4 (sctp_vtag_off DIR_REPL) (u_get 4 (sctp_vtag_off DIR_REPL) (ct_protoinfo orig))) dest).

Definition copy_attr_dccp_state : copier := fun dest orig =>
  ret (upd_protoinfo (u_set 1 dccp_state_off (u_get 1 dccp_state_off (ct_protoinfo orig))) dest).

Definition copy_attr_dccp_role : copier := fun dest orig =>
  ret (upd_protoinfo (u_set 1 dccp_role_off (u_get 1 dccp_role_off (ct_protoinfo orig))) dest).

Definition copy_attr_dccp_handshake_seq : copier := fun dest orig =>
  ret (upd_protoinfo (u_set 8 dccp_handshake_seq_off (u_get 8 dccp_handshake_seq_off (ct_protoinfo orig))) dest).

Definition copy_attr_snat_ipv4 : copier := fun dest orig =>
  ret (upd_snat (fun n => with_nat_min_ip (set_addr_v4 (addr_v4 (nat_min_ip (ct_snat orig))) (nat_min_ip n)) n) dest).

Definition copy_attr_dnat_ipv4 : copier := fun dest orig =>
  ret (upd_dnat (fun n => with_nat_min_ip (set_addr_v4 (addr_v4 (nat_min_ip (ct_dnat orig))) (nat_min_ip n)) n) dest).

Definition copy_attr_snat_ipv6 : copier := fun dest orig =>
  ret (upd_snat (with_nat_min_ip (nat_min_ip (ct_snat orig))) dest).

Definition copy_attr_dnat_ipv6 : copier := fun dest orig =>
  ret (upd_dnat (with_nat_min_ip (nat_min_ip (ct_dnat orig))) dest).

Definition copy_attr_snat_port : copier := fun dest orig =>
  ret (upd_snat (with_nat_l4min (nat_l4min (ct_snat orig))) dest).

Definition copy_attr_dnat_port : copier := fun dest orig =>
  ret (upd_dnat (with_nat_l4min (nat_l4min (ct_dnat orig))) dest).

Definition copy_attr_timeout : copier := fun dest orig =>
  ret (with_ct_timeout (ct_timeout orig) dest).

Definition copy_attr_mark : copier := fun dest orig =>
  ret (with_ct_mark (ct_mark orig) dest).

Definition copy_attr_secmark : copier := fun dest orig =>
  ret (with_ct_secmark (ct_secmark orig) dest).

Definition copy_attr_orig_counter_packets : copier := fun dest orig =>
  ret (upd_counters DIR_ORIG (with_ctr_packets (ctr_packets (dget DIR_ORIG (ct_counters orig)))) dest).

Definition copy_attr_repl_counter_packets : copier := fun dest orig =>
  ret (upd_counters DIR_REPL (with_ctr_packets (ctr_packets (dget DIR_REPL (ct_counters orig)))) dest).

Definition copy_attr_orig_counter_bytes : copier := fun dest orig =>
  ret (upd_counters DIR_ORIG (with_ctr_bytes (ctr_bytes (dget DIR_ORIG (ct_counters orig)))) dest).

Definition copy_attr_repl_counter_bytes : copier := fun dest orig =>
  ret (upd_counters DIR_REPL (with_ctr_bytes (ctr_bytes (dget DIR_REPL (ct_counters orig)))) dest).

Definition copy_attr_status : copier := fun dest orig =>
  ret (with_ct_status (ct_status orig) dest).

Definition copy_attr_use : copier := fun dest orig =>
  ret (with_ct_use (ct_use orig) dest).

Definition copy_attr_id : copier := fun dest orig =>
  ret (with_ct_id (ct_id orig) dest).

Definition copy_attr_orig_cor_pos : copier := fun dest orig =>
  ret (upd_natseq DIR_ORIG (with_seq_correction_pos (seq_correction_pos (dget DIR_ORIG (ct_natseq orig)))) dest).

Definition copy_attr_orig_off_bfr : copier := fun dest orig =>
  ret (upd_natseq DIR_ORIG (with_seq_offset_before (seq_offset_before (dget DIR_ORIG (ct_natseq orig)))) dest).

Definition copy_attr_orig_off_aft : copier := fun dest orig =>
  ret (upd_natseq DIR_ORIG (with_seq_offset_after (seq_offset_after (dget DIR_ORIG (ct_natseq orig)))) dest).

Definition copy_attr_repl_cor_pos : copier := fun dest orig =>
  ret (upd_natseq DIR_REPL (with_seq_correction_pos (seq_correction_pos (dget DIR_REPL (ct_natseq orig)))) dest).

Definition copy_attr_repl_off_bfr : copier := fun dest orig =>
  ret (upd_natseq DIR_REPL (with_seq_offset_before (seq_offset_before (dget DIR_REPL (ct_natseq orig)))) dest).

Definition copy_attr_repl_off_aft : copier := fun dest orig =>
  ret (upd_natseq DIR_REPL (with_seq_offset_after (seq_offset_after (dget DIR_REPL (ct_natseq orig)))) dest).

Definition copy_attr_helper_name : copier := fun dest orig =>
  let! name := copy_helper_name (ct_helper_name orig) in
  ret (with_ct_helper_name name dest).

Definition copy_attr_zone : copier := fun dest orig =>
  ret (with_ct_zone (ct_zone orig) dest).

Definition copy_attr_secctx : copier := fun dest orig =>
  let dest := with_ct_secctx None dest in
  match ct_secctx orig with
  | Some s => let! c := strdup s in ret (with_ct_secctx c dest)
  | None => ret dest
  end.

Definition copy_attr_timestamp_start : copier := fun dest orig =>
  ret (upd_timestamp (with_ts_start (ts_start (ct_timestamp orig))) dest).

Definition copy_attr_timestamp_stop : copier := fun dest orig =>
  ret (upd_timestamp (with_ts_stop (ts_stop (ct_timestamp orig))) dest).

Definition copy_attr_help_info : copier := fun dest orig =>
  match ct_helper_info orig with
  | None => ret dest
  | Some info =>
      let! ok := malloc_ok in
      if negb ok then ret (with_ct_helper_info None dest) else
      let! bs := val_bytes (ct_helper_info_len orig) (VBytes info) in
      ret (with_ct_helper_info (Some bs) dest)
  end.

Definition do_copy_attr_connlabels (dest orig : option nfct_bitmask) : M (option nfct_bitmask) :=
  match orig with
  | None => ret dest
  | Some b => nfct_bitmask_clone b
  end.

Definition copy_attr_connlabels : copier := fun dest orig =>
  let! l := do_copy_attr_connlabels (ct_connlabels dest) (ct_connlabels orig) in
  ret (with_ct_connlabels l dest).

Definition copy_attr_connlabels_mask : copier := fun dest orig =>
  let! l := do_copy_attr_connlabels (ct_connlabels_mask dest) (ct_connlabels_mask orig) in
  ret (with_ct_connlabels_mask l dest).

Definition copy_attr_synproxy_its : copier := fun dest orig =>
  ret (upd_synproxy (with_syn_its (syn_its (ct_synproxy orig))) dest).

Definition copy_attr_synproxy_isn : copier := fun dest orig =>
  ret (upd_synproxy (with_syn_isn (syn_isn (ct_synproxy orig))) dest).

Definition copy_attr_synproxy_tsoff : copier := fun dest orig =>
  ret (upd_synproxy (with_syn_tsoff (syn_tsoff (ct_synproxy orig))) dest).

(** [copy_attr_array]. *)
Definition copy_attr_array (a : nf_conntrack_attr) : copier :=
  match a with
  | ATTR_ORIG_IPV4_SRC => copy_attr_orig_ipv4_src
  | ATTR_ORIG_IPV4_DST => copy_attr_orig_ipv4_dst
  | ATTR_REPL_IPV4_SRC => copy_attr_repl_ipv4_src
  | ATTR_REPL_IPV4_DST => copy_attr_repl_ipv4_dst
  | ATTR_ORIG_IPV6_SRC => copy_attr_orig_ipv6_src
  | ATTR_ORIG_IPV6_DST => copy_attr_orig_ipv6_dst
  | ATTR_REPL_IPV6_SRC => copy_attr_repl_ipv6_src
  | ATTR_REPL_IPV6_DST => copy_attr_repl_ipv6_dst
  | ATTR_ORIG_PORT_SRC => copy_attr_orig_port_src
  | ATTR_ORIG_PORT_DST => copy_attr_orig_port_dst
  | ATTR_REPL_PORT_SRC => copy_attr_repl_port_src
  | ATTR_REPL_PORT_DST => copy_attr_repl_port_dst
  | ATTR_ICMP_TYPE => copy_attr_icmp_type
  | ATTR_ICMP_CODE => copy_attr_icmp_code
  | ATTR_ICMP_ID => copy_attr_icmp_id
  | ATTR_ORIG_L3PROTO => copy_attr_orig_l3proto
  | ATTR_REPL_L3PROTO => copy_attr_repl_l3proto
  | ATTR_ORIG_L4PROTO => copy_attr_orig_l4proto
  | ATTR_REPL_L4PROTO => copy_attr_repl_l4proto
  | ATTR_TCP_STATE => copy_attr_tcp_state
  | ATTR_SNAT_IPV4 => copy_attr_snat_ipv4
  | ATTR_DNAT_IPV4 => copy_attr_dnat_ipv4
  | ATTR_SNAT_PORT => copy_attr_snat_port
  | ATTR_DNAT_PORT => copy_attr_dnat_port
  | ATTR_TIMEOUT => copy_attr_timeout
  | ATTR_MARK => copy_attr_mark
  | ATTR_ORIG_COUNTER_PACKETS => copy_attr_orig_counter_packets
  | ATTR_ORIG_COUNTER_BYTES => copy_attr_orig_counter_bytes
  | ATTR_REPL_COUNTER_PACKETS => copy_attr_repl_counter_packets
  | ATTR_REPL_COUNTER_BYTES => copy_attr_repl_counter_bytes
  | ATTR_USE => copy_attr_use
  | ATTR_ID => copy_attr_id
  | ATTR_STATUS => copy_attr_status
  | ATTR_TCP_FLAGS_ORIG => copy_attr_tcp_flags_orig
  | ATTR_TCP_FLAGS_REPL => copy_attr_tcp_flags_repl
  | ATTR_TCP_MASK_ORIG => copy_attr_tcp_mask_orig
  | ATTR_TCP_MASK_REPL => copy_attr_tcp_mask_repl
  | ATTR_MASTER_IPV4_SRC => copy_attr_master_ipv4_src
  | ATTR_MASTER_IPV4_DST => copy_attr_master_ipv4_dst
  | ATTR_MASTER_IPV6_SRC => copy_attr_master_ipv6_src
  | ATTR_MASTER_IPV6_DST => copy_attr_master_ipv6_dst
  | ATTR_MASTER_PORT_SRC => copy_attr_master_port_src
  | ATTR_MASTER_PORT_DST => copy_attr_master_port_dst
  | ATTR_MASTER_L3PROTO => copy_attr_master_l3proto
  | ATTR_MASTER_L4PROTO => copy_attr_master_l4proto
  | ATTR_SECMARK => copy_attr_secmark
  | ATTR_ORIG_NAT_SEQ_CORRECTION_POS => copy_attr_orig_cor_pos
  | ATTR_ORIG_NAT_SEQ_OFFSET_BEFORE => copy_attr_orig_off_bfr
  | ATTR_ORIG_NAT_SEQ_OFFSET_AFTER => copy_attr_orig_off_aft
  | ATTR_REPL_NAT_SEQ_CORRECTION_POS => copy_attr_repl_cor_pos
  | ATTR_REPL_NAT_SEQ_OFFSET_BEFORE => copy_attr_repl_off_bfr
  | ATTR_REPL_NAT_SEQ_OFFSET_AFTER => copy_attr_repl_off_aft
  | ATTR_SCTP_STATE => copy_attr_sctp_state
  | ATTR_SCTP_VTAG_ORIG => copy_attr_sctp_vtag_orig
  | ATTR_SCTP_VTAG_REPL => copy_attr_sctp_vtag_repl
  | ATTR_HELPER_NAME => copy_attr_helper_name
  | ATTR_DCCP_STATE => copy_attr_dccp_state
  | ATTR_DCCP_ROLE => copy_attr_dccp_role
  | ATTR_DCCP_HANDSHAKE_SEQ => copy_attr_dccp_handshake_seq
  | ATTR_TCP_WSCALE_ORIG => copy_attr_tcp_wscale_orig
  | ATTR_TCP_WSCALE_REPL => copy_attr_tcp_wscale_repl
  | ATTR_ZONE => copy_attr_zone
  | ATTR_ORIG_ZONE => copy_attr_orig_zone
  | ATTR_REPL_ZONE => copy_attr_repl_zone
  | ATTR_SECCTX => copy_attr_secctx
  | ATTR_TIMESTAMP_START => copy_attr_timestamp_start
  | ATTR_TIMESTAMP_STOP => copy_attr_timestamp_stop
  | ATTR_HELPER_INFO => copy_attr_help_info
  | ATTR_CONNLABELS => copy_attr_connlabels
  | ATTR_CONNLABELS_MASK => copy_attr_connlabels_mask
  | ATTR_SNAT_IPV6 => copy_attr_snat_ipv6
  | ATTR_DNAT_IPV6 => copy_attr_dnat_ipv6
  | ATTR_SYNPROXY_ITS => copy_attr_synproxy_its
  | ATTR_SYNPROXY_ISN => copy_attr_synproxy_isn
  | ATTR_SYNPROXY_TSOFF => copy_attr_synproxy_tsoff
  end.


(** [__copy_fast]: the whole structure, then fresh copies of the blocks. *)
Definition __copy_fast : copier := fun ct1 ct2 =>
  let ct1 := with_ct_secctx None (with_ct_helper_info None
              (with_ct_connlabels None (with_ct_connlabels_mask None ct2))) in
  let! ct1 := copy_attr_secctx ct1 ct2 in
  let! ct1 := copy_attr_help_info ct1 ct2 in
  let! ct1 := copy_attr_connlabels ct1 ct2 in
  copy_attr_connlabels_mask ct1 ct2.
