(* ===== verification/CtApi.v ===== *)
(** The object part of [src/libnetfilter_conntrack/api.c]: creation, cloning,
    the set and get entry points and [nfct_copy].  An attribute number is a [Z]
    as the caller passes it; numbers of [ATTR_MAX] and more have no attribute.
    Asserted pointers are options: [None] is NULL and aborts. *)
From S2P Require Import Prelude CMonad Bitops CtObject CtSetter CtGetter CtCopy.
Open Scope c_scope.

(** ** Creation *)

Definition nfct_new : M (option nf_conntrack) :=
  let! ok := malloc_ok in
  if (ok : bool) then ret (Some zero_ct) else ret None.

(** ** Set and get *)

Definition nfct_set_attr_l (ct : nf_conntrack) (type : Z) (value : option cvalue) (len : Z)
  : M nf_conntrack :=
  match value with
  | None => exit
  | Some v =>
      match attr_of_idx type with
      | None => ret ct
      | Some a => let! ct := set_attr_array a ct v len in ret (attr_set a ct)
      end
  end.

Definition nfct_set_attr (ct : nf_conntrack) (type : Z) (value : option cvalue) : M nf_conntrack :=
  nfct_set_attr_l ct type value 0.

Definition nfct_set_attr_u8 (ct : nf_conntrack) (type value : Z) : M nf_conntrack :=
  nfct_set_attr_l ct type (Some (VBytes (le_enc 1 value))) 1.
Definition nfct_set_attr_u16 (ct : nf_conntrack) (type value : Z) : M nf_conntrack :=
  nfct_set_attr_l ct type (Some (VBytes (le_enc 2 value))) 2.
Definition nfct_set_attr_u32 (ct : nf_conntrack) (type value : Z) : M nf_conntrack :=
  nfct_set_attr_l ct type (Some (VBytes (le_enc 4 value))) 4.
Definition nfct_set_attr_u64 (ct : nf_conntrack) (type value : Z) : M nf_conntrack :=
  nfct_set_attr_l ct type (Some (VBytes (le_enc 8 value))) 8.

Definition nfct_get_attr (ct : nf_conntrack) (type : Z) : M (option cvalue) :=
  match attr_of_idx type with
  | None => set_errno EINVAL ;;; ret None
  | Some a =>
      if negb (attr_is_set a ct) then set_errno ENODATA ;;; ret None
      else ret (get_attr_array a ct)
  end.

(** [ret == NULL ? 0 : *ret] for a pointer to an [n]-byte integer. *)
Definition deref_or_0 (n : nat) (p : option cvalue) : M Z :=
  match p with None => ret 0 | Some v => val_u n v end.

Definition nfct_get_attr_u8 (ct : nf_conntrack) (type : Z) : M Z :=
  let! p := nfct_get_attr ct type in deref_or_0 1 p.
Definition nfct_get_attr_u16 (ct : nf_conntrack) (type : Z) : M Z :=
  let! p := nfct_get_attr ct type in deref_or_0 2 p.
Definition nfct_get_attr_u32 (ct : nf_conntrack) (type : Z) : M Z :=
  let! p := nfct_get_attr ct type in deref_or_0 4 p.

(** ** Copy *)

Definition NFCT_CP_ALL : Z := 0.
Definition NFCT_CP_ORIG : Z := 1.
Definition NFCT_CP_REPL : Z := 2.
Definition NFCT_CP_META : Z := 4.
Definition NFCT_CP_OVERRIDE : Z := 8.

(** The body of the loops of [nfct_copy] for one attribute; [copy_attr_array]
    has no NULL entry, so the assertions hold. *)
Definition copy_one (ct1 ct2 : nf_conntrack) (a : nf_conntrack_attr) : M nf_conntrack :=
  if attr_is_set a ct2 then let! ct1 := copy_attr_array a ct1 ct2 in ret (attr_set a ct1)
  else ret ct1.

(** A loop of [nfct_copy] over a list of attributes. *)
Fixpoint copy_loop (ct1 ct2 : nf_conntrack) (l : list nf_conntrack_attr) : M nf_conntrack :=
  match l with
  | [] => ret ct1
  | a :: l => let! ct1 := copy_one ct1 ct2 a in copy_loop ct1 ct2 l
  end.

Definition cp_orig_mask : list nf_conntrack_attr :=
  [ATTR_ORIG_IPV4_SRC; ATTR_ORIG_IPV4_DST; ATTR_ORIG_IPV6_SRC; ATTR_ORIG_IPV6_DST;
   ATTR_ORIG_PORT_SRC; ATTR_ORIG_PORT_DST; ATTR_ICMP_TYPE; ATTR_ICMP_CODE; ATTR_ICMP_ID;
   ATTR_ORIG_L3PROTO; ATTR_ORIG_L4PROTO].

Definition cp_repl_mask : list nf_conntrack_attr :=
  [ATTR_REPL_IPV4_SRC; ATTR_REPL_IPV4_DST; ATTR_REPL_IPV6_SRC; ATTR_REPL_IPV6_DST;
   ATTR_REPL_PORT_SRC; ATTR_REPL_PORT_DST; ATTR_REPL_L3PROTO; ATTR_REPL_L4PROTO].

(** [for (i = ATTR_TCP_STATE; i < ATTR_MAX; i++)]. *)
Definition cp_meta_mask : list nf_conntrack_attr := drop 19 all_attrs.

Definition nfct_copy (ct1 ct2 : nf_conntrack) (flags : Z) : M nf_conntrack :=
  if negb (Z.land flags NFCT_CP_OVERRIDE =? 0) then __copy_fast ct1 ct2 else
  if flags =? NFCT_CP_ALL then copy_loop ct1 ct2 all_attrs else
  let! ct1 := (if negb (Z.land flags NFCT_CP_ORIG =? 0) then copy_loop ct1 ct2 cp_orig_mask
               else ret ct1) in
  let! ct1 := (if negb (Z.land flags NFCT_CP_REPL =? 0) then copy_loop ct1 ct2 cp_repl_mask
               else ret ct1) in
  if negb (Z.land flags NFCT_CP_META =? 0) then copy_loop ct1 ct2 cp_meta_mask else ret ct1.

(** The type is not checked against [ATTR_MAX] here: the presence bit and the
    table are read at whatever index the caller passes. *)
Definition nfct_copy_attr (ct1 ct2 : nf_conntrack) (type : Z) : M nf_conntrack :=
  let! present := test_bit type (ct_set ct2) in
  if present : bool then
    match attr_of_idx type with
    | None => ub
    | Some a => let! ct1 := copy_attr_array a ct1 ct2 in ret (attr_set a ct1)
    end
  else ret ct1.

Definition nfct_clone (ct : nf_conntrack) : M (option nf_conntrack) :=
  let! clone := nfct_new in
  match clone with
  | None => ret None
  | Some clone => let! clone := nfct_copy clone ct NFCT_CP_OVERRIDE in ret (Some clone)
  end.
