(* ===== verification/CtMemory.v ===== *)
(** libnetfilter_conntrack: the memory that conntrack objects own.

    The other files see a conntrack object as a value.  Here the security context, the helper
    data and the two label masks are blocks of a heap to which an object points, with their
    allocation and release (setter.c, copy.c, api.c): a read of a released block and a second
    release are faults.  An address is a number; new blocks get new addresses; an allocation
    can fail.  The names are those of the source with the suffix [_mem]. *)
From stdpp Require Import gmap.
From S2P Require Import Prelude CMonad Bitops CtObject CtSetter CtGetter CtCopy CtApi.
Open Scope c_scope.

(** * The heap *)

(** The members of [struct nf_conntrack] that point to blocks of their own. *)
Inductive hfield := HSecctx | HHelperInfo | HConnlabels | HConnlabelsMask.
#[export] Instance hfield_eq_dec : EqDecision hfield.
Proof. solve_decision. Defined.

(** An object in memory: the other members, and the four pointers. *)
Record mct := mk_mct {
  mc_val : nf_conntrack;
  mc_secctx : option Z;
  mc_helper_info : option Z;
  mc_connlabels : option Z;
  mc_connlabels_mask : option Z
}.

Definition get_f (f : hfield) (m : mct) : option Z :=
  match f with
  | HSecctx => mc_secctx m
  | HHelperInfo => mc_helper_info m
  | HConnlabels => mc_connlabels m
  | HConnlabelsMask => mc_connlabels_mask m
  end.
Definition set_f (f : hfield) (q : option Z) (m : mct) : mct :=
  match f with
  | HSecctx => mk_mct (mc_val m) q (mc_helper_info m) (mc_connlabels m) (mc_connlabels_mask m)
  | HHelperInfo => mk_mct (mc_val m) (mc_secctx m) q (mc_connlabels m) (mc_connlabels_mask m)
  | HConnlabels => mk_mct (mc_val m) (mc_secctx m) (mc_helper_info m) q (mc_connlabels_mask m)
  | HConnlabelsMask => mk_mct (mc_val m) (mc_secctx m) (mc_helper_info m) (mc_connlabels m) q
  end.
Definition with_val (v : nf_conntrack) (m : mct) : mct :=
  mk_mct v (mc_secctx m) (mc_helper_info m) (mc_connlabels m) (mc_connlabels_mask m).

Inductive block := BCt (m : mct) | BBytes (bs : list Z) | BMask (b : nfct_bitmask).

Record cheap := mk_cheap { ch_blocks : gmap Z block; ch_fresh : Z }.

Definition C (A : Type) : Type := cheap -> M (A * cheap).
Definition cret {A} (a : A) : C A := fun h => ret (a, h).
Definition cub {A} : C A := fun _ => ub.
Definition cbind {A B} (c : C A) (k : A -> C B) : C B := fun h => let! (a, h) := c h in k a h.
Definition lift {A} (c : M A) : C A := fun h => let! a := c in ret (a, h).

Notation "'let&' x := c 'in' k" := (cbind c (fun x => k))
  (at level 10, x pattern, c at level 200, k at level 200) : c_scope.
Notation "c ;;& k" := (cbind c (fun _ => k)) (at level 199, k at level 200, right associativity) : c_scope.

Definition malloc_block (b : block) : C (option Z) := fun h =>
  let! ok := malloc_ok in
  if (ok : bool) then ret (Some (ch_fresh h), mk_cheap (<[ch_fresh h := b]> (ch_blocks h)) (ch_fresh h + 1))
  else ret (None, h).

Definition free (p : option Z) : C unit := fun h =>
  match p with
  | None => ret (tt, h)
  | Some l => if ch_blocks h !! l is Some _ then ret (tt, mk_cheap (delete l (ch_blocks h)) (ch_fresh h)) else ub
  end.

Definition ct_at (p : Z) : C mct := fun h =>
  match ch_blocks h !! p with Some (BCt m) => ret (m, h) | _ => ub end.
Definition put_ct (p : Z) (m : mct) : C unit := fun h =>
  match ch_blocks h !! p with
  | Some (BCt _) => ret (tt, mk_cheap (<[p := BCt m]> (ch_blocks h)) (ch_fresh h))
  | _ => ub
  end.
Definition put_member (p : Z) (f : hfield) (q : option Z) : C unit := let& m := ct_at p in put_ct p (set_f f q m).
Definition bytes_at (p : option Z) : C (list Z) := fun h =>
  match p ≫= (ch_blocks h !!.) with Some (BBytes bs) => ret (bs, h) | _ => ub end.
Definition mask_at (p : option Z) : C nfct_bitmask := fun h =>
  match p ≫= (ch_blocks h !!.) with Some (BMask b) => ret (b, h) | _ => ub end.
(** [memcpy] of a whole block. *)
Definition write_block (l : Z) (bs : list Z) : C unit := fun h =>
  match ch_blocks h !! l with
  | Some (BBytes old) => if zlen old =? zlen bs then ret (tt, mk_cheap (<[l := BBytes bs]> (ch_blocks h)) (ch_fresh h)) else ub
  | _ => ub
  end.

(** * Bitmasks *)

Definition nfct_bitmask_new_mem (max : Z) : C (option Z) :=
  if 0xffff <? max then cret None else
  let words := DIV_ROUND_UP (max + 1) 32 in
  malloc_block (BMask (mk_bitmask words (replicate (Z.to_nat words) 0))).
Definition nfct_bitmask_clone_mem (b : option Z) : C (option Z) := let& b := mask_at b in malloc_block (BMask b).
Definition nfct_bitmask_destroy (b : option Z) : C unit := free b.

(** * Creation and release *)

Definition nfct_new_mem : C (option Z) := malloc_block (BCt (mk_mct zero_ct None None None None)).

Definition nfct_destroy (ct : Z) : C unit :=
  let& m := ct_at ct in
  (if mc_secctx m is Some _ then free (mc_secctx m) else cret tt) ;;&
  (if mc_helper_info m is Some _ then free (mc_helper_info m) else cret tt) ;;&
  (if mc_connlabels m is Some _ then nfct_bitmask_destroy (mc_connlabels m) else cret tt) ;;&
  (if mc_connlabels_mask m is Some _ then nfct_bitmask_destroy (mc_connlabels_mask m) else cret tt) ;;&
  free (Some ct).

(** * Setters *)

Definition calloc_bytes (len : Z) : C (option Z) := malloc_block (BBytes (replicate (Z.to_nat len) 0)).

Definition set_attr_helper_info_mem (ct : Z) (value : cvalue) (len : Z) : C unit :=
  let& m := ct_at ct in
  (if mc_helper_info m is Some _ then free (mc_helper_info m) else cret tt) ;;&
  let& q := calloc_bytes len in
  put_member ct HHelperInfo q ;;&
  match q with
  | None => cret tt
  | Some l => let& bs := lift (val_bytes len value) in write_block l bs
  end.

Definition do_set_attr_connlabels (current : option Z) (value : Z) : C unit :=
  match current with
  | Some c => if c =? value then cret tt else nfct_bitmask_destroy current
  | None => cret tt
  end.
Definition set_attr_connlabels_mem (ct value : Z) : C unit :=
  let& m := ct_at ct in
  do_set_attr_connlabels (mc_connlabels m) value ;;& put_member ct HConnlabels (Some value).
Definition set_attr_connlabels_mask_mem (ct value : Z) : C unit :=
  let& m := ct_at ct in
  do_set_attr_connlabels (mc_connlabels_mask m) value ;;& put_member ct HConnlabelsMask (Some value).

(** What the caller passes: the bytes a pointer designates, or the address of a bitmask. *)
Inductive mvalue := MBytes (bs : list Z) | MMask (l : Z).

(** A setter of the other members; the setters of the masks are the only ones that take a
    bitmask. *)
Definition set_scalar_mem (a : nf_conntrack_attr) (ct : Z) (value : cvalue) (len : Z) : C unit :=
  let& m := ct_at ct in
  let& v := lift (set_attr_array a (mc_val m) value len) in
  put_ct ct (with_val v m).
Definition set_attr_array_mem (a : nf_conntrack_attr) (ct : Z) (value : mvalue) (len : Z) : C unit :=
  match value, a with
  | MMask l, ATTR_CONNLABELS => set_attr_connlabels_mem ct l
  | MMask l, ATTR_CONNLABELS_MASK => set_attr_connlabels_mask_mem ct l
  | MBytes _, (ATTR_CONNLABELS | ATTR_CONNLABELS_MASK) => cub
  | MMask _, _ => cub
  | MBytes bs, ATTR_HELPER_INFO => set_attr_helper_info_mem ct (VBytes bs) len
  | MBytes bs, _ => set_scalar_mem a ct (VBytes bs) len
  end.

(** [set_bit(type, ct->head.set)]. *)
Definition mark_set (a : nf_conntrack_attr) (ct : Z) : C unit :=
  let& m := ct_at ct in put_ct ct (with_val (attr_set a (mc_val m)) m).

Definition nfct_set_attr_l_mem (ct : Z) (type : Z) (value : mvalue) (len : Z) : C unit :=
  match attr_of_idx type with
  | None => cret tt
  | Some a => set_attr_array_mem a ct value len ;;& mark_set a ct
  end.

(** * Copies *)

Definition strdup_mem (p : option Z) : C (option Z) :=
  let& s := bytes_at p in
  match cstring s with
  | None => cub
  | Some c => malloc_block (BBytes c)
  end.

Definition copy_attr_secctx_mem (dest orig : Z) : C unit :=
  let& d := ct_at dest in
  (if mc_secctx d is Some _ then free (mc_secctx d) ;;& put_member dest HSecctx None else cret tt) ;;&
  let& o := ct_at orig in
  if mc_secctx o is Some _ then let& c := strdup_mem (mc_secctx o) in put_member dest HSecctx c else cret tt.

(** The first [len] bytes of a block. *)
Definition block_bytes (p : option Z) (len : Z) : C (list Z) :=
  let& bs := bytes_at p in lift (val_bytes len (VBytes bs)).

Definition copy_attr_help_info_mem (dest orig : Z) : C unit :=
  let& o := ct_at orig in
  match mc_helper_info o with
  | None => cret tt
  | Some _ =>
      let& d := ct_at dest in
      (if mc_helper_info d is Some _ then free (mc_helper_info d) else cret tt) ;;&
      let& q := calloc_bytes (ct_helper_info_len (mc_val o)) in
      put_member dest HHelperInfo q ;;&
      match q with
      | None => cret tt
      | Some l =>
          let& bs := block_bytes (mc_helper_info o) (ct_helper_info_len (mc_val o)) in write_block l bs
      end
  end.

Definition do_copy_attr_connlabels_mem (dest orig : option Z) : C (option Z) :=
  match orig with
  | None => cret dest
  | Some _ => (if dest is Some _ then nfct_bitmask_destroy dest else cret tt) ;;& nfct_bitmask_clone_mem orig
  end.
Definition copy_attr_connlabels_mem (dest orig : Z) : C unit :=
  let& d := ct_at dest in
  let& o := ct_at orig in
  let& q := do_copy_attr_connlabels_mem (mc_connlabels d) (mc_connlabels o) in
  put_member dest HConnlabels q.
Definition copy_attr_connlabels_mask_mem (dest orig : Z) : C unit :=
  let& d := ct_at dest in
  let& o := ct_at orig in
  let& q := do_copy_attr_connlabels_mem (mc_connlabels_mask d) (mc_connlabels_mask o) in
  put_member dest HConnlabelsMask q.

(** A copy of another member. *)
Definition copy_scalar_mem (a : nf_conntrack_attr) (dest orig : Z) : C unit :=
  let& d := ct_at dest in
  let& o := ct_at orig in
  let& v := lift (copy_attr_array a (mc_val d) (mc_val o)) in
  put_ct dest (with_val v d).
Definition copy_attr_array_mem (a : nf_conntrack_attr) : Z -> Z -> C unit :=
  match a with
  | ATTR_SECCTX => copy_attr_secctx_mem
  | ATTR_HELPER_INFO => copy_attr_help_info_mem
  | ATTR_CONNLABELS => copy_attr_connlabels_mem
  | ATTR_CONNLABELS_MASK => copy_attr_connlabels_mask_mem
  | _ => copy_scalar_mem a
  end.

(** The [memcpy] copies the pointers too; they are overwritten without a release. *)
Definition __copy_fast_mem (ct1 ct2 : Z) : C unit :=
  let& m := ct_at ct2 in
  put_ct ct1 m ;;&
  put_member ct1 HSecctx None ;;&
  put_member ct1 HHelperInfo None ;;&
  put_member ct1 HConnlabels None ;;&
  put_member ct1 HConnlabelsMask None ;;&
  copy_attr_secctx_mem ct1 ct2 ;;&
  copy_attr_help_info_mem ct1 ct2 ;;&
  copy_attr_connlabels_mem ct1 ct2 ;;&
  copy_attr_connlabels_mask_mem ct1 ct2.

Definition copy_one_mem (ct1 ct2 : Z) (a : nf_conntrack_attr) : C unit :=
  let& o := ct_at ct2 in
  if attr_is_set a (mc_val o) then copy_attr_array_mem a ct1 ct2 ;;& mark_set a ct1 else cret tt.
Fixpoint copy_loop_mem (ct1 ct2 : Z) (l : list nf_conntrack_attr) : C unit :=
  match l with
  | [] => cret tt
  | a :: l => copy_one_mem ct1 ct2 a ;;& copy_loop_mem ct1 ct2 l
  end.

Definition nfct_copy_mem (ct1 ct2 : Z) (flags : Z) : C unit :=
  if negb (Z.land flags NFCT_CP_OVERRIDE =? 0) then __copy_fast_mem ct1 ct2 else
  if flags =? NFCT_CP_ALL then copy_loop_mem ct1 ct2 all_attrs else
  (if negb (Z.land flags NFCT_CP_ORIG =? 0) then copy_loop_mem ct1 ct2 cp_orig_mask else cret tt) ;;&
  (if negb (Z.land flags NFCT_CP_REPL =? 0) then copy_loop_mem ct1 ct2 cp_repl_mask else cret tt) ;;&
  (if negb (Z.land flags NFCT_CP_META =? 0) then copy_loop_mem ct1 ct2 cp_meta_mask else cret tt).

Definition nfct_clone_mem (ct : Z) : C (option Z) :=
  let& clone := nfct_new_mem in
  match clone with
  | None => cret None
  | Some p => nfct_copy_mem p ct NFCT_CP_OVERRIDE ;;& cret (Some p)
  end.
