(* ===== verification/CtMemoryProps.v ===== *)
(** Ownership of the memory of conntrack objects: every block has one owner, the functions on
    memory of CtMemory.v refine the functions on values of CtSetter.v, CtCopy.v and CtApi.v, and
    nothing is leaked but the blocks of an object that [NFCT_CP_OVERRIDE] overwrites. *)
From stdpp Require Import gmap.
From S2P Require Import Prelude CMonad Bitops CtObject CtSetter CtGetter CtCopy CtApi CtMemory.
Open Scope c_scope.

(** * Ownership

    Every block has one owner: the client, who holds objects and bitmasks of his own, or a
    member of an object.  [objects]: the pointers of each object and the value it stands for;
    [loose]: the other blocks the client holds. *)

Abbreviation objects := (gmap Z (mct * nf_conntrack)).

Inductive owner := OObj (p : Z) | OLoose (l : Z) | OField (p : Z) (f : hfield).

Definition place (G : objects) (loose : gmap Z block) (o : owner) : option Z :=
  match o with
  | OObj p => G !! p ≫= fun _ => Some p
  | OLoose l => loose !! l ≫= fun _ => Some l
  | OField p f => G !! p ≫= fun x => get_f f x.1
  end.

(** The block a member of an object value stands for. *)
Definition val_f (f : hfield) (ct : nf_conntrack) : option block :=
  match f with
  | HSecctx => BBytes <$> ct_secctx ct
  | HHelperInfo => BBytes <$> ct_helper_info ct
  | HConnlabels => BMask <$> ct_connlabels ct
  | HConnlabelsMask => BMask <$> ct_connlabels_mask ct
  end.
Definition bytes_of (o : option block) : option (list Z) := match o with Some (BBytes bs) => Some bs | _ => None end.
Definition mask_of (o : option block) : option nfct_bitmask := match o with Some (BMask b) => Some b | _ => None end.
Definition set_val (f : hfield) (o : option block) (ct : nf_conntrack) : nf_conntrack :=
  match f with
  | HSecctx => with_ct_secctx (bytes_of o) ct
  | HHelperInfo => with_ct_helper_info (bytes_of o) ct
  | HConnlabels => with_ct_connlabels (mask_of o) ct
  | HConnlabelsMask => with_ct_connlabels_mask (mask_of o) ct
  end.
Definition fits (f : hfield) (b : block) : Prop :=
  match f, b with
  | (HSecctx | HHelperInfo), BBytes _ => True
  | (HConnlabels | HConnlabelsMask), BMask _ => True
  | _, _ => False
  end.

(** The value without its blocks, which is what the object stores besides the pointers. *)
Definition strip (ct : nf_conntrack) : nf_conntrack :=
  with_ct_secctx None (with_ct_helper_info None (with_ct_connlabels None (with_ct_connlabels_mask None ct))).

Definition points (bl : gmap Z block) (q : option Z) (o : option block) : Prop :=
  match q, o with
  | None, None => True
  | Some l, Some b => bl !! l = Some b
  | _, _ => False
  end.

Record mem_inv (h : cheap) (G : objects) (loose : gmap Z block) : Prop := {
  inv_inj o1 o2 l : place G loose o1 = Some l -> place G loose o2 = Some l -> o1 = o2;
  inv_owned l b : ch_blocks h !! l = Some b -> exists o, place G loose o = Some l;
  inv_obj p m ct : G !! p = Some (m, ct) ->
    ch_blocks h !! p = Some (BCt m) /\ mc_val m = strip ct /\ forall f, points (ch_blocks h) (get_f f m) (val_f f ct);
  inv_loose l b : loose !! l = Some b -> ch_blocks h !! l = Some b;
  inv_fresh l b : ch_blocks h !! l = Some b -> l < ch_fresh h
}.

Lemma get_set_f f f' q m : get_f f' (set_f f q m) = if decide (f = f') then q else get_f f' m.
Proof. by destruct f, f', m. Qed.
Lemma mc_val_set_f f q m : mc_val (set_f f q m) = mc_val m.
Proof. by destruct f. Qed.
Lemma set_f_twice f q q' m : set_f f q (set_f f q' m) = set_f f q m.
Proof. by destruct f. Qed.
Lemma get_f_with_val f v m : get_f f (with_val v m) = get_f f m.
Proof. by destruct f. Qed.
Lemma val_set_val f f' o ct :
  (forall b, o = Some b -> fits f b) -> val_f f' (set_val f o ct) = if decide (f = f') then o else val_f f' ct.
Proof.
  intros Hf. destruct o as [b|]; [specialize (Hf b eq_refl)|clear Hf]; destruct f, f', ct; try destruct b; cbn in *; try done.
Qed.
Lemma strip_set_val f o ct : strip (set_val f o ct) = strip ct.
Proof. by destruct f, ct. Qed.
Lemma set_val_same f ct : set_val f (val_f f ct) ct = ct.
Proof.
  by destruct f, ct as [?????????? ? [?|] ?????? ? [?|] ? [?|] [?|]].
Qed.
Lemma set_val_twice f o o' ct : set_val f o (set_val f o' ct) = set_val f o ct.
Proof. by destruct f, ct. Qed.
Lemma fits_val f ct b : val_f f ct = Some b -> fits f b.
Proof. destruct f; cbn; intros (x & _ & ->)%fmap_Some; done. Qed.

Definition drop_block (q : option Z) (bl : gmap Z block) : gmap Z block := if q is Some l then delete l bl else bl.

Lemma points_frame bl bl' q o : (forall l, q = Some l -> bl' !! l = bl !! l) -> points bl q o -> points bl' q o.
Proof. intros H Hp. destruct q as [l|], o; cbn in *; try done. by rewrite H. Qed.

Section Invariant.
Context (h : cheap) (G : objects) (loose : gmap Z block).
Hypothesis (Hinv : mem_inv h G loose).

Lemma inv_sep o1 o2 l1 l2 : place G loose o1 = Some l1 -> place G loose o2 = Some l2 -> o1 <> o2 -> l1 <> l2.
Proof. intros H1 H2 Hne ->. by apply Hne, (inv_inj _ _ _ Hinv _ _ l2). Qed.

Lemma place_obj p x : G !! p = Some x -> place G loose (OObj p) = Some p.
Proof. intros E. by cbn; rewrite E. Qed.
Lemma place_field p x f l : G !! p = Some x -> get_f f x.1 = Some l -> place G loose (OField p f) = Some l.
Proof. intros E Ef. by cbn; rewrite E. Qed.
Lemma place_loose l b : loose !! l = Some b -> place G loose (OLoose l) = Some l.
Proof. intros E. by cbn; rewrite E. Qed.

(** What an owner holds is a block. *)
Lemma place_live o l : place G loose o = Some l -> is_Some (ch_blocks h !! l).
Proof.
  destruct o as [p|l'|p f]; cbn.
  - destruct (G !! p) as [[m ct]|] eqn:E; cbn; [intros [= <-]|done]. destruct (inv_obj _ _ _ Hinv _ _ _ E) as [-> _]. by eexists.
  - destruct (loose !! l') eqn:E; cbn; [intros [= <-]|done]. rewrite (inv_loose _ _ _ Hinv _ _ E). by eexists.
  - destruct (G !! p) as [[m ct]|] eqn:E; cbn; [intros Hf|done].
    destruct (inv_obj _ _ _ Hinv _ _ _ E) as (_ & _ & Hp). specialize (Hp f). rewrite Hf in Hp. cbn in Hp.
    case_match; [rewrite Hp; by eexists|done].
Qed.

Lemma place_fresh o l : place G loose o = Some l -> l <> ch_fresh h.
Proof. intros [b Hb]%place_live. apply (inv_fresh _ _ _ Hinv) in Hb. lia. Qed.

(** The client drops a block of his own. *)
Lemma inv_free l b :
  loose !! l = Some b -> mem_inv (mk_cheap (delete l (ch_blocks h)) (ch_fresh h)) G (delete l loose).
Proof.
  intros Hl. pose proof (place_loose _ _ Hl) as Pl.
  assert (Hp : forall o k, place G (delete l loose) o = Some k <-> o <> OLoose l /\ place G loose o = Some k).
  { intros [p|l'|p f] k; cbn; try naive_solver. destruct (decide (l' = l)) as [->|Hne].
    - rewrite lookup_delete_eq. naive_solver.
    - rewrite lookup_delete_ne by done. naive_solver. }
  split; cbn.
  - intros o1 o2 k [_ H1]%Hp [_ H2]%Hp. by apply (inv_inj _ _ _ Hinv _ _ k).
  - intros k b' [Hne Hk]%lookup_delete_Some. destruct (inv_owned _ _ _ Hinv _ _ Hk) as [o Ho].
    exists o. apply Hp. split; [|done]. intros ->. cbn in Ho. rewrite Hl in Ho. naive_solver.
  - intros p m ct E. destruct (inv_obj _ _ _ Hinv _ _ _ E) as (Hb & Hv & Hf). split_and!; [|done|].
    + rewrite lookup_delete_ne; [done|]. by apply (inv_sep _ _ _ _ Pl (place_obj _ _ E)).
    + intros f. eapply points_frame; [|apply Hf]. intros k Hk. rewrite lookup_delete_ne; [done|].
      by apply (inv_sep _ _ _ _ Pl (place_field _ _ f k E Hk)).
  - intros k b' [Hne Hk]%lookup_delete_Some. rewrite lookup_delete_ne by done. by apply (inv_loose _ _ _ Hinv).
  - intros k b' [_ Hk]%lookup_delete_Some. by apply (inv_fresh _ _ _ Hinv _ b').
Qed.

(** A new block belongs to the client. *)
Lemma inv_alloc b :
  mem_inv (mk_cheap (<[ch_fresh h := b]> (ch_blocks h)) (ch_fresh h + 1)) G (<[ch_fresh h := b]> loose).
Proof.
  set (n := ch_fresh h).
  assert (Hn : ch_blocks h !! n = None) by (destruct (ch_blocks h !! n) eqn:E; [apply (inv_fresh _ _ _ Hinv) in E; lia|done]).
  assert (Hp : forall o k, place G (<[n := b]> loose) o = Some k <-> (o = OLoose n /\ k = n) \/ (o <> OLoose n /\ place G loose o = Some k)).
  { intros [p|l'|p f] k; cbn; try naive_solver. destruct (decide (l' = n)) as [->|Hne].
    - rewrite lookup_insert_eq. naive_solver.
    - rewrite lookup_insert_ne by done. naive_solver. }
  split; cbn.
  - intros o1 o2 k [[-> ->]|[_ H1]]%Hp [[-> ?]|[_ H2]]%Hp; [done|by apply place_fresh in H2| |by apply (inv_inj _ _ _ Hinv _ _ k)].
    subst. by apply place_fresh in H1.
  - intros k b' [[<- <-]|[Hne Hk]]%lookup_insert_Some; [exists (OLoose n); apply Hp; by left|].
    destruct (inv_owned _ _ _ Hinv _ _ Hk) as [o Ho]. exists o. apply Hp. right. split; [|done].
    intros ->. apply place_live in Ho as Ho'. cbn in Ho. destruct (loose !! n); cbn in Ho; naive_solver.
  - intros p m ct E. destruct (inv_obj _ _ _ Hinv _ _ _ E) as (Hb & Hv & Hf). split_and!; [|done|].
    + rewrite lookup_insert_ne; [done|]. intros <-. by apply (place_fresh _ _ (place_obj _ _ E)).
    + intros f. eapply points_frame; [|apply Hf]. intros k Hk. rewrite lookup_insert_ne; [done|].
      intros <-. by apply (place_fresh _ _ (place_field _ _ f _ E Hk)).
  - intros k b' [[<- <-]|[Hne Hk]]%lookup_insert_Some; [by rewrite lookup_insert_eq|].
    rewrite lookup_insert_ne by done. by apply (inv_loose _ _ _ Hinv).
  - intros k b' [[<- _]|[Hne Hk]]%lookup_insert_Some; [lia|]. apply (inv_fresh _ _ _ Hinv) in Hk. lia.
Qed.

(** A member of an object is released and set to NULL. *)
Lemma inv_clear p m ct f :
  G !! p = Some (m, ct) ->
  mem_inv (mk_cheap (<[p := BCt (set_f f None m)]> (drop_block (get_f f m) (ch_blocks h))) (ch_fresh h))
    (<[p := (set_f f None m, set_val f None ct)]> G) loose.
Proof.
  intros E. destruct (inv_obj _ _ _ Hinv _ _ _ E) as (Hb & Hv & Hf).
  assert (Hp : forall o k, place (<[p := (set_f f None m, set_val f None ct)]> G) loose o = Some k <->
    o <> OField p f /\ place G loose o = Some k).
  { intros [p'|l'|p' f'] k; cbn; try naive_solver; (destruct (decide (p' = p)) as [->|Hne];
      [rewrite lookup_insert_eq, E | rewrite lookup_insert_ne by done]); cbn; rewrite ?get_set_f; try case_decide; naive_solver. }
  assert (Hdrop : forall o k, o <> OField p f -> place G loose o = Some k ->
    drop_block (get_f f m) (ch_blocks h) !! k = ch_blocks h !! k).
  { intros o k Hne Ho. destruct (get_f f m) as [l|] eqn:El; cbn; [|done]. apply lookup_delete_ne.
    by apply (inv_sep _ _ _ _ (place_field _ _ f l E El) Ho). }
  assert (Hsub : forall k b, drop_block (get_f f m) (ch_blocks h) !! k = Some b -> ch_blocks h !! k = Some b /\ get_f f m <> Some k).
  { intros k b. destruct (get_f f m); cbn; [intros [? ?]%lookup_delete_Some|]; naive_solver. }
  assert (Hfld : forall o k, o <> OField p f -> o <> OObj p -> place G loose o = Some k ->
    <[p := BCt (set_f f None m)]> (drop_block (get_f f m) (ch_blocks h)) !! k = ch_blocks h !! k).
  { intros o k H1 H2 Ho. rewrite lookup_insert_ne; [by apply (Hdrop o)|].
    apply (inv_sep _ _ _ _ (place_obj _ _ E) Ho). congruence. }
  split; cbn.
  - intros o1 o2 k [_ H1]%Hp [_ H2]%Hp. by apply (inv_inj _ _ _ Hinv _ _ k).
  - intros k b [[<- _]|[Hne [Hk Hg]%Hsub]]%lookup_insert_Some.
    + exists (OObj p). apply Hp. split; [done|by apply (place_obj _ _ E)].
    + destruct (inv_owned _ _ _ Hinv _ _ Hk) as [o Ho]. exists o. apply Hp. split; [|done].
      intros ->. cbn in Ho. rewrite E in Ho. by cbn in Ho.
  - intros p' m' ct'. destruct (decide (p' = p)) as [->|Hne].
    + rewrite lookup_insert_eq. intros [= <- <-]. rewrite lookup_insert_eq, mc_val_set_f, strip_set_val.
      split_and!; [done|done|]. intros f'. rewrite get_set_f, val_set_val by done. case_decide; [done|].
      eapply points_frame; [|apply Hf]. intros k Hk.
      apply (Hfld (OField p f')); [congruence|done|by apply (place_field _ _ f' k E)].
    + rewrite lookup_insert_ne by done. intros E'. destruct (inv_obj _ _ _ Hinv _ _ _ E') as (Hb' & Hv' & Hf').
      split_and!; [|done|].
      * rewrite (Hfld (OObj p')); [done|done|congruence|by apply (place_obj _ _ E')].
      * intros f'. eapply points_frame; [|apply Hf']. intros k Hk.
        apply (Hfld (OField p' f')); [congruence|done|by apply (place_field _ _ f' k E')].
  - intros k b Hk. rewrite (Hfld (OLoose k)); [by apply (inv_loose _ _ _ Hinv)|done|done|by apply (place_loose _ _ Hk)].
  - intros k b [[<- _]|[Hne [Hk _]%Hsub]]%lookup_insert_Some; by eapply (inv_fresh _ _ _ Hinv).
Qed.

(** A block of the client goes to an empty member of an object. *)
Lemma inv_put p m ct f l b :
  G !! p = Some (m, ct) -> get_f f m = None -> loose !! l = Some b -> fits f b ->
  mem_inv (mk_cheap (<[p := BCt (set_f f (Some l) m)]> (ch_blocks h)) (ch_fresh h))
    (<[p := (set_f f (Some l) m, set_val f (Some b) ct)]> G) (delete l loose).
Proof.
  intros E Em El Hfit. destruct (inv_obj _ _ _ Hinv _ _ _ E) as (Hb & Hv & Hf).
  assert (Hp : forall o k, place (<[p := (set_f f (Some l) m, set_val f (Some b) ct)]> G) (delete l loose) o = Some k <->
    (o = OField p f /\ k = l) \/ (o <> OField p f /\ o <> OLoose l /\ place G loose o = Some k)).
  { intros [p'|l'|p' f'] k; cbn.
    - destruct (decide (p' = p)) as [->|Hne]; [rewrite lookup_insert_eq, E|rewrite lookup_insert_ne by done]; naive_solver.
    - destruct (decide (l' = l)) as [->|Hne]; [rewrite lookup_delete_eq|rewrite lookup_delete_ne by done]; naive_solver.
    - destruct (decide (p' = p)) as [->|Hne]; [rewrite lookup_insert_eq, E|rewrite lookup_insert_ne by done]; cbn;
        rewrite ?get_set_f; try case_decide; naive_solver. }
  assert (Hfld : forall o k, o <> OObj p -> place G loose o = Some k ->
    <[p := BCt (set_f f (Some l) m)]> (ch_blocks h) !! k = ch_blocks h !! k).
  { intros o k H2 Ho. apply lookup_insert_ne. apply (inv_sep _ _ _ _ (place_obj _ _ E) Ho). congruence. }
  split; cbn.
  - intros o1 o2 k [[-> ->]|(_ & Hl & H1)]%Hp [[-> ?]|(_ & Hl' & H2)]%Hp; [done| | |by apply (inv_inj _ _ _ Hinv _ _ k)];
      subst; exfalso; [apply Hl'|apply Hl]; by apply (inv_inj _ _ _ Hinv _ _ l); [|apply (place_loose _ _ El)].
  - intros k b' [[<- _]|[Hne Hk]]%lookup_insert_Some.
    + exists (OObj p). apply Hp. right. split_and!; [done|done|by apply (place_obj _ _ E)].
    + destruct (inv_owned _ _ _ Hinv _ _ Hk) as [o Ho]. destruct (decide (k = l)) as [->|Hkl]; [exists (OField p f); apply Hp; by left|].
      exists o. apply Hp. right. split_and!; [| |done]; intros ->; cbn in Ho; rewrite ?E, ?El in Ho; cbn in Ho; congruence.
  - intros p' m' ct'. destruct (decide (p' = p)) as [->|Hne].
    + rewrite lookup_insert_eq. intros [= <- <-]. rewrite lookup_insert_eq, mc_val_set_f, strip_set_val.
      split_and!; [done|done|]. intros f'. rewrite get_set_f, val_set_val by naive_solver. case_decide.
      * cbn. rewrite (Hfld (OLoose l)); [by apply (inv_loose _ _ _ Hinv)|done|by apply (place_loose _ _ El)].
      * eapply points_frame; [|apply Hf]. intros k Hk. apply (Hfld (OField p f')); [done|by apply (place_field _ _ f' k E)].
    + rewrite lookup_insert_ne by done. intros E'. destruct (inv_obj _ _ _ Hinv _ _ _ E') as (Hb' & Hv' & Hf').
      split_and!; [|done|].
      * rewrite (Hfld (OObj p')); [done|congruence|by apply (place_obj _ _ E')].
      * intros f'. eapply points_frame; [|apply Hf']. intros k Hk.
        apply (Hfld (OField p' f')); [done|by apply (place_field _ _ f' k E')].
  - intros k b' [Hne Hk]%lookup_delete_Some. rewrite (Hfld (OLoose k)); [by apply (inv_loose _ _ _ Hinv)|done|by apply (place_loose _ _ Hk)].
  - intros k b' [[<- _]|[Hne Hk]]%lookup_insert_Some; by eapply (inv_fresh _ _ _ Hinv).
Qed.

(** A member of an object is overwritten with NULL and nothing is released: its block has no
    owner in the program any more. *)
Lemma inv_leak p m ct f l b :
  G !! p = Some (m, ct) -> get_f f m = Some l -> val_f f ct = Some b ->
  loose !! l = None /\
  mem_inv (mk_cheap (<[p := BCt (set_f f None m)]> (ch_blocks h)) (ch_fresh h))
    (<[p := (set_f f None m, set_val f None ct)]> G) (<[l := b]> loose).
Proof.
  intros E Em Ev. destruct (inv_obj _ _ _ Hinv _ _ _ E) as (Hb & Hv & Hf).
  pose proof (place_field _ _ f l E Em) as Pf.
  assert (HL : loose !! l = None).
  { destruct (loose !! l) eqn:El; [|done]. exfalso. by apply (inv_sep _ _ _ _ Pf (place_loose _ _ El)). }
  assert (Hl : ch_blocks h !! l = Some b) by (specialize (Hf f); by rewrite Em, Ev in Hf).
  assert (Hlp : l <> p) by by apply (inv_sep _ _ _ _ Pf (place_obj _ _ E)).
  split; [done|].
  assert (Hp : forall o k, place (<[p := (set_f f None m, set_val f None ct)]> G) (<[l := b]> loose) o = Some k <->
    (o = OLoose l /\ k = l) \/ (o <> OField p f /\ o <> OLoose l /\ place G loose o = Some k)).
  { intros [p'|l'|p' f'] k; cbn.
    - destruct (decide (p' = p)) as [->|Hne]; [rewrite lookup_insert_eq, E|rewrite lookup_insert_ne by done]; naive_solver.
    - destruct (decide (l' = l)) as [->|Hne]; [rewrite lookup_insert_eq, HL|rewrite lookup_insert_ne by done]; naive_solver.
    - destruct (decide (p' = p)) as [->|Hne]; [rewrite lookup_insert_eq, E|rewrite lookup_insert_ne by done]; cbn;
        rewrite ?get_set_f; try case_decide; naive_solver. }
  assert (Hfld : forall o k, o <> OObj p -> place G loose o = Some k ->
    <[p := BCt (set_f f None m)]> (ch_blocks h) !! k = ch_blocks h !! k).
  { intros o k H2 Ho. apply lookup_insert_ne. apply (inv_sep _ _ _ _ (place_obj _ _ E) Ho). congruence. }
  split; cbn.
  - intros o1 o2 k [[-> ->]|(Hn & _ & H1)]%Hp [[-> ?]|(Hn' & _ & H2)]%Hp; [done| | |by apply (inv_inj _ _ _ Hinv _ _ k)];
      subst; exfalso; [apply Hn'|apply Hn]; by apply (inv_inj _ _ _ Hinv _ _ l).
  - intros k b' [[<- _]|[Hne Hk]]%lookup_insert_Some.
    + exists (OObj p). apply Hp. right. split_and!; [done|done|by apply (place_obj _ _ E)].
    + destruct (decide (k = l)) as [->|Hkl]; [exists (OLoose l); apply Hp; by left|].
      destruct (inv_owned _ _ _ Hinv _ _ Hk) as [o Ho].
      exists o. apply Hp. right. split_and!; [| |done]; intros ->; cbn in Ho; rewrite ?E, ?HL in Ho; cbn in Ho; congruence.
  - intros p' m' ct'. destruct (decide (p' = p)) as [->|Hne].
    + rewrite lookup_insert_eq. intros [= <- <-]. rewrite lookup_insert_eq, mc_val_set_f, strip_set_val.
      split_and!; [done|done|]. intros f'. rewrite get_set_f, val_set_val by done. case_decide; [done|].
      eapply points_frame; [|apply Hf]. intros k Hk. apply (Hfld (OField p f')); [done|by apply (place_field _ _ f' k E)].
    + rewrite lookup_insert_ne by done. intros E'. destruct (inv_obj _ _ _ Hinv _ _ _ E') as (Hb' & Hv' & Hf').
      split_and!; [|done|].
      * rewrite (Hfld (OObj p')); [done|congruence|by apply (place_obj _ _ E')].
      * intros f'. eapply points_frame; [|apply Hf']. intros k Hk.
        apply (Hfld (OField p' f')); [done|by apply (place_field _ _ f' k E')].
  - intros k b' [[<- <-]|[Hne Hk]]%lookup_insert_Some; [by rewrite lookup_insert_ne|].
    rewrite (Hfld (OLoose k)); [by apply (inv_loose _ _ _ Hinv)|done|by apply (place_loose _ _ Hk)].
  - intros k b' [[<- _]|[Hne Hk]]%lookup_insert_Some; by eapply (inv_fresh _ _ _ Hinv).
Qed.

(** A change of the other members of an object. *)
Lemma inv_scalar p m ct ct' :
  G !! p = Some (m, ct) -> (forall f, val_f f ct' = val_f f ct) ->
  mem_inv (mk_cheap (<[p := BCt (with_val (strip ct') m)]> (ch_blocks h)) (ch_fresh h))
    (<[p := (with_val (strip ct') m, ct')]> G) loose.
Proof.
  intros E Hct. destruct (inv_obj _ _ _ Hinv _ _ _ E) as (Hb & Hv & Hf).
  assert (Hp : forall o, place (<[p := (with_val (strip ct') m, ct')]> G) loose o = place G loose o).
  { intros [p'|l'|p' f']; cbn; [| done |]; (destruct (decide (p' = p)) as [->|Hne];
      [rewrite lookup_insert_eq, E | by rewrite lookup_insert_ne]); cbn; [done|apply get_f_with_val]. }
  assert (Hfld : forall o k, o <> OObj p -> place G loose o = Some k ->
    <[p := BCt (with_val (strip ct') m)]> (ch_blocks h) !! k = ch_blocks h !! k).
  { intros o k H2 Ho. apply lookup_insert_ne. apply (inv_sep _ _ _ _ (place_obj _ _ E) Ho). congruence. }
  split; cbn.
  - intros o1 o2 k. rewrite !Hp. apply (inv_inj _ _ _ Hinv).
  - intros k b Hk. assert (exists b', ch_blocks h !! k = Some b') as [b' Hk'].
    { apply lookup_insert_Some in Hk as [[<- _]|[_ Hk]]; by eexists. }
    destruct (inv_owned _ _ _ Hinv _ _ Hk') as [o Ho]. exists o. by rewrite Hp.
  - intros p' m' ct1. destruct (decide (p' = p)) as [->|Hne].
    + rewrite lookup_insert_eq. intros [= <- <-]. rewrite lookup_insert_eq. split_and!; [done|done|].
      intros f. rewrite get_f_with_val, Hct. eapply points_frame; [|apply Hf].
      intros k Hk. apply (Hfld (OField p f)); [done|by apply (place_field _ _ f k E)].
    + rewrite lookup_insert_ne by done. intros E'. destruct (inv_obj _ _ _ Hinv _ _ _ E') as (Hb' & Hv' & Hf').
      split_and!; [|done|].
      * rewrite (Hfld (OObj p')); [done|congruence|by apply (place_obj _ _ E')].
      * intros f. eapply points_frame; [|apply Hf']. intros k Hk.
        apply (Hfld (OField p' f)); [done|by apply (place_field _ _ f k E')].
  - intros k b Hk. rewrite (Hfld (OLoose k)); [by apply (inv_loose _ _ _ Hinv)|done|by apply (place_loose _ _ Hk)].
  - intros k b [[<- _]|[Hne Hk]]%lookup_insert_Some; by eapply (inv_fresh _ _ _ Hinv).
Qed.

(** A block with an object without blocks of its own becomes an object, and the other way
    round. *)
Definition bare (m : mct) (ct : nf_conntrack) : Prop :=
  mc_val m = strip ct /\ forall f, get_f f m = None /\ val_f f ct = None.

Lemma inv_adopt p m ct : loose !! p = Some (BCt m) -> bare m ct -> mem_inv h (<[p := (m, ct)]> G) (delete p loose).
Proof.
  intros El [Hv Hbare].
  assert (HG : G !! p = None).
  { destruct (G !! p) eqn:E; [|done]. exfalso.
    by apply (inv_sep _ _ _ _ (place_obj _ _ E) (place_loose _ _ El)). }
  assert (Hp : forall o k, place (<[p := (m, ct)]> G) (delete p loose) o = Some k <->
    (o = OObj p /\ k = p) \/ (o <> OLoose p /\ o <> OObj p /\ place G loose o = Some k)).
  { intros [p'|l'|p' f'] k; cbn.
    - destruct (decide (p' = p)) as [->|Hne]; [rewrite lookup_insert_eq|rewrite lookup_insert_ne by done]; naive_solver.
    - destruct (decide (l' = p)) as [->|Hne]; [rewrite lookup_delete_eq|rewrite lookup_delete_ne by done]; naive_solver.
    - destruct (decide (p' = p)) as [->|Hne]; [rewrite lookup_insert_eq, HG; cbn; rewrite (proj1 (Hbare f'))|rewrite lookup_insert_ne by done];
        naive_solver. }
  split; cbn.
  - intros o1 o2 k [[-> ->]|(Hl & _ & H1)]%Hp [[-> ?]|(Hl' & _ & H2)]%Hp; [done| | |by apply (inv_inj _ _ _ Hinv _ _ k)];
      subst; exfalso; [apply Hl'|apply Hl]; by apply (inv_inj _ _ _ Hinv _ _ p); [|apply (place_loose _ _ El)].
  - intros k b Hk. destruct (decide (k = p)) as [->|Hne]; [exists (OObj p); apply Hp; by left|].
    destruct (inv_owned _ _ _ Hinv _ _ Hk) as [o Ho]. exists o. apply Hp. right.
    split_and!; [| |done]; intros ->; cbn in Ho; rewrite ?HG, ?El in Ho; cbn in Ho; congruence.
  - intros p' m' ct'. destruct (decide (p' = p)) as [->|Hne].
    + rewrite lookup_insert_eq. intros [= <- <-]. split_and!; [by apply (inv_loose _ _ _ Hinv)|done|].
      intros f. destruct (Hbare f) as [-> ->]. done.
    + rewrite lookup_insert_ne by done. apply (inv_obj _ _ _ Hinv).
  - intros k b [_ Hk]%lookup_delete_Some. by apply (inv_loose _ _ _ Hinv).
  - apply (inv_fresh _ _ _ Hinv).
Qed.

Lemma inv_disown p m ct : G !! p = Some (m, ct) -> (forall f, get_f f m = None) -> mem_inv h (delete p G) (<[p := BCt m]> loose).
Proof.
  intros E Hbare. destruct (inv_obj _ _ _ Hinv _ _ _ E) as (Hb & Hv & Hf).
  assert (HL : loose !! p = None).
  { destruct (loose !! p) eqn:El; [|done]. exfalso. by apply (inv_sep _ _ _ _ (place_obj _ _ E) (place_loose _ _ El)). }
  assert (Hp : forall o k, place (delete p G) (<[p := BCt m]> loose) o = Some k <->
    (o = OLoose p /\ k = p) \/ (o <> OLoose p /\ o <> OObj p /\ place G loose o = Some k)).
  { intros [p'|l'|p' f'] k; cbn.
    - destruct (decide (p' = p)) as [->|Hne]; [rewrite lookup_delete_eq|rewrite lookup_delete_ne by done]; naive_solver.
    - destruct (decide (l' = p)) as [->|Hne]; [rewrite lookup_insert_eq, HL|rewrite lookup_insert_ne by done]; naive_solver.
    - destruct (decide (p' = p)) as [->|Hne]; [rewrite lookup_delete_eq, E; cbn; rewrite (Hbare f')|rewrite lookup_delete_ne by done];
        naive_solver. }
  split; cbn.
  - intros o1 o2 k [[-> ->]|(_ & Hl & H1)]%Hp [[-> ?]|(_ & Hl' & H2)]%Hp; [done| | |by apply (inv_inj _ _ _ Hinv _ _ k)];
      subst; exfalso; [apply Hl'|apply Hl]; by apply (inv_inj _ _ _ Hinv _ _ p); [|apply (place_obj _ _ E)].
  - intros k b Hk. destruct (decide (k = p)) as [->|Hne]; [exists (OLoose p); apply Hp; by left|].
    destruct (inv_owned _ _ _ Hinv _ _ Hk) as [o Ho]. exists o. apply Hp. right.
    split_and!; [| |done]; intros ->; cbn in Ho; rewrite ?E, ?HL in Ho; cbn in Ho; congruence.
  - intros p' m' ct' [_ E']%lookup_delete_Some. by apply (inv_obj _ _ _ Hinv).
  - intros k b [[<- <-]|[_ Hk]]%lookup_insert_Some; [done|by apply (inv_loose _ _ _ Hinv)].
  - apply (inv_fresh _ _ _ Hinv).
Qed.
End Invariant.

(** * The functions against the values *)

(** The other members do not depend on the blocks. *)
Definition owns_block (a : nf_conntrack_attr) : bool :=
  match a with ATTR_SECCTX | ATTR_HELPER_INFO | ATTR_CONNLABELS | ATTR_CONNLABELS_MASK => true | _ => false end.

(** [c'] does on the stripped object what [c] does on the object, which keeps its blocks. *)
Definition same_scalars (ct : nf_conntrack) (r r' : res (nf_conntrack * world)) : Prop :=
  match r, r' with
  | Ok (x, w), Ok (x', w') => w = w' /\ x' = strip x /\ forall f, val_f f x = val_f f ct
  | Ub, Ub | Exit, Exit | Fuel, Fuel => True
  | _, _ => False
  end.

Lemma same_scalars_bind {A} ct (c : M A) k k' w :
  (forall a w, same_scalars ct (k a w) (k' a w)) -> same_scalars ct (bind c k w) (bind c k' w).
Proof. intros H. unfold bind. destruct (c w) as [[a w']| | |]; cbn; auto. Qed.
Lemma same_scalars_ret ct x x' w :
  x' = strip x -> (forall f, val_f f x = val_f f ct) -> same_scalars ct (ret x w) (ret x' w).
Proof. by cbn. Qed.

Ltac same_scalars :=
  repeat first
    [ apply same_scalars_bind; intros ? ?
    | apply same_scalars_ret; [done | by intros []]
    | exact I
    | progress cbn [bind ret ub exit]
    | case_match ].

Lemma copy_scalars a ct1 ct2 w :
  owns_block a = false -> same_scalars ct1 (copy_attr_array a ct1 ct2 w) (copy_attr_array a (strip ct1) (strip ct2) w).
Proof. intros H. destruct ct1, ct2. destruct a; try discriminate H; clear H; cbn [copy_attr_array]; same_scalars. Qed.
Lemma set_scalars a ct bs len w :
  owns_block a = false \/ a = ATTR_SECCTX ->
  same_scalars ct (set_attr_array a ct (VBytes bs) len w) (set_attr_array a (strip ct) (VBytes bs) len w).
Proof.
  intros H. destruct ct. destruct a; try (exfalso; clear -H; cbn in H; naive_solver); clear H; cbn [set_attr_array]; same_scalars.
Qed.
Lemma mark_scalars a ct w : same_scalars ct (ret (attr_set a ct) w) (ret (attr_set a (strip ct)) w).
Proof. destruct ct. same_scalars. Qed.

(** The call on memory ends as the call on values does, with related results. *)
Definition simulates {A B} (R : A -> B -> cheap -> Prop) (r : res (A * world)) (r' : res (B * cheap * world)) : Prop :=
  match r, r' with
  | Ok (a, w), Ok (b, h, w') => w = w' /\ R a b h
  | Ub, Ub | Exit, Exit | Fuel, Fuel => True
  | _, _ => False
  end.

Lemma simulates_bind {A B A' B'} (R : A -> B -> cheap -> Prop) (R' : A' -> B' -> cheap -> Prop) c k (c' : C B) k' h w :
  simulates R (c w) (c' h w) -> (forall a b h w, R a b h -> simulates R' (k a w) (k' b h w)) ->
  simulates R' (bind c k w) (cbind c' k' h w).
Proof.
  intros Hc Hk. unfold cbind, bind. destruct (c w) as [[a w1]| | |], (c' h w) as [[[b h1] w2]| | |]; cbn in Hc; try done.
  destruct Hc as [<- Hc]. by apply Hk.
Qed.
Lemma simulates_ret {A B} (R : A -> B -> cheap -> Prop) a b h w : R a b h -> simulates R (ret a w) (cret b h w).
Proof. by cbn. Qed.
Lemma simulates_run {A B B'} (R : A -> B' -> cheap -> Prop) r (c : C B) k h w b h' :
  c h w = Ok (b, h', w) -> simulates R r (k b h' w) -> simulates R r (cbind c k h w).
Proof. intros Hc. unfold cbind, bind. by rewrite Hc. Qed.

(** The object [p] stands for [ct], and all else is as in [G] and [loose]. *)
Definition now (G : objects) (loose : gmap Z block) (p : Z) (ct : nf_conntrack) (h : cheap) : Prop :=
  exists m, mem_inv h (<[p := (m, ct)]> G) loose.

Section Run.
Context (h : cheap) (G : objects) (loose : gmap Z block) (w : world) (p : Z) (m : mct) (ct : nf_conntrack).
Hypothesis (Hinv : mem_inv h G loose) (E : G !! p = Some (m, ct)).

Lemma ct_at_run : ct_at p h w = Ok (m, h, w).
Proof. unfold ct_at. by destruct (inv_obj _ _ _ Hinv _ _ _ E) as [-> _]. Qed.
Lemma put_ct_run m' : put_ct p m' h w = Ok (tt, mk_cheap (<[p := BCt m']> (ch_blocks h)) (ch_fresh h), w).
Proof. unfold put_ct. by destruct (inv_obj _ _ _ Hinv _ _ _ E) as [-> _]. Qed.

Lemma put_member_run f q : put_member p f q h w = Ok (tt, mk_cheap (<[p := BCt (set_f f q m)]> (ch_blocks h)) (ch_fresh h), w).
Proof. unfold put_member, cbind, bind. by rewrite ct_at_run, put_ct_run. Qed.
Lemma put_member_same f : put_member p f (get_f f m) h w = Ok (tt, h, w).
Proof.
  rewrite put_member_run. replace (set_f f (get_f f m) m) with m by (by destruct f, m).
  rewrite insert_id by apply (inv_obj _ _ _ Hinv _ _ _ E). by destruct h.
Qed.

Lemma now_same : now G loose p ct h.
Proof. exists m. by rewrite insert_id. Qed.

(** What a member points to. *)
Lemma field_some f l : get_f f m = Some l -> exists b, val_f f ct = Some b /\ fits f b /\ ch_blocks h !! l = Some b.
Proof.
  intros Hl. destruct (inv_obj _ _ _ Hinv _ _ _ E) as (_ & _ & Hf). specialize (Hf f). rewrite Hl in Hf.
  destruct (val_f f ct) as [b|] eqn:Ev; [|done]. exists b. split_and!; [done|by apply (fits_val f ct)|done].
Qed.
Lemma field_none f : get_f f m = None -> val_f f ct = None.
Proof. intros Hl. destruct (inv_obj _ _ _ Hinv _ _ _ E) as (_ & _ & Hf). specialize (Hf f). rewrite Hl in Hf. by destruct (val_f f ct). Qed.

Lemma free_field_run f :
  (if get_f f m is Some _ then free (get_f f m) else cret tt) h w =
  Ok (tt, mk_cheap (drop_block (get_f f m) (ch_blocks h)) (ch_fresh h), w).
Proof.
  destruct (get_f f m) as [l|] eqn:El; cbn; [|by destruct h].
  destruct (field_some _ _ El) as (b & _ & _ & ->). done.
Qed.

Lemma drop_obj f : drop_block (get_f f m) (ch_blocks h) !! p = Some (BCt m).
Proof.
  destruct (inv_obj _ _ _ Hinv _ _ _ E) as (Hb & _ & _). destruct (get_f f m) as [l|] eqn:El; cbn; [|done].
  rewrite lookup_delete_ne; [done|]. by apply (inv_sep _ _ _ Hinv _ _ _ _ (place_field _ _ _ _ f l E El) (place_obj _ _ _ _ E)).
Qed.

Lemma fresh_not_obj : ch_fresh h <> p.
Proof. intros Hp. by eapply (place_fresh _ _ _ Hinv), eq_sym, Hp; apply (place_obj _ _ _ _ E). Qed.
Lemma fresh_not_loose : loose !! ch_fresh h = None.
Proof. destruct (loose !! ch_fresh h) eqn:El; [|done]. by edestruct (place_fresh _ _ _ Hinv); [by apply (place_loose _ _ _ _ El)|]. Qed.

(** The member is released, a new block is allocated and assigned. *)
Definition replaced (f : hfield) (b : block) (ok : bool) (q : option Z) (h' : cheap) : Prop :=
  q = (if ok then Some (ch_fresh h) else None) /\
  mem_inv h' (<[p := (set_f f q m, set_val f (if ok then Some b else None) ct)]> G) loose.
Lemma replace_run f b :
  fits f b ->
  simulates (replaced f b) (malloc_ok w)
    ((let& q := malloc_block b in put_member p f q ;;& cret q)
      (mk_cheap (drop_block (get_f f m) (ch_blocks h)) (ch_fresh h)) w).
Proof.
  intros Hfit. pose proof (inv_clear _ _ _ Hinv _ _ _ f E) as Hc. pose proof fresh_not_obj as Hn.
  pose proof (drop_obj f) as Hd.
  assert (Hok : forall w', simulates (replaced f b) (Ok (true, w'))
    ((put_member p f (Some (ch_fresh h)) ;;& cret (Some (ch_fresh h)))
      (mk_cheap (<[ch_fresh h := b]> (drop_block (get_f f m) (ch_blocks h))) (ch_fresh h + 1)) w')).
  { intros w'. cbn. unfold put_member, cbind, ct_at, put_ct, bind, ret. cbn. rewrite lookup_insert_ne by done. rewrite Hd. cbn.
    rewrite lookup_insert_ne by done. rewrite Hd. cbn. split_and!; [done..|].
    pose proof (inv_alloc _ _ _ Hc b) as Ha. cbn in Ha.
    assert (Hput := inv_put _ _ _ Ha p (set_f f None m) (set_val f None ct) f (ch_fresh h) b).
    rewrite lookup_insert_eq, get_set_f, decide_True in Hput by done. specialize (Hput eq_refl eq_refl).
    rewrite lookup_insert_eq in Hput. specialize (Hput eq_refl Hfit). cbn in Hput.
    rewrite set_f_twice, set_val_twice, insert_insert_eq, delete_insert_id, insert_insert_ne, insert_insert_eq in Hput
      by (done || apply fresh_not_loose). by rewrite insert_insert_ne in Hput by done. }
  assert (Hno : forall w', simulates (replaced f b) (Ok (false, w'))
    ((put_member p f None ;;& cret None) (mk_cheap (drop_block (get_f f m) (ch_blocks h)) (ch_fresh h)) w')).
  { intros w'. cbn. unfold put_member, cbind, ct_at, put_ct, bind, ret. cbn. rewrite Hd. cbn. rewrite Hd. by cbn. }
  unfold malloc_block, malloc_ok. unfold cbind at 1. unfold bind at 1 2.
  destruct (w_alloc w) as [|[] al]; cbn [ret]; [apply Hok|apply Hok|apply Hno].
Qed.

Lemma replace_then {A B} (R : A -> B -> cheap -> Prop) f b kv k (P : option Z -> C B) :
  fits f b -> (forall q h1 w1, P q h1 w1 = (put_member p f q ;;& k q) h1 w1) ->
  (forall ok q h1 w1, replaced f b ok q h1 -> simulates R (kv ok w1) (k q h1 w1)) ->
  simulates R (bind malloc_ok kv w)
    (cbind (malloc_block b) P (mk_cheap (drop_block (get_f f m) (ch_blocks h)) (ch_fresh h)) w).
Proof.
  intros Hfit HP Hk. pose proof (simulates_bind _ R malloc_ok kv _ k _ w (replace_run f b Hfit) Hk) as H.
  revert H. unfold cbind, bind. destruct (malloc_block b _ w) as [[[q h1] w1]| | |]; try done.
  rewrite HP. unfold cbind, bind. by destruct (put_member p f q h1 w1) as [[[[] h2] w2]| | |].
Qed.

(** The member is released and set to NULL when it is not. *)
Lemma clear_run f :
  exists h1, (if get_f f m is Some _ then free (get_f f m) ;;& put_member p f None else cret tt) h w = Ok (tt, h1, w) /\
    mem_inv h1 (<[p := (set_f f None m, set_val f None ct)]> G) loose.
Proof.
  destruct (get_f f m) as [l|] eqn:El.
  - eexists. split; [|apply (inv_clear _ _ _ Hinv _ _ _ f E)]. pose proof (free_field_run f) as Hr. rewrite El in Hr.
    unfold cbind at 1, bind at 1. rewrite Hr, El. unfold put_member, cbind, bind, ct_at, put_ct, ret. cbn.
    pose proof (drop_obj f) as Hd. rewrite El in Hd. cbn [drop_block] in Hd. do 2 (rewrite Hd; cbn). done.
  - exists h. split; [done|]. rewrite <- El, <- (field_none f El), set_val_same.
    replace (set_f f (get_f f m) m) with m by (by destruct f, m). by rewrite insert_id.
Qed.

Lemma write_run f l bs bs' :
  get_f f m = Some l -> ch_blocks h !! l = Some (BBytes bs) -> zlen bs = zlen bs' ->
  exists h1, write_block l bs' h w = Ok (tt, h1, w) /\ mem_inv h1 (<[p := (m, set_val f (Some (BBytes bs')) ct)]> G) loose.
Proof.
  intros El Hl Hlen. eexists. split; [unfold write_block; rewrite Hl, Hlen, Z.eqb_refl; done|].
  destruct (inv_obj _ _ _ Hinv _ _ _ E) as (Hb & Hv & Hf).
  pose proof (place_field _ loose _ _ f l E El) as Pl.
  assert (Hfit : forall b, Some (BBytes bs') = Some b -> fits f b).
  { destruct (field_some f l El) as (b & _ & Hfit & Hb'). intros ? [= <-]. rewrite Hl in Hb'. injection Hb' as <-. by destruct f. }
  set (ct1 := set_val f (Some (BBytes bs')) ct).
  assert (Hp : forall o, place (<[p := (m, ct1)]> G) loose o = place G loose o).
  { intros [p'|l'|p' f']; cbn; [| done |]; (destruct (decide (p' = p)) as [->|Hne];
      [by rewrite lookup_insert_eq, E | by rewrite lookup_insert_ne]). }
  assert (Hfld : forall o k, o <> OField p f -> place G loose o = Some k ->
    <[l := BBytes bs']> (ch_blocks h) !! k = ch_blocks h !! k).
  { intros o k Hne Ho. apply lookup_insert_ne. apply (inv_sep _ _ _ Hinv _ _ _ _ Pl Ho). congruence. }
  split; cbn.
  - intros o1 o2 k. rewrite !Hp. apply (inv_inj _ _ _ Hinv).
  - intros k b Hk. assert (exists b', ch_blocks h !! k = Some b') as [b' Hk'].
    { apply lookup_insert_Some in Hk as [[<- _]|[_ Hk]]; by eexists. }
    destruct (inv_owned _ _ _ Hinv _ _ Hk') as [o Ho]. exists o. by rewrite Hp.
  - intros p' m' ct'. destruct (decide (p' = p)) as [->|Hne].
    + rewrite lookup_insert_eq. intros [= <- <-]. unfold ct1. rewrite strip_set_val.
      rewrite (Hfld (OObj p)); [|done|by apply (place_obj _ _ _ _ E)]. split_and!; [done|done|].
      intros f'. rewrite val_set_val by done. case_decide; [subst f'; rewrite El; cbn; by rewrite lookup_insert_eq|].
      eapply points_frame; [|apply Hf]. intros k Hk. apply (Hfld (OField p f')); [congruence|by apply (place_field _ _ _ _ f' k E)].
    + rewrite lookup_insert_ne by done. intros E'. destruct (inv_obj _ _ _ Hinv _ _ _ E') as (Hb' & Hv' & Hf').
      rewrite (Hfld (OObj p')); [|done|by apply (place_obj _ _ _ _ E')]. split_and!; [done|done|].
      intros f'. eapply points_frame; [|apply Hf']. intros k Hk. apply (Hfld (OField p' f')); [congruence|by apply (place_field _ _ _ _ f' k E')].
  - intros k b Hk. rewrite (Hfld (OLoose k)); [by apply (inv_loose _ _ _ Hinv)|done|by apply (place_loose _ _ _ _ Hk)].
  - intros k b [[<- _]|[Hne Hk]]%lookup_insert_Some; by eapply (inv_fresh _ _ _ Hinv).
Qed.

Lemma fill_then {A B} (R : A -> B -> cheap -> Prop) f b kv k (P : option Z -> C B) :
  get_f f m = None -> fits f b -> (forall q h1 w1, P q h1 w1 = (put_member p f q ;;& k q) h1 w1) ->
  (forall ok q h1 w1, replaced f b ok q h1 -> simulates R (kv ok w1) (k q h1 w1)) ->
  simulates R (bind malloc_ok kv w) (cbind (malloc_block b) P h w).
Proof. intros Hf Hfit HP Hk. pose proof (replace_then R f b kv k P Hfit HP Hk) as H. rewrite Hf in H. by destruct h. Qed.
End Run.

Lemma now_at h G loose p x m ct : mem_inv h (<[p := (m, ct)]> (<[p := x]> G)) loose -> now G loose p ct h.
Proof. rewrite insert_insert_eq. by exists m. Qed.

Lemma val_bytes_len len v w bs w' : val_bytes len v w = Ok (bs, w') -> zlen bs = zlen (replicate (Z.to_nat len) 0).
Proof.
  unfold val_bytes. destruct v as [l|]; [|done]. destruct (Z.leb_spec len (zlen l)); [|done]. intros [= <- _].
  rewrite zlen_replicate. unfold slice, zlen in *. rewrite length_take, drop_0. lia.
Qed.

(** The helper data becomes a new block with what [src] reads. *)
Lemma info_run h G loose w p m ct len src (csrc : C (list Z)) :
  mem_inv h G loose -> G !! p = Some (m, ct) ->
  (forall w bs w', src w = Ok (bs, w') -> zlen bs = zlen (replicate (Z.to_nat len) 0)) ->
  (forall h1 m1 ct1 w1, mem_inv h1 (<[p := (m1, ct1)]> G) loose -> csrc h1 w1 = lift src h1 w1) ->
  simulates (fun ct _ h' => now G loose p ct h')
    ((let! ok := malloc_ok in if negb ok then ret (with_ct_helper_info None ct) else
      let! bs := src in ret (with_ct_helper_info (Some bs) ct)) w)
    ((let& q := calloc_bytes len in put_member p HHelperInfo q ;;&
      match q with None => cret tt | Some l => let& bs := csrc in write_block l bs end)
      (mk_cheap (drop_block (mc_helper_info m) (ch_blocks h)) (ch_fresh h)) w).
Proof.
  intros Hinv E Hsrc Hcsrc.
  eapply (replace_then h G loose w p m ct Hinv E _ HHelperInfo (BBytes (replicate (Z.to_nat len) 0))); [done|done|].
  intros ok q h1 w1 [-> Hq]. destruct ok; cbn [negb]; cbv beta iota; [|apply simulates_ret; by eexists].
  unfold cbind, bind. rewrite (Hcsrc _ _ _ _ Hq). unfold lift, bind. destruct (src w1) as [[bs w2]| | |] eqn:Es; try done.
  destruct (field_some h1 _ loose p _ _ Hq (lookup_insert_eq _ _ _) HHelperInfo (ch_fresh h)) as (b & Hb & _ & Hl); [done|].
  cbn in Hb. injection Hb as <-.
  destruct (write_run h1 _ loose w2 p _ _ Hq (lookup_insert_eq _ _ _) HHelperInfo _ _ bs eq_refl Hl) as (h2 & Hr & Hi);
    [by rewrite (Hsrc _ _ _ Es)|]. cbn [ret]. rewrite Hr. split; [done|]. apply now_at in Hi. by rewrite set_val_twice in Hi.
Qed.

Lemma put_member_end p f q h w : put_member p f q h w = (put_member p f q ;;& cret tt) h w.
Proof. unfold cbind, bind. by destruct (put_member p f q h w) as [[[[] ?] ?]| | |]. Qed.
Lemma cbind_assoc {A B D} (c : C A) (k : A -> C B) (g : B -> C D) h w :
  (cbind (cbind c k) g) h w = (cbind c (fun x => cbind (k x) g)) h w.
Proof. unfold cbind, bind. by destruct (c h w) as [[[? ?] ?]| | |]. Qed.
Lemma alloc_bind {A B} (x : A) (k : option A -> M B) w :
  bind (let! ok := malloc_ok in if (ok : bool) then ret (Some x) else ret None) k w =
  bind malloc_ok (fun ok => k (if (ok : bool) then Some x else None)) w.
Proof. unfold bind, malloc_ok. by destruct (w_alloc w) as [|[] ?]. Qed.

(** * Copies of the members with blocks *)

Section Copy.
Context (h : cheap) (G : objects) (loose : gmap Z block) (w : world) (p1 p2 : Z) (m1 m2 : mct) (ct1 ct2 : nf_conntrack).
Hypothesis (Hinv : mem_inv h G loose) (E1 : G !! p1 = Some (m1, ct1)) (E2 : G !! p2 = Some (m2, ct2)) (Hne : p1 <> p2).

Lemma copy_secctx_mem_run :
  simulates (fun ct _ h' => now G loose p1 ct h') (copy_attr_secctx ct1 ct2 w) (copy_attr_secctx_mem p1 p2 h w).
Proof.
  eapply simulates_run; [by eapply ct_at_run|].
  destruct (clear_run h G loose w p1 m1 ct1 Hinv E1 HSecctx) as (h1 & Hr & Hi). eapply simulates_run; [exact Hr|].
  assert (E2' := E2). rewrite <- (lookup_insert_ne G p1 p2 (set_f HSecctx None m1, set_val HSecctx None ct1) Hne) in E2'.
  eapply simulates_run; [by eapply ct_at_run|]. unfold copy_attr_secctx.
  destruct (mc_secctx m2) as [l|] eqn:El.
  - destruct (field_some _ _ _ _ _ _ Hi E2' HSecctx l El) as (b & Hb & _ & Hl).
    apply fmap_Some in Hb as (s & -> & ->). unfold strdup, strdup_mem. rewrite cbind_assoc.
    eapply simulates_run; [unfold bytes_at; cbn; rewrite Hl; done|]. destruct (cstring s) as [c|]; [|done].
    rewrite alloc_bind.
    eapply (fill_then h1 _ loose w p1 (set_f HSecctx None m1) _ Hi (lookup_insert_eq _ _ _) _ HSecctx (BBytes c));
      [done|done|intros; apply put_member_end|].
    intros ok q h2 w2 [_ Hq]. apply now_at in Hq. rewrite set_val_twice in Hq.
    destruct ok; cbn; split; (done || by destruct ct1).
  - pose proof (field_none _ _ _ _ _ _ Hi E2' HSecctx El) as Hv. apply fmap_None in Hv as ->. apply simulates_ret. by eexists.
Qed.

(** The member of [dest] becomes a copy of the bitmask of [orig]. *)
Lemma copy_mask_run f :
  f = HConnlabels \/ f = HConnlabelsMask ->
  simulates (fun ct _ h' => now G loose p1 ct h')
    ((let! l := do_copy_attr_connlabels (mask_of (val_f f ct1)) (mask_of (val_f f ct2)) in ret (set_val f (BMask <$> l) ct1)) w)
    ((let& q := do_copy_attr_connlabels_mem (get_f f m1) (get_f f m2) in put_member p1 f q) h w).
Proof.
  intros Hf. unfold do_copy_attr_connlabels_mem. destruct (get_f f m2) as [l|] eqn:El.
  - destruct (field_some _ _ _ _ _ _ Hinv E2 f l El) as (b & Hb & Hfit & Hl). rewrite Hb.
    destruct b as [|?|b]; [by destruct f|by destruct Hf; subst|]. cbn [mask_of do_copy_attr_connlabels].
    rewrite cbind_assoc. eapply simulates_run; [by apply (free_field_run h G loose w p1 m1 ct1)|].
    unfold nfct_bitmask_clone_mem. rewrite cbind_assoc. eapply simulates_run.
    { unfold mask_at. cbn. replace (drop_block (get_f f m1) (ch_blocks h) !! l) with (Some (BMask b)); [done|].
      destruct (get_f f m1) as [l'|] eqn:El'; cbn; [|done]. rewrite lookup_delete_ne; [done|].
      apply (inv_sep _ _ _ Hinv (OField p1 f) (OField p2 f)); [by apply (place_field _ _ _ _ _ _ E1)|by apply (place_field _ _ _ _ _ _ E2)|congruence]. }
    unfold nfct_bitmask_clone. rewrite alloc_bind.
    eapply (replace_then h _ loose w p1 m1 ct1 Hinv E1 _ f (BMask b)); [done|intros; apply put_member_end|].
    intros ok q h2 w2 [_ Hq]. apply simulates_ret. eexists. by destruct ok.
  - rewrite (field_none _ _ _ _ _ _ Hinv E2 f El). cbn [mask_of do_copy_attr_connlabels].
    eapply (simulates_run _ _ (cret _)); [done|]. rewrite (put_member_same h G loose w p1 m1 ct1 Hinv E1 f). cbn.
    split; [done|]. replace (set_val f (BMask <$> mask_of (val_f f ct1)) ct1) with ct1 by (rewrite <- (set_val_same f ct1) at 1; destruct Hf; subst f; cbn; by destruct (_ ct1)).
    by eapply now_same.
Qed.

Lemma copy_info_run :
  simulates (fun ct _ h' => now G loose p1 ct h') (copy_attr_help_info ct1 ct2 w) (copy_attr_help_info_mem p1 p2 h w).
Proof.
  eapply simulates_run; [by eapply (ct_at_run h G loose w p2)|]. unfold copy_attr_help_info.
  destruct (mc_helper_info m2) as [l|] eqn:El.
  - destruct (field_some _ _ _ _ _ _ Hinv E2 HHelperInfo l El) as (b & Hb & _ & Hl).
    apply fmap_Some in Hb as (s & Hs & ->). rewrite Hs. eapply simulates_run; [by eapply (ct_at_run h G loose w p1)|].
    eapply simulates_run; [by apply (free_field_run h G loose w p1 m1 ct1 Hinv E1 HHelperInfo)|].
    destruct (inv_obj _ _ _ Hinv _ _ _ E2) as (_ & Hv & _).
    replace (ct_helper_info_len (mc_val m2)) with (ct_helper_info_len ct2) by (by rewrite Hv; destruct ct2).
    apply (info_run h G loose w p1 m1 ct1); [done|done|intros *; apply val_bytes_len|].
    intros h1 m' ct' w1 Hi. unfold block_bytes. cbn [cbind]. unfold cbind, bind at 1, bytes_at. cbn.
    rewrite <- (lookup_insert_ne G p1 p2 (m', ct') Hne) in E2.
    destruct (field_some _ _ _ _ _ _ Hi E2 HHelperInfo l El) as (b & Hb & _ & ->).
    cbn in Hb. rewrite Hs in Hb. by injection Hb as <-.
  - pose proof (field_none _ _ _ _ _ _ Hinv E2 HHelperInfo El) as Hv. apply fmap_None in Hv as ->. apply simulates_ret. by eapply now_same.
Qed.
End Copy.

(** * Whole copies *)

Definition stays (G : objects) (loose : gmap Z block) (p : Z) (ct : nf_conntrack) (_ : unit) (h : cheap) : Prop := now G loose p ct h.

Lemma stays_insert G loose p x r r' : simulates (stays (<[p := x]> G) loose p) r r' -> simulates (stays G loose p) r r'.
Proof.
  destruct r as [[ct w]| | |], r' as [[[[] h] w']| | |]; cbn; try done. intros [-> [m Hm]]. split; [done|]. by eapply now_at.
Qed.

Lemma scalar_run h G loose w p m ct c c' :
  mem_inv h G loose -> G !! p = Some (m, ct) -> same_scalars ct (c w) (c' w) ->
  simulates (stays G loose p) (c w) ((let& v := lift c' in put_ct p (with_val v m)) h w).
Proof.
  intros Hinv E Hs. unfold cbind, lift, bind. destruct (c w) as [[x w1]| | |], (c' w) as [[x' w2]| | |]; cbn in Hs; try done.
  destruct Hs as (<- & -> & Hf). cbn [ret]. rewrite (put_ct_run h G loose w1 p m ct Hinv E). split; [done|].
  eexists. by apply (inv_scalar _ _ _ Hinv _ _ ct).
Qed.

Lemma mark_run h G loose w p ct a :
  now G loose p ct h -> simulates (stays G loose p) (ret (attr_set a ct) w) (mark_set a p h w).
Proof.
  intros [m Hi]. eapply stays_insert, simulates_run; [by eapply (ct_at_run h), lookup_insert_eq|].
  destruct (inv_obj _ _ _ Hi _ _ _ (lookup_insert_eq _ _ _)) as (_ & -> & _).
  apply (scalar_run h _ loose w p m ct (ret (attr_set a ct)) (ret (attr_set a (strip ct))) Hi (lookup_insert_eq _ _ _)), mark_scalars.
Qed.

Section CopyAll.
Context (G : objects) (loose : gmap Z block) (p1 p2 : Z) (m2 : mct) (ct2 : nf_conntrack).
Hypothesis (E2 : G !! p2 = Some (m2, ct2)) (Hne : p1 <> p2).

Lemma copy_array_run h w ct1 a :
  now G loose p1 ct1 h ->
  simulates (stays G loose p1) (copy_attr_array a ct1 ct2 w) (copy_attr_array_mem a p1 p2 h w).
Proof.
  intros [m1 Hi]. assert (E1 := lookup_insert_eq G p1 (m1, ct1)).
  assert (E2' := E2). rewrite <- (lookup_insert_ne G p1 p2 (m1, ct1) Hne) in E2'. apply (stays_insert _ _ _ (m1, ct1)).
  assert (Hmask : forall x, mask_of (BMask <$> x) = x) by (by intros []).
  destruct (owns_block a) eqn:Ha.
  - destruct a; try discriminate Ha.
    + by eapply copy_secctx_mem_run.
    + by eapply copy_info_run.
    + eapply simulates_run; [by eapply ct_at_run|]. eapply simulates_run; [by eapply ct_at_run|].
      pose proof (copy_mask_run h _ loose w p1 p2 m1 m2 ct1 ct2 Hi E1 E2' Hne HConnlabels) as H. specialize (H ltac:(auto)). revert H.
      cbn [val_f set_val copy_attr_array]. rewrite !Hmask. unfold copy_attr_connlabels. unfold bind.
      destruct (do_copy_attr_connlabels _ _ w) as [[x w1]| | |]; rewrite ?Hmask; exact id.
    + eapply simulates_run; [by eapply ct_at_run|]. eapply simulates_run; [by eapply ct_at_run|].
      pose proof (copy_mask_run h _ loose w p1 p2 m1 m2 ct1 ct2 Hi E1 E2' Hne HConnlabelsMask) as H. specialize (H ltac:(auto)). revert H.
      cbn [val_f set_val copy_attr_array]. rewrite !Hmask. unfold copy_attr_connlabels_mask. unfold bind.
      destruct (do_copy_attr_connlabels _ _ w) as [[x w1]| | |]; rewrite ?Hmask; exact id.
  - assert (Hscal : copy_attr_array_mem a = copy_scalar_mem a) by (by destruct a). rewrite Hscal.
    eapply simulates_run; [by eapply ct_at_run|]. eapply simulates_run; [by eapply ct_at_run|].
    destruct (inv_obj _ _ _ Hi _ _ _ E1) as (_ & -> & _), (inv_obj _ _ _ Hi _ _ _ E2') as (_ & -> & _).
    apply scalar_run with ct1; [done..|]. by apply copy_scalars.
Qed.

Lemma copy_one_mem_run h w ct1 a :
  now G loose p1 ct1 h -> simulates (stays G loose p1) (copy_one ct1 ct2 a w) (copy_one_mem p1 p2 a h w).
Proof.
  intros Hn. destruct Hn as [m1 Hi] eqn:Hn'. clear Hn'.
  assert (E2' := E2). rewrite <- (lookup_insert_ne G p1 p2 (m1, ct1) Hne) in E2'.
  eapply simulates_run; [by eapply ct_at_run|]. destruct (inv_obj _ _ _ Hi _ _ _ E2') as (_ & -> & _).
  unfold copy_one. replace (attr_is_set a (strip ct2)) with (attr_is_set a ct2) by (by destruct ct2).
  destruct (attr_is_set a ct2); [|by apply simulates_ret].
  eapply simulates_bind; [by apply copy_array_run|]. intros ct [] h1 w1 H1. by apply mark_run.
Qed.

Lemma copy_loop_mem_run l h w ct1 :
  now G loose p1 ct1 h -> simulates (stays G loose p1) (copy_loop ct1 ct2 l w) (copy_loop_mem p1 p2 l h w).
Proof.
  revert h w ct1. induction l as [|a l IH]; intros h w ct1 Hn; [by apply simulates_ret|].
  eapply simulates_bind; [by apply copy_one_mem_run|]. intros ct [] h1 w1 H1. by apply IH.
Qed.
End CopyAll.

(** The fast copy releases nothing: the blocks of the destination are lost. *)
Definition no_blocks (ct : nf_conntrack) : Prop := forall f, val_f f ct = None.

Definition hfields : list hfield := [HSecctx; HHelperInfo; HConnlabels; HConnlabelsMask].

(** How many blocks the object owns. *)
Definition block_count (ct : nf_conntrack) : nat := length (omap (fun f => val_f f ct) hfields).

Lemma no_blocks_count ct : no_blocks ct -> block_count ct = 0%nat.
Proof. intros H. unfold block_count, hfields. cbn [omap list_omap]. by rewrite !H. Qed.

(** One member is overwritten, whether it had a block or not. *)
Lemma leak_field h G loose p m ct f :
  mem_inv h G loose -> G !! p = Some (m, ct) ->
  exists L, loose ##ₘ L /\ size L = length (option_list (val_f f ct)) /\
    mem_inv (mk_cheap (<[p := BCt (set_f f None m)]> (ch_blocks h)) (ch_fresh h))
      (<[p := (set_f f None m, set_val f None ct)]> G) (loose ∪ L).
Proof.
  intros Hi E. destruct (get_f f m) as [l|] eqn:El.
  - destruct (field_some _ _ _ _ _ _ Hi E f l El) as (b & Hv & _ & _). rewrite Hv.
    destruct (inv_leak _ _ _ Hi p m ct f l b E El Hv) as [HL Hx]. exists {[ l := b ]}.
    split; [by apply map_disjoint_singleton_r|]. split; [by rewrite map_size_singleton|].
    by rewrite map_union_comm, <- insert_union_singleton_l by (by apply map_disjoint_singleton_r).
  - rewrite (field_none _ _ _ _ _ _ Hi E f El). exists ∅. rewrite map_union_empty.
    split; [apply map_disjoint_empty_r|]. split; [apply map_size_empty|].
    replace (set_f f None m) with m by (rewrite <- El; by destruct f, m).
    replace (set_val f None ct) with ct by (rewrite <- (field_none _ _ _ _ _ _ Hi E f El); by rewrite set_val_same).
    rewrite (insert_id G) by done. destruct (inv_obj _ _ _ Hi _ _ _ E) as (Hb & _ & _).
    rewrite insert_id by done. by destruct h.
Qed.

Lemma leak_all h G loose p m ct :
  mem_inv h G loose -> G !! p = Some (m, ct) ->
  exists L, loose ##ₘ L /\ size L = block_count ct /\
    mem_inv (mk_cheap (<[p := BCt (mk_mct (mc_val m) None None None None)]> (ch_blocks h)) (ch_fresh h))
      (<[p := (mk_mct (mc_val m) None None None None, strip ct)]> G) (loose ∪ L).
Proof.
  intros Hi E.
  destruct (leak_field _ _ _ _ _ _ HSecctx Hi E) as (L1 & D1 & S1 & I1).
  destruct (leak_field _ _ _ _ _ _ HHelperInfo I1 (lookup_insert_eq _ _ _)) as (L2 & D2 & S2 & I2).
  destruct (leak_field _ _ _ _ _ _ HConnlabels I2 (lookup_insert_eq _ _ _)) as (L3 & D3 & S3 & I3).
  destruct (leak_field _ _ _ _ _ _ HConnlabelsMask I3 (lookup_insert_eq _ _ _)) as (L4 & D4 & S4 & I4).
  exists (L1 ∪ L2 ∪ L3 ∪ L4).
  rewrite !map_disjoint_union_l in *. destruct_and?. rewrite !map_disjoint_union_r.
  split; [done|]. split.
  - rewrite !map_size_disj_union by (rewrite ?map_disjoint_union_l; done). rewrite S1, S2, S3, S4. unfold block_count, hfields.
    destruct ct; cbn. by repeat case_match.
  - cbn in I4. rewrite !insert_insert_eq in I4. rewrite !map_union_assoc.
    replace (strip ct) with (set_val HConnlabelsMask None (set_val HConnlabels None (set_val HHelperInfo None (set_val HSecctx None ct))))
      by (by destruct ct). exact I4.
Qed.

Section CopyObject.
Context (G : objects) (loose : gmap Z block) (p1 p2 : Z) (m2 : mct) (ct2 : nf_conntrack).
Hypothesis (E2 : G !! p2 = Some (m2, ct2)) (Hne : p1 <> p2).

Lemma copy_fast_mem_run h w ct1 :
  now G loose p1 ct1 h -> exists L, loose ##ₘ L /\ size L = block_count ct1 /\
    simulates (stays G (loose ∪ L) p1) (__copy_fast ct1 ct2 w) (__copy_fast_mem p1 p2 h w).
Proof.
  intros [m1 Hi]. assert (E1 := lookup_insert_eq G p1 (m1, ct1)).
  assert (E2' := E2). rewrite <- (lookup_insert_ne G p1 p2 (m1, ct1) Hne) in E2'.
  destruct (inv_obj _ _ _ Hi _ _ _ E1) as (Hb1 & _ & _), (inv_obj _ _ _ Hi _ _ _ E2') as (_ & Hv2 & _).
  destruct (leak_all _ _ _ _ _ _ Hi E1) as (L & HL & HS & Hleak). exists L. split; [done|]. split; [done|].
  rewrite insert_insert_eq in Hleak.
  assert (Hs : forall f, val_f f (strip ct2) = val_f f (strip ct1)) by (intros []; by destruct ct1, ct2).
  pose proof (inv_scalar _ _ _ Hleak p1 _ _ (strip ct2) (lookup_insert_eq _ _ _) Hs) as Hi'. cbn in Hi'.
  replace (with_val (strip (strip ct2)) (mk_mct (mc_val m1) None None None None)) with (mk_mct (mc_val m2) None None None None) in Hi'
    by (rewrite Hv2; by destruct ct2).
  rewrite !insert_insert_eq in Hi'.
  eapply simulates_run; [by eapply ct_at_run|]. eapply simulates_run; [by eapply put_ct_run|].
  do 4 (eapply simulates_run; [unfold put_member, cbind, bind, ct_at, put_ct, ret; cbn; rewrite lookup_insert_eq; cbn;
    rewrite lookup_insert_eq; cbn; rewrite insert_insert_eq; done|]).
  assert (Hn : now G (loose ∪ L) p1 (strip ct2) (mk_cheap (<[p1 := BCt (mk_mct (mc_val m2) None None None None)]> (ch_blocks h)) (ch_fresh h))) by by eexists.
  pose proof (copy_array_run G (loose ∪ L) p1 p2 m2 ct2 E2 Hne) as Hcopy.
  eapply simulates_bind; [by apply (Hcopy _ _ _ ATTR_SECCTX)|]. intros ct [] h1 w1 H1. cbv beta.
  eapply simulates_bind; [by apply (Hcopy _ _ _ ATTR_HELPER_INFO)|]. intros ct' [] h2 w2 H2. cbv beta.
  eapply simulates_bind; [by apply (Hcopy _ _ _ ATTR_CONNLABELS)|]. intros ct3 [] h3 w3 H3. cbv beta.
  by apply (Hcopy _ _ _ ATTR_CONNLABELS_MASK).
Qed.

(** How many blocks a copy onto [ct1] loses. *)
Definition copy_leaks (ct1 : nf_conntrack) (flags : Z) : nat :=
  if Z.testbit flags 3 then block_count ct1 else 0.

Lemma copy_run h w ct1 flags :
  now G loose p1 ct1 h -> exists L, loose ##ₘ L /\ size L = copy_leaks ct1 flags /\
    simulates (stays G (loose ∪ L) p1) (nfct_copy ct1 ct2 flags w) (nfct_copy_mem p1 p2 flags h w).
Proof.
  intros Hn. unfold nfct_copy, nfct_copy_mem, copy_leaks. pose proof (copy_loop_mem_run G loose p1 p2 m2 ct2 E2 Hne) as Hl.
  assert (Hopt : forall (b : bool) l ct h w, now G loose p1 ct h ->
    simulates (stays G loose p1) ((if b then copy_loop ct ct2 l else ret ct) w) ((if b then copy_loop_mem p1 p2 l else cret tt) h w))
    by (intros [] l ct h' w' H; [by apply Hl|by apply simulates_ret]).
  assert (negb (Z.land flags NFCT_CP_OVERRIDE =? 0) = Z.testbit flags 3) as ->
    by (rewrite Z.land_comm; by apply (land_mask_testbit 3)).
  destruct (Z.testbit flags 3); [by apply copy_fast_mem_run|].
  exists ∅. rewrite map_union_empty. split; [apply map_disjoint_empty_r|]. split; [apply map_size_empty|].
  destruct (flags =? NFCT_CP_ALL); [by apply Hl|].
  eapply simulates_bind; [by apply Hopt|]. intros ct [] h1 w1 H1. eapply simulates_bind; [by apply Hopt|]. intros ct' [] h2 w2 H2. by apply Hopt.
Qed.
End CopyObject.

(** * Creation *)

Lemma adopted h G loose w b :
  mem_inv h G loose ->
  simulates (fun ok q h' => if (ok : bool) then q = Some (ch_fresh h) /\ mem_inv h' G (<[ch_fresh h := b]> loose)
    else q = None /\ h' = h) (malloc_ok w) (malloc_block b h w).
Proof.
  intros Hi. unfold malloc_block, malloc_ok, bind, ret. pose proof (inv_alloc _ _ _ Hi b).
  destruct (w_alloc w) as [|[] al]; done.
Qed.

(** A new object or NULL. *)
Definition created (G : objects) (loose : gmap Z block) (o : option nf_conntrack) (q : option Z) (h : cheap) : Prop :=
  match o, q with
  | Some ct, Some p => G !! p = None /\ loose !! p = None /\ now G loose p ct h
  | None, None => mem_inv h G loose
  | _, _ => False
  end.

Lemma new_run h G loose w : mem_inv h G loose ->
  simulates (fun o q h' => created G loose o q h' /\ forall ct, o = Some ct -> no_blocks ct) (nfct_new w) (nfct_new_mem h w).
Proof.
  intros Hi. pose proof (adopted h G loose w (BCt (mk_mct zero_ct None None None None)) Hi) as Ha.
  unfold nfct_new, nfct_new_mem, bind. destruct (malloc_ok w) as [[[] w1]| | |], (malloc_block _ h w) as [[[q h1] w2]| | |];
    cbn in Ha; try done; destruct Ha as (<- & -> & Ha); cbn; [|by subst].
  assert (HL : loose !! ch_fresh h = None) by (destruct (loose !! ch_fresh h) eqn:El; [|done];
    by edestruct (place_fresh _ _ _ Hi); [by apply (place_loose _ _ _ _ El)|]).
  assert (HG : G !! ch_fresh h = None) by (destruct (G !! ch_fresh h) eqn:El; [|done];
    by edestruct (place_fresh _ _ _ Hi); [by apply (place_obj _ _ _ _ El)|]).
  split; [done|]. split; [|by intros ct [= <-] []]. split_and!; [done|done|].
  exists (mk_mct zero_ct None None None None). pose proof (inv_adopt _ _ _ Ha (ch_fresh h) (mk_mct zero_ct None None None None) zero_ct) as H.
  rewrite lookup_insert_eq, delete_insert_id in H by done. apply H; [done|]. split; [done|]. by intros [].
Qed.

Lemma clone_run h G loose w p m ct :
  mem_inv h G loose -> G !! p = Some (m, ct) ->
  simulates (created G loose) (nfct_clone ct w) (nfct_clone_mem p h w).
Proof.
  intros Hi E. eapply simulates_bind; [by apply new_run|]. intros o q h1 w1 [Hc Hnb].
  destruct o as [ct0|], q as [p0|]; try done. destruct Hc as (HG & HL & Hn).
  destruct (copy_run G loose p0 p m ct E) with (h := h1) (w := w1) (ct1 := ct0) (flags := NFCT_CP_OVERRIDE)
    as (L & _ & HS & Hsim); [congruence|done|].
  assert (L = ∅) as -> by (apply map_size_empty_inv; rewrite HS; unfold copy_leaks; cbn; by apply no_blocks_count, Hnb).
  rewrite map_union_empty in Hsim.
  eapply simulates_bind; [exact Hsim|]. intros ct' [] h2 w2 H2. by apply simulates_ret.
Qed.

(** * Release *)

(** Two heaps that differ only in the object [p]. *)
Definition upto (p : Z) (h h' : cheap) : Prop :=
  delete p (ch_blocks h) = delete p (ch_blocks h') /\ ch_fresh h = ch_fresh h' /\ is_Some (ch_blocks h !! p).

Lemma destroy_step h h' G loose w p m0 m ct f :
  mem_inv h' (<[p := (m, ct)]> G) loose -> get_f f m = get_f f m0 -> upto p h h' ->
  exists h1 h1' ct', (if get_f f m0 is Some _ then free (get_f f m0) else cret tt) h w = Ok (tt, h1, w) /\ upto p h1 h1' /\
    mem_inv h1' (<[p := (set_f f None m, ct')]> G) loose.
Proof.
  intros Hi <- (Hd & Hf & Hp). assert (E := lookup_insert_eq G p (m, ct)).
  pose proof (inv_clear _ _ _ Hi p m ct f E) as Hc. rewrite insert_insert_eq in Hc.
  destruct (get_f f m) as [l|] eqn:El; [|exists h; do 2 eexists; split_and!; [done| |exact Hc]; split_and!; [|done|done]; cbn; by rewrite delete_insert_eq].
  destruct (field_some _ _ _ _ _ _ Hi E f l El) as (b & _ & _ & Hl).
  assert (Hlp : l <> p) by by apply (inv_sep _ _ _ Hi _ _ _ _ (place_field _ _ _ _ f l E El) (place_obj _ _ _ _ E)).
  assert (Hl' : ch_blocks h !! l = Some b).
  { rewrite <- (lookup_delete_ne (ch_blocks h) p l), Hd, lookup_delete_ne by congruence. done. }
  exists (mk_cheap (delete l (ch_blocks h)) (ch_fresh h)). do 2 eexists. split_and!; [cbn; by rewrite Hl'| |exact Hc].
  split_and!; cbn; [|done|by rewrite lookup_delete_ne].
  by rewrite delete_insert_eq, (delete_delete _ p l), Hd, (delete_delete _ l p).
Qed.

Lemma destroy_run h G loose w p m ct :
  mem_inv h G loose -> G !! p = Some (m, ct) ->
  exists h', nfct_destroy p h w = Ok (tt, h', w) /\ mem_inv h' (delete p G) loose.
Proof.
  intros Hi E. assert (Hu : upto p h h) by (split_and!; [done|done|]; destruct (inv_obj _ _ _ Hi _ _ _ E) as [-> _]; by eexists).
  unfold nfct_destroy, cbind at 1, bind at 1. rewrite (ct_at_run h G loose w p m ct Hi E).
  assert (Hi0 := Hi). rewrite <- (insert_id G p _ E) in Hi0.
  destruct (destroy_step _ _ _ _ w _ m _ _ HSecctx Hi0 eq_refl Hu) as (h1 & h1' & ct1 & R1 & U1 & I1).
  destruct (destroy_step _ _ _ _ w _ m _ _ HHelperInfo I1 eq_refl U1) as (h2 & h2' & ct2 & R2 & U2 & I2).
  destruct (destroy_step _ _ _ _ w _ m _ _ HConnlabels I2 eq_refl U2) as (h3 & h3' & ct3 & R3 & U3 & I3).
  destruct (destroy_step _ _ _ _ w _ m _ _ HConnlabelsMask I3 eq_refl U3) as (h4 & h4' & ct4 & R4 & (Hd & Hf & [b Hb]) & I4).
  cbn [get_f] in R1, R2, R3, R4. unfold nfct_bitmask_destroy.
  do 4 (unfold cbind at 1, bind at 1; rewrite ?R1, ?R2, ?R3, ?R4; clear R1 || clear R2 || clear R3 || clear R4).
  cbn [free]. rewrite Hb. eexists. split; [done|].
  pose proof (inv_disown _ _ _ I4 p _ _ (lookup_insert_eq _ _ _)) as H. rewrite delete_insert_eq in H.
  assert (HL : loose !! p = None) by (destruct (loose !! p) eqn:El; [|done]; exfalso;
    by apply (inv_sep _ _ _ Hi _ _ _ _ (place_obj _ _ _ _ E) (place_loose _ _ _ _ El))).
  pose proof (inv_free _ _ _ (H ltac:(by intros [])) p _ (lookup_insert_eq _ _ _)) as Hx.
  by rewrite delete_insert_id, <- Hd, <- Hf in Hx.
Qed.

(** * Setters *)

Lemma set_info_run h G loose w p m ct bs len :
  mem_inv h G loose -> G !! p = Some (m, ct) ->
  simulates (stays G loose p) (set_attr_helper_info ct (VBytes bs) len w) (set_attr_helper_info_mem p (VBytes bs) len h w).
Proof.
  intros Hi E. eapply simulates_run; [by eapply ct_at_run|].
  eapply simulates_run; [by apply (free_field_run h G loose w p m ct Hi E HHelperInfo)|].
  apply (info_run h G loose w p m ct len (val_bytes len (VBytes bs)) (lift (val_bytes len (VBytes bs)))); [done|done|intros *; apply val_bytes_len|done].
Qed.

(** The object takes a bitmask of the client. *)
Lemma take_mask_run h G loose w p m ct f l b :
  mem_inv h G loose -> G !! p = Some (m, ct) -> loose !! l = Some b -> fits f b ->
  exists h', (do_set_attr_connlabels (get_f f m) l ;;& put_member p f (Some l)) h w = Ok (tt, h', w) /\
    now G (delete l loose) p (set_val f (Some b) ct) h'.
Proof.
  intros Hi E El Hfit. pose proof (inv_clear _ _ _ Hi p m ct f E) as Hc.
  pose proof (inv_put _ _ _ Hc p _ _ f l b (lookup_insert_eq _ _ _)) as Hx.
  rewrite get_set_f, decide_True in Hx by done. specialize (Hx eq_refl El Hfit). cbn in Hx.
  rewrite !insert_insert_eq, set_f_twice, set_val_twice in Hx.
  eexists. split; [|by eexists]. unfold cbind at 1, bind at 1.
  replace (do_set_attr_connlabels (get_f f m) l h w) with (Ok (tt, mk_cheap (drop_block (get_f f m) (ch_blocks h)) (ch_fresh h), w)).
  - unfold put_member, cbind, bind, ct_at, put_ct, ret. cbn.
    do 2 (rewrite (drop_obj h G loose p m ct Hi E f); cbn). done.
  - rewrite <- (free_field_run h G loose w p m ct Hi E f). unfold do_set_attr_connlabels, nfct_bitmask_destroy.
    destruct (get_f f m) as [c|] eqn:Ec; [|done]. destruct (Z.eqb_spec c l) as [->|]; [|done].
    exfalso. by apply (inv_sep _ _ _ Hi _ _ _ _ (place_field _ _ _ _ f l E Ec) (place_loose _ _ _ _ El)).
Qed.

(** The object is given the bitmask that it has. *)
Lemma own_mask_run h G loose w p m ct f l :
  mem_inv h G loose -> G !! p = Some (m, ct) -> get_f f m = Some l ->
  (do_set_attr_connlabels (get_f f m) l ;;& put_member p f (Some l)) h w = Ok (tt, h, w).
Proof.
  intros Hi E El. unfold cbind, bind, do_set_attr_connlabels. rewrite El, Z.eqb_refl. cbn [cret ret]. rewrite <- El.
  by apply (put_member_same h G loose w p m ct).
Qed.

(** * Sessions of a client *)

Inductive mem_op :=
| OpNew
| OpClone (p : Z)
| OpCopy (p1 p2 flags : Z)
| OpSet (p type : Z) (value : mvalue) (len : Z)
| OpSetOwn (p type : Z)
| OpDestroy (p : Z)
| OpMaskNew (max : Z)
| OpMaskDestroy (l : Z).

Definition mask_attr (type : Z) : option hfield :=
  match attr_of_idx type with
  | Some ATTR_CONNLABELS => Some HConnlabels
  | Some ATTR_CONNLABELS_MASK => Some HConnlabelsMask
  | _ => None
  end.

Definition exec (op : mem_op) : C (option Z) :=
  match op with
  | OpNew => nfct_new_mem
  | OpClone p => nfct_clone_mem p
  | OpCopy p1 p2 flags => nfct_copy_mem p1 p2 flags ;;& cret None
  | OpSet p type value len => nfct_set_attr_l_mem p type value len ;;& cret None
  | OpSetOwn p type =>
      let& m := ct_at p in
      match mask_attr type ≫= fun f => get_f f m with
      | Some l => nfct_set_attr_l_mem p type (MMask l) 0 ;;& cret None
      | None => cub
      end
  | OpDestroy p => nfct_destroy p ;;& cret None
  | OpMaskNew max => nfct_bitmask_new_mem max
  | OpMaskDestroy l => nfct_bitmask_destroy (Some l) ;;& cret None
  end.

(** What the client holds: values under the addresses he was given. *)
Definition held : Type := gmap Z nf_conntrack * gmap Z nfct_bitmask.

(** [OpSetOwn]: the bitmask that [nfct_get_attr] returned is set again.

    The client uses what he holds; he copies between two different objects, and gives away
    bitmasks of his own. *)
Definition allowed (op : mem_op) (K : held) : Prop :=
  match op with
  | OpNew | OpMaskNew _ => True
  | OpClone p | OpDestroy p => is_Some (K.1 !! p)
  | OpCopy p1 p2 flags => p1 <> p2 /\ is_Some (K.1 !! p2) /\ is_Some (K.1 !! p1)
  | OpSet p type (MBytes _) _ => is_Some (K.1 !! p) /\ mask_attr type = None
  | OpSet p type (MMask l) _ => is_Some (K.1 !! p) /\ is_Some (mask_attr type) /\ is_Some (K.2 !! l)
  | OpSetOwn p type => exists ct f b, K.1 !! p = Some ct /\ mask_attr type = Some f /\ val_f f ct = Some (BMask b)
  | OpMaskDestroy l => is_Some (K.2 !! l)
  end.

(** What the client holds afterwards, by the functions on values; an object or a bitmask that
    is created is held under the address that is returned, which must be a new one. *)
Definition keep_new {A} (o : option A) (add : Z -> A -> held) (new : Z -> Prop) `{forall p, Decision (new p)} (K : held) (q : option Z) : option held :=
  match o, q with
  | Some x, Some p => if decide (new p) then Some (add p x) else None
  | None, None => Some K
  | _, _ => None
  end.
Definition unused (K : held) (p : Z) : Prop := K.1 !! p = None /\ K.2 !! p = None.
#[export] Instance unused_dec K p : Decision (unused K p).
Proof. apply _. Defined.

Definition lookup_or_ub {A} (o : option A) : M A := match o with Some x => ret x | None => ub end.

Definition expected (op : mem_op) (K : held) : M (option Z -> option held) :=
  match op with
  | OpNew => let! o := nfct_new in ret (keep_new o (fun p ct => (<[p := ct]> K.1, K.2)) (unused K) K)
  | OpClone p =>
      let! ct := lookup_or_ub (K.1 !! p) in
      let! o := nfct_clone ct in ret (keep_new o (fun p ct => (<[p := ct]> K.1, K.2)) (unused K) K)
  | OpCopy p1 p2 flags =>
      let! ct1 := lookup_or_ub (K.1 !! p1) in
      let! ct2 := lookup_or_ub (K.1 !! p2) in
      let! ct := nfct_copy ct1 ct2 flags in ret (fun _ => Some (<[p1 := ct]> K.1, K.2))
  | OpSet p type (MBytes bs) len =>
      let! ct := lookup_or_ub (K.1 !! p) in
      let! ct := nfct_set_attr_l ct type (Some (VBytes bs)) len in ret (fun _ => Some (<[p := ct]> K.1, K.2))
  | OpSet p type (MMask l) len =>
      let! ct := lookup_or_ub (K.1 !! p) in
      let! b := lookup_or_ub (K.2 !! l) in
      let! ct := nfct_set_attr_l ct type (Some (VMask b)) len in ret (fun _ => Some (<[p := ct]> K.1, delete l K.2))
  | OpSetOwn p type =>
      let! ct := lookup_or_ub (K.1 !! p) in
      let! b := lookup_or_ub (mask_attr type ≫= fun f => mask_of (val_f f ct)) in
      let! ct := nfct_set_attr_l ct type (Some (VMask b)) 0 in ret (fun _ => Some (<[p := ct]> K.1, K.2))
  | OpDestroy p => ret (fun _ => Some (delete p K.1, K.2))
  | OpMaskNew max => let! o := nfct_bitmask_new max in ret (keep_new o (fun p b => (K.1, <[p := b]> K.2)) (unused K) K)
  | OpMaskDestroy l => ret (fun _ => Some (K.1, delete l K.2))
  end.

(** How many blocks an operation leaves without an owner. *)
Definition leaks (op : mem_op) (K : held) : nat :=
  match op with
  | OpCopy p1 _ flags => from_option (fun ct => copy_leaks ct flags) 0%nat (K.1 !! p1)
  | _ => 0%nat
  end.

(** Every block has one owner, the objects and bitmasks of the client are what [K] says, and
    [n] blocks are lost. *)
Definition mem_held (h : cheap) (K : held) (n : nat) : Prop :=
  exists G L, mem_inv h G ((BMask <$> K.2) ∪ L) /\ (BMask <$> K.2 : gmap Z block) ##ₘ L /\ size L = n /\ K.1 = snd <$> G.

(** The next state of the client and of memory. *)
Definition next_ok (n : nat) (next : option Z -> option held) (q : option Z) (h : cheap) : Prop :=
  exists K, next q = Some K /\ mem_held h K n.

Lemma held_obj (G : objects) p ct : (snd <$> G : gmap Z nf_conntrack) !! p = Some ct -> exists m, G !! p = Some (m, ct).
Proof. rewrite lookup_fmap. intros ([m ct'] & E & ->)%fmap_Some. by exists m. Qed.

Lemma now_ok (G : objects) K2 L p ct h : now G ((BMask <$> K2) ∪ L) p ct h -> (BMask <$> K2 : gmap Z block) ##ₘ L ->
  mem_held h (<[p := ct]> (snd <$> G), K2) (size L).
Proof. intros [m Hm] Hd. exists (<[p := (m, ct)]> G), L. split; [done|]. split; [done|]. split; [done|]. cbn. by rewrite fmap_insert. Qed.

Lemma held_mask (K2 : gmap Z nfct_bitmask) (L : gmap Z block) l b : K2 !! l = Some b -> ((BMask <$> K2) ∪ L) !! l = Some (BMask b).
Proof. intros E. apply lookup_union_Some_l. by rewrite lookup_fmap, E. Qed.

Lemma held_unused (K2 : gmap Z nfct_bitmask) (L : gmap Z block) l : ((BMask <$> K2) ∪ L) !! l = None -> K2 !! l = None /\ L !! l = None.
Proof. intros [H1 H2]%lookup_union_None. rewrite lookup_fmap in H1. by apply fmap_None in H1. Qed.

(** A bitmask is given away. *)
Lemma held_delete (K2 : gmap Z nfct_bitmask) (L : gmap Z block) l b : K2 !! l = Some b -> (BMask <$> K2 : gmap Z block) ##ₘ L ->
  delete l ((BMask <$> K2) ∪ L) = (BMask <$> delete l K2) ∪ L /\ (BMask <$> delete l K2 : gmap Z block) ##ₘ L.
Proof.
  intros E Hd. assert (L !! l = None) as HL.
  { apply (map_disjoint_Some_l (BMask <$> K2) L l (BMask b)); [done|]. by rewrite lookup_fmap, E. }
  rewrite delete_union, (delete_id L) by done. rewrite fmap_delete. split; [done|]. by apply map_disjoint_delete_l.
Qed.

Lemma created_ok G K2 L o q h :
  created G ((BMask <$> K2) ∪ L) o q h -> (BMask <$> K2 : gmap Z block) ##ₘ L ->
  let K : held := (snd <$> G, K2) in next_ok (size L) (keep_new o (fun p ct => (<[p := ct]> K.1, K.2)) (unused K) K) q h.
Proof.
  intros Hc Hd K. revert Hc. unfold created, next_ok, keep_new.
  destruct o as [ct|], q as [p|]; try done; [|intros Hi; eexists; split; [done|by exists G, L]].
  intros (HG & HL & Hn). eexists. split; [rewrite decide_True; [done|]|by apply now_ok].
  apply held_unused in HL as [HL _]. split; cbn; [by rewrite lookup_fmap, HG|done].
Qed.

Lemma set_bytes_run h G loose w p m ct type bs len :
  mem_inv h G loose -> G !! p = Some (m, ct) -> mask_attr type = None ->
  simulates (stays G loose p) (nfct_set_attr_l ct type (Some (VBytes bs)) len w) (nfct_set_attr_l_mem p type (MBytes bs) len h w).
Proof.
  intros Hi E Ha. unfold nfct_set_attr_l, nfct_set_attr_l_mem, mask_attr in *.
  destruct (attr_of_idx type) as [a|]; [|apply simulates_ret; by apply (now_same h G loose p m ct)].
  eapply (simulates_bind (stays G loose p)); [|intros ct1 [] h1 w1 H1; by apply mark_run].
  destruct (decide (a = ATTR_HELPER_INFO)) as [->|Hinfo]; [by eapply set_info_run|].
  assert (Hs : set_attr_array_mem a p (MBytes bs) len = set_scalar_mem a p (VBytes bs) len) by (by destruct a).
  rewrite Hs. eapply simulates_run; [by eapply ct_at_run|]. destruct (inv_obj _ _ _ Hi _ _ _ E) as (_ & -> & _).
  apply scalar_run with ct; [done..|]. apply set_scalars. destruct a; cbn; auto; done.
Qed.

(** A setter of a mask, given that the assignment of the pointer succeeds. *)
Lemma set_mask_run h G loose loose' w p m ct type f l b len :
  mem_inv h G loose -> G !! p = Some (m, ct) -> mask_attr type = Some f ->
  (exists h', (do_set_attr_connlabels (get_f f m) l ;;& put_member p f (Some l)) h w = Ok (tt, h', w) /\
    now G loose' p (set_val f (Some (BMask b)) ct) h') ->
  simulates (stays G loose' p) (nfct_set_attr_l ct type (Some (VMask b)) len w) (nfct_set_attr_l_mem p type (MMask l) len h w).
Proof.
  intros Hi E Ha (h' & Hr & Hn). unfold nfct_set_attr_l, nfct_set_attr_l_mem, mask_attr in *.
  destruct (attr_of_idx type) as [a|]; [|done].
  eapply (simulates_bind (stays G loose' p)); [|intros ct1 [] h1 w1 H1; by apply mark_run].
  destruct a; try discriminate Ha; injection Ha as <-; (eapply simulates_run; [by eapply ct_at_run|]);
    cbn [get_f] in Hr; rewrite Hr; by split.
Qed.

Lemma bind_found {A B} (x : A) (k : A -> M B) w : bind (lookup_or_ub (Some x)) k w = k x w.
Proof. done. Qed.

Lemma simulates_map {A B D} (R : A -> B -> cheap -> Prop) (R' : D -> B -> cheap -> Prop) c g w r' :
  simulates R (c w) r' -> (forall a b h, R a b h -> R' (g a) b h) -> simulates R' (bind c (fun a => ret (g a)) w) r'.
Proof.
  intros Hc Hg. unfold bind. destruct (c w) as [[a w1]| | |], r' as [[[b h1] w2]| | |]; cbn in Hc; try done.
  destruct Hc as [<- Hc]. split; [done|]. by apply Hg.
Qed.

Lemma mask_new_run h G K2 L w max :
  mem_inv h G ((BMask <$> K2) ∪ L) ->
  simulates (fun o q h' => match o, q with
    | Some b, Some l => unused (snd <$> G, K2) l /\ L !! l = None /\ mem_inv h' G ((BMask <$> <[l := b]> K2) ∪ L)
    | None, None => mem_inv h' G ((BMask <$> K2) ∪ L)
    | _, _ => False end) (nfct_bitmask_new max w) (nfct_bitmask_new_mem max h w).
Proof.
  intros Hi. unfold nfct_bitmask_new, nfct_bitmask_new_mem. destruct (_ <? max); [by split|].
  set (b := mk_bitmask _ _). pose proof (adopted h G _ w (BMask b) Hi) as Ha.
  unfold bind. destruct (malloc_ok w) as [[[] w1]| | |], (malloc_block _ h w) as [[[q h1] w2]| | |];
    cbn in Ha; try done; destruct Ha as (<- & -> & Ha); cbn; [|by subst].
  pose proof (fresh_not_loose h G ((BMask <$> K2) ∪ L) Hi) as Hfr. apply held_unused in Hfr as [Hfr1 Hfr2].
  rewrite fmap_insert, <- insert_union_l. split; [done|]. split; [|done]. split; cbn; [|done].
  rewrite lookup_fmap. destruct (G !! ch_fresh h) eqn:El; [|done]. by edestruct (place_fresh _ _ _ Hi); [by apply (place_obj _ _ _ _ El)|].
Qed.

(** The client's next operation, from any state in which every block has one owner. *)
Lemma step_run op h w K n :
  mem_held h K n -> allowed op K -> simulates (next_ok (n + leaks op K)) (expected op K w) (exec op h w).
Proof.
  intros (G & L & Hi & Hd & <- & HK). destruct K as [K1 K2]. cbn in HK, Hi, Hd. subst K1.
  set (loose := (BMask <$> K2) ∪ L) in *.
  assert (Hend : forall p ct (k : option Z -> option held) h w, now G loose p ct h -> k None = Some (<[p := ct]> (snd <$> G), K2) ->
    simulates (next_ok (size L + 0)) (ret k w) (cret None h w)).
  { intros p ct k h' w' Hn Hk. rewrite Nat.add_0_r. apply simulates_ret. eexists. split; [exact Hk|by apply now_ok]. }
  destruct op as [|p|p1 p2 flags|p type [bs|l] len|p type|p|max|l]; intros Hal; cbn [allowed fst snd] in Hal;
    unfold expected, exec; cbn [fst snd]; cbn [leaks fst snd].
  - rewrite Nat.add_0_r. eapply (simulates_map (created G loose)); [|intros *; by intros; apply created_ok].
    pose proof (new_run h G loose w Hi) as Hr. destruct (nfct_new w) as [[o w1]| | |], (nfct_new_mem h w) as [[[q h1] w2]| | |]; try done.
    by destruct Hr as (-> & Hr & _).
  - destruct Hal as [ct Hct]. rewrite Hct, bind_found. apply held_obj in Hct as [m E]. rewrite Nat.add_0_r.
    eapply (simulates_map (created G loose)); [by eapply clone_run|intros *; by intros; apply created_ok].
  - destruct Hal as (Hne & [ct2 H2] & [ct1 H1]). rewrite H1, bind_found, H2, bind_found. cbn [from_option].
    apply held_obj in H1 as [m1 E1], H2 as [m2 E2].
    destruct (copy_run G loose p1 p2 m2 ct2 E2 Hne h w ct1 flags) as (L' & Hd' & HS & Hsim); [by apply (now_same h G loose p1 m1 ct1)|].
    eapply simulates_bind; [exact Hsim|]. intros ct [] h1 w1 Hn. apply simulates_ret. eexists. split; [done|].
    unfold loose in Hd', Hn. unfold stays in Hn. apply map_disjoint_union_l in Hd' as [Hd1 Hd2].
    rewrite <- map_union_assoc in Hn. rewrite <- HS, <- map_size_disj_union by done.
    apply now_ok; [done|]. by apply map_disjoint_union_r.
  - destruct Hal as [[ct H1] Ha]. rewrite H1, bind_found. apply held_obj in H1 as [m E].
    eapply (simulates_bind (stays G loose p)); [by apply (set_bytes_run h G _ w p m ct)|].
    intros ct' [] h1 w1 Hn. by eapply Hend.
  - destruct Hal as ([ct H1] & [f Ha] & [b H2]). rewrite H1, bind_found, H2, bind_found. apply held_obj in H1 as [m E].
    destruct (held_delete K2 L l b H2 Hd) as [Hdel Hd']. apply (held_mask K2 L) in H2. fold loose in H2.
    assert (Hfit : fits f (BMask b)) by (unfold mask_attr in Ha; repeat case_match; by simplify_eq).
    eapply (simulates_bind (stays G (delete l loose) p)).
    + eapply set_mask_run; [done..|]. by apply (take_mask_run h G loose).
    + intros ct' [] h1 w1 Hn. rewrite Nat.add_0_r. apply simulates_ret. eexists. split; [done|].
      unfold stays, loose in Hn. rewrite Hdel in Hn. by apply now_ok.
  - destruct Hal as (ct & f & b & H1 & Ha & Hb). rewrite H1, bind_found, Ha. cbn [mbind option_bind]. rewrite Hb. cbn [mask_of]. rewrite bind_found. apply held_obj in H1 as [m E].
    eapply simulates_run; [by eapply ct_at_run|]. destruct (get_f f m) as [l|] eqn:El; [|by rewrite (field_none _ _ _ _ _ _ Hi E f El) in Hb].
    cbn [mbind option_bind]. eapply (simulates_bind (stays G loose p)); [|intros ct' [] h1 w1 Hn; by eapply Hend].
    eapply set_mask_run; [done..|]. exists h. split; [by apply (own_mask_run h G loose w p m ct)|].
    rewrite <- Hb, set_val_same. by apply (now_same h G _ p m ct).
  - destruct Hal as [ct H1]. apply held_obj in H1 as [m E]. destruct (destroy_run h G _ w p m ct Hi E) as (h' & Hr & Hi').
    eapply simulates_run; [exact Hr|]. rewrite Nat.add_0_r. apply simulates_ret. eexists. split; [done|].
    exists (delete p G), L. cbn. split; [done|]. split; [done|]. split; [done|]. by rewrite fmap_delete.
  - rewrite Nat.add_0_r. eapply simulates_map; [by apply (mask_new_run h G)|]. intros [b|] [l|] h1; try done; unfold next_ok, keep_new.
    + intros (Hu & HL & Hi'). rewrite decide_True by done. eexists. split; [done|]. exists G, L. cbn.
      split; [done|]. split; [|done]. rewrite fmap_insert. by apply map_disjoint_insert_l.
    + intros Hi'. eexists. split; [done|]. by exists G, L.
  - destruct Hal as [b Hb]. destruct (held_delete K2 L l b Hb Hd) as [Hdel Hd']. apply (held_mask K2 L) in Hb.
    pose proof (inv_loose _ _ _ Hi _ _ Hb) as Hl. rewrite Nat.add_0_r.
    eapply simulates_run; [unfold nfct_bitmask_destroy, free; by rewrite Hl|]. apply simulates_ret. eexists. split; [done|].
    exists G, L. cbn. split; [|done]. rewrite <- Hdel. by apply (inv_free _ _ _ Hi _ _ Hb).
Qed.

(** A session of a client: what memory holds, what the client holds, and how many blocks were
    lost on the way. *)
Inductive session : cheap -> held -> nat -> Prop :=
| session_start n : session (mk_cheap ∅ n) (∅, ∅) 0
| session_step h K k op w next w1 q h1 w2 K1 :
    session h K k -> allowed op K -> expected op K w = Ok (next, w1) -> exec op h w = Ok (q, h1, w2) -> next q = Some K1 ->
    session h1 K1 (k + leaks op K).

Lemma mem_held_start n : mem_held (mk_cheap ∅ n) (∅, ∅) 0.
Proof.
  exists ∅, ∅. split; [|split; [apply map_disjoint_empty_r|by split; [apply map_size_empty|]]].
  cbn [snd]. rewrite map_union_empty, fmap_empty. split; cbn; intros *; rewrite ?lookup_empty; try done.
  destruct o1; cbn; by rewrite lookup_empty.
Qed.

Lemma session_ok h K n : session h K n -> mem_held h K n.
Proof.
  induction 1 as [n|h K k op w next w1 q h1 w2 K1 _ IH Hal Hv Hm Hn]; [apply mem_held_start|].
  pose proof (step_run op h w K k IH Hal) as Hs. rewrite Hv, Hm in Hs. destruct Hs as (_ & K' & Hn' & Hok).
  rewrite Hn in Hn'. by injection Hn' as <-.
Qed.

(** C17: ownership of memory.  Whatever a client does with new objects, copies, clones, setters,
    bitmasks and releases, in any order and with any failures of allocations, as long as he does
    not copy an object to itself and gives away a bitmask only once: each operation on memory
    ends as the function on values does, with the same change of what the client's objects
    stand for, so that no block is used after its release or released twice; every block has
    exactly one owner, an object, a member of an object or the client, but for those that were
    lost; and when the client has released what he holds, exactly the lost blocks are left.
    Only [nfct_copy] with [NFCT_CP_OVERRIDE] loses blocks: all that the destination owned. *)
Theorem memory_sessions h K n :
  session h K n ->
  (forall op w, allowed op K ->
    simulates (fun next q h' => exists K', next q = Some K' /\ session h' K' (n + leaks op K)) (expected op K w) (exec op h w)) /\
  (exists G L, K.1 = snd <$> G /\ mem_inv h G ((BMask <$> K.2) ∪ L) /\ (BMask <$> K.2 : gmap Z block) ##ₘ L /\ size L = n) /\
  (K = (∅, ∅) -> size (ch_blocks h) = n).
Proof.
  intros Hs. pose proof (session_ok h K n Hs) as Hok. split_and!.
  - intros op w Hal. pose proof (step_run op h w K n Hok Hal) as Hr.
    destruct (expected op K w) as [[next w1]| | |] eqn:Ev, (exec op h w) as [[[q h1] w2]| | |] eqn:Em; cbn in Hr |- *; try done.
    destruct Hr as (-> & K' & Hn & _). split; [done|]. exists K'. split; [done|]. by eapply session_step.
  - destruct Hok as (G & L & Hi & Hd & HS & HK). by exists G, L.
  - intros ->. destruct Hok as (G & L & Hi & Hd & <- & HK). cbn in HK, Hi. rewrite fmap_empty, map_empty_union in Hi.
    symmetry in HK. apply fmap_empty_inv in HK. subst G. f_equal.
    apply map_eq. intros l. destruct (L !! l) as [b|] eqn:El; [by apply (inv_loose _ _ _ Hi)|].
    destruct (ch_blocks h !! l) as [b|] eqn:Eb; [|done].
    destruct (inv_owned _ _ _ Hi l b Eb) as [[p|l'|p f] Ho]; cbn in Ho; [by rewrite lookup_empty in Ho| |by rewrite lookup_empty in Ho].
    destruct (L !! l') eqn:El'; cbn in Ho; [|done]. injection Ho as ->. congruence.
Qed.

Definition quiet_world : world := mk_world [] 0 [].
Definition one_object : cheap := mk_cheap (<[1 := BCt (mk_mct zero_ct None None None None)]> ∅) 2.

Lemma memory_sessions_witness :
  session one_object ({[1 := zero_ct]}, ∅) 0 /\
  simulates (fun next q h' => exists K', next q = Some K' /\ session h' K' 0)
    (expected (OpClone 1) ({[1 := zero_ct]}, ∅) quiet_world) (exec (OpClone 1) one_object quiet_world).
Proof.
  assert (Hs : session one_object ({[1 := zero_ct]}, ∅) 0).
  { eapply (session_step (mk_cheap ∅ 1) (∅, ∅) 0 OpNew quiet_world); [constructor|exact I|reflexivity|reflexivity|reflexivity]. }
  split; [exact Hs|]. apply (proj1 (memory_sessions _ _ _ Hs) (OpClone 1) quiet_world). by eexists.
Defined.

(** * Where the rules matter *)

Fixpoint exec_all (ops : list mem_op) : C unit :=
  match ops with [] => cret tt | op :: ops => exec op ;;& exec_all ops end.
Definition blocks_left (r : res (unit * cheap * world)) : option nat :=
  match r with Ok (_, h, _) => Some (size (ch_blocks h)) | _ => None end.
Definition LABELS : Z := attr_idx ATTR_CONNLABELS.
Definition LABELS_MASK : Z := attr_idx ATTR_CONNLABELS_MASK.

(** [NFCT_CP_OVERRIDE] onto an object with a bitmask: the bitmask is never released. *)
Lemma override_leaks :
  blocks_left (exec_all [OpNew; OpMaskNew 31; OpSet 1 LABELS (MMask 2) 0; OpNew; OpCopy 1 3 NFCT_CP_OVERRIDE; OpDestroy 1; OpDestroy 3]
    (mk_cheap ∅ 1) quiet_world) = Some 1%nat.
Proof. vm_compute. reflexivity. Qed.

(** One bitmask for the labels and their mask: it is released twice. *)
Lemma shared_mask_freed_twice :
  exec_all [OpNew; OpMaskNew 31; OpSet 1 LABELS (MMask 2) 0; OpSet 1 LABELS_MASK (MMask 2) 0; OpDestroy 1] (mk_cheap ∅ 1) quiet_world = Ub.
Proof. vm_compute. reflexivity. Qed.

(** An object copied to itself: its labels are read after their release. *)
Lemma self_copy_faults :
  exec_all [OpNew; OpMaskNew 31; OpSet 1 LABELS (MMask 2) 0; OpCopy 1 1 NFCT_CP_ALL] (mk_cheap ∅ 1) quiet_world = Ub.
Proof. vm_compute. reflexivity. Qed.
