(* ===== verification/CtAttrs.v ===== *)
(** Properties of the attribute interface of the conntrack object: what
    [nfct_set_attr] stores, [nfct_get_attr] returns, which attributes share
    storage, and what [nfct_copy] and [nfct_clone] preserve. *)
From S2P Require Import Prelude CMonad Bitops CtObject CtSetter CtGetter CtCopy CtApi.
Open Scope c_scope.

(** ** Where the attributes live *)

Inductive tsel := TOrig | TRepl | TMaster.

(** The storage units of the object; a union is one unit. *)
Inductive fld :=
| FSrc (t : tsel) | FDst (t : tsel) | FL3 (t : tsel) | FL4 (t : tsel) | FTZone (t : tsel)
| FL4src (t : tsel) | FL4dst (t : tsel)
| FTimeout | FMark | FSecmark | FStatus | FUse | FId | FZone | FHelperName | FSecctx | FProto
| FPackets (d : nfct_dir) | FBytes (d : nfct_dir) | FSnatIp | FSnatPort | FDnatIp | FDnatPort
| FCorPos (d : nfct_dir) | FOffBfr (d : nfct_dir) | FOffAft (d : nfct_dir)
| FTsStart | FTsStop | FSynIsn | FSynIts | FSynTsoff | FHelperInfo | FLabels | FLabelsMask.

#[export] Instance nfct_dir_eq_dec : EqDecision nfct_dir.
Proof. solve_decision. Defined.
#[export] Instance tsel_eq_dec : EqDecision tsel.
Proof. solve_decision. Defined.
#[export] Instance fld_eq_dec : EqDecision fld.
Proof. solve_decision. Defined.

(** A byte range of a storage unit. *)
Record loc := mk_loc { loc_fld : fld; loc_off : Z; loc_len : Z }.

Definition loc_disjoint (l k : loc) : bool :=
  negb (bool_decide (loc_fld l = loc_fld k))
  || (loc_off l + loc_len l <=? loc_off k) || (loc_off k + loc_len k <=? loc_off l).

(** The range that the getter of an attribute points to.  The length of
    pointer fields stands for the pointer itself. *)
Definition attr_loc (a : nf_conntrack_attr) : loc :=
  match a with
  | ATTR_ORIG_IPV4_SRC => mk_loc (FSrc TOrig) 0 4
  | ATTR_ORIG_IPV4_DST => mk_loc (FDst TOrig) 0 4
  | ATTR_REPL_IPV4_SRC => mk_loc (FSrc TRepl) 0 4
  | ATTR_REPL_IPV4_DST => mk_loc (FDst TRepl) 0 4
  | ATTR_ORIG_IPV6_SRC => mk_loc (FSrc TOrig) 0 16
  | ATTR_ORIG_IPV6_DST => mk_loc (FDst TOrig) 0 16
  | ATTR_REPL_IPV6_SRC => mk_loc (FSrc TRepl) 0 16
  | ATTR_REPL_IPV6_DST => mk_loc (FDst TRepl) 0 16
  | ATTR_ORIG_PORT_SRC => mk_loc (FL4src TOrig) 0 2
  | ATTR_ORIG_PORT_DST => mk_loc (FL4dst TOrig) 0 2
  | ATTR_REPL_PORT_SRC => mk_loc (FL4src TRepl) 0 2
  | ATTR_REPL_PORT_DST => mk_loc (FL4dst TRepl) 0 2
  | ATTR_ICMP_TYPE => mk_loc (FL4dst TOrig) 0 1
  | ATTR_ICMP_CODE => mk_loc (FL4dst TOrig) 1 1
  | ATTR_ICMP_ID => mk_loc (FL4src TOrig) 0 2
  | ATTR_ORIG_L3PROTO => mk_loc (FL3 TOrig) 0 1
  | ATTR_REPL_L3PROTO => mk_loc (FL3 TRepl) 0 1
  | ATTR_ORIG_L4PROTO => mk_loc (FL4 TOrig) 0 1
  | ATTR_REPL_L4PROTO => mk_loc (FL4 TRepl) 0 1
  | ATTR_TCP_STATE => mk_loc FProto 0 1
  | ATTR_SNAT_IPV4 => mk_loc FSnatIp 0 4
  | ATTR_DNAT_IPV4 => mk_loc FDnatIp 0 4
  | ATTR_SNAT_PORT => mk_loc FSnatPort 0 2
  | ATTR_DNAT_PORT => mk_loc FDnatPort 0 2
  | ATTR_TIMEOUT => mk_loc FTimeout 0 4
  | ATTR_MARK => mk_loc FMark 0 4
  | ATTR_ORIG_COUNTER_PACKETS => mk_loc (FPackets DIR_ORIG) 0 8
  | ATTR_ORIG_COUNTER_BYTES => mk_loc (FBytes DIR_ORIG) 0 8
  | ATTR_REPL_COUNTER_PACKETS => mk_loc (FPackets DIR_REPL) 0 8
  | ATTR_REPL_COUNTER_BYTES => mk_loc (FBytes DIR_REPL) 0 8
  | ATTR_USE => mk_loc FUse 0 4
  | ATTR_ID => mk_loc FId 0 4
  | ATTR_STATUS => mk_loc FStatus 0 4
  | ATTR_TCP_FLAGS_ORIG => mk_loc FProto 1 1
  | ATTR_TCP_FLAGS_REPL => mk_loc FProto 3 1
  | ATTR_TCP_MASK_ORIG => mk_loc FProto 2 1
  | ATTR_TCP_MASK_REPL => mk_loc FProto 4 1
  | ATTR_MASTER_IPV4_SRC => mk_loc (FSrc TMaster) 0 4
  | ATTR_MASTER_IPV4_DST => mk_loc (FDst TMaster) 0 4
  | ATTR_MASTER_IPV6_SRC => mk_loc (FSrc TMaster) 0 16
  | ATTR_MASTER_IPV6_DST => mk_loc (FDst TMaster) 0 16
  | ATTR_MASTER_PORT_SRC => mk_loc (FL4src TMaster) 0 2
  | ATTR_MASTER_PORT_DST => mk_loc (FL4dst TMaster) 0 2
  | ATTR_MASTER_L3PROTO => mk_loc (FL3 TMaster) 0 1
  | ATTR_MASTER_L4PROTO => mk_loc (FL4 TMaster) 0 1
  | ATTR_SECMARK => mk_loc FSecmark 0 4
  | ATTR_ORIG_NAT_SEQ_CORRECTION_POS => mk_loc (FCorPos DIR_ORIG) 0 4
  | ATTR_ORIG_NAT_SEQ_OFFSET_BEFORE => mk_loc (FOffBfr DIR_ORIG) 0 4
  | ATTR_ORIG_NAT_SEQ_OFFSET_AFTER => mk_loc (FOffAft DIR_ORIG) 0 4
  | ATTR_REPL_NAT_SEQ_CORRECTION_POS => mk_loc (FCorPos DIR_REPL) 0 4
  | ATTR_REPL_NAT_SEQ_OFFSET_BEFORE => mk_loc (FOffBfr DIR_REPL) 0 4
  | ATTR_REPL_NAT_SEQ_OFFSET_AFTER => mk_loc (FOffAft DIR_REPL) 0 4
  | ATTR_SCTP_STATE => mk_loc FProto 0 1
  | ATTR_SCTP_VTAG_ORIG => mk_loc FProto 4 4
  | ATTR_SCTP_VTAG_REPL => mk_loc FProto 8 4
  | ATTR_HELPER_NAME => mk_loc FHelperName 0 16
  | ATTR_DCCP_STATE => mk_loc FProto 0 1
  | ATTR_DCCP_ROLE => mk_loc FProto 1 1
  | ATTR_DCCP_HANDSHAKE_SEQ => mk_loc FProto 8 8
  | ATTR_TCP_WSCALE_ORIG => mk_loc FProto 5 1
  | ATTR_TCP_WSCALE_REPL => mk_loc FProto 6 1
  | ATTR_ZONE => mk_loc FZone 0 2
  | ATTR_ORIG_ZONE => mk_loc (FTZone TOrig) 0 2
  | ATTR_REPL_ZONE => mk_loc (FTZone TRepl) 0 2
  | ATTR_SECCTX => mk_loc FSecctx 0 1
  | ATTR_TIMESTAMP_START => mk_loc FTsStart 0 8
  | ATTR_TIMESTAMP_STOP => mk_loc FTsStop 0 8
  | ATTR_HELPER_INFO => mk_loc FHelperInfo 0 1
  | ATTR_CONNLABELS => mk_loc FLabels 0 1
  | ATTR_CONNLABELS_MASK => mk_loc FLabelsMask 0 1
  | ATTR_SNAT_IPV6 => mk_loc FSnatIp 0 16
  | ATTR_DNAT_IPV6 => mk_loc FDnatIp 0 16
  | ATTR_SYNPROXY_ISN => mk_loc FSynIsn 0 4
  | ATTR_SYNPROXY_ITS => mk_loc FSynIts 0 4
  | ATTR_SYNPROXY_TSOFF => mk_loc FSynTsoff 0 4
  end.

(** The ranges that the setter of an attribute writes: ICMP attributes also
    complete the reply tuple. *)
Definition attr_writes (a : nf_conntrack_attr) : list loc :=
  attr_loc a ::
  match a with
  | ATTR_ICMP_TYPE => [mk_loc (FL4dst TRepl) 0 1]
  | ATTR_ICMP_CODE => [mk_loc (FL4dst TRepl) 1 1]
  | ATTR_ICMP_ID => [mk_loc (FL4src TRepl) 0 2]
  | _ => []
  end.

(** Setting [a] leaves the value of [b] alone. *)
Definition independent (a b : nf_conntrack_attr) : bool :=
  forallb (fun l => loc_disjoint l (attr_loc b)) (attr_writes a).

(** Attributes whose setter does nothing. *)
Definition unsettable (a : nf_conntrack_attr) : bool :=
  match a with
  | ATTR_ORIG_COUNTER_PACKETS | ATTR_REPL_COUNTER_PACKETS | ATTR_ORIG_COUNTER_BYTES
  | ATTR_REPL_COUNTER_BYTES | ATTR_USE | ATTR_SECCTX | ATTR_TIMESTAMP_START
  | ATTR_TIMESTAMP_STOP => true
  | _ => false
  end.

(** Attributes that are not a fixed number of bytes. *)
Definition variable (a : nf_conntrack_attr) : bool :=
  match a with
  | ATTR_HELPER_NAME | ATTR_HELPER_INFO | ATTR_CONNLABELS | ATTR_CONNLABELS_MASK => true
  | _ => false
  end.

(** Attributes that are set from a fixed number of bytes, and how many. *)
Definition fixed_width (a : nf_conntrack_attr) : bool := negb (unsettable a) && negb (variable a).
Definition attr_width (a : nf_conntrack_attr) : Z := loc_len (attr_loc a).

(** The attributes that [nfct_set_attr] documents as settable: [ATTR_ID] has a
    setter, but is listed with the unsettable ones. *)
Definition documented_settable (a : nf_conntrack_attr) : bool :=
  fixed_width a && negb (bool_decide (a = ATTR_ID)).

(** The ICMP type setter indexes its maps with the type. *)
Definition icmp_type_in_map (ct : nf_conntrack) (bs : list Z) : bool :=
  let v := le_dec (slice 0 1 bs) in
  let l3 := tp_l3protonum (ct_orig ct) in
  if l3 =? AF_INET then v <? 19
  else if l3 =? AF_INET6 then (128 <=? v) && (v <? 141)
  else true.

Definition set_defined (a : nf_conntrack_attr) (ct : nf_conntrack) (bs : list Z) : bool :=
  (attr_width a <=? zlen bs) &&
  match a with ATTR_ICMP_TYPE => icmp_type_in_map ct bs | _ => true end.

(** ** Running the setters *)

Lemma val_bytes_ok n bs w : n <= zlen bs -> val_bytes n (VBytes bs) w = Ok (slice 0 n bs, w).
Proof. intros H. cbn. by rewrite (proj2 (Z.leb_le n (zlen bs)) H). Qed.

Lemma val_u_ok n bs w : Z.of_nat n <= zlen bs ->
  val_u n (VBytes bs) w = Ok (le_dec (slice 0 (Z.of_nat n) bs), w).
Proof. intros H. unfold val_u, bind. by rewrite val_bytes_ok. Qed.

(** Storing the bytes read from the value: what every fixed-width setter does
    to its field. *)
Lemma splice_dec n o bs u : Forall byte_ok bs -> Z.of_nat n <= zlen bs ->
  u_set n o (le_dec (slice 0 (Z.of_nat n) bs)) u = splice o (slice 0 (Z.of_nat n) bs) u.
Proof.
  intros Hb Hn. unfold u_set. f_equal.
  rewrite <- (le_enc_dec (slice 0 (Z.of_nat n) bs)) at 2 by (by apply slice_bytes).
  f_equal. pose proof (zlen_slice 0 (Z.of_nat n) bs). unfold zlen in *. lia.
Qed.

Lemma enc_dec_slice n bs : Forall byte_ok bs -> Z.of_nat n <= zlen bs ->
  le_enc n (le_dec (slice 0 (Z.of_nat n) bs)) = slice 0 (Z.of_nat n) bs.
Proof.
  intros Hb Hn. rewrite <- (le_enc_dec (slice 0 (Z.of_nat n) bs)) at 2 by (by apply slice_bytes).
  f_equal. pose proof (zlen_slice 0 (Z.of_nat n) bs). unfold zlen in *. lia.
Qed.

Lemma get_attr_array_attr_set a b ct : get_attr_array b (attr_set a ct) = get_attr_array b ct.
Proof. by destruct b. Qed.

Lemma array_get_ok t i w : 0 <= i < zlen t -> exists x, t !! Z.to_nat i = Some x /\
  array_get t i w = Ok (x, w).
Proof.
  intros H. unfold array_get, zlen in *. destruct (Z.ltb_spec i 0); [lia|].
  destruct (t !! Z.to_nat i) as [x|] eqn:E; [by exists x|].
  apply lookup_ge_None in E. lia.
Qed.

Lemma slice_u_set_ne N n k o o' v u : blob N u -> 0 <= o -> o + Z.of_nat n <= N -> 0 <= o' ->
  o' + k <= o \/ o + Z.of_nat n <= o' -> slice o' k (u_set n o v u) = slice o' k u.
Proof. intros [Hl _] ????. unfold u_set. apply slice_splice_ne; zl. Qed.

Lemma slice_u_set_eq N n k o bs u : blob N u -> Forall byte_ok bs -> k = Z.of_nat n -> k <= zlen bs ->
  0 <= o -> o + k <= N -> slice o k (u_set n o (le_dec (slice 0 k bs)) u) = slice 0 k bs.
Proof.
  intros [Hl _] Hb -> Hn Ho HN. rewrite splice_dec by done.
  rewrite <- (slice_splice_eq o (slice 0 (Z.of_nat n) bs) u) at 2; rewrite ?zlen_slice by lia; done || lia.
Qed.
(** The well-formed parts of a well-formed object, as hypotheses. *)
Ltac ct_parts H :=
  pose proof (ok_orig _ H) as (? & ? & ? & ? & ? & ? & ?);
  pose proof (ok_repl _ H) as (? & ? & ? & ? & ? & ? & ?);
  pose proof (ok_master _ H) as (? & ? & ? & ? & ? & ? & ?);
  pose proof (ok_protoinfo _ H);
  pose proof (ok_snat _ H) as (? & ? & ? & ?);
  pose proof (ok_dnat _ H) as (? & ? & ? & ?);
  pose proof (ok_counters _ H) as [[? ?] [? ?]];
  pose proof (ok_natseq _ H) as [(? & ? & ?) (? & ? & ?)];
  pose proof (ok_timestamp _ H) as [? ?];
  pose proof (ok_synproxy _ H) as (? & ? & ?);
  pose proof (ok_timeout _ H); pose proof (ok_mark _ H); pose proof (ok_secmark _ H);
  pose proof (ok_status _ H); pose proof (ok_use _ H); pose proof (ok_id _ H);
  pose proof (ok_zone _ H).

Lemma uint_le_dec n w bs : Forall byte_ok bs -> n <= zlen bs -> 0 <= n -> w = 8 * n ->
  uint w (le_dec (slice 0 n bs)).
Proof. intros ? ? ? ->. apply le_dec_uint; [rewrite zlen_slice; lia|by apply slice_bytes]. Qed.

Lemma blob_slice0 n bs : Forall byte_ok bs -> n <= zlen bs -> 0 <= n -> blob n (slice 0 n bs).
Proof. intros. split; [rewrite zlen_slice; lia|by apply slice_bytes]. Qed.

(** Close the well-formedness of an assigned field, and of the structure it is in. *)
Ltac ok_field :=
  first [ assumption
        | apply uint_le_dec; [assumption|lia|lia|reflexivity]
        | apply blob_u_set; [assumption|done|done]
        | apply blob_slice0; [assumption|lia|lia] ].
Ltac ok_struct :=
  lazymatch goal with
  | |- tuple_ok _ => unfold tuple_ok in *; cbn in *; destruct_and?; split_and!; ok_field
  | |- nat_ok _ => unfold nat_ok in *; cbn in *; destruct_and?; split_and!; ok_field
  | |- synproxy_ok _ => unfold synproxy_ok in *; cbn in *; destruct_and?; split_and!; ok_field
  | |- timestamp_ok _ => unfold timestamp_ok in *; cbn in *; destruct_and?; split_and!; ok_field
  | |- dirs_ok _ _ => unfold dirs_ok, natseq_ok, counters_ok in *; cbn in *; destruct_and?; split_and!; ok_field
  | |- _ => ok_field
  end.

(** Run a fixed-width setter on a value that is long enough. *)
Ltac run_setter :=
  lazymatch goal with |- set_attr_array ?a _ _ _ _ = _ =>
    let f := eval hnf in (set_attr_array a) in
    change (set_attr_array a) with f; cbv beta; unfold bind;
    first [rewrite val_u_ok by lia | rewrite val_bytes_ok by lia]; reflexivity end.

(** A getter does not see an assignment elsewhere. *)
Ltac frame_get :=
  first [ reflexivity
        | unfold get_attr_array;
          lazymatch goal with |- ?f _ = _ => unfold f end; cbn; do 2 f_equal;
          eapply slice_u_set_ne; [eassumption|done|done|done|first [left; by vm_compute | right; by vm_compute]] ].

Lemma set_fixed_run a ct bs len w :
  ct_ok ct -> fixed_width a = true -> set_defined a ct bs = true -> a <> ATTR_ICMP_TYPE ->
  Forall byte_ok bs ->
  exists ct', set_attr_array a ct (VBytes bs) len w = Ok (ct', w) /\
   (ct_ok ct' /\ ct_set ct' = ct_set ct) /\
   get_attr_array a ct' = Some (VBytes (slice 0 (attr_width a) bs)) /\
   (forall b, independent a b = true -> get_attr_array b ct' = get_attr_array b ct).
Proof.
  intros Hok Hf Hd Ha Hb. unfold set_defined in Hd.
  apply andb_prop in Hd as [Hw _]. apply Z.leb_le in Hw.
  ct_parts Hok.
  destruct a; try done; cbn in Hw; eexists.
  all: split; [run_setter|].
  all: split; [split; [ct_ok_solve; ok_struct|reflexivity]|].
  all: split;
    [ first [ reflexivity
            | unfold get_attr_array; lazymatch goal with |- ?f _ = _ => unfold f end;
              unfold attr_width; cbn; do 2 f_equal;
              first [ eapply slice_u_set_eq; [eassumption|assumption|done|assumption|done|done]
                    | apply enc_dec_slice; [assumption|done] ] ] |].
  all: intros b Hi; destruct b;
    first [discriminate Hi | frame_get].
Qed.

(** The ICMP type setter picks a reply type from the maps. *)
Lemma icmp_rtype_run ct bs w : Forall byte_ok bs -> 1 <= zlen bs -> icmp_type_in_map ct bs = true ->
  exists r, (if tp_l3protonum (ct_orig ct) =? AF_INET then array_get invmap_icmp (le_dec (slice 0 1 bs))
             else if tp_l3protonum (ct_orig ct) =? AF_INET6
                  then array_get invmap_icmpv6 (le_dec (slice 0 1 bs) - 128) else ret 0) w = Ok (r, w).
Proof.
  intros Hb Hl. unfold icmp_type_in_map.
  pose proof (uint_le_dec 1 8 bs Hb Hl ltac:(lia) eq_refl) as [H0 _].
  repeat case_match; intros Hm; [| |by exists 0].
  - apply Z.ltb_lt in Hm.
    destruct (array_get_ok invmap_icmp (le_dec (slice 0 1 bs)) w) as (r & _ & Hr); [by split|by exists r].
  - apply andb_prop in Hm as [Hm1 Hm2]. apply Z.leb_le in Hm1. apply Z.ltb_lt in Hm2.
    destruct (array_get_ok invmap_icmpv6 (le_dec (slice 0 1 bs) - 128) w) as (r & _ & Hr);
      [change (zlen invmap_icmpv6) with 13; lia|by exists r].
Qed.

Lemma set_icmp_type_run ct bs len w :
  ct_ok ct -> set_defined ATTR_ICMP_TYPE ct bs = true -> Forall byte_ok bs ->
  exists ct', set_attr_array ATTR_ICMP_TYPE ct (VBytes bs) len w = Ok (ct', w) /\
   (ct_ok ct' /\ ct_set ct' = ct_set ct) /\
   get_attr_array ATTR_ICMP_TYPE ct' = Some (VBytes (slice 0 (attr_width ATTR_ICMP_TYPE) bs)) /\
   (forall b, independent ATTR_ICMP_TYPE b = true -> get_attr_array b ct' = get_attr_array b ct).
Proof.
  intros Hok [Hw Hm]%andb_prop Hb. apply Z.leb_le in Hw. cbn in Hw.
  destruct (icmp_rtype_run ct bs w Hb Hw Hm) as [r Hr]. ct_parts Hok. eexists.
  split.
  { change (set_attr_array ATTR_ICMP_TYPE) with set_attr_icmp_type. unfold set_attr_icmp_type, bind.
    rewrite val_u_ok by done. cbv zeta. change (Z.of_nat 1) with 1.
    lazymatch goal with |- context[ct_orig (upd_orig ?f ct)] =>
      change (tp_l3protonum (ct_orig (upd_orig f ct))) with (tp_l3protonum (ct_orig ct)) end.
    rewrite Hr. reflexivity. }
  split; [split; [ct_ok_solve; ok_struct|reflexivity]|]. split.
  { unfold get_attr_array, get_attr_icmp_type, attr_width. cbn. do 2 f_equal.
    eapply slice_u_set_eq; [eassumption|assumption|done|assumption|done|done]. }
  intros b Hi. destruct b; first [discriminate Hi | frame_get].
Qed.

(** A fixed-width setter runs, keeps the object well formed, stores the bytes
    it is given and changes no independent attribute. *)
Lemma set_fixed a ct bs len w :
  ct_ok ct -> fixed_width a = true -> set_defined a ct bs = true -> Forall byte_ok bs ->
  exists ct', set_attr_array a ct (VBytes bs) len w = Ok (ct', w) /\
   (ct_ok ct' /\ ct_set ct' = ct_set ct) /\
   get_attr_array a ct' = Some (VBytes (slice 0 (attr_width a) bs)) /\
   (forall b, independent a b = true -> get_attr_array b ct' = get_attr_array b ct).
Proof.
  intros. destruct (decide (a = ATTR_ICMP_TYPE)) as [->|];
    [by apply set_icmp_type_run | by apply set_fixed_run].
Qed.

(** ** Set, then get *)

(** The result of [nfct_get_attr] for an attribute. *)
Lemma nfct_get_attr_run a ct w :
  nfct_get_attr ct (attr_idx a) w =
  if attr_is_set a ct then Ok (get_attr_array a ct, w) else Ok (None, with_errno ENODATA w).
Proof.
  unfold nfct_get_attr. rewrite attr_of_idx_idx. by destruct (attr_is_set a ct).
Qed.

Lemma get_after_attr_set a b ct' ct w : ct_ok ct' -> ct_set ct' = ct_set ct -> b <> a ->
  get_attr_array b ct' = get_attr_array b ct ->
  nfct_get_attr (attr_set a ct') (attr_idx b) w = nfct_get_attr ct (attr_idx b) w.
Proof.
  intros Hok Hs Hne Hg. rewrite !nfct_get_attr_run, get_attr_array_attr_set, Hg.
  rewrite attr_is_set_attr_set by apply Hok.
  rewrite bool_decide_eq_false_2 by done. cbn. unfold attr_is_set. by rewrite Hs.
Qed.

Lemma independent_ne a b : independent a b = true -> b <> a.
Proof. intros H ->. by destruct a. Qed.

(** Set, then get, for every attribute with a setter of fixed width. *)
Lemma set_get_fixed a ct bs len w :
  ct_ok ct -> fixed_width a = true -> set_defined a ct bs = true -> Forall byte_ok bs ->
  exists ct',
    nfct_set_attr_l ct (attr_idx a) (Some (VBytes bs)) len w = Ok (ct', w) /\ ct_ok ct' /\
    nfct_get_attr ct' (attr_idx a) w = Ok (Some (VBytes (slice 0 (attr_width a) bs)), w) /\
    (forall b, independent a b = true ->
       nfct_get_attr ct' (attr_idx b) w = nfct_get_attr ct (attr_idx b) w).
Proof.
  intros Hok Hf Hd Hb.
  destruct (set_fixed a ct bs len w Hok Hf Hd Hb) as (ct' & Hr & [Hok' Hs] & Hg & Hi).
  exists (attr_set a ct'). split.
  { unfold nfct_set_attr_l. rewrite attr_of_idx_idx. unfold bind. by rewrite Hr. }
  split; [by apply ct_ok_attr_set|]. split.
  - rewrite nfct_get_attr_run, attr_is_set_attr_set by apply Hok'.
    rewrite bool_decide_eq_true_2 by done. cbn. by rewrite get_attr_array_attr_set, Hg.
  - intros b Hib. apply get_after_attr_set; auto using independent_ne.
Qed.

(** C14: for every attribute of fixed width that the documentation of
    [nfct_set_attr] does not list as unsettable (the counters, ATTR_USE, ATTR_ID,
    ATTR_SECCTX and the timestamps), [nfct_set_attr_l] on a value that has at
    least the bytes of the attribute (and, for the ICMP type, one that is in the
    map of types) succeeds, keeps the object well formed, and a following
    [nfct_get_attr] returns exactly the bytes that were stored; every attribute
    whose storage the setter does not touch reads as before, errors included. *)
Theorem set_attr_get_attr a ct bs len w :
  ct_ok ct -> documented_settable a = true -> set_defined a ct bs = true -> Forall byte_ok bs ->
  exists ct',
    nfct_set_attr_l ct (attr_idx a) (Some (VBytes bs)) len w = Ok (ct', w) /\ ct_ok ct' /\
    nfct_get_attr ct' (attr_idx a) w = Ok (Some (VBytes (slice 0 (attr_width a) bs)), w) /\
    (forall b, independent a b = true ->
       nfct_get_attr ct' (attr_idx b) w = nfct_get_attr ct (attr_idx b) w).
Proof. intros ? [? _]%andb_prop. by apply set_get_fixed. Qed.

Lemma set_attr_get_attr_witness :
  exists ct',
    nfct_set_attr_l zero_ct (attr_idx ATTR_MARK) (Some (VBytes [1; 2; 3; 4])) 4 (mk_world [] 0 [])
      = Ok (ct', mk_world [] 0 []) /\ ct_ok ct' /\
    nfct_get_attr ct' (attr_idx ATTR_MARK) (mk_world [] 0 [])
      = Ok (Some (VBytes (slice 0 (attr_width ATTR_MARK) [1; 2; 3; 4])), mk_world [] 0 []) /\
    (forall b, independent ATTR_MARK b = true ->
       nfct_get_attr ct' (attr_idx b) (mk_world [] 0 [])
       = nfct_get_attr zero_ct (attr_idx b) (mk_world [] 0 [])).
Proof.
  apply (set_attr_get_attr ATTR_MARK zero_ct [1; 2; 3; 4] 4 (mk_world [] 0 []));
    [apply zero_ct_ok | reflexivity | reflexivity | apply bytes_okb_ok; reflexivity].
Defined.

(** For the attributes documented as unsettable (counters, use, security
    context, timestamps) [nfct_set_attr_l] stores nothing, but it still marks
    the attribute as present: a later [nfct_get_attr] succeeds and returns the
    value the object already had, instead of failing with ENODATA. *)
Theorem set_attr_unsettable_marks a ct v len w :
  ct_ok ct -> unsettable a = true ->
  nfct_set_attr_l ct (attr_idx a) (Some v) len w = Ok (attr_set a ct, w) /\
  nfct_get_attr (attr_set a ct) (attr_idx a) w = Ok (get_attr_array a ct, w) /\
  (forall b, b <> a ->
     nfct_get_attr (attr_set a ct) (attr_idx b) w = nfct_get_attr ct (attr_idx b) w).
Proof.
  intros Hok Hu. split; [|split].
  - unfold nfct_set_attr_l. rewrite attr_of_idx_idx. by destruct a.
  - rewrite nfct_get_attr_run, attr_is_set_attr_set by apply Hok.
    rewrite bool_decide_eq_true_2 by done. cbn. by rewrite get_attr_array_attr_set.
  - intros b Hb. by apply get_after_attr_set.
Qed.

Lemma set_attr_unsettable_marks_witness :
  nfct_get_attr (attr_set ATTR_USE zero_ct) (attr_idx ATTR_USE) (mk_world [] 0 [])
  = Ok (get_attr_array ATTR_USE zero_ct, mk_world [] 0 []).
Proof.
  apply (set_attr_unsettable_marks ATTR_USE zero_ct (VBytes [7]) 4 (mk_world [] 0 []));
    [apply zero_ct_ok | reflexivity].
Defined.

(** [ATTR_ID] is documented as unsettable as well, but it has a setter: the
    identifier is stored and marked as present. *)
Theorem set_attr_id_stores ct bs len w :
  ct_ok ct -> 4 <= zlen bs -> Forall byte_ok bs ->
  exists ct', nfct_set_attr_l ct (attr_idx ATTR_ID) (Some (VBytes bs)) len w = Ok (ct', w) /\
    nfct_get_attr ct' (attr_idx ATTR_ID) w = Ok (Some (VBytes (slice 0 4 bs)), w).
Proof.
  intros Hok Hl Hb.
  destruct (set_get_fixed ATTR_ID ct bs len w) as (ct' & ? & _ & ? & _); eauto.
  unfold set_defined. rewrite (proj2 (Z.leb_le _ _)); done.
Qed.

Lemma set_attr_id_stores_witness :
  exists ct', nfct_set_attr_l zero_ct (attr_idx ATTR_ID) (Some (VBytes [1; 2; 3; 4])) 4 (mk_world [] 0 []) =
                Ok (ct', mk_world [] 0 []) /\
    nfct_get_attr ct' (attr_idx ATTR_ID) (mk_world [] 0 []) =
      Ok (Some (VBytes (slice 0 4 [1; 2; 3; 4])), mk_world [] 0 []).
Proof.
  apply (set_attr_id_stores zero_ct [1; 2; 3; 4] 4 (mk_world [] 0 []));
    [apply zero_ct_ok | vm_compute; discriminate | apply bytes_okb_ok; reflexivity].
Defined.
