(* ===== verification/CtCopyProps.v ===== *)
(** Properties of [nfct_copy], [nfct_copy_attr] and [nfct_clone]
    ([src/libnetfilter_conntrack/api.c], [copy.c]). *)
From S2P Require Import Prelude CMonad Bitops CtObject CtSetter CtGetter CtCopy CtApi CtAttrs.
Open Scope c_scope.

(** ** Copying one attribute *)

(** Attributes whose value is part of the structure itself. *)
Definition scalar (a : nf_conntrack_attr) : bool :=
  negb (variable a) && negb (bool_decide (a = ATTR_SECCTX)).

(** Attributes whose value is a heap block that the object owns. *)
Definition owned (a : nf_conntrack_attr) : bool :=
  match a with
  | ATTR_SECCTX | ATTR_HELPER_INFO | ATTR_CONNLABELS | ATTR_CONNLABELS_MASK => true
  | _ => false
  end.

(** The helper name as a C string: what is before the terminator, 15
    characters at most. *)
Fixpoint until_nul (s : list Z) : list Z :=
  match s with
  | [] => []
  | c :: t => if c =? 0 then [] else c :: until_nul t
  end.
Definition name_text (name : list Z) : list Z := until_nul (take 15 name).

(** The two objects have the same value for an attribute. The name of a helper
    is compared as a string, what is behind its terminator does not matter. *)
Definition same_value (b : nf_conntrack_attr) (x y : nf_conntrack) : Prop :=
  if bool_decide (b = ATTR_HELPER_NAME) then name_text (ct_helper_name x) = name_text (ct_helper_name y)
  else get_attr_array b x = get_attr_array b y.

(** Copying [a] leaves the value of [b] alone. *)
Definition copy_independent (a b : nf_conntrack_attr) : bool :=
  loc_disjoint (attr_loc a) (attr_loc b).

(** The blocks that the object points to are as the library leaves them: a
    terminated security context, and as many bytes of helper information as the
    object says. *)
Definition blocks_ok (ct : nf_conntrack) : Prop :=
  opt_ok (fun s => cstring s = Some s) (ct_secctx ct) /\
  opt_ok (fun i => zlen i = ct_helper_info_len ct) (ct_helper_info ct).

(** Assigning a member from the same member of another union keeps the ranges
    on which the two unions already agree. *)
Lemma slice_copy N n o o' k src dst : blob N src -> blob N dst -> 0 <= o -> o + Z.of_nat n <= N ->
  0 <= o' -> 0 <= k -> o' + k <= N -> slice o' k dst = slice o' k src ->
  slice o' k (u_set n o (u_get n o src) dst) = slice o' k src.
Proof.
  intros [Ls Bs] [Ld Bd] ?????  E. unfold u_set, u_get, rd.
  assert (Henc : le_enc n (le_dec (slice o (Z.of_nat n) src)) = slice o (Z.of_nat n) src).
  { rewrite <- (le_enc_dec (slice o (Z.of_nat n) src)) at 2 by (by apply slice_bytes).
    f_equal. pose proof (zlen_slice o (Z.of_nat n) src). unfold zlen in *. lia. }
  rewrite Henc. apply slice_ext; [lia|]. intros i Hi.
  pose proof (zlen_slice o (Z.of_nat n) src ltac:(lia) ltac:(lia) ltac:(lia)) as Hn.
  destruct (decide (o <= Z.of_nat i < o + Z.of_nat n)).
  - rewrite lookup_splice_in by lia. rewrite lookup_slice by lia. f_equal. lia.
  - rewrite lookup_splice_out by lia.
    apply (f_equal (fun l => l !! (i - Z.to_nat o')%nat)) in E.
    rewrite !lookup_slice in E by lia.
    by replace (Z.to_nat o' + (i - Z.to_nat o'))%nat with i in E by lia.
Qed.

Lemma slice_copy_eq N n k o src dst : blob N src -> blob N dst -> k = Z.of_nat n -> 0 <= o -> o + k <= N ->
  slice o k (u_set n o (u_get n o src) dst) = slice o k src.
Proof.
  intros [Ls Bs] [Ld Bd] -> ??. unfold u_set, u_get, rd.
  pose proof (zlen_slice o (Z.of_nat n) src ltac:(lia) ltac:(lia) ltac:(lia)) as Hn.
  replace n with (length (slice o (Z.of_nat n) src)) at 2 by (unfold zlen in Hn; lia).
  rewrite le_enc_dec by (by apply slice_bytes). rewrite <- Hn at 1. apply slice_splice_eq; lia.
Qed.

Lemma u_set_get_same N n o src dst : blob N src -> 0 <= o -> o + Z.of_nat n <= N -> dst = src ->
  u_set n o (u_get n o src) dst = src.
Proof.
  intros [Ls Bs] ?? ->. unfold u_set, u_get, rd.
  pose proof (zlen_slice o (Z.of_nat n) src ltac:(lia) ltac:(lia) ltac:(lia)) as Hn.
  replace n with (length (slice o (Z.of_nat n) src)) at 1 by (unfold zlen in Hn; lia).
  rewrite le_enc_dec by (by apply slice_bytes). apply list_eq. intros i.
  destruct (decide (o <= Z.of_nat i < o + Z.of_nat n)).
  - rewrite lookup_splice_in by lia. rewrite lookup_slice by lia. f_equal. lia.
  - rewrite lookup_splice_out by lia. done.
Qed.

Lemma strncpy_some n src : (n <= length src)%nat -> exists bs, strncpy n src = Some bs /\ length bs = n.
Proof.
  revert src. induction n as [|n IH]; intros src H; [by exists []|].
  destruct src as [|c t]; [cbn in H; lia|]. cbn. case_match.
  - exists (0 :: replicate n 0). split; [done|]. cbn. by rewrite length_replicate.
  - destruct (IH t) as (bs & -> & Hl); [cbn in H; lia|]. exists (c :: bs). cbn. split; [done|lia].
Qed.

Lemma strncpy_bytes n src bs : Forall byte_ok src -> strncpy n src = Some bs -> Forall byte_ok bs.
Proof.
  intros H. revert n bs. induction H as [|c t Hc Ht IH]; intros [|n] bs; cbn; intros E; simplify_eq; auto.
  case_match; simplify_eq.
  - constructor; [unfold byte_ok; lia|]. apply Forall_replicate. unfold byte_ok; lia.
  - destruct (strncpy n t) eqn:En; cbn in E; simplify_eq. constructor; [done|]. by eapply IH.
Qed.

Lemma strncpy_until_nul n k src bs : (k <= n)%nat -> strncpy n src = Some bs ->
  until_nul (take k bs) = until_nul (take k src).
Proof.
  revert k src bs. induction n as [|n IH]; intros k src bs Hk E; cbn in E.
  { destruct k; [done|lia]. }
  destruct src as [|c t]; [done|]. destruct k as [|k]; [done|].
  destruct (Z.eqb_spec c 0) as [->|Hc].
  - injection E as <-. done.
  - destruct (strncpy n t) as [x|] eqn:En; [|done]. injection E as <-. cbn.
    rewrite (proj2 (Z.eqb_neq c 0)) by done. f_equal. apply IH; [lia|done].
Qed.

(** The copy of a helper name always succeeds and is a 16-byte name with the
    same text. *)
Lemma copy_helper_name_run src w : blob 16 src ->
  exists name, copy_helper_name src w = Ok (name, w) /\ blob 16 name /\ name_text name = name_text src.
Proof.
  intros [Hl Hb]. unfold copy_helper_name.
  destruct (strncpy_some 16 src) as (bs & E & Hbs); [unfold zlen in Hl; lia|].
  change (Z.to_nat NFCT_HELPER_NAME_MAX) with 16%nat. rewrite E. eexists. split; [reflexivity|].
  split; [split; [unfold zlen; rewrite length_insert; lia|]|].
  - apply Forall_insert; [by eapply strncpy_bytes|unfold byte_ok; lia].
  - unfold name_text. change (Z.to_nat (NFCT_HELPER_NAME_MAX - 1)) with 15%nat.
    rewrite take_insert_ge by lia. eapply strncpy_until_nul; [|done]. lia.
Qed.

Lemma cstring_bytes s c : Forall byte_ok s -> cstring s = Some c -> Forall byte_ok c.
Proof.
  intros H. revert c. induction H as [|x t Hx Ht IH]; cbn; intros c E; [done|].
  case_match; simplify_eq; [repeat constructor; unfold byte_ok; lia|].
  destruct (cstring t) eqn:Et; cbn in E; simplify_eq. constructor; auto.
Qed.

Definition same_but_alloc (w w' : world) : Prop := w_mem w' = w_mem w /\ w_errno w' = w_errno w.

Lemma malloc_ok_run w : exists ok w', malloc_ok w = Ok (ok, w') /\ same_but_alloc w w'.
Proof. unfold malloc_ok, same_but_alloc. case_match; eauto 10. Qed.

Lemma same_but_alloc_refl w : same_but_alloc w w.
Proof. done. Qed.

Lemma same_but_alloc_trans w1 w2 w3 :
  same_but_alloc w1 w2 -> same_but_alloc w2 w3 -> same_but_alloc w1 w3.
Proof. intros [? ?] [? ?]. split; congruence. Qed.

#[export] Hint Resolve same_but_alloc_refl same_but_alloc_trans : ct.

Lemma malloc_sure w : w_alloc w = [] -> malloc_ok w = Ok (true, w).
Proof. intros Hw. unfold malloc_ok. by rewrite Hw. Qed.

Section Sure.
(** [sure]: every allocation succeeds. *)
Context (sure : Prop).

(** The attribute has the value of the source. Otherwise it is a block that
    could not be allocated, and the pointer is NULL. *)
Definition taken (b : nf_conntrack_attr) (x orig : nf_conntrack) : Prop :=
  same_value b x orig \/ (owned b = true /\ get_attr_array b x = None /\ ~ sure).

(** The source has a value for the attribute: its block is there. *)
Definition has_value (b : nf_conntrack_attr) (orig : nf_conntrack) : Prop :=
  owned b = true -> is_Some (get_attr_array b orig).

(** What a copy of one attribute does. *)
Definition copies (a : nf_conntrack_attr) (dest orig dest' : nf_conntrack) : Prop :=
  (ct_ok dest' /\ ct_set dest' = ct_set dest) /\
  (has_value a orig -> taken a dest' orig) /\
  (forall b, has_value b orig -> taken b dest orig -> taken b dest' orig) /\
  (forall b, copy_independent a b = true -> get_attr_array b dest' = get_attr_array b dest).

Lemma same_value_get b x y orig : get_attr_array b x = get_attr_array b y ->
  taken b y orig -> taken b x orig.
Proof.
  unfold taken, same_value. intros E [H|(Ho & H & Hs)]; [left|right; by rewrite E].
  case_bool_decide as Hb; [|by rewrite E]. subst b. by injection E as ->.
Qed.

(** A copy that assigns one field that no other attribute shares. *)
Lemma copies_block a dest orig dest' :
  ct_ok dest' -> ct_set dest' = ct_set dest -> (has_value a orig -> taken a dest' orig) ->
  (forall b, b <> a -> get_attr_array b dest' = get_attr_array b dest) ->
  (forall b, copy_independent a b = true -> b <> a) ->
  copies a dest orig dest'.
Proof.
  intros Hok Hs Ha H Hi. split; [done|]. split; [done|]. split; [|by auto].
  intros b Hv. destruct (decide (b = a)) as [->|Hne]; [by auto|]. apply same_value_get. by apply H.
Qed.

Definition alloc_run (w w' : world) : Prop := same_but_alloc w w' /\ (sure -> w_alloc w' = []).

Lemma malloc_sure_run w : (sure -> w_alloc w = []) ->
  exists ok w', malloc_ok w = Ok (ok, w') /\ alloc_run w w' /\ (sure -> ok = true).
Proof.
  intros Hs. destruct (malloc_ok_run w) as (ok & w' & Hm & Hw). exists ok, w'.
  split; [done|]. split; [split; [done|]|]; intros H; pose proof (malloc_sure w (Hs H)) as E;
    rewrite E in Hm; injection Hm as <- <-; auto.
Qed.

Lemma copy_secctx_run dest orig w : ct_ok dest -> ct_ok orig -> blocks_ok orig -> (sure -> w_alloc w = []) ->
  exists dest' w', copy_attr_secctx dest orig w = Ok (dest', w') /\ alloc_run w w' /\
    copies ATTR_SECCTX dest orig dest'.
Proof.
  intros Hd Ho [Hb _] Hs. unfold copy_attr_secctx. pose proof (ok_secctx _ Ho) as Hsc.
  assert (Hc : forall s, opt_ok (Forall byte_ok) s -> (s = ct_secctx orig \/ s = None /\ ~ sure) ->
            copies ATTR_SECCTX dest orig (with_ct_secctx s dest)).
  { intros s H Hv. apply copies_block; [ct_ok_with Hd|done| |by intros []|by intros []].
    intros _. destruct Hv as [->|[-> ?]]; [by left|by right]. }
  destruct (ct_secctx orig) as [s|]; cbn in Hb, Hsc.
  - unfold strdup, bind. rewrite Hb. destruct (malloc_sure_run w Hs) as ([] & w' & -> & Hw & Hsure).
    + eexists _, w'. split; [reflexivity|]. split; [done|]. apply (Hc (Some s)); [done|by left].
    + eexists _, w'. split; [reflexivity|]. split; [done|]. apply (Hc None); [done|].
      right. split; [done|]. intros H. by apply Hsure in H.
  - eexists _, w. split; [done|]. split; [done|]. by apply (Hc None); [|left].
Qed.

Lemma copy_help_info_run dest orig w : ct_ok dest -> ct_ok orig -> blocks_ok orig -> (sure -> w_alloc w = []) ->
  exists dest' w', copy_attr_help_info dest orig w = Ok (dest', w') /\ alloc_run w w' /\
    copies ATTR_HELPER_INFO dest orig dest'.
Proof.
  intros Hd Ho [_ Hb] Hs. unfold copy_attr_help_info. pose proof (ok_helper_info _ Ho) as Hsc.
  assert (Hc : forall d, ct_ok d -> ct_set d = ct_set dest ->
            (forall b, b <> ATTR_HELPER_INFO -> get_attr_array b d = get_attr_array b dest) ->
            (has_value ATTR_HELPER_INFO orig -> taken ATTR_HELPER_INFO d orig) ->
            copies ATTR_HELPER_INFO dest orig d).
  { intros d H1 H2 H3 H4. apply copies_block; try done. by intros []. }
  destruct (ct_helper_info orig) as [s|] eqn:Es; cbn in Hb, Hsc.
  - unfold bind. destruct (malloc_sure_run w Hs) as ([] & w' & -> & Hw & Hsure); cbn.
    + rewrite <- Hb, Z.leb_refl, slice_all. eexists _, w'. split; [done|]. split; [done|].
      apply Hc; [ct_ok_with Hd|done|by intros []|]. intros _. left.
      unfold same_value. cbn. unfold get_attr_helper_info. by rewrite Es.
    + eexists _, w'. split; [done|]. split; [done|]. apply Hc; [by ct_ok_with Hd|done|by intros []|].
      intros _. right. split_and!; [done|done|]. intros H. by apply Hsure in H.
  - eexists _, w. split; [done|]. split; [done|]. apply Hc; try done. intros Hv.
    destruct (Hv eq_refl) as [v Hv']. cbn in Hv'. unfold get_attr_helper_info in Hv'. by rewrite Es in Hv'.
Qed.

Lemma clone_labels_run d o w : opt_ok bitmask_ok d -> opt_ok bitmask_ok o -> (sure -> w_alloc w = []) ->
  exists l w', do_copy_attr_connlabels d o w = Ok (l, w') /\ alloc_run w w' /\ opt_ok bitmask_ok l /\
    (is_Some o -> l = o \/ l = None /\ ~ sure).
Proof.
  intros Hd Ho Hs. unfold do_copy_attr_connlabels, nfct_bitmask_clone, bind.
  destruct o as [b|]; [|exists d, w; split_and!; try done; by intros []].
  destruct (malloc_sure_run w Hs) as ([] & w' & -> & Hw & Hsure); eexists _, w';
    (split; [done|]; split; [done|]; split; [done|]; intros _); [by left|right].
  split; [done|]. intros H. by apply Hsure in H.
Qed.

Ltac copy_eq :=
  first [ reflexivity
        | unfold get_attr_array; lazymatch goal with |- ?f _ = _ => unfold f end; cbn; do 2 f_equal;
          eapply slice_copy_eq; [eassumption|eassumption|done|done|done] ].
Ltac copy_keep E :=
  first [ reflexivity | exact E
        | unfold get_attr_array in E |- *; lazymatch goal with |- ?f _ = _ => unfold f in E |- * end;
          cbn in E |- *; do 2 f_equal; injection E as E;
          first [ eapply slice_copy; [eassumption|eassumption|done|done|done|done|done|exact E]
                | eapply u_set_get_same; [eassumption|done|done|exact E] ] ].

Lemma copy_scalar_run a dest orig w : ct_ok dest -> ct_ok orig -> scalar a = true ->
  exists dest', copy_attr_array a dest orig w = Ok (dest', w) /\
    (ct_ok dest' /\ ct_set dest' = ct_set dest) /\
    get_attr_array a dest' = get_attr_array a orig /\
    (forall b, scalar b = true -> get_attr_array b dest = get_attr_array b orig ->
       get_attr_array b dest' = get_attr_array b orig) /\
    (forall b, scalar b = false -> get_attr_array b dest' = get_attr_array b dest) /\
    (forall b, copy_independent a b = true -> get_attr_array b dest' = get_attr_array b dest).
Proof.
  intros Hd Ho Ha. ct_parts Hd. ct_parts Ho.
  destruct a; try done; eexists; (split; [reflexivity|]).
  all: split; [split; [ct_ok_with Hd; ok_struct|reflexivity]|].
  all: split; [copy_eq|].
  all: split; [intros b Hb E; destruct b; try discriminate Hb; first [discriminate E | copy_keep E | frame_get]|].
  all: split; [intros b Hb; destruct b; first [discriminate Hb | reflexivity]|].
  all: intros b E; destruct b; first [discriminate E | frame_get].
Qed.

Lemma scalar_same b x y : scalar b = true -> same_value b x y <-> get_attr_array b x = get_attr_array b y.
Proof. intros Hb. unfold same_value. rewrite bool_decide_eq_false_2; [done|]. by intros ->. Qed.

Lemma scalar_owned b : scalar b = true -> owned b = false.
Proof. by destruct b. Qed.

Lemma copy_attr_run a dest orig w : ct_ok dest -> ct_ok orig -> blocks_ok orig -> (sure -> w_alloc w = []) ->
  exists dest' w', copy_attr_array a dest orig w = Ok (dest', w') /\ alloc_run w w' /\
    copies a dest orig dest'.
Proof.
  intros Hd Ho Hb Hs. destruct (scalar a) eqn:Ha.
  - destruct (copy_scalar_run a dest orig w Hd Ho Ha) as (d & Hr & Hok & Hg & Hk & Hx & Hf).
    exists d, w. split; [done|]. split; [done|]. split; [done|]. split; [|split; [|done]].
    + intros _. left. by apply scalar_same.
    + intros b _ Ht. destruct (scalar b) eqn:Eb; [|by apply (same_value_get _ _ dest); [apply Hx|]].
      left. apply scalar_same; [done|]. apply Hk; [done|].
      destruct Ht as [Ht|[Ht _]]; [by apply scalar_same in Ht|]. by rewrite scalar_owned in Ht.
  - destruct a; try done.
    + destruct (copy_helper_name_run (ct_helper_name orig) w (ok_helper_name _ Ho)) as (n & Hn & Hbn & Ht).
      exists (with_ct_helper_name n dest), w. cbn [copy_attr_array].
      unfold copy_attr_helper_name, bind. rewrite Hn. split; [done|]. split; [done|].
      apply copies_block; [ct_ok_with Hd|done| |by intros []|by intros []]. intros _. by left.
    + by apply copy_secctx_run.
    + by apply copy_help_info_run.
    + destruct (clone_labels_run (ct_connlabels dest) (ct_connlabels orig) w
                  (ok_connlabels _ Hd) (ok_connlabels _ Ho) Hs) as (l & w' & Hl & Hw & Hok & Hv).
      exists (with_ct_connlabels l dest), w'. cbn [copy_attr_array].
      unfold copy_attr_connlabels, bind. rewrite Hl. split; [done|]. split; [done|].
      apply copies_block; [ct_ok_with Hd|done| |by intros []|by intros []].
      intros [v E]; [done|]. apply fmap_Some in E as (m & E & _). rewrite E in *.
      destruct Hv as [->|[-> ?]]; [by eauto| |by right]. left. unfold same_value. cbn. unfold get_attr_connlabels. cbn. by rewrite ?E.
    + destruct (clone_labels_run (ct_connlabels_mask dest) (ct_connlabels_mask orig) w
                  (ok_connlabels_mask _ Hd) (ok_connlabels_mask _ Ho) Hs) as (l & w' & Hl & Hw & Hok & Hv).
      exists (with_ct_connlabels_mask l dest), w'. cbn [copy_attr_array].
      unfold copy_attr_connlabels_mask, bind. rewrite Hl. split; [done|]. split; [done|].
      apply copies_block; [ct_ok_with Hd|done| |by intros []|by intros []].
      intros [v E]; [done|]. apply fmap_Some in E as (m & E & _). rewrite E in *.
      destruct Hv as [->|[-> ?]]; [by eauto| |by right]. left. unfold same_value. cbn. unfold get_attr_connlabels_mask. cbn. by rewrite ?E.
Qed.

(** ** The loops of nfct_copy *)

(** What copying the attributes of [sel] that are set in [orig] does: the
    destination stays well formed; it has its own attributes and the selected
    ones of the source; these have the value of the source, one that the
    destination already had from the source keeps it, and what overlaps none of
    them is unchanged. *)
Record copied (sel : nf_conntrack_attr -> bool) (dest orig dest' : nf_conntrack) : Prop := {
  cp_ok : ct_ok dest';
  cp_set : forall b, attr_is_set b dest' = attr_is_set b dest || (sel b && attr_is_set b orig);
  cp_value : forall b, sel b = true -> attr_is_set b orig = true -> has_value b orig -> taken b dest' orig;
  cp_keep : forall b, has_value b orig -> taken b dest orig -> taken b dest' orig;
  cp_frame : forall b,
    (forall a, sel a = true -> attr_is_set a orig = true -> copy_independent a b = true) ->
    get_attr_array b dest' = get_attr_array b dest
}.

Lemma copied_ext sel sel' dest orig dest' : (forall b, sel b = sel' b) ->
  copied sel dest orig dest' -> copied sel' dest orig dest'.
Proof.
  intros E [O S G K F]. split; [done|..]; intros b; rewrite <- ?E; auto.
  intros H. apply F. intros a. rewrite E. auto.
Qed.

Lemma copied_nil dest orig : ct_ok dest -> copied (fun _ => false) dest orig dest.
Proof. intros H. split; [done| |done|done|done]. intros b. by rewrite orb_false_r. Qed.

Lemma copied_app l k d0 orig d1 d2 :
  copied l d0 orig d1 -> copied k d1 orig d2 -> copied (fun b => l b || k b) d0 orig d2.
Proof.
  intros [O1 S1 G1 K1 F1] [O2 S2 G2 K2 F2]. split; [done|..].
  - intros b. rewrite S2, S1, andb_orb_distrib_l. by rewrite orb_assoc.
  - intros b Hlk Hs Hv. destruct (l b) eqn:El; [|by apply G2]. apply K2; [done|]. by apply G1.
  - auto.
  - intros b H. transitivity (get_attr_array b d1).
    + apply F2. intros a Ha. apply H. by rewrite Ha, orb_true_r.
    + apply F1. intros a Ha. apply H. by rewrite Ha.
Qed.

Lemma taken_attr_set b a d orig : taken b d orig -> taken b (attr_set a d) orig.
Proof. apply same_value_get, get_attr_array_attr_set. Qed.

Lemma copied_one a dest orig dest' : ct_ok dest -> copies a dest orig dest' ->
  attr_is_set a orig = true -> copied (fun b => bool_decide (b = a)) dest orig (attr_set a dest').
Proof.
  intros Hd ([Hok Hs] & Hg & Hk & Hf) Ha. split; [by apply ct_ok_attr_set|..].
  - intros b. rewrite attr_is_set_attr_set by apply Hok.
    unfold attr_is_set at 1 2. rewrite Hs. case_bool_decide; [subst b|by rewrite orb_false_r].
    cbn. rewrite Ha. by rewrite orb_true_r.
  - intros b ->%bool_decide_eq_true _ Hv. by apply taken_attr_set, Hg.
  - intros b Hv Ht. by apply taken_attr_set, Hk.
  - intros b H. rewrite get_attr_array_attr_set. apply Hf, H; [by apply bool_decide_eq_true|done].
Qed.

Lemma copied_unset a dest orig : ct_ok dest -> attr_is_set a orig = false ->
  copied (fun b => bool_decide (b = a)) dest orig dest.
Proof.
  intros Hd Ha. split; [done| | |done|done].
  - intros b. case_bool_decide; [subst b; by rewrite Ha, orb_false_r|by rewrite orb_false_r].
  - intros b ->%bool_decide_eq_true H. congruence.
Qed.

Lemma alloc_run_trans w1 w2 w3 : alloc_run w1 w2 -> alloc_run w2 w3 -> alloc_run w1 w3.
Proof. intros [? ?] [? ?]. split; [eauto with ct|done]. Qed.

Lemma copy_one_run a dest orig w : ct_ok dest -> ct_ok orig -> blocks_ok orig -> (sure -> w_alloc w = []) ->
  exists dest' w', copy_one dest orig a w = Ok (dest', w') /\ alloc_run w w' /\
    copied (fun b => bool_decide (b = a)) dest orig dest'.
Proof.
  intros Hd Ho Hb Hs. unfold copy_one. destruct (attr_is_set a orig) eqn:Ha.
  - destruct (copy_attr_run a dest orig w Hd Ho Hb Hs) as (d & w' & Hr & Hw & Hc).
    exists (attr_set a d), w'. unfold bind. rewrite Hr. split; [done|]. split; [done|].
    by apply copied_one.
  - exists dest, w. split; [done|]. split; [done|]. by apply copied_unset.
Qed.

Lemma copy_loop_run l dest orig w : ct_ok dest -> ct_ok orig -> blocks_ok orig -> (sure -> w_alloc w = []) ->
  exists dest' w', copy_loop dest orig l w = Ok (dest', w') /\ alloc_run w w' /\
    copied (fun b => bool_decide (b ∈ l)) dest orig dest'.
Proof.
  intros Hd Ho Hb. revert dest w Hd. induction l as [|a l IH]; intros dest w Hd Hs; cbn.
  - exists dest, w. split; [done|]. split; [done|]. eapply copied_ext; [|by apply copied_nil]. done.
  - destruct (copy_one_run a dest orig w Hd Ho Hb Hs) as (d1 & w1 & H1 & Hw1 & Hc1).
    destruct (IH d1 w1) as (d2 & w2 & H2 & Hw2 & Hc2); [apply Hc1|apply Hw1|].
    exists d2, w2. unfold bind. rewrite H1. split; [done|]. split; [by eapply alloc_run_trans|].
    eapply copied_ext; [|by eapply copied_app]. intros b. cbn.
    rewrite <- bool_decide_or. apply bool_decide_ext. by rewrite elem_of_cons.
Qed.

(** A conditional loop copies its mask or nothing. *)
Lemma copy_if_run (c : bool) l dest orig w : ct_ok dest -> ct_ok orig -> blocks_ok orig -> (sure -> w_alloc w = []) ->
  exists dest' w', (if c then copy_loop dest orig l else ret dest) w = Ok (dest', w') /\
    alloc_run w w' /\ copied (fun b => c && bool_decide (b ∈ l)) dest orig dest'.
Proof.
  intros. destruct c; [by apply copy_loop_run|]. exists dest, w.
  split; [done|]. split; [done|]. by apply copied_nil.
Qed.

(** With [NFCT_CP_OVERRIDE] the destination becomes a clone of the source. *)
Definition overridden (orig dest' : nf_conntrack) : Prop :=
  (forall b, attr_is_set b dest' = attr_is_set b orig) /\
  (forall b, get_attr_array b dest' = get_attr_array b orig \/
             (owned b = true /\ get_attr_array b dest' = None /\ ~ sure)) /\
  (sure -> dest' = orig).
End Sure.

(** The groups of attributes that the flags of [nfct_copy] select, as they are
    documented: everything, what identifies the flow in a direction (the
    attributes that are stored in the addresses, ports or protocol numbers of
    its tuple), and everything from [ATTR_TCP_STATE] on. *)
Definition identifies (t : tsel) (a : nf_conntrack_attr) : bool :=
  match loc_fld (attr_loc a) with
  | FSrc t' | FDst t' | FL3 t' | FL4 t' | FL4src t' | FL4dst t' => bool_decide (t' = t)
  | _ => false
  end.
Definition in_group (flags : Z) (a : nf_conntrack_attr) : bool :=
  (flags =? 0) || (Z.testbit flags 0 && identifies TOrig a) || (Z.testbit flags 1 && identifies TRepl a) ||
  (Z.testbit flags 2 && (attr_idx ATTR_TCP_STATE <=? attr_idx a)).

(** ** Clone *)

Section Clone.
Context (ct : nf_conntrack) (w : world) (Hblocks : blocks_ok ct) (Hw : w_alloc w = []).

Lemma clone_secctx d : copy_attr_secctx d ct w = Ok (with_ct_secctx (ct_secctx ct) d, w).
Proof.
  destruct Hblocks as [Hs _]. unfold copy_attr_secctx, strdup.
  destruct (ct_secctx ct) as [s|]; [|done]. cbn in Hs. rewrite Hs. unfold bind. by rewrite (malloc_sure w Hw).
Qed.

Lemma clone_help_info d : ct_helper_info d = None ->
  copy_attr_help_info d ct w = Ok (with_ct_helper_info (ct_helper_info ct) d, w).
Proof.
  intros Hd. destruct Hblocks as [_ Hi]. unfold copy_attr_help_info.
  destruct (ct_helper_info ct) as [i|]; [|destruct d; cbn in Hd; by subst].
  cbn in Hi. unfold bind. rewrite (malloc_sure w Hw), <- Hi. cbn. by rewrite Z.leb_refl, slice_all.
Qed.

Lemma clone_labels l : do_copy_attr_connlabels None l w = Ok (l, w).
Proof. destruct l; [|done]. cbn. unfold nfct_bitmask_clone, bind. by rewrite (malloc_sure w Hw). Qed.

Lemma copy_fast_sure dest : __copy_fast dest ct w = Ok (ct, w).
Proof.
  unfold __copy_fast, bind. rewrite clone_secctx, clone_help_info by done.
  unfold copy_attr_connlabels, copy_attr_connlabels_mask, bind. cbn. rewrite clone_labels. cbn.
  rewrite clone_labels. cbn. by destruct ct as [[] ? ? ? ? ? ? ? ? ? ? ? ? ? ? ? ? ? ? ? ? ? ?].
Qed.

End Clone.

(** [__copy_fast] for any outcome of the allocations. *)
Lemma copy_fast_run dest orig w : ct_ok orig -> blocks_ok orig ->
  exists dest' w', __copy_fast dest orig w = Ok (dest', w') /\ same_but_alloc w w' /\
    overridden (w_alloc w = []) orig dest'.
Proof.
  intros Ho Hb. destruct (decide (w_alloc w = [])) as [Hw|Hw].
  { exists orig, w. split; [by apply copy_fast_sure|]. split; [done|]. split; [done|]. split; [by left|done]. }
  set (d0 := with_ct_secctx None (with_ct_helper_info None
              (with_ct_connlabels None (with_ct_connlabels_mask None orig)))).
  assert (exists s w1, copy_attr_secctx d0 orig w = Ok (with_ct_secctx s d0, w1) /\ same_but_alloc w w1 /\
            (s = ct_secctx orig \/ s = None)) as (s & w1 & H1 & Hw1 & Hs).
  { destruct Hb as [Hb _]. unfold copy_attr_secctx. destruct (ct_secctx orig) as [s|]; cbn in Hb.
    - unfold strdup, bind. rewrite Hb. destruct (malloc_ok_run w) as ([] & w' & -> & Hw');
        [exists (Some s), w'|exists None, w']; auto.
    - exists None, w. auto with ct. }
  set (d1 := with_ct_secctx s d0) in *.
  assert (exists i w2, copy_attr_help_info d1 orig w1 = Ok (with_ct_helper_info i d1, w2) /\ same_but_alloc w1 w2 /\
            (i = ct_helper_info orig \/ i = None)) as (i & w2 & H2 & Hw2 & Hi).
  { destruct Hb as [_ Hb]. unfold copy_attr_help_info. destruct (ct_helper_info orig) as [i|]; cbn in Hb.
    - unfold bind. destruct (malloc_ok_run w1) as ([] & w' & -> & Hw'); cbn;
        [rewrite <- Hb, Z.leb_refl, slice_all; exists (Some i), w'|exists None, w']; auto.
    - exists None, w1. auto with ct. }
  set (d2 := with_ct_helper_info i d1) in *.
  assert (forall (o : option nfct_bitmask) w, exists l w', do_copy_attr_connlabels None o w = Ok (l, w') /\
            same_but_alloc w w' /\ (l = o \/ l = None)) as Hl.
  { intros [b|] v; [|exists None, v; auto with ct]. unfold do_copy_attr_connlabels, nfct_bitmask_clone, bind.
    destruct (malloc_ok_run v) as ([] & w' & -> & Hw'); [exists (Some b), w'|exists None, w']; auto. }
  destruct (Hl (ct_connlabels orig) w2) as (l & w3 & H3 & Hw3 & Hl1).
  destruct (Hl (ct_connlabels_mask orig) w3) as (m & w4 & H4 & Hw4 & Hl2).
  exists (with_ct_connlabels_mask m (with_ct_connlabels l d2)), w4.
  split. { unfold __copy_fast. fold d0. unfold bind. rewrite H1, H2.
    unfold copy_attr_connlabels, copy_attr_connlabels_mask, bind. cbn. rewrite H3. cbn. by rewrite H4. }
  split; [eauto 6 with ct|]. split; [done|]. split; [|done].
  intros b. destruct b; try (by left); cbn;
    unfold get_attr_secctx, get_attr_helper_info, get_attr_connlabels, get_attr_connlabels_mask; cbn;
    [destruct Hs as [->| ->]|destruct Hi as [->| ->]|destruct Hl1 as [->| ->]|destruct Hl2 as [->| ->]]; auto.
Qed.

Lemma in_group_masks flags b : Z.land flags NFCT_CP_OVERRIDE = 0 ->
  in_group flags b =
    if flags =? NFCT_CP_ALL then bool_decide (b ∈ all_attrs)
    else (negb (Z.land flags NFCT_CP_ORIG =? 0) && bool_decide (b ∈ cp_orig_mask)) ||
         ((negb (Z.land flags NFCT_CP_REPL =? 0) && bool_decide (b ∈ cp_repl_mask)) ||
          (negb (Z.land flags NFCT_CP_META =? 0) && bool_decide (b ∈ cp_meta_mask))).
Proof.
  intros _. unfold in_group, NFCT_CP_ALL.
  rewrite !(Z.land_comm flags). rewrite (land_mask_testbit 0), (land_mask_testbit 1), (land_mask_testbit 2) by lia.
  assert (bool_decide (b ∈ all_attrs) = true) as -> by by destruct b.
  assert (bool_decide (b ∈ cp_orig_mask) = identifies TOrig b) as -> by by destruct b.
  assert (bool_decide (b ∈ cp_repl_mask) = identifies TRepl b) as -> by by destruct b.
  assert (bool_decide (b ∈ cp_meta_mask) = (attr_idx ATTR_TCP_STATE <=? attr_idx b)) as -> by by destruct b.
  destruct (flags =? 0); [done|]. by rewrite <- orb_assoc.
Qed.

(** C16: [nfct_copy], for any flags, any two different well-formed objects whose
    blocks are as long as the source says, and any outcome of the allocations:
    it returns. Without [NFCT_CP_OVERRIDE] the destination stays well formed; it
    has exactly its own attributes plus those of the documented groups of the
    flags that the source has; every such attribute has the value of the source,
    even when attributes share storage (the name of a helper as a string; a
    block is equal, or NULL when an allocation failed); and an attribute that
    none of them overlaps is unchanged. With [NFCT_CP_OVERRIDE] the destination
    has exactly the attributes and values of the source, and is equal to it when
    the allocations succeed. *)
Theorem nfct_copy_correct dest orig flags w :
  ct_ok dest -> ct_ok orig -> blocks_ok orig ->
  exists dest' w', nfct_copy dest orig flags w = Ok (dest', w') /\ same_but_alloc w w' /\
    if Z.testbit flags 3 then overridden (w_alloc w = []) orig dest'
    else copied (w_alloc w = []) (in_group flags) dest orig dest'.
Proof.
  intros Hd Ho Hb. unfold nfct_copy.
  assert (negb (Z.land flags NFCT_CP_OVERRIDE =? 0) = Z.testbit flags 3) as E
    by (rewrite Z.land_comm; by apply (land_mask_testbit 3)).
  rewrite E. destruct (Z.testbit flags 3); [by apply copy_fast_run|].
  apply negb_false_iff, Z.eqb_eq in E. pose proof (fun b => in_group_masks flags b E) as Hg.
  destruct (flags =? NFCT_CP_ALL).
  { destruct (copy_loop_run (w_alloc w = []) all_attrs dest orig w) as (d & w' & Hr & [Hw _] & Hc); try done.
    exists d, w'. split; [done|]. split; [done|]. eapply copied_ext; [|exact Hc]. intros b. by rewrite Hg. }
  destruct (copy_if_run (w_alloc w = []) (negb (Z.land flags NFCT_CP_ORIG =? 0)) cp_orig_mask dest orig w)
    as (d1 & w1 & H1 & Hw1 & Hc1); try done.
  destruct (copy_if_run (w_alloc w = []) (negb (Z.land flags NFCT_CP_REPL =? 0)) cp_repl_mask d1 orig w1)
    as (d2 & w2 & H2 & Hw2 & Hc2); try done; [apply Hc1|apply Hw1|].
  destruct (copy_if_run (w_alloc w = []) (negb (Z.land flags NFCT_CP_META =? 0)) cp_meta_mask d2 orig w2)
    as (d3 & w3 & H3 & Hw3 & Hc3); try done; [apply Hc2|apply Hw2|].
  exists d3, w3. unfold bind. rewrite H1, H2, H3. split; [done|].
  split; [eapply same_but_alloc_trans; [apply Hw1|eapply same_but_alloc_trans; [apply Hw2|apply Hw3]]|].
  eapply copied_ext; [|eapply copied_app; [exact Hc1|eapply copied_app; [exact Hc2|exact Hc3]]].
  intros b. by rewrite Hg.
Qed.

(** A source with a mark and a helper name, copied onto an object with a zone. *)
Definition copy_source : nf_conntrack :=
  attr_set ATTR_HELPER_NAME (with_ct_helper_name (102 :: 116 :: 112 :: replicate 13 0)
    (attr_set ATTR_MARK (with_ct_mark 7 zero_ct))).

Lemma nfct_copy_correct_witness :
  exists dest' w', nfct_copy (attr_set ATTR_ZONE zero_ct) copy_source NFCT_CP_META (mk_world [] 0 []) = Ok (dest', w') /\
    attr_is_set ATTR_MARK dest' = true /\ attr_is_set ATTR_ZONE dest' = true /\
    name_text (ct_helper_name dest') = [102; 116; 112].
Proof.
  destruct (nfct_copy_correct (attr_set ATTR_ZONE zero_ct) copy_source NFCT_CP_META (mk_world [] 0 []))
    as (dest' & w' & Hr & _ & Hc).
  - apply ct_ok_attr_set, zero_ct_ok.
  - apply ct_ok_attr_set. pose proof (ct_ok_attr_set ATTR_MARK _ zero_ct_ok) as H. ct_ok_with H.
    + by split.
    + split; [done|]. by apply bytes_okb_ok.
  - split; exact I.
  - change (Z.testbit NFCT_CP_META 3) with false in Hc. cbv iota in Hc.
    exists dest', w'. split; [exact Hr|]. rewrite !(cp_set _ _ _ _ _ Hc).
    split; [reflexivity|]. split; [reflexivity|].
    destruct (cp_value _ _ _ _ _ Hc ATTR_HELPER_NAME) as [H|[H _]]; [done|done|done|exact H|done].
Defined.


(** When the allocations succeed, [nfct_clone] returns an object equal to
    the original in every field, heap blocks included, provided that the blocks
    are as long as the object says. *)
Theorem nfct_clone_equal ct w :
  blocks_ok ct -> w_alloc w = [] -> nfct_clone ct w = Ok (Some ct, w).
Proof.
  intros Hb Hw. unfold nfct_clone, nfct_new, bind. rewrite malloc_sure by done. unfold ret at 1.
  change (nfct_copy zero_ct ct NFCT_CP_OVERRIDE) with (__copy_fast zero_ct ct).
  by rewrite copy_fast_sure.
Qed.

Lemma nfct_clone_equal_witness :
  nfct_clone (with_ct_secctx (Some [65; 0]) zero_ct) (mk_world [] 0 [])
  = Ok (Some (with_ct_secctx (Some [65; 0]) zero_ct), mk_world [] 0 []).
Proof. apply nfct_clone_equal; [split; [reflexivity|exact I]|reflexivity]. Defined.

(** Helper information set through [nfct_set_attr_l] is lost by
    [nfct_clone]: the setter stores the block but not its length, and the copy
    allocates and copies [helper_info_len] bytes, which is still zero. The
    object the setter leaves therefore breaks [blocks_ok] unless the block is
    empty. *)
Theorem clone_loses_helper_info bs w : w_alloc w = [] -> exists ct ct',
  nfct_set_attr_l zero_ct (attr_idx ATTR_HELPER_INFO) (Some (VBytes bs)) (zlen bs) w = Ok (ct, w) /\
  (blocks_ok ct <-> bs = []) /\
  nfct_get_attr ct (attr_idx ATTR_HELPER_INFO) w = Ok (Some (VBytes bs), w) /\
  nfct_clone ct w = Ok (Some ct', w) /\
  nfct_get_attr ct' (attr_idx ATTR_HELPER_INFO) w = Ok (Some (VBytes []), w).
Proof.
  intros Hw. pose proof (malloc_sure w Hw) as Hm.
  set (ct := attr_set ATTR_HELPER_INFO (with_ct_helper_info (Some bs) zero_ct)).
  exists ct, (with_ct_helper_info (Some []) ct). split.
  { unfold nfct_set_attr_l. rewrite attr_of_idx_idx. cbn [set_attr_array].
    unfold set_attr_helper_info, bind. rewrite Hm. cbn [negb].
    rewrite val_bytes_ok by lia. by rewrite slice_all. }
  split.
  { split; [intros [_ Hi]; by destruct bs|]. intros ->. by split. }
  split; [done|]. split; [|done].
  unfold nfct_clone, nfct_new, bind. rewrite Hm. unfold ret at 1.
  change (nfct_copy zero_ct ct NFCT_CP_OVERRIDE) with (__copy_fast zero_ct ct).
  unfold __copy_fast, copy_attr_help_info, bind. cbn. rewrite Hm. cbn.
  by rewrite (proj2 (Z.leb_le 0 (zlen bs)) (zlen_nonneg bs)).
Qed.

Lemma clone_loses_helper_info_witness : exists ct ct',
  nfct_set_attr_l zero_ct (attr_idx ATTR_HELPER_INFO) (Some (VBytes [1; 2])) (zlen [1; 2])
    (mk_world [] 0 []) = Ok (ct, mk_world [] 0 []) /\
  (blocks_ok ct <-> [1; 2] = []) /\
  nfct_get_attr ct (attr_idx ATTR_HELPER_INFO) (mk_world [] 0 [])
    = Ok (Some (VBytes [1; 2]), mk_world [] 0 []) /\
  nfct_clone ct (mk_world [] 0 []) = Ok (Some ct', mk_world [] 0 []) /\
  nfct_get_attr ct' (attr_idx ATTR_HELPER_INFO) (mk_world [] 0 [])
    = Ok (Some (VBytes []), mk_world [] 0 []).
Proof. apply (clone_loses_helper_info [1; 2] (mk_world [] 0 [])). reflexivity. Defined.

(** Copying helper information onto an object that has some replaces the block,
    but not its length: afterwards the object says that its two bytes are four. *)
Theorem copy_keeps_helper_info_len :
  exists dest orig dest' w',
    blocks_ok dest /\ blocks_ok orig /\
    nfct_copy dest orig NFCT_CP_ALL (mk_world [] 0 []) = Ok (dest', w') /\
    ct_helper_info dest' = Some [1; 2] /\ ct_helper_info_len dest' = 4 /\ ~ blocks_ok dest'.
Proof.
  exists (attr_set ATTR_HELPER_INFO (with_ct_helper_info (Some [0; 0; 0; 0]) (with_ct_helper_info_len 4 zero_ct))).
  exists (attr_set ATTR_HELPER_INFO (with_ct_helper_info (Some [1; 2]) (with_ct_helper_info_len 2 zero_ct))).
  eexists _, _. split; [by split|]. split; [by split|]. split; [vm_compute; reflexivity|].
  split; [reflexivity|]. split; [reflexivity|]. intros [_ H]. by vm_compute in H.
Qed.
