(* ===== verification/CtCompare.v ===== *)
(** Comparison of conntrack objects: [src/libnetfilter_conntrack/compare.c] and
    the entry points [nfct_compare] and [nfct_cmp] of [api.c].  A comparison
    returns its C truth value as a [bool]; it runs in the monad because the
    getters set [errno] for absent attributes and [strcmp] may read past the end
    of a block. *)
From stdpp Require Import gmap.
From S2P Require Import Prelude CMonad Bitops CtObject CtSetter CtGetter CtCopy CtApi CtAttrs.
Open Scope c_scope.

(** ** Flags and protocols *)

Definition NFCT_CMP_ALL : Z := 0.
Definition NFCT_CMP_ORIG : Z := 1.
Definition NFCT_CMP_REPL : Z := 2.
Definition NFCT_CMP_TIMEOUT_EQ : Z := 4.
Definition NFCT_CMP_TIMEOUT_GT : Z := 8.
Definition NFCT_CMP_TIMEOUT_GE : Z := Z.lor NFCT_CMP_TIMEOUT_EQ NFCT_CMP_TIMEOUT_GT.
Definition NFCT_CMP_TIMEOUT_LT : Z := 16.
Definition NFCT_CMP_TIMEOUT_LE : Z := Z.lor NFCT_CMP_TIMEOUT_EQ NFCT_CMP_TIMEOUT_LT.
Definition NFCT_CMP_MASK : Z := 32.
Definition NFCT_CMP_STRICT : Z := 64.
Definition __NFCT_CMP_TIMEOUT : Z := Z.lor NFCT_CMP_TIMEOUT_LE NFCT_CMP_TIMEOUT_GT.

Definition IPPROTO_ICMP : Z := 1.
Definition IPPROTO_TCP : Z := 6.
Definition IPPROTO_UDP : Z := 17.
Definition IPPROTO_DCCP : Z := 33.
Definition IPPROTO_GRE : Z := 47.
Definition IPPROTO_ICMPV6 : Z := 58.
Definition IPPROTO_SCTP : Z := 132.
Definition IPPROTO_UDPLITE : Z := 136.

(** [flags & f] as a condition. *)
Definition flag (flags f : Z) : bool := negb (Z.land flags f =? 0).

(** [case A: case B: ...]. *)
Definition one_of (p : Z) (l : list Z) : bool := bool_decide (p ∈ l).

(** [if (!c) return 0;] followed by [k]. *)
Definition andM (c k : M bool) : M bool := let! b := c in if (b : bool) then k else ret false.

(** ** The comparison of one attribute *)

Definition comparator : Type := nf_conntrack -> nf_conntrack -> Z -> M bool.

Definition __cmp (attr : nf_conntrack_attr) (ct1 ct2 : nf_conntrack) (flags : Z)
  (cmp : comparator) (strict : bool) : M bool :=
  let a := attr_is_set attr ct1 in
  let b := attr_is_set attr ct2 in
  if a && b then cmp ct1 ct2 flags
  else if negb a && negb b then ret true
  else if flag flags NFCT_CMP_MASK && attr_is_set attr ct1 then
    if strict then ret false else cmp ct1 ct2 flags
  else if flag flags NFCT_CMP_STRICT then
    if strict then ret false else cmp ct1 ct2 flags
  else ret true.


Definition cmp_orig_l3proto : comparator := fun ct1 ct2 flags =>
  ret (tp_l3protonum (ct_orig ct1) =? tp_l3protonum (ct_orig ct2)).

Definition cmp_icmp_id : comparator := fun ct1 ct2 flags =>
  ret (tp_l4src (ct_orig ct1) =? tp_l4src (ct_orig ct2)).

Definition cmp_icmp_type : comparator := fun ct1 ct2 flags =>
  ret (icmp_type (tp_l4dst (ct_orig ct1)) =? icmp_type (tp_l4dst (ct_orig ct2))).

Definition cmp_icmp_code : comparator := fun ct1 ct2 flags =>
  ret (icmp_code (tp_l4dst (ct_orig ct1)) =? icmp_code (tp_l4dst (ct_orig ct2))).

Definition cmp_orig_port_src : comparator := fun ct1 ct2 flags =>
  ret (tp_l4src (ct_orig ct1) =? tp_l4src (ct_orig ct2)).

Definition cmp_orig_port_dst : comparator := fun ct1 ct2 flags =>
  ret (l4dst_all (tp_l4dst (ct_orig ct1)) =? l4dst_all (tp_l4dst (ct_orig ct2))).

Definition cmp_orig_l4proto : comparator := fun ct1 ct2 flags =>
  let p := tp_protonum (ct_orig ct1) in
  if negb (p =? tp_protonum (ct_orig ct2)) then ret false else
  if one_of p [IPPROTO_ICMP; IPPROTO_ICMPV6] then
    andM (__cmp ATTR_ICMP_ID ct1 ct2 flags cmp_icmp_id true)
    (andM (__cmp ATTR_ICMP_CODE ct1 ct2 flags cmp_icmp_code true)
    (andM (__cmp ATTR_ICMP_TYPE ct1 ct2 flags cmp_icmp_type true) (ret true)))
  else if one_of p [IPPROTO_TCP; IPPROTO_UDP; IPPROTO_UDPLITE; IPPROTO_DCCP; IPPROTO_SCTP] then
    andM (__cmp ATTR_ORIG_PORT_SRC ct1 ct2 flags cmp_orig_port_src true)
    (andM (__cmp ATTR_ORIG_PORT_DST ct1 ct2 flags cmp_orig_port_dst true) (ret true))
  else ret true.

Definition cmp_orig_ipv4_src : comparator := fun ct1 ct2 flags =>
  ret (addr_v4 (tp_src (ct_orig ct1)) =? addr_v4 (tp_src (ct_orig ct2))).

Definition cmp_orig_ipv4_dst : comparator := fun ct1 ct2 flags =>
  ret (addr_v4 (tp_dst (ct_orig ct1)) =? addr_v4 (tp_dst (ct_orig ct2))).

Definition cmp_orig_ipv6_src : comparator := fun ct1 ct2 flags =>
  ret (bool_decide (tp_src (ct_orig ct1) = tp_src (ct_orig ct2))).

Definition cmp_orig_ipv6_dst : comparator := fun ct1 ct2 flags =>
  ret (bool_decide (tp_dst (ct_orig ct1) = tp_dst (ct_orig ct2))).

Definition cmp_orig_zone : comparator := fun ct1 ct2 flags =>
  let! x := nfct_get_attr_u16 ct1 (attr_idx ATTR_ORIG_ZONE) in
  let! y := nfct_get_attr_u16 ct2 (attr_idx ATTR_ORIG_ZONE) in
  ret (x =? y).

Definition __cmp_orig : comparator := fun ct1 ct2 flags =>
  andM (__cmp ATTR_ORIG_L3PROTO ct1 ct2 flags cmp_orig_l3proto true)
  (andM (__cmp ATTR_ORIG_L4PROTO ct1 ct2 flags cmp_orig_l4proto true)
  (andM (__cmp ATTR_ORIG_IPV4_SRC ct1 ct2 flags cmp_orig_ipv4_src true)
  (andM (__cmp ATTR_ORIG_IPV4_DST ct1 ct2 flags cmp_orig_ipv4_dst true)
  (andM (__cmp ATTR_ORIG_IPV6_SRC ct1 ct2 flags cmp_orig_ipv6_src true)
  (andM (__cmp ATTR_ORIG_IPV6_DST ct1 ct2 flags cmp_orig_ipv6_dst true)
  (andM (__cmp ATTR_ORIG_ZONE ct1 ct2 flags cmp_orig_zone false) (ret true))))))).

Definition cmp_repl_l3proto : comparator := fun ct1 ct2 flags =>
  ret (tp_l3protonum (ct_repl ct1) =? tp_l3protonum (ct_repl ct2)).

Definition cmp_repl_port_src : comparator := fun ct1 ct2 flags =>
  ret (tp_l4src (ct_repl ct1) =? tp_l4src (ct_repl ct2)).

Definition cmp_repl_port_dst : comparator := fun ct1 ct2 flags =>
  ret (l4dst_all (tp_l4dst (ct_repl ct1)) =? l4dst_all (tp_l4dst (ct_repl ct2))).

Definition cmp_repl_l4proto : comparator := fun ct1 ct2 flags =>
  let p := tp_protonum (ct_repl ct1) in
  if negb (p =? tp_protonum (ct_repl ct2)) then ret false else
  if one_of p [IPPROTO_ICMP; IPPROTO_ICMPV6] then
    andM (__cmp ATTR_ICMP_ID ct1 ct2 flags cmp_icmp_id true)
    (andM (__cmp ATTR_ICMP_CODE ct1 ct2 flags cmp_icmp_code true)
    (andM (__cmp ATTR_ICMP_TYPE ct1 ct2 flags cmp_icmp_type true) (ret true)))
  else if one_of p [IPPROTO_TCP; IPPROTO_UDP; IPPROTO_UDPLITE; IPPROTO_DCCP; IPPROTO_SCTP] then
    andM (__cmp ATTR_REPL_PORT_SRC ct1 ct2 flags cmp_repl_port_src true)
    (andM (__cmp ATTR_REPL_PORT_DST ct1 ct2 flags cmp_repl_port_dst true) (ret true))
  else ret true.

Definition cmp_repl_ipv4_src : comparator := fun ct1 ct2 flags =>
  ret (addr_v4 (tp_src (ct_repl ct1)) =? addr_v4 (tp_src (ct_repl ct2))).

Definition cmp_repl_ipv4_dst : comparator := fun ct1 ct2 flags =>
  ret (addr_v4 (tp_dst (ct_repl ct1)) =? addr_v4 (tp_dst (ct_repl ct2))).

Definition cmp_repl_ipv6_src : comparator := fun ct1 ct2 flags =>
  ret (bool_decide (tp_src (ct_repl ct1) = tp_src (ct_repl ct2))).

Definition cmp_repl_ipv6_dst : comparator := fun ct1 ct2 flags =>
  ret (bool_decide (tp_dst (ct_repl ct1) = tp_dst (ct_repl ct2))).

Definition cmp_repl_zone : comparator := fun ct1 ct2 flags =>
  let! x := nfct_get_attr_u16 ct1 (attr_idx ATTR_REPL_ZONE) in
  let! y := nfct_get_attr_u16 ct2 (attr_idx ATTR_REPL_ZONE) in
  ret (x =? y).

Definition cmp_repl : comparator := fun ct1 ct2 flags =>
  andM (__cmp ATTR_REPL_L3PROTO ct1 ct2 flags cmp_repl_l3proto true)
  (andM (__cmp ATTR_REPL_L4PROTO ct1 ct2 flags cmp_repl_l4proto true)
  (andM (__cmp ATTR_REPL_IPV4_SRC ct1 ct2 flags cmp_repl_ipv4_src true)
  (andM (__cmp ATTR_REPL_IPV4_DST ct1 ct2 flags cmp_repl_ipv4_dst true)
  (andM (__cmp ATTR_REPL_IPV6_SRC ct1 ct2 flags cmp_repl_ipv6_src true)
  (andM (__cmp ATTR_REPL_IPV6_DST ct1 ct2 flags cmp_repl_ipv6_dst true)
  (andM (__cmp ATTR_REPL_ZONE ct1 ct2 flags cmp_repl_zone false) (ret true))))))).

Definition cmp_id : comparator := fun ct1 ct2 flags =>
  ret (ct_id ct1 =? ct_id ct2).

Definition cmp_mark : comparator := fun ct1 ct2 flags =>
  let! x := nfct_get_attr_u32 ct1 (attr_idx ATTR_MARK) in
  let! y := nfct_get_attr_u32 ct2 (attr_idx ATTR_MARK) in
  ret (x =? y).

Definition cmp_timeout : comparator := fun ct1 ct2 flags =>
  if negb (flag flags __NFCT_CMP_TIMEOUT) && (ct_timeout ct1 =? ct_timeout ct2) then ret true
  else if flag flags NFCT_CMP_TIMEOUT_GT && (ct_timeout ct2 <? ct_timeout ct1) then ret true
  else if flag flags NFCT_CMP_TIMEOUT_LT && (ct_timeout ct1 <? ct_timeout ct2) then ret true
  else if flag flags NFCT_CMP_TIMEOUT_EQ && (ct_timeout ct1 =? ct_timeout ct2) then ret true
  else ret false.

Definition cmp_status : comparator := fun ct1 ct2 flags =>
  ret (Z.land (ct_status ct1) (ct_status ct2) =? ct_status ct1).

Definition cmp_tcp_state : comparator := fun ct1 ct2 flags =>
  ret (u_get 1 tcp_state_off (ct_protoinfo ct1) =? u_get 1 tcp_state_off (ct_protoinfo ct2)).

Definition cmp_sctp_state : comparator := fun ct1 ct2 flags =>
  ret (u_get 1 sctp_state_off (ct_protoinfo ct1) =? u_get 1 sctp_state_off (ct_protoinfo ct2)).

Definition cmp_dccp_state : comparator := fun ct1 ct2 flags =>
  ret (u_get 1 dccp_state_off (ct_protoinfo ct1) =? u_get 1 dccp_state_off (ct_protoinfo ct2)).

Definition cmp_zone : comparator := fun ct1 ct2 flags =>
  let! x := nfct_get_attr_u16 ct1 (attr_idx ATTR_ZONE) in
  let! y := nfct_get_attr_u16 ct2 (attr_idx ATTR_ZONE) in
  ret (x =? y).

(** [strcmp(s, t) == 0]; [None] when a string is read past the end of its block. *)
Fixpoint strcmp_eq (s t : list Z) : option bool :=
  match s, t with
  | c :: s', d :: t' =>
      if negb (c =? d) then Some false else if c =? 0 then Some true else strcmp_eq s' t'
  | _, _ => None
  end.

Definition cmp_secctx : comparator := fun ct1 ct2 flags =>
  match ct_secctx ct1, ct_secctx ct2 with
  | Some s, Some t => match strcmp_eq s t with Some b => ret b | None => ub end
  | None, None => ret true
  | _, _ => ret false
  end.

(** [while (max > len) if (bits\[--max\]) return 0;], with [k = max - len]. *)
Fixpoint extra_bits_clear (k len : nat) (bits : list Z) : bool :=
  match k with
  | O => true
  | S k' =>
      if negb (default 0 (bits !! (len + k')%nat) =? 0) then false
      else extra_bits_clear k' len bits
  end.

Definition __cmp_clabel (a b : option nfct_bitmask) : bool :=
  match a, b with
  | Some a, Some b =>
      let '(bits, max, len) :=
        if bm_words a <? bm_words b then (bm_bits b, bm_words b, bm_words a)
        else (bm_bits a, bm_words a, bm_words b) in
      if negb (extra_bits_clear (Z.to_nat (max - len)) (Z.to_nat len) bits) then false
      else bool_decide (take (Z.to_nat len) (bm_bits a) = take (Z.to_nat len) (bm_bits b))
  | None, None => true
  | _, _ => false
  end.

(** The pointer that [nfct_get_attr] returns, used as a bitmask. *)
Definition as_mask (p : option cvalue) : M (option nfct_bitmask) :=
  match p with
  | None => ret None
  | Some (VMask b) => ret (Some b)
  | Some (VBytes _) => ub
  end.

Definition cmp_clabel : comparator := fun ct1 ct2 flags =>
  let! p := nfct_get_attr ct1 (attr_idx ATTR_CONNLABELS) in let! a := as_mask p in
  let! q := nfct_get_attr ct2 (attr_idx ATTR_CONNLABELS) in let! b := as_mask q in
  ret (__cmp_clabel a b).

Definition cmp_clabel_mask : comparator := fun ct1 ct2 flags =>
  let! p := nfct_get_attr ct1 (attr_idx ATTR_CONNLABELS_MASK) in let! a := as_mask p in
  let! q := nfct_get_attr ct2 (attr_idx ATTR_CONNLABELS_MASK) in let! b := as_mask q in
  ret (__cmp_clabel a b).

Definition cmp_meta : comparator := fun ct1 ct2 flags =>
  andM (__cmp ATTR_ID ct1 ct2 flags cmp_id true)
  (andM (__cmp ATTR_MARK ct1 ct2 flags cmp_mark false)
  (andM (__cmp ATTR_TIMEOUT ct1 ct2 flags cmp_timeout true)
  (andM (__cmp ATTR_STATUS ct1 ct2 flags cmp_status true)
  (andM (__cmp ATTR_TCP_STATE ct1 ct2 flags cmp_tcp_state true)
  (andM (__cmp ATTR_SCTP_STATE ct1 ct2 flags cmp_sctp_state true)
  (andM (__cmp ATTR_DCCP_STATE ct1 ct2 flags cmp_dccp_state true)
  (andM (__cmp ATTR_ZONE ct1 ct2 flags cmp_zone false)
  (andM (__cmp ATTR_SECCTX ct1 ct2 flags cmp_secctx true)
  (andM (__cmp ATTR_CONNLABELS ct1 ct2 flags cmp_clabel true)
  (andM (__cmp ATTR_CONNLABELS_MASK ct1 ct2 flags cmp_clabel_mask true) (ret true))))))))))).

(** [flags & ~(NFCT_CMP_MASK | NFCT_CMP_STRICT)] on 32-bit flags. *)
Definition __compare : comparator := fun ct1 ct2 flags =>
  if Z.land flags (Z.lnot (Z.lor NFCT_CMP_MASK NFCT_CMP_STRICT)) =? NFCT_CMP_ALL then
    andM (cmp_meta ct1 ct2 flags) (andM (__cmp_orig ct1 ct2 flags) (cmp_repl ct1 ct2 flags))
  else
  andM (if flag flags NFCT_CMP_ORIG then __cmp_orig ct1 ct2 flags else ret true)
  (andM (if flag flags NFCT_CMP_REPL then cmp_repl ct1 ct2 flags else ret true) (ret true)).

Definition nfct_compare (ct1 ct2 : nf_conntrack) : M bool := __compare ct1 ct2 NFCT_CMP_ALL.
Definition nfct_cmp (ct1 ct2 : nf_conntrack) (flags : Z) : M bool := __compare ct1 ct2 flags.

(** ** What the comparisons decide *)

#[export] Instance cvalue_eq_dec : EqDecision cvalue.
Proof. solve_decision. Defined.

(** The computation returns [b] and changes at most [errno]. *)
Definition decides (c : M bool) (b : bool) : Prop :=
  forall w, exists e, c w = Ok (b, with_errno e w).

Lemma with_errno_id w : with_errno (w_errno w) w = w.
Proof. by destruct w. Qed.

Lemma decides_ret b : decides (ret b) b.
Proof. intros w. exists (w_errno w). by rewrite with_errno_id. Qed.

Lemma decides_andM c k b b' : decides c b -> (b = true -> decides k b') -> decides (andM c k) (b && b').
Proof.
  intros Hc Hk w. destruct (Hc w) as [e He]. unfold andM, bind. rewrite He.
  destruct b; [|by exists e]. destruct (Hk eq_refl (with_errno e w)) as [e' He'].
  exists e'. by rewrite He'.
Qed.

Create HintDb decides.
#[export] Hint Resolve decides_ret : decides.

(** ** What the code decides, attribute by attribute *)

(** Attributes that count as zero when they are absent. *)
Definition lenient (a : nf_conntrack_attr) : bool :=
  match a with ATTR_MARK | ATTR_ZONE | ATTR_ORIG_ZONE | ATTR_REPL_ZONE => true | _ => false end.

Definition secctx_eq (s t : option (list Z)) : bool :=
  match s, t with
  | Some s, Some t => default false (strcmp_eq s t)
  | None, None => true
  | _, _ => false
  end.

(** The two objects have the attribute and agree on it: the same value, or, for
    the status, every bit of the first one in the second one. *)
Definition attr_eq (a : nf_conntrack_attr) (ct1 ct2 : nf_conntrack) : bool :=
  match a with
  | ATTR_STATUS => Z.land (ct_status ct1) (ct_status ct2) =? ct_status ct1
  | ATTR_SECCTX => secctx_eq (ct_secctx ct1) (ct_secctx ct2)
  | ATTR_CONNLABELS => __cmp_clabel (ct_connlabels ct1) (ct_connlabels ct2)
  | ATTR_CONNLABELS_MASK => __cmp_clabel (ct_connlabels_mask ct1) (ct_connlabels_mask ct2)
  | _ => bool_decide (get_attr_array a ct1 = get_attr_array a ct2)
  end.

Definition reads_zero (a : nf_conntrack_attr) (ct : nf_conntrack) : bool :=
  match get_attr_array a ct with Some (VBytes bs) => le_dec bs =? 0 | _ => false end.

(** The objects match on an attribute: both have it and agree, neither has it,
    or one lacks it and the flags do not mind (or the value is the default). *)
Definition attr_match (flags : Z) (ct1 ct2 : nf_conntrack) (a : nf_conntrack_attr) : bool :=
  match attr_is_set a ct1, attr_is_set a ct2 with
  | true, true => attr_eq a ct1 ct2
  | false, false => true
  | s1, _ =>
      if (flag flags NFCT_CMP_MASK && s1) || flag flags NFCT_CMP_STRICT
      then lenient a && reads_zero a (if s1 then ct1 else ct2) else true
  end.

(** The attributes that identify a flow of protocol [p]. *)
Definition l4_attrs (p : Z) (ports : list nf_conntrack_attr) : list nf_conntrack_attr :=
  if one_of p [IPPROTO_ICMP; IPPROTO_ICMPV6] then [ATTR_ICMP_ID; ATTR_ICMP_CODE; ATTR_ICMP_TYPE]
  else if one_of p [IPPROTO_TCP; IPPROTO_UDP; IPPROTO_UDPLITE; IPPROTO_DCCP; IPPROTO_SCTP] then ports
  else [].

Definition orig_attrs (ct1 ct2 : nf_conntrack) : list nf_conntrack_attr :=
  ATTR_ORIG_L3PROTO :: ATTR_ORIG_L4PROTO ::
  (if attr_is_set ATTR_ORIG_L4PROTO ct1 && attr_is_set ATTR_ORIG_L4PROTO ct2
   then l4_attrs (tp_protonum (ct_orig ct1)) [ATTR_ORIG_PORT_SRC; ATTR_ORIG_PORT_DST] else []) ++
  [ATTR_ORIG_IPV4_SRC; ATTR_ORIG_IPV4_DST; ATTR_ORIG_IPV6_SRC; ATTR_ORIG_IPV6_DST; ATTR_ORIG_ZONE].

Definition repl_attrs (ct1 ct2 : nf_conntrack) : list nf_conntrack_attr :=
  ATTR_REPL_L3PROTO :: ATTR_REPL_L4PROTO ::
  (if attr_is_set ATTR_REPL_L4PROTO ct1 && attr_is_set ATTR_REPL_L4PROTO ct2
   then l4_attrs (tp_protonum (ct_repl ct1)) [ATTR_REPL_PORT_SRC; ATTR_REPL_PORT_DST] else []) ++
  [ATTR_REPL_IPV4_SRC; ATTR_REPL_IPV4_DST; ATTR_REPL_IPV6_SRC; ATTR_REPL_IPV6_DST; ATTR_REPL_ZONE].

Definition meta_attrs : list nf_conntrack_attr :=
  [ATTR_ID; ATTR_MARK; ATTR_TIMEOUT; ATTR_STATUS; ATTR_TCP_STATE; ATTR_SCTP_STATE; ATTR_DCCP_STATE;
   ATTR_ZONE; ATTR_SECCTX; ATTR_CONNLABELS; ATTR_CONNLABELS_MASK].

(** The attributes that a comparison with the given flags looks at. *)
Definition compared (flags : Z) (ct1 ct2 : nf_conntrack) : list nf_conntrack_attr :=
  if Z.land flags (Z.lnot (Z.lor NFCT_CMP_MASK NFCT_CMP_STRICT)) =? NFCT_CMP_ALL
  then meta_attrs ++ orig_attrs ct1 ct2 ++ repl_attrs ct1 ct2
  else (if flag flags NFCT_CMP_ORIG then orig_attrs ct1 ct2 else []) ++
       (if flag flags NFCT_CMP_REPL then repl_attrs ct1 ct2 else []).

Definition objects_match (flags : Z) (ct1 ct2 : nf_conntrack) : bool :=
  forallb (attr_match flags ct1 ct2) (compared flags ct1 ct2).

(** The security context is terminated. *)
Definition secctx_ok (ct : nf_conntrack) : Prop :=
  opt_ok (fun s => is_Some (cstring s)) (ct_secctx ct).

(** ** Proof that the code decides the specification *)

Lemma bytes_eq_u n o N u v : blob N u -> blob N v -> 0 <= o -> o + Z.of_nat n <= N ->
  bool_decide (Some (VBytes (slice o (Z.of_nat n) u)) = Some (VBytes (slice o (Z.of_nat n) v)))
  = (u_get n o u =? u_get n o v).
Proof.
  intros Hu Hv Ho HN. unfold u_get, rd.
  destruct (blob_slice o (Z.of_nat n) N u) as [L1 B1]; auto; [lia|].
  destruct (blob_slice o (Z.of_nat n) N v) as [L2 B2]; auto; [lia|].
  destruct (Z.eqb_spec (le_dec (slice o (Z.of_nat n) u)) (le_dec (slice o (Z.of_nat n) v))) as [E|E].
  - apply bool_decide_eq_true_2. do 2 f_equal.
    rewrite <- (le_enc_dec _ B1), <- (le_enc_dec _ B2), E. f_equal. unfold zlen in *. lia.
  - apply bool_decide_eq_false_2. intros H. apply E. congruence.
Qed.

Lemma bytes_eq_enc n x y : uint (8 * Z.of_nat n) x -> uint (8 * Z.of_nat n) y ->
  bool_decide (Some (VBytes (le_enc n x)) = Some (VBytes (le_enc n y))) = (x =? y).
Proof.
  intros Hx Hy. destruct (Z.eqb_spec x y) as [->|E]; [by apply bool_decide_eq_true_2|].
  apply bool_decide_eq_false_2. intros H. apply E.
  rewrite <- (le_dec_enc_small n x Hx), <- (le_dec_enc_small n y Hy). congruence.
Qed.

Lemma bytes_eq_blob (x y : list Z) :
  bool_decide (Some (VBytes x) = Some (VBytes y)) = bool_decide (x = y).
Proof. apply bool_decide_ext. split; congruence. Qed.

Section Compare.
Context (ct1 ct2 : nf_conntrack) (Hok1 : ct_ok ct1) (Hok2 : ct_ok ct2).
Context (Hs1 : secctx_ok ct1) (Hs2 : secctx_ok ct2).
Context (flags : Z).

(** A strict comparison. *)
Lemma decides_cmp_strict a cmp :
  lenient a = false ->
  (attr_is_set a ct1 = true -> attr_is_set a ct2 = true ->
   decides (cmp ct1 ct2 flags) (attr_eq a ct1 ct2)) ->
  decides (__cmp a ct1 ct2 flags cmp true) (attr_match flags ct1 ct2 a).
Proof.
  intros Hl H. unfold __cmp, attr_match. rewrite Hl.
  destruct (attr_is_set a ct1), (attr_is_set a ct2); cbn [andb negb]; auto with decides;
    rewrite ?andb_true_r, ?andb_false_r; destruct (flag flags NFCT_CMP_MASK);
    destruct (flag flags NFCT_CMP_STRICT); apply decides_ret.
Qed.

(** The two strict comparators of the simple kinds: a structure field, a range
    of a union. *)
Ltac simple_cmp :=
  apply decides_cmp_strict; [reflexivity|]; intros _ _;
  ct_parts Hok1; ct_parts Hok2;
  lazymatch goal with |- decides (?c _ _ _) (attr_eq ?a _ _) => unfold c, attr_eq end;
  cbn [get_attr_array];
  lazymatch goal with |- decides _ (bool_decide (?g _ = _)) => unfold g end;
  first [ rewrite bytes_eq_enc by assumption
        | erewrite (bytes_eq_u 4 0 16) by (assumption || done)
        | erewrite (bytes_eq_u 1 0 16) by (assumption || done)
        | erewrite (bytes_eq_u 2 0 2) by (assumption || done)
        | erewrite (bytes_eq_u 1 0 2) by (assumption || done)
        | erewrite (bytes_eq_u 1 1 2) by (assumption || done)
        | rewrite bytes_eq_blob ]; apply decides_ret.

(** A lenient comparison goes through the typed getter, which reads 0 when the
    attribute is absent. *)
Definition val_or_0 (a : nf_conntrack_attr) (ct : nf_conntrack) : Z :=
  if attr_is_set a ct
  then match get_attr_array a ct with Some (VBytes bs) => le_dec bs | _ => 0 end else 0.

Lemma get_attr_u_run n a ct w bs : get_attr_array a ct = Some (VBytes bs) -> zlen bs = Z.of_nat n ->
  exists e, (let! p := nfct_get_attr ct (attr_idx a) in deref_or_0 n p) w
            = Ok (val_or_0 a ct, with_errno e w).
Proof.
  intros Hg Hl. unfold bind, val_or_0. rewrite nfct_get_attr_run.
  destruct (attr_is_set a ct); [|by exists ENODATA].
  rewrite Hg. exists (w_errno w). cbn [deref_or_0]. rewrite val_u_ok by lia.
  by rewrite <- Hl, slice_all, with_errno_id.
Qed.

Lemma decides_lenient n a bs1 bs2 : lenient a = true ->
  get_attr_array a ct1 = Some (VBytes bs1) -> get_attr_array a ct2 = Some (VBytes bs2) ->
  blob (Z.of_nat n) bs1 -> blob (Z.of_nat n) bs2 ->
  forall cmp, cmp ct1 ct2 flags =
    (let! x := (let! p := nfct_get_attr ct1 (attr_idx a) in deref_or_0 n p) in
     let! y := (let! p := nfct_get_attr ct2 (attr_idx a) in deref_or_0 n p) in ret (x =? y)) ->
  decides (__cmp a ct1 ct2 flags cmp false) (attr_match flags ct1 ct2 a).
Proof.
  intros Hl G1 G2 [L1 B1] [L2 B2] cmp Hc.
  assert (Hd : decides (cmp ct1 ct2 flags) (val_or_0 a ct1 =? val_or_0 a ct2)).
  { intros w. rewrite Hc. destruct (get_attr_u_run n a ct1 w bs1 G1 L1) as [e1 E1].
    destruct (get_attr_u_run n a ct2 (with_errno e1 w) bs2 G2 L2) as [e2 E2].
    exists e2. unfold bind at 1. rewrite E1. unfold bind at 1. by rewrite E2. }
  assert (Heq : attr_eq a ct1 ct2 = (le_dec bs1 =? le_dec bs2)).
  { transitivity (bool_decide (get_attr_array a ct1 = get_attr_array a ct2)); [by destruct a|].
    rewrite G1, G2, <- (slice_all bs1), <- (slice_all bs2), L1, L2.
    by apply (bytes_eq_u n 0 (Z.of_nat n) bs1 bs2). }
  unfold __cmp, attr_match, reads_zero. rewrite Hl, Heq. unfold val_or_0 in Hd. rewrite G1, G2 in Hd.
  destruct (attr_is_set a ct1), (attr_is_set a ct2); cbn [andb negb]; rewrite ?G1, ?G2;
    auto with decides; rewrite ?andb_true_r, ?andb_false_r; cbn [orb].
  - destruct (flag flags NFCT_CMP_MASK), (flag flags NFCT_CMP_STRICT); cbn; auto with decides.
  - rewrite Z.eqb_sym in Hd. destruct (flag flags NFCT_CMP_STRICT); cbn; auto with decides.
Qed.

Ltac lenient_cmp n :=
  eapply (decides_lenient n); [reflexivity|reflexivity|reflexivity| | |reflexivity];
  (split; [by rewrite zlen_le_enc|apply le_enc_bytes]).

Lemma strcmp_eq_some s t : is_Some (cstring s) -> is_Some (cstring t) -> is_Some (strcmp_eq s t).
Proof.
  revert t. induction s as [|c s IH]; intros t Hs Ht; [by destruct Hs|].
  destruct t as [|d t]; [by destruct Ht|]. cbn in *.
  destruct (Z.eqb_spec c d) as [->|]; [|done]. cbn. destruct (d =? 0); [done|].
  rewrite !fmap_is_Some in *. auto.
Qed.

Lemma decides_secctx : decides (__cmp ATTR_SECCTX ct1 ct2 flags cmp_secctx true)
  (attr_match flags ct1 ct2 ATTR_SECCTX).
Proof.
  apply decides_cmp_strict; [done|]. intros _ _. unfold cmp_secctx, attr_eq, secctx_eq, secctx_ok in *.
  destruct (ct_secctx ct1), (ct_secctx ct2); auto with decides.
  destruct (strcmp_eq_some l l0 Hs1 Hs2) as [b ->]. apply decides_ret.
Qed.

(** Both bitmasks are read through [nfct_get_attr]. *)
Lemma decides_masks a m1 m2 cmp : lenient a = false ->
  get_attr_array a ct1 = VMask <$> m1 -> get_attr_array a ct2 = VMask <$> m2 ->
  attr_eq a ct1 ct2 = __cmp_clabel m1 m2 ->
  cmp ct1 ct2 flags =
    (let! p := nfct_get_attr ct1 (attr_idx a) in let! a1 := as_mask p in
     let! q := nfct_get_attr ct2 (attr_idx a) in let! b := as_mask q in ret (__cmp_clabel a1 b)) ->
  decides (__cmp a ct1 ct2 flags cmp true) (attr_match flags ct1 ct2 a).
Proof.
  intros Hl G1 G2 He Hc. apply decides_cmp_strict; [done|]. intros S1 S2 w. rewrite Hc, He.
  exists (w_errno w). rewrite with_errno_id. unfold bind. rewrite nfct_get_attr_run, S1, G1.
  destruct m1; cbn; rewrite nfct_get_attr_run, S2, G2; by destruct m2.
Qed.

(** ** The comparison of the tuples *)

Lemma flag_low f : Z.land flags (Z.lnot (Z.lor NFCT_CMP_MASK NFCT_CMP_STRICT)) = 0 ->
  Z.land (Z.lnot (Z.lor NFCT_CMP_MASK NFCT_CMP_STRICT)) f = f -> flag flags f = false.
Proof.
  intros H Hf. unfold flag. rewrite <- Hf, Z.land_assoc, H. by rewrite Z.land_0_l.
Qed.

(** The nested comparison of the layer 4 protocol: the protocol itself and then
    the attributes that the protocol uses. *)
Lemma decides_l4 a p1 p2 cmp sp dp csp cdp :
  lenient a = false ->
  attr_eq a ct1 ct2 = (p1 =? p2) ->
  cmp ct1 ct2 flags =
    (if negb (p1 =? p2) then ret false else
     if one_of p1 [IPPROTO_ICMP; IPPROTO_ICMPV6] then
       andM (__cmp ATTR_ICMP_ID ct1 ct2 flags cmp_icmp_id true)
       (andM (__cmp ATTR_ICMP_CODE ct1 ct2 flags cmp_icmp_code true)
       (andM (__cmp ATTR_ICMP_TYPE ct1 ct2 flags cmp_icmp_type true) (ret true)))
     else if one_of p1 [IPPROTO_TCP; IPPROTO_UDP; IPPROTO_UDPLITE; IPPROTO_DCCP; IPPROTO_SCTP] then
       andM (__cmp sp ct1 ct2 flags csp true) (andM (__cmp dp ct1 ct2 flags cdp true) (ret true))
     else ret true) ->
  decides (__cmp sp ct1 ct2 flags csp true) (attr_match flags ct1 ct2 sp) ->
  decides (__cmp dp ct1 ct2 flags cdp true) (attr_match flags ct1 ct2 dp) ->
  decides (__cmp a ct1 ct2 flags cmp true)
    (forallb (attr_match flags ct1 ct2)
       (a :: (if attr_is_set a ct1 && attr_is_set a ct2 then l4_attrs p1 [sp; dp] else []))).
Proof.
  intros Hl Heq Hc Hsp Hdp. cbn [forallb].
  assert (Hid : decides (__cmp ATTR_ICMP_ID ct1 ct2 flags cmp_icmp_id true)
    (attr_match flags ct1 ct2 ATTR_ICMP_ID)) by simple_cmp.
  assert (Hco : decides (__cmp ATTR_ICMP_CODE ct1 ct2 flags cmp_icmp_code true)
    (attr_match flags ct1 ct2 ATTR_ICMP_CODE)) by simple_cmp.
  assert (Hty : decides (__cmp ATTR_ICMP_TYPE ct1 ct2 flags cmp_icmp_type true)
    (attr_match flags ct1 ct2 ATTR_ICMP_TYPE)) by simple_cmp.
  unfold __cmp at 1. unfold attr_match at 1. rewrite Hl, Heq.
  destruct (attr_is_set a ct1), (attr_is_set a ct2); cbn [andb negb forallb];
    rewrite ?andb_true_r, ?andb_false_r; cbn [orb];
    try (destruct (flag flags NFCT_CMP_MASK), (flag flags NFCT_CMP_STRICT); apply decides_ret).
  rewrite Hc. destruct (p1 =? p2); [|apply decides_ret]. cbn [negb andb]. unfold l4_attrs.
  destruct (one_of p1 _); [|destruct (one_of p1 _); [|apply decides_ret]]; cbn [forallb];
    repeat (apply decides_andM; [assumption|intros _]); apply decides_ret.
Qed.

(** [andM] over the comparators of a list of attributes. *)
Lemma decides_forallb_cons a l c k :
  decides c (attr_match flags ct1 ct2 a) ->
  decides k (forallb (attr_match flags ct1 ct2) l) ->
  decides (andM c k) (forallb (attr_match flags ct1 ct2) (a :: l)).
Proof. intros. cbn. by apply decides_andM. Qed.

Lemma decides_forallb_app l l' c k :
  decides c (forallb (attr_match flags ct1 ct2) l) ->
  decides k (forallb (attr_match flags ct1 ct2) l') ->
  decides (andM c k) (forallb (attr_match flags ct1 ct2) (l ++ l')).
Proof. intros. rewrite forallb_app. by apply decides_andM. Qed.

Lemma decides_orig : decides (__cmp_orig ct1 ct2 flags)
  (forallb (attr_match flags ct1 ct2) (orig_attrs ct1 ct2)).
Proof.
  unfold __cmp_orig, orig_attrs. apply decides_forallb_cons; [simple_cmp|].
  rewrite app_comm_cons. apply decides_forallb_app.
  { apply (decides_l4 _ _ (tp_protonum (ct_orig ct2)) _ _ _ cmp_orig_port_src cmp_orig_port_dst);
      try reflexivity; [|simple_cmp|simple_cmp].
    ct_parts Hok1. ct_parts Hok2. by apply (bytes_eq_enc 1). }
  do 4 (apply decides_forallb_cons; [simple_cmp|]).
  apply decides_forallb_cons; [lenient_cmp 2%nat|apply decides_ret].
Qed.

Lemma decides_repl : decides (cmp_repl ct1 ct2 flags)
  (forallb (attr_match flags ct1 ct2) (repl_attrs ct1 ct2)).
Proof.
  unfold cmp_repl, repl_attrs. apply decides_forallb_cons; [simple_cmp|].
  rewrite app_comm_cons. apply decides_forallb_app.
  { apply (decides_l4 _ _ (tp_protonum (ct_repl ct2)) _ _ _ cmp_repl_port_src cmp_repl_port_dst);
      try reflexivity; [|simple_cmp|simple_cmp].
    ct_parts Hok1. ct_parts Hok2. by apply (bytes_eq_enc 1). }
  do 4 (apply decides_forallb_cons; [simple_cmp|]).
  apply decides_forallb_cons; [lenient_cmp 2%nat|apply decides_ret].
Qed.

Lemma decides_timeout : Z.land flags (Z.lnot (Z.lor NFCT_CMP_MASK NFCT_CMP_STRICT)) = 0 ->
  decides (__cmp ATTR_TIMEOUT ct1 ct2 flags cmp_timeout true)
    (attr_match flags ct1 ct2 ATTR_TIMEOUT).
Proof.
  intros Hf. apply decides_cmp_strict; [done|]. intros _ _. ct_parts Hok1. ct_parts Hok2.
  unfold cmp_timeout, attr_eq. cbn [get_attr_array]. unfold get_attr_timeout.
  rewrite bytes_eq_enc by assumption. rewrite !flag_low by done. cbn [negb andb].
  destruct (ct_timeout ct1 =? ct_timeout ct2); apply decides_ret.
Qed.

Lemma decides_meta : Z.land flags (Z.lnot (Z.lor NFCT_CMP_MASK NFCT_CMP_STRICT)) = 0 ->
  decides (cmp_meta ct1 ct2 flags) (forallb (attr_match flags ct1 ct2) meta_attrs).
Proof.
  intros Hf. unfold cmp_meta, meta_attrs.
  apply decides_forallb_cons; [simple_cmp|].
  apply decides_forallb_cons; [lenient_cmp 4%nat|].
  apply decides_forallb_cons; [by apply decides_timeout|].
  apply decides_forallb_cons; [apply decides_cmp_strict; [done|]; intros; apply decides_ret|].
  do 3 (apply decides_forallb_cons; [simple_cmp|]).
  apply decides_forallb_cons; [lenient_cmp 2%nat|].
  apply decides_forallb_cons; [apply decides_secctx|].
  apply decides_forallb_cons; [by eapply decides_masks|].
  apply decides_forallb_cons; [by eapply decides_masks|]. apply decides_ret.
Qed.

Lemma decides_compare : decides (__compare ct1 ct2 flags) (objects_match flags ct1 ct2).
Proof.
  unfold __compare, objects_match, compared.
  destruct (Z.eqb_spec (Z.land flags (Z.lnot (Z.lor NFCT_CMP_MASK NFCT_CMP_STRICT))) NFCT_CMP_ALL) as [Hf|Hf].
  - apply decides_forallb_app; [by apply decides_meta|].
    apply decides_forallb_app; [apply decides_orig|apply decides_repl].
  - apply decides_forallb_app; [destruct (flag _ _); [apply decides_orig|apply decides_ret]|].
    destruct (flag flags NFCT_CMP_REPL).
    + rewrite <- (andb_true_r (forallb _ _)). apply decides_andM; [apply decides_repl|intros; apply decides_ret].
    + apply (decides_andM _ _ true true); intros; apply decides_ret.
Qed.

End Compare.

Lemma strcmp_eq_refl s : is_Some (cstring s) -> strcmp_eq s s = Some true.
Proof.
  induction s as [|c s IH]; cbn; [by intros []|]. rewrite Z.eqb_refl. cbn.
  destruct (c =? 0); [done|]. rewrite fmap_is_Some. auto.
Qed.

Lemma cmp_clabel_refl m : __cmp_clabel m m = true.
Proof.
  destruct m as [b|]; [|done]. cbn. rewrite Z.ltb_irrefl, Z.sub_diag. cbn.
  by rewrite bool_decide_eq_true_2.
Qed.

Lemma attr_match_refl flags ct a : secctx_ok ct -> attr_match flags ct ct a = true.
Proof.
  intros Hs. unfold attr_match. destruct (attr_is_set a ct); [|done].
  unfold attr_eq. destruct a; try (by apply bool_decide_eq_true_2); try apply cmp_clabel_refl.
  - by rewrite Z.land_diag, Z.eqb_refl.
  - unfold secctx_eq, secctx_ok in *. destruct (ct_secctx ct); [|done]. cbn in Hs.
    by rewrite strcmp_eq_refl.
Qed.

(** Every object compares equal to itself, under any flags. *)
Theorem nfct_cmp_refl ct flags : ct_ok ct -> secctx_ok ct -> decides (nfct_cmp ct ct flags) true.
Proof.
  intros Hok Hs. replace true with (objects_match flags ct ct); [by apply decides_compare|].
  unfold objects_match. apply forallb_forall. intros a _. by apply attr_match_refl.
Qed.

Lemma nfct_cmp_refl_witness : decides (nfct_cmp zero_ct zero_ct NFCT_CMP_STRICT) true.
Proof. exact (nfct_cmp_refl zero_ct NFCT_CMP_STRICT zero_ct_ok I). Defined.

(** The timeout comparison flags have no effect: with only timeout flags
    (and possibly the mask and strict flags), [nfct_cmp] returns 1 for any two
    objects whatever, because the metadata comparison that would look at them
    only runs when no such flag is given. *)
Theorem nfct_cmp_timeout_ignored ct1 ct2 flags w :
  flag flags __NFCT_CMP_TIMEOUT = true ->
  flag flags NFCT_CMP_ORIG = false -> flag flags NFCT_CMP_REPL = false ->
  nfct_cmp ct1 ct2 flags w = Ok (true, w).
Proof.
  intros Ht Ho Hr. unfold nfct_cmp, __compare.
  destruct (Z.eqb_spec (Z.land flags (Z.lnot (Z.lor NFCT_CMP_MASK NFCT_CMP_STRICT))) NFCT_CMP_ALL) as [Hf|Hf].
  - by rewrite (flag_low flags __NFCT_CMP_TIMEOUT Hf eq_refl) in Ht.
  - rewrite Ho, Hr. done.
Qed.

Lemma nfct_cmp_timeout_ignored_witness :
  nfct_cmp (attr_set ATTR_TIMEOUT (with_ct_timeout 1 zero_ct))
           (attr_set ATTR_TIMEOUT (with_ct_timeout 2 zero_ct)) NFCT_CMP_TIMEOUT_GT (mk_world [] 0 [])
  = Ok (true, mk_world [] 0 []).
Proof. by apply nfct_cmp_timeout_ignored. Defined.

(** ** Connection labels of different capacity *)

Lemma extra_bits_clear_spec k len bits :
  extra_bits_clear k len bits = true <->
  (forall i, (len <= i < len + k)%nat -> default 0 (bits !! i) = 0).
Proof.
  induction k as [|k IH]; cbn; [split; [intros; lia|done]|].
  destruct (Z.eqb_spec (default 0 (bits !! (len + k)%nat)) 0) as [E|E]; cbn.
  - rewrite IH. split; intros H i Hi; [|apply H; lia].
    destruct (decide (i = len + k)%nat) as [->|]; [done|]. apply H; lia.
  - split; [done|]. intros H. exfalso. apply E, H. lia.
Qed.

Lemma bm_rel_test b s k : bm_rel b s -> 0 <= k -> has_bit k (bm_bits b) = bool_decide (k ∈ s).
Proof.
  intros (Hok & Hs & Ht) Hk. specialize (Ht k Hk). unfold bm_has in Ht.
  destruct (Z.ltb_spec k (bm_limit b)); [done|].
  rewrite <- Ht. cbn. rewrite test_bit_testbit. unfold bm_limit in *. destruct Hok as (? & Hl & _).
  rewrite lookup_ge_None_2; [apply Z.bits_0|]. unfold zlen in Hl.
  pose proof (Z.div_le_lower_bound k 32 (bm_words b)). lia.
Qed.

(** Bitmasks hold the same set when their words agree, missing words being zero. *)
Lemma bm_rel_eq a b s t : bm_rel a s -> bm_rel b t ->
  s = t <-> forall i, default 0 (bm_bits a !! i) = default 0 (bm_bits b !! i).
Proof.
  intros Ha Hb. split.
  - intros <- i. apply Z.bits_inj_iff'. intros j Hj.
    destruct (decide (j < 32)) as [Hj32|Hj32].
    + pose proof (bm_rel_test a s (32 * Z.of_nat i + j) Ha ltac:(lia)) as T1.
      rewrite <- (bm_rel_test b s (32 * Z.of_nat i + j) Hb ltac:(lia)), !test_bit_testbit in T1.
      rewrite (Z.mul_comm 32), Z.div_add_l, Z.div_small, Z.add_0_r, Nat2Z.id in T1 by lia.
      by rewrite Z.add_comm, Z.mod_add, Z.mod_small in T1 by lia.
    + assert (Hw : forall c r, bm_rel c r -> Z.testbit (default 0 (bm_bits c !! i)) j = false).
      { intros c r ((_ & _ & Hw) & _). destruct (bm_bits c !! i) as [x|] eqn:E; [|apply Z.bits_0].
        cbn. rewrite Forall_lookup in Hw. specialize (Hw i x E). unfold word_ok in Hw.
        rewrite <- (Z.mod_small x (2 ^ 32)) by done. apply Z.mod_pow2_bits_high. lia. }
      by rewrite (Hw a s Ha), (Hw b s Hb).
  - intros H. apply set_eq. intros k. destruct (decide (0 <= k)) as [Hk|Hk].
    + rewrite <- (bool_decide_eq_true (k ∈ s)), <- (bool_decide_eq_true (k ∈ t)).
      rewrite <- (bm_rel_test a s k Ha Hk), <- (bm_rel_test b t k Hb Hk), !test_bit_testbit. by rewrite H.
    + destruct Ha as (_ & Ha & _), Hb as (_ & Hb & _).
      split; intros Hin; [apply Ha in Hin | apply Hb in Hin]; lia.
Qed.

(** The loop and the [memcmp] for the two word counts in order. *)
Lemma clabel_words_eq a b : zlen a <= zlen b ->
  (if negb (extra_bits_clear (length b - length a) (length a) b) then false
   else bool_decide (a = take (length a) b)) = true
  <-> forall i, default 0 (a !! i) = default 0 (b !! i).
Proof.
  unfold zlen. intros Hl. destruct (extra_bits_clear _ _ b) eqn:E; cbn.
  - pose proof (proj1 (extra_bits_clear_spec _ _ _) E) as Hz. rewrite bool_decide_eq_true. split.
    + intros Ha i. destruct (decide (i < length a)%nat).
      * rewrite Ha at 1. by rewrite lookup_take_lt.
      * rewrite (lookup_ge_None_2 a i) by lia. destruct (decide (i < length b)%nat).
        -- symmetry. apply Hz. lia.
        -- by rewrite (lookup_ge_None_2 b i) by lia.
    + intros H. apply list_eq. intros i. destruct (decide (i < length a)%nat) as [Hi|].
      * rewrite lookup_take_lt by done. specialize (H i).
        destruct (lookup_lt_is_Some_2 a i Hi) as [x Hx].
        destruct (lookup_lt_is_Some_2 b i ltac:(lia)) as [y Hy]. rewrite Hx, Hy in *. cbn in H. congruence.
      * rewrite lookup_take_ge by lia. apply lookup_ge_None_2. lia.
  - split; [done|]. intros H. exfalso. apply not_true_iff_false in E. apply E, extra_bits_clear_spec.
    intros i Hi. rewrite <- H. by rewrite (lookup_ge_None_2 a i) by lia.
Qed.

(** The label comparison [__cmp_clabel] decides equality of the label sets
    even for bitmasks of different capacity. *)
Theorem cmp_clabel_sets a b s t : bm_rel a s -> bm_rel b t ->
  __cmp_clabel (Some a) (Some b) = true <-> s = t.
Proof.
  intros Ha Hb. rewrite (bm_rel_eq a b s t Ha Hb).
  destruct Ha as ((Wa & La & _) & _), Hb as ((Wb & Lb & _) & _).
  unfold __cmp_clabel. unfold zlen in La, Lb.
  destruct (Z.ltb_spec (bm_words a) (bm_words b)).
  - replace (Z.to_nat (bm_words b - bm_words a)) with (length (bm_bits b) - length (bm_bits a))%nat by lia.
    replace (Z.to_nat (bm_words a)) with (length (bm_bits a)) by lia.
    rewrite firstn_all. apply clabel_words_eq. unfold zlen. lia.
  - replace (Z.to_nat (bm_words a - bm_words b)) with (length (bm_bits a) - length (bm_bits b))%nat by lia.
    replace (Z.to_nat (bm_words b)) with (length (bm_bits b)) by lia. rewrite firstn_all.
    rewrite (bool_decide_ext (take _ _ = _) (bm_bits b = take (length (bm_bits b)) (bm_bits a)))
      by (split; congruence).
    rewrite clabel_words_eq by (unfold zlen; lia). split; intros Hi i; by rewrite Hi.
Qed.

Lemma cmp_clabel_sets_witness :
  __cmp_clabel (Some (mk_bitmask 1 [0])) (Some (mk_bitmask 2 [0; 0])) = true
  <-> (∅ : gset Z) = ∅.
Proof.
  exact (cmp_clabel_sets (mk_bitmask 1 [0]) (mk_bitmask 2 [0; 0]) ∅ ∅
           (bm_rel_zeros 1 ltac:(lia)) (bm_rel_zeros 2 ltac:(lia))).
Defined.

(** ** The documented comparison *)

(** The labels of a bitmask as a set of label numbers. *)
Definition label_set (m : nfct_bitmask) : gset Z :=
  list_to_set (filter (fun k => bm_has m k = true) (seqZ 0 (bm_limit m))).

Definition same_labels (m n : option nfct_bitmask) : Prop :=
  match m, n with
  | Some m, Some n => label_set m = label_set n
  | None, None => True
  | _, _ => False
  end.

(** The same text before the terminator. *)
Definition same_string (s t : option (list Z)) : Prop :=
  match s, t with
  | Some s, Some t => cstring s = cstring t
  | None, None => True
  | _, _ => False
  end.

(** Two objects that have an attribute agree on it: every status bit of the
    first one is in the second one, contexts are the same string, labels the same
    set, and anything else has the same bytes. *)
Definition values_agree (a : nf_conntrack_attr) (ct1 ct2 : nf_conntrack) : Prop :=
  match a with
  | ATTR_STATUS => forall i, 0 <= i -> Z.testbit (ct_status ct1) i = true -> Z.testbit (ct_status ct2) i = true
  | ATTR_SECCTX => same_string (ct_secctx ct1) (ct_secctx ct2)
  | ATTR_CONNLABELS => same_labels (ct_connlabels ct1) (ct_connlabels ct2)
  | ATTR_CONNLABELS_MASK => same_labels (ct_connlabels_mask ct1) (ct_connlabels_mask ct2)
  | _ => get_attr_array a ct1 = get_attr_array a ct2
  end.

(** NFCT_CMP_MASK (bit 5) requires the attributes of the first object in the
    second one, NFCT_CMP_STRICT (bit 6) requires the same attributes; otherwise
    only attributes that both objects have count. *)
Definition agree (flags : Z) (ct1 ct2 : nf_conntrack) (a : nf_conntrack_attr) : Prop :=
  match attr_is_set a ct1, attr_is_set a ct2 with
  | true, true => values_agree a ct1 ct2
  | false, false => True
  | true, false => Z.testbit flags 5 = false /\ Z.testbit flags 6 = false
  | false, true => Z.testbit flags 6 = false
  end.

(** What is compared: the tuple of the original (bit 0) or of the reply (bit 1)
    direction, or with neither flag both and the metadata. *)
Definition compared_by (flags : Z) (ct1 ct2 : nf_conntrack) : list nf_conntrack_attr :=
  if Z.testbit flags 0 || Z.testbit flags 1
  then (if Z.testbit flags 0 then orig_attrs ct1 ct2 else []) ++
       (if Z.testbit flags 1 then repl_attrs ct1 ct2 else [])
  else meta_attrs ++ orig_attrs ct1 ct2 ++ repl_attrs ct1 ct2.

(** The calls on which the documentation of [nfct_cmp] and the code agree: no
    timeout flag, no identifier in both objects when a direction is selected,
    and no mark or zone that is present but zero. *)
Definition documented_call (flags : Z) (ct1 ct2 : nf_conntrack) : Prop :=
  0 <= flags < 128 /\ Z.testbit flags 2 = false /\ Z.testbit flags 3 = false /\ Z.testbit flags 4 = false /\
  (Z.testbit flags 0 || Z.testbit flags 1 = true ->
     attr_is_set ATTR_ID ct1 && attr_is_set ATTR_ID ct2 = false) /\
  (forall a, lenient a = true ->
     (attr_is_set a ct1 = true -> reads_zero a ct1 = false) /\
     (attr_is_set a ct2 = true -> reads_zero a ct2 = false)).

Lemma has_bm_rel m : bitmask_ok m -> bm_rel m (label_set m).
Proof.
  intros Hok. split; [done|]. unfold label_set. split.
  - intros k Hk. apply elem_of_list_to_set, list_elem_of_filter in Hk as [_ Hk%elem_of_seqZ]. lia.
  - intros k Hk. symmetry. destruct (bm_has m k) eqn:E.
    + apply bool_decide_eq_true, elem_of_list_to_set, list_elem_of_filter. split; [done|].
      apply elem_of_seqZ. unfold bm_has in E. apply andb_prop in E as [E _]. lia.
    + apply bool_decide_eq_false. intros H.
      apply elem_of_list_to_set, list_elem_of_filter in H as [H _]. congruence.
Qed.

Lemma cmp_clabel_same m n : opt_ok bitmask_ok m -> opt_ok bitmask_ok n ->
  __cmp_clabel m n = true <-> same_labels m n.
Proof.
  destruct m as [m|], n as [n|]; cbn [opt_ok same_labels]; intros Hm Hn; try done.
  by apply cmp_clabel_sets; apply has_bm_rel.
Qed.

Lemma strcmp_cstring s t : is_Some (cstring s) -> is_Some (cstring t) ->
  strcmp_eq s t = Some (bool_decide (cstring s = cstring t)).
Proof.
  revert t. induction s as [|c s IH]; intros t Hs Ht; [by destruct Hs|].
  destruct t as [|d t]; [by destruct Ht|]. cbn in *.
  destruct (Z.eqb_spec c d) as [->|Hne]; cbn [negb].
  - destruct (d =? 0); [by rewrite bool_decide_eq_true_2|]. rewrite fmap_is_Some in Hs, Ht.
    rewrite IH by done. f_equal. apply bool_decide_ext.
    destruct Hs as [x ->], Ht as [y ->]. cbn. split; [by intros [= ->]|by intros [= ->]].
  - symmetry. f_equal. apply bool_decide_eq_false. intros E.
    destruct (Z.eqb_spec c 0), (Z.eqb_spec d 0); subst; try done; rewrite ?fmap_is_Some in *;
      repeat match goal with H : is_Some _ |- _ => destruct H as [? H] end;
      repeat match goal with H : cstring _ = Some _ |- _ => rewrite H in E end; cbn in E; congruence.
Qed.

Lemma secctx_eq_same s t :
  opt_ok (fun s => is_Some (cstring s)) s -> opt_ok (fun s => is_Some (cstring s)) t ->
  secctx_eq s t = true <-> same_string s t.
Proof.
  destruct s as [s|], t as [t|]; cbn; intros Hs Ht; try done.
  rewrite strcmp_cstring by done. cbn. apply bool_decide_eq_true.
Qed.

Lemma land_sub x y : Z.land x y = x <-> forall i, 0 <= i -> Z.testbit x i = true -> Z.testbit y i = true.
Proof.
  rewrite <- Z.bits_inj_iff'. split; intros H i Hi.
  - intros Hx. specialize (H i Hi). rewrite Z.land_spec, Hx in H. exact H.
  - rewrite Z.land_spec. specialize (H i Hi). destruct (Z.testbit x i); [by rewrite H|done].
Qed.

Lemma attr_eq_agree a ct1 ct2 : ct_ok ct1 -> ct_ok ct2 -> secctx_ok ct1 -> secctx_ok ct2 ->
  attr_eq a ct1 ct2 = true <-> values_agree a ct1 ct2.
Proof.
  intros H1 H2 S1 S2. unfold attr_eq, values_agree.
  destruct a; try apply bool_decide_eq_true.
  - rewrite Z.eqb_eq. apply land_sub.
  - by apply secctx_eq_same.
  - by apply cmp_clabel_same; [apply ok_connlabels|apply ok_connlabels].
  - by apply cmp_clabel_same; [apply ok_connlabels_mask|apply ok_connlabels_mask].
Qed.

Lemma flag_testbit flags k : 0 <= k -> flag flags (Z.shiftl 1 k) = Z.testbit flags k.
Proof. intros. unfold flag. rewrite Z.land_comm. by apply land_mask_testbit. Qed.

Lemma attr_match_agree flags a ct1 ct2 :
  ct_ok ct1 -> ct_ok ct2 -> secctx_ok ct1 -> secctx_ok ct2 -> documented_call flags ct1 ct2 ->
  attr_match flags ct1 ct2 a = true <-> agree flags ct1 ct2 a.
Proof.
  intros H1 H2 S1 S2 (_ & _ & _ & _ & _ & Hz). unfold attr_match, agree.
  change NFCT_CMP_MASK with (Z.shiftl 1 5). change NFCT_CMP_STRICT with (Z.shiftl 1 6).
  rewrite !flag_testbit by lia.
  assert (forall ct, (ct = ct1 \/ ct = ct2) -> attr_is_set a ct = true -> lenient a && reads_zero a ct = false) as Hl.
  { intros ct Hct Hs. destruct (lenient a) eqn:El; [|done]. cbn. destruct (Hz a El). destruct Hct; subst; auto. }
  destruct (attr_is_set a ct1) eqn:E1, (attr_is_set a ct2) eqn:E2; [by apply attr_eq_agree| | |done].
  - rewrite (Hl ct1) by auto. destruct (Z.testbit flags 5), (Z.testbit flags 6); cbn; intuition done.
  - rewrite (Hl ct2) by auto. destruct (Z.testbit flags 5), (Z.testbit flags 6); cbn; intuition done.
Qed.

Lemma compared_documented flags ct1 ct2 : documented_call flags ct1 ct2 ->
  compared flags ct1 ct2 = compared_by flags ct1 ct2.
Proof.
  intros (Hr & B2 & B3 & B4 & _). unfold compared, compared_by.
  change NFCT_CMP_ORIG with (Z.shiftl 1 0). change NFCT_CMP_REPL with (Z.shiftl 1 1).
  rewrite !flag_testbit by lia.
  assert ((Z.land flags (Z.lnot (Z.lor NFCT_CMP_MASK NFCT_CMP_STRICT)) =? NFCT_CMP_ALL)
          = negb (Z.testbit flags 0 || Z.testbit flags 1)) as ->; [|by destruct (_ || _)].
  assert (forallb (fun f => Z.testbit f 2 || Z.testbit f 3 || Z.testbit f 4 ||
            Bool.eqb (Z.land f (Z.lnot (Z.lor NFCT_CMP_MASK NFCT_CMP_STRICT)) =? NFCT_CMP_ALL)
              (negb (Z.testbit f 0 || Z.testbit f 1))) (seqZ 0 128) = true) as H by (vm_compute; reflexivity).
  rewrite forallb_forall in H. specialize (H flags). rewrite B2, B3, B4 in H. cbn [orb] in H.
  apply eqb_prop, H, list_elem_of_In, elem_of_seqZ. lia.
Qed.



(** *** Where the code does not do what the documentation says *)

(** NFCT_CMP_ORIG is documented to compare the identifier too: it does not. *)
Theorem nfct_cmp_orig_ignores_id w :
  nfct_cmp (attr_set ATTR_ID (with_ct_id 1 zero_ct)) (attr_set ATTR_ID (with_ct_id 2 zero_ct))
    NFCT_CMP_ORIG w = Ok (true, w).
Proof. reflexivity. Qed.

(** NFCT_CMP_STRICT is documented to tell objects with different attributes
    apart: a zero mark and no mark are the same. *)
Theorem nfct_cmp_strict_zero_mark :
  nfct_cmp (attr_set ATTR_MARK zero_ct) zero_ct NFCT_CMP_STRICT (mk_world [] 0 []) =
    Ok (true, mk_world [] ENODATA []).
Proof. vm_compute. reflexivity. Qed.

(** The full comparison does not look at the address translation, and looks at
    ports only when both objects have a layer 4 protocol. *)
Theorem nfct_cmp_all_ignores_ports w :
  nfct_cmp (attr_set ATTR_ORIG_PORT_SRC (upd_orig (with_tp_l4src 1) zero_ct))
           (attr_set ATTR_ORIG_PORT_SRC (upd_orig (with_tp_l4src 2) zero_ct)) NFCT_CMP_ALL w = Ok (true, w) /\
  nfct_cmp (attr_set ATTR_SNAT_PORT zero_ct) zero_ct NFCT_CMP_STRICT w = Ok (true, w).
Proof. split; reflexivity. Qed.
