(* ===== verification/CtObjopt.v ===== *)
(** Object options: [src/libnetfilter_conntrack/objopt.c] and its entry points
    [nfct_setobjopt], [nfct_getobjopt] of [api.c]: undoing address and port
    translation, completing one tuple from the other one, and asking whether the
    flow is translated. *)
From S2P Require Import Prelude CMonad Bitops CtObject CtSetter CtGetter CtCopy CtApi CtAttrs CtCopyProps CtCompare.
Open Scope c_scope.

(** ** Options *)

Definition NFCT_SOPT_UNDO_SNAT : Z := 0.
Definition NFCT_SOPT_UNDO_DNAT : Z := 1.
Definition NFCT_SOPT_UNDO_SPAT : Z := 2.
Definition NFCT_SOPT_UNDO_DPAT : Z := 3.
Definition NFCT_SOPT_SETUP_ORIGINAL : Z := 4.
Definition NFCT_SOPT_SETUP_REPLY : Z := 5.
Definition NFCT_SOPT_MAX : Z := 5.

Definition NFCT_GOPT_IS_SNAT : Z := 0.
Definition NFCT_GOPT_IS_DNAT : Z := 1.
Definition NFCT_GOPT_IS_SPAT : Z := 2.
Definition NFCT_GOPT_IS_DPAT : Z := 3.
Definition NFCT_GOPT_MAX : Z := 3.

Definition IPS_SRC_NAT_DONE : Z := 128.
Definition IPS_DST_NAT_DONE : Z := 256.

(** [(1 << a1) | (1 << a2) | ...]. *)
Definition bits_of (l : list nf_conntrack_attr) : Z :=
  foldr (fun a z => Z.lor (Z.shiftl 1 (attr_idx a)) z) 0 l.

Definition TS_ORIG : Z :=
  bits_of [ATTR_ORIG_IPV4_SRC; ATTR_ORIG_IPV4_DST; ATTR_ORIG_IPV6_SRC; ATTR_ORIG_IPV6_DST;
           ATTR_ORIG_PORT_SRC; ATTR_ORIG_PORT_DST; ATTR_ORIG_L3PROTO; ATTR_ORIG_L4PROTO;
           ATTR_ICMP_TYPE; ATTR_ICMP_CODE; ATTR_ICMP_ID].

Definition TS_REPL : Z :=
  bits_of [ATTR_REPL_IPV4_SRC; ATTR_REPL_IPV4_DST; ATTR_REPL_IPV6_SRC; ATTR_REPL_IPV6_DST;
           ATTR_REPL_PORT_SRC; ATTR_REPL_PORT_DST; ATTR_REPL_L3PROTO; ATTR_REPL_L4PROTO;
           ATTR_ICMP_TYPE; ATTR_ICMP_CODE; ATTR_ICMP_ID].

(** ** Completing a tuple *)

(** [this] after the assignments from [other]. *)
Definition complete_tuple (this other : __nfct_tuple) : __nfct_tuple :=
  let this := with_tp_l3protonum (tp_l3protonum other) this in
  let this := with_tp_protonum (tp_protonum other) this in
  let this := with_tp_src (tp_dst other) this in
  let this := with_tp_dst (tp_src other) this in
  if one_of (tp_protonum this)
       [IPPROTO_UDP; IPPROTO_TCP; IPPROTO_SCTP; IPPROTO_DCCP; IPPROTO_GRE; IPPROTO_UDPLITE] then
    let this := with_tp_l4src (l4dst_all (tp_l4dst other)) this in
    with_tp_l4dst (set_l4dst_all (tp_l4src other) (tp_l4dst this)) this
  else this.

Definition __autocomplete (ct : nf_conntrack) (dir : nfct_dir) : nf_conntrack :=
  let ct := match dir with
            | DIR_ORIG => with_ct_orig (complete_tuple (ct_orig ct) (ct_repl ct)) ct
            | DIR_REPL => with_ct_repl (complete_tuple (ct_repl ct) (ct_orig ct)) ct
            end in
  with_ct_set (alter (fun x => Z.lor x (Z.lor TS_ORIG TS_REPL)) 0%nat (ct_set ct)) ct.

(** ** Setting options *)

Definition setobjopt_undo_snat (ct : nf_conntrack) : nf_conntrack :=
  let l3 := tp_l3protonum (ct_orig ct) in
  if l3 =? AF_INET then
    let ct := upd_snat (fun n => with_nat_min_ip (set_addr_v4 (addr_v4 (tp_dst (ct_repl ct))) (nat_min_ip n)) n) ct in
    let ct := upd_snat (fun n => with_nat_max_ip (set_addr_v4 (addr_v4 (nat_min_ip n)) (nat_max_ip n)) n) ct in
    let ct := upd_repl (fun t => with_tp_dst (set_addr_v4 (addr_v4 (tp_src (ct_orig ct))) (tp_dst t)) t) ct in
    attr_set ATTR_SNAT_IPV4 ct
  else if l3 =? AF_INET6 then
    let ct := upd_snat (with_nat_min_ip (tp_dst (ct_repl ct))) ct in
    let ct := upd_snat (fun n => with_nat_max_ip (nat_min_ip n) n) ct in
    let ct := upd_repl (with_tp_dst (tp_src (ct_orig ct))) ct in
    attr_set ATTR_SNAT_IPV6 ct
  else ct.

Definition setobjopt_undo_dnat (ct : nf_conntrack) : nf_conntrack :=
  let l3 := tp_l3protonum (ct_orig ct) in
  if l3 =? AF_INET then
    let ct := upd_dnat (fun n => with_nat_min_ip (set_addr_v4 (addr_v4 (tp_src (ct_repl ct))) (nat_min_ip n)) n) ct in
    let ct := upd_dnat (fun n => with_nat_max_ip (set_addr_v4 (addr_v4 (nat_min_ip n)) (nat_max_ip n)) n) ct in
    let ct := upd_repl (fun t => with_tp_src (set_addr_v4 (addr_v4 (tp_dst (ct_orig ct))) (tp_src t)) t) ct in
    attr_set ATTR_DNAT_IPV4 ct
  else if l3 =? AF_INET6 then
    let ct := upd_dnat (with_nat_min_ip (tp_src (ct_repl ct))) ct in
    let ct := upd_dnat (fun n => with_nat_max_ip (nat_min_ip n) n) ct in
    let ct := upd_repl (with_tp_src (tp_dst (ct_orig ct))) ct in
    attr_set ATTR_DNAT_IPV6 ct
  else ct.

Definition setobjopt_undo_spat (ct : nf_conntrack) : nf_conntrack :=
  let ct := upd_snat (with_nat_l4min (l4dst_all (tp_l4dst (ct_repl ct)))) ct in
  let ct := upd_snat (fun n => with_nat_l4max (nat_l4min n) n) ct in
  let ct := upd_repl (fun t => with_tp_l4dst (set_l4dst_all (tp_l4src (ct_orig ct)) (tp_l4dst t)) t) ct in
  attr_set ATTR_SNAT_PORT ct.

Definition setobjopt_undo_dpat (ct : nf_conntrack) : nf_conntrack :=
  let ct := upd_dnat (with_nat_l4min (tp_l4src (ct_repl ct))) ct in
  let ct := upd_dnat (fun n => with_nat_l4max (nat_l4min n) n) ct in
  let ct := upd_repl (with_tp_l4src (l4dst_all (tp_l4dst (ct_orig ct)))) ct in
  attr_set ATTR_DNAT_PORT ct.

Definition setobjopt_setup_orig (ct : nf_conntrack) : nf_conntrack := __autocomplete ct DIR_ORIG.
Definition setobjopt_setup_repl (ct : nf_conntrack) : nf_conntrack := __autocomplete ct DIR_REPL.

Definition setobjopt_array : list (nf_conntrack -> nf_conntrack) :=
  [setobjopt_undo_snat; setobjopt_undo_dnat; setobjopt_undo_spat; setobjopt_undo_dpat;
   setobjopt_setup_orig; setobjopt_setup_repl].

Definition __setobjopt (ct : nf_conntrack) (option : Z) : M (Z * nf_conntrack) :=
  if NFCT_SOPT_MAX <? option then ret (-1, ct) else
  match setobjopt_array !! Z.to_nat option with
  | Some f => ret (0, f ct)
  | None => ub
  end.

Definition nfct_setobjopt (ct : nf_conntrack) (option : Z) : M (Z * nf_conntrack) :=
  if NFCT_SOPT_MAX <? option then set_errno EOPNOTSUPP ;;; ret (-1, ct)
  else __setobjopt ct option.

(** ** Getting options *)

Definition getobjopt_is_snat (ct : nf_conntrack) : bool :=
  if attr_is_set ATTR_STATUS ct && negb (flag (ct_status ct) IPS_SRC_NAT_DONE) then false else
  let l3 := tp_l3protonum (ct_orig ct) in
  if l3 =? AF_INET then negb (addr_v4 (tp_dst (ct_repl ct)) =? addr_v4 (tp_src (ct_orig ct)))
  else if l3 =? AF_INET6 then negb (bool_decide (tp_dst (ct_repl ct) = tp_src (ct_orig ct)))
  else false.

Definition getobjopt_is_dnat (ct : nf_conntrack) : bool :=
  if attr_is_set ATTR_STATUS ct && negb (flag (ct_status ct) IPS_DST_NAT_DONE) then false else
  let l3 := tp_l3protonum (ct_orig ct) in
  if l3 =? AF_INET then negb (addr_v4 (tp_src (ct_repl ct)) =? addr_v4 (tp_dst (ct_orig ct)))
  else if l3 =? AF_INET6 then negb (bool_decide (tp_src (ct_repl ct) = tp_dst (ct_orig ct)))
  else false.

Definition getobjopt_is_spat (ct : nf_conntrack) : bool :=
  (if attr_is_set ATTR_STATUS ct then flag (ct_status ct) IPS_SRC_NAT_DONE else true) &&
  negb (l4dst_all (tp_l4dst (ct_repl ct)) =? tp_l4src (ct_orig ct)).

Definition getobjopt_is_dpat (ct : nf_conntrack) : bool :=
  (if attr_is_set ATTR_STATUS ct then flag (ct_status ct) IPS_DST_NAT_DONE else true) &&
  negb (tp_l4src (ct_repl ct) =? l4dst_all (tp_l4dst (ct_orig ct))).

Definition getobjopt_array : list (nf_conntrack -> bool) :=
  [getobjopt_is_snat; getobjopt_is_dnat; getobjopt_is_spat; getobjopt_is_dpat].

Definition __getobjopt (ct : nf_conntrack) (option : Z) : M Z :=
  if NFCT_GOPT_MAX <? option then ret (-1) else
  match getobjopt_array !! Z.to_nat option with
  | Some f => ret (Z.b2z (f ct))
  | None => ub
  end.

Definition nfct_getobjopt (ct : nf_conntrack) (option : Z) : M Z :=
  if NFCT_GOPT_MAX <? option then set_errno EOPNOTSUPP ;;; ret (-1)
  else __getobjopt ct option.

(** ** Options keep the object well formed *)

Lemma uint_u_get n o N w u : blob N u -> 0 <= o -> o + Z.of_nat n <= N -> w = 8 * Z.of_nat n ->
  uint w (u_get n o u).
Proof.
  intros Hu Ho HN ->. destruct (blob_slice o (Z.of_nat n) N u) as [L B]; auto; [lia|].
  apply le_dec_uint; done.
Qed.

Lemma u_get_set n o N v u : blob N u -> 0 <= o -> o + Z.of_nat n <= N -> uint (8 * Z.of_nat n) v ->
  u_get n o (u_set n o v u) = v.
Proof.
  intros [L B] Ho HN Hv. unfold u_get, u_set. rewrite rd_splice_eq by lia. by apply wrap_small.
Qed.

(** The options that undo a translation; the getter with the same number asks
    for that translation. *)
Definition undo_options : list Z :=
  [NFCT_SOPT_UNDO_SNAT; NFCT_SOPT_UNDO_DNAT; NFCT_SOPT_UNDO_SPAT; NFCT_SOPT_UNDO_DPAT].

(** The address or port that the translation replaced, where undoing it stores it. *)
Definition undone_attr (option : Z) (ct : nf_conntrack) : nf_conntrack_attr :=
  if option =? NFCT_SOPT_UNDO_SNAT
  then if tp_l3protonum (ct_orig ct) =? AF_INET then ATTR_SNAT_IPV4 else ATTR_SNAT_IPV6
  else if option =? NFCT_SOPT_UNDO_DNAT
  then if tp_l3protonum (ct_orig ct) =? AF_INET then ATTR_DNAT_IPV4 else ATTR_DNAT_IPV6
  else if option =? NFCT_SOPT_UNDO_SPAT then ATTR_SNAT_PORT else ATTR_DNAT_PORT.

Definition translated_attr (option : Z) (ct : nf_conntrack) : nf_conntrack_attr :=
  if option =? NFCT_SOPT_UNDO_SNAT
  then if tp_l3protonum (ct_orig ct) =? AF_INET then ATTR_REPL_IPV4_DST else ATTR_REPL_IPV6_DST
  else if option =? NFCT_SOPT_UNDO_DNAT
  then if tp_l3protonum (ct_orig ct) =? AF_INET then ATTR_REPL_IPV4_SRC else ATTR_REPL_IPV6_SRC
  else if option =? NFCT_SOPT_UNDO_SPAT then ATTR_REPL_PORT_DST else ATTR_REPL_PORT_SRC.

(** The address or port of the original direction that the translation hides. *)
Definition original_attr (option : Z) (ct : nf_conntrack) : nf_conntrack_attr :=
  if option =? NFCT_SOPT_UNDO_SNAT
  then if tp_l3protonum (ct_orig ct) =? AF_INET then ATTR_ORIG_IPV4_SRC else ATTR_ORIG_IPV6_SRC
  else if option =? NFCT_SOPT_UNDO_DNAT
  then if tp_l3protonum (ct_orig ct) =? AF_INET then ATTR_ORIG_IPV4_DST else ATTR_ORIG_IPV6_DST
  else if option =? NFCT_SOPT_UNDO_SPAT then ATTR_ORIG_PORT_SRC else ATTR_ORIG_PORT_DST.

(** An option that undoes a translation, as a function on the object: the
    object stays well formed and no longer answers that it is translated; the NAT
    attribute [undone] has what the reply tuple had, the reply tuple has what
    the original one has; the original tuple, the presence of the other
    attributes and every value that overlaps neither of the two are as before. *)
Record undoes (f : nf_conntrack -> nf_conntrack) (query : nf_conntrack -> bool)
  (undone translated original : nf_conntrack_attr) (ct : nf_conntrack) : Prop := {
  un_ok : ct_ok (f ct);
  un_query : query (f ct) = false;
  un_saved : get_attr_array undone (f ct) = get_attr_array translated ct;
  un_restored : get_attr_array translated (f ct) = get_attr_array original ct;
  un_orig : ct_orig (f ct) = ct_orig ct;
  un_set : forall b, attr_is_set b (f ct) = bool_decide (b = undone) || attr_is_set b ct;
  un_frame : forall b, copy_independent undone b = true -> copy_independent translated b = true ->
    get_attr_array b (f ct) = get_attr_array b ct
}.

(** A translation query on an object that has the two addresses or ports equal. *)
Lemma snat_query_false ct :
  (tp_l3protonum (ct_orig ct) = AF_INET ->
   addr_v4 (tp_dst (ct_repl ct)) = addr_v4 (tp_src (ct_orig ct))) ->
  (tp_l3protonum (ct_orig ct) <> AF_INET -> tp_dst (ct_repl ct) = tp_src (ct_orig ct)) ->
  getobjopt_is_snat ct = false.
Proof.
  unfold getobjopt_is_snat. intros H4 H6. destruct (_ && _); [done|]. cbv zeta.
  destruct (Z.eqb_spec (tp_l3protonum (ct_orig ct)) AF_INET); [by rewrite H4, Z.eqb_refl|].
  destruct (_ =? AF_INET6); [|done]. rewrite bool_decide_eq_true_2; auto.
Qed.

Lemma dnat_query_false ct :
  (tp_l3protonum (ct_orig ct) = AF_INET ->
   addr_v4 (tp_src (ct_repl ct)) = addr_v4 (tp_dst (ct_orig ct))) ->
  (tp_l3protonum (ct_orig ct) <> AF_INET -> tp_src (ct_repl ct) = tp_dst (ct_orig ct)) ->
  getobjopt_is_dnat ct = false.
Proof.
  unfold getobjopt_is_dnat. intros H4 H6. destruct (_ && _); [done|]. cbv zeta.
  destruct (Z.eqb_spec (tp_l3protonum (ct_orig ct)) AF_INET); [by rewrite H4, Z.eqb_refl|].
  destruct (_ =? AF_INET6); [|done]. rewrite bool_decide_eq_true_2; auto.
Qed.

Lemma spat_query_false ct : l4dst_all (tp_l4dst (ct_repl ct)) = tp_l4src (ct_orig ct) ->
  getobjopt_is_spat ct = false.
Proof. unfold getobjopt_is_spat. intros ->. by rewrite Z.eqb_refl, andb_false_r. Qed.

Lemma dpat_query_false ct : tp_l4src (ct_repl ct) = l4dst_all (tp_l4dst (ct_orig ct)) ->
  getobjopt_is_dpat ct = false.
Proof. unfold getobjopt_is_dpat. intros ->. by rewrite Z.eqb_refl, andb_false_r. Qed.

(** The bytes of a 16-bit member and its value. *)
Lemma l4dst_bytes u : blob 2 u -> le_enc 2 (l4dst_all u) = slice 0 2 u.
Proof.
  intros Hu. unfold l4dst_all, u_get, rd. destruct (blob_slice 0 2 2 u) as [L B]; try done.
  pose proof (le_enc_dec _ B) as E. replace (length _) with 2%nat in E by (unfold zlen in L; lia).
  exact E.
Qed.

(** The parts that do not depend on which option it is. *)
Ltac undo_set Hok := intros b; rewrite attr_is_set_attr_set by apply Hok; reflexivity.
Ltac undo_frame :=
  let Hu := fresh in let Ht := fresh in
  intros b Hu Ht; rewrite get_attr_array_attr_set;
  destruct b; first [discriminate Hu | discriminate Ht | reflexivity].

Lemma undo_snat_v4 ct : ct_ok ct -> tp_l3protonum (ct_orig ct) = AF_INET ->
  undoes setobjopt_undo_snat getobjopt_is_snat ATTR_SNAT_IPV4 ATTR_REPL_IPV4_DST ATTR_ORIG_IPV4_SRC ct.
Proof.
  intros Hok Hl. ct_parts Hok. unfold setobjopt_undo_snat.
  split; cbv beta; rewrite ?Hl, ?Z.eqb_refl; [| | | |reflexivity|undo_set Hok|undo_frame].
  - apply ct_ok_attr_set. ct_ok_with Hok; ok_struct.
  - apply snat_query_false; [intros _|done]. eapply u_get_set; [eassumption|done|done|].
    by eapply uint_u_get; [eassumption|done..].
  - rewrite get_attr_array_attr_set. cbn. unfold get_attr_snat_ipv4, get_attr_repl_ipv4_dst. cbn.
    do 2 f_equal. by eapply (slice_copy_eq 16).
  - rewrite get_attr_array_attr_set. cbn. unfold get_attr_repl_ipv4_dst, get_attr_orig_ipv4_src. cbn.
    do 2 f_equal. by eapply (slice_copy_eq 16).
Qed.

Lemma undo_snat_v6 ct : ct_ok ct -> tp_l3protonum (ct_orig ct) = AF_INET6 ->
  undoes setobjopt_undo_snat getobjopt_is_snat ATTR_SNAT_IPV6 ATTR_REPL_IPV6_DST ATTR_ORIG_IPV6_SRC ct.
Proof.
  intros Hok Hl. ct_parts Hok. unfold setobjopt_undo_snat.
  split; cbv beta; rewrite ?Hl; cbn [Z.eqb AF_INET6 AF_INET Pos.eqb]; [| | | |reflexivity|undo_set Hok|undo_frame].
  - apply ct_ok_attr_set. ct_ok_with Hok; ok_struct.
  - apply snat_query_false; [intros E; change (tp_l3protonum (ct_orig ct) = AF_INET) in E;
      by rewrite Hl in E|done].
  - by rewrite get_attr_array_attr_set.
  - by rewrite get_attr_array_attr_set.
Qed.

Lemma undo_dnat_v4 ct : ct_ok ct -> tp_l3protonum (ct_orig ct) = AF_INET ->
  undoes setobjopt_undo_dnat getobjopt_is_dnat ATTR_DNAT_IPV4 ATTR_REPL_IPV4_SRC ATTR_ORIG_IPV4_DST ct.
Proof.
  intros Hok Hl. ct_parts Hok. unfold setobjopt_undo_dnat.
  split; cbv beta; rewrite ?Hl, ?Z.eqb_refl; [| | | |reflexivity|undo_set Hok|undo_frame].
  - apply ct_ok_attr_set. ct_ok_with Hok; ok_struct.
  - apply dnat_query_false; [intros _|done]. eapply u_get_set; [eassumption|done|done|].
    by eapply uint_u_get; [eassumption|done..].
  - rewrite get_attr_array_attr_set. cbn. unfold get_attr_dnat_ipv4, get_attr_repl_ipv4_src. cbn.
    do 2 f_equal. by eapply (slice_copy_eq 16).
  - rewrite get_attr_array_attr_set. cbn. unfold get_attr_repl_ipv4_src, get_attr_orig_ipv4_dst. cbn.
    do 2 f_equal. by eapply (slice_copy_eq 16).
Qed.

Lemma undo_dnat_v6 ct : ct_ok ct -> tp_l3protonum (ct_orig ct) = AF_INET6 ->
  undoes setobjopt_undo_dnat getobjopt_is_dnat ATTR_DNAT_IPV6 ATTR_REPL_IPV6_SRC ATTR_ORIG_IPV6_DST ct.
Proof.
  intros Hok Hl. ct_parts Hok. unfold setobjopt_undo_dnat.
  split; cbv beta; rewrite ?Hl; cbn [Z.eqb AF_INET6 AF_INET Pos.eqb]; [| | | |reflexivity|undo_set Hok|undo_frame].
  - apply ct_ok_attr_set. ct_ok_with Hok; ok_struct.
  - apply dnat_query_false; [intros E; change (tp_l3protonum (ct_orig ct) = AF_INET) in E;
      by rewrite Hl in E|done].
  - by rewrite get_attr_array_attr_set.
  - by rewrite get_attr_array_attr_set.
Qed.

Lemma undo_spat ct : ct_ok ct ->
  undoes setobjopt_undo_spat getobjopt_is_spat ATTR_SNAT_PORT ATTR_REPL_PORT_DST ATTR_ORIG_PORT_SRC ct.
Proof.
  intros Hok. ct_parts Hok.
  assert (Hp : uint 16 (l4dst_all (tp_l4dst (ct_repl ct)))) by (by eapply uint_u_get; [eassumption|done..]).
  unfold setobjopt_undo_spat. split; cbv beta; [| | | |reflexivity|undo_set Hok|undo_frame].
  - apply ct_ok_attr_set. ct_ok_with Hok; ok_struct.
  - apply spat_query_false. cbn. by eapply u_get_set; [eassumption|done|done|].
  - rewrite get_attr_array_attr_set. cbn. unfold get_attr_snat_port, get_attr_repl_port_dst. cbn.
    do 2 f_equal. by apply l4dst_bytes.
  - by rewrite get_attr_array_attr_set.
Qed.

Lemma undo_dpat ct : ct_ok ct ->
  undoes setobjopt_undo_dpat getobjopt_is_dpat ATTR_DNAT_PORT ATTR_REPL_PORT_SRC ATTR_ORIG_PORT_DST ct.
Proof.
  intros Hok. ct_parts Hok.
  assert (Hp : uint 16 (l4dst_all (tp_l4dst (ct_orig ct)))) by (by eapply uint_u_get; [eassumption|done..]).
  unfold setobjopt_undo_dpat. split; cbv beta; [| | | |reflexivity|undo_set Hok|undo_frame].
  - apply ct_ok_attr_set. ct_ok_with Hok; ok_struct.
  - by apply dpat_query_false.
  - by rewrite get_attr_array_attr_set.
  - rewrite get_attr_array_attr_set. cbn. unfold get_attr_repl_port_src, get_attr_orig_port_dst. cbn.
    do 2 f_equal. by apply l4dst_bytes.
Qed.

Lemma undo_any ct option : ct_ok ct -> option ∈ undo_options ->
  (tp_l3protonum (ct_orig ct) = AF_INET \/ tp_l3protonum (ct_orig ct) = AF_INET6) ->
  exists f g, setobjopt_array !! Z.to_nat option = Some f /\ getobjopt_array !! Z.to_nat option = Some g /\
    undoes f g (undone_attr option ct) (translated_attr option ct) (original_attr option ct) ct.
Proof.
  intros Hok Ho Hl. unfold undo_options in Ho. rewrite !elem_of_cons, elem_of_nil in Ho.
  unfold undone_attr, translated_attr, original_attr.
  destruct Ho as [->|[->|[->|[->|[]]]]]; eexists _, _; (split; [reflexivity|]);
    (split; [reflexivity|]); cbn [Z.eqb Pos.eqb NFCT_SOPT_UNDO_SNAT NFCT_SOPT_UNDO_DNAT
      NFCT_SOPT_UNDO_SPAT NFCT_SOPT_UNDO_DPAT]; auto using undo_spat, undo_dpat.
  - destruct Hl as [Hl|Hl]; [|rewrite Hl; by apply undo_snat_v6].
    rewrite Hl. by apply undo_snat_v4.
  - destruct Hl as [Hl|Hl]; [|rewrite Hl; by apply undo_dnat_v6].
    rewrite Hl. by apply undo_dnat_v4.
Qed.

(** C33: undoing source or destination address or port translation, over IPv4 or
    IPv6: the call succeeds and keeps the object well formed; the address or port
    of the reply tuple is that of the original tuple again, so that the object no
    longer answers that it is translated that way; what the reply tuple had is
    saved in the NAT attribute, the only one that becomes present; the original
    tuple, and every attribute whose storage overlaps neither of the two, has the
    value it had. *)
Theorem undo_nat_correct ct option w :
  ct_ok ct -> option ∈ undo_options ->
  (tp_l3protonum (ct_orig ct) = AF_INET \/ tp_l3protonum (ct_orig ct) = AF_INET6) ->
  let undone := undone_attr option ct in
  let translated := translated_attr option ct in
  exists ct', nfct_setobjopt ct option w = Ok ((0, ct'), w) /\ ct_ok ct' /\
    nfct_getobjopt ct' option w = Ok (0, w) /\
    get_attr_array undone ct' = get_attr_array translated ct /\
    get_attr_array translated ct' = get_attr_array (original_attr option ct) ct /\
    ct_orig ct' = ct_orig ct /\
    (forall b, attr_is_set b ct' = bool_decide (b = undone) || attr_is_set b ct) /\
    (forall b, copy_independent undone b = true -> copy_independent translated b = true ->
       get_attr_array b ct' = get_attr_array b ct).
Proof.
  intros Hok Ho Hl undone translated.
  destruct (undo_any ct option Hok Ho Hl) as (f & g & Hf & Hg & [H1 H2 H3 H4 H5 H6 H7]). exists (f ct).
  assert (Hm : (NFCT_SOPT_MAX <? option) = false /\ (NFCT_GOPT_MAX <? option) = false).
  { unfold undo_options in Ho. rewrite !elem_of_cons, elem_of_nil in Ho.
    destruct Ho as [->|[->|[->|[->|[]]]]]; done. }
  destruct Hm as [M1 M2].
  unfold nfct_setobjopt, __setobjopt, nfct_getobjopt, __getobjopt. rewrite M1, M2, Hf, Hg, H2. done.
Qed.

(** An IPv4 object whose reply goes to another address. *)
Definition snat_example : nf_conntrack :=
  upd_repl (with_tp_dst (splice 0 [10; 0; 0; 1] zero_addr))
    (upd_orig (fun t => with_tp_l3protonum AF_INET (with_tp_src (splice 0 [192; 168; 0; 1] zero_addr) t)) zero_ct).

Lemma snat_example_ok : ct_ok snat_example.
Proof.
  pose proof zero_ct_ok as H.
  assert (B : forall bs, zlen bs = 4 -> Forall byte_ok bs -> blob 16 (splice 0 bs zero_addr)).
  { intros bs L B. apply blob_splice; [by apply blob_replicate|done|lia|lia]. }
  ct_ok_with H; unfold tuple_ok in *; cbn in *; destruct_and?; split_and!; auto; try done;
    apply B; try done; apply bytes_okb_ok; reflexivity.
Qed.

Lemma undo_nat_correct_witness :
  exists ct', nfct_setobjopt snat_example NFCT_SOPT_UNDO_SNAT (mk_world [] 0 [])
      = Ok ((0, ct'), mk_world [] 0 []) /\
    get_attr_array ATTR_SNAT_IPV4 ct' = Some (VBytes [10; 0; 0; 1]) /\
    get_attr_array ATTR_REPL_IPV4_DST ct' = Some (VBytes [192; 168; 0; 1]) /\
    get_attr_array ATTR_ORIG_IPV4_SRC ct' = Some (VBytes [192; 168; 0; 1]).
Proof.
  destruct (undo_nat_correct snat_example NFCT_SOPT_UNDO_SNAT (mk_world [] 0 []))
    as (ct' & Hr & _ & _ & Hs & Ht & _ & _ & Hf);
    [apply snat_example_ok | left | left; reflexivity |].
  exists ct'. split; [exact Hr|]. split; [exact Hs|]. split; [exact Ht|].
  rewrite (Hf ATTR_ORIG_IPV4_SRC) by reflexivity. reflexivity.
Defined.

(** ** Completing the reply tuple *)

Definition port_protocols : list Z :=
  [IPPROTO_UDP; IPPROTO_TCP; IPPROTO_SCTP; IPPROTO_DCCP; IPPROTO_GRE; IPPROTO_UDPLITE].

(** Or-ing a mask into the first word of a bit array. *)
Lemma test_bit_lor_word0 k m s : 0 <= k -> 0 <= m < 2 ^ 32 -> 0 < zlen s ->
  has_bit k (alter (fun x => Z.lor x m) 0%nat s) = Z.testbit m k || has_bit k s.
Proof.
  intros Hk Hm Hs. rewrite !test_bit_testbit. destruct s as [|x s]; [done|].
  pose proof (Z.mod_pos_bound k 32 ltac:(lia)).
  destruct (decide (k < 32)) as [H32|H32].
  - rewrite Z.div_small, Z.mod_small by lia. change (Z.to_nat 0) with 0%nat.
    rewrite list_lookup_alter_eq. cbn. rewrite Z.lor_spec. apply orb_comm.
  - assert (Hn : Z.to_nat (k / 32) <> 0%nat).
    { pose proof (Z.div_le_lower_bound k 32 1). lia. }
    rewrite list_lookup_alter_ne by done.
    rewrite <- (Z.mod_small m (2 ^ 32)), Z.mod_pow2_bits_high by lia. done.
Qed.

Lemma word_lor x m : word_ok x -> 0 <= m < 2 ^ 32 -> word_ok (Z.lor x m).
Proof.
  unfold word_ok. intros Hx Hm. pose proof (Z.lor_nonneg x m) as Hn. split; [tauto|].
  destruct (decide (Z.lor x m = 0)) as [->|Hz]; [lia|].
  apply Z.log2_lt_pow2; [lia|]. rewrite Z.log2_lor by lia.
  apply Z.max_lub_lt.
  - destruct (decide (x = 0)) as [->|]; [done|]. apply Z.log2_lt_pow2; lia.
  - destruct (decide (m = 0)) as [->|]; [done|]. apply Z.log2_lt_pow2; lia.
Qed.

Lemma tuple_bits_set a ct : set_ok (ct_set ct) ->
  has_bit (attr_idx a) (alter (fun x => Z.lor x (Z.lor TS_ORIG TS_REPL)) 0%nat (ct_set ct))
  = (attr_idx a <=? attr_idx ATTR_REPL_L4PROTO) || attr_is_set a ct.
Proof.
  intros [Hl _]. unfold __NFCT_BITSET in Hl. rewrite test_bit_lor_word0; [|apply attr_idx_range|done|lia].
  unfold attr_is_set. f_equal. by destruct a.
Qed.

Lemma autocomplete_ok ct d : ct_ok ct -> ct_ok (__autocomplete ct d).
Proof.
  intros Hok. ct_parts Hok.
  assert (Hs : set_ok (alter (fun x => Z.lor x (Z.lor TS_ORIG TS_REPL)) 0%nat (ct_set ct))).
  { destruct (ok_set _ Hok) as [Hl Hw]. split; [unfold zlen in *; by rewrite length_alter|].
    apply Forall_alter; [done|]. intros x _ Hx. apply word_lor; done. }
  assert (Ht : forall t o, tuple_ok t -> tuple_ok o -> tuple_ok (complete_tuple t o)).
  { intros t o (?&?&?&?&?&?&?) (?&?&?&?&?&?&?).
    assert (uint 16 (l4dst_all (tp_l4dst o))) by (by eapply uint_u_get; [eassumption|done..]).
    unfold complete_tuple. destruct (one_of _ _); unfold tuple_ok; cbn; split_and!; auto.
    by apply blob_u_set. }
  destruct d; ct_ok_with Hok; by apply Ht.
Qed.

(** The completed tuple of a flow with ports. *)
Lemma complete_tuple_ports t o : tuple_ok t -> tuple_ok o -> tp_protonum o ∈ port_protocols ->
  let t' := complete_tuple t o in
  tp_src t' = tp_dst o /\ tp_dst t' = tp_src o /\ tp_l3protonum t' = tp_l3protonum o /\
  tp_protonum t' = tp_protonum o /\ tp_zone t' = tp_zone t /\
  tp_l4src t' = l4dst_all (tp_l4dst o) /\ l4dst_all (tp_l4dst t') = tp_l4src o.
Proof.
  intros (?&?&?&?&?&?&?) (?&?&?&?&?&?&?) Hp. unfold complete_tuple, one_of. cbn.
  rewrite bool_decide_eq_true_2 by done. cbn. split_and!; auto. by eapply u_get_set.
Qed.

(** The layer 4 destination is its two bytes. *)
Lemma l4dst_set_get u v : blob 2 u -> blob 2 v -> set_l4dst_all (l4dst_all v) u = v.
Proof.
  intros [Lu Bu] [Lv Bv]. unfold set_l4dst_all, l4dst_all, u_set, u_get, rd.
  change (Z.of_nat 2) with 2. rewrite <- Lv, slice_all.
  pose proof (le_enc_dec v Bv) as E. replace (length v) with 2%nat in E by (unfold zlen in Lv; lia).
  rewrite E. unfold splice. rewrite drop_ge by (unfold zlen in *; lia). apply app_nil_r.
Qed.

(** [NFCT_SOPT_SETUP_REPLY] on a flow of a protocol with ports makes the
    reply tuple the inverse of the original one: the object stays well formed,
    keeps its original tuple, is neither address nor port translated any more,
    has every tuple attribute marked as present and no other attribute added;
    completing the original tuple back from the reply gives the original tuple
    again. *)
Theorem setup_reply_inverts ct w :
  ct_ok ct -> tp_protonum (ct_orig ct) ∈ port_protocols ->
  exists ct' ct'', nfct_setobjopt ct NFCT_SOPT_SETUP_REPLY w = Ok ((0, ct'), w) /\ ct_ok ct' /\
    ct_orig ct' = ct_orig ct /\
    tp_src (ct_repl ct') = tp_dst (ct_orig ct) /\ tp_dst (ct_repl ct') = tp_src (ct_orig ct) /\
    (forall o, o ∈ undo_options -> nfct_getobjopt ct' o w = Ok (0, w)) /\
    (forall a, attr_is_set a ct' = (attr_idx a <=? attr_idx ATTR_REPL_L4PROTO) || attr_is_set a ct) /\
    nfct_setobjopt ct' NFCT_SOPT_SETUP_ORIGINAL w = Ok ((0, ct''), w) /\ ct_orig ct'' = ct_orig ct.
Proof.
  intros Hok Hp. pose proof (ok_orig _ Hok) as Ho. pose proof (ok_repl _ Hok) as Hr.
  destruct (complete_tuple_ports (ct_repl ct) (ct_orig ct) Hr Ho Hp) as (E1 & E2 & E3 & E4 & E5 & E6 & E7).
  exists (__autocomplete ct DIR_REPL), (__autocomplete (__autocomplete ct DIR_REPL) DIR_ORIG).
  split; [reflexivity|]. split; [by apply autocomplete_ok|]. split; [reflexivity|].
  split; [exact E1|]. split; [exact E2|]. split.
  { intros o Hopt. unfold undo_options in Hopt. rewrite !elem_of_cons, elem_of_nil in Hopt.
    destruct Hopt as [->|[->|[->|[->|[]]]]].
    - change (Ok (Z.b2z (getobjopt_is_snat (__autocomplete ct DIR_REPL)), w) = Ok (0, w)).
      rewrite snat_query_false; [done|..]; intros _; [f_equal|]; exact E2.
    - change (Ok (Z.b2z (getobjopt_is_dnat (__autocomplete ct DIR_REPL)), w) = Ok (0, w)).
      rewrite dnat_query_false; [done|..]; intros _; [f_equal|]; exact E1.
    - change (Ok (Z.b2z (getobjopt_is_spat (__autocomplete ct DIR_REPL)), w) = Ok (0, w)).
      rewrite spat_query_false; [done|]. exact E7.
    - change (Ok (Z.b2z (getobjopt_is_dpat (__autocomplete ct DIR_REPL)), w) = Ok (0, w)).
      rewrite dpat_query_false; [done|]. exact E6. }
  split; [intros a; exact (tuple_bits_set a ct (ok_set _ Hok))|]. split; [reflexivity|].
  pose proof (ok_repl _ (autocomplete_ok ct DIR_REPL Hok)) as Hr'.
  change (complete_tuple (ct_orig ct) (complete_tuple (ct_repl ct) (ct_orig ct)) = ct_orig ct).
  change (ct_repl (__autocomplete ct DIR_REPL)) with (complete_tuple (ct_repl ct) (ct_orig ct)) in Hr'.
  set (r := complete_tuple (ct_repl ct) (ct_orig ct)) in *.
  unfold complete_tuple, one_of. cbn. rewrite E4, bool_decide_eq_true_2 by done. cbn.
  rewrite E1, E2, E3, E6, E7.
  destruct (ct_orig ct) as [s d l3 p z l4s l4d], Ho as (?&?&?&?&?&?&?); cbn in *.
  change (mk_tuple s d l3 p z l4s (set_l4dst_all (l4dst_all l4d) l4d) = mk_tuple s d l3 p z l4s l4d). f_equal.
  by apply l4dst_set_get.
Qed.

(** An IPv4 TCP flow. *)
Definition tcp_example : nf_conntrack :=
  upd_orig (with_tp_protonum IPPROTO_TCP) snat_example.

Lemma tcp_example_ok : ct_ok tcp_example.
Proof.
  pose proof snat_example_ok as H. ct_ok_with H.
  unfold tuple_ok in *. cbn in *. destruct_and?. split_and!; auto.
Qed.

Lemma setup_reply_inverts_witness :
  exists ct' ct'', nfct_setobjopt tcp_example NFCT_SOPT_SETUP_REPLY (mk_world [] 0 [])
      = Ok ((0, ct'), mk_world [] 0 []) /\ ct_ok ct' /\
    ct_orig ct' = ct_orig tcp_example /\
    tp_src (ct_repl ct') = tp_dst (ct_orig tcp_example) /\
    tp_dst (ct_repl ct') = tp_src (ct_orig tcp_example) /\
    (forall o, o ∈ undo_options -> nfct_getobjopt ct' o (mk_world [] 0 []) = Ok (0, mk_world [] 0 [])) /\
    (forall a, attr_is_set a ct'
       = (attr_idx a <=? attr_idx ATTR_REPL_L4PROTO) || attr_is_set a tcp_example) /\
    nfct_setobjopt ct' NFCT_SOPT_SETUP_ORIGINAL (mk_world [] 0 [])
      = Ok ((0, ct''), mk_world [] 0 []) /\ ct_orig ct'' = ct_orig tcp_example.
Proof.
  apply (setup_reply_inverts tcp_example (mk_world [] 0 []));
    [apply tcp_example_ok | right; left].
Defined.
