(* ===== verification/Ctnl.v ===== *)
(** Message and attribute numbers of ctnetlink:
    [src/libnetfilter_conntrack/linux_nfnetlink_conntrack.h] and the parts of
    [linux_nf_conntrack_common.h] and [linux_nfnetlink.h] that the library uses. *)
From S2P Require Import Prelude.

(** [enum cntl_msg_types]. *)
Definition IPCTNL_MSG_CT_NEW : Z := 0.
Definition IPCTNL_MSG_CT_GET : Z := 1.
Definition IPCTNL_MSG_CT_DELETE : Z := 2.
Definition IPCTNL_MSG_CT_GET_CTRZERO : Z := 3.
Definition IPCTNL_MSG_CT_GET_STATS_CPU : Z := 4.
Definition IPCTNL_MSG_CT_GET_STATS : Z := 5.
Definition IPCTNL_MSG_CT_GET_DYING : Z := 6.
Definition IPCTNL_MSG_CT_GET_UNCONFIRMED : Z := 7.

(** [enum ctattr_type]. *)
Definition CTA_TUPLE_ORIG : Z := 1.
Definition CTA_TUPLE_REPLY : Z := 2.
Definition CTA_STATUS : Z := 3.
Definition CTA_PROTOINFO : Z := 4.
Definition CTA_HELP : Z := 5.
Definition CTA_NAT_SRC : Z := 6.
Definition CTA_TIMEOUT : Z := 7.
Definition CTA_MARK : Z := 8.
Definition CTA_COUNTERS_ORIG : Z := 9.
Definition CTA_COUNTERS_REPLY : Z := 10.
Definition CTA_USE : Z := 11.
Definition CTA_ID : Z := 12.
Definition CTA_NAT_DST : Z := 13.
Definition CTA_TUPLE_MASTER : Z := 14.
Definition CTA_SEQ_ADJ_ORIG : Z := 15.
Definition CTA_NAT_SEQ_ADJ_ORIG : Z := 15.
Definition CTA_SEQ_ADJ_REPLY : Z := 16.
Definition CTA_NAT_SEQ_ADJ_REPLY : Z := 16.
Definition CTA_SECMARK : Z := 17.
Definition CTA_ZONE : Z := 18.
Definition CTA_SECCTX : Z := 19.
Definition CTA_TIMESTAMP : Z := 20.
Definition CTA_MARK_MASK : Z := 21.
Definition CTA_LABELS : Z := 22.
Definition CTA_LABELS_MASK : Z := 23.
Definition CTA_SYNPROXY : Z := 24.
Definition CTA_MAX : Z := 24.

(** [enum ctattr_tuple]. *)
Definition CTA_TUPLE_IP : Z := 1.
Definition CTA_TUPLE_PROTO : Z := 2.
Definition CTA_TUPLE_ZONE : Z := 3.
Definition CTA_TUPLE_MAX : Z := 3.

(** [enum ctattr_ip]. *)
Definition CTA_IP_V4_SRC : Z := 1.
Definition CTA_IP_V4_DST : Z := 2.
Definition CTA_IP_V6_SRC : Z := 3.
Definition CTA_IP_V6_DST : Z := 4.
Definition CTA_IP_MAX : Z := 4.

(** [enum ctattr_l4proto]. *)
Definition CTA_PROTO_NUM : Z := 1.
Definition CTA_PROTO_SRC_PORT : Z := 2.
Definition CTA_PROTO_DST_PORT : Z := 3.
Definition CTA_PROTO_ICMP_ID : Z := 4.
Definition CTA_PROTO_ICMP_TYPE : Z := 5.
Definition CTA_PROTO_ICMP_CODE : Z := 6.
Definition CTA_PROTO_ICMPV6_ID : Z := 7.
Definition CTA_PROTO_ICMPV6_TYPE : Z := 8.
Definition CTA_PROTO_ICMPV6_CODE : Z := 9.
Definition CTA_PROTO_MAX : Z := 9.

(** [enum ctattr_protoinfo]. *)
Definition CTA_PROTOINFO_TCP : Z := 1.
Definition CTA_PROTOINFO_DCCP : Z := 2.
Definition CTA_PROTOINFO_SCTP : Z := 3.
Definition CTA_PROTOINFO_MAX : Z := 3.

(** [enum ctattr_protoinfo_tcp]. *)
Definition CTA_PROTOINFO_TCP_STATE : Z := 1.
Definition CTA_PROTOINFO_TCP_WSCALE_ORIGINAL : Z := 2.
Definition CTA_PROTOINFO_TCP_WSCALE_REPLY : Z := 3.
Definition CTA_PROTOINFO_TCP_FLAGS_ORIGINAL : Z := 4.
Definition CTA_PROTOINFO_TCP_FLAGS_REPLY : Z := 5.
Definition CTA_PROTOINFO_TCP_MAX : Z := 5.

(** [enum ctattr_protoinfo_dccp]. *)
Definition CTA_PROTOINFO_DCCP_STATE : Z := 1.
Definition CTA_PROTOINFO_DCCP_ROLE : Z := 2.
Definition CTA_PROTOINFO_DCCP_HANDSHAKE_SEQ : Z := 3.
Definition CTA_PROTOINFO_DCCP_MAX : Z := 3.

(** [enum ctattr_protoinfo_sctp]. *)
Definition CTA_PROTOINFO_SCTP_STATE : Z := 1.
Definition CTA_PROTOINFO_SCTP_VTAG_ORIGINAL : Z := 2.
Definition CTA_PROTOINFO_SCTP_VTAG_REPLY : Z := 3.
Definition CTA_PROTOINFO_SCTP_MAX : Z := 3.

(** [enum ctattr_counters]. *)
Definition CTA_COUNTERS_PACKETS : Z := 1.
Definition CTA_COUNTERS_BYTES : Z := 2.
Definition CTA_COUNTERS32_PACKETS : Z := 3.
Definition CTA_COUNTERS32_BYTES : Z := 4.
Definition CTA_COUNTERS_MAX : Z := 4.

(** [enum ctattr_tstamp]. *)
Definition CTA_TIMESTAMP_START : Z := 1.
Definition CTA_TIMESTAMP_STOP : Z := 2.
Definition CTA_TIMESTAMP_MAX : Z := 2.

(** [enum ctattr_nat]. *)
Definition CTA_NAT_V4_MINIP : Z := 1.
Definition CTA_NAT_MINIP : Z := 1.
Definition CTA_NAT_V4_MAXIP : Z := 2.
Definition CTA_NAT_MAXIP : Z := 2.
Definition CTA_NAT_PROTO : Z := 3.
Definition CTA_NAT_V6_MINIP : Z := 4.
Definition CTA_NAT_V6_MAXIP : Z := 5.
Definition CTA_NAT_MAX : Z := 5.

(** [enum ctattr_protonat]. *)
Definition CTA_PROTONAT_PORT_MIN : Z := 1.
Definition CTA_PROTONAT_PORT_MAX : Z := 2.
Definition CTA_PROTONAT_MAX : Z := 2.

(** [enum ctattr_seqadj]. *)
Definition CTA_SEQADJ_CORRECTION_POS : Z := 1.
Definition CTA_SEQADJ_OFFSET_BEFORE : Z := 2.
Definition CTA_SEQADJ_OFFSET_AFTER : Z := 3.
Definition CTA_SEQADJ_MAX : Z := 3.

(** [enum ctattr_natseq]. *)
Definition CTA_NAT_SEQ_CORRECTION_POS : Z := 1.
Definition CTA_NAT_SEQ_OFFSET_BEFORE : Z := 2.
Definition CTA_NAT_SEQ_OFFSET_AFTER : Z := 3.
Definition CTA_NAT_SEQ_MAX : Z := 3.

(** [enum ctattr_synproxy]. *)
Definition CTA_SYNPROXY_ISN : Z := 1.
Definition CTA_SYNPROXY_ITS : Z := 2.
Definition CTA_SYNPROXY_TSOFF : Z := 3.
Definition CTA_SYNPROXY_MAX : Z := 3.

(** [enum ctattr_help]. *)
Definition CTA_HELP_NAME : Z := 1.
Definition CTA_HELP_INFO : Z := 2.
Definition CTA_HELP_MAX : Z := 2.

(** [enum ctattr_secctx]. *)
Definition CTA_SECCTX_NAME : Z := 1.
Definition CTA_SECCTX_MAX : Z := 1.

(** [linux_nf_conntrack_common.h]. *)
Definition IPS_CONFIRMED : Z := 8.

(** [linux_nfnetlink.h]. *)
Definition NFNL_SUBSYS_CTNETLINK : Z := 1.
Definition NFNETLINK_V0 : Z := 0.
Definition sizeof_nfgenmsg : Z := 4.
