(* ===== verification/CtBuild.v ===== *)
(** Object to Netlink message: [src/libnetfilter_conntrack/build_mnl.c].  The
    builders append attributes to the message at offset [nlh] of the buffer
    with the libmnl operations of [MnlAttr].  [mnl_attr_nest_start] never
    returns NULL, so the NULL checks of the source have no branch here. *)
From S2P Require Import Prelude CMonad MnlMsg MnlAttr Bitops CtObject CtSetter CtCompare Ctnl.
Open Scope c_scope.

(** ** Tuples *)

Definition nfct_build_tuple_ip (nlh : Z) (t : __nfct_tuple) : M Z :=
  let! nest := mnl_attr_nest_start nlh CTA_TUPLE_IP in
  let! known :=
    (if tp_l3protonum t =? AF_INET then
       mnl_attr_put_u32 nlh CTA_IP_V4_SRC (addr_v4 (tp_src t)) ;;;
       mnl_attr_put_u32 nlh CTA_IP_V4_DST (addr_v4 (tp_dst t)) ;;; ret true
     else if tp_l3protonum t =? AF_INET6 then
       mnl_attr_put nlh CTA_IP_V6_SRC 16 (tp_src t) ;;;
       mnl_attr_put nlh CTA_IP_V6_DST 16 (tp_dst t) ;;; ret true
     else ret false) in
  if (known : bool) then mnl_attr_nest_end nlh nest ;;; ret 0
  else mnl_attr_nest_cancel nlh nest ;;; ret (-1).

Definition nfct_build_tuple_proto (nlh : Z) (t : __nfct_tuple) : M Z :=
  let! nest := mnl_attr_nest_start nlh CTA_TUPLE_PROTO in
  let! known :=
    (mnl_attr_put_u8 nlh CTA_PROTO_NUM (tp_protonum t) ;;;
     if one_of (tp_protonum t)
          [IPPROTO_UDP; IPPROTO_TCP; IPPROTO_SCTP; IPPROTO_DCCP; IPPROTO_GRE; IPPROTO_UDPLITE] then
       mnl_attr_put_u16 nlh CTA_PROTO_SRC_PORT (tp_l4src t) ;;;
       mnl_attr_put_u16 nlh CTA_PROTO_DST_PORT (l4dst_all (tp_l4dst t)) ;;; ret true
     else if tp_protonum t =? IPPROTO_ICMP then
       mnl_attr_put_u8 nlh CTA_PROTO_ICMP_CODE (icmp_code (tp_l4dst t)) ;;;
       mnl_attr_put_u8 nlh CTA_PROTO_ICMP_TYPE (icmp_type (tp_l4dst t)) ;;;
       mnl_attr_put_u16 nlh CTA_PROTO_ICMP_ID (tp_l4src t) ;;; ret true
     else if tp_protonum t =? IPPROTO_ICMPV6 then
       mnl_attr_put_u8 nlh CTA_PROTO_ICMPV6_CODE (icmp_code (tp_l4dst t)) ;;;
       mnl_attr_put_u8 nlh CTA_PROTO_ICMPV6_TYPE (icmp_type (tp_l4dst t)) ;;;
       mnl_attr_put_u16 nlh CTA_PROTO_ICMPV6_ID (tp_l4src t) ;;; ret true
     else ret false) in
  if (known : bool) then mnl_attr_nest_end nlh nest ;;; ret 0
  else mnl_attr_nest_cancel nlh nest ;;; ret (-1).

Definition nfct_build_tuple_raw (nlh : Z) (t : __nfct_tuple) : M Z :=
  let! r := nfct_build_tuple_ip nlh t in
  if r <? 0 then ret (-1) else
  let! r := nfct_build_tuple_proto nlh t in
  if r <? 0 then ret (-1) else ret 0.

Definition nfct_build_tuple (nlh : Z) (t : __nfct_tuple) (type : Z) : M Z :=
  let! nest := mnl_attr_nest_start nlh type in
  let! r := nfct_build_tuple_raw nlh t in
  if r <? 0 then mnl_attr_nest_cancel nlh nest ;;; ret (-1)
  else mnl_attr_nest_end nlh nest ;;; ret 0.

(** ** Protocol information *)

(** [if (b) c;]. *)
Definition when (b : bool) (c : M unit) : M unit := if b then c else ret tt.

(** [test_bit(a1, set) || test_bit(a2, set) || ...]. *)
Definition any_set (l : list nf_conntrack_attr) (ct : nf_conntrack) : bool :=
  existsb (fun a => attr_is_set a ct) l.

(** [struct nf_ct_tcp_flags]: value and mask of a direction. *)
Definition tcp_flags_bytes (d : nfct_dir) (ct : nf_conntrack) : list Z :=
  slice (tcp_flags_value_off d) 2 (ct_protoinfo ct).

Definition nfct_build_protoinfo_tcp (nlh : Z) (ct : nf_conntrack) : M unit :=
  when (attr_is_set ATTR_TCP_STATE ct)
    (mnl_attr_put_u8 nlh CTA_PROTOINFO_TCP_STATE (u_get 1 tcp_state_off (ct_protoinfo ct))) ;;;
  when (attr_is_set ATTR_TCP_FLAGS_ORIG ct && attr_is_set ATTR_TCP_MASK_ORIG ct)
    (mnl_attr_put nlh CTA_PROTOINFO_TCP_FLAGS_ORIGINAL 2 (tcp_flags_bytes DIR_ORIG ct)) ;;;
  when (attr_is_set ATTR_TCP_FLAGS_REPL ct && attr_is_set ATTR_TCP_MASK_REPL ct)
    (mnl_attr_put nlh CTA_PROTOINFO_TCP_FLAGS_REPLY 2 (tcp_flags_bytes DIR_REPL ct)) ;;;
  when (attr_is_set ATTR_TCP_WSCALE_ORIG ct)
    (mnl_attr_put_u8 nlh CTA_PROTOINFO_TCP_WSCALE_ORIGINAL
       (u_get 1 (tcp_wscale_off DIR_ORIG) (ct_protoinfo ct))) ;;;
  when (attr_is_set ATTR_TCP_WSCALE_REPL ct)
    (mnl_attr_put_u8 nlh CTA_PROTOINFO_TCP_WSCALE_REPLY
       (u_get 1 (tcp_wscale_off DIR_REPL) (ct_protoinfo ct))).

Definition nfct_build_protoinfo_sctp (nlh : Z) (ct : nf_conntrack) : M unit :=
  when (attr_is_set ATTR_SCTP_STATE ct)
    (mnl_attr_put_u8 nlh CTA_PROTOINFO_SCTP_STATE (u_get 1 sctp_state_off (ct_protoinfo ct))) ;;;
  when (attr_is_set ATTR_SCTP_VTAG_ORIG ct)
    (mnl_attr_put_u32 nlh CTA_PROTOINFO_SCTP_VTAG_ORIGINAL
       (htonl (u_get 4 (sctp_vtag_off DIR_ORIG) (ct_protoinfo ct)))) ;;;
  when (attr_is_set ATTR_SCTP_VTAG_REPL ct)
    (mnl_attr_put_u32 nlh CTA_PROTOINFO_SCTP_VTAG_REPLY
       (htonl (u_get 4 (sctp_vtag_off DIR_REPL) (ct_protoinfo ct)))).

Definition nfct_build_protoinfo_dccp (nlh : Z) (ct : nf_conntrack) : M unit :=
  when (attr_is_set ATTR_DCCP_STATE ct)
    (mnl_attr_put_u8 nlh CTA_PROTOINFO_DCCP_STATE (u_get 1 dccp_state_off (ct_protoinfo ct))) ;;;
  when (attr_is_set ATTR_DCCP_ROLE ct)
    (mnl_attr_put_u8 nlh CTA_PROTOINFO_DCCP_ROLE (u_get 1 dccp_role_off (ct_protoinfo ct))) ;;;
  when (attr_is_set ATTR_DCCP_HANDSHAKE_SEQ ct)
    (mnl_attr_put_u64 nlh CTA_PROTOINFO_DCCP_HANDSHAKE_SEQ
       (be64toh (u_get 8 dccp_handshake_seq_off (ct_protoinfo ct)))).

(** The two nests around the protocol's attributes. *)
Definition build_protoinfo_nest (nlh type : Z) (body : M unit) : M Z :=
  let! nest := mnl_attr_nest_start nlh CTA_PROTOINFO in
  (let! nest_proto := mnl_attr_nest_start nlh type in
   body ;;; mnl_attr_nest_end nlh nest_proto ;;; ret tt) ;;;
  mnl_attr_nest_end nlh nest ;;; ret 0.

Definition nfct_build_protoinfo (nlh : Z) (ct : nf_conntrack) : M Z :=
  let p := tp_protonum (ct_orig ct) in
  if p =? IPPROTO_TCP then
    if negb (any_set [ATTR_TCP_STATE; ATTR_TCP_FLAGS_ORIG; ATTR_TCP_FLAGS_REPL; ATTR_TCP_MASK_ORIG;
                      ATTR_TCP_MASK_REPL; ATTR_TCP_WSCALE_ORIG; ATTR_TCP_WSCALE_REPL] ct) then ret 0
    else build_protoinfo_nest nlh CTA_PROTOINFO_TCP (nfct_build_protoinfo_tcp nlh ct)
  else if p =? IPPROTO_SCTP then
    if negb (any_set [ATTR_SCTP_STATE; ATTR_SCTP_VTAG_ORIG; ATTR_SCTP_VTAG_REPL] ct) then ret 0
    else build_protoinfo_nest nlh CTA_PROTOINFO_SCTP (nfct_build_protoinfo_sctp nlh ct)
  else if p =? IPPROTO_DCCP then
    if negb (any_set [ATTR_DCCP_STATE; ATTR_DCCP_ROLE; ATTR_DCCP_HANDSHAKE_SEQ] ct) then ret 0
    else build_protoinfo_nest nlh CTA_PROTOINFO_DCCP (nfct_build_protoinfo_dccp nlh ct)
  else ret 0.

(** ** Sequence adjustment and translation *)

Definition nfct_nat_seq_adj (nlh : Z) (ct : nf_conntrack) (dir : nfct_dir) : M Z :=
  let s := dget dir (ct_natseq ct) in
  mnl_attr_put_u32 nlh CTA_NAT_SEQ_CORRECTION_POS (htonl (seq_correction_pos s)) ;;;
  mnl_attr_put_u32 nlh CTA_NAT_SEQ_OFFSET_BEFORE (htonl (seq_offset_before s)) ;;;
  mnl_attr_put_u32 nlh CTA_NAT_SEQ_OFFSET_AFTER (htonl (seq_offset_after s)) ;;; ret 0.

Definition nfct_build_nat_seq_adj (nlh : Z) (ct : nf_conntrack) (dir : nfct_dir) : M Z :=
  let type := match dir with DIR_ORIG => CTA_NAT_SEQ_ADJ_ORIG | DIR_REPL => CTA_NAT_SEQ_ADJ_REPLY end in
  let! nest := mnl_attr_nest_start nlh type in
  nfct_nat_seq_adj nlh ct dir ;;;
  mnl_attr_nest_end nlh nest ;;; ret 0.

Definition nfct_build_protonat (nlh : Z) (ct : nf_conntrack) (nat : __nfct_nat) : M Z :=
  let! nest := mnl_attr_nest_start nlh CTA_NAT_PROTO in
  when (one_of (tp_protonum (ct_orig ct)) [IPPROTO_TCP; IPPROTO_UDP])
    (mnl_attr_put_u16 nlh CTA_PROTONAT_PORT_MIN (nat_l4min nat) ;;;
     mnl_attr_put_u16 nlh CTA_PROTONAT_PORT_MAX (nat_l4max nat)) ;;;
  mnl_attr_nest_end nlh nest ;;; ret 0.

Definition nfct_build_nat (nlh : Z) (nat : __nfct_nat) (l3protonum : Z) : M Z :=
  if l3protonum =? AF_INET then
    mnl_attr_put_u32 nlh CTA_NAT_MINIP (addr_v4 (nat_min_ip nat)) ;;; ret 0
  else if l3protonum =? AF_INET6 then
    mnl_attr_put nlh CTA_NAT_V6_MINIP 16 (nat_min_ip nat) ;;; ret 0
  else ret 0.

Definition nfct_build_snat (nlh : Z) (ct : nf_conntrack) (l3protonum : Z) : M Z :=
  let! nest := mnl_attr_nest_start nlh CTA_NAT_SRC in
  (nfct_build_nat nlh (ct_snat ct) l3protonum ;;; nfct_build_protonat nlh ct (ct_snat ct)) ;;;
  mnl_attr_nest_end nlh nest ;;; ret 0.

Definition nfct_build_snat_ipv4 (nlh : Z) (ct : nf_conntrack) : M Z :=
  let! nest := mnl_attr_nest_start nlh CTA_NAT_SRC in
  nfct_build_nat nlh (ct_snat ct) AF_INET ;;;
  mnl_attr_nest_end nlh nest ;;; ret 0.

Definition nfct_build_snat_ipv6 (nlh : Z) (ct : nf_conntrack) : M Z :=
  let! nest := mnl_attr_nest_start nlh CTA_NAT_SRC in
  nfct_build_nat nlh (ct_snat ct) AF_INET6 ;;;
  mnl_attr_nest_end nlh nest ;;; ret 0.

Definition nfct_build_snat_port (nlh : Z) (ct : nf_conntrack) : M Z :=
  let! nest := mnl_attr_nest_start nlh CTA_NAT_SRC in
  nfct_build_protonat nlh ct (ct_snat ct) ;;;
  mnl_attr_nest_end nlh nest ;;; ret 0.

Definition nfct_build_dnat (nlh : Z) (ct : nf_conntrack) (l3protonum : Z) : M Z :=
  let! nest := mnl_attr_nest_start nlh CTA_NAT_DST in
  (nfct_build_nat nlh (ct_dnat ct) l3protonum ;;; nfct_build_protonat nlh ct (ct_dnat ct)) ;;;
  mnl_attr_nest_end nlh nest ;;; ret 0.

Definition nfct_build_dnat_ipv4 (nlh : Z) (ct : nf_conntrack) : M Z :=
  let! nest := mnl_attr_nest_start nlh CTA_NAT_DST in
  nfct_build_nat nlh (ct_dnat ct) AF_INET ;;;
  mnl_attr_nest_end nlh nest ;;; ret 0.

Definition nfct_build_dnat_ipv6 (nlh : Z) (ct : nf_conntrack) : M Z :=
  let! nest := mnl_attr_nest_start nlh CTA_NAT_DST in
  nfct_build_nat nlh (ct_dnat ct) AF_INET6 ;;;
  mnl_attr_nest_end nlh nest ;;; ret 0.

Definition nfct_build_dnat_port (nlh : Z) (ct : nf_conntrack) : M Z :=
  let! nest := mnl_attr_nest_start nlh CTA_NAT_DST in
  nfct_build_protonat nlh ct (ct_dnat ct) ;;;
  mnl_attr_nest_end nlh nest ;;; ret 0.

(** ** The other attributes *)

Definition nfct_build_status (nlh : Z) (ct : nf_conntrack) : M Z :=
  mnl_attr_put_u32 nlh CTA_STATUS (htonl (Z.lor (ct_status ct) IPS_CONFIRMED)) ;;; ret 0.

Definition nfct_build_timeout (nlh : Z) (ct : nf_conntrack) : M Z :=
  mnl_attr_put_u32 nlh CTA_TIMEOUT (htonl (ct_timeout ct)) ;;; ret 0.

Definition nfct_build_mark (nlh : Z) (ct : nf_conntrack) : M Z :=
  mnl_attr_put_u32 nlh CTA_MARK (htonl (ct_mark ct)) ;;; ret 0.

Definition nfct_build_secmark (nlh : Z) (ct : nf_conntrack) : M Z :=
  mnl_attr_put_u32 nlh CTA_SECMARK (htonl (ct_secmark ct)) ;;; ret 0.

Definition nfct_build_helper_name (nlh : Z) (ct : nf_conntrack) : M Z :=
  let! nest := mnl_attr_nest_start nlh CTA_HELP in
  (mnl_attr_put_strz nlh CTA_HELP_NAME (ct_helper_name ct) ;;;
   match ct_helper_info ct with
   | Some info => mnl_attr_put nlh CTA_HELP_INFO (ct_helper_info_len ct) info
   | None => ret tt
   end) ;;;
  mnl_attr_nest_end nlh nest ;;; ret 0.

Definition nfct_build_zone (nlh : Z) (ct : nf_conntrack) : M Z :=
  mnl_attr_put_u16 nlh CTA_ZONE (htons (ct_zone ct)) ;;; ret 0.

(** The words of a bitmask in memory. *)
Definition words_bytes (l : list Z) : list Z := concat (map (le_enc 4) l).

Lemma zlen_words_bytes l : zlen (words_bytes l) = 4 * zlen l.
Proof.
  unfold words_bytes. induction l as [|x l IH]; [done|]. cbn [map concat]. rewrite zlen_app, IH. zl.
Qed.

(** The bitmask pointers are dereferenced without a check. *)
Definition nfct_build_labels (nlh : Z) (ct : nf_conntrack) : M unit :=
  match ct_connlabels ct with
  | None => ub
  | Some b =>
      let size := wrap 32 (bm_words b * 4) in
      mnl_attr_put nlh CTA_LABELS size (words_bytes (bm_bits b)) ;;;
      if attr_is_set ATTR_CONNLABELS_MASK ct then
        match ct_connlabels_mask ct with
        | None => ub
        | Some m =>
            when (size =? bm_words m * 4)
              (mnl_attr_put nlh CTA_LABELS_MASK size (words_bytes (bm_bits m)))
        end
      else ret tt
  end.

Definition nfct_build_synproxy (nlh : Z) (ct : nf_conntrack) : M unit :=
  let! nest := mnl_attr_nest_start nlh CTA_SYNPROXY in
  (mnl_attr_put_u32 nlh CTA_SYNPROXY_ISN (htonl (syn_isn (ct_synproxy ct))) ;;;
   mnl_attr_put_u32 nlh CTA_SYNPROXY_ITS (htonl (syn_its (ct_synproxy ct))) ;;;
   mnl_attr_put_u32 nlh CTA_SYNPROXY_TSOFF (htonl (syn_tsoff (ct_synproxy ct)))) ;;;
  mnl_attr_nest_end nlh nest ;;; ret tt.

(** ** The whole object *)

Definition orig_tuple_attrs : list nf_conntrack_attr :=
  [ATTR_ORIG_IPV4_SRC; ATTR_ORIG_IPV4_DST; ATTR_ORIG_IPV6_SRC; ATTR_ORIG_IPV6_DST;
   ATTR_ORIG_PORT_SRC; ATTR_ORIG_PORT_DST; ATTR_ORIG_L3PROTO; ATTR_ORIG_L4PROTO;
   ATTR_ORIG_ZONE; ATTR_ICMP_TYPE; ATTR_ICMP_CODE; ATTR_ICMP_ID].

Definition repl_tuple_attrs : list nf_conntrack_attr :=
  [ATTR_REPL_IPV4_SRC; ATTR_REPL_IPV4_DST; ATTR_REPL_IPV6_SRC; ATTR_REPL_IPV6_DST;
   ATTR_REPL_PORT_SRC; ATTR_REPL_PORT_DST; ATTR_REPL_L3PROTO; ATTR_REPL_L4PROTO;
   ATTR_REPL_ZONE; ATTR_ICMP_TYPE; ATTR_ICMP_CODE; ATTR_ICMP_ID].

Definition master_tuple_attrs : list nf_conntrack_attr :=
  [ATTR_MASTER_IPV4_SRC; ATTR_MASTER_IPV4_DST; ATTR_MASTER_IPV6_SRC; ATTR_MASTER_IPV6_DST;
   ATTR_MASTER_PORT_SRC; ATTR_MASTER_PORT_DST; ATTR_MASTER_L3PROTO; ATTR_MASTER_L4PROTO].

(** The blocks for [CTA_TUPLE_ORIG] and [CTA_TUPLE_REPLY]: a tuple and its zone. *)
Definition build_tuple_zone (nlh type : Z) (t : __nfct_tuple) (has_zone : bool) : M Z :=
  let! nest := mnl_attr_nest_start nlh type in
  let! r :=
    (let! r := nfct_build_tuple_raw nlh t in
     if r <? 0 then ret (-1) else
     when has_zone (mnl_attr_put_u16 nlh CTA_TUPLE_ZONE (htons (tp_zone t))) ;;; ret 0) in
  if r <? 0 then mnl_attr_nest_cancel nlh nest ;;; ret (-1)
  else mnl_attr_nest_end nlh nest ;;; ret 0.

(** [f(nlh, ct);] with the result ignored. *)
Definition ignore (c : M Z) : M unit := c ;;; ret tt.

Definition build_nat_block (nlh : Z) (ct : nf_conntrack) (v4 v6 port : nf_conntrack_attr)
  (nat : Z -> nf_conntrack -> Z -> M Z) (nat_v4 nat_v6 nat_port : Z -> nf_conntrack -> M Z) : M unit :=
  if attr_is_set v4 ct && attr_is_set port ct then ignore (nat nlh ct AF_INET)
  else if attr_is_set v6 ct && attr_is_set port ct then ignore (nat nlh ct AF_INET6)
  else if attr_is_set v4 ct then ignore (nat_v4 nlh ct)
  else if attr_is_set v6 ct then ignore (nat_v6 nlh ct)
  else if attr_is_set port ct then ignore (nat_port nlh ct)
  else ret tt.

(** What follows the tuples of the original and the reply direction. *)
Definition build_rest (nlh : Z) (ct : nf_conntrack) : M unit :=
  when (any_set master_tuple_attrs ct)
    (ignore (nfct_build_tuple nlh (ct_master ct) CTA_TUPLE_MASTER)) ;;;
  when (attr_is_set ATTR_STATUS ct) (ignore (nfct_build_status nlh ct)) ;;;
  when (attr_is_set ATTR_TIMEOUT ct) (ignore (nfct_build_timeout nlh ct)) ;;;
  when (attr_is_set ATTR_MARK ct) (ignore (nfct_build_mark nlh ct)) ;;;
  when (attr_is_set ATTR_SECMARK ct) (ignore (nfct_build_secmark nlh ct)) ;;;
  ignore (nfct_build_protoinfo nlh ct) ;;;
  build_nat_block nlh ct ATTR_SNAT_IPV4 ATTR_SNAT_IPV6 ATTR_SNAT_PORT
    nfct_build_snat nfct_build_snat_ipv4 nfct_build_snat_ipv6 nfct_build_snat_port ;;;
  build_nat_block nlh ct ATTR_DNAT_IPV4 ATTR_DNAT_IPV6 ATTR_DNAT_PORT
    nfct_build_dnat nfct_build_dnat_ipv4 nfct_build_dnat_ipv6 nfct_build_dnat_port ;;;
  when (attr_is_set ATTR_ORIG_NAT_SEQ_CORRECTION_POS ct && attr_is_set ATTR_ORIG_NAT_SEQ_OFFSET_BEFORE ct
        && attr_is_set ATTR_ORIG_NAT_SEQ_OFFSET_AFTER ct)
    (ignore (nfct_build_nat_seq_adj nlh ct DIR_ORIG)) ;;;
  when (attr_is_set ATTR_REPL_NAT_SEQ_CORRECTION_POS ct && attr_is_set ATTR_REPL_NAT_SEQ_OFFSET_BEFORE ct
        && attr_is_set ATTR_REPL_NAT_SEQ_OFFSET_AFTER ct)
    (ignore (nfct_build_nat_seq_adj nlh ct DIR_REPL)) ;;;
  when (attr_is_set ATTR_HELPER_NAME ct) (ignore (nfct_build_helper_name nlh ct)) ;;;
  when (attr_is_set ATTR_ZONE ct) (ignore (nfct_build_zone nlh ct)) ;;;
  when (attr_is_set ATTR_CONNLABELS ct) (nfct_build_labels nlh ct) ;;;
  when (attr_is_set ATTR_SYNPROXY_ISN ct && attr_is_set ATTR_SYNPROXY_ITS ct
        && attr_is_set ATTR_SYNPROXY_TSOFF ct) (nfct_build_synproxy nlh ct).

Definition nfct_nlmsg_build (nlh : Z) (ct : nf_conntrack) : M Z :=
  if negb (attr_is_set ATTR_ORIG_L3PROTO ct) then set_errno EINVAL ;;; ret (-1) else
  let! r := (if any_set orig_tuple_attrs ct
             then build_tuple_zone nlh CTA_TUPLE_ORIG (ct_orig ct) (attr_is_set ATTR_ORIG_ZONE ct)
             else ret 0) in
  if r <? 0 then ret (-1) else
  let! r := (if any_set repl_tuple_attrs ct
             then build_tuple_zone nlh CTA_TUPLE_REPLY (ct_repl ct) (attr_is_set ATTR_REPL_ZONE ct)
             else ret 0) in
  if r <? 0 then ret (-1) else
  build_rest nlh ct ;;; ret 0.
