(* ===== verification/CtBuildProps.v ===== *)
(** The builder of conntrack messages refines an abstract description: the tree
    of attributes that the message for an object consists of. *)
From S2P Require Import Prelude CMonad MnlMsg MnlAttr Tlv Bitops CtObject CtSetter CtCopy CtCompare CtObjopt Ctnl.
From S2P Require Import CtBuild.
Open Scope c_scope.

(** ** Abstract description of the message *)

Definition opt_tlvs (b : bool) (l : list tlv) : list tlv := if b then l else [].

Definition u8 (ty v : Z) : tlv := Leaf ty (le_enc 1 v).
Definition u16 (ty v : Z) : tlv := Leaf ty (le_enc 2 v).
Definition u32 (ty v : Z) : tlv := Leaf ty (le_enc 4 v).
Definition u64 (ty v : Z) : tlv := Leaf ty (le_enc 8 v).

Definition ip_tlvs (t : __nfct_tuple) : option (list tlv) :=
  if tp_l3protonum t =? AF_INET then
    Some [u32 CTA_IP_V4_SRC (addr_v4 (tp_src t)); u32 CTA_IP_V4_DST (addr_v4 (tp_dst t))]
  else if tp_l3protonum t =? AF_INET6 then
    Some [Leaf CTA_IP_V6_SRC (tp_src t); Leaf CTA_IP_V6_DST (tp_dst t)]
  else None.

Definition has_ports (p : Z) : bool :=
  one_of p [IPPROTO_UDP; IPPROTO_TCP; IPPROTO_SCTP; IPPROTO_DCCP; IPPROTO_GRE; IPPROTO_UDPLITE].

Definition proto_tlvs (t : __nfct_tuple) : option (list tlv) :=
  let num := u8 CTA_PROTO_NUM (tp_protonum t) in
  if has_ports (tp_protonum t) then
    Some [num; u16 CTA_PROTO_SRC_PORT (tp_l4src t); u16 CTA_PROTO_DST_PORT (l4dst_all (tp_l4dst t))]
  else if tp_protonum t =? IPPROTO_ICMP then
    Some [num; u8 CTA_PROTO_ICMP_CODE (icmp_code (tp_l4dst t));
          u8 CTA_PROTO_ICMP_TYPE (icmp_type (tp_l4dst t)); u16 CTA_PROTO_ICMP_ID (tp_l4src t)]
  else if tp_protonum t =? IPPROTO_ICMPV6 then
    Some [num; u8 CTA_PROTO_ICMPV6_CODE (icmp_code (tp_l4dst t));
          u8 CTA_PROTO_ICMPV6_TYPE (icmp_type (tp_l4dst t)); u16 CTA_PROTO_ICMPV6_ID (tp_l4src t)]
  else None.

(** A tuple; [None] when its address family or its protocol is not supported. *)
Definition tuple_tlvs (t : __nfct_tuple) : option (list tlv) :=
  match ip_tlvs t, proto_tlvs t with
  | Some ip, Some proto => Some [Nest CTA_TUPLE_IP ip; Nest CTA_TUPLE_PROTO proto]
  | _, _ => None
  end.

Definition protoinfo_tcp_tlvs (ct : nf_conntrack) : list tlv :=
  opt_tlvs (attr_is_set ATTR_TCP_STATE ct)
    [u8 CTA_PROTOINFO_TCP_STATE (u_get 1 tcp_state_off (ct_protoinfo ct))] ++
  opt_tlvs (attr_is_set ATTR_TCP_FLAGS_ORIG ct && attr_is_set ATTR_TCP_MASK_ORIG ct)
    [Leaf CTA_PROTOINFO_TCP_FLAGS_ORIGINAL (tcp_flags_bytes DIR_ORIG ct)] ++
  opt_tlvs (attr_is_set ATTR_TCP_FLAGS_REPL ct && attr_is_set ATTR_TCP_MASK_REPL ct)
    [Leaf CTA_PROTOINFO_TCP_FLAGS_REPLY (tcp_flags_bytes DIR_REPL ct)] ++
  opt_tlvs (attr_is_set ATTR_TCP_WSCALE_ORIG ct)
    [u8 CTA_PROTOINFO_TCP_WSCALE_ORIGINAL (u_get 1 (tcp_wscale_off DIR_ORIG) (ct_protoinfo ct))] ++
  opt_tlvs (attr_is_set ATTR_TCP_WSCALE_REPL ct)
    [u8 CTA_PROTOINFO_TCP_WSCALE_REPLY (u_get 1 (tcp_wscale_off DIR_REPL) (ct_protoinfo ct))].

Definition protoinfo_sctp_tlvs (ct : nf_conntrack) : list tlv :=
  opt_tlvs (attr_is_set ATTR_SCTP_STATE ct)
    [u8 CTA_PROTOINFO_SCTP_STATE (u_get 1 sctp_state_off (ct_protoinfo ct))] ++
  opt_tlvs (attr_is_set ATTR_SCTP_VTAG_ORIG ct)
    [u32 CTA_PROTOINFO_SCTP_VTAG_ORIGINAL (htonl (u_get 4 (sctp_vtag_off DIR_ORIG) (ct_protoinfo ct)))] ++
  opt_tlvs (attr_is_set ATTR_SCTP_VTAG_REPL ct)
    [u32 CTA_PROTOINFO_SCTP_VTAG_REPLY (htonl (u_get 4 (sctp_vtag_off DIR_REPL) (ct_protoinfo ct)))].

Definition protoinfo_dccp_tlvs (ct : nf_conntrack) : list tlv :=
  opt_tlvs (attr_is_set ATTR_DCCP_STATE ct)
    [u8 CTA_PROTOINFO_DCCP_STATE (u_get 1 dccp_state_off (ct_protoinfo ct))] ++
  opt_tlvs (attr_is_set ATTR_DCCP_ROLE ct)
    [u8 CTA_PROTOINFO_DCCP_ROLE (u_get 1 dccp_role_off (ct_protoinfo ct))] ++
  opt_tlvs (attr_is_set ATTR_DCCP_HANDSHAKE_SEQ ct)
    [u64 CTA_PROTOINFO_DCCP_HANDSHAKE_SEQ (be64toh (u_get 8 dccp_handshake_seq_off (ct_protoinfo ct)))].

Definition protoinfo_tlvs (ct : nf_conntrack) : list tlv :=
  let p := tp_protonum (ct_orig ct) in
  if p =? IPPROTO_TCP then
    opt_tlvs (any_set [ATTR_TCP_STATE; ATTR_TCP_FLAGS_ORIG; ATTR_TCP_FLAGS_REPL; ATTR_TCP_MASK_ORIG;
                       ATTR_TCP_MASK_REPL; ATTR_TCP_WSCALE_ORIG; ATTR_TCP_WSCALE_REPL] ct)
      [Nest CTA_PROTOINFO [Nest CTA_PROTOINFO_TCP (protoinfo_tcp_tlvs ct)]]
  else if p =? IPPROTO_SCTP then
    opt_tlvs (any_set [ATTR_SCTP_STATE; ATTR_SCTP_VTAG_ORIG; ATTR_SCTP_VTAG_REPL] ct)
      [Nest CTA_PROTOINFO [Nest CTA_PROTOINFO_SCTP (protoinfo_sctp_tlvs ct)]]
  else if p =? IPPROTO_DCCP then
    opt_tlvs (any_set [ATTR_DCCP_STATE; ATTR_DCCP_ROLE; ATTR_DCCP_HANDSHAKE_SEQ] ct)
      [Nest CTA_PROTOINFO [Nest CTA_PROTOINFO_DCCP (protoinfo_dccp_tlvs ct)]]
  else [].

Definition natseq_tlvs (s : nfct_natseq) : list tlv :=
  [u32 CTA_NAT_SEQ_CORRECTION_POS (htonl (seq_correction_pos s));
   u32 CTA_NAT_SEQ_OFFSET_BEFORE (htonl (seq_offset_before s));
   u32 CTA_NAT_SEQ_OFFSET_AFTER (htonl (seq_offset_after s))].

Definition protonat_tlv (ct : nf_conntrack) (nat : __nfct_nat) : tlv :=
  Nest CTA_NAT_PROTO
    (opt_tlvs (one_of (tp_protonum (ct_orig ct)) [IPPROTO_TCP; IPPROTO_UDP])
       [u16 CTA_PROTONAT_PORT_MIN (nat_l4min nat); u16 CTA_PROTONAT_PORT_MAX (nat_l4max nat)]).

Definition nat_v4_tlv (nat : __nfct_nat) : tlv := u32 CTA_NAT_MINIP (addr_v4 (nat_min_ip nat)).
Definition nat_v6_tlv (nat : __nfct_nat) : tlv := Leaf CTA_NAT_V6_MINIP (nat_min_ip nat).

(** The translation block: addresses when one is known, ports when they are. *)
Definition nat_tlvs (ct : nf_conntrack) (type : Z) (nat : __nfct_nat) (v4 v6 port : bool) : list tlv :=
  opt_tlvs (v4 || v6 || port)
    [Nest type ((if v4 && port then [nat_v4_tlv nat] else if v6 && port then [nat_v6_tlv nat]
                 else if v4 then [nat_v4_tlv nat] else if v6 then [nat_v6_tlv nat] else []) ++
                opt_tlvs port [protonat_tlv ct nat])].

Definition cstr_bytes (s : list Z) : list Z := default [] (cstring s).

Definition help_tlv (ct : nf_conntrack) : tlv :=
  Nest CTA_HELP (Leaf CTA_HELP_NAME (cstr_bytes (ct_helper_name ct)) ::
    match ct_helper_info ct with
    | Some info => [Leaf CTA_HELP_INFO (slice 0 (ct_helper_info_len ct) info)]
    | None => []
    end).

Definition labels_tlvs (ct : nf_conntrack) : list tlv :=
  match ct_connlabels ct with
  | None => []
  | Some b =>
      Leaf CTA_LABELS (words_bytes (bm_bits b)) ::
      match ct_connlabels_mask ct with
      | Some m => opt_tlvs (attr_is_set ATTR_CONNLABELS_MASK ct && (bm_words b =? bm_words m))
                    [Leaf CTA_LABELS_MASK (words_bytes (bm_bits m))]
      | None => []
      end
  end.

Definition synproxy_tlv (ct : nf_conntrack) : tlv :=
  Nest CTA_SYNPROXY
    [u32 CTA_SYNPROXY_ISN (htonl (syn_isn (ct_synproxy ct)));
     u32 CTA_SYNPROXY_ITS (htonl (syn_its (ct_synproxy ct)));
     u32 CTA_SYNPROXY_TSOFF (htonl (syn_tsoff (ct_synproxy ct)))].

Definition zoned_tuple_tlvs (type : Z) (t : __nfct_tuple) (has_zone : bool) : option tlv :=
  (fun l => Nest type (l ++ opt_tlvs has_zone [u16 CTA_TUPLE_ZONE (htons (tp_zone t))])) <$> tuple_tlvs t.

(** Everything after the tuples of the two directions. *)
Definition rest_tlvs (ct : nf_conntrack) : list tlv :=
  opt_tlvs (any_set master_tuple_attrs ct)
    (from_option (fun l => [Nest CTA_TUPLE_MASTER l]) [] (tuple_tlvs (ct_master ct))) ++
  opt_tlvs (attr_is_set ATTR_STATUS ct) [u32 CTA_STATUS (htonl (Z.lor (ct_status ct) IPS_CONFIRMED))] ++
  opt_tlvs (attr_is_set ATTR_TIMEOUT ct) [u32 CTA_TIMEOUT (htonl (ct_timeout ct))] ++
  opt_tlvs (attr_is_set ATTR_MARK ct) [u32 CTA_MARK (htonl (ct_mark ct))] ++
  opt_tlvs (attr_is_set ATTR_SECMARK ct) [u32 CTA_SECMARK (htonl (ct_secmark ct))] ++
  protoinfo_tlvs ct ++
  nat_tlvs ct CTA_NAT_SRC (ct_snat ct) (attr_is_set ATTR_SNAT_IPV4 ct) (attr_is_set ATTR_SNAT_IPV6 ct)
    (attr_is_set ATTR_SNAT_PORT ct) ++
  nat_tlvs ct CTA_NAT_DST (ct_dnat ct) (attr_is_set ATTR_DNAT_IPV4 ct) (attr_is_set ATTR_DNAT_IPV6 ct)
    (attr_is_set ATTR_DNAT_PORT ct) ++
  opt_tlvs (attr_is_set ATTR_ORIG_NAT_SEQ_CORRECTION_POS ct && attr_is_set ATTR_ORIG_NAT_SEQ_OFFSET_BEFORE ct
            && attr_is_set ATTR_ORIG_NAT_SEQ_OFFSET_AFTER ct)
    [Nest CTA_NAT_SEQ_ADJ_ORIG (natseq_tlvs (d_orig (ct_natseq ct)))] ++
  opt_tlvs (attr_is_set ATTR_REPL_NAT_SEQ_CORRECTION_POS ct && attr_is_set ATTR_REPL_NAT_SEQ_OFFSET_BEFORE ct
            && attr_is_set ATTR_REPL_NAT_SEQ_OFFSET_AFTER ct)
    [Nest CTA_NAT_SEQ_ADJ_REPLY (natseq_tlvs (d_repl (ct_natseq ct)))] ++
  opt_tlvs (attr_is_set ATTR_HELPER_NAME ct) [help_tlv ct] ++
  opt_tlvs (attr_is_set ATTR_ZONE ct) [u16 CTA_ZONE (htons (ct_zone ct))] ++
  opt_tlvs (attr_is_set ATTR_CONNLABELS ct) (labels_tlvs ct) ++
  opt_tlvs (attr_is_set ATTR_SYNPROXY_ISN ct && attr_is_set ATTR_SYNPROXY_ITS ct
            && attr_is_set ATTR_SYNPROXY_TSOFF ct) [synproxy_tlv ct].

(** The return value and the attributes of the message for an object that has
    its layer 3 protocol set. *)
Definition ct_tlvs (ct : nf_conntrack) : Z * list tlv :=
  match zoned_tuple_tlvs CTA_TUPLE_ORIG (ct_orig ct) (attr_is_set ATTR_ORIG_ZONE ct) with
  | None => (-1, [])
  | Some o =>
      if any_set repl_tuple_attrs ct then
        match zoned_tuple_tlvs CTA_TUPLE_REPLY (ct_repl ct) (attr_is_set ATTR_REPL_ZONE ct) with
        | None => (-1, [o])
        | Some r => (0, o :: r :: rest_tlvs ct)
        end
      else (0, o :: rest_tlvs ct)
  end.

Lemma tlv_size_u8 ty v : tlv_size (u8 ty v) = 8.
Proof. unfold u8. cbn [tlv_size]. by rewrite zlen_le_enc. Qed.
Lemma tlv_size_u16 ty v : tlv_size (u16 ty v) = 8.
Proof. unfold u16. cbn [tlv_size]. by rewrite zlen_le_enc. Qed.
Lemma tlv_size_u32 ty v : tlv_size (u32 ty v) = 8.
Proof. unfold u32. cbn [tlv_size]. by rewrite zlen_le_enc. Qed.

(** ** The builders emit their description *)

Section Emits.
Context (nlh : Z).

(** [c] appends [ts] using at most [r] bytes of the buffer. *)
Definition emits {A} (r : Z) (c : M A) (ts : list tlv) (Q : A -> Prop) : Prop :=
  appends nlh r c ts Q /\ tlvs_size ts <= r.

Lemma emits_weaken {A} r r' (c : M A) ts (Q Q' : A -> Prop) :
  emits r c ts Q -> r <= r' -> (forall a, Q a -> Q' a) -> emits r' c ts Q'.
Proof. intros [H ?] ? ?. split; [eapply appends_weaken; eauto|lia]. Qed.

Lemma emits_ret {A} (a : A) (Q : A -> Prop) : Q a -> emits 0 (ret a) [] Q.
Proof. intros. split; [apply appends_ret; [lia|done]|done]. Qed.

Lemma emits_seq {A B} r1 r2 (c : M A) (k : A -> M B) ts1 ts2 Q1 Q2 :
  emits r1 c ts1 Q1 -> (forall a, Q1 a -> emits r2 (k a) ts2 Q2) -> 0 <= r2 ->
  tlvs_size ts2 <= r2 ->
  emits (r1 + r2) (bind c k) (ts1 ++ ts2) Q2.
Proof.
  intros [Hc ?] Hk ? ?. split.
  - eapply appends_seq; [done| |lia|lia]. intros a Ha. by apply Hk.
  - rewrite tlvs_size_app. lia.
Qed.

(** Sequencing when the first result is irrelevant. *)
Lemma emits_then {A B} r1 r2 (c : M A) (k : M B) ts1 ts2 Q1 Q2 :
  emits r1 c ts1 Q1 -> emits r2 k ts2 Q2 -> emits (r1 + r2) (c ;;; k) (ts1 ++ ts2) Q2.
Proof.
  intros Hc Hk. pose proof (tlvs_size_nonneg ts2). destruct Hk as [Hk ?].
  eapply emits_seq; [done|by split|lia|done].
Qed.

Lemma emits_cons {A B} r1 r2 (c : M A) (k : M B) t ts Q1 Q2 :
  emits r1 c [t] Q1 -> emits r2 k ts Q2 -> emits (r1 + r2) (c ;;; k) (t :: ts) Q2.
Proof. intros. change (t :: ts) with ([t] ++ ts). by eapply emits_then. Qed.

Lemma emits_ignore r c ts Q : emits r c ts Q -> emits r (ignore c) ts (fun _ => True).
Proof.
  intros H. unfold ignore. rewrite <- (app_nil_r ts). replace r with (r + 0) by lia.
  eapply emits_then; [exact H|by apply emits_ret].
Qed.

(** [c ;;; ret v] emits what [c] does. *)
Lemma emits_then_ret {A B} r (c : M A) (v : B) ts Q :
  emits r c ts Q -> emits r (c ;;; ret v) ts (eq v).
Proof.
  intros H. rewrite <- (app_nil_r ts). replace r with (r + 0) by lia.
  eapply emits_then; [exact H|by apply emits_ret].
Qed.

Lemma emits_when r b c ts Q : emits r c ts Q -> 0 <= r ->
  emits r (when b c) (opt_tlvs b ts) (fun _ => True).
Proof.
  intros H Hr. unfold when, opt_tlvs. destruct b; [by apply (emits_weaken r r _ _ Q)|].
  apply (emits_weaken 0 r _ _ (fun _ => True)); [by apply emits_ret|lia|done].
Qed.

Lemma emits_put ty len data : 0 <= ty < 2 ^ 14 -> 0 <= len <= zlen data -> 4 + len < 2 ^ 16 ->
  emits (align4 (4 + len)) (mnl_attr_put nlh ty len data) [Leaf ty (slice 0 len data)] (fun _ => True).
Proof.
  intros. split; [by apply appends_put|]. cbn. rewrite zlen_slice by lia. lia.
Qed.

Lemma emits_put_all ty len data : 0 <= ty < 2 ^ 14 -> len = zlen data -> 4 + len < 2 ^ 16 ->
  emits (align4 (4 + len)) (mnl_attr_put nlh ty len data) [Leaf ty data] (fun _ => True).
Proof.
  intros ? -> ?. pose proof (emits_put ty (zlen data) data) as H'. rewrite slice_all in H'.
  apply H'; [done| |done]. split; [apply zlen_nonneg|done].
Qed.

Lemma emits_u8 ty v : 0 <= ty < 2 ^ 14 ->
  emits 8 (mnl_attr_put_u8 nlh ty v) [u8 ty v] (fun _ => True).
Proof. intros. by apply (emits_put_all ty 1). Qed.
Lemma emits_u16 ty v : 0 <= ty < 2 ^ 14 ->
  emits 8 (mnl_attr_put_u16 nlh ty v) [u16 ty v] (fun _ => True).
Proof. intros. by apply (emits_put_all ty 2). Qed.
Lemma emits_u32 ty v : 0 <= ty < 2 ^ 14 ->
  emits 8 (mnl_attr_put_u32 nlh ty v) [u32 ty v] (fun _ => True).
Proof. intros. by apply (emits_put_all ty 4). Qed.
Lemma emits_u64 ty v : 0 <= ty < 2 ^ 14 ->
  emits 12 (mnl_attr_put_u64 nlh ty v) [u64 ty v] (fun _ => True).
Proof. intros. by apply (emits_put_all ty 8). Qed.

(** A nest that is closed after its body. *)
Lemma emits_nest {A B} r ty (body : M A) ts (Q0 : A -> Prop) (K : A -> Z -> M B) (g : A -> B) :
  0 <= ty < 2 ^ 14 -> 4 + r < 2 ^ 16 -> emits r body ts Q0 ->
  (forall a s, Q0 a -> K a s = (mnl_attr_nest_end nlh s ;;; ret (g a))) ->
  emits (4 + r) (let! s := mnl_attr_nest_start nlh ty in let! a := body in K a s)
    [Nest ty ts] (fun b => exists a, Q0 a /\ b = g a).
Proof.
  intros ? ? [Hb Hs] HK. split; [apply appends_nest; auto; lia|].
  change (tlvs_size [Nest ty ts]) with (tlv_size (Nest ty ts) + 0). rewrite tlv_size_Nest. lia.
Qed.

Lemma emits_nest_ret {A B} r ty (body : M A) ts Q0 (v : B) :
  0 <= ty < 2 ^ 14 -> 4 + r < 2 ^ 16 -> emits r body ts Q0 ->
  emits (4 + r) (let! s := mnl_attr_nest_start nlh ty in body ;;; mnl_attr_nest_end nlh s ;;; ret v)
    [Nest ty ts] (eq v).
Proof.
  intros. eapply emits_weaken; [eapply (emits_nest r ty body ts Q0 _ (fun _ => v)); auto|lia|].
  by intros b (a & _ & ->).
Qed.

(** A nest that is cancelled after its body. *)
Lemma emits_nest_cancel {A B} r ty (body : M A) ts (Q0 : A -> Prop) (K : A -> Z -> M B) (g : A -> B) :
  0 <= ty < 2 ^ 14 -> 0 <= r -> emits r body ts Q0 ->
  (forall a s, Q0 a -> K a s = (mnl_attr_nest_cancel nlh s ;;; ret (g a))) ->
  emits (4 + r) (let! s := mnl_attr_nest_start nlh ty in let! a := body in K a s)
    [] (fun b => exists a, Q0 a /\ b = g a).
Proof. intros ? ? [Hb Hs] HK. split; [by apply (appends_nest_cancel nlh r ty body ts)|cbn; lia]. Qed.

End Emits.

(** One step of a builder: a put, a conditional put, a nest or a sequence. *)
Ltac emit :=
  lazymatch goal with
  | |- emits _ _ (mnl_attr_put_u8 _ _ _) _ _ => by apply emits_u8
  | |- emits _ _ (mnl_attr_put_u16 _ _ _) _ _ => by apply emits_u16
  | |- emits _ _ (mnl_attr_put_u32 _ _ _) _ _ => by apply emits_u32
  | |- emits _ _ (mnl_attr_put_u64 _ _ _) _ _ => by apply emits_u64
  | |- emits _ _ (when _ _) _ _ => eapply emits_when; [emit|done]
  | |- emits _ _ (ignore _) _ _ => eapply emits_ignore; emit
  | |- emits _ _ (bind _ (fun _ => ret _)) _ _ => eapply emits_then_ret; emit
  | |- emits _ _ (bind _ _) (_ ++ _) _ => eapply emits_then; [emit|emit]
  | |- emits _ _ (bind _ _) (_ :: _) _ => eapply emits_cons; [emit|emit]
  | |- _ => eauto with emits
  end.

(** [emits] with the room computed, relaxed to the one of the statement. *)
Ltac emit_room := eapply emits_weaken; [emit | lia | auto].

Create HintDb emits.

(** The return value for a part that may be unsupported. *)
Definition rc {A} (o : option A) : Z := match o with Some _ => 0 | None => -1 end.

Section Builders.
Context (nlh : Z).

Lemma emits_tuple_ip t : tuple_ok t ->
  emits nlh 44 (nfct_build_tuple_ip nlh t) (from_option (fun l => [Nest CTA_TUPLE_IP l]) [] (ip_tlvs t))
    (eq (rc (ip_tlvs t))).
Proof.
  intros ([Ls _] & [Ld _] & _). unfold nfct_build_tuple_ip, ip_tlvs.
  destruct (tp_l3protonum t =? AF_INET); [|destruct (tp_l3protonum t =? AF_INET6)]; cbn [from_option].
  - eapply emits_weaken; [eapply (emits_nest nlh 16 _ _ _ (eq true) _ (fun _ => 0))|lia|]; try done.
    + emit_room.
    + by intros a s <-.
    + by intros b (a & _ & ->).
  - eapply emits_weaken; [eapply (emits_nest nlh 40 _ _ _ (eq true) _ (fun _ => 0))|lia|]; try done.
    + eapply emits_weaken; [eapply emits_cons; [by apply emits_put_all|eapply emits_then_ret; by apply emits_put_all]|done|auto].
    + by intros a s <-.
    + by intros b (a & _ & ->).
  - eapply emits_weaken; [eapply (emits_nest_cancel nlh 0 _ _ [] (eq false) _ (fun _ => -1))|lia|]; try done.
    + by apply emits_ret.
    + by intros a s <-.
    + by intros b (a & _ & ->).
Qed.

Lemma emits_tuple_proto t :
  emits nlh 36 (nfct_build_tuple_proto nlh t)
    (from_option (fun l => [Nest CTA_TUPLE_PROTO l]) [] (proto_tlvs t))
    (eq (rc (proto_tlvs t))).
Proof.
  unfold nfct_build_tuple_proto, proto_tlvs, has_ports.
  destruct (one_of _ _); [|destruct (tp_protonum t =? IPPROTO_ICMP);
    [|destruct (tp_protonum t =? IPPROTO_ICMPV6)]]; cbn [from_option].
  1-3: eapply emits_weaken; [eapply (emits_nest nlh 32 _ _ _ (eq true) _ (fun _ => 0))|lia|]; try done;
    [emit_room|by intros a s <-|by intros b (a & _ & ->)].
  eapply emits_weaken; [eapply (emits_nest_cancel nlh 8 _ _ [_] (eq false) _ (fun _ => -1))|lia|]; try done.
  - eapply emits_then_ret. emit.
  - by intros a s <-.
  - by intros b (a & _ & ->).
Qed.

(** The attributes that a tuple leaves in the message when it fails half way. *)
Definition partial_tlvs (t : __nfct_tuple) : list tlv :=
  match ip_tlvs t, proto_tlvs t with
  | Some ip, Some proto => [Nest CTA_TUPLE_IP ip; Nest CTA_TUPLE_PROTO proto]
  | Some ip, None => [Nest CTA_TUPLE_IP ip]
  | None, _ => []
  end.

Lemma emits_tuple_raw t : tuple_ok t ->
  emits nlh 80 (nfct_build_tuple_raw nlh t) (partial_tlvs t) (eq (rc (tuple_tlvs t))).
Proof.
  intros Ht. unfold nfct_build_tuple_raw, partial_tlvs, tuple_tlvs.
  pose proof (emits_tuple_ip t Ht) as Hip. pose proof (emits_tuple_proto t) as Hp.
  destruct (ip_tlvs t) as [ip|]; cbn [from_option] in Hip.
  - destruct (proto_tlvs t) as [p|]; cbn [from_option] in Hp.
    + apply (emits_seq nlh 44 36 _ _ [_] [_] _ _ Hip); [|lia|apply Hp]. intros a <-. cbn [Z.ltb Z.compare].
      rewrite <- (app_nil_r [Nest CTA_TUPLE_PROTO p]). replace 36 with (36 + 0) by lia.
      eapply emits_seq; [exact Hp| |lia|done]. intros b <-. by apply emits_ret.
    + rewrite <- (app_nil_r [Nest CTA_TUPLE_IP ip]).
      apply (emits_seq nlh 44 36 _ _ [_] [] _ _ Hip); [|lia|apply Hp]. intros a <-. cbn [Z.ltb Z.compare].
      change (@nil tlv) with (@nil tlv ++ []). replace 36 with (36 + 0) by lia.
      eapply emits_seq; [exact Hp| |lia|done]. intros b <-. by apply emits_ret.
  - change (@nil tlv) with (@nil tlv ++ []).
    apply (emits_seq nlh 44 36 _ _ [] [] _ _ Hip); [|lia|done]. intros a <-. cbn [Z.ltb Z.compare].
    apply (emits_weaken nlh 0 36 _ _ (eq (-1))); [by apply emits_ret|lia|done].
Qed.

Lemma partial_tuple t l : tuple_tlvs t = Some l -> partial_tlvs t = l.
Proof. unfold tuple_tlvs, partial_tlvs. destruct (ip_tlvs t), (proto_tlvs t); naive_solver. Qed.

(** A nest whose body may fail, closed or cancelled accordingly. *)
Lemma emits_nest_or_cancel r ty (body : M Z) ts (ok : bool) :
  0 <= ty < 2 ^ 14 -> 0 <= r -> 4 + r < 2 ^ 16 -> emits nlh r body ts (eq (if ok then 0 else -1)) ->
  emits nlh (4 + r)
    (let! nest := mnl_attr_nest_start nlh ty in let! r := body in
     if r <? 0 then mnl_attr_nest_cancel nlh nest ;;; ret (-1)
     else mnl_attr_nest_end nlh nest ;;; ret 0)
    (if ok then [Nest ty ts] else []) (eq (if ok then 0 else -1)).
Proof.
  intros Hty Hr H16 Hb. destruct ok.
  - eapply emits_weaken; [eapply (emits_nest nlh r _ _ _ (eq 0) _ (fun _ => 0))|lia|]; try done;
      [by intros a s <-|by intros b (a & _ & ->)].
  - eapply emits_weaken; [eapply (emits_nest_cancel nlh r _ _ ts (eq (-1)) _ (fun _ => -1))|lia|]; try done;
      [by intros a s <-|by intros b (a & _ & ->)].
Qed.

Lemma emits_tuple t ty : tuple_ok t -> 0 <= ty < 2 ^ 14 ->
  emits nlh 84 (nfct_build_tuple nlh t ty)
    (from_option (fun l => [Nest ty l]) [] (tuple_tlvs t)) (eq (rc (tuple_tlvs t))).
Proof.
  intros Ht Hty. pose proof (emits_tuple_raw t Ht) as H.
  destruct (tuple_tlvs t) as [l|] eqn:E; cbn [from_option].
  - rewrite (partial_tuple t l E) in H. by apply (emits_nest_or_cancel 80 ty _ _ true).
  - by apply (emits_nest_or_cancel 80 ty _ (partial_tlvs t) false).
Qed.

Lemma emits_tuple_zone t ty z : tuple_ok t -> 0 <= ty < 2 ^ 14 ->
  emits nlh 92 (build_tuple_zone nlh ty t z)
    (from_option (fun x => [x]) [] (zoned_tuple_tlvs ty t z)) (eq (rc (tuple_tlvs t))).
Proof.
  intros Ht Hty. pose proof (emits_tuple_raw t Ht) as H. unfold zoned_tuple_tlvs.
  destruct (tuple_tlvs t) as [l|] eqn:E; cbn [from_option fmap option_fmap option_map].
  - rewrite (partial_tuple t l E) in H. apply (emits_nest_or_cancel 88 ty _ _ true); try done.
    apply (emits_seq nlh 80 8 _ _ _ _ _ _ H); [|lia|destruct z; cbn [opt_tlvs tlvs_size]; rewrite ?tlv_size_u16; lia]. intros a <-.
    cbn [Z.ltb Z.compare]. eapply emits_then_ret. emit.
  - apply (emits_nest_or_cancel 88 ty _ (partial_tlvs t) false); try done.
    rewrite <- (app_nil_r (partial_tlvs t)). apply (emits_seq nlh 80 8 _ _ _ _ _ _ H); [|lia|done].
    intros a <-. cbn [Z.ltb Z.compare]. apply (emits_weaken nlh 0 8 _ _ (eq (-1))); [by apply emits_ret|lia|done].
Qed.

Lemma tcp_flags_zlen d ct : blob 16 (ct_protoinfo ct) -> zlen (tcp_flags_bytes d ct) = 2.
Proof. intros [L _]. unfold tcp_flags_bytes. apply zlen_slice; destruct d; cbn; lia. Qed.

Lemma emits_protoinfo_tcp ct : blob 16 (ct_protoinfo ct) ->
  emits nlh 40 (nfct_build_protoinfo_tcp nlh ct) (protoinfo_tcp_tlvs ct) (fun _ => True).
Proof.
  intros Hp. assert (Hf : forall d ty, 0 <= ty < 2 ^ 14 ->
    emits nlh 8 (mnl_attr_put nlh ty 2 (tcp_flags_bytes d ct)) [Leaf ty (tcp_flags_bytes d ct)] (fun _ => True)).
  { intros d ty Hty. by apply (emits_put_all nlh ty 2); rewrite ?tcp_flags_zlen. }
  unfold nfct_build_protoinfo_tcp, protoinfo_tcp_tlvs.
  apply (emits_then nlh 8 32 _ _ _ _ (fun _ => True)); [emit|].
  apply (emits_then nlh 8 24 _ _ _ _ (fun _ => True)); [by eapply emits_when; [apply Hf|]|].
  apply (emits_then nlh 8 16 _ _ _ _ (fun _ => True)); [by eapply emits_when; [apply Hf|]|].
  apply (emits_then nlh 8 8 _ _ _ _ (fun _ => True)); emit.
Qed.

Lemma emits_protoinfo_sctp ct :
  emits nlh 24 (nfct_build_protoinfo_sctp nlh ct) (protoinfo_sctp_tlvs ct) (fun _ => True).
Proof. unfold nfct_build_protoinfo_sctp, protoinfo_sctp_tlvs. emit_room. Qed.

Lemma emits_protoinfo_dccp ct :
  emits nlh 28 (nfct_build_protoinfo_dccp nlh ct) (protoinfo_dccp_tlvs ct) (fun _ => True).
Proof. unfold nfct_build_protoinfo_dccp, protoinfo_dccp_tlvs. emit_room. Qed.

Lemma emits_protoinfo_nest r ty body ts : 0 <= ty < 2 ^ 14 -> 0 <= r < 1000 ->
  emits nlh r body ts (fun _ => True) ->
  emits nlh (8 + r) (build_protoinfo_nest nlh ty body) [Nest CTA_PROTOINFO [Nest ty ts]] (eq 0).
Proof.
  intros Hty Hr Hb. replace (8 + r) with (4 + (4 + r)) by lia.
  eapply emits_nest_ret; [done|lia|]. eapply emits_nest_ret; [done|lia|exact Hb].
Qed.

Lemma emits_protoinfo ct : blob 16 (ct_protoinfo ct) ->
  emits nlh 48 (nfct_build_protoinfo nlh ct) (protoinfo_tlvs ct) (eq 0).
Proof.
  intros Hp. unfold nfct_build_protoinfo, protoinfo_tlvs.
  assert (Hret : emits nlh 48 (ret 0) [] (eq 0))
    by (apply (emits_weaken nlh 0 48 _ _ (eq 0)); [by apply emits_ret|lia|done]).
  destruct (_ =? IPPROTO_TCP); [|destruct (_ =? IPPROTO_SCTP); [|destruct (_ =? IPPROTO_DCCP); [|done]]];
    (destruct (any_set _ ct); [|done]); cbn [negb opt_tlvs].
  - by apply (emits_protoinfo_nest 40); [| |apply emits_protoinfo_tcp].
  - eapply emits_weaken; [by apply (emits_protoinfo_nest 24); [| |apply emits_protoinfo_sctp]|lia|auto].
  - eapply emits_weaken; [by apply (emits_protoinfo_nest 28); [| |apply emits_protoinfo_dccp]|lia|auto].
Qed.

Lemma emits_natseq ct d :
  emits nlh 28 (nfct_build_nat_seq_adj nlh ct d)
    [Nest (match d with DIR_ORIG => CTA_NAT_SEQ_ADJ_ORIG | DIR_REPL => CTA_NAT_SEQ_ADJ_REPLY end)
       (natseq_tlvs (dget d (ct_natseq ct)))] (eq 0).
Proof.
  unfold nfct_build_nat_seq_adj. eapply (emits_nest_ret nlh 24 _ _ _ (eq 0)); [by destruct d|done|].
  unfold nfct_nat_seq_adj, natseq_tlvs. cbv zeta. emit_room.
Qed.

Lemma emits_protonat ct nat : emits nlh 20 (nfct_build_protonat nlh ct nat) [protonat_tlv ct nat] (eq 0).
Proof.
  unfold nfct_build_protonat, protonat_tlv. eapply (emits_nest_ret nlh 16); [done|done|].
  eapply (emits_when nlh 16); [|lia]. eapply (emits_cons nlh 8 8); emit.
Qed.

Lemma emits_nat_v4 nat : emits nlh 8 (nfct_build_nat nlh nat AF_INET) [nat_v4_tlv nat] (eq 0).
Proof. unfold nfct_build_nat, nat_v4_tlv. cbn [Z.eqb AF_INET Pos.eqb]. eapply emits_then_ret. emit. Qed.

Lemma emits_nat_v6 nat : blob 16 (nat_min_ip nat) ->
  emits nlh 20 (nfct_build_nat nlh nat AF_INET6) [nat_v6_tlv nat] (eq 0).
Proof.
  intros [L _]. unfold nfct_build_nat, nat_v6_tlv. cbn [Z.eqb AF_INET AF_INET6 Pos.eqb].
  eapply emits_then_ret. by apply (emits_put_all nlh _ 16).
Qed.

(** The five ways of building a translation block, for source and destination. *)
Lemma emits_nat_block ct nat ty v4 v6 port full f4 f6 fp :
  blob 16 (nat_min_ip nat) -> 0 <= ty < 2 ^ 14 ->
  (forall l3, full nlh ct l3 =
     (let! nest := mnl_attr_nest_start nlh ty in
      (nfct_build_nat nlh nat l3 ;;; nfct_build_protonat nlh ct nat) ;;;
      mnl_attr_nest_end nlh nest ;;; ret 0)) ->
  f4 nlh ct = (let! nest := mnl_attr_nest_start nlh ty in
     nfct_build_nat nlh nat AF_INET ;;; mnl_attr_nest_end nlh nest ;;; ret 0) ->
  f6 nlh ct = (let! nest := mnl_attr_nest_start nlh ty in
     nfct_build_nat nlh nat AF_INET6 ;;; mnl_attr_nest_end nlh nest ;;; ret 0) ->
  fp nlh ct = (let! nest := mnl_attr_nest_start nlh ty in
     nfct_build_protonat nlh ct nat ;;; mnl_attr_nest_end nlh nest ;;; ret 0) ->
  emits nlh 44 (build_nat_block nlh ct v4 v6 port full f4 f6 fp)
    (nat_tlvs ct ty nat (attr_is_set v4 ct) (attr_is_set v6 ct) (attr_is_set port ct)) (fun _ => True).
Proof.
  intros Hn Hty Hf H4 H6 Hp. unfold build_nat_block, nat_tlvs. rewrite !Hf, H4, H6, Hp.
  assert (Hnest : forall r (body : M Z) ts, 0 <= r <= 40 -> emits nlh r body ts (eq 0) ->
    emits nlh 44 (ignore (let! nest := mnl_attr_nest_start nlh ty in
      body ;;; mnl_attr_nest_end nlh nest ;;; ret 0)) [Nest ty ts] (fun _ => True)).
  { intros r body ts Hr Hb. eapply emits_weaken; [eapply emits_ignore, (emits_nest_ret nlh r)|lia|auto];
      [done|lia|exact Hb]. }
  pose proof (emits_nat_v4 nat) as E4. pose proof (emits_nat_v6 nat Hn) as E6.
  pose proof (emits_protonat ct nat) as Ep.
  destruct (attr_is_set v4 ct), (attr_is_set v6 ct), (attr_is_set port ct); cbn [andb orb opt_tlvs app].
  all: first
    [ by apply (Hnest 28); [lia|]; apply (emits_cons nlh 8 20 _ _ _ _ _ _ E4 Ep)
    | by apply (Hnest 40); [lia|]; apply (emits_cons nlh 20 20 _ _ _ _ _ _ E6 Ep)
    | by apply (Hnest 8) | by apply (Hnest 20)
    | by apply (emits_weaken nlh 0 44 _ _ (fun _ => True)); [apply emits_ret|lia|] ].
Qed.

(** ** Helper, labels and SYN proxy *)

Lemma cstring_strlen s c w : cstring s = Some c ->
  strlen s w = Ok (zlen c - 1, w) /\ slice 0 (zlen c) s = c.
Proof.
  revert c w. induction s as [|x s IH]; intros c w H; cbn in *; [done|].
  destruct (x =? 0) eqn:E; simplify_eq.
  - apply Z.eqb_eq in E as ->. done.
  - destruct (cstring s) as [c'|]; cbn in H; simplify_eq. destruct (IH c' w eq_refl) as [H1 H2].
    unfold bind. rewrite H1. split.
    { unfold ret. by replace (zlen (x :: c') - 1) with (zlen c' - 1 + 1) by (rewrite zlen_cons; lia). }
    unfold slice in *. rewrite zlen_cons. pose proof (zlen_nonneg c').
    replace (Z.to_nat (1 + zlen c')) with (S (Z.to_nat (zlen c'))) by lia.
    change (x :: take (Z.to_nat (zlen c')) (drop (Z.to_nat 0) s) = x :: c'). by rewrite H2.
Qed.

Lemma cstring_zlen s c : cstring s = Some c -> 1 <= zlen c <= zlen s.
Proof.
  revert c. induction s as [|x s IH]; intros c H; cbn in *; [done|].
  pose proof (zlen_nonneg s). destruct (x =? 0); simplify_eq; [zl|].
  destruct (cstring s) as [c'|]; cbn in H; simplify_eq. destruct (IH c' eq_refl). zl.
Qed.

Lemma appends_ext {A} r (c c' : M A) ts Q : (forall w, c w = c' w) ->
  appends nlh r c' ts Q -> appends nlh r c ts Q.
Proof. intros He H w L Hm Hr. unfold wp. rewrite He. by apply H. Qed.

Lemma emits_strz ty s c : cstring s = Some c -> 0 <= ty < 2 ^ 14 -> zlen s <= 16 ->
  emits nlh 20 (mnl_attr_put_strz nlh ty s) [Leaf ty c] (fun _ => True).
Proof.
  intros Hc Hty Hs. pose proof (cstring_zlen s c Hc).
  pose proof (emits_put nlh ty (zlen c) s Hty ltac:(lia) ltac:(lia)) as [H1 H2].
  rewrite (proj2 (cstring_strlen s c (mk_world [] 0 []) Hc)) in H1, H2.
  assert (Hal : align4 (4 + zlen c) <= 20).
  { unfold align4. pose proof (Z.div_le_mono (4 + zlen c + 3) 23 4 ltac:(lia) ltac:(lia)) as Hd.
    change (23 / 4) with 5 in Hd. lia. }
  split; [|lia]. eapply appends_ext; [|eapply appends_weaken; [exact H1|done|auto]].
  intros w. unfold mnl_attr_put_strz, bind. rewrite (proj1 (cstring_strlen s c w Hc)).
  by replace (zlen c - 1 + 1) with (zlen c) by lia.
Qed.

Lemma emits_synproxy ct : emits nlh 28 (nfct_build_synproxy nlh ct) [synproxy_tlv ct] (eq tt).
Proof.
  unfold nfct_build_synproxy, synproxy_tlv. eapply (emits_nest_ret nlh 24 _ _ _ (fun _ => True)); [done|done|]. emit_room.
Qed.

End Builders.

(** ** The whole message *)

(** What the builder takes for granted of the heap blocks of the object. *)
Record build_ok (ct : nf_conntrack) : Prop := {
  bo_name : is_Some (cstring (ct_helper_name ct));
  bo_info : opt_ok (fun info => ct_helper_info_len ct <= zlen info /\ ct_helper_info_len ct <= 60000)
              (ct_helper_info ct);
  bo_labels : attr_is_set ATTR_CONNLABELS ct = true -> is_Some (ct_connlabels ct);
  bo_mask : attr_is_set ATTR_CONNLABELS ct = true -> attr_is_set ATTR_CONNLABELS_MASK ct = true ->
              is_Some (ct_connlabels_mask ct)
}.

Definition info_room (ct : nf_conntrack) : Z :=
  if ct_helper_info ct is Some _ then align4 (4 + ct_helper_info_len ct) else 0.
Definition labels_room (ct : nf_conntrack) : Z :=
  if ct_connlabels ct is Some b then 2 * (4 + 4 * bm_words b) else 0.

(** An upper bound of the bytes that the attributes of an object take, those of
    a tuple that is cancelled included. *)
Definition build_room (ct : nf_conntrack) : Z := 552 + info_room ct + labels_room ct.

Section Whole.
Context (nlh : Z) (ct : nf_conntrack) (Hok : ct_ok ct) (Hbo : build_ok ct).

Lemma info_room_nonneg : 0 <= info_room ct.
Proof.
  unfold info_room. pose proof (ok_helper_info_len _ Hok) as [H _].
  case_match; [|lia]. pose proof (align4_spec (4 + ct_helper_info_len ct)). lia.
Qed.

Lemma labels_room_nonneg : 0 <= labels_room ct.
Proof.
  unfold labels_room. pose proof (ok_connlabels _ Hok) as H. destruct (ct_connlabels ct); [|lia].
  destruct H as [H _]. lia.
Qed.

Lemma emits_help : emits nlh (24 + info_room ct) (nfct_build_helper_name nlh ct) [help_tlv ct] (eq 0).
Proof.
  unfold nfct_build_helper_name, help_tlv. pose proof (ok_helper_info_len _ Hok) as [Hl _].
  destruct (bo_name _ Hbo) as [c Hc]. unfold cstr_bytes. rewrite Hc. cbn [default from_option id].
  replace (24 + info_room ct) with (4 + (20 + info_room ct)) by lia.
  pose proof (bo_info _ Hbo) as Hi. pose proof (align4_spec (4 + ct_helper_info_len ct)).
  eapply emits_nest_ret; [done|unfold info_room; case_match; cbn in Hi; lia|].
  eapply emits_cons.
  - apply (emits_strz nlh _ _ _ Hc); [done|]. pose proof (proj1 (ok_helper_name _ Hok)) as L.
    unfold NFCT_HELPER_NAME_MAX in L. lia.
  - unfold info_room. destruct (ct_helper_info ct) as [info|]; cbn in Hi.
    + apply emits_put; [done|lia|lia].
    + by apply (emits_ret nlh tt (fun _ => True)).
Qed.

Lemma emits_labels : attr_is_set ATTR_CONNLABELS ct = true ->
  emits nlh (labels_room ct) (nfct_build_labels nlh ct) (labels_tlvs ct) (fun _ => True).
Proof.
  intros Hset. unfold nfct_build_labels, labels_tlvs, labels_room.
  destruct (bo_labels _ Hbo Hset) as [b Hb]. rewrite Hb.
  pose proof (ok_connlabels _ Hok) as Hlb. rewrite Hb in Hlb. pose proof Hlb as (Hw & Hz & _).
  rewrite wrap_small by lia.
  assert (Hput : forall ty m, 0 <= ty < 2 ^ 14 -> bitmask_ok m -> bm_words m = bm_words b ->
    emits nlh (4 + 4 * bm_words b) (mnl_attr_put nlh ty (bm_words b * 4) (words_bytes (bm_bits m)))
      [Leaf ty (words_bytes (bm_bits m))] (fun _ => True)).
  { intros ty m Hty (_ & Hm & _) He. pose proof (zlen_words_bytes (bm_bits m)) as Hlen.
    replace (4 + 4 * bm_words b) with (align4 (4 + bm_words b * 4)).
    - apply emits_put_all; [done|lia|lia].
    - rewrite align4_id; [lia|]. replace (4 + bm_words b * 4) with ((1 + bm_words b) * 4) by lia.
      apply Z.mod_mul. lia. }
  replace (2 * (4 + 4 * bm_words b)) with (4 + 4 * bm_words b + (4 + 4 * bm_words b)) by lia.
  assert (Hnil : emits nlh (4 + 4 * bm_words b) (ret tt) [] (fun _ => True))
    by (apply (emits_weaken nlh 0 _ _ _ (fun _ => True)); [by apply emits_ret|lia|done]).
  eapply emits_cons; [by apply Hput|].
  destruct (attr_is_set ATTR_CONNLABELS_MASK ct) eqn:Hm; cbn [andb].
  - destruct (bo_mask _ Hbo Hset Hm) as [m Em]. rewrite Em.
    pose proof (ok_connlabels_mask _ Hok) as Hmk. rewrite Em in Hmk.
    destruct (Z.eqb_spec (bm_words b) (bm_words m)) as [He|He].
    + rewrite (proj2 (Z.eqb_eq (bm_words b * 4) (bm_words m * 4))) by lia. by apply Hput.
    + by rewrite (proj2 (Z.eqb_neq (bm_words b * 4) (bm_words m * 4))) by lia.
  - by destruct (ct_connlabels_mask ct).
Qed.

Lemma emits_when_cond r b c ts : (b = true -> emits nlh r c ts (fun _ => True)) -> 0 <= r ->
  emits nlh r (when b c) (opt_tlvs b ts) (fun _ => True).
Proof.
  intros H Hr. destruct b; [by apply H|].
  apply (emits_weaken nlh 0 r _ _ (fun _ => True)); [by apply emits_ret|lia|done].
Qed.

Lemma emits_rest : emits nlh (368 + info_room ct + labels_room ct) (build_rest nlh ct) (rest_tlvs ct)
  (fun _ => True).
Proof.
  pose proof info_room_nonneg. pose proof labels_room_nonneg.
  unfold build_rest, rest_tlvs. eapply emits_weaken.
  { eapply emits_then; [eapply emits_when; [eapply emits_ignore, emits_tuple; [apply Hok|done]|done]|].
    do 4 (eapply emits_then; [eapply emits_when; [eapply emits_ignore; unfold nfct_build_status,
      nfct_build_timeout, nfct_build_mark, nfct_build_secmark; emit|done]|]).
    eapply emits_then; [eapply emits_ignore, emits_protoinfo, Hok|].
    eapply emits_then; [eapply emits_nat_block; try reflexivity; [apply Hok|done]|].
    eapply emits_then; [eapply emits_nat_block; try reflexivity; [apply Hok|done]|].
    eapply emits_then; [eapply emits_when; [eapply emits_ignore, (emits_natseq nlh ct DIR_ORIG)|done]|].
    eapply emits_then; [eapply emits_when; [eapply emits_ignore, (emits_natseq nlh ct DIR_REPL)|done]|].
    eapply emits_then; [eapply emits_when; [eapply emits_ignore, emits_help|lia]|].
    eapply emits_then; [eapply emits_when; [eapply emits_ignore; unfold nfct_build_zone; emit|done]|].
    eapply emits_then; [apply (emits_when_cond (labels_room ct)); [apply emits_labels|lia]|].
    eapply emits_when; [apply emits_synproxy|done]. }
  - lia.
  - auto.
Qed.

End Whole.

Section Refinement.
Context (nlh : Z) (ct : nf_conntrack) (Hok : ct_ok ct) (Hbo : build_ok ct).
Context (Hl3 : attr_is_set ATTR_ORIG_L3PROTO ct = true).

Lemma any_orig_set : any_set orig_tuple_attrs ct = true.
Proof.
  unfold any_set, orig_tuple_attrs. apply existsb_exists. exists ATTR_ORIG_L3PROTO.
  split; [|done]. repeat first [by left|right].
Qed.

Lemma zoned_none ty t z : tuple_tlvs t = None -> zoned_tuple_tlvs ty t z = None.
Proof. unfold zoned_tuple_tlvs. by intros ->. Qed.

Lemma emits_build : emits nlh (build_room ct) (nfct_nlmsg_build nlh ct) (snd (ct_tlvs ct))
  (eq (fst (ct_tlvs ct))).
Proof.
  pose proof (info_room_nonneg ct Hok). pose proof (labels_room_nonneg ct Hok).
  pose proof (emits_rest nlh ct Hok Hbo) as Hrest.
  unfold nfct_nlmsg_build, ct_tlvs, build_room. rewrite Hl3, any_orig_set. cbn [negb].
  pose proof (emits_tuple_zone nlh (ct_orig ct) CTA_TUPLE_ORIG (attr_is_set ATTR_ORIG_ZONE ct)
                (ok_orig _ Hok) ltac:(done)) as Ho.
  pose proof (emits_tuple_zone nlh (ct_repl ct) CTA_TUPLE_REPLY (attr_is_set ATTR_REPL_ZONE ct)
                (ok_repl _ Hok) ltac:(done)) as Hr.
  assert (Hret : forall r (z : Z), 0 <= r -> emits nlh r (ret z) [] (eq z))
    by (intros; apply (emits_weaken nlh 0 r _ _ (eq z)); [by apply emits_ret|lia|done]).
  set (R := 460 + info_room ct + labels_room ct) in *.
  replace (552 + info_room ct + labels_room ct) with (92 + R) by lia.
  unfold zoned_tuple_tlvs in *.
  destruct (tuple_tlvs (ct_orig ct)) as [lo|]; cbn [fmap option_fmap option_map from_option rc] in *;
    [|rewrite <- (app_nil_r []); apply (emits_seq nlh 92 R _ _ [] [] _ _ Ho); [|lia|cbn; lia];
      intros a <-; apply Hret; lia].
  destruct (any_set repl_tuple_attrs ct).
  - destruct (tuple_tlvs (ct_repl ct)) as [lr|]; cbn [fmap option_fmap option_map from_option rc fst snd] in *.
    + match goal with |- emits _ _ _ (?o :: ?r :: ?l) _ => change (o :: r :: l) with ([o] ++ ([r] ++ l)) end.
      assert (Hk : emits nlh R (let! r := build_tuple_zone nlh CTA_TUPLE_REPLY (ct_repl ct)
            (attr_is_set ATTR_REPL_ZONE ct) in if r <? 0 then ret (-1) else build_rest nlh ct ;;; ret 0)
          ([Nest CTA_TUPLE_REPLY (lr ++ opt_tlvs (attr_is_set ATTR_REPL_ZONE ct)
              [u16 CTA_TUPLE_ZONE (htons (tp_zone (ct_repl ct)))])] ++ rest_tlvs ct) (eq 0)).
      { replace R with (92 + (368 + info_room ct + labels_room ct)) by lia.
        apply (emits_seq nlh 92 _ _ _ [_] _ _ _ Hr); [|lia|apply Hrest].
        intros a <-. cbn [Z.ltb Z.compare]. by eapply emits_then_ret. }
      apply (emits_seq nlh 92 R _ _ [_] _ _ _ Ho); [|lia|apply Hk]. intros a <-. exact Hk.
    + apply (emits_seq nlh 92 R _ _ [_] [] _ _ Ho); [|lia|cbn; lia]. intros a <-. cbn [Z.ltb Z.compare].
      change (@nil tlv) with (@nil tlv ++ []). replace R with (92 + (R - 92)) by lia.
      apply (emits_seq nlh 92 (R - 92) _ _ [] [] _ _ Hr); [|lia|cbn; lia]. intros a <-. apply Hret. lia.
  - match goal with |- emits _ _ _ _ (eq (fst (0, ?o :: ?l))) => change (snd (0, o :: l)) with ([o] ++ l) end.
    apply (emits_seq nlh 92 R _ _ [_] _ _ _ Ho); [|lia|destruct Hrest; lia]. intros a <-.
    cbn [Z.ltb Z.compare fst].
    apply (emits_weaken nlh (368 + info_room ct + labels_room ct) R _ _ (eq 0)); [|lia|done].
    change (emits nlh (368 + info_room ct + labels_room ct) (build_rest nlh ct ;;; ret 0) (rest_tlvs ct) (eq 0)).
    by eapply emits_then_ret.
Qed.


(** C4: [nfct_nlmsg_build] refines the abstract description of the message:
    given [build_room] free bytes after the [L] bytes of the message, it returns
    the described value (0, or -1 for an unsupported address family or
    protocol) and the message grows by exactly the encoding of the described
    attribute tree, nested attributes with their final lengths included, while
    nothing else of the buffer before it changes. *)
Theorem nfct_nlmsg_build_refines w L :
  msg_len nlh L w -> nlh + L + build_room ct <= zlen (w_mem w) ->
  exists w', nfct_nlmsg_build nlh ct w = Ok (fst (ct_tlvs ct), w') /\
    msg_len nlh (L + tlvs_size (snd (ct_tlvs ct))) w' /\
    attrs_at (w_mem w') (nlh + L) (snd (ct_tlvs ct)) /\ same_msg nlh L w w'.
Proof.
  intros Hm Hr. destruct emits_build as [Ha _]. pose proof (Ha w L Hm Hr) as Hwp.
  apply wp_run in Hwp as (v & w' & Hw & <- & H). by exists w'.
Qed.

End Refinement.

(** A TCP flow over IPv4 with its layer 3 protocol and its mark set. *)
Definition build_example : nf_conntrack :=
  attr_set ATTR_ORIG_L3PROTO (attr_set ATTR_MARK (with_ct_mark 7 tcp_example)).

Lemma build_example_ok : ct_ok build_example.
Proof.
  do 2 apply ct_ok_attr_set. pose proof tcp_example_ok as H. ct_ok_with H; by split.
Qed.

(** A buffer with an empty ctnetlink message: its 16 bytes of header and the 4
    bytes of the nfnetlink header. *)
Definition example_buffer (n : nat) : list Z := le_enc 4 20 ++ replicate n 0.

Lemma nfct_nlmsg_build_refines_witness :
  exists w', nfct_nlmsg_build 0 build_example (mk_world (example_buffer 1000) 0 [])
      = Ok (fst (ct_tlvs build_example), w') /\
    msg_len 0 (20 + tlvs_size (snd (ct_tlvs build_example))) w' /\
    attrs_at (w_mem w') (0 + 20) (snd (ct_tlvs build_example)) /\
    same_msg 0 20 (mk_world (example_buffer 1000) 0 []) w'.
Proof.
  apply (nfct_nlmsg_build_refines 0 build_example build_example_ok).
  - split; try done; by exists [0].
  - reflexivity.
  - split; try done; vm_compute; congruence.
  - vm_compute. congruence.
Defined.
