(* ===== verification/CtParse.v ===== *)
(** Netlink message to object: [src/libnetfilter_conntrack/parse_mnl.c].

    Every parser collects the attributes of its nest in a table [tb] of
    pointers (a NULL entry is [None]) with a callback that checks the payload
    length, and then reads the entries.  A parser that fails returns -1 with
    the object as it left it. *)
From S2P Require Import Prelude CMonad MnlMsg MnlAttr Bitops CtObject CtSetter CtCopy CtApi CtCompare Ctnl CtBuild.
Open Scope c_scope.

(** ** Attribute tables *)

Abbreviation tb_t := (list (option Z)).

(** [struct nlattr *tb\[n\] = {}]. *)
Definition tb_new (n : Z) : tb_t := replicate (Z.to_nat n) None.

(** What a callback asks of the payload of an attribute. *)
Inductive policy :=
| NoCheck
| Validate (type : mnl_attr_data_type)
| Validate2 (type : mnl_attr_data_type) (len : Z).

(** [abi_breakage] ends the process. *)
Definition abi_breakage : M unit := exit.

Definition check_policy (attr : Z) (p : policy) : M unit :=
  match p with
  | NoCheck => ret tt
  | Validate t => let! r := mnl_attr_validate attr t in if r <? 0 then abi_breakage else ret tt
  | Validate2 t n => let! r := mnl_attr_validate2 attr t n in if r <? 0 then abi_breakage else ret tt
  end.

(** [tb\[type\] = attr]. *)
Definition tb_set (type attr : Z) (tb : tb_t) : M tb_t :=
  if (0 <=? type) && (type <? zlen tb) then ret (<[Z.to_nat type := Some attr]> tb) else ub.

(** The body every [*_attr_cb] function of the file has: [max] is the bound of
    [mnl_attr_type_valid] and [pol] the switch on the type. *)
Definition table_cb (max : Z) (pol : Z -> policy) : mnl_attr_cb_t tb_t := fun attr tb =>
  let! type := mnl_attr_get_type attr in
  let! valid := mnl_attr_type_valid attr max in
  if valid <? 0 then ret (MNL_CB_OK, tb) else
  check_policy attr (pol type) ;;;
  let! tb := tb_set type attr tb in
  ret (MNL_CB_OK, tb).

(** ** Parsing steps *)

(** A piece of a parser: it updates the object and may fail. *)
Definition step (S : Type) : Type := S -> M (Z * S).

(** Steps in order, up to the first that fails: [if (f(...) < 0) return -1;]. *)
Fixpoint steps {S} (l : list (step S)) : step S := fun s =>
  match l with
  | [] => ret (0, s)
  | p :: l => let! (r, s) := p s in if r <? 0 then ret (-1, s) else steps l s
  end.

(** [if (tb\[type\]) { ... }]; [f] is given [tb\[type\]]. *)
Definition on {S} (tb : tb_t) (type : Z) (f : Z -> step S) : step S := fun s =>
  match tb !! Z.to_nat type with
  | None => ub
  | Some None => ret (0, s)
  | Some (Some attr) => f attr s
  end.

(** An assignment of a value read through the attribute; it does not fail. *)
Definition assign {S V} (get : Z -> M V) (upd : V -> S -> S) (attr : Z) : step S := fun s =>
  let! v := get attr in ret (0, upd v s).

(** The table of a nest and the steps over it. *)
Definition parse_nest {S} (attr n : Z) (cb : mnl_attr_cb_t tb_t) (k : tb_t -> step S) : step S := fun s =>
  let! (r, tb) := mnl_attr_parse_nested attr cb (tb_new n) in
  if r <? 0 then ret (-1, s) else k tb s.

Definition get_ntohs (attr : Z) : M Z := let! v := mnl_attr_get_u16 attr in ret (ntohs v).
Definition get_ntohl (attr : Z) : M Z := let! v := mnl_attr_get_u32 attr in ret (ntohl v).
Definition get_be64toh (attr : Z) : M Z := let! v := mnl_attr_get_u64 attr in ret (be64toh v).
Definition get_bytes (n attr : Z) : M (list Z) := load_bytes (mnl_attr_get_payload attr) n.

(** The [switch] of each callback is its policy. *)

(** ** Tuples *)

(** [__DIR_ORIG], [__DIR_REPL] and [__DIR_MASTER]. *)
Inductive tuple_dir := __DIR_ORIG | __DIR_REPL | __DIR_MASTER.

(** A parser of tuples writes through [struct __nfct_tuple *tuple] and
    [uint32_t *set]. *)
Definition tuple_st : Type := __nfct_tuple * list Z.

(** [switch (dir)] over [or_bit]: a direction without a case sets nothing. *)
Definition set_dir (dir : tuple_dir) (orig repl : nf_conntrack_attr)
  (master : option nf_conntrack_attr) (set : list Z) : list Z :=
  match dir with
  | __DIR_ORIG => or_bit (attr_idx orig) set
  | __DIR_REPL => or_bit (attr_idx repl) set
  | __DIR_MASTER => from_option (fun a => or_bit (attr_idx a) set) set master
  end.

Definition upd_tuple (f : __nfct_tuple -> __nfct_tuple) (g : list Z -> list Z) (s : tuple_st) : tuple_st :=
  (f s.1, g s.2).

Definition ip_policy (type : Z) : policy :=
  if one_of type [CTA_IP_V4_SRC; CTA_IP_V4_DST] then Validate MNL_TYPE_U32
  else if one_of type [CTA_IP_V6_SRC; CTA_IP_V6_DST] then Validate2 MNL_TYPE_UNSPEC 16
  else NoCheck.

Definition nfct_parse_ip_attr_cb : mnl_attr_cb_t tb_t := table_cb CTA_IP_MAX ip_policy.

Definition nfct_parse_ip (attr : Z) (dir : tuple_dir) : step tuple_st :=
  parse_nest attr (CTA_IP_MAX + 1) nfct_parse_ip_attr_cb (fun tb => steps
   [on tb CTA_IP_V4_SRC (assign mnl_attr_get_u32 (fun v =>
      upd_tuple (fun t => with_tp_src (set_addr_v4 v (tp_src t)) t)
                (set_dir dir ATTR_ORIG_IPV4_SRC ATTR_REPL_IPV4_SRC (Some ATTR_MASTER_IPV4_SRC))));
    on tb CTA_IP_V4_DST (assign mnl_attr_get_u32 (fun v =>
      upd_tuple (fun t => with_tp_dst (set_addr_v4 v (tp_dst t)) t)
                (set_dir dir ATTR_ORIG_IPV4_DST ATTR_REPL_IPV4_DST (Some ATTR_MASTER_IPV4_DST))));
    on tb CTA_IP_V6_SRC (assign (get_bytes 16) (fun v =>
      upd_tuple (with_tp_src v)
                (set_dir dir ATTR_ORIG_IPV6_SRC ATTR_REPL_IPV6_SRC (Some ATTR_MASTER_IPV6_SRC))));
    on tb CTA_IP_V6_DST (assign (get_bytes 16) (fun v =>
      upd_tuple (with_tp_dst v)
                (set_dir dir ATTR_ORIG_IPV6_DST ATTR_REPL_IPV6_DST (Some ATTR_MASTER_IPV6_DST))))]).

Definition proto_policy (type : Z) : policy :=
  if one_of type [CTA_PROTO_SRC_PORT; CTA_PROTO_DST_PORT; CTA_PROTO_ICMP_ID; CTA_PROTO_ICMPV6_ID]
  then Validate MNL_TYPE_U16
  else if one_of type [CTA_PROTO_NUM; CTA_PROTO_ICMP_TYPE; CTA_PROTO_ICMP_CODE; CTA_PROTO_ICMPV6_TYPE;
                       CTA_PROTO_ICMPV6_CODE]
  then Validate MNL_TYPE_U8
  else NoCheck.

Definition nfct_parse_proto_attr_cb : mnl_attr_cb_t tb_t := table_cb CTA_PROTO_MAX proto_policy.

Definition upd_l4dst (f : list Z -> list Z) (t : __nfct_tuple) : __nfct_tuple :=
  with_tp_l4dst (f (tp_l4dst t)) t.

Definition nfct_parse_proto (attr : Z) (dir : tuple_dir) : step tuple_st :=
  parse_nest attr (CTA_PROTO_MAX + 1) nfct_parse_proto_attr_cb (fun tb => steps
   [on tb CTA_PROTO_NUM (assign mnl_attr_get_u8 (fun v =>
      upd_tuple (with_tp_protonum v)
                (set_dir dir ATTR_ORIG_L4PROTO ATTR_REPL_L4PROTO (Some ATTR_MASTER_L4PROTO))));
    on tb CTA_PROTO_SRC_PORT (assign mnl_attr_get_u16 (fun v =>
      upd_tuple (with_tp_l4src v)
                (set_dir dir ATTR_ORIG_PORT_SRC ATTR_REPL_PORT_SRC (Some ATTR_MASTER_PORT_SRC))));
    on tb CTA_PROTO_DST_PORT (assign mnl_attr_get_u16 (fun v =>
      upd_tuple (upd_l4dst (set_l4dst_all v))
                (set_dir dir ATTR_ORIG_PORT_DST ATTR_REPL_PORT_DST (Some ATTR_MASTER_PORT_DST))));
    on tb CTA_PROTO_ICMP_TYPE (assign mnl_attr_get_u8 (fun v =>
      upd_tuple (upd_l4dst (set_icmp_type v)) (or_bit (attr_idx ATTR_ICMP_TYPE))));
    on tb CTA_PROTO_ICMP_CODE (assign mnl_attr_get_u8 (fun v =>
      upd_tuple (upd_l4dst (set_icmp_code v)) (or_bit (attr_idx ATTR_ICMP_CODE))));
    on tb CTA_PROTO_ICMP_ID (assign mnl_attr_get_u16 (fun v =>
      upd_tuple (with_tp_l4src v) (or_bit (attr_idx ATTR_ICMP_ID))));
    on tb CTA_PROTO_ICMPV6_TYPE (assign mnl_attr_get_u8 (fun v =>
      upd_tuple (upd_l4dst (set_icmp_type v)) (or_bit (attr_idx ATTR_ICMP_TYPE))));
    on tb CTA_PROTO_ICMPV6_CODE (assign mnl_attr_get_u8 (fun v =>
      upd_tuple (upd_l4dst (set_icmp_code v)) (or_bit (attr_idx ATTR_ICMP_CODE))));
    on tb CTA_PROTO_ICMPV6_ID (assign mnl_attr_get_u16 (fun v =>
      upd_tuple (with_tp_l4src v) (or_bit (attr_idx ATTR_ICMP_ID))))]).

Definition tuple_policy (type : Z) : policy :=
  if one_of type [CTA_TUPLE_IP; CTA_TUPLE_PROTO] then Validate MNL_TYPE_NESTED
  else if type =? CTA_TUPLE_ZONE then Validate MNL_TYPE_U16
  else NoCheck.

Definition nfct_parse_tuple_attr_cb : mnl_attr_cb_t tb_t := table_cb CTA_TUPLE_MAX tuple_policy.

Definition nfct_parse_tuple (attr : Z) (dir : tuple_dir) : step tuple_st :=
  parse_nest attr (CTA_TUPLE_MAX + 1) nfct_parse_tuple_attr_cb (fun tb => steps
   [on tb CTA_TUPLE_IP (fun a => nfct_parse_ip a dir);
    on tb CTA_TUPLE_PROTO (fun a => nfct_parse_proto a dir);
    on tb CTA_TUPLE_ZONE (assign get_ntohs (fun v =>
      upd_tuple (with_tp_zone v) (set_dir dir ATTR_ORIG_ZONE ATTR_REPL_ZONE None)))]).

(** ** Protocol information *)

(** [ct->f = v; set_bit(a, ct->head.set)]. *)
Definition setting (l : list nf_conntrack_attr) (f : nf_conntrack -> nf_conntrack) (ct : nf_conntrack)
  : nf_conntrack :=
  foldl (fun ct a => attr_set a ct) (f ct) l.

Definition pinfo_tcp_policy (type : Z) : policy :=
  if one_of type [CTA_PROTOINFO_TCP_STATE; CTA_PROTOINFO_TCP_WSCALE_ORIGINAL;
                  CTA_PROTOINFO_TCP_WSCALE_REPLY]
  then Validate MNL_TYPE_U8
  else if one_of type [CTA_PROTOINFO_TCP_FLAGS_ORIGINAL; CTA_PROTOINFO_TCP_FLAGS_REPLY]
  then Validate2 MNL_TYPE_UNSPEC 2
  else NoCheck.

Definition nfct_parse_pinfo_tcp_attr_cb : mnl_attr_cb_t tb_t := table_cb CTA_PROTOINFO_TCP_MAX pinfo_tcp_policy.

Definition nfct_parse_protoinfo_tcp (attr : Z) : step nf_conntrack :=
  parse_nest attr (CTA_PROTOINFO_TCP_MAX + 1) nfct_parse_pinfo_tcp_attr_cb (fun tb => steps
   [on tb CTA_PROTOINFO_TCP_STATE (assign mnl_attr_get_u8 (fun v =>
      setting [ATTR_TCP_STATE] (upd_protoinfo (u_set 1 tcp_state_off v))));
    on tb CTA_PROTOINFO_TCP_WSCALE_ORIGINAL (assign (get_bytes 1) (fun v =>
      setting [ATTR_TCP_WSCALE_ORIG] (upd_protoinfo (splice (tcp_wscale_off DIR_ORIG) v))));
    on tb CTA_PROTOINFO_TCP_WSCALE_REPLY (assign (get_bytes 1) (fun v =>
      setting [ATTR_TCP_WSCALE_REPL] (upd_protoinfo (splice (tcp_wscale_off DIR_REPL) v))));
    on tb CTA_PROTOINFO_TCP_FLAGS_ORIGINAL (assign (get_bytes 2) (fun v =>
      setting [ATTR_TCP_FLAGS_ORIG; ATTR_TCP_MASK_ORIG]
              (upd_protoinfo (splice (tcp_flags_value_off DIR_ORIG) v))));
    on tb CTA_PROTOINFO_TCP_FLAGS_REPLY (assign (get_bytes 2) (fun v =>
      setting [ATTR_TCP_FLAGS_REPL; ATTR_TCP_MASK_REPL]
              (upd_protoinfo (splice (tcp_flags_value_off DIR_REPL) v))))]).

Definition pinfo_sctp_policy (type : Z) : policy :=
  if type =? CTA_PROTOINFO_SCTP_STATE then Validate MNL_TYPE_U8
  else if one_of type [CTA_PROTOINFO_SCTP_VTAG_ORIGINAL; CTA_PROTOINFO_SCTP_VTAG_REPLY]
  then Validate MNL_TYPE_U32
  else NoCheck.

Definition nfct_parse_pinfo_sctp_attr_cb : mnl_attr_cb_t tb_t := table_cb CTA_PROTOINFO_SCTP_MAX pinfo_sctp_policy.

Definition nfct_parse_protoinfo_sctp (attr : Z) : step nf_conntrack :=
  parse_nest attr (CTA_PROTOINFO_SCTP_MAX + 1) nfct_parse_pinfo_sctp_attr_cb (fun tb => steps
   [on tb CTA_PROTOINFO_SCTP_STATE (assign mnl_attr_get_u8 (fun v =>
      setting [ATTR_SCTP_STATE] (upd_protoinfo (u_set 1 sctp_state_off v))));
    on tb CTA_PROTOINFO_SCTP_VTAG_ORIGINAL (assign get_ntohl (fun v =>
      setting [ATTR_SCTP_VTAG_ORIG] (upd_protoinfo (u_set 4 (sctp_vtag_off DIR_ORIG) v))));
    on tb CTA_PROTOINFO_SCTP_VTAG_REPLY (assign get_ntohl (fun v =>
      setting [ATTR_SCTP_VTAG_REPL] (upd_protoinfo (u_set 4 (sctp_vtag_off DIR_REPL) v))))]).

Definition pinfo_dccp_policy (type : Z) : policy :=
  if one_of type [CTA_PROTOINFO_DCCP_STATE; CTA_PROTOINFO_DCCP_ROLE] then Validate MNL_TYPE_U8
  else if type =? CTA_PROTOINFO_DCCP_HANDSHAKE_SEQ then Validate MNL_TYPE_U64
  else NoCheck.

Definition nfct_parse_pinfo_dccp_attr_cb : mnl_attr_cb_t tb_t := table_cb CTA_PROTOINFO_DCCP_MAX pinfo_dccp_policy.

Definition nfct_parse_protoinfo_dccp (attr : Z) : step nf_conntrack :=
  parse_nest attr (CTA_PROTOINFO_DCCP_MAX + 1) nfct_parse_pinfo_dccp_attr_cb (fun tb => steps
   [on tb CTA_PROTOINFO_DCCP_STATE (assign mnl_attr_get_u8 (fun v =>
      setting [ATTR_DCCP_STATE] (upd_protoinfo (u_set 1 dccp_state_off v))));
    on tb CTA_PROTOINFO_DCCP_ROLE (assign mnl_attr_get_u8 (fun v =>
      setting [ATTR_DCCP_ROLE] (upd_protoinfo (u_set 1 dccp_role_off v))));
    on tb CTA_PROTOINFO_DCCP_HANDSHAKE_SEQ (assign get_be64toh (fun v =>
      setting [ATTR_DCCP_HANDSHAKE_SEQ] (upd_protoinfo (u_set 8 dccp_handshake_seq_off v))))]).

Definition protoinfo_policy (type : Z) : policy :=
  if one_of type [CTA_PROTOINFO_TCP; CTA_PROTOINFO_SCTP; CTA_PROTOINFO_DCCP]
  then Validate MNL_TYPE_NESTED
  else NoCheck.

(** The bound is [CTA_PROTOINFO_TCP_MAX], the table has [CTA_PROTOINFO_MAX + 1]
    entries. *)
Definition nfct_parse_protoinfo_attr_cb : mnl_attr_cb_t tb_t := table_cb CTA_PROTOINFO_TCP_MAX protoinfo_policy.

(** A call whose result is dropped. *)
Definition unchecked {S} (p : step S) : step S := fun s => let! (_, s) := p s in ret (0, s).

Definition nfct_parse_protoinfo (attr : Z) : step nf_conntrack :=
  parse_nest attr (CTA_PROTOINFO_MAX + 1) nfct_parse_protoinfo_attr_cb (fun tb => steps
   [on tb CTA_PROTOINFO_TCP (fun a => unchecked (nfct_parse_protoinfo_tcp a));
    on tb CTA_PROTOINFO_SCTP (fun a => unchecked (nfct_parse_protoinfo_sctp a));
    on tb CTA_PROTOINFO_DCCP (fun a => unchecked (nfct_parse_protoinfo_dccp a))]).

(** ** Counters and sequence adjustment *)

Definition counters_policy (type : Z) : policy :=
  if one_of type [CTA_COUNTERS_PACKETS; CTA_COUNTERS_BYTES] then Validate MNL_TYPE_U64
  else if one_of type [CTA_COUNTERS32_PACKETS; CTA_COUNTERS32_BYTES] then Validate MNL_TYPE_U32
  else NoCheck.

Definition nfct_parse_counters_attr_cb : mnl_attr_cb_t tb_t := table_cb CTA_COUNTERS_MAX counters_policy.

Definition dir_attr (dir : nfct_dir) (orig repl : nf_conntrack_attr) : nf_conntrack_attr :=
  match dir with DIR_ORIG => orig | DIR_REPL => repl end.

(** The 32-bit value first, then the 64-bit one over it; the presence bit when
    one of them was there. *)
Definition parse_counter (tb : tb_t) (t32 t64 : Z) (a : nf_conntrack_attr)
  (upd : Z -> nf_conntrack -> nf_conntrack) : list (step nf_conntrack) :=
  [on tb t32 (assign get_ntohl (fun v => setting [a] (upd v)));
   on tb t64 (assign get_be64toh (fun v => setting [a] (upd v)))].

Definition nfct_parse_counters (attr : Z) (dir : nfct_dir) : step nf_conntrack :=
  parse_nest attr (CTA_COUNTERS_MAX + 1) nfct_parse_counters_attr_cb (fun tb => steps
   (parse_counter tb CTA_COUNTERS32_PACKETS CTA_COUNTERS_PACKETS
      (dir_attr dir ATTR_ORIG_COUNTER_PACKETS ATTR_REPL_COUNTER_PACKETS)
      (fun v => upd_counters dir (with_ctr_packets v)) ++
    parse_counter tb CTA_COUNTERS32_BYTES CTA_COUNTERS_BYTES
      (dir_attr dir ATTR_ORIG_COUNTER_BYTES ATTR_REPL_COUNTER_BYTES)
      (fun v => upd_counters dir (with_ctr_bytes v)))).

Definition nat_seq_policy (type : Z) : policy :=
  if one_of type [CTA_NAT_SEQ_CORRECTION_POS; CTA_NAT_SEQ_OFFSET_BEFORE; CTA_NAT_SEQ_OFFSET_AFTER]
  then Validate MNL_TYPE_U32
  else NoCheck.

Definition nfct_parse_nat_seq_attr_cb : mnl_attr_cb_t tb_t := table_cb CTA_NAT_SEQ_MAX nat_seq_policy.

Definition nfct_parse_nat_seq (attr : Z) (dir : nfct_dir) : step nf_conntrack :=
  parse_nest attr (CTA_NAT_SEQ_MAX + 1) nfct_parse_nat_seq_attr_cb (fun tb => steps
   [on tb CTA_NAT_SEQ_CORRECTION_POS (assign get_ntohl (fun v =>
      setting [dir_attr dir ATTR_ORIG_NAT_SEQ_CORRECTION_POS ATTR_REPL_NAT_SEQ_CORRECTION_POS]
              (upd_natseq dir (with_seq_correction_pos v))));
    on tb CTA_NAT_SEQ_OFFSET_BEFORE (assign get_ntohl (fun v =>
      setting [dir_attr dir ATTR_ORIG_NAT_SEQ_OFFSET_BEFORE ATTR_REPL_NAT_SEQ_OFFSET_BEFORE]
              (upd_natseq dir (with_seq_offset_before v))));
    on tb CTA_NAT_SEQ_OFFSET_AFTER (assign get_ntohl (fun v =>
      setting [dir_attr dir ATTR_ORIG_NAT_SEQ_OFFSET_AFTER ATTR_REPL_NAT_SEQ_OFFSET_AFTER]
              (upd_natseq dir (with_seq_offset_after v))))]).

(** ** Helper, security context, timestamps *)

Definition helper_policy (type : Z) : policy :=
  if type =? CTA_HELP_NAME then Validate MNL_TYPE_STRING else NoCheck.

Definition nfct_parse_helper_attr_cb : mnl_attr_cb_t tb_t := table_cb CTA_HELP_MAX helper_policy.

(** The memory a string pointer into the message designates: up to the end of
    the buffer. *)
Definition string_at (o : Z) : M (list Z) := fun w =>
  if in_range o 0 (w_mem w) then Ok (drop (Z.to_nat o) (w_mem w), w) else Ub.

Definition parse_helper_name (attr : Z) : step nf_conntrack := fun ct =>
  let! s := string_at (mnl_attr_get_str attr) in
  let! name := copy_helper_name s in
  ret (0, attr_set ATTR_HELPER_NAME (with_ct_helper_name name ct)).

(** The previous block of [helper_info] is not freed. *)
Definition parse_helper_info (attr : Z) : step nf_conntrack := fun ct =>
  let! len := mnl_attr_get_payload_len attr in
  let ct := with_ct_helper_info_len len ct in
  let! ok := malloc_ok in
  if negb ok then ret (-1, with_ct_helper_info None ct) else
  let! bs := get_bytes len attr in
  ret (0, attr_set ATTR_HELPER_INFO (with_ct_helper_info (Some bs) ct)).

Definition nfct_parse_helper (attr : Z) : step nf_conntrack :=
  parse_nest attr (CTA_HELP_MAX + 1) nfct_parse_helper_attr_cb (fun tb =>
    on tb CTA_HELP_NAME (fun name => steps
      [parse_helper_name name; on tb CTA_HELP_INFO parse_helper_info])).

Definition secctx_policy (type : Z) : policy :=
  if type =? CTA_SECCTX_NAME then Validate MNL_TYPE_STRING else NoCheck.

Definition nfct_parse_secctx_attr_cb : mnl_attr_cb_t tb_t := table_cb CTA_SECCTX_MAX secctx_policy.

Definition parse_secctx_name (attr : Z) : step nf_conntrack := fun ct =>
  let! s := string_at (mnl_attr_get_payload attr) in
  let! c := strdup s in
  let ct := with_ct_secctx c ct in
  ret (0, match c with Some _ => attr_set ATTR_SECCTX ct | None => ct end).

Definition nfct_parse_secctx (attr : Z) : step nf_conntrack :=
  parse_nest attr (CTA_SECCTX_MAX + 1) nfct_parse_secctx_attr_cb (fun tb =>
    on tb CTA_SECCTX_NAME parse_secctx_name).

Definition timestamp_policy (type : Z) : policy :=
  if one_of type [CTA_TIMESTAMP_START; CTA_TIMESTAMP_STOP] then Validate MNL_TYPE_U64 else NoCheck.

Definition nfct_parse_timestamp_attr_cb : mnl_attr_cb_t tb_t := table_cb CTA_TIMESTAMP_MAX timestamp_policy.

Definition nfct_parse_timestamp (attr : Z) : step nf_conntrack :=
  parse_nest attr (CTA_TIMESTAMP_MAX + 1) nfct_parse_timestamp_attr_cb (fun tb => steps
   [on tb CTA_TIMESTAMP_START (assign get_be64toh (fun v =>
      setting [ATTR_TIMESTAMP_START] (upd_timestamp (with_ts_start v))));
    on tb CTA_TIMESTAMP_STOP (assign get_be64toh (fun v =>
      setting [ATTR_TIMESTAMP_STOP] (upd_timestamp (with_ts_stop v))))]).

(** ** Labels and synproxy *)

(** The 32-bit words whose memory is [bs]. *)
Fixpoint bytes_words (n : nat) (bs : list Z) : list Z :=
  match n with
  | O => []
  | S n => le_dec (take 4 bs) :: bytes_words n (drop 4 bs)
  end.

(** [memcpy(bm->bits, bs, zlen bs)]. *)
Definition bitmask_memcpy (b : nfct_bitmask) (bs : list Z) : M nfct_bitmask :=
  let mem := words_bytes (bm_bits b) in
  if zlen bs <=? zlen mem
  then ret (mk_bitmask (bm_words b) (bytes_words (length (bm_bits b)) (splice 0 bs mem)))
  else ub.

Definition nfct_parse_labels (attr : Z) : step nf_conntrack := fun ct =>
  let! len := mnl_attr_get_payload_len attr in
  if len =? 0 then ret (0, ct) else
  let! mask := nfct_bitmask_new (len * 8 - 1) in
  match mask with
  | None => ret (-1, ct)
  | Some mask =>
      let! bits := get_bytes len attr in
      let! mask := bitmask_memcpy mask bits in
      let! ct := nfct_set_attr ct (attr_idx ATTR_CONNLABELS) (Some (VMask mask)) in
      ret (0, ct)
  end.

Definition synproxy_policy (type : Z) : policy :=
  if one_of type [CTA_SYNPROXY_ISN; CTA_SYNPROXY_ITS; CTA_SYNPROXY_TSOFF] then Validate MNL_TYPE_U32
  else NoCheck.

Definition nfct_parse_synproxy_attr_cb : mnl_attr_cb_t tb_t := table_cb CTA_SYNPROXY_MAX synproxy_policy.

(** The table has one entry per top-level attribute here. *)
Definition nfct_parse_synproxy (attr : Z) : step nf_conntrack :=
  parse_nest attr (CTA_SYNPROXY + 1) nfct_parse_synproxy_attr_cb (fun tb => steps
   [on tb CTA_SYNPROXY_ISN (assign get_ntohl (fun v =>
      setting [ATTR_SYNPROXY_ISN] (upd_synproxy (with_syn_isn v))));
    on tb CTA_SYNPROXY_ITS (assign get_ntohl (fun v =>
      setting [ATTR_SYNPROXY_ITS] (upd_synproxy (with_syn_its v))));
    on tb CTA_SYNPROXY_TSOFF (assign get_ntohl (fun v =>
      setting [ATTR_SYNPROXY_TSOFF] (upd_synproxy (with_syn_tsoff v))))]).

(** ** The message *)

Definition conntrack_policy (type : Z) : policy :=
  if one_of type [CTA_TUPLE_ORIG; CTA_TUPLE_REPLY; CTA_TUPLE_MASTER; CTA_NAT_SEQ_ADJ_ORIG;
                  CTA_NAT_SEQ_ADJ_REPLY; CTA_PROTOINFO; CTA_COUNTERS_ORIG; CTA_COUNTERS_REPLY;
                  CTA_HELP; CTA_SECCTX; CTA_TIMESTAMP]
  then Validate MNL_TYPE_NESTED
  else if one_of type [CTA_STATUS; CTA_TIMEOUT; CTA_MARK; CTA_SECMARK; CTA_USE; CTA_ID]
  then Validate MNL_TYPE_U32
  else if type =? CTA_ZONE then Validate MNL_TYPE_U16
  else NoCheck.

Definition nfct_parse_conntrack_attr_cb : mnl_attr_cb_t tb_t := table_cb CTA_MAX conntrack_policy.

(** [&ct->head.orig], [&ct->repl] and [&ct->master]. *)
Definition ct_tuple (dir : tuple_dir) (ct : nf_conntrack) : __nfct_tuple :=
  match dir with __DIR_ORIG => ct_orig ct | __DIR_REPL => ct_repl ct | __DIR_MASTER => ct_master ct end.
Definition with_ct_tuple (dir : tuple_dir) (t : __nfct_tuple) (ct : nf_conntrack) : nf_conntrack :=
  match dir with
  | __DIR_ORIG => with_ct_orig t ct
  | __DIR_REPL => with_ct_repl t ct
  | __DIR_MASTER => with_ct_master t ct
  end.

Definition l3proto_attr (dir : tuple_dir) : nf_conntrack_attr :=
  match dir with
  | __DIR_ORIG => ATTR_ORIG_L3PROTO
  | __DIR_REPL => ATTR_REPL_L3PROTO
  | __DIR_MASTER => ATTR_MASTER_L3PROTO
  end.

(** The three blocks for [CTA_TUPLE_ORIG], [CTA_TUPLE_REPLY] and
    [CTA_TUPLE_MASTER]; [l3protonum] is a [uint8_t]. *)
Definition parse_ct_tuple (l3num : Z) (dir : tuple_dir) (attr : Z) : step nf_conntrack := fun ct =>
  let ct := with_ct_tuple dir (with_tp_l3protonum (wrap 8 l3num) (ct_tuple dir ct)) ct in
  let ct := attr_set (l3proto_attr dir) ct in
  let! (r, (t, set)) := nfct_parse_tuple attr dir (ct_tuple dir ct, ct_set ct) in
  ret (r, with_ct_set set (with_ct_tuple dir t ct)).

(** The rest of [nfct_payload_parse] after the table is filled. *)
Definition payload_steps (tb : tb_t) (l3num : Z) : list (step nf_conntrack) :=
  [on tb CTA_TUPLE_ORIG (parse_ct_tuple l3num __DIR_ORIG);
   on tb CTA_TUPLE_REPLY (parse_ct_tuple l3num __DIR_REPL);
   on tb CTA_TUPLE_MASTER (parse_ct_tuple l3num __DIR_MASTER);
   on tb CTA_NAT_SEQ_ADJ_ORIG (fun a => nfct_parse_nat_seq a DIR_ORIG);
   on tb CTA_NAT_SEQ_ADJ_REPLY (fun a => nfct_parse_nat_seq a DIR_REPL);
   on tb CTA_STATUS (assign get_ntohl (fun v => setting [ATTR_STATUS] (with_ct_status v)));
   on tb CTA_PROTOINFO nfct_parse_protoinfo;
   on tb CTA_TIMEOUT (assign get_ntohl (fun v => setting [ATTR_TIMEOUT] (with_ct_timeout v)));
   on tb CTA_MARK (assign get_ntohl (fun v => setting [ATTR_MARK] (with_ct_mark v)));
   on tb CTA_SECMARK (assign get_ntohl (fun v => setting [ATTR_SECMARK] (with_ct_secmark v)));
   on tb CTA_COUNTERS_ORIG (fun a => nfct_parse_counters a DIR_ORIG);
   on tb CTA_COUNTERS_REPLY (fun a => nfct_parse_counters a DIR_REPL);
   on tb CTA_USE (assign get_ntohl (fun v => setting [ATTR_USE] (with_ct_use v)));
   on tb CTA_ID (assign get_ntohl (fun v => setting [ATTR_ID] (with_ct_id v)));
   on tb CTA_HELP nfct_parse_helper;
   on tb CTA_ZONE (assign get_ntohs (fun v => setting [ATTR_ZONE] (with_ct_zone v)));
   on tb CTA_SECCTX nfct_parse_secctx;
   on tb CTA_TIMESTAMP nfct_parse_timestamp;
   on tb CTA_LABELS nfct_parse_labels;
   on tb CTA_SYNPROXY nfct_parse_synproxy].

Definition nfct_payload_parse (payload payload_len l3num : Z) : step nf_conntrack := fun ct =>
  let! (r, tb) := mnl_attr_parse_payload payload payload_len nfct_parse_conntrack_attr_cb
                    (tb_new (CTA_MAX + 1)) in
  if r <? 0 then ret (-1, ct) else steps (payload_steps tb l3num) ct.

Definition nfct_nlmsg_parse (nlh : Z) : step nf_conntrack := fun ct =>
  let nfhdr := mnl_nlmsg_get_payload nlh in
  let! len := mnl_nlmsg_get_payload_len nlh in
  let! family := load8 nfhdr in
  nfct_payload_parse (nfhdr + sizeof_nfgenmsg) (wrap 64 (len - sizeof_nfgenmsg)) family ct.
