(* ===== verification/CtParseSafe.v ===== *)
(** The parser of [CtParse] on arbitrary messages: it stays inside the message
    and inside its tables, it terminates, and the object stays well formed. *)
From S2P Require Import Prelude CMonad MnlMsg MnlAttr Tlv TlvParse Bitops CtObject CtSetter CtCopy CtApi CtAttrs.
From S2P Require Import CtCompare Ctnl CtBuild CtParse.
Open Scope c_scope.

(** ** Tables *)

Definition attr_type (m : list Z) (attr : Z) : Z := Z.land (rd 2 (attr + 2) m) NLA_TYPE_MASK.

Lemma attr_type_nonneg m attr : Forall byte_ok m -> valid_attr m attr -> 0 <= attr_type m attr.
Proof.
  intros Hm (? & ? & ?). apply Z.land_nonneg. left. apply (rd_range 2 (attr + 2) m); [done|lia|lia].
Qed.

(** The payloads a policy accepts. *)
Definition policy_ok (p : policy) (d : list Z) : bool :=
  match p with
  | NoCheck => true
  | Validate t => validate_ok t (mnl_attr_data_type_len t) d
  | Validate2 t n => validate_ok t n d
  end.

Definition policy_wf (p : policy) : bool :=
  match p with
  | NoCheck => true
  | Validate t => negb (type_is_max t)
  | Validate2 t n => negb (type_is_max t) && (0 <=? n)
  end.

Lemma type_len_nonneg t : 0 <= mnl_attr_data_type_len t.
Proof. by destruct t. Qed.

Lemma wp_check_policy E attr p (Q : unit -> world -> Prop) w :
  valid_attr (w_mem w) attr -> policy_wf p = true ->
  (policy_ok p (payload attr (w_mem w)) = true -> Q tt w) ->
  (policy_ok p (payload attr (w_mem w)) = false -> E) ->
  wp E (check_policy attr p) Q w.
Proof.
  intros Hv Hp HQ HE. destruct p as [|t|t n]; cbn in *.
  - by apply HQ.
  - unfold mnl_attr_validate. apply negb_true_iff in Hp. rewrite Hp. unfold wp, bind.
    rewrite validate_run by auto using type_len_nonneg. destruct (validate_ok _ _ _); cbn; auto.
  - apply andb_true_iff in Hp as [Hp%negb_true_iff ?%Z.leb_le]. unfold mnl_attr_validate2. rewrite Hp.
    unfold wp, bind. rewrite validate_run by done. destruct (validate_ok _ _ _); cbn; auto.
Qed.

(** What the entries of a table with [n] entries satisfy, [J] being known of
    every attribute that the iteration reaches. *)
Definition tb_inv (n : Z) (pol : Z -> policy) (J : list Z -> Z -> Prop) (m : list Z) (tb : tb_t) : Prop :=
  zlen tb = n /\
  forall i attr, tb !! i = Some (Some attr) ->
    valid_attr m attr /\ attr_type m attr = Z.of_nat i /\ J m attr /\
    policy_ok (pol (Z.of_nat i)) (payload attr m) = true.

Lemma tb_inv_new n pol J m : 0 <= n -> tb_inv n pol J m (tb_new n).
Proof.
  intros. split; [unfold tb_new; zl|]. intros i attr Hi.
  by apply lookup_replicate in Hi as [? _].
Qed.

Lemma tb_inv_set n pol J m tb attr :
  tb_inv n pol J m tb -> valid_attr m attr -> 0 <= attr_type m attr -> J m attr ->
  policy_ok (pol (attr_type m attr)) (payload attr m) = true ->
  tb_inv n pol J m (<[Z.to_nat (attr_type m attr) := Some attr]> tb).
Proof.
  intros [Hl Hi] Hv Ht HJ Hp. split; [unfold zlen in *; by rewrite length_insert|].
  intros i a Ha. apply list_lookup_insert_Some in Ha as [(<- & [= ->] & _)|[_ Ha]]; [|by apply Hi].
  by rewrite Z2Nat.id.
Qed.

(** An attribute the callback may be given: its type is skipped or it has an
    entry in the table. *)
Definition in_table (max n : Z) (m : list Z) (attr : Z) : Prop :=
  max < attr_type m attr \/ attr_type m attr < n.

Lemma table_cb_ok n max pol J :
  (forall t, policy_wf (pol t) = true) ->
  AttrCb True (fun m a => in_table max n m a /\ J m a) (table_cb max pol) (tb_inv n pol J).
Proof.
  intros Hpol attr tb w Hm Hv [Ht HJ] Hi. unfold table_cb.
  apply wp_bind, wp_get_type; [done|]. apply wp_bind, wp_type_valid; [done|].
  pose proof (attr_type_nonneg _ _ Hm Hv) as Hn. unfold in_table in *. fold (attr_type (w_mem w) attr).
  destruct (Z.ltb_spec max (attr_type (w_mem w) attr)); [by apply wp_ret|].
  apply wp_bind. eapply (wp_check_policy True); [done|done| |done]. intros Hp.
  apply wp_bind. unfold tb_set. pose proof Hi as [Hl _].
  rewrite (proj2 (andb_true_iff _ _)) by (split; [apply Z.leb_le|apply Z.ltb_lt]; lia).
  apply wp_ret, wp_ret. split; [done|]. by apply tb_inv_set.
Qed.

(** ** Steps *)

(** Nothing more is known of the attributes of a nest. *)
Definition no_more (m : list Z) (attr : Z) : Prop := True.

Section Safe.
Context (m : list Z) (Hm : Forall byte_ok m) (Hz : zlen m < 2 ^ 31 - 4).
Context {S : Type} (P : S -> Prop).

(** A step on a message whose bytes are [m] keeps the invariant [P]. *)
Definition step_safe (p : step S) : Prop := forall s w,
  w_mem w = m -> P s -> wp True (p s) (fun '(_, s') w' => w_mem w' = m /\ P s') w.

Lemma steps_safe l : Forall step_safe l -> step_safe (steps l).
Proof.
  induction 1 as [|p l Hp _ IH]; intros s w Hw HP; cbn [steps]; [by apply wp_ret|].
  apply wp_bind. eapply wp_mono; [by apply Hp|]. intros [r s'] w' [Hw' HP'].
  destruct (r <? 0); [by apply wp_ret|]. by apply IH.
Qed.

Lemma unchecked_safe p : step_safe p -> step_safe (unchecked p).
Proof.
  intros Hp s w Hw HP. unfold unchecked. apply wp_bind. eapply wp_mono; [by apply Hp|].
  intros [r s'] w' ?. by apply wp_ret.
Qed.

Lemma on_safe n pol J tb ty f :
  tb_inv n pol J m tb -> 0 <= ty < n ->
  (forall attr, valid_attr m attr -> attr_type m attr = ty -> J m attr ->
     policy_ok (pol ty) (payload attr m) = true -> step_safe (f attr)) ->
  step_safe (on tb ty f).
Proof.
  intros [Hl Hi] Hty Hf s w Hw HP. unfold on.
  destruct (tb !! Z.to_nat ty) as [[attr|]|] eqn:Ht.
  - apply Hi in Ht. rewrite Z2Nat.id in Ht by lia. destruct Ht as (? & ? & ? & ?). by apply Hf.
  - by apply wp_ret.
  - apply lookup_ge_None in Ht. unfold zlen in *. lia.
Qed.

Lemma assign_safe {V} (R : V -> Prop) get upd attr :
  (forall w, w_mem w = m -> wp True (get attr) (fun v w' => w' = w /\ R v) w) ->
  (forall v s, R v -> P s -> P (upd v s)) -> step_safe (assign get upd attr).
Proof.
  intros Hg Hu s w Hw HP. unfold assign. apply wp_bind. eapply wp_mono; [by apply Hg|].
  intros v w' [-> HR]. apply wp_ret. auto.
Qed.

Lemma parse_nest_safe attr n max pol k :
  0 <= n -> (forall t, policy_wf (pol t) = true) -> valid_attr m attr ->
  (forall a, in_attrs m (attr + rd 2 attr m) (attr + 4) a -> in_table max n m a) ->
  (forall tb, tb_inv n pol no_more m tb -> step_safe (k tb)) ->
  step_safe (parse_nest attr n (table_cb max pol) k).
Proof.
  intros Hn Hpol Hv HV Hk s w Hw HP. unfold parse_nest. apply wp_bind.
  pose proof (table_cb_ok n max pol no_more Hpol) as Hcb.
  eapply wp_mono;
    [apply (parse_nested_safe True _ _ (tb_inv n pol no_more)); unfold mem_ok; rewrite ?Hw; try done|].
  - intros a Ha. split; [by apply HV|done].
  - by apply tb_inv_new.
  - rewrite Hw. intros [r tb] w' [Hw' Htb]. destruct (r <? 0); [by apply wp_ret|]. by apply (Hk tb).
Qed.

(** The usual case: the table has an entry for every accepted type. *)
Lemma parse_nest_safe_all attr n max pol k :
  max < n -> 0 <= n -> (forall t, policy_wf (pol t) = true) -> valid_attr m attr ->
  (forall tb, tb_inv n pol no_more m tb -> step_safe (k tb)) ->
  step_safe (parse_nest attr n (table_cb max pol) k).
Proof.
  intros. apply parse_nest_safe; try done. intros a _. unfold in_table. lia.
Qed.
End Safe.

(** ** Getters *)

Section Getters.
Context (m : list Z) (Hm : Forall byte_ok m) (attr : Z) (Hv : valid_attr m attr).

Lemma payload_bytes : Forall byte_ok (payload attr m).
Proof. by apply slice_bytes. Qed.

Lemma get_int_safe n : zlen (payload attr m) = Z.of_nat n ->
  forall w, w_mem w = m ->
    wp True (load n (mnl_attr_get_payload attr)) (fun v w' => w' = w /\ uint (8 * Z.of_nat n) v) w.
Proof.
  intros Hl w Hw. apply wp_get_int; rewrite ?Hw; try done. split; [done|].
  apply le_dec_uint; [done|apply payload_bytes].
Qed.

Lemma get_bswap_safe n : zlen (payload attr m) = Z.of_nat n ->
  forall w, w_mem w = m ->
    wp True (let! v := load n (mnl_attr_get_payload attr) in ret (bswap n v))
      (fun v w' => w' = w /\ uint (8 * Z.of_nat n) v) w.
Proof.
  intros Hl w Hw. apply wp_bind. eapply wp_mono; [by apply get_int_safe|]. intros v w' [-> _].
  apply wp_ret. split; [done|]. apply bswap_range.
Qed.

Lemma get_bytes_safe n : zlen (payload attr m) = n ->
  forall w, w_mem w = m -> wp True (get_bytes n attr) (fun v w' => w' = w /\ blob n v) w.
Proof.
  intros Hl w Hw. apply wp_get_bytes; rewrite ?Hw; try done. split; [done|].
  split; [done|apply payload_bytes].
Qed.
End Getters.

(** An exact length is what the fixed-width policies ask for. *)
Lemma validate_exact t n d : 0 < n -> t <> MNL_TYPE_FLAG -> validate_ok t n d = true -> zlen d = n.
Proof.
  intros Hn Hf H. unfold validate_ok in H. apply andb_true_iff in H as [[Hle%Z.leb_le _]%andb_true_iff H].
  rewrite (proj2 (Z.eqb_neq n 0)) in H by lia. apply Z.leb_le in H. lia.
Qed.

(** The length of the payloads a policy accepts, when it is fixed. *)
Definition policy_width (p : policy) : option Z :=
  match p with
  | Validate MNL_TYPE_U8 => Some 1
  | Validate MNL_TYPE_U16 => Some 2
  | Validate MNL_TYPE_U32 => Some 4
  | Validate MNL_TYPE_U64 => Some 8
  | Validate2 MNL_TYPE_UNSPEC n => if 0 <? n then Some n else None
  | _ => None
  end.

Lemma policy_width_ok p n d : policy_width p = Some n -> policy_ok p d = true -> zlen d = n.
Proof.
  destruct p as [|[]|[] k]; cbn; try done.
  1-4: intros [= <-]; by apply validate_exact.
  destruct (Z.ltb_spec 0 k); [|done]. intros [= ->]. by apply validate_exact.
Qed.

(** ** The parsers of tuples *)

Definition tuple_st_ok (s : tuple_st) : Prop := tuple_ok s.1 /\ set_ok s.2.

Lemma set_dir_ok dir o r ma s : set_ok s -> set_ok (set_dir dir o r ma s).
Proof. intros. destruct dir, ma; cbn; auto using set_ok_set_bit. Qed.

(** Read the entries of a table: every accepted payload has the width its
    getter reads, and the assignment keeps the state well formed. *)
Ltac entry_width attr m Hp :=
  match goal with |- context [@assign _ _ ?get] =>
    match get with
    | mnl_attr_get_u8 => assert (zlen (payload attr m) = Z.of_nat 1) by (by eapply policy_width_ok; [|exact Hp])
    | mnl_attr_get_u16 => assert (zlen (payload attr m) = Z.of_nat 2) by (by eapply policy_width_ok; [|exact Hp])
    | mnl_attr_get_u32 => assert (zlen (payload attr m) = Z.of_nat 4) by (by eapply policy_width_ok; [|exact Hp])
    | get_ntohs => assert (zlen (payload attr m) = Z.of_nat 2) by (by eapply policy_width_ok; [|exact Hp])
    | get_ntohl => assert (zlen (payload attr m) = Z.of_nat 4) by (by eapply policy_width_ok; [|exact Hp])
    | get_be64toh => assert (zlen (payload attr m) = Z.of_nat 8) by (by eapply policy_width_ok; [|exact Hp])
    | get_bytes ?n => assert (zlen (payload attr m) = n) by (by eapply policy_width_ok; [|exact Hp])
    end
  end.

Ltac entry_get :=
  match goal with
  | Hm : Forall byte_ok ?m, Hv : valid_attr ?m ?attr, Hw : zlen (payload ?attr ?m) = _ |- _ =>
      first [ exact (get_int_safe m Hm attr Hv _ Hw)
            | exact (get_bswap_safe m Hm attr Hv _ Hw)
            | exact (get_bytes_safe m Hm attr Hv _ Hw) ]
  end.

Ltac entries Htb :=
  repeat first [apply Forall_nil_2 | apply Forall_cons_2];
  (eapply on_safe; [exact Htb | by split |]);
  let attr := fresh "attr" in let Hv := fresh "Hv" in let Hp := fresh "Hp" in
  intros attr Hv _ _ Hp.

Ltac assign_entry :=
  match goal with
  | Hp : policy_ok _ (payload ?attr ?m) = true |- step_safe ?m _ (assign _ _ ?attr) =>
      entry_width attr m Hp; eapply assign_safe; [entry_get |]; clear Hp
  end.

Lemma setting_ok l f ct : ct_ok (f ct) -> ct_ok (setting l f ct).
Proof.
  unfold setting. generalize (f ct). clear ct f. induction l as [|a l IH]; intros ct H; [done|].
  cbn [foldl]. apply IH. by apply ct_ok_attr_set.
Qed.

(** The policies of the callbacks are well formed. *)
Ltac wf_policy :=
  intros ?; lazymatch goal with |- policy_wf (?p _) = true => unfold p end; by repeat case_match.

Ltac ct_entry :=
  assign_entry; intros v ct Hv' Hok; apply setting_ok;
  first [ ct_ok_solve; ok_struct
        | ct_ok_solve; apply blob_splice; [assumption|apply Hv'|done|destruct Hv'; cbn in *; lia] ].

(** *** Strings in the message *)

Lemma strncpy_nul n s : 0 ∈ s -> Forall byte_ok s ->
  exists bs, strncpy n s = Some bs /\ length bs = n /\ Forall byte_ok bs.
Proof.
  revert s. induction n as [|n IH]; intros s Hin Hs; [by exists []|].
  destruct s as [|c s]; [by apply elem_of_nil in Hin|]. cbn [strncpy].
  apply Forall_cons in Hs as [Hc Hs]. destruct (Z.eqb_spec c 0) as [->|Hne].
  - exists (replicate (S n) 0). split; [done|]. split; [apply length_replicate|by apply Forall_replicate].
  - apply elem_of_cons in Hin as [?|Hin]; [congruence|]. destruct (IH s Hin Hs) as (bs & -> & <- & Hb).
    exists (c :: bs). split; [done|]. split; [done|by constructor].
Qed.

Lemma copy_helper_name_nul s w : 0 ∈ s -> Forall byte_ok s ->
  exists name, copy_helper_name s w = Ok (name, w) /\ blob NFCT_HELPER_NAME_MAX name.
Proof.
  intros Hin Hs. unfold copy_helper_name.
  destruct (strncpy_nul (Z.to_nat NFCT_HELPER_NAME_MAX) s Hin Hs) as (bs & -> & Hl & Hb).
  eexists. split; [done|]. split; [unfold zlen; rewrite length_insert, Hl; done|].
  by apply Forall_insert.
Qed.

Lemma cstring_nul s : 0 ∈ s -> Forall byte_ok s -> exists c, cstring s = Some c /\ Forall byte_ok c.
Proof.
  intros Hin Hs. induction Hs as [|c s Hc Hs IH]; [by apply elem_of_nil in Hin|]. cbn [cstring].
  destruct (Z.eqb_spec c 0) as [->|Hne].
  - exists [0]. split; [done|by constructor].
  - apply elem_of_cons in Hin as [?|Hin]; [congruence|]. destruct (IH Hin) as (d & -> & Hd).
    exists (c :: d). split; [done|by constructor].
Qed.

(** *** Words *)

Lemma words_bytes_ok l : Forall byte_ok (words_bytes l).
Proof.
  unfold words_bytes. induction l as [|x l IH]; [constructor|]. cbn [map concat].
  apply Forall_app. auto using le_enc_bytes.
Qed.

Lemma bytes_words_ok n bs : Forall byte_ok bs ->
  length (bytes_words n bs) = n /\ Forall word_ok (bytes_words n bs).
Proof.
  revert bs. induction n as [|n IH]; intros bs Hb; [by split|]. cbn [bytes_words].
  destruct (IH (drop 4 bs) (Forall_drop _ _ _ Hb)) as [Hl Hf]. split; [cbn; lia|]. constructor; [|done].
  pose proof (le_dec_range _ (Forall_take _ 4 _ Hb)) as Hr. unfold word_ok. split; [lia|].
  eapply Z.lt_le_trans; [apply Hr|]. apply Z.pow_le_mono_r; [lia|]. rewrite length_take. lia.
Qed.

Section Parsers.
Context (m : list Z) (Hm : Forall byte_ok m) (Hz : zlen m < 2 ^ 31 - 4).

Lemma parse_ip_safe attr dir : valid_attr m attr -> step_safe m tuple_st_ok (nfct_parse_ip attr dir).
Proof.
  intros Hv0. apply parse_nest_safe_all; try done; [wf_policy|].
  intros tb Htb. apply steps_safe. entries Htb; assign_entry.
  all: intros v [t s] Hv' [Ht Hs]; split; [cbn [upd_tuple fst] in *|by apply set_dir_ok].
  all: unfold tuple_ok in *; cbn in *; destruct_and?; split_and!; ok_field.
Qed.

Lemma parse_proto_safe attr dir : valid_attr m attr -> step_safe m tuple_st_ok (nfct_parse_proto attr dir).
Proof.
  intros Hv0. apply parse_nest_safe_all; try done; [wf_policy|].
  intros tb Htb. apply steps_safe. entries Htb; assign_entry.
  all: intros v [t s] Hv' [Ht Hs]; split; [cbn [upd_tuple fst] in *|first [by apply set_dir_ok|by apply set_ok_set_bit]].
  all: unfold tuple_ok in *; cbn in *; destruct_and?; split_and!; ok_field.
Qed.

Lemma parse_tuple_safe attr dir : valid_attr m attr -> step_safe m tuple_st_ok (nfct_parse_tuple attr dir).
Proof.
  intros Hv0. apply parse_nest_safe_all; try done; [wf_policy|].
  intros tb Htb. apply steps_safe. entries Htb.
  - by apply parse_ip_safe.
  - by apply parse_proto_safe.
  - assign_entry. intros v [t s] Hv' [Ht Hs]; split; [cbn [upd_tuple fst] in *|by apply set_dir_ok].
    unfold tuple_ok in *; cbn in *; destruct_and?; split_and!; ok_field.
Qed.

(** ** Protocol information *)

Lemma parse_protoinfo_tcp_safe attr :
  valid_attr m attr -> step_safe m ct_ok (nfct_parse_protoinfo_tcp attr).
Proof.
  intros Hv0. apply parse_nest_safe_all; try done; [wf_policy|].
  intros tb Htb. apply steps_safe. entries Htb; ct_entry.
Qed.

Lemma parse_protoinfo_sctp_safe attr :
  valid_attr m attr -> step_safe m ct_ok (nfct_parse_protoinfo_sctp attr).
Proof.
  intros Hv0. apply parse_nest_safe_all; try done; [wf_policy|].
  intros tb Htb. apply steps_safe. entries Htb; ct_entry.
Qed.

Lemma parse_protoinfo_dccp_safe attr :
  valid_attr m attr -> step_safe m ct_ok (nfct_parse_protoinfo_dccp attr).
Proof.
  intros Hv0. apply parse_nest_safe_all; try done; [wf_policy|].
  intros tb Htb. apply steps_safe. entries Htb; ct_entry.
Qed.

(** No attribute of the nest has one of the two types the callback accepts and
    the table has no entry for. *)
Definition protoinfo_in_table (attr : Z) : Prop :=
  forall a, in_attrs m (attr + rd 2 attr m) (attr + 4) a ->
    in_table CTA_PROTOINFO_TCP_MAX (CTA_PROTOINFO_MAX + 1) m a.

Lemma parse_protoinfo_safe attr :
  valid_attr m attr -> protoinfo_in_table attr -> step_safe m ct_ok (nfct_parse_protoinfo attr).
Proof.
  intros Hv0 Hin. apply parse_nest_safe; try done; [wf_policy|].
  intros tb Htb. apply steps_safe. entries Htb; apply unchecked_safe.
  - by apply parse_protoinfo_tcp_safe.
  - by apply parse_protoinfo_sctp_safe.
  - by apply parse_protoinfo_dccp_safe.
Qed.

(** ** Counters, sequence adjustment, timestamps, synproxy *)

Lemma parse_counters_safe attr dir : valid_attr m attr -> step_safe m ct_ok (nfct_parse_counters attr dir).
Proof.
  intros Hv0. apply parse_nest_safe_all; try done; [wf_policy|].
  intros tb Htb. apply steps_safe. cbn [app parse_counter].
  entries Htb; destruct dir; assign_entry; intros v ct Hv' Hok; apply setting_ok; ct_ok_solve.
  all: unfold dirs_ok, counters_ok in *; cbn in *; destruct_and?; split_and!; try assumption.
  all: unfold uint in *; cbn in *; lia.
Qed.

Lemma parse_nat_seq_safe attr dir : valid_attr m attr -> step_safe m ct_ok (nfct_parse_nat_seq attr dir).
Proof.
  intros Hv0. apply parse_nest_safe_all; try done; [wf_policy|].
  intros tb Htb. apply steps_safe. entries Htb; destruct dir; ct_entry.
Qed.

Lemma parse_timestamp_safe attr : valid_attr m attr -> step_safe m ct_ok (nfct_parse_timestamp attr).
Proof.
  intros Hv0. apply parse_nest_safe_all; try done; [wf_policy|].
  intros tb Htb. apply steps_safe. entries Htb; ct_entry.
Qed.

Lemma parse_synproxy_safe attr : valid_attr m attr -> step_safe m ct_ok (nfct_parse_synproxy attr).
Proof.
  intros Hv0. apply parse_nest_safe_all; try done; [wf_policy|].
  intros tb Htb. apply steps_safe. entries Htb; ct_entry.
Qed.

(** ** Helper, security context and labels

    A string is read up to its terminator: the byte that ends the buffer is one. *)

Context (Hnul : last m = Some 0).

Lemma string_at_run o w : w_mem w = m -> 0 <= o < zlen m ->
  string_at o w = Ok (drop (Z.to_nat o) m, w) /\ 0 ∈ drop (Z.to_nat o) m.
Proof.
  intros Hw Ho. unfold string_at. rewrite Hw, (proj2 (in_range_true o 0 m)) by lia. split; [done|].
  apply last_Some in Hnul as [l ->]. unfold zlen in Ho. rewrite length_app in Ho. cbn in Ho.
  rewrite drop_app_le by lia. apply elem_of_app. right. by apply list_elem_of_singleton.
Qed.

(** A string attribute has a byte of payload. *)
Lemma string_start attr : valid_attr m attr -> policy_ok (Validate MNL_TYPE_STRING) (payload attr m) = true ->
  0 <= attr + 4 < zlen m.
Proof.
  intros Hv Hp. pose proof (zlen_payload _ _ Hv). destruct Hv as (? & ? & ?).
  cbn in Hp. unfold validate_ok in Hp. destruct (Z.eqb_spec (zlen (payload attr m)) 0) as [E|E].
  - by rewrite andb_false_r in Hp.
  - lia.
Qed.

Lemma parse_helper_name_safe attr :
  valid_attr m attr -> policy_ok (Validate MNL_TYPE_STRING) (payload attr m) = true ->
  step_safe m ct_ok (parse_helper_name attr).
Proof.
  intros Hv Hp ct w Hw Hok. unfold parse_helper_name, wp, bind.
  destruct (string_at_run (attr + 4) w Hw (string_start attr Hv Hp)) as [Hs Hin].
  change (mnl_attr_get_str attr) with (attr + 4). rewrite Hs.
  destruct (copy_helper_name_nul _ w Hin (Forall_drop _ _ _ Hm)) as (name & -> & Hname). cbn.
  split; [done|]. apply ct_ok_attr_set. by ct_ok_solve.
Qed.

Lemma parse_helper_info_safe attr : valid_attr m attr -> step_safe m ct_ok (parse_helper_info attr).
Proof.
  intros Hv ct w Hw Hok. unfold parse_helper_info. apply wp_bind, wp_payload_len; rewrite Hw; [done|].
  pose proof (zlen_payload _ _ Hv) as Hl. pose proof Hv as (? & ? & ?).
  assert (uint 64 (zlen (payload attr m))) by (unfold uint; lia).
  apply wp_bind, wp_malloc. intros ok l. destruct ok; cbn [negb].
  - apply wp_bind. eapply wp_mono; [by apply (get_bytes_safe m Hm)|]. intros bs w' [-> Hb]. apply wp_ret.
    split; [done|]. apply ct_ok_attr_set. ct_ok_solve. apply Hb.
  - apply wp_ret. split; [done|]. by ct_ok_solve.
Qed.

Lemma parse_helper_safe attr : valid_attr m attr -> step_safe m ct_ok (nfct_parse_helper attr).
Proof.
  intros Hv0. apply parse_nest_safe_all; try done; [wf_policy|].
  intros tb Htb. eapply on_safe; [exact Htb|by split|]. intros attr' Hv' _ _ Hp.
  apply steps_safe. constructor; [by apply parse_helper_name_safe|].
  entries Htb. by apply parse_helper_info_safe.
Qed.

Lemma parse_secctx_safe attr : valid_attr m attr -> step_safe m ct_ok (nfct_parse_secctx attr).
Proof.
  intros Hv0. apply parse_nest_safe_all; try done; [wf_policy|].
  intros tb Htb. eapply on_safe; [exact Htb|by split|]. intros attr' Hv' _ _ Hp ct w Hw Hok.
  unfold parse_secctx_name. destruct (string_at_run (attr' + 4) w Hw (string_start attr' Hv' Hp)) as [Hs Hin].
  change (mnl_attr_get_payload attr') with (attr' + 4). apply wp_bind. unfold wp at 1. rewrite Hs.
  apply wp_bind. unfold strdup. destruct (cstring_nul _ Hin (Forall_drop _ _ _ Hm)) as (c & -> & Hc).
  apply wp_bind, wp_malloc. intros [] l; apply wp_ret, wp_ret; (split; [done|]).
  - apply ct_ok_attr_set. by ct_ok_solve.
  - by ct_ok_solve.
Qed.

Lemma bitmask_memcpy_safe b bs w : bitmask_ok b -> Forall byte_ok bs -> zlen bs <= 4 * bm_words b ->
  exists b', bitmask_memcpy b bs w = Ok (b', w) /\ bitmask_ok b'.
Proof.
  intros (Hw & Hl & Hb) Hbs Hle. unfold bitmask_memcpy. rewrite zlen_words_bytes, Hl.
  rewrite (proj2 (Z.leb_le _ _)) by lia. eexists. split; [done|].
  destruct (bytes_words_ok (length (bm_bits b)) (splice 0 bs (words_bytes (bm_bits b)))) as [Hn Hf];
    [by apply splice_bytes, words_bytes_ok|].
  split; [done|]. split; [unfold zlen in *; cbn [bm_bits bm_words]; lia|done].
Qed.

Lemma parse_labels_safe attr : valid_attr m attr -> step_safe m ct_ok (nfct_parse_labels attr).
Proof.
  intros Hv ct w Hw Hok. unfold nfct_parse_labels. apply wp_bind, wp_payload_len; rewrite Hw; [done|].
  pose proof (zlen_payload _ _ Hv) as Hl. pose proof Hv as (? & ? & ?).
  destruct (Z.eqb_spec (zlen (payload attr m)) 0); [by apply wp_ret|].
  set (len := zlen (payload attr m)) in *. apply wp_bind. unfold nfct_bitmask_new.
  destruct (Z.ltb_spec 0xffff (len * 8 - 1)); [by apply wp_ret, wp_ret|].
  apply wp_bind, wp_malloc. intros [] l; apply wp_ret; [|by apply wp_ret].
  apply wp_bind. eapply wp_mono; [by apply (get_bytes_safe m Hm attr Hv len)|]. intros bs w' [-> Hb].
  set (words := DIV_ROUND_UP (len * 8 - 1 + 1) 32).
  assert (len <= 4 * words /\ 1 <= words <= 2048) as [Hlen Hwords].
  { unfold words, DIV_ROUND_UP. pose proof (Z.div_mod (len * 8 - 1 + 1 + 32 - 1) 32 ltac:(lia)).
    pose proof (Z.mod_pos_bound (len * 8 - 1 + 1 + 32 - 1) 32 ltac:(lia)). lia. }
  apply wp_bind. unfold wp at 1.
  edestruct (bitmask_memcpy_safe (mk_bitmask words (replicate (Z.to_nat words) 0)) bs) as (b & -> & Hbo).
  - split; [done|]. split; [cbn; zl|apply zeros_ok].
  - apply Hb.
  - cbn. destruct Hb. lia.
  - apply wp_bind. unfold nfct_set_attr, nfct_set_attr_l. cbn. apply wp_ret. split; [done|].
    apply ct_ok_attr_set. by ct_ok_solve.
Qed.
End Parsers.

(** ** The message *)

Section Message.
Context (m : list Z) (Hm : Forall byte_ok m) (Hz : zlen m < 2 ^ 31 - 4) (Hnul : last m = Some 0).

Lemma tuple_ok_l3 l3num t : tuple_ok t -> tuple_ok (with_tp_l3protonum (wrap 8 l3num) t).
Proof.
  pose proof (wrap_range 8 l3num ltac:(lia)). unfold tuple_ok. cbn. intros. destruct_and?. by split_and!.
Qed.

Lemma with_ct_tuple_ok dir t ct : ct_ok ct -> tuple_ok t -> ct_ok (with_ct_tuple dir t ct).
Proof. intros H Ht. destruct dir; ct_ok_with H. Qed.

Lemma ct_tuple_ok dir ct : ct_ok ct -> tuple_ok (ct_tuple dir ct).
Proof. intros H. destruct dir; apply H. Qed.

Lemma parse_ct_tuple_safe l3num dir attr :
  valid_attr m attr -> step_safe m ct_ok (parse_ct_tuple l3num dir attr).
Proof.
  intros Hv ct w Hw Hok. unfold parse_ct_tuple. apply wp_bind.
  set (ct1 := attr_set _ _).
  assert (ct_ok ct1) as H1.
  { apply ct_ok_attr_set, with_ct_tuple_ok; [done|]. by apply tuple_ok_l3, ct_tuple_ok. }
  eapply wp_mono; [apply (parse_tuple_safe m Hm Hz attr dir Hv); [done|]|].
  { split; [by apply ct_tuple_ok|apply H1]. }
  intros [r [t set]] w' [Hw' [Ht Hs]]. apply wp_ret. split; [done|].
  pose proof (with_ct_tuple_ok dir t ct1 H1 Ht) as H2. by ct_ok_with H2.
Qed.

(** The attributes of every protocol information nest of the message fit its
    table. *)
Definition protoinfo_fits (m : list Z) (attr : Z) : Prop :=
  attr_type m attr = CTA_PROTOINFO -> protoinfo_in_table m attr.

Lemma payload_steps_safe tb l3num :
  tb_inv (CTA_MAX + 1) conntrack_policy protoinfo_fits m tb ->
  step_safe m ct_ok (steps (payload_steps tb l3num)).
Proof.
  intros Htb. apply steps_safe. unfold payload_steps.
  repeat first [apply Forall_nil_2 | apply Forall_cons_2]; (eapply on_safe; [exact Htb|by split|]);
    intros attr Hv Hty HJ Hp.
  1-3: by apply parse_ct_tuple_safe.
  1-2: by apply parse_nat_seq_safe.
  1: ct_entry.
  1: by apply parse_protoinfo_safe; [..|apply HJ].
  1-3: ct_entry.
  1-2: by apply parse_counters_safe.
  1-2: ct_entry.
  1: by apply parse_helper_safe.
  1: ct_entry.
  1: by apply parse_secctx_safe.
  1: by apply parse_timestamp_safe.
  1: by apply parse_labels_safe.
  by apply parse_synproxy_safe.
Qed.

Lemma payload_parse_safe p n l3num :
  0 <= p -> 0 <= n -> p + n <= zlen m -> (forall a, in_attrs m (p + n) p a -> protoinfo_fits m a) ->
  step_safe m ct_ok (nfct_payload_parse p n l3num).
Proof.
  intros Hp Hn Hpn HJ ct w Hw Hok. unfold nfct_payload_parse. apply wp_bind.
  pose proof (table_cb_ok (CTA_MAX + 1) CTA_MAX conntrack_policy protoinfo_fits
                ltac:(intros t; unfold conntrack_policy; by repeat case_match)) as Hcb.
  eapply wp_mono; [apply (parse_payload_safe True _ _ (tb_inv (CTA_MAX + 1) conntrack_policy protoinfo_fits));
    unfold mem_ok; rewrite ?Hw; try done|].
  - intros a Ha. split; [unfold in_table; lia|by apply HJ].
  - by apply tb_inv_new.
  - rewrite Hw. intros [r tb] w' [Hw' Htb]. destruct (r <? 0); [by apply wp_ret|].
    by apply (payload_steps_safe tb l3num).
Qed.
End Message.

(** The nest at [attr] starts with an attribute of type 4 or 5. *)
Definition overruns (m : list Z) (attr : Z) : Prop :=
  4 <= rd 2 (attr + 4) m <= rd 2 attr m - 4 /\
  CTA_PROTOINFO_MAX < attr_type m (attr + 4) <= CTA_PROTOINFO_TCP_MAX.

(** The table of [nfct_parse_protoinfo] is overrun: an attribute of type 4
    or 5 at the start of a protocol information nest, which the callback
    accepts because it compares with [CTA_PROTOINFO_TCP_MAX], makes the parser
    write after the [CTA_PROTOINFO_MAX + 1] entries of the table. *)
Lemma protoinfo_overrun attr ct w :
  let m := w_mem w in
  Forall byte_ok m -> zlen m < 2 ^ 31 - 4 -> valid_attr m attr -> overruns m attr ->
  nfct_parse_protoinfo attr ct w = Ub.
Proof.
  intros m Hm Hz Hv [Ha Ht]. unfold nfct_parse_protoinfo, parse_nest, mnl_attr_parse_nested, bind at 1 2.
  assert (valid_attr m (attr + 4)) as Hv4 by (destruct Hv; unfold valid_attr; lia).
  assert (nested_bound attr (mnl_attr_get_payload attr) w = Ok (rd 2 attr m - 4, w)) as Hb.
  { unfold nested_bound, bind. rewrite payload_len_run by done. unfold ret.
    rewrite zlen_payload by done. fold m. destruct Hv as (? & ? & ?). rewrite sint_small by lia.
    do 2 f_equal. lia. }
  rewrite Hb. unfold loop_fuel. cbn [attr_for_each]. unfold bind at 1. rewrite Hb.
  change (mnl_attr_get_payload attr) with (attr + 4). destruct Hv4 as (? & ? & ?).
  unfold bind at 1, mnl_attr_ok, sizeof_nlattr. rewrite (proj2 (Z.leb_le 4 _)) by lia.
  unfold bind at 1, nla_len, load16. rewrite load_ok by (fold m; lia). fold m. unfold ret at 1.
  rewrite (proj2 (andb_true_iff _ _)) by (split; apply Z.leb_le; lia).
  assert (nfct_parse_protoinfo_attr_cb (attr + 4) (tb_new (CTA_PROTOINFO_MAX + 1)) w = Ub) as Hcb.
  { unfold nfct_parse_protoinfo_attr_cb, table_cb, mnl_attr_type_valid, mnl_attr_get_type, nla_type, load16.
    unfold bind at 1 2. rewrite load_ok by (fold m; lia). unfold ret at 1. fold m.
    fold (attr_type m (attr + 4)). unfold bind at 1 2 3. rewrite load_ok by (fold m; lia). unfold ret at 1. fold m.
    fold (attr_type m (attr + 4)). rewrite (proj2 (Z.ltb_ge _ _)) by lia. cbn [ret Z.ltb Z.compare].
    unfold CTA_PROTOINFO_MAX, CTA_PROTOINFO_TCP_MAX in *.
    assert (attr_type m (attr + 4) = 4 \/ attr_type m (attr + 4) = 5) as [->| ->] by lia; done. }
  unfold bind at 1. by rewrite Hcb.
Qed.

(** C2: when parsing a ctnetlink message is memory safe, and when it is not.
    For a message of [len] bytes that lies in a buffer which ends with a NUL
    (the parser copies strings up to one), and in which no attribute directly
    below a protocol information attribute has the type 4 or 5, whatever its
    bytes are otherwise: [nfct_nlmsg_parse] reads inside the buffer, writes
    only entries that its tables have and ends (it returns, or it stops the
    process on an attribute of a wrong length), the message is not changed and
    the object has values of its types in all fields.  The second condition
    cannot be dropped: when a protocol information nest starts with an
    attribute of type 4 or 5 its parser writes outside of its table. *)
Theorem nfct_nlmsg_parse_safe nlh ct w :
  let m := w_mem w in let len := rd 4 nlh m in
  mem_ok w -> zlen m < 2 ^ 31 - 4 -> 0 <= nlh -> 20 <= len -> nlh + len <= zlen m ->
  last m = Some 0 -> ct_ok ct ->
  ((forall a, in_attrs m (nlh + len) (nlh + 20) a -> protoinfo_fits m a) ->
   wp True (nfct_nlmsg_parse nlh ct) (fun '(_, ct') w' => w_mem w' = m /\ ct_ok ct') w) /\
  (forall a, valid_attr m a -> overruns m a -> nfct_parse_protoinfo a ct w = Ub).
Proof.
  intros m len Hm Hz Hn Hlen Hfit Hnul Hok.
  split; [intros HJ|intros a Hv Ho; by apply protoinfo_overrun]. unfold nfct_nlmsg_parse.
  pose proof (rd_range 4 nlh m Hm ltac:(lia) ltac:(lia)) as Hr. fold len in Hr.
  change (2 ^ (8 * Z.of_nat 4)) with (2 ^ 32) in Hr.
  assert (rd 4 nlh (w_mem w) = len) as Elen by done. clearbody len. subst m.
  change (mnl_nlmsg_get_payload nlh) with (nlh + 16).
  apply wp_bind. unfold mnl_nlmsg_get_payload_len. apply wp_bind, wp_load; [lia|lia|].
  apply wp_ret. change MNL_NLMSG_HDRLEN with 16. rewrite Elen, (wrap_small 64 (len - 16)) by lia.
  apply wp_bind, wp_load; [lia|lia|]. change sizeof_nfgenmsg with 4. rewrite wrap_small by lia.
  apply (payload_parse_safe _ Hm Hz Hnul); try lia; try done.
  replace (nlh + 16 + 4 + (len - 16 - 4)) with (nlh + len) by lia.
  replace (nlh + 16 + 4) with (nlh + 20) by lia. done.
Qed.

(** A message with a mark and the state of a TCP connection, followed by a NUL. *)
Definition safe_example : list Z :=
  le_enc 4 44 ++ replicate 12 0 ++ [AF_INET; 0; 0; 0] ++
  le_enc 2 8 ++ le_enc 2 CTA_MARK ++ [0; 0; 0; 7] ++
  le_enc 2 16 ++ le_enc 2 (Z.lor NLA_F_NESTED CTA_PROTOINFO) ++
  le_enc 2 12 ++ le_enc 2 (Z.lor NLA_F_NESTED CTA_PROTOINFO_TCP) ++
  le_enc 2 5 ++ le_enc 2 CTA_PROTOINFO_TCP_STATE ++ [3; 0; 0; 0] ++ [0].

Lemma nfct_nlmsg_parse_safe_witness :
  let w := mk_world safe_example 0 [] in
  wp True (nfct_nlmsg_parse 0 zero_ct) (fun '(_, ct') w' => w_mem w' = safe_example /\ ct_ok ct') w.
Proof.
  cbv zeta. apply (nfct_nlmsg_parse_safe 0 zero_ct (mk_world safe_example 0 [])); try done.
  - by apply bytes_okb_ok.
  - apply zero_ct_ok.
  - intros a Ha. apply (in_attrs_list _ _ _ _) with (fuel := 45%nat) in Ha; [|vm_compute; lia].
    change (attr_list _ _ _ _) with [20; 28] in Ha. repeat (apply elem_of_cons in Ha as [->|Ha]); [done| |].
    + intros _ b Hb. apply (in_attrs_list _ _ _ _) with (fuel := 45%nat) in Hb; [|vm_compute; lia].
      change (attr_list _ _ _ _) with [32] in Hb. apply list_elem_of_singleton in Hb as ->. by right.
    + by apply elem_of_nil in Ha.
Defined.

(** A protocol information nest with one empty attribute of type 4. *)
Definition overrun_example : list Z :=
  le_enc 2 8 ++ le_enc 2 (Z.lor NLA_F_NESTED CTA_PROTOINFO) ++ le_enc 2 4 ++ le_enc 2 4.

(** The table of [nfct_parse_protoinfo] is overrun by that nest. *)
Theorem protoinfo_table_overrun :
  nfct_parse_protoinfo 0 zero_ct (mk_world overrun_example 0 []) = Ub.
Proof. apply protoinfo_overrun; try done. by apply bytes_okb_ok. Qed.
