(* ===== verification/TlvTable.v ===== *)
(** The tables of the parser on a message that holds attribute trees: what
    [table_cb] collects, and steps that read a table as functions of the tree. *)
From S2P Require Import Prelude CMonad MnlMsg MnlAttr Tlv TlvParse CtParse CtParseSafe.
Open Scope c_scope.

(** ** The last attribute of a type *)

Fixpoint find_tlv (ty : Z) (l : list tlv) : option tlv :=
  match l with
  | [] => None
  | t :: l => match find_tlv ty l with
              | Some x => Some x
              | None => if tlv_type t =? ty then Some t else None
              end
  end.

Lemma find_tlv_app ty l k :
  find_tlv ty (l ++ k) = match find_tlv ty k with Some x => Some x | None => find_tlv ty l end.
Proof.
  induction l as [|t l IH]; cbn [app find_tlv]; [by destruct (find_tlv ty k)|].
  rewrite IH. by destruct (find_tlv ty k).
Qed.

Lemma find_tlv_Some ty l t : find_tlv ty l = Some t -> tlv_type t = ty /\ t ∈ l.
Proof.
  induction l as [|x l IH]; cbn [find_tlv]; [done|]. destruct (find_tlv ty l) as [y|] eqn:Hy.
  - intros [= ->]. destruct (IH eq_refl). split; [done|by right].
  - destruct (Z.eqb_spec (tlv_type x) ty); [|done]. intros [= ->]. split; [done|by left].
Qed.

(** ** Trees that a callback accepts *)

(** A policy on an attribute of a tree: nests are wanted where the policy says
    so and leaves where it fixes a length. *)
Definition tlv_ok (p : policy) (t : tlv) : bool :=
  match p, t with
  | NoCheck, _ => true
  | Validate MNL_TYPE_NESTED, Nest _ _ => true
  | Validate MNL_TYPE_NESTED, Leaf _ _ => false
  | _, Leaf _ d => policy_ok p d
  | _, Nest _ _ => false
  end.

Lemma tlv_ok_leaf p ty d : tlv_ok p (Leaf ty d) = true -> policy_ok p d = true.
Proof. by destruct p as [|[]|]. Qed.

(** Every attribute is of a type the callback skips, or it is accepted and has
    an entry in the table; [sub] says what else holds of it. *)
Definition level (max n : Z) (pol : Z -> policy) (sub : tlv -> Prop) (l : list tlv) : Prop :=
  Forall (fun t => max < tlv_type t \/
                   (tlv_type t < n /\ tlv_ok (pol (tlv_type t)) t = true /\ sub t)) l.

Lemma level_find max n pol sub l ty t :
  level max n pol sub l -> ty <= max -> find_tlv ty l = Some t -> tlv_ok (pol ty) t = true /\ sub t.
Proof.
  intros Hl Hty [<- Hin]%find_tlv_Some. unfold level in Hl. rewrite Forall_forall in Hl.
  destruct (Hl t Hin) as [?|(_ & ? & ?)]; [lia|done].
Qed.

Lemma tlv_ok_policy m o p t : attr_at m o t -> tlv_ok p t = true -> policy_ok p (payload o m) = true.
Proof.
  intros Ha Ht. destruct t as [ty d|ty l].
  - rewrite (attr_at_payload_Leaf _ _ _ _ Ha). by destruct p as [|[]|].
  - destruct p as [|[]|]; try done. unfold policy_ok, validate_ok.
    rewrite (attr_at_payload_len_Nest _ _ _ _ Ha). cbn.
    pose proof (proj2 tlv_sizes_spec l) as [Hs Hmod]. 
    assert (tlvs_size l = 0 \/ 4 <= tlvs_size l) as [E|E].
    { destruct l as [|x l']; [by left|]. right. cbn [tlvs_size]. pose proof (tlv_size_ge x).
      pose proof (tlvs_size_nonneg l'). lia. }
    + by rewrite E.
    + rewrite (proj2 (Z.leb_le 0 _)), (proj2 (Z.leb_le 4 _)) by lia. by rewrite orb_true_r.
Qed.

Lemma attr_at_type_range m o t : attr_at m o t -> 0 <= tlv_type t.
Proof.
  destruct t as [ty d|ty l].
  - intros (_ & _ & _ & _ & _ & _ & ?). cbn. lia.
  - rewrite attr_at_Nest. intros (_ & _ & _ & _ & ? & _). cbn. lia.
Qed.

Lemma offs_at m o l x : attrs_at m o l -> x ∈ offs o l -> attr_at m x.1 x.2 /\ x.2 ∈ l.
Proof.
  revert o. induction l as [|t l IH]; intros o; cbn [offs attrs_at]; [by intros _ ?%elem_of_nil|].
  intros [Ht Hl] [->|Hx]%elem_of_cons; [split; [done|by left]|].
  destruct (IH _ Hl Hx). split; [done|by right].
Qed.

(** ** The table of a forest *)

Definition tb_add (max : Z) (tb : tb_t) (x : Z * tlv) : tb_t :=
  if max <? tlv_type x.2 then tb else <[Z.to_nat (tlv_type x.2) := Some x.1]> tb.

Definition tb_of (max n : Z) (l : list (Z * tlv)) : tb_t := foldl (tb_add max) (tb_new n) l.

Fixpoint find_off (ty : Z) (l : list (Z * tlv)) : option (Z * tlv) :=
  match l with
  | [] => None
  | x :: l => match find_off ty l with
              | Some y => Some y
              | None => if tlv_type x.2 =? ty then Some x else None
              end
  end.

Lemma find_off_tlv ty o l : snd <$> find_off ty (offs o l) = find_tlv ty l.
Proof.
  revert o. induction l as [|t l IH]; intros o; [done|]. cbn [offs find_off find_tlv].
  rewrite <- (IH (o + tlv_size t)). destruct (find_off ty (offs _ l)); [done|]. cbn.
  by destruct (tlv_type t =? ty).
Qed.

Lemma find_off_in ty l x : find_off ty l = Some x -> x ∈ l.
Proof.
  induction l as [|y l IH]; cbn [find_off]; [done|]. destruct (find_off ty l) as [z|].
  - intros [= ->]. right. by apply IH.
  - destruct (_ =? _); [|done]. intros [= ->]. by left.
Qed.

Lemma tb_lookup max n ty l :
  0 <= ty <= max -> ty < n -> Forall (fun x => 0 <= tlv_type x.2) l ->
  tb_of max n l !! Z.to_nat ty = Some (fst <$> find_off ty l).
Proof.
  intros Hty Hn Hl. unfold tb_of.
  cut (forall tb, zlen tb = n -> foldl (tb_add max) tb l !! Z.to_nat ty =
         match find_off ty l with Some x => Some (Some x.1) | None => tb !! Z.to_nat ty end).
  { intros H. rewrite H by (unfold tb_new; zl). destruct (find_off ty l); [done|].
    unfold tb_new. rewrite lookup_replicate_2 by lia. done. }
  induction Hl as [|x l Hx _ IH]; intros tb Htb; [done|]. cbn [foldl find_off].
  unfold tb_add at 2. destruct (Z.ltb_spec max (tlv_type x.2)).
  - rewrite IH by done. destruct (find_off ty l); [done|].
    by rewrite (proj2 (Z.eqb_neq (tlv_type x.2) ty)) by lia.
  - rewrite IH by (unfold zlen in *; by rewrite length_insert). destruct (find_off ty l); [done|].
    destruct (Z.eqb_spec (tlv_type x.2) ty) as [E|E].
    + rewrite <- E. apply list_lookup_insert_eq. unfold zlen in *. lia.
    + apply list_lookup_insert_ne. lia.
Qed.

(** ** Steps as functions *)

Section Denotes.
Context (m : list Z) (Hz : zlen m < 2 ^ 31 - 4).

(** The message is [m] and no allocation fails. *)
Definition quiet (w : world) : Prop := w_mem w = m /\ w_alloc w = [].

(** On the message [m] the step succeeds and changes the state as [f] does. *)
Definition denotes {S} (p : step S) (f : S -> S) : Prop := forall s w,
  quiet w -> wp False (p s) (fun '(r, s') w' => r = 0 /\ s' = f s /\ quiet w') w.

(** The functions in order. *)
Definition seq {S} (fs : list (S -> S)) (s : S) : S := foldl (fun s f => f s) s fs.

Lemma denotes_steps {S} (ps : list (step S)) fs : Forall2 denotes ps fs -> denotes (steps ps) (seq fs).
Proof.
  induction 1 as [|p f ps fs Hp _ IH]; intros s w Hw; cbn [steps]; [by apply wp_ret|].
  apply wp_bind. eapply wp_mono; [by apply Hp|]. intros [r s'] w' (-> & -> & Hw').
  by apply IH.
Qed.

Lemma denotes_unchecked {S} (p : step S) f : denotes p f -> denotes (unchecked p) f.
Proof.
  intros Hp s w Hw. apply wp_bind. eapply wp_mono; [by apply Hp|]. intros [r s'] w' (-> & -> & Hw').
  by apply wp_ret.
Qed.

Lemma denotes_ext {S} (p : step S) f g : (forall s, f s = g s) -> denotes p f -> denotes p g.
Proof.
  intros E Hp s w Hw. eapply wp_mono; [by apply Hp|]. intros [r s'] w' (? & ? & ?). by rewrite <- E.
Qed.

(** *** The callback *)

Lemma table_cb_tree max n pol tb o t w :
  quiet w -> zlen tb = n -> policy_wf (pol (tlv_type t)) = true -> attr_at m o t ->
  (max < tlv_type t \/ (tlv_type t < n /\ tlv_ok (pol (tlv_type t)) t = true)) ->
  wp False (table_cb max pol o tb)
    (fun '(r, tb') w' => 0 < r /\ quiet w' /\ tb' = tb_add max tb (o, t)) w.
Proof.
  intros [Hw Ha] Htb Hwf Hat Hok. pose proof (attr_at_valid _ _ _ Hat) as Hv. rewrite <- Hw in Hv.
  pose proof (attr_at_type _ _ _ Hat) as Ht. rewrite <- Hw in Ht.
  pose proof (attr_at_type_range _ _ _ Hat).
  unfold table_cb. apply wp_bind, wp_get_type; [done|]. apply wp_bind, wp_type_valid; [done|].
  rewrite Ht. cbn zeta. unfold tb_add. cbn [snd fst].
  destruct (Z.ltb_spec max (tlv_type t)); [by apply wp_ret|].
  destruct Hok as [?|[? Hok]]; [lia|]. change (1 <? 0) with false. cbn iota.
  apply wp_bind, wp_check_policy; [done|done| |].
  - intros _. apply wp_bind. unfold tb_set.
    rewrite (proj2 (andb_true_iff _ _)) by (split; [apply Z.leb_le|apply Z.ltb_lt]; lia).
    by apply wp_ret, wp_ret.
  - intros Hf. rewrite Hw, (tlv_ok_policy _ _ _ _ Hat Hok) in Hf. done.
Qed.

(** The tables that the iterators fill. *)
Lemma tb_of_snoc max n l x : tb_of max n (l ++ [x]) = tb_add max (tb_of max n l) x.
Proof. unfold tb_of. by rewrite foldl_app. Qed.

Lemma zlen_tb_of max n l : 0 <= n -> zlen (tb_of max n l) = n.
Proof.
  intros. unfold tb_of. assert (zlen (tb_new n) = n) as E by (unfold tb_new; zl).
  revert E. generalize (tb_new n). induction l as [|x l IH]; intros tb E; [done|]. cbn [foldl].
  apply IH. unfold tb_add. destruct (_ <? _); [done|]. unfold zlen in *. by rewrite length_insert.
Qed.

Section Fill.
Context (max n : Z) (pol : Z -> policy) (sub : tlv -> Prop).
Hypothesis Hn0 : 0 <= n.
Hypothesis Hpol : forall t, policy_wf (pol t) = true.

Let V (t : tlv) : Prop :=
  max < tlv_type t \/ (tlv_type t < n /\ tlv_ok (pol (tlv_type t)) t = true /\ sub t).
Let I (l : list (Z * tlv)) (tb : tb_t) : Prop := tb = tb_of max n l.

Lemma fill_cb done o t tb w : quiet w -> attr_at m o t -> V t -> I done tb ->
  wp False (table_cb max pol o tb)
    (fun '(r, tb') w' => 0 < r /\ quiet w' /\ I (done ++ [(o, t)]) tb') w.
Proof.
  intros Hw Hat HV ->. eapply wp_mono; [apply (table_cb_tree max n pol _ o t); try done|].
  - by apply zlen_tb_of.
  - destruct HV as [?|(? & ? & _)]; auto.
  - intros [r tb'] w' (? & ? & ->). split; [done|]. split; [done|]. unfold I. by rewrite tb_of_snoc.
Qed.

Lemma quiet_mem w : quiet w -> w_mem w = m.
Proof. by intros [? _]. Qed.

Lemma fill_nested attr ty l w :
  quiet w -> attr_at m attr (Nest ty l) -> level max n pol sub l ->
  wp False (mnl_attr_parse_nested attr (table_cb max pol) (tb_new n))
    (fun '(r, tb) w' => 0 < r /\ quiet w' /\ tb = tb_of max n (offs (attr + 4) l)) w.
Proof.
  intros Hw Hat Hl.
  by apply (parse_nested_forest False (table_cb max pol) m I quiet quiet_mem V fill_cb attr ty l).
Qed.

Lemma fill_payload p l w :
  quiet w -> 0 <= p -> attrs_at m p l -> level max n pol sub l ->
  wp False (mnl_attr_parse_payload p (tlvs_size l) (table_cb max pol) (tb_new n))
    (fun '(r, tb) w' => 0 < r /\ quiet w' /\ tb = tb_of max n (offs p l)) w.
Proof.
  intros Hw Hp Hat Hl.
  by apply (parse_payload_forest False (table_cb max pol) m I quiet quiet_mem V fill_cb p l).
Qed.

(** *** Reading the table *)

(** [f] on the attribute of type [ty] of the tree, if there is one. *)
Definition on_tlv {S} (ty : Z) (g : tlv -> S -> S) (l : list tlv) : S -> S :=
  match find_tlv ty l with Some t => g t | None => id end.

Lemma denotes_on {S} p l ty (f : Z -> step S) g :
  attrs_at m p l -> level max n pol sub l -> 0 <= ty <= max -> ty < n ->
  (forall o t, attr_at m o t -> t ∈ l -> tlv_ok (pol ty) t = true -> sub t -> tlv_type t = ty ->
     denotes (f o) (g t)) ->
  denotes (on (tb_of max n (offs p l)) ty f) (on_tlv ty g l).
Proof.
  intros Hat Hl Hty Htn Hf s w Hw. unfold on, on_tlv.
  rewrite tb_lookup; [|done|done|].
  - pose proof (find_off_tlv ty p l) as E. destruct (find_off ty (offs p l)) as [[o t]|] eqn:Ho; cbn in E |- *.
    + rewrite <- E. destruct (level_find _ _ _ _ _ ty t Hl) as [Hok Hsub]; [lia|done|].
      destruct (offs_at _ _ _ _ Hat (find_off_in _ _ _ Ho)) as [? Hin].
      symmetry in E. apply find_tlv_Some in E as [? _]. by apply (Hf o t).
    + rewrite <- E. by apply (wp_ret False (0, s)).
  - apply Forall_forall. intros x Hx. destruct (offs_at _ _ _ _ Hat Hx) as [Hx' _].
    by eapply attr_at_type_range.
Qed.

Lemma denotes_nest {S} attr ty l (k : tb_t -> step S) f :
  attr_at m attr (Nest ty l) -> level max n pol sub l ->
  denotes (k (tb_of max n (offs (attr + 4) l))) f ->
  denotes (parse_nest attr n (table_cb max pol) k) f.
Proof.
  intros Hat Hl Hk s w Hw. unfold parse_nest. apply wp_bind.
  eapply wp_mono; [by eapply fill_nested|]. intros [r tb] w' (Hr & Hw' & ->).
  rewrite (proj2 (Z.ltb_ge r 0)) by lia. by apply Hk.
Qed.
End Fill.

(** *** Assignments *)

Lemma denotes_assign {S V} (get : Z -> M V) (upd : V -> S -> S) attr v :
  (forall w, w_mem w = m -> wp False (get attr) (fun v' w' => v' = v /\ w' = w) w) ->
  denotes (assign get upd attr) (upd v).
Proof.
  intros Hg s w [Hw Ha]. unfold assign. apply wp_bind. eapply wp_mono; [by apply Hg|].
  intros v' w' [-> ->]. by apply wp_ret.
Qed.

Section Gets.
Context (o ty : Z) (d : list Z) (Hat : attr_at m o (Leaf ty d)).

Lemma leaf_valid w : w_mem w = m -> valid_attr (w_mem w) o.
Proof. intros ->. by eapply attr_at_valid. Qed.

Lemma leaf_int n w : zlen d = Z.of_nat n -> w_mem w = m ->
  wp False (load n (mnl_attr_get_payload o)) (fun v w' => v = le_dec d /\ w' = w) w.
Proof.
  intros Hl Hw. pose proof (attr_at_payload_Leaf _ _ _ _ Hat) as Hp.
  apply wp_get_int; [by apply leaf_valid|by rewrite Hw, Hp|]. by rewrite Hw, Hp.
Qed.

Lemma leaf_bswap n w : zlen d = Z.of_nat n -> w_mem w = m ->
  wp False (let! v := load n (mnl_attr_get_payload o) in ret (bswap n v))
    (fun v w' => v = bswap n (le_dec d) /\ w' = w) w.
Proof.
  intros Hl Hw. apply wp_bind. eapply wp_mono; [by apply leaf_int|]. intros v w' [-> ->]. by apply wp_ret.
Qed.

Lemma leaf_bytes n w : zlen d = n -> w_mem w = m ->
  wp False (get_bytes n o) (fun v w' => v = d /\ w' = w) w.
Proof.
  intros Hl Hw. pose proof (attr_at_payload_Leaf _ _ _ _ Hat) as Hp.
  apply wp_get_bytes; [by apply leaf_valid|by rewrite Hw, Hp|]. by rewrite Hw, Hp.
Qed.
End Gets.
End Denotes.
