(* ===== verification/CtParseTree.v ===== *)
(** What the parser computes from a message, as a function of the attribute
    tree the message holds, and the proof that the parser of [CtParse] computes
    it. *)
From S2P Require Import Prelude CMonad MnlMsg MnlAttr Tlv TlvParse Bitops CtObject CtSetter CtCopy CtApi CtAttrs.
From S2P Require Import CtCompare Ctnl CtBuild CtParse CtParseSafe TlvTable.
Open Scope c_scope.

(** ** Abstract parser *)

Definition leaf {S} (f : list Z -> S -> S) (t : tlv) : S -> S :=
  match t with Leaf _ d => f d | Nest _ _ => id end.
Definition nested {S} (f : list tlv -> S -> S) (t : tlv) : S -> S :=
  match t with Nest _ l => f l | Leaf _ _ => id end.

(** Integers of the message, in host and in network byte order. *)
Definition int {S} (f : Z -> S -> S) (d : list Z) : S -> S := f (le_dec d).
Definition net {S} (n : nat) (f : Z -> S -> S) (d : list Z) : S -> S := f (bswap n (le_dec d)).

Definition tree_ip (dir : tuple_dir) (l : list tlv) : tuple_st -> tuple_st := seq
   [on_tlv CTA_IP_V4_SRC (leaf (int (fun v =>
      upd_tuple (fun t => with_tp_src (set_addr_v4 v (tp_src t)) t)
                (set_dir dir ATTR_ORIG_IPV4_SRC ATTR_REPL_IPV4_SRC (Some ATTR_MASTER_IPV4_SRC))))) l;
    on_tlv CTA_IP_V4_DST (leaf (int (fun v =>
      upd_tuple (fun t => with_tp_dst (set_addr_v4 v (tp_dst t)) t)
                (set_dir dir ATTR_ORIG_IPV4_DST ATTR_REPL_IPV4_DST (Some ATTR_MASTER_IPV4_DST))))) l;
    on_tlv CTA_IP_V6_SRC (leaf (fun v =>
      upd_tuple (with_tp_src v)
                (set_dir dir ATTR_ORIG_IPV6_SRC ATTR_REPL_IPV6_SRC (Some ATTR_MASTER_IPV6_SRC)))) l;
    on_tlv CTA_IP_V6_DST (leaf (fun v =>
      upd_tuple (with_tp_dst v)
                (set_dir dir ATTR_ORIG_IPV6_DST ATTR_REPL_IPV6_DST (Some ATTR_MASTER_IPV6_DST)))) l].

Definition tree_proto (dir : tuple_dir) (l : list tlv) : tuple_st -> tuple_st := seq
   [on_tlv CTA_PROTO_NUM (leaf (int (fun v =>
      upd_tuple (with_tp_protonum v)
                (set_dir dir ATTR_ORIG_L4PROTO ATTR_REPL_L4PROTO (Some ATTR_MASTER_L4PROTO))))) l;
    on_tlv CTA_PROTO_SRC_PORT (leaf (int (fun v =>
      upd_tuple (with_tp_l4src v)
                (set_dir dir ATTR_ORIG_PORT_SRC ATTR_REPL_PORT_SRC (Some ATTR_MASTER_PORT_SRC))))) l;
    on_tlv CTA_PROTO_DST_PORT (leaf (int (fun v =>
      upd_tuple (upd_l4dst (set_l4dst_all v))
                (set_dir dir ATTR_ORIG_PORT_DST ATTR_REPL_PORT_DST (Some ATTR_MASTER_PORT_DST))))) l;
    on_tlv CTA_PROTO_ICMP_TYPE (leaf (int (fun v =>
      upd_tuple (upd_l4dst (set_icmp_type v)) (or_bit (attr_idx ATTR_ICMP_TYPE))))) l;
    on_tlv CTA_PROTO_ICMP_CODE (leaf (int (fun v =>
      upd_tuple (upd_l4dst (set_icmp_code v)) (or_bit (attr_idx ATTR_ICMP_CODE))))) l;
    on_tlv CTA_PROTO_ICMP_ID (leaf (int (fun v =>
      upd_tuple (with_tp_l4src v) (or_bit (attr_idx ATTR_ICMP_ID))))) l;
    on_tlv CTA_PROTO_ICMPV6_TYPE (leaf (int (fun v =>
      upd_tuple (upd_l4dst (set_icmp_type v)) (or_bit (attr_idx ATTR_ICMP_TYPE))))) l;
    on_tlv CTA_PROTO_ICMPV6_CODE (leaf (int (fun v =>
      upd_tuple (upd_l4dst (set_icmp_code v)) (or_bit (attr_idx ATTR_ICMP_CODE))))) l;
    on_tlv CTA_PROTO_ICMPV6_ID (leaf (int (fun v =>
      upd_tuple (with_tp_l4src v) (or_bit (attr_idx ATTR_ICMP_ID))))) l].

Definition tree_tuple (dir : tuple_dir) (l : list tlv) : tuple_st -> tuple_st := seq
   [on_tlv CTA_TUPLE_IP (nested (tree_ip dir)) l;
    on_tlv CTA_TUPLE_PROTO (nested (tree_proto dir)) l;
    on_tlv CTA_TUPLE_ZONE (leaf (net 2 (fun v =>
      upd_tuple (with_tp_zone v) (set_dir dir ATTR_ORIG_ZONE ATTR_REPL_ZONE None)))) l].

Definition tree_protoinfo_tcp (l : list tlv) : nf_conntrack -> nf_conntrack := seq
   [on_tlv CTA_PROTOINFO_TCP_STATE (leaf (int (fun v =>
      setting [ATTR_TCP_STATE] (upd_protoinfo (u_set 1 tcp_state_off v))))) l;
    on_tlv CTA_PROTOINFO_TCP_WSCALE_ORIGINAL (leaf (fun v =>
      setting [ATTR_TCP_WSCALE_ORIG] (upd_protoinfo (splice (tcp_wscale_off DIR_ORIG) v)))) l;
    on_tlv CTA_PROTOINFO_TCP_WSCALE_REPLY (leaf (fun v =>
      setting [ATTR_TCP_WSCALE_REPL] (upd_protoinfo (splice (tcp_wscale_off DIR_REPL) v)))) l;
    on_tlv CTA_PROTOINFO_TCP_FLAGS_ORIGINAL (leaf (fun v =>
      setting [ATTR_TCP_FLAGS_ORIG; ATTR_TCP_MASK_ORIG]
              (upd_protoinfo (splice (tcp_flags_value_off DIR_ORIG) v)))) l;
    on_tlv CTA_PROTOINFO_TCP_FLAGS_REPLY (leaf (fun v =>
      setting [ATTR_TCP_FLAGS_REPL; ATTR_TCP_MASK_REPL]
              (upd_protoinfo (splice (tcp_flags_value_off DIR_REPL) v)))) l].

Definition tree_protoinfo_sctp (l : list tlv) : nf_conntrack -> nf_conntrack := seq
   [on_tlv CTA_PROTOINFO_SCTP_STATE (leaf (int (fun v =>
      setting [ATTR_SCTP_STATE] (upd_protoinfo (u_set 1 sctp_state_off v))))) l;
    on_tlv CTA_PROTOINFO_SCTP_VTAG_ORIGINAL (leaf (net 4 (fun v =>
      setting [ATTR_SCTP_VTAG_ORIG] (upd_protoinfo (u_set 4 (sctp_vtag_off DIR_ORIG) v))))) l;
    on_tlv CTA_PROTOINFO_SCTP_VTAG_REPLY (leaf (net 4 (fun v =>
      setting [ATTR_SCTP_VTAG_REPL] (upd_protoinfo (u_set 4 (sctp_vtag_off DIR_REPL) v))))) l].

Definition tree_protoinfo_dccp (l : list tlv) : nf_conntrack -> nf_conntrack := seq
   [on_tlv CTA_PROTOINFO_DCCP_STATE (leaf (int (fun v =>
      setting [ATTR_DCCP_STATE] (upd_protoinfo (u_set 1 dccp_state_off v))))) l;
    on_tlv CTA_PROTOINFO_DCCP_ROLE (leaf (int (fun v =>
      setting [ATTR_DCCP_ROLE] (upd_protoinfo (u_set 1 dccp_role_off v))))) l;
    on_tlv CTA_PROTOINFO_DCCP_HANDSHAKE_SEQ (leaf (net 8 (fun v =>
      setting [ATTR_DCCP_HANDSHAKE_SEQ] (upd_protoinfo (u_set 8 dccp_handshake_seq_off v))))) l].

Definition tree_protoinfo (l : list tlv) : nf_conntrack -> nf_conntrack := seq
   [on_tlv CTA_PROTOINFO_TCP (nested tree_protoinfo_tcp) l;
    on_tlv CTA_PROTOINFO_SCTP (nested tree_protoinfo_sctp) l;
    on_tlv CTA_PROTOINFO_DCCP (nested tree_protoinfo_dccp) l].

Definition tree_counter (t32 t64 : Z) (a : nf_conntrack_attr) (upd : Z -> nf_conntrack -> nf_conntrack)
  (l : list tlv) : list (nf_conntrack -> nf_conntrack) :=
  [on_tlv t32 (leaf (net 4 (fun v => setting [a] (upd v)))) l;
   on_tlv t64 (leaf (net 8 (fun v => setting [a] (upd v)))) l].

Definition tree_counters (dir : nfct_dir) (l : list tlv) : nf_conntrack -> nf_conntrack := seq
   (tree_counter CTA_COUNTERS32_PACKETS CTA_COUNTERS_PACKETS
      (dir_attr dir ATTR_ORIG_COUNTER_PACKETS ATTR_REPL_COUNTER_PACKETS)
      (fun v => upd_counters dir (with_ctr_packets v)) l ++
    tree_counter CTA_COUNTERS32_BYTES CTA_COUNTERS_BYTES
      (dir_attr dir ATTR_ORIG_COUNTER_BYTES ATTR_REPL_COUNTER_BYTES)
      (fun v => upd_counters dir (with_ctr_bytes v)) l).

Definition tree_nat_seq (dir : nfct_dir) (l : list tlv) : nf_conntrack -> nf_conntrack := seq
   [on_tlv CTA_NAT_SEQ_CORRECTION_POS (leaf (net 4 (fun v =>
      setting [dir_attr dir ATTR_ORIG_NAT_SEQ_CORRECTION_POS ATTR_REPL_NAT_SEQ_CORRECTION_POS]
              (upd_natseq dir (with_seq_correction_pos v))))) l;
    on_tlv CTA_NAT_SEQ_OFFSET_BEFORE (leaf (net 4 (fun v =>
      setting [dir_attr dir ATTR_ORIG_NAT_SEQ_OFFSET_BEFORE ATTR_REPL_NAT_SEQ_OFFSET_BEFORE]
              (upd_natseq dir (with_seq_offset_before v))))) l;
    on_tlv CTA_NAT_SEQ_OFFSET_AFTER (leaf (net 4 (fun v =>
      setting [dir_attr dir ATTR_ORIG_NAT_SEQ_OFFSET_AFTER ATTR_REPL_NAT_SEQ_OFFSET_AFTER]
              (upd_natseq dir (with_seq_offset_after v))))) l].

(** At most 15 characters of the name are kept. *)
Definition helper_name_of (d : list Z) : list Z := <[15%nat := 0]> (default [] (strncpy 16 d)).

Definition tree_helper (l : list tlv) : nf_conntrack -> nf_conntrack :=
  on_tlv CTA_HELP_NAME (leaf (fun d => seq
    [setting [ATTR_HELPER_NAME] (with_ct_helper_name (helper_name_of d));
     on_tlv CTA_HELP_INFO (leaf (fun i =>
       setting [ATTR_HELPER_INFO] (fun ct => with_ct_helper_info (Some i) (with_ct_helper_info_len (zlen i) ct)))) l])) l.

Definition tree_secctx (l : list tlv) : nf_conntrack -> nf_conntrack :=
  on_tlv CTA_SECCTX_NAME (leaf (fun d => setting [ATTR_SECCTX] (with_ct_secctx (cstring d)))) l.

Definition tree_timestamp (l : list tlv) : nf_conntrack -> nf_conntrack := seq
   [on_tlv CTA_TIMESTAMP_START (leaf (net 8 (fun v =>
      setting [ATTR_TIMESTAMP_START] (upd_timestamp (with_ts_start v))))) l;
    on_tlv CTA_TIMESTAMP_STOP (leaf (net 8 (fun v =>
      setting [ATTR_TIMESTAMP_STOP] (upd_timestamp (with_ts_stop v))))) l].

(** The bitmask has whole words: the last one is padded with zeros. *)
Definition labels_of (d : list Z) : nfct_bitmask :=
  let words := DIV_ROUND_UP (zlen d * 8) 32 in
  mk_bitmask words (bytes_words (Z.to_nat words) (splice 0 d (replicate (Z.to_nat (4 * words)) 0))).

Definition tree_labels (d : list Z) : nf_conntrack -> nf_conntrack :=
  if zlen d =? 0 then id else setting [ATTR_CONNLABELS] (with_ct_connlabels (Some (labels_of d))).

Definition tree_synproxy (l : list tlv) : nf_conntrack -> nf_conntrack := seq
   [on_tlv CTA_SYNPROXY_ISN (leaf (net 4 (fun v =>
      setting [ATTR_SYNPROXY_ISN] (upd_synproxy (with_syn_isn v))))) l;
    on_tlv CTA_SYNPROXY_ITS (leaf (net 4 (fun v =>
      setting [ATTR_SYNPROXY_ITS] (upd_synproxy (with_syn_its v))))) l;
    on_tlv CTA_SYNPROXY_TSOFF (leaf (net 4 (fun v =>
      setting [ATTR_SYNPROXY_TSOFF] (upd_synproxy (with_syn_tsoff v))))) l].

Definition tree_ct_tuple (l3num : Z) (dir : tuple_dir) (l : list tlv) (ct : nf_conntrack) : nf_conntrack :=
  let ct := with_ct_tuple dir (with_tp_l3protonum (wrap 8 l3num) (ct_tuple dir ct)) ct in
  let ct := attr_set (l3proto_attr dir) ct in
  let s := tree_tuple dir l (ct_tuple dir ct, ct_set ct) in
  with_ct_set s.2 (with_ct_tuple dir s.1 ct).

(** The object after parsing a message of address family [l3num]. *)
Definition tree_parse (l3num : Z) (l : list tlv) : nf_conntrack -> nf_conntrack := seq
  [on_tlv CTA_TUPLE_ORIG (nested (tree_ct_tuple l3num __DIR_ORIG)) l;
   on_tlv CTA_TUPLE_REPLY (nested (tree_ct_tuple l3num __DIR_REPL)) l;
   on_tlv CTA_TUPLE_MASTER (nested (tree_ct_tuple l3num __DIR_MASTER)) l;
   on_tlv CTA_NAT_SEQ_ADJ_ORIG (nested (tree_nat_seq DIR_ORIG)) l;
   on_tlv CTA_NAT_SEQ_ADJ_REPLY (nested (tree_nat_seq DIR_REPL)) l;
   on_tlv CTA_STATUS (leaf (net 4 (fun v => setting [ATTR_STATUS] (with_ct_status v)))) l;
   on_tlv CTA_PROTOINFO (nested tree_protoinfo) l;
   on_tlv CTA_TIMEOUT (leaf (net 4 (fun v => setting [ATTR_TIMEOUT] (with_ct_timeout v)))) l;
   on_tlv CTA_MARK (leaf (net 4 (fun v => setting [ATTR_MARK] (with_ct_mark v)))) l;
   on_tlv CTA_SECMARK (leaf (net 4 (fun v => setting [ATTR_SECMARK] (with_ct_secmark v)))) l;
   on_tlv CTA_COUNTERS_ORIG (nested (tree_counters DIR_ORIG)) l;
   on_tlv CTA_COUNTERS_REPLY (nested (tree_counters DIR_REPL)) l;
   on_tlv CTA_USE (leaf (net 4 (fun v => setting [ATTR_USE] (with_ct_use v)))) l;
   on_tlv CTA_ID (leaf (net 4 (fun v => setting [ATTR_ID] (with_ct_id v)))) l;
   on_tlv CTA_HELP (nested tree_helper) l;
   on_tlv CTA_ZONE (leaf (net 2 (fun v => setting [ATTR_ZONE] (with_ct_zone v)))) l;
   on_tlv CTA_SECCTX (nested tree_secctx) l;
   on_tlv CTA_TIMESTAMP (nested tree_timestamp) l;
   on_tlv CTA_LABELS (leaf tree_labels) l;
   on_tlv CTA_SYNPROXY (nested tree_synproxy) l].

(** ** Well-formed trees *)

Definition no_sub (t : tlv) : Prop := True.

Definition wf_ip : list tlv -> Prop := level CTA_IP_MAX (CTA_IP_MAX + 1) ip_policy no_sub.
Definition wf_proto : list tlv -> Prop := level CTA_PROTO_MAX (CTA_PROTO_MAX + 1) proto_policy no_sub.

Definition sub_tuple (t : tlv) : Prop :=
  match t with
  | Nest ty k => (ty = CTA_TUPLE_IP -> wf_ip k) /\ (ty = CTA_TUPLE_PROTO -> wf_proto k)
  | Leaf _ _ => True
  end.
Definition wf_tuple : list tlv -> Prop := level CTA_TUPLE_MAX (CTA_TUPLE_MAX + 1) tuple_policy sub_tuple.

Definition wf_tcp := level CTA_PROTOINFO_TCP_MAX (CTA_PROTOINFO_TCP_MAX + 1) pinfo_tcp_policy no_sub.
Definition wf_sctp := level CTA_PROTOINFO_SCTP_MAX (CTA_PROTOINFO_SCTP_MAX + 1) pinfo_sctp_policy no_sub.
Definition wf_dccp := level CTA_PROTOINFO_DCCP_MAX (CTA_PROTOINFO_DCCP_MAX + 1) pinfo_dccp_policy no_sub.

Definition sub_protoinfo (t : tlv) : Prop :=
  match t with
  | Nest ty k => (ty = CTA_PROTOINFO_TCP -> wf_tcp k) /\ (ty = CTA_PROTOINFO_SCTP -> wf_sctp k) /\
                 (ty = CTA_PROTOINFO_DCCP -> wf_dccp k)
  | Leaf _ _ => True
  end.
Definition wf_protoinfo := level CTA_PROTOINFO_TCP_MAX (CTA_PROTOINFO_MAX + 1) protoinfo_policy sub_protoinfo.

Definition wf_counters := level CTA_COUNTERS_MAX (CTA_COUNTERS_MAX + 1) counters_policy no_sub.
Definition wf_nat_seq := level CTA_NAT_SEQ_MAX (CTA_NAT_SEQ_MAX + 1) nat_seq_policy no_sub.
Definition wf_timestamp := level CTA_TIMESTAMP_MAX (CTA_TIMESTAMP_MAX + 1) timestamp_policy no_sub.
Definition wf_synproxy := level CTA_SYNPROXY_MAX (CTA_SYNPROXY + 1) synproxy_policy no_sub.

(** Names are terminated inside of their attribute. *)
Definition sub_helper (t : tlv) : Prop :=
  match t with Leaf ty d => ty = CTA_HELP_NAME -> 0 ∈ d | Nest ty _ => ty <> CTA_HELP_INFO end.
Definition wf_helper := level CTA_HELP_MAX (CTA_HELP_MAX + 1) helper_policy sub_helper.
Definition sub_secctx (t : tlv) : Prop :=
  match t with Leaf ty d => ty = CTA_SECCTX_NAME -> 0 ∈ d | Nest _ _ => True end.
Definition wf_secctx := level CTA_SECCTX_MAX (CTA_SECCTX_MAX + 1) secctx_policy sub_secctx.

Definition sub_ct (t : tlv) : Prop :=
  match t with
  | Leaf ty d => ty <> CTA_SYNPROXY /\ (ty = CTA_LABELS -> zlen d <= 8192)
  | Nest ty k =>
      ty <> CTA_LABELS /\
      (one_of ty [CTA_TUPLE_ORIG; CTA_TUPLE_REPLY; CTA_TUPLE_MASTER] = true -> wf_tuple k) /\
      (one_of ty [CTA_NAT_SEQ_ADJ_ORIG; CTA_NAT_SEQ_ADJ_REPLY] = true -> wf_nat_seq k) /\
      (one_of ty [CTA_COUNTERS_ORIG; CTA_COUNTERS_REPLY] = true -> wf_counters k) /\
      (ty = CTA_PROTOINFO -> wf_protoinfo k) /\ (ty = CTA_HELP -> wf_helper k) /\
      (ty = CTA_SECCTX -> wf_secctx k) /\ (ty = CTA_TIMESTAMP -> wf_timestamp k) /\
      (ty = CTA_SYNPROXY -> wf_synproxy k)
  end.
(** The trees that conntrack messages carry. *)
Definition wf_ct : list tlv -> Prop := level CTA_MAX (CTA_MAX + 1) conntrack_policy sub_ct.

(** ** The parser computes it *)

(** The payload length of a leaf that its policy accepts. *)
Ltac leaf_width Hok d :=
  match goal with |- context [@assign _ _ ?get] =>
    match get with
    | mnl_attr_get_u8 => assert (zlen d = Z.of_nat 1) by (by eapply policy_width_ok; [|exact Hok])
    | mnl_attr_get_u16 => assert (zlen d = Z.of_nat 2) by (by eapply policy_width_ok; [|exact Hok])
    | mnl_attr_get_u32 => assert (zlen d = Z.of_nat 4) by (by eapply policy_width_ok; [|exact Hok])
    | get_ntohs => assert (zlen d = Z.of_nat 2) by (by eapply policy_width_ok; [|exact Hok])
    | get_ntohl => assert (zlen d = Z.of_nat 4) by (by eapply policy_width_ok; [|exact Hok])
    | get_be64toh => assert (zlen d = Z.of_nat 8) by (by eapply policy_width_ok; [|exact Hok])
    | get_bytes ?n => assert (zlen d = n) by (by eapply policy_width_ok; [|exact Hok])
    end
  end.

Ltac tree_assign :=
  match goal with
  | Hat : attr_at ?m ?o ?t, Hok : tlv_ok _ ?t = true |- denotes ?m (assign _ _ ?o) _ =>
      let ty := fresh "ty" in let d := fresh "d" in
      destruct t as [ty d|]; [|discriminate Hok]; apply tlv_ok_leaf in Hok; leaf_width Hok d; cbn [leaf]; unfold int, net;
      first [ refine (denotes_assign m _ _ _ (le_dec d) _); intros w Hw; by eapply leaf_int
            | refine (denotes_assign m _ _ _ (bswap _ (le_dec d)) _); intros w Hw; by eapply leaf_bswap
            | refine (denotes_assign m _ _ _ d _); intros w Hw; by eapply leaf_bytes ]
  end.

(** Open the entries of a table. *)
Ltac tree_entries Hat Hl :=
  apply denotes_steps;
  repeat first [apply Forall2_nil_2 | apply Forall2_cons_2];
  (eapply denotes_on; [exact Hat|exact Hl|by split|done|]);
  let o := fresh "o" in let t := fresh "t" in let Ht := fresh "Hat" in let Hok := fresh "Hok" in
  let Hsub := fresh "Hsub" in let Hty := fresh "Hty" in
  intros o t Ht _ Hok Hsub Hty.

Ltac tree_nest :=
  match goal with
  | Hok : tlv_ok _ ?t = true |- denotes _ _ (nested _ ?t) =>
      let ty := fresh "ty" in let k := fresh "k" in
      destruct t as [|ty k]; [discriminate Hok|]; cbn [nested]
  end.

Section Refines.
Context (m : list Z) (Hz : zlen m < 2 ^ 31 - 4).

(** The attributes of a nest are laid out after its header. *)
Lemma nest_attrs o ty l : attr_at m o (Nest ty l) -> attrs_at m (o + 4) l.
Proof. rewrite attr_at_Nest. by intros (_ & _ & _ & _ & _ & ?). Qed.

Lemma ip_refines o ty l dir : attr_at m o (Nest ty l) -> wf_ip l ->
  denotes m (nfct_parse_ip o dir) (tree_ip dir l).
Proof.
  intros Hat Hl. eapply denotes_nest; [done|done|wf_policy|exact Hat|exact Hl|].
  apply nest_attrs in Hat. tree_entries Hat Hl; tree_assign.
Qed.

Lemma proto_refines o ty l dir : attr_at m o (Nest ty l) -> wf_proto l ->
  denotes m (nfct_parse_proto o dir) (tree_proto dir l).
Proof.
  intros Hat Hl. eapply denotes_nest; [done|done|wf_policy|exact Hat|exact Hl|].
  apply nest_attrs in Hat. tree_entries Hat Hl; tree_assign.
Qed.

Lemma tuple_refines o ty l dir : attr_at m o (Nest ty l) -> wf_tuple l ->
  denotes m (nfct_parse_tuple o dir) (tree_tuple dir l).
Proof.
  intros Hat Hl. eapply denotes_nest; [done|done|wf_policy|exact Hat|exact Hl|].
  apply nest_attrs in Hat. tree_entries Hat Hl; [tree_nest..|tree_assign].
  - eapply ip_refines; [done|]. by apply Hsub.
  - eapply proto_refines; [done|]. by apply Hsub.
Qed.

Lemma protoinfo_tcp_refines o ty l : attr_at m o (Nest ty l) -> wf_tcp l ->
  denotes m (nfct_parse_protoinfo_tcp o) (tree_protoinfo_tcp l).
Proof.
  intros Hat Hl. eapply denotes_nest; [done|done|wf_policy|exact Hat|exact Hl|].
  apply nest_attrs in Hat. tree_entries Hat Hl; tree_assign.
Qed.

Lemma protoinfo_sctp_refines o ty l : attr_at m o (Nest ty l) -> wf_sctp l ->
  denotes m (nfct_parse_protoinfo_sctp o) (tree_protoinfo_sctp l).
Proof.
  intros Hat Hl. eapply denotes_nest; [done|done|wf_policy|exact Hat|exact Hl|].
  apply nest_attrs in Hat. tree_entries Hat Hl; tree_assign.
Qed.

Lemma protoinfo_dccp_refines o ty l : attr_at m o (Nest ty l) -> wf_dccp l ->
  denotes m (nfct_parse_protoinfo_dccp o) (tree_protoinfo_dccp l).
Proof.
  intros Hat Hl. eapply denotes_nest; [done|done|wf_policy|exact Hat|exact Hl|].
  apply nest_attrs in Hat. tree_entries Hat Hl; tree_assign.
Qed.

Lemma protoinfo_refines o ty l : attr_at m o (Nest ty l) -> wf_protoinfo l ->
  denotes m (nfct_parse_protoinfo o) (tree_protoinfo l).
Proof.
  intros Hat Hl. eapply denotes_nest; [done|done|wf_policy|exact Hat|exact Hl|].
  apply nest_attrs in Hat. tree_entries Hat Hl; tree_nest; apply denotes_unchecked.
  - eapply protoinfo_tcp_refines; [done|]. by apply Hsub.
  - eapply protoinfo_sctp_refines; [done|]. by apply Hsub.
  - eapply protoinfo_dccp_refines; [done|]. by apply Hsub.
Qed.

Lemma counters_refines o ty l dir : attr_at m o (Nest ty l) -> wf_counters l ->
  denotes m (nfct_parse_counters o dir) (tree_counters dir l).
Proof.
  intros Hat Hl. eapply denotes_nest; [done|done|wf_policy|exact Hat|exact Hl|].
  apply nest_attrs in Hat. cbn [app parse_counter]. unfold tree_counters, tree_counter. cbn [app].
  tree_entries Hat Hl; tree_assign.
Qed.

Lemma nat_seq_refines o ty l dir : attr_at m o (Nest ty l) -> wf_nat_seq l ->
  denotes m (nfct_parse_nat_seq o dir) (tree_nat_seq dir l).
Proof.
  intros Hat Hl. eapply denotes_nest; [done|done|wf_policy|exact Hat|exact Hl|].
  apply nest_attrs in Hat. tree_entries Hat Hl; tree_assign.
Qed.

Lemma timestamp_refines o ty l : attr_at m o (Nest ty l) -> wf_timestamp l ->
  denotes m (nfct_parse_timestamp o) (tree_timestamp l).
Proof.
  intros Hat Hl. eapply denotes_nest; [done|done|wf_policy|exact Hat|exact Hl|].
  apply nest_attrs in Hat. tree_entries Hat Hl; tree_assign.
Qed.

Lemma synproxy_refines o ty l : attr_at m o (Nest ty l) -> wf_synproxy l ->
  denotes m (nfct_parse_synproxy o) (tree_synproxy l).
Proof.
  intros Hat Hl. eapply denotes_nest; [done|done|wf_policy|exact Hat|exact Hl|].
  apply nest_attrs in Hat. tree_entries Hat Hl; tree_assign.
Qed.

(** *** Strings *)

Lemma strncpy_app n d e : 0 ∈ d -> strncpy n (d ++ e) = strncpy n d.
Proof.
  revert d. induction n as [|n IH]; intros d Hd; [done|].
  destruct d as [|c d]; [by apply elem_of_nil in Hd|]. cbn [app strncpy].
  destruct (Z.eqb_spec c 0); [done|]. apply elem_of_cons in Hd as [?|Hd]; [congruence|]. by rewrite IH.
Qed.

Lemma cstring_app d e : 0 ∈ d -> cstring (d ++ e) = cstring d.
Proof.
  induction d as [|c d IH]; intros Hd; [by apply elem_of_nil in Hd|]. cbn [app cstring].
  destruct (Z.eqb_spec c 0); [done|]. apply elem_of_cons in Hd as [?|Hd]; [congruence|]. by rewrite IH.
Qed.

Lemma strncpy_nul_some n d : 0 ∈ d -> exists bs, strncpy n d = Some bs.
Proof.
  revert d. induction n as [|n IH]; intros d Hd; [by eexists|].
  destruct d as [|c d]; [by apply elem_of_nil in Hd|]. cbn [strncpy].
  destruct (Z.eqb_spec c 0); [by eexists|]. apply elem_of_cons in Hd as [?|Hd]; [congruence|].
  destruct (IH d Hd) as [bs ->]. by eexists.
Qed.

Lemma cstring_some d : 0 ∈ d -> exists c, cstring d = Some c.
Proof.
  induction d as [|c d IH]; intros Hd; [by apply elem_of_nil in Hd|]. cbn [cstring].
  destruct (Z.eqb_spec c 0); [by eexists|]. apply elem_of_cons in Hd as [?|Hd]; [congruence|].
  destruct (IH Hd) as [bs ->]. by eexists.
Qed.

Lemma leaf_string o ty d w : attr_at m o (Leaf ty d) -> w_mem w = m ->
  exists e, string_at (o + 4) w = Ok (d ++ e, w).
Proof.
  intros Hat Hw. pose proof (attr_at_valid _ _ _ Hat) as Hv. pose proof (attr_at_payload_Leaf _ _ _ _ Hat) as Hp.
  pose proof (zlen_payload _ _ Hv) as Hl. rewrite Hp in Hl. destruct Hv as (? & ? & ?).
  exists (drop (length d) (drop (Z.to_nat (o + 4)) m)). unfold string_at.
  rewrite Hw, (proj2 (in_range_true (o + 4) 0 m)) by lia. do 2 f_equal.
  rewrite <- (take_drop (length d) (drop (Z.to_nat (o + 4)) m)) at 1. f_equal.
  rewrite <- Hp at 2. unfold payload, slice. f_equal. unfold zlen in *. lia.
Qed.

Lemma helper_refines o ty l : attr_at m o (Nest ty l) -> wf_helper l ->
  denotes m (nfct_parse_helper o) (tree_helper l).
Proof.
  intros Hat Hl. eapply denotes_nest; [done|done|wf_policy|exact Hat|exact Hl|].
  apply nest_attrs in Hat. eapply denotes_on; [exact Hat|exact Hl|by split|done|].
  intros o1 t Ht _ Hok Hsub Hty. destruct t as [ty1 d|]; [|discriminate Hok]. cbn [leaf].
  apply denotes_steps. apply Forall2_cons_2; [|apply Forall2_cons_2; [|apply Forall2_nil_2]].
  - intros ct w [Hw Ha]. unfold parse_helper_name, wp, bind. change (mnl_attr_get_str o1) with (o1 + 4).
    destruct (leaf_string _ _ _ w Ht Hw) as [e ->]. unfold copy_helper_name.
    change (Z.to_nat NFCT_HELPER_NAME_MAX) with 16%nat. rewrite strncpy_app by (by apply Hsub).
    unfold helper_name_of. destruct (strncpy_nul_some 16 d (Hsub Hty)) as [bs ->]. done.
  - eapply denotes_on; [exact Hat|exact Hl|by split|done|].
    intros o2 t2 Ht2 _ _ Hsub2 Hty2. destruct t2 as [ty2 i|ty2 k2]; [|by destruct Hsub2]. cbn [leaf].
    intros ct w [Hw Ha]. unfold parse_helper_info.
    pose proof (attr_at_valid _ _ _ Ht2) as Hv. pose proof (attr_at_payload_Leaf _ _ _ _ Ht2) as Hp.
    apply wp_bind, wp_payload_len; [by rewrite Hw|]. rewrite Hw, Hp.
    unfold wp, bind, malloc_ok. rewrite Ha. cbn [negb].
    destruct (wp_run _ _ _ (leaf_bytes m o2 ty2 i Ht2 (zlen i) w eq_refl Hw)) as (v & w' & -> & -> & ->).
    done.
Qed.

Lemma secctx_refines o ty l : attr_at m o (Nest ty l) -> wf_secctx l ->
  denotes m (nfct_parse_secctx o) (tree_secctx l).
Proof.
  intros Hat Hl. eapply denotes_nest; [done|done|wf_policy|exact Hat|exact Hl|].
  apply nest_attrs in Hat. eapply denotes_on; [exact Hat|exact Hl|by split|done|].
  intros o1 t Ht _ Hok Hsub Hty. destruct t as [ty1 d|]; [|discriminate Hok]. cbn [leaf].
  intros ct w [Hw Ha]. unfold parse_secctx_name, wp, bind. change (mnl_attr_get_payload o1) with (o1 + 4).
  destruct (leaf_string _ _ _ w Ht Hw) as [e ->]. unfold strdup. rewrite cstring_app by (by apply Hsub).
  destruct (cstring_some d (Hsub Hty)) as [c ->]. unfold bind, malloc_ok. by rewrite Ha.
Qed.

(** *** Labels *)

Lemma words_bytes_zeros n : words_bytes (replicate n 0) = replicate (4 * n) 0.
Proof.
  unfold words_bytes. induction n as [|n IH]; [done|]. cbn [replicate map concat]. rewrite IH.
  by replace (4 * S n)%nat with (4 + 4 * n)%nat by lia.
Qed.

Lemma labels_words (d : list Z) : 0 < zlen d <= 8192 ->
  let words := DIV_ROUND_UP (zlen d * 8) 32 in zlen d <= 4 * words /\ 1 <= words <= 2048.
Proof.
  intros. unfold words, DIV_ROUND_UP.
  pose proof (Z.div_mod (zlen d * 8 + 32 - 1) 32 ltac:(lia)).
  pose proof (Z.mod_pos_bound (zlen d * 8 + 32 - 1) 32 ltac:(lia)). lia.
Qed.

Lemma labels_refines o ty d : attr_at m o (Leaf ty d) -> zlen d <= 8192 ->
  denotes m (nfct_parse_labels o) (tree_labels d).
Proof.
  intros Ht Hd ct w [Hw Ha]. unfold nfct_parse_labels, tree_labels.
  pose proof (attr_at_valid _ _ _ Ht) as Hv. pose proof (attr_at_payload_Leaf _ _ _ _ Ht) as Hp.
  apply wp_bind, wp_payload_len; [by rewrite Hw|]. rewrite Hw, Hp. pose proof (zlen_nonneg d).
  destruct (Z.eqb_spec (zlen d) 0); [by apply wp_ret|].
  unfold nfct_bitmask_new. rewrite (proj2 (Z.ltb_ge 0xffff _)) by lia.
  replace (zlen d * 8 - 1 + 1) with (zlen d * 8) by lia.
  destruct (labels_words d ltac:(lia)) as [Hlen Hwords]. cbn zeta in *.
  set (words := DIV_ROUND_UP (zlen d * 8) 32) in *.
  apply wp_bind. unfold wp at 1, bind at 1, malloc_ok. rewrite Ha. cbn [ret].
  apply wp_bind. eapply wp_mono; [by apply (leaf_bytes m o ty d)|]. intros v w' [-> ->].
  apply wp_bind. unfold bitmask_memcpy. cbn [bm_bits bm_words].
  rewrite zlen_words_bytes, zlen_replicate, Z2Nat.id, (proj2 (Z.leb_le _ _)) by lia.
  apply wp_ret. rewrite words_bytes_zeros, length_replicate.
  replace (4 * Z.to_nat words)%nat with (Z.to_nat (4 * words)) by lia. done.
Qed.

(** *** The message *)

Lemma ct_tuple_refines l3num dir o ty l : attr_at m o (Nest ty l) -> wf_tuple l ->
  denotes m (parse_ct_tuple l3num dir o) (tree_ct_tuple l3num dir l).
Proof.
  intros Hat Hl ct w Hw. unfold parse_ct_tuple, tree_ct_tuple. apply wp_bind.
  eapply wp_mono; [by eapply tuple_refines|]. intros [r [t set]] w' (-> & E & Hw').
  apply wp_ret. split; [done|]. split; [|done]. by rewrite <- E.
Qed.

Lemma payload_refines p l l3num : 0 <= p -> attrs_at m p l -> wf_ct l ->
  denotes m (nfct_payload_parse p (tlvs_size l) l3num) (tree_parse l3num l).
Proof.
  intros Hp Hat Hl ct w Hw. unfold nfct_payload_parse. apply wp_bind.
  eapply wp_mono.
  { eapply (fill_payload m Hz CTA_MAX (CTA_MAX + 1)); [done|wf_policy|done|done|exact Hat|exact Hl]. }
  intros [r tb] w' (Hr & Hw' & ->). rewrite (proj2 (Z.ltb_ge r 0)) by lia.
  revert ct w' Hw'. clear w Hw r Hr. fold (denotes m (steps (payload_steps (tb_of CTA_MAX (CTA_MAX + 1) (offs p l)) l3num)) (tree_parse l3num l)).
  tree_entries Hat Hl.
  1-3: tree_nest; eapply ct_tuple_refines; [done|]; apply Hsub; cbn in Hty; by rewrite Hty.
  1-2: tree_nest; eapply nat_seq_refines; [done|]; apply Hsub; cbn in Hty; by rewrite Hty.
  1: tree_assign.
  1: tree_nest; eapply protoinfo_refines; [done|]; by apply Hsub.
  1-3: tree_assign.
  1-2: tree_nest; eapply counters_refines; [done|]; apply Hsub; cbn in Hty; by rewrite Hty.
  1-2: tree_assign.
  1: tree_nest; eapply helper_refines; [done|]; by apply Hsub.
  1: tree_assign.
  1: tree_nest; eapply secctx_refines; [done|]; by apply Hsub.
  1: tree_nest; eapply timestamp_refines; [done|]; by apply Hsub.
  1: destruct t as [ty d|ty k]; [|by destruct Hsub]; eapply labels_refines; [done|by apply Hsub].
  destruct t as [ty d|ty k]; [by destruct Hsub|]. eapply synproxy_refines; [done|]; by apply Hsub.
Qed.
End Refines.

Lemma nlmsg_parse_run nlh l ct w :
  let m := w_mem w in
  zlen m < 2 ^ 31 - 4 -> 0 <= nlh -> rd 4 nlh m = 20 + tlvs_size l ->
  nlh + 20 <= zlen m -> w_alloc w = [] -> attrs_at m (nlh + 20) l -> wf_ct l ->
  exists w', nfct_nlmsg_parse nlh ct w = Ok (0, tree_parse (rd 1 (nlh + 16) m) l ct, w') /\ w_mem w' = m.
Proof.
  intros m Hz Hn Hlen Hfit Ha Hat Hwf. unfold nfct_nlmsg_parse, bind, mnl_nlmsg_get_payload_len, nlmsg_len, load32, load8.
  pose proof (tlvs_size_nonneg l). pose proof (attrs_at_bound _ _ _ Hat).
  unfold bind. rewrite load_ok by (fold m; lia). fold m. rewrite Hlen. unfold ret.
  change (mnl_nlmsg_get_payload nlh) with (nlh + 16). rewrite load_ok by (fold m; lia). fold m.
  change MNL_NLMSG_HDRLEN with 16. change sizeof_nfgenmsg with 4.
  rewrite (wrap_small 64 (20 + tlvs_size l - 16)), wrap_small by lia.
  replace (20 + tlvs_size l - 16 - 4) with (tlvs_size l) by lia.
  replace (nlh + 16 + 4) with (nlh + 20) by lia.
  destruct (wp_run _ _ _ (payload_refines m Hz (nlh + 20) l (rd 1 (nlh + 16) m) ltac:(lia) Hat Hwf ct w
              (conj eq_refl Ha))) as ([r ct'] & w' & -> & -> & -> & Hw' & _).
  by exists w'.
Qed.

(** C13: [nfct_nlmsg_parse] refines the abstract parser: on a message of family
    [fam] whose payload is the encoding of a well-formed attribute tree, when no
    allocation fails, it returns 0 and the object is the one [tree_parse]
    computes from the tree (the last attribute of a type counts, unknown types
    are skipped, integers are converted from network byte order, every field
    that is read has its presence bit set). *)
Theorem nfct_nlmsg_parse_refines nlh l ct w :
  let m := w_mem w in
  zlen m < 2 ^ 31 - 4 -> 0 <= nlh -> rd 4 nlh m = 20 + tlvs_size l ->
  nlh + 20 <= zlen m -> w_alloc w = [] -> attrs_at m (nlh + 20) l -> wf_ct l ->
  exists w', nfct_nlmsg_parse nlh ct w = Ok (0, tree_parse (rd 1 (nlh + 16) m) l ct, w') /\ w_mem w' = m.
Proof. apply nlmsg_parse_run. Qed.

(** A message with a tuple and a mark. *)
Definition tree_example : list tlv :=
  [Nest CTA_TUPLE_ORIG [Nest CTA_TUPLE_PROTO [Leaf CTA_PROTO_NUM [IPPROTO_UDP]]];
   Leaf CTA_MARK [0; 0; 0; 7]].
Definition tree_example_bytes : list Z :=
  le_enc 4 44 ++ replicate 12 0 ++ [AF_INET; 0; 0; 0] ++
  le_enc 2 16 ++ le_enc 2 (Z.lor NLA_F_NESTED CTA_TUPLE_ORIG) ++
  le_enc 2 12 ++ le_enc 2 (Z.lor NLA_F_NESTED CTA_TUPLE_PROTO) ++
  le_enc 2 5 ++ le_enc 2 CTA_PROTO_NUM ++ [IPPROTO_UDP; 0; 0; 0] ++
  le_enc 2 8 ++ le_enc 2 CTA_MARK ++ [0; 0; 0; 7].

Lemma tree_example_wf : wf_ct tree_example.
Proof.
  apply Forall_cons_2; [|apply Forall_cons_2; [|apply Forall_nil_2]]; right; (split; [done|]; split; [done|]).
  - split_and!; try done. intros _.
    apply Forall_cons_2; [|apply Forall_nil_2]. right. split; [done|]. split; [done|]. split; [done|].
    intros _. apply Forall_cons_2; [|apply Forall_nil_2]. by right.
  - done.
Qed.

Lemma nfct_nlmsg_parse_refines_witness :
  exists w', nfct_nlmsg_parse 0 zero_ct (mk_world tree_example_bytes 0 []) =
    Ok (0, tree_parse AF_INET tree_example zero_ct, w') /\ w_mem w' = tree_example_bytes.
Proof.
  apply (nfct_nlmsg_parse_refines 0 tree_example zero_ct (mk_world tree_example_bytes 0 [])); try done.
  apply tree_example_wf.
Defined.
