(* ===== verification/CtWire.v ===== *)
(** Which attributes of an object a message carries, and what the abstract
    parser makes of the tree that the builder emits: the presence bits and the
    values that arrive. *)
From S2P Require Import Prelude CMonad MnlMsg MnlAttr Tlv TlvParse Bitops CtObject CtSetter CtGetter CtCopy CtApi.
From S2P Require Import CtAttrs CtCompare CtObjopt Ctnl CtBuild CtBuildProps CtParse CtParseSafe TlvTable CtParseTree.
Open Scope c_scope.

(** ** What a message carries *)

Definition opt_attrs (b : bool) (l : list nf_conntrack_attr) : list nf_conntrack_attr := if b then l else [].

Definition attr3 {A} (dir : tuple_dir) (o r ma : A) : A :=
  match dir with __DIR_ORIG => o | __DIR_REPL => r | __DIR_MASTER => ma end.

(** The attributes of a tuple with an address of the family [AF_INET] or
    [AF_INET6] and a known protocol. *)
Definition tuple_attrs (dir : tuple_dir) (t : __nfct_tuple) (zone : bool) : list nf_conntrack_attr :=
  [l3proto_attr dir] ++
  (if tp_l3protonum t =? AF_INET
   then [attr3 dir ATTR_ORIG_IPV4_SRC ATTR_REPL_IPV4_SRC ATTR_MASTER_IPV4_SRC;
         attr3 dir ATTR_ORIG_IPV4_DST ATTR_REPL_IPV4_DST ATTR_MASTER_IPV4_DST]
   else [attr3 dir ATTR_ORIG_IPV6_SRC ATTR_REPL_IPV6_SRC ATTR_MASTER_IPV6_SRC;
         attr3 dir ATTR_ORIG_IPV6_DST ATTR_REPL_IPV6_DST ATTR_MASTER_IPV6_DST]) ++
  [attr3 dir ATTR_ORIG_L4PROTO ATTR_REPL_L4PROTO ATTR_MASTER_L4PROTO] ++
  (if has_ports (tp_protonum t)
   then [attr3 dir ATTR_ORIG_PORT_SRC ATTR_REPL_PORT_SRC ATTR_MASTER_PORT_SRC;
         attr3 dir ATTR_ORIG_PORT_DST ATTR_REPL_PORT_DST ATTR_MASTER_PORT_DST]
   else [ATTR_ICMP_TYPE; ATTR_ICMP_CODE; ATTR_ICMP_ID]) ++
  match dir with
  | __DIR_ORIG => opt_attrs zone [ATTR_ORIG_ZONE]
  | __DIR_REPL => opt_attrs zone [ATTR_REPL_ZONE]
  | __DIR_MASTER => []
  end.

Definition repl_sent (ct : nf_conntrack) : bool := any_set repl_tuple_attrs ct.
Definition master_sent (ct : nf_conntrack) : bool :=
  any_set master_tuple_attrs ct && bool_decide (is_Some (tuple_tlvs (ct_master ct))).

Definition protoinfo_attrs (ct : nf_conntrack) : list nf_conntrack_attr :=
  let p := tp_protonum (ct_orig ct) in
  if p =? IPPROTO_TCP then
    opt_attrs (attr_is_set ATTR_TCP_STATE ct) [ATTR_TCP_STATE] ++
    opt_attrs (attr_is_set ATTR_TCP_WSCALE_ORIG ct) [ATTR_TCP_WSCALE_ORIG] ++
    opt_attrs (attr_is_set ATTR_TCP_WSCALE_REPL ct) [ATTR_TCP_WSCALE_REPL] ++
    opt_attrs (attr_is_set ATTR_TCP_FLAGS_ORIG ct && attr_is_set ATTR_TCP_MASK_ORIG ct)
      [ATTR_TCP_FLAGS_ORIG; ATTR_TCP_MASK_ORIG] ++
    opt_attrs (attr_is_set ATTR_TCP_FLAGS_REPL ct && attr_is_set ATTR_TCP_MASK_REPL ct)
      [ATTR_TCP_FLAGS_REPL; ATTR_TCP_MASK_REPL]
  else if p =? IPPROTO_SCTP then
    opt_attrs (attr_is_set ATTR_SCTP_STATE ct) [ATTR_SCTP_STATE] ++
    opt_attrs (attr_is_set ATTR_SCTP_VTAG_ORIG ct) [ATTR_SCTP_VTAG_ORIG] ++
    opt_attrs (attr_is_set ATTR_SCTP_VTAG_REPL ct) [ATTR_SCTP_VTAG_REPL]
  else if p =? IPPROTO_DCCP then
    opt_attrs (attr_is_set ATTR_DCCP_STATE ct) [ATTR_DCCP_STATE] ++
    opt_attrs (attr_is_set ATTR_DCCP_ROLE ct) [ATTR_DCCP_ROLE] ++
    opt_attrs (attr_is_set ATTR_DCCP_HANDSHAKE_SEQ ct) [ATTR_DCCP_HANDSHAKE_SEQ]
  else [].

Definition orig_natseq_attrs : list nf_conntrack_attr :=
  [ATTR_ORIG_NAT_SEQ_CORRECTION_POS; ATTR_ORIG_NAT_SEQ_OFFSET_BEFORE; ATTR_ORIG_NAT_SEQ_OFFSET_AFTER].
Definition repl_natseq_attrs : list nf_conntrack_attr :=
  [ATTR_REPL_NAT_SEQ_CORRECTION_POS; ATTR_REPL_NAT_SEQ_OFFSET_BEFORE; ATTR_REPL_NAT_SEQ_OFFSET_AFTER].
Definition synproxy_attrs : list nf_conntrack_attr :=
  [ATTR_SYNPROXY_ISN; ATTR_SYNPROXY_ITS; ATTR_SYNPROXY_TSOFF].

(** All the attributes of the list are present. *)
Definition all_set (l : list nf_conntrack_attr) (ct : nf_conntrack) : bool :=
  forallb (fun a => attr_is_set a ct) l.

(** The attributes that arrive.  The translation blocks and the mask of the
    labels are sent but the parser does not read them; counters, use count,
    identifier, security context and timestamps are not sent. *)
Definition wire_attrs (ct : nf_conntrack) : list nf_conntrack_attr :=
  tuple_attrs __DIR_ORIG (ct_orig ct) (attr_is_set ATTR_ORIG_ZONE ct) ++
  opt_attrs (repl_sent ct) (tuple_attrs __DIR_REPL (ct_repl ct) (attr_is_set ATTR_REPL_ZONE ct)) ++
  opt_attrs (master_sent ct) (tuple_attrs __DIR_MASTER (ct_master ct) false) ++
  opt_attrs (all_set orig_natseq_attrs ct) orig_natseq_attrs ++
  opt_attrs (all_set repl_natseq_attrs ct) repl_natseq_attrs ++
  opt_attrs (attr_is_set ATTR_STATUS ct) [ATTR_STATUS] ++
  protoinfo_attrs ct ++
  opt_attrs (attr_is_set ATTR_TIMEOUT ct) [ATTR_TIMEOUT] ++
  opt_attrs (attr_is_set ATTR_MARK ct) [ATTR_MARK] ++
  opt_attrs (attr_is_set ATTR_SECMARK ct) [ATTR_SECMARK] ++
  opt_attrs (attr_is_set ATTR_HELPER_NAME ct)
    (ATTR_HELPER_NAME :: opt_attrs (bool_decide (is_Some (ct_helper_info ct))) [ATTR_HELPER_INFO]) ++
  opt_attrs (attr_is_set ATTR_ZONE ct) [ATTR_ZONE] ++
  opt_attrs (attr_is_set ATTR_CONNLABELS ct) [ATTR_CONNLABELS] ++
  opt_attrs (all_set synproxy_attrs ct) synproxy_attrs.

(** The value that arrives: the status is confirmed, the name of the helper is
    cut at its terminator, of the helper data [helper_info_len] bytes are sent;
    everything else arrives as it is. *)
Definition wire_value (a : nf_conntrack_attr) (ct : nf_conntrack) : option cvalue :=
  match a with
  | ATTR_STATUS => Some (VBytes (le_enc 4 (Z.lor (ct_status ct) IPS_CONFIRMED)))
  | ATTR_HELPER_NAME => Some (VBytes (helper_name_of (ct_helper_name ct)))
  | ATTR_HELPER_INFO => VBytes ∘ slice 0 (ct_helper_info_len ct) <$> ct_helper_info ct
  | _ => get_attr_array a ct
  end.

(** ** Presence bits *)

(** [f] sets the presence bits [L] and no other. *)
Definition adds (L : list nf_conntrack_attr) (f : nf_conntrack -> nf_conntrack) : Prop :=
  forall ct, set_ok (ct_set ct) ->
    set_ok (ct_set (f ct)) /\
    forall a, attr_is_set a (f ct) = bool_decide (a ∈ L) || attr_is_set a ct.

Lemma adds_id : adds [] id.
Proof. intros ct Hs. split; [done|]. intros a. by rewrite bool_decide_eq_false_2 by apply not_elem_of_nil. Qed.

Lemma adds_comp L K f g : adds L f -> adds K g -> adds (L ++ K) (fun ct => g (f ct)).
Proof.
  intros Hf Hg ct Hs. destruct (Hf ct Hs) as [Hs1 H1]. destruct (Hg _ Hs1) as [Hs2 H2].
  split; [done|]. intros a. rewrite H2, H1, orb_assoc. f_equal.
  rewrite (bool_decide_ext _ _ (elem_of_app L K a)), bool_decide_or. apply orb_comm.
Qed.

Lemma adds_attr_set a : adds [a] (attr_set a).
Proof.
  intros ct Hs. split; [by apply (set_ok_set_bit _ (ct_set ct))|]. intros b.
  rewrite attr_is_set_attr_set by done. f_equal. apply bool_decide_ext. by rewrite list_elem_of_singleton.
Qed.

Lemma adds_setting L f : (forall ct, ct_set (f ct) = ct_set ct) -> adds L (setting L f).
Proof.
  intros Hf ct Hs. unfold setting. rewrite <- (Hf ct) in Hs.
  assert (forall a, attr_is_set a ct = attr_is_set a (f ct)) as E by (intros; unfold attr_is_set; by rewrite Hf).
  setoid_rewrite E. clear E. revert Hs. generalize (f ct). clear. induction L as [|b L IH]; intros ct Hs.
  - by apply adds_id.
  - cbn [foldl]. destruct (adds_attr_set b ct Hs) as [Hs1 H1]. destruct (IH _ Hs1) as [Hs2 H2].
    split; [done|]. intros a. rewrite H2, H1, orb_assoc. f_equal.
    rewrite (bool_decide_ext _ _ (elem_of_cons L a b)), bool_decide_or, orb_comm. f_equal.
    apply bool_decide_ext. by rewrite list_elem_of_singleton.
Qed.

Lemma adds_seq Ls fs : Forall2 adds Ls fs -> adds (concat Ls) (seq fs).
Proof.
  induction 1 as [|L f Ls fs Hf _ IH]; [apply adds_id|]. apply (adds_comp _ _ f (seq fs)); done.
Qed.

Lemma adds_on (b : bool) x L ty (g : tlv -> nf_conntrack -> nf_conntrack) l :
  find_tlv ty l = (if b then Some x else None) -> adds L (g x) -> adds (opt_attrs b L) (on_tlv ty g l).
Proof. intros E H. unfold on_tlv. rewrite E. destruct b; [done|apply adds_id]. Qed.

Lemma adds_on_none ty (g : tlv -> nf_conntrack -> nf_conntrack) l :
  find_tlv ty l = None -> adds [] (on_tlv ty g l).
Proof. intros E. unfold on_tlv. rewrite E. apply adds_id. Qed.

(** ** Looking up the attributes of the message *)

Lemma find_opt ty b t : find_tlv ty (opt_tlvs b [t]) = if b && (tlv_type t =? ty) then Some t else None.
Proof. destruct b; [|done]. cbn. by destruct (_ =? _). Qed.

Lemma if_same {A} (b : bool) (x : A) : (if b then x else x) = x.
Proof. by destruct b. Qed.

(** Evaluate the comparisons of attribute types. *)
Ltac eval_types :=
  repeat match goal with
  | |- context [?x =? ?y] =>
      let b := eval vm_compute in (x =? y) in
      match b with true => change (x =? y) with true | false => change (x =? y) with false end
  end.

Ltac find_simpl :=
  rewrite ?find_tlv_app, ?find_opt; cbn [tlv_type u8 u16 u32 u64 synproxy_tlv help_tlv]; eval_types;
  rewrite ?andb_false_r, ?andb_true_r; cbn [find_tlv].

(** The nest of the protocol information and its only attribute. *)
Definition pinfo_type (ct : nf_conntrack) : Z :=
  let p := tp_protonum (ct_orig ct) in
  if p =? IPPROTO_TCP then CTA_PROTOINFO_TCP else if p =? IPPROTO_SCTP then CTA_PROTOINFO_SCTP
  else CTA_PROTOINFO_DCCP.
Definition pinfo_list (ct : nf_conntrack) : list tlv :=
  let p := tp_protonum (ct_orig ct) in
  if p =? IPPROTO_TCP then protoinfo_tcp_tlvs ct else if p =? IPPROTO_SCTP then protoinfo_sctp_tlvs ct
  else protoinfo_dccp_tlvs ct.
Definition pinfo_sent (ct : nf_conntrack) : bool :=
  let p := tp_protonum (ct_orig ct) in
  if p =? IPPROTO_TCP then
    any_set [ATTR_TCP_STATE; ATTR_TCP_FLAGS_ORIG; ATTR_TCP_FLAGS_REPL; ATTR_TCP_MASK_ORIG;
             ATTR_TCP_MASK_REPL; ATTR_TCP_WSCALE_ORIG; ATTR_TCP_WSCALE_REPL] ct
  else if p =? IPPROTO_SCTP then any_set [ATTR_SCTP_STATE; ATTR_SCTP_VTAG_ORIG; ATTR_SCTP_VTAG_REPL] ct
  else if p =? IPPROTO_DCCP then any_set [ATTR_DCCP_STATE; ATTR_DCCP_ROLE; ATTR_DCCP_HANDSHAKE_SEQ] ct
  else false.

Lemma protoinfo_tlvs_eq ct :
  protoinfo_tlvs ct = opt_tlvs (pinfo_sent ct) [Nest CTA_PROTOINFO [Nest (pinfo_type ct) (pinfo_list ct)]].
Proof. unfold protoinfo_tlvs, pinfo_sent, pinfo_type, pinfo_list. by repeat case_match. Qed.

(** The labels and the mask, which the parser skips. *)
Definition labels_data (ct : nf_conntrack) : list Z :=
  match ct_connlabels ct with Some b => words_bytes (bm_bits b) | None => [] end.
Definition mask_tlvs (ct : nf_conntrack) : list tlv :=
  match ct_connlabels ct, ct_connlabels_mask ct with
  | Some b, Some m => opt_tlvs (attr_is_set ATTR_CONNLABELS_MASK ct && (bm_words b =? bm_words m))
                        [Leaf CTA_LABELS_MASK (words_bytes (bm_bits m))]
  | _, _ => []
  end.

Section Sent.
Context (ct : nf_conntrack) (Hok : ct_ok ct) (Hbo : build_ok ct).
(** The builder succeeds. *)
Context (Hsend : fst (ct_tlvs ct) = 0).

Definition tuple_list (t : __nfct_tuple) (zone : bool) : list tlv :=
  default [] (tuple_tlvs t) ++ opt_tlvs zone [u16 CTA_TUPLE_ZONE (htons (tp_zone t))].

Lemma sent_labels : attr_is_set ATTR_CONNLABELS ct = true ->
  labels_tlvs ct = [Leaf CTA_LABELS (labels_data ct)] ++ mask_tlvs ct.
Proof.
  intros H. destruct (bo_labels _ Hbo H) as [b Hb]. unfold labels_tlvs, labels_data, mask_tlvs. rewrite Hb.
  by destruct (ct_connlabels_mask ct).
Qed.

Lemma find_labels ty : find_tlv ty (opt_tlvs (attr_is_set ATTR_CONNLABELS ct) (labels_tlvs ct)) =
  if attr_is_set ATTR_CONNLABELS ct then
    if (CTA_LABELS_MASK =? ty) then find_tlv ty (mask_tlvs ct)
    else if CTA_LABELS =? ty then Some (Leaf CTA_LABELS (labels_data ct)) else None
  else None.
Proof.
  destruct (attr_is_set ATTR_CONNLABELS ct) eqn:E; [|done]. cbn [opt_tlvs]. rewrite sent_labels by done.
  rewrite find_tlv_app. cbn [find_tlv tlv_type]. unfold mask_tlvs.
  destruct (ct_connlabels ct), (ct_connlabels_mask ct); cbn [find_tlv]; rewrite ?find_opt; cbn [tlv_type].
  all: destruct (Z.eqb_spec CTA_LABELS_MASK ty) as [<-|]; rewrite ?andb_false_r, ?andb_true_r; eval_types; try done.
  by destruct (_ && _).
Qed.

Definition master_list : list tlv := default [] (tuple_tlvs (ct_master ct)).

(** The message, with every optional attribute as a segment. *)
Lemma sent_eq : snd (ct_tlvs ct) =
  opt_tlvs true [Nest CTA_TUPLE_ORIG (tuple_list (ct_orig ct) (attr_is_set ATTR_ORIG_ZONE ct))] ++
  opt_tlvs (repl_sent ct) [Nest CTA_TUPLE_REPLY (tuple_list (ct_repl ct) (attr_is_set ATTR_REPL_ZONE ct))] ++
  rest_tlvs ct.
Proof.
  revert Hsend. unfold ct_tlvs, zoned_tuple_tlvs, tuple_list, repl_sent.
  destruct (tuple_tlvs (ct_orig ct)) as [lo|]; [|done].
  destruct (any_set repl_tuple_attrs ct); [|done].
  by destruct (tuple_tlvs (ct_repl ct)) as [lr|].
Qed.

Lemma sent_master : opt_tlvs (any_set master_tuple_attrs ct)
    (from_option (fun l => [Nest CTA_TUPLE_MASTER l]) [] (tuple_tlvs (ct_master ct))) =
  opt_tlvs (master_sent ct) [Nest CTA_TUPLE_MASTER master_list].
Proof.
  unfold master_sent, master_list. destruct (any_set master_tuple_attrs ct); [|done]. cbn [andb opt_tlvs].
  by destruct (tuple_tlvs (ct_master ct)).
Qed.

Ltac find_sent :=
  rewrite sent_eq; unfold rest_tlvs; rewrite sent_master, protoinfo_tlvs_eq;
  unfold nat_tlvs; rewrite ?find_tlv_app, find_labels; find_simpl; rewrite ?if_same;
  try reflexivity;
  match goal with |- context [if ?b then _ else _] => by destruct b end.

Lemma find_orig : find_tlv CTA_TUPLE_ORIG (snd (ct_tlvs ct)) =
  Some (Nest CTA_TUPLE_ORIG (tuple_list (ct_orig ct) (attr_is_set ATTR_ORIG_ZONE ct))).
Proof. find_sent. Qed.
Lemma find_repl : find_tlv CTA_TUPLE_REPLY (snd (ct_tlvs ct)) =
  if repl_sent ct then Some (Nest CTA_TUPLE_REPLY (tuple_list (ct_repl ct) (attr_is_set ATTR_REPL_ZONE ct))) else None.
Proof. find_sent. Qed.
Lemma find_master : find_tlv CTA_TUPLE_MASTER (snd (ct_tlvs ct)) =
  if master_sent ct then Some (Nest CTA_TUPLE_MASTER master_list) else None.
Proof. find_sent. Qed.
Lemma find_natseq_orig : find_tlv CTA_NAT_SEQ_ADJ_ORIG (snd (ct_tlvs ct)) =
  if attr_is_set ATTR_ORIG_NAT_SEQ_CORRECTION_POS ct && attr_is_set ATTR_ORIG_NAT_SEQ_OFFSET_BEFORE ct
     && attr_is_set ATTR_ORIG_NAT_SEQ_OFFSET_AFTER ct then Some (Nest CTA_NAT_SEQ_ADJ_ORIG (natseq_tlvs (d_orig (ct_natseq ct)))) else None.
Proof. find_sent. Qed.
Lemma find_natseq_repl : find_tlv CTA_NAT_SEQ_ADJ_REPLY (snd (ct_tlvs ct)) =
  if attr_is_set ATTR_REPL_NAT_SEQ_CORRECTION_POS ct && attr_is_set ATTR_REPL_NAT_SEQ_OFFSET_BEFORE ct
     && attr_is_set ATTR_REPL_NAT_SEQ_OFFSET_AFTER ct then Some (Nest CTA_NAT_SEQ_ADJ_REPLY (natseq_tlvs (d_repl (ct_natseq ct)))) else None.
Proof. find_sent. Qed.
Lemma find_status : find_tlv CTA_STATUS (snd (ct_tlvs ct)) =
  if attr_is_set ATTR_STATUS ct then Some (u32 CTA_STATUS (htonl (Z.lor (ct_status ct) IPS_CONFIRMED))) else None.
Proof. find_sent. Qed.
Lemma find_protoinfo : find_tlv CTA_PROTOINFO (snd (ct_tlvs ct)) =
  if pinfo_sent ct then Some (Nest CTA_PROTOINFO [Nest (pinfo_type ct) (pinfo_list ct)]) else None.
Proof. find_sent. Qed.
Lemma find_timeout : find_tlv CTA_TIMEOUT (snd (ct_tlvs ct)) =
  if attr_is_set ATTR_TIMEOUT ct then Some (u32 CTA_TIMEOUT (htonl (ct_timeout ct))) else None.
Proof. find_sent. Qed.
Lemma find_mark : find_tlv CTA_MARK (snd (ct_tlvs ct)) =
  if attr_is_set ATTR_MARK ct then Some (u32 CTA_MARK (htonl (ct_mark ct))) else None.
Proof. find_sent. Qed.
Lemma find_secmark : find_tlv CTA_SECMARK (snd (ct_tlvs ct)) =
  if attr_is_set ATTR_SECMARK ct then Some (u32 CTA_SECMARK (htonl (ct_secmark ct))) else None.
Proof. find_sent. Qed.
Lemma find_help : find_tlv CTA_HELP (snd (ct_tlvs ct)) =
  if attr_is_set ATTR_HELPER_NAME ct then Some (help_tlv ct) else None.
Proof. find_sent. Qed.
Lemma find_zone : find_tlv CTA_ZONE (snd (ct_tlvs ct)) =
  if attr_is_set ATTR_ZONE ct then Some (u16 CTA_ZONE (htons (ct_zone ct))) else None.
Proof. find_sent. Qed.
Lemma find_labels_data : find_tlv CTA_LABELS (snd (ct_tlvs ct)) =
  if attr_is_set ATTR_CONNLABELS ct then Some (Leaf CTA_LABELS (labels_data ct)) else None.
Proof. find_sent. Qed.
Lemma find_synproxy : find_tlv CTA_SYNPROXY (snd (ct_tlvs ct)) =
  if attr_is_set ATTR_SYNPROXY_ISN ct && attr_is_set ATTR_SYNPROXY_ITS ct && attr_is_set ATTR_SYNPROXY_TSOFF ct then Some (synproxy_tlv ct) else None.
Proof. find_sent. Qed.

(** The attributes that are never sent. *)
Lemma find_absent ty :
  ty ∈ [CTA_COUNTERS_ORIG; CTA_COUNTERS_REPLY; CTA_USE; CTA_ID; CTA_SECCTX; CTA_TIMESTAMP] ->
  find_tlv ty (snd (ct_tlvs ct)) = None.
Proof.
  intros H. repeat (apply elem_of_cons in H as [->|H]); [find_sent..|]. by apply elem_of_nil in H.
Qed.
End Sent.

(** ** Tuples *)

(** An address as it arrives: an IPv4 address leaves the rest of the union. *)
Definition recv_addr (t : __nfct_tuple) (u : list Z) : list Z :=
  if tp_l3protonum t =? AF_INET then set_addr_v4 (addr_v4 u) zero_addr else u.

Definition recv_tuple (fam : Z) (t : __nfct_tuple) (zone : bool) : __nfct_tuple :=
  mk_tuple (recv_addr t (tp_src t)) (recv_addr t (tp_dst t)) fam (tp_protonum t)
    (if zone then tp_zone t else 0) (tp_l4src t) (tp_l4dst t).

Definition set_bits (L : list nf_conntrack_attr) (s : list Z) : list Z :=
  foldl (fun s a => or_bit (attr_idx a) s) s L.

Lemma dec_enc_uint n w v : uint w v -> w = 8 * Z.of_nat n -> le_dec (le_enc n v) = v.
Proof. intros H ->. by apply le_dec_enc_small. Qed.

Lemma net_enc n w v : uint w v -> w = 8 * Z.of_nat n -> bswap n (le_dec (le_enc n (bswap n v))) = v.
Proof. intros H ->. rewrite le_dec_enc_small by apply bswap_range. by apply bswap_invol. Qed.

(** A field of a union, sent and stored again. *)
Lemma enc_get n o N u : blob N u -> 0 <= o -> o + Z.of_nat n <= N -> le_enc n (u_get n o u) = slice o (Z.of_nat n) u.
Proof.
  intros [Hl Hb] Ho Hn. unfold u_get, rd.
  assert (length (slice o (Z.of_nat n) u) = n) as E.
  { pose proof (zlen_slice o (Z.of_nat n) u). unfold zlen in *. lia. }
  rewrite <- E at 1. apply le_enc_dec. by apply slice_bytes.
Qed.

Lemma u_set_sent n o N u v : blob N u -> 0 <= o -> o + Z.of_nat n <= N ->
  u_set n o (le_dec (le_enc n (u_get n o u))) v = splice o (slice o (Z.of_nat n) u) v.
Proof.
  intros Hu Ho Hn. unfold u_set. f_equal. rewrite le_dec_enc, le_enc_mod. by eapply enc_get.
Qed.

Lemma blob2 d : blob 2 d -> exists a b, d = [a; b].
Proof. intros [Hl _]. unfold zlen in Hl. destruct d as [|a [|b [|c d]]]; cbn in Hl; try lia. eauto. Qed.

Lemma l4dst_restore d : blob 2 d -> set_l4dst_all (le_dec (le_enc 2 (l4dst_all d))) [0; 0] = d.
Proof.
  intros Hd. unfold set_l4dst_all, l4dst_all. rewrite (u_set_sent 2 0 2) by (done || lia).
  destruct (blob2 d Hd) as (a & b & ->). done.
Qed.

Lemma icmp_restore d : blob 2 d ->
  set_icmp_code (le_dec (le_enc 1 (icmp_code d))) (set_icmp_type (le_dec (le_enc 1 (icmp_type d))) [0; 0]) = d.
Proof.
  intros Hd. unfold set_icmp_code, set_icmp_type, icmp_code, icmp_type.
  rewrite !(u_set_sent 1 _ 2) by (done || lia). destruct (blob2 d Hd) as (a & b & ->). done.
Qed.

Lemma v4_restore u v : blob 16 u -> set_addr_v4 (le_dec (le_enc 4 (addr_v4 u))) v = set_addr_v4 (addr_v4 u) v.
Proof.
  intros Hu. unfold set_addr_v4, addr_v4. rewrite (u_set_sent 4 0 16) by (done || lia).
  unfold u_set. by rewrite (enc_get 4 0 16) by (done || lia).
Qed.

Lemma tree_ip_sent dir fam t k s : tuple_ok t -> ip_tlvs t = Some k ->
  tree_ip dir k (with_tp_l3protonum fam zero_tuple, s) =
  (mk_tuple (recv_addr t (tp_src t)) (recv_addr t (tp_dst t)) fam 0 0 0 [0; 0],
   set_bits (if tp_l3protonum t =? AF_INET
     then [attr3 dir ATTR_ORIG_IPV4_SRC ATTR_REPL_IPV4_SRC ATTR_MASTER_IPV4_SRC;
           attr3 dir ATTR_ORIG_IPV4_DST ATTR_REPL_IPV4_DST ATTR_MASTER_IPV4_DST]
     else [attr3 dir ATTR_ORIG_IPV6_SRC ATTR_REPL_IPV6_SRC ATTR_MASTER_IPV6_SRC;
           attr3 dir ATTR_ORIG_IPV6_DST ATTR_REPL_IPV6_DST ATTR_MASTER_IPV6_DST]) s).
Proof.
  intros (Hs & Hd & _) Hk. unfold ip_tlvs in Hk. unfold recv_addr.
  destruct (tp_l3protonum t =? AF_INET); [|destruct (tp_l3protonum t =? AF_INET6); [|done]];
    injection Hk as <-; unfold tree_ip, seq, on_tlv; cbn -[le_dec le_enc set_addr_v4 addr_v4 or_bit].
  - unfold int, upd_tuple. cbn -[le_dec le_enc set_addr_v4 addr_v4 or_bit].
    rewrite !v4_restore by done. by destruct dir.
  - by destruct dir.
Qed.

Lemma tree_proto_sent dir fam t u v k s : tuple_ok t -> proto_tlvs t = Some k ->
  tree_proto dir k (mk_tuple u v fam 0 0 0 [0; 0], s) =
  (mk_tuple u v fam (tp_protonum t) 0 (tp_l4src t) (tp_l4dst t),
   set_bits ([attr3 dir ATTR_ORIG_L4PROTO ATTR_REPL_L4PROTO ATTR_MASTER_L4PROTO] ++
     if has_ports (tp_protonum t)
     then [attr3 dir ATTR_ORIG_PORT_SRC ATTR_REPL_PORT_SRC ATTR_MASTER_PORT_SRC;
           attr3 dir ATTR_ORIG_PORT_DST ATTR_REPL_PORT_DST ATTR_MASTER_PORT_DST]
     else [ATTR_ICMP_TYPE; ATTR_ICMP_CODE; ATTR_ICMP_ID]) s).
Proof.
  intros (_ & _ & _ & Hp & _ & H4 & Hd) Hk. unfold proto_tlvs in Hk.
  pose proof (dec_enc_uint 1 8 _ Hp eq_refl) as E1. pose proof (dec_enc_uint 2 16 _ H4 eq_refl) as E2.
  destruct (has_ports (tp_protonum t)).
  - injection Hk as <-. unfold tree_proto, seq, on_tlv.
    cbn -[le_dec le_enc set_l4dst_all l4dst_all or_bit]. unfold int, upd_tuple, upd_l4dst.
    cbn -[le_dec le_enc set_l4dst_all l4dst_all or_bit]. rewrite E1, E2, l4dst_restore by done. by destruct dir.
  - destruct (tp_protonum t =? IPPROTO_ICMP); [|destruct (tp_protonum t =? IPPROTO_ICMPV6); [|done]];
      injection Hk as <-; unfold tree_proto, seq, on_tlv;
      cbn -[le_dec le_enc set_icmp_type icmp_type set_icmp_code icmp_code or_bit]; unfold int, upd_tuple, upd_l4dst;
      cbn -[le_dec le_enc set_icmp_type icmp_type set_icmp_code icmp_code or_bit];
      rewrite E1, E2, icmp_restore by done; by destruct dir.
Qed.

Lemma set_bits_app L K s : set_bits (L ++ K) s = set_bits K (set_bits L s).
Proof. unfold set_bits. apply foldl_app. Qed.

Lemma tree_tuple_sent dir fam t z s :
  tuple_ok t -> is_Some (tuple_tlvs t) -> (dir = __DIR_MASTER -> z = false) ->
  tree_tuple dir (tuple_list t z) (with_tp_l3protonum fam zero_tuple, s) =
  (recv_tuple fam t z, set_bits (tail (tuple_attrs dir t z)) s).
Proof.
  intros Ht [k Hk] Hz. unfold tuple_list. rewrite Hk. unfold tuple_tlvs in Hk.
  destruct (ip_tlvs t) as [ip|] eqn:Hip; [|done]. destruct (proto_tlvs t) as [pr|] eqn:Hpr; [|done].
  injection Hk as <-. unfold tree_tuple, seq. cbn [default app foldl].
  replace (on_tlv CTA_TUPLE_IP (nested (tree_ip dir)) _) with (tree_ip dir ip)
    by (unfold on_tlv; by destruct z).
  replace (on_tlv CTA_TUPLE_PROTO (nested (tree_proto dir)) _) with (tree_proto dir pr)
    by (unfold on_tlv; by destruct z).
  rewrite (tree_ip_sent _ _ t) by done. rewrite (tree_proto_sent _ _ t) by done. rewrite <- set_bits_app.
  unfold recv_tuple, tuple_attrs. cbn [app tail].
  destruct Ht as (_ & _ & _ & _ & Hzone & _).
  assert (bswap 2 (le_dec (le_enc 2 (htons (tp_zone t)))) = tp_zone t) as E by (by apply (net_enc 2 16)).
  destruct z; unfold on_tlv; cbn -[le_dec le_enc set_bits bswap attr_idx htons] in *.
  - unfold net, upd_tuple. cbn -[le_dec le_enc set_bits bswap attr_idx htons]. rewrite E.
    destruct dir; [| |by discriminate Hz]; by destruct (tp_l3protonum t =? AF_INET), (has_ports (tp_protonum t)).
  - by destruct dir, (tp_l3protonum t =? AF_INET), (has_ports (tp_protonum t)).
Qed.

(** ** The parser on the message, block by block *)

(** [if (b) { f; set the bits L }]. *)
Definition put (b : bool) (L : list nf_conntrack_attr) (f : nf_conntrack -> nf_conntrack)
  : nf_conntrack -> nf_conntrack := if b then setting L f else id.

Lemma foldl_attr_set L c : foldl (fun ct a => attr_set a ct) c L = with_ct_set (set_bits L (ct_set c)) c.
Proof.
  revert c. induction L as [|a L IH]; intros c; [by destruct c as [[]]|]. cbn [foldl]. rewrite IH.
  by destruct c as [[]].
Qed.

(** A tuple that arrives in a zeroed one. *)
Lemma ct_tuple_sent dir fam t z c :
  ct_tuple dir c = zero_tuple -> tuple_ok t -> is_Some (tuple_tlvs t) -> (dir = __DIR_MASTER -> z = false) ->
  tree_ct_tuple fam dir (tuple_list t z) c =
  setting (tuple_attrs dir t z) (with_ct_tuple dir (recv_tuple (wrap 8 fam) t z)) c.
Proof.
  intros Hc Ht Hk Hz. unfold tree_ct_tuple, setting. rewrite Hc, foldl_attr_set.
  set (c1 := attr_set _ _).
  assert (ct_tuple dir c1 = with_tp_l3protonum (wrap 8 fam) zero_tuple) as -> by (by destruct dir, c as [[]]).
  rewrite tree_tuple_sent by done. cbn [fst snd].
  change (tuple_attrs dir t z) with ([l3proto_attr dir] ++ tail (tuple_attrs dir t z)).
  rewrite set_bits_app. cbn [tail]. by destruct dir, c as [[]].
Qed.

(** The fields of the protocol information, in the order of the parser. *)
Definition pinfo_blocks (ct : nf_conntrack) : list (nf_conntrack -> nf_conntrack) :=
  let p := tp_protonum (ct_orig ct) in
  let field b L n o := put b L (upd_protoinfo (splice o (slice o n (ct_protoinfo ct)))) in
  if p =? IPPROTO_TCP then
    [field (attr_is_set ATTR_TCP_STATE ct) [ATTR_TCP_STATE] 1 tcp_state_off;
     field (attr_is_set ATTR_TCP_WSCALE_ORIG ct) [ATTR_TCP_WSCALE_ORIG] 1 (tcp_wscale_off DIR_ORIG);
     field (attr_is_set ATTR_TCP_WSCALE_REPL ct) [ATTR_TCP_WSCALE_REPL] 1 (tcp_wscale_off DIR_REPL);
     field (attr_is_set ATTR_TCP_FLAGS_ORIG ct && attr_is_set ATTR_TCP_MASK_ORIG ct)
       [ATTR_TCP_FLAGS_ORIG; ATTR_TCP_MASK_ORIG] 2 (tcp_flags_value_off DIR_ORIG);
     field (attr_is_set ATTR_TCP_FLAGS_REPL ct && attr_is_set ATTR_TCP_MASK_REPL ct)
       [ATTR_TCP_FLAGS_REPL; ATTR_TCP_MASK_REPL] 2 (tcp_flags_value_off DIR_REPL)]
  else if p =? IPPROTO_SCTP then
    [field (attr_is_set ATTR_SCTP_STATE ct) [ATTR_SCTP_STATE] 1 sctp_state_off;
     field (attr_is_set ATTR_SCTP_VTAG_ORIG ct) [ATTR_SCTP_VTAG_ORIG] 4 (sctp_vtag_off DIR_ORIG);
     field (attr_is_set ATTR_SCTP_VTAG_REPL ct) [ATTR_SCTP_VTAG_REPL] 4 (sctp_vtag_off DIR_REPL)]
  else if p =? IPPROTO_DCCP then
    [field (attr_is_set ATTR_DCCP_STATE ct) [ATTR_DCCP_STATE] 1 dccp_state_off;
     field (attr_is_set ATTR_DCCP_ROLE ct) [ATTR_DCCP_ROLE] 1 dccp_role_off;
     field (attr_is_set ATTR_DCCP_HANDSHAKE_SEQ ct) [ATTR_DCCP_HANDSHAKE_SEQ] 8 dccp_handshake_seq_off]
  else [].

Section Blocks.
Context (ct : nf_conntrack) (Hok : ct_ok ct) (Hbo : build_ok ct) (Hsend : fst (ct_tlvs ct) = 0).
Let sent := snd (ct_tlvs ct).

(** A leaf in network byte order that holds a field. *)
Lemma net_block ty n w (b : bool) L v (upd : Z -> nf_conntrack -> nf_conntrack) :
  find_tlv ty sent = (if b then Some (Leaf ty (le_enc n (bswap n v))) else None) ->
  uint w v -> w = 8 * Z.of_nat n ->
  on_tlv ty (leaf (net n (fun v => setting L (upd v)))) sent = put b L (upd v).
Proof.
  intros E Hv Hw. unfold on_tlv, put. rewrite E. destruct b; [|done]. cbn [leaf]. unfold net.
  by rewrite (net_enc n w) by done.
Qed.

Lemma status_ok : uint 32 (Z.lor (ct_status ct) IPS_CONFIRMED).
Proof.
  pose proof (ok_status _ Hok) as [H1 H2].
  assert (0 <= Z.lor (ct_status ct) IPS_CONFIRMED) as H0 by (apply Z.lor_nonneg; by split).
  split; [done|].
  destruct (Z.eq_dec (Z.lor (ct_status ct) IPS_CONFIRMED) 0) as [->|Hne]; [done|].
  apply Z.log2_lt_pow2; [lia|].
  rewrite Z.log2_lor by done. apply Z.max_lub_lt; [|done].
  destruct (Z.eq_dec (ct_status ct) 0) as [->|]; [done|]. apply Z.log2_lt_pow2; lia.
Qed.

Lemma block_status : on_tlv CTA_STATUS (leaf (net 4 (fun v => setting [ATTR_STATUS] (with_ct_status v)))) sent =
  put (attr_is_set ATTR_STATUS ct) [ATTR_STATUS] (with_ct_status (Z.lor (ct_status ct) IPS_CONFIRMED)).
Proof. apply (net_block _ _ 32); [by apply find_status|apply status_ok|done]. Qed.
Lemma block_timeout : on_tlv CTA_TIMEOUT (leaf (net 4 (fun v => setting [ATTR_TIMEOUT] (with_ct_timeout v)))) sent =
  put (attr_is_set ATTR_TIMEOUT ct) [ATTR_TIMEOUT] (with_ct_timeout (ct_timeout ct)).
Proof. apply (net_block _ _ 32); [by apply find_timeout|apply Hok|done]. Qed.
Lemma block_mark : on_tlv CTA_MARK (leaf (net 4 (fun v => setting [ATTR_MARK] (with_ct_mark v)))) sent =
  put (attr_is_set ATTR_MARK ct) [ATTR_MARK] (with_ct_mark (ct_mark ct)).
Proof. apply (net_block _ _ 32); [by apply find_mark|apply Hok|done]. Qed.
Lemma block_secmark : on_tlv CTA_SECMARK (leaf (net 4 (fun v => setting [ATTR_SECMARK] (with_ct_secmark v)))) sent =
  put (attr_is_set ATTR_SECMARK ct) [ATTR_SECMARK] (with_ct_secmark (ct_secmark ct)).
Proof. apply (net_block _ _ 32); [by apply find_secmark|apply Hok|done]. Qed.
Lemma block_zone : on_tlv CTA_ZONE (leaf (net 2 (fun v => setting [ATTR_ZONE] (with_ct_zone v)))) sent =
  put (attr_is_set ATTR_ZONE ct) [ATTR_ZONE] (with_ct_zone (ct_zone ct)).
Proof. apply (net_block _ _ 16); [by apply find_zone|apply Hok|done]. Qed.

(** *** Sequence adjustment and synproxy *)

Lemma nat_seq_list_sent dir q c : natseq_ok q ->
  tree_nat_seq dir (natseq_tlvs q) c =
  setting (attr3 (match dir with DIR_ORIG => __DIR_ORIG | DIR_REPL => __DIR_REPL end)
             orig_natseq_attrs repl_natseq_attrs []) (upd_natseq dir (fun _ => q)) c.
Proof.
  intros (H1 & H2 & H3). unfold tree_nat_seq, seq, on_tlv, natseq_tlvs.
  cbn -[le_dec le_enc bswap htonl attr_set upd_natseq]. unfold net.
  rewrite !(net_enc 4 32) by done. destruct q, dir, c as [[] ? ? ? ? ? ? ? ? ? ? ? ? ? ? ? [[] []]]; done.
Qed.

Lemma all_set3 a b d c :
  attr_is_set a c && attr_is_set b c && attr_is_set d c = all_set [a; b; d] c.
Proof. cbn. by rewrite andb_true_r, andb_assoc. Qed.

Lemma block_natseq_orig c : on_tlv CTA_NAT_SEQ_ADJ_ORIG (nested (tree_nat_seq DIR_ORIG)) sent c =
  put (all_set orig_natseq_attrs ct) orig_natseq_attrs
    (upd_natseq DIR_ORIG (fun _ => d_orig (ct_natseq ct))) c.
Proof.
  unfold on_tlv, put, sent. rewrite find_natseq_orig by done. rewrite all_set3. fold orig_natseq_attrs.
  destruct (all_set _ ct); [|done]. apply (nat_seq_list_sent DIR_ORIG). apply (ok_natseq _ Hok).
Qed.
Lemma block_natseq_repl c : on_tlv CTA_NAT_SEQ_ADJ_REPLY (nested (tree_nat_seq DIR_REPL)) sent c =
  put (all_set repl_natseq_attrs ct) repl_natseq_attrs
    (upd_natseq DIR_REPL (fun _ => d_repl (ct_natseq ct))) c.
Proof.
  unfold on_tlv, put, sent. rewrite find_natseq_repl by done. rewrite all_set3. fold repl_natseq_attrs.
  destruct (all_set _ ct); [|done]. apply (nat_seq_list_sent DIR_REPL). apply (ok_natseq _ Hok).
Qed.

Lemma block_synproxy c : on_tlv CTA_SYNPROXY (nested tree_synproxy) sent c =
  put (all_set synproxy_attrs ct) synproxy_attrs (with_ct_synproxy (ct_synproxy ct)) c.
Proof.
  unfold on_tlv, put, sent. rewrite find_synproxy by done. rewrite all_set3. fold synproxy_attrs.
  destruct (all_set _ ct); [|done]. cbn [nested synproxy_tlv].
  destruct (ok_synproxy _ Hok) as (H1 & H2 & H3). unfold tree_synproxy, seq, on_tlv.
  cbn -[le_dec le_enc bswap htonl attr_set upd_synproxy]. unfold net.
  rewrite !(net_enc 4 32) by done. by destruct (ct_synproxy ct), c as [[]].
Qed.

(** *** Helper and labels *)

Lemma strncpy_cstring n d c : cstring d = Some c -> strncpy n c = strncpy n d.
Proof.
  revert d c. induction n as [|n IH]; intros [|x d] c; cbn [cstring]; try done.
  destruct (Z.eqb_spec x 0) as [->|Hx]; [by intros [= <-]|].
  destruct (cstring d) as [e|] eqn:E; [|done]. intros [= <-]. cbn [strncpy].
  rewrite (proj2 (Z.eqb_neq x 0)) by done. by rewrite (IH d e).
Qed.

Definition help_blocks : list (nf_conntrack -> nf_conntrack) :=
  [put (attr_is_set ATTR_HELPER_NAME ct) [ATTR_HELPER_NAME]
     (with_ct_helper_name (helper_name_of (ct_helper_name ct)));
   put (attr_is_set ATTR_HELPER_NAME ct && bool_decide (is_Some (ct_helper_info ct))) [ATTR_HELPER_INFO]
     (fun c => with_ct_helper_info (slice 0 (ct_helper_info_len ct) <$> ct_helper_info ct)
                 (with_ct_helper_info_len (ct_helper_info_len ct) c))].

Lemma block_help c : on_tlv CTA_HELP (nested tree_helper) sent c = seq help_blocks c.
Proof.
  unfold on_tlv, sent, help_blocks, seq, put. rewrite find_help by done.
  destruct (attr_is_set ATTR_HELPER_NAME ct); [|done]. cbn [nested help_tlv andb foldl].
  destruct (bo_name _ Hbo) as [nm Hn].
  assert (helper_name_of (cstr_bytes (ct_helper_name ct)) = helper_name_of (ct_helper_name ct)) as E.
  { unfold helper_name_of, cstr_bytes. rewrite Hn. cbn [default]. by rewrite (strncpy_cstring _ _ _ Hn). }
  pose proof (bo_info _ Hbo) as Hi. pose proof (ok_helper_info_len _ Hok) as [Hl0 _].
  destruct (ct_helper_info ct) as [info|] eqn:Hinfo; unfold tree_helper, on_tlv;
    cbn -[helper_name_of cstr_bytes setting slice zlen]; rewrite E; [|done].
  rewrite zlen_slice; [done|done|done|apply Hi].
Qed.

Lemma bytes_words_words l : Forall word_ok l -> bytes_words (length l) (words_bytes l) = l.
Proof.
  unfold words_bytes. induction 1 as [|x l Hx _ IH]; [done|].
  cbn [length bytes_words map concat].
  rewrite take_app_length', drop_app_length' by (by rewrite length_le_enc). rewrite IH. f_equal.
  by apply le_dec_enc_small.
Qed.

Lemma splice_all d z : length d = length z -> splice 0 d z = d.
Proof.
  intros E. unfold splice. cbn [Z.to_nat take app Nat.add]. rewrite E.
  rewrite drop_ge by lia. apply app_nil_r.
Qed.

Lemma block_labels c : on_tlv CTA_LABELS (leaf tree_labels) sent c =
  put (attr_is_set ATTR_CONNLABELS ct) [ATTR_CONNLABELS] (with_ct_connlabels (ct_connlabels ct)) c.
Proof.
  unfold on_tlv, put, sent. rewrite find_labels_data by done.
  destruct (attr_is_set ATTR_CONNLABELS ct) eqn:Hb; [|done]. cbn [leaf].
  destruct (bo_labels _ Hbo Hb) as [b E]. pose proof (ok_connlabels _ Hok) as Hbm.
  unfold labels_data. rewrite E in Hbm |- *. destruct Hbm as (Hw & Hl & Hf).
  unfold tree_labels, labels_of. rewrite zlen_words_bytes, Hl.
  rewrite (proj2 (Z.eqb_neq _ 0)) by lia.
  assert (DIV_ROUND_UP (4 * bm_words b * 8) 32 = bm_words b) as ->.
  { unfold DIV_ROUND_UP. symmetry. apply (Z.div_unique _ _ _ 31); lia. }
  rewrite splice_all.
  - do 4 f_equal. destruct b as [n bits]. cbn in *. f_equal. rewrite <- (bytes_words_words bits) at 2 by done.
    f_equal. unfold zlen in Hl. lia.
  - rewrite length_replicate. pose proof (zlen_words_bytes (bm_bits b)). unfold zlen in *. lia.
Qed.

(** *** Protocol information *)

(** A piece of the protocol information that is sent, stored again. *)
Lemma int_field (b : bool) ty n l L o c :
  0 <= o -> o + Z.of_nat n <= 16 ->
  find_tlv ty l = (if b then Some (Leaf ty (le_enc n (u_get n o (ct_protoinfo ct)))) else None) ->
  on_tlv ty (leaf (int (fun v => setting L (upd_protoinfo (u_set n o v))))) l c =
  put b L (upd_protoinfo (splice o (slice o (Z.of_nat n) (ct_protoinfo ct)))) c.
Proof.
  intros Ho Hn E. unfold on_tlv, put. rewrite E. destruct b; [|done]. cbn [leaf]. unfold int, setting, upd_protoinfo.
  by rewrite (u_set_sent n o 16) by (done || apply Hok).
Qed.

Lemma net_field (b : bool) ty n l L o c :
  0 <= o -> o + Z.of_nat n <= 16 ->
  find_tlv ty l = (if b then Some (Leaf ty (le_enc n (bswap n (u_get n o (ct_protoinfo ct))))) else None) ->
  on_tlv ty (leaf (net n (fun v => setting L (upd_protoinfo (u_set n o v))))) l c =
  put b L (upd_protoinfo (splice o (slice o (Z.of_nat n) (ct_protoinfo ct)))) c.
Proof.
  intros Ho Hn E. pose proof (ok_protoinfo _ Hok) as Hp. unfold on_tlv, put. rewrite E.
  destruct b; [|done]. cbn [leaf]. unfold net, setting, upd_protoinfo.
  rewrite (net_enc n (8 * Z.of_nat n)); [|apply rd_range; [apply Hp|done|destruct Hp; lia]|done].
  unfold u_set. by rewrite (enc_get n o 16) by done.
Qed.

Lemma bytes_field (b : bool) ty l L o n c :
  find_tlv ty l = (if b then Some (Leaf ty (slice o n (ct_protoinfo ct))) else None) ->
  on_tlv ty (leaf (fun v => setting L (upd_protoinfo (splice o v)))) l c =
  put b L (upd_protoinfo (splice o (slice o n (ct_protoinfo ct)))) c.
Proof. intros E. unfold on_tlv, put. rewrite E. by destruct b. Qed.

Ltac find_field :=
  unfold protoinfo_tcp_tlvs, protoinfo_sctp_tlvs, protoinfo_dccp_tlvs; find_simpl;
  try reflexivity; match goal with |- context [if ?b then _ else _] => by destruct b end.

Lemma tcp_fields c : tp_protonum (ct_orig ct) = IPPROTO_TCP ->
  tree_protoinfo_tcp (protoinfo_tcp_tlvs ct) c = seq (pinfo_blocks ct) c.
Proof.
  intros Hp. unfold pinfo_blocks. rewrite Hp. eval_types. cbn iota.
  unfold tree_protoinfo_tcp, seq. cbn [foldl].
  rewrite (int_field (attr_is_set ATTR_TCP_STATE ct) CTA_PROTOINFO_TCP_STATE) by (done || find_field).
  rewrite (bytes_field (attr_is_set ATTR_TCP_WSCALE_ORIG ct) CTA_PROTOINFO_TCP_WSCALE_ORIGINAL _ _ _ (Z.of_nat 1))
    by (rewrite <- (enc_get 1 (tcp_wscale_off DIR_ORIG) 16) by (done || apply Hok); find_field).
  rewrite (bytes_field (attr_is_set ATTR_TCP_WSCALE_REPL ct) CTA_PROTOINFO_TCP_WSCALE_REPLY _ _ _ (Z.of_nat 1))
    by (rewrite <- (enc_get 1 (tcp_wscale_off DIR_REPL) 16) by (done || apply Hok); find_field).
  rewrite (bytes_field (attr_is_set ATTR_TCP_FLAGS_ORIG ct && attr_is_set ATTR_TCP_MASK_ORIG ct)
             CTA_PROTOINFO_TCP_FLAGS_ORIGINAL _ _ _ 2)
    by find_field.
  by rewrite (bytes_field (attr_is_set ATTR_TCP_FLAGS_REPL ct && attr_is_set ATTR_TCP_MASK_REPL ct)
                CTA_PROTOINFO_TCP_FLAGS_REPLY _ _ _ 2)
    by find_field.
Qed.

Lemma sctp_fields c : tp_protonum (ct_orig ct) = IPPROTO_SCTP ->
  tree_protoinfo_sctp (protoinfo_sctp_tlvs ct) c = seq (pinfo_blocks ct) c.
Proof.
  intros Hp. unfold pinfo_blocks. rewrite Hp. eval_types. cbn iota.
  unfold tree_protoinfo_sctp, seq. cbn [foldl].
  rewrite (int_field (attr_is_set ATTR_SCTP_STATE ct) CTA_PROTOINFO_SCTP_STATE) by (done || find_field).
  rewrite (net_field (attr_is_set ATTR_SCTP_VTAG_ORIG ct) CTA_PROTOINFO_SCTP_VTAG_ORIGINAL) by (done || find_field).
  by rewrite (net_field (attr_is_set ATTR_SCTP_VTAG_REPL ct) CTA_PROTOINFO_SCTP_VTAG_REPLY) by (done || find_field).
Qed.

Lemma dccp_fields c : tp_protonum (ct_orig ct) = IPPROTO_DCCP ->
  tree_protoinfo_dccp (protoinfo_dccp_tlvs ct) c = seq (pinfo_blocks ct) c.
Proof.
  intros Hp. unfold pinfo_blocks. rewrite Hp. eval_types. cbn iota.
  unfold tree_protoinfo_dccp, seq. cbn [foldl].
  rewrite (int_field (attr_is_set ATTR_DCCP_STATE ct) CTA_PROTOINFO_DCCP_STATE) by (done || find_field).
  rewrite (int_field (attr_is_set ATTR_DCCP_ROLE ct) CTA_PROTOINFO_DCCP_ROLE) by (done || find_field).
  by rewrite (net_field (attr_is_set ATTR_DCCP_HANDSHAKE_SEQ ct)) by (done || find_field).
Qed.

(** Without any of the attributes there is nothing to store. *)
Lemma pinfo_absent c : pinfo_sent ct = false -> seq (pinfo_blocks ct) c = c.
Proof.
  unfold pinfo_sent, pinfo_blocks, any_set. cbn [existsb].
  repeat case_match; try done; intros E; repeat (apply orb_false_iff in E as [?H E]);
    repeat match goal with H : attr_is_set _ ct = false |- _ => rewrite H; clear H end; done.
Qed.

Lemma block_protoinfo c : on_tlv CTA_PROTOINFO (nested tree_protoinfo) sent c = seq (pinfo_blocks ct) c.
Proof.
  unfold on_tlv at 1, sent. rewrite find_protoinfo by done.
  destruct (pinfo_sent ct) eqn:Hs; [|by rewrite pinfo_absent]. cbn [nested].
  unfold pinfo_sent in Hs. unfold tree_protoinfo, on_tlv, pinfo_type, pinfo_list.
  destruct (Z.eqb_spec (tp_protonum (ct_orig ct)) IPPROTO_TCP); [by rewrite <- tcp_fields|].
  destruct (Z.eqb_spec (tp_protonum (ct_orig ct)) IPPROTO_SCTP); [by rewrite <- sctp_fields|].
  destruct (Z.eqb_spec (tp_protonum (ct_orig ct)) IPPROTO_DCCP); [by rewrite <- dccp_fields|done].
Qed.

(** *** The whole message *)

Definition tuple_block (fam : Z) (dir : tuple_dir) (b : bool) (t : __nfct_tuple) (zone : bool) :=
  put b (tuple_attrs dir t zone) (with_ct_tuple dir (recv_tuple (wrap 8 fam) t zone)).

Definition blocks (fam : Z) : list (nf_conntrack -> nf_conntrack) :=
  [tuple_block fam __DIR_ORIG true (ct_orig ct) (attr_is_set ATTR_ORIG_ZONE ct);
   tuple_block fam __DIR_REPL (repl_sent ct) (ct_repl ct) (attr_is_set ATTR_REPL_ZONE ct);
   tuple_block fam __DIR_MASTER (master_sent ct) (ct_master ct) false;
   put (all_set orig_natseq_attrs ct) orig_natseq_attrs
     (upd_natseq DIR_ORIG (fun _ => d_orig (ct_natseq ct)));
   put (all_set repl_natseq_attrs ct) repl_natseq_attrs
     (upd_natseq DIR_REPL (fun _ => d_repl (ct_natseq ct)));
   put (attr_is_set ATTR_STATUS ct) [ATTR_STATUS] (with_ct_status (Z.lor (ct_status ct) IPS_CONFIRMED))] ++
  pinfo_blocks ct ++
  [put (attr_is_set ATTR_TIMEOUT ct) [ATTR_TIMEOUT] (with_ct_timeout (ct_timeout ct));
   put (attr_is_set ATTR_MARK ct) [ATTR_MARK] (with_ct_mark (ct_mark ct));
   put (attr_is_set ATTR_SECMARK ct) [ATTR_SECMARK] (with_ct_secmark (ct_secmark ct))] ++
  help_blocks ++
  [put (attr_is_set ATTR_ZONE ct) [ATTR_ZONE] (with_ct_zone (ct_zone ct));
   put (attr_is_set ATTR_CONNLABELS ct) [ATTR_CONNLABELS] (with_ct_connlabels (ct_connlabels ct));
   put (all_set synproxy_attrs ct) synproxy_attrs (with_ct_synproxy (ct_synproxy ct))].

Lemma seq_app {S} (fs gs : list (S -> S)) s : seq (fs ++ gs) s = seq gs (seq fs s).
Proof. unfold seq. apply foldl_app. Qed.

Lemma seq_cons {S} f (fs : list (S -> S)) s : seq (f :: fs) s = seq fs (f s).
Proof. reflexivity. Qed.

Lemma orig_some : is_Some (tuple_tlvs (ct_orig ct)).
Proof. revert Hsend. unfold ct_tlvs, zoned_tuple_tlvs. by destruct (tuple_tlvs (ct_orig ct)). Qed.

Lemma repl_some : repl_sent ct = true -> is_Some (tuple_tlvs (ct_repl ct)).
Proof.
  revert Hsend. unfold ct_tlvs, zoned_tuple_tlvs, repl_sent. destruct (tuple_tlvs (ct_orig ct)); [|done].
  intros H E. revert H. rewrite E. by destruct (tuple_tlvs (ct_repl ct)).
Qed.

Lemma master_some : master_sent ct = true -> is_Some (tuple_tlvs (ct_master ct)).
Proof. intros [_ H]%andb_true_iff. by apply bool_decide_eq_true_1 in H. Qed.

Lemma block_repl fam c : ct_repl c = zero_tuple ->
  on_tlv CTA_TUPLE_REPLY (nested (tree_ct_tuple fam __DIR_REPL)) sent c =
  tuple_block fam __DIR_REPL (repl_sent ct) (ct_repl ct) (attr_is_set ATTR_REPL_ZONE ct) c.
Proof.
  intros Hc. unfold on_tlv, tuple_block, put, sent. rewrite find_repl by done. destruct (repl_sent ct) eqn:E; [|done].
  cbn [nested]. apply ct_tuple_sent; [done|apply Hok|by apply repl_some|done].
Qed.

Lemma block_master fam c : ct_master c = zero_tuple ->
  on_tlv CTA_TUPLE_MASTER (nested (tree_ct_tuple fam __DIR_MASTER)) sent c =
  tuple_block fam __DIR_MASTER (master_sent ct) (ct_master ct) false c.
Proof.
  intros Hc. unfold on_tlv, tuple_block, put, sent. rewrite find_master by done. destruct (master_sent ct) eqn:E; [|done].
  cbn [nested]. replace (master_list ct) with (tuple_list (ct_master ct) false) by apply app_nil_r.
  apply ct_tuple_sent; [done|apply Hok|by apply master_some|done].
Qed.

Lemma ct_set_setting L f c : ct_set (setting L f c) = set_bits L (ct_set (f c)).
Proof. unfold setting. rewrite foldl_attr_set. by destruct (f c) as [[]]. Qed.

(** A structure of the object is not touched by a block over another one. *)
Lemma put_keeps {A} (field : nf_conntrack -> A) b L f c :
  (forall s c, field (with_ct_set s c) = field c) -> field (f c) = field c -> field (put b L f c) = field c.
Proof.
  intros Hset Hf. unfold put. destruct b; [|done]. unfold setting. by rewrite foldl_attr_set, Hset.
Qed.

Lemma tree_parse_sent fam : tree_parse fam sent zero_ct = seq (blocks fam) zero_ct.
Proof.
  unfold tree_parse, blocks. rewrite !seq_app.
  assert (on_tlv CTA_TUPLE_ORIG (nested (tree_ct_tuple fam __DIR_ORIG)) sent zero_ct =
          tuple_block fam __DIR_ORIG true (ct_orig ct) (attr_is_set ATTR_ORIG_ZONE ct) zero_ct) as E1.
  { unfold on_tlv, sent. rewrite find_orig by done. cbn [nested].
    apply ct_tuple_sent; [done|apply Hok|apply orig_some|done]. }
  rewrite !seq_cons. rewrite E1. set (c1 := tuple_block _ _ _ _ _ _).
  assert (ct_repl c1 = zero_tuple /\ ct_master c1 = zero_tuple) as [Hr Hma].
  { unfold c1, tuple_block. by rewrite !put_keeps. }
  rewrite (block_repl fam c1 Hr). set (c2 := tuple_block _ _ _ _ _ c1).
  assert (ct_master c2 = zero_tuple) as Hm2 by (unfold c2, tuple_block; by rewrite put_keeps).
  rewrite (block_master fam c2 Hm2), block_natseq_orig, block_natseq_repl, block_status, block_protoinfo,
    block_timeout, block_mark, block_secmark, block_help, block_zone, block_labels, block_synproxy.
  unfold on_tlv. unfold sent. rewrite !find_absent by (try done; repeat first [by left|right]). done.
Qed.
End Blocks.

(** ** The presence bits that arrive *)

Lemma adds_put b L f : (forall c, ct_set (f c) = ct_set c) -> adds (opt_attrs b L) (put b L f).
Proof. intros H. destruct b; [by apply adds_setting|apply adds_id]. Qed.

Lemma adds_cons L K f fs : adds L f -> adds K (seq fs) -> adds (L ++ K) (seq (f :: fs)).
Proof. intros Hf Hfs. exact (adds_comp L K f (seq fs) Hf Hfs). Qed.

Lemma adds_app L K fs gs : adds L (seq fs) -> adds K (seq gs) -> adds (L ++ K) (seq (fs ++ gs)).
Proof.
  intros Hf Hg c Hc. rewrite seq_app. by apply (adds_comp L K (seq fs) (seq gs)).
Qed.

Lemma adds_last L f : adds L f -> adds L (seq [f]).
Proof. done. Qed.

Ltac adds_blocks :=
  lazymatch goal with
  | |- adds (_ ++ _) (seq (_ :: _)) => apply adds_cons; [by apply adds_put|adds_blocks]
  | |- adds _ (seq [_]) => apply adds_last; by apply adds_put
  end.

Lemma pinfo_adds ct : adds (protoinfo_attrs ct) (seq (pinfo_blocks ct)).
Proof.
  unfold protoinfo_attrs, pinfo_blocks.
  destruct (_ =? IPPROTO_TCP); [|destruct (_ =? IPPROTO_SCTP); [|destruct (_ =? IPPROTO_DCCP); [|apply adds_id]]];
    adds_blocks.
Qed.

Lemma adds_put_nested b L c K f g :
  (forall x, ct_set (f x) = ct_set x) -> (forall x, ct_set (g x) = ct_set x) ->
  adds (opt_attrs b (L ++ opt_attrs c K)) (seq [put b L f; put (b && c) K g]).
Proof.
  intros Hf Hg. destruct b; [|apply adds_id]. cbn [andb]. apply (adds_cons L _ (put true L f)).
  - by apply (adds_put true).
  - apply adds_last. by apply adds_put.
Qed.

Lemma blocks_adds ct fam : adds (wire_attrs ct) (seq (blocks ct fam)).
Proof.
  unfold wire_attrs, blocks. cbn [app]. unfold tuple_block.
  do 6 (apply adds_cons; [by apply adds_put || by apply (adds_put true)|]).
  apply adds_app; [apply pinfo_adds|].
  do 3 (apply adds_cons; [by apply adds_put|]).
  unfold help_blocks. cbn [app].
  change (ATTR_HELPER_NAME :: ?l) with ([ATTR_HELPER_NAME] ++ l).
  apply (adds_app _ _ [_; _]); [by apply adds_put_nested|].
  adds_blocks.
Qed.

(** ** The values that arrive *)

(** Membership in the attributes of the message, to be computed. *)
Definition mem (a : nf_conntrack_attr) (L : list nf_conntrack_attr) : bool :=
  existsb (fun b => attr_idx a =? attr_idx b) L.

Lemma mem_elem a L : a ∈ L -> mem a L = true.
Proof.
  intros H. apply existsb_exists. exists a. split; [by apply list_elem_of_In|apply Z.eqb_refl].
Qed.

Lemma mem_app a L K : mem a (L ++ K) = mem a L || mem a K.
Proof. apply existsb_app. Qed.
Lemma mem_opt a b L : mem a (opt_attrs b L) = b && mem a L.
Proof. by destruct b. Qed.
Lemma mem_if a (b : bool) L K : mem a (if b then L else K) = if b then mem a L else mem a K.
Proof. by destruct b. Qed.
Lemma mem_cons_opt a x b L : mem a (x :: opt_attrs b L) = mem a [x] || (b && mem a L).
Proof. rewrite <- mem_opt. by rewrite <- mem_app. Qed.

Lemma get_put_keep a b L f c :
  (forall c, get_attr_array a (f c) = get_attr_array a c) -> get_attr_array a (put b L f c) = get_attr_array a c.
Proof.
  intros H. unfold put. destruct b; [|done]. unfold setting. rewrite foldl_attr_set, <- (H c).
  by destruct a.
Qed.

Lemma get_put_true a L f c : get_attr_array a (put true L f c) = get_attr_array a (f c).
Proof. unfold put, setting. rewrite foldl_attr_set. by destruct a. Qed.

(** *** Protocol information *)

(** A field of the union [u] stored in [v] when it is sent. *)
Definition put_field (b : bool) (o n : Z) (u v : list Z) : list Z :=
  if b then splice o (slice o n u) v else v.

Section Fields.
Context (u v : list Z) (Hu : blob 16 u) (Hv : blob 16 v) (o n : Z).
Context (Ho : 0 <= o) (Hn : 0 <= n) (Hon : o + n <= 16).

Lemma blob_put_field b : blob 16 (put_field b o n u v).
Proof.
  destruct b; [|done]. apply blob_splice; [done| |done|].
  - apply slice_bytes, Hu.
  - rewrite zlen_slice; destruct Hu; lia.
Qed.

Lemma put_field_ne b o' n' : 0 <= o' -> o' + n' <= o \/ o + n <= o' ->
  slice o' n' (put_field b o n u v) = slice o' n' v.
Proof.
  intros Ho' Hd. destruct b; [|done]. destruct Hu, Hv.
  apply slice_splice_ne; rewrite ?zlen_slice; lia.
Qed.

Lemma put_field_in o' n' : o <= o' -> 0 <= n' -> o' + n' <= o + n ->
  slice o' n' (put_field true o n u v) = slice o' n' u.
Proof.
  intros Ho' Hn' Hd. destruct Hu, Hv. unfold put_field.
  assert (zlen (slice o n u) = n) as E by (rewrite zlen_slice; lia).
  replace o' with (o + (o' - o)) by lia.
  rewrite <- (slice_slice o n (o' - o) n' (splice o _ v)) by lia.
  pose proof (slice_splice_eq o (slice o n u) v ltac:(lia) ltac:(lia)) as Q. rewrite E in Q. rewrite Q.
  apply slice_slice; lia.
Qed.
End Fields.

Lemma protoinfo_put b L o n u c :
  ct_protoinfo (put b L (upd_protoinfo (splice o (slice o n u))) c) = put_field b o n u (ct_protoinfo c).
Proof. destruct b; [|done]. unfold put, setting. by rewrite foldl_attr_set. Qed.

(** Compute the membership of a given attribute. *)
Ltac compute_mem H :=
  repeat progress rewrite ?mem_opt, ?mem_cons_opt, ?mem_app, ?mem_if in H;
  repeat match type of H with context [mem ?a ?L] =>
    let v := eval vm_compute in (mem a L) in
    lazymatch v with true => idtac | false => idtac end; change (mem a L) with v in H
  end;
  repeat progress rewrite ?andb_false_r, ?andb_true_r, ?orb_false_r, ?orb_false_l, ?if_same in H.

Ltac field_step :=
  first [ rewrite put_field_in by (first [assumption | done | lia | (repeat apply blob_put_field; done || lia)])
        | rewrite put_field_ne by (first [assumption | done | lia | (repeat apply blob_put_field; done || lia)]) ].

Lemma pinfo_get ct c a : blob 16 (ct_protoinfo ct) -> blob 16 (ct_protoinfo c) ->
  mem a (protoinfo_attrs ct) = true -> get_attr_array a (seq (pinfo_blocks ct) c) = get_attr_array a ct.
Proof.
  intros Hu Hv H. unfold protoinfo_attrs in H. unfold pinfo_blocks.
  destruct (_ =? IPPROTO_TCP); [|destruct (_ =? IPPROTO_SCTP); [|destruct (_ =? IPPROTO_DCCP); [|done]]];
    unfold seq; cbn [foldl];
    destruct a; compute_mem H; try discriminate H;
    unfold get_attr_array;
    match goal with |- ?f _ = ?f _ => unfold f end; rewrite !protoinfo_put, H; do 2 f_equal.
  all: unfold tcp_state_off, tcp_flags_value_off, tcp_flags_mask_off, tcp_wscale_off, sctp_state_off, sctp_vtag_off,
         dccp_state_off, dccp_role_off, dccp_handshake_seq_off.
  all: repeat field_step. all: done.
Qed.

Definition pinfo_all : list nf_conntrack_attr :=
  [ATTR_TCP_STATE; ATTR_TCP_WSCALE_ORIG; ATTR_TCP_WSCALE_REPL; ATTR_TCP_FLAGS_ORIG; ATTR_TCP_MASK_ORIG;
   ATTR_TCP_FLAGS_REPL; ATTR_TCP_MASK_REPL; ATTR_SCTP_STATE; ATTR_SCTP_VTAG_ORIG; ATTR_SCTP_VTAG_REPL;
   ATTR_DCCP_STATE; ATTR_DCCP_ROLE; ATTR_DCCP_HANDSHAKE_SEQ].

Lemma pinfo_keep ct c a : mem a pinfo_all = false ->
  get_attr_array a (seq (pinfo_blocks ct) c) = get_attr_array a c.
Proof.
  intros H. unfold pinfo_blocks, seq. repeat case_match; cbn [foldl]; destruct a; try discriminate H;
    repeat (rewrite get_put_keep by done); done.
Qed.

Lemma pinfo_mem ct a : mem a pinfo_all = false -> mem a (protoinfo_attrs ct) = false.
Proof.
  intros H. unfold protoinfo_attrs. repeat case_match; rewrite ?mem_app, ?mem_opt; destruct a; try discriminate H; cbn;
    by rewrite ?andb_false_r.
Qed.

Lemma recv_addr_v4 t x : blob 16 x -> slice 0 4 (recv_addr t x) = slice 0 4 x.
Proof.
  intros Hx. unfold recv_addr. destruct (_ =? _); [|done]. unfold set_addr_v4, u_set, addr_v4.
  rewrite (enc_get 4 0 16) by (done || lia). destruct Hx as [Hl Hb].
  pose proof (slice_splice_eq 0 (slice 0 4 x) zero_addr ltac:(lia)) as Q. rewrite zlen_slice in Q by lia.
  by apply Q.
Qed.

Section Values.
Context (ct : nf_conntrack) (Hok : ct_ok ct) (Hbo : build_ok ct) (fam : Z).
Context (Hfam : tp_l3protonum (ct_orig ct) = fam).
Context (Hrepl : repl_sent ct = true -> tp_l3protonum (ct_repl ct) = fam).
Context (Hmaster : master_sent ct = true -> tp_l3protonum (ct_master ct) = fam).

Ltac peel := repeat first [rewrite get_put_keep by (intros; reflexivity) | rewrite pinfo_keep by reflexivity].

(** The attributes of the protocol information pass through its block only. *)
Lemma blocks_get_pinfo a : mem a pinfo_all = true -> mem a (wire_attrs ct) = true ->
  get_attr_array a (seq (blocks ct fam) zero_ct) = get_attr_array a ct.
Proof.
  intros Hpi H. unfold blocks, help_blocks, tuple_block. rewrite !seq_app.
  unfold wire_attrs, tuple_attrs in H. rewrite !mem_app in H.
  assert (mem a (protoinfo_attrs ct) = true) as Hm.
  { revert H. generalize (mem a (protoinfo_attrs ct)) as P. intros P H.
    destruct a; try discriminate Hpi; compute_mem H; done. }
  clear H.
  match goal with |- context [seq (pinfo_blocks ct) ?c] => set (c0 := c) end.
  assert (ct_protoinfo c0 = replicate 16 0) as Hc.
  { unfold c0. cbn [seq foldl]. by rewrite !put_keeps. }
  transitivity (get_attr_array a (seq (pinfo_blocks ct) c0)).
  - cbn [seq foldl]. destruct a; try discriminate Hpi; by peel.
  - apply pinfo_get; [apply Hok|rewrite Hc; by apply blob_replicate|done].
Qed.

Ltac arrived H :=
  lazymatch type of H with
  | _ && _ = true => let H' := fresh in apply andb_true_iff in H as [H H']; arrived H
  | _ => rewrite ?H, get_put_true
  end.

Lemma recv_addr_v6 t x : (if tp_l3protonum t =? AF_INET then false else true) = true -> recv_addr t x = x.
Proof. unfold recv_addr. by destruct (_ =? _). Qed.

Lemma blocks_get a : mem a (wire_attrs ct) = true ->
  get_attr_array a (seq (blocks ct fam) zero_ct) = wire_value a ct.
Proof.
  intros H. destruct (mem a pinfo_all) eqn:Hpi.
  { rewrite blocks_get_pinfo by done. by destruct a. }
  pose proof (ok_orig _ Hok) as (? & ? & Hl3 & _). pose proof (ok_repl _ Hok) as (? & ? & _).
  pose proof (ok_master _ Hok) as (? & ? & _).
  assert (wrap 8 fam = fam) as Hw by (rewrite <- Hfam; by apply wrap_small).
  unfold blocks, help_blocks, tuple_block. rewrite !seq_app. rewrite Hw.
  unfold wire_attrs, tuple_attrs in H. rewrite !mem_app in H. rewrite (pinfo_mem _ _ Hpi) in H.
  cbn [seq foldl].
  destruct a; try discriminate Hpi; clear Hpi; compute_mem H; try discriminate H; peel;
    try (rewrite get_put_true; reflexivity); try (rewrite H, get_put_true; reflexivity).
  all: try (rewrite H, get_put_true; cbn; by rewrite option_fmap_compose).
  all: arrived H; unfold wire_value, get_attr_array; match goal with |- ?f _ = ?f _ => unfold f end; cbn [ct_orig ct_repl ct_master];
    unfold with_ct_tuple, recv_tuple; cbn [ct_repl ct_master ct_orig with_ct_orig with_ct_repl with_ct_master
      ct_head head_orig with_ct_head tp_src tp_dst tp_l3protonum tp_protonum tp_zone tp_l4src tp_l4dst].
  all: first [ reflexivity
             | do 2 f_equal; by apply recv_addr_v4
             | do 2 f_equal; by apply recv_addr_v6
             | by rewrite Hfam
             | by rewrite Hrepl
             | by rewrite Hmaster
             | match goal with E : attr_is_set ATTR_REPL_ZONE ct = true |- _ => by rewrite E end ].
Qed.
End Values.
