(* ===== verification/CtRoundTrip.v ===== *)
(** Round trip: a message built from an object and parsed again. *)
From S2P Require Import Prelude CMonad MnlMsg MnlAttr Tlv TlvParse Bitops CtObject CtSetter CtGetter CtCopy CtApi.
From S2P Require Import CtAttrs CtCompare CtObjopt Ctnl CtBuild CtBuildProps CtParse CtParseSafe TlvTable CtParseTree CtWire.
Open Scope c_scope.

(** ** The message is well formed *)

Lemma Forall_opt (P : tlv -> Prop) b t : (b = true -> P t) -> Forall P (opt_tlvs b [t]).
Proof. intros H. destruct b; [|constructor]. constructor; [by apply H|constructor]. Qed.

Lemma cstring_nul_in s c : cstring s = Some c -> 0 ∈ c.
Proof.
  revert c. induction s as [|x s IH]; intros c; cbn [cstring]; [done|].
  destruct (x =? 0); [intros [= <-]; by left|]. destruct (cstring s) as [d|]; [|done].
  intros [= <-]. right. by apply IH.
Qed.

(** An attribute whose policy and content are checked by computation. *)
Ltac wf_tlv := right; split; [done|]; split; [reflexivity|done].

Ltac wf_list := repeat first [apply Forall_nil_2 | apply Forall_cons_2; [wf_tlv|]].

Lemma wf_ip_tlvs t k : tuple_ok t -> ip_tlvs t = Some k -> wf_ip k.
Proof.
  intros ([Hs _] & [Hd _] & _). unfold ip_tlvs.
  destruct (_ =? AF_INET); [intros [= <-]; wf_list|]. destruct (_ =? AF_INET6); [|done]. intros [= <-].
  repeat first [apply Forall_nil_2 | apply Forall_cons_2]; right; (split; [done|]; split; [|done]).
  all: unfold tlv_ok, policy_ok, validate_ok; cbn -[zlen]; rewrite ?Hs, ?Hd; done.
Qed.

Lemma wf_proto_tlvs t k : proto_tlvs t = Some k -> wf_proto k.
Proof.
  unfold proto_tlvs. destruct (has_ports _); [intros [= <-]; wf_list|].
  destruct (_ =? IPPROTO_ICMP); [intros [= <-]; wf_list|].
  destruct (_ =? IPPROTO_ICMPV6); [|done]. intros [= <-]. wf_list.
Qed.

Lemma wf_tuple_list t z : tuple_ok t -> wf_tuple (tuple_list t z).
Proof.
  intros Ht. unfold tuple_list. apply Forall_app. split.
  - unfold tuple_tlvs. destruct (ip_tlvs t) as [ip|] eqn:Hip; [|constructor].
    destruct (proto_tlvs t) as [pr|] eqn:Hpr; [|constructor].
    apply Forall_cons_2; [|apply Forall_cons_2; [|apply Forall_nil_2]];
      right; (split; [done|]; split; [done|]); split; try done; intros _.
    + by eapply wf_ip_tlvs.
    + by eapply wf_proto_tlvs.
  - apply Forall_opt. intros _. wf_tlv.
Qed.

Section Wf.
Context (ct : nf_conntrack) (Hok : ct_ok ct) (Hbo : build_ok ct) (Hsend : fst (ct_tlvs ct) = 0).

Lemma flags_len d : zlen (tcp_flags_bytes d ct) = 2.
Proof. destruct (ok_protoinfo _ Hok) as [Hl _]. unfold tcp_flags_bytes. destruct d; apply zlen_slice; rewrite ?Hl; done. Qed.

Lemma wf_pinfo : wf_protoinfo [Nest (pinfo_type ct) (pinfo_list ct)].
Proof.
  assert (forall d ty, tlv_ok (Validate2 MNL_TYPE_UNSPEC 2) (Leaf ty (tcp_flags_bytes d ct)) = true) as Hfl.
  { intros d ty. unfold tlv_ok, policy_ok, validate_ok. by rewrite flags_len. }
  apply Forall_cons_2; [|apply Forall_nil_2]. right.
  unfold pinfo_type, pinfo_list.
  destruct (_ =? IPPROTO_TCP); [|destruct (_ =? IPPROTO_SCTP)];
    (split; [done|]; split; [done|]); split_and!; try done; intros _.
  - unfold wf_tcp, level, protoinfo_tcp_tlvs. rewrite !Forall_app. split_and!; apply Forall_opt; intros _;
      first [wf_tlv|right; split; [done|]; split; [apply Hfl|done]].
  - unfold wf_sctp, level, protoinfo_sctp_tlvs. rewrite !Forall_app. split_and!; apply Forall_opt; intros _; wf_tlv.
  - unfold wf_dccp, level, protoinfo_dccp_tlvs. rewrite !Forall_app. split_and!; apply Forall_opt; intros _; wf_tlv.
Qed.

Lemma wf_help : forall ty l, help_tlv ct = Nest ty l -> wf_helper l.
Proof.
  intros ty l [= <- <-]. destruct (bo_name _ Hbo) as [nm Hn].
  pose proof (cstring_nul_in _ _ Hn) as Hin. unfold cstr_bytes. rewrite Hn. change (default [] (Some nm)) with nm.
  apply Forall_cons_2.
  - right. split; [done|]. split; [|by intros _]. unfold tlv_ok, policy_ok, validate_ok. cbn -[zlen].
    destruct nm; [by apply elem_of_nil in Hin|]. rewrite zlen_cons. pose proof (zlen_nonneg nm).
    rewrite (proj2 (Z.leb_le _ _)), (proj2 (Z.eqb_neq _ _)) by lia. done.
  - destruct (ct_helper_info ct); [|apply Forall_nil_2]. apply Forall_cons_2; [|apply Forall_nil_2].
    right. done.
Qed.

Lemma wf_sent : wf_ct (snd (ct_tlvs ct)).
Proof.
  rewrite sent_eq by done. unfold rest_tlvs. rewrite sent_master, protoinfo_tlvs_eq.
  unfold wf_ct, level, nat_tlvs. rewrite !Forall_app. split_and!.
  15: { destruct (attr_is_set ATTR_CONNLABELS ct) eqn:Hb; [|apply Forall_nil_2].
        cbn [opt_tlvs]. rewrite sent_labels by done.
        destruct (bo_labels _ Hbo Hb) as [b E]. pose proof (ok_connlabels _ Hok) as Hbm.
        unfold labels_data, mask_tlvs. rewrite E in Hbm |- *. destruct Hbm as (Hw & Hl & _).
        apply Forall_cons_2.
        - right. split; [done|]. split; [done|]. split; [done|]. intros _. rewrite zlen_words_bytes. lia.
        - destruct (ct_connlabels_mask ct); [|apply Forall_nil_2]. apply Forall_opt. intros _.
          right. split; [done|]. by split. }
  all: apply Forall_opt; intros _; right; (split; [done|]; split; [reflexivity|]).
  all: split_and!; try done; try (intros _).
  - by apply wf_tuple_list, Hok.
  - by apply wf_tuple_list, Hok.
  - replace (master_list ct) with (tuple_list (ct_master ct) false) by apply app_nil_r.
    by apply wf_tuple_list, Hok.
  - apply wf_pinfo.
  - wf_list.
  - wf_list.
  - by eapply wf_help.
  - wf_list.
Qed.
End Wf.

(** The tuples that are sent have the address family of the message. *)
Definition one_family (ct : nf_conntrack) : Prop :=
  (repl_sent ct = true -> tp_l3protonum (ct_repl ct) = tp_l3protonum (ct_orig ct)) /\
  (master_sent ct = true -> tp_l3protonum (ct_master ct) = tp_l3protonum (ct_orig ct)).

(** The object that the attribute forest of [ct] describes. *)
Lemma tree_parse_wire ct :
  let fam := tp_l3protonum (ct_orig ct) in
  ct_ok ct -> build_ok ct -> fst (ct_tlvs ct) = 0 -> one_family ct ->
  forall a, attr_is_set a (tree_parse fam (snd (ct_tlvs ct)) zero_ct) = bool_decide (a ∈ wire_attrs ct) /\
            (a ∈ wire_attrs ct ->
             get_attr_array a (tree_parse fam (snd (ct_tlvs ct)) zero_ct) = wire_value a ct).
Proof.
  intros fam Hok Hbo Hsend [Hr Hm] a. rewrite (tree_parse_sent ct Hok Hbo Hsend).
  destruct (blocks_adds ct fam zero_ct (ok_set _ zero_ct_ok)) as [_ Hbits]. split.
  - by rewrite Hbits, attr_is_set_zero, orb_false_r.
  - intros Hin. apply (blocks_get ct Hok); try done. by apply mem_elem.
Qed.

(** C1: build and parse are a round trip: for an object whose message can be
    built, parsing the message that [nfct_nlmsg_build] writes into a zeroed
    object succeeds, exactly the attributes [wire_attrs] of the object are
    present in the result, and each has the value of the original one (the
    status confirmed, the helper name cut at its terminator, of the helper data
    the recorded length). *)
Theorem build_parse_roundtrip nlh ct w :
  let fam := tp_l3protonum (ct_orig ct) in
  ct_ok ct -> build_ok ct -> attr_is_set ATTR_ORIG_L3PROTO ct = true -> fst (ct_tlvs ct) = 0 ->
  one_family ct -> msg_len nlh 20 w -> nlh + 20 + build_room ct <= zlen (w_mem w) ->
  zlen (w_mem w) < 2 ^ 31 - 4 -> w_alloc w = [] -> rd 1 (nlh + 16) (w_mem w) = fam ->
  exists w1 w2 ct',
    nfct_nlmsg_build nlh ct w = Ok (0, w1) /\ nfct_nlmsg_parse nlh zero_ct w1 = Ok (0, ct', w2) /\
    forall a, attr_is_set a ct' = bool_decide (a ∈ wire_attrs ct) /\
              (a ∈ wire_attrs ct -> get_attr_array a ct' = wire_value a ct).
Proof.
  intros fam Hok Hbo Hl3 Hsend Hone Hlen Hroom Hz Ha Hfam.
  destruct (emits_build nlh ct Hok Hbo Hl3) as [Hb _].
  destruct (wp_run _ _ _ (Hb w 20 Hlen Hroom)) as (r & w1 & Hrun & <- & Hlen1 & Hat & Hsame).
  rewrite Hsend in Hrun. destruct Hsame as [Hzl _ Hal Hby]. destruct Hlen1 as [Hl1 _ _ Hn Hfit _].
  assert (rd 1 (nlh + 16) (w_mem w1) = fam) as Hf1.
  { rewrite <- Hfam. apply rd_ext; [lia|]. intros i Hi. apply Hby. right. lia. }
  pose proof (tlvs_size_nonneg (snd (ct_tlvs ct))).
  destruct (nlmsg_parse_run nlh (snd (ct_tlvs ct)) zero_ct w1) as (w2 & Hp & _);
    [lia|done|done|lia|congruence|done|by apply wf_sent|].
  rewrite Hf1 in Hp. eexists w1, w2, _. split; [done|]. split; [exact Hp|]. by apply tree_parse_wire.
Qed.

(** The flow of [build_example] in a message of the family [AF_INET]. *)
Definition roundtrip_world : world :=
  mk_world (splice 16 [AF_INET] (example_buffer 1000)) 0 [].

Lemma build_parse_roundtrip_witness :
  exists w1 w2 ct',
    nfct_nlmsg_build 0 build_example roundtrip_world = Ok (0, w1) /\
    nfct_nlmsg_parse 0 zero_ct w1 = Ok (0, ct', w2) /\
    forall a, attr_is_set a ct' = bool_decide (a ∈ wire_attrs build_example) /\
              (a ∈ wire_attrs build_example -> get_attr_array a ct' = wire_value a build_example).
Proof.
  apply (build_parse_roundtrip 0 build_example roundtrip_world); try done.
  apply build_example_ok.
Defined.
