(* ===== verification/NfqMsg.v ===== *)
(** Messages of the packet queue: [src/libnetfilter_queue/nlmsg.c] with the
    constants of [nfnetlink_queue.h].

    The writers append to the message at offset [nlh] of the buffer.  The reader
    fills a table [attr] of attribute pointers that the caller provides. *)
From S2P Require Import Prelude CMonad MnlMsg MnlAttr Tlv TlvParse Ctnl CtCompare CtParse CtParseSafe TlvTable.
Open Scope c_scope.

(** ** Constants and structures *)

Definition AF_UNSPEC : Z := 0.
Definition NFNL_SUBSYS_QUEUE : Z := 3.

Definition NFQNL_MSG_PACKET : Z := 0.
Definition NFQNL_MSG_VERDICT : Z := 1.
Definition NFQNL_MSG_CONFIG : Z := 2.

Definition NFQA_PACKET_HDR : Z := 1.
Definition NFQA_VERDICT_HDR : Z := 2.
Definition NFQA_MARK : Z := 3.
Definition NFQA_TIMESTAMP : Z := 4.
Definition NFQA_IFINDEX_INDEV : Z := 5.
Definition NFQA_IFINDEX_OUTDEV : Z := 6.
Definition NFQA_IFINDEX_PHYSINDEV : Z := 7.
Definition NFQA_IFINDEX_PHYSOUTDEV : Z := 8.
Definition NFQA_HWADDR : Z := 9.
Definition NFQA_PAYLOAD : Z := 10.
Definition NFQA_CT : Z := 11.
Definition NFQA_CT_INFO : Z := 12.
Definition NFQA_CAP_LEN : Z := 13.
Definition NFQA_SKB_INFO : Z := 14.
Definition NFQA_EXP : Z := 15.
Definition NFQA_UID : Z := 16.
Definition NFQA_GID : Z := 17.
Definition NFQA_SECCTX : Z := 18.
Definition NFQA_MAX : Z := 18.

Definition NFQA_CFG_CMD : Z := 1.
Definition NFQA_CFG_PARAMS : Z := 2.
Definition NFQA_CFG_QUEUE_MAXLEN : Z := 3.

Definition sizeof_nfqnl_msg_packet_hdr : Z := 7.
Definition sizeof_nfqnl_msg_packet_hw : Z := 12.
Definition sizeof_nfqnl_msg_packet_timestamp : Z := 16.

(** The bytes of [struct nfqnl_msg_verdict_hdr]. *)
Definition nfqnl_msg_verdict_hdr (verdict id : Z) : list Z :=
  le_enc 4 (htonl (wrap 32 verdict)) ++ le_enc 4 (htonl (wrap 32 id)).

(** [struct nfqnl_msg_config_cmd]; the padding byte is zero. *)
Definition nfqnl_msg_config_cmd (command pf : Z) : list Z :=
  le_enc 1 command ++ [0] ++ le_enc 2 (htons pf).

(** [struct nfqnl_msg_config_params], packed. *)
Definition nfqnl_msg_config_params (copy_range copy_mode : Z) : list Z :=
  le_enc 4 (htonl (wrap 32 copy_range)) ++ le_enc 1 copy_mode.

(** ** Writers *)

Definition nfq_nlmsg_verdict_put (nlh id verdict : Z) : M unit :=
  let vh := nfqnl_msg_verdict_hdr verdict id in
  mnl_attr_put nlh NFQA_VERDICT_HDR (zlen vh) vh.

Definition nfq_nlmsg_verdict_put_mark (nlh mark : Z) : M unit :=
  mnl_attr_put_u32 nlh NFQA_MARK (htonl mark).

Definition nfq_nlmsg_verdict_put_pkt (nlh : Z) (pkt : list Z) (plen : Z) : M unit :=
  mnl_attr_put nlh NFQA_PAYLOAD plen pkt.

Definition nfq_nlmsg_cfg_put_cmd (nlh pf cmd : Z) : M unit :=
  let command := nfqnl_msg_config_cmd cmd pf in
  mnl_attr_put nlh NFQA_CFG_CMD (zlen command) command.

Definition nfq_nlmsg_cfg_put_params (nlh mode range : Z) : M unit :=
  let params := nfqnl_msg_config_params range mode in
  mnl_attr_put nlh NFQA_CFG_PARAMS (zlen params) params.

Definition nfq_nlmsg_cfg_put_qmaxlen (nlh queue_maxlen : Z) : M unit :=
  mnl_attr_put_u32 nlh NFQA_CFG_QUEUE_MAXLEN (htonl queue_maxlen).

Definition nfq_nlmsg_put (buf type queue_num : Z) : M Z :=
  let! nlh := mnl_nlmsg_put_header buf in
  set_nlmsg_type nlh (Z.lor (Z.shiftl NFNL_SUBSYS_QUEUE 8) type) ;;;
  set_nlmsg_flags nlh NLM_F_REQUEST ;;;
  let! nfg := mnl_nlmsg_put_extra_header nlh sizeof_nfgenmsg in
  store 1 nfg AF_UNSPEC ;;;
  store 1 (nfg + 1) NFNETLINK_V0 ;;;
  store16 (nfg + 2) (htons (wrap 16 queue_num)) ;;;
  ret nlh.

(** ** Reader *)

(** What the [switch] of the callback asks of each type. *)
Definition pkt_policy (type : Z) : policy :=
  if one_of type
       [NFQA_MARK; NFQA_IFINDEX_INDEV; NFQA_IFINDEX_OUTDEV; NFQA_IFINDEX_PHYSINDEV;
        NFQA_IFINDEX_PHYSOUTDEV; NFQA_CAP_LEN; NFQA_SKB_INFO; NFQA_SECCTX; NFQA_UID; NFQA_GID;
        NFQA_CT_INFO] then Validate MNL_TYPE_U32
  else if type =? NFQA_TIMESTAMP then Validate2 MNL_TYPE_UNSPEC sizeof_nfqnl_msg_packet_timestamp
  else if type =? NFQA_HWADDR then Validate2 MNL_TYPE_UNSPEC sizeof_nfqnl_msg_packet_hw
  else if type =? NFQA_PACKET_HDR then Validate2 MNL_TYPE_UNSPEC sizeof_nfqnl_msg_packet_hdr
  else NoCheck.

(** The validation of the policy: [false] when it reports an error. *)
Definition validate_policy (attr : Z) (p : policy) : M bool :=
  match p with
  | NoCheck => ret true
  | Validate t => let! r := mnl_attr_validate attr t in ret (negb (r <? 0))
  | Validate2 t n => let! r := mnl_attr_validate2 attr t n in ret (negb (r <? 0))
  end.

Definition nfq_pkt_parse_attr_cb : mnl_attr_cb_t tb_t := fun attr tb =>
  let! type := mnl_attr_get_type attr in
  let! valid := mnl_attr_type_valid attr NFQA_MAX in
  if valid <? 0 then ret (MNL_CB_OK, tb) else
  let! ok := validate_policy attr (pkt_policy type) in
  if negb ok then ret (MNL_CB_ERROR, tb) else
  let! tb := tb_set type attr tb in
  ret (MNL_CB_OK, tb).

Definition nfq_nlmsg_parse (nlh : Z) (attr : tb_t) : M (Z * tb_t) :=
  mnl_attr_parse nlh sizeof_nfgenmsg nfq_pkt_parse_attr_cb attr.

(** ** What the reader computes *)

Fixpoint take_while {A} (p : A -> bool) (l : list A) : list A :=
  match l with [] => [] | x :: l => if p x then x :: take_while p l else [] end.

Section Parse.
Context (m : list Z).

(** The callback accepts the attribute. *)
Definition pkt_ok (a : Z) : bool :=
  (NFQA_MAX <? attr_type m a) || policy_ok (pkt_policy (attr_type m a)) (payload a m).

(** The table with the attribute entered, unless its type is unknown. *)
Definition pkt_enter (a : Z) (tb : tb_t) : tb_t :=
  if NFQA_MAX <? attr_type m a then tb else <[Z.to_nat (attr_type m a) := Some a]> tb.

Definition pkt_cb (a : Z) (tb : tb_t) : Z * tb_t :=
  if pkt_ok a then (MNL_CB_OK, pkt_enter a tb) else (MNL_CB_ERROR, tb).

Lemma pkt_policy_wf t : policy_wf (pkt_policy t) = true.
Proof. unfold pkt_policy. repeat case_match; done. Qed.

Lemma validate_policy_run a p w :
  valid_attr (w_mem w) a -> policy_wf p = true ->
  exists w', validate_policy a p w = Ok (policy_ok p (payload a (w_mem w)), w') /\ w_mem w' = w_mem w.
Proof.
  intros Hv Hp. destruct p as [|t|t n]; cbn in *; [by exists w| |].
  - unfold mnl_attr_validate, bind. apply negb_true_iff in Hp. rewrite Hp.
    rewrite validate_run by auto using type_len_nonneg. destruct (validate_ok _ _ _); eauto.
  - apply andb_true_iff in Hp as [Hp%negb_true_iff ?%Z.leb_le]. unfold mnl_attr_validate2, bind.
    rewrite Hp, validate_run by done. destruct (validate_ok _ _ _); eauto.
Qed.

Lemma pkt_cb_run a tb w :
  0 <= attr_type m a -> w_mem w = m -> valid_attr m a -> zlen tb = NFQA_MAX + 1 ->
  exists w', nfq_pkt_parse_attr_cb a tb w = Ok (pkt_cb a tb, w') /\ w_mem w' = m /\
             zlen (pkt_cb a tb).2 = NFQA_MAX + 1.
Proof.
  intros Hn Hw Hv Htb.
  assert (wp False (nfq_pkt_parse_attr_cb a tb)
    (fun x w' => x = pkt_cb a tb /\ w_mem w' = m /\ zlen x.2 = NFQA_MAX + 1) w) as Hwp.
  2: { apply wp_run in Hwp as (x & w' & ? & -> & ? & ?). by exists w'. }
  rewrite <- Hw in Hv. unfold nfq_pkt_parse_attr_cb. apply wp_bind, wp_get_type; [done|].
  apply wp_bind, wp_type_valid; [done|]. rewrite Hw. fold (attr_type m a). cbn zeta.
  unfold pkt_cb, pkt_ok, pkt_enter. destruct (Z.ltb_spec NFQA_MAX (attr_type m a)); [by apply wp_ret|].
  apply wp_bind. change (1 <? 0) with false. cbn iota.
  destruct (validate_policy_run a (pkt_policy (attr_type m a)) w Hv (pkt_policy_wf _)) as (w' & Hrun & Hw').
  unfold wp at 1. rewrite Hrun, Hw. cbn [orb]. rewrite Hw in Hw'.
  clear Hrun. destruct (policy_ok (pkt_policy (attr_type m a)) (payload a m)); cbn [negb]; [|by apply wp_ret].
  apply wp_bind. unfold tb_set.
  rewrite (proj2 (andb_true_iff _ _)) by (split; [apply Z.leb_le|apply Z.ltb_lt]; lia).
  apply wp_ret, wp_ret. split_and!; [done|done|]. cbn [snd]. unfold zlen in *. by rewrite length_insert.
Qed.

(** The fold of the callback: the attributes before the first bad one enter the
    table. *)
Lemma run_pkt_cb l tb :
  run_cb pkt_cb l MNL_CB_OK tb =
  (if bool_decide (take_while pkt_ok l = l) then MNL_CB_OK else MNL_CB_ERROR,
   foldl (fun tb a => pkt_enter a tb) tb (take_while pkt_ok l)).
Proof.
  revert tb. induction l as [|a l IH]; intros tb; [done|]. cbn [run_cb take_while]. unfold pkt_cb at 1.
  destruct (pkt_ok a); [|done]. cbn -[bool_decide]. rewrite IH. f_equal.
  destruct (decide (take_while pkt_ok l = l)) as [E|E].
  - by rewrite !bool_decide_eq_true_2 by congruence.
  - by rewrite !bool_decide_eq_false_2 by congruence.
Qed.

Lemma enter_lookup i l : forall tb, 0 <= i <= NFQA_MAX -> zlen tb = NFQA_MAX + 1 ->
  Forall (fun a => 0 <= attr_type m a) l ->
  foldl (fun tb a => pkt_enter a tb) tb l !! Z.to_nat i =
  match last (filter (fun a => attr_type m a = i) l) with
  | Some a => Some (Some a)
  | None => tb !! Z.to_nat i
  end.
Proof.
  induction l as [|a l IH] using rev_ind; intros tb Hi Htb Hl; [done|].
  apply Forall_app in Hl as [Hl Ha]. rewrite Forall_singleton in Ha. rewrite foldl_app, filter_app. cbn [foldl].
  assert (zlen (foldl (fun tb a => pkt_enter a tb) tb l) = NFQA_MAX + 1) as Hlen.
  { clear IH Hl. revert tb Htb. induction l as [|b l IHl]; intros tb Htb; [done|]. cbn [foldl]. apply IHl.
    unfold pkt_enter. destruct (_ <? _); [done|]. unfold zlen in *. by rewrite length_insert. }
  specialize (IH tb Hi Htb Hl). revert IH Hlen.
  generalize (foldl (fun tb a => pkt_enter a tb) tb l) as tb'. intros tb' IH Hlen.
  unfold pkt_enter. destruct (decide (attr_type m a = i)) as [E|E].
  - rewrite filter_cons_True by done. rewrite filter_nil, last_snoc.
    rewrite (proj2 (Z.ltb_ge _ _)) by lia. rewrite E. apply list_lookup_insert_eq. unfold zlen in Hlen. lia.
  - rewrite filter_cons_False by done. rewrite filter_nil, app_nil_r.
    destruct (_ <? _); [done|]. by rewrite list_lookup_insert_ne by lia.
Qed.
End Parse.

(** The attributes of the message at [nlh], found by their lengths. *)
Definition msg_attrs (nlh : Z) (m : list Z) : list Z :=
  let len := align4 (rd 4 nlh m) - 20 in attr_list (loop_fuel len) m (nlh + 20 + len) (nlh + 20).

Definition whole_msg (nlh : Z) (m : list Z) : Prop :=
  Forall byte_ok m /\ zlen m < 2 ^ 31 - 4 /\ 0 <= nlh /\ 20 <= rd 4 nlh m /\
  nlh + align4 (rd 4 nlh m) <= zlen m.

Lemma in_attr_list fuel m e o a : Forall byte_ok m -> 0 <= o -> e <= zlen m ->
  a ∈ attr_list fuel m e o -> valid_attr m a.
Proof.
  intros Hm. revert o. induction fuel as [|fuel IH]; intros o Ho He; cbn [attr_list]; [by intros ?%elem_of_nil|].
  destruct (_ && _) eqn:Hok; [|by intros ?%elem_of_nil].
  apply andb_true_iff in Hok as [?%Z.leb_le ?%Z.leb_le].
  pose proof (rd_range 2 o m Hm Ho ltac:(lia)) as Hrd. simpl in Hrd.
  intros [->|Ha]%elem_of_cons; [split_and!; simpl; lia|].
  pose proof (align4_spec (rd 2 o m)). apply IH in Ha; [done|lia|done].
Qed.

Lemma nfq_parse_run nlh w : whole_msg nlh (w_mem w) ->
  let m := w_mem w in let l := msg_attrs nlh m in
  let good := take_while (pkt_ok m) l in
  exists w', nfq_nlmsg_parse nlh (tb_new (NFQA_MAX + 1)) w =
    Ok (if bool_decide (good = l) then MNL_CB_OK else MNL_CB_ERROR,
        foldl (fun tb a => pkt_enter m a tb) (tb_new (NFQA_MAX + 1)) good, w') /\ w_mem w' = m.
Proof.
  intros (Hm & Hz & Hn & Hlen & Hfit) m l good.
  pose proof (align4_spec (rd 4 nlh m)) as [Hal _]. fold m in Hm, Hz, Hlen, Hfit.
  pose proof (rd_range 4 nlh m Hm Hn ltac:(lia)) as Hrd. simpl in Hrd.
  assert (forall a w', w_mem w' = m ->
            msg_bound nlh a w' = Ok (sint 32 (nlh + align4 (rd 4 nlh m) - a), w')) as Hb.
  { intros a w' Hw'. unfold msg_bound, mnl_nlmsg_get_payload_tail, nlmsg_len, load32, bind.
    rewrite load_ok by (rewrite ?Hw'; lia). rewrite Hw'. unfold ret. rewrite MNL_ALIGN_align4 by lia. done. }
  unfold nfq_nlmsg_parse, mnl_attr_parse. unfold bind at 1. rewrite Hb by done.
  change (mnl_nlmsg_get_payload_offset nlh sizeof_nfgenmsg) with (nlh + 16 + 4).
  replace (nlh + 16 + 4) with (nlh + 20) by lia. rewrite sint_small by lia.
  replace (nlh + align4 (rd 4 nlh m) - (nlh + 20)) with (align4 (rd 4 nlh m) - 20) by lia.
  destruct (attr_for_each_fold nfq_pkt_parse_attr_cb m (pkt_cb m) (fun tb => zlen tb = NFQA_MAX + 1) Hm Hz)
    with (fuel := loop_fuel (align4 (rd 4 nlh m) - 20)) (bound := msg_bound nlh) (attr := nlh + 20)
         (e := nlh + 20 + (align4 (rd 4 nlh m) - 20)) (r := MNL_CB_OK) (data := tb_new (NFQA_MAX + 1)) (w := w)
    as (w' & Hrun & Hw'); try done; try lia.
  - intros. apply pkt_cb_run; try done. by apply attr_type_nonneg.
  - intros a w' Hw'. rewrite Hb by done. do 3 f_equal. lia.
  - unfold loop_fuel. lia.
  - exists w'. split; [|done]. rewrite Hrun, run_pkt_cb. done.
Qed.

(** On a message of arbitrary bytes [nfq_nlmsg_parse] reads inside of the
    message and ends.  It accepts the message when every attribute of a known
    type has the length its type asks for, and otherwise reports an error at the
    first one that has not.  The table has, for every type, the last attribute
    of that type among those before the first bad one. *)
Theorem nfq_nlmsg_parse_spec nlh w : whole_msg nlh (w_mem w) ->
  let m := w_mem w in let l := msg_attrs nlh m in
  let good := take_while (pkt_ok m) l in
  exists tb w', nfq_nlmsg_parse nlh (tb_new (NFQA_MAX + 1)) w =
    Ok (if bool_decide (good = l) then MNL_CB_OK else MNL_CB_ERROR, tb, w') /\ w_mem w' = m /\
  forall i, 0 <= i <= NFQA_MAX ->
    tb !! Z.to_nat i = Some (last (filter (fun a => attr_type m a = i) good)).
Proof.
  intros Hmsg m l good. destruct (nfq_parse_run nlh w Hmsg) as (w' & Hrun & Hw').
  eexists _, w'. split; [exact Hrun|]. split; [done|]. intros i Hi.
  rewrite enter_lookup; [|done|done|].
  - fold m. fold l. fold good. destruct (last _); [done|]. unfold tb_new. by rewrite lookup_replicate_2 by lia.
  - destruct Hmsg as (Hm & ? & ? & ? & ?). apply Forall_forall. intros a Ha.
    assert (forall l, a ∈ take_while (pkt_ok m) l -> a ∈ l) as Hsub.
    { induction l0 as [|b l0 IH]; cbn [take_while]; [done|].
      destruct (pkt_ok m b); [|by intros ?%elem_of_nil]. intros [->|?]%elem_of_cons; [by left|right; auto]. }
    apply attr_type_nonneg; [done|]. eapply in_attr_list; [done| | |exact (Hsub _ Ha)]; lia.
Qed.

(** A packet message with a packet header, a security context of five bytes and
    a mark. *)
Definition secctx_msg : list Z :=
  le_enc 4 52 ++ replicate 16 0 ++
  le_enc 2 11 ++ le_enc 2 NFQA_PACKET_HDR ++ [0; 0; 0; 1; 8; 0; 3; 0] ++
  le_enc 2 9 ++ le_enc 2 NFQA_SECCTX ++ [115; 121; 115; 58; 48; 0; 0; 0] ++
  le_enc 2 8 ++ le_enc 2 NFQA_MARK ++ [0; 0; 0; 1].

Lemma nfq_nlmsg_parse_spec_witness :
  exists tb w', nfq_nlmsg_parse 0 (tb_new (NFQA_MAX + 1)) (mk_world secctx_msg 0 []) = Ok (MNL_CB_ERROR, tb, w') /\
    tb !! 1%nat = Some (Some 20) /\ tb !! 3%nat = Some None.
Proof.
  destruct (nfq_nlmsg_parse_spec 0 (mk_world secctx_msg 0 [])) as (tb & w' & Hrun & _ & Htb).
  - split_and!; try done; [by apply bytes_okb_ok|vm_compute; discriminate..].
  - exists tb, w'. split; [exact Hrun|]. split.
    + apply (Htb 1). done.
    + apply (Htb 3). done.
Defined.

Lemma take_while_id {A} (p : A -> bool) l : take_while p l = l -> Forall (fun x => p x = true) l.
Proof.
  induction l as [|x l IH]; cbn [take_while]; [constructor|]. destruct (p x) eqn:E; [|done].
  intros [= H]. constructor; auto.
Qed.

(** A packet message that carries the security context of the sender is
    rejected, unless the context happens to be four bytes long: the reader
    validates the context, which is a string, as a 32-bit integer. *)
Theorem nfq_secctx_rejected nlh w a : whole_msg nlh (w_mem w) ->
  a ∈ msg_attrs nlh (w_mem w) -> attr_type (w_mem w) a = NFQA_SECCTX ->
  zlen (payload a (w_mem w)) <> 4 ->
  exists tb w', nfq_nlmsg_parse nlh (tb_new (NFQA_MAX + 1)) w = Ok (MNL_CB_ERROR, tb, w').
Proof.
  intros Hmsg Ha Hty Hlen. destruct (nfq_parse_run nlh w Hmsg) as (w' & Hrun & _). revert Hrun.
  rewrite bool_decide_eq_false_2; [eauto|]. intros Hall%take_while_id. rewrite Forall_forall in Hall.
  specialize (Hall a Ha). unfold pkt_ok in Hall. rewrite Hty in Hall.
  assert ((4 <=? zlen (payload a (w_mem w))) && true && (zlen (payload a (w_mem w)) <=? 4) = true) as Hb by exact Hall.
  rewrite andb_true_r in Hb. apply andb_true_iff in Hb as [?%Z.leb_le ?%Z.leb_le]. lia.
Qed.

Lemma nfq_secctx_rejected_witness :
  exists tb w', nfq_nlmsg_parse 0 (tb_new (NFQA_MAX + 1)) (mk_world secctx_msg 0 []) = Ok (MNL_CB_ERROR, tb, w').
Proof.
  apply (nfq_secctx_rejected 0 (mk_world secctx_msg 0 []) 32).
  - split_and!; try done; [by apply bytes_okb_ok|vm_compute; discriminate..].
  - right. left.
  - reflexivity.
  - vm_compute. discriminate.
Defined.

(** ** What the writers leave in the message *)

(** The attributes a client can put into a message of the queue. *)
Inductive nfq_op :=
| PutVerdict (id verdict : Z)
| PutMark (mark : Z)
| PutPkt (pkt : list Z) (plen : Z)
| PutCmd (pf cmd : Z)
| PutParams (mode range : Z)
| PutMaxlen (queue_maxlen : Z).

Definition nfq_put (nlh : Z) (o : nfq_op) : M unit :=
  match o with
  | PutVerdict id verdict => nfq_nlmsg_verdict_put nlh id verdict
  | PutMark mark => nfq_nlmsg_verdict_put_mark nlh mark
  | PutPkt pkt plen => nfq_nlmsg_verdict_put_pkt nlh pkt plen
  | PutCmd pf cmd => nfq_nlmsg_cfg_put_cmd nlh pf cmd
  | PutParams mode range => nfq_nlmsg_cfg_put_params nlh mode range
  | PutMaxlen n => nfq_nlmsg_cfg_put_qmaxlen nlh n
  end.

Fixpoint nfq_puts (nlh : Z) (ops : list nfq_op) : M unit :=
  match ops with [] => ret tt | o :: ops => nfq_put nlh o ;;; nfq_puts nlh ops end.

(** The attribute on the wire: integers in network byte order. *)
Definition op_tlv (o : nfq_op) : tlv :=
  match o with
  | PutVerdict id verdict => Leaf NFQA_VERDICT_HDR (rev (le_enc 4 verdict) ++ rev (le_enc 4 id))
  | PutMark mark => Leaf NFQA_MARK (rev (le_enc 4 mark))
  | PutPkt pkt plen => Leaf NFQA_PAYLOAD (take (Z.to_nat plen) pkt)
  | PutCmd pf cmd => Leaf NFQA_CFG_CMD (le_enc 1 cmd ++ [0] ++ rev (le_enc 2 pf))
  | PutParams mode range => Leaf NFQA_CFG_PARAMS (rev (le_enc 4 range) ++ le_enc 1 mode)
  | PutMaxlen n => Leaf NFQA_CFG_QUEUE_MAXLEN (rev (le_enc 4 n))
  end.

(** The packet is as long as the caller says and fits into an attribute. *)
Definition op_ok (o : nfq_op) : Prop :=
  match o with PutPkt pkt plen => 0 <= plen <= zlen pkt /\ 4 + plen < 2 ^ 16 | _ => True end.

Lemma le_enc_bswap n z : le_enc n (bswap n z) = rev (le_enc n z).
Proof.
  unfold bswap. rewrite <- (length_le_enc n z) at 1. rewrite <- length_rev.
  apply le_enc_dec, Forall_rev, le_enc_bytes.
Qed.

Lemma le_enc_wrap n z : le_enc n (wrap (8 * Z.of_nat n) z) = le_enc n z.
Proof. apply le_enc_mod. Qed.

Lemma put_all nlh ty d : 0 <= ty < 2 ^ 14 -> 4 + zlen d < 2 ^ 16 ->
  appends nlh (tlv_size (Leaf ty d)) (mnl_attr_put nlh ty (zlen d) d) [Leaf ty d] (fun _ => True).
Proof.
  intros. pose proof (appends_put nlh ty (zlen d) d) as H1. rewrite slice_all in H1.
  apply H1; [done|split; [apply zlen_nonneg|lia]|done].
Qed.

Lemma appends_op nlh o : op_ok o ->
  appends nlh (tlv_size (op_tlv o)) (nfq_put nlh o) [op_tlv o] (fun _ => True).
Proof.
  intros Ho. destruct o; cbn [nfq_put op_tlv].
  - unfold nfq_nlmsg_verdict_put, nfqnl_msg_verdict_hdr, htonl. rewrite !le_enc_bswap.
    rewrite !(le_enc_wrap 4). by apply put_all.
  - unfold nfq_nlmsg_verdict_put_mark, mnl_attr_put_u32, htonl. rewrite le_enc_bswap.
    by apply (put_all nlh NFQA_MARK (rev (le_enc 4 mark))).
  - destruct Ho as [Hp H16]. unfold nfq_nlmsg_verdict_put_pkt.
    pose proof (appends_put nlh NFQA_PAYLOAD plen pkt ltac:(done) Hp H16) as H.
    assert (slice 0 plen pkt = take (Z.to_nat plen) pkt) as E by done.
    assert (zlen (take (Z.to_nat plen) pkt) = plen) as El by (rewrite <- E; apply zlen_slice; lia).
    cbn [tlv_size]. rewrite El, <- E. exact H.
  - unfold nfq_nlmsg_cfg_put_cmd, nfqnl_msg_config_cmd, htons. rewrite le_enc_bswap. by apply put_all.
  - unfold nfq_nlmsg_cfg_put_params, nfqnl_msg_config_params, htonl. rewrite le_enc_bswap.
    rewrite (le_enc_wrap 4). by apply put_all.
  - unfold nfq_nlmsg_cfg_put_qmaxlen, mnl_attr_put_u32, htonl. rewrite le_enc_bswap.
    by apply (put_all nlh NFQA_CFG_QUEUE_MAXLEN (rev (le_enc 4 queue_maxlen))).
Qed.

Lemma appends_ops nlh ops : Forall op_ok ops ->
  appends nlh (tlvs_size (map op_tlv ops)) (nfq_puts nlh ops) (map op_tlv ops) (fun _ => True).
Proof.
  induction 1 as [|o ops Ho _ IH]; cbn [map nfq_puts tlvs_size]; [by apply appends_ret|].
  apply (appends_seq nlh _ _ _ _ [op_tlv o] _ (fun _ => True)); [by apply appends_op|done| |].
  - apply tlvs_size_nonneg.
  - cbn [tlvs_size]. lia.
Qed.

(** *** The header *)

(** The bytes after the length field. *)
Definition nfq_header (type queue_num : Z) : list Z :=
  le_enc 2 (Z.lor 0x300 type) ++ le_enc 2 NLM_F_REQUEST ++ replicate 8 0 ++
  [AF_UNSPEC; NFNETLINK_V0] ++ rev (le_enc 2 queue_num).

Lemma splice_within o bs o' bs' m :
  0 <= o -> o + zlen bs <= zlen m -> 0 <= o' -> o' + zlen bs' <= zlen bs ->
  splice (o + o') bs' (splice o bs m) = splice o (splice o' bs' bs) m.
Proof.
  intros. pose proof (zlen_nonneg bs'). assert (zlen (splice o' bs' bs) = zlen bs) by by apply zlen_splice.
  assert (zlen (splice o bs m) = zlen m) by by apply zlen_splice.
  apply list_eq. intros i. destruct (decide (o <= Z.of_nat i < o + zlen bs)).
  - rewrite (lookup_splice_in o) by lia.
    destruct (decide (o + o' <= Z.of_nat i < o + o' + zlen bs')).
    + rewrite !lookup_splice_in by lia. f_equal. lia.
    + rewrite (lookup_splice_out (o + o')), lookup_splice_in, lookup_splice_out by lia. done.
  - rewrite !lookup_splice_out by lia. done.
Qed.

Lemma splice_adjacent o bs bs' m :
  0 <= o -> o + zlen bs + zlen bs' <= zlen m ->
  splice (o + zlen bs) bs' (splice o bs m) = splice o (bs ++ bs') m.
Proof.
  intros. pose proof (zlen_nonneg bs'). pose proof (zlen_nonneg bs).
  assert (zlen (splice o bs m) = zlen m) by (apply zlen_splice; lia).
  assert (zlen (bs ++ bs') = zlen bs + zlen bs') by apply zlen_app.
  apply list_eq. intros i. destruct (decide (o <= Z.of_nat i < o + zlen bs)).
  - rewrite lookup_splice_out, !lookup_splice_in by lia. rewrite lookup_app_l; [done|unfold zlen in *; lia].
  - destruct (decide (o + zlen bs <= Z.of_nat i < o + zlen bs + zlen bs')).
    + rewrite !lookup_splice_in by lia. rewrite lookup_app_r by (unfold zlen in *; lia). f_equal. unfold zlen in *. lia.
    + rewrite !lookup_splice_out by lia. done.
Qed.

(** A store into a block that was written before. *)
Lemma store_within E o bs n o' v m w (Q : unit -> world -> Prop) :
  w_mem w = splice o bs m -> 0 <= o -> o + zlen bs <= zlen m -> 0 <= o' -> o' + Z.of_nat n <= zlen bs ->
  Q tt (with_mem (splice o (splice o' (le_enc n v) bs) m) w) -> wp E (store n (o + o') v) Q w.
Proof.
  intros Hw ? ? ? ? HQ. unfold store. apply wp_store_bytes; rewrite ?Hw, ?zlen_splice, ?zlen_le_enc by lia; [lia|lia|].
  rewrite splice_within; [done|lia|lia|lia|zl].
Qed.

(** Lengths of concrete blocks. *)
Ltac hz :=
  repeat match goal with
         | |- context [zlen ?l] =>
             let n := eval vm_compute in (zlen l) in
             lazymatch n with Zpos _ => change (zlen l) with n end
         end; lia.

Lemma nfq_nlmsg_put_run buf type q w :
  0 <= buf -> buf + 20 <= zlen (w_mem w) -> zlen (w_mem w) < 2 ^ 31 ->
  nfq_nlmsg_put buf type q w = Ok (buf, with_mem (splice buf (le_enc 4 20 ++ nfq_header type q) (w_mem w)) w).
Proof.
  intros Hb Hfit Hz. set (m := w_mem w) in *.
  cut (wp False (nfq_nlmsg_put buf type q)
         (fun x w' => x = buf /\ w' = with_mem (splice buf (le_enc 4 20 ++ nfq_header type q) m) w) w).
  { intros H. apply wp_run in H as (x & w' & -> & -> & ->). done. }
  unfold nfq_nlmsg_put. apply wp_bind. unfold mnl_nlmsg_put_header.
  change (MNL_ALIGN 64 sizeof_nlmsghdr) with 16. apply wp_bind, wp_store_bytes; [lia|zl; fold m; lia|].
  fold m. set (w1 := with_mem (splice buf (replicate _ 0) m) w). assert (w_mem w1 = splice buf (replicate 16 0) m) as H1 by done.
  apply wp_bind. unfold set_nlmsg_len, store32. rewrite <- (Z.add_0_r buf) at 1.
  eapply store_within; [exact H1|lia|zl|lia|zl|]. apply wp_ret, wp_bind.
  unfold set_nlmsg_type, store16. eapply store_within; [reflexivity|lia|..]; [hz..|].
  apply wp_bind. unfold set_nlmsg_flags, store16.
  eapply store_within; [reflexivity|lia|..]; [hz..|].
  set (h := splice 6 _ _). cbn in h. apply wp_bind. unfold mnl_nlmsg_put_extra_header, nlmsg_len, load32.
  match goal with |- wp _ _ _ ?x => set (w2 := x) end. assert (w_mem w2 = splice buf h m) as H2 by done.
  assert (zlen (w_mem w2) = zlen m) as Hz2 by (rewrite H2; apply zlen_splice; [lia|hz]).
  apply wp_bind, wp_load; [lia|lia|].
  assert (rd 4 buf (w_mem w2) = 16) as ->.
  { unfold rd. rewrite H2. rewrite (slice_ext buf 4 _ (splice buf (take 4 h) m)); [|lia|].
    - change 4 with (zlen (take 4 h)) at 1. rewrite slice_splice_eq; [done|lia|hz].
    - intros i Hi. rewrite !lookup_splice_in by hz. symmetry. apply lookup_take_lt. lia. }
  change (MNL_ALIGN 64 sizeof_nfgenmsg) with 4. change (wrap 32 (16 + 4)) with 20.
  apply wp_bind. unfold set_nlmsg_len, store32. rewrite <- (Z.add_0_r buf) at 1.
  eapply store_within; [exact H2|lia|hz|lia|hz|]. apply wp_bind.
  set (h' := splice 0 _ h). cbn in h'. apply wp_store_bytes; [lia|cbn [w_mem with_mem]|].
  { rewrite zlen_splice; [zl|lia|hz]. }
  apply wp_ret. cbn [w_mem with_mem].
  pose proof (splice_adjacent buf h' (replicate (Z.to_nat 4) 0) m) as Hadj.
  change (zlen h') with 16 in Hadj. rewrite Hadj by hz. clear Hadj. match goal with |- wp _ _ _ ?x => set (w3 := x) end. set (h3 := h' ++ _) in *. cbn in h3.
  assert (w_mem w3 = splice buf h3 m) as H3 by done.
  apply wp_bind. eapply store_within; [exact H3|lia|hz|lia|hz|]. apply wp_bind.
  rewrite <- Z.add_assoc. eapply store_within; [reflexivity|lia|hz|lia|hz|].
  apply wp_bind. unfold store16. rewrite <- Z.add_assoc.
  eapply store_within; [reflexivity|lia|hz|lia|hz|]. apply wp_ret.
  split; [done|]. unfold htons. rewrite le_enc_bswap. change 16 with (8 * Z.of_nat 2) at 2.
  rewrite (le_enc_wrap 2). done.
Qed.

(** A message of the queue with the attributes [ops]. *)
Definition nfq_message (buf type queue_num : Z) (ops : list nfq_op) : M Z :=
  let! nlh := nfq_nlmsg_put buf type queue_num in nfq_puts nlh ops ;;; ret nlh.

Lemma nfq_message_run buf type q ops w :
  let n := 20 + tlvs_size (map op_tlv ops) in
  0 <= buf -> buf + n <= zlen (w_mem w) -> zlen (w_mem w) < 2 ^ 31 -> Forall op_ok ops ->
  exists w', nfq_message buf type q ops w = Ok (buf, w') /\
    zlen (w_mem w') = zlen (w_mem w) /\ rd 4 buf (w_mem w') = n /\
    slice (buf + 4) 16 (w_mem w') = nfq_header type q /\
    attrs_at (w_mem w') (buf + 20) (map op_tlv ops) /\
    forall i : nat, Z.of_nat i < buf -> w_mem w' !! i = w_mem w !! i.
Proof.
  intros n Hb Hfit Hz Hops. pose proof (tlvs_size_nonneg (map op_tlv ops)) as Hsz.
  unfold nfq_message, bind. rewrite nfq_nlmsg_put_run by lia.
  pose proof (splice_adjacent buf (le_enc 4 20) (nfq_header type q) (w_mem w)) as Hadj.
  change (zlen (le_enc 4 20)) with 4 in Hadj. change (zlen (nfq_header type q)) with 16 in Hadj.
  rewrite <- Hadj by lia. clear Hadj. set (m0 := splice buf _ _). set (w1 := with_mem _ w).
  assert (zlen m0 = zlen (w_mem w)) as Hz0 by (apply zlen_splice; hz).
  assert (w_mem w1 = splice (buf + 4) (nfq_header type q) m0) as Hw1 by done.
  assert (zlen (w_mem w1) = zlen (w_mem w)) as Hz1 by (rewrite Hw1, zlen_splice; hz).
  assert (msg_len buf 20 w1) as Hm1.
  { split; try done; try lia. rewrite Hw1, rd_splice_ne by hz. unfold m0. by rewrite rd_splice_eq by lia. }
  destruct (wp_run _ _ _ (appends_ops buf ops Hops w1 20 Hm1 ltac:(lia))) as ([] & w2 & -> & _ & Hm2 & Hat & Hs).
  exists w2. destruct Hs as [Hzl _ _ Hby]. split; [done|]. split; [congruence|].
  split; [apply Hm2|]. split_and!; [|done|].
  - rewrite (slice_ext _ _ _ (w_mem w1)) by (intros; try apply Hby; lia).
    rewrite Hw1. change 16 with (zlen (nfq_header type q)). apply slice_splice_eq; hz.
  - intros i Hi. rewrite Hby by lia. rewrite Hw1, lookup_splice_out by hz. apply lookup_splice_out; hz.
Qed.

(** A message of the queue is written as described: [nfq_nlmsg_put] and any
    sequence of the attribute writers leave, at the start of the buffer, a
    message of the exact length, its header (subsystem, type, request flag, the
    queue number in network byte order), and the attributes in order, with their
    integers in network byte order; the bytes before the message are kept. *)
Theorem nfq_message_refines buf type q ops w :
  let n := 20 + tlvs_size (map op_tlv ops) in
  0 <= buf -> buf + n <= zlen (w_mem w) -> zlen (w_mem w) < 2 ^ 31 -> Forall op_ok ops ->
  exists w', nfq_message buf type q ops w = Ok (buf, w') /\
    zlen (w_mem w') = zlen (w_mem w) /\ rd 4 buf (w_mem w') = n /\
    slice (buf + 4) 16 (w_mem w') = nfq_header type q /\
    attrs_at (w_mem w') (buf + 20) (map op_tlv ops) /\
    forall i : nat, Z.of_nat i < buf -> w_mem w' !! i = w_mem w !! i.
Proof. apply nfq_message_run. Qed.

(** Binding queue 7 with packets of at most 65535 bytes. *)
Definition bind_ops : list nfq_op := [PutCmd 2 1; PutParams 2 65535; PutMaxlen 1024].

Lemma nfq_message_refines_witness :
  exists w', nfq_message 0 NFQNL_MSG_CONFIG 7 bind_ops (mk_world (replicate 64 0) 0 []) = Ok (0, w') /\
    rd 4 0 (w_mem w') = 48 /\ slice 4 16 (w_mem w') = nfq_header NFQNL_MSG_CONFIG 7.
Proof.
  destruct (nfq_message_refines 0 NFQNL_MSG_CONFIG 7 bind_ops (mk_world (replicate 64 0) 0 []))
    as (w' & Hrun & _ & Hl & Hh & _).
  - done.
  - vm_compute; discriminate.
  - done.
  - repeat constructor.
  - exists w'. split; [exact Hrun|]. split; [exact Hl|exact Hh].
Defined.

(** ** Verdict messages *)

(** The attributes of a table: every present type and its payload. *)
Definition tb_payload (tb : tb_t) (m : list Z) (i : Z) : option (list Z) :=
  match tb !! Z.to_nat i with Some (Some a) => Some (payload a m) | _ => None end.

(** Writing bytes keeps the buffer an array of bytes. *)
Definition keeps_bytes {A} (c : M A) : Prop := forall w a w', mem_ok w -> c w = Ok (a, w') -> mem_ok w'.

Lemma keeps_ret {A} (a : A) : keeps_bytes (ret a).
Proof. by intros w a' w' ? [= <- <-]. Qed.

Lemma keeps_bind {A B} (c : M A) (k : A -> M B) :
  keeps_bytes c -> (forall a, keeps_bytes (k a)) -> keeps_bytes (bind c k).
Proof.
  intros Hc Hk w b w' Hw. unfold bind. destruct (c w) as [[a w1]| | |] eqn:E; try done.
  intros Hr. eapply Hk; [|exact Hr]. by eapply Hc.
Qed.

Lemma keeps_load_bytes o n : keeps_bytes (load_bytes o n).
Proof. intros w a w' ?. unfold load_bytes. destruct (in_range _ _ _); [|done]. by intros [= _ <-]. Qed.

Lemma keeps_store_bytes o bs : Forall byte_ok bs -> keeps_bytes (store_bytes o bs).
Proof.
  intros Hb w a w' Hw. unfold store_bytes. destruct (in_range _ _ _); [|done]. intros [= _ <-].
  by apply splice_bytes.
Qed.

Lemma keeps_load n o : keeps_bytes (load n o).
Proof. apply keeps_bind; [apply keeps_load_bytes|]. intros a. apply keeps_ret. Qed.

Lemma keeps_store n o v : keeps_bytes (store n o v).
Proof. apply keeps_store_bytes, le_enc_bytes. Qed.

Lemma keeps_read {A} n d (k : list Z -> M A) :
  Forall byte_ok d -> (forall bs, Forall byte_ok bs -> keeps_bytes (k bs)) ->
  keeps_bytes (let! bs := read_data n d in k bs).
Proof.
  intros Hd Hk w a w' Hw. unfold read_data, bind. destruct (in_range _ _ _); [|done].
  apply Hk; [by apply slice_bytes|done].
Qed.

(** Closes [keeps_bytes] of straight-line code. *)
Ltac keeps :=
  repeat first [assumption | apply keeps_ret | apply keeps_load | apply keeps_store | apply le_enc_bytes
               | apply keeps_store_bytes | apply keeps_read; [|intros ? ?]
               | apply keeps_bind; [|intros ?]].

Lemma keeps_put nlh ty n d : Forall byte_ok d -> keeps_bytes (mnl_attr_put nlh ty n d).
Proof. intros Hd. unfold mnl_attr_put, mnl_nlmsg_get_payload_tail. keeps. Qed.

Lemma keeps_nfq_put nlh o : (forall pkt n, o = PutPkt pkt n -> Forall byte_ok pkt) -> keeps_bytes (nfq_put nlh o).
Proof.
  intros Ho. destruct o; apply keeps_put; repeat first [apply Forall_app_2 | apply le_enc_bytes].
  - by eapply Ho.
  - by constructor.
Qed.

Lemma nfq_message_bytes buf type q ops :
  (forall pkt n, PutPkt pkt n ∈ ops -> Forall byte_ok pkt) -> keeps_bytes (nfq_message buf type q ops).
Proof.
  intros Hops. unfold nfq_message. apply keeps_bind.
  - unfold nfq_nlmsg_put, mnl_nlmsg_put_header, mnl_nlmsg_put_extra_header. keeps; by apply Forall_replicate.
  - intros nlh. apply keeps_bind; [|intros; apply keeps_ret].
    induction ops as [|o ops IH]; cbn [nfq_puts]; [apply keeps_ret|]. apply keeps_bind.
    + apply keeps_nfq_put. intros pkt n ->. eapply Hops. by left.
    + intros _. apply IH. intros pkt n Hin. eapply Hops. by right.
Qed.

Lemma take_while_all {A} (p : A -> bool) l : Forall (fun x => p x = true) l -> take_while p l = l.
Proof. induction 1 as [|x l Hx _ IH]; [done|]. cbn. by rewrite Hx, IH. Qed.

Lemma attr_at_attr_type m o t : attr_at m o t -> attr_type m o = tlv_type t.
Proof. apply attr_at_type. Qed.

(** On a message that holds attributes the reader accepts, it enters them all. *)
Lemma nfq_parse_forest nlh l w :
  let m := w_mem w in
  Forall byte_ok m -> zlen m < 2 ^ 31 - 4 -> 0 <= nlh -> rd 4 nlh m = 20 + tlvs_size l ->
  attrs_at m (nlh + 20) l -> Forall (fun t => tlv_ok (pkt_policy (tlv_type t)) t = true) l ->
  exists w', nfq_nlmsg_parse nlh (tb_new (NFQA_MAX + 1)) w =
    Ok (MNL_CB_OK, tb_of NFQA_MAX (NFQA_MAX + 1) (offs (nlh + 20) l), w').
Proof.
  intros m Hm Hz Hn Hlen Hat Hl. pose proof (tlvs_size_nonneg l). pose proof (attrs_at_bound _ _ _ Hat).
  assert (align4 (rd 4 nlh m) = 20 + tlvs_size l) as Hal.
  { rewrite Hlen. apply align4_id. by rewrite Z.add_mod, tlvs_size_mod by lia. }
  destruct (nfq_parse_run nlh w) as (w' & Hrun & _).
  { split_and!; try done; fold m; lia. }
  exists w'. revert Hrun. fold m. unfold msg_attrs. rewrite Hal.
  replace (20 + tlvs_size l - 20) with (tlvs_size l) by lia.
  rewrite attr_list_forest; [|unfold loop_fuel; lia|done].
  rewrite take_while_all; cycle 1.
  { apply Forall_map, Forall_forall. intros [o t] Ho.
    destruct (offs_at _ _ _ _ Hat Ho) as [Ho' Hin]. cbn in *. unfold pkt_ok.
    rewrite (attr_at_attr_type _ _ _ Ho'). rewrite Forall_forall in Hl.
    rewrite (tlv_ok_policy m o _ t Ho'), orb_true_r by by apply Hl. done. }
  rewrite bool_decide_eq_true_2 by done. intros ->. do 3 f_equal. unfold tb_of.
  assert (forall tb l', (forall x, x ∈ l' -> x ∈ offs (nlh + 20) l) ->
    foldl (fun tb a => pkt_enter m a tb) tb (map fst l') = foldl (tb_add NFQA_MAX) tb l') as Hfold;
    [|by apply Hfold].
  intros tb l'. revert tb. induction l' as [|[o t] l' IH]; intros tb Hin; [done|]. cbn [map foldl].
  rewrite IH by (intros; apply Hin; by right). f_equal. unfold pkt_enter, tb_add. cbn [fst snd].
  destruct (offs_at _ _ _ (o, t) Hat) as [Ho' _]; [apply Hin; by left|]. cbn in Ho'.
  by rewrite (attr_at_attr_type _ _ _ Ho').
Qed.

(** C36: a verdict message is read back as written: when a verdict, a mark and a
    packet have been put into a message, [nfq_nlmsg_parse] accepts the message,
    and its table has exactly these three attributes, the integers in network
    byte order and the packet unchanged. *)
Theorem nfq_verdict_roundtrip buf q id verdict mark pkt w :
  let n := 20 + 12 + 8 + align4 (4 + zlen pkt) in
  0 <= buf -> buf + n <= zlen (w_mem w) -> zlen (w_mem w) < 2 ^ 31 - 4 -> Forall byte_ok (w_mem w) ->
  Forall byte_ok pkt -> 4 + zlen pkt < 2 ^ 16 ->
  exists w1 w2 tb,
    nfq_message buf NFQNL_MSG_VERDICT q [PutVerdict id verdict; PutMark mark; PutPkt pkt (zlen pkt)] w
      = Ok (buf, w1) /\
    nfq_nlmsg_parse buf (tb_new (NFQA_MAX + 1)) w1 = Ok (MNL_CB_OK, tb, w2) /\
    forall i, 0 <= i <= NFQA_MAX -> tb_payload tb (w_mem w1) i =
      if i =? NFQA_VERDICT_HDR then Some (rev (le_enc 4 verdict) ++ rev (le_enc 4 id))
      else if i =? NFQA_MARK then Some (rev (le_enc 4 mark))
      else if i =? NFQA_PAYLOAD then Some pkt
      else None.
Proof.
  intros n Hb Hfit Hz Hm Hpkt H16.
  pose proof (zlen_nonneg pkt) as Hp0. set (ops := [_; _; _]).
  assert (map op_tlv ops = [Leaf NFQA_VERDICT_HDR (rev (le_enc 4 verdict) ++ rev (le_enc 4 id));
            Leaf NFQA_MARK (rev (le_enc 4 mark)); Leaf NFQA_PAYLOAD pkt]) as Hops.
  { cbn [map op_tlv ops]. unfold zlen. rewrite Nat2Z.id, firstn_all. done. }
  assert (20 + tlvs_size (map op_tlv ops) = n) as Hn 
    by (rewrite Hops; change (20 + (12 + (8 + (align4 (4 + zlen pkt) + 0))) = n); lia).
  destruct (nfq_message_run buf NFQNL_MSG_VERDICT q ops w) as (w1 & Hrun & Hz1 & Hlen & _ & Hat & _);
    [lia|lia|lia|by repeat constructor|].
  assert (mem_ok w1) as Hm1.
  { refine (nfq_message_bytes buf NFQNL_MSG_VERDICT q ops _ w buf w1 Hm Hrun).
    intros p k Hin. unfold ops in Hin. rewrite !elem_of_cons, elem_of_nil in Hin.
    by destruct Hin as [?|[?|[[= -> ->]|[]]]]. }
  destruct (nfq_parse_forest buf (map op_tlv ops) w1) as (w2 & Hparse); try done; [lia|..].
  { rewrite Hops. by repeat constructor. }
  exists w1, w2, (tb_of NFQA_MAX (NFQA_MAX + 1) (offs (buf + 20) (map op_tlv ops))).
  split; [done|]. split; [done|]. intros i Hi. unfold tb_payload.
  rewrite tb_lookup; [|done|lia|by rewrite Hops; repeat constructor].
  rewrite Hops in *. cbn [attrs_at] in Hat. destruct Hat as (Ha1 & Ha2 & Ha3 & _).
  apply attr_at_payload_Leaf in Ha1, Ha2, Ha3. cbn [offs find_off tlv_type fst snd].
  rewrite !(Z.eqb_sym _ i).
  destruct (Z.eqb_spec i NFQA_PAYLOAD) as [->|]; [cbn -[tlv_size payload le_enc]; by rewrite Ha3|].
  destruct (Z.eqb_spec i NFQA_MARK) as [->|]; [cbn -[tlv_size payload le_enc]; by rewrite Ha2|].
  destruct (Z.eqb_spec i NFQA_VERDICT_HDR) as [->|]; [cbn -[tlv_size payload le_enc]; by rewrite Ha1|done].
Qed.

Lemma nfq_verdict_roundtrip_witness :
  exists w1 w2 tb,
    nfq_message 4 NFQNL_MSG_VERDICT 7 [PutVerdict 5 1; PutMark 9; PutPkt [69; 0; 0; 20; 1] 5]
      (mk_world (replicate 64 0) 0 []) = Ok (4, w1) /\
    nfq_nlmsg_parse 4 (tb_new (NFQA_MAX + 1)) w1 = Ok (MNL_CB_OK, tb, w2) /\
    tb_payload tb (w_mem w1) NFQA_PAYLOAD = Some [69; 0; 0; 20; 1] /\
    tb_payload tb (w_mem w1) NFQA_CT = None.
Proof.
  destruct (nfq_verdict_roundtrip 4 7 5 1 9 [69; 0; 0; 20; 1] (mk_world (replicate 64 0) 0 []))
    as (w1 & w2 & tb & Hrun & Hparse & Htb); try by apply bytes_okb_ok.
  - done.
  - vm_compute; discriminate.
  - done.
  - done.
  - exists w1, w2, tb. split; [exact Hrun|]. split; [exact Hparse|]. split.
    + rewrite Htb; [reflexivity|split; vm_compute; discriminate].
    + rewrite Htb; [reflexivity|split; vm_compute; discriminate].
Defined.
