(* ===== verification/CtLabels.v ===== *)
(** Connection labels: [src/libnetfilter_conntrack/labels.c].

    The label file is the list of its bytes.  A C string is the list of its
    bytes without the terminator; a pointer into a string is the suffix it
    points to.  The hash table is an array of chains, each a list of buckets. *)
From S2P Require Import Prelude CMonad Bitops.
Open Scope c_scope.

Definition MAX_BITS : Z := 1024.
Definition HASH_SIZE : Z := 64.

Abbreviation cname := (list Z).

Record labelmap_bucket := mk_bucket { lb_name : cname; lb_bit : Z }.

Record nfct_labelmap := mk_labelmap {
  map_name : list (list labelmap_bucket);
  namecount : Z;
  bit_to_name : list (option cname)
}.

Definition label_map_bucket_alloc (n : cname) (b : Z) : M (option labelmap_bucket) :=
  let! name := malloc_ok in
  if negb name then ret None else
  let! bucket := malloc_ok in
  if negb bucket then ret None else ret (Some (mk_bucket n b)).

(** [hash = (hash << 5) - hash + *name], the character sign-extended. *)
Fixpoint hash_from (hash : Z) (name : cname) : Z :=
  match name with
  | [] => hash
  | c :: t => hash_from (wrap 32 (wrap 32 (Z.shiftl hash 5) - hash + sint 8 c)) t
  end.

Definition hash_name (name : cname) : Z := Z.land (hash_from 0 name) (HASH_SIZE - 1).

Definition same_name (a b : cname) : bool := bool_decide (a = b).

(** The walk over a chain. *)
Fixpoint chain_find (name : cname) (l : list labelmap_bucket) : option Z :=
  match l with
  | [] => None
  | b :: l => if same_name name (lb_name b) then Some (lb_bit b) else chain_find name l
  end.

Definition chain (m : nfct_labelmap) (i : Z) : list labelmap_bucket :=
  default [] (map_name m !! Z.to_nat i).

(** A NULL map has no labels. *)
Definition __labelmap_get_bit (m : option nfct_labelmap) (name : cname) : Z :=
  match m with
  | None => -1
  | Some m => match chain_find name (chain m (hash_name name)) with Some bit => sint 32 bit | None => -1 end
  end.

(** [None] is NULL; an unnamed bit has the empty name. *)
Definition __labelmap_get_name (m : nfct_labelmap) (bit : Z) : option cname :=
  if bit <? namecount m then
    match bit_to_name m !! Z.to_nat bit with Some (Some n) => Some n | _ => Some [] end
  else None.

Definition map_insert (m : nfct_labelmap) (n : cname) (b : Z) : M (Z * nfct_labelmap) :=
  let i := hash_name n in
  match chain_find n (chain m i) with
  | Some _ => ret (-1, m)
  | None =>
      let! list := label_map_bucket_alloc n b in
      match list with
      | None => ret (-1, m)
      | Some x => ret (0, mk_labelmap (<[Z.to_nat i := x :: chain m i]> (map_name m)) (namecount m) (bit_to_name m))
      end
  end.

(** ** Lines *)

Definition is_space_posix (c : Z) : bool := bool_decide (c ∈ [32; 12; 13; 9; 11]).

Fixpoint drop_while (p : Z -> bool) (s : cname) : cname :=
  match s with [] => [] | c :: t => if p c then drop_while p t else s end.

(** The part before the first [c]. *)
Fixpoint until (c : Z) (s : cname) : cname :=
  match s with [] => [] | x :: t => if x =? c then [] else x :: until c t end.

(** [while (end > label && is_space_posix( *end)) *end-- = 0]: the first
    character stays. *)
Definition trim_end (s : cname) : cname :=
  match s with [] => [] | c :: t => c :: rev (drop_while is_space_posix (rev t)) end.

Definition trim_label (label : cname) : option cname :=
  match trim_end (until 10 (drop_while is_space_posix label)) with [] => None | s => Some s end.

(** [isspace] of the C locale. *)
Definition isspace (c : Z) : bool := (9 <=? c) && (c <=? 13) || (c =? 32).

Definition digit_val (c : Z) : Z :=
  if (48 <=? c) && (c <=? 57) then c - 48
  else if (97 <=? c) && (c <=? 122) then c - 97 + 10
  else if (65 <=? c) && (c <=? 90) then c - 65 + 10
  else 36.

(** Digits of the base from the front of the string: value and rest. *)
Fixpoint digits (base acc : Z) (s : cname) : Z * cname :=
  match s with
  | c :: t => if digit_val c <? base then digits base (acc * base + digit_val c) t else (acc, s)
  | [] => (acc, s)
  end.

(** [strtoul(s, end, 0)] as a function: value, the suffix at [*end] ([s] when
    there is no digit), and whether the value is out of range. *)
Definition strtoul_fun (s : cname) : Z * cname * bool :=
  let s1 := drop_while isspace s in
  let '(neg, s2) := match s1 with
                    | 45 :: t => (true, t)
                    | 43 :: t => (false, t)
                    | _ => (false, s1)
                    end in
  let '(base, s3) := match s2 with
                     | 48 :: x :: h :: t => if bool_decide (x ∈ [120; 88]) && (digit_val h <? 16)
                                            then (16, h :: t) else (8, s2)
                     | 48 :: _ => (8, s2)
                     | _ => (10, s2)
                     end in
  let '(v, rest) := digits base 0 s3 in
  if zlen rest =? zlen s3 then (0, s, false)
  else if 2 ^ 64 <=? v then (2 ^ 64 - 1, rest, true)
  else ((if neg : bool then wrap 64 (- v) else v), rest, false).

Definition strtoul (s : cname) : M (Z * cname) :=
  let '(value, end_, erange) := strtoul_fun s in
  (if erange : bool then set_errno ERANGE else ret tt) ;;; ret (value, end_).

Definition xtables_parse_connlabel_numerical (s : cname) : M (Z * cname) :=
  let! (value, end_) := strtoul s in
  if (value =? 0) && (zlen s =? zlen end_) then ret (-1, end_)
  else if MAX_BITS <=? value then ret (-1, end_)
  else ret (value, end_).

Definition sane_char (c : Z) : bool :=
  (97 <=? c) && (c <=? 122) || (65 <=? c) && (c <=? 90) || (48 <=? c) && (c <=? 57) || (c =? 32) || (c =? 45).

Fixpoint label_is_sane (label : cname) : bool :=
  match label with [] => true | c :: t => if sane_char c then label_is_sane t else false end.

(** [fgets(label, n + 1, fp)] on the rest of the file: the bytes up to a newline,
    at most [n]. *)
Fixpoint fgets_bytes (n : nat) (file : list Z) : list Z * list Z :=
  match n, file with
  | S n, c :: t => if c =? 10 then ([c], t) else let '(l, r) := fgets_bytes n t in (c :: l, r)
  | _, _ => ([], file)
  end.

(** The string in the buffer ends at the first NUL the file contains. *)
Definition fgets (n : nat) (file : list Z) : option (cname * list Z) :=
  match file with
  | [] => None
  | _ => let '(l, r) := fgets_bytes n file in Some (until 0 l, r)
  end.

(** ** The file *)

Definition map_alloc : M (option nfct_labelmap) :=
  let! ok := malloc_ok in
  ret (if ok : bool then Some (mk_labelmap (replicate (Z.to_nat HASH_SIZE) []) 0 []) else None).

(** The locals of [__labelmap_new] that the loop changes. *)
Record scan_st := mk_scan { sc_map : nfct_labelmap; sc_added : Z; sc_maxbit : Z; sc_seen : list Z }.

(** The body of the loop. *)
Definition scan_line (label : cname) (st : scan_st) : M scan_st :=
  if bool_decide (label !! 0%nat = Some 35) then ret st else
  let! (bit, end_) := xtables_parse_connlabel_numerical label in
  if bit <? 0 then ret st else
  let! seen := test_bit bit (sc_seen st) in
  if seen : bool then ret st else
  match trim_label end_ with
  | None => ret st
  | Some name =>
      if label_is_sane name then
        let! (r, map) := map_insert (sc_map st) name bit in
        if r =? 0 then
          let! bits := set_bit bit (sc_seen st) in
          ret (mk_scan map (sint 32 (sc_added st + 1))
                 (if sc_maxbit st <? bit then bit else sc_maxbit st) bits)
        else ret (mk_scan map (sc_added st) (sc_maxbit st) (sc_seen st))
      else ret st
  end.

Fixpoint scan_file (fuel : nat) (file : list Z) (st : scan_st) : M scan_st :=
  match fuel with
  | O => no_fuel
  | S fuel =>
      match fgets 1023 file with
      | None => ret st
      | Some (label, rest) => let! st := scan_line label st in scan_file fuel rest st
      end
  end.

Fixpoint name_chain (l : list labelmap_bucket) (t : list (option cname)) : M (list (option cname)) :=
  match l with
  | [] => ret t
  | b :: l => if (0 <=? lb_bit b) && (lb_bit b <? zlen t)
              then name_chain l (<[Z.to_nat (lb_bit b) := Some (lb_name b)]> t) else ub
  end.

Fixpoint name_chains (ls : list (list labelmap_bucket)) (t : list (option cname)) : M (list (option cname)) :=
  match ls with [] => ret t | l :: ls => let! t := name_chain l t in name_chains ls t end.

Definition make_name_table (m : nfct_labelmap) : M nfct_labelmap :=
  let! t := name_chains (map_name m) (bit_to_name m) in
  ret (mk_labelmap (map_name m) (namecount m) t).

(** [fp] is the contents of the file, [None] when it cannot be opened. *)
Definition __labelmap_new (fp : option (list Z)) : M (option nfct_labelmap) :=
  match fp with
  | None => ret None
  | Some file =>
      let! map := map_alloc in
      match map with
      | None => ret None
      | Some map =>
          let! st := scan_file (S (length file)) file (mk_scan map 0 0 (replicate 32 0)) in
          if negb (sc_added st =? 0) then
            let count := wrap 32 (sc_maxbit st + 1) in
            let! ok := malloc_ok in
            if negb ok then ret None else
            let! map := make_name_table
              (mk_labelmap (map_name (sc_map st)) count (replicate (Z.to_nat count) None)) in
            ret (Some map)
          else set_errno 0 ;;; ret None
      end
  end.

Definition nfct_labelmap_get_name (m : nfct_labelmap) (bit : Z) : option cname := __labelmap_get_name m bit.
Definition nfct_labelmap_get_bit (m : option nfct_labelmap) (name : cname) : Z := __labelmap_get_bit m name.
Definition nfct_labelmap_new (fp : option (list Z)) : M (option nfct_labelmap) := __labelmap_new fp.

(** ** What the file says *)

(** The bit and the label of a line, if it has both. *)
Definition label_entry (label : cname) : option (Z * cname) :=
  if bool_decide (label !! 0%nat = Some 35) then None else
  let '(value, end_, _) := strtoul_fun label in
  if (value =? 0) && (zlen label =? zlen end_) || (MAX_BITS <=? value) then None else
  match trim_label end_ with
  | Some name => if label_is_sane name then Some (value, name) else None
  | None => None
  end.

Fixpoint find_name (n : cname) (es : list (Z * cname)) : option Z :=
  match es with [] => None | (b, x) :: es => if same_name n x then Some b else find_name n es end.

Fixpoint find_bit (b : Z) (es : list (Z * cname)) : option cname :=
  match es with [] => None | (x, n) :: es => if x =? b then Some n else find_bit b es end.

(** A line counts when neither its bit nor its label were assigned before. *)
Definition add_entry (es : list (Z * cname)) (label : cname) : list (Z * cname) :=
  match label_entry label with
  | None => es
  | Some (b, n) => if bool_decide (find_bit b es = None) && bool_decide (find_name n es = None)
                   then es ++ [(b, n)] else es
  end.

(** The lines [fgets] delivers. *)
Fixpoint file_lines (fuel : nat) (file : list Z) : list cname :=
  match fuel with
  | O => []
  | S fuel => match fgets 1023 file with None => [] | Some (l, r) => l :: file_lines fuel r end
  end.

Definition entries (file : list Z) : list (Z * cname) :=
  foldl add_entry [] (file_lines (S (length file)) file).

Definition max_bit (es : list (Z * cname)) : Z := foldr (fun e m => Z.max e.1 m) 0 es.

(** *** Lookups *)

Lemma find_name_Some n es b : find_name n es = Some b -> (b, n) ∈ es.
Proof.
  induction es as [|[x y] es IH]; cbn; [done|]. unfold same_name. case_bool_decide as E.
  - intros [= ->]. subst. by left.
  - intros H. right. auto.
Qed.

Lemma find_bit_Some b es n : find_bit b es = Some n -> (b, n) ∈ es.
Proof.
  induction es as [|[x y] es IH]; cbn; [done|]. destruct (Z.eqb_spec x b) as [->|].
  - intros [= ->]. by left.
  - intros H. right. auto.
Qed.

Lemma find_name_elem n es b : NoDup es.*2 -> (b, n) ∈ es -> find_name n es = Some b.
Proof.
  induction es as [|[x y] es IH]; cbn; [by intros _ ?%elem_of_nil|]. intros [Hy Hnd]%NoDup_cons Hin.
  unfold same_name. case_bool_decide as E; apply elem_of_cons in Hin as [Heq|Hin]; simplify_eq; try done.
  - destruct Hy. by apply (list_elem_of_fmap_2 snd es (b, y)).
  - by apply IH.
Qed.

Lemma find_bit_elem n es b : NoDup es.*1 -> (b, n) ∈ es -> find_bit b es = Some n.
Proof.
  induction es as [|[x y] es IH]; cbn; [by intros _ ?%elem_of_nil|]. intros [Hy Hnd]%NoDup_cons Hin.
  destruct (Z.eqb_spec x b) as [->|E]; apply elem_of_cons in Hin as [Heq|Hin]; simplify_eq; try done.
  - destruct Hy. by apply (list_elem_of_fmap_2 fst es (b, n)).
  - by apply IH.
Qed.

Lemma find_name_None n es : find_name n es = None -> n ∉ es.*2.
Proof.
  induction es as [|[x y] es IH]; cbn; [by intros _ ?%elem_of_nil|]. unfold same_name. case_bool_decide as E; [done|].
  intros H [->|Hin]%elem_of_cons; [done|]. by apply IH in H.
Qed.

Lemma find_bit_None b es : find_bit b es = None -> b ∉ es.*1.
Proof.
  induction es as [|[x y] es IH]; cbn; [by intros _ ?%elem_of_nil|]. destruct (Z.eqb_spec x b); [done|].
  intros H [->|Hin]%elem_of_cons; [done|]. by apply IH in H.
Qed.

(** *** The table holds the entries *)

Record scan_inv (st : scan_st) (es : list (Z * cname)) : Prop := {
  si_len : length (map_name (sc_map st)) = Z.to_nat HASH_SIZE;
  si_chain : forall i x, 0 <= i < HASH_SIZE ->
    x ∈ chain (sc_map st) i <-> (lb_bit x, lb_name x) ∈ es /\ hash_name (lb_name x) = i;
  si_added : sc_added st = zlen es;
  si_max : sc_maxbit st = max_bit es;
  si_words : length (sc_seen st) = 32%nat;
  si_seen : forall b, 0 <= b < MAX_BITS -> has_bit b (sc_seen st) = bool_decide (b ∈ es.*1);
  si_bits : forall b n, (b, n) ∈ es -> 0 <= b < MAX_BITS /\ n <> [];
  si_nd1 : NoDup es.*1;
  si_nd2 : NoDup es.*2
}.

Lemma hash_name_range n : 0 <= hash_name n < HASH_SIZE.
Proof.
  unfold hash_name. change (HASH_SIZE - 1) with (Z.ones 6). rewrite Z.land_ones by done.
  apply Z.mod_pos_bound. done.
Qed.

Lemma chain_find_Some n l b : chain_find n l = Some b -> exists x, x ∈ l /\ lb_name x = n /\ lb_bit x = b.
Proof.
  induction l as [|x l IH]; cbn; [done|]. unfold same_name. case_bool_decide as E.
  - intros [= <-]. exists x. split; [by left|done].
  - intros (y & ? & ?)%IH. exists y. split; [by right|done].
Qed.

Lemma chain_find_None n l x : chain_find n l = None -> x ∈ l -> lb_name x <> n.
Proof.
  induction l as [|y l IH]; cbn; [by intros _ ?%elem_of_nil|]. unfold same_name. case_bool_decide as E; [done|].
  intros H [->|Hin]%elem_of_cons; [congruence|auto].
Qed.

(** The chain of the hash of a name has the entry of the name. *)
Lemma chain_find_entries st es n : scan_inv st es ->
  chain_find n (chain (sc_map st) (hash_name n)) = find_name n es.
Proof.
  intros H. pose proof (hash_name_range n) as Hr.
  destruct (chain_find n _) as [b|] eqn:E.
  - apply chain_find_Some in E as (x & Hx & <- & <-). apply (si_chain _ _ H) in Hx as [Hx _]; [|done].
    symmetry. by apply find_name_elem; [apply H|].
  - destruct (find_name n es) as [b|] eqn:F; [|done]. apply find_name_Some in F.
    exfalso. apply (chain_find_None _ _ (mk_bucket n b) E); [|done].
    by apply (si_chain _ _ H).
Qed.

Lemma max_bit_snoc es e : 0 <= e.1 -> max_bit (es ++ [e]) = Z.max (max_bit es) e.1.
Proof. intros He. unfold max_bit. induction es as [|x es IH]; cbn in *; lia. Qed.

Lemma max_bit_le es e : e ∈ es -> e.1 <= max_bit es.
Proof.
  unfold max_bit. induction es as [|x es IH]; [by intros ?%elem_of_nil|]. cbn. intros [->|Hin]%elem_of_cons; [lia|].
  specialize (IH Hin). lia.
Qed.

Lemma max_bit_bound es : (forall e, e ∈ es -> e.1 < MAX_BITS) -> 0 <= max_bit es < MAX_BITS.
Proof.
  unfold max_bit. induction es as [|x es IH]; cbn; [done|]. intros H. pose proof (H x ltac:(by left)).
  destruct IH; [|lia]. intros e He. apply H. by right.
Qed.

(** There are no more entries than bits. *)
Lemma entries_len (es : list (Z * cname)) :
  (forall b n, (b, n) ∈ es -> 0 <= b < MAX_BITS /\ n <> []) -> NoDup es.*1 -> zlen es <= MAX_BITS.
Proof.
  intros Hb Hnd. assert (es.*1 ⊆+ seqZ 0 MAX_BITS) as Hsub.
  { apply NoDup_submseteq; [done|]. intros b ([b' n] & -> & Hin)%list_elem_of_fmap. apply elem_of_seqZ.
    apply Hb in Hin as [? _]. cbn. lia. }
  apply submseteq_length in Hsub. rewrite length_fmap, length_seqZ in Hsub. unfold zlen, MAX_BITS in *. lia.
Qed.

Lemma chain_insert m i l c t j : length (map_name m) = Z.to_nat HASH_SIZE ->
  0 <= i < HASH_SIZE -> 0 <= j < HASH_SIZE ->
  chain (mk_labelmap (<[Z.to_nat i := l]> (map_name m)) c t) j = if decide (i = j) then l else chain m j.
Proof.
  intros Hl Hi Hj. unfold chain. cbn [map_name]. destruct (decide (i = j)) as [->|E].
  - by rewrite list_lookup_insert_eq by lia.
  - by rewrite list_lookup_insert_ne by lia.
Qed.

(** Entering a label. *)
Lemma scan_inv_add st es b n : scan_inv st es -> 0 <= b < MAX_BITS -> n <> [] ->
  find_bit b es = None -> find_name n es = None ->
  let m := sc_map st in
  scan_inv (mk_scan (mk_labelmap (<[Z.to_nat (hash_name n) := mk_bucket n b :: chain m (hash_name n)]> (map_name m))
                       (namecount m) (bit_to_name m))
              (sint 32 (sc_added st + 1)) (if sc_maxbit st <? b then b else sc_maxbit st)
              (or_bit b (sc_seen st)))
    (es ++ [(b, n)]).
Proof.
  intros H Hb Hn Hfb Hfn m. subst m. pose proof (hash_name_range n) as Hr.
  pose proof (entries_len es (si_bits _ _ H) (si_nd1 _ _ H)) as Hlen.
  assert (bit_in_range b (sc_seen st) = true) as Hin.
  { unfold bit_in_range, zlen. rewrite shiftr5, (si_words _ _ H). unfold MAX_BITS in *. apply andb_true_iff.
    split; [apply Z.leb_le; lia|apply Z.ltb_lt, Z.div_lt_upper_bound; lia]. }
  split; cbn [sc_map sc_added sc_maxbit sc_seen map_name].
  - rewrite length_insert. apply H.
  - intros i x Hi. rewrite chain_insert by (done || apply H). rewrite elem_of_app, list_elem_of_singleton.
    destruct (decide (hash_name n = i)) as [<-|E].
    + rewrite elem_of_cons, (si_chain _ _ H) by done. split.
      * intros [->|[? ?]]; [by split; [right|]|by split; [left|]].
      * intros [[?|[= Hxb Hxn]] ?]; [by right|]. left. destruct x. cbn in *. by subst.
    + rewrite (si_chain _ _ H) by done. split.
      * intros [? ?]. by split; [left|].
      * intros [[?|[= Hxb Hxn]] ?]; [done|]. subst. done.
  - rewrite (si_added _ _ H), zlen_app, sint_small; [done|done|]. unfold MAX_BITS in *.
    pose proof (zlen_nonneg es). lia.
  - rewrite (si_max _ _ H), max_bit_snoc by (cbn; lia). cbn. destruct (Z.ltb_spec (max_bit es) b); lia.
  - rewrite length_set_bit. apply H.
  - intros k Hk. rewrite test_set_bit by (done || lia). rewrite (si_seen _ _ H) by done.
    rewrite fmap_app. destruct (Z.eqb_spec k b) as [->|E]; cbn.
    + symmetry. apply bool_decide_eq_true. apply elem_of_app. right. by left.
    + apply bool_decide_ext. rewrite elem_of_app, list_elem_of_singleton. tauto.
  - intros k x [Hx|Hx]%elem_of_app; [by apply (si_bits _ _ H)|].
    apply list_elem_of_singleton in Hx as [= -> ->]. done.
  - rewrite fmap_app. apply NoDup_app. split_and!; [apply H| |by apply NoDup_singleton].
    intros k Hk Hk'%list_elem_of_singleton. cbn in Hk'. subst. by apply find_bit_None in Hfb.
  - rewrite fmap_app. apply NoDup_app. split_and!; [apply H| |by apply NoDup_singleton].
    intros k Hk Hk'%list_elem_of_singleton. cbn in Hk'. subst. by apply find_name_None in Hfn.
Qed.

(** *** A line of the file *)

Lemma digits_nonneg base acc s : 0 <= base -> 0 <= acc -> 0 <= (digits base acc s).1.
Proof.
  intros Hb. revert acc. induction s as [|c s IH]; intros acc Ha; cbn; [done|].
  destruct (_ <? _); [|done]. apply IH. assert (0 <= digit_val c) by (unfold digit_val; repeat case_match; lia).
  nia.
Qed.

Lemma strtoul_nonneg s : 0 <= (strtoul_fun s).1.1.
Proof.
  unfold strtoul_fun. destruct (match drop_while isspace s with 45 :: t => _ | _ => _ end) as [neg s2].
  assert (forall base s3, 0 <= base -> 0 <= (let '(v, rest) := digits base 0 s3 in
    if zlen rest =? zlen s3 then (0, s, false) else if 2 ^ 64 <=? v then (2 ^ 64 - 1, rest, true)
    else ((if neg : bool then wrap 64 (- v) else v), rest, false)).1.1) as H.
  { intros base s3 Hb. pose proof (digits_nonneg base 0 s3 Hb ltac:(done)). destruct (digits base 0 s3) as [v rest].
    cbn [fst] in *. destruct (zlen rest =? zlen s3); [done|]. destruct (2 ^ 64 <=? v); [done|].
    destruct neg; cbn [fst]; [by apply wrap_range|done]. }
  destruct (match s2 with 48 :: _ => _ | _ => _ end) as [base s3] eqn:E. apply H.
  repeat case_match; simplify_eq; done.
Qed.

Lemma trim_label_nonempty s n : trim_label s = Some n -> n <> [].
Proof. unfold trim_label. case_match; [done|]. by intros [= <-]. Qed.

Lemma label_entry_ok l b n : label_entry l = Some (b, n) -> 0 <= b < MAX_BITS /\ n <> [].
Proof.
  unfold label_entry. case_bool_decide; [done|]. pose proof (strtoul_nonneg l) as H0.
  destruct (strtoul_fun l) as [[v rest] e]. cbn in H0.
  destruct (_ || _) eqn:E; [done|]. apply orb_false_iff in E as [_ E%Z.leb_gt].
  destruct (trim_label rest) as [x|] eqn:Ht; [|done]. destruct (label_is_sane x); [|done].
  intros [= <- <-]. split; [lia|]. by eapply trim_label_nonempty.
Qed.

(** Inserting a label, whatever the allocations do. *)
Lemma map_insert_run m n b w :
  exists w' ok, map_insert m n b w =
    Ok ((if (ok : bool) then 0 else -1),
        (if ok then mk_labelmap (<[Z.to_nat (hash_name n) := mk_bucket n b :: chain m (hash_name n)]> (map_name m))
                      (namecount m) (bit_to_name m) else m), w') /\
    w_mem w' = w_mem w /\
    (ok = true -> chain_find n (chain m (hash_name n)) = None) /\
    (w_alloc w = [] -> w_alloc w' = [] /\ ok = bool_decide (chain_find n (chain m (hash_name n)) = None)).
Proof.
  unfold map_insert. destruct (chain_find _ _) eqn:E; [by exists w, false|].
  unfold label_map_bucket_alloc, malloc_ok, bind. destruct w as [m0 e al]. cbn.
  destruct al as [|[] [|[] al]]; cbn; (eexists _, true + eexists _, false);
    (split; [reflexivity|split_and!; [done|done|done]]).
Qed.

(** What one step of the loop does to the entries. *)
Definition step_entries (w w' : world) (label : cname) (es es' : list (Z * cname)) : Prop :=
  w_alloc w = [] -> w_alloc w' = [] /\ es' = add_entry es label.

Lemma seen_in_range st es v : scan_inv st es -> 0 <= v < MAX_BITS -> bit_in_range v (sc_seen st) = true.
Proof.
  intros H Hv. unfold bit_in_range, zlen, MAX_BITS in *. rewrite (si_words _ _ H), shiftr5.
  apply andb_true_iff. split; [apply Z.leb_le; lia|apply Z.ltb_lt, Z.div_lt_upper_bound; lia].
Qed.

Lemma scan_line_run label st es w : scan_inv st es ->
  exists st' w' es', scan_line label st w = Ok (st', w') /\ scan_inv st' es' /\ step_entries w w' label es es'.
Proof.
  intros H. unfold scan_line, step_entries, add_entry.
  pose proof (label_entry_ok label) as Hok. unfold label_entry in *.
  case_bool_decide; [by exists st, w, es|].
  unfold xtables_parse_connlabel_numerical, strtoul, bind. pose proof (strtoul_nonneg label) as Hv0.
  destruct (strtoul_fun label) as [[v rest] e]. cbn [fst] in Hv0.
  assert (exists w1, (if e : bool then set_errno ERANGE else ret tt) w = Ok (tt, w1) /\ w_alloc w1 = w_alloc w)
    as (w1 & Hw1 & Ha1) by (destruct e; eexists; split; reflexivity).
  rewrite Hw1. unfold ret at 1. rewrite <- Ha1. clear Hw1 Ha1 w.
  destruct ((v =? 0) && (zlen label =? zlen rest)) eqn:Ez; cbn [orb].
  { by exists st, w1, es. }
  destruct (Z.leb_spec MAX_BITS v) as [Hv|Hv]; [by exists st, w1, es|]. cbn [orb] in Hok.
  unfold ret at 1. rewrite (proj2 (Z.ltb_ge v 0)) by done. cbn [orb].
  unfold test_bit, set_bit. rewrite (seen_in_range st es v H) by lia. unfold ret at 1. rewrite (si_seen _ _ H) by lia.
  destruct (trim_label rest) as [n|] eqn:Hn; cycle 1.
  { exists st, w1, es. by destruct (bool_decide _). }
  case_bool_decide as Hb.
  { exists st, w1, es. split; [done|]. split; [done|]. intros ?. split; [done|].
    destruct (label_is_sane n); [|done]. rewrite (bool_decide_eq_false_2 (find_bit v es = None)); [done|].
    intros Hf. by apply find_bit_None in Hf. }
  destruct (label_is_sane n); [|by exists st, w1, es].
  destruct (Hok v n eq_refl) as [Hvr Hne].
  assert (find_bit v es = None) as Hfb.
  { destruct (find_bit v es) as [x|] eqn:F; [|done]. apply find_bit_Some in F.
    destruct Hb. by apply (list_elem_of_fmap_2 fst es (v, x)). }
  rewrite bool_decide_eq_true_2 by done. cbn [andb].
  destruct (map_insert_run (sc_map st) n v w1) as (w2 & ok & Hrun & _ & Hfind & Halloc).
  rewrite Hrun, (chain_find_entries st es n H) in *. destruct ok; cbn.
  - eexists _, w2, (es ++ [(v, n)]). split; [reflexivity|]. split.
    + by apply scan_inv_add; auto.
    + intros [? <-]%Halloc. done.
  - exists st, w2, es. split; [destruct st; reflexivity|]. split; [done|]. intros [? <-]%Halloc. done.
Qed.

Lemma fgets_shrinks n file l r : fgets (S n) file = Some (l, r) -> (length r < length file)%nat.
Proof.
  assert (forall k f, (length (fgets_bytes k f).2 <= length f)%nat) as Hle.
  { induction k as [|k IH]; intros [|c f]; cbn; try lia. destruct (c =? 10); cbn; [lia|].
    specialize (IH f). destruct (fgets_bytes k f). cbn in *. lia. }
  destruct file as [|c f]; [done|]. unfold fgets. cbn [fgets_bytes]. destruct (c =? 10).
  - intros [= _ <-]. cbn. lia.
  - specialize (Hle n f). destruct (fgets_bytes n f). intros [= _ <-]. cbn in *. lia.
Qed.

Lemma scan_file_run fuel : forall file st es w, (length file < fuel)%nat -> scan_inv st es ->
  exists st' w' es', scan_file fuel file st w = Ok (st', w') /\ scan_inv st' es' /\
    (w_alloc w = [] -> w_alloc w' = [] /\ es' = foldl add_entry es (file_lines fuel file)).
Proof.
  induction fuel as [|fuel IH]; intros file st es w Hf H; [lia|]. cbn [scan_file file_lines].
  destruct (fgets 1023 file) as [[l r]|] eqn:E; [|by exists st, w, es].
  apply fgets_shrinks in E. destruct (scan_line_run l st es w H) as (st1 & w1 & es1 & Hrun & H1 & Hst).
  unfold bind. rewrite Hrun. destruct (IH r st1 es1 w1) as (st2 & w2 & es2 & Hrun2 & H2 & Hst2); [lia|done|].
  exists st2, w2, es2. split; [done|]. split; [done|]. intros Ha. destruct (Hst Ha) as [Ha1 ->].
  destruct (Hst2 Ha1) as [? ->]. done.
Qed.

Lemma scan_inv_init : scan_inv (mk_scan (mk_labelmap (replicate (Z.to_nat HASH_SIZE) []) 0 []) 0 0 (replicate 32 0)) [].
Proof.
  split; try done.
  - intros i x Hi. unfold chain. cbn [sc_map map_name]. rewrite lookup_replicate_2 by lia. cbn.
    rewrite !elem_of_nil. tauto.
  - intros b Hb. cbn [sc_seen]. by rewrite test_bit_zeros.
  - intros b n ?%elem_of_nil. done.
  - constructor.
  - constructor.
Qed.

(** *** The name table *)

(** The table after the buckets [l] were entered into an empty one. *)
Definition table_of (l : list labelmap_bucket) (t : list (option cname)) : list (option cname) :=
  foldl (fun t b => <[Z.to_nat (lb_bit b) := Some (lb_name b)]> t) t l.

Lemma length_table_of l t : length (table_of l t) = length t.
Proof. unfold table_of. revert t. induction l as [|b l IH]; intros t; [done|]. cbn. by rewrite IH, length_insert. Qed.

Lemma name_chain_run l t w : Forall (fun b => 0 <= lb_bit b < zlen t) l ->
  name_chain l t w = Ok (table_of l t, w).
Proof.
  revert t. induction l as [|b l IH]; intros t Hl; [done|]. apply Forall_cons in Hl as [Hb Hl]. cbn [name_chain].
  rewrite (proj2 (andb_true_iff _ _)) by (split; [apply Z.leb_le|apply Z.ltb_lt]; lia).
  apply IH. unfold zlen. by rewrite length_insert.
Qed.

Lemma name_chains_run ls t w : Forall (fun b => 0 <= lb_bit b < zlen t) (concat ls) ->
  name_chains ls t w = Ok (table_of (concat ls) t, w).
Proof.
  revert t. induction ls as [|l ls IH]; intros t Hl; [done|]. cbn in *. apply Forall_app in Hl as [Hl Hls].
  unfold bind. rewrite name_chain_run by done. rewrite IH.
  - unfold table_of. by rewrite foldl_app.
  - unfold zlen. by rewrite length_table_of.
Qed.

Lemma table_lookup l t b : Forall (fun x => 0 <= lb_bit x < zlen t) l -> 0 <= b < zlen t ->
  (forall x y, x ∈ l -> y ∈ l -> lb_bit x = lb_bit y -> lb_name x = lb_name y) ->
  (forall x, x ∈ l -> lb_bit x = b -> table_of l t !! Z.to_nat b = Some (Some (lb_name x))) /\
  ((forall x, x ∈ l -> lb_bit x <> b) -> table_of l t !! Z.to_nat b = t !! Z.to_nat b).
Proof.
  intros Hl Hb. induction l as [|a l IH] using rev_ind; intros Hu.
  { split; [by intros x ?%elem_of_nil|done]. }
  apply Forall_app in Hl as [Hl Ha]. rewrite Forall_singleton in Ha.
  destruct (IH Hl) as [IH1 IH2]. { intros x y ? ?. apply Hu; apply elem_of_app; by left. }
  unfold table_of in *. rewrite foldl_app. cbn [foldl]. fold (table_of l t) in *.
  pose proof (length_table_of l t) as Hlen. split.
  - intros x Hx Hxb. destruct (decide (lb_bit a = b)) as [E|E].
    + rewrite E, list_lookup_insert_eq by (unfold zlen in *; lia). f_equal. f_equal.
      apply Hu; [apply elem_of_app; right; by left|done|congruence].
    + rewrite list_lookup_insert_ne by lia. apply IH1; [|done].
      apply elem_of_app in Hx as [?|Hx]; [done|]. apply list_elem_of_singleton in Hx. by subst.
  - intros Hx. assert (lb_bit a <> b) by (apply Hx, elem_of_app; right; by left).
    rewrite list_lookup_insert_ne by lia. apply IH2. intros x ?. apply Hx, elem_of_app. by left.
Qed.

(** ** The finished map *)

(** The map answers as the entries say. *)
Definition maps_entries (m : nfct_labelmap) (es : list (Z * cname)) : Prop :=
  (forall n, __labelmap_get_bit (Some m) n = default (-1) (find_name n es)) /\
  (forall b, 0 <= b -> __labelmap_get_name m b =
     if b <=? max_bit es then Some (default [] (find_bit b es)) else None).

Lemma concat_chains st es x : scan_inv st es ->
  x ∈ concat (map_name (sc_map st)) <-> (lb_bit x, lb_name x) ∈ es.
Proof.
  intros H. rewrite list_elem_of_In, in_concat. split.
  - intros (l & Hl%list_elem_of_In & Hx%list_elem_of_In). apply list_elem_of_lookup in Hl as [i Hi].
    pose proof (lookup_lt_Some _ _ _ Hi) as Hlt. rewrite (si_len _ _ H) in Hlt.
    assert (x ∈ chain (sc_map st) (Z.of_nat i)) as Hc by (unfold chain; by rewrite Nat2Z.id, Hi).
    apply (si_chain _ _ H) in Hc; [apply Hc|lia].
  - intros Hx. pose proof (hash_name_range (lb_name x)) as Hr.
    assert (x ∈ chain (sc_map st) (hash_name (lb_name x))) as Hc by by apply (si_chain _ _ H).
    unfold chain in Hc. destruct (_ !! _) as [l|] eqn:E; [|by apply elem_of_nil in Hc].
    exists l. split; [by apply list_elem_of_In; eapply list_elem_of_lookup_2|by apply list_elem_of_In].
Qed.

Lemma finish_run st es w : scan_inv st es -> es <> [] ->
  let count := wrap 32 (sc_maxbit st + 1) in
  exists m, make_name_table (mk_labelmap (map_name (sc_map st)) count (replicate (Z.to_nat count) None)) w = Ok (m, w) /\
            maps_entries m es.
Proof.
  intros H Hne count.
  assert (0 <= max_bit es < MAX_BITS) as Hmax by (apply max_bit_bound; intros [b n] Hin; apply (si_bits _ _ H) in Hin; cbn; lia).
  assert (count = max_bit es + 1) as Hc.
  { unfold count. rewrite (si_max _ _ H). apply wrap_small. unfold MAX_BITS in Hmax. lia. }
  set (t0 := replicate (Z.to_nat count) None : list (option cname)).
  assert (zlen t0 = max_bit es + 1) as Ht0 by (unfold t0; rewrite zlen_replicate; lia).
  pose proof (fun x => concat_chains st es x H) as Hcc. set (l := concat _) in Hcc.
  assert (Forall (fun b => 0 <= lb_bit b < zlen t0) l) as Hl.
  { apply Forall_forall. intros x Hx%Hcc. pose proof (max_bit_le _ _ Hx). apply (si_bits _ _ H) in Hx. cbn in *. lia. }
  exists (mk_labelmap (map_name (sc_map st)) count (table_of l t0)). split.
  { unfold make_name_table, bind. cbn [map_name bit_to_name namecount]. fold t0. rewrite name_chains_run by done. done. }
  split.
  - intros n. unfold __labelmap_get_bit. change (chain (mk_labelmap _ _ _) (hash_name n)) with (chain (sc_map st) (hash_name n)).
    rewrite (chain_find_entries st es n H). destruct (find_name n es) as [b|] eqn:F; [|done]. cbn.
    apply find_name_Some, (si_bits _ _ H) in F as [? _]. apply sint_small; unfold MAX_BITS in *; lia.
  - intros b Hb. unfold __labelmap_get_name. cbn [namecount bit_to_name]. rewrite Hc.
    destruct (Z.ltb_spec b (max_bit es + 1)) as [Hlt|Hge].
    2: { by rewrite (proj2 (Z.leb_gt _ _)) by lia. }
    rewrite (proj2 (Z.leb_le _ _)) by lia.
    destruct (table_lookup l t0 b Hl) as [T1 T2]; [lia| |].
    { intros x y Hx%Hcc Hy%Hcc E. apply (find_bit_elem _ _ _ (si_nd1 _ _ H)) in Hx, Hy. congruence. }
    destruct (find_bit b es) as [n|] eqn:F.
    + apply find_bit_Some in F. rewrite (T1 (mk_bucket n b)) by (done || by apply Hcc). done.
    + rewrite T2; [unfold t0; by rewrite lookup_replicate_2 by lia|].
      intros x Hx%Hcc E. apply (find_bit_elem _ _ _ (si_nd1 _ _ H)) in Hx. congruence.
Qed.

(** What [__labelmap_new] returns for a file that can be read: the entries the
    scan found, if any. *)
Lemma labelmap_new_run file w :
  exists r w' es, __labelmap_new (Some file) w = Ok (r, w') /\ NoDup es.*1 /\ NoDup es.*2 /\
    (forall b n, (b, n) ∈ es -> 0 <= b < MAX_BITS /\ n <> []) /\
    (forall m, r = Some m -> maps_entries m es) /\
    (w_alloc w = [] -> es = entries file /\ (r = None -> es = [] /\ w_errno w' = 0) /\ (es = [] -> r = None)).
Proof.
  unfold __labelmap_new, map_alloc, bind. destruct (malloc_ok w) as [[ok w1]| | |] eqn:Em;
    [|by unfold malloc_ok in Em; case_match..]. unfold ret at 1.
  assert (w_alloc w = [] -> ok = true /\ w_alloc w1 = []) as Ha1.
  { unfold malloc_ok in Em. intros E. rewrite E in Em. by simplify_eq. }
  destruct ok; cycle 1.
  { exists None, w1, []. split_and!; [done|constructor|constructor|by intros b n ?%elem_of_nil|done|by intros [? _]%Ha1]. }
  destruct (scan_file_run (S (length file)) file _ [] w1 ltac:(lia) scan_inv_init) as (st & w2 & es & -> & H & Hes).
  assert (w_alloc w = [] -> w_alloc w2 = [] /\ es = entries file) as Ha2 by (intros [_ ?]%Ha1; by apply Hes).
  clear Hes. pose proof (si_added _ _ H) as Had. destruct (decide (es = [])) as [->|Hne].
  - rewrite Had. cbn. exists None, (with_errno 0 w2), []. split_and!; [done|constructor|constructor|by intros b n ?%elem_of_nil|done|by intros [_ ?]%Ha2].
  - assert ((sc_added st =? 0) = false) as ->.
    { apply Z.eqb_neq. rewrite Had. destruct es; [done|]. rewrite zlen_cons. pose proof (zlen_nonneg es). lia. }
    cbn [negb]. destruct (malloc_ok w2) as [[ok w3]| | |] eqn:Em2;
      [|by unfold malloc_ok in Em2; case_match..].
    assert (w_alloc w2 = [] -> ok = true) as Ha3.
    { unfold malloc_ok in Em2. intros E. rewrite E in Em2. by simplify_eq. }
    destruct ok; cbn [negb].
    + destruct (finish_run st es w3 H Hne) as (m & -> & Hm). exists (Some m), w3, es.
      split_and!; try done; try apply H; [by intros ? [= <-]|]. intros [? ?]%Ha2. done.
    + exists None, w3, es. split_and!; try done; try apply H. intros [E ?]%Ha2. by apply Ha3 in E.
Qed.

(** C37: for any file, when the allocations succeed, [__labelmap_new] ends and
    returns NULL with [errno] 0 when the file has no usable line.  Otherwise it
    returns a map in which a label has the bit, and a bit the label, of the first
    line that assigns it: lines with a bit or a label assigned before, without a
    number below 1024 or with a label that is not alphanumeric are ignored.
    Unassigned bits below the largest one have the empty label. *)
Theorem labelmap_new_spec file w : w_alloc w = [] ->
  exists r w', __labelmap_new (Some file) w = Ok (r, w') /\
    match entries file with
    | [] => r = None /\ w_errno w' = 0
    | es => exists m, r = Some m /\ maps_entries m es
    end.
Proof.
  intros Ha. destruct (labelmap_new_run file w) as (r & w' & es & Hrun & _ & _ & _ & Hm & Hes).
  destruct (Hes Ha) as (<- & H1 & H2). exists r, w'. split; [done|].
  destruct es as [|e es].
  - specialize (H2 eq_refl). subst. split; [done|]. by destruct (H1 eq_refl).
  - destruct r as [m|]; [|by destruct (H1 eq_refl)]. exists m. split; [done|]. by apply Hm.
Qed.

(** "0 ssh", "0x10 web", "16 dup": the last line reuses bit 16. *)
Definition label_file : list Z :=
  [48; 32; 115; 115; 104; 10; 48; 120; 49; 48; 32; 119; 101; 98; 10; 49; 54; 32; 100; 117; 112; 10].

Lemma labelmap_new_spec_witness :
  exists m w', __labelmap_new (Some label_file) (mk_world [] 0 []) = Ok (Some m, w') /\
    __labelmap_get_bit (Some m) [119; 101; 98] = 16 /\ __labelmap_get_bit (Some m) [100; 117; 112] = -1 /\
    __labelmap_get_name m 3 = Some [].
Proof.
  destruct (labelmap_new_spec label_file (mk_world [] 0 []) eq_refl) as (r & w' & Hrun & Hr).
  change (entries label_file) with [(0, [115; 115; 104]); (16, [119; 101; 98])] in Hr.
  destruct Hr as (m & -> & Hb & Hn). exists m, w'. split; [exact Hrun|]. rewrite !Hb. split; [reflexivity|].
  split; [reflexivity|]. rewrite Hn; [reflexivity|]. vm_compute; discriminate.
Defined.

(** Creating a label map ends without a fault for every file and every
    outcome of the allocations, and in a map that was created, labels and bits
    are inverse to each other: a label has bit [b] exactly when bit [b] has that
    label. *)
Theorem labelmap_roundtrip fp w : exists r w', __labelmap_new fp w = Ok (r, w') /\
  forall m b n, r = Some m -> 0 <= b -> n <> [] ->
    (__labelmap_get_bit (Some m) n = b <-> __labelmap_get_name m b = Some n).
Proof.
  destruct fp as [file|]; [|by exists None, w].
  destruct (labelmap_new_run file w) as (r & w' & es & Hrun & Hnd1 & Hnd2 & Hok & Hm & _).
  exists r, w'. split; [done|]. intros m b n -> Hb Hn. destruct (Hm m eq_refl) as [Hbit Hname].
  rewrite Hbit, Hname by done. split.
  - destruct (find_name n es) as [x|] eqn:F; cbn; [|lia]. intros ->. apply find_name_Some in F.
    pose proof (max_bit_le _ _ F). cbn in *. rewrite (proj2 (Z.leb_le _ _)) by done.
    by rewrite (find_bit_elem _ _ _ Hnd1 F).
  - destruct (_ <=? _); [|done]. destruct (find_bit b es) as [x|] eqn:F; cbn; [|congruence].
    intros [= ->]. apply find_bit_Some in F. by rewrite (find_name_elem _ _ _ Hnd2 F).
Qed.

(** Even when the bucket of the second label cannot be allocated. *)
Lemma labelmap_roundtrip_witness :
  exists m w', __labelmap_new (Some label_file) (mk_world [] 0 [true; true; true; false]) = Ok (Some m, w') /\
    (__labelmap_get_bit (Some m) [115; 115; 104] = 0 <-> __labelmap_get_name m 0 = Some [115; 115; 104]) /\
    (__labelmap_get_bit (Some m) [100; 117; 112] = 16 <-> __labelmap_get_name m 16 = Some [100; 117; 112]).
Proof.
  destruct (labelmap_roundtrip (Some label_file) (mk_world [] 0 [true; true; true; false])) as (r & w' & Hrun & Hm).
  destruct r as [m|]; [|vm_compute in Hrun; discriminate].
  exists m, w'. split; [exact Hrun|]. split; apply Hm; try reflexivity; discriminate.
Defined.
