(* ===== verification/CtLabelsMem.v ===== *)
(** labels.c: the memory of a label map.

    CtLabels.v sees a map as a value.  Here its buckets, names, the table of names and the map
    itself are blocks of a store with addresses, with their allocation and release.  The walks
    over chains take the number of buckets as fuel, which only a cycle exhausts. *)
From stdpp Require Import gmap.
From S2P Require Import Prelude CMonad Bitops CtLabels.
Open Scope c_scope.

(** * The store *)

Record lnode := mk_lnode { ln_name : Z; ln_bit : Z; ln_next : option Z }.

Record lstore := mk_lstore {
  ls_buckets : gmap Z lnode;
  ls_strings : gmap Z cname;
  ls_other : gset Z;   (** maps and tables of names *)
  ls_fresh : Z
}.
Definition set_buckets (m : gmap Z lnode) (s : lstore) : lstore := mk_lstore m (ls_strings s) (ls_other s) (ls_fresh s).
Definition set_strings (m : gmap Z cname) (s : lstore) : lstore := mk_lstore (ls_buckets s) m (ls_other s) (ls_fresh s).

(** [struct nfct_labelmap]; the table of names holds addresses of the names of the buckets. *)
Record mlabelmap := mk_mlabelmap {
  mm_name : list (option Z);
  mm_namecount : Z;
  mm_table : option Z;
  mm_bit_to_name : list (option Z)
}.

Definition free_name (a : Z) (s : lstore) : M lstore :=
  if ls_strings s !! a is Some _ then ret (set_strings (delete a (ls_strings s)) s) else ub.
Definition free_bucket (q : Z) (s : lstore) : M lstore :=
  if ls_buckets s !! q is Some _ then ret (set_buckets (delete q (ls_buckets s)) s) else ub.
Definition free_other (p : option Z) (s : lstore) : M lstore :=
  match p with
  | None => ret s
  | Some a => if decide (a ∈ ls_other s)
              then ret (mk_lstore (ls_buckets s) (ls_strings s) (ls_other s ∖ {[a]}) (ls_fresh s)) else ub
  end.
Definition alloc_other (s : lstore) : M (option Z * lstore) :=
  let! ok := malloc_ok in
  if (ok : bool) then ret (Some (ls_fresh s), mk_lstore (ls_buckets s) (ls_strings s) ({[ls_fresh s]} ∪ ls_other s) (ls_fresh s + 1))
  else ret (None, s).

(** * Operations *)

Definition label_map_bucket_alloc_mem (n : cname) (b : Z) (s : lstore) : M (option Z * lstore) :=
  let! ok := malloc_ok in
  if negb ok then ret (None, s) else
  let name := ls_fresh s in
  let s := mk_lstore (ls_buckets s) (<[name := n]> (ls_strings s)) (ls_other s) (name + 1) in
  let! ok := malloc_ok in
  if negb ok then let! s := free_name name s in ret (None, s) else
  let q := ls_fresh s in
  ret (Some q, mk_lstore (<[q := mk_lnode name b None]> (ls_buckets s)) (ls_strings s) (ls_other s) (q + 1)).

(** The walks of [__labelmap_get_bit] and [map_insert]: the bit of the name, if it is in the
    chain. *)
Fixpoint find_walk (fuel : nat) (s : lstore) (list : option Z) (n : cname) : M (option Z) :=
  match list with
  | None => ret None
  | Some q =>
      match fuel with
      | O => no_fuel
      | S fuel =>
          match ls_buckets s !! q ≫= fun x => ls_strings s !! ln_name x ≫= fun name => Some (x, name) with
          | None => ub
          | Some (x, name) => if same_name n name then ret (Some (ln_bit x)) else find_walk fuel s (ln_next x) n
          end
      end
  end.

Definition __labelmap_get_bit_mem (m : mlabelmap) (name : cname) (s : lstore) : M Z :=
  let! bit := find_walk (size (ls_buckets s)) s (mm_name m !! Z.to_nat (hash_name name) ≫= id) name in
  ret (match bit with Some bit => sint 32 bit | None => -1 end).

Definition map_insert_mem (m : mlabelmap) (n : cname) (b : Z) (s : lstore) : M ((Z * mlabelmap) * lstore) :=
  let i := Z.to_nat (hash_name n) in
  let head := mm_name m !! i ≫= id in
  let! found := find_walk (size (ls_buckets s)) s head n in
  if found is Some _ then ret ((-1, m), s) else
  let! (list, s) := label_map_bucket_alloc_mem n b s in
  match list with
  | None => ret ((-1, m), s)
  | Some q =>
      match ls_buckets s !! q with
      | None => ub
      | Some x =>
          ret ((0, mk_mlabelmap (<[i := Some q]> (mm_name m)) (mm_namecount m) (mm_table m) (mm_bit_to_name m)),
               set_buckets (<[q := mk_lnode (ln_name x) (ln_bit x) head]> (ls_buckets s)) s)
      end
  end.

Fixpoint free_list (fuel : nat) (b : option Z) (s : lstore) : M lstore :=
  match b with
  | None => ret s
  | Some q =>
      match fuel with
      | O => no_fuel
      | S fuel =>
          match ls_buckets s !! q with
          | None => ub
          | Some x =>
              let! s := free_name (ln_name x) s in
              let! s := free_bucket q s in
              free_list fuel (ln_next x) s
          end
      end
  end.

Fixpoint free_lists (bs : list (option Z)) (s : lstore) : M lstore :=
  match bs with
  | [] => ret s
  | b :: bs => let! s := free_list (size (ls_buckets s)) b s in free_lists bs s
  end.

Definition __labelmap_destroy (map : Z) (m : mlabelmap) (s : lstore) : M lstore :=
  let! s := free_lists (mm_name m) s in
  let! s := free_other (mm_table m) s in
  free_other (Some map) s.

Definition map_alloc_mem (s : lstore) : M (option (Z * mlabelmap) * lstore) :=
  let! (p, s) := alloc_other s in
  ret ((fun p => (p, mk_mlabelmap (replicate (Z.to_nat HASH_SIZE) None) 0 None [])) <$> p, s).

Record scan_mem := mk_scan_mem { sm_map : mlabelmap; sm_added : Z; sm_maxbit : Z; sm_seen : list Z }.

Definition scan_line_mem (label : cname) (st : scan_mem) (s : lstore) : M (scan_mem * lstore) :=
  if bool_decide (label !! 0%nat = Some 35) then ret (st, s) else
  let! (bit, end_) := xtables_parse_connlabel_numerical label in
  if bit <? 0 then ret (st, s) else
  let! seen := test_bit bit (sm_seen st) in
  if seen : bool then ret (st, s) else
  match trim_label end_ with
  | None => ret (st, s)
  | Some name =>
      if label_is_sane name then
        let! (x, s) := map_insert_mem (sm_map st) name bit s in
        let '(r, map) := x in
        if r =? 0 then
          let! bits := set_bit bit (sm_seen st) in
          ret (mk_scan_mem map (sint 32 (sm_added st + 1))
                 (if sm_maxbit st <? bit then bit else sm_maxbit st) bits, s)
        else ret (mk_scan_mem map (sm_added st) (sm_maxbit st) (sm_seen st), s)
      else ret (st, s)
  end.

Fixpoint scan_file_mem (fuel : nat) (file : list Z) (st : scan_mem) (s : lstore) : M (scan_mem * lstore) :=
  match fuel with
  | O => no_fuel
  | S fuel =>
      match fgets 1023 file with
      | None => ret (st, s)
      | Some (label, rest) => let! (st, s) := scan_line_mem label st s in scan_file_mem fuel rest st s
      end
  end.

(** [make_name_table]: the loop over a chain, and over the chains.  A bit outside of the table
    would be a write outside of its block. *)
Fixpoint name_chain_mem (fuel : nat) (s : lstore) (b : option Z) (t : list (option Z)) : M (list (option Z)) :=
  match b with
  | None => ret t
  | Some q =>
      match fuel with
      | O => no_fuel
      | S fuel =>
          match ls_buckets s !! q with
          | None => ub
          | Some x =>
              if (0 <=? ln_bit x) && (ln_bit x <? zlen t)
              then name_chain_mem fuel s (ln_next x) (<[Z.to_nat (ln_bit x) := Some (ln_name x)]> t) else ub
          end
      end
  end.
Fixpoint name_chains_mem (bs : list (option Z)) (s : lstore) (t : list (option Z)) : M (list (option Z)) :=
  match bs with
  | [] => ret t
  | b :: bs => let! t := name_chain_mem (size (ls_buckets s)) s b t in name_chains_mem bs s t
  end.

(** The characters at the pointer that is returned; [None] is NULL. *)
Definition __labelmap_get_name_mem (m : mlabelmap) (bit : Z) (s : lstore) : M (option cname) :=
  if bit <? mm_namecount m then
    match mm_bit_to_name m !! Z.to_nat bit with
    | Some (Some a) => match ls_strings s !! a with Some n => ret (Some n) | None => ub end
    | Some None => ret (Some [])
    | None => ub
    end
  else ret None.

Definition __labelmap_new_mem (fp : option (list Z)) (s : lstore) : M (option (Z * mlabelmap) * lstore) :=
  match fp with
  | None => ret (None, s)
  | Some file =>
      let! (map, s) := map_alloc_mem s in
      match map with
      | None => ret (None, s)
      | Some (p, map) =>
          let! (st, s) := scan_file_mem (S (length file)) file (mk_scan_mem map 0 0 (replicate 32 0)) s in
          let map := sm_map st in
          if negb (sm_added st =? 0) then
            let count := wrap 32 (sm_maxbit st + 1) in
            let! (table, s) := alloc_other s in
            match table with
            | None => let! s := __labelmap_destroy p map s in ret (None, s)
            | Some t =>
                let! names := name_chains_mem (mm_name map) s (replicate (Z.to_nat count) None) in
                ret (Some (p, mk_mlabelmap (mm_name map) count (Some t) names), s)
            end
          else set_errno 0 ;;; let! s := __labelmap_destroy p map s in ret (None, s)
      end
  end.

(** * The chains in memory *)

(** An element of a chain: the addresses of the bucket and of its name, and what they hold. *)
Abbreviation element := (Z * Z * labelmap_bucket)%type.
Definition el_node (e : element) : Z := e.1.1.
Definition el_name (e : element) : Z := e.1.2.

Fixpoint holds (s : lstore) (p : option Z) (l : list element) : Prop :=
  match l with
  | [] => p = None
  | e :: l =>
      p = Some (el_node e) /\ ls_strings s !! el_name e = Some (lb_name e.2) /\
      exists next, ls_buckets s !! el_node e = Some (mk_lnode (el_name e) (lb_bit e.2) next) /\ holds s next l
  end.

Lemma holds_frame s s' p l :
  (forall e, e ∈ l -> ls_buckets s' !! el_node e = ls_buckets s !! el_node e /\ ls_strings s' !! el_name e = ls_strings s !! el_name e) ->
  holds s p l -> holds s' p l.
Proof.
  revert p. induction l as [|e l IH]; intros p H; [done|]. intros (Hp & Hs & next & Hb & Hl).
  destruct (H e ltac:(left)) as [E1 E2]. cbn. rewrite E1, E2. split_and!; [done|done|]. exists next. split; [done|].
  apply IH; [|done]. intros x Hx. apply H. by right.
Qed.

Lemma holds_live s p l e : holds s p l -> e ∈ l -> is_Some (ls_buckets s !! el_node e) /\ is_Some (ls_strings s !! el_name e).
Proof.
  revert p. induction l as [|x l IH]; intros p; [by intros _ ?%elem_of_nil|].
  intros (_ & Hs & next & Hb & Hl) [->|Hin]%elem_of_cons; [by split; eexists|by eapply IH].
Qed.

Lemma holds_length s p l : holds s p l -> NoDup (map el_node l) -> (length l <= size (ls_buckets s))%nat.
Proof.
  intros Hc Hd. rewrite <- (length_map el_node), <- size_dom, <- (size_list_to_set (C := gset Z)) by done.
  apply subseteq_size. intros q (e & -> & Hin)%elem_of_list_to_set%list_elem_of_fmap.
  apply elem_of_dom. by apply (holds_live s p l).
Qed.

(** A store without some buckets and names. *)
Definition drop_all {A} (ks : list Z) (m : gmap Z A) : gmap Z A := foldr delete m ks.

Lemma drop_all_notin {A} ks (m : gmap Z A) k : k ∉ ks -> drop_all ks m !! k = m !! k.
Proof.
  induction ks as [|x ks IH]; [done|]. intros [Hne Hk]%not_elem_of_cons. cbn. rewrite lookup_delete_ne by done. by apply IH.
Qed.
Lemma drop_all_in {A} ks (m : gmap Z A) k : k ∈ ks -> drop_all ks m !! k = None.
Proof.
  induction ks as [|x ks IH]; [by intros ?%elem_of_nil|]. intros H. cbn. destruct (decide (x = k)) as [->|Hne]; [by rewrite lookup_delete_eq|].
  rewrite lookup_delete_ne by done. apply IH. by apply elem_of_cons in H as [->|H].
Qed.
Lemma drop_all_delete {A} ks (m : gmap Z A) k : drop_all ks (delete k m) = delete k (drop_all ks m).
Proof. induction ks as [|x ks IH]; [done|]. unfold drop_all in *. cbn. by rewrite IH, delete_delete. Qed.

Definition without_elements (l : list element) (s : lstore) : lstore :=
  mk_lstore (drop_all (map el_node l) (ls_buckets s)) (drop_all (map el_name l) (ls_strings s)) (ls_other s) (ls_fresh s).

Lemma without_elements_cons e l s :
  without_elements l (set_buckets (delete (el_node e) (ls_buckets s)) (set_strings (delete (el_name e) (ls_strings s)) s)) = without_elements (e :: l) s.
Proof. unfold without_elements. cbn. by rewrite !drop_all_delete. Qed.

Lemma free_list_run fuel s p l w :
  holds s p l -> NoDup (map el_node l) -> NoDup (map el_name l) -> (length l <= fuel)%nat ->
  free_list fuel p s w = Ok (without_elements l s, w).
Proof.
  revert fuel s p. induction l as [|e l IH]; intros fuel s p.
  { intros -> _ _ _. destruct fuel; cbn; by destruct s. }
  intros (-> & Hs & next & Hb & Hl) [Hq Hdq]%NoDup_cons [Ha Hda]%NoDup_cons Hf. destruct fuel as [|fuel]; [cbn in Hf; lia|].
  cbn [free_list]. rewrite Hb. cbn [ln_name ln_next]. unfold free_name, free_bucket, bind. rewrite Hs. cbn [ret set_strings ls_buckets]. rewrite Hb.
  rewrite <- without_elements_cons. apply IH; [|done|done|cbn in Hf; lia].
  apply (holds_frame s); [|done]. intros x Hx. cbn. rewrite !lookup_delete_ne; [done| |].
  - intros E. apply Ha. rewrite E. apply list_elem_of_fmap. by exists x.
  - intros E. apply Hq. rewrite E. apply list_elem_of_fmap. by exists x.
Qed.

Lemma find_walk_run fuel s p l n w :
  holds s p l -> (length l <= fuel)%nat -> find_walk fuel s p n w = Ok (chain_find n (map snd l), w).
Proof.
  revert fuel p. induction l as [|e l IH]; intros fuel p; [intros -> _; by destruct fuel|].
  intros (-> & Hs & next & Hb & Hl) Hf. destruct fuel as [|fuel]; [cbn in Hf; lia|]. cbn [find_walk]. rewrite Hb. cbn. rewrite Hs. cbn.
  destruct (same_name n (lb_name e.2)); [done|]. apply IH; [done|cbn in Hf; lia].
Qed.

(** * The map in memory *)

(** Addresses are given out in order. *)
Record store_ok (s : lstore) : Prop := {
  so_buckets q x : ls_buckets s !! q = Some x -> q < ls_fresh s;
  so_strings a x : ls_strings s !! a = Some x -> a < ls_fresh s;
  so_other o : o ∈ ls_other s -> o < ls_fresh s
}.

(** The store [s] is [s0] with the chains [D] besides. *)
Record added (s0 s : lstore) (D : list (list element)) : Prop := {
  ad_ok : store_ok s;
  ad_le : ls_fresh s0 <= ls_fresh s;
  ad_low e : e ∈ concat D -> el_node e < ls_fresh s /\ el_name e < ls_fresh s;
  ad_nodes : NoDup (map el_node (concat D));
  ad_names : NoDup (map el_name (concat D));
  ad_new_b q : q ∈ map el_node (concat D) -> ls_buckets s0 !! q = None;
  ad_new_s a : a ∈ map el_name (concat D) -> ls_strings s0 !! a = None;
  ad_out_b q : q ∉ map el_node (concat D) -> ls_buckets s !! q = ls_buckets s0 !! q;
  ad_out_s a : a ∉ map el_name (concat D) -> ls_strings s !! a = ls_strings s0 !! a
}.

Definition same_blocks (s s' : lstore) : Prop :=
  ls_buckets s = ls_buckets s' /\ ls_strings s = ls_strings s' /\ ls_other s = ls_other s'.

Lemma drop_all_comm {A} xs ys (m : gmap Z A) : drop_all xs (drop_all ys m) = drop_all ys (drop_all xs m).
Proof. induction xs as [|x xs IH]; [done|]. cbn. unfold drop_all in *. cbn. rewrite IH. fold (drop_all ys (delete x (foldr delete m xs))). by rewrite drop_all_delete. Qed.
Lemma without_elements_app l k s : without_elements k (without_elements l s) = without_elements (l ++ k) s.
Proof. unfold without_elements. cbn. rewrite !map_app. unfold drop_all. rewrite !foldr_app. f_equal; apply drop_all_comm. Qed.

Lemma chains_frame s s' ps D :
  (forall e, e ∈ concat D -> ls_buckets s' !! el_node e = ls_buckets s !! el_node e /\ ls_strings s' !! el_name e = ls_strings s !! el_name e) ->
  Forall2 (holds s) ps D -> Forall2 (holds s') ps D.
Proof.
  intros H HD. induction HD as [|p l ps D Hp HD IH]; constructor.
  - apply (holds_frame s); [|done]. intros e He. apply H. cbn. apply elem_of_app. by left.
  - apply IH. intros e He. apply H. cbn. apply elem_of_app. by right.
Qed.

Lemma free_lists_run s ps D w :
  Forall2 (holds s) ps D -> NoDup (map el_node (concat D)) -> NoDup (map el_name (concat D)) ->
  free_lists ps s w = Ok (without_elements (concat D) s, w).
Proof.
  revert s D. induction ps as [|p ps IH]; intros s D H; inversion H as [|? l ? D' Hp HD]; subst; [intros _ _; by destruct s|].
  cbn [concat]. rewrite !map_app. intros (Hq1 & Hq & Hq2)%NoDup_app (Ha1 & Ha & Ha2)%NoDup_app.
  cbn [free_lists]. unfold bind. rewrite (free_list_run _ s p l w Hp Hq1 Ha1) by (by eapply holds_length).
  rewrite (IH _ D'); [by rewrite without_elements_app| |done|done].
  apply (chains_frame s); [|done]. intros e He. cbn. rewrite !drop_all_notin; [done| |].
  - intros Hin. apply (Ha _ Hin). apply list_elem_of_fmap. by exists e.
  - intros Hin. apply (Hq _ Hin). apply list_elem_of_fmap. by exists e.
Qed.

Lemma added_removed s0 s D :
  added s0 s D -> ls_buckets (without_elements (concat D) s) = ls_buckets s0 /\ ls_strings (without_elements (concat D) s) = ls_strings s0.
Proof.
  intros H. split; apply map_eq; intros k; cbn.
  - destruct (decide (k ∈ map el_node (concat D))); [rewrite drop_all_in by done; symmetry; by apply (ad_new_b _ _ _ H)|].
    rewrite drop_all_notin by done. by apply (ad_out_b _ _ _ H).
  - destruct (decide (k ∈ map el_name (concat D))); [rewrite drop_all_in by done; symmetry; by apply (ad_new_s _ _ _ H)|].
    rewrite drop_all_notin by done. by apply (ad_out_s _ _ _ H).
Qed.

(** A new first element of the chain [i]. *)
Lemma concat_push D i l (e : element) : D !! i = Some l -> Permutation (concat (<[i := e :: l]> D)) (e :: concat D).
Proof.
  intros E. rewrite <- (take_drop_middle D i l E) at 2. rewrite insert_take_drop by (by eapply lookup_lt_Some).
  rewrite !concat_app. cbn. apply Permutation_sym, Permutation_middle.
Qed.

Lemma added_push s0 s D i l n b next :
  added s0 s D -> store_ok s0 -> D !! i = Some l ->
  let a := ls_fresh s in let q := a + 1 in
  added s0 (mk_lstore (<[q := mk_lnode a b next]> (ls_buckets s)) (<[a := n]> (ls_strings s)) (ls_other s) (q + 1))
    (<[i := (q, a, mk_bucket n b) :: l]> D).
Proof.
  intros H H0 E a q. set (e := (q, a, mk_bucket n b)). pose proof (concat_push D i l e E) as P.
  assert (Hin : forall (f : element -> Z) k, k ∈ map f (concat (<[i := e :: l]> D)) <-> k = f e \/ k ∈ map f (concat D)).
  { intros f k. rewrite P. cbn [map]. apply elem_of_cons. }
  assert (Hlow : forall k, k ∈ map el_node (concat D) \/ k ∈ map el_name (concat D) -> k < a).
  { intros k [(x & -> & Hx)%list_elem_of_fmap|(x & -> & Hx)%list_elem_of_fmap]; apply (ad_low _ _ _ H x Hx). }
  destruct (ad_ok _ _ _ H) as [O1 O2 O3]. split; cbn.
  - split; cbn.
    + intros k x [[<- _]|[_ Hk]]%lookup_insert_Some; [lia|]. apply O1 in Hk. lia.
    + intros k x [[<- _]|[_ Hk]]%lookup_insert_Some; [lia|]. apply O2 in Hk. lia.
    + intros k Hk%O3. lia.
  - pose proof (ad_le _ _ _ H). lia.
  - intros x. rewrite P. intros [->|Hx]%elem_of_cons; [cbn; lia|]. destruct (ad_low _ _ _ H x Hx). lia.
  - rewrite P. cbn [map]. apply NoDup_cons. split; [|apply (ad_nodes _ _ _ H)]. intros Hk. pose proof (Hlow (el_node e) ltac:(by left)). cbn in *. lia.
  - rewrite P. cbn [map]. apply NoDup_cons. split; [|apply (ad_names _ _ _ H)]. intros Hk. pose proof (Hlow (el_name e) ltac:(by right)). cbn in *. lia.
  - intros k [->|Hk]%Hin; [|by apply (ad_new_b _ _ _ H)]. destruct (ls_buckets s0 !! el_node e) eqn:Ek; [|done].
    apply (so_buckets _ H0) in Ek. pose proof (ad_le _ _ _ H). cbn in Ek. lia.
  - intros k [->|Hk]%Hin; [|by apply (ad_new_s _ _ _ H)]. destruct (ls_strings s0 !! el_name e) eqn:Ek; [|done].
    apply (so_strings _ H0) in Ek. pose proof (ad_le _ _ _ H). cbn in Ek. lia.
  - intros k Hk. rewrite Hin in Hk. rewrite lookup_insert_ne by (intros <-; apply Hk; by left). apply (ad_out_b _ _ _ H). tauto.
  - intros k Hk. rewrite Hin in Hk. rewrite lookup_insert_ne by (intros <-; apply Hk; by left). apply (ad_out_s _ _ _ H). tauto.
Qed.

(** * Against the values *)

(** Both calls end the same way, with related results. *)
Definition agree {A B} (R : A -> B -> Prop) (r : res (A * world)) (r' : res (B * world)) : Prop :=
  match r, r' with
  | Ok (a, w), Ok (b, w') => w = w' /\ R a b
  | Ub, Ub | Exit, Exit | Fuel, Fuel => True
  | _, _ => False
  end.
Lemma agree_bind {A B A' B'} (R : A -> B -> Prop) (R' : A' -> B' -> Prop) c k c' k' w :
  agree R (c w) (c' w) -> (forall a b w, R a b -> agree R' (k a w) (k' b w)) -> agree R' (bind c k w) (bind c' k' w).
Proof.
  intros Hc Hk. unfold bind. destruct (c w) as [[a w1]| | |], (c' w) as [[b w2]| | |]; cbn in Hc; try done.
  destruct Hc as [<- Hc]. by apply Hk.
Qed.
Lemma agree_same {A} (r : res (A * world)) : agree eq r r.
Proof. by destruct r as [[]| | |]. Qed.

(** The map [m] in the store [s], which is [s0] with it, stands for the map [v]. *)
Definition stands_for (s0 : lstore) (v : nfct_labelmap) (m : mlabelmap) (s : lstore) : Prop :=
  exists D, added s0 s D /\ Forall2 (holds s) (mm_name m) D /\ map_name v = map (map snd) D /\ length D = Z.to_nat HASH_SIZE /\
    namecount v = mm_namecount m.

Lemma chains_short s0 ps s D :
  added s0 s D -> Forall2 (holds s) ps D -> Forall (fun l => (length l <= size (ls_buckets s))%nat) D.
Proof.
  intros Ha HD. apply Forall_lookup. intros i l El. destruct (Forall2_lookup_r _ _ _ _ _ HD El) as (p & _ & Hp).
  eapply holds_length; [exact Hp|]. pose proof (ad_nodes _ _ _ Ha) as Hn.
  rewrite <- (take_drop_middle D _ _ El), concat_app in Hn. cbn in Hn. rewrite !map_app in Hn.
  apply NoDup_app in Hn as (_ & _ & Hn). by apply NoDup_app in Hn as (? & _ & _).
Qed.

Lemma chain_at s0 v m s i :
  stands_for s0 v m s -> 0 <= i < HASH_SIZE ->
  exists D l, added s0 s D /\ Forall2 (holds s) (mm_name m) D /\ map_name v = map (map snd) D /\ length D = Z.to_nat HASH_SIZE /\
    D !! Z.to_nat i = Some l /\ mm_name m !! Z.to_nat i = Some (mm_name m !! Z.to_nat i ≫= id) /\
    holds s (mm_name m !! Z.to_nat i ≫= id) l /\ chain v i = map snd l /\ (length l <= size (ls_buckets s))%nat.
Proof.
  intros (D & Ha & HD & Hv & Hl & _) Hi.
  destruct (lookup_lt_is_Some_2 D (Z.to_nat i)) as [l El]; [lia|].
  destruct (Forall2_lookup_r _ _ _ _ _ HD El) as (p & Ep & Hp). exists D, l. rewrite Ep. cbn.
  split_and!; try done.
  - unfold chain. rewrite Hv, list_lookup_fmap, El. done.
  - by apply (proj1 (Forall_lookup _ _) (chains_short s0 _ s D Ha HD) _ _ El).
Qed.

Lemma get_bit_run s0 v m s name w :
  stands_for s0 v m s -> __labelmap_get_bit_mem m name s w = Ok (__labelmap_get_bit (Some v) name, w).
Proof.
  intros H. destruct (chain_at _ _ _ _ (hash_name name) H (hash_name_range _)) as (D & l & _ & _ & _ & _ & _ & _ & Hp & Hc & Hl).
  unfold __labelmap_get_bit_mem, bind. rewrite (find_walk_run _ _ _ _ _ _ Hp Hl). cbn. by rewrite Hc.
Qed.

(** Other blocks and addresses that were given out. *)
Lemma stands_for_other s0 v m s O k :
  0 <= k -> (forall o, o ∈ O -> o < ls_fresh s + k) -> stands_for s0 v m s ->
  stands_for s0 v m (mk_lstore (ls_buckets s) (ls_strings s) O (ls_fresh s + k)).
Proof.
  intros Hk HO (D & H & HD & Hr). exists D. split; [|split; [by apply (chains_frame s)|done]]. destruct H as [[O1 O2 O3] Hle Hlow]. split; cbn; try done.
  - split; cbn; [intros q x Hx%O1; lia|intros q x Hx%O2; lia|done].
  - lia.
  - intros e He. destruct (Hlow e He). lia.
Qed.
Lemma stands_for_low s0 v m s o : stands_for s0 v m s -> o ∈ ls_other s -> o < ls_fresh s.
Proof. intros (D & H & _). apply (so_other _ (ad_ok _ _ _ H)). Qed.
(** The table of names. *)
Lemma stands_for_names s0 v m s c t names ps :
  stands_for s0 v m s -> stands_for s0 (mk_labelmap (map_name v) c names) (mk_mlabelmap (mm_name m) c t ps) s.
Proof. intros (D & H & HD & Hv & Hl & _). by exists D. Qed.

Lemma pushed s0 v m s n b :
  stands_for s0 v m s -> store_ok s0 ->
  let i := Z.to_nat (hash_name n) in let a := ls_fresh s in let q := a + 1 in
  stands_for s0 (mk_labelmap (<[i := mk_bucket n b :: chain v (hash_name n)]> (map_name v)) (namecount v) (bit_to_name v))
    (mk_mlabelmap (<[i := Some q]> (mm_name m)) (mm_namecount m) (mm_table m) (mm_bit_to_name m))
    (mk_lstore (<[q := mk_lnode a b (mm_name m !! i ≫= id)]> (ls_buckets s)) (<[a := n]> (ls_strings s)) (ls_other s) (q + 1)).
Proof.
  intros H H0 i a q. pose proof H as (_ & _ & _ & _ & _ & Hn).
  destruct (chain_at _ _ _ _ (hash_name n) H (hash_name_range _)) as (D & l & Ha & HD & Hv & HL & El & Em & Hp & Hc & _).
  exists (<[i := (q, a, mk_bucket n b) :: l]> D). split_and!; cbn.
  - by apply (added_push s0 s D i l n b).
  - assert (Hlow : forall e, e ∈ concat D -> el_node e <> q /\ el_name e <> a).
    { intros e He. destruct (ad_low _ _ _ Ha e He). lia. }
    apply Forall2_insert.
    + apply (chains_frame s); [|done]. intros e He. destruct (Hlow e He). cbn. by rewrite !lookup_insert_ne.
    + cbn. rewrite !lookup_insert_eq. split_and!; [done|done|]. eexists. split; [done|].
      apply (holds_frame s); [|done]. intros e He. destruct (Hlow e) as [? ?]; [|cbn; by rewrite !lookup_insert_ne].
      apply list_elem_of_In, in_concat. exists l. split; apply list_elem_of_In; [by eapply list_elem_of_lookup_2|done].
  - rewrite Hv, Hc. unfold i. by rewrite list_fmap_insert.
  - by rewrite length_insert.
  - done.
Qed.

Definition same_insert (s0 s : lstore) (t : option Z) (x : Z * nfct_labelmap) (y : (Z * mlabelmap) * lstore) : Prop :=
  x.1 = y.1.1 /\ stands_for s0 x.2 y.1.2 y.2 /\ ls_other y.2 = ls_other s /\ mm_table y.1.2 = t.

Lemma map_insert_mem_run s0 v m s n b w :
  stands_for s0 v m s -> store_ok s0 ->
  agree (same_insert s0 s (mm_table m)) (map_insert v n b w) (map_insert_mem m n b s w).
Proof.
  intros H H0. destruct (chain_at _ _ _ _ (hash_name n) H (hash_name_range _)) as (D & l & Ha & _ & _ & _ & _ & _ & Hp & Hc & Hl).
  unfold map_insert, map_insert_mem. unfold bind at 2. rewrite (find_walk_run _ _ _ _ _ _ Hp Hl), Hc.
  destruct (chain_find n (map snd l)); [done|].
  assert (Hfresh : ls_strings s !! ls_fresh s = None).
  { destruct (ls_strings s !! ls_fresh s) eqn:E; [|done]. apply (so_strings _ (ad_ok _ _ _ Ha)) in E. lia. }
  pose proof (pushed s0 v m s n b H H0) as Hpush. rewrite Hc in Hpush.
  assert (Hback : stands_for s0 v m (mk_lstore (ls_buckets s) (ls_strings s) (ls_other s) (ls_fresh s + 1))).
  { apply stands_for_other; [lia| |done]. intros o Ho. pose proof (stands_for_low _ _ _ _ _ H Ho). lia. }
  unfold label_map_bucket_alloc, label_map_bucket_alloc_mem, malloc_ok, bind, free_name, ret. cbn.
  destruct (w_alloc w) as [|[] [|[] al]] eqn:Ew; cbn; rewrite ?Ew; cbn; rewrite ?lookup_insert_eq; cbn; rewrite ?insert_insert_eq;
    unfold set_strings; cbn; rewrite ?delete_insert_id by done; (split; [done|]); unfold same_insert; cbn; by split_and!.
Qed.

(** The scan of the file. *)
Definition same_scan (s0 : lstore) (others : gset Z) (x : scan_st) (y : scan_mem * lstore) : Prop :=
  stands_for s0 (sc_map x) (sm_map y.1) y.2 /\ ls_other y.2 = others /\ mm_table (sm_map y.1) = None /\
  sc_added x = sm_added y.1 /\ sc_maxbit x = sm_maxbit y.1 /\ sc_seen x = sm_seen y.1.

Lemma agree_ret {A B} (R : A -> B -> Prop) a b w : R a b -> agree R (ret a w) (ret b w).
Proof. by cbn. Qed.

Lemma scan_line_mem_run s0 others label x st s w :
  store_ok s0 -> same_scan s0 others x (st, s) -> agree (same_scan s0 others) (scan_line label x w) (scan_line_mem label st s w).
Proof.
  intros H0 H. pose proof H as (Hm & Ho & Ht & Ea & Eb & Es). cbn in Hm, Ho, Ht, Ea, Eb, Es.
  unfold scan_line, scan_line_mem. destruct (bool_decide _); [by apply agree_ret|].
  eapply agree_bind; [apply agree_same|]. intros [bit end_] ? w1 <-. cbv beta iota. rewrite Es.
  destruct (bit <? 0); [by apply agree_ret|]. eapply agree_bind; [apply agree_same|]. intros seen ? w2 <-.
  destruct seen; [by apply agree_ret|]. destruct (trim_label end_) as [name|]; [|by apply agree_ret].
  destruct (label_is_sane name); [|by apply agree_ret].
  eapply agree_bind; [by apply (map_insert_mem_run s0)|]. intros [r v'] [[r' m'] s'] w3 (Hr & Hs & Ho' & Ht'). cbn in Hr, Hs, Ho', Ht'. subst r'.
  cbv beta iota. rewrite Ea, Eb. destruct (r =? 0); [|apply agree_ret; split_and!; cbn; congruence || done].
  eapply agree_bind; [apply agree_same|]. intros bits ? w4 <-. apply agree_ret; split_and!; cbn; congruence || done.
Qed.

Lemma scan_file_mem_run s0 others fuel file x st s w :
  store_ok s0 -> same_scan s0 others x (st, s) -> agree (same_scan s0 others) (scan_file fuel file x w) (scan_file_mem fuel file st s w).
Proof.
  intros H0. revert file x st s w. induction fuel as [|fuel IH]; intros file x st s w H; [done|]. cbn [scan_file scan_file_mem].
  destruct (fgets 1023 file) as [[label rest]|]; [|by apply agree_ret].
  eapply agree_bind; [by apply (scan_line_mem_run s0 others)|]. intros x' [st' s'] w1 H'. by apply IH.
Qed.

(** The table of names: its entries point at the names that the table of CtLabels.v has. *)
Definition points_to (s : lstore) (p : option Z) (n : option cname) : Prop :=
  match p, n with
  | Some a, Some n => ls_strings s !! a = Some n
  | None, None => True
  | _, _ => False
  end.

Lemma name_chain_mem_run fuel s p l ps ns w :
  holds s p l -> (length l <= fuel)%nat -> Forall2 (points_to s) ps ns ->
  agree (Forall2 (points_to s)) (name_chain_mem fuel s p ps w) (name_chain (map snd l) ns w).
Proof.
  revert fuel p ps ns. induction l as [|e l IH]; intros fuel p ps ns; [by intros -> _ H; destruct fuel|].
  intros (-> & Hs & next & Hb & Hl) Hf Hn. destruct fuel as [|fuel]; [cbn in Hf; lia|]. cbn [name_chain_mem map name_chain].
  rewrite Hb. cbn [ln_bit ln_name ln_next]. unfold zlen. rewrite (Forall2_length _ _ _ Hn). destruct (_ && _); [|done].
  apply IH; [done|cbn in Hf; lia|]. by apply Forall2_insert.
Qed.

Lemma name_chains_mem_run s bs D ps ns w :
  Forall2 (holds s) bs D -> Forall (fun l => (length l <= size (ls_buckets s))%nat) D -> Forall2 (points_to s) ps ns ->
  agree (Forall2 (points_to s)) (name_chains_mem bs s ps w) (name_chains (map (map snd) D) ns w).
Proof.
  intros H. revert ps ns w. induction H as [|p l bs D Hp HD IH]; intros ps ns w Hl Hn; [done|]. apply Forall_cons in Hl as [Hl HlD].
  cbn [name_chains_mem name_chains map]. eapply agree_bind; [by apply name_chain_mem_run|]. intros ps' ns' w' Hn'. by apply IH.
Qed.

Lemma name_chain_length l t w t' w' : name_chain l t w = Ok (t', w') -> length t' = length t.
Proof.
  revert t. induction l as [|b l IH]; intros t; cbn; [by intros [= -> _]|]. destruct (_ && _); [|done].
  intros H%IH. by rewrite length_insert in H.
Qed.
Lemma name_chains_length ls t w t' w' : name_chains ls t w = Ok (t', w') -> length t' = length t.
Proof.
  revert t w. induction ls as [|l ls IH]; intros t w; cbn; [by intros [= -> _]|]. unfold bind.
  destruct (name_chain l t w) as [[t1 w1]| | |] eqn:E; try done. intros ->%IH. by apply name_chain_length in E.
Qed.

Lemma get_name_run v m s bit w :
  Forall2 (points_to s) (mm_bit_to_name m) (bit_to_name v) -> mm_namecount m = namecount v ->
  namecount v <= zlen (bit_to_name v) -> 0 <= bit ->
  __labelmap_get_name_mem m bit s w = Ok (__labelmap_get_name v bit, w).
Proof.
  intros Hp Hc Hz Hb. unfold __labelmap_get_name_mem, __labelmap_get_name. rewrite Hc.
  destruct (Z.ltb_spec bit (namecount v)); [|done].
  destruct (lookup_lt_is_Some_2 (bit_to_name v) (Z.to_nat bit)) as [n En]; [unfold zlen in Hz; lia|].
  destruct (Forall2_lookup_r _ _ _ _ _ Hp En) as (p & -> & Hpn). rewrite En.
  destruct p as [a|], n as [n|]; cbn in Hpn; try done. by rewrite Hpn.
Qed.

(** The release gives back all that the map had. *)
Lemma destroy_map_run s0 v m s p w :
  stands_for s0 v m s -> p ∈ ls_other s -> (forall t, mm_table m = Some t -> t ∈ ls_other s /\ t <> p) ->
  exists s', __labelmap_destroy p m s w = Ok (s', w) /\ ls_buckets s' = ls_buckets s0 /\ ls_strings s' = ls_strings s0 /\
    ls_other s' = ls_other s ∖ (match mm_table m with Some t => {[t]} | None => ∅ end) ∖ {[p]}.
Proof.
  intros (D & Ha & HD & _) Hp Ht. destruct (added_removed _ _ _ Ha) as [Eb Es]. cbn in Eb, Es.
  unfold __labelmap_destroy, bind. rewrite (free_lists_run s _ D w HD (ad_nodes _ _ _ Ha) (ad_names _ _ _ Ha)).
  destruct (mm_table m) as [t|]; unfold free_other; cbn [without_elements ls_other].
  - destruct (Ht t eq_refl) as [Hin Hne]. rewrite decide_True by done. cbn. rewrite decide_True by set_solver.
    eexists. split; [done|]. cbn. by rewrite Eb, Es.
  - cbn. rewrite decide_True by done. eexists. split; [done|]. cbn. rewrite Eb, Es. split_and!; [done|done|set_solver].
Qed.

Lemma alloc_other_run s w :
  agree (fun (ok : bool) y => if ok then y = (Some (ls_fresh s), mk_lstore (ls_buckets s) (ls_strings s) ({[ls_fresh s]} ∪ ls_other s) (ls_fresh s + 1))
    else y = (None, s)) (malloc_ok w) (alloc_other s w).
Proof. unfold alloc_other, malloc_ok, bind. by destruct (w_alloc w) as [|[] al]. Qed.

Lemma added_other s O k :
  store_ok s -> 0 <= k -> (forall o, o ∈ O -> o < ls_fresh s + k) ->
  added s (mk_lstore (ls_buckets s) (ls_strings s) O (ls_fresh s + k)) (replicate (Z.to_nat HASH_SIZE) []).
Proof.
  intros [O1 O2 O3] Hk HO. assert (E : concat (replicate (Z.to_nat HASH_SIZE) []) = ([] : list element)) by done.
  split; rewrite ?E; cbn; try done; try (intros ? []%elem_of_nil); try apply NoDup_nil_2; try lia.
  split; cbn; [intros q x Hx%O1; lia|intros q x Hx%O2; lia|done].
Qed.

Lemma map_alloc_run s w :
  store_ok s ->
  agree (fun v y => match v, y.1 with
    | Some v, Some (p, m) => p = ls_fresh s /\ stands_for s v m y.2 /\ mm_table m = None /\ ls_other y.2 = {[p]} ∪ ls_other s
    | None, None => y.2 = s
    | _, _ => False end) (map_alloc w) (map_alloc_mem s w).
Proof.
  intros H0. pose proof (alloc_other_run s w) as Ha. unfold map_alloc, map_alloc_mem, bind.
  destruct (malloc_ok w) as [[ok w1]| | |], (alloc_other s w) as [[y w2]| | |]; try done. destruct Ha as [<- Ha].
  destruct ok; subst y; [|done]. cbn. split_and!; try done. exists (replicate (Z.to_nat HASH_SIZE) []).
  split; [|split_and!; [by apply Forall2_replicate|done..]].
  apply added_other; [done|lia|]. intros o [->%elem_of_singleton|Ho%(so_other _ H0)]%elem_of_union; lia.
Qed.

(** What a map in memory is to the map of CtLabels.v, and that it can be given back. *)
Definition label_map_in (s : lstore) (v : nfct_labelmap) (p : Z) (m : mlabelmap) (s' : lstore) : Prop :=
  (forall name w, __labelmap_get_bit_mem m name s' w = Ok (__labelmap_get_bit (Some v) name, w)) /\
  (forall bit w, 0 <= bit -> __labelmap_get_name_mem m bit s' w = Ok (__labelmap_get_name v bit, w)) /\
  mm_namecount m = namecount v /\ Forall2 (points_to s') (mm_bit_to_name m) (bit_to_name v) /\
  (forall w, exists s'', __labelmap_destroy p m s' w = Ok (s'', w) /\ same_blocks s'' s).

(** C38: the memory of a label map.  Reading a file into memory ends as reading it into a value does,
    with a map that answers the same lookups, of labels and of bits, from its blocks; when it fails, also for lack of memory in the
    middle, nothing is left allocated; and [__labelmap_destroy] of the map faults nowhere and
    leaves the store as it was before the map was made. *)
Theorem labelmap_memory fp s w :
  store_ok s ->
  agree (fun v y => match v, y.1 with
    | None, None => same_blocks y.2 s
    | Some v, Some (p, m) => label_map_in s v p m y.2
    | _, _ => False
    end) (__labelmap_new fp w) (__labelmap_new_mem fp s w).
Proof.
  intros H0. destruct fp as [file|]; [|by apply agree_ret]. unfold __labelmap_new, __labelmap_new_mem.
  eapply agree_bind; [by apply map_alloc_run|]. intros [v|] [[[p m]|] s1] w1 H; cbn in H; try done; [|subst; by apply agree_ret].
  destruct H as (-> & Hm & Ht & Ho). set (p := ls_fresh s) in *. cbv beta iota.
  assert (Hp : p ∉ ls_other s) by (intros Hin%(so_other _ H0); lia).
  eapply agree_bind.
  { apply (scan_file_mem_run s ({[p]} ∪ ls_other s) _ _ (mk_scan v 0 0 (replicate 32 0)) (mk_scan_mem m 0 0 (replicate 32 0)) s1 w1 H0).
    by split_and!. }
  intros x [st s2] w2 (Hm2 & Ho2 & Ht2 & Ea & Eb & _). cbn in Hm2, Ho2, Ht2, Ea, Eb. cbv beta iota zeta. rewrite Ea, Eb.
  assert (Hgone : forall w, exists s', __labelmap_destroy p (sm_map st) s2 w = Ok (s', w) /\ same_blocks s' s).
  { intros w'. destruct (destroy_map_run s _ _ _ p w' Hm2) as (s' & Hr & Hb & Hs & Hx); [set_solver|by rewrite Ht2|].
    exists s'. split; [done|]. rewrite Ht2, Ho2 in Hx. split_and!; [done|done|]. rewrite Hx. set_solver. }
  destruct (negb _).
  - eapply agree_bind; [apply alloc_other_run|]. intros [] y w3 ->; cbn [negb]; cbv beta iota.
    + set (t := ls_fresh s2). set (s3 := mk_lstore _ _ _ _). pose proof Hm2 as (D & Ha & HD & Hv & _).
      assert (Hs3 : stands_for s (sc_map x) (sm_map st) s3).
      { apply stands_for_other; [lia| |done]. intros o [->%elem_of_singleton|Hin]%elem_of_union; [lia|].
        pose proof (stands_for_low _ _ _ _ _ Hm2 Hin). lia. }
      unfold make_name_table, bind. cbn [map_name bit_to_name namecount]. set (c := wrap 32 (sm_maxbit st + 1)).
      pose proof (name_chains_mem_run s3 (mm_name (sm_map st)) D (replicate (Z.to_nat c) None) (replicate (Z.to_nat c) None) w3) as Hn.
      rewrite <- Hv in Hn. specialize (Hn ltac:(by apply (chains_frame s2)) ltac:(by apply (chains_short s (mm_name (sm_map st)) s2))
        ltac:(by apply Forall2_replicate)).
      destruct (name_chains_mem _ s3 _ w3) as [[ps w4]| | |], (name_chains _ _ w3) as [[names w4']| | |] eqn:En; try done.
      destruct Hn as [<- Hn]. apply name_chains_length in En. rewrite length_replicate in En.
      split; [done|]. cbn [fst snd]. apply (stands_for_names _ _ _ _ c (Some t) names ps) in Hs3.
      split_and!; [intros name w5; by apply (get_bit_run s)| |done|done|].
      { intros bit w5 Hbit. apply get_name_run; cbn; [done|done| |done]. unfold zlen. lia. }
      intros w5. assert (Hpt : t <> p) by (intros E; pose proof (stands_for_low _ _ _ _ p Hm2 ltac:(set_solver)); lia).
      destruct (destroy_map_run s _ _ _ p w5 Hs3) as (s' & Hr & Hb & Hs & Hx);
        [cbn; set_solver|cbn; intros t' [= <-]; split; [set_solver|done]|].
      exists s'. split; [done|]. split_and!; [done|done|]. rewrite Hx. cbn. rewrite Ho2. apply set_eq. intros o. set_unfold.
      assert (o ∈ ls_other s -> o <> t /\ o <> p); [|naive_solver].
      intros Hin. split; [|by intros ->]. intros ->. pose proof (stands_for_low _ _ _ _ t Hm2 ltac:(set_solver)). lia.
    + destruct (Hgone w3) as (s' & Hr & Hs). unfold bind. rewrite Hr. by apply agree_ret.
  - eapply agree_bind; [apply agree_same|]. intros _ _ w3 _. destruct (Hgone w3) as (s' & Hr & Hs). unfold bind. rewrite Hr. by apply agree_ret.
Qed.

Definition empty_store : lstore := mk_lstore ∅ ∅ ∅ 1.

Lemma labelmap_memory_witness :
  store_ok empty_store /\
  agree (fun v y => match v, y.1 with
    | None, None => same_blocks y.2 empty_store
    | Some v, Some (p, m) => label_map_in empty_store v p m y.2
    | _, _ => False
    end) (__labelmap_new (Some label_file) (mk_world [] 0 [])) (__labelmap_new_mem (Some label_file) empty_store (mk_world [] 0 [])).
Proof.
  assert (H : store_ok empty_store) by (split; done).
  split; [exact H|]. exact (labelmap_memory (Some label_file) empty_store (mk_world [] 0 []) H).
Defined.

(** The map is made from this file, not refused. *)
Lemma label_file_in_memory :
  match __labelmap_new_mem (Some label_file) empty_store (mk_world [] 0 []) with Ok ((Some _, _), _) => True | _ => False end.
Proof. vm_compute. exact I. Qed.
