(* ===== verification/CtFilter.v ===== *)
(** The event filter object: [src/libnetfilter_conntrack/filter.c] and its entry
    points in [api.c].

    A value argument is the block of bytes it points to ([cvalue]).  Indexing an
    array of the filter out of its bounds is undefined. *)
From S2P Require Import Prelude CMonad Bitops CtObject CtSetter.
Open Scope c_scope.

Definition __FILTER_L4PROTO_MAX : Z := 255.
Definition __FILTER_ADDR_MAX : Z := 127.
Definition __FILTER_IPV6_MAX : Z := 20.
Definition __FILTER_MARK_MAX : Z := 127.
Definition IPPROTO_MAX : Z := 256.

Definition NFCT_FILTER_L4PROTO : Z := 0.
Definition NFCT_FILTER_L4PROTO_STATE : Z := 1.
Definition NFCT_FILTER_SRC_IPV4 : Z := 2.
Definition NFCT_FILTER_DST_IPV4 : Z := 3.
Definition NFCT_FILTER_SRC_IPV6 : Z := 4.
Definition NFCT_FILTER_DST_IPV6 : Z := 5.
Definition NFCT_FILTER_MARK : Z := 6.
Definition NFCT_FILTER_MAX : Z := 7.

(** An array of pairs with its number of used elements. *)
Record elems (A : Type) := mk_elems { e_len : Z; e_array : list (A * A) }.
Arguments mk_elems {A} _ _.
Arguments e_len {A} _.
Arguments e_array {A} _.

Record nfct_filter := mk_filter {
  f_logic : list Z;
  f_l4proto_map : list Z;
  f_l4proto_len : Z;
  f_l4proto_state : list (Z * Z);  (** [map] and [len] of each protocol *)
  f_l3proto : list (elems Z);      (** [l3proto_elems] and [l3proto], by direction *)
  f_l3proto_ipv6 : list (elems (list Z));
  f_mark : elems Z;
  f_set : list Z
}.

Definition with_f_l4proto m n (f : nfct_filter) : nfct_filter :=
  mk_filter (f_logic f) m n (f_l4proto_state f) (f_l3proto f) (f_l3proto_ipv6 f) (f_mark f) (f_set f).
Definition with_f_l4proto_state s (f : nfct_filter) : nfct_filter :=
  mk_filter (f_logic f) (f_l4proto_map f) (f_l4proto_len f) s (f_l3proto f) (f_l3proto_ipv6 f) (f_mark f) (f_set f).
Definition with_f_l3proto x (f : nfct_filter) : nfct_filter :=
  mk_filter (f_logic f) (f_l4proto_map f) (f_l4proto_len f) (f_l4proto_state f) x (f_l3proto_ipv6 f) (f_mark f) (f_set f).
Definition with_f_l3proto_ipv6 x (f : nfct_filter) : nfct_filter :=
  mk_filter (f_logic f) (f_l4proto_map f) (f_l4proto_len f) (f_l4proto_state f) (f_l3proto f) x (f_mark f) (f_set f).
Definition with_f_mark x (f : nfct_filter) : nfct_filter :=
  mk_filter (f_logic f) (f_l4proto_map f) (f_l4proto_len f) (f_l4proto_state f) (f_l3proto f) (f_l3proto_ipv6 f) x (f_set f).
Definition with_f_logic x (f : nfct_filter) : nfct_filter :=
  mk_filter x (f_l4proto_map f) (f_l4proto_len f) (f_l4proto_state f) (f_l3proto f) (f_l3proto_ipv6 f) (f_mark f) (f_set f).
Definition with_f_set x (f : nfct_filter) : nfct_filter :=
  mk_filter (f_logic f) (f_l4proto_map f) (f_l4proto_len f) (f_l4proto_state f) (f_l3proto f) (f_l3proto_ipv6 f) (f_mark f) x.

(** [*ptr] of [n] bytes at offset [o] of the value. *)
Definition val_field (o : Z) (n : nat) (value : cvalue) : M Z :=
  let! bs := val_bytes (o + Z.of_nat n) value in ret (le_dec (slice o (Z.of_nat n) bs)).
Definition val_block (o n : Z) (value : cvalue) : M (list Z) :=
  let! bs := val_bytes (o + n) value in ret (slice o n bs).

Definition filter_attr : Type := nfct_filter -> cvalue -> M nfct_filter.

Definition filter_attr_l4proto : filter_attr := fun filter value =>
  if __FILTER_L4PROTO_MAX <=? f_l4proto_len filter then ret filter else
  let! p := val_u 4 value in
  let p := sint 32 p in
  let! map := set_bit p (f_l4proto_map filter) in
  ret (with_f_l4proto map (wrap 32 (f_l4proto_len filter + 1)) filter).

Definition filter_attr_l4proto_state : filter_attr := fun filter value =>
  let! proto := val_field 0 2 value in
  let! state := val_field 2 2 value in
  match f_l4proto_state filter !! Z.to_nat proto with
  | Some (map, len) =>
      if state <? 16 then
        ret (with_f_l4proto_state
               (<[Z.to_nat proto := (wrap 16 (Z.lor map (Z.shiftl 1 (Z.land state 15))), wrap 16 (len + 1))]>
                  (f_l4proto_state filter)) filter)
      else ub
  | None => ub
  end.

(** The element after the last used one, unless the array is full. *)
Definition push {A} (max : Z) (x : A * A) (e : elems A) : elems A :=
  if max <=? e_len e then e
  else mk_elems (wrap 32 (e_len e + 1)) (<[Z.to_nat (e_len e) := x]> (e_array e)).

Definition filter_attr_ipv4 (d : nat) : filter_attr := fun filter value =>
  match f_l3proto filter !! d with
  | None => ub
  | Some e =>
      if __FILTER_ADDR_MAX <=? e_len e then ret filter else
      let! addr := val_field 0 4 value in
      let! mask := val_field 4 4 value in
      ret (with_f_l3proto (<[d := push __FILTER_ADDR_MAX (addr, mask) e]> (f_l3proto filter)) filter)
  end.

Definition filter_attr_src_ipv4 : filter_attr := filter_attr_ipv4 0.
Definition filter_attr_dst_ipv4 : filter_attr := filter_attr_ipv4 1.

Definition filter_attr_ipv6 (d : nat) : filter_attr := fun filter value =>
  match f_l3proto_ipv6 filter !! d with
  | None => ub
  | Some e =>
      if __FILTER_IPV6_MAX <=? e_len e then ret filter else
      let! addr := val_block 0 16 value in
      let! mask := val_block 16 16 value in
      ret (with_f_l3proto_ipv6 (<[d := push __FILTER_IPV6_MAX (addr, mask) e]> (f_l3proto_ipv6 filter)) filter)
  end.

Definition filter_attr_src_ipv6 : filter_attr := filter_attr_ipv6 0.
Definition filter_attr_dst_ipv6 : filter_attr := filter_attr_ipv6 1.

Definition filter_attr_mark : filter_attr := fun filter value =>
  if __FILTER_MARK_MAX <=? e_len (f_mark filter) then ret filter else
  let! val := val_field 0 4 value in
  let! mask := val_field 4 4 value in
  ret (with_f_mark (push __FILTER_MARK_MAX (val, mask) (f_mark filter)) filter).

Definition filter_attr_array (type : Z) : filter_attr :=
  if type =? NFCT_FILTER_L4PROTO then filter_attr_l4proto
  else if type =? NFCT_FILTER_L4PROTO_STATE then filter_attr_l4proto_state
  else if type =? NFCT_FILTER_SRC_IPV4 then filter_attr_src_ipv4
  else if type =? NFCT_FILTER_DST_IPV4 then filter_attr_dst_ipv4
  else if type =? NFCT_FILTER_SRC_IPV6 then filter_attr_src_ipv6
  else if type =? NFCT_FILTER_DST_IPV6 then filter_attr_dst_ipv6
  else filter_attr_mark.

(** [calloc]: every member is zero. *)
Definition zero_filter : nfct_filter :=
  mk_filter (replicate 7 0) (replicate 8 0) 0 (replicate 256 (0, 0))
    (replicate 2 (mk_elems 0 (replicate 127 (0, 0))))
    (replicate 2 (mk_elems 0 (replicate 20 (replicate 16 0, replicate 16 0))))
    (mk_elems 0 (replicate 127 (0, 0))) [0].

Definition nfct_filter_create : M (option nfct_filter) :=
  let! ok := malloc_ok in ret (if ok : bool then Some zero_filter else None).

(** The filter is no longer the caller's. *)
Definition nfct_filter_destroy (filter : option nfct_filter) : M unit :=
  match filter with None => exit | Some _ => ret tt end.

Definition nfct_filter_add_attr (filter : nfct_filter) (type : Z) (value : option cvalue) : M nfct_filter :=
  match value with
  | None => exit
  | Some value =>
      if NFCT_FILTER_MAX <=? type then ret filter else
      let! filter := filter_attr_array type filter value in
      let! set := set_bit type (f_set filter) in
      ret (with_f_set set filter)
  end.

Definition nfct_filter_add_attr_u32 (filter : nfct_filter) (type value : Z) : M nfct_filter :=
  nfct_filter_add_attr filter type (Some (VBytes (le_enc 4 value))).

Definition nfct_filter_set_logic (filter : nfct_filter) (type logic : Z) : M (Z * nfct_filter) :=
  if NFCT_FILTER_MAX <=? type then set_errno ENOTSUP ;;; ret (-1, filter) else
  match f_logic filter !! Z.to_nat type with
  | None => ub
  | Some l =>
      if negb (l =? 0) then set_errno EBUSY ;;; ret (-1, filter)
      else ret (0, with_f_logic (<[Z.to_nat type := logic]> (f_logic filter)) filter)
  end.

(** ** What a filter holds *)

(** The calls that change a filter. *)
Inductive fop :=
| AddL4proto (p : Z)
| AddState (proto state : Z)
| AddIpv4 (dst : bool) (addr mask : Z)
| AddIpv6 (dst : bool) (addr mask : list Z)
| AddMark (val mask : Z)
| SetLogic (type logic : Z).

Definition fop_run (o : fop) (f : nfct_filter) : M nfct_filter :=
  match o with
  | AddL4proto p => nfct_filter_add_attr_u32 f NFCT_FILTER_L4PROTO p
  | AddState p s =>
      nfct_filter_add_attr f NFCT_FILTER_L4PROTO_STATE (Some (VBytes (le_enc 2 p ++ le_enc 2 s)))
  | AddIpv4 dst a m =>
      nfct_filter_add_attr f (if dst then NFCT_FILTER_DST_IPV4 else NFCT_FILTER_SRC_IPV4)
        (Some (VBytes (le_enc 4 a ++ le_enc 4 m)))
  | AddIpv6 dst a m =>
      nfct_filter_add_attr f (if dst then NFCT_FILTER_DST_IPV6 else NFCT_FILTER_SRC_IPV6)
        (Some (VBytes (a ++ m)))
  | AddMark v m => nfct_filter_add_attr f NFCT_FILTER_MARK (Some (VBytes (le_enc 4 v ++ le_enc 4 m)))
  | SetLogic t l => let! (_, f) := nfct_filter_set_logic f t l in ret f
  end.

Fixpoint fops_run (ops : list fop) (f : nfct_filter) : M nfct_filter :=
  match ops with [] => ret f | o :: ops => let! f := fop_run o f in fops_run ops f end.

Definition word32 (z : Z) : Prop := 0 <= z < 2 ^ 32.

(** The arguments are in the ranges of their types, and the protocol and the
    state are numbers the filter has room for. *)
Definition fop_ok (o : fop) : Prop :=
  match o with
  | AddL4proto p => 0 <= p < IPPROTO_MAX
  | AddState p s => 0 <= p < IPPROTO_MAX /\ 0 <= s < 16
  | AddIpv4 _ a m | AddMark a m => word32 a /\ word32 m
  | AddIpv6 _ a m => length a = 16%nat /\ length m = 16%nat
  | SetLogic t _ => 0 <= t
  end.

(** What the calls of each kind were given, in order. *)
Definition l4protos (ops : list fop) : list Z :=
  omap (fun o => match o with AddL4proto p => Some p | _ => None end) ops.
Definition states (ops : list fop) : list (Z * Z) :=
  omap (fun o => match o with AddState p s => Some (p, s) | _ => None end) ops.
Definition ipv4s (dst : bool) (ops : list fop) : list (Z * Z) :=
  omap (fun o => match o with AddIpv4 d a m => if eqb d dst then Some (a, m) else None | _ => None end) ops.
Definition ipv6s (dst : bool) (ops : list fop) : list (list Z * list Z) :=
  omap (fun o => match o with AddIpv6 d a m => if eqb d dst then Some (a, m) else None | _ => None end) ops.
Definition marks (ops : list fop) : list (Z * Z) :=
  omap (fun o => match o with AddMark v m => Some (v, m) | _ => None end) ops.

(** The logics other than 0 that were set for a type. *)
Definition logics (t : Z) (ops : list fop) : list Z :=
  omap (fun o => match o with
                 | SetLogic t' l => if (t' =? t) && negb (l =? 0) then Some l else None
                 | _ => None
                 end) ops.

(** The first of them, 0 without one. *)
Definition logic_of (t : Z) (ops : list fop) : Z := default 0 (head (logics t ops)).

Definition fop_type (o : fop) : option Z :=
  match o with
  | AddL4proto _ => Some NFCT_FILTER_L4PROTO
  | AddState _ _ => Some NFCT_FILTER_L4PROTO_STATE
  | AddIpv4 dst _ _ => Some (if dst then NFCT_FILTER_DST_IPV4 else NFCT_FILTER_SRC_IPV4)
  | AddIpv6 dst _ _ => Some (if dst then NFCT_FILTER_DST_IPV6 else NFCT_FILTER_SRC_IPV6)
  | AddMark _ _ => Some NFCT_FILTER_MARK
  | SetLogic _ _ => None
  end.

(** The array holds the first [max] values. *)
Definition elems_hold {A} (max : nat) (e : elems A) (l : list (A * A)) : Prop :=
  length (e_array e) = max /\ e_len e = zlen (take max l) /\
  take (length (take max l)) (e_array e) = take max l.

Definition dir_idx (dst : bool) : nat := if dst then 1%nat else 0%nat.

Record filter_data (f : nfct_filter) (ops : list fop) : Prop := {
  fh_l4_words : length (f_l4proto_map f) = 8%nat;
  fh_l4_len : f_l4proto_len f = zlen (take 255 (l4protos ops));
  fh_l4 : forall p, 0 <= p < IPPROTO_MAX ->
    has_bit p (f_l4proto_map f) = bool_decide (p ∈ take 255 (l4protos ops));
  fh_state : forall p, 0 <= p < IPPROTO_MAX -> exists m n,
    f_l4proto_state f !! Z.to_nat p = Some (m, n) /\
    (forall s, 0 <= s < 16 -> Z.testbit m s = bool_decide ((p, s) ∈ states ops)) /\
    n = wrap 16 (zlen (filter (fun x => x.1 = p) (states ops)));
  fh_ipv4 : forall d, exists e, f_l3proto f !! dir_idx d = Some e /\ elems_hold 127 e (ipv4s d ops);
  fh_ipv6 : forall d, exists e, f_l3proto_ipv6 f !! dir_idx d = Some e /\ elems_hold 20 e (ipv6s d ops);
  fh_mark : elems_hold 127 (f_mark f) (marks ops);
  fh_logic : forall t, 0 <= t < NFCT_FILTER_MAX -> f_logic f !! Z.to_nat t = Some (logic_of t ops)
}.

(** The filter holds what the calls [ops] gave it: the first values up to the
    capacity of each array, the protocols and states as bits, and which kinds of
    attributes were added. *)
Record filter_holds (f : nfct_filter) (ops : list fop) : Prop := {
  fh_data : filter_data f ops;
  fh_set_words : length (f_set f) = 1%nat;
  fh_set : forall t, 0 <= t < NFCT_FILTER_MAX -> has_bit t (f_set f) = bool_decide (t ∈ omap fop_type ops)
}.

(** *** Arrays *)

Lemma elems_hold_zero {A} max (x : A * A) : elems_hold max (mk_elems 0 (replicate max x)) [].
Proof. split; [apply length_replicate|]. by rewrite take_nil. Qed.

Lemma elems_hold_push {A} max e x (l : list (A * A)) : Z.of_nat max < 2 ^ 32 ->
  elems_hold max e l -> elems_hold max (push (Z.of_nat max) x e) (l ++ [x]).
Proof.
  intros Hmax (Hlen & Hn & Hpre). unfold push. rewrite Hn in *. unfold zlen in *. rewrite length_take in *.
  destruct (Z.leb_spec (Z.of_nat max) (Z.of_nat (max `min` length l))) as [Hfull|Hroom].
  - assert (take max (l ++ [x]) = take max l) as E by (rewrite take_app_le by lia; done).
    unfold elems_hold, zlen. rewrite E. rewrite length_take. done.
  - assert (length l < max)%nat as Hl by lia. assert (max `min` length l = length l)%nat as E by lia.
    rewrite E in *. rewrite (take_ge l) in Hpre by lia.
    unfold elems_hold, zlen. cbn [e_len e_array]. rewrite length_insert, (take_ge (l ++ [x])) by (rewrite length_app; cbn; lia).
    rewrite length_app. cbn [length]. split; [done|]. split; [rewrite wrap_small; lia|].
    rewrite Nat2Z.id, Nat.add_1_r. rewrite (take_S_r _ _ x) by (apply list_lookup_insert_eq; lia).
    by rewrite take_insert_ge, Hpre by lia.
Qed.

(** *** Reading the arguments *)

Lemma val_bytes_run n bs w : n <= zlen bs -> val_bytes n (VBytes bs) w = Ok (slice 0 n bs, w).
Proof. intros H. unfold val_bytes. by rewrite (proj2 (Z.leb_le _ _)). Qed.

Lemma val_field_run o n bs w : 0 <= o -> o + Z.of_nat n <= zlen bs ->
  val_field o n (VBytes bs) w = Ok (le_dec (slice o (Z.of_nat n) bs), w).
Proof.
  intros Ho H. unfold val_field, bind. rewrite val_bytes_run by done. unfold ret.
  do 3 f_equal. unfold slice. rewrite skipn_firstn_comm, take_take, drop_0. f_equal. lia.
Qed.

Lemma val_pair_run o n a b w : o = Z.of_nat n -> 0 <= a < 2 ^ (8 * Z.of_nat n) -> 0 <= b < 2 ^ (8 * Z.of_nat n) ->
  val_field 0 n (VBytes (le_enc n a ++ le_enc n b)) w = Ok (a, w) /\
  val_field o n (VBytes (le_enc n a ++ le_enc n b)) w = Ok (b, w).
Proof.
  intros -> Ha Hb. rewrite !val_field_run by zl. unfold slice.
  rewrite !Nat2Z.id, drop_0, take_app_le, drop_app_ge by (rewrite length_le_enc; lia).
  rewrite length_le_enc, Nat.sub_diag, drop_0.
  rewrite !take_ge by (rewrite length_le_enc; lia).
  by rewrite !le_dec_enc_small.
Qed.

Lemma val_block_run a b w : length a = 16%nat -> length b = 16%nat ->
  val_block 0 16 (VBytes (a ++ b)) w = Ok (a, w) /\ val_block 16 16 (VBytes (a ++ b)) w = Ok (b, w).
Proof.
  intros Ha Hb. assert (zlen (a ++ b) = 32) as Hl by (unfold zlen; rewrite length_app; lia).
  unfold val_block, bind. rewrite !val_bytes_run by lia. unfold ret, slice. cbn [Z.to_nat Z.add Pos.to_nat].
  rewrite !drop_0. split.
  - rewrite take_take, take_app_le, take_ge by (cbn; lia). done.
  - do 2 f_equal. change (Pos.to_nat 16) with 16%nat. change (Z.to_nat 16) with 16%nat.
    rewrite (take_ge (a ++ b)) by (rewrite length_app; cbn; lia). rewrite drop_app_ge by lia.
    rewrite Ha, Nat.sub_diag, drop_0. by apply take_ge; lia.
Qed.

(** *** One call *)

(** A call of another kind leaves what was given to the calls of a kind. *)
Ltac hist := unfold l4protos, states, ipv4s, ipv6s, marks, logic_of, logics; rewrite ?omap_app; cbn [omap list_omap];
  rewrite ?app_nil_r.

(** The fields a call does not touch. *)
Ltac fields :=
  cbn [with_f_l4proto with_f_l4proto_state with_f_l3proto with_f_l3proto_ipv6 with_f_mark with_f_logic with_f_set
       f_logic f_l4proto_map f_l4proto_len f_l4proto_state f_l3proto f_l3proto_ipv6 f_mark f_set].
Ltac frame H := split; fields; try (intros; hist; by apply H).

Lemma hold_l4proto f ops p w : filter_data f ops -> 0 <= p < IPPROTO_MAX -> exists f',
  filter_attr_l4proto f (VBytes (le_enc 4 p)) w = Ok (f', w) /\ f_set f' = f_set f /\
  filter_data f' (ops ++ [AddL4proto p]).
Proof.
  intros H Hp. unfold IPPROTO_MAX in Hp. unfold filter_attr_l4proto. rewrite (fh_l4_len _ _ H).
  assert (l4protos (ops ++ [AddL4proto p]) = l4protos ops ++ [p]) as E by (unfold l4protos; by rewrite omap_app).
  destruct (Z.leb_spec __FILTER_L4PROTO_MAX (zlen (take 255 (l4protos ops)))) as [Hfull|Hroom];
    unfold __FILTER_L4PROTO_MAX, zlen in *; rewrite length_take in *.
  - exists f. split; [done|]. split; [done|].
    assert (take 255 (l4protos (ops ++ [AddL4proto p])) = take 255 (l4protos ops)) as Et
      by (rewrite E, take_app_le by lia; done).
    frame H; rewrite Et; apply H.
  - unfold bind, val_u. unfold bind. rewrite val_bytes_run by zl. unfold ret at 1.
    assert (le_dec (slice 0 (Z.of_nat 4) (le_enc 4 p)) = p) as ->.
    { change (Z.of_nat 4) with (zlen (le_enc 4 p)). rewrite slice_all. apply le_dec_enc_small. cbn. lia. }
    rewrite sint_small by lia.
    assert (bit_in_range p (f_l4proto_map f) = true) as Hr.
    { unfold bit_in_range, zlen. rewrite shiftr5, (fh_l4_words _ _ H). apply andb_true_iff.
      split; [apply Z.leb_le; lia|apply Z.ltb_lt, Z.div_lt_upper_bound; lia]. }
    unfold set_bit. rewrite Hr. eexists. split; [reflexivity|]. split; [done|].
    assert (take 255 (l4protos (ops ++ [AddL4proto p])) = l4protos ops ++ [p]) as Et
      by (rewrite E, take_ge by (rewrite length_app; cbn; lia); done).
    assert (take 255 (l4protos ops) = l4protos ops) as Et0 by (rewrite take_ge by lia; done).
    frame H; rewrite ?Et.
    + by rewrite length_set_bit, (fh_l4_words _ _ H).
    + unfold zlen. rewrite length_app. cbn [length]. rewrite wrap_small; lia.
    + intros q Hq. rewrite test_set_bit by (done || lia). rewrite (fh_l4 _ _ H), Et0 by done.
      destruct (Z.eqb_spec q p) as [->|Hne]; cbn [orb].
      * symmetry. apply bool_decide_eq_true, elem_of_app. right. by left.
      * apply bool_decide_ext. rewrite elem_of_app, list_elem_of_singleton. tauto.
Qed.

Lemma hold_state f ops p s w : filter_data f ops -> 0 <= p < IPPROTO_MAX -> 0 <= s < 16 -> exists f',
  filter_attr_l4proto_state f (VBytes (le_enc 2 p ++ le_enc 2 s)) w = Ok (f', w) /\ f_set f' = f_set f /\
  filter_data f' (ops ++ [AddState p s]).
Proof.
  intros H Hp Hs. unfold IPPROTO_MAX in Hp. unfold filter_attr_l4proto_state, bind.
  destruct (val_pair_run 2 2 p s w) as [-> ->]; [done|cbn; lia..|].
  destruct (fh_state _ _ H p) as (m & n & Hl & Hm & Hn); [done|]. rewrite Hl.
  rewrite (proj2 (Z.ltb_lt _ _)) by lia. eexists. split; [reflexivity|]. split; [done|].
  assert (states (ops ++ [AddState p s]) = states ops ++ [(p, s)]) as E by (unfold states; by rewrite omap_app).
  frame H. intros q Hq. rewrite E. destruct (decide (p = q)) as [<-|Hne].
  - rewrite list_lookup_insert_eq by by eapply lookup_lt_Some. eexists _, _. split; [reflexivity|]. split.
    + intros k Hk. unfold wrap. rewrite Z.mod_pow2_bits_low by lia. rewrite Z.lor_spec, Hm by done.
      change 15 with (Z.ones 4). rewrite Z.land_ones, (Z.mod_small s) by (cbn; lia).
      rewrite testbit_one_shiftl by lia. destruct (Z.eqb_spec k s) as [->|].
      * rewrite orb_true_r. symmetry. apply bool_decide_eq_true, elem_of_app. right. by left.
      * rewrite orb_false_r. apply bool_decide_ext. rewrite elem_of_app, list_elem_of_singleton. split; [by left|intros [?|Heq]; [done|congruence]].
    + rewrite filter_app, zlen_app. cbn -[wrap]. rewrite decide_True by done. rewrite Hn.
      unfold wrap. by rewrite Z.add_mod_idemp_l by done.
  - rewrite list_lookup_insert_ne by (unfold IPPROTO_MAX in *; lia).
    destruct (fh_state _ _ H q Hq) as (m' & n' & Hl' & Hm' & Hn'). exists m', n'. split; [done|]. split.
    + intros k Hk. rewrite Hm' by done. apply bool_decide_ext. rewrite elem_of_app, list_elem_of_singleton. split; [by left|intros [?|Heq]; [done|congruence]].
    + rewrite filter_app, zlen_app. cbn -[wrap]. rewrite decide_False by done. by rewrite Z.add_0_r.
Qed.

(** The arrays of a pair of directions. *)
Lemma dirs_hold {A} max (v : bool -> list fop -> list (A * A)) (arr : list (elems A)) ops o dst e x :
  (forall d, exists e, arr !! dir_idx d = Some e /\ elems_hold max e (v d ops)) ->
  arr !! dir_idx dst = Some e -> Z.of_nat max < 2 ^ 32 ->
  v dst (ops ++ [o]) = v dst ops ++ [x] -> v (negb dst) (ops ++ [o]) = v (negb dst) ops ->
  forall d, exists e', (<[dir_idx dst := push (Z.of_nat max) x e]> arr) !! dir_idx d = Some e' /\
                       elems_hold max e' (v d (ops ++ [o])).
Proof.
  intros H He Hmax E1 E2 d. destruct (decide (d = dst)) as [->|Hne].
  - rewrite list_lookup_insert_eq by by eapply lookup_lt_Some. eexists. split; [reflexivity|].
    rewrite E1. apply elems_hold_push; [done|]. destruct (H dst) as (e' & He' & ?). congruence.
  - rewrite list_lookup_insert_ne by by destruct d, dst.
    assert (d = negb dst) as -> by by destruct d, dst. destruct (H (negb dst)) as (e' & ? & ?).
    exists e'. by rewrite E2.
Qed.

(** Nothing is added to an array that is full. *)
Lemma push_full {A} max (x : A * A) e : max <= e_len e -> push max x e = e.
Proof. intros. unfold push. by rewrite (proj2 (Z.leb_le _ _)). Qed.

Lemma hold_ipv4 f ops dst a m w : filter_data f ops -> word32 a -> word32 m -> exists f',
  filter_attr_ipv4 (dir_idx dst) f (VBytes (le_enc 4 a ++ le_enc 4 m)) w = Ok (f', w) /\ f_set f' = f_set f /\
  filter_data f' (ops ++ [AddIpv4 dst a m]).
Proof.
  intros H Ha Hm. unfold filter_attr_ipv4. destruct (fh_ipv4 _ _ H dst) as (e & He & _). rewrite He.
  exists (with_f_l3proto (<[dir_idx dst := push __FILTER_ADDR_MAX (a, m) e]> (f_l3proto f)) f). split.
  - destruct (Z.leb_spec __FILTER_ADDR_MAX (e_len e)).
    + rewrite push_full by done. rewrite list_insert_id by done. by destruct f.
    + unfold bind. destruct (val_pair_run 4 4 a m w) as [-> ->]; done.
  - split; [done|]. frame H. eapply (dirs_hold 127); [apply H|done|done|..]; hist.
    + by rewrite eqb_reflx.
    + destruct dst; cbn; by rewrite app_nil_r.
Qed.

Lemma hold_ipv6 f ops dst a m w : filter_data f ops -> length a = 16%nat -> length m = 16%nat -> exists f',
  filter_attr_ipv6 (dir_idx dst) f (VBytes (a ++ m)) w = Ok (f', w) /\ f_set f' = f_set f /\
  filter_data f' (ops ++ [AddIpv6 dst a m]).
Proof.
  intros H Ha Hm. unfold filter_attr_ipv6. destruct (fh_ipv6 _ _ H dst) as (e & He & _). rewrite He.
  exists (with_f_l3proto_ipv6 (<[dir_idx dst := push __FILTER_IPV6_MAX (a, m) e]> (f_l3proto_ipv6 f)) f). split.
  - destruct (Z.leb_spec __FILTER_IPV6_MAX (e_len e)).
    + rewrite push_full by done. rewrite list_insert_id by done. by destruct f.
    + unfold bind. destruct (val_block_run a m w) as [-> ->]; done.
  - split; [done|]. frame H. eapply (dirs_hold 20); [apply H|done|done|..]; hist.
    + by rewrite eqb_reflx.
    + destruct dst; cbn; by rewrite app_nil_r.
Qed.

Lemma hold_mark f ops v m w : filter_data f ops -> word32 v -> word32 m -> exists f',
  filter_attr_mark f (VBytes (le_enc 4 v ++ le_enc 4 m)) w = Ok (f', w) /\ f_set f' = f_set f /\
  filter_data f' (ops ++ [AddMark v m]).
Proof.
  intros H Hv Hm. unfold filter_attr_mark.
  exists (with_f_mark (push __FILTER_MARK_MAX (v, m) (f_mark f)) f). split.
  - destruct (Z.leb_spec __FILTER_MARK_MAX (e_len (f_mark f))).
    + rewrite push_full by done. by destruct f.
    + unfold bind. destruct (val_pair_run 4 4 v m w) as [-> ->]; done.
  - split; [done|]. frame H. hist. apply (elems_hold_push 127); [done|apply H].
Qed.

Lemma logic_of_snoc t l q ops : logic_of q (ops ++ [SetLogic t l]) =
  if (t =? q) && (logic_of q ops =? 0) then l else logic_of q ops.
Proof.
  assert (Forall (fun y => y <> 0) (logics q ops)) as Hnz.
  { apply Forall_forall. intros y Hin. unfold logics in Hin. apply list_elem_of_omap in Hin as ([] & _ & Hin); try done.
    destruct (_ =? q); [|done]. destruct (Z.eqb_spec logic 0); [done|]. by injection Hin as <-. }
  assert (logics q (ops ++ [SetLogic t l]) =
    logics q ops ++ if (t =? q) && negb (l =? 0) then [l] else []) as E.
  { unfold logics. rewrite omap_app. cbn. by destruct (_ && _). }
  unfold logic_of. rewrite E. destruct (logics q ops) as [|y x]; cbn.
  - by destruct (t =? q), (Z.eqb_spec l 0); subst.
  - apply Forall_cons in Hnz as [Hy _]. rewrite (proj2 (Z.eqb_neq y 0)) by done. by rewrite andb_false_r.
Qed.

Lemma hold_logic f ops t l w : filter_holds f ops -> 0 <= t -> exists r f' w',
  nfct_filter_set_logic f t l w = Ok (r, f', w') /\ filter_holds f' (ops ++ [SetLogic t l]) /\
  w_mem w' = w_mem w /\ w_alloc w' = w_alloc w.
Proof.
  intros [H Hw Hs] Ht. assert (forall f', f_set f' = f_set f -> filter_data f' (ops ++ [SetLogic t l]) ->
    filter_holds f' (ops ++ [SetLogic t l])) as Hset.
  { intros f' E Hd. split; rewrite ?E; try done. intros q Hq. rewrite omap_app, app_nil_r. by apply Hs. }
  assert (forall q, logic_of q (ops ++ [SetLogic t l]) =
    if (t =? q) && (logic_of q ops =? 0) then l else logic_of q ops) as Hlog.
  { intros q. apply logic_of_snoc. }
  unfold nfct_filter_set_logic, NFCT_FILTER_MAX. destruct (Z.leb_spec 7 t) as [Hge|Hlt].
  - eexists _, f, _. split; [reflexivity|]. split; [|done]. apply Hset; [done|]. frame H.
    intros q Hq. rewrite Hlog. unfold NFCT_FILTER_MAX in Hq. rewrite (proj2 (Z.eqb_neq t q)) by lia. by apply H.
  - rewrite (fh_logic _ _ H) by (unfold NFCT_FILTER_MAX; lia).
    destruct (Z.eqb_spec (logic_of t ops) 0) as [E0|E0]; cbn [negb].
    + eexists _, _, w. split; [reflexivity|]. split; [|done]. apply Hset; [done|]. frame H.
      intros q Hq. rewrite Hlog. destruct (Z.eqb_spec t q) as [<-|Hne]; cbn [andb].
      * rewrite E0. cbn. apply list_lookup_insert_eq. eapply lookup_lt_Some, (fh_logic _ _ H). done.
      * rewrite list_lookup_insert_ne by lia. by apply H.
    + eexists _, f, _. split; [reflexivity|]. split; [|done]. apply Hset; [done|]. frame H.
      intros q Hq. rewrite Hlog. destruct (Z.eqb_spec t q) as [<-|Hne]; cbn [andb]; [|by apply H].
      rewrite (proj2 (Z.eqb_neq _ _)) by done. by apply H.
Qed.

(** Adding an attribute through the entry point. *)
Lemma hold_add f ops o type value w : filter_holds f ops ->
  fop_type o = Some type -> 0 <= type < NFCT_FILTER_MAX ->
  (exists f', filter_attr_array type f value w = Ok (f', w) /\ f_set f' = f_set f /\ filter_data f' (ops ++ [o])) ->
  exists f', nfct_filter_add_attr f type (Some value) w = Ok (f', w) /\ filter_holds f' (ops ++ [o]).
Proof.
  intros [_ Hw Hs] Ho Ht (f' & Hrun & Hset & Hd). unfold NFCT_FILTER_MAX in *. unfold nfct_filter_add_attr, NFCT_FILTER_MAX.
  rewrite (proj2 (Z.leb_gt _ _)) by lia. unfold bind. rewrite Hrun.
  assert (forall k, 0 <= k < 7 -> bit_in_range k (f_set f') = true) as Hr.
  { intros k Hk. unfold bit_in_range, zlen. rewrite shiftr5, Hset, Hw. apply andb_true_iff.
    split; [apply Z.leb_le; lia|apply Z.ltb_lt, Z.div_lt_upper_bound; lia]. }
  unfold set_bit. rewrite Hr by done. eexists. split; [reflexivity|].
  split; fields.
  - destruct Hd. by split.
  - by rewrite length_set_bit, Hset.
  - intros t Htr. unfold NFCT_FILTER_MAX in Htr. rewrite test_set_bit by (auto with lia).
    rewrite Hset, Hs by done. rewrite omap_app. cbn [omap list_omap]. rewrite Ho.
    destruct (Z.eqb_spec t type) as [->|Hne]; cbn [orb].
    + symmetry. apply bool_decide_eq_true, elem_of_app. right. by left.
    + apply bool_decide_ext. rewrite elem_of_app, list_elem_of_singleton. tauto.
Qed.

Lemma hold_step f ops o w : filter_holds f ops -> fop_ok o -> exists f' w',
  fop_run o f w = Ok (f', w') /\ filter_holds f' (ops ++ [o]) /\ w_mem w' = w_mem w /\ w_alloc w' = w_alloc w.
Proof.
  intros H Ho. pose proof (fh_data _ _ H) as Hd.
  assert (forall type value, fop_run o f = nfct_filter_add_attr f type (Some value) ->
    fop_type o = Some type -> 0 <= type < NFCT_FILTER_MAX ->
    (exists f', filter_attr_array type f value w = Ok (f', w) /\ f_set f' = f_set f /\ filter_data f' (ops ++ [o])) ->
    exists f' w', fop_run o f w = Ok (f', w') /\ filter_holds f' (ops ++ [o]) /\
                  w_mem w' = w_mem w /\ w_alloc w' = w_alloc w) as Hadd.
  { intros type value Hrun Ht Hr Hf. rewrite Hrun.
    destruct (hold_add f ops o type value w H Ht Hr Hf) as (f' & ? & ?). by exists f', w. }
  destruct o as [p|p s|dst a m|dst a m|v m|t l].
  - eapply Hadd; [reflexivity|done|done|]. by apply hold_l4proto.
  - destruct Ho. eapply Hadd; [reflexivity|done|done|]. by apply hold_state.
  - destruct Ho. eapply Hadd; [reflexivity|done|by destruct dst|].
    destruct dst; [by apply (hold_ipv4 f ops true)|by apply (hold_ipv4 f ops false)].
  - destruct Ho. eapply Hadd; [reflexivity|done|by destruct dst|].
    destruct dst; [by apply (hold_ipv6 f ops true)|by apply (hold_ipv6 f ops false)].
  - destruct Ho. eapply Hadd; [reflexivity|done|done|]. by apply hold_mark.
  - destruct (hold_logic f ops t l w H Ho) as (r & f' & w' & Hrun & ? & ? & ?). exists f', w'.
    cbn [fop_run]. unfold bind. by rewrite Hrun.
Qed.

Lemma zero_filter_holds : filter_holds zero_filter [].
Proof.
  split; [split| |]; try done.
  - intros p Hp. cbn [l4protos omap list_omap]. rewrite take_nil. apply test_bit_zeros.
  - intros p Hp. unfold IPPROTO_MAX in Hp. exists 0, 0. split; [apply lookup_replicate_2; lia|].
    split; [intros s _; by rewrite Z.bits_0|done].
  - intros d. eexists. split; [by destruct d|]. apply elems_hold_zero.
  - intros d. eexists. split; [by destruct d|]. apply elems_hold_zero.
  - intros t Ht. unfold NFCT_FILTER_MAX in Ht. change (f_logic zero_filter) with (replicate 7 0).
    rewrite lookup_replicate_2 by lia. done.
  - intros t Ht. change (f_set zero_filter) with (replicate 1 0). by rewrite test_bit_zeros.
Qed.

Lemma fops_holds ops : forall f done w, filter_holds f done -> Forall fop_ok ops -> exists f' w',
  fops_run ops f w = Ok (f', w') /\ filter_holds f' (done ++ ops).
Proof.
  induction ops as [|o ops IH]; intros f done w H Hops; cbn [fops_run].
  { exists f, w. by rewrite app_nil_r. }
  apply Forall_cons in Hops as [Ho Hops]. destruct (hold_step f done o w H Ho) as (f1 & w1 & Hrun & H1 & _).
  unfold bind. rewrite Hrun. destruct (IH f1 (done ++ [o]) w1 H1 Hops) as (f2 & w2 & ? & H2).
  exists f2, w2. by rewrite <- app_assoc in H2.
Qed.

(** A filter holds what it was given: after any sequence of calls on a new
    filter, with protocols and states the filter has room for, the address and
    mark arrays have the values that were added, in order, up to their capacity,
    the bit maps have exactly the protocols and states that were added (of the
    protocols the first 255), the logic of a type is the first one set, and the
    presence bits tell which kinds of attributes were added. *)
Theorem filter_history ops w : Forall fop_ok ops ->
  exists f w', fops_run ops zero_filter w = Ok (f, w') /\ filter_holds f ops.
Proof. intros Hops. apply (fops_holds ops zero_filter [] w zero_filter_holds Hops). Qed.

Lemma filter_history_witness :
  exists f w', fops_run [AddL4proto 6; AddIpv4 true 1 255; SetLogic 3 1; SetLogic 3 2] zero_filter
                 (mk_world [] 0 []) = Ok (f, w') /\
    f_logic f !! 3%nat = Some 1 /\ has_bit 6 (f_l4proto_map f) = true.
Proof.
  destruct (filter_history [AddL4proto 6; AddIpv4 true 1 255; SetLogic 3 1; SetLogic 3 2] (mk_world [] 0 []))
    as (f & w' & Hrun & [H _ _]).
  - repeat constructor; vm_compute; congruence.
  - exists f, w'. split; [exact Hrun|]. split.
    + refine (fh_logic _ _ H 3 _). split; vm_compute; congruence.
    + rewrite (fh_l4 _ _ H 6); [reflexivity|split; vm_compute; congruence].
Defined.

(** A protocol number of 256 or more makes the filter write past the end of
    its protocol map. *)
Theorem filter_l4proto_overrun f p w :
  length (f_l4proto_map f) = 8%nat -> f_l4proto_len f < __FILTER_L4PROTO_MAX -> IPPROTO_MAX <= p < 2 ^ 31 ->
  nfct_filter_add_attr_u32 f NFCT_FILTER_L4PROTO p w = Ub.
Proof.
  intros Hw Hl Hp. unfold IPPROTO_MAX in Hp. unfold nfct_filter_add_attr_u32, nfct_filter_add_attr.
  change (NFCT_FILTER_MAX <=? NFCT_FILTER_L4PROTO) with false. cbn iota.
  change (filter_attr_array NFCT_FILTER_L4PROTO) with filter_attr_l4proto. unfold filter_attr_l4proto, bind.
  rewrite (proj2 (Z.leb_gt _ _)) by done. unfold val_u, bind. rewrite val_bytes_run by zl.
  change (slice 0 (Z.of_nat 4) (le_enc 4 p)) with (le_enc 4 p). unfold ret at 1.
  rewrite le_dec_enc_small by (cbn; lia). rewrite sint_small by lia.
  unfold set_bit. assert (bit_in_range p (f_l4proto_map f) = false) as ->; [|done].
  unfold bit_in_range, zlen. rewrite shiftr5, Hw. apply andb_false_iff. right. apply Z.ltb_ge.
  apply Z.div_le_lower_bound; lia.
Qed.

Lemma filter_l4proto_overrun_witness :
  nfct_filter_add_attr_u32 zero_filter NFCT_FILTER_L4PROTO 256 (mk_world [] 0 []) = Ub.
Proof. apply (filter_l4proto_overrun zero_filter 256); [reflexivity|reflexivity|split; vm_compute; congruence]. Defined.
