(* ===== verification/HttpChar.v ===== *)
(** The tables, enumerations and character classes of src/http/http1/http_parser.c
    and http_parser.h, compiled with [HTTP_PARSER_STRICT] (the default), the byte
    step of the URL parser ([parse_url_char]) and that of the host parser
    ([http_parse_host_char]).

    A [char] is its byte, a number from 0 to 255.  The code compares characters
    with constants below 128 and casts them to [unsigned char] before it indexes
    a table, so that the sign of [char] does not matter there; [schar] is the
    signed value where the code computes with it. *)
From Stdlib Require Import Strings.Byte Strings.String Strings.Ascii.
From S2P Require Import Prelude.

(** * Character and string literals *)

Definition char_of_bytes (l : list Byte.byte) : option Z :=
  match l with [b] => Some (Z.of_N (Byte.to_N b)) | _ => None end.

Definition bytes_of_char (z : Z) : option (list Byte.byte) :=
  match Byte.of_N (Z.to_N z) with Some b => Some [b] | None => None end.

Declare Scope char_lit_scope.
Delimit Scope char_lit_scope with c.
String Notation Z char_of_bytes bytes_of_char : char_lit_scope.

(** The bytes of a C string, without its terminator. *)
Definition str (s : string) : list Z :=
  (fun a => Z.of_nat (nat_of_ascii a)) <$> list_ascii_of_string s.

(** Value of a byte as a [char]. *)
Definition schar (b : Z) : Z := sint 8 b.

(** Element [i] of a constant table; 0 past its last initialiser. *)
Definition tab (t : list Z) (i : Z) : Z := nth (Z.to_nat i) t 0.

(** Character [i] of a C string; 0 is the terminator. *)
Definition str_at (s : list Z) (i : Z) : Z := nth (Z.to_nat i) s 0.

(** * Tables *)

(** The 256 entries of [tokens]; the initialiser gives the first 128. *)
Definition tokens : list Z :=
  ([
    0; 0; 0; 0; 0; 0; 0; 0;
    0; 0; 0; 0; 0; 0; 0; 0;
    0; 0; 0; 0; 0; 0; 0; 0;
    0; 0; 0; 0; 0; 0; 0; 0;
    " "; "!"; 0; "#"; "$"; "%"; "&"; "'";
    0; 0; "*"; "+"; 0; "-"; "."; 0;
    "0"; "1"; "2"; "3"; "4"; "5"; "6"; "7";
    "8"; "9"; 0; 0; 0; 0; 0; 0;
    0; "a"; "b"; "c"; "d"; "e"; "f"; "g";
    "h"; "i"; "j"; "k"; "l"; "m"; "n"; "o";
    "p"; "q"; "r"; "s"; "t"; "u"; "v"; "w";
    "x"; "y"; "z"; 0; 0; 0; "^"; "_";
    "`"; "a"; "b"; "c"; "d"; "e"; "f"; "g";
    "h"; "i"; "j"; "k"; "l"; "m"; "n"; "o";
    "p"; "q"; "r"; "s"; "t"; "u"; "v"; "w";
    "x"; "y"; "z"; 0; "|"; 0; "~"; 0
  ])%c.

(** The 256 entries of [unhex]; the initialiser gives the first 128. *)
Definition unhex : list Z :=
  [
    -1; -1; -1; -1; -1; -1; -1; -1; -1; -1; -1; -1; -1; -1; -1; -1;
    -1; -1; -1; -1; -1; -1; -1; -1; -1; -1; -1; -1; -1; -1; -1; -1;
    -1; -1; -1; -1; -1; -1; -1; -1; -1; -1; -1; -1; -1; -1; -1; -1;
    0; 1; 2; 3; 4; 5; 6; 7; 8; 9; -1; -1; -1; -1; -1; -1;
    -1; 10; 11; 12; 13; 14; 15; -1; -1; -1; -1; -1; -1; -1; -1; -1;
    -1; -1; -1; -1; -1; -1; -1; -1; -1; -1; -1; -1; -1; -1; -1; -1;
    -1; 10; 11; 12; 13; 14; 15; -1; -1; -1; -1; -1; -1; -1; -1; -1;
    -1; -1; -1; -1; -1; -1; -1; -1; -1; -1; -1; -1; -1; -1; -1; -1
  ].

(** The 32 entries of [normal_url_char] in strict mode, the first 16 given. *)
Definition normal_url_char : list Z :=
  [
    0; 0; 0; 0; 246; 255; 255; 127;
    255; 255; 255; 255; 255; 255; 255; 127
  ].

(** * Enumerations *)

Inductive state : Type :=
  | s_dead | s_start_req_or_res | s_res_or_resp_H | s_start_res | s_res_H
  | s_res_HT | s_res_HTT | s_res_HTTP | s_res_http_major | s_res_http_dot
  | s_res_http_minor | s_res_http_end | s_res_first_status_code | s_res_status_code
  | s_res_status_start | s_res_status | s_res_line_almost_done | s_start_req
  | s_req_method | s_req_spaces_before_url | s_req_schema | s_req_schema_slash
  | s_req_schema_slash_slash | s_req_server_start | s_req_server
  | s_req_server_with_at | s_req_path | s_req_query_string_start
  | s_req_query_string | s_req_fragment_start | s_req_fragment | s_req_http_start
  | s_req_http_H | s_req_http_HT | s_req_http_HTT | s_req_http_HTTP | s_req_http_I
  | s_req_http_IC | s_req_http_major | s_req_http_dot | s_req_http_minor
  | s_req_http_end | s_req_line_almost_done | s_header_field_start | s_header_field
  | s_header_value_discard_ws | s_header_value_discard_ws_almost_done
  | s_header_value_discard_lws | s_header_value_start | s_header_value
  | s_header_value_lws | s_header_almost_done | s_chunk_size_start | s_chunk_size
  | s_chunk_parameters | s_chunk_size_almost_done | s_headers_almost_done
  | s_headers_done | s_chunk_data | s_chunk_data_almost_done | s_chunk_data_done
  | s_body_identity | s_body_identity_eof | s_message_done.

Definition state_num (s : state) : Z :=
  match s with
  | s_dead => 1 | s_start_req_or_res => 2 | s_res_or_resp_H => 3 | s_start_res => 4
  | s_res_H => 5 | s_res_HT => 6 | s_res_HTT => 7 | s_res_HTTP => 8
  | s_res_http_major => 9 | s_res_http_dot => 10 | s_res_http_minor => 11
  | s_res_http_end => 12 | s_res_first_status_code => 13 | s_res_status_code => 14
  | s_res_status_start => 15 | s_res_status => 16 | s_res_line_almost_done => 17
  | s_start_req => 18 | s_req_method => 19 | s_req_spaces_before_url => 20
  | s_req_schema => 21 | s_req_schema_slash => 22 | s_req_schema_slash_slash => 23
  | s_req_server_start => 24 | s_req_server => 25 | s_req_server_with_at => 26
  | s_req_path => 27 | s_req_query_string_start => 28 | s_req_query_string => 29
  | s_req_fragment_start => 30 | s_req_fragment => 31 | s_req_http_start => 32
  | s_req_http_H => 33 | s_req_http_HT => 34 | s_req_http_HTT => 35
  | s_req_http_HTTP => 36 | s_req_http_I => 37 | s_req_http_IC => 38
  | s_req_http_major => 39 | s_req_http_dot => 40 | s_req_http_minor => 41
  | s_req_http_end => 42 | s_req_line_almost_done => 43 | s_header_field_start => 44
  | s_header_field => 45 | s_header_value_discard_ws => 46
  | s_header_value_discard_ws_almost_done => 47 | s_header_value_discard_lws => 48
  | s_header_value_start => 49 | s_header_value => 50 | s_header_value_lws => 51
  | s_header_almost_done => 52 | s_chunk_size_start => 53 | s_chunk_size => 54
  | s_chunk_parameters => 55 | s_chunk_size_almost_done => 56
  | s_headers_almost_done => 57 | s_headers_done => 58 | s_chunk_data => 59
  | s_chunk_data_almost_done => 60 | s_chunk_data_done => 61 | s_body_identity => 62
  | s_body_identity_eof => 63 | s_message_done => 64
  end.

#[export] Instance state_eq_dec : EqDecision state.
Proof. solve_decision. Defined.

(** [PARSING_HEADER] *)
Definition PARSING_HEADER (s : state) : bool := state_num s <=? state_num s_headers_done.

Inductive header_states : Type :=
  | h_general | h_C | h_CO | h_CON | h_matching_connection
  | h_matching_proxy_connection | h_matching_content_length
  | h_matching_transfer_encoding | h_matching_upgrade | h_connection
  | h_content_length | h_content_length_num | h_content_length_ws
  | h_transfer_encoding | h_upgrade | h_matching_transfer_encoding_token_start
  | h_matching_transfer_encoding_chunked | h_matching_transfer_encoding_token
  | h_matching_connection_token_start | h_matching_connection_keep_alive
  | h_matching_connection_close | h_matching_connection_upgrade
  | h_matching_connection_token | h_transfer_encoding_chunked
  | h_connection_keep_alive | h_connection_close | h_connection_upgrade.

#[export] Instance header_states_eq_dec : EqDecision header_states.
Proof. solve_decision. Defined.

Inductive http_host_state : Type :=
  | s_http_host_dead | s_http_userinfo_start | s_http_userinfo | s_http_host_start
  | s_http_host_v6_start | s_http_host | s_http_host_v6 | s_http_host_v6_end
  | s_http_host_v6_zone_start | s_http_host_v6_zone | s_http_host_port_start
  | s_http_host_port.

#[export] Instance http_host_state_eq_dec : EqDecision http_host_state.
Proof. solve_decision. Defined.

Inductive http_parser_type : Type := HTTP_REQUEST | HTTP_RESPONSE | HTTP_BOTH.

#[export] Instance http_parser_type_eq_dec : EqDecision http_parser_type.
Proof. solve_decision. Defined.

Definition HTTP_DELETE : Z := 0.
Definition HTTP_GET : Z := 1.
Definition HTTP_HEAD : Z := 2.
Definition HTTP_POST : Z := 3.
Definition HTTP_PUT : Z := 4.
Definition HTTP_CONNECT : Z := 5.
Definition HTTP_OPTIONS : Z := 6.
Definition HTTP_TRACE : Z := 7.
Definition HTTP_COPY : Z := 8.
Definition HTTP_LOCK : Z := 9.
Definition HTTP_MKCOL : Z := 10.
Definition HTTP_MOVE : Z := 11.
Definition HTTP_PROPFIND : Z := 12.
Definition HTTP_PROPPATCH : Z := 13.
Definition HTTP_SEARCH : Z := 14.
Definition HTTP_UNLOCK : Z := 15.
Definition HTTP_BIND : Z := 16.
Definition HTTP_REBIND : Z := 17.
Definition HTTP_UNBIND : Z := 18.
Definition HTTP_ACL : Z := 19.
Definition HTTP_REPORT : Z := 20.
Definition HTTP_MKACTIVITY : Z := 21.
Definition HTTP_CHECKOUT : Z := 22.
Definition HTTP_MERGE : Z := 23.
Definition HTTP_MSEARCH : Z := 24.
Definition HTTP_NOTIFY : Z := 25.
Definition HTTP_SUBSCRIBE : Z := 26.
Definition HTTP_UNSUBSCRIBE : Z := 27.
Definition HTTP_PATCH : Z := 28.
Definition HTTP_PURGE : Z := 29.
Definition HTTP_MKCALENDAR : Z := 30.
Definition HTTP_LINK : Z := 31.
Definition HTTP_UNLINK : Z := 32.
Definition HTTP_SOURCE : Z := 33.

Definition method_strings : list (list Z) :=
  str <$> [
    "DELETE"; "GET"; "HEAD"; "POST"; "PUT"; "CONNECT";
    "OPTIONS"; "TRACE"; "COPY"; "LOCK"; "MKCOL"; "MOVE";
    "PROPFIND"; "PROPPATCH"; "SEARCH"; "UNLOCK"; "BIND"; "REBIND";
    "UNBIND"; "ACL"; "REPORT"; "MKACTIVITY"; "CHECKOUT"; "MERGE";
    "M-SEARCH"; "NOTIFY"; "SUBSCRIBE"; "UNSUBSCRIBE"; "PATCH"; "PURGE";
    "MKCALENDAR"; "LINK"; "UNLINK"; "SOURCE"
  ]%string.

Definition F_CHUNKED : Z := 1.
Definition F_CONNECTION_KEEP_ALIVE : Z := 2.
Definition F_CONNECTION_CLOSE : Z := 4.
Definition F_CONNECTION_UPGRADE : Z := 8.
Definition F_TRAILING : Z := 16.
Definition F_UPGRADE : Z := 32.
Definition F_SKIPBODY : Z := 64.
Definition F_CONTENTLENGTH : Z := 128.

Inductive http_errno : Type :=
  | HPE_OK | HPE_CB_message_begin | HPE_CB_url | HPE_CB_header_field
  | HPE_CB_header_value | HPE_CB_headers_complete | HPE_CB_body
  | HPE_CB_message_complete | HPE_CB_status | HPE_CB_chunk_header
  | HPE_CB_chunk_complete | HPE_INVALID_EOF_STATE | HPE_HEADER_OVERFLOW
  | HPE_CLOSED_CONNECTION | HPE_INVALID_VERSION | HPE_INVALID_STATUS
  | HPE_INVALID_METHOD | HPE_INVALID_URL | HPE_INVALID_HOST | HPE_INVALID_PORT
  | HPE_INVALID_PATH | HPE_INVALID_QUERY_STRING | HPE_INVALID_FRAGMENT
  | HPE_LF_EXPECTED | HPE_INVALID_HEADER_TOKEN | HPE_INVALID_CONTENT_LENGTH
  | HPE_UNEXPECTED_CONTENT_LENGTH | HPE_INVALID_CHUNK_SIZE | HPE_INVALID_CONSTANT
  | HPE_INVALID_INTERNAL_STATE | HPE_STRICT | HPE_PAUSED | HPE_UNKNOWN
  | HPE_INVALID_TRANSFER_ENCODING.

#[export] Instance http_errno_eq_dec : EqDecision http_errno.
Proof. solve_decision. Defined.

Definition ULLONG_MAX : Z := 2 ^ 64 - 1.

Definition PROXY_CONNECTION : list Z := str "proxy-connection".
Definition CONNECTION : list Z := str "connection".
Definition CONTENT_LENGTH : list Z := str "content-length".
Definition TRANSFER_ENCODING : list Z := str "transfer-encoding".
Definition UPGRADE : list Z := str "upgrade".
Definition CHUNKED : list Z := str "chunked".
Definition KEEP_ALIVE : list Z := str "keep-alive".
Definition CLOSE : list Z := str "close".

(** * Character classes *)

Section Classes.
Local Open Scope char_lit_scope.

Definition CR : Z := 13%Z.
Definition LF : Z := 10%Z.
Definition TAB : Z := 9%Z.
Definition FF : Z := 12%Z.

Definition LOWER (c : Z) : Z := Z.lor c 32%Z.
Definition IS_ALPHA (c : Z) : bool := ("a" <=? LOWER c) && (LOWER c <=? "z").
Definition IS_NUM (c : Z) : bool := ("0" <=? c) && (c <=? "9").
Definition IS_ALPHANUM (c : Z) : bool := IS_ALPHA c || IS_NUM c.
Definition IS_HEX (c : Z) : bool := IS_NUM c || ("a" <=? LOWER c) && (LOWER c <=? "f").
Definition IS_MARK (c : Z) : bool :=
  (c =? "-") || (c =? "_") || (c =? ".") || (c =? "!") || (c =? "~") || (c =? "*") ||
  (c =? "'") || (c =? "(") || (c =? ")").
Definition IS_USERINFO_CHAR (c : Z) : bool :=
  IS_ALPHANUM c || IS_MARK c || (c =? "%") || (c =? ";") || (c =? ":") || (c =? "&") ||
  (c =? "=") || (c =? "+") || (c =? "$") || (c =? ",").
Definition IS_SCHEMA_CHAR (c : Z) : bool :=
  IS_ALPHANUM c || (c =? ".") || (c =? "-") || (c =? "+").
Definition STRICT_TOKEN (c : Z) : Z := if c =? " " then 0 else tab tokens c.
Definition TOKEN (c : Z) : Z := STRICT_TOKEN c.
Definition BIT_AT (a : list Z) (i : Z) : bool :=
  negb (Z.land (tab a (Z.shiftr i 3)) (Z.shiftl 1 (Z.land i 7)) =? 0%Z).
Definition IS_URL_CHAR (c : Z) : bool := BIT_AT normal_url_char c.
Definition IS_HOST_CHAR (c : Z) : bool := IS_ALPHANUM c || (c =? ".") || (c =? "-").
Definition IS_HEADER_CHAR (ch : Z) : bool :=
  (ch =? CR) || (ch =? LF) || (ch =? TAB) || (31 <? ch)%Z && negb (ch =? 127)%Z.

(** * The URL state machine *)

Definition parse_url_char (s : state) (ch : Z) : state :=
  if (ch =? " ") || (ch =? CR) || (ch =? LF) then s_dead
  else if (ch =? TAB) || (ch =? FF) then s_dead
  else
    let server :=
      if ch =? "/" then s_req_path
      else if ch =? "?" then s_req_query_string_start
      else if ch =? "@" then s_req_server_with_at
      else if IS_USERINFO_CHAR ch || (ch =? "[") || (ch =? "]") then s_req_server
      else s_dead in
    match s with
    | s_req_spaces_before_url =>
        if (ch =? "/") || (ch =? "*") then s_req_path
        else if IS_ALPHA ch then s_req_schema
        else s_dead
    | s_req_schema =>
        if IS_SCHEMA_CHAR ch then s
        else if ch =? ":" then s_req_schema_slash
        else s_dead
    | s_req_schema_slash => if ch =? "/" then s_req_schema_slash_slash else s_dead
    | s_req_schema_slash_slash => if ch =? "/" then s_req_server_start else s_dead
    | s_req_server_with_at => if ch =? "@" then s_dead else server
    | s_req_server_start | s_req_server => server
    | s_req_path =>
        if IS_URL_CHAR ch then s
        else if ch =? "?" then s_req_query_string_start
        else if ch =? "#" then s_req_fragment_start
        else s_dead
    | s_req_query_string_start | s_req_query_string =>
        if IS_URL_CHAR ch then s_req_query_string
        else if ch =? "?" then s_req_query_string
        else if ch =? "#" then s_req_fragment_start
        else s_dead
    | s_req_fragment_start =>
        if IS_URL_CHAR ch then s_req_fragment
        else if ch =? "?" then s_req_fragment
        else if ch =? "#" then s
        else s_dead
    | s_req_fragment =>
        if IS_URL_CHAR ch then s
        else if (ch =? "?") || (ch =? "#") then s
        else s_dead
    | _ => s_dead
    end.

(** * The host state machine *)

Definition http_parse_host_char (s : http_host_state) (ch : Z) : http_host_state :=
  let port := if ch =? ":" then s_http_host_port_start else s_http_host_dead in
  let v6 :=
    if IS_HEX ch || (ch =? ":") || (ch =? ".") then s_http_host_v6
    else if bool_decide (s = s_http_host_v6) && (ch =? "%") then s_http_host_v6_zone_start
    else s_http_host_dead in
  let zone :=
    if IS_ALPHANUM ch || (ch =? "%") || (ch =? ".") || (ch =? "-") || (ch =? "_") ||
       (ch =? "~")
    then s_http_host_v6_zone else s_http_host_dead in
  match s with
  | s_http_userinfo | s_http_userinfo_start =>
      if ch =? "@" then s_http_host_start
      else if IS_USERINFO_CHAR ch then s_http_userinfo
      else s_http_host_dead
  | s_http_host_start =>
      if ch =? "[" then s_http_host_v6_start
      else if IS_HOST_CHAR ch then s_http_host
      else s_http_host_dead
  | s_http_host => if IS_HOST_CHAR ch then s_http_host else port
  | s_http_host_v6_end => port
  | s_http_host_v6 => if ch =? "]" then s_http_host_v6_end else v6
  | s_http_host_v6_start => v6
  | s_http_host_v6_zone => if ch =? "]" then s_http_host_v6_end else zone
  | s_http_host_v6_zone_start => zone
  | s_http_host_port | s_http_host_port_start =>
      if IS_NUM ch then s_http_host_port else s_http_host_dead
  | s_http_host_dead => s_http_host_dead
  end.

End Classes.

#[global] Arguments tab : simpl never.
#[global] Arguments method_strings : simpl never.
#[global] Arguments str_at : simpl never.
#[global] Arguments str : simpl never.
#[global] Arguments STRICT_TOKEN : simpl never.
#[global] Arguments IS_URL_CHAR : simpl never.
