(* ===== verification/HttpUrl.v ===== *)
(** The URL parser of src/http/http1/http_parser.c: [http_parse_host],
    [http_parser_url_init] and [http_parser_parse_url].

    A call returns [None] where the C code would fail an assertion or read
    outside of the buffer, and otherwise its value and the struct it leaves.
    The second part shows that this does not happen and that what the parser
    reports lies in the buffer. *)
From Stdlib Require Import Strings.String.
From S2P Require Import Prelude HttpChar.

Definition UF_SCHEMA : Z := 0.
Definition UF_HOST : Z := 1.
Definition UF_PORT : Z := 2.
Definition UF_PATH : Z := 3.
Definition UF_QUERY : Z := 4.
Definition UF_FRAGMENT : Z := 5.
Definition UF_USERINFO : Z := 6.
Definition UF_MAX : Z := 7.

(** One element of [field_data]: two [uint16_t]. *)
Record url_field := mk_field { off : Z; len : Z }.

Record http_parser_url := mk_url {
  field_set : Z;
  port : Z;
  field_data : list url_field
}.

Definition http_parser_url_init : http_parser_url :=
  mk_url 0 0 (replicate (Z.to_nat UF_MAX) (mk_field 0 0)).

(** ** Access to the fields *)

Definition field (u : http_parser_url) (uf : Z) : url_field :=
  nth (Z.to_nat uf) (field_data u) (mk_field 0 0).

Definition write_field (uf : Z) (f : url_field) (u : http_parser_url) : http_parser_url :=
  mk_url (field_set u) (port u) (<[Z.to_nat uf := f]> (field_data u)).

(** [u->field_data[uf].off = (uint16_t)(o)] *)
Definition set_off (uf o : Z) (u : http_parser_url) : http_parser_url :=
  write_field uf (mk_field (wrap 16 o) (len (field u uf))) u.

(** [u->field_data[uf].len = n] *)
Definition set_len (uf n : Z) (u : http_parser_url) : http_parser_url :=
  write_field uf (mk_field (off (field u uf)) (wrap 16 n)) u.

(** [u->field_data[uf].len++] *)
Definition incr_len (uf : Z) (u : http_parser_url) : http_parser_url :=
  set_len uf (len (field u uf) + 1) u.

(** [u->field_set |= (1 << uf)] *)
Definition set_field_bit (uf : Z) (u : http_parser_url) : http_parser_url :=
  mk_url (Z.lor (field_set u) (Z.shiftl 1 uf)) (port u) (field_data u).

(** [u->field_set & (1 << uf)] *)
Definition has_field (u : http_parser_url) (uf : Z) : bool :=
  negb (Z.land (field_set u) (Z.shiftl 1 uf) =? 0).

(** ** The host *)

(** The switch on the new state for the character at offset [p]. *)
Definition host_update (s new_s : http_host_state) (p : Z) (u : http_parser_url)
    : http_parser_url :=
  match new_s with
  | s_http_host =>
      incr_len UF_HOST (if decide (s = s_http_host) then u else set_off UF_HOST p u)
  | s_http_host_v6 =>
      incr_len UF_HOST (if decide (s = s_http_host_v6) then u else set_off UF_HOST p u)
  | s_http_host_v6_zone_start | s_http_host_v6_zone => incr_len UF_HOST u
  | s_http_host_port =>
      incr_len UF_PORT
        (if decide (s = s_http_host_port) then u
         else set_field_bit UF_PORT (set_len UF_PORT 0 (set_off UF_PORT p u)))
  | s_http_userinfo =>
      incr_len UF_USERINFO
        (if decide (s = s_http_userinfo) then u
         else set_field_bit UF_USERINFO (set_len UF_USERINFO 0 (set_off UF_USERINFO p u)))
  | _ => u
  end.

(** The loop over the characters [cs] of the host, the first at offset [p]. *)
Fixpoint host_loop (cs : list Z) (p : Z) (s : http_host_state) (u : http_parser_url)
    : option http_host_state * http_parser_url :=
  match cs with
  | [] => (Some s, u)
  | ch :: cs =>
      let new_s := http_parse_host_char s ch in
      match new_s with
      | s_http_host_dead => (None, u)
      | _ => host_loop cs (p + 1) new_s (host_update s new_s p u)
      end
  end.

(** The states in which the host must not end. *)
Definition host_unfinished (s : http_host_state) : bool :=
  match s with
  | s_http_host_start | s_http_host_v6_start | s_http_host_v6
  | s_http_host_v6_zone_start | s_http_host_v6_zone | s_http_host_port_start
  | s_http_userinfo | s_http_userinfo_start => true
  | _ => false
  end.

Definition http_parse_host (buf : list Z) (u : http_parser_url) (found_at : bool)
    : option (Z * http_parser_url) :=
  let start := off (field u UF_HOST) in
  let n := len (field u UF_HOST) in
  if negb (has_field u UF_HOST) then None
  else if negb (in_range start n buf) then None
  else
    let u := set_len UF_HOST 0 u in
    let s := if found_at then s_http_userinfo_start else s_http_host_start in
    match host_loop (slice start n buf) start s u with
    | (None, u) => Some (1, u)
    | (Some s, u) => Some (if host_unfinished s then 1 else 0, u)
    end.

(** ** The URL *)

(** What the first switch of the loop does with a state. *)
Inductive url_action :=
| UrlDead                  (* return 1 *)
| UrlSkip                  (* continue *)
| UrlField (uf : Z)        (* the field the character belongs to *)
| UrlUnexpected.           (* assert(false) *)

Definition url_state_action (s : state) : url_action :=
  match s with
  | s_dead => UrlDead
  | s_req_schema_slash | s_req_schema_slash_slash | s_req_server_start
  | s_req_query_string_start | s_req_fragment_start => UrlSkip
  | s_req_schema => UrlField UF_SCHEMA
  | s_req_server_with_at | s_req_server => UrlField UF_HOST
  | s_req_path => UrlField UF_PATH
  | s_req_query_string => UrlField UF_QUERY
  | s_req_fragment => UrlField UF_FRAGMENT
  | _ => UrlUnexpected
  end.

(** Local variables of the loop. *)
Record url_st := mk_url_st {
  us_state : state;
  us_old : Z;
  us_at : bool;
  us_url : http_parser_url
}.

(** A character of field [uf] at offset [p]. *)
Definition url_field_char (uf p : Z) (s : state) (x : url_st) : url_st :=
  let found_at := us_at x || bool_decide (s = s_req_server_with_at) in
  if uf =? us_old x then mk_url_st s (us_old x) found_at (incr_len uf (us_url x))
  else mk_url_st s uf found_at (set_field_bit uf (set_len uf 1 (set_off uf p (us_url x)))).

(** The loop over the characters [cs], the first at offset [p]. *)
Fixpoint url_loop (cs : list Z) (p : Z) (x : url_st)
    : option (bool * url_st) :=
  match cs with
  | [] => Some (true, x)
  | ch :: cs =>
      let s := parse_url_char (us_state x) ch in
      match url_state_action s with
      | UrlDead => Some (false, x)
      | UrlSkip => url_loop cs (p + 1) (mk_url_st s (us_old x) (us_at x) (us_url x))
      | UrlField uf => url_loop cs (p + 1) (url_field_char uf p s x)
      | UrlUnexpected => None
      end
  end.

(** The loop that converts the port; [v] is an [unsigned long]. *)
Fixpoint port_loop (cs : list Z) (v : Z) : option Z :=
  match cs with
  | [] => Some v
  | ch :: cs =>
      let v := wrap 64 (wrap 64 (v * 10) + (schar ch - 48)) in
      if 65535 <? v then None else port_loop cs v
  end.

Definition parse_port (buf : list Z) (u : http_parser_url) : option (Z * http_parser_url) :=
  let o := off (field u UF_PORT) in
  let n := len (field u UF_PORT) in
  if negb (o + n <=? zlen buf) then None
  else
    match port_loop (slice o n buf) 0 with
    | None => Some (1, u)
    | Some v => Some (0, mk_url (field_set u) (wrap 16 v) (field_data u))
    end.

(** The checks and conversions after the loop. *)
Definition url_finish (buf : list Z) (is_connect found_at : bool) (u : http_parser_url)
    : option (Z * http_parser_url) :=
  if has_field u UF_SCHEMA && negb (has_field u UF_HOST) then Some (1, u)
  else
    match (if has_field u UF_HOST then http_parse_host buf u found_at else Some (0, u)) with
    | None => None
    | Some (rc, u) =>
        if negb (rc =? 0) then Some (1, u)
        else if is_connect &&
                negb (field_set u =? Z.lor (Z.shiftl 1 UF_HOST) (Z.shiftl 1 UF_PORT))
        then Some (1, u)
        else if has_field u UF_PORT then parse_port buf u
        else Some (0, u)
    end.

Definition http_parser_parse_url (buf : list Z) (is_connect : bool) (u : http_parser_url)
    : option (Z * http_parser_url) :=
  if zlen buf =? 0 then Some (1, u)
  else
    let u := mk_url 0 0 (field_data u) in
    let s := if is_connect then s_req_server_start else s_req_spaces_before_url in
    match url_loop buf 0 (mk_url_st s UF_MAX false u) with
    | None => None
    | Some (false, x) => Some (1, us_url x)
    | Some (true, x) => url_finish buf is_connect (us_at x) (us_url x)
    end.

(** The bytes of a field. *)
Definition field_bytes (buf : list Z) (u : http_parser_url) (uf : Z) : list Z :=
  slice (off (field u uf)) (len (field u uf)) buf.

(** * Bounds of what the parser reports *)

(** ** Fields *)

Lemma has_field_testbit u uf : 0 <= uf -> has_field u uf = Z.testbit (field_set u) uf.
Proof.
  intros Huf. unfold has_field.
  destruct (Z.testbit (field_set u) uf) eqn:E.
  - apply negb_true_iff, Z.eqb_neq. intros H.
    assert (Z.testbit (Z.land (field_set u) (Z.shiftl 1 uf)) uf = true) as Ht.
    { rewrite Z.land_spec, E, Z.shiftl_1_l, Z.pow2_bits_true by lia. done. }
    by rewrite H, Z.bits_0 in Ht.
  - apply negb_false_iff, Z.eqb_eq, Z.bits_inj'. intros n Hn.
    rewrite Z.land_spec, Z.bits_0, Z.shiftl_1_l.
    destruct (decide (n = uf)) as [->|]; [by rewrite E |].
    rewrite Z.pow2_bits_false by lia. apply andb_false_r.
Qed.

Lemma has_field_set_bit u uf uf' :
  0 <= uf -> 0 <= uf' ->
  has_field (set_field_bit uf u) uf' = has_field u uf' || (uf =? uf').
Proof.
  intros. rewrite !has_field_testbit by lia. simpl.
  rewrite Z.lor_spec, Z.shiftl_1_l. f_equal.
  destruct (Z.eqb_spec uf uf') as [->|].
  - by apply Z.pow2_bits_true.
  - by apply Z.pow2_bits_false.
Qed.

Lemma field_put uf f u uf' :
  0 <= uf < zlen (field_data u) -> 0 <= uf' ->
  field (write_field uf f u) uf' = if uf =? uf' then f else field u uf'.
Proof.
  intros Hr Hr'. unfold field, write_field, zlen in *. simpl. rewrite !nth_lookup.
  destruct (Z.eqb_spec uf uf') as [->|].
  - rewrite list_lookup_insert_eq by lia. done.
  - rewrite list_lookup_insert_ne by lia. done.
Qed.

(** [fields_ok Q u]: the seven fields exist and those that are set satisfy [Q]. *)
Definition fields_ok (Q : url_field -> Prop) (u : http_parser_url) : Prop :=
  zlen (field_data u) = UF_MAX /\
  forall uf, 0 <= uf < UF_MAX -> has_field u uf = true -> Q (field u uf).

Lemma fields_ok_put Q uf f u :
  0 <= uf < UF_MAX -> fields_ok Q u -> Q f -> fields_ok Q (write_field uf f u).
Proof.
  intros Huf [Hl Ha] Hf. split.
  - unfold write_field, zlen in *. simpl. by rewrite length_insert.
  - intros uf' Huf' Hs. rewrite field_put by lia. case_match; [done |]. by apply Ha.
Qed.

Lemma fields_ok_set_bit Q uf u :
  0 <= uf < UF_MAX -> fields_ok Q u -> Q (field u uf) -> fields_ok Q (set_field_bit uf u).
Proof.
  intros Huf [Hl Ha] Hf. split; [done |]. intros uf' Huf' Hs.
  rewrite has_field_set_bit in Hs by lia.
  apply orb_true_iff in Hs as [Hs | ->%Z.eqb_eq]; [by apply Ha | done].
Qed.

(** Setting both members of a field. *)
Lemma set_len_set_off uf n o u :
  0 <= uf < zlen (field_data u) ->
  set_len uf n (set_off uf o u) = write_field uf (mk_field (wrap 16 o) (wrap 16 n)) u.
Proof.
  intros Hr. unfold set_len, set_off. rewrite field_put, Z.eqb_refl by lia.
  unfold write_field. simpl. by rewrite list_insert_insert_eq.
Qed.

(** A field of at least [m] bytes that ends at [n] at the latest. *)
Definition within (m n : Z) (f : url_field) : Prop :=
  0 <= off f /\ m <= len f /\ off f + len f <= n.

Lemma within_weaken m m' n n' f : m' <= m -> n <= n' -> within m n f -> within m' n' f.
Proof. unfold within. lia. Qed.

Lemma fields_ok_impl (Q Q' : url_field -> Prop) u :
  (forall f, Q f -> Q' f) -> fields_ok Q u -> fields_ok Q' u.
Proof. intros H [? Ha]. split; auto. Qed.

(** ** Bounds

    Offsets and lengths are 16-bit numbers.  In a buffer of [N] bytes they do
    not wrap when [N < 65536], and then no field that is set is empty; in a
    longer buffer they still describe bytes of the buffer. *)

Lemma wrap16_le z : 0 <= z -> 0 <= wrap 16 z <= z.
Proof.
  intros. unfold wrap. change (2 ^ 16) with 65536.
  split; [apply Z.mod_pos_bound; lia | apply Z.mod_le; lia].
Qed.

Lemma wrap16_small z : 0 <= z < 65536 -> wrap 16 z = z.
Proof. intros. by apply wrap_small. Qed.

Definition min_len (N : Z) : Z := if N <? 65536 then 1 else 0.

Lemma min_len_nonneg N : 0 <= min_len N.
Proof. unfold min_len. case_match; lia. Qed.

Section Bounds.
Context (N : Z).

Lemma within_new p : 0 <= p < N -> within (min_len N) (p + 1) (mk_field (wrap 16 p) (wrap 16 1)).
Proof.
  intros Hp. pose proof (wrap16_le p). unfold within, min_len. simpl.
  change (wrap 16 1) with 1. case_match; lia.
Qed.

Lemma within_grow p f :
  p < N -> within 0 p f ->
  within (min_len N) (p + 1) (mk_field (off f) (wrap 16 (len f + 1))).
Proof.
  intros Hp (? & ? & ?). pose proof (wrap16_le (len f + 1)).
  unfold within, min_len in *. simpl.
  destruct (Z.ltb_spec N 65536); [rewrite wrap16_small in * by lia |]; lia.
Qed.

(** *** The loop over the URL *)

Definition url_inv (p : Z) (x : url_st) : Prop :=
  fields_ok (within (min_len N) p) (us_url x) /\
  (us_old x = UF_MAX \/ 0 <= us_old x < UF_MAX /\ has_field (us_url x) (us_old x) = true).

Lemma url_state_action_cases s ch :
  url_state_action (parse_url_char s ch) <> UrlUnexpected /\
  (forall uf, url_state_action (parse_url_char s ch) = UrlField uf -> 0 <= uf < UF_MAX).
Proof.
  assert (forall s', url_state_action s' <> UrlUnexpected ->
    url_state_action s' <> UrlUnexpected /\
    (forall uf, url_state_action s' = UrlField uf -> 0 <= uf < UF_MAX)) as H.
  { intros s' Hs. split; [done |]. destruct s'; simpl; intros uf [= <-]; by vm_compute. }
  apply H. unfold parse_url_char. destruct s; repeat case_match; simpl; congruence.
Qed.

Lemma url_field_char_inv uf p s x :
  0 <= uf < UF_MAX -> 0 <= p < N -> url_inv p x -> url_inv (p + 1) (url_field_char uf p s x).
Proof.
  intros Huf Hp [Hf Ho]. unfold url_field_char. pose proof (proj1 Hf) as Hl.
  assert (fields_ok (within (min_len N) (p + 1)) (us_url x)) as Hf'
    by (eapply fields_ok_impl; [|exact Hf]; intros ?; apply within_weaken; lia).
  destruct (Z.eqb_spec uf (us_old x)) as [->|Hne].
  - destruct Ho as [Ho|[_ Ho]]; [lia |]. split; [| right; split; [done | exact Ho]].
    simpl. apply fields_ok_put; [done | done |].
    apply within_grow; [lia |]. eapply within_weaken, (proj2 Hf _ Huf Ho); [apply min_len_nonneg | lia].
  - simpl. rewrite set_len_set_off by lia. split.
    + apply fields_ok_set_bit; [done | |].
      * apply fields_ok_put; [done | done | by apply within_new].
      * rewrite field_put by lia. rewrite Z.eqb_refl.
        by apply within_new.
    + right. split; [done |]. simpl. rewrite has_field_set_bit, Z.eqb_refl by lia.
      apply orb_true_r.
Qed.

Lemma url_loop_inv cs p x :
  0 <= p -> p + zlen cs <= N -> url_inv p x ->
  exists ok x', url_loop cs p x = Some (ok, x') /\
    (ok = true -> url_inv (p + zlen cs) x').
Proof.
  revert p x. induction cs as [|ch cs IH]; intros p x Hp HN Hx; simpl.
  - exists true, x. split; [done |]. intros _. by rewrite zlen_nil, Z.add_0_r.
  - rewrite zlen_cons in *. pose proof (zlen_nonneg cs).
    destruct (url_state_action_cases (us_state x) ch) as [Hu Hf].
    replace (p + (1 + zlen cs)) with (p + 1 + zlen cs) by lia.
    case_match eqn:E; [by eexists _, _ | | | done].
    + apply IH; [lia | lia |]. destruct Hx as [Hx Ho]. split; [| done].
      eapply fields_ok_impl; [|exact Hx]. intros ?. apply within_weaken; lia.
    + apply IH; [lia | lia |]. apply url_field_char_inv; [by apply Hf | lia | done].
Qed.

(** *** The loop over the host *)

(** The transitions of the host state machine. *)
Definition host_edge (s s' : http_host_state) : bool :=
  match s, s' with
  | (s_http_userinfo | s_http_userinfo_start), (s_http_host_start | s_http_userinfo)
  | s_http_host_start, (s_http_host_v6_start | s_http_host)
  | s_http_host, (s_http_host | s_http_host_port_start)
  | s_http_host_v6_end, s_http_host_port_start
  | s_http_host_v6, (s_http_host_v6_end | s_http_host_v6 | s_http_host_v6_zone_start)
  | s_http_host_v6_start, s_http_host_v6
  | s_http_host_v6_zone, (s_http_host_v6_end | s_http_host_v6_zone)
  | s_http_host_v6_zone_start, s_http_host_v6_zone
  | (s_http_host_port | s_http_host_port_start), s_http_host_port => true
  | _, s_http_host_dead => true
  | _, _ => false
  end.

Lemma http_parse_host_char_edge s ch : host_edge s (http_parse_host_char s ch) = true.
Proof. unfold http_parse_host_char. destruct s; simpl; repeat case_match; done. Qed.

(** States before the first character of the host name. *)
Definition host_empty (s : http_host_state) : bool :=
  match s with
  | s_http_userinfo_start | s_http_userinfo | s_http_host_start | s_http_host_v6_start => true
  | _ => false
  end.

(** The fields that end at the current position at the latest. *)
Definition active (s : http_host_state) (uf : Z) : bool :=
  (uf =? UF_HOST) ||
  match s with
  | s_http_host_port => uf =? UF_PORT
  | s_http_userinfo => uf =? UF_USERINFO
  | _ => false
  end.

Definition host_field_ok (p : Z) (s : http_host_state) (uf : Z) : url_field -> Prop :=
  within (if (uf =? UF_HOST) && host_empty s then 0 else min_len N)
         (if active s uf then p else N).

Definition host_inv (p : Z) (s : http_host_state) (u : http_parser_url) : Prop :=
  zlen (field_data u) = UF_MAX /\
  (forall uf, 0 <= uf < UF_MAX -> has_field u uf = true ->
     host_field_ok p s uf (field u uf)) /\
  (forall uf, active s uf = true -> has_field u uf = true) /\
  (host_empty s = true -> len (field u UF_HOST) = 0).

(** Every update of the loop leaves [u] or replaces one field and sets its bit. *)
Definition host_put (uf : Z) (f : url_field) (u : http_parser_url) : http_parser_url :=
  set_field_bit uf (write_field uf f u).

Lemma host_put_inv p s s' uf f u :
  0 <= p < N -> 0 <= uf < UF_MAX -> host_inv p s u ->
  (host_empty s' = true -> host_empty s = true /\ uf <> UF_HOST) ->
  (host_empty s = true -> host_empty s' = true \/ uf = UF_HOST) ->
  (forall uf', active s' uf' = true -> uf' = UF_HOST \/ uf' = uf) ->
  within (min_len N) (p + 1) f ->
  host_inv (p + 1) s' (host_put uf f u).
Proof.
  intros Hp Huf (Hl & Hf & Ha & He) Hem Hem' Hac Hw. pose proof (min_len_nonneg N).
  assert (zlen (field_data (host_put uf f u)) = UF_MAX) as Hl'.
  { unfold host_put, write_field, zlen in *. simpl. by rewrite length_insert. }
  unfold host_put. split_and!; [done | | |].
  - intros uf' Huf' Hs. unfold host_field_ok.
    change (field (set_field_bit uf (write_field uf f u)) uf') with (field (write_field uf f u) uf').
    rewrite field_put by lia. destruct (Z.eqb_spec uf uf') as [->|Hne].
    + eapply within_weaken; [| | exact Hw]; repeat case_match; lia.
    + rewrite has_field_set_bit in Hs by lia.
      apply orb_true_iff in Hs as [Hs|?%Z.eqb_eq]; [| done].
      eapply within_weaken; [| | apply Hf; [done | exact Hs]].
      * destruct (Z.eqb_spec uf' UF_HOST); simpl; [| lia].
        destruct (host_empty s) eqn:E, (host_empty s') eqn:E'; lia.
      * destruct (active s' uf') eqn:Es'; [| case_match; lia].
        destruct (Hac uf' Es') as [->|]; [simpl; lia | lia].
  - intros uf' Hact. rewrite has_field_set_bit; [| lia |].
    + destruct (Hac uf' Hact) as [-> | ->]; [| rewrite Z.eqb_refl; apply orb_true_r].
      assert (has_field (write_field uf f u) UF_HOST = true) as -> by exact (Ha UF_HOST eq_refl).
      done.
    + destruct (Hac uf' Hact) as [-> | ->]; [done | lia].
  - intros He'. destruct (Hem He') as [He1 Hne].
    change (field (set_field_bit uf (write_field uf f u)) UF_HOST) with (field (write_field uf f u) UF_HOST).
    rewrite field_put by (unfold UF_HOST; lia).
    destruct (Z.eqb_spec uf UF_HOST); [done |]. auto.
Qed.

Lemma host_skip_inv p s s' u :
  0 <= p < N -> host_inv p s u ->
  host_empty s' = host_empty s -> (forall uf, active s' uf = (uf =? UF_HOST)) ->
  host_inv (p + 1) s' u.
Proof.
  intros Hp (Hl & Hf & Ha & He) Hem Hac. split_and!; [done | | |].
  - intros uf Huf Hs. unfold host_field_ok in *. rewrite Hem, Hac.
    eapply within_weaken; [| | by apply Hf]; [done |].
    unfold active. destruct (Z.eqb_spec uf UF_HOST); simpl; repeat case_match; lia.
  - intros uf. rewrite Hac. intros ->%Z.eqb_eq. by apply Ha.
  - rewrite Hem. apply He.
Qed.

Lemma incr_len_set_off uf p u :
  0 <= uf < zlen (field_data u) -> len (field u uf) = 0 ->
  incr_len uf (set_off uf p u) = write_field uf (mk_field (wrap 16 p) (wrap 16 1)) u.
Proof.
  intros Huf H0. unfold incr_len. rewrite set_len_set_off by done.
  unfold set_off. rewrite field_put, Z.eqb_refl by lia. simpl. by rewrite H0.
Qed.

Lemma incr_len_new uf p u :
  0 <= uf < zlen (field_data u) ->
  incr_len uf (set_field_bit uf (set_len uf 0 (set_off uf p u))) =
  host_put uf (mk_field (wrap 16 p) (wrap 16 1)) u.
Proof.
  intros Huf. rewrite set_len_set_off by done. unfold incr_len, set_len, host_put.
  change (field (set_field_bit uf ?v) uf) with (field v uf).
  rewrite !field_put, Z.eqb_refl by lia. simpl.
  unfold set_field_bit, write_field. simpl. by rewrite list_insert_insert_eq.
Qed.

Lemma put_field_host_put uf f u :
  0 <= uf -> has_field u uf = true -> write_field uf f u = host_put uf f u.
Proof.
  intros Huf Hs. unfold host_put, set_field_bit, write_field. simpl. f_equal.
  rewrite has_field_testbit in Hs by lia. apply Z.bits_inj'. intros n Hn.
  rewrite Z.lor_spec, Z.shiftl_1_l. destruct (decide (n = uf)) as [->|].
  - by rewrite Hs.
  - rewrite Z.pow2_bits_false by lia. by rewrite orb_false_r.
Qed.

(** What the switch does: nothing, a longer field, or a new one. *)
Lemma host_update_cases p s s' u :
  host_inv p s u -> host_edge s s' = true -> s' <> s_http_host_dead ->
  (host_update s s' p u = u /\ host_empty s' = host_empty s /\
   forall uf, active s' uf = (uf =? UF_HOST)) \/
  exists uf f, host_update s s' p u = host_put uf f u /\ 0 <= uf < UF_MAX /\
    (host_empty s' = true -> host_empty s = true /\ uf <> UF_HOST) /\
    (host_empty s = true -> host_empty s' = true \/ uf = UF_HOST) /\
    (forall uf', active s' uf' = true -> uf' = UF_HOST \/ uf' = uf) /\
    (f = mk_field (wrap 16 p) (wrap 16 1) \/
     active s uf = true /\
     f = mk_field (off (field u uf)) (wrap 16 (len (field u uf) + 1))).
Proof.
  intros (Hl & Hf & Ha & He) Hedge Hd. change UF_MAX with 7 in *.
  assert (has_field u UF_HOST = true) as Hh by (apply Ha; done).
  destruct s, s'; try discriminate Hedge; try done; cbn [host_update];
    rewrite ?decide_True, ?decide_False by done;
    try (left; split_and!; [done | done | intros; apply orb_false_r]);
    right; eexists _, _;
    (split; [first
      [ rewrite incr_len_set_off, put_field_host_put by first [done | by apply He | unfold UF_HOST; lia]; reflexivity
      | rewrite incr_len_new by (unfold UF_PORT, UF_USERINFO; lia); reflexivity
      | unfold incr_len, set_len; rewrite put_field_host_put by first [done | by apply Ha]; reflexivity] |]).
  all: split_and!; try (unfold UF_HOST, UF_PORT, UF_USERINFO; lia); try done.
  all: try (unfold active; intros ? [?%Z.eqb_eq|?%Z.eqb_eq]%orb_true_iff; auto; done).
  all: try (unfold active; intros ? [?%Z.eqb_eq|?]%orb_true_iff; auto; done).
  all: try (by left). all: try (by right).
Qed.

Lemma host_update_step p s s' u :
  0 <= p < N -> host_inv p s u -> host_edge s s' = true -> s' <> s_http_host_dead ->
  host_inv (p + 1) s' (host_update s s' p u).
Proof.
  intros Hp Hi Hedge Hd.
  destruct (host_update_cases p s s' u Hi Hedge Hd)
    as [(-> & ? & ?) | (uf & f & -> & ? & ? & ? & ? & Hcase)].
  - by apply host_skip_inv with s.
  - apply host_put_inv with s; try done. destruct Hcase as [-> | [Hact ->]].
    + by apply within_new.
    + apply within_grow; [lia |]. destruct Hi as (_ & Hf & Ha & _).
      specialize (Hf uf ltac:(done) (Ha uf Hact)). unfold host_field_ok in Hf.
      rewrite Hact in Hf. pose proof (min_len_nonneg N).
      eapply within_weaken; [| | exact Hf]; [case_match; lia | lia].
Qed.

Lemma host_loop_inv cs p s u :
  0 <= p -> p + zlen cs <= N -> host_inv p s u -> s <> s_http_host_dead ->
  (exists u', host_loop cs p s u = (None, u')) \/
  exists s' u', host_loop cs p s u = (Some s', u') /\ host_inv (p + zlen cs) s' u' /\
    s' <> s_http_host_dead.
Proof.
  revert p s u. induction cs as [|ch cs IH]; intros p s u Hp HN Hi Hs; simpl.
  - right. exists s, u. by rewrite zlen_nil, Z.add_0_r.
  - rewrite zlen_cons in *. pose proof (zlen_nonneg cs).
    replace (p + (1 + zlen cs)) with (p + 1 + zlen cs) by lia.
    pose proof (http_parse_host_char_edge s ch) as Hedge.
    destruct (http_parse_host_char s ch) eqn:E; try (left; by eexists);
      (apply IH; [lia | lia | | done]); apply host_update_step; done || lia.
Qed.

Lemma http_parse_host_ok buf u at_ :
  N = zlen buf -> has_field u UF_HOST = true -> fields_ok (within (min_len N) N) u ->
  exists rc u', http_parse_host buf u at_ = Some (rc, u') /\
    (rc = 0 -> fields_ok (within (min_len N) N) u').
Proof.
  intros HN Hh Hf. pose proof (min_len_nonneg N) as Hm.
  pose proof (proj2 Hf UF_HOST ltac:(done) Hh) as (Ho & Hn & He).
  unfold http_parse_host. rewrite Hh. simpl negb.
  rewrite (proj2 (in_range_true _ _ buf)) by lia. simpl negb. cbv iota.
  set (start := off (field u UF_HOST)) in *. set (n := len (field u UF_HOST)) in *.
  set (s := if at_ then _ else _). set (u0 := set_len UF_HOST 0 u).
  assert (zlen (field_data u) = UF_MAX) as Hl by apply Hf.
  assert (host_empty s = true /\ s <> s_http_host_dead /\
          forall uf, active s uf = (uf =? UF_HOST)) as (Hs & Hsd & Hsa).
  { subst s. destruct at_; split_and!; try done; intros; apply orb_false_r. }
  assert (field u0 UF_HOST = mk_field start 0) as Hfh.
  { unfold u0, set_len. rewrite field_put by (unfold UF_HOST, UF_MAX in *; lia). done. }
  assert (host_inv start s u0) as Hi.
  { split_and!.
    - unfold u0, set_len, write_field, zlen in *. simpl. by rewrite length_insert.
    - intros uf Huf Hset. unfold host_field_ok. rewrite Hs, Hsa.
      destruct (Z.eqb_spec uf UF_HOST) as [->|Hne]; simpl.
      + rewrite Hfh. unfold within. simpl. lia.
      + unfold u0, set_len. rewrite field_put by (unfold UF_HOST, UF_MAX in *; lia).
        rewrite (proj2 (Z.eqb_neq UF_HOST uf)) by done. by apply Hf.
    - intros uf. rewrite Hsa. by intros ->%Z.eqb_eq.
    - by rewrite Hfh. }
  assert (zlen (slice start n buf) = n) as Hsl by (apply zlen_slice; lia).
  destruct (host_loop_inv (slice start n buf) start s u0) as [(u' & ->)|(s' & u' & -> & Hi' & Hd)];
    [lia | lia | done | done | by eexists _, _ |].
  eexists _, _. split; [done |]. intros Hrc. destruct (host_unfinished s') eqn:E; [done |].
  destruct Hi' as (? & Hf' & _ & _). split; [done |]. intros uf Huf Hset.
  specialize (Hf' uf Huf Hset). unfold host_field_ok in Hf'.
  assert (host_empty s' = false) as He' by (destruct s'; done).
  rewrite He', andb_false_r in Hf'.
  eapply within_weaken; [| | exact Hf']; [done | case_match; lia].
Qed.

Lemma url_finish_ok buf c at_ u :
  N = zlen buf -> fields_ok (within (min_len N) N) u ->
  exists rc u', url_finish buf c at_ u = Some (rc, u') /\ (rc = 0 \/ rc = 1) /\
    (rc = 0 -> fields_ok (within (min_len N) N) u' /\
      (c = true -> field_set u' = Z.lor (Z.shiftl 1 UF_HOST) (Z.shiftl 1 UF_PORT))).
Proof.
  intros HN Hf. unfold url_finish.
  destruct (has_field u UF_SCHEMA && negb (has_field u UF_HOST)).
  { eexists _, _. split_and!; [done | by right | done]. }
  assert (exists rc u', (if has_field u UF_HOST then http_parse_host buf u at_
    else Some (0, u)) = Some (rc, u') /\
    (rc = 0 -> fields_ok (within (min_len N) N) u')) as (rc & u' & -> & Hf').
  { destruct (has_field u UF_HOST) eqn:Hh; [by apply http_parse_host_ok |]. by eexists _, _. }
  destruct (Z.eqb_spec rc 0) as [->|]; simpl; [| by eexists _, _; split_and!; [| right |]].
  specialize (Hf' eq_refl).
  destruct (c && negb (field_set u' =? _)) eqn:Hc; [by eexists _, _; split_and!; [| right |] |].
  assert (c = true -> field_set u' = Z.lor (Z.shiftl 1 UF_HOST) (Z.shiftl 1 UF_PORT)) as Hc'.
  { intros ->. simpl in Hc. by apply negb_false_iff, Z.eqb_eq in Hc. }
  destruct (has_field u' UF_PORT) eqn:Hp; [| by eexists _, _; split_and!; [| left |]].
  unfold parse_port. destruct (proj2 Hf' UF_PORT ltac:(done) Hp) as (_ & _ & ?).
  rewrite (proj2 (Z.leb_le _ _)) by lia. simpl.
  destruct (port_loop _ 0); eexists _, _; split_and!; eauto; done.
Qed.

End Bounds.

(** C40: on every buffer the URL parser returns: it fails no assertion and reads
    no byte outside of the buffer.  When it reports success, every field it sets
    lies inside of the buffer and, in a buffer shorter than 64 KiB, is not empty;
    a CONNECT target has exactly a host and a port. *)
Theorem http_parser_parse_url_bounds (buf : list Z) (is_connect : bool) (u : http_parser_url) :
  zlen (field_data u) = UF_MAX ->
  exists rc u', http_parser_parse_url buf is_connect u = Some (rc, u') /\ (rc = 0 \/ rc = 1) /\
    (rc = 0 ->
      (forall uf, 0 <= uf < UF_MAX -> has_field u' uf = true ->
         0 <= off (field u' uf) /\ 0 <= len (field u' uf) /\
         off (field u' uf) + len (field u' uf) <= zlen buf /\
         (zlen buf < 65536 -> 0 < len (field u' uf))) /\
      (is_connect = true -> field_set u' = Z.lor (Z.shiftl 1 UF_HOST) (Z.shiftl 1 UF_PORT))).
Proof.
  intros Hl. unfold http_parser_parse_url.
  destruct (Z.eqb_spec (zlen buf) 0); [by eexists _, _; split_and!; [| right |] |].
  set (x := mk_url_st _ _ _ _).
  destruct (url_loop_inv (zlen buf) buf 0 x) as (ok & x' & -> & Hx);
    [done | lia | split; [split; [done | intros uf Huf; by rewrite has_field_testbit, Z.bits_0 by lia] | by left] |].
  destruct ok; [| by eexists _, _; split_and!; [| right |]].
  destruct (url_finish_ok (zlen buf) buf is_connect (us_at x') (us_url x'))
    as (rc & u' & -> & Hrc & Hok); [done | by apply Hx |].
  eexists _, _. split_and!; [done | done |]. intros H0. destruct (Hok H0) as [[_ Hf] Hc].
  split; [| done]. intros uf Huf Hset. specialize (Hf uf Huf Hset) as (? & Hlen & ?).
  pose proof (min_len_nonneg (zlen buf)). split_and!; [done | lia | done |].
  intros Hsmall. unfold min_len in Hlen. rewrite (proj2 (Z.ltb_lt _ _)) in Hlen by done. lia.
Qed.

Definition url_example : list Z := str "http://me:pw@[fe80::1%eth0]:8080/a?x=1#f".

Lemma http_parser_parse_url_bounds_witness :
  zlen (field_data http_parser_url_init) = UF_MAX /\
  exists rc u', http_parser_parse_url url_example false http_parser_url_init = Some (rc, u') /\
    (rc = 0 \/ rc = 1).
Proof.
  split; [reflexivity |].
  destruct (http_parser_parse_url_bounds url_example false http_parser_url_init eq_refl)
    as (rc & u' & H & H' & _). exists rc, u'. exact (conj H H').
Defined.

(** Offsets and lengths are stored in 16 bits without a check: a URL whose path
    is 65536 bytes long is accepted with an empty path. *)
Theorem http_parser_parse_url_truncates :
  exists u,
    http_parser_parse_url (str "/" ++ replicate (Z.to_nat 65535) 97) false http_parser_url_init = Some (0, u) /\
    has_field u UF_PATH = true /\ field u UF_PATH = mk_field 0 0.
Proof. eexists. vm_compute. split; [reflexivity |]. split; reflexivity. Qed.
