(* ===== verification/HttpUrlRoundTrip.v ===== *)
(** Printing a URL from its parts and parsing it gives the parts back. *)
From Stdlib Require Import Strings.String.
From stdpp Require Import functions.
From S2P Require Import Prelude HttpChar HttpUrl.

(** * The parts of an absolute URL *)

Inductive host_part :=
| HostName (h : list Z)    (* a name or an IPv4 address *)
| HostV6 (h : list Z).     (* an IPv6 address, printed in brackets *)

Record url_parts := mk_parts {
  up_schema : list Z;
  up_userinfo : option (list Z);
  up_host : host_part;
  up_port : option (list Z);
  up_path : list Z;
  up_query : option (list Z);
  up_fragment : option (list Z)
}.

Definition host_value (h : host_part) : list Z :=
  match h with HostName h | HostV6 h => h end.

Definition host_text (h : host_part) : list Z :=
  match h with HostName h => h | HostV6 h => str "[" ++ h ++ str "]" end.

(** An optional part with the delimiter before it. *)
Definition opt_before (d : string) (o : option (list Z)) : list Z :=
  match o with None => [] | Some x => str d ++ x end.

Definition opt_after (o : option (list Z)) (d : string) : list Z :=
  match o with None => [] | Some x => x ++ str d end.

Definition server_text (u : url_parts) : list Z :=
  opt_after (up_userinfo u) "@" ++ host_text (up_host u) ++ opt_before ":" (up_port u).

Definition print_url (u : url_parts) : list Z :=
  up_schema u ++ str "://" ++ server_text u ++ up_path u ++
  opt_before "?" (up_query u) ++ opt_before "#" (up_fragment u).

Definition nonempty_all (P : Z -> bool) (l : list Z) : bool :=
  match l with [] => false | _ => forallb P l end.

Definition opt_all (P : Z -> bool) (o : option (list Z)) : bool :=
  match o with None => true | Some l => nonempty_all P l end.

Definition port_value (ds : list Z) : Z := fold_left (fun v c => v * 10 + (c - 48)) ds 0.

Definition is_query_char (c : Z) : bool := IS_URL_CHAR c || (c =? "?")%c.
Definition is_v6_char (c : Z) : bool := IS_HEX c || (c =? ":")%c || (c =? ".")%c.

(** Which parts make a URL. *)
Definition url_parts_ok (u : url_parts) : bool :=
  nonempty_all IS_SCHEMA_CHAR (up_schema u) &&
  match up_schema u with a :: _ => IS_ALPHA a | [] => false end &&
  opt_all IS_USERINFO_CHAR (up_userinfo u) &&
  match up_host u with
  | HostName h => nonempty_all IS_HOST_CHAR h
  | HostV6 h => nonempty_all is_v6_char h
  end &&
  opt_all IS_NUM (up_port u) &&
  match up_port u with None => true | Some ds => port_value ds <=? 65535 end &&
  match up_path u with c :: cs => (c =? "/")%c && forallb IS_URL_CHAR cs | [] => false end &&
  opt_all is_query_char (up_query u) &&
  opt_all is_query_char (up_fragment u).

(** The bytes of each field. *)
Definition part (u : url_parts) (uf : Z) : option (list Z) :=
  if uf =? UF_SCHEMA then Some (up_schema u)
  else if uf =? UF_HOST then Some (host_value (up_host u))
  else if uf =? UF_PORT then up_port u
  else if uf =? UF_PATH then Some (up_path u)
  else if uf =? UF_QUERY then up_query u
  else if uf =? UF_FRAGMENT then up_fragment u
  else if uf =? UF_USERINFO then up_userinfo u
  else None.

(** * What a struct says about the buffer *)

(** [spells buf u g]: field [uf] of [u] is set exactly when [g uf] is given, and
    then designates an occurrence of these bytes in [buf]. *)
Definition spells (buf : list Z) (u : http_parser_url) (g : Z -> option (list Z)) : Prop :=
  zlen (field_data u) = UF_MAX /\
  forall uf, 0 <= uf < UF_MAX ->
    match g uf with
    | None => has_field u uf = false
    | Some bs => has_field u uf = true /\
        exists pre post, buf = pre ++ bs ++ post /\ field u uf = mk_field (zlen pre) (zlen bs)
    end.

Lemma host_put_field uf f u uf' :
  0 <= uf < zlen (field_data u) -> 0 <= uf' ->
  field (host_put uf f u) uf' = if uf =? uf' then f else field u uf'.
Proof. apply field_put. Qed.

Lemma has_field_host_put uf f u uf' :
  0 <= uf -> 0 <= uf' -> has_field (host_put uf f u) uf' = has_field u uf' || (uf =? uf').
Proof. intros. unfold host_put. by rewrite has_field_set_bit. Qed.

Lemma zlen_host_put uf f u : zlen (field_data (host_put uf f u)) = zlen (field_data u).
Proof. unfold host_put, write_field, zlen. simpl. by rewrite length_insert. Qed.

Lemma spells_put buf u g uf pre bs post :
  spells buf u g -> 0 <= uf < UF_MAX -> zlen buf < 65536 -> buf = pre ++ bs ++ post ->
  spells buf (host_put uf (mk_field (wrap 16 (zlen pre)) (wrap 16 (zlen bs))) u)
    (<[uf := Some bs]> g).
Proof.
  intros [Hl Hg] Huf Hn Hb.
  assert (zlen pre < 65536 /\ zlen bs < 65536) as [].
  { rewrite Hb in Hn. zl. pose proof (zlen_nonneg pre). pose proof (zlen_nonneg bs).
    pose proof (zlen_nonneg post). lia. }
  pose proof (zlen_nonneg pre). pose proof (zlen_nonneg bs).
  rewrite !wrap16_small by lia. split; [by rewrite zlen_host_put |]. intros uf' Huf'.
  rewrite host_put_field, has_field_host_put by lia.
  destruct (Z.eqb_spec uf uf') as [<-|Hne].
  - rewrite fn_lookup_insert. rewrite orb_true_r. eauto.
  - rewrite fn_lookup_insert_ne by done. rewrite orb_false_r. by apply Hg.
Qed.

Lemma incr_len_host_put uf o n u :
  0 <= uf < zlen (field_data u) ->
  incr_len uf (host_put uf (mk_field o (wrap 16 n)) u) =
  host_put uf (mk_field o (wrap 16 (n + 1))) u.
Proof.
  intros Huf. unfold incr_len, set_len. rewrite host_put_field, Z.eqb_refl by lia. simpl.
  replace (wrap 16 (wrap 16 n + 1)) with (wrap 16 (n + 1))
    by (unfold wrap; by rewrite Zplus_mod_idemp_l).
  unfold host_put, set_field_bit, write_field. simpl. by rewrite list_insert_insert_eq.
Qed.

(** * Runs of characters of one field *)

Fixpoint url_run (uf : Z) (s : state) (cs : list Z) : bool :=
  match cs with
  | [] => true
  | c :: cs =>
      let s := parse_url_char s c in
      match url_state_action s with UrlField uf' => uf =? uf' | _ => false end && url_run uf s cs
  end.

Definition url_scan (s : state) (cs : list Z) : state := fold_left parse_url_char cs s.

Fixpoint url_at (s : state) (cs : list Z) : bool :=
  match cs with
  | [] => false
  | c :: cs => let s := parse_url_char s c in bool_decide (s = s_req_server_with_at) || url_at s cs
  end.

Lemma url_run_app uf s cs ds :
  url_run uf s (cs ++ ds) = url_run uf s cs && url_run uf (url_scan s cs) ds.
Proof. revert s. induction cs as [|c cs IH]; intros s; simpl; [done |]. by rewrite IH, andb_assoc. Qed.

Lemma url_at_app s cs ds : url_at s (cs ++ ds) = url_at s cs || url_at (url_scan s cs) ds.
Proof. revert s. induction cs as [|c cs IH]; intros s; simpl; [done |]. by rewrite IH, orb_assoc. Qed.

(** The characters of a run in which the state stays. *)
Lemma url_run_stay uf s cs :
  url_state_action s = UrlField uf -> Forall (fun c => parse_url_char s c = s) cs ->
  url_run uf s cs = true /\ url_scan s cs = s.
Proof.
  intros Ha. induction 1 as [|c cs Hc Hcs [IH1 IH2]]; [done |].
  simpl. rewrite Hc, Ha, Z.eqb_refl. done.
Qed.

Lemma url_loop_grow uf cs rest p s a o n u :
  0 <= uf < zlen (field_data u) -> url_run uf s cs = true ->
  url_loop (cs ++ rest) p (mk_url_st s uf a (host_put uf (mk_field o (wrap 16 n)) u)) =
  url_loop rest (p + zlen cs)
    (mk_url_st (url_scan s cs) uf (a || url_at s cs)
       (host_put uf (mk_field o (wrap 16 (n + zlen cs))) u)).
Proof.
  revert p s a n. induction cs as [|c cs IH]; intros p s a n Huf Hr; simpl.
  - rewrite orb_false_r. by rewrite zlen_nil, !Z.add_0_r.
  - simpl in Hr. apply andb_true_iff in Hr as [Ha Hr]. rewrite zlen_cons.
    destruct (url_state_action (parse_url_char s c)) as [| |uf'|] eqn:E; try done.
    apply Z.eqb_eq in Ha as <-. unfold url_field_char. simpl. rewrite Z.eqb_refl.
    rewrite incr_len_host_put by done. rewrite IH by done. rewrite orb_assoc.
    by replace (p + (1 + zlen cs)) with (p + 1 + zlen cs) by lia;
       replace (n + (1 + zlen cs)) with (n + 1 + zlen cs) by lia.
Qed.

(** A whole field. *)
Lemma url_loop_field buf g uf pre c cs rest x :
  spells buf (us_url x) g -> zlen buf < 65536 -> buf = pre ++ (c :: cs) ++ rest ->
  0 <= uf < UF_MAX -> uf <> us_old x -> url_run uf (us_state x) (c :: cs) = true ->
  exists u', spells buf u' (<[uf := Some (c :: cs)]> g) /\
    url_loop ((c :: cs) ++ rest) (zlen pre) x =
    url_loop rest (zlen (pre ++ c :: cs))
      (mk_url_st (url_scan (us_state x) (c :: cs)) uf (us_at x || url_at (us_state x) (c :: cs)) u').
Proof.
  intros Hs Hn Hb Huf Hold Hr. pose proof (proj1 Hs) as Hl.
  eexists. split; [by eapply spells_put |]. simpl in Hr. apply andb_true_iff in Hr as [Ha Hr].
  simpl. destruct (url_state_action (parse_url_char (us_state x) c)) as [| |uf'|]; try done.
  apply Z.eqb_eq in Ha as <-. unfold url_field_char.
  rewrite (proj2 (Z.eqb_neq _ _)) by done. rewrite set_len_set_off by lia.
  change (set_field_bit uf (write_field uf ?f ?u)) with (host_put uf f u).
  rewrite url_loop_grow by (done || lia). rewrite zlen_app, zlen_cons, orb_assoc.
  by replace (zlen pre + (1 + zlen cs)) with (zlen pre + 1 + zlen cs) by lia.
Qed.

(** The fields that the host loop fills. *)
Definition host_field (s : http_host_state) : option Z :=
  match s with
  | s_http_host | s_http_host_v6 => Some UF_HOST
  | s_http_host_port => Some UF_PORT
  | s_http_userinfo => Some UF_USERINFO
  | _ => None
  end.

Lemma host_loop_grow uf s cs rest p o n u :
  0 <= uf < zlen (field_data u) -> host_field s = Some uf ->
  Forall (fun c => http_parse_host_char s c = s) cs ->
  host_loop (cs ++ rest) p s (host_put uf (mk_field o (wrap 16 n)) u) =
  host_loop rest (p + zlen cs) s (host_put uf (mk_field o (wrap 16 (n + zlen cs))) u).
Proof.
  intros Huf Hs Hcs. revert p n. induction Hcs as [|c cs Hc Hcs IH]; intros p n; simpl.
  - by rewrite zlen_nil, !Z.add_0_r.
  - rewrite Hc, zlen_cons.
    replace (p + (1 + zlen cs)) with (p + 1 + zlen cs) by lia.
    replace (n + (1 + zlen cs)) with (n + 1 + zlen cs) by lia.
    rewrite <- IH, <- incr_len_host_put by done.
    destruct s; try discriminate Hs; injection Hs as <-; done.
Qed.

Lemma host_loop_field buf g uf s0 s pre c cs rest u :
  spells buf u g -> zlen buf < 65536 ->
  (exists post, buf = pre ++ (c :: cs) ++ post) ->
  0 <= uf < UF_MAX -> host_field s = Some uf -> s0 <> s ->
  (uf = UF_HOST -> g UF_HOST = Some []) ->
  http_parse_host_char s0 c = s -> Forall (fun c => http_parse_host_char s c = s) cs ->
  exists u', spells buf u' (<[uf := Some (c :: cs)]> g) /\
    host_loop ((c :: cs) ++ rest) (zlen pre) s0 u = host_loop rest (zlen (pre ++ c :: cs)) s u'.
Proof.
  intros Hsp Hn [post Hb] Huf Hf Hne Hh Hc Hcs. pose proof (proj1 Hsp) as Hl.
  eexists. split; [by eapply spells_put |].
  assert (host_update s0 s (zlen pre) u =
    host_put uf (mk_field (wrap 16 (zlen pre)) (wrap 16 1)) u) as Hup.
  { assert (uf = UF_HOST -> incr_len UF_HOST (set_off UF_HOST (zlen pre) u) =
      host_put uf (mk_field (wrap 16 (zlen pre)) (wrap 16 1)) u) as Hhost.
    { intros ->. specialize (Hh eq_refl). pose proof (proj2 Hsp UF_HOST ltac:(done)) as Hx.
      rewrite Hh in Hx. destruct Hx as (Hset & pre' & post' & _ & Hfield).
      rewrite incr_len_set_off, put_field_host_put; try done; [lia |]. by rewrite Hfield. }
    destruct s; try discriminate Hf; injection Hf as <-; cbn [host_update]; rewrite decide_False by done;
      first [by apply Hhost | apply incr_len_new; lia]. }
  simpl. rewrite Hc, Hup.
  transitivity (host_loop (cs ++ rest) (zlen pre + 1) s
    (host_put uf (mk_field (wrap 16 (zlen pre)) (wrap 16 1)) u)).
  { destruct s; try done. }
  rewrite host_loop_grow by (done || lia). rewrite zlen_app, zlen_cons.
  by replace (zlen pre + (1 + zlen cs)) with (zlen pre + 1 + zlen cs) by lia.
Qed.

(** ** The port *)

Lemma schar_small c : 0 <= c < 128 -> schar c = c.
Proof. intros. unfold schar. apply sint_small; [done |]. simpl. lia. Qed.

Lemma IS_NUM_spec c : IS_NUM c = true -> 48 <= c <= 57.
Proof. unfold IS_NUM. rewrite andb_true_iff, !Z.leb_le. lia. Qed.

Lemma port_fold_ge ds v :
  0 <= v -> Forall (fun c => IS_NUM c = true) ds ->
  v <= fold_left (fun v c => v * 10 + (c - 48)) ds v.
Proof.
  intros Hv H. revert v Hv. induction H as [|c ds Hc Hds IH]; intros v Hv; simpl; [lia |].
  apply IS_NUM_spec in Hc. specialize (IH (v * 10 + (c - 48))). lia.
Qed.

Lemma port_loop_value ds v :
  0 <= v -> Forall (fun c => IS_NUM c = true) ds ->
  fold_left (fun v c => v * 10 + (c - 48)) ds v <= 65535 ->
  port_loop ds v = Some (fold_left (fun v c => v * 10 + (c - 48)) ds v).
Proof.
  intros Hv H. revert v Hv. induction H as [|c ds Hc Hds IH]; intros v Hv Hle; simpl; [done |].
  simpl in Hle. apply IS_NUM_spec in Hc.
  pose proof (port_fold_ge ds (v * 10 + (c - 48))) as Hge. specialize (Hge ltac:(lia) Hds).
  rewrite schar_small, (wrap_small 64 (v * 10)), wrap_small by (simpl; lia).
  rewrite (proj2 (Z.ltb_ge _ _)) by lia. apply IH; lia.
Qed.

(** ** Characters of the parts *)

(** Excludes the constants that the character [c] is compared with, by a fact
    [H] about its class. *)
Ltac exclude c H :=
  repeat match goal with
  | |- context [c =? ?k] =>
      destruct (Z.eqb_spec c k) as [->|]; [exfalso; vm_compute in H; discriminate H |]; simpl
  end.

Lemma schema_stay c : IS_SCHEMA_CHAR c = true -> parse_url_char s_req_schema c = s_req_schema.
Proof. intros H. unfold parse_url_char. rewrite H. exclude c H. done. Qed.

Lemma schema_start c : IS_ALPHA c = true -> parse_url_char s_req_spaces_before_url c = s_req_schema.
Proof. intros H. unfold parse_url_char. rewrite H. exclude c H. done. Qed.

Lemma path_stay c : IS_URL_CHAR c = true -> parse_url_char s_req_path c = s_req_path.
Proof. intros H. unfold parse_url_char. rewrite H. exclude c H. done. Qed.

Lemma query_stay s c :
  s = s_req_query_string_start \/ s = s_req_query_string ->
  is_query_char c = true -> parse_url_char s c = s_req_query_string.
Proof.
  intros Hs H. unfold is_query_char in H. apply orb_true_iff in H as [H| ->%Z.eqb_eq].
  - destruct Hs as [-> | ->]; unfold parse_url_char; rewrite H; exclude c H; done.
  - by destruct Hs as [-> | ->].
Qed.

Lemma fragment_stay s c :
  s = s_req_fragment_start \/ s = s_req_fragment ->
  is_query_char c = true -> parse_url_char s c = s_req_fragment.
Proof.
  intros Hs H. unfold is_query_char in H. apply orb_true_iff in H as [H| ->%Z.eqb_eq].
  - destruct Hs as [-> | ->]; unfold parse_url_char; rewrite H; exclude c H; done.
  - by destruct Hs as [-> | ->].
Qed.

Definition server_char (c : Z) : bool := IS_USERINFO_CHAR c || (c =? "[")%c || (c =? "]")%c.
Definition in_server (s : state) : bool :=
  match s with s_req_server_start | s_req_server | s_req_server_with_at => true | _ => false end.

Lemma server_stay s c :
  in_server s = true -> server_char c = true -> parse_url_char s c = s_req_server.
Proof.
  intros Hs H. assert (IS_USERINFO_CHAR c || (c =? "[")%c || (c =? "]")%c = true) as H' by done.
  unfold parse_url_char. destruct s; try discriminate Hs; simpl; rewrite H'; clear H' Hs;
    exclude c H; done.
Qed.

Lemma server_run s cs :
  in_server s = true -> Forall (fun c => server_char c = true) cs ->
  url_run UF_HOST s cs = true /\ in_server (url_scan s cs) = true /\ url_at s cs = false /\
  (cs <> [] -> url_scan s cs = s_req_server).
Proof.
  intros Hs H. revert s Hs. induction H as [|c cs Hc Hcs IH]; intros s Hs; [done |].
  simpl. rewrite (server_stay s c) by done. destruct (IH s_req_server eq_refl) as (-> & H2 & -> & H4).
  split_and!; [done | done | done |]. intros _. destruct cs; [done |]. by apply H4.
Qed.

Lemma userinfo_server c : IS_USERINFO_CHAR c = true -> server_char c = true.
Proof. intros H. unfold server_char. by rewrite H. Qed.

Lemma alnum_userinfo c : IS_ALPHANUM c = true -> IS_USERINFO_CHAR c = true.
Proof. intros H. unfold IS_USERINFO_CHAR. by rewrite H. Qed.

Lemma host_char_userinfo c : IS_HOST_CHAR c = true -> IS_USERINFO_CHAR c = true.
Proof.
  unfold IS_HOST_CHAR. rewrite !orb_true_iff, !Z.eqb_eq.
  intros [[?| ->]| ->]; [by apply alnum_userinfo | done | done].
Qed.

Lemma IS_HEX_alnum c : IS_HEX c = true -> IS_ALPHANUM c = true.
Proof.
  unfold IS_HEX, IS_ALPHANUM, IS_ALPHA. rewrite !orb_true_iff, !andb_true_iff, !Z.leb_le.
  intros [?|?]; [by right | left; lia].
Qed.

Lemma v6_char_userinfo c : is_v6_char c = true -> IS_USERINFO_CHAR c = true.
Proof.
  unfold is_v6_char. rewrite !orb_true_iff, !Z.eqb_eq.
  intros [[?| ->]| ->]; [by apply alnum_userinfo, IS_HEX_alnum | done | done].
Qed.

Lemma num_userinfo c : IS_NUM c = true -> IS_USERINFO_CHAR c = true.
Proof. intros H. apply alnum_userinfo. unfold IS_ALPHANUM. rewrite H. apply orb_true_r. Qed.

Lemma userinfo_stay s c :
  s = s_http_userinfo_start \/ s = s_http_userinfo ->
  IS_USERINFO_CHAR c = true -> http_parse_host_char s c = s_http_userinfo.
Proof.
  intros [-> | ->] H; unfold http_parse_host_char; rewrite H;
    (destruct (Z.eqb_spec c 64) as [->|]; [by vm_compute in H | done]).
Qed.

Lemma name_stay s c :
  s = s_http_host_start \/ s = s_http_host ->
  IS_HOST_CHAR c = true -> http_parse_host_char s c = s_http_host.
Proof.
  intros [-> | ->] H; unfold http_parse_host_char; rewrite H; [| done].
  destruct (Z.eqb_spec c 91) as [->|]; [by vm_compute in H | done].
Qed.

Lemma v6_stay s c :
  s = s_http_host_v6_start \/ s = s_http_host_v6 ->
  is_v6_char c = true -> http_parse_host_char s c = s_http_host_v6.
Proof.
  intros Hs H. assert (IS_HEX c || (c =? ":")%c || (c =? ".")%c = true) as H' by done.
  destruct Hs as [-> | ->]; unfold http_parse_host_char; rewrite H'; [done |].
  destruct (Z.eqb_spec c 93) as [->|]; [by vm_compute in H | done].
Qed.

Lemma port_stay s c :
  s = s_http_host_port_start \/ s = s_http_host_port ->
  IS_NUM c = true -> http_parse_host_char s c = s_http_host_port.
Proof. intros [-> | ->] H; unfold http_parse_host_char; by rewrite H. Qed.

Lemma nonempty_all_spec P l :
  nonempty_all P l = true -> exists c cs, l = c :: cs /\ P c = true /\ Forall (fun c => P c = true) cs.
Proof.
  destruct l as [|c cs]; [done |]. simpl. rewrite andb_true_iff. intros [Hc Hcs].
  exists c, cs. split_and!; [done | done |]. apply Forall_forall. intros x Hx.
  by eapply forallb_forall in Hcs; [|apply list_elem_of_In].
Qed.

(** The loops do not write the numeric port. *)
Lemma host_loop_port cs p s u : port (snd (host_loop cs p s u)) = port u.
Proof.
  revert p s u. induction cs as [|c cs IH]; intros p s u; [done |]. simpl.
  assert (forall s', port (host_update s s' p u) = port u) as Hup
    by (intros s'; destruct s'; simpl; repeat case_match; done).
  destruct (http_parse_host_char s c); rewrite ?IH; auto.
Qed.

Lemma http_parse_host_port buf u a rc u' :
  http_parse_host buf u a = Some (rc, u') -> port u' = port u.
Proof.
  unfold http_parse_host. do 2 (case_match; [done |]).
  match goal with |- context [host_loop ?cs ?p ?s ?v] =>
    pose proof (host_loop_port cs p s v) as Hp; destruct (host_loop cs p s v) as [[s'|] w] end;
  by intros [= _ <-].
Qed.

Lemma url_loop_port cs p x ok x' :
  url_loop cs p x = Some (ok, x') -> port (us_url x') = port (us_url x).
Proof.
  revert p x. induction cs as [|c cs IH]; intros p x; simpl; [by intros [= _ <-] |].
  case_match; [by intros [= _ <-] | by intros ->%IH | | done].
  intros ->%IH. unfold url_field_char. case_match; done.
Qed.

(** * The round trip *)

Definition is_some {A} (o : option A) : bool := match o with Some _ => true | None => false end.

(** [g] extended by an optional part. *)
Definition put_opt (uf : Z) (o : option (list Z)) (g : Z -> option (list Z))
    : Z -> option (list Z) :=
  match o with None => g | Some _ => <[uf := o]> g end.

Lemma url_skip c cs p x s' :
  parse_url_char (us_state x) c = s' -> url_state_action s' = UrlSkip ->
  url_loop (c :: cs) p x = url_loop cs (p + 1) (mk_url_st s' (us_old x) (us_at x) (us_url x)).
Proof. intros Hs Ha. simpl. by rewrite Hs, Ha. Qed.

(** An optional part behind its delimiter. *)
Lemma url_loop_opt buf g uf P o d dc s1 s2 pre rest x :
  spells buf (us_url x) g -> str d = [dc] -> parse_url_char (us_state x) dc = s1 -> url_state_action s1 = UrlSkip ->
  url_state_action s2 = UrlField uf -> s2 <> s_req_server_with_at ->
  (forall s c, s = s1 \/ s = s2 -> P c = true -> parse_url_char s c = s2) ->
  zlen buf < 65536 -> buf = pre ++ opt_before d o ++ rest ->
  0 <= uf < UF_MAX -> uf <> us_old x -> opt_all P o = true ->
  exists u', spells buf u' (put_opt uf o g) /\
    url_loop (opt_before d o ++ rest) (zlen pre) x =
    url_loop rest (zlen (pre ++ opt_before d o))
      (mk_url_st (if is_some o then s2 else us_state x) (if is_some o then uf else us_old x)
         (us_at x) u').
Proof.
  intros Hsp Hd H1 Ha1 Ha2 Hat HP Hn Hb Huf Hold Ho. destruct o as [l|]; simpl.
  - destruct (nonempty_all_spec P l Ho) as (c & cs & -> & Hc & Hcs).
    simpl in Hb. rewrite Hd in *.
    set (x1 := mk_url_st s1 (us_old x) (us_at x) (us_url x)).
    destruct (url_run_stay uf s2 cs Ha2) as [Hr Hsc].
    { eapply Forall_impl; [exact Hcs |]. intros; apply HP; auto. }
    assert (url_scan s1 (c :: cs) = s2) as Hscan by (simpl; rewrite HP by auto; done).
    assert (url_at s2 cs = false) as Hat'.
    { clear -Hcs Hat HP. induction Hcs as [|c cs Hc Hcs IH]; [done |]. simpl.
      rewrite HP by auto. rewrite bool_decide_eq_false_2 by done. done. }
    destruct (url_loop_field buf g uf (pre ++ [dc]) c cs rest x1) as (u' & Hsp' & Hrun);
      [done | done | by rewrite Hb, <- !app_assoc | done | done | simpl; rewrite HP by auto; by rewrite Ha2, Z.eqb_refl |].
    exists u'. split; [done |].
    change (([dc] ++ c :: cs) ++ rest) with (dc :: (c :: cs) ++ rest).
    rewrite (url_skip dc _ _ x s1) by done.
    assert (url_at s1 (c :: cs) = false) as Hat1.
    { simpl. rewrite HP by auto. by rewrite bool_decide_eq_false_2. }
    change (us_state x1) with s1 in Hrun. rewrite Hscan, Hat1, orb_false_r, !zlen_app in Hrun.
    change (zlen [dc]) with 1 in Hrun. fold x1. rewrite Hrun, !zlen_app.
    by replace (zlen pre + (zlen [dc] + zlen (c :: cs))) with (zlen pre + 1 + zlen (c :: cs))
      by (change (zlen [dc]) with 1; lia).
  - exists (us_url x). split; [done |]. rewrite app_nil_r. by destruct x.
Qed.

Lemma Forall_server P cs :
  (forall c, P c = true -> IS_USERINFO_CHAR c = true) ->
  Forall (fun c => P c = true) cs -> Forall (fun c => server_char c = true) cs.
Proof. intros HP H. eapply Forall_impl; [exact H |]. intros c Hc. by apply userinfo_server, HP. Qed.

Lemma nonempty_server P l :
  (forall c, P c = true -> IS_USERINFO_CHAR c = true) -> nonempty_all P l = true ->
  Forall (fun c => server_char c = true) l /\ l <> [].
Proof.
  intros HP (c & cs & -> & Hc & Hcs)%nonempty_all_spec. split; [| done].
  constructor; [by apply userinfo_server, HP | by eapply Forall_server].
Qed.

Section RoundTrip.
Context (P : url_parts) (HP : url_parts_ok P = true).

Lemma parts_facts :
  nonempty_all IS_SCHEMA_CHAR (up_schema P) = true /\
  match up_schema P with a :: _ => IS_ALPHA a | [] => false end = true /\
  opt_all IS_USERINFO_CHAR (up_userinfo P) = true /\
  match up_host P with
  | HostName h => nonempty_all IS_HOST_CHAR h
  | HostV6 h => nonempty_all is_v6_char h
  end = true /\
  opt_all IS_NUM (up_port P) = true /\
  (forall ds, up_port P = Some ds -> port_value ds <= 65535) /\
  match up_path P with c :: cs => (c =? "/")%c && forallb IS_URL_CHAR cs | [] => false end = true /\
  opt_all is_query_char (up_query P) = true /\ opt_all is_query_char (up_fragment P) = true.
Proof.
  unfold url_parts_ok in HP. rewrite !andb_true_iff in HP.
  destruct HP as ((((((((?&?)&?)&?)&?)&Hp)&?)&?)&?). split_and!; try done.
  intros ds Hds. rewrite Hds in Hp. by apply Z.leb_le.
Qed.

Lemma host_port_server :
  Forall (fun c => server_char c = true) (host_text (up_host P) ++ opt_before ":" (up_port P)) /\
  host_text (up_host P) <> [].
Proof.
  destruct parts_facts as (_ & _ & _ & Hh & Hp & _).
  assert (Forall (fun c => server_char c = true) (host_text (up_host P)) /\
          host_text (up_host P) <> []) as [Hf Hne].
  { destruct (up_host P) as [h|h]; simpl.
    - by apply (nonempty_server IS_HOST_CHAR), Hh; apply host_char_userinfo.
    - split; [| done]. constructor; [done |]. apply Forall_app_2; [| by repeat constructor].
      by apply (nonempty_server is_v6_char), Hh; apply v6_char_userinfo. }
  split; [| done]. apply Forall_app_2; [done |]. destruct (up_port P) as [ds|]; [| done].
  simpl. constructor; [done |]. by apply (nonempty_server IS_NUM), Hp; apply num_userinfo.
Qed.

Lemma server_text_run :
  exists c cs, server_text P = c :: cs /\ url_run UF_HOST s_req_server_start (c :: cs) = true /\
    url_scan s_req_server_start (c :: cs) = s_req_server /\
    url_at s_req_server_start (c :: cs) = is_some (up_userinfo P).
Proof.
  destruct host_port_server as [Hs Hne]. destruct parts_facts as (_ & _ & Hu & _).
  unfold server_text. set (t := host_text (up_host P) ++ opt_before ":" (up_port P)) in *.
  assert (t <> []) as Hnt by (subst t; by intros [? _]%app_eq_nil).
  destruct (up_userinfo P) as [ui|]; cbn [opt_after is_some app].
  - destruct (nonempty_server IS_USERINFO_CHAR ui) as [Hui Huine]; [done | done |].
    destruct (server_run s_req_server_start ui) as (Hr1 & _ & Ha1 & Hs1); [done | done |].
    destruct (server_run s_req_server_with_at t) as (Hr2 & _ & Ha2 & Hs2); [done | done |].
    specialize (Hs1 Huine). specialize (Hs2 Hnt).
    assert (exists c cs, (ui ++ str "@") ++ t = c :: cs) as (c & cs & Hc)
      by (destruct ui; [done | by eexists _, _]).
    exists c, cs. rewrite <- Hc. split; [done |].
    rewrite !url_run_app, !url_at_app. unfold url_scan in *. rewrite !fold_left_app, Hs1.
    change (fold_left parse_url_char (str "@") s_req_server) with s_req_server_with_at.
    change (url_run UF_HOST s_req_server (str "@")) with true.
    change (url_at s_req_server (str "@")) with true.
    by rewrite Hr1, Hr2, Hs2, Ha1.
  - destruct (server_run s_req_server_start t) as (Hr & _ & Ha & Hsc); [done | done |].
    destruct t as [|c cs]; [done |]. exists c, cs. split_and!; auto.
Qed.

(** ** The host *)

Lemma host_userinfo_stage buf g pre rest u :
  spells buf u g -> zlen buf < 65536 ->
  (exists post, buf = pre ++ opt_after (up_userinfo P) "@" ++ post) ->
  exists u', spells buf u' (put_opt UF_USERINFO (up_userinfo P) g) /\
    host_loop (opt_after (up_userinfo P) "@" ++ rest) (zlen pre)
      (if is_some (up_userinfo P) then s_http_userinfo_start else s_http_host_start) u =
    host_loop rest (zlen (pre ++ opt_after (up_userinfo P) "@")) s_http_host_start u'.
Proof.
  intros Hsp Hn [post Hb]. destruct parts_facts as (_ & _ & Hu & _).
  destruct (up_userinfo P) as [ui|]; cbn [opt_after is_some put_opt] in *.
  - destruct (nonempty_all_spec _ _ Hu) as (c & cs & -> & Hc & Hcs).
    destruct (host_loop_field buf g UF_USERINFO s_http_userinfo_start s_http_userinfo pre c cs
      (str "@" ++ rest) u) as (u' & Hsp' & Hrun); try done.
    + exists (str "@" ++ post). by rewrite Hb, <- !app_assoc.
    + apply userinfo_stay; auto.
    + eapply Forall_impl; [exact Hcs |]. intros; apply userinfo_stay; auto.
    + exists u'. split; [done |]. rewrite <- app_assoc, Hrun.
      change (host_loop (str "@" ++ rest) ?p s_http_userinfo u')
        with (host_loop rest (p + 1) s_http_host_start u').
      f_equal. rewrite !zlen_app. change (zlen (str "@")) with 1. lia.
  - exists u. split; [done |]. by rewrite app_nil_r.
Qed.

Lemma host_name_stage buf g pre rest u :
  spells buf u g -> g UF_HOST = Some [] -> zlen buf < 65536 ->
  (exists post, buf = pre ++ host_text (up_host P) ++ post) ->
  exists u' s, spells buf u' (<[UF_HOST := Some (host_value (up_host P))]> g) /\
    (s = s_http_host \/ s = s_http_host_v6_end) /\
    host_loop (host_text (up_host P) ++ rest) (zlen pre) s_http_host_start u =
    host_loop rest (zlen (pre ++ host_text (up_host P))) s u'.
Proof.
  intros Hsp Hg Hn [post Hb]. destruct parts_facts as (_ & _ & _ & Hh & _).
  destruct (up_host P) as [h|h]; cbn [host_text host_value] in *;
    destruct (nonempty_all_spec _ _ Hh) as (c & cs & -> & Hc & Hcs).
  - destruct (host_loop_field buf g UF_HOST s_http_host_start s_http_host pre c cs rest u)
      as (u' & Hsp' & Hrun); try done.
    + by exists post.
    + apply name_stay; auto.
    + eapply Forall_impl; [exact Hcs |]. intros; apply name_stay; auto.
    + exists u', s_http_host. split_and!; auto.
  - destruct (host_loop_field buf g UF_HOST s_http_host_v6_start s_http_host_v6 (pre ++ str "[")
      c cs (str "]" ++ rest) u) as (u' & Hsp' & Hrun); try done.
    + exists (str "]" ++ post). by rewrite Hb, <- !app_assoc.
    + apply v6_stay; auto.
    + eapply Forall_impl; [exact Hcs |]. intros; apply v6_stay; auto.
    + exists u', s_http_host_v6_end. split_and!; [done | auto |]. rewrite <- !app_assoc.
      change (host_loop (str "[" ++ ?l) ?p s_http_host_start u)
        with (host_loop l (p + 1) s_http_host_v6_start u).
      rewrite zlen_app in Hrun. change (zlen (str "[")) with 1 in Hrun. rewrite Hrun.
      change (host_loop (str "]" ++ rest) ?p s_http_host_v6 u')
        with (host_loop rest (p + 1) s_http_host_v6_end u').
      f_equal. rewrite !zlen_app. change (zlen (str "]")) with 1. lia.
Qed.

Lemma host_port_stage buf g pre u s :
  spells buf u g -> zlen buf < 65536 -> s = s_http_host \/ s = s_http_host_v6_end ->
  (exists post, buf = pre ++ opt_before ":" (up_port P) ++ post) ->
  exists u' s', spells buf u' (put_opt UF_PORT (up_port P) g) /\ host_unfinished s' = false /\
    host_loop (opt_before ":" (up_port P)) (zlen pre) s u = (Some s', u').
Proof.
  intros Hsp Hn Hs [post Hb]. destruct parts_facts as (_ & _ & _ & _ & Hp & _).
  destruct (up_port P) as [ds|]; cbn [opt_before put_opt] in *.
  - destruct (nonempty_all_spec _ _ Hp) as (c & cs & -> & Hc & Hcs).
    destruct (host_loop_field buf g UF_PORT s_http_host_port_start s_http_host_port
      (pre ++ str ":") c cs [] u) as (u' & Hsp' & Hrun); try done.
    + exists post. by rewrite Hb, <- !app_assoc.
    + apply port_stay; auto.
    + eapply Forall_impl; [exact Hcs |]. intros; apply port_stay; auto.
    + exists u', s_http_host_port. split_and!; [done | done |].
      rewrite app_nil_r, zlen_app in Hrun.
      transitivity (host_loop (c :: cs) (zlen pre + 1) s_http_host_port_start u);
        [by destruct Hs as [-> | ->] |]. exact Hrun.
  - exists u, s. split_and!; [done | by destruct Hs as [-> | ->] | done].
Qed.

(** The fields after [http_parse_host]. *)
Definition host_fields (g : Z -> option (list Z)) : Z -> option (list Z) :=
  put_opt UF_PORT (up_port P)
    (<[UF_HOST := Some (host_value (up_host P))]>
       (put_opt UF_USERINFO (up_userinfo P) (<[UF_HOST := Some []]> g))).

Lemma spells_set_len_0 buf u g bs :
  spells buf u g -> g UF_HOST = Some bs -> spells buf (set_len UF_HOST 0 u) (<[UF_HOST := Some []]> g).
Proof.
  intros [Hl Hg] Hh. pose proof (Hg UF_HOST ltac:(done)) as Hx. rewrite Hh in Hx.
  destruct Hx as (Hset & pre & post & Hb & Hf). split.
  - unfold set_len, write_field, zlen in *. simpl. by rewrite length_insert.
  - intros uf Huf. unfold set_len. rewrite field_put by (unfold UF_HOST, UF_MAX in *; lia).
    destruct (Z.eqb_spec UF_HOST uf) as [<-|].
    + rewrite fn_lookup_insert. split; [done |]. exists pre, (bs ++ post). by rewrite Hf.
    + rewrite fn_lookup_insert_ne by done. by apply Hg.
Qed.

Lemma http_parse_host_parts buf u g :
  spells buf u g -> g UF_HOST = Some (server_text P) -> zlen buf < 65536 ->
  exists u', http_parse_host buf u (is_some (up_userinfo P)) = Some (0, u') /\
    spells buf u' (host_fields g).
Proof.
  intros Hsp Hg Hn. pose proof (proj2 Hsp UF_HOST ltac:(done)) as Hx. rewrite Hg in Hx.
  destruct Hx as (Hset & pre & post & Hb & Hf). unfold http_parse_host.
  rewrite Hset, Hf. simpl negb. cbn [off len].
  assert (zlen buf = zlen pre + zlen (server_text P) + zlen post) as Hlen
    by (rewrite Hb, !zlen_app; lia).
  pose proof (zlen_nonneg pre). pose proof (zlen_nonneg post). pose proof (zlen_nonneg (server_text P)).
  rewrite (proj2 (in_range_true _ _ buf)) by lia. simpl negb. cbv iota.
  assert (slice (zlen pre) (zlen (server_text P)) buf = server_text P) as ->.
  { rewrite Hb. unfold slice, zlen. rewrite !Nat2Z.id, drop_app_length, take_app_length. done. }
  unfold server_text in Hb. rewrite <- !app_assoc in Hb.
  destruct (host_userinfo_stage buf _ pre (host_text (up_host P) ++ opt_before ":" (up_port P)) _
    (spells_set_len_0 buf u g _ Hsp Hg) Hn ltac:(eauto)) as (u1 & Hu1 & Hr1).
  destruct (host_name_stage buf _ (pre ++ opt_after (up_userinfo P) "@") (opt_before ":" (up_port P))
    u1 Hu1) as (u2 & s & Hu2 & Hs & Hr2); [| done | eexists; rewrite <- app_assoc; exact Hb |].
  { destruct (up_userinfo P); simpl; rewrite ?fn_lookup_insert_ne by done; apply fn_lookup_insert. }
  destruct (host_port_stage buf _ ((pre ++ opt_after (up_userinfo P) "@") ++ host_text (up_host P))
    u2 s Hu2 Hn Hs) as (u3 & s' & Hu3 & Hs' & Hr3); [eexists; rewrite <- !app_assoc; exact Hb |].
  exists u3. unfold server_text. rewrite Hr1, Hr2, Hr3, Hs'. done.
Qed.

(** ** The URL *)

(** The fields after the loop over the URL. *)
Definition loop_fields : Z -> option (list Z) :=
  put_opt UF_FRAGMENT (up_fragment P) (put_opt UF_QUERY (up_query P)
    (<[UF_PATH := Some (up_path P)]> (<[UF_HOST := Some (server_text P)]>
      (<[UF_SCHEMA := Some (up_schema P)]> (fun _ => None))))).

Lemma url_path_run :
  exists c cs, up_path P = c :: cs /\ url_run UF_PATH s_req_server (c :: cs) = true /\
    url_scan s_req_server (c :: cs) = s_req_path /\ url_at s_req_server (c :: cs) = false.
Proof.
  destruct parts_facts as (_ & _ & _ & _ & _ & _ & Hp & _).
  destruct (up_path P) as [|c cs]; [done |].
  apply andb_true_iff in Hp as [->%Z.eqb_eq Hcs]. exists 47, cs.
  assert (Forall (fun c => parse_url_char s_req_path c = s_req_path) cs) as Hst.
  { apply Forall_forall. intros c Hc. apply path_stay.
    by eapply forallb_forall in Hcs; [| apply list_elem_of_In]. }
  destruct (url_run_stay UF_PATH s_req_path cs eq_refl Hst) as [Hr Hs].
  split_and!; [done | exact Hr | exact Hs |].
  clear -Hst. change (url_at s_req_path cs = false).
  induction Hst as [|c cs Hc Hcs IH]; [done |]. simpl. by rewrite Hc.
Qed.

Lemma url_schema_run :
  exists c cs, up_schema P = c :: cs /\ url_run UF_SCHEMA s_req_spaces_before_url (c :: cs) = true /\
    url_scan s_req_spaces_before_url (c :: cs) = s_req_schema /\
    url_at s_req_spaces_before_url (c :: cs) = false.
Proof.
  destruct parts_facts as (Hs & Ha & _).
  destruct (nonempty_all_spec _ _ Hs) as (c & cs & Hsc & _ & Hcs). rewrite Hsc in *.
  exists c, cs. assert (Forall (fun c => parse_url_char s_req_schema c = s_req_schema) cs) as Hst.
  { eapply Forall_impl; [exact Hcs |]. apply schema_stay. }
  destruct (url_run_stay UF_SCHEMA s_req_schema cs eq_refl Hst) as [Hr Hscan].
  cbn [url_run url_at]. unfold url_scan. cbn [fold_left]. rewrite schema_start by done.
  split_and!; [done | exact Hr | exact Hscan |].
  clear -Hst. change (url_at s_req_schema cs = false).
  induction Hst as [|c cs Hc Hcs IH]; [done |]. simpl. by rewrite Hc.
Qed.

Lemma url_loop_parts u0 :
  zlen (field_data u0) = UF_MAX -> zlen (print_url P) < 65536 ->
  exists u s old, spells (print_url P) u loop_fields /\
    url_loop (print_url P) 0
      (mk_url_st s_req_spaces_before_url UF_MAX false (mk_url 0 0 (field_data u0))) =
    Some (true, mk_url_st s old (is_some (up_userinfo P)) u).
Proof.
  intros Hl Hn. remember (print_url P) as buf eqn:Hbuf. unfold print_url in Hbuf.
  destruct url_schema_run as (c1 & cs1 & Hp1 & Hr1 & Hs1 & Ha1).
  destruct server_text_run as (c2 & cs2 & Hp2 & Hr2 & Hs2 & Ha2).
  destruct url_path_run as (c3 & cs3 & Hp3 & Hr3 & Hs3 & Ha3).
  destruct parts_facts as (_ & _ & _ & _ & _ & _ & _ & Hq & Hf).
  unfold loop_fields. rewrite Hp1, Hp2, Hp3 in *.
  set (x0 := mk_url_st _ _ _ _).
  assert (spells buf (us_url x0) (fun _ => None)) as H0.
  { split; [done |]. intros uf Huf. rewrite has_field_testbit by lia. apply Z.bits_0. }
  destruct (url_loop_field buf _ UF_SCHEMA [] c1 cs1 _ x0 H0 Hn Hbuf) as (u1 & Hu1 & E1);
    [done | done | done |].
  change (us_state x0) with s_req_spaces_before_url in E1. rewrite Hs1, Ha1 in E1.
  change (us_at x0 || false) with false in E1.
  set (x2 := mk_url_st s_req_server_start UF_SCHEMA false u1).
  destruct (url_loop_field buf _ UF_HOST ((c1 :: cs1) ++ str "://") c2 cs2
    ((c3 :: cs3) ++ opt_before "?" (up_query P) ++ opt_before "#" (up_fragment P)) x2 Hu1 Hn)
    as (u2 & Hu2 & E2); [by rewrite Hbuf, <- !app_assoc | done | done | done |].
  change (us_state x2) with s_req_server_start in E2. rewrite Hs2, Ha2 in E2.
  change (us_at x2 || ?b) with b in E2.
  set (x3 := mk_url_st s_req_server UF_HOST (is_some (up_userinfo P)) u2) in E2.
  destruct (url_loop_field buf _ UF_PATH (((c1 :: cs1) ++ str "://") ++ c2 :: cs2) c3 cs3
    (opt_before "?" (up_query P) ++ opt_before "#" (up_fragment P)) x3 Hu2 Hn)
    as (u3 & Hu3 & E3); [by rewrite Hbuf, <- !app_assoc | done | done | done |].
  change (us_state x3) with s_req_server in E3. rewrite Hs3, Ha3 in E3.
  rewrite orb_false_r in E3. change (us_at x3) with (is_some (up_userinfo P)) in E3.
  set (x4 := mk_url_st s_req_path UF_PATH (is_some (up_userinfo P)) u3) in E3.
  destruct (url_loop_opt buf _ UF_QUERY is_query_char (up_query P) "?" 63
    s_req_query_string_start s_req_query_string
    ((((c1 :: cs1) ++ str "://") ++ c2 :: cs2) ++ c3 :: cs3) (opt_before "#" (up_fragment P)) x4 Hu3)
    as (u4 & Hu4 & E4); [done | done | done | done | done | apply query_stay | done
      | by rewrite Hbuf, <- !app_assoc | done | done | done |].
  set (x5 := mk_url_st _ _ _ _) in E4.
  destruct (url_loop_opt buf _ UF_FRAGMENT is_query_char (up_fragment P) "#" 35
    s_req_fragment_start s_req_fragment
    (((((c1 :: cs1) ++ str "://") ++ c2 :: cs2) ++ c3 :: cs3) ++ opt_before "?" (up_query P)) [] x5 Hu4)
    as (u5 & Hu5 & E5); [done | by unfold x5; destruct (up_query P) | done | done | done
      | apply fragment_stay | done | by rewrite Hbuf, app_nil_r, <- !app_assoc
      | done | by unfold x5; destruct (up_query P) | done |].
  exists u5. do 2 eexists. split; [exact Hu5 |]. rewrite Hbuf.
  change 0 with (zlen (@nil Z)). rewrite E1.
  change (zlen ([] ++ c1 :: cs1)) with (zlen (c1 :: cs1)).
  change (url_loop (str "://" ++ ?l) ?p (mk_url_st s_req_schema UF_SCHEMA false u1))
    with (url_loop l (p + 1 + 1 + 1) x2).
  replace (zlen (c1 :: cs1) + 1 + 1 + 1) with (zlen ((c1 :: cs1) ++ str "://"))
    by (rewrite zlen_app; change (zlen (str "://")) with 3; lia).
  rewrite E2, E3, E4. rewrite app_nil_r in E5. rewrite E5. done.
Qed.

End RoundTrip.

(** C39: a URL that is printed from a schema, optional user information, a host
    (a name, an IPv4 or a bracketed IPv6 address), an optional port, a path, an
    optional query and an optional fragment is parsed back into these parts: the
    parser succeeds, sets exactly the fields of the parts that are present, each
    designates the bytes of its part, and the numeric port is the decimal value. *)
Theorem http_parser_parse_url_roundtrip (P : url_parts) (u0 : http_parser_url) :
  url_parts_ok P = true -> zlen (print_url P) < 65536 -> zlen (field_data u0) = UF_MAX ->
  exists u, http_parser_parse_url (print_url P) false u0 = Some (0, u) /\
    (forall uf, 0 <= uf < UF_MAX ->
       has_field u uf = is_some (part P uf) /\
       forall bs, part P uf = Some bs -> field_bytes (print_url P) u uf = bs) /\
    port u = match up_port P with Some ds => port_value ds | None => 0 end.
Proof.
  intros HP Hn Hl. destruct (url_loop_parts P HP u0 Hl Hn) as (u1 & s & old & Hu1 & E).
  assert (loop_fields P UF_HOST = Some (server_text P)) as Hg
    by (unfold loop_fields; destruct (up_query P), (up_fragment P); reflexivity).
  destruct (http_parse_host_parts P HP _ _ _ Hu1 Hg Hn) as (u2 & Eh & Hu2).
  pose proof (parts_facts P HP) as (_ & _ & _ & _ & Hpn & Hpv & _).
  assert (has_field u1 UF_HOST = true) as Hh.
  { pose proof (proj2 Hu1 UF_HOST ltac:(done)) as Hx. rewrite Hg in Hx. apply Hx. }
  assert (forall uf, 0 <= uf < UF_MAX -> host_fields P (loop_fields P) uf = part P uf) as Hpart.
  { intros uf Huf. change UF_MAX with 7 in Huf.
    assert (uf = 0 \/ uf = 1 \/ uf = 2 \/ uf = 3 \/ uf = 4 \/ uf = 5 \/ uf = 6) as Hc by lia.
    unfold host_fields, loop_fields.
    destruct (up_userinfo P) eqn:E1, (up_port P) eqn:E2, (up_query P) eqn:E3, (up_fragment P) eqn:E4;
      destruct_or? Hc; subst uf; unfold part; rewrite ?E1, ?E2, ?E3, ?E4; reflexivity. }
  unfold http_parser_parse_url. rewrite (proj2 (Z.eqb_neq _ _)), E.
  2:{ pose proof (parts_facts P HP) as (Hs & _). unfold print_url.
      destruct (nonempty_all_spec _ _ Hs) as (c & cs & -> & _). cbn [app].
      rewrite zlen_cons. pose proof (zlen_nonneg (cs ++ str "://" ++ server_text P ++ up_path P ++
        opt_before "?" (up_query P) ++ opt_before "#" (up_fragment P))). lia. }
  cbn [us_at us_url]. unfold url_finish. rewrite Hh, andb_false_r, Eh. simpl.
  assert (spells (print_url P) u2 (part P)) as [Hl2 Hf2].
  { destruct Hu2 as [? Hf]. split; [done |]. intros uf Huf. rewrite <- Hpart by done. by apply Hf. }
  assert (forall fs pt, field_set u2 = fs -> forall uf, 0 <= uf < UF_MAX ->
    has_field (mk_url fs pt (field_data u2)) uf = is_some (part P uf) /\
    forall bs, part P uf = Some bs ->
      field_bytes (print_url P) (mk_url fs pt (field_data u2)) uf = bs) as Hall.
  { intros fs pt <- uf Huf. specialize (Hf2 uf Huf). destruct (part P uf) as [bs|]; [| done].
    destruct Hf2 as (Hset & pre & post & Hb & Hf). split; [exact Hset |].
    intros ? [= <-]. unfold field_bytes. change (field (mk_url _ _ _) uf) with (field u2 uf).
    rewrite Hf, Hb. unfold slice, zlen. simpl. by rewrite !Nat2Z.id, drop_app_length, take_app_length. }
  pose proof (Hall (field_set u2) 0 eq_refl UF_PORT ltac:(done)) as [Hport Hbytes].
  change (has_field (mk_url _ _ _) UF_PORT) with (has_field u2 UF_PORT) in Hport.
  change (part P UF_PORT) with (up_port P) in *. rewrite Hport.
  destruct (up_port P) as [ds|] eqn:Ep; cbn [is_some].
  - specialize (Hf2 UF_PORT ltac:(done)). change (part P UF_PORT) with (up_port P) in Hf2.
    rewrite Ep in Hf2. destruct Hf2 as (_ & pre & post & Hb & Hf).
    specialize (Hbytes ds eq_refl). unfold field_bytes in Hbytes.
    change (field (mk_url _ _ _) UF_PORT) with (field u2 UF_PORT) in Hbytes.
    unfold parse_port. rewrite Hbytes, Hf. cbn [off len].
    assert (zlen pre + zlen ds <= zlen (print_url P)) as Hle.
    { rewrite Hb, !zlen_app. pose proof (zlen_nonneg post). lia. }
    rewrite (proj2 (Z.leb_le _ _)) by exact Hle. simpl negb. cbv iota.
    destruct (nonempty_all_spec _ _ Hpn) as (c & cs & Hds & Hc & Hcs).
    assert (Forall (fun c => IS_NUM c = true) ds) as Hnum by (rewrite Hds; by constructor).
    specialize (Hpv ds eq_refl). rewrite port_loop_value by done.
    change (fold_left _ ds 0) with (port_value ds).
    assert (0 <= port_value ds) by (by apply port_fold_ge).
    eexists. split; [done |]. split; [by apply Hall |]. simpl. apply wrap16_small. lia.
  - exists u2. split; [done |]. split; [destruct u2; by apply Hall |].
    rewrite (http_parse_host_port _ _ _ _ _ Eh). exact (url_loop_port _ _ _ _ _ E).
Qed.

Definition parts_example : url_parts :=
  mk_parts (str "http") (Some (str "me:pw")) (HostV6 (str "fe80::1")) (Some (str "8080"))
    (str "/a/b") (Some (str "x=1")) (Some (str "top")).

Lemma http_parser_parse_url_roundtrip_witness :
  url_parts_ok parts_example = true /\
  print_url parts_example = str "http://me:pw@[fe80::1]:8080/a/b?x=1#top" /\
  exists u, http_parser_parse_url (print_url parts_example) false http_parser_url_init =
    Some (0, u) /\ port u = 8080.
Proof.
  split; [reflexivity |]. split; [reflexivity |].
  destruct (http_parser_parse_url_roundtrip parts_example http_parser_url_init)
    as (u & Hu & _ & Hp); [reflexivity | reflexivity | reflexivity |].
  exists u. exact (conj Hu Hp).
Defined.
