(* ===== verification/HttpParser.v ===== *)
(** The HTTP/1 parser of src/http/http1/http_parser.c: the parser object, the
    functions on it and [http_parser_execute].

    [http_parser_execute] runs in a monad over its local variables: a computation
    ends with a value, in a [return] of the function, or in a fault (a failed
    assertion, a read outside of [data] or of a constant string, a loop that
    exceeds its bound).  Pointers into [data] are offsets.  The callbacks are the
    client's code: a parameter that maps the parser and the client's state to a
    result and the parser and state it leaves. *)
From Stdlib Require Import Strings.String.
From S2P Require Import Prelude HttpChar.

(** * The parser object *)

Record http_parser := mk_parser {
  hp_type : http_parser_type;
  hp_flags : Z;                       (* 8 bits *)
  hp_state : state;                   (* 7 bits *)
  hp_header_state : header_states;    (* 7 bits *)
  hp_index : Z;                       (* 5 bits *)
  hp_uses_transfer_encoding : bool;
  hp_allow_chunked_length : bool;
  hp_lenient_http_headers : bool;
  hp_nread : Z;                       (* uint32_t *)
  hp_content_length : Z;              (* uint64_t *)
  hp_http_major : Z;
  hp_http_minor : Z;
  hp_status_code : Z;                 (* 16 bits *)
  hp_method : Z;                      (* 8 bits *)
  hp_http_errno : http_errno;         (* 7 bits *)
  hp_upgrade : bool;
  hp_data : Z
}.

Definition set_hp_type (v : http_parser_type) (r : http_parser) : http_parser :=
  mk_parser v (hp_flags r) (hp_state r) (hp_header_state r) (hp_index r)
    (hp_uses_transfer_encoding r) (hp_allow_chunked_length r)
    (hp_lenient_http_headers r) (hp_nread r) (hp_content_length r) (hp_http_major r)
    (hp_http_minor r) (hp_status_code r) (hp_method r) (hp_http_errno r)
    (hp_upgrade r) (hp_data r).
Definition set_hp_flags (v : Z) (r : http_parser) : http_parser :=
  mk_parser (hp_type r) v (hp_state r) (hp_header_state r) (hp_index r)
    (hp_uses_transfer_encoding r) (hp_allow_chunked_length r)
    (hp_lenient_http_headers r) (hp_nread r) (hp_content_length r) (hp_http_major r)
    (hp_http_minor r) (hp_status_code r) (hp_method r) (hp_http_errno r)
    (hp_upgrade r) (hp_data r).
Definition set_hp_state (v : state) (r : http_parser) : http_parser :=
  mk_parser (hp_type r) (hp_flags r) v (hp_header_state r) (hp_index r)
    (hp_uses_transfer_encoding r) (hp_allow_chunked_length r)
    (hp_lenient_http_headers r) (hp_nread r) (hp_content_length r) (hp_http_major r)
    (hp_http_minor r) (hp_status_code r) (hp_method r) (hp_http_errno r)
    (hp_upgrade r) (hp_data r).
Definition set_hp_header_state (v : header_states) (r : http_parser) : http_parser :=
  mk_parser (hp_type r) (hp_flags r) (hp_state r) v (hp_index r)
    (hp_uses_transfer_encoding r) (hp_allow_chunked_length r)
    (hp_lenient_http_headers r) (hp_nread r) (hp_content_length r) (hp_http_major r)
    (hp_http_minor r) (hp_status_code r) (hp_method r) (hp_http_errno r)
    (hp_upgrade r) (hp_data r).
Definition set_hp_index (v : Z) (r : http_parser) : http_parser :=
  mk_parser (hp_type r) (hp_flags r) (hp_state r) (hp_header_state r) v
    (hp_uses_transfer_encoding r) (hp_allow_chunked_length r)
    (hp_lenient_http_headers r) (hp_nread r) (hp_content_length r) (hp_http_major r)
    (hp_http_minor r) (hp_status_code r) (hp_method r) (hp_http_errno r)
    (hp_upgrade r) (hp_data r).
Definition set_hp_uses_transfer_encoding (v : bool) (r : http_parser) : http_parser :=
  mk_parser (hp_type r) (hp_flags r) (hp_state r) (hp_header_state r) (hp_index r) v
    (hp_allow_chunked_length r) (hp_lenient_http_headers r) (hp_nread r)
    (hp_content_length r) (hp_http_major r) (hp_http_minor r) (hp_status_code r)
    (hp_method r) (hp_http_errno r) (hp_upgrade r) (hp_data r).
Definition set_hp_allow_chunked_length (v : bool) (r : http_parser) : http_parser :=
  mk_parser (hp_type r) (hp_flags r) (hp_state r) (hp_header_state r) (hp_index r)
    (hp_uses_transfer_encoding r) v (hp_lenient_http_headers r) (hp_nread r)
    (hp_content_length r) (hp_http_major r) (hp_http_minor r) (hp_status_code r)
    (hp_method r) (hp_http_errno r) (hp_upgrade r) (hp_data r).
Definition set_hp_lenient_http_headers (v : bool) (r : http_parser) : http_parser :=
  mk_parser (hp_type r) (hp_flags r) (hp_state r) (hp_header_state r) (hp_index r)
    (hp_uses_transfer_encoding r) (hp_allow_chunked_length r) v (hp_nread r)
    (hp_content_length r) (hp_http_major r) (hp_http_minor r) (hp_status_code r)
    (hp_method r) (hp_http_errno r) (hp_upgrade r) (hp_data r).
Definition set_hp_nread (v : Z) (r : http_parser) : http_parser :=
  mk_parser (hp_type r) (hp_flags r) (hp_state r) (hp_header_state r) (hp_index r)
    (hp_uses_transfer_encoding r) (hp_allow_chunked_length r)
    (hp_lenient_http_headers r) v (hp_content_length r) (hp_http_major r)
    (hp_http_minor r) (hp_status_code r) (hp_method r) (hp_http_errno r)
    (hp_upgrade r) (hp_data r).
Definition set_hp_content_length (v : Z) (r : http_parser) : http_parser :=
  mk_parser (hp_type r) (hp_flags r) (hp_state r) (hp_header_state r) (hp_index r)
    (hp_uses_transfer_encoding r) (hp_allow_chunked_length r)
    (hp_lenient_http_headers r) (hp_nread r) v (hp_http_major r) (hp_http_minor r)
    (hp_status_code r) (hp_method r) (hp_http_errno r) (hp_upgrade r) (hp_data r).
Definition set_hp_http_major (v : Z) (r : http_parser) : http_parser :=
  mk_parser (hp_type r) (hp_flags r) (hp_state r) (hp_header_state r) (hp_index r)
    (hp_uses_transfer_encoding r) (hp_allow_chunked_length r)
    (hp_lenient_http_headers r) (hp_nread r) (hp_content_length r) v (hp_http_minor r)
    (hp_status_code r) (hp_method r) (hp_http_errno r) (hp_upgrade r) (hp_data r).
Definition set_hp_http_minor (v : Z) (r : http_parser) : http_parser :=
  mk_parser (hp_type r) (hp_flags r) (hp_state r) (hp_header_state r) (hp_index r)
    (hp_uses_transfer_encoding r) (hp_allow_chunked_length r)
    (hp_lenient_http_headers r) (hp_nread r) (hp_content_length r) (hp_http_major r) v
    (hp_status_code r) (hp_method r) (hp_http_errno r) (hp_upgrade r) (hp_data r).
Definition set_hp_status_code (v : Z) (r : http_parser) : http_parser :=
  mk_parser (hp_type r) (hp_flags r) (hp_state r) (hp_header_state r) (hp_index r)
    (hp_uses_transfer_encoding r) (hp_allow_chunked_length r)
    (hp_lenient_http_headers r) (hp_nread r) (hp_content_length r) (hp_http_major r)
    (hp_http_minor r) v (hp_method r) (hp_http_errno r) (hp_upgrade r) (hp_data r).
Definition set_hp_method (v : Z) (r : http_parser) : http_parser :=
  mk_parser (hp_type r) (hp_flags r) (hp_state r) (hp_header_state r) (hp_index r)
    (hp_uses_transfer_encoding r) (hp_allow_chunked_length r)
    (hp_lenient_http_headers r) (hp_nread r) (hp_content_length r) (hp_http_major r)
    (hp_http_minor r) (hp_status_code r) v (hp_http_errno r) (hp_upgrade r)
    (hp_data r).
Definition set_hp_http_errno (v : http_errno) (r : http_parser) : http_parser :=
  mk_parser (hp_type r) (hp_flags r) (hp_state r) (hp_header_state r) (hp_index r)
    (hp_uses_transfer_encoding r) (hp_allow_chunked_length r)
    (hp_lenient_http_headers r) (hp_nread r) (hp_content_length r) (hp_http_major r)
    (hp_http_minor r) (hp_status_code r) (hp_method r) v (hp_upgrade r) (hp_data r).
Definition set_hp_upgrade (v : bool) (r : http_parser) : http_parser :=
  mk_parser (hp_type r) (hp_flags r) (hp_state r) (hp_header_state r) (hp_index r)
    (hp_uses_transfer_encoding r) (hp_allow_chunked_length r)
    (hp_lenient_http_headers r) (hp_nread r) (hp_content_length r) (hp_http_major r)
    (hp_http_minor r) (hp_status_code r) (hp_method r) (hp_http_errno r) v (hp_data r).
Definition set_hp_data (v : Z) (r : http_parser) : http_parser :=
  mk_parser (hp_type r) (hp_flags r) (hp_state r) (hp_header_state r) (hp_index r)
    (hp_uses_transfer_encoding r) (hp_allow_chunked_length r)
    (hp_lenient_http_headers r) (hp_nread r) (hp_content_length r) (hp_http_major r)
    (hp_http_minor r) (hp_status_code r) (hp_method r) (hp_http_errno r)
    (hp_upgrade r) v.

Definition has_flag (pr : http_parser) (f : Z) : bool := negb (Z.land (hp_flags pr) f =? 0).
Definition add_flag (f : Z) (pr : http_parser) : http_parser :=
  set_hp_flags (Z.lor (hp_flags pr) f) pr.

(** [parser->index++] of a 5-bit field. *)
Definition incr_index (pr : http_parser) : http_parser :=
  set_hp_index (wrap 5 (hp_index pr + 1)) pr.

(** [memset(parser, 0, ...)] gives the enumerators with value 0; 0 is no
    enumerator of [state], the next assignment replaces it. *)
Definition http_parser_init (t : http_parser_type) (pr : http_parser) : http_parser :=
  mk_parser t 0
    (match t with
     | HTTP_REQUEST => s_start_req
     | HTTP_RESPONSE => s_start_res
     | HTTP_BOTH => s_start_req_or_res
     end)
    h_general 0 false false false 0 0 0 0 0 0 HPE_OK false (hp_data pr).

(** Does the parser need to see an EOF to find the end of the message? *)
Definition http_message_needs_eof (pr : http_parser) : bool :=
  if decide (hp_type pr = HTTP_REQUEST) then false
  else if (hp_status_code pr / 100 =? 1) || (hp_status_code pr =? 204) ||
          (hp_status_code pr =? 304) || has_flag pr F_SKIPBODY then false
  else if hp_uses_transfer_encoding pr && negb (has_flag pr F_CHUNKED) then true
  else if has_flag pr F_CHUNKED || negb (hp_content_length pr =? ULLONG_MAX) then false
  else true.

Definition http_should_keep_alive (pr : http_parser) : bool :=
  if (0 <? hp_http_major pr) && (0 <? hp_http_minor pr) then
    if has_flag pr F_CONNECTION_CLOSE then false else negb (http_message_needs_eof pr)
  else
    if negb (has_flag pr F_CONNECTION_KEEP_ALIVE) then false
    else negb (http_message_needs_eof pr).

(** [None] is the assertion for a parser in an error state. *)
Definition http_parser_pause (pr : http_parser) (paused : bool) : option http_parser :=
  if bool_decide (hp_http_errno pr = HPE_OK) || bool_decide (hp_http_errno pr = HPE_PAUSED)
  then Some (set_hp_http_errno (if paused then HPE_PAUSED else HPE_OK) pr)
  else None.

Definition http_body_is_final (pr : http_parser) : bool :=
  bool_decide (hp_state pr = s_message_done).

Definition http_method_str (m : Z) : list Z :=
  if (0 <=? m) && (m <? zlen method_strings)
  then nth (Z.to_nat m) method_strings [] else str "<unknown>".

Definition start_state (pr : http_parser) : state :=
  if decide (hp_type pr = HTTP_REQUEST) then s_start_req else s_start_res.

(** In strict mode. *)
Definition NEW_MESSAGE (pr : http_parser) : state :=
  if http_should_keep_alive pr then start_state pr else s_dead.

(** The table [http_strerror_tab]. *)
Definition http_strerror_tab (e : http_errno) : string * string :=
  match e with
  | HPE_OK => ("HPE_OK", "success")
  | HPE_CB_message_begin => ("HPE_CB_message_begin", "the on_message_begin callback failed")
  | HPE_CB_url => ("HPE_CB_url", "the on_url callback failed")
  | HPE_CB_header_field => ("HPE_CB_header_field", "the on_header_field callback failed")
  | HPE_CB_header_value => ("HPE_CB_header_value", "the on_header_value callback failed")
  | HPE_CB_headers_complete => ("HPE_CB_headers_complete", "the on_headers_complete callback failed")
  | HPE_CB_body => ("HPE_CB_body", "the on_body callback failed")
  | HPE_CB_message_complete => ("HPE_CB_message_complete", "the on_message_complete callback failed")
  | HPE_CB_status => ("HPE_CB_status", "the on_status callback failed")
  | HPE_CB_chunk_header => ("HPE_CB_chunk_header", "the on_chunk_header callback failed")
  | HPE_CB_chunk_complete => ("HPE_CB_chunk_complete", "the on_chunk_complete callback failed")
  | HPE_INVALID_EOF_STATE => ("HPE_INVALID_EOF_STATE", "stream ended at an unexpected time")
  | HPE_HEADER_OVERFLOW => ("HPE_HEADER_OVERFLOW", "too many header bytes seen; overflow detected")
  | HPE_CLOSED_CONNECTION => ("HPE_CLOSED_CONNECTION", "data received after completed connection: close message")
  | HPE_INVALID_VERSION => ("HPE_INVALID_VERSION", "invalid HTTP version")
  | HPE_INVALID_STATUS => ("HPE_INVALID_STATUS", "invalid HTTP status code")
  | HPE_INVALID_METHOD => ("HPE_INVALID_METHOD", "invalid HTTP method")
  | HPE_INVALID_URL => ("HPE_INVALID_URL", "invalid URL")
  | HPE_INVALID_HOST => ("HPE_INVALID_HOST", "invalid host")
  | HPE_INVALID_PORT => ("HPE_INVALID_PORT", "invalid port")
  | HPE_INVALID_PATH => ("HPE_INVALID_PATH", "invalid path")
  | HPE_INVALID_QUERY_STRING => ("HPE_INVALID_QUERY_STRING", "invalid query string")
  | HPE_INVALID_FRAGMENT => ("HPE_INVALID_FRAGMENT", "invalid fragment")
  | HPE_LF_EXPECTED => ("HPE_LF_EXPECTED", "LF character expected")
  | HPE_INVALID_HEADER_TOKEN => ("HPE_INVALID_HEADER_TOKEN", "invalid character in header")
  | HPE_INVALID_CONTENT_LENGTH => ("HPE_INVALID_CONTENT_LENGTH", "invalid character in content-length header")
  | HPE_UNEXPECTED_CONTENT_LENGTH => ("HPE_UNEXPECTED_CONTENT_LENGTH", "unexpected content-length header")
  | HPE_INVALID_CHUNK_SIZE => ("HPE_INVALID_CHUNK_SIZE", "invalid character in chunk size header")
  | HPE_INVALID_CONSTANT => ("HPE_INVALID_CONSTANT", "invalid constant string")
  | HPE_INVALID_INTERNAL_STATE => ("HPE_INVALID_INTERNAL_STATE", "encountered unexpected internal state")
  | HPE_STRICT => ("HPE_STRICT", "strict mode assertion failed")
  | HPE_PAUSED => ("HPE_PAUSED", "parser is paused")
  | HPE_UNKNOWN => ("HPE_UNKNOWN", "an unknown error occurred")
  | HPE_INVALID_TRANSFER_ENCODING => ("HPE_INVALID_TRANSFER_ENCODING", "request has invalid transfer-encoding")
  end%string.

Definition http_errno_name (e : http_errno) : string := fst (http_strerror_tab e).
Definition http_errno_description (e : http_errno) : string := snd (http_strerror_tab e).

(** [HTTP_STATUS_MAP] *)
Definition http_status_map : list (Z * string) :=
  [
    (100, "Continue");
    (101, "Switching Protocols");
    (102, "Processing");
    (200, "OK");
    (201, "Created");
    (202, "Accepted");
    (203, "Non-Authoritative Information");
    (204, "No Content");
    (205, "Reset Content");
    (206, "Partial Content");
    (207, "Multi-Status");
    (208, "Already Reported");
    (226, "IM Used");
    (300, "Multiple Choices");
    (301, "Moved Permanently");
    (302, "Found");
    (303, "See Other");
    (304, "Not Modified");
    (305, "Use Proxy");
    (307, "Temporary Redirect");
    (308, "Permanent Redirect");
    (400, "Bad Request");
    (401, "Unauthorized");
    (402, "Payment Required");
    (403, "Forbidden");
    (404, "Not Found");
    (405, "Method Not Allowed");
    (406, "Not Acceptable");
    (407, "Proxy Authentication Required");
    (408, "Request Timeout");
    (409, "Conflict");
    (410, "Gone");
    (411, "Length Required");
    (412, "Precondition Failed");
    (413, "Payload Too Large");
    (414, "URI Too Long");
    (415, "Unsupported Media Type");
    (416, "Range Not Satisfiable");
    (417, "Expectation Failed");
    (421, "Misdirected Request");
    (422, "Unprocessable Entity");
    (423, "Locked");
    (424, "Failed Dependency");
    (426, "Upgrade Required");
    (428, "Precondition Required");
    (429, "Too Many Requests");
    (431, "Request Header Fields Too Large");
    (451, "Unavailable For Legal Reasons");
    (500, "Internal Server Error");
    (501, "Not Implemented");
    (502, "Bad Gateway");
    (503, "Service Unavailable");
    (504, "Gateway Timeout");
    (505, "HTTP Version Not Supported");
    (506, "Variant Also Negotiates");
    (507, "Insufficient Storage");
    (508, "Loop Detected");
    (510, "Not Extended");
    (511, "Network Authentication Required")
  ]%string.

Definition http_status_str (s : Z) : string :=
  match List.find (fun e => fst e =? s) http_status_map with
  | Some e => snd e
  | None => "<unknown>"%string
  end.

Definition http_parser_version : Z := Z.lor (Z.lor (2 * 65536) (9 * 256)) 4.

(** * Callbacks *)

Definition http_cb (U : Type) : Type := http_parser -> U -> Z * http_parser * U.
Definition http_data_cb (U : Type) : Type := http_parser -> list Z -> U -> Z * http_parser * U.

Record http_parser_settings (U : Type) := mk_settings {
  on_message_begin : option (http_cb U);
  on_url : option (http_data_cb U);
  on_status : option (http_data_cb U);
  on_header_field : option (http_data_cb U);
  on_header_value : option (http_data_cb U);
  on_headers_complete : option (http_cb U);
  on_body : option (http_data_cb U);
  on_message_complete : option (http_cb U);
  on_chunk_header : option (http_cb U);
  on_chunk_complete : option (http_cb U)
}.
Arguments mk_settings {U}.
Arguments on_message_begin {U}.
Arguments on_url {U}.
Arguments on_status {U}.
Arguments on_header_field {U}.
Arguments on_header_value {U}.
Arguments on_headers_complete {U}.
Arguments on_body {U}.
Arguments on_message_complete {U}.
Arguments on_chunk_header {U}.
Arguments on_chunk_complete {U}.

Definition http_parser_settings_init {U} : http_parser_settings U :=
  mk_settings None None None None None None None None None None.

(** The names that the macros [CALLBACK_NOTIFY] and [CALLBACK_DATA] paste. *)
Inductive notify := message_begin | message_complete | chunk_header | chunk_complete.
Inductive kind := header_field | header_value | url | body | status.

#[export] Instance kind_eq_dec : EqDecision kind.
Proof. solve_decision. Defined.

Definition notify_cb {U} (s : http_parser_settings U) (f : notify) : option (http_cb U) :=
  match f with
  | message_begin => on_message_begin s
  | message_complete => on_message_complete s
  | chunk_header => on_chunk_header s
  | chunk_complete => on_chunk_complete s
  end.

Definition notify_errno (f : notify) : http_errno :=
  match f with
  | message_begin => HPE_CB_message_begin
  | message_complete => HPE_CB_message_complete
  | chunk_header => HPE_CB_chunk_header
  | chunk_complete => HPE_CB_chunk_complete
  end.

Definition data_cb {U} (s : http_parser_settings U) (k : kind) : option (http_data_cb U) :=
  match k with
  | header_field => on_header_field s
  | header_value => on_header_value s
  | url => on_url s
  | body => on_body s
  | status => on_status s
  end.

Definition data_errno (k : kind) : http_errno :=
  match k with
  | header_field => HPE_CB_header_field
  | header_value => HPE_CB_header_value
  | url => HPE_CB_url
  | body => HPE_CB_body
  | status => HPE_CB_status
  end.

(** * Execution *)

(** Transitions between methods with a common prefix. *)
Definition method_changes : list (Z * Z * Z * Z) :=
  ([ (HTTP_POST, 1, "U", HTTP_PUT);
     (HTTP_POST, 1, "A", HTTP_PATCH);
     (HTTP_POST, 1, "R", HTTP_PROPFIND);
     (HTTP_PUT, 2, "R", HTTP_PURGE);
     (HTTP_CONNECT, 1, "H", HTTP_CHECKOUT);
     (HTTP_CONNECT, 2, "P", HTTP_COPY);
     (HTTP_MKCOL, 1, "O", HTTP_MOVE);
     (HTTP_MKCOL, 1, "E", HTTP_MERGE);
     (HTTP_MKCOL, 1, "-", HTTP_MSEARCH);
     (HTTP_MKCOL, 2, "A", HTTP_MKACTIVITY);
     (HTTP_MKCOL, 3, "A", HTTP_MKCALENDAR);
     (HTTP_SUBSCRIBE, 1, "E", HTTP_SEARCH);
     (HTTP_SUBSCRIBE, 1, "O", HTTP_SOURCE);
     (HTTP_REPORT, 2, "B", HTTP_REBIND);
     (HTTP_PROPFIND, 4, "P", HTTP_PROPPATCH);
     (HTTP_LOCK, 1, "I", HTTP_LINK);
     (HTTP_UNLOCK, 2, "S", HTTP_UNSUBSCRIBE);
     (HTTP_UNLOCK, 2, "B", HTTP_UNBIND);
     (HTTP_UNLOCK, 3, "I", HTTP_UNLINK) ])%c.

Definition method_change (m i c : Z) : option Z :=
  (fun e => e.2) <$> List.find (fun e => let '(m', i', c', _) := e in
     (m =? m') && (i =? i') && (c =? c')) method_changes.

(** The method that a first letter selects. *)
Definition start_method (c : Z) : option Z :=
  (if c =? "A" then Some HTTP_ACL
   else if c =? "B" then Some HTTP_BIND
   else if c =? "C" then Some HTTP_CONNECT
   else if c =? "D" then Some HTTP_DELETE
   else if c =? "G" then Some HTTP_GET
   else if c =? "H" then Some HTTP_HEAD
   else if c =? "L" then Some HTTP_LOCK
   else if c =? "M" then Some HTTP_MKCOL
   else if c =? "N" then Some HTTP_NOTIFY
   else if c =? "O" then Some HTTP_OPTIONS
   else if c =? "P" then Some HTTP_POST
   else if c =? "R" then Some HTTP_REPORT
   else if c =? "S" then Some HTTP_SUBSCRIBE
   else if c =? "T" then Some HTTP_TRACE
   else if c =? "U" then Some HTTP_UNLOCK
   else None)%c.

(** The header state after the first character of a field name. *)
Definition field_start_state (c : Z) : header_states :=
  (if c =? "c" then h_C
   else if c =? "p" then h_matching_proxy_connection
   else if c =? "t" then h_matching_transfer_encoding
   else if c =? "u" then h_matching_upgrade
   else h_general)%c.

(** Matching of a constant string, [found] after its last character and [other]
    after a character that is not in it. *)
Definition match_str (s : list Z) (i c : Z) (found stay other : header_states) : header_states :=
  if (zlen s <? i) || negb (c =? str_at s i) then other
  else if i =? zlen s - 1 then found
  else stay.

(** The flag that a finished header value adds. *)
Definition finish_header (pr : http_parser) : http_parser :=
  match hp_header_state pr with
  | h_connection_keep_alive => add_flag F_CONNECTION_KEEP_ALIVE pr
  | h_connection_close => add_flag F_CONNECTION_CLOSE pr
  | h_transfer_encoding_chunked => add_flag F_CHUNKED pr
  | h_connection_upgrade => add_flag F_CONNECTION_UPGRADE pr
  | _ => pr
  end.

(** A new message: [flags = 0], [uses_transfer_encoding = 0] and no length. *)
Definition reset_message (pr : http_parser) : http_parser :=
  set_hp_content_length ULLONG_MAX
    (set_hp_uses_transfer_encoding false (set_hp_flags 0 pr)).

(** How a case of the switch ends. *)
Inductive ctl := Break | Reexecute.

(** The [url_mark = data] cases of the initialisation. *)
Definition in_url (s : state) : bool :=
  match s with
  | s_req_path | s_req_schema | s_req_schema_slash | s_req_schema_slash_slash
  | s_req_server_start | s_req_server | s_req_server_with_at | s_req_query_string_start
  | s_req_query_string | s_req_fragment_start | s_req_fragment => true
  | _ => false
  end.

Section Execute.
Context {U : Type} (settings : http_parser_settings U) (max_header_size : Z).
Context (data : list Z) (lenient allow_chunked_length : bool).

(** The local variables. *)
Record locals := mk_locals {
  x_parser : http_parser;
  x_user : U;
  x_p : Z;                          (* p - data *)
  x_ch : Z;
  x_p_state : state;
  x_nread : Z;
  x_header_field_mark : option Z;
  x_header_value_mark : option Z;
  x_url_mark : option Z;
  x_body_mark : option Z;
  x_status_mark : option Z
}.

Definition set_x_parser (v : http_parser) (r : locals) : locals :=
  mk_locals v (x_user r) (x_p r) (x_ch r) (x_p_state r) (x_nread r)
    (x_header_field_mark r) (x_header_value_mark r) (x_url_mark r) (x_body_mark r)
    (x_status_mark r).
Definition set_x_user (v : U) (r : locals) : locals :=
  mk_locals (x_parser r) v (x_p r) (x_ch r) (x_p_state r) (x_nread r)
    (x_header_field_mark r) (x_header_value_mark r) (x_url_mark r) (x_body_mark r)
    (x_status_mark r).
Definition set_x_p (v : Z) (r : locals) : locals :=
  mk_locals (x_parser r) (x_user r) v (x_ch r) (x_p_state r) (x_nread r)
    (x_header_field_mark r) (x_header_value_mark r) (x_url_mark r) (x_body_mark r)
    (x_status_mark r).
Definition set_x_ch (v : Z) (r : locals) : locals :=
  mk_locals (x_parser r) (x_user r) (x_p r) v (x_p_state r) (x_nread r)
    (x_header_field_mark r) (x_header_value_mark r) (x_url_mark r) (x_body_mark r)
    (x_status_mark r).
Definition set_x_p_state (v : state) (r : locals) : locals :=
  mk_locals (x_parser r) (x_user r) (x_p r) (x_ch r) v (x_nread r)
    (x_header_field_mark r) (x_header_value_mark r) (x_url_mark r) (x_body_mark r)
    (x_status_mark r).
Definition set_x_nread (v : Z) (r : locals) : locals :=
  mk_locals (x_parser r) (x_user r) (x_p r) (x_ch r) (x_p_state r) v
    (x_header_field_mark r) (x_header_value_mark r) (x_url_mark r) (x_body_mark r)
    (x_status_mark r).
Definition set_x_header_field_mark (v : option Z) (r : locals) : locals :=
  mk_locals (x_parser r) (x_user r) (x_p r) (x_ch r) (x_p_state r) (x_nread r) v
    (x_header_value_mark r) (x_url_mark r) (x_body_mark r) (x_status_mark r).
Definition set_x_header_value_mark (v : option Z) (r : locals) : locals :=
  mk_locals (x_parser r) (x_user r) (x_p r) (x_ch r) (x_p_state r) (x_nread r)
    (x_header_field_mark r) v (x_url_mark r) (x_body_mark r) (x_status_mark r).
Definition set_x_url_mark (v : option Z) (r : locals) : locals :=
  mk_locals (x_parser r) (x_user r) (x_p r) (x_ch r) (x_p_state r) (x_nread r)
    (x_header_field_mark r) (x_header_value_mark r) v (x_body_mark r)
    (x_status_mark r).
Definition set_x_body_mark (v : option Z) (r : locals) : locals :=
  mk_locals (x_parser r) (x_user r) (x_p r) (x_ch r) (x_p_state r) (x_nread r)
    (x_header_field_mark r) (x_header_value_mark r) (x_url_mark r) v (x_status_mark r).
Definition set_x_status_mark (v : option Z) (r : locals) : locals :=
  mk_locals (x_parser r) (x_user r) (x_p r) (x_ch r) (x_p_state r) (x_nread r)
    (x_header_field_mark r) (x_header_value_mark r) (x_url_mark r) (x_body_mark r) v.

Definition mark_of (k : kind) (x : locals) : option Z :=
  match k with
  | header_field => x_header_field_mark x
  | header_value => x_header_value_mark x
  | url => x_url_mark x
  | body => x_body_mark x
  | status => x_status_mark x
  end.

Definition set_mark (k : kind) (v : option Z) (x : locals) : locals :=
  match k with
  | header_field => set_x_header_field_mark v x
  | header_value => set_x_header_value_mark v x
  | url => set_x_url_mark v x
  | body => set_x_body_mark v x
  | status => set_x_status_mark v x
  end.

(** ** The monad *)

Inductive xres (A : Type) :=
| Val (a : A) (x : locals)
| Return (v : Z) (pr : http_parser) (u : U)
| Fault.
Arguments Val {A}.
Arguments Return {A}.
Arguments Fault {A}.

Definition X (A : Type) : Type := locals -> xres A.

Definition xret {A} (a : A) : X A := fun x => Val a x.

Definition xbind {A B} (m : X A) (f : A -> X B) : X B := fun x =>
  match m x with
  | Val a x => f a x
  | Return v pr u => Return v pr u
  | Fault => Fault
  end.

Notation "a <- m ; k" := (xbind m (fun a => k))
  (at level 100, m at next level, right associativity).
Notation "m ;; k" := (xbind m (fun _ => k)) (at level 100, right associativity).

Definition fault {A} : X A := fun _ => Fault.
Definition get {A} (f : locals -> A) : X A := fun x => Val (f x) x.
Definition upd (f : locals -> locals) : X unit := fun x => Val tt (f x).
Definition getp {A} (f : http_parser -> A) : X A := get (fun x => f (x_parser x)).
Definition updp (f : http_parser -> http_parser) : X unit :=
  upd (fun x => set_x_parser (f (x_parser x)) x).
Definition xassert (b : bool) : X unit := if b then xret tt else fault.

(** [*p] *)
Definition read : X Z := fun x =>
  if in_range (x_p x) 1 data then Val (nth (Z.to_nat (x_p x)) data 0) x else Fault.

Definition UPDATE_STATE (s : state) : X unit := upd (set_x_p_state s).

(** [SET_ERRNO] *)
Definition SET_ERRNO (e : http_errno) : X unit :=
  upd (fun x => set_x_parser (set_hp_http_errno e (set_hp_nread (x_nread x) (x_parser x))) x).

(** [RETURN] *)
Definition RETURN {A} (v : Z) : X A := fun x =>
  Return v (set_hp_state (x_p_state x) (set_hp_nread (x_nread x) (x_parser x))) (x_user x).

(** The code at the label [error]. *)
Definition goto_error {A} : X A :=
  e <- getp hp_http_errno;
  (if decide (e = HPE_OK) then SET_ERRNO HPE_UNKNOWN else xret tt);;
  p <- get x_p;
  RETURN p.

Definition error {A} (e : http_errno) : X A := SET_ERRNO e;; goto_error.

Definition STRICT_CHECK (cond : bool) : X unit := if cond then error HPE_STRICT else xret tt.

Definition COUNT_HEADER_SIZE (v : Z) : X unit :=
  upd (fun x => set_x_nread (wrap 32 (x_nread x + wrap 32 v)) x);;
  n <- get x_nread;
  if max_header_size <? n then error HPE_HEADER_OVERFLOW else xret tt.

(** What follows the call of a callback: [r], [pr] and [u] are its results. *)
Definition after_callback (e : http_errno) (er r : Z) (pr : http_parser) (u : U) : X unit := fun x =>
  let pr := if r =? 0 then pr else set_hp_http_errno e (set_hp_nread (x_nread x) pr) in
  if decide (hp_http_errno pr = HPE_OK)
  then Val tt (set_x_p_state (hp_state pr) (set_x_user u (set_x_parser pr x)))
  else Return er pr u.

(** [CALLBACK_NOTIFY_] *)
Definition CALLBACK_NOTIFY_ (f : notify) (er : Z) : X unit := fun x =>
  if decide (hp_http_errno (x_parser x) = HPE_OK) then
    match notify_cb settings f with
    | None => Val tt x
    | Some cb =>
        let '(r, pr, u) := cb (set_hp_state (x_p_state x) (x_parser x)) (x_user x) in
        after_callback (notify_errno f) er r pr u x
    end
  else Fault.

Definition CALLBACK_NOTIFY (f : notify) : X unit :=
  p <- get x_p; CALLBACK_NOTIFY_ f (p + 1).
Definition CALLBACK_NOTIFY_NOADVANCE (f : notify) : X unit :=
  p <- get x_p; CALLBACK_NOTIFY_ f p.

(** [CALLBACK_DATA_]; the length is given as the end of the data. *)
Definition CALLBACK_DATA_ (k : kind) (stop er : Z) : X unit := fun x =>
  if decide (hp_http_errno (x_parser x) = HPE_OK) then
    match mark_of k x with
    | None => Val tt x
    | Some m =>
        match data_cb settings k with
        | None => Val tt (set_mark k None x)
        | Some cb =>
            if in_range m (stop - m) data then
              let '(r, pr, u) := cb (set_hp_state (x_p_state x) (x_parser x))
                                    (slice m (stop - m) data) (x_user x) in
              (after_callback (data_errno k) er r pr u;; upd (set_mark k None)) x
            else Fault
        end
    end
  else Fault.

Definition CALLBACK_DATA (k : kind) : X unit := p <- get x_p; CALLBACK_DATA_ k p (p + 1).
Definition CALLBACK_DATA_NOADVANCE (k : kind) : X unit := p <- get x_p; CALLBACK_DATA_ k p p.

Definition MARK (k : kind) : X unit := upd (fun x =>
  match mark_of k x with None => set_mark k (Some (x_p x)) x | Some _ => x end).

Definition brk : X ctl := xret Break.
Definition reexecute : X ctl := xret Reexecute.

Definition goto_state (s : state) : X ctl := UPDATE_STATE s;; brk.

Definition is_crlf (c : Z) : bool := (c =? CR) || (c =? LF).

(** ** Start line *)

Definition case_start_req_or_res (ch : Z) : X ctl :=
  if is_crlf ch then brk
  else
    updp reset_message;;
    if (ch =? "H")%c then
      UPDATE_STATE s_res_or_resp_H;; CALLBACK_NOTIFY message_begin;; brk
    else
      updp (set_hp_type HTTP_REQUEST);; UPDATE_STATE s_start_req;; reexecute.

Definition case_res_or_resp_H (ch : Z) : X ctl :=
  if (ch =? "T")%c then updp (set_hp_type HTTP_RESPONSE);; goto_state s_res_HT
  else if negb (ch =? "E")%c then error HPE_INVALID_CONSTANT
  else
    updp (set_hp_type HTTP_REQUEST);; updp (set_hp_method HTTP_HEAD);; updp (set_hp_index 2);;
    goto_state s_req_method.

Definition case_start_res (ch : Z) : X ctl :=
  if is_crlf ch then brk
  else
    updp reset_message;;
    (if (ch =? "H")%c then UPDATE_STATE s_res_H else error HPE_INVALID_CONSTANT);;
    CALLBACK_NOTIFY message_begin;; brk.

(** A character of a constant: [STRICT_CHECK(ch != c); UPDATE_STATE(s)]. *)
Definition case_constant (ch c : Z) (s : state) : X ctl :=
  STRICT_CHECK (negb (ch =? c));; goto_state s.

(** A digit of the version. *)
Definition case_version (ch : Z) (set : Z -> http_parser -> http_parser) (s : state) : X ctl :=
  if negb (IS_NUM ch) then error HPE_INVALID_VERSION
  else updp (set (ch - 48));; goto_state s.

Definition case_version_char (ch c : Z) (s : state) : X ctl :=
  if negb (ch =? c) then error HPE_INVALID_VERSION else goto_state s.

Definition case_res_first_status_code (ch : Z) : X ctl :=
  if negb (IS_NUM ch) then
    if (ch =? " ")%c then brk else error HPE_INVALID_STATUS
  else updp (set_hp_status_code (ch - 48));; goto_state s_res_status_code.

Definition case_res_status_code (ch : Z) : X ctl :=
  if negb (IS_NUM ch) then
    if (ch =? " ")%c then goto_state s_res_status_start
    else if is_crlf ch then UPDATE_STATE s_res_status_start;; reexecute
    else error HPE_INVALID_STATUS
  else
    updp (fun pr => set_hp_status_code (wrap 16 (hp_status_code pr * 10)) pr);;
    updp (fun pr => set_hp_status_code (wrap 16 (hp_status_code pr + (ch - 48))) pr);;
    c <- getp hp_status_code;
    if 999 <? c then error HPE_INVALID_STATUS else brk.

Definition case_res_status_start (ch : Z) : X ctl :=
  MARK status;; UPDATE_STATE s_res_status;; updp (set_hp_index 0);;
  if is_crlf ch then reexecute else brk.

Definition case_res_status (ch : Z) : X ctl :=
  if ch =? CR then UPDATE_STATE s_res_line_almost_done;; CALLBACK_DATA status;; brk
  else if ch =? LF then UPDATE_STATE s_header_field_start;; CALLBACK_DATA status;; brk
  else brk.

Definition case_start_req (ch : Z) : X ctl :=
  if is_crlf ch then brk
  else
    updp reset_message;;
    if negb (IS_ALPHA ch) then error HPE_INVALID_METHOD
    else
      updp (set_hp_method 0);; updp (set_hp_index 1);;
      match start_method ch with
      | None => error HPE_INVALID_METHOD
      | Some m =>
          updp (set_hp_method m);; UPDATE_STATE s_req_method;;
          CALLBACK_NOTIFY message_begin;; brk
      end.

Definition case_req_method (ch : Z) : X ctl :=
  if ch =? 0 then error HPE_INVALID_METHOD
  else
    m <- getp hp_method; i <- getp hp_index;
    xassert ((0 <=? m) && (m <? zlen method_strings));;
    let matcher := nth (Z.to_nat m) method_strings [] in
    xassert ((0 <=? i) && (i <=? zlen matcher));;
    (if (ch =? " ")%c && (str_at matcher i =? 0) then UPDATE_STATE s_req_spaces_before_url
     else if ch =? str_at matcher i then xret tt
     else if (("A" <=? ch) && (ch <=? "Z") || (ch =? "-"))%c then
       match method_change m i ch with
       | Some m' => updp (set_hp_method m')
       | None => error HPE_INVALID_METHOD
       end
     else error HPE_INVALID_METHOD);;
    updp incr_index;; brk.

(** [UPDATE_STATE(parse_url_char(...))] and the test for [s_dead]. *)
Definition url_step (ch : Z) : X ctl :=
  s <- get x_p_state;
  UPDATE_STATE (parse_url_char s ch);;
  if decide (parse_url_char s ch = s_dead) then error HPE_INVALID_URL else brk.

Definition case_req_spaces_before_url (ch : Z) : X ctl :=
  if (ch =? " ")%c then brk
  else
    MARK url;;
    m <- getp hp_method;
    (if m =? HTTP_CONNECT then UPDATE_STATE s_req_server_start else xret tt);;
    url_step ch.

Definition case_req_schema (ch : Z) : X ctl :=
  if (ch =? " ")%c || is_crlf ch then error HPE_INVALID_URL else url_step ch.

Definition case_req_path (ch : Z) : X ctl :=
  if (ch =? " ")%c then UPDATE_STATE s_req_http_start;; CALLBACK_DATA url;; brk
  else if is_crlf ch then
    updp (set_hp_http_major 0);; updp (set_hp_http_minor 9);;
    UPDATE_STATE (if ch =? CR then s_req_line_almost_done else s_header_field_start);;
    CALLBACK_DATA url;; brk
  else url_step ch.

Definition case_req_http_start (ch : Z) : X ctl :=
  m <- getp hp_method;
  if (ch =? " ")%c then brk
  else if (ch =? "H")%c then goto_state s_req_http_H
  else if (ch =? "I")%c && (m =? HTTP_SOURCE) then goto_state s_req_http_I
  else error HPE_INVALID_CONSTANT.

Definition case_req_http_end (ch : Z) : X ctl :=
  if ch =? CR then goto_state s_req_line_almost_done
  else if ch =? LF then goto_state s_header_field_start
  else error HPE_INVALID_VERSION.

Definition case_req_line_almost_done (ch : Z) : X ctl :=
  if negb (ch =? LF) then error HPE_LF_EXPECTED else goto_state s_header_field_start.

(** ** Header fields *)

Definition case_header_field_start (ch : Z) : X ctl :=
  if ch =? CR then goto_state s_headers_almost_done
  else if ch =? LF then UPDATE_STATE s_headers_almost_done;; reexecute
  else
    let c := TOKEN ch in
    if c =? 0 then error HPE_INVALID_HEADER_TOKEN
    else
      MARK header_field;; updp (set_hp_index 0);; UPDATE_STATE s_header_field;;
      updp (set_hp_header_state (field_start_state c));; brk.

(** [while (p+1 < pe && TOKEN(p[1])) p++], at most [n] steps. *)
Fixpoint skip_token (n : nat) (pe : Z) : X unit :=
  p <- get x_p;
  if p + 1 <? pe then
    match n with
    | O => fault
    | S n =>
        upd (set_x_p (p + 1));; c <- read;
        if TOKEN c =? 0 then upd (set_x_p p) else skip_token n pe
    end
  else xret tt.

(** Matching of a field name; [uses] is set with the state [found]. *)
Definition match_field (s : list Z) (c : Z) (found stay : header_states) (uses : bool) : X unit :=
  updp incr_index;;
  i <- getp hp_index;
  let h := match_str s i c found stay h_general in
  updp (set_hp_header_state h);;
  if uses && bool_decide (h = found) then updp (set_hp_uses_transfer_encoding true) else xret tt.

(** [index++; header_state = c == x ? h : h_general] *)
Definition field_letter (b : bool) (h : header_states) : X unit :=
  updp incr_index;; updp (set_hp_header_state (if b then h else h_general)).

(** The switch on [header_state] for a character of the field name. *)
Definition header_field_char (c ch : Z) : X unit :=
  h <- getp hp_header_state;
  match h with
  | h_general =>
      p <- get x_p;
      let left := zlen data - p in
      skip_token (length data) (p + Z.min left max_header_size)
  | h_C => field_letter (c =? "o")%c h_CO
  | h_CO => field_letter (c =? "n")%c h_CON
  | h_CON =>
      updp incr_index;;
      updp (set_hp_header_state
        (if (c =? "n")%c then h_matching_connection
         else if (c =? "t")%c then h_matching_content_length
         else h_general))
  | h_matching_connection => match_field CONNECTION c h_connection h_matching_connection false
  | h_matching_proxy_connection =>
      match_field PROXY_CONNECTION c h_connection h_matching_proxy_connection false
  | h_matching_content_length =>
      match_field CONTENT_LENGTH c h_content_length h_matching_content_length false
  | h_matching_transfer_encoding =>
      match_field TRANSFER_ENCODING c h_transfer_encoding h_matching_transfer_encoding true
  | h_matching_upgrade => match_field UPGRADE c h_upgrade h_matching_upgrade false
  | h_connection | h_content_length | h_transfer_encoding | h_upgrade =>
      if negb (ch =? " ")%c then updp (set_hp_header_state h_general) else xret tt
  | _ => fault
  end.

(** The loop over the field name, at most [n] iterations. *)
Fixpoint header_field_loop (n : nat) : X unit :=
  p <- get x_p;
  if p =? zlen data then xret tt
  else
    match n with
    | O => fault
    | S n =>
        c <- read; upd (set_x_ch c);;
        if TOKEN c =? 0 then xret tt
        else
          header_field_char (TOKEN c) c;;
          upd (fun x => set_x_p (x_p x + 1) x);;
          header_field_loop n
    end.

Definition case_header_field : X ctl :=
  start <- get x_p;
  header_field_loop (length data);;
  p <- get x_p;
  if p =? zlen data then
    upd (set_x_p (p - 1));; COUNT_HEADER_SIZE (p - 1 - start);; brk
  else
    COUNT_HEADER_SIZE (p - start);;
    ch <- get x_ch;
    if (ch =? ":")%c then
      UPDATE_STATE s_header_value_discard_ws;; CALLBACK_DATA header_field;; brk
    else error HPE_INVALID_HEADER_TOKEN.

(** ** Header values *)

Definition connection_start (c : Z) (other : header_states) : header_states :=
  (if c =? "k" then h_matching_connection_keep_alive
   else if c =? "c" then h_matching_connection_close
   else if c =? "u" then h_matching_connection_upgrade
   else other)%c.

Definition case_header_value_start (ch : Z) : X ctl :=
  MARK header_value;; UPDATE_STATE s_header_value;; updp (set_hp_index 0);;
  let c := LOWER ch in
  h <- getp hp_header_state;
  match h with
  | h_upgrade => updp (add_flag F_UPGRADE);; updp (set_hp_header_state h_general);; brk
  | h_transfer_encoding =>
      updp (set_hp_header_state
        (if (c =? "c")%c then h_matching_transfer_encoding_chunked
         else h_matching_transfer_encoding_token));; brk
  | h_matching_transfer_encoding_token_start => brk
  | h_content_length =>
      if negb (IS_NUM ch) then error HPE_INVALID_CONTENT_LENGTH
      else
        b <- getp (fun pr => has_flag pr F_CONTENTLENGTH);
        if b : bool then error HPE_UNEXPECTED_CONTENT_LENGTH
        else
          updp (add_flag F_CONTENTLENGTH);; updp (set_hp_content_length (ch - 48));;
          updp (set_hp_header_state h_content_length_num);; brk
  | h_content_length_ws => brk
  | h_connection =>
      updp (set_hp_header_state (connection_start c h_matching_connection_token));; brk
  | h_matching_connection_token_start => brk
  | _ => updp (set_hp_header_state h_general);; brk
  end.

Definition case_header_value_discard_ws (ch : Z) : X ctl :=
  if (ch =? " ")%c || (ch =? TAB) then brk
  else if ch =? CR then goto_state s_header_value_discard_ws_almost_done
  else if ch =? LF then goto_state s_header_value_discard_lws
  else case_header_value_start ch.

(** An error that first stores the local header state. *)
Definition value_error {A} (e : http_errno) (h : header_states) : X A :=
  SET_ERRNO e;; updp (set_hp_header_state h);; goto_error.

(** [for (; p != pe; p++)] over a general value; [n] is [pe - p]. *)
Fixpoint general_value (n : nat) : X unit :=
  match n with
  | O => xret tt
  | S n =>
      c <- read; upd (set_x_ch c);;
      if is_crlf c then upd (fun x => set_x_p (x_p x - 1) x)
      else if negb lenient && negb (IS_HEADER_CHAR c) then error HPE_INVALID_HEADER_TOKEN
      else upd (fun x => set_x_p (x_p x + 1) x);; general_value n
  end.

(** A digit of the content length. *)
Definition content_length_digit (ch : Z) : X header_states :=
  if (ch =? " ")%c then xret h_content_length_ws
  else if negb (IS_NUM ch) then value_error HPE_INVALID_CONTENT_LENGTH h_content_length_num
  else
    n <- getp hp_content_length;
    let t := wrap 64 (wrap 64 (n * 10) + (ch - 48)) in
    if (ULLONG_MAX - 10) / 10 <? n
    then value_error HPE_INVALID_CONTENT_LENGTH h_content_length_num
    else updp (set_hp_content_length t);; xret h_content_length_num.

(** [index++] and matching of a token of a header value. *)
Definition match_token (s : list Z) (c : Z) (found stay other : header_states) : X header_states :=
  updp incr_index;; i <- getp hp_index; xret (match_str s i c found stay other).

(** The switch on the local [h_state] for the character [ch], [c] its lower case. *)
Definition header_value_char (h : header_states) (c ch : Z) : X header_states :=
  match h with
  | h_general =>
      p <- get x_p;
      let left := zlen data - p in
      general_value (Z.to_nat (Z.min left max_header_size));;
      p <- get x_p;
      (if p =? zlen data then upd (set_x_p (p - 1)) else xret tt);;
      xret h_general
  | h_connection | h_transfer_encoding => fault
  | h_content_length => if (ch =? " ")%c then xret h else content_length_digit ch
  | h_content_length_num => content_length_digit ch
  | h_content_length_ws =>
      if (ch =? " ")%c then xret h else value_error HPE_INVALID_CONTENT_LENGTH h
  | h_matching_transfer_encoding_token_start =>
      xret (if (c =? "c")%c then h_matching_transfer_encoding_chunked
            else if negb (STRICT_TOKEN c =? 0) then h_matching_transfer_encoding_token
            else if (c =? " ")%c || (c =? TAB) then h
            else h_general)
  | h_matching_transfer_encoding_chunked =>
      match_token CHUNKED c h_transfer_encoding_chunked h h_matching_transfer_encoding_token
  | h_matching_transfer_encoding_token =>
      if (ch =? ",")%c then updp (set_hp_index 0);; xret h_matching_transfer_encoding_token_start
      else xret h
  | h_matching_connection_token_start =>
      xret (connection_start c
        (if negb (STRICT_TOKEN c =? 0) then h_matching_connection_token
         else if (c =? " ")%c || (c =? TAB) then h
         else h_general))
  | h_matching_connection_keep_alive =>
      match_token KEEP_ALIVE c h_connection_keep_alive h h_matching_connection_token
  | h_matching_connection_close =>
      match_token CLOSE c h_connection_close h h_matching_connection_token
  | h_matching_connection_upgrade =>
      match_token UPGRADE c h_connection_upgrade h h_matching_connection_token
  | h_matching_connection_token =>
      if (ch =? ",")%c then updp (set_hp_index 0);; xret h_matching_connection_token_start
      else xret h
  | h_transfer_encoding_chunked =>
      xret (if negb (ch =? " ")%c then h_matching_transfer_encoding_token else h)
  | h_connection_keep_alive | h_connection_close | h_connection_upgrade =>
      if (ch =? ",")%c then
        updp (add_flag
          (match h with
           | h_connection_keep_alive => F_CONNECTION_KEEP_ALIVE
           | h_connection_close => F_CONNECTION_CLOSE
           | _ => F_CONNECTION_UPGRADE
           end));;
        updp (set_hp_index 0);; xret h_matching_connection_token_start
      else if negb (ch =? " ")%c then xret h_matching_connection_token
      else xret h
  | _ => UPDATE_STATE s_header_value;; xret h_general
  end.

(** The loop over the value, at most [n] iterations: [Some h] when it ends with
    the local state [h], [None] when it jumps to [reexecute]. *)
Fixpoint header_value_loop (n : nat) (start : Z) (h : header_states)
    : X (option header_states) :=
  p <- get x_p;
  if p =? zlen data then xret (Some h)
  else
    match n with
    | O => fault
    | S n =>
        c <- read; upd (set_x_ch c);;
        if c =? CR then
          UPDATE_STATE s_header_almost_done;; updp (set_hp_header_state h);;
          CALLBACK_DATA header_value;; xret (Some h)
        else if c =? LF then
          UPDATE_STATE s_header_almost_done;; COUNT_HEADER_SIZE (p - start);;
          updp (set_hp_header_state h);;
          CALLBACK_DATA_NOADVANCE header_value;; xret None
        else if negb lenient && negb (IS_HEADER_CHAR c) then error HPE_INVALID_HEADER_TOKEN
        else
          h <- header_value_char h (LOWER c) c;
          upd (fun x => set_x_p (x_p x + 1) x);;
          header_value_loop n start h
    end.

Definition case_header_value : X ctl :=
  start <- get x_p; h <- getp hp_header_state;
  r <- header_value_loop (length data) start h;
  match r with
  | None => reexecute
  | Some h =>
      updp (set_hp_header_state h);;
      p <- get x_p;
      (if p =? zlen data then upd (set_x_p (p - 1)) else xret tt);;
      p <- get x_p;
      COUNT_HEADER_SIZE (p - start);; brk
  end.

Definition case_header_almost_done (ch : Z) : X ctl :=
  if negb (ch =? LF) then error HPE_LF_EXPECTED else goto_state s_header_value_lws.

Definition case_header_value_lws (ch : Z) : X ctl :=
  if (ch =? " ")%c || (ch =? TAB) then
    updp (fun pr => if decide (hp_header_state pr = h_content_length_num)
                    then set_hp_header_state h_content_length_ws pr else pr);;
    UPDATE_STATE s_header_value_start;; reexecute
  else
    updp finish_header;; UPDATE_STATE s_header_field_start;; reexecute.

Definition case_header_value_discard_lws (ch : Z) : X ctl :=
  if (ch =? " ")%c || (ch =? TAB) then goto_state s_header_value_discard_ws
  else
    h <- getp hp_header_state;
    (if decide (h = h_content_length) then error HPE_INVALID_CONTENT_LENGTH
     else updp finish_header);;
    MARK header_value;; UPDATE_STATE s_header_field_start;;
    CALLBACK_DATA_NOADVANCE header_value;; reexecute.

(** ** End of the headers *)

(** The checks that a message has one length. *)
Definition check_length : X unit :=
  pr <- get x_parser;
  if hp_uses_transfer_encoding pr && has_flag pr F_CONTENTLENGTH then
    if has_flag pr F_CHUNKED then
      if negb allow_chunked_length then error HPE_UNEXPECTED_CONTENT_LENGTH else xret tt
    else if negb lenient then error HPE_UNEXPECTED_CONTENT_LENGTH else xret tt
  else xret tt.

Definition set_upgrade (pr : http_parser) : http_parser :=
  set_hp_upgrade
    (if has_flag pr F_UPGRADE && has_flag pr F_CONNECTION_UPGRADE
     then bool_decide (hp_type pr = HTTP_REQUEST) || (hp_status_code pr =? 101)
     else hp_method pr =? HTTP_CONNECT) pr.

(** The call of [on_headers_complete] and the switch on its value. *)
Definition call_headers_complete : X unit := fun x =>
  match on_headers_complete settings with
  | None => Val tt x
  | Some cb =>
      let '(r, pr, u) := cb (x_parser x) (x_user x) in
      let x := set_x_user u (set_x_parser pr x) in
      if r =? 0 then Val tt x
      else if r =? 2 then
        (updp (set_hp_upgrade true);; updp (add_flag F_SKIPBODY)) x
      else if r =? 1 then updp (add_flag F_SKIPBODY) x
      else (SET_ERRNO HPE_CB_headers_complete;; p <- get x_p; RETURN p) x
  end.

Definition case_headers_almost_done (ch : Z) : X ctl :=
  STRICT_CHECK (negb (ch =? LF));;
  trailing <- getp (fun pr => has_flag pr F_TRAILING);
  if trailing : bool then
    UPDATE_STATE s_message_done;; CALLBACK_NOTIFY_NOADVANCE chunk_complete;; reexecute
  else
    check_length;;
    UPDATE_STATE s_headers_done;;
    updp set_upgrade;;
    call_headers_complete;;
    e <- getp hp_http_errno; p <- get x_p;
    if decide (e = HPE_OK) then reexecute else RETURN p.

(** [UPDATE_STATE(NEW_MESSAGE()); CALLBACK_NOTIFY(message_complete)] *)
Definition finish_message : X unit :=
  s <- getp NEW_MESSAGE;
  UPDATE_STATE s;; CALLBACK_NOTIFY message_complete.

Definition case_headers_done (ch : Z) : X ctl :=
  STRICT_CHECK (negb (ch =? LF));;
  updp (set_hp_nread 0);; upd (set_x_nread 0);;
  pr <- get x_parser; p <- get x_p;
  let hasBody := has_flag pr F_CHUNKED ||
    (0 <? hp_content_length pr) && negb (hp_content_length pr =? ULLONG_MAX) in
  if hp_upgrade pr && ((hp_method pr =? HTTP_CONNECT) || has_flag pr F_SKIPBODY || negb hasBody)
  then finish_message;; RETURN (p + 1)
  else if has_flag pr F_SKIPBODY then finish_message;; brk
  else if has_flag pr F_CHUNKED then goto_state s_chunk_size_start
  else if hp_uses_transfer_encoding pr then
    if bool_decide (hp_type pr = HTTP_REQUEST) && negb lenient then
      SET_ERRNO HPE_INVALID_TRANSFER_ENCODING;; RETURN p
    else goto_state s_body_identity_eof
  else if hp_content_length pr =? 0 then finish_message;; brk
  else if negb (hp_content_length pr =? ULLONG_MAX) then goto_state s_body_identity
  else if negb (http_message_needs_eof pr) then finish_message;; brk
  else goto_state s_body_identity_eof.

(** ** Bodies *)

(** [content_length -= to_read; p += to_read - 1] *)
Definition take_body (to_read : Z) : X unit :=
  updp (fun pr => set_hp_content_length (hp_content_length pr - to_read) pr);;
  upd (fun x => set_x_p (x_p x + to_read - 1) x).

Definition case_body_identity : X ctl :=
  n <- getp hp_content_length; p <- get x_p;
  let to_read := Z.min n (zlen data - p) in
  xassert (negb (n =? 0) && negb (n =? ULLONG_MAX));;
  MARK body;;
  take_body to_read;;
  n <- getp hp_content_length;
  if n =? 0 then
    UPDATE_STATE s_message_done;;
    p <- get x_p;
    CALLBACK_DATA_ body (p + 1) p;; reexecute
  else brk.

Definition case_body_identity_eof : X ctl :=
  MARK body;; upd (set_x_p (zlen data - 1));; brk.

Definition case_message_done : X ctl :=
  finish_message;;
  up <- getp hp_upgrade; p <- get x_p;
  if up : bool then RETURN (p + 1) else brk.

(** ** Chunks *)

Definition assert_chunked : X unit :=
  b <- getp (fun pr => has_flag pr F_CHUNKED); xassert b.

Definition case_chunk_size_start (ch : Z) : X ctl :=
  n <- get x_nread;
  xassert (n =? 1);; assert_chunked;;
  let v := tab unhex ch in
  if v =? -1 then error HPE_INVALID_CHUNK_SIZE
  else updp (set_hp_content_length v);; goto_state s_chunk_size.

Definition case_chunk_size (ch : Z) : X ctl :=
  assert_chunked;;
  if ch =? CR then goto_state s_chunk_size_almost_done
  else
    let v := tab unhex ch in
    if v =? -1 then
      if ((ch =? ";") || (ch =? " "))%c then goto_state s_chunk_parameters
      else error HPE_INVALID_CHUNK_SIZE
    else
      n <- getp hp_content_length;
      let t := wrap 64 (wrap 64 (n * 16) + v) in
      if (ULLONG_MAX - 16) / 16 <? n then error HPE_INVALID_CONTENT_LENGTH
      else updp (set_hp_content_length t);; brk.

Definition case_chunk_parameters (ch : Z) : X ctl :=
  assert_chunked;;
  if ch =? CR then goto_state s_chunk_size_almost_done else brk.

Definition case_chunk_size_almost_done (ch : Z) : X ctl :=
  assert_chunked;;
  STRICT_CHECK (negb (ch =? LF));;
  updp (set_hp_nread 0);; upd (set_x_nread 0);;
  n <- getp hp_content_length;
  (if n =? 0 then updp (add_flag F_TRAILING);; UPDATE_STATE s_header_field_start
   else UPDATE_STATE s_chunk_data);;
  CALLBACK_NOTIFY chunk_header;; brk.

Definition case_chunk_data : X ctl :=
  n <- getp hp_content_length; p <- get x_p;
  let to_read := Z.min n (zlen data - p) in
  assert_chunked;;
  xassert (negb (n =? 0) && negb (n =? ULLONG_MAX));;
  MARK body;;
  take_body to_read;;
  n <- getp hp_content_length;
  if n =? 0 then goto_state s_chunk_data_almost_done else brk.

Definition case_chunk_data_almost_done (ch : Z) : X ctl :=
  assert_chunked;;
  n <- getp hp_content_length; xassert (n =? 0);;
  STRICT_CHECK (negb (ch =? CR));;
  UPDATE_STATE s_chunk_data_done;; CALLBACK_DATA body;; brk.

Definition case_chunk_data_done (ch : Z) : X ctl :=
  assert_chunked;;
  STRICT_CHECK (negb (ch =? LF));;
  updp (set_hp_nread 0);; upd (set_x_nread 0);;
  UPDATE_STATE s_chunk_size_start;; CALLBACK_NOTIFY chunk_complete;; brk.

(** ** The switch and the loop *)

Definition case_dead (ch : Z) : X ctl :=
  if is_crlf ch then brk else error HPE_CLOSED_CONNECTION.

Definition switch (s : state) (ch : Z) : X ctl :=
  match s with
  | s_dead => case_dead ch
  | s_start_req_or_res => case_start_req_or_res ch
  | s_res_or_resp_H => case_res_or_resp_H ch
  | s_start_res => case_start_res ch
  | s_res_H => case_constant ch "T"%c s_res_HT
  | s_res_HT => case_constant ch "T"%c s_res_HTT
  | s_res_HTT => case_constant ch "P"%c s_res_HTTP
  | s_res_HTTP => case_constant ch "/"%c s_res_http_major
  | s_res_http_major => case_version ch set_hp_http_major s_res_http_dot
  | s_res_http_dot => case_version_char ch "."%c s_res_http_minor
  | s_res_http_minor => case_version ch set_hp_http_minor s_res_http_end
  | s_res_http_end => case_version_char ch " "%c s_res_first_status_code
  | s_res_first_status_code => case_res_first_status_code ch
  | s_res_status_code => case_res_status_code ch
  | s_res_status_start => case_res_status_start ch
  | s_res_status => case_res_status ch
  | s_res_line_almost_done => case_constant ch LF s_header_field_start
  | s_start_req => case_start_req ch
  | s_req_method => case_req_method ch
  | s_req_spaces_before_url => case_req_spaces_before_url ch
  | s_req_schema | s_req_schema_slash | s_req_schema_slash_slash | s_req_server_start =>
      case_req_schema ch
  | s_req_server | s_req_server_with_at | s_req_path | s_req_query_string_start
  | s_req_query_string | s_req_fragment_start | s_req_fragment => case_req_path ch
  | s_req_http_start => case_req_http_start ch
  | s_req_http_H => case_constant ch "T"%c s_req_http_HT
  | s_req_http_HT => case_constant ch "T"%c s_req_http_HTT
  | s_req_http_HTT => case_constant ch "P"%c s_req_http_HTTP
  | s_req_http_I => case_constant ch "C"%c s_req_http_IC
  | s_req_http_IC => case_constant ch "E"%c s_req_http_HTTP
  | s_req_http_HTTP => case_constant ch "/"%c s_req_http_major
  | s_req_http_major => case_version ch set_hp_http_major s_req_http_dot
  | s_req_http_dot => case_version_char ch "."%c s_req_http_minor
  | s_req_http_minor => case_version ch set_hp_http_minor s_req_http_end
  | s_req_http_end => case_req_http_end ch
  | s_req_line_almost_done => case_req_line_almost_done ch
  | s_header_field_start => case_header_field_start ch
  | s_header_field => case_header_field
  | s_header_value_discard_ws => case_header_value_discard_ws ch
  | s_header_value_start => case_header_value_start ch
  | s_header_value => case_header_value
  | s_header_almost_done => case_header_almost_done ch
  | s_header_value_lws => case_header_value_lws ch
  | s_header_value_discard_ws_almost_done => case_constant ch LF s_header_value_discard_lws
  | s_header_value_discard_lws => case_header_value_discard_lws ch
  | s_headers_almost_done => case_headers_almost_done ch
  | s_headers_done => case_headers_done ch
  | s_body_identity => case_body_identity
  | s_body_identity_eof => case_body_identity_eof
  | s_message_done => case_message_done
  | s_chunk_size_start => case_chunk_size_start ch
  | s_chunk_size => case_chunk_size ch
  | s_chunk_parameters => case_chunk_parameters ch
  | s_chunk_size_almost_done => case_chunk_size_almost_done ch
  | s_chunk_data => case_chunk_data
  | s_chunk_data_almost_done => case_chunk_data_almost_done ch
  | s_chunk_data_done => case_chunk_data_done ch
  end.

(** The label [reexecute]: the switch until a case breaks, at most [n] times. *)
Fixpoint run_switch (n : nat) : X unit :=
  match n with
  | O => fault
  | S n =>
      s <- get x_p_state; ch <- get x_ch;
      c <- switch s ch;
      match c with
      | Break => xret tt
      | Reexecute => run_switch n
      end
  end.

(** More than any chain of [REEXECUTE]s in one iteration. *)
Definition reexecute_bound : nat := 8.

(** One iteration of the loop over the data, with its increment. *)
Definition iteration : X unit :=
  ch <- read; upd (set_x_ch ch);;
  s <- get x_p_state;
  (if PARSING_HEADER s then COUNT_HEADER_SIZE 1 else xret tt);;
  run_switch reexecute_bound;;
  upd (fun x => set_x_p (x_p x + 1) x).

(** [for (p = data; p != data + len; p++)], at most [n] iterations. *)
Fixpoint loop (n : nat) : X unit :=
  p <- get x_p;
  if p =? zlen data then xret tt
  else match n with O => fault | S n => iteration;; loop n end.

Definition marks_set (x : locals) : Z :=
  let one (m : option Z) := match m with Some _ => 1 | None => 0 end in
  one (x_header_field_mark x) + one (x_header_value_mark x) + one (x_url_mark x) +
  one (x_body_mark x) + one (x_status_mark x).

(** The callbacks for the marks that are left after the loop. *)
Definition flush : X unit :=
  n <- get marks_set; xassert (n <=? 1);;
  CALLBACK_DATA_NOADVANCE header_field;;
  CALLBACK_DATA_NOADVANCE header_value;;
  CALLBACK_DATA_NOADVANCE url;;
  CALLBACK_DATA_NOADVANCE body;;
  CALLBACK_DATA_NOADVANCE status.

(** The locals at the start of the loop. *)
Definition init_locals (pr : http_parser) (u : U) : locals :=
  let s := hp_state pr in
  mk_locals pr u 0 0 s (hp_nread pr)
    (if decide (s = s_header_field) then Some 0 else None)
    (if decide (s = s_header_value) then Some 0 else None)
    (if in_url s then Some 0 else None)
    None
    (if decide (s = s_res_status) then Some 0 else None).

(** [None] is a fault; otherwise the value, the parser and the client's state. *)
Definition outcome {A} (r : xres A) : option (Z * http_parser * U) :=
  match r with
  | Return v pr u => Some (v, pr, u)
  | Val _ _ | Fault => None
  end.

(** The case [len == 0]. *)
Definition execute_eof (pr : http_parser) (u : U) : xres unit :=
  let x := init_locals pr u in
  match hp_state pr with
  | s_body_identity_eof =>
      match CALLBACK_NOTIFY_ message_complete 0 x with
      | Val _ x => Return 0 (x_parser x) (x_user x)
      | r => r
      end
  | s_dead | s_start_req_or_res | s_start_res | s_start_req => Return 0 pr u
  | _ => Return 1 (set_hp_http_errno HPE_INVALID_EOF_STATE (set_hp_nread (hp_nread pr) pr)) u
  end.

Definition execute_data (pr : http_parser) (u : U) : xres unit :=
  (loop (length data);; flush;; RETURN (zlen data)) (init_locals pr u).

End Execute.

Arguments Val {U A}.
Arguments Return {U A}.
Arguments Fault {U A}.

Definition http_parser_execute {U} (settings : http_parser_settings U) (max_header_size : Z)
    (pr : http_parser) (u : U) (data : list Z) : option (Z * http_parser * U) :=
  if decide (hp_http_errno pr = HPE_OK) then
    outcome
      (if zlen data =? 0 then execute_eof settings pr u
       else execute_data settings max_header_size data (hp_lenient_http_headers pr)
              (hp_allow_chunked_length pr) pr u)
  else Some (0, pr, u).
