(* ===== verification/HttpParserSafe.v ===== *)
(** [http_parser_execute] on arbitrary data: an invariant of the parser object
    under which no assertion fails, no read leaves its object and the call
    returns, and which the call keeps. *)
From Stdlib Require Import Strings.String.
From S2P Require Import Prelude HttpChar HttpParser.

(** * The invariant *)

(** Every bit-field holds a value of its width; the method is one of the table. *)
Definition types_ok (pr : http_parser) : Prop :=
  0 <= hp_flags pr < 2 ^ 8 /\ 0 <= hp_index pr < 2 ^ 5 /\ 0 <= hp_nread pr < 2 ^ 32 /\
  0 <= hp_content_length pr < 2 ^ 64 /\ 0 <= hp_http_major pr < 2 ^ 16 /\
  0 <= hp_http_minor pr < 2 ^ 16 /\ 0 <= hp_status_code pr < 2 ^ 16 /\
  0 <= hp_method pr < zlen method_strings.

(** The header states of a field name. *)
Definition field_state (h : header_states) : bool :=
  match h with
  | h_general | h_C | h_CO | h_CON | h_matching_connection | h_matching_proxy_connection
  | h_matching_content_length | h_matching_transfer_encoding | h_matching_upgrade
  | h_connection | h_content_length | h_transfer_encoding | h_upgrade => true
  | _ => false
  end.

(** The header states that do not occur inside of a value. *)
Definition value_state (h : header_states) : bool :=
  match h with h_connection | h_transfer_encoding => false | _ => true end.

Definition method_len (m : Z) : Z := zlen (nth (Z.to_nat m) method_strings []).

(** What holds in a state [s] when [n] header bytes are counted; [k] is the
    count at the start of a chunk size. *)
Definition state_ok (k : Z) (s : state) (pr : http_parser) (n : Z) : Prop :=
  match s with
  | s_req_method => hp_index pr <= method_len (hp_method pr)
  | s_header_field => field_state (hp_header_state pr) = true
  | s_header_value => value_state (hp_header_state pr) = true
  | s_body_identity => 0 < hp_content_length pr < ULLONG_MAX
  | s_chunk_size_start => has_flag pr F_CHUNKED = true /\ n = k
  | s_chunk_size | s_chunk_parameters | s_chunk_size_almost_done =>
      has_flag pr F_CHUNKED = true /\ hp_content_length pr < ULLONG_MAX
  | s_chunk_data => has_flag pr F_CHUNKED = true /\ 0 < hp_content_length pr < ULLONG_MAX
  | s_chunk_data_almost_done => has_flag pr F_CHUNKED = true /\ hp_content_length pr = 0
  | s_chunk_data_done => has_flag pr F_CHUNKED = true
  | _ => True
  end.

(** A parser in an error state only keeps its types: it does nothing more. *)
Definition live (pr : http_parser) : Prop :=
  hp_http_errno pr = HPE_OK \/ hp_http_errno pr = HPE_PAUSED.

Definition parser_inv (pr : http_parser) : Prop :=
  types_ok pr /\ (live pr -> state_ok 0 (hp_state pr) pr (hp_nread pr)).

(** Callbacks leave the parser as it is or pause it. *)
Definition pauses (pr pr' : http_parser) : Prop :=
  pr' = pr \/ pr' = set_hp_http_errno HPE_PAUSED pr.

Definition callbacks_ok {U} (st : http_parser_settings U) : Prop :=
  (forall f cb pr u, notify_cb st f = Some cb -> pauses pr (cb pr u).1.2) /\
  (forall k cb pr bs u, data_cb st k = Some cb -> pauses pr (cb pr bs u).1.2) /\
  (forall cb pr u, on_headers_complete st = Some cb -> pauses pr (cb pr u).1.2).

(** ** Preservation of the types *)

Lemma lor_lt n a b : 0 <= n -> 0 <= a < 2 ^ n -> 0 <= b < 2 ^ n -> 0 <= Z.lor a b < 2 ^ n.
Proof.
  intros Hn Ha Hb. split; [apply Z.lor_nonneg; lia |].
  destruct (Z.eq_dec (Z.lor a b) 0) as [->|Hne]; [apply Z.pow_pos_nonneg; lia |].
  assert (0 < Z.lor a b) by (pose proof (proj2 (Z.lor_nonneg a b)); lia).
  apply Z.log2_lt_pow2; [lia |]. rewrite Z.log2_lor by lia.
  assert (0 < n) by (destruct (Z.eq_dec n 0) as [->|]; [simpl in *; exfalso; apply Hne;
    replace a with 0 by lia; replace b with 0 by lia; done | lia]).
  apply Z.max_lub_lt.
  - destruct (Z.eq_dec a 0) as [->|]; [simpl; lia |]. apply Z.log2_lt_pow2; lia.
  - destruct (Z.eq_dec b 0) as [->|]; [simpl; lia |]. apply Z.log2_lt_pow2; lia.
Qed.

Lemma has_flag_add f g pr :
  has_flag pr f = true -> has_flag (add_flag g pr) f = true.
Proof.
  unfold has_flag, add_flag. simpl. rewrite !negb_true_iff, !Z.eqb_neq.
  rewrite Z.land_lor_distr_l. intros H H'. by apply Z.lor_eq_0_iff in H' as [? _].
Qed.

Lemma types_add_flag f pr : 0 <= f < 2 ^ 8 -> types_ok pr -> types_ok (add_flag f pr).
Proof.
  intros Hf (Hfl & H). split; [| exact H]. simpl. by apply lor_lt.
Qed.

Lemma types_set_content_length n h pr :
  types_ok pr -> 0 <= n < 2 ^ 64 -> types_ok (set_hp_header_state h (set_hp_content_length n pr)).
Proof. unfold types_ok. simpl. lia. Qed.

Lemma connection_start_value c h : value_state h = true -> value_state (connection_start c h) = true.
Proof. intros. unfold connection_start. repeat case_match; done. Qed.

Lemma types_finish_header pr : types_ok pr -> types_ok (finish_header pr).
Proof. intros H. unfold finish_header. case_match; try done; by apply types_add_flag. Qed.

Lemma errno_finish_header pr : hp_http_errno (finish_header pr) = hp_http_errno pr.
Proof. unfold finish_header. by case_match. Qed.

Lemma types_incr_index pr : types_ok pr -> types_ok (incr_index pr).
Proof.
  unfold types_ok, incr_index. simpl. intros H. pose proof (wrap_range 5 (hp_index pr + 1)). lia.
Qed.

Lemma unhex_range c : -1 <= tab unhex c < 16.
Proof.
  unfold tab. destruct (nth_in_or_default (Z.to_nat c) unhex 0) as [Hin | ->]; [| lia].
  assert (forallb (fun v => (-1 <=? v) && (v <? 16)) unhex = true) as H by reflexivity.
  eapply forallb_forall in H; [| exact Hin]. apply andb_true_iff in H as [?%Z.leb_le ?%Z.ltb_lt]. lia.
Qed.

Lemma start_method_range c m :
  start_method c = Some m -> 0 <= m < zlen method_strings /\ 1 <= method_len m.
Proof.
  unfold start_method. intros H.
  repeat (case_match; [injection H as <-; vm_compute; split; [split |]; congruence |]). done.
Qed.

Lemma method_change_range m i c m' :
  method_change m i c = Some m' -> 0 <= m' < zlen method_strings /\ i + 1 <= method_len m'.
Proof.
  unfold method_change. intros H. apply fmap_Some in H as ([[[m0 i0] c0] m1] & Hf & ->).
  apply find_some in Hf as [Hin Hb].
  apply andb_true_iff in Hb as [[_ ->%Z.eqb_eq]%andb_true_iff _].
  assert (forallb (fun e => let '(_, i, _, m) := e in
    (0 <=? m) && (m <? zlen method_strings) && (i + 1 <=? method_len m)) method_changes = true) as Ha
    by reflexivity.
  eapply forallb_forall in Ha; [| exact Hin]. simpl in Ha.
  rewrite !andb_true_iff, !Z.leb_le, Z.ltb_lt in Ha. simpl. lia.
Qed.

(** * Proof rules *)

Section Safe.
Context {U : Type} (settings : http_parser_settings U) (max_header_size : Z).
Context (data : list Z) (lenient allow_chunked_length : bool).
Hypothesis Hcb : callbacks_ok settings.

(** A computation that starts in [x] has no fault; it ends with [Q], or it
    returns a position in the data and a parser in the invariant. *)
Definition ok {A} (m : @X U A) (Q : A -> @locals U -> Prop) (x : @locals U) : Prop :=
  match m x with
  | Val a x' => Q a x'
  | Return v pr u => 0 <= v <= zlen data /\ parser_inv pr
  | Fault => False
  end.

Lemma ok_bind {A B} (m : @X U A) (f : A -> @X U B) Q (x : @locals U) :
  ok m (fun a x' => ok (f a) Q x') x -> ok (xbind m f) Q x.
Proof. unfold ok, xbind. by destruct (m x). Qed.

Lemma ok_mono {A} (m : @X U A) (Q Q' : A -> @locals U -> Prop) (x : @locals U) :
  ok m Q x -> (forall a x', Q a x' -> Q' a x') -> ok m Q' x.
Proof. unfold ok. intros H HQ. destruct (m x); auto. Qed.

Lemma ok_ret {A} (a : A) Q (x : @locals U) : Q a x -> ok (xret a) Q x.
Proof. done. Qed.

Lemma ok_get {A} (f : @locals U -> A) Q (x : @locals U) : Q (f x) x -> ok (get f) Q x.
Proof. done. Qed.

Lemma ok_getp {A} (f : http_parser -> A) Q (x : @locals U) :
  Q (f (x_parser x)) x -> ok (getp f) Q x.
Proof. done. Qed.

Lemma ok_upd f Q (x : @locals U) : Q tt (f x) -> ok (upd f) Q x.
Proof. done. Qed.

Lemma ok_updp f Q (x : @locals U) :
  Q tt (set_x_parser (f (x_parser x)) x) -> ok (updp f) Q x.
Proof. done. Qed.

Lemma ok_assert b Q (x : @locals U) : b = true -> Q tt x -> ok (xassert b) Q x.
Proof. by intros ->. Qed.

Lemma ok_read Q (x : @locals U) :
  0 <= x_p x < zlen data -> Q (nth (Z.to_nat (x_p x)) data 0) x -> ok (read data) Q x.
Proof.
  intros H HQ. unfold ok, read. by rewrite (proj2 (in_range_true _ _ data)) by lia.
Qed.

(** Position, types and counter: what every exit of the function needs. *)
Definition base (x : @locals U) : Prop :=
  0 <= x_p x <= zlen data /\ types_ok (x_parser x) /\ 0 <= x_nread x < 2 ^ 32.

Definition fatal (e : http_errno) : Prop := e <> HPE_OK /\ e <> HPE_PAUSED.

Lemma types_set_nread n pr : types_ok pr -> 0 <= n < 2 ^ 32 -> types_ok (set_hp_nread n pr).
Proof. unfold types_ok. simpl. lia. Qed.

Lemma ok_return_fatal {A} v Q (x : @locals U) :
  0 <= v <= zlen data -> base x -> fatal (hp_http_errno (x_parser x)) ->
  ok (RETURN (A := A) v) Q x.
Proof.
  intros Hv (Hp & Ht & Hn) [He1 He2]. unfold ok, RETURN. split; [done |]. split.
  - by apply types_set_nread.
  - unfold live. simpl. by intros [?|?].
Qed.

Lemma ok_return {A} v Q (x : @locals U) :
  0 <= v <= zlen data -> base x -> state_ok 0 (x_p_state x) (x_parser x) (x_nread x) ->
  ok (RETURN (A := A) v) Q x.
Proof.
  intros Hv (Hp & Ht & Hn) Hs. unfold ok, RETURN. split; [done |]. split.
  - by apply types_set_nread.
  - intros _. exact Hs.
Qed.

Lemma base_errno e (x : @locals U) :
  base x -> base (set_x_parser (set_hp_http_errno e (set_hp_nread (x_nread x) (x_parser x))) x).
Proof. intros (? & ? & ?). split; [done | split; [| done]]. by apply (types_set_nread (x_nread x)). Qed.

Lemma ok_goto_error {A} Q (x : @locals U) :
  base x -> hp_http_errno (x_parser x) <> HPE_PAUSED -> ok (goto_error (A := A)) Q x.
Proof.
  intros Hb He. unfold goto_error. apply ok_bind, ok_getp, ok_bind.
  case_decide as Hd.
  - apply ok_upd, ok_bind, ok_get, ok_return_fatal; [apply Hb | by apply base_errno | done].
  - apply ok_ret, ok_bind, ok_get, ok_return_fatal; [apply Hb | done | done].
Qed.

Lemma ok_error {A} e Q (x : @locals U) :
  base x -> fatal e -> ok (error (A := A) e) Q x.
Proof.
  intros Hb [He1 He2]. unfold error. apply ok_bind, ok_upd, ok_goto_error; [by apply base_errno |].
  done.
Qed.

Lemma ok_value_error {A} e h Q (x : @locals U) :
  base x -> fatal e -> ok (value_error (A := A) e h) Q x.
Proof.
  intros Hb [He1 He2]. unfold value_error. apply ok_bind, ok_upd, ok_bind, ok_updp, ok_goto_error.
  - by apply (base_errno e).
  - done.
Qed.

Lemma ok_strict_check b Q (x : @locals U) :
  base x -> (b = false -> Q tt x) -> ok (STRICT_CHECK b) Q x.
Proof.
  intros Hb HQ. unfold STRICT_CHECK. destruct b; [by apply ok_error | by apply HQ].
Qed.

Lemma ok_count v Q (x : @locals U) :
  base x ->
  (forall n, n = wrap 32 (x_nread x + wrap 32 v) -> n <= max_header_size ->
     0 <= n < 2 ^ 32 -> Q tt (set_x_nread n x)) ->
  ok (COUNT_HEADER_SIZE max_header_size v) Q x.
Proof.
  intros Hb HQ. unfold COUNT_HEADER_SIZE. apply ok_bind, ok_upd, ok_bind, ok_get. simpl.
  pose proof (wrap_range 32 (x_nread x + wrap 32 v) ltac:(lia)) as Hr.
  destruct (Z.ltb_spec max_header_size (wrap 32 (x_nread x + wrap 32 v))).
  - apply ok_error; [| done]. destruct Hb as (? & ? & ?). done.
  - apply ok_ret, HQ; done || lia.
Qed.

(** What a callback leaves: the parser with some stored state. *)
Lemma ok_after_callback e er r pr u Q (x : @locals U) :
  base x -> fatal e -> 0 <= er <= zlen data ->
  hp_http_errno (x_parser x) = HPE_OK ->
  state_ok 0 (x_p_state x) (x_parser x) (hp_nread (x_parser x)) ->
  pauses (set_hp_state (x_p_state x) (x_parser x)) pr ->
  Q tt (set_x_user u (set_x_parser (set_hp_state (x_p_state x) (x_parser x)) x)) ->
  ok (after_callback e er r pr u) Q x.
Proof.
  intros (? & Ht & Hn) [He1 He2] Her Herr Hs Hp HQ. unfold ok, after_callback.
  assert (types_ok pr) as Hpt by (destruct Hp as [-> | ->]; exact Ht).
  destruct (r =? 0) eqn:Er.
  - destruct Hp as [-> | ->]; simpl.
    + rewrite decide_True by done. by destruct x.
    + split; [done |]. split; [exact Ht |]. intros _. exact Hs.
  - rewrite decide_False by done. split; [done |]. split; [by apply types_set_nread |].
    unfold live. simpl. by intros [?|?].
Qed.

Lemma set_x_same (x : @locals U) :
  set_x_user (x_user x) (set_x_parser (set_hp_state (hp_state (x_parser x)) (x_parser x)) x) = x.
Proof. by destruct x as [[] ? ? ? ? ? ? ? ? ? ?]. Qed.

Lemma notify_errno_fatal f : fatal (notify_errno f).
Proof. by destruct f. Qed.

Lemma data_errno_fatal k : fatal (data_errno k).
Proof. by destruct k. Qed.

Lemma ok_notify f er Q (x : @locals U) :
  base x -> 0 <= er <= zlen data -> hp_http_errno (x_parser x) = HPE_OK ->
  state_ok 0 (x_p_state x) (x_parser x) (hp_nread (x_parser x)) ->
  (forall s u, Q tt (set_x_user u (set_x_parser (set_hp_state s (x_parser x)) x))) ->
  ok (CALLBACK_NOTIFY_ settings f er) Q x.
Proof.
  intros Hb Her He Hs HQ. unfold ok, CALLBACK_NOTIFY_. rewrite decide_True by done.
  destruct (notify_cb settings f) as [cb|] eqn:Ec.
  - pose proof (proj1 Hcb f cb (set_hp_state (x_p_state x) (x_parser x)) (x_user x) Ec) as Hp.
    destruct (cb _ _) as [[r pr] u]. apply ok_after_callback; try done.
    apply notify_errno_fatal.
  - rewrite <- (set_x_same x). apply HQ.
Qed.

Lemma set_mark_same k (x : @locals U) : mark_of k x = None -> set_mark k None x = x.
Proof. by destruct x, k; simpl; intros ->. Qed.

Lemma ok_data k stop er Q (x : @locals U) :
  base x -> 0 <= er <= zlen data -> hp_http_errno (x_parser x) = HPE_OK ->
  state_ok 0 (x_p_state x) (x_parser x) (hp_nread (x_parser x)) ->
  (forall m, mark_of k x = Some m -> 0 <= m <= stop) -> stop <= zlen data ->
  (forall s u, Q tt (set_mark k None (set_x_user u (set_x_parser (set_hp_state s (x_parser x)) x)))) ->
  ok (CALLBACK_DATA_ settings data k stop er) Q x.
Proof.
  intros Hb Her He Hs Hm Hstop HQ. unfold ok, CALLBACK_DATA_. rewrite decide_True by done.
  destruct (mark_of k x) as [m|] eqn:Em.
  - destruct (data_cb settings k) as [cb|] eqn:Ec.
    + specialize (Hm m eq_refl). rewrite (proj2 (in_range_true _ _ data)) by lia.
      pose proof (proj1 (proj2 Hcb) k cb (set_hp_state (x_p_state x) (x_parser x))
        (slice m (stop - m) data) (x_user x) Ec) as Hp.
      destruct (cb _ _ _) as [[r pr] u]. apply ok_bind, ok_after_callback; try done;
        [apply data_errno_fatal | apply ok_upd, HQ].
    + rewrite <- (set_x_same x). apply HQ.
  - rewrite <- (set_mark_same k x Em), <- (set_x_same x) at 1. apply HQ.
Qed.

Lemma ok_mark k Q (x : @locals U) :
  0 <= x_p x -> (forall m, mark_of k x = Some m -> 0 <= m <= x_p x) ->
  (forall m, 0 <= m <= x_p x -> Q tt (set_mark k (Some m) x)) -> ok (MARK k) Q x.
Proof.
  intros Hp Hm HQ. unfold MARK. apply ok_upd. destruct (mark_of k x) as [m|] eqn:E.
  - assert (x = set_mark k (Some m) x) as -> by (by destruct x, k; simpl in *; subst).
    apply HQ, Hm. done.
  - apply HQ. lia.
Qed.

(** * The invariant of the loop *)

(** The states in which a mark may be set. *)
Definition mark_state (k : kind) (s : state) : bool :=
  match k with
  | header_field => bool_decide (s = s_header_field)
  | header_value => bool_decide (s = s_header_value)
  | url => in_url s
  | body =>
      match s with
      | s_body_identity | s_body_identity_eof | s_chunk_data | s_chunk_data_almost_done => true
      | _ => false
      end
  | status => bool_decide (s = s_res_status)
  end.

Definition marks_ok (s : state) (x : @locals U) : Prop :=
  forall k m, mark_of k x = Some m -> mark_state k s = true /\ 0 <= m <= x_p x.

Section Switch.
(** The position at the start of the iteration. *)
Context (lo : Z).

(** [k] is 0 between iterations and 1 in the switch. *)
Definition inv (k : Z) (x : @locals U) : Prop :=
  base x /\ lo <= x_p x < zlen data /\ hp_http_errno (x_parser x) = HPE_OK /\
  state_ok k (x_p_state x) (x_parser x) (x_nread x) /\ marks_ok (x_p_state x) x.

(** The order of the jumps to [reexecute]. *)
Definition rank (s : state) : nat :=
  match s with
  | s_header_value_lws | s_header_value_discard_lws => 4
  | s_header_field_start => 3
  | s_headers_almost_done | s_res_status_code => 2
  | s_headers_done | s_res_status_start | s_start_req_or_res | s_header_value
  | s_body_identity => 1
  | _ => 0
  end.

Definition post (s : state) (c : ctl) (x : @locals U) : Prop :=
  match c with
  | Break => inv 0 x
  | Reexecute => inv 1 x /\ (rank (x_p_state x) < rank s)%nat
  end.

Lemma parse_url_char_in_url s ch : parse_url_char s ch <> s_dead -> in_url (parse_url_char s ch) = true.
Proof. unfold parse_url_char. destruct s; repeat case_match; done. Qed.

Lemma in_url_state_ok k s pr n : in_url s = true -> state_ok k s pr n.
Proof. by destruct s. Qed.

(** No mark but that of the URL is set. *)
Definition only_url (x : @locals U) : Prop :=
  forall k m, mark_of k x = Some m -> k = url /\ 0 <= m <= x_p x.

Lemma ok_url_step ch s (x : @locals U) :
  base x -> lo <= x_p x < zlen data -> hp_http_errno (x_parser x) = HPE_OK -> only_url x ->
  ok (url_step ch) (post s) x.
Proof.
  intros Hb [Hlo Hlt] He Hu. unfold url_step. apply ok_bind, ok_get, ok_bind, ok_upd.
  case_decide as Hd; [by apply ok_error |]. apply ok_ret.
  pose proof (parse_url_char_in_url _ _ Hd) as Hin. split_and!; try done.
  - by apply in_url_state_ok.
  - intros k m Hk. assert (mark_of k x = Some m) as Hk' by (destruct k; exact Hk).
    destruct (Hu k m Hk') as [-> ?]. done.
Qed.

(** ** Automation *)

(** One step of symbolic execution. *)
Ltac xstep :=
  match goal with
  | |- ok (xbind _ _) _ _ => apply ok_bind
  | |- ok (xret _) _ _ => apply ok_ret
  | |- ok (get _) _ _ => apply ok_get
  | |- ok (getp _) _ _ => apply ok_getp
  | |- ok (upd _) _ _ => apply ok_upd
  | |- ok (updp _) _ _ => apply ok_updp
  | |- ok (UPDATE_STATE _) _ _ => apply ok_upd
  | |- ok (SET_ERRNO _) _ _ => apply ok_upd
  | |- ok (MARK _) _ _ => apply ok_mark; [| | intros ? ?]
  | |- ok brk _ _ => apply ok_ret
  | |- ok reexecute _ _ => apply ok_ret
  | |- ok (goto_state _) _ _ => unfold goto_state
  | |- ok (if ?b then _ else _) _ _ => let E := fresh "E" in destruct b eqn:E
  | |- ok (url_step _) _ _ => apply ok_url_step
  | |- ok (COUNT_HEADER_SIZE _ _) _ _ => apply ok_count; [| intros ? ? ? ?]
  | |- ok (xassert _) _ _ => apply ok_assert
  | |- ok assert_chunked _ _ => unfold assert_chunked
  | |- ok (STRICT_CHECK _) _ _ => apply ok_strict_check; [| intros ?]
  | |- ok (error _) _ _ => apply ok_error
  | |- ok (value_error _ _) _ _ => apply ok_value_error
  | |- ok (CALLBACK_NOTIFY _ _) _ _ => unfold CALLBACK_NOTIFY
  | |- ok (CALLBACK_NOTIFY_NOADVANCE _ _) _ _ => unfold CALLBACK_NOTIFY_NOADVANCE
  | |- ok (CALLBACK_DATA _ _ _) _ _ => unfold CALLBACK_DATA
  | |- ok (CALLBACK_DATA_NOADVANCE _ _ _) _ _ => unfold CALLBACK_DATA_NOADVANCE
  | |- ok (CALLBACK_NOTIFY_ _ _ _) _ _ => apply ok_notify; [| | | | intros ? ?]
  | |- ok (CALLBACK_DATA_ _ _ _ _ _) _ _ => apply ok_data; [| | | | | | intros ? ?]
  end; cbv beta zeta iota.

(** Closes the conditions on types. *)
Ltac types :=
  repeat match goal with
  | |- context [wrap ?w ?z] =>
      let H := fresh in pose proof (wrap_range w z ltac:(lia)) as H;
      generalize dependent (wrap w z); intros
  end;
  first
    [ assumption
    | apply types_add_flag; [vm_compute; split; congruence | types]
    | apply types_finish_header; types
    | apply (types_set_content_length _ _ _); [types | unfold IS_NUM in *; lia]
    | apply types_incr_index; types
    | unfold types_ok, reset_message, IS_NUM, HTTP_HEAD in *;
      change (zlen method_strings) with 34 in *; cbn in *; unfold ULLONG_MAX in *; lia ].

(** Closes the conditions on marks, all of them given by constructors. *)
Ltac marks :=
  let k := fresh "k" in let m := fresh "m" in let H := fresh "H" in
  intros k m H; destruct k; cbn in H;
  first [ discriminate H | injection H as <-; cbn in *; split; [first [reflexivity | assumption] | lia] ].

Ltac leaf :=
  cbn;
  try match goal with
  | |- context [if ?b then s_req_line_almost_done else _] => destruct b
  | |- context [decide (hp_header_state _ = h_content_length_num)] => case_decide
  end;
  repeat match goal with
  | |- inv _ _ => split; [| split; [| split; [| split]]]
  | |- inv _ _ /\ _ => split
  | |- base _ => split; [| split]
  | |- types_ok _ => progress cbn
  | |- only_url _ => marks
  | |- marks_ok _ _ => marks
  | |- fatal _ => done
  | |- state_ok _ _ _ _ => progress cbn
  end; cbn; rewrite ?errno_finish_header; try done; try lia; try types;
  try (let m := fresh in let H := fresh in intros m H; first [discriminate H | injection H as <-; cbn in *; lia]).

(** The start of a case: [x] with its invariant. *)
Definition pre (s : state) (x : @locals U) : Prop := inv 1 x /\ x_p_state x = s.

Ltac known_mark Hm k m :=
  let H := fresh "H" in let Hb := fresh "Hb" in
  destruct m as [m|];
  [ destruct (Hm k m eq_refl) as [H Hb]; cbn in H; first [discriminate H | clear H; cbn in Hb] |].

Ltac start_case x :=
  let Hi := fresh "Hi" in let Hst := fresh "Hst" in let s' := fresh "s'" in
  intros [Hi Hst];
  destruct Hi as ((Hp & Ht & Hn) & Hlt & He & Hs & Hm);
  destruct x as [pr u p ch' s' n m1 m2 m3 m4 m5]; cbn in Hst; subst s';
  cbn in Hp, Ht, Hn, Hlt, He, Hs;
  known_mark Hm header_field m1; known_mark Hm header_value m2; known_mark Hm url m3;
  known_mark Hm body m4; known_mark Hm status m5; clear Hm.

(** States whose case needs only the rules. *)
Definition plain (s : state) : bool :=
  match s with
  | s_req_method | s_header_field | s_header_value | s_headers_almost_done | s_headers_done
  | s_body_identity | s_body_identity_eof | s_message_done | s_chunk_size_start | s_chunk_size
  | s_chunk_size_almost_done | s_chunk_parameters | s_chunk_data | s_chunk_data_almost_done
  | s_chunk_data_done | s_header_value_start | s_header_value_discard_ws => false
  | _ => true
  end.

Lemma field_start_state_ok c : field_state (field_start_state c) = true.
Proof. unfold field_start_state. repeat case_match; done. Qed.

Lemma plain_ok s ch x :
  plain s = true -> pre s x ->
  ok (switch settings max_header_size data lenient allow_chunked_length s ch) (post s) x.
Proof.
  intros Hpl. destruct s; try discriminate Hpl; clear Hpl; cbn [switch].
  all: start_case x.
  all: unfold case_dead, case_start_req_or_res, case_res_or_resp_H, case_start_res, case_constant,
    case_version, case_version_char, case_res_first_status_code, case_res_status_start,
    case_res_status, case_req_spaces_before_url, case_req_schema, case_req_path, case_req_http_start,
    case_req_http_end, case_req_line_almost_done, case_header_field_start, case_header_almost_done,
    case_res_status_code, case_start_req, case_header_value_lws, case_header_value_discard_lws.
  all: try match goal with |- context [start_method ?c] =>
    destruct (start_method c) as [mth|] eqn:Emth;
      [pose proof (start_method_range _ _ Emth) as [Hmr Hml] |] end.
  all: repeat xstep.
  all: leaf; try apply field_start_state_ok.
Qed.

(** A hexadecimal or decimal digit that passes the overflow test. *)
Lemma digit_bound b n v :
  1 < b -> 0 <= n -> 0 <= v < b -> ((ULLONG_MAX - b) / b <? n) = false ->
  wrap 64 (wrap 64 (n * b) + v) = n * b + v /\ n * b + v < ULLONG_MAX.
Proof.
  intros Hb Hn Hv H. apply Z.ltb_ge in H. unfold ULLONG_MAX in *.
  pose proof (Z.mul_div_le (2 ^ 64 - 1 - b) b ltac:(lia)) as Hd.
  assert (n * b <= 2 ^ 64 - 1 - b) as Hle.
  { transitivity ((2 ^ 64 - 1 - b) / b * b); [apply Z.mul_le_mono_nonneg_r; lia | lia]. }
  assert (0 <= n * b) by nia.
  rewrite (wrap_small 64 (n * b)) by lia. rewrite wrap_small by lia. lia.
Qed.

Ltac chunk_leaf Hs :=
  leaf; try (split; first [exact (proj1 Hs) | exact Hs | idtac]);
  try exact (proj1 Hs); try exact Hs; cbn in *;
  try (unfold types_ok, ULLONG_MAX in *; lia).

Definition chunk_state (s : state) : bool :=
  match s with
  | s_chunk_size_start | s_chunk_size | s_chunk_size_almost_done | s_chunk_parameters
  | s_chunk_data_almost_done | s_chunk_data_done => true
  | _ => false
  end.

Lemma chunk_ok s ch x :
  chunk_state s = true -> pre s x ->
  ok (switch settings max_header_size data lenient allow_chunked_length s ch) (post s) x.
Proof.
  intros Hc. pose proof (unhex_range ch) as Hux.
  destruct s; try discriminate Hc; clear Hc; cbn [switch]; start_case x;
    unfold case_chunk_size_start, case_chunk_size, case_chunk_parameters,
      case_chunk_size_almost_done, case_chunk_data_almost_done, case_chunk_data_done;
    repeat xstep; chunk_leaf Hs.
  destruct (digit_bound 16 (hp_content_length pr) (tab unhex ch)) as [-> ?];
    [done | apply Ht | lia | done | done].
Qed.

Lemma str_at_end s i : 0 <= i -> str_at s i <> 0 -> i < zlen s.
Proof.
  intros Hi Hne. destruct (decide (i < zlen s)) as [|Hge]; [done |]. exfalso. apply Hne.
  unfold str_at. apply nth_overflow. unfold zlen in Hge. lia.
Qed.

Lemma case_req_method_ok ch x :
  pre s_req_method x -> ok (case_req_method ch) (post s_req_method) x.
Proof.
  start_case x. unfold case_req_method.
  pose proof Ht as (_ & Hi & _ & _ & _ & _ & _ & Hmth).
  assert (hp_index pr <= method_len (hp_method pr) <= 11) as Hml.
  { split; [exact Hs |]. unfold method_len.
    destruct (nth_in_or_default (Z.to_nat (hp_method pr)) method_strings []) as [Hin | ->]; [| done].
    assert (forallb (fun s => zlen s <=? 11) method_strings = true) as Ha by reflexivity.
    eapply forallb_forall in Ha; [| exact Hin]. by apply Z.leb_le. }
  assert (wrap 5 (hp_index pr + 1) = hp_index pr + 1) as Hw by (apply wrap_small; lia).
  repeat (xstep; cbn [x_parser]);
    try match goal with |- ok (match ?c with Some _ => _ | None => _ end) _ _ =>
      destruct c as [m'|] eqn:Ec; [apply method_change_range in Ec |]; repeat xstep end;
    leaf.
  - unfold method_len in Hml. lia.
  - rewrite Hw. assert (hp_index pr < method_len (hp_method pr)); [| lia].
    apply str_at_end; lia.
Qed.

Lemma case_body_identity_ok x :
  pre s_body_identity x -> ok (case_body_identity settings data) (post s_body_identity) x.
Proof.
  start_case x; unfold case_body_identity, take_body; repeat xstep; chunk_leaf Hs.
Qed.

Lemma case_body_identity_eof_ok x :
  pre s_body_identity_eof x -> ok (case_body_identity_eof data) (post s_body_identity_eof) x.
Proof.
  start_case x; unfold case_body_identity_eof; repeat xstep; leaf.
Qed.

Lemma case_chunk_data_ok x :
  pre s_chunk_data x -> ok (case_chunk_data data) (post s_chunk_data) x.
Proof.
  start_case x; unfold case_chunk_data, take_body; repeat xstep; chunk_leaf Hs.
Qed.

Lemma case_header_value_start_ok s ch x :
  s = s_header_value_start \/ s = s_header_value_discard_ws -> pre s x ->
  ok (case_header_value_start ch) (post s) x.
Proof.
  intros Hor; destruct Hor as [-> | ->]; start_case x; unfold case_header_value_start;
    repeat xstep;
    try (destruct (hp_header_state _) eqn:Eh; cbn in Eh; repeat xstep);
    leaf; rewrite ?Eh; try done; by first [apply connection_start_value | case_match].
Qed.

Lemma case_header_value_discard_ws_ok ch x :
  pre s_header_value_discard_ws x ->
  ok (case_header_value_discard_ws ch) (post s_header_value_discard_ws) x.
Proof.
  intros Hpre. unfold case_header_value_discard_ws.
  destruct ((ch =? 32) || (ch =? TAB)); [| destruct (ch =? CR); [| destruct (ch =? LF);
    [| by apply case_header_value_start_ok; [right |]]]];
    revert Hpre; start_case x; repeat xstep; leaf.
Qed.

(** ** The end of a message *)

(** A [RETURN] after an error or of a live parser. *)
Ltac returns :=
  try match goal with
  | |- ok (RETURN _) _ _ =>
      first [apply ok_return_fatal; [| | by cbn] | apply ok_return]
  end.

Lemma NEW_MESSAGE_cases pr :
  NEW_MESSAGE pr = s_dead \/ NEW_MESSAGE pr = s_start_req \/ NEW_MESSAGE pr = s_start_res.
Proof. unfold NEW_MESSAGE, start_state. repeat case_match; auto. Qed.

Lemma case_message_done_ok x :
  pre s_message_done x -> ok (case_message_done settings) (post s_message_done) x.
Proof.
  start_case x; unfold case_message_done, finish_message; repeat xstep; returns; cbn;
    destruct (NEW_MESSAGE_cases pr) as [En | [En | En]]; rewrite ?En; leaf.
Qed.

Lemma case_headers_done_ok ch x :
  pre s_headers_done x ->
  ok (case_headers_done settings lenient ch) (post s_headers_done) x.
Proof.
  start_case x; unfold case_headers_done, finish_message; repeat xstep; returns;
    try match goal with |- context [NEW_MESSAGE ?q] =>
      destruct (NEW_MESSAGE_cases q) as [En | [En | En]]; rewrite ?En end;
    leaf; cbn in *; try (by split); unfold types_ok, ULLONG_MAX in *; lia.
Qed.

Lemma ok_check_length Q x :
  base x -> Q tt x -> ok (check_length lenient allow_chunked_length) Q x.
Proof. intros Hb HQ. unfold check_length. repeat xstep; done. Qed.

Lemma types_set_upgrade b pr : types_ok pr -> types_ok (set_hp_upgrade b pr).
Proof. done. Qed.

Lemma ok_headers_complete Q (x : @locals U) :
  base x -> hp_http_errno (x_parser x) = HPE_OK ->
  (forall pr u, types_ok pr -> live pr -> Q tt (set_x_user u (set_x_parser pr x))) ->
  ok (call_headers_complete settings) Q x.
Proof.
  intros (Hp & Ht & Hn) He HQ. unfold ok, call_headers_complete.
  destruct (on_headers_complete settings) as [cb|] eqn:Ec.
  - pose proof (proj2 (proj2 Hcb) cb (x_parser x) (x_user x) Ec) as Hpa.
    destruct (cb _ _) as [[r pr] u]. cbn in Hpa.
    assert (types_ok pr /\ live pr) as [Htp Hl].
    { unfold live. destruct Hpa as [-> | ->]; [auto |]. split; [exact Ht | by right]. }
    destruct (r =? 0); [by apply HQ |]. destruct (r =? 2); [| destruct (r =? 1)]; cbn.
    + apply (HQ (add_flag F_SKIPBODY (set_hp_upgrade true pr))); [| done].
      by apply types_add_flag.
    + apply (HQ (add_flag F_SKIPBODY pr)); [| done]. by apply types_add_flag.
    + split; [done |]. split; [unfold types_ok in *; cbn in *; lia |].
      unfold live. cbn. by intros [?|?].
  - destruct x. apply (HQ _ _ Ht). by left.
Qed.

Lemma case_headers_almost_done_ok ch x :
  pre s_headers_almost_done x ->
  ok (case_headers_almost_done settings lenient allow_chunked_length ch) (post s_headers_almost_done) x.
Proof.
  start_case x; unfold case_headers_almost_done; repeat xstep; try solve [leaf].
  apply ok_check_length; [leaf |]. repeat xstep.
  apply ok_headers_complete; [leaf | done |]. intros pr' u' Ht' Hl. repeat xstep.
  - leaf.
  - apply ok_return; leaf.
Qed.

(** ** Field names *)

(** Inside of a token that is marked as [k], in the state [s]; at [start] or later. *)
Definition token_inv (k : kind) (s : state) (start : Z) (x : @locals U) : Prop :=
  base x /\ start <= x_p x /\ hp_http_errno (x_parser x) = HPE_OK /\ x_p_state x = s /\
  forall k' m, mark_of k' x = Some m -> k' = k /\ 0 <= m <= start.

Lemma token_inv_parser k s start (f : http_parser -> http_parser) (x : @locals U) :
  (forall pr, types_ok pr -> types_ok (f pr)) ->
  (forall pr, hp_http_errno (f pr) = hp_http_errno pr) ->
  token_inv k s start x -> token_inv k s start (set_x_parser (f (x_parser x)) x).
Proof.
  intros Hf He ((Hp & Ht & Hn) & Hge & Herr & Hs & Hm). split_and!; try done.
  - split; [done | split; [by apply Hf | done]].
  - cbn. by rewrite He.
Qed.

Lemma token_inv_p k s start p (x : @locals U) :
  start <= p -> 0 <= p <= zlen data -> token_inv k s start x -> token_inv k s start (set_x_p p x).
Proof.
  intros Hs Hp (Hb & Hge & Herr & Hst & Hm). destruct Hb as (? & ? & ?).
  split_and!; done.
Qed.

Lemma token_inv_ch k s start c (x : @locals U) :
  token_inv k s start x -> token_inv k s start (set_x_ch c x).
Proof.
  intros (Hb & Hge & Herr & Hst & Hm). split_and!; done.
Qed.

Definition field_inv (start : Z) (x : @locals U) : Prop :=
  token_inv header_field s_header_field start x /\ field_state (hp_header_state (x_parser x)) = true.

Lemma ok_skip_token n pe Q (x : @locals U) :
  0 <= x_p x -> pe <= zlen data -> pe - x_p x - 1 <= Z.of_nat n ->
  (forall p, x_p x <= p < Z.max pe (x_p x + 1) -> Q tt (set_x_p p x)) ->
  ok (skip_token data n pe) Q x.
Proof.
  revert x. induction n as [|n IH]; intros x Hp Hpe Hn HQ; cbn [skip_token];
    apply ok_bind, ok_get.
  - rewrite (proj2 (Z.ltb_ge _ _)) by lia. apply ok_ret. destruct x; apply (HQ x_p). cbn in *. lia.
  - destruct (Z.ltb_spec (x_p x + 1) pe).
    + apply ok_bind, ok_upd, ok_bind, ok_read; [cbn; lia |]. destruct (TOKEN _ =? 0).
      * apply ok_upd. destruct x. apply (HQ x_p). cbn in *. lia.
      * apply IH; cbn; try lia. intros p Hlt. destruct x. apply (HQ p). cbn in *. lia.
    + apply ok_ret. destruct x; apply (HQ x_p). cbn in *. lia.
Qed.

Lemma match_str_field s i c f st :
  field_state f = true -> field_state st = true -> field_state (match_str s i c f st h_general) = true.
Proof. intros. unfold match_str. repeat case_match; done. Qed.

Lemma field_inv_set start f (x : @locals U) :
  (forall pr, types_ok pr -> types_ok (f pr)) ->
  (forall pr, hp_http_errno (f pr) = hp_http_errno pr) ->
  field_state (hp_header_state (f (x_parser x))) = true ->
  field_inv start x -> field_inv start (set_x_parser (f (x_parser x)) x).
Proof. intros Hf He Hs [Ht _]. split; [by apply token_inv_parser | done]. Qed.

Lemma ok_match_field start s c f st b (x : @locals U) Q :
  field_state f = true -> field_state st = true -> field_inv start x ->
  (forall x', field_inv start x' -> x_p x' = x_p x -> Q tt x') ->
  ok (match_field s c f st b) Q x.
Proof.
  intros Hf Hst Hi HQ. unfold match_field.
  apply ok_bind, ok_updp, ok_bind, ok_getp, ok_bind, ok_updp.
  set (h := match_str _ _ _ _ _ _).
  assert (field_inv start (set_x_parser (set_hp_header_state h (incr_index (x_parser x))) x)) as Hi'.
  { apply (field_inv_set start (fun pr => set_hp_header_state h (incr_index pr))); [| done | | done].
    - intros pr. apply types_incr_index.
    - by apply match_str_field. }
  destruct (b && bool_decide (h = f)).
  - apply ok_updp, HQ; [| done].
    apply (field_inv_set start (set_hp_uses_transfer_encoding true)) in Hi'; [done | done | done |].
    apply Hi'.
  - by apply ok_ret, HQ.
Qed.

Lemma ok_header_field_char start c ch (x : @locals U) Q :
  field_inv start x -> x_p x < zlen data -> start <= x_p x ->
  (forall x', field_inv start x' -> x_p x <= x_p x' < zlen data -> Q tt x') ->
  ok (header_field_char max_header_size data c ch) Q x.
Proof.
  intros Hi Hlt Hge HQ. pose proof Hi as [((Hp & Ht & Hn) & _) Hfs].
  unfold header_field_char. apply ok_bind, ok_getp.
  assert (forall f, (forall pr, types_ok pr -> types_ok (f pr)) ->
    (forall pr, hp_http_errno (f pr) = hp_http_errno pr) ->
    field_state (hp_header_state (f (x_parser x))) = true ->
    Q tt (set_x_parser (f (x_parser x)) x)) as Hset.
  { intros f Hf He Hs. apply HQ; [by apply field_inv_set | cbn; lia]. }
  destruct (hp_header_state (x_parser x)) eqn:Eh; try discriminate Hfs; unfold field_letter;
    first
    [ by apply (ok_match_field start); [done | done | done | intros x' Hx' Hp'; apply HQ; [done | lia]]
    | apply ok_bind, ok_updp, ok_updp;
      match goal with |- _ tt (set_x_parser (set_hp_header_state ?h _) _) =>
        apply (Hset (fun pr => set_hp_header_state h (incr_index pr)));
          [intros pr; apply types_incr_index | done | cbn; repeat case_match; done] end
    | case_match; [apply ok_updp, (Hset (set_hp_header_state h_general)); done |
        apply ok_ret, HQ; [done | lia]]
    | idtac ].
  apply ok_bind, ok_get, ok_skip_token; try (unfold zlen in *; lia).
  intros p Hle. apply HQ; [| cbn; lia]. destruct Hi as [Hi ?]. split; [| done].
  apply token_inv_p; [lia | lia | done].
Qed.

Lemma ok_header_field_loop n start (x : @locals U) Q :
  field_inv start x -> zlen data - x_p x <= Z.of_nat n ->
  (forall x', field_inv start x' -> Q tt x') ->
  ok (header_field_loop max_header_size data n) Q x.
Proof.
  revert x. induction n as [|n IH]; intros x Hi Hn HQ; cbn [header_field_loop];
    apply ok_bind, ok_get; pose proof Hi as [((Hp & _) & Hge & _) _].
  - rewrite (proj2 (Z.eqb_eq _ _)) by lia. by apply ok_ret, HQ.
  - destruct (Z.eqb_spec (x_p x) (zlen data)); [by apply ok_ret, HQ |].
    apply ok_bind, ok_read; [lia |]. apply ok_bind, ok_upd.
    assert (forall c, field_inv start (set_x_ch c x)) as Hc.
    { intros c. destruct Hi as [Hi ?]. split; [by apply token_inv_ch | done]. }
    destruct (TOKEN _ =? 0); [apply ok_ret, HQ, Hc |].
    apply ok_bind, (ok_header_field_char start); [apply Hc | cbn; lia | cbn; lia |].
    intros x' Hx' Hp'. cbn in Hp'. apply ok_bind, ok_upd, IH; [| cbn; lia | done].
    destruct Hx' as [Hx' ?]. pose proof Hx' as (_ & ? & _). split; [| done].
    apply token_inv_p; [lia | lia | done].
Qed.

Lemma token_inv_start k s (x : @locals U) :
  pre s x -> (forall k', mark_state k' s = true -> k' = k) -> token_inv k s (x_p x) x.
Proof.
  intros [(Hb & Hlt & He & Hs & Hm) Hst] Hk. split_and!; try done.
  intros k' m Hk'. apply Hm in Hk' as [Hk' ?]. rewrite Hst in Hk'. by split; [apply Hk |].
Qed.

Lemma case_header_field_ok x :
  pre s_header_field x ->
  ok (case_header_field settings max_header_size data) (post s_header_field) x.
Proof.
  intros Hpre. assert (field_inv (x_p x) x /\ 0 <= x_p x < zlen data /\ lo <= x_p x) as [Hi Hlt].
  { split; [split; [apply token_inv_start; [done | by intros []] |] |].
    - destruct Hpre as [(_ & _ & _ & Hs & _) Hst]. by rewrite Hst in Hs.
    - destruct Hpre as [((? & _) & ? & _) _]. lia. }
  clear Hpre. unfold case_header_field. apply ok_bind, ok_get, ok_bind.
  apply (ok_header_field_loop _ (x_p x)); [done | unfold zlen in *; lia |].
  intros x' [Hi' Hf']. generalize dependent (x_p x). intros start _ Hst Hi'. clear x.
  destruct Hi' as ((Hp & Ht & Hn) & Hge & He & Hs & Hm).
  destruct x' as [pr u p ch s n m1 m2 m3 m4 m5]. cbn in *. subst s.
  known_mark Hm header_field m1; known_mark Hm header_value m2; known_mark Hm url m3;
    known_mark Hm body m4; known_mark Hm status m5; clear Hm;
    apply ok_bind, ok_get; cbn [x_p]; destruct (Z.eqb_spec p (zlen data)); repeat xstep; leaf.
Qed.

(** ** Header values *)

Lemma ok_general_value n low (x : @locals U) Q :
  base x -> 0 <= low -> low + 1 <= x_p x -> x_p x + Z.of_nat n <= zlen data ->
  (forall p c, low <= p <= x_p x + Z.of_nat n -> Q tt (set_x_p p (set_x_ch c x))) ->
  ok (general_value data lenient n) Q x.
Proof.
  revert x. induction n as [|n IH]; intros x Hb Hlow Hlt Hn HQ; cbn [general_value].
  - apply ok_ret. destruct x. apply (HQ x_p x_ch). cbn in *. lia.
  - destruct Hb as (Hp & Ht & Hr).
    apply ok_bind, ok_read; [lia |]. set (c := nth _ _ _). apply ok_bind, ok_upd.
    destruct (is_crlf c); [| destruct (negb lenient && negb (IS_HEADER_CHAR c))].
    + apply ok_upd. destruct x. apply (HQ (x_p - 1) c). cbn in *. lia.
    + apply ok_error; [split; [cbn; lia | done] | done].
    + apply ok_bind, ok_upd, IH; try (cbn; lia).
      * split; [cbn; lia | done].
      * intros p c' Hpc. destruct x. apply (HQ p c'). cbn in *. lia.
Qed.

Definition value_inv (start : Z) : @locals U -> Prop := token_inv header_value s_header_value start.

Lemma match_str_value s i c f st o :
  value_state f = true -> value_state st = true -> value_state o = true ->
  value_state (match_str s i c f st o) = true.
Proof. intros. unfold match_str. repeat case_match; done. Qed.

Lemma ok_match_token start s c f st o (x : @locals U) Q :
  value_state f = true -> value_state st = true -> value_state o = true ->
  value_inv start x ->
  (forall h x', value_inv start x' -> x_p x' = x_p x -> value_state h = true -> Q h x') ->
  ok (match_token s c f st o) Q x.
Proof.
  intros Hf Hst Ho Hi HQ. unfold match_token.
  apply ok_bind, ok_updp, ok_bind, ok_getp, ok_ret, HQ; [| done | by apply match_str_value].
  apply token_inv_parser; [apply types_incr_index | done | done].
Qed.

Lemma ok_content_length_digit start c (x : @locals U) Q :
  value_inv start x ->
  (forall h x', value_inv start x' -> x_p x' = x_p x -> value_state h = true -> Q h x') ->
  ok (content_length_digit c) Q x.
Proof.
  intros Hi HQ. pose proof Hi as (Hb & _). unfold content_length_digit. repeat xstep; auto; try done.
  apply HQ; [| done | done].
  apply (token_inv_parser _ _ _ (set_hp_content_length
    (wrap 64 (wrap 64 (hp_content_length (x_parser x) * 10) + (c - 48))))); [| done | done].
  intros pr Ht. pose proof (wrap_range 64 (wrap 64 (hp_content_length (x_parser x) * 10) + (c - 48))).
  unfold types_ok in *. cbn in *. lia.
Qed.

Lemma value_inv_set start f (x : @locals U) :
  (forall pr, types_ok pr -> types_ok (f pr)) ->
  (forall pr, hp_http_errno (f pr) = hp_http_errno pr) ->
  value_inv start x -> value_inv start (set_x_parser (f (x_parser x)) x).
Proof. apply token_inv_parser. Qed.

(** The case [h_general] of the switch. *)
Lemma ok_general_char start ch c (x : @locals U) Q :
  value_inv start x -> x_p x < zlen data -> 0 <= start ->
  is_crlf (nth (Z.to_nat (x_p x)) data 0) = false ->
  (forall x', value_inv start x' -> x_p x <= x_p x' < zlen data -> Q h_general x') ->
  ok (header_value_char max_header_size data lenient h_general c ch) Q x.
Proof.
  intros Hi Hlt Hst Hcr HQ. pose proof Hi as (Hb & Hge & _). destruct Hb as (Hp & Ht & Hn).
  cbn [header_value_char]. apply ok_bind, ok_get, ok_bind.
  assert (forall p c', x_p x <= p <= zlen data ->
    ok (xbind (get x_p) (fun p => xbind (if p =? zlen data then upd (set_x_p (p - 1)) else xret tt)
          (fun _ => xret h_general))) Q (set_x_p p (set_x_ch c' x))) as Hend.
  { intros p c' Hpc. apply ok_bind, ok_get. cbn.
    destruct (Z.eqb_spec p (zlen data)); apply ok_bind; [apply ok_upd | apply ok_ret];
      apply ok_ret, HQ; try (cbn; lia);
      repeat (apply token_inv_p; [lia | lia |]); by apply token_inv_ch. }
  destruct (Z.to_nat (Z.min (zlen data - x_p x) max_header_size)) as [|n] eqn:En; cbn [general_value].
  - apply ok_ret. destruct x. apply (Hend x_p x_ch). cbn in *. lia.
  - apply ok_bind, ok_read; [lia |].
    rewrite Hcr. apply ok_bind, ok_upd. case_match; [apply ok_error; [split; [cbn; lia | done] | done] |].
    apply ok_bind, ok_upd, (ok_general_value _ (x_p x)); try (cbn; lia).
    + split; [cbn; lia | done].
    + intros p c' Hpc. destruct x. apply (Hend p c'). cbn in *. lia.
Qed.

Lemma ok_header_value_char start h c ch (x : @locals U) Q :
  value_inv start x -> value_state h = true -> x_p x < zlen data -> 0 <= start ->
  is_crlf (nth (Z.to_nat (x_p x)) data 0) = false ->
  (forall h' x', value_inv start x' -> x_p x <= x_p x' < zlen data -> value_state h' = true -> Q h' x') ->
  ok (header_value_char max_header_size data lenient h c ch) Q x.
Proof.
  intros Hi Hh Hlt Hst Hcr HQ. pose proof Hi as (Hb & Hge & _ & Hps & _).
  assert (forall h' x', value_inv start x' -> x_p x' = x_p x -> value_state h' = true -> Q h' x') as HQ0.
  { intros h' x' Hx' Hp' Hh'. apply HQ; [done | lia | done]. }
  assert (forall f h', (forall pr, types_ok pr -> types_ok (f pr)) ->
    (forall pr, hp_http_errno (f pr) = hp_http_errno pr) -> value_state h' = true ->
    Q h' (set_x_parser (f (x_parser x)) x)) as Hset.
  { intros f h' Hf He Hh'. apply HQ0; [by apply value_inv_set | done | done]. }
  assert (forall f, 0 <= f < 2 ^ 8 ->
    ok (xbind (updp (add_flag f)) (fun _ => xbind (updp (set_hp_index 0))
          (fun _ => xret h_matching_connection_token_start))) Q x) as Hflag.
  { intros f Hf. apply ok_bind, ok_updp, ok_bind, ok_updp, ok_ret.
    apply (Hset (fun pr => set_hp_index 0 (add_flag f pr))); [| done | done].
    intros pr Hpr. apply (types_add_flag f) in Hpr; [| done]. unfold types_ok in *. cbn in *. lia. }
  assert (set_x_p_state s_header_value x = x) as Hsame by (destruct x; cbn in *; by subst).
  destruct h eqn:Eh; try discriminate Hh;
    [by apply (ok_general_char start); auto |..]; cbn [header_value_char];
    repeat match goal with |- ok (if ?b then _ else _) _ _ => destruct b end;
    first
    [ apply ok_bind, ok_upd, ok_ret; rewrite Hsame; by apply HQ0
    | apply (ok_match_token start); done
    | apply (ok_content_length_digit start); done
    | apply ok_value_error; done
    | apply ok_bind, ok_updp, ok_ret, (Hset (set_hp_index 0)); [| done | done];
      intros pr Hpr; unfold types_ok in *; cbn in *; lia
    | apply Hflag; done
    | apply ok_ret, HQ0; [done | done | first [done | apply connection_start_value; repeat case_match; done | repeat case_match; done]]
    | idtac ].
Qed.

(** After the end of a value. *)
Definition value_done (start : Z) (x : @locals U) : Prop :=
  base x /\ start <= x_p x < zlen data /\ hp_http_errno (x_parser x) = HPE_OK /\
  x_p_state x = s_header_almost_done /\ forall k, mark_of k x = None.

Lemma value_inv_done start (x : @locals U) h s u n :
  value_inv start x -> x_p x < zlen data -> 0 <= n < 2 ^ 32 ->
  value_done start (set_mark header_value None (set_x_user u (set_x_parser
    (set_hp_state s (set_hp_header_state h (x_parser x)))
    (set_x_nread n (set_x_p_state s_header_almost_done x))))).
Proof.
  intros ((Hp & Ht & Hn) & Hge & He & Hs & Hm) Hlt Hn'. split_and!; try done.
  intros k. destruct (mark_of k x) as [m|] eqn:Ek; [| destruct k; done].
  apply Hm in Ek as [-> _]. done.
Qed.

Lemma ok_header_value_loop n start h (x : @locals U) Q :
  value_inv start x -> value_state h = true -> 0 <= start -> zlen data - x_p x <= Z.of_nat n ->
  (forall h' x', value_inv start x' -> x_p x' = zlen data -> value_state h' = true -> Q (Some h') x') ->
  (forall h' x', value_done start x' -> Q (Some h') x') ->
  (forall x', value_done start x' -> Q None x') ->
  ok (header_value_loop settings max_header_size data lenient n start h) Q x.
Proof.
  revert x h. induction n as [|n IH]; intros x h Hi Hh Hst Hn H1 H2 H3; cbn [header_value_loop];
    apply ok_bind, ok_get; pose proof Hi as (Hb & Hge & He & Hs & Hm); pose proof Hb as (Hp & Ht & Hr).
  - rewrite (proj2 (Z.eqb_eq _ _)) by lia. apply ok_ret, H1; done || lia.
  - destruct (Z.eqb_spec (x_p x) (zlen data)); [by apply ok_ret, H1 |].
    apply ok_bind, ok_read; [lia |]. set (c := nth _ _ _). apply ok_bind, ok_upd.
    assert (value_inv start (set_x_ch c x)) as Hi1 by (by apply token_inv_ch).
    assert (forall k' m, mark_of k' (set_x_ch c x) = Some m -> 0 <= m <= x_p x) as Hm1.
    { intros k' m Hk. destruct (Hm k' m) as [_ ?]; [by destruct k' |]. lia. }
    destruct (Z.eqb_spec c CR); [| destruct (Z.eqb_spec c LF)].
    + apply ok_bind, ok_upd, ok_bind, ok_updp, ok_bind. unfold CALLBACK_DATA. apply ok_bind, ok_get.
      apply ok_data; try done; try (cbn; lia).
      * intros m Hk. apply (Hm1 header_value). done.
      * intros s u. apply ok_ret, H2. destruct x. apply (value_inv_done start _ h s u x_nread Hi1); cbn in *; lia.
    + apply ok_bind, ok_upd, ok_bind, ok_count; [done |]. intros n' _ _ Hn'.
      apply ok_bind, ok_updp, ok_bind. unfold CALLBACK_DATA_NOADVANCE. apply ok_bind, ok_get.
      apply ok_data; try done; try (cbn; lia).
      * intros m Hk. apply (Hm1 header_value). done.
      * intros s u. apply ok_ret, H3. apply (value_inv_done start _ h s u n' Hi1); done || (cbn; lia).
    + case_match; [by apply ok_error |].
      apply ok_bind, (ok_header_value_char start); [done | done | cbn; lia | done | |].
      * unfold is_crlf. cbn. fold c. by rewrite !(proj2 (Z.eqb_neq _ _)).
      * intros h' x' Hx' Hp' Hh'. cbn in Hp'. apply ok_bind, ok_upd, IH; try done; [| cbn; lia].
        pose proof Hx' as (_ & ? & _). apply token_inv_p; [lia | lia | done].
Qed.

Lemma value_done_post start b n (x : @locals U) :
  value_done start x -> lo <= start -> 0 <= n < 2 ^ 32 -> 0 <= b <= 1 -> inv b (set_x_nread n x).
Proof.
  intros ((Hp & Ht & Hn) & Hge & He & Hs & Hm) Hlo Hn' Hb. split_and!; try done; try (cbn; lia).
  - cbn. by rewrite Hs.
  - intros k m Hk. assert (mark_of k x = Some m) as Hk' by (by destruct k). by rewrite Hm in Hk'.
Qed.

Lemma case_header_value_ok x :
  pre s_header_value x ->
  ok (case_header_value settings max_header_size data lenient) (post s_header_value) x.
Proof.
  intros Hpre.
  assert (value_inv (x_p x) x) as Hi by (apply token_inv_start; [done | by intros []]).
  destruct Hpre as [((Hp & Ht & Hn) & Hlt & He & Hs & Hm) Hst].
  rewrite Hst in Hs. cbn in Hs.
  unfold case_header_value. apply ok_bind, ok_get, ok_bind, ok_getp, ok_bind.
  apply (ok_header_value_loop _ (x_p x)); [done | done | lia | unfold zlen in *; lia | | |].
  - (* the end of the data *)
    intros h x' ((Hp' & Ht' & Hn') & Hge & He' & Hs' & Hm') Hend Hh.
    apply ok_bind, ok_updp, ok_bind, ok_get. cbn [x_p set_x_parser].
    rewrite (proj2 (Z.eqb_eq _ _)) by done.
    apply ok_bind, ok_upd, ok_bind, ok_get, ok_bind, ok_count.
    { split; [cbn; lia | done]. }
    intros n _ _ Hn2. apply ok_ret. cbn. split_and!; try done; try (cbn; lia).
    + split; [cbn; lia | done].
    + cbn. by rewrite Hs'.
    + intros k m Hk. cbn in Hk |- *. assert (mark_of k x' = Some m) as Hk' by (by destruct k).
      destruct (Hm' k m Hk') as [-> ?]. rewrite Hs'. split; [done | lia].
  - (* carriage return *)
    intros h x' Hd. pose proof Hd as ((Hp' & Ht' & Hn') & Hge & _).
    apply ok_bind, ok_updp, ok_bind, ok_get. cbn [x_p set_x_parser].
    rewrite (proj2 (Z.eqb_neq _ _)) by lia.
    apply ok_bind, ok_ret, ok_bind, ok_get, ok_bind, ok_count; [done |].
    intros n _ _ Hn2. apply ok_ret.
    assert (value_done (x_p x) (set_x_parser (set_hp_header_state h (x_parser x')) x')) as Hd'.
    { destruct Hd as (Hd1 & Hd2 & Hd3 & Hd4 & Hmk).
      refine (conj Hd1 (conj Hd2 (conj Hd3 (conj Hd4 _)))). intros k. specialize (Hmk k). by destruct k. }
    apply (value_done_post _ 0 n) in Hd'; [done | lia | done | lia].
  - (* line feed *)
    intros x' Hd. apply ok_ret. pose proof Hd as ((? & ? & Hn2) & _ & _ & Hs2 & _).
    cbn. rewrite Hs2. split; [| cbn; lia].
    apply (value_done_post _ 1 (x_nread x')) in Hd; [by destruct x' | lia | done | lia].
Qed.

(** * The function *)

Lemma switch_ok s ch x :
  pre s x ->
  ok (switch settings max_header_size data lenient allow_chunked_length s ch) (post s) x.
Proof.
  intros Hpre. destruct (plain s) eqn:Epl; [by apply plain_ok |].
  destruct (chunk_state s) eqn:Ec; [by apply chunk_ok |].
  destruct s; try discriminate Epl; try discriminate Ec; cbn [switch].
  - by apply case_req_method_ok.
  - by apply case_header_field_ok.
  - by apply case_header_value_discard_ws_ok.
  - by apply case_header_value_start_ok; [left |].
  - by apply case_header_value_ok.
  - by apply case_headers_almost_done_ok.
  - by apply case_headers_done_ok.
  - by apply case_chunk_data_ok.
  - by apply case_body_identity_ok.
  - by apply case_body_identity_eof_ok.
  - by apply case_message_done_ok.
Qed.

Lemma run_switch_ok n x :
  inv 1 x -> (rank (x_p_state x) < n)%nat ->
  ok (run_switch settings max_header_size data lenient allow_chunked_length n) (fun _ => inv 0) x.
Proof.
  revert x. induction n as [|n IH]; intros x Hi Hr; [lia |]. cbn [run_switch].
  apply ok_bind, ok_get, ok_bind, ok_get, ok_bind.
  eapply ok_mono; [by apply switch_ok |]. intros [] x' Hpost; cbn in Hpost.
  - by apply ok_ret.
  - apply IH; [apply Hpost |]. destruct Hpost as [_ ?]. lia.
Qed.

End Switch.

(** Between the iterations. *)
Definition loop_inv (x : @locals U) : Prop :=
  base x /\ hp_http_errno (x_parser x) = HPE_OK /\
  state_ok 0 (x_p_state x) (x_parser x) (x_nread x) /\ marks_ok (x_p_state x) x.

Lemma rank_bound s : (rank s < reexecute_bound)%nat.
Proof. destruct s; cbn; unfold reexecute_bound; lia. Qed.

Lemma state_ok_count s pr n n' :
  state_ok 0 s pr n -> (s = s_chunk_size_start -> n = 0 -> n' = 1) -> state_ok 1 s pr n'.
Proof. destruct s; cbn; intros Hs Hn; try done. destruct Hs as [? ->]. auto. Qed.

Lemma state_ok_any k k' s pr n n' :
  s <> s_chunk_size_start -> state_ok k s pr n -> state_ok k' s pr n'.
Proof. by destruct s. Qed.

Lemma iteration_ok x :
  loop_inv x -> x_p x < zlen data ->
  ok (iteration settings max_header_size data lenient allow_chunked_length)
    (fun _ x' => loop_inv x' /\ x_p x < x_p x') x.
Proof.
  intros (Hb & He & Hs & Hm) Hlt. pose proof Hb as (Hp & Ht & Hn). unfold iteration.
  apply ok_bind, ok_read; [lia |]. set (c := nth _ _ _). apply ok_bind, ok_upd, ok_bind, ok_get, ok_bind.
  assert (forall n, 0 <= n < 2 ^ 32 -> (x_p_state x = s_chunk_size_start -> x_nread x = 0 -> n = 1) ->
    ok (xbind (run_switch settings max_header_size data lenient allow_chunked_length reexecute_bound)
          (fun _ => upd (fun x => set_x_p (x_p x + 1) x)))
      (fun _ x' => loop_inv x' /\ x_p x < x_p x') (set_x_nread n (set_x_ch c x))) as Hrun.
  { intros n Hn' H1. apply ok_bind. eapply ok_mono.
    - apply (run_switch_ok (x_p x)); [| apply rank_bound]. split_and!; try done.
      by apply (state_ok_count _ _ (x_nread x)).
    - intros _ x' ((Hp' & Ht' & Hn2) & Hlt' & He' & Hs' & Hm'). apply ok_upd.
      split; [| cbn; lia]. split; [split; [cbn; lia | done] |]. split_and!; try done.
      intros k m Hk. destruct (Hm' k m) as [? ?]; [by destruct k |]. cbn. split; [done | lia]. }
  cbn [x_p_state set_x_ch]. destruct (PARSING_HEADER (x_p_state x)) eqn:Eh.
  - apply ok_count; [done |]. cbn [x_nread set_x_ch]. intros n -> _ Hn'.
    apply Hrun; [done |]. by intros _ ->.
  - apply ok_ret. destruct x. apply (Hrun x_nread); [done |]. cbn in *. by intros ->.
Qed.

Lemma loop_ok n x :
  loop_inv x -> zlen data - x_p x <= Z.of_nat n ->
  ok (loop settings max_header_size data lenient allow_chunked_length n)
    (fun _ x' => loop_inv x' /\ x_p x' = zlen data) x.
Proof.
  revert x. induction n as [|n IH]; intros x Hi Hn; cbn [loop]; apply ok_bind, ok_get;
    pose proof Hi as ((Hp & _) & _).
  - rewrite (proj2 (Z.eqb_eq _ _)) by lia. apply ok_ret. split; [done | lia].
  - destruct (Z.eqb_spec (x_p x) (zlen data)); [by apply ok_ret |].
    apply ok_bind. eapply ok_mono; [apply iteration_ok; [done | lia] |].
    intros _ x' [Hx' Hlt]. apply IH; [done | lia].
Qed.

Lemma marks_le_1 s x : marks_ok s x -> marks_set x <= 1.
Proof.
  intros Hm. unfold marks_set.
  pose proof (fun m => Hm header_field m) as H1. pose proof (fun m => Hm header_value m) as H2.
  pose proof (fun m => Hm url m) as H3. pose proof (fun m => Hm body m) as H4.
  pose proof (fun m => Hm status m) as H5. cbn in *.
  destruct (x_header_field_mark x), (x_header_value_mark x), (x_url_mark x), (x_body_mark x),
    (x_status_mark x); try lia; exfalso;
    repeat match goal with
    | H : forall m, Some ?z = Some m -> _ |- _ => destruct (H z eq_refl) as [? _]; clear H
    end; destruct s; discriminate.
Qed.

Lemma ok_flush_data k Q x :
  loop_inv x -> x_p x = zlen data ->
  (forall x', loop_inv x' -> x_p x' = zlen data -> Q tt x') ->
  ok (CALLBACK_DATA_NOADVANCE settings data k) Q x.
Proof.
  intros (Hb & He & Hs & Hm) Hp HQ. unfold CALLBACK_DATA_NOADVANCE. apply ok_bind, ok_get.
  destruct (mark_of k x) as [m|] eqn:Ek.
  - pose proof (Hm k m Ek) as [Hk ?]. pose proof Hb as (? & Ht & Hn).
    assert (x_p_state x <> s_chunk_size_start) as Hne by (intros E; rewrite E in Hk; by destruct k).
    apply ok_data; try done; try lia.
    + by apply (state_ok_any 0 0 _ _ (x_nread x)).
    + intros m'. rewrite Ek. intros [= <-]. lia.
    + intros s u. destruct x as [pr v p ch' s' n m1 m2 m3 m4 m5].
      assert (loop_inv (set_mark k None (set_x_user u (set_x_parser (set_hp_state s pr)
        (mk_locals pr v p ch' s' n m1 m2 m3 m4 m5))))) as Hl.
      { assert (marks_ok s' (set_mark k None (mk_locals pr v p ch' s' n m1 m2 m3 m4 m5))) as Hm'.
        { intros k' m' Hk'. destruct k, k'; cbn in Hk'; try discriminate Hk'; by apply Hm. }
        destruct k; split_and!; try done; (split; [cbn; lia | done]). }
      apply HQ; [exact Hl | by destruct k].
  - unfold ok, CALLBACK_DATA_. rewrite decide_True by done. rewrite Ek. by apply HQ.
Qed.

Lemma flush_ok x :
  loop_inv x -> x_p x = zlen data ->
  ok (flush settings data) (fun _ x' => loop_inv x' /\ x_p x' = zlen data) x.
Proof.
  intros Hi Hp. unfold flush. apply ok_bind, ok_get, ok_bind, ok_assert.
  { apply Z.leb_le, (marks_le_1 (x_p_state x)), Hi. }
  do 4 (apply ok_bind, ok_flush_data; [done | done |]; clear Hi Hp; clear x; intros x Hi Hp).
  apply ok_flush_data; done.
Qed.

Lemma init_loop_inv pr u :
  parser_inv pr -> hp_http_errno pr = HPE_OK -> loop_inv (init_locals pr u).
Proof.
  intros [Ht Hs] He. pose proof Ht as (_ & _ & Hn & _). split_and!; try done.
  - split; [cbn; pose proof (zlen_nonneg data); lia | done].
  - apply Hs. by left.
  - intros k m Hk. assert (m = 0 /\ mark_state k (hp_state pr) = true) as [-> ?]; [| done].
    destruct k; cbn in *; repeat case_decide; try case_match; simplify_eq; try done;
      by rewrite ?bool_decide_eq_true_2.
Qed.

Lemma execute_data_ok pr u :
  parser_inv pr -> hp_http_errno pr = HPE_OK ->
  exists v pr' u', execute_data settings max_header_size data lenient allow_chunked_length pr u =
    Return v pr' u' /\ 0 <= v <= zlen data /\ parser_inv pr'.
Proof.
  intros Hi He.
  assert (ok (xbind (loop settings max_header_size data lenient allow_chunked_length (length data))
    (fun _ => xbind (flush settings data) (fun _ => RETURN (A := unit) (zlen data))))
    (fun _ _ => False) (init_locals pr u)) as Hok.
  { apply ok_bind. eapply ok_mono; [apply loop_ok; [by apply init_loop_inv | cbn; unfold zlen; lia] |].
    intros _ x [Hx Hp]. apply ok_bind. eapply ok_mono; [by apply flush_ok |].
    intros _ x' [(Hb & _ & Hs & _) _]. apply ok_return; [pose proof (zlen_nonneg data); lia | done | done]. }
  unfold execute_data. unfold ok in Hok. destruct (xbind _ _ _) as [a x|v pr' u'|]; [done | | done].
  eauto.
Qed.

End Safe.

Lemma execute_eof_ok {U} (st : http_parser_settings U) pr u :
  callbacks_ok st -> parser_inv pr -> hp_http_errno pr = HPE_OK ->
  exists v pr' u', execute_eof st pr u = Return v pr' u' /\ 0 <= v <= 1 /\ parser_inv pr'.
Proof.
  intros Hcb [Ht Hs] He. pose proof Ht as (_ & _ & Hn & _).
  assert (forall e pr', fatal e -> types_ok pr' ->
    parser_inv (set_hp_http_errno e (set_hp_nread (hp_nread pr) pr'))) as Herr.
  { intros e pr' [He1 He2] Ht'. split; [by apply types_set_nread |].
    unfold live. cbn. by intros [?|?]. }
  unfold execute_eof. pose proof (conj Ht Hs : parser_inv pr) as Hi.
  destruct (hp_state pr) eqn:Es;
    try (by eexists _, _, _; split_and!; [done | lia | lia | first [by apply Herr | exact Hi]]).
  unfold CALLBACK_NOTIFY_. cbn. rewrite decide_True by done.
  destruct (on_message_complete st) as [cb|] eqn:Ec;
    [| by exists 0, pr, u].
  pose proof (proj1 Hcb message_complete cb (set_hp_state (hp_state pr) pr) u Ec) as Hp.
  destruct (cb _ _) as [[r pr'] u']. cbn in Hp.
  assert (types_ok pr' /\ hp_state pr' = s_body_identity_eof) as [Ht' Hs'].
  { destruct Hp as [-> | ->]; split; done. }
  assert (parser_inv pr') as Hi' by (split; [done | by rewrite Hs']).
  unfold after_callback. cbn. destruct (r =? 0).
  - case_decide; exists 0, pr', u'; done.
  - rewrite decide_False by done. eexists _, _, _. split_and!; [done | lia | lia | by apply Herr].
Qed.

(** C3: for every data and every parser in the invariant, with callbacks that only
    pause the parser, [http_parser_execute] returns: no assertion of the function
    fails, it reads no byte outside of the data and of its constant strings, and its
    loops end.  It reports at most [len] bytes (1 at the end of a message that is cut
    off), and the parser it leaves is in the invariant again, so that the next call is
    safe as well: the bit-fields hold values of their widths, the matching position is
    inside of the method's name, and a length that is still to be read is positive. *)
Theorem http_parser_execute_safe {U} (st : http_parser_settings U) (max_header_size : Z)
    (pr : http_parser) (u : U) (data : list Z) :
  callbacks_ok st -> parser_inv pr ->
  exists v pr' u', http_parser_execute st max_header_size pr u data = Some (v, pr', u') /\
    0 <= v <= Z.max 1 (zlen data) /\ parser_inv pr'.
Proof.
  intros Hcb Hi. unfold http_parser_execute.
  case_decide as He; [| by eexists _, _, _; split_and!; [done | lia | pose proof (zlen_nonneg data); lia |]].
  destruct (Z.eqb_spec (zlen data) 0) as [Hz|Hz].
  - destruct (execute_eof_ok st pr u Hcb Hi He) as (v & pr' & u' & -> & Hv & Hp).
    exists v, pr', u'. split_and!; [done | lia | lia | done].
  - destruct (execute_data_ok st max_header_size data (hp_lenient_http_headers pr)
      (hp_allow_chunked_length pr) Hcb pr u Hi He) as (v & pr' & u' & -> & Hv & Hp).
    exists v, pr', u'. split_and!; [done | lia | lia | done].
Qed.

(** A parser that [http_parser_init] sets up is in the invariant. *)
Lemma http_parser_init_inv t pr : parser_inv (http_parser_init t pr).
Proof. split; [by vm_compute | intros _]. by destruct t. Qed.

(** An arbitrary object before its initialisation. *)
Definition raw_parser : http_parser :=
  mk_parser HTTP_BOTH 255 s_dead h_general 31 true true true 7 7 7 7 7 7 HPE_UNKNOWN true 42.

(** A client that pauses the parser on every callback. *)
Definition pausing_settings : http_parser_settings Z :=
  let cb (pr : http_parser) (u : Z) := (0, set_hp_http_errno HPE_PAUSED pr, u + 1) in
  let dcb (pr : http_parser) (_ : list Z) (u : Z) := cb pr u in
  mk_settings (Some cb) (Some dcb) (Some dcb) (Some dcb) (Some dcb) (Some cb) (Some dcb) (Some cb)
    (Some cb) (Some cb).

Lemma pausing_ok : callbacks_ok pausing_settings.
Proof.
  split_and!; [intros [] cb pr u [= <-] | intros [] cb pr bs u [= <-] | intros cb pr u [= <-]];
    right; reflexivity.
Qed.

Lemma http_parser_execute_safe_witness :
  callbacks_ok pausing_settings /\ parser_inv (http_parser_init HTTP_REQUEST raw_parser) /\
  exists v pr' u',
    http_parser_execute pausing_settings 81920 (http_parser_init HTTP_REQUEST raw_parser) 0
      (str "GET / HTTP/1.1") = Some (v, pr', u') /\ parser_inv pr'.
Proof.
  split; [exact pausing_ok |]. split; [exact (http_parser_init_inv HTTP_REQUEST raw_parser) |].
  destruct (http_parser_execute_safe pausing_settings 81920 (http_parser_init HTTP_REQUEST raw_parser) 0
    (str "GET / HTTP/1.1") pausing_ok (http_parser_init_inv HTTP_REQUEST raw_parser))
    as (v & pr' & u' & H & _ & Hi).
  exists v, pr', u'. exact (conj H Hi).
Defined.

(** The table [unhex] has 256 entries but its initialiser gives 128, so that the
    rest is 0 and not -1: a byte above 127 counts as the digit 0 of a chunk size.  A
    chunked request whose chunk size is the single byte 0xE9 is taken for the last
    chunk and completes the message. *)
Theorem chunk_size_accepts_high_bytes :
  exists pr u,
    http_parser_execute (U := Z)
      (mk_settings None None None None None None None
         (Some (fun pr u => (0, pr, u + 1))) None None)
      81920 (http_parser_init HTTP_REQUEST raw_parser) 0
      (str "POST / HTTP/1.1" ++ [CR; LF] ++ str "Transfer-Encoding: chunked" ++ [CR; LF; CR; LF] ++
       [233; CR; LF; CR; LF]) = Some (52, pr, u) /\ u = 1 /\ hp_http_errno pr = HPE_OK.
Proof. eexists _, _. vm_compute. split; [reflexivity |]. split; reflexivity. Qed.
