(* ===== verification/NfnlMsg.v ===== *)
(** libnfnetlink/libnfnetlink.c: netlink messages and their attributes, with the
    macros of linux_nfnetlink_compat.h, netlink.h and libnfnetlink.h.

    A [struct nlmsghdr *] or [struct nfattr *] is an offset in the message
    buffer; [struct nfattr *tb[]] is a list of optional offsets.  [assert]ions on
    pointers hold by construction; those on integers end the process. *)
From S2P Require Import Prelude CMonad MnlMsg MnlAttr Tlv TlvParse Ctnl.

Definition ENOENT : Z := 2.
Definition ENOSPC : Z := 28.
Definition EILSEQ : Z := 84.
Definition ENOMEM : Z := 12.
Definition ENOMSG : Z := 42.

(** * netlink.h *)

Definition NLMSG_ALIGNTO : Z := 4.

(** The constant is unsigned, hence the mask is 32 bits wide whatever the width
    of the argument. *)
Definition NLMSG_ALIGN (len : Z) : Z :=
  Z.land (wrap 32 (len + NLMSG_ALIGNTO - 1)) (wrap 32 (Z.lnot (NLMSG_ALIGNTO - 1))).
Definition NLMSG_HDRLEN : Z := sint 32 (NLMSG_ALIGN sizeof_nlmsghdr).
Definition NLMSG_LENGTH (len : Z) : Z := len + NLMSG_ALIGN NLMSG_HDRLEN.
Definition NLMSG_SPACE (len : Z) : Z := NLMSG_ALIGN (NLMSG_LENGTH len).
Definition NLMSG_DATA (nlh : Z) : Z := nlh + NLMSG_LENGTH 0.

(** [len] has an unsigned type in every use. *)
Definition NLMSG_OK (nlh len : Z) : M bool :=
  if sizeof_nlmsghdr <=? len then
    let! l := nlmsg_len nlh in
    ret ((sizeof_nlmsghdr <=? l) && (l <=? len))
  else ret false.

(** The next header and the remaining length, which is [w] bits wide. *)
Definition NLMSG_NEXT (w nlh len : Z) : M (Z * Z) :=
  let! l := nlmsg_len nlh in
  ret (nlh + NLMSG_ALIGN l, wrap w (len - NLMSG_ALIGN l)).

(** * linux_nfnetlink_compat.h *)

Definition sizeof_nfattr : Z := 4.
Definition nfa_len (nfa : Z) : M Z := load16 nfa.
Definition nfa_type (nfa : Z) : M Z := load16 (nfa + 2).
Definition set_nfa_len (nfa v : Z) : M unit := store16 nfa v.
Definition set_nfa_type (nfa v : Z) : M unit := store16 (nfa + 2) v.

Definition NFNL_NFA_NEST : Z := 0x8000.
Definition NFA_TYPE (nfa : Z) : M Z := let! t := nfa_type nfa in ret (Z.land t 0x7fff).

Definition NFA_ALIGNTO : Z := 4.
Definition NFA_ALIGN (len : Z) : Z := Z.land (len + NFA_ALIGNTO - 1) (Z.lnot (NFA_ALIGNTO - 1)).

Definition NFA_OK (nfa len : Z) : M bool :=
  if 0 <? len then
    let! l := nfa_len nfa in ret ((sizeof_nfattr <=? l) && (l <=? len))
  else ret false.

(** The next attribute and the remaining length, an [int]. *)
Definition NFA_NEXT (nfa attrlen : Z) : M (Z * Z) :=
  let! l := nfa_len nfa in
  ret (nfa + NFA_ALIGN l, sint 32 (attrlen - NFA_ALIGN l)).

(** A [size_t], because [sizeof] is one. *)
Definition NFA_LENGTH (len : Z) : Z := wrap 64 (NFA_ALIGN sizeof_nfattr + len).
Definition NFA_DATA (nfa : Z) : Z := nfa + NFA_LENGTH 0.
Definition NFA_PAYLOAD (nfa : Z) : M Z :=
  let! l := nfa_len nfa in ret (wrap 64 (l - NFA_LENGTH 0)).
Definition NFM_NFA (n : Z) : Z := n + NLMSG_ALIGN sizeof_nfgenmsg.

Definition NLMSG_TAIL (nlh : Z) : M Z :=
  let! l := nlmsg_len nlh in ret (nlh + NLMSG_ALIGN l).

(** * Writing attributes *)

Definition nfnl_addattr_l (n maxlen type : Z) (data : list Z) (alen : Z) : M Z :=
  let len := sint 32 (NFA_LENGTH alen) in
  if negb (0 <? maxlen) then exit else
  if negb (0 <=? type) then exit else
  let! l := nlmsg_len n in
  if wrap 32 maxlen <? wrap 32 (NLMSG_ALIGN l + len) then set_errno ENOSPC ;;; ret (-1)
  else
    let! nfa := NLMSG_TAIL n in
    set_nfa_type nfa (wrap 16 type) ;;;
    set_nfa_len nfa (wrap 16 len) ;;;
    let! bs := read_data (wrap 64 alen) data in
    store_bytes (NFA_DATA nfa) bs ;;;
    let! nl := nfa_len nfa in
    store_bytes (nfa + nl) (replicate (Z.to_nat (NFA_ALIGN alen - alen)) 0) ;;;
    let! l' := nlmsg_len n in
    set_nlmsg_len n (wrap 32 (NLMSG_ALIGN l' + NFA_ALIGN len)) ;;;
    ret 0.

Definition nfnl_nfa_addattr_l (nfa maxlen type : Z) (data : list Z) (alen : Z) : M Z :=
  let len := sint 32 (NFA_LENGTH alen) in
  if negb (0 <? maxlen) then exit else
  if negb (0 <=? type) then exit else
  let! l := nfa_len nfa in
  if maxlen <? NFA_ALIGN l + len then set_errno ENOSPC ;;; ret (-1)
  else
    let subnfa := nfa + NFA_ALIGN l in
    set_nfa_type subnfa (wrap 16 type) ;;;
    set_nfa_len subnfa (wrap 16 len) ;;;
    let! bs := read_data (wrap 64 alen) data in
    store_bytes (NFA_DATA subnfa) bs ;;;
    let! l' := nfa_len nfa in
    set_nfa_len nfa (wrap 16 (NFA_ALIGN l' + len)) ;;;
    ret 0.

(** The [assert]ions of the typed writers; the writers they call repeat them. *)
Definition assert_args (maxlen type : Z) (c : M Z) : M Z :=
  if negb (0 <? maxlen) then exit else if negb (0 <=? type) then exit else c.

Definition nfnl_addattr8 (n maxlen type data : Z) : M Z :=
  assert_args maxlen type (nfnl_addattr_l n maxlen type (le_enc 1 data) 1).
Definition nfnl_addattr16 (n maxlen type data : Z) : M Z :=
  assert_args maxlen type (nfnl_addattr_l n maxlen type (le_enc 2 data) 2).
Definition nfnl_addattr32 (n maxlen type data : Z) : M Z :=
  assert_args maxlen type (nfnl_addattr_l n maxlen type (le_enc 4 data) 4).
Definition nfnl_nfa_addattr16 (nfa maxlen type data : Z) : M Z :=
  assert_args maxlen type (nfnl_nfa_addattr_l nfa maxlen type (le_enc 2 data) 2).
Definition nfnl_nfa_addattr32 (nfa maxlen type data : Z) : M Z :=
  assert_args maxlen type (nfnl_nfa_addattr_l nfa maxlen type (le_enc 4 data) 4).

(** The start of a nested attribute; the result of the writer is not used. *)
Definition nfnl_nest (nlh bufsize type : Z) : M Z :=
  let! start := NLMSG_TAIL nlh in
  nfnl_addattr_l nlh bufsize (Z.lor NLA_F_NESTED type) [] 0 ;;;
  ret start.

Definition nfnl_nest_end (nlh tail : Z) : M unit :=
  let! t := NLMSG_TAIL nlh in set_nfa_len tail (wrap 16 (t - tail)).

(** [struct iovec]: base and length. *)
Record iovec := mk_iovec { iov_base : Z; iov_len : Z }.

Definition nfnl_build_nfa_iovec (nfa type len val : Z) : M (iovec * iovec) :=
  set_nfa_len nfa (wrap 16 (sizeof_nfattr + len)) ;;;
  set_nfa_type nfa type ;;;
  ret (mk_iovec nfa sizeof_nfattr, mk_iovec val (wrap 32 (NFA_ALIGN len))).

(** * Reading attributes *)

(** [tb[i] = a]; outside of the array it is a fault. *)
Definition set_tb (tb : list (option Z)) (i a : Z) : M (list (option Z)) :=
  if (0 <=? i) && (i <? zlen tb) then ret (<[Z.to_nat i := Some a]> tb) else ub.

(** [memset(tb, 0, sizeof(struct nfattr * ) * max)]. *)
Definition clear_tb (tb : list (option Z)) (max : Z) : M (list (option Z)) :=
  if max <=? zlen tb then ret (replicate (Z.to_nat max) None ++ drop (Z.to_nat max) tb) else ub.

Fixpoint parse_attr_loop (fuel : nat) (max : Z) (tb : list (option Z)) (nfa len : Z) :
    M (Z * list (option Z)) :=
  match fuel with
  | O => no_fuel
  | S fuel =>
      let! ok := NFA_OK nfa len in
      if ok : bool then
        let! t := NFA_TYPE nfa in
        let! tb' := if t <=? max then set_tb tb (t - 1) nfa else ret tb in
        let! (nfa', len') := NFA_NEXT nfa len in
        parse_attr_loop fuel max tb' nfa' len'
      else ret (len, tb)
  end.

(** Returns the number of bytes left, with the table. *)
Definition nfnl_parse_attr (tb : list (option Z)) (max nfa len : Z) : M (Z * list (option Z)) :=
  if negb (0 <? max) then exit else
  let! tb0 := clear_tb tb max in
  parse_attr_loop (loop_fuel len) max tb0 nfa len.

Definition nfnl_parse_nested (tb : list (option Z)) (max nfa : Z) : M (Z * list (option Z)) :=
  let! n := NFA_PAYLOAD nfa in nfnl_parse_attr tb max (NFA_DATA nfa) (sint 32 n).

(** [tb[attr-1]]. *)
Definition nfnl_attr_present (tb : list (option Z)) (attr : Z) : M (option Z) :=
  if 1 <=? attr then match tb !! Z.to_nat (attr - 1) with Some x => ret x | None => ub end else ub.

(** A value of [n] bytes, zero when the attribute is absent. *)
Definition nfnl_get_data (tb : list (option Z)) (attr : Z) (n : nat) : M Z :=
  let! x := nfnl_attr_present tb attr in
  match x with Some a => load n (NFA_DATA a) | None => ret 0 end.

Definition nfnl_get_pointer_to_data (tb : list (option Z)) (attr : Z) : M (option Z) :=
  let! x := nfnl_attr_present tb attr in
  match x with Some a => ret (Some (NFA_DATA a)) | None => ret None end.

(** The first attribute and the [struct nfgenmsg] of a message, NULL when it has
    none. *)
Definition nfnl_parse_hdr (nlh : Z) : M (option Z * option Z) :=
  let! l := nlmsg_len nlh in
  if l <? NLMSG_LENGTH sizeof_nfgenmsg then ret (None, None)
  else if l =? NLMSG_LENGTH sizeof_nfgenmsg then ret (None, Some (nlh + sizeof_nlmsghdr))
  else ret (Some (nlh + NLMSG_LENGTH sizeof_nfgenmsg), Some (nlh + sizeof_nlmsghdr)).

(** * Alignment *)

Lemma NFA_ALIGN_align4 len : NFA_ALIGN len = align4 len.
Proof.
  unfold NFA_ALIGN, NFA_ALIGNTO, align4. replace (len + 4 - 1) with (len + 3) by lia.
  change (Z.lnot (4 - 1)) with (Z.lnot (Z.ones 2)).
  by rewrite <- Z.ldiff_land, Z.ldiff_ones_r, Z.shiftr_div_pow2, Z.shiftl_mul_pow2 by lia.
Qed.

Lemma NLMSG_ALIGN_align4 len : 0 <= len -> len + 3 < 2 ^ 32 -> NLMSG_ALIGN len = align4 len.
Proof. intros. by apply (MNL_ALIGN_align4 32). Qed.

Lemma NFA_LENGTH_int alen :
  0 <= alen -> 4 + alen < 2 ^ 31 -> sint 32 (NFA_LENGTH alen) = 4 + alen.
Proof.
  intros. unfold NFA_LENGTH. change (NFA_ALIGN sizeof_nfattr) with 4.
  rewrite wrap_small by lia. apply sint_small; lia.
Qed.

Lemma align4_pad n : align4 (4 + n) = 4 + align4 n.
Proof. unfold align4. replace (4 + n + 3) with (n + 3 + 1 * 4) by lia. rewrite Z.div_add by lia. lia. Qed.

(** * Writing *)

Lemma wp_intro {A} E (c : M A) (Q : A -> world -> Prop) w :
  wp E c Q w -> match c w with Ok (a, w') => Q a w' | Exit => E | Ub | Fuel => False end.
Proof. done. Qed.

Section AddAttr.
Context (n maxlen type alen : Z) (data : list Z).
Hypotheses (Hmax : 0 < maxlen < 2 ^ 31) (Hty : 0 <= type < 2 ^ 14)
           (Hal : 0 <= alen <= zlen data) (Hal16 : 4 + alen < 2 ^ 16).

Lemma wp_NLMSG_TAIL E L (Q : Z -> world -> Prop) w :
  msg_len n L w -> Q (n + L) w -> wp E (NLMSG_TAIL n) Q w.
Proof.
  intros [Hlen Hmod ? ? ? ?] HQ. unfold NLMSG_TAIL. apply wp_bind, wp_nlmsg_len; try lia. apply wp_ret.
  by rewrite Hlen, NLMSG_ALIGN_align4, align4_id by (try done; lia).
Qed.

(** The stores of the header and of the payload, and the length read back. *)
Definition addattr_head (nfa : Z) : M Z :=
  set_nfa_type nfa (wrap 16 type) ;;;
  set_nfa_len nfa (wrap 16 (4 + alen)) ;;;
  let! bs := read_data (wrap 64 alen) data in
  store_bytes (NFA_DATA nfa) bs ;;;
  nfa_len nfa.

Lemma addattr_unfold w L :
  msg_len n L w -> L + 4 + alen < 2 ^ 32 ->
  nfnl_addattr_l n maxlen type data alen w =
    if maxlen <? L + 4 + alen then Ok (-1, with_errno ENOSPC w)
    else (let! nl := addattr_head (n + L) in
          store_bytes (n + L + nl) (replicate (Z.to_nat (NFA_ALIGN alen - alen)) 0) ;;;
          let! l' := nlmsg_len n in
          set_nlmsg_len n (wrap 32 (NLMSG_ALIGN l' + NFA_ALIGN (4 + alen))) ;;;
          ret 0) w.
Proof.
  intros Hm ?. pose proof Hm as [Hlen Hmod ? ? ? ?]. unfold nfnl_addattr_l.
  rewrite NFA_LENGTH_int by lia.
  rewrite (proj2 (Z.ltb_lt 0 maxlen)), (proj2 (Z.leb_le 0 type)) by lia. cbn [negb].
  unfold NLMSG_TAIL, nlmsg_len, load32, bind at 1. rewrite load_ok by lia.
  rewrite Hlen, NLMSG_ALIGN_align4, align4_id, !(wrap_small 32) by (try done; lia).
  replace (L + (4 + alen)) with (L + 4 + alen) by lia.
  destruct (maxlen <? L + 4 + alen); [done|]. unfold addattr_head, bind. rewrite load_ok by lia.
  unfold ret. rewrite Hlen, NLMSG_ALIGN_align4, align4_id by (try done; lia).
  repeat (case_match; simplify_eq; try done).
Qed.

Lemma addattr_head_wp w L :
  msg_len n L w -> n + L + 4 + alen <= zlen (w_mem w) ->
  wp False (addattr_head (n + L)) (fun nl w' =>
    nl = 4 + alen /\ msg_len n L w' /\ same_msg n L w w' /\ rd 2 (n + L) (w_mem w') = 4 + alen /\
    rd 2 (n + L + 2) (w_mem w') = type /\ slice (n + L + 4) alen (w_mem w') = slice 0 alen data) w.
Proof.
  intros Hm Hroom. pose proof Hm as [_ _ ? ? ? ?].
  assert (zlen (slice 0 alen data) = alen) as Hzd by (apply zlen_slice; lia).
  unfold addattr_head, set_nfa_type, set_nfa_len, store16. rewrite !(wrap_small 16) by lia.
  apply wp_bind, (wp_store_tail n Hm); [lia | lia |]. intros w1 Hw1 Hm1 Hs1.
  assert (zlen (w_mem w1) = zlen (w_mem w)) as Hz1 by apply Hs1.
  apply wp_bind, (wp_store_tail n Hm1); [lia | lia |]. intros w2 Hw2 Hm2 Hs2.
  assert (zlen (w_mem w2) = zlen (w_mem w)) as Hz2 by (rewrite <- Hz1; apply Hs2).
  apply wp_bind. unfold read_data. rewrite (wrap_small 64) by lia.
  rewrite (proj2 (in_range_true 0 alen data)) by lia. apply wp_ret.
  change (NFA_DATA (n + L)) with (n + L + 4). apply wp_bind, wp_store_bytes; [lia | lia |].
  set (m3 := splice (n + L + 4) (slice 0 alen data) (w_mem w2)).
  assert (rd 2 (n + L) m3 = 4 + alen) as Hnl.
  { unfold m3. rewrite rd_splice_ne, Hw2 by lia. simpl.
    rewrite rd_splice_eq by lia. apply wrap_small. simpl. lia. }
  apply wp_load; simpl; [lia | unfold m3; rewrite zlen_splice; lia |]. split_and!; [done| | |done| |].
  - apply msg_len_splice; [done|lia|lia].
  - eapply same_msg_trans; [done|exact Hs1|]. eapply same_msg_trans; [done|exact Hs2|].
    apply same_msg_splice; lia.
  - unfold m3. rewrite rd_splice_ne, Hw2 by lia. simpl. rewrite rd_splice_ne by zl.
    rewrite Hw1. simpl. rewrite rd_splice_eq by lia. apply wrap_small. simpl. lia.
  - unfold m3. rewrite <- Hzd at 1. apply slice_splice_eq; lia.
Qed.

(** With room for the padding too, the attribute is appended. *)
Lemma addattr_appends w L :
  msg_len n L w -> L + 4 + alen <= maxlen -> n + L + align4 (4 + alen) <= zlen (w_mem w) ->
  wp False (nfnl_addattr_l n maxlen type data alen)
    (fun r w' => r = 0 /\ msg_len n (L + align4 (4 + alen)) w' /\
       attr_at (w_mem w') (n + L) (Leaf type (slice 0 alen data)) /\ same_msg n L w w') w.
Proof.
  intros Hm Hfit Hroom. pose proof Hm as [_ Hmod ? ? ? ?].
  pose proof (align4_spec (4 + alen)) as [? Hmod4]. pose proof (align4_pad alen).
  assert (zlen (slice 0 alen data) = alen) as Hzd by (apply zlen_slice; lia).
  unfold wp at 1. rewrite (addattr_unfold w L) by (try done; lia).
  rewrite (proj2 (Z.ltb_ge maxlen _)) by lia. apply wp_intro.
  apply wp_bind. eapply wp_mono; [apply addattr_head_wp; [done|lia]|].
  intros nl w1 (-> & Hm1 & Hs1 & Hl1 & Ht1 & Hd1). pose proof (sm_zlen _ _ _ _ Hs1) as Hz1.
  rewrite NFA_ALIGN_align4. set (z := replicate _ 0).
  assert (zlen z = align4 alen - alen) as Hz by (unfold z; zl).
  apply wp_bind, wp_store_bytes; simpl; [lia | lia |].
  set (w2 := with_mem _ w1).
  assert (msg_len n L w2) as Hm2 by (apply msg_len_splice; [done|lia|lia]).
  assert (same_msg n L w1 w2) as Hs2 by (apply same_msg_splice; lia).
  pose proof (sm_zlen _ _ _ _ Hs2) as Hz2. pose proof Hm2 as [Hlen2 _ _ _ _ _].
  apply wp_bind, wp_nlmsg_len; [lia..|].
  rewrite Hlen2, NLMSG_ALIGN_align4, align4_id, NFA_ALIGN_align4 by (try done; lia).
  apply wp_bind, (wp_set_len n False L (L + align4 (4 + alen))); [done| |lia|lia|].
  { by rewrite Z.add_mod, Hmod, Hmod4 by lia. }
  intros w3 Hm3 Hs3. apply wp_ret. pose proof (sm_zlen _ _ _ _ Hs3) as Hz3. split; [done|]. split; [done|]. split.
  - apply (proj1 (attr_at_ext_both (w_mem w2) (w_mem w3) Hz3)
             (Leaf type (slice 0 alen data)) (n + L)).
    + cbn [attr_at]. rewrite Hzd. unfold w2. simpl.
      rewrite zlen_splice, !rd_splice_ne, slice_splice_ne by lia. split_and!; try done; lia.
    + intros i Hi. symmetry. apply Hs3. cbn [tlv_size] in Hi. rewrite Hzd in Hi. lia.
  - eapply same_msg_trans; [done|exact Hs1|]. eapply same_msg_trans; [done|exact Hs2|].
    destruct Hs3 as [? ? ? Hb]. split; [done..|]. intros. apply Hb. lia.
Qed.

(** Without room for the padding, the zeros go past the end of the buffer. *)
Lemma addattr_faults w L :
  msg_len n L w -> L + 4 + alen <= maxlen -> n + L + 4 + alen <= zlen (w_mem w) ->
  zlen (w_mem w) < n + L + align4 (4 + alen) ->
  nfnl_addattr_l n maxlen type data alen w = Ub.
Proof.
  intros Hm Hfit Hroom Hover. pose proof Hm as [_ _ ? ? ? ?]. pose proof (align4_pad alen).
  rewrite (addattr_unfold w L) by (try done; lia). rewrite (proj2 (Z.ltb_ge maxlen _)) by lia.
  destruct (wp_run _ _ _ (addattr_head_wp w L Hm ltac:(lia)))
    as (nl & w1 & Hr & -> & _ & Hs1 & _). pose proof (sm_zlen _ _ _ _ Hs1).
  unfold bind at 1. rewrite Hr. unfold bind at 1, store_bytes. rewrite NFA_ALIGN_align4.
  set (z := replicate _ 0). assert (zlen z = align4 alen - alen) as Hz by (unfold z; zl).
  destruct (in_range _ _ _) eqn:Hir; [|done]. apply in_range_true in Hir. lia.
Qed.
End AddAttr.

(** [nfnl_addattr_l] on a buffer of [maxlen] bytes (a multiple of four):
    when the attribute does not fit the message is unchanged and [errno] is
    [ENOSPC]; when it fits, the attribute with the given type and payload follows
    what the message held, the length is updated and nothing else changes. *)
Theorem nfnl_addattr_l_spec n maxlen type data alen w L :
  msg_len n L w -> 0 < maxlen -> maxlen mod 4 = 0 -> n + maxlen <= zlen (w_mem w) ->
  0 <= type < 2 ^ 14 -> 0 <= alen <= zlen data -> 4 + alen < 2 ^ 16 ->
  if maxlen <? L + 4 + alen
  then nfnl_addattr_l n maxlen type data alen w = Ok (-1, with_errno ENOSPC w)
  else exists w', nfnl_addattr_l n maxlen type data alen w = Ok (0, w') /\
         msg_len n (L + align4 (4 + alen)) w' /\
         attr_at (w_mem w') (n + L) (Leaf type (slice 0 alen data)) /\ same_msg n L w w'.
Proof.
  intros Hm ? Hmm ? ? ? ?. pose proof Hm as [_ Hmod ? ? ? ?].
  destruct (Z.ltb_spec maxlen (L + 4 + alen)) as [Hlt|Hge].
  - rewrite (addattr_unfold n maxlen type alen data) with (L := L) by (try done; lia).
    by rewrite (proj2 (Z.ltb_lt maxlen _)) by lia.
  - assert (L + align4 (4 + alen) <= maxlen).
    { pose proof (align4_spec (4 + alen)) as [? Hmod4].
      pose proof (Z.div_mod (align4 (4 + alen)) 4). pose proof (Z.div_mod L 4).
      pose proof (Z.div_mod maxlen 4). lia. }
    destruct (wp_run _ _ _ (addattr_appends n maxlen type alen data ltac:(lia) ltac:(lia)
                              ltac:(lia) ltac:(lia) w L Hm Hge ltac:(lia)))
      as (r & w' & Hr & -> & H'). eauto.
Qed.

(** When [maxlen], the size of the buffer, is not a multiple of four, an
    attribute that fits without its padding makes [nfnl_addattr_l] write zeros
    past the end: the space check does not count the padding that the function
    writes. *)
Theorem nfnl_addattr_l_overrun n maxlen type data alen w L :
  msg_len n L w -> 0 < maxlen -> n + maxlen = zlen (w_mem w) ->
  0 <= type < 2 ^ 14 -> 0 <= alen <= zlen data -> 4 + alen < 2 ^ 16 ->
  L + 4 + alen <= maxlen < L + align4 (4 + alen) ->
  nfnl_addattr_l n maxlen type data alen w = Ub.
Proof.
  intros Hm ? ? ? ? ? ?. pose proof Hm as [_ _ ? ? ? ?].
  eapply addattr_faults; [lia..|exact Hm|lia|lia|lia].
Qed.

Section AddAttrExample.
(** A 20-byte message in a buffer of 32 bytes, and in one of 30. *)
Definition addattr_w : world := mk_world (le_enc 4 20 ++ replicate 28 0) 0 [].
Definition addattr_short : world := mk_world (le_enc 4 20 ++ replicate 26 0) 0 [].

Lemma nfnl_addattr_l_spec_witness :
  exists w', nfnl_addattr_l 0 32 5 [1; 2; 3] 3 addattr_w = Ok (0, w') /\
    msg_len 0 28 w' /\ attr_at (w_mem w') 20 (Leaf 5 [1; 2; 3]) /\ same_msg 0 20 addattr_w w'.
Proof.
  apply (nfnl_addattr_l_spec 0 32 5 [1; 2; 3] 3 addattr_w 20); try (vm_compute; intuition congruence).
  by split; vm_compute.
Defined.

Lemma nfnl_addattr_l_overrun_witness : nfnl_addattr_l 0 30 5 [1; 2; 3; 4; 5; 6] 6 addattr_short = Ub.
Proof.
  apply (nfnl_addattr_l_overrun 0 30 5 [1; 2; 3; 4; 5; 6] 6 addattr_short 20);
    try (vm_compute; intuition congruence).
  by split; vm_compute.
Defined.
End AddAttrExample.

(** * Reading *)

(** The type of the attribute at [a], without the nesting flag. *)
Definition nfa_type_of (m : list Z) (a : Z) : Z := Z.land (rd 2 (a + 2) m) 0x7fff.

(** The last attribute of type [ty] in the list. *)
Definition last_of_type (m : list Z) (ty : Z) (l : list Z) : option Z :=
  last (filter (fun a => nfa_type_of m a = ty) l).

(** The attributes of the [len] bytes at [nfa], and where they end. *)
Definition nfattrs (m : list Z) (nfa len : Z) : list Z :=
  attr_list (loop_fuel len) m (nfa + len) nfa.
Fixpoint attrs_end (m : list Z) (o : Z) (l : list Z) : Z :=
  match l with [] => o | a :: l => attrs_end m (a + align4 (rd 2 a m)) l end.

(** The table after the attributes [l] in the order of the message. *)
Definition tb_put (m : list Z) (max : Z) (tb : list (option Z)) (a : Z) : list (option Z) :=
  if nfa_type_of m a <=? max then <[Z.to_nat (nfa_type_of m a - 1) := Some a]> tb else tb.
Definition tb_fold (m : list Z) (max : Z) (l : list Z) (tb : list (option Z)) : list (option Z) :=
  fold_left (tb_put m max) l tb.

(** What the table holds: for each type the last attribute of that type. *)
Definition tb_spec (m : list Z) (max : Z) (l : list Z) : list (option Z) :=
  map (fun i => last_of_type m (Z.of_nat i + 1) l) (seq 0 (Z.to_nat max)).

Lemma nfa_type_of_range m a : 0 <= nfa_type_of m a.
Proof. unfold nfa_type_of. apply Z.land_nonneg. right. lia. Qed.

Lemma last_of_type_cons m ty a l :
  last_of_type m ty (a :: l) =
    match last_of_type m ty l with
    | Some x => Some x
    | None => if nfa_type_of m a =? ty then Some a else None
    end.
Proof.
  unfold last_of_type. rewrite filter_cons.
  destruct (Z.eqb_spec (nfa_type_of m a) ty); [rewrite decide_True by done|rewrite decide_False by done].
  - rewrite last_cons. by destruct (last _).
  - by destruct (last _).
Qed.

Lemma tb_fold_lookup m max l tb (i : nat) :
  (i < length tb)%nat ->
  Forall (fun a => nfa_type_of m a <> 0) l ->
  tb_fold m max l tb !! i =
    if Z.of_nat i <? max
    then match last_of_type m (Z.of_nat i + 1) l with Some a => Some (Some a) | None => tb !! i end
    else tb !! i.
Proof.
  intros Hi H. revert tb Hi. induction H as [|a l Ha H IH]; intros tb Hi.
  { cbn. by destruct (_ <? _). }
  pose proof (nfa_type_of_range m a).
  cbn [tb_fold fold_left]. fold (tb_fold m max l (tb_put m max tb a)).
  rewrite IH by (unfold tb_put; destruct (_ <=? _); by rewrite ?length_insert).
  rewrite last_of_type_cons. unfold tb_put.
  destruct (Z.ltb_spec (Z.of_nat i) max).
  - destruct (last_of_type m (Z.of_nat i + 1) l); [done|].
    destruct (Z.eqb_spec (nfa_type_of m a) (Z.of_nat i + 1)) as [He|He].
    + rewrite (proj2 (Z.leb_le _ _)) by lia.
      replace (Z.to_nat (nfa_type_of m a - 1)) with i by lia. by rewrite list_lookup_insert_eq.
    + destruct (_ <=? _); [|done]. rewrite list_lookup_insert_ne; [done|lia].
  - destruct (Z.leb_spec (nfa_type_of m a) max); [|done]. rewrite list_lookup_insert_ne; [done|lia].
Qed.

Lemma length_tb_fold m max l tb : length (tb_fold m max l tb) = length tb.
Proof.
  revert tb. induction l as [|a l IH]; intros tb; [done|].
  cbn [tb_fold fold_left]. fold (tb_fold m max l (tb_put m max tb a)). rewrite IH.
  unfold tb_put. destruct (_ <=? _); by rewrite ?length_insert.
Qed.

(** Filling a cleared table. *)
Lemma tb_fold_cleared m max l tb :
  0 <= max <= zlen tb -> Forall (fun a => nfa_type_of m a <> 0) l ->
  tb_fold m max l (replicate (Z.to_nat max) None ++ drop (Z.to_nat max) tb)
  = tb_spec m max l ++ drop (Z.to_nat max) tb.
Proof.
  intros Hmax Hl. unfold zlen in Hmax. apply list_eq. intros i.
  set (tb0 := _ ++ _).
  assert (length tb0 = length tb) as Hlen
    by (unfold tb0; rewrite length_app, length_replicate, length_drop; lia).
  assert (length (tb_spec m max l) = Z.to_nat max) as Hs
    by (unfold tb_spec; by rewrite length_map, length_seq).
  destruct (decide (i < length tb)%nat).
  2: { rewrite !lookup_ge_None_2; [done|..]; rewrite ?length_tb_fold, ?length_app, ?length_drop; lia. }
  rewrite tb_fold_lookup by (try done; lia). unfold tb0. destruct (Z.ltb_spec (Z.of_nat i) max).
  - rewrite !lookup_app_l by (rewrite ?length_replicate; lia).
    rewrite lookup_replicate_2 by lia. unfold tb_spec.
    rewrite list_lookup_fmap, lookup_seq_lt by lia. simpl. by destruct (last_of_type _ _ _).
  - by rewrite !lookup_app_r, length_replicate, Hs by (rewrite ?length_replicate; lia).
Qed.

(** What the loops need of the bytes they read: they lie in the buffer, and so
    does the second byte of a header when a single byte is left. *)
Record attr_room (m : list Z) (nfa len : Z) : Prop := {
  ar_nfa : 0 <= nfa;
  ar_len : - 2 ^ 31 <= len < 2 ^ 31 - 4;
  ar_end : nfa + len <= zlen m;
  ar_last : nfa + len < zlen m \/ len mod 4 <> 1
}.

Lemma attr_room_next m nfa len :
  attr_room m nfa len -> 4 <= rd 2 nfa m <= len ->
  attr_room m (nfa + align4 (rd 2 nfa m)) (len - align4 (rd 2 nfa m)) /\
  sint 32 (len - align4 (rd 2 nfa m)) = len - align4 (rd 2 nfa m).
Proof.
  intros [? ? ? Hl] Hr. pose proof (align4_spec (rd 2 nfa m)) as [? Hmod].
  split; [split; [lia|lia|lia|]|apply sint_small; lia].
  destruct Hl as [?|Hl]; [left; lia|right].
  by rewrite Zminus_mod, Hmod, Z.sub_0_r, Z.mod_mod by lia.
Qed.

Lemma NFA_OK_run nfa len w :
  attr_room (w_mem w) nfa len ->
  NFA_OK nfa len w = Ok ((4 <=? rd 2 nfa (w_mem w)) && (rd 2 nfa (w_mem w) <=? len), w).
Proof.
  intros [? ? ? Hl]. unfold NFA_OK. destruct (Z.ltb_spec 0 len).
  - assert (nfa + 2 <= zlen (w_mem w)) by (destruct Hl as [?|Hl]; [lia|];
      destruct (decide (len = 1)) as [->|]; [done|lia]).
    unfold nfa_len, load16, bind. by rewrite load_ok by lia.
  - unfold ret. do 3 f_equal. symmetry. apply andb_false_iff.
    destruct (Z.leb_spec 4 (rd 2 nfa (w_mem w))); [right; apply Z.leb_gt; lia|by left].
Qed.

Lemma NFA_TYPE_run nfa len w :
  attr_room (w_mem w) nfa len -> 4 <= len ->
  NFA_TYPE nfa w = Ok (nfa_type_of (w_mem w) nfa, w).
Proof. intros [] ?. unfold NFA_TYPE, nfa_type, load16, bind. by rewrite load_ok by lia. Qed.

Lemma NFA_NEXT_run nfa len w :
  attr_room (w_mem w) nfa len -> 4 <= rd 2 nfa (w_mem w) <= len ->
  NFA_NEXT nfa len w = Ok ((nfa + align4 (rd 2 nfa (w_mem w)), len - align4 (rd 2 nfa (w_mem w))), w).
Proof.
  intros Hr ?. pose proof (attr_room_next _ _ _ Hr ltac:(done)) as [_ Hs]. destruct Hr.
  unfold NFA_NEXT, nfa_len, load16, bind. rewrite load_ok by lia. unfold ret.
  by rewrite NFA_ALIGN_align4, Hs.
Qed.

(** Attributes left in [len] bytes; the fuel counts the bytes. *)
Lemma parse_attr_loop_run fuel max tb nfa len w :
  attr_room (w_mem w) nfa len -> 0 <= max <= zlen tb -> (Z.to_nat len < fuel)%nat ->
  let m := w_mem w in
  let l := attr_list fuel m (nfa + len) nfa in
  parse_attr_loop fuel max tb nfa len w =
    if existsb (fun a => nfa_type_of m a =? 0) l then Ub
    else Ok ((nfa + len - attrs_end m nfa l, tb_fold m max l tb), w).
Proof.
  intros Hr Hmax Hf m. revert tb nfa len Hr Hmax Hf.
  induction fuel as [|fuel IH]; intros tb nfa len Hr Hmax Hf; [lia|]. cbn [parse_attr_loop attr_list].
  unfold bind at 1. rewrite NFA_OK_run by done. fold m.
  replace (nfa + len - nfa) with len by lia.
  destruct ((4 <=? rd 2 nfa m) && (rd 2 nfa m <=? len)) eqn:Hok.
  2: { cbn. unfold ret. do 3 f_equal. lia. }
  apply andb_true_iff in Hok as [?%Z.leb_le ?%Z.leb_le].
  unfold bind at 1. rewrite (NFA_TYPE_run nfa len) by (done || lia). fold m.
  pose proof (nfa_type_of_range m nfa). cbn [existsb tb_fold fold_left attrs_end].
  destruct (Z.eqb_spec (nfa_type_of m nfa) 0) as [Hz|Hz].
  { rewrite Hz, (proj2 (Z.leb_le 0 max)) by lia. done. }
  assert ((if nfa_type_of m nfa <=? max then set_tb tb (nfa_type_of m nfa - 1) nfa else ret tb) w
          = Ok (tb_put m max tb nfa, w)) as Hput.
  { unfold tb_put. destruct (Z.leb_spec (nfa_type_of m nfa) max); [|done]. unfold set_tb.
    by rewrite (proj2 (Z.leb_le 0 _)), (proj2 (Z.ltb_lt _ (zlen tb))) by lia. }
  unfold bind at 1. rewrite Hput. unfold bind at 1. rewrite NFA_NEXT_run by (done || lia). fold m.
  pose proof (align4_spec (rd 2 nfa m)). pose proof (attr_room_next _ _ _ Hr ltac:(done)) as [Hr' _].
  rewrite IH; [|done| |lia].
  2: { unfold tb_put, zlen. destruct (_ <=? _); rewrite ?length_insert; exact Hmax. }
  fold m. rewrite orb_false_l.
  by replace (nfa + align4 (rd 2 nfa m) + (len - align4 (rd 2 nfa m))) with (nfa + len) by lia.
Qed.

Lemma nfnl_parse_attr_run tb max nfa len w :
  attr_room (w_mem w) nfa len -> 0 < max <= zlen tb ->
  let l := nfattrs (w_mem w) nfa len in
  nfnl_parse_attr tb max nfa len w =
    if existsb (fun a => nfa_type_of (w_mem w) a =? 0) l then Ub
    else Ok ((nfa + len - attrs_end (w_mem w) nfa l,
              tb_spec (w_mem w) max l ++ drop (Z.to_nat max) tb), w).
Proof.
  intros Hr Hmax l. unfold nfnl_parse_attr. rewrite (proj2 (Z.ltb_lt 0 max)) by lia. cbn [negb].
  unfold bind, clear_tb. rewrite (proj2 (Z.leb_le max _)) by lia. unfold ret at 1.
  rewrite parse_attr_loop_run; [|done| |unfold loop_fuel; lia].
  2: { unfold zlen in *. rewrite length_app, length_replicate, length_drop. lia. }
  fold (nfattrs (w_mem w) nfa len). fold l.
  destruct (existsb _ l) eqn:He; [done|]. rewrite tb_fold_cleared; [done|lia|].
  apply Forall_forall. intros a Ha H0. apply not_true_iff_false in He. apply He.
  apply existsb_exists. exists a. split; [by apply list_elem_of_In|by apply Z.eqb_eq].
Qed.

(** On arbitrary bytes [nfnl_parse_attr] returns the bytes left after the
    last attribute and a table with, for each type up to [max], the last
    attribute of that type; an attribute of type zero makes it write before the
    start of the table. *)
Theorem nfnl_parse_attr_spec tb max nfa len w :
  attr_room (w_mem w) nfa len -> 0 < max <= zlen tb ->
  let l := nfattrs (w_mem w) nfa len in
  nfnl_parse_attr tb max nfa len w =
    if existsb (fun a => nfa_type_of (w_mem w) a =? 0) l then Ub
    else Ok ((nfa + len - attrs_end (w_mem w) nfa l,
              tb_spec (w_mem w) max l ++ drop (Z.to_nat max) tb), w).
Proof. intros. by apply nfnl_parse_attr_run. Qed.

Section ParseAttrExample.
(** Types 1, 2 and 1 again, the last one unpadded. *)
Definition parse_w : world :=
  mk_world (le_enc 2 5 ++ le_enc 2 1 ++ [7; 0; 0; 0] ++ le_enc 2 4 ++ le_enc 2 2
            ++ le_enc 2 6 ++ le_enc 2 1 ++ [8; 9]) 0 [].

Lemma nfnl_parse_attr_spec_witness :
  nfnl_parse_attr [None; None; None] 2 0 18 parse_w = Ok ((-2, [Some 12; Some 8; None]), parse_w).
Proof.
  etransitivity; [apply (nfnl_parse_attr_spec [None; None; None] 2 0 18 parse_w)|reflexivity].
  - split; [vm_compute; intuition congruence..|by right].
  - vm_compute. intuition congruence.
Defined.
End ParseAttrExample.
