(* ===== verification/Nfnl.v ===== *)
(** libnfnetlink/libnfnetlink.c: the handle, its subsystems and callbacks, and the
    dispatch of received messages.

    [S] is the state outside of the library: the store of the client and the
    kernel.  Callbacks and system calls act on it; a callback gets its [data]
    pointer as a number. *)
From S2P Require Import Prelude CMonad MnlMsg MnlAttr MnlCallback Tlv TlvParse Ctnl NfnlMsg.

Definition NFNL_MAX_SUBSYS : Z := 16.
Definition NFNL_F_SEQTRACK_ENABLED : Z := Z.shiftl 1 0.
Definition NFNL_BUFFSIZE : Z := 8192.
Definition AF_NETLINK : Z := 16.
Definition sizeof_sockaddr_nl : Z := 12.

Definition NFNL_SUBSYS_ID (x : Z) : Z := Z.shiftr (Z.land x 0xff00) 8.
Definition NFNL_MSG_TYPE (x : Z) : Z := Z.land x 0x00ff.

Definition NFNL_CB_FAILURE : Z := -1.
Definition NFNL_CB_STOP : Z := 0.
Definition NFNL_CB_CONTINUE : Z := 1.

Definition SOL_SOCKET : Z := 1.
Definition SOL_NETLINK : Z := 270.
Definition NETLINK_ADD_MEMBERSHIP : Z := 1.
Definition SO_RCVBUF : Z := 8.
Definition SO_RCVBUFFORCE : Z := 33.
Definition MSG_TRUNC : Z := 0x20.
Definition EBADF : Z := 9.
Definition EAGAIN : Z := 11.

Definition get_errno : M Z := fun w => Ok (w_errno w, w).

(** A local array of [n] bytes: at the end of the buffer while [f] runs. *)
Definition with_buffer {A} (n : Z) (f : Z -> M A) : M A := fun w =>
  let base := zlen (w_mem w) in
  match f base (with_mem (w_mem w ++ replicate (Z.to_nat n) 0) w) with
  | Ok (a, w') => Ok (a, with_mem (take (Z.to_nat base) (w_mem w')) w')
  | Ub => Ub
  | Exit => Exit
  | Fuel => Fuel
  end.

Record sockaddr_nl := mk_sockaddr_nl { nl_family : Z; nl_pid : Z; nl_groups : Z }.

Record msghdr := mk_msghdr {
  msg_name : sockaddr_nl;
  msg_namelen : Z;
  msg_iov : list iovec;
  msg_flags : Z
}.

Section Nfnl.
Context {S : Type}.

Definition nfnl_call : Type := Z -> list (option Z) -> Z -> S -> M (Z * S).

Record nfnl_callback := mk_callback {
  cb_call : option nfnl_call;
  cb_data : Z;
  cb_attr_count : Z
}.

Record nfnl_subsys_handle := mk_subsys {
  ss_subscriptions : Z;
  ss_subsys_id : Z;
  ss_cb_count : Z;
  ss_cb : option (list nfnl_callback)  (** NULL or the array *)
}.

(** Without the field [dump], which nothing uses. *)
Record nfnl_handle := mk_handle {
  h_fd : Z;
  h_local : sockaddr_nl;
  h_peer : sockaddr_nl;
  h_subscriptions : Z;
  h_seq : Z;
  h_rcv_buffer_size : Z;
  h_flags : Z;
  h_last_nlhdr : option Z;
  h_subsys : list nfnl_subsys_handle
}.

Definition set_h_local (v : sockaddr_nl) (h : nfnl_handle) : nfnl_handle :=
  mk_handle (h_fd h) v (h_peer h) (h_subscriptions h) (h_seq h) (h_rcv_buffer_size h) (h_flags h)
            (h_last_nlhdr h) (h_subsys h).
Definition set_h_subscriptions (v : Z) (h : nfnl_handle) : nfnl_handle :=
  mk_handle (h_fd h) (h_local h) (h_peer h) v (h_seq h) (h_rcv_buffer_size h) (h_flags h)
            (h_last_nlhdr h) (h_subsys h).
Definition set_h_seq (v : Z) (h : nfnl_handle) : nfnl_handle :=
  mk_handle (h_fd h) (h_local h) (h_peer h) (h_subscriptions h) v (h_rcv_buffer_size h) (h_flags h)
            (h_last_nlhdr h) (h_subsys h).
Definition set_h_rcv_buffer_size (v : Z) (h : nfnl_handle) : nfnl_handle :=
  mk_handle (h_fd h) (h_local h) (h_peer h) (h_subscriptions h) (h_seq h) v (h_flags h)
            (h_last_nlhdr h) (h_subsys h).
Definition set_h_flags (v : Z) (h : nfnl_handle) : nfnl_handle :=
  mk_handle (h_fd h) (h_local h) (h_peer h) (h_subscriptions h) (h_seq h) (h_rcv_buffer_size h) v
            (h_last_nlhdr h) (h_subsys h).
Definition set_h_last_nlhdr (v : option Z) (h : nfnl_handle) : nfnl_handle :=
  mk_handle (h_fd h) (h_local h) (h_peer h) (h_subscriptions h) (h_seq h) (h_rcv_buffer_size h)
            (h_flags h) v (h_subsys h).
Definition set_h_subsys (v : list nfnl_subsys_handle) (h : nfnl_handle) : nfnl_handle :=
  mk_handle (h_fd h) (h_local h) (h_peer h) (h_subscriptions h) (h_seq h) (h_rcv_buffer_size h)
            (h_flags h) (h_last_nlhdr h) v.

(** * System calls *)

(** The calls of the C library the handle uses; each returns its value, leaves
    [errno] and the buffer in the state of [M] and may change [S]. *)
Record os_calls := mk_os {
  os_socket : S -> M (Z * S);
  os_close : Z -> S -> M (Z * S);
  os_bind : Z -> sockaddr_nl -> S -> M (Z * S);
  (** value, address, address length *)
  os_getsockname : Z -> S -> M ((Z * sockaddr_nl * Z) * S);
  os_time : S -> M (Z * S);
  (** descriptor, offset and length of the message, receiver *)
  os_sendto : Z -> Z -> Z -> sockaddr_nl -> S -> M (Z * S);
  (** descriptor, offset and size of the buffer: bytes received, sender, length
      of its address *)
  os_recvfrom : Z -> Z -> Z -> S -> M ((Z * sockaddr_nl * Z) * S);
  os_sendmsg : Z -> msghdr -> Z -> S -> M (Z * S);
  (** descriptor, offset and size of the buffer: bytes received, sender, length
      of its address, flags *)
  os_recvmsg : Z -> Z -> Z -> S -> M ((Z * sockaddr_nl * Z * Z) * S);
  (** descriptor, level, option, value *)
  os_setsockopt : Z -> Z -> Z -> Z -> S -> M (Z * S);
  (** descriptor, level, option: value and the option read *)
  os_getsockopt : Z -> Z -> Z -> S -> M ((Z * Z) * S)
}.
Context (os : os_calls).

(** * The handle *)

Definition nfnl_fd (h : nfnl_handle) : Z := h_fd h.
Definition nfnl_portid (h : nfnl_handle) : Z := nl_pid (h_local h).

Definition recalc_subscriptions (h : nfnl_handle) : Z :=
  fold_left (fun s ss => Z.lor s (ss_subscriptions ss))
            (take (Z.to_nat NFNL_MAX_SUBSYS) (h_subsys h)) (h_subscriptions h).

Definition recalc_rebind_subscriptions (h : nfnl_handle) (s : S) : M ((Z * nfnl_handle) * S) :=
  let new_subscriptions := recalc_subscriptions h in
  let local := mk_sockaddr_nl (nl_family (h_local h)) (nl_pid (h_local h)) new_subscriptions in
  let h := set_h_local local h in
  let! (err, s) := os_bind os (h_fd h) local s in
  if err =? -1 then ret ((-1, h), s)
  else ret ((0, set_h_subscriptions new_subscriptions h), s).

(** [memset(nfnlh, 0, sizeof( *nfnlh))]. *)
Definition zero_subsys : nfnl_subsys_handle := mk_subsys 0 0 0 None.
Definition zero_handle : nfnl_handle :=
  mk_handle 0 (mk_sockaddr_nl 0 0 0) (mk_sockaddr_nl 0 0 0) 0 0 0 0 None
            (replicate (Z.to_nat (NFNL_MAX_SUBSYS + 1)) zero_subsys).

(** [err_close]: the socket is closed, the handle freed. *)
Definition open_failed (fd : Z) (s : S) : M (option nfnl_handle * S) :=
  let! (_, s) := os_close os fd s in ret (None, s).

Definition nfnl_open (s : S) : M (option nfnl_handle * S) :=
  let! ok := malloc_ok in
  if negb ok then ret (None, s) else
  let! (fd, s) := os_socket os s in
  if fd =? -1 then ret (None, s) else
  let! (r, s) := os_getsockname os fd s in
  let '(err, local, addr_len) := r in
  if negb (err =? 0) then open_failed fd s else
  if negb (addr_len =? sizeof_sockaddr_nl) then set_errno EINVAL ;;; open_failed fd s else
  if negb (nl_family local =? AF_NETLINK) then set_errno EINVAL ;;; open_failed fd s else
  let! (t, s) := os_time os s in
  let h := mk_handle fd local (mk_sockaddr_nl AF_NETLINK 0 0) 0 (wrap 32 t) NFNL_BUFFSIZE 0 None
                     (h_subsys zero_handle) in
  let! (r, s) := recalc_rebind_subscriptions h s in
  let '(err, h) := r in
  if err <? 0 then open_failed fd s else
  let! (r, s) := os_getsockname os fd s in
  let '(err, local, addr_len) := r in
  if negb (err =? 0) then open_failed fd s else
  if negb (addr_len =? sizeof_sockaddr_nl) then set_errno EINVAL ;;; open_failed fd s else
  ret (Some (set_h_flags (Z.lor (h_flags h) NFNL_F_SEQTRACK_ENABLED) (set_h_local local h)), s).

Definition nfnl_set_sequence_tracking (h : nfnl_handle) : nfnl_handle :=
  set_h_flags (Z.lor (h_flags h) NFNL_F_SEQTRACK_ENABLED) h.
Definition nfnl_unset_sequence_tracking (h : nfnl_handle) : nfnl_handle :=
  set_h_flags (Z.land (h_flags h) (wrap 32 (Z.lnot NFNL_F_SEQTRACK_ENABLED))) h.
Definition nfnl_set_rcv_buffer_size (h : nfnl_handle) (size : Z) : nfnl_handle :=
  set_h_rcv_buffer_size size h.

(** * Subsystems *)

(** [h->subsys[id]]; outside of the array it is a fault. *)
Definition get_subsys (h : nfnl_handle) (id : Z) : M nfnl_subsys_handle :=
  match h_subsys h !! Z.to_nat id with Some ss => ret ss | None => ub end.
Definition put_subsys (id : Z) (ss : nfnl_subsys_handle) (h : nfnl_handle) : nfnl_handle :=
  set_h_subsys (<[Z.to_nat id := ss]> (h_subsys h)) h.

(** The subsystem handle is its index; [None] is NULL. *)
Definition nfnl_subsys_open (h : nfnl_handle) (subsys_id cb_count subscriptions : Z) (s : S) :
    M ((option Z * nfnl_handle) * S) :=
  if NFNL_MAX_SUBSYS <? subsys_id then set_errno ENOENT ;;; ret ((None, h), s) else
  let! ssh := get_subsys h subsys_id in
  match ss_cb ssh with
  | Some _ => set_errno EBUSY ;;; ret ((None, h), s)
  | None =>
      let! ok := malloc_ok in
      if negb ok then ret ((None, h), s) else
      let cb := replicate (Z.to_nat cb_count) (mk_callback None 0 0) in
      let h := put_subsys subsys_id (mk_subsys subscriptions subsys_id cb_count (Some cb)) h in
      let! (r, s) := recalc_rebind_subscriptions h s in
      let '(err, h) := r in
      if err <? 0 then
        ret ((None, put_subsys subsys_id (mk_subsys subscriptions subsys_id cb_count None) h), s)
      else ret ((Some subsys_id, h), s)
  end.

Definition nfnl_subsys_close (h : nfnl_handle) (ssh : Z) : M nfnl_handle :=
  let! ss := get_subsys h ssh in
  ret (put_subsys ssh (mk_subsys 0 (ss_subsys_id ss) 0 None) h).

(** Closes the subsystems [i .. i + n - 1]. *)
Fixpoint close_subsystems (n : nat) (i : Z) (h : nfnl_handle) : M nfnl_handle :=
  match n with
  | O => ret h
  | Datatypes.S n => let! h := nfnl_subsys_close h i in close_subsystems n (i + 1) h
  end.

(** The handle as it is left; it is freed when the result is zero. *)
Definition nfnl_close (h : nfnl_handle) (s : S) : M ((Z * nfnl_handle) * S) :=
  let! h := close_subsystems (Z.to_nat NFNL_MAX_SUBSYS) 0 h in
  let! (r, s) := os_close os (h_fd h) s in
  if r <? 0 then ret ((r, h), s) else ret ((0, h), s).

(** [ssh->cb[type]]: through a null pointer or outside of the array, a fault. *)
Definition get_cb (ss : nfnl_subsys_handle) (type : Z) : M nfnl_callback :=
  match ss_cb ss with
  | Some cbs => match cbs !! Z.to_nat type with Some cb => ret cb | None => ub end
  | None => ub
  end.
Definition put_cb (ss : nfnl_subsys_handle) (type : Z) (cb : nfnl_callback) : M nfnl_subsys_handle :=
  match ss_cb ss with
  | Some cbs => if type <? zlen cbs
                then ret (mk_subsys (ss_subscriptions ss) (ss_subsys_id ss) (ss_cb_count ss)
                                    (Some (<[Z.to_nat type := cb]> cbs)))
                else ub
  | None => ub
  end.

Definition nfnl_callback_register (h : nfnl_handle) (ssh type : Z) (cb : nfnl_callback) :
    M (Z * nfnl_handle) :=
  let! ss := get_subsys h ssh in
  if ss_cb_count ss <=? type then set_errno EINVAL ;;; ret (-1, h) else
  let! ss := put_cb ss type cb in
  ret (0, put_subsys ssh ss h).

Definition nfnl_callback_unregister (h : nfnl_handle) (ssh type : Z) : M (Z * nfnl_handle) :=
  let! ss := get_subsys h ssh in
  if ss_cb_count ss <=? type then set_errno EINVAL ;;; ret (-1, h) else
  let! cb := get_cb ss type in
  let! ss := put_cb ss type (mk_callback None (cb_data cb) (cb_attr_count cb)) in
  ret (0, put_subsys ssh ss h).

(** * Sending *)

Definition nfnl_join (h : nfnl_handle) (group : Z) (s : S) : M (Z * S) :=
  os_setsockopt os (h_fd h) SOL_NETLINK NETLINK_ADD_MEMBERSHIP group s.

Definition nfnl_rcvbufsiz (h : nfnl_handle) (size : Z) (s : S) : M (Z * S) :=
  let! (status, s) := os_setsockopt os (h_fd h) SOL_SOCKET SO_RCVBUFFORCE size s in
  let! s := if status <? 0
            then let! (_, s) := os_setsockopt os (h_fd h) SOL_SOCKET SO_RCVBUF size s in ret s
            else ret s in
  let! (r, s) := os_getsockopt os (h_fd h) SOL_SOCKET SO_RCVBUF s in
  let '(status, read_size) := r in
  ret (if status <? 0 then 0 else read_size, s).

Definition nfnl_send (h : nfnl_handle) (n : Z) (s : S) : M (Z * S) :=
  let! l := nlmsg_len n in os_sendto os (h_fd h) n l (h_peer h) s.

Definition nfnl_sendmsg (h : nfnl_handle) (msg : msghdr) (flags : Z) (s : S) : M (Z * S) :=
  os_sendmsg os (h_fd h) msg flags s.

Definition nfnl_sendiov (h : nfnl_handle) (iov : list iovec) (flags : Z) (s : S) : M (Z * S) :=
  nfnl_sendmsg h (mk_msghdr (h_peer h) sizeof_sockaddr_nl iov 0) flags s.

Definition set_nlmsg_pid (nlh v : Z) : M unit := store32 (nlh + 12) v.

(** The sequence number of the next message and the handle that remembers it. *)
Definition next_seq (h : nfnl_handle) (s : S) : M ((Z * nfnl_handle) * S) :=
  if negb (Z.land (h_flags h) NFNL_F_SEQTRACK_ENABLED =? 0) then
    let seq := wrap 32 (h_seq h + 1) in
    if seq =? 0 then
      let! (t, s) := os_time os s in
      let seq := wrap 32 t in ret ((seq, set_h_seq seq h), s)
    else ret ((seq, set_h_seq seq h), s)
  else ret ((0, h), s).

Definition nfnl_fill_hdr (h : nfnl_handle) (ssh nlh len family res_id msg_type msg_flags : Z) (s : S) :
    M (nfnl_handle * S) :=
  let! ss := get_subsys h ssh in
  let nfg := nlh + sizeof_nlmsghdr in
  set_nlmsg_len nlh (wrap 32 (NLMSG_LENGTH (len + sizeof_nfgenmsg))) ;;;
  set_nlmsg_type nlh (wrap 16 (Z.lor (Z.shiftl (ss_subsys_id ss) 8) msg_type)) ;;;
  set_nlmsg_flags nlh msg_flags ;;;
  set_nlmsg_pid nlh 0 ;;;
  let! (r, s) := next_seq h s in
  let '(seq, h) := r in
  set_nlmsg_seq nlh seq ;;;
  store 1 nfg family ;;;
  store 1 (nfg + 1) NFNETLINK_V0 ;;;
  store16 (nfg + 2) (htons res_id) ;;;
  ret (h, s).

(** * Receiving *)

Definition nfnl_recv (h : nfnl_handle) (buf len : Z) (s : S) : M (Z * S) :=
  if negb (0 <? len) then exit else
  if (len <? sizeof_nlmsgerr) || (len <? sizeof_nlmsghdr) then set_errno EBADMSG ;;; ret (-1, s) else
  let! (r, s) := os_recvfrom os (h_fd h) buf len s in
  let '(status, peer, addrlen) := r in
  if status <=? 0 then ret (status, s) else
  if negb (addrlen =? sizeof_sockaddr_nl) then set_errno EINVAL ;;; ret (-1, s) else
  if negb (nl_pid peer =? 0) then set_errno ENOMSG ;;; ret (-1, s) else
  ret (status, s).

Definition nfnl_get_msg_first (h : nfnl_handle) (buf len : Z) : M (option Z * nfnl_handle) :=
  if negb (0 <? len) then exit else
  let! ok := NLMSG_OK buf len in
  if negb ok then ret (None, h) else ret (Some buf, set_h_last_nlhdr (Some buf) h).

Definition nfnl_get_msg_next (h : nfnl_handle) (buf len : Z) : M (option Z * nfnl_handle) :=
  if negb (0 <? len) then exit else
  let none := ret (None, set_h_last_nlhdr None h) in
  match h_last_nlhdr h with
  | None => none
  | Some last =>
      if (buf + len <=? last) || (last <? buf) then none else
      let! type := nlmsg_type last in
      let! flags := nlmsg_flags last in
      if (type =? NLMSG_DONE) || negb (Z.land flags NLM_F_MULTI =? 0) then none else
      let! (nlh, remain_len) := NLMSG_NEXT 64 last (len - (last - buf)) in
      let! ok := NLMSG_OK nlh remain_len in
      if negb ok then none else ret (Some nlh, set_h_last_nlhdr (Some nlh) h)
  end.

(** * Dispatch *)

Fixpoint check_attr_loop (fuel : nat) (attr_count : Z) (nfa : list (option Z)) (attr attrlen : Z) :
    M (list (option Z)) :=
  match fuel with
  | O => no_fuel
  | Datatypes.S fuel =>
      let! ok := NFA_OK attr attrlen in
      if ok : bool then
        let! flavor := NFA_TYPE attr in
        let! nfa := if negb (flavor =? 0) && negb (attr_count <? flavor)
                    then set_tb nfa (flavor - 1) attr else ret nfa in
        let! (attr, attrlen) := NFA_NEXT attr attrlen in
        check_attr_loop fuel attr_count nfa attr attrlen
      else ret nfa
  end.

Definition nfnl_check_attributes (h : nfnl_handle) (nlh : Z) (nfa : list (option Z)) :
    M (Z * list (option Z)) :=
  let! t := nlmsg_type nlh in
  let type := NFNL_MSG_TYPE t in
  let subsys_id := NFNL_SUBSYS_ID t in
  if NFNL_MAX_SUBSYS <? subsys_id then ret (- EINVAL, nfa) else
  let! ssh := get_subsys h subsys_id in
  if ss_cb_count ssh <=? type then ret (- EINVAL, nfa) else
  let min_len := NLMSG_SPACE sizeof_nfgenmsg in
  let! l := nlmsg_len nlh in
  if l <? min_len then ret (- EINVAL, nfa) else
  let! cb := get_cb ssh type in
  let! nfa := clear_tb nfa (cb_attr_count cb) in
  if min_len <? l then
    let attrlen := sint 32 (l - NLMSG_ALIGN min_len) in
    let! nfa := check_attr_loop (loop_fuel attrlen) (cb_attr_count cb) nfa
                                (NFM_NFA (NLMSG_DATA nlh)) attrlen in
    ret (0, nfa)
  else ret (0, nfa).

Definition __nfnl_handle_msg (h : nfnl_handle) (nlh len : Z) (s : S) : M (Z * S) :=
  let! t := nlmsg_type nlh in
  let type := NFNL_MSG_TYPE t in
  let subsys_id := NFNL_SUBSYS_ID t in
  if NFNL_MAX_SUBSYS <? subsys_id then ret (-1, s) else
  let! ssh := get_subsys h subsys_id in
  let! l := nlmsg_len nlh in
  if l <? NLMSG_LENGTH (NLMSG_ALIGN sizeof_nfgenmsg) then ret (-1, s) else
  if ss_cb_count ssh <=? type then ret (-1, s) else
  let! cb := get_cb ssh type in
  if negb (cb_attr_count cb =? 0) then
    let! (err, nfa) := nfnl_check_attributes h nlh (replicate (Z.to_nat (cb_attr_count cb)) None) in
    if err <? 0 then ret (err, s) else
    match cb_call cb with
    | Some call => call nlh nfa (cb_data cb) s
    | None => ret (0, s)
    end
  else ret (0, s).

(** [len] is an [int]; the comparisons convert it to unsigned. *)
Fixpoint handle_packet_loop (fuel : nat) (h : nfnl_handle) (buf len : Z) (s : S) : M (Z * S) :=
  match fuel with
  | O => no_fuel
  | Datatypes.S fuel =>
      if NLMSG_SPACE 0 <=? wrap 32 len then
        let nlh := buf in
        let! l := nlmsg_len nlh in
        if (l <? sizeof_nlmsghdr) || (wrap 32 len <? l) then ret (-1, s) else
        let rlen := NLMSG_ALIGN l in
        let rlen := if wrap 32 len <? rlen then wrap 32 len else rlen in
        let! (r, s) := __nfnl_handle_msg h nlh (sint 32 rlen) s in
        if r <? 0 then ret (-1, s) else
        handle_packet_loop fuel h (buf + rlen) (sint 32 (len - rlen)) s
      else ret (0, s)
  end.

Definition nfnl_handle_packet (h : nfnl_handle) (buf len : Z) (s : S) : M (Z * S) :=
  handle_packet_loop (loop_fuel len) h buf len s.

Definition nfnl_is_error (nlh : Z) : M bool :=
  let! type := nlmsg_type nlh in
  let! flags := nlmsg_flags nlh in
  if (type =? NLMSG_ERROR) || ((type =? NLMSG_DONE) && negb (Z.land flags NLM_F_MULTI =? 0)) then
    let! l := nlmsg_len nlh in
    if l <? NLMSG_ALIGN sizeof_nlmsgerr then set_errno EBADMSG ;;; ret true else
    let! e := load32 (NLMSG_DATA nlh) in
    set_errno (sint 32 (- sint 32 e)) ;;; ret true
  else ret false.

Definition nfnl_step (h : nfnl_handle) (nlh : Z) (s : S) : M (Z * S) :=
  let! t := nlmsg_type nlh in
  let type := NFNL_MSG_TYPE t in
  let subsys_id := NFNL_SUBSYS_ID t in
  let! is_error := nfnl_is_error nlh in
  if is_error : bool then
    let! e := get_errno in
    if e =? 0 then ret (0, s) else ret (-1, s)
  else
  let! l := nlmsg_len nlh in
  if l <? NLMSG_SPACE sizeof_nfgenmsg then set_errno ENOSPC ;;; ret (-1, s) else
  if NFNL_MAX_SUBSYS <? subsys_id then set_errno ENOENT ;;; ret (-1, s) else
  let! ssh := get_subsys h subsys_id in
  if ss_cb_count ssh <=? type then set_errno ENOENT ;;; ret (-1, s) else
  let! cb := get_cb ssh type in
  if negb (cb_attr_count cb =? 0) then
    let attr := NFM_NFA (NLMSG_DATA nlh) in
    let min_len := NLMSG_SPACE sizeof_nfgenmsg in
    let len := sint 32 (l - NLMSG_ALIGN min_len) in
    let! (err, tb) := nfnl_parse_attr (replicate (Z.to_nat (cb_attr_count cb)) None)
                                      (cb_attr_count cb) attr len in
    if err =? -1 then ret (-1, s) else
    match cb_call cb with
    | Some call => call nlh tb (cb_data cb) s
    | None => ret (1, s)
    end
  else ret (1, s).

(** [len] is a [size_t]. *)
Fixpoint process_loop (fuel : nat) (h : nfnl_handle) (nlh len r : Z) (s : S) : M (Z * S) :=
  match fuel with
  | O => no_fuel
  | Datatypes.S fuel =>
      let! ok := if NLMSG_SPACE 0 <=? len then NLMSG_OK nlh len else ret false in
      if ok : bool then
        let! (r, s) := nfnl_step h nlh s in
        if r <=? NFNL_CB_STOP then ret (r, s) else
        let! (nlh, len) := NLMSG_NEXT 64 nlh len in
        process_loop fuel h nlh len r s
      else ret (r, s)
  end.

(** The first message of the buffer is out of sequence. *)
Definition out_of_sequence (h : nfnl_handle) (nlh : Z) : M bool :=
  let! seq := nlmsg_seq nlh in ret (negb (seq =? 0) && negb (seq =? h_seq h)).

Definition nfnl_process (fuel : nat) (h : nfnl_handle) (buf len : Z) (s : S) : M (Z * S) :=
  if negb (0 <? len) then exit else
  let! bad := out_of_sequence h buf in
  if bad : bool then set_errno EILSEQ ;;; ret (-1, s) else
  process_loop fuel h buf len 0 s.

(** * Iterators *)

Record nfnl_iterator := mk_iterator { it_nlh : Z; it_len : Z }.

Definition nfnl_iterator_create (buf len : Z) : M (option nfnl_iterator) :=
  if negb (0 <? len) then exit else
  let! ok := malloc_ok in
  if negb ok then set_errno ENOMEM ;;; ret None else
  let! ok := if len <? NLMSG_SPACE 0 then ret false else NLMSG_OK buf len in
  if negb ok then set_errno EBADMSG ;;; ret None else
  ret (Some (mk_iterator buf (wrap 32 len))).

(** The iterator is no longer the caller's. *)
Definition nfnl_iterator_destroy (it : option nfnl_iterator) : M unit :=
  match it with None => exit | Some _ => ret tt end.

Definition nfnl_iterator_process (h : nfnl_handle) (it : nfnl_iterator) (s : S) : M (Z * S) :=
  let! bad := out_of_sequence h (it_nlh it) in
  if bad : bool then set_errno EILSEQ ;;; ret (-1, s) else
  let! ok := if it_len it <? NLMSG_SPACE 0 then ret false else NLMSG_OK (it_nlh it) (it_len it) in
  if negb ok then set_errno EBADMSG ;;; ret (-1, s) else
  nfnl_step h (it_nlh it) s.

(** The new position is an address inside the buffer, hence not null. *)
Definition nfnl_iterator_next (it : nfnl_iterator) : M (Z * nfnl_iterator) :=
  let! (nlh, len) := NLMSG_NEXT 32 (it_nlh it) (it_len it) in
  ret (1, mk_iterator nlh len).

(** * Receive loops *)

(** The fuel bounds the number of datagrams and of messages in each. *)
Fixpoint nfnl_catch (fuel : nat) (h : nfnl_handle) (s : S) : M (Z * S) :=
  match fuel with
  | O => no_fuel
  | Datatypes.S fuel' =>
      let! out := with_buffer (h_rcv_buffer_size h) (fun buf =>
        let! (r, s) := nfnl_recv h buf (h_rcv_buffer_size h) s in
        if r =? -1 then
          let! e := get_errno in
          if e =? EINTR then ret (inr s) else ret (inl (r, s))
        else
        let! (r, s) := nfnl_process fuel h buf (wrap 64 r) s in
        if r <=? NFNL_CB_STOP then ret (inl (r, s)) else ret (inr s)) in
      match out with
      | inl res => ret res
      | inr s => nfnl_catch fuel' h s
      end
  end.

Definition nfnl_query (fuel : nat) (h : nfnl_handle) (nlh : Z) (s : S) : M (Z * S) :=
  let! (r, s) := nfnl_send h nlh s in
  if r =? -1 then ret (-1, s) else nfnl_catch fuel h s.

(** * The deprecated receive loops *)

(** The address of the sender, the message, and the rest of the arguments in [S]. *)
Definition nfnl_handler : Type := sockaddr_nl -> Z -> S -> M (Z * S).

(** [l < 0 || len > remain] of a message of [len] bytes. *)
Definition malformed (len remain : Z) : bool :=
  (sint 32 (len - sizeof_nlmsghdr) <? 0) || (remain <? len).

(** The [for] loop over a datagram; [remain] is an [int] that the comparison
    with [sizeof] converts.  [inl] the value returned by the function. *)
Fixpoint listen_loop (fuel : nat) (handler : nfnl_handler) (nladdr : sockaddr_nl)
    (h remain quit : Z) (s : S) : M ((Z * S) + (Z * Z * S)) :=
  match fuel with
  | O => no_fuel
  | Datatypes.S fuel =>
      if sizeof_nlmsghdr <=? wrap 64 remain then
        let! l := nlmsg_len h in
        let len := sint 32 l in
        if malformed len remain then ret (inl (-1, s)) else
        let! type := nlmsg_type h in
        if type =? NLMSG_DONE then ret (inl (0, s)) else
        if type =? NLMSG_ERROR then
          let! e := load32 (NLMSG_DATA h) in ret (inl (sint 32 e, s))
        else
        let! (err, s) := handler nladdr h s in
        if err <? 0 then ret (inl (err, s)) else
        listen_loop fuel handler nladdr (h + NLMSG_ALIGN len) (sint 32 (remain - NLMSG_ALIGN len))
                    (Z.lor quit err) s
      else ret (inr (quit, remain, s))
  end.

(** The [while] loop, on the buffer [buf] of [NFNL_BUFFSIZE] bytes. *)
Fixpoint listen_recv (fuel : nat) (nfnlh : nfnl_handle) (handler : nfnl_handler)
    (buf quit : Z) (s : S) : M (Z * S) :=
  match fuel with
  | O => no_fuel
  | Datatypes.S fuel' =>
      if negb (quit =? 0) then ret (quit, s) else
      let! (r, s) := os_recvmsg os (h_fd nfnlh) buf NFNL_BUFFSIZE s in
      let '(remain, nladdr, namelen, flags) := r in
      if remain <? 0 then
        let! e := get_errno in
        if e =? EINTR then listen_recv fuel' nfnlh handler buf quit s
        else if (e =? EBADF) || (e =? EAGAIN) then ret (quit, s)
        else listen_recv fuel' nfnlh handler buf quit s
      else
      if remain =? 0 then ret (-1, s) else
      if negb (namelen =? sizeof_sockaddr_nl) then ret (-1, s) else
      let! out := listen_loop fuel handler nladdr buf remain quit s in
      match out with
      | inl res => ret res
      | inr (quit, remain, s) =>
          if negb (Z.land flags MSG_TRUNC =? 0) then listen_recv fuel' nfnlh handler buf quit s else
          if negb (remain =? 0) then ret (-1, s) else
          listen_recv fuel' nfnlh handler buf quit s
      end
  end.

Definition nfnl_listen (fuel : nat) (nfnlh : nfnl_handle) (handler : nfnl_handler) (s : S) : M (Z * S) :=
  with_buffer NFNL_BUFFSIZE (fun buf => listen_recv fuel nfnlh handler buf 0 s).

(** [memcpy(answer, h, h->nlmsg_len)]. *)
Definition copy_answer (answer h : Z) : M unit :=
  let! l := nlmsg_len h in memcpy_buf answer h l.

Fixpoint talk_loop (fuel : nat) (nfnlh : nfnl_handle) (seq : Z) (answer : option Z)
    (junk : option nfnl_handler) (nladdr : sockaddr_nl) (h status : Z) (s : S) :
    M ((Z * S) + (Z * S)) :=
  match fuel with
  | O => no_fuel
  | Datatypes.S fuel =>
      if sizeof_nlmsghdr <=? wrap 64 status then
        let! ul := nlmsg_len h in
        let len := sint 32 ul in
        let l := sint 32 (len - sizeof_nlmsghdr) in
        if malformed len status then ret (inl (-1, s)) else
        let cont s := talk_loop fuel nfnlh seq answer junk nladdr (h + NLMSG_ALIGN len)
                                (sint 32 (status - NLMSG_ALIGN len)) s in
        let! pid := nlmsg_pid h in
        let! mseq := nlmsg_seq h in
        if negb (pid =? nl_pid (h_local nfnlh)) || negb (mseq =? seq) then
          match junk with
          | Some junk => let! (err, s) := junk nladdr h s in
                         if err <? 0 then ret (inl (err, s)) else cont s
          | None => cont s
          end
        else
        let! type := nlmsg_type h in
        if type =? NLMSG_ERROR then
          let! e := load32 (NLMSG_DATA h) in
          let error := sint 32 e in
          if wrap 64 l <? sizeof_nlmsgerr then ret (inl (error, s)) else
          set_errno (sint 32 (- error)) ;;;
          if sint 32 (- error) =? 0 then
            match answer with
            | Some a => copy_answer a h ;;; ret (inl (0, s))
            | None => ret (inl (0, s))
            end
          else ret (inl (error, s))
        else
        match answer with
        | Some a => copy_answer a h ;;; ret (inl (0, s))
        | None => cont s
        end
      else ret (inr (status, s))
  end.

Fixpoint talk_recv (fuel : nat) (nfnlh : nfnl_handle) (seq : Z) (answer : option Z)
    (junk : option nfnl_handler) (buf : Z) (s : S) : M (Z * S) :=
  match fuel with
  | O => no_fuel
  | Datatypes.S fuel' =>
      let! (r, s) := os_recvmsg os (h_fd nfnlh) buf NFNL_BUFFSIZE s in
      let '(status, nladdr, namelen, flags) := r in
      if status <? 0 then talk_recv fuel' nfnlh seq answer junk buf s else
      if status =? 0 then ret (-1, s) else
      if negb (namelen =? sizeof_sockaddr_nl) then ret (-1, s) else
      let! out := talk_loop fuel nfnlh seq answer junk nladdr buf status s in
      match out with
      | inl res => ret res
      | inr (_, s) => talk_recv fuel' nfnlh seq answer junk buf s
      end
  end.

Definition nfnl_talk (fuel : nat) (nfnlh : nfnl_handle) (n peer groups : Z) (answer : option Z)
    (junk : option nfnl_handler) (s : S) : M ((Z * nfnl_handle) * S) :=
  let! l := nlmsg_len n in
  let seq := wrap 32 (h_seq nfnlh + 1) in
  let nfnlh := set_h_seq seq nfnlh in
  set_nlmsg_seq n seq ;;;
  (match answer with
   | Some _ => ret tt
   | None => let! f := nlmsg_flags n in set_nlmsg_flags n (Z.lor f NLM_F_ACK)
   end) ;;;
  let msg := mk_msghdr (mk_sockaddr_nl AF_NETLINK peer groups) sizeof_sockaddr_nl [mk_iovec n l] 0 in
  let! (status, s) := os_sendmsg os (h_fd nfnlh) msg 0 s in
  if status <? 0 then ret ((-1, nfnlh), s) else
  let! (r, s) := with_buffer NFNL_BUFFSIZE (fun buf => talk_recv fuel nfnlh seq answer junk buf s) in
  ret ((r, nfnlh), s).
End Nfnl.
