(* ===== verification/NfnlProps.v ===== *)
(** Properties of the dispatch of libnfnetlink.c: the callbacks of the handle,
    which messages reach which callback, and that a receive buffer of arbitrary
    bytes is read inside of its bounds. *)
From stdpp Require Import gmap.
From S2P Require Import Prelude CMonad MnlMsg MnlAttr MnlCallback Tlv TlvParse Ctnl NfnlMsg Nfnl.

(** Runs the computation of a hypothesis [c w = Ok _] one bind or test at a time. *)
Ltac run_in H :=
  repeat first
    [ progress cbn beta iota zeta in H
    | progress unfold ret, set_errno, get_errno, exit, no_fuel, ub in H
    | discriminate H
    | match type of H with
      | bind ?c ?k ?w = _ =>
          let E := fresh "E" in unfold bind at 1 in H; destruct (c w) as [[? ?]| | |] eqn:E
      | context [match ?x with (_, _) => _ end] => is_var x; destruct x
      | (if ?b then _ else _) ?w = _ => let E := fresh "E" in destruct b eqn:E
      | (match ?o with _ => _ end) ?w = _ => let E := fresh "E" in destruct o eqn:E
      end ].

Lemma load_past n o w : zlen (w_mem w) < o + Z.of_nat n -> load n o w = Ub.
Proof.
  intros. unfold load, bind, load_bytes. destruct (in_range _ _ _) eqn:Hir; [|done].
  apply in_range_true in Hir. lia.
Qed.

(** A computation that does not write to the buffer. *)
Definition reads {A} (c : M A) : Prop := forall w a w', c w = Ok (a, w') -> w_mem w' = w_mem w.

Lemma reads_ret {A} (a : A) : reads (ret a).
Proof. intros w x w'. unfold ret. naive_solver. Qed.
Lemma reads_bind {A B} (c : M A) (k : A -> M B) :
  reads c -> (forall w a w', c w = Ok (a, w') -> reads (k a)) -> reads (bind c k).
Proof.
  intros Hc Hk w b w'. unfold bind. destruct (c w) as [[a w1]| | |] eqn:E; try done.
  intros H. apply (Hk _ _ _ E) in H. apply Hc in E. congruence.
Qed.
Lemma reads_load n o : reads (load n o).
Proof. by intros w a w' (-> & _)%load_inv. Qed.
Lemma reads_set_errno e : reads (set_errno e).
Proof. intros w a w'. unfold set_errno. naive_solver. Qed.
Lemma reads_get_errno : reads get_errno.
Proof. intros w a w'. unfold get_errno. naive_solver. Qed.
Lemma reads_none {A} (r : res (A * world)) : (forall x, r <> Ok x) -> reads (fun _ => r).
Proof. intros H w a w' E. by destruct (H _ E). Qed.

Create HintDb reads.
#[export] Hint Resolve reads_ret reads_load reads_set_errno reads_get_errno : reads.
#[export] Hint Extern 1 (reads ub) => by apply reads_none : reads.
#[export] Hint Extern 1 (reads no_fuel) => by apply reads_none : reads.
#[export] Hint Extern 1 (reads exit) => by apply reads_none : reads.

(** Decomposes a computation into its reads. *)
Ltac reads :=
  repeat first
    [ solve [auto 2 with reads]
    | match goal with
      | |- reads (bind _ _) => apply reads_bind; [|intros ? ? ? ?]
      | |- reads (match ?x with _ => _ end) => destruct x eqn:?
      end
    | progress cbn zeta ].

Lemma reads_parse_attr_loop fuel max tb nfa len : reads (parse_attr_loop fuel max tb nfa len).
Proof.
  revert tb nfa len. induction fuel as [|fuel IH]; intros tb nfa len; cbn [parse_attr_loop]; [reads|].
  unfold NFA_OK, NFA_TYPE, NFA_NEXT, nfa_len, nfa_type, load16, set_tb. reads. all: apply IH.
Qed.

Lemma reads_parse_attr tb max nfa len : reads (nfnl_parse_attr tb max nfa len).
Proof. unfold nfnl_parse_attr, clear_tb. reads. apply reads_parse_attr_loop. Qed.
#[export] Hint Resolve reads_parse_attr : reads.

Section NfnlProps.
Context {S : Type} (os : @os_calls S).
Implicit Types (h : @nfnl_handle S) (ss : @nfnl_subsys_handle S) (s : S).

(** * The invariant of the handle *)

(** The callback array has [cb_count] entries; a subsystem without array has none. *)
Record subsys_ok (ss : @nfnl_subsys_handle S) : Prop := {
  so_count : 0 <= ss_cb_count ss < 2 ^ 8;
  so_array : match ss_cb ss with
             | Some cbs => zlen cbs = ss_cb_count ss /\
                           Forall (fun cb => 0 <= cb_attr_count cb < 2 ^ 16) cbs
             | None => ss_cb_count ss = 0
             end
}.

Record handle_ok (h : @nfnl_handle S) : Prop := {
  ho_subsys : zlen (h_subsys h) = NFNL_MAX_SUBSYS + 1;
  ho_each : Forall subsys_ok (h_subsys h)
}.

Lemma get_subsys_ok h id :
  handle_ok h -> 0 <= id <= NFNL_MAX_SUBSYS ->
  exists ss, h_subsys h !! Z.to_nat id = Some ss /\ subsys_ok ss.
Proof.
  intros [Hn He] Hid. unfold zlen, NFNL_MAX_SUBSYS in *.
  destruct (lookup_lt_is_Some_2 (h_subsys h) (Z.to_nat id)) as [ss Hss]; [lia|].
  exists ss. split; [done|]. by eapply Forall_lookup_1 in He.
Qed.

Lemma put_subsys_ok h id ss : handle_ok h -> subsys_ok ss -> handle_ok (put_subsys id ss h).
Proof.
  intros [Hn He] Hss. split; cbn.
  - unfold zlen in *. by rewrite length_insert.
  - by apply Forall_insert.
Qed.

(** A handle with the same subsystems. *)
Lemma handle_ok_subsys h h' : h_subsys h' = h_subsys h -> handle_ok h -> handle_ok h'.
Proof. intros He [? ?]. split; by rewrite He. Qed.

Lemma get_subsys_inv h id w ss w' :
  get_subsys h id w = Ok (ss, w') -> h_subsys h !! Z.to_nat id = Some ss /\ w' = w.
Proof. unfold get_subsys. destruct (_ !! _); [|done]. unfold ret. naive_solver. Qed.

Lemma get_cb_ok ss type w :
  subsys_ok ss -> 0 <= type < ss_cb_count ss ->
  exists cb, get_cb ss type w = Ok (cb, w) /\ 0 <= cb_attr_count cb < 2 ^ 16 /\
             exists cbs, ss_cb ss = Some cbs /\ cb ∈ cbs.
Proof.
  intros [Hc Ha] Ht. unfold get_cb. destruct (ss_cb ss) as [cbs|]; [|lia]. destruct Ha as [Hn Hf].
  unfold zlen in Hn. destruct (lookup_lt_is_Some_2 cbs (Z.to_nat type)) as [cb Hcb]; [lia|].
  rewrite Hcb. exists cb. split; [done|]. split; [by eapply Forall_lookup_1 in Hf|].
  exists cbs. split; [done|]. by eapply list_elem_of_lookup_2.
Qed.

Lemma recalc_subsys h s w r h' s' w' :
  recalc_rebind_subscriptions os h s w = Ok (((r, h'), s'), w') -> h_subsys h' = h_subsys h.
Proof. intros H. unfold recalc_rebind_subscriptions in H. run_in H; by simplify_eq. Qed.

Lemma next_seq_subsys h s w r h' s' w' :
  next_seq os h s w = Ok (((r, h'), s'), w') -> h_subsys h' = h_subsys h.
Proof. intros H. unfold next_seq in H. run_in H; by simplify_eq. Qed.

(** * What was opened and registered *)

(** What the client's calls and their results amount to: the callbacks of the
    subsystems that are open, and the subsystems that were free and whose
    opening failed. *)
Record opened := mk_opened { op_table : gmap Z (list (@nfnl_callback S)); op_failed : gset Z }.

Definition after_open (id cb_count : Z) (r : option Z) (o : opened) : opened :=
  match r with
  | Some _ => mk_opened (<[id := replicate (Z.to_nat cb_count) (mk_callback None 0 0)]> (op_table o)) (op_failed o ∖ {[id]})
  | None => match op_table o !! id with
            | Some _ => o
            | None => mk_opened (op_table o) ({[id]} ∪ op_failed o)
            end
  end.
Definition after_close (id : Z) (o : opened) : opened := mk_opened (delete id (op_table o)) (op_failed o ∖ {[id]}).
Definition after_register (id type : Z) (cb : @nfnl_callback S) (r : Z) (o : opened) : opened :=
  if r =? 0 then mk_opened (alter (fun l => <[Z.to_nat type := cb]> l) id (op_table o)) (op_failed o) else o.
Definition no_call (cb : @nfnl_callback S) : @nfnl_callback S := mk_callback None (cb_data cb) (cb_attr_count cb).
Definition after_unregister (id type : Z) (r : Z) (o : opened) : opened :=
  if r =? 0 then mk_opened (alter (alter no_call (Z.to_nat type)) id (op_table o)) (op_failed o) else o.

(** What a client does with a handle, and what it then knows. *)
Inductive handle_step : @nfnl_handle S * opened -> @nfnl_handle S * opened -> Prop :=
| hs_open h o id cb_count subs s w r h' s' w' :
    0 <= id < 2 ^ 8 -> 0 <= cb_count < 2 ^ 8 ->
    nfnl_subsys_open os h id cb_count subs s w = Ok (((r, h'), s'), w') ->
    handle_step (h, o) (h', after_open id cb_count r o)
| hs_close h o id w h' w' :
    0 <= id -> nfnl_subsys_close h id w = Ok (h', w') -> handle_step (h, o) (h', after_close id o)
| hs_register h o id type cb w r h' w' :
    0 <= id -> 0 <= type < 2 ^ 8 -> 0 <= cb_attr_count cb < 2 ^ 16 ->
    nfnl_callback_register h id type cb w = Ok ((r, h'), w') ->
    handle_step (h, o) (h', after_register id type cb r o)
| hs_unregister h o id type w r h' w' :
    0 <= id -> 0 <= type < 2 ^ 8 ->
    nfnl_callback_unregister h id type w = Ok ((r, h'), w') ->
    handle_step (h, o) (h', after_unregister id type r o)
| hs_fill h o ssh nlh len fam res ty fl s w h' s' w' :
    nfnl_fill_hdr os h ssh nlh len fam res ty fl s w = Ok ((h', s'), w') -> handle_step (h, o) (h', o)
| hs_track h o : handle_step (h, o) (nfnl_set_sequence_tracking h, o)
| hs_untrack h o : handle_step (h, o) (nfnl_unset_sequence_tracking h, o)
| hs_size h o n : handle_step (h, o) (nfnl_set_rcv_buffer_size h n, o)
| hs_first h o buf len w r h' w' :
    nfnl_get_msg_first h buf len w = Ok ((r, h'), w') -> handle_step (h, o) (h', o)
| hs_next h o buf len w r h' w' :
    nfnl_get_msg_next h buf len w = Ok ((r, h'), w') -> handle_step (h, o) (h', o).

(** Subsystem [id] has the callbacks [l] of [cb_count] entries, or none; without
    callbacks [cb_count] is zero, unless its opening failed. *)
Definition entry_ok (ss : @nfnl_subsys_handle S) (cbs : option (list (@nfnl_callback S))) (failed : Prop) : Prop :=
  ss_cb ss = cbs /\ 0 <= ss_cb_count ss < 2 ^ 8 /\
  match cbs with
  | Some l => zlen l = ss_cb_count ss /\ Forall (fun cb => 0 <= cb_attr_count cb < 2 ^ 16) l
  | None => failed \/ ss_cb_count ss = 0
  end.

Record table_ok (ho : @nfnl_handle S * opened) : Prop := {
  to_subsys : zlen (h_subsys ho.1) = NFNL_MAX_SUBSYS + 1;
  to_each id ss : 0 <= id -> h_subsys ho.1 !! Z.to_nat id = Some ss ->
    entry_ok ss (op_table ho.2 !! id) (id ∈ op_failed ho.2)
}.

Lemma table_ok_handle h o : table_ok (h, o) -> op_failed o = ∅ -> handle_ok h.
Proof.
  intros [Hn He] Hf. split; [done|]. apply Forall_lookup. intros i ss Hi.
  destruct (He (Z.of_nat i) ss) as (Hcb & Hc & Hl); [lia|by rewrite Nat2Z.id|]. cbn in *. rewrite Hf in Hl.
  split; [done|]. rewrite Hcb. destruct (op_table o !! _); [done|]. destruct Hl as [[]%elem_of_empty|]; done.
Qed.

(** Nothing about the subsystems changes. *)
Lemma table_ok_same h h' o : h_subsys h' = h_subsys h -> table_ok (h, o) -> table_ok (h', o).
Proof. intros E [? He]. split; cbn in *; rewrite E; [done|]. apply He. Qed.

(** One subsystem changes. *)
Lemma table_ok_put h o o' id ss h' :
  table_ok (h, o) -> 0 <= id -> h_subsys h' = <[Z.to_nat id := ss]> (h_subsys h) ->
  (forall k, k <> id -> op_table o' !! k = op_table o !! k /\ (k ∈ op_failed o' <-> k ∈ op_failed o)) ->
  entry_ok ss (op_table o' !! id) (id ∈ op_failed o') -> table_ok (h', o').
Proof.
  intros [Hn He] Hid E Hk Hss. split; cbn in *; rewrite E; [unfold zlen in *; by rewrite length_insert|].
  intros k x Hk0. destruct (decide (k = id)) as [->|Hne].
  - rewrite list_lookup_insert. case_decide; intros Hx; simplify_eq; [done|].
    apply lookup_lt_Some in Hx. lia.
  - rewrite list_lookup_insert_ne by lia. intros Hx. destruct (Hk k Hne) as [-> Hf].
    destruct (He k x Hk0 Hx) as (? & ? & Hl). split_and!; try lia; [done|]. destruct (op_table o !! k); [done|]. tauto.
Qed.

Lemma table_ok_lookup h o id ss :
  table_ok (h, o) -> 0 <= id -> h_subsys h !! Z.to_nat id = Some ss -> entry_ok ss (op_table o !! id) (id ∈ op_failed o).
Proof. intros [_ He]. apply He. Qed.

Lemma subsys_open_inv h o id cb_count subs s w r h' s' w' :
  0 <= id < 2 ^ 8 -> 0 <= cb_count < 2 ^ 8 ->
  nfnl_subsys_open os h id cb_count subs s w = Ok (((r, h'), s'), w') -> table_ok (h, o) ->
  table_ok (h', after_open id cb_count r o).
Proof.
  intros Hid Hc H Hh. unfold nfnl_subsys_open in H.
  assert (Hfail : table_ok (h, after_open id cb_count None o)).
  { cbn. destruct (op_table o !! id) eqn:Et; [done|]. destruct Hh as [Hn He]. split; [done|].
    intros k ss Hk Hss. destruct (He k ss Hk Hss) as (? & ? & Hl). split_and!; try lia; [done|]. cbn in *. destruct (op_table o !! k); [done|].
    set_solver. }
  run_in H; simplify_eq; try done.
  all: match goal with Eg : get_subsys _ _ _ = _ |- _ => apply get_subsys_inv in Eg as [Hs ->] end.
  all: match goal with Er : recalc_rebind_subscriptions _ _ _ _ = _ |- _ => apply recalc_subsys in Er as Hsub end; cbn in Hsub.
  - cbn [after_open]. destruct (table_ok_lookup _ _ id _ Hh ltac:(lia) Hs) as (Hcb & _).
    destruct (op_table o !! id) as [l|] eqn:Et; [congruence|].
    eapply (table_ok_put h o _ id); [done|lia|cbn; by rewrite Hsub, list_insert_insert_eq|cbn; set_solver|].
    cbn. rewrite Et. split_and!; cbn; [done|lia|lia|]. left. set_solver.
  - eapply (table_ok_put h o _ id); [done|lia|exact Hsub| |].
    + intros k Hk. cbn. rewrite lookup_insert_ne by done. set_solver.
    + cbn. rewrite lookup_insert_eq. split_and!; cbn; [done|lia|lia|zl|]. apply Forall_replicate. cbn. lia.
Qed.

Lemma subsys_close_inv h o id w h' w' :
  0 <= id -> nfnl_subsys_close h id w = Ok (h', w') -> table_ok (h, o) -> table_ok (h', after_close id o).
Proof.
  intros Hid H Hh. unfold nfnl_subsys_close in H. run_in H; simplify_eq.
  eapply (table_ok_put h o _ id); [done|done|done| |].
  - intros k Hk. cbn. rewrite lookup_delete_ne by done. set_solver.
  - cbn. rewrite lookup_delete_eq. split_and!; cbn; [done|lia|lia|by right].
Qed.

(** A callback of an open subsystem is replaced. *)
Lemma put_cb_inv h o id ss type cb w ss' w' f :
  table_ok (h, o) -> 0 <= id -> h_subsys h !! Z.to_nat id = Some ss -> 0 <= cb_attr_count cb < 2 ^ 16 ->
  put_cb ss type cb w = Ok (ss', w') -> (forall l, ss_cb ss = Some l -> f l = <[Z.to_nat type := cb]> l) ->
  table_ok (put_subsys id ss' h, mk_opened (alter f id (op_table o)) (op_failed o)).
Proof.
  intros Hh Hid Hs Hcb Hp Hf. destruct (table_ok_lookup _ _ _ _ Hh Hid Hs) as (Ecb & Hc & Hl).
  unfold put_cb in Hp. destruct (ss_cb ss) as [l|] eqn:El; [|done]. destruct (type <? zlen l); [|done].
  unfold ret in Hp. simplify_eq. rewrite <- Ecb in Hl. destruct Hl as [Hn Hl].
  eapply (table_ok_put h o _ id); [done|done|done| |].
  - intros k Hk. cbn. by rewrite lookup_alter_ne.
  - cbn. rewrite lookup_alter_eq, <- Ecb. cbn. rewrite (Hf l eq_refl). split_and!; cbn; [done|lia|lia| |by apply Forall_insert].
    unfold zlen in *. by rewrite length_insert.
Qed.

Lemma register_inv h o id type cb w r h' w' :
  0 <= id -> 0 <= cb_attr_count cb < 2 ^ 16 ->
  nfnl_callback_register h id type cb w = Ok ((r, h'), w') -> table_ok (h, o) -> table_ok (h', after_register id type cb r o).
Proof.
  intros Hid Hcb H Hh. unfold nfnl_callback_register in H. run_in H; simplify_eq; [done|].
  apply get_subsys_inv in E as [Hs ->]. by eapply put_cb_inv.
Qed.

Lemma unregister_inv h o id type w r h' w' :
  0 <= id -> nfnl_callback_unregister h id type w = Ok ((r, h'), w') -> table_ok (h, o) ->
  table_ok (h', after_unregister id type r o).
Proof.
  intros Hid H Hh. unfold nfnl_callback_unregister in H. run_in H; simplify_eq; [done|].
  apply get_subsys_inv in E as [Hs ->]. destruct (table_ok_lookup _ _ _ _ Hh Hid Hs) as (Ecb & Hc & Hl).
  unfold get_cb in E1. destruct (ss_cb _) as [l|] eqn:El; [|done]. rewrite <- Ecb in Hl. destruct Hl as [_ Hl].
  destruct (l !! Z.to_nat type) as [cb|] eqn:Et; [|done]. unfold ret in E1. simplify_eq.
  eapply put_cb_inv; [done|done|exact Hs| |exact E2|].
  - by apply (Forall_lookup_1 _ _ _ _ Hl Et).
  - intros l' ?. assert (l' = l) as -> by congruence. apply list_eq. intros i.
    destruct (decide (i = Z.to_nat type)) as [->|].
    + rewrite list_lookup_alter_eq, list_lookup_insert_eq, Et by (by eapply lookup_lt_Some). done.
    + by rewrite list_lookup_alter_ne, list_lookup_insert_ne by done.
Qed.

(** The operations that are not on subsystems leave them alone. *)
Lemma handle_step_ok ho ho' : handle_step ho ho' -> table_ok ho -> table_ok ho'.
Proof.
  destruct 1 as [? ? ? ? ? ? ? ? ? ? ? Hid Hc H|? ? ? ? ? ? Hid H|? ? ? ? ? ? ? ? ? Hid ? Hc H|? ? ? ? ? ? ? ? Hid ? H
                |? ? ? ? ? ? ? ? ? ? ? ? ? ? H| | | |? ? ? ? ? ? ? ? H|? ? ? ? ? ? ? ? H];
    intros Hh; try by apply (table_ok_same h).
  - by eapply subsys_open_inv in H.
  - by eapply subsys_close_inv in H.
  - by eapply register_inv in H.
  - by eapply unregister_inv in H.
  - eapply table_ok_same; [|exact Hh]. unfold nfnl_fill_hdr in H. run_in H; simplify_eq.
    by eapply next_seq_subsys.
  - eapply table_ok_same; [|exact Hh]. unfold nfnl_get_msg_first in H. run_in H; by simplify_eq.
  - eapply table_ok_same; [|exact Hh]. unfold nfnl_get_msg_next in H. run_in H; by simplify_eq.
Qed.

Definition nothing_opened : opened := mk_opened ∅ ∅.

Lemma nfnl_open_table s w h s' w' : nfnl_open os s w = Ok ((Some h, s'), w') -> table_ok (h, nothing_opened).
Proof.
  intros H. unfold nfnl_open, open_failed in H. run_in H; simplify_eq.
  match goal with E : recalc_rebind_subscriptions _ _ _ _ = _ |- _ => apply recalc_subsys in E as Hs end.
  apply (table_ok_same zero_handle); [exact Hs|]. split; [done|].
  intros id ss _ [-> _]%lookup_replicate. cbn. rewrite lookup_empty. split_and!; cbn; [done|lia|lia|by right].
Qed.

Lemma nfnl_open_ok s w h s' w' : nfnl_open os s w = Ok ((Some h, s'), w') -> handle_ok h.
Proof. intros H%nfnl_open_table. by apply (table_ok_handle h nothing_opened). Qed.

(** C26: the callbacks of a handle.  From [nfnl_open], whatever subsystems the
    client opens and closes and whatever callbacks it registers and removes, and
    whichever system calls and allocations fail: the handle has 17 subsystems;
    one that is open has exactly the callbacks that were registered last, in an
    array of [cb_count] entries; one that is not open has no array, and
    [cb_count] is zero unless its last opening failed (then [cb_count] can be
    the number that was asked for).  If no opening failed, every subsystem has
    an array of [cb_count] entries or none and [cb_count] zero. *)
Theorem handle_reachable_ok s w h0 s0 w0 h o :
  nfnl_open os s w = Ok ((Some h0, s0), w0) -> rtc handle_step (h0, nothing_opened) (h, o) ->
  table_ok (h, o) /\ (op_failed o = ∅ -> handle_ok h).
Proof.
  intros Ho%nfnl_open_table Hr. assert (table_ok (h, o)) as H; [|split; [done|by eapply table_ok_handle]].
  eapply (rtc_preserves _ table_ok); [apply handle_step_ok|exact Hr|exact Ho].
Qed.

(** * Reading the attributes of a message *)

Lemma check_attr_loop_run fuel count nfa attr len w :
  attr_room (w_mem w) attr len -> 0 <= count <= zlen nfa -> (Z.to_nat len < fuel)%nat ->
  exists nfa', check_attr_loop fuel count nfa attr len w = Ok (nfa', w) /\ zlen nfa' = zlen nfa.
Proof.
  revert nfa attr len. induction fuel as [|fuel IH]; intros nfa attr len Hr Hc Hf; [lia|].
  cbn [check_attr_loop]. unfold bind at 1. rewrite NFA_OK_run by done.
  destruct (_ && _) eqn:Hok; [|by eexists].
  apply andb_true_iff in Hok as [?%Z.leb_le ?%Z.leb_le].
  unfold bind at 1. rewrite (NFA_TYPE_run attr len) by (done || lia).
  set (fl := nfa_type_of (w_mem w) attr). pose proof (nfa_type_of_range (w_mem w) attr).
  assert (exists nfa1, (if negb (fl =? 0) && negb (count <? fl) then set_tb nfa (fl - 1) attr else ret nfa) w
          = Ok (nfa1, w) /\ zlen nfa1 = zlen nfa) as (nfa1 & Hput & Hz).
  { destruct (negb (fl =? 0) && negb (count <? fl)) eqn:Hfl; [|by eexists].
    apply andb_true_iff in Hfl as [?%negb_true_iff%Z.eqb_neq ?%negb_true_iff%Z.ltb_ge].
    unfold set_tb. rewrite (proj2 (Z.leb_le 0 _)), (proj2 (Z.ltb_lt _ (zlen nfa))) by lia.
    eexists. split; [done|]. unfold zlen. by rewrite length_insert. }
  unfold bind at 1. rewrite Hput. unfold bind at 1. rewrite NFA_NEXT_run by (done || lia).
  pose proof (align4_spec (rd 2 attr (w_mem w))).
  pose proof (attr_room_next _ _ _ Hr ltac:(done)) as [Hr' _].
  destruct (IH nfa1 _ _ Hr' ltac:(lia) ltac:(lia)) as (nfa2 & -> & ?). exists nfa2. split; [done|lia].
Qed.

(** A message of at least a [struct nfgenmsg] in a buffer it can be read from. *)
Record msg_room (m : list Z) (nlh : Z) : Prop := {
  mr_nlh : 0 <= nlh;
  mr_min : 16 <= rd 4 nlh m;
  mr_hdr : nlh + 16 <= zlen m;
  mr_attrs : 20 <= rd 4 nlh m -> attr_room m (nlh + 20) (rd 4 nlh m - 20)
}.

(** The tests of [nfnl_step] before the callback is looked up. *)
Lemma nfnl_step_head h nlh s ss w :
  let m := w_mem w in
  let t := rd 2 (nlh + 4) m in
  0 <= nlh -> nlh + 16 <= zlen m -> 20 <= rd 4 nlh m -> t <> NLMSG_ERROR -> t <> NLMSG_DONE ->
  NFNL_SUBSYS_ID t <= NFNL_MAX_SUBSYS -> h_subsys h !! Z.to_nat (NFNL_SUBSYS_ID t) = Some ss ->
  NFNL_MSG_TYPE t < ss_cb_count ss ->
  nfnl_step h nlh s w =
    (let! cb := get_cb ss (NFNL_MSG_TYPE t) in
     if negb (cb_attr_count cb =? 0) then
       let! (err, tb) := nfnl_parse_attr (replicate (Z.to_nat (cb_attr_count cb)) None)
         (cb_attr_count cb) (nlh + 20) (sint 32 (rd 4 nlh m - 20)) in
       if err =? -1 then ret (-1, s) else
       match cb_call cb with Some call => call nlh tb (cb_data cb) s | None => ret (1, s) end
     else ret (1, s)) w.
Proof.
  intros m t ? ? Hl Herr Hdone Hsub Hss Hty.
  unfold nfnl_step, nfnl_is_error, nlmsg_type, nlmsg_flags, nlmsg_len, load16, load32.
  unfold bind at 1. rewrite load_ok by (fold m; lia). fold m t. cbn zeta.
  unfold bind at 1 2. rewrite load_ok by (fold m; lia). fold m t.
  unfold bind at 1. rewrite load_ok by (fold m; lia).
  rewrite (proj2 (Z.eqb_neq t _) Herr), (proj2 (Z.eqb_neq t _) Hdone). cbn [orb andb]. unfold ret at 1.
  unfold bind at 1. rewrite load_ok by (fold m; lia). change (NLMSG_SPACE sizeof_nfgenmsg) with 20.
  fold m. rewrite (proj2 (Z.ltb_ge _ 20)), (proj2 (Z.ltb_ge _ (NFNL_SUBSYS_ID t))) by lia.
  unfold bind at 1, get_subsys. rewrite Hss. unfold ret at 1.
  rewrite (proj2 (Z.leb_gt (ss_cb_count ss) _)) by lia.
  change (NFM_NFA (NLMSG_DATA nlh)) with (nlh + 16 + 4). change (NLMSG_ALIGN 20) with 20.
  by replace (nlh + 16 + 4) with (nlh + 20) by lia.
Qed.

Lemma step_dispatch_run h nlh ss cb call s w :
  let m := w_mem w in
  let t := rd 2 (nlh + 4) m in
  let l := nfattrs m (nlh + 20) (rd 4 nlh m - 20) in
  msg_room m nlh -> 20 <= rd 4 nlh m -> t <> NLMSG_ERROR -> t <> NLMSG_DONE ->
  NFNL_SUBSYS_ID t <= NFNL_MAX_SUBSYS -> h_subsys h !! Z.to_nat (NFNL_SUBSYS_ID t) = Some ss ->
  NFNL_MSG_TYPE t < ss_cb_count ss -> get_cb ss (NFNL_MSG_TYPE t) w = Ok (cb, w) ->
  0 < cb_attr_count cb -> cb_call cb = Some call ->
  existsb (fun a => nfa_type_of m a =? 0) l = false -> attrs_end m (nlh + 20) l <> nlh + rd 4 nlh m + 1 ->
  nfnl_step h nlh s w = call nlh (tb_spec m (cb_attr_count cb) l) (cb_data cb) s w.
Proof.
  intros m t l [? ? ? Hattrs] Hl Herr Hdone Hsub Hss Hty Hcb Hn Hcall Hz He. specialize (Hattrs Hl).
  rewrite (nfnl_step_head h nlh s ss) by done. fold m t. unfold bind at 1. rewrite Hcb.
  rewrite (proj2 (Z.eqb_neq (cb_attr_count cb) 0)) by lia. cbn [negb].
  rewrite sint_small by (destruct Hattrs; lia). unfold bind at 1.
  rewrite nfnl_parse_attr_run by (try done; zl). fold m l. rewrite Hz.
  rewrite (proj2 (Z.eqb_neq _ (-1))) by lia. rewrite Hcall, drop_ge, app_nil_r; [done|].
  by rewrite length_replicate.
Qed.

(** A message that is neither an error nor the end of a dump reaches the
    callback that its type selects, with the last attribute of each type, unless
    one of its attributes has type zero or its last attribute is one byte short
    of its padding. *)
Theorem nfnl_step_dispatch h nlh ss cb call s w :
  let m := w_mem w in
  let t := rd 2 (nlh + 4) m in
  let l := nfattrs m (nlh + 20) (rd 4 nlh m - 20) in
  msg_room m nlh -> 20 <= rd 4 nlh m -> t <> NLMSG_ERROR -> t <> NLMSG_DONE ->
  NFNL_SUBSYS_ID t <= NFNL_MAX_SUBSYS -> h_subsys h !! Z.to_nat (NFNL_SUBSYS_ID t) = Some ss ->
  NFNL_MSG_TYPE t < ss_cb_count ss -> get_cb ss (NFNL_MSG_TYPE t) w = Ok (cb, w) ->
  0 < cb_attr_count cb -> cb_call cb = Some call ->
  existsb (fun a => nfa_type_of m a =? 0) l = false -> attrs_end m (nlh + 20) l <> nlh + rd 4 nlh m + 1 ->
  nfnl_step h nlh s w = call nlh (tb_spec m (cb_attr_count cb) l) (cb_data cb) s w.
Proof. apply step_dispatch_run. Qed.

(** * Packets of arbitrary bytes *)

(** Every registered callback returns, does not fault and keeps the buffer. *)
Definition callbacks_keep (h : @nfnl_handle S) : Prop :=
  forall ss cbs cb call, ss ∈ h_subsys h -> ss_cb ss = Some cbs -> cb ∈ cbs -> cb_call cb = Some call ->
  forall nlh tb s w, wp True (call nlh tb (cb_data cb) s) (fun _ w' => w_mem w' = w_mem w) w.

Lemma msg_type_range (m : list Z) nlh :
  Forall byte_ok m -> 0 <= nlh -> nlh + 16 <= zlen m ->
  0 <= NFNL_MSG_TYPE (rd 2 (nlh + 4) m) /\ 0 <= NFNL_SUBSYS_ID (rd 2 (nlh + 4) m).
Proof.
  intros Hb ? ?. pose proof (rd_range 2 (nlh + 4) m Hb ltac:(lia) ltac:(lia)).
  unfold NFNL_MSG_TYPE, NFNL_SUBSYS_ID. rewrite Z.shiftr_nonneg, !Z.land_nonneg. lia.
Qed.

(** The check of the attributes of a message that has a callback. *)
Lemma check_attributes_run h nlh ss cb w :
  let m := w_mem w in
  let t := rd 2 (nlh + 4) m in
  msg_room m nlh -> 20 <= rd 4 nlh m ->
  NFNL_SUBSYS_ID t <= NFNL_MAX_SUBSYS -> h_subsys h !! Z.to_nat (NFNL_SUBSYS_ID t) = Some ss ->
  NFNL_MSG_TYPE t < ss_cb_count ss -> get_cb ss (NFNL_MSG_TYPE t) w = Ok (cb, w) ->
  0 <= cb_attr_count cb ->
  exists nfa, nfnl_check_attributes h nlh (replicate (Z.to_nat (cb_attr_count cb)) None) w
              = Ok ((0, nfa), w).
Proof.
  intros m t [? ? ? Hattrs] Hl Hid Hss Hty Hcb Hn. specialize (Hattrs Hl).
  unfold nfnl_check_attributes, nlmsg_type, nlmsg_len, load16, load32.
  unfold bind at 1. rewrite load_ok by (fold m; lia). fold m t. cbn zeta.
  rewrite (proj2 (Z.ltb_ge _ (NFNL_SUBSYS_ID t))) by lia.
  unfold bind at 1, get_subsys. rewrite Hss. unfold ret at 1.
  rewrite (proj2 (Z.leb_gt (ss_cb_count ss) _)) by lia.
  unfold bind at 1. rewrite load_ok by (fold m; lia). fold m.
  change (NLMSG_SPACE sizeof_nfgenmsg) with 20. rewrite (proj2 (Z.ltb_ge (rd 4 nlh m) 20)) by lia.
  unfold bind at 1. rewrite Hcb. unfold bind at 1, clear_tb.
  rewrite (proj2 (Z.leb_le _ (zlen (replicate _ _)))) by zl. unfold ret at 1.
  destruct (20 <? rd 4 nlh m); [|by eexists].
  change (NLMSG_ALIGN 20) with 20. change (NFM_NFA (NLMSG_DATA nlh)) with (nlh + 16 + 4).
  replace (nlh + 16 + 4) with (nlh + 20) by lia.
  rewrite sint_small by (destruct Hattrs; lia). unfold bind at 1.
  destruct (check_attr_loop_run (loop_fuel (rd 4 nlh m - 20)) (cb_attr_count cb)
    (replicate (Z.to_nat (cb_attr_count cb)) None ++
       drop (Z.to_nat (cb_attr_count cb)) (replicate (Z.to_nat (cb_attr_count cb)) None))
    (nlh + 20) (rd 4 nlh m - 20) w) as (nfa & -> & _).
  - done.
  - rewrite zlen_app, zlen_replicate. match goal with |- context [zlen (drop ?n ?l)] =>
      pose proof (zlen_nonneg (drop n l)) end. lia.
  - unfold loop_fuel. lia.
  - by eexists.
Qed.

Lemma handle_msg_safe h nlh len s w :
  handle_ok h -> callbacks_keep h -> mem_ok w -> msg_room (w_mem w) nlh ->
  wp True (__nfnl_handle_msg h nlh len s) (fun _ w' => w_mem w' = w_mem w) w.
Proof.
  intros Hh Hcb Hm [? ? ? Hattrs]. unfold __nfnl_handle_msg.
  destruct (msg_type_range (w_mem w) nlh) as [Ht0 Hid0]; [done..|].
  apply wp_bind, wp_load; [lia|lia|]. set (t := rd 2 (nlh + 4) (w_mem w)) in *. cbn zeta.
  destruct (Z.ltb_spec NFNL_MAX_SUBSYS (NFNL_SUBSYS_ID t)); [by apply wp_ret|].
  destruct (get_subsys_ok h (NFNL_SUBSYS_ID t) Hh ltac:(lia)) as (ss & Hss & Hok).
  apply wp_bind. unfold get_subsys. rewrite Hss. apply wp_ret.
  apply wp_bind, wp_nlmsg_len; [lia|lia|].
  change (NLMSG_LENGTH (NLMSG_ALIGN sizeof_nfgenmsg)) with 20.
  destruct (Z.ltb_spec (rd 4 nlh (w_mem w)) 20); [by apply wp_ret|].
  destruct (Z.leb_spec (ss_cb_count ss) (NFNL_MSG_TYPE t)); [by apply wp_ret|].
  destruct (get_cb_ok ss (NFNL_MSG_TYPE t) w Hok ltac:(lia)) as (cb & Hgcb & Hn & cbs & Hcbs & Hin).
  apply wp_bind. unfold wp at 1. rewrite Hgcb. apply wp_intro.
  destruct (Z.eqb_spec (cb_attr_count cb) 0); [by apply wp_ret|]. cbn [negb].
  destruct (check_attributes_run h nlh ss cb w) as [nfa Hnfa]; [by split|lia|done..|lia|].
  apply wp_bind. unfold wp at 1. rewrite Hnfa. apply wp_intro. cbn [Z.ltb].
  destruct (cb_call cb) as [call|] eqn:Hcall; [|by apply wp_ret].
  eapply Hcb; [by eapply list_elem_of_lookup_2|done..].
Qed.

Lemma packet_msg_room m buf len :
  attr_room m buf len -> 16 <= rd 4 buf m <= len -> msg_room m buf.
Proof.
  intros [? ? ? Hl] Hr. split; [lia..|]. intros Hl'. split; [lia|lia|lia|].
  destruct (decide (rd 4 buf m = len)) as [->|]; [|left; lia].
  destruct Hl as [?|Hl]; [left; lia|right]. by rewrite Zminus_mod, Z.sub_0_r, Z.mod_mod by lia.
Qed.

(** The bytes after a message, of which at most [len] are skipped. *)
Lemma packet_next_room m buf len l :
  attr_room m buf len -> 16 <= l <= len ->
  let rlen := if len <? align4 l then len else align4 l in
  16 <= rlen <= len /\ attr_room m (buf + rlen) (len - rlen).
Proof.
  intros [? ? ? Hl] Hr. cbn zeta. pose proof (align4_spec l) as [? Hmod].
  destruct (Z.ltb_spec len (align4 l)); (split; [lia|split; [lia|lia|lia|]]).
  - right. by rewrite Z.sub_diag.
  - destruct Hl as [?|Hl]; [left; lia|right].
    by rewrite Zminus_mod, Hmod, Z.sub_0_r, Z.mod_mod by lia.
Qed.

Lemma handle_packet_loop_safe fuel h buf len s w :
  handle_ok h -> callbacks_keep h -> mem_ok w -> attr_room (w_mem w) buf len -> 0 <= len ->
  (Z.to_nat len < fuel)%nat ->
  wp True (handle_packet_loop fuel h buf len s)
     (fun '(r, _) w' => (r = 0 \/ r = -1) /\ w_mem w' = w_mem w) w.
Proof.
  intros Hh Hcb. revert buf len s w.
  induction fuel as [|fuel IH]; intros buf len s w Hb Hroom Hlen Hf; [lia|].
  cbn [handle_packet_loop]. pose proof Hroom as [? ? ? _].
  change (NLMSG_SPACE 0) with 16. rewrite (wrap_small 32 len) by lia.
  destruct (Z.leb_spec 16 len); [|apply wp_ret; by split; [left|]].
  apply wp_bind, wp_nlmsg_len; [lia|lia|]. set (l := rd 4 buf (w_mem w)).
  destruct ((l <? sizeof_nlmsghdr) || (len <? l)) eqn:Hbad; [apply wp_ret; by split; [right|]|].
  apply orb_false_iff in Hbad as [?%Z.ltb_ge ?%Z.ltb_ge]. change sizeof_nlmsghdr with 16 in *.
  cbn zeta. rewrite NLMSG_ALIGN_align4 by lia.
  destruct (packet_next_room _ _ _ l Hroom ltac:(lia)) as [Hrl Hroom'].
  set (rlen := if len <? align4 l then len else align4 l) in *.
  apply wp_bind. eapply wp_mono.
  { apply handle_msg_safe; [done..|]. by eapply packet_msg_room. }
  intros [r s'] w' Hm. cbn beta iota. destruct (r <? 0); [apply wp_ret; by split; [right|]|].
  rewrite <- Hm in Hroom'. rewrite sint_small by lia.
  eapply wp_mono; [apply IH; [unfold mem_ok; by rewrite Hm|done|lia|lia]|]. intros [r' s''] w'' [? ?]. split; [done|congruence].
Qed.

(** The message at [nlh] is for a registered callback that takes attributes. *)
Definition wants_attributes (h : @nfnl_handle S) (m : list Z) (nlh : Z) : Prop :=
  let t := rd 2 (nlh + 4) m in
  NFNL_SUBSYS_ID t <= NFNL_MAX_SUBSYS /\
  exists ss cbs cb, h_subsys h !! Z.to_nat (NFNL_SUBSYS_ID t) = Some ss /\ NFNL_MSG_TYPE t < ss_cb_count ss /\
    ss_cb ss = Some cbs /\ cbs !! Z.to_nat (NFNL_MSG_TYPE t) = Some cb /\ 0 < cb_attr_count cb.

(** One byte after the headers at the end of the memory: [NFA_OK] reads the two
    bytes of [nfa_len] there. *)
Lemma check_attributes_overread h nlh tb w :
  let m := w_mem w in
  0 <= nlh -> nlh + 21 = zlen m -> rd 4 nlh m = 21 -> wants_attributes h m nlh ->
  (forall ss cb, h_subsys h !! Z.to_nat (NFNL_SUBSYS_ID (rd 2 (nlh + 4) m)) = Some ss ->
     get_cb ss (NFNL_MSG_TYPE (rd 2 (nlh + 4) m)) w = Ok (cb, w) -> cb_attr_count cb <= zlen tb) ->
  nfnl_check_attributes h nlh tb w = Ub.
Proof.
  intros m ? Hend Hl (Hid & ss & cbs & cb & Hss & Hty & Hcbs & Hcb & Hn) Htb.
  assert (get_cb ss (NFNL_MSG_TYPE (rd 2 (nlh + 4) m)) w = Ok (cb, w)) as Hg by (unfold get_cb; by rewrite Hcbs, Hcb).
  specialize (Htb ss cb Hss Hg). unfold nfnl_check_attributes, nlmsg_type, nlmsg_len, load16, load32.
  unfold bind at 1. rewrite load_ok by (fold m; lia). fold m. cbn zeta.
  rewrite (proj2 (Z.ltb_ge _ (NFNL_SUBSYS_ID _))) by lia.
  unfold bind at 1, get_subsys. rewrite Hss. unfold ret at 1. rewrite (proj2 (Z.leb_gt (ss_cb_count ss) _)) by lia.
  unfold bind at 1. rewrite load_ok by (fold m; lia). fold m. rewrite Hl.
  change (21 <? NLMSG_SPACE sizeof_nfgenmsg) with false. cbn iota. unfold bind at 1. rewrite Hg.
  unfold bind at 1, clear_tb. rewrite (proj2 (Z.leb_le _ (zlen tb))) by lia. unfold ret at 1.
  change (NLMSG_SPACE sizeof_nfgenmsg <? 21) with true. cbn iota.
  change (sint 32 (21 - NLMSG_ALIGN (NLMSG_SPACE sizeof_nfgenmsg))) with 1.
  change (NFM_NFA (NLMSG_DATA nlh)) with (nlh + 16 + 4). change (loop_fuel 1) with 2%nat.
  cbn [check_attr_loop]. unfold bind at 1 2, NFA_OK, nfa_len, load16. change (0 <? 1) with true. cbn iota.
  unfold bind at 1. by rewrite load_past by (fold m; lia).
Qed.

Lemma handle_packet_overread h buf s w :
  let m := w_mem w in
  0 <= buf -> buf + 21 = zlen m -> rd 4 buf m = 21 -> wants_attributes h m buf ->
  nfnl_handle_packet h buf 21 s w = Ub.
Proof.
  intros m ? Hend Hl Hw. pose proof Hw as (Hid & ss & cbs & cb & Hss & Hty & Hcbs & Hcb & Hn).
  unfold nfnl_handle_packet, loop_fuel. cbn [handle_packet_loop Z.to_nat Pos.to_nat].
  change (NLMSG_SPACE 0 <=? wrap 32 21) with true. cbn iota zeta.
  unfold nlmsg_len, load32. unfold bind at 1. rewrite load_ok by (fold m; lia). fold m. rewrite Hl.
  change ((21 <? sizeof_nlmsghdr) || (wrap 32 21 <? 21)) with false. cbn iota.
  unfold bind at 1, __nfnl_handle_msg, nlmsg_type, nlmsg_len, load16, load32.
  unfold bind at 1. rewrite load_ok by (fold m; lia). fold m. cbn zeta.
  rewrite (proj2 (Z.ltb_ge _ (NFNL_SUBSYS_ID _))) by lia.
  unfold bind at 1, get_subsys. rewrite Hss. unfold ret at 1. unfold bind at 1. rewrite load_ok by (fold m; lia).
  fold m. rewrite Hl. change (21 <? NLMSG_LENGTH (NLMSG_ALIGN sizeof_nfgenmsg)) with false. cbn iota.
  rewrite (proj2 (Z.leb_gt (ss_cb_count ss) _)) by lia. unfold bind at 1, get_cb. rewrite Hcbs, Hcb. unfold ret at 1.
  rewrite (proj2 (Z.eqb_neq (cb_attr_count cb) 0)) by lia. cbn [negb]. unfold bind at 1.
  rewrite check_attributes_overread; [done| | | | |]; [lia|done|done|done|]. intros ss' cb' Hss' Hg'. fold m in Hss', Hg'.
  rewrite Hss in Hss'. simplify_eq. unfold get_cb, ret in Hg'. rewrite Hcbs, Hcb in Hg'. simplify_eq. zl.
Qed.

(** C25: when [nfnl_handle_packet] is safe on a packet of arbitrary bytes, and
    when it is not.  For a handle in order and callbacks that return and do not
    write to the packet: a packet that lies in the memory, and whose length is
    not one more than a multiple of four if it ends where the memory does, is
    read inside of the memory, and the call ends, returns 0 or -1 and leaves
    the packet as it was.  The condition on the end cannot be dropped: a packet
    of 21 bytes at the end of the memory, for a callback that takes attributes,
    makes [NFA_OK] read one byte after it. *)
Theorem nfnl_handle_packet_safe h buf len s w :
  handle_ok h -> callbacks_keep h -> mem_ok w -> 0 <= buf -> 0 <= len < 2 ^ 31 - 4 -> buf + len <= zlen (w_mem w) ->
  (buf + len < zlen (w_mem w) \/ len mod 4 <> 1 ->
   wp True (nfnl_handle_packet h buf len s)
      (fun '(r, _) w' => (r = 0 \/ r = -1) /\ w_mem w' = w_mem w) w) /\
  (buf + len = zlen (w_mem w) -> len = 21 -> rd 4 buf (w_mem w) = 21 -> wants_attributes h (w_mem w) buf ->
   nfnl_handle_packet h buf len s w = Ub).
Proof.
  intros ? ? ? ? ? ?. split; [intros|intros ? -> ? ?; by apply handle_packet_overread].
  apply handle_packet_loop_safe; [done..|split; (lia || done)|lia|]. unfold loop_fuel. lia.
Qed.

(** * Processing a receive buffer *)

(** The messages of a buffer up to [e]. *)
Fixpoint msg_list (fuel : nat) (m : list Z) (e o : Z) : list Z :=
  match fuel with
  | O => []
  | Datatypes.S fuel =>
      if (16 <=? e - o) && (16 <=? rd 4 o m) && (rd 4 o m <=? e - o)
      then o :: msg_list fuel m e (o + align4 (rd 4 o m)) else []
  end.

(** One message after the other until a step asks to stop. *)
Fixpoint process_msgs (h : @nfnl_handle S) (l : list Z) (r : Z) (s : S) : M (Z * S) :=
  match l with
  | [] => ret (r, s)
  | nlh :: l =>
      let! (r, s) := nfnl_step h nlh s in
      if r <=? NFNL_CB_STOP then ret (r, s) else process_msgs h l r s
  end.

Definition step_keeps (h : @nfnl_handle S) : Prop := forall nlh s, reads (nfnl_step h nlh s).

Lemma callback_reads h ss cbs cb call nlh tb s :
  callbacks_keep h -> ss ∈ h_subsys h -> ss_cb ss = Some cbs -> cb ∈ cbs -> cb_call cb = Some call ->
  reads (call nlh tb (cb_data cb) s).
Proof.
  intros Hcb Hss Hcbs Hin Hcall w a w' Hr. pose proof (Hcb _ _ _ _ Hss Hcbs Hin Hcall nlh tb s w) as Hw.
  unfold wp in Hw. by rewrite Hr in Hw.
Qed.

Lemma callbacks_step_keeps h : callbacks_keep h -> step_keeps h.
Proof.
  intros Hcb nlh s. unfold nfnl_step, nfnl_is_error, nlmsg_type, nlmsg_flags, nlmsg_len, load16, load32.
  reads; unfold get_subsys, get_cb in *; reads.
  repeat case_match; simplify_eq; try done. unfold ret in *. simplify_eq.
  eapply callback_reads; [done|by eapply list_elem_of_lookup_2|done|by eapply list_elem_of_lookup_2|done].
Qed.

Lemma process_loop_run fuel h m nlh len r s w :
  step_keeps h -> w_mem w = m -> Forall byte_ok m -> 0 <= nlh -> 0 <= len < 2 ^ 32 - 4 ->
  nlh + len <= zlen m -> len mod 4 = 0 -> (Z.to_nat len < fuel)%nat ->
  process_loop fuel h nlh len r s w = process_msgs h (msg_list fuel m (nlh + len) nlh) r s w.
Proof.
  intros Hk Hw Hb. revert nlh len r s w Hw.
  induction fuel as [|fuel IH]; intros nlh len r s w Hw ? ? ? Hmod Hf; [lia|].
  cbn [process_loop msg_list]. replace (nlh + len - nlh) with len by lia.
  change (NLMSG_SPACE 0) with 16. destruct (Z.leb_spec 16 len) as [Hl|Hl]; [|done]. cbn [andb].
  unfold bind at 1, NLMSG_OK. change sizeof_nlmsghdr with 16. rewrite (proj2 (Z.leb_le 16 len)) by lia.
  unfold bind at 1, nlmsg_len, load32. rewrite load_ok, Hw by (rewrite ?Hw; lia). unfold ret at 1.
  set (l := rd 4 nlh m). destruct ((16 <=? l) && (l <=? len)) eqn:Hok; [|done].
  apply andb_true_iff in Hok as [?%Z.leb_le ?%Z.leb_le]. cbn [process_msgs].
  unfold bind at 1 3. destruct (nfnl_step h nlh s w) as [[[r1 s1] w1]| | |] eqn:Hst; try done.
  apply (Hk nlh s) in Hst. destruct (r1 <=? NFNL_CB_STOP); [done|].
  unfold NLMSG_NEXT, bind at 1 2, nlmsg_len, load32. rewrite load_ok, Hst, Hw by (rewrite ?Hst, ?Hw; lia).
  unfold ret at 1. fold l. rewrite NLMSG_ALIGN_align4 by lia. pose proof (align4_spec l) as [? Hm4].
  assert (align4 l <= len).
  { pose proof (Z.div_mod (align4 l) 4). pose proof (Z.div_mod len 4). lia. }
  rewrite wrap_small by lia.
  rewrite IH; [|congruence|lia|lia|lia| |lia].
  - by replace (nlh + align4 l + (len - align4 l)) with (nlh + len) by lia.
  - by rewrite Zminus_mod, Hmod, Hm4.
Qed.

Lemma out_of_sequence_run h nlh w :
  0 <= nlh -> nlh + 12 <= zlen (w_mem w) ->
  let seq := rd 4 (nlh + 8) (w_mem w) in
  out_of_sequence h nlh w = Ok (negb (seq =? 0) && negb (seq =? h_seq h), w).
Proof. intros. unfold out_of_sequence, nlmsg_seq, load32, bind. by rewrite load_ok by lia. Qed.

(** [nfnl_process] on a buffer whose length is a multiple of four: a first
    message with a foreign sequence number is refused with [EILSEQ]; otherwise
    the messages are handed to [nfnl_step] in order, up to the first step that
    asks to stop, whose result is returned. *)
Theorem nfnl_process_spec fuel h buf len s w :
  callbacks_keep h -> mem_ok w -> 0 <= buf -> 16 <= len < 2 ^ 32 - 4 -> len mod 4 = 0 ->
  buf + len <= zlen (w_mem w) -> (Z.to_nat len < fuel)%nat ->
  let seq := rd 4 (buf + 8) (w_mem w) in
  nfnl_process fuel h buf len s w =
    if negb (seq =? 0) && negb (seq =? h_seq h) then Ok ((-1, s), with_errno EILSEQ w)
    else process_msgs h (msg_list fuel (w_mem w) (buf + len) buf) 0 s w.
Proof.
  intros Hcb Hm ? ? ? ? ? seq. unfold nfnl_process. rewrite (proj2 (Z.ltb_lt 0 len)) by lia. cbn [negb].
  unfold bind at 1. rewrite out_of_sequence_run by lia. fold seq.
  destruct (negb (seq =? 0) && negb (seq =? h_seq h)); [done|].
  apply process_loop_run; try done; [by apply callbacks_step_keeps|lia].
Qed.

(** When the last message is not padded and fills the buffer, the remaining
    length wraps around and the next header is read after the end. *)
Theorem nfnl_process_underflow fuel h buf len s w r s' w' :
  0 <= buf -> 16 <= len < 2 ^ 31 -> rd 4 buf (w_mem w) = len -> len mod 4 <> 0 ->
  buf + len = zlen (w_mem w) -> out_of_sequence h buf w = Ok (false, w) ->
  nfnl_step h buf s w = Ok ((r, s'), w') -> 0 < r -> w_mem w' = w_mem w ->
  nfnl_process (Datatypes.S (Datatypes.S fuel)) h buf len s w = Ub.
Proof.
  intros ? ? Hl Hmod Hend Hseq Hst Hr Hm. unfold nfnl_process.
  rewrite (proj2 (Z.ltb_lt 0 len)) by lia. cbn [negb]. unfold bind at 1. rewrite Hseq.
  cbn [process_loop]. change (NLMSG_SPACE 0) with 16. rewrite (proj2 (Z.leb_le 16 len)) by lia.
  unfold bind at 1, NLMSG_OK. change sizeof_nlmsghdr with 16. rewrite (proj2 (Z.leb_le 16 len)) by lia.
  unfold bind at 1, nlmsg_len, load32. rewrite load_ok, Hl by lia. unfold ret at 1.
  rewrite (proj2 (Z.leb_le 16 len)), (proj2 (Z.leb_le len len)) by lia. cbn [andb].
  unfold bind at 1. rewrite Hst. rewrite (proj2 (Z.leb_gt r NFNL_CB_STOP)) by (unfold NFNL_CB_STOP; lia).
  unfold NLMSG_NEXT, bind at 1 2, nlmsg_len, load32. rewrite load_ok, Hm, Hl by (rewrite ?Hm; lia).
  unfold ret at 1. rewrite NLMSG_ALIGN_align4 by lia. pose proof (align4_spec len) as [? Hm4].
  assert (align4 len <> len) by (intros E; by rewrite E in Hm4).
  assert (wrap 64 (len - align4 len) = 2 ^ 64 + (len - align4 len)) as ->.
  { unfold wrap. rewrite <- (Z_mod_plus_full (len - align4 len) 1), Z.mod_small; lia. }
  rewrite !(proj2 (Z.leb_le 16 (2 ^ 64 + (len - align4 len)))) by lia.
  unfold bind at 1 2. by rewrite load_past by (rewrite Hm; lia).
Qed.

(** When [bind] fails, [nfnl_subsys_open] frees the callbacks but keeps their
    number: a message for that subsystem is then looked up through a null
    pointer. *)
Theorem subsys_open_failure h id cb_count subs s w h1 s1 w1 nlh s2 w2 :
  nfnl_subsys_open os h id cb_count subs s w = Ok (((None, h1), s1), w1) -> h1 <> h ->
  0 <= id <= NFNL_MAX_SUBSYS -> handle_ok h ->
  let t := rd 2 (nlh + 4) (w_mem w2) in
  0 <= nlh -> nlh + 16 <= zlen (w_mem w2) -> 20 <= rd 4 nlh (w_mem w2) ->
  t <> NLMSG_ERROR -> t <> NLMSG_DONE ->
  NFNL_SUBSYS_ID t = id -> NFNL_MSG_TYPE t < cb_count ->
  nfnl_step h1 nlh s2 w2 = Ub.
Proof.
  intros Ho Hne Hid Hh t ? ? Hl Herr Hdone Hsub Hty.
  assert (exists ss, h_subsys h1 !! Z.to_nat id = Some ss /\ ss_cb_count ss = cb_count /\ ss_cb ss = None)
    as (ss & Hss & Hn & Hnone).
  { unfold nfnl_subsys_open in Ho. run_in Ho; simplify_eq.
    match goal with E : recalc_rebind_subscriptions _ _ _ _ = _ |- _ => apply recalc_subsys in E as Hs end.
    eexists (mk_subsys _ _ _ None). split; [|by split]. cbn. rewrite Hs. apply list_lookup_insert_eq. cbn.
    rewrite length_insert. pose proof (ho_subsys _ Hh) as Hz. unfold zlen, NFNL_MAX_SUBSYS in *. lia. }
  rewrite (nfnl_step_head h1 nlh s2 ss) by (fold t; rewrite ?Hsub, ?Hn; first [done|lia]).
  unfold bind at 1, get_cb. by rewrite Hnone.
Qed.
End NfnlProps.

(** * A handle with one subsystem *)

Section NfnlExample.
(** The client records the message and the table of each call. *)
Let log : Type := list (Z * list (option Z)).
Definition log_call : @nfnl_call log := fun nlh tb _ s => ret (1, (nlh, tb) :: s).
Definition log_cb : @nfnl_callback log := mk_callback (Some log_call) 0 2.

(** A kernel where every call succeeds. *)
Definition log_os : @os_calls log :=
  let nl := mk_sockaddr_nl AF_NETLINK 7 0 in
  mk_os (fun s => ret (3, s)) (fun _ s => ret (0, s)) (fun _ _ s => ret (0, s))
        (fun _ s => ret ((0, nl, 12), s)) (fun s => ret (1000, s)) (fun _ _ n _ s => ret (n, s))
        (fun _ _ _ s => ret ((0, nl, 12), s)) (fun _ _ _ s => ret (0, s))
        (fun _ _ _ s => ret ((0, nl, 12, 0), s)) (fun _ _ _ _ s => ret (0, s))
        (fun _ _ _ s => ret ((0, 0), s)).

Definition log_world : world := mk_world [] 0 [].
Definition log_open : M (option (@nfnl_handle log) * log) := nfnl_open log_os [].
Definition log_h0 : @nfnl_handle log :=
  match log_open log_world with Ok ((Some h, _), _) => h | _ => zero_handle end.
Definition log_h1 : @nfnl_handle log :=
  match nfnl_subsys_open log_os log_h0 3 1 0 [] log_world with Ok (((_, h), _), _) => h | _ => zero_handle end.
Definition log_h : @nfnl_handle log :=
  match nfnl_callback_register log_h1 3 0 log_cb log_world with Ok ((_, h), _) => h | _ => zero_handle end.

(** A kernel that refuses to join multicast groups. *)
Definition lone_os : @os_calls log :=
  mk_os (os_socket log_os) (os_close log_os) (fun _ a s => ret (if nl_groups a =? 0 then 0 else -1, s))
        (os_getsockname log_os) (os_time log_os) (os_sendto log_os) (os_recvfrom log_os) (os_sendmsg log_os)
        (os_recvmsg log_os) (os_setsockopt log_os) (os_getsockopt log_os).
Definition lone_h : @nfnl_handle log :=
  match nfnl_subsys_open lone_os log_h 4 2 1 [] log_world with Ok (((_, h), _), _) => h | _ => zero_handle end.

(** Subsystem 3 is opened with one callback; subsystem 4 cannot be opened. *)
Lemma handle_reachable_ok_witness :
  table_ok (lone_h, mk_opened {[3 := [log_cb]]} {[4]}) /\
  option_map ss_cb_count (h_subsys lone_h !! 4%nat) = Some 2.
Proof.
  split; [|vm_compute; reflexivity].
  change (mk_opened {[3 := [log_cb]]} {[4]}) with
    (after_open 4 2 None (after_register 3 0 log_cb 0 (after_open 3 1 (Some 3) nothing_opened))).
  apply (handle_reachable_ok lone_os) with (s := []) (w := log_world) (h0 := log_h0) (s0 := []) (w0 := log_world).
  - vm_compute. reflexivity.
  - eapply rtc_l; [|eapply rtc_l; [|eapply rtc_l; [|apply rtc_refl]]].
    + apply (hs_open lone_os log_h0 nothing_opened 3 1 0 [] log_world (Some 3) log_h1 [] log_world); [lia|lia|].
      vm_compute. reflexivity.
    + eapply (hs_register lone_os log_h1 _ 3 0 log_cb log_world 0 log_h log_world); [lia|lia|cbn; lia|].
      vm_compute. reflexivity.
    + eapply (hs_open lone_os log_h _ 4 2 1 [] log_world None lone_h [] log_world); [lia|lia|].
      vm_compute. reflexivity.
Defined.

(** A message for the callback with attributes of types 2 and 1, and one for a
    subsystem without callbacks. *)
Definition log_msg : list Z :=
  le_enc 4 30 ++ le_enc 2 0x300 ++ le_enc 2 0 ++ le_enc 4 0 ++ le_enc 4 0 ++ [0; 0; 0; 0]
  ++ le_enc 2 4 ++ le_enc 2 2 ++ le_enc 2 6 ++ le_enc 2 1 ++ [9; 9; 0; 0].
Definition log_buf : world :=
  mk_world (log_msg ++ le_enc 4 20 ++ le_enc 2 0x400 ++ replicate 14 0) 0 [].

Lemma log_callbacks_keep : callbacks_keep log_h.
Proof.
  intros ss cbs cb call Hss Hcbs Hin Hcall nlh tb s w.
  change (h_subsys log_h) with
    (replicate 3 zero_subsys ++ mk_subsys 0 3 1 (Some [log_cb]) :: replicate 13 zero_subsys) in Hss.
  apply elem_of_app in Hss as [[-> _]%elem_of_replicate|[->|[-> _]%elem_of_replicate]%elem_of_cons];
    try done.
  injection Hcbs as <-. apply list_elem_of_singleton in Hin as ->. injection Hcall as <-.
  by apply wp_ret.
Qed.

Lemma log_h_ok : handle_ok log_h.
Proof.
  split; [done|]. cbn. repeat (apply Forall_cons; split; [split; cbn; [lia|]|]); try done.
  split; [done|]. apply Forall_singleton. cbn. lia.
Qed.

Lemma log_room : attr_room (w_mem log_buf) 0 52.
Proof. split; [vm_compute; intuition congruence..|by right]. Qed.

(** A message of 21 bytes for the same callback, at the end of the memory. *)
Definition log_short : world := mk_world (le_enc 4 21 ++ le_enc 2 0x300 ++ replicate 15 0) 0 [].

Lemma nfnl_handle_packet_safe_witness :
  wp True (nfnl_handle_packet log_h 0 52 [])
     (fun '(r, _) w' => (r = 0 \/ r = -1) /\ w_mem w' = w_mem log_buf) log_buf /\
  nfnl_handle_packet log_h 0 21 [] log_short = Ub.
Proof.
  split.
  - apply (nfnl_handle_packet_safe log_h 0 52 [] log_buf);
      [apply log_h_ok|apply log_callbacks_keep|by apply bytes_okb_ok|lia|lia|vm_compute; congruence|by right].
  - apply (nfnl_handle_packet_safe log_h 0 21 [] log_short);
      [apply log_h_ok|apply log_callbacks_keep|by apply bytes_okb_ok|lia|lia|vm_compute; congruence|done..|].
    split; [done|]. exists (mk_subsys 0 3 1 (Some [log_cb])), [log_cb], log_cb. by split_and!.
Defined.

Lemma nfnl_process_spec_witness :
  nfnl_process 100 log_h 0 52 [] log_buf
  = Ok ((-1, [(0, [Some 24; Some 20])]), with_errno ENOENT log_buf).
Proof.
  etransitivity; [apply (nfnl_process_spec 100 log_h 0 52 [] log_buf)|vm_compute; reflexivity].
  - apply log_callbacks_keep.
  - by apply bytes_okb_ok.
  - lia.
  - lia.
  - reflexivity.
  - vm_compute. congruence.
  - lia.
Defined.

Lemma nfnl_step_dispatch_witness :
  nfnl_step log_h 0 [] log_buf = log_call 0 [Some 24; Some 20] 0 [] log_buf.
Proof.
  etransitivity;
    [eapply (nfnl_step_dispatch log_h 0 (mk_subsys 0 3 1 (Some [log_cb])) log_cb log_call [] log_buf)
    |vm_compute; reflexivity]; try (vm_compute; congruence).
  split; [lia|vm_compute; congruence..|]. intros _.
  split; [vm_compute; intuition congruence..|left; vm_compute; congruence].
Defined.
End NfnlExample.
