(* ===== verification/MnlSocket.v ===== *)
(** libmnl/socket.c: the netlink socket.

    The system calls are parameters: each returns its value, leaves [errno] and the buffer in
    the state of [M] and may change the state [S] of the kernel. *)
From S2P Require Import Prelude CMonad MnlMsg MnlAttr MnlCallback Tlv TlvParse Ctnl NfnlMsg Nfnl.

Definition SOCK_RAW : Z := 3.

Section Socket.
Context {S : Type}.

Record socket_calls := mk_socket_calls {
  (** family, type, protocol *)
  sk_socket : Z -> Z -> Z -> S -> M (Z * S);
  sk_close : Z -> S -> M (Z * S);
  sk_bind : Z -> sockaddr_nl -> S -> M (Z * S);
  (** value, address, address length *)
  sk_getsockname : Z -> S -> M ((Z * sockaddr_nl * Z) * S);
  (** descriptor, offset and length of the message, receiver *)
  sk_sendto : Z -> Z -> Z -> sockaddr_nl -> S -> M (Z * S);
  (** descriptor, offset and size of the buffer: bytes received, sender, length of its address,
      flags *)
  sk_recvmsg : Z -> Z -> Z -> S -> M ((Z * sockaddr_nl * Z * Z) * S);
  (** descriptor, level, option, offset and length of the value *)
  sk_setsockopt : Z -> Z -> Z -> Z -> Z -> S -> M (Z * S);
  (** descriptor, level, option, offset and size of the buffer: value and the length read *)
  sk_getsockopt : Z -> Z -> Z -> Z -> Z -> S -> M ((Z * Z) * S)
}.
Context (os : socket_calls).

Record mnl_socket := mk_mnl_socket { ms_fd : Z; ms_addr : sockaddr_nl }.

Definition mnl_socket_get_fd (nl : mnl_socket) : Z := ms_fd nl.
Definition mnl_socket_get_portid (nl : mnl_socket) : Z := nl_pid (ms_addr nl).

(** [calloc]. *)
Definition zero_addr : sockaddr_nl := mk_sockaddr_nl 0 0 0.

Definition __mnl_socket_open (bus flags : Z) (s : S) : M (option mnl_socket * S) :=
  let! ok := malloc_ok in
  if negb ok then ret (None, s) else
  let! (fd, s) := sk_socket os AF_NETLINK (Z.lor SOCK_RAW flags) bus s in
  if fd =? -1 then ret (None, s) else ret (Some (mk_mnl_socket fd zero_addr), s).

Definition mnl_socket_open (bus : Z) (s : S) : M (option mnl_socket * S) := __mnl_socket_open bus 0 s.
Definition mnl_socket_open2 (bus flags : Z) (s : S) : M (option mnl_socket * S) := __mnl_socket_open bus flags s.

Definition mnl_socket_fdopen (fd : Z) (s : S) : M (option mnl_socket * S) :=
  let! (r, s) := sk_getsockname os fd s in
  let '(r, addr, _) := r in
  if r =? -1 then ret (None, s) else
  let! ok := malloc_ok in
  if negb ok then ret (None, s) else
  ret (Some (mk_mnl_socket fd (if nl_family addr =? AF_NETLINK then addr else zero_addr)), s).

(** The socket keeps the address it asked for when [bind] fails. *)
Definition mnl_socket_bind (nl : mnl_socket) (groups pid : Z) (s : S) : M ((Z * mnl_socket) * S) :=
  let nl := mk_mnl_socket (ms_fd nl) (mk_sockaddr_nl AF_NETLINK (wrap 32 pid) groups) in
  let! (r, s) := sk_bind os (ms_fd nl) (ms_addr nl) s in
  if r <? 0 then ret ((r, nl), s) else
  let! (r, s) := sk_getsockname os (ms_fd nl) s in
  let '(r, addr, addr_len) := r in
  let nl := mk_mnl_socket (ms_fd nl) addr in
  if r <? 0 then ret ((r, nl), s) else
  if negb (addr_len =? sizeof_sockaddr_nl) then set_errno EINVAL ;;; ret ((-1, nl), s) else
  if negb (nl_family addr =? AF_NETLINK) then set_errno EINVAL ;;; ret ((-1, nl), s) else
  ret ((0, nl), s).

Definition mnl_socket_sendto (nl : mnl_socket) (buf len : Z) (s : S) : M (Z * S) :=
  sk_sendto os (ms_fd nl) buf len (mk_sockaddr_nl AF_NETLINK 0 0) s.

Definition mnl_socket_recvfrom (nl : mnl_socket) (buf bufsiz : Z) (s : S) : M (Z * S) :=
  let! (r, s) := sk_recvmsg os (ms_fd nl) buf bufsiz s in
  let '(r, _, msg_namelen, msg_flags) := r in
  if r =? -1 then ret (r, s) else
  if negb (Z.land msg_flags MSG_TRUNC =? 0) then set_errno ENOSPC ;;; ret (-1, s) else
  if negb (msg_namelen =? sizeof_sockaddr_nl) then set_errno EINVAL ;;; ret (-1, s) else
  ret (r, s).

Definition mnl_socket_close (nl : mnl_socket) (s : S) : M (Z * S) := sk_close os (ms_fd nl) s.

Definition mnl_socket_setsockopt (nl : mnl_socket) (type buf len : Z) (s : S) : M (Z * S) :=
  sk_setsockopt os (ms_fd nl) SOL_NETLINK type buf len s.
Definition mnl_socket_getsockopt (nl : mnl_socket) (type buf len : Z) (s : S) : M ((Z * Z) * S) :=
  sk_getsockopt os (ms_fd nl) SOL_NETLINK type buf len s.

(** * Properties *)

(** A client's receive step: what arrives is dispatched when it arrived whole. *)
Definition receive_and_run {D} (fuel : nat) (nl : mnl_socket) (buf bufsiz seq portid : Z) (cb : option (mnl_cb_t D))
    (data : D) (s : S) : M (Z * D * S) :=
  let! (n, s) := mnl_socket_recvfrom nl buf bufsiz s in
  if n =? -1 then ret (-1, data, s) else
  let! (r, data) := mnl_cb_run fuel buf n seq portid cb data in ret (r, data, s).

(** A datagram that was cut, or that did not come from a netlink address, is an error and its
    messages are not dispatched; a whole one has its messages visited in order. *)
Lemma receive_and_run_spec {D} fuel nl buf bufsiz seq portid (cb : option (mnl_cb_t D)) data s w n peer namelen flags s1 w1 :
  sk_recvmsg os (ms_fd nl) buf bufsiz s w = Ok ((n, peer, namelen, flags, s1), w1) -> 0 <= n ->
  (Z.land flags MSG_TRUNC <> 0 ->
     receive_and_run fuel nl buf bufsiz seq portid cb data s w = Ok ((-1, data, s1), with_errno ENOSPC w1)) /\
  (Z.land flags MSG_TRUNC = 0 -> namelen <> sizeof_sockaddr_nl ->
     receive_and_run fuel nl buf bufsiz seq portid cb data s w = Ok ((-1, data, s1), with_errno EINVAL w1)) /\
  (Z.land flags MSG_TRUNC = 0 -> namelen = sizeof_sockaddr_nl -> forall l,
     mem_ok w1 -> 0 <= buf -> buf + n <= zlen (w_mem w1) -> zlen (w_mem w1) < 2 ^ 31 - 4 ->
     (forall f, cb = Some f -> forall nlh d, reads_only (f nlh d)) ->
     nl_msgs (w_mem w1) buf (buf + n) l -> (length l < fuel)%nat ->
     receive_and_run fuel nl buf bufsiz seq portid cb data s w =
       (let! (r, data) := deliver (reaction_to seq portid cb None 0 (w_mem w1)) l MNL_CB_OK data in ret (r, data, s1)) w1).
Proof.
  intros Hr Hn. split_and!; unfold receive_and_run, mnl_socket_recvfrom; unfold bind at 1; unfold bind at 1; rewrite Hr;
    rewrite (proj2 (Z.eqb_neq n (-1))) by lia.
  - intros Hf. by rewrite (proj2 (Z.eqb_neq _ 0)) by done.
  - intros -> Hl. change (0 =? 0) with true. cbn [negb]. by rewrite (proj2 (Z.eqb_neq namelen _)) by done.
  - intros -> -> l Hm Hb He Hz Hcb Hl Hf. change (0 =? 0) with true. rewrite Z.eqb_refl. cbn [negb]. unfold ret at 1.
    rewrite (proj2 (Z.eqb_neq n (-1))) by lia. unfold bind.
    change (mnl_cb_run fuel buf n seq portid cb data w1) with (mnl_cb_run2 fuel buf n seq portid cb data None 0 w1).
    rewrite (cb_run2_delivers fuel buf n seq portid cb data None 0 l); done.
Qed.
End Socket.
