(* ===== verification/CtQuery.v ===== *)
(** libnetfilter_conntrack/api.c, callback.c and conn-main.c: queries, the dump
    filter, the handle and the callback that turns event messages into objects.

    [S] is the state outside of the libraries, as in Nfnl.v.  The conntrack handle
    holds the netlink handle; a callback that is registered there captures the
    client's function and its argument, which every registration and removal
    replaces together. *)
From S2P Require Import Prelude CMonad MnlMsg MnlAttr MnlCallback Tlv Ctnl Bitops CtObject CtApi CtBuild CtParse NfqMsg NfnlMsg Nfnl.

(** * Message types *)

Definition IPCTNL_MSG_CT_NEW : Z := 0.
Definition IPCTNL_MSG_CT_GET : Z := 1.
Definition IPCTNL_MSG_CT_DELETE : Z := 2.
Definition IPCTNL_MSG_CT_GET_CTRZERO : Z := 3.
Definition IPCTNL_MSG_MAX : Z := 8.

Definition NFCT_T_UNKNOWN : Z := 0.
Definition NFCT_T_NEW : Z := Z.shiftl 1 0.
Definition NFCT_T_UPDATE : Z := Z.shiftl 1 1.
Definition NFCT_T_DESTROY : Z := Z.shiftl 1 2.
Definition NFCT_T_ALL : Z := Z.lor (Z.lor NFCT_T_NEW NFCT_T_UPDATE) NFCT_T_DESTROY.

Definition NFCT_CB_STOLEN : Z := 2.

Inductive nf_conntrack_query :=
| NFCT_Q_CREATE
| NFCT_Q_UPDATE
| NFCT_Q_DESTROY
| NFCT_Q_GET
| NFCT_Q_FLUSH
| NFCT_Q_DUMP
| NFCT_Q_DUMP_RESET
| NFCT_Q_CREATE_UPDATE
| NFCT_Q_DUMP_FILTER
| NFCT_Q_DUMP_FILTER_RESET.

(** * The dump filter *)

Record nfct_filter_dump := mk_filter_dump {
  fd_mark_val : Z;
  fd_mark_mask : Z;
  fd_l3num : Z;
  fd_set : Z
}.

Definition NFCT_FILTER_DUMP_MARK : Z := 0.
Definition NFCT_FILTER_DUMP_L3NUM : Z := 1.
Definition NFCT_FILTER_DUMP_MAX : Z := 2.

(** [value] is the memory the pointer designates. *)
Definition set_filter_dump_attr_mark (fd : nfct_filter_dump) (value : list Z) : M nfct_filter_dump :=
  let! v := read_data 8 value in
  ret (mk_filter_dump (rd 4 0 v) (rd 4 4 v) (fd_l3num fd) (fd_set fd)).

Definition set_filter_dump_attr_family (fd : nfct_filter_dump) (value : list Z) : M nfct_filter_dump :=
  let! v := read_data 1 value in
  ret (mk_filter_dump (fd_mark_val fd) (fd_mark_mask fd) (rd 1 0 v) (fd_set fd)).

Definition set_filter_dump_attr_array (type : Z) : nfct_filter_dump -> list Z -> M nfct_filter_dump :=
  if type =? NFCT_FILTER_DUMP_MARK then set_filter_dump_attr_mark else set_filter_dump_attr_family.

Definition nfct_filter_dump_create : M (option nfct_filter_dump) :=
  let! ok := malloc_ok in
  if ok : bool then ret (Some (mk_filter_dump 0 0 0 0)) else ret None.

Definition nfct_filter_dump_set_attr (fd : nfct_filter_dump) (type : Z) (value : list Z) :
    M nfct_filter_dump :=
  if NFCT_FILTER_DUMP_MAX <=? type then ret fd else
  let! fd := set_filter_dump_attr_array type fd value in
  ret (mk_filter_dump (fd_mark_val fd) (fd_mark_mask fd) (fd_l3num fd)
                      (Z.lor (fd_set fd) (Z.shiftl 1 type))).

Definition nfct_filter_dump_set_attr_u8 (fd : nfct_filter_dump) (type value : Z) : M nfct_filter_dump :=
  nfct_filter_dump_set_attr fd type (le_enc 1 value).

(** * Building requests *)

(** The nfnetlink header at [nlh + 16]. *)
Definition put_nfgenmsg (nfh family version res_id : Z) : M unit :=
  store 1 nfh family ;;; store 1 (nfh + 1) version ;;; store16 (nfh + 2) res_id.

(** [memset(req, 0, size)]. *)
Definition zero_bytes (req size : Z) : M unit := store_bytes req (replicate (Z.to_nat size) 0).

Definition __build_conntrack (req size type flags : Z) (ct : nf_conntrack) : M Z :=
  let l3num := tp_l3protonum (ct_orig ct) in
  if negb (attr_is_set ATTR_ORIG_L3PROTO ct) then set_errno EINVAL ;;; ret (-1) else
  zero_bytes req size ;;;
  let! nlh := mnl_nlmsg_put_header req in
  set_nlmsg_type nlh (wrap 16 (Z.lor (Z.shiftl NFNL_SUBSYS_CTNETLINK 8) type)) ;;;
  set_nlmsg_flags nlh flags ;;;
  set_nlmsg_seq nlh 0 ;;;
  let! nfh := mnl_nlmsg_put_extra_header nlh sizeof_nfgenmsg in
  put_nfgenmsg nfh l3num NFNETLINK_V0 0 ;;;
  nfct_nlmsg_build nlh ct.

Definition nfct_build_conntrack := __build_conntrack.

Definition nfct_fill_hdr (req type flags l3num version : Z) : M unit :=
  let! nlh := mnl_nlmsg_put_header req in
  set_nlmsg_type nlh (wrap 16 (Z.lor (Z.shiftl NFNL_SUBSYS_CTNETLINK 8) type)) ;;;
  set_nlmsg_flags nlh (wrap 16 (Z.lor NLM_F_REQUEST flags)) ;;;
  set_nlmsg_seq nlh 0 ;;;
  let! nfh := mnl_nlmsg_put_extra_header nlh sizeof_nfgenmsg in
  put_nfgenmsg nfh l3num version 0.

Definition __build_filter_dump (req size : Z) (fd : nfct_filter_dump) : M unit :=
  (if negb (Z.land (fd_set fd) (Z.shiftl 1 NFCT_FILTER_DUMP_MARK) =? 0) then
     nfnl_addattr32 req (sint 32 size) CTA_MARK (htonl (fd_mark_val fd)) ;;;
     nfnl_addattr32 req (sint 32 size) CTA_MARK_MASK (htonl (fd_mark_mask fd)) ;;; ret tt
   else ret tt) ;;;
  if negb (Z.land (fd_set fd) (Z.shiftl 1 NFCT_FILTER_DUMP_L3NUM) =? 0)
  then store 1 (NLMSG_DATA req) (fd_l3num fd) else ret tt.

(** What the argument [data] of a query points to. *)
Inductive query_data :=
| QConntrack (ct : nf_conntrack)
| QFamily (family : Z)
| QFilter (fd : nfct_filter_dump).

(** The argument read as an object of another type is a fault. *)
Definition with_ct {A} (d : query_data) (f : nf_conntrack -> M A) : M A :=
  match d with QConntrack ct => f ct | _ => ub end.
Definition with_family {A} (d : query_data) (f : Z -> M A) : M A :=
  match d with QFamily n => f (wrap 8 n) | _ => ub end.
Definition with_filter {A} (d : query_data) (f : nfct_filter_dump -> M A) : M A :=
  match d with QFilter fd => f fd | _ => ub end.

Definition __build_query_ct (qt : nf_conntrack_query) (data : query_data) (req size : Z) : M Z :=
  zero_bytes req size ;;;
  (match qt with
   | NFCT_Q_CREATE => with_ct data (fun ct =>
       __build_conntrack req size IPCTNL_MSG_CT_NEW
         (Z.lor (Z.lor (Z.lor NLM_F_REQUEST NLM_F_CREATE) NLM_F_ACK) NLM_F_EXCL) ct ;;; ret tt)
   | NFCT_Q_UPDATE => with_ct data (fun ct =>
       __build_conntrack req size IPCTNL_MSG_CT_NEW (Z.lor NLM_F_REQUEST NLM_F_ACK) ct ;;; ret tt)
   | NFCT_Q_DESTROY => with_ct data (fun ct =>
       __build_conntrack req size IPCTNL_MSG_CT_DELETE (Z.lor NLM_F_REQUEST NLM_F_ACK) ct ;;; ret tt)
   | NFCT_Q_GET => with_ct data (fun ct =>
       __build_conntrack req size IPCTNL_MSG_CT_GET (Z.lor NLM_F_REQUEST NLM_F_ACK) ct ;;; ret tt)
   | NFCT_Q_FLUSH => with_family data (fun family =>
       nfct_fill_hdr req IPCTNL_MSG_CT_DELETE NLM_F_ACK family NFNETLINK_V0)
   | NFCT_Q_DUMP => with_family data (fun family =>
       nfct_fill_hdr req IPCTNL_MSG_CT_GET NLM_F_DUMP family NFNETLINK_V0)
   | NFCT_Q_DUMP_RESET => with_family data (fun family =>
       nfct_fill_hdr req IPCTNL_MSG_CT_GET_CTRZERO NLM_F_DUMP family NFNETLINK_V0)
   | NFCT_Q_CREATE_UPDATE => with_ct data (fun ct =>
       __build_conntrack req size IPCTNL_MSG_CT_NEW
         (Z.lor (Z.lor NLM_F_REQUEST NLM_F_CREATE) NLM_F_ACK) ct ;;; ret tt)
   | NFCT_Q_DUMP_FILTER => with_filter data (fun fd =>
       nfct_fill_hdr req IPCTNL_MSG_CT_GET NLM_F_DUMP AF_UNSPEC NFNETLINK_V0 ;;;
       __build_filter_dump req size fd)
   | NFCT_Q_DUMP_FILTER_RESET => with_filter data (fun fd =>
       nfct_fill_hdr req IPCTNL_MSG_CT_GET_CTRZERO NLM_F_DUMP AF_UNSPEC NFNETLINK_V0 ;;;
       __build_filter_dump req size fd)
   end) ;;;
  ret 1.

Definition nfct_build_query := __build_query_ct.

(** * Reading messages *)

(** [__parse_message_type] of api.c and [__parse_message] of callback.c. *)
Definition __parse_message_type (nlh : Z) : M Z :=
  let! t := nlmsg_type nlh in
  let! flags := nlmsg_flags nlh in
  let type := NFNL_MSG_TYPE t in
  ret (if type =? IPCTNL_MSG_CT_NEW then
         if negb (Z.land flags (Z.lor NLM_F_CREATE NLM_F_EXCL) =? 0) then NFCT_T_NEW else NFCT_T_UPDATE
       else if type =? IPCTNL_MSG_CT_DELETE then NFCT_T_DESTROY
       else NFCT_T_UNKNOWN).

Definition nfct_parse_conntrack (type nlh : Z) (ct : nf_conntrack) : M (Z * nf_conntrack) :=
  let! flags := __parse_message_type nlh in
  if Z.land flags type =? 0 then ret (0, ct) else
  let! (_, ct) := nfct_nlmsg_parse nlh ct in
  ret (flags, ct).

(** * The handle *)

Section Handle.
Context {S : Type} (os : @os_calls S).

(** The client's functions: message (in the second form), type, object, data. *)
Definition nfct_cb : Type := Z -> nf_conntrack -> Z -> S -> M (Z * S).
Definition nfct_cb2 : Type := Z -> Z -> nf_conntrack -> Z -> S -> M (Z * S).

Record nfct_handle := mk_nfct_handle {
  nh_nfnlh : @nfnl_handle S;
  nh_ssh : option Z;
  nh_nfnl_cb_ct : @nfnl_callback S;
  nh_cb : option nfct_cb;
  nh_cb2 : option nfct_cb2
}.

(** [struct __data_container]: the functions of the handle, the types the client
    asked for and its data. *)
Record data_container := mk_container {
  dc_cb : option nfct_cb;
  dc_cb2 : option nfct_cb2;
  dc_type : Z;
  dc_data : Z
}.

Definition __callback (c : data_container) : @nfnl_call S := fun nlh _ _ s =>
  let! t := nlmsg_type nlh in
  let subsys := NFNL_SUBSYS_ID t in
  let! l := nlmsg_len nlh in
  if l <? NLMSG_LENGTH sizeof_nfgenmsg then set_errno EINVAL ;;; ret (NFNL_CB_FAILURE, s) else
  let! type := __parse_message_type nlh in
  if Z.land type (dc_type c) =? 0 then ret (NFNL_CB_CONTINUE, s) else
  let! (r, s) :=
    (if subsys =? NFNL_SUBSYS_CTNETLINK then
       let! ct := nfct_new in
       match ct with
       | None => ret (NFNL_CB_FAILURE, s)
       | Some ct =>
           let! (_, ct) := nfct_nlmsg_parse nlh ct in
           match dc_cb c, dc_cb2 c with
           | Some cb, _ => cb type ct (dc_data c) s
           | None, Some cb2 => cb2 nlh type ct (dc_data c) s
           | None, None => ret (NFNL_CB_STOP, s)
           end
       end
     else set_errno ENOTSUP ;;; ret (NFNL_CB_FAILURE, s)) in
  ret (if r =? NFCT_CB_STOLEN then NFNL_CB_CONTINUE else r, s).

Definition no_callback : @nfnl_callback S := mk_callback None 0 0.

(** [assert(ssh)] of the functions on subsystems. *)
Definition with_ssh {A} (h : nfct_handle) (f : Z -> M A) : M A :=
  match nh_ssh h with Some ssh => f ssh | None => exit end.

Definition nfct_open (s : S) : M (option nfct_handle * S) :=
  let! (nfnlh, s) := nfnl_open os s in
  match nfnlh with
  | None => ret (None, s)
  | Some nfnlh =>
      let! ok := malloc_ok in
      if negb ok then let! (_, s) := nfnl_close os nfnlh s in ret (None, s) else
      let! (r, s) := nfnl_subsys_open os nfnlh NFNL_SUBSYS_CTNETLINK IPCTNL_MSG_MAX 0 s in
      let '(ssh, nfnlh) := r in
      match ssh with
      | None => let! (_, s) := nfnl_close os nfnlh s in ret (None, s)
      | Some ssh => ret (Some (mk_nfct_handle nfnlh (Some ssh) no_callback None None), s)
      end
  end.

(** The handle is freed afterwards. *)
Definition nfct_close (h : nfct_handle) (s : S) : M (Z * S) :=
  let! nfnlh := (match nh_ssh h with
                 | Some ssh => nfnl_subsys_close (nh_nfnlh h) ssh
                 | None => ret (nh_nfnlh h)
                 end) in
  let! (r, s) := nfnl_close os nfnlh s in
  ret (fst r, s).

(** [SO_DETACH_FILTER] of the kernel. *)
Definition SO_DETACH_FILTER : Z := 27.
Definition nfct_filter_detach (fd : Z) (s : S) : M (Z * S) := os_setsockopt os fd SOL_SOCKET SO_DETACH_FILTER 0 s.

(** The filter is no longer the caller's. *)
Definition nfct_filter_dump_destroy (filter : option nfct_filter_dump) : M unit :=
  match filter with None => exit | Some _ => ret tt end.

Definition nfct_fd (h : nfct_handle) : Z := nfnl_fd (nh_nfnlh h).

(** Registers one callback for new, updated and destroyed connections. *)
Definition register_both (h : nfct_handle) (cb : @nfnl_callback S) : M (@nfnl_handle S) :=
  with_ssh h (fun ssh =>
    let! (_, nfnlh) := nfnl_callback_register (nh_nfnlh h) ssh IPCTNL_MSG_CT_NEW cb in
    let! (_, nfnlh) := nfnl_callback_register nfnlh ssh IPCTNL_MSG_CT_DELETE cb in
    ret nfnlh).

Definition unregister_both (h : nfct_handle) : M (@nfnl_handle S) :=
  with_ssh h (fun ssh =>
    let! (_, nfnlh) := nfnl_callback_unregister (nh_nfnlh h) ssh IPCTNL_MSG_CT_NEW in
    let! (_, nfnlh) := nfnl_callback_unregister nfnlh ssh IPCTNL_MSG_CT_DELETE in
    ret nfnlh).

Definition nfct_callback_register (h : nfct_handle) (type : Z) (cb : option nfct_cb) (data : Z) :
    M (Z * nfct_handle) :=
  let! ok := malloc_ok in
  if negb ok then ret (-1, h) else
  let c := mk_callback (Some (__callback (mk_container cb (nh_cb2 h) type data))) 0 CTA_MAX in
  let! nfnlh := register_both h c in
  ret (0, mk_nfct_handle nfnlh (nh_ssh h) c cb (nh_cb2 h)).

Definition nfct_callback_unregister (h : nfct_handle) : M nfct_handle :=
  let! nfnlh := unregister_both h in
  ret (mk_nfct_handle nfnlh (nh_ssh h) no_callback None (nh_cb2 h)).

Definition nfct_callback_register2 (h : nfct_handle) (type : Z) (cb : option nfct_cb2) (data : Z) :
    M (Z * nfct_handle) :=
  let! ok := malloc_ok in
  if negb ok then ret (-1, h) else
  let c := mk_callback (Some (__callback (mk_container (nh_cb h) cb type data))) 0 CTA_MAX in
  let! nfnlh := register_both h c in
  ret (0, mk_nfct_handle nfnlh (nh_ssh h) c (nh_cb h) cb).

Definition nfct_callback_unregister2 (h : nfct_handle) : M nfct_handle :=
  let! nfnlh := unregister_both h in
  ret (mk_nfct_handle nfnlh (nh_ssh h) no_callback (nh_cb h) None).

(** * Commands *)

Definition query_size : Z := 4096.

(** [f] on the request in a local buffer, -1 when it cannot be built. *)
Definition with_query (h : nfct_handle) (qt : nf_conntrack_query) (data : query_data) (s : S)
    (f : Z -> M (Z * S)) : M (Z * S) :=
  with_buffer query_size (fun buf =>
    with_ssh h (fun _ =>
      let! r := __build_query_ct qt data buf query_size in
      if r =? -1 then ret (-1, s) else f buf)).

Definition nfct_query (fuel : nat) (h : nfct_handle) (qt : nf_conntrack_query) (data : query_data)
    (s : S) : M (Z * S) :=
  with_query h qt data s (fun buf => nfnl_query os fuel (nh_nfnlh h) buf s).

Definition nfct_send (h : nfct_handle) (qt : nf_conntrack_query) (data : query_data) (s : S) :
    M (Z * S) :=
  with_query h qt data s (fun buf => nfnl_send os (nh_nfnlh h) buf s).

Definition nfct_catch (fuel : nat) (h : nfct_handle) (s : S) : M (Z * S) :=
  nfnl_catch os fuel (nh_nfnlh h) s.
End Handle.
