(* ===== verification/CtQueryProps.v ===== *)
(** What the requests of api.c hold, and how an event message reaches the client:
    the composition of the builder, the dispatch of libnfnetlink, the callback of
    callback.c and the parser. *)
From S2P Require Import Prelude CMonad MnlMsg MnlAttr MnlCallback Tlv TlvParse Ctnl Bitops CtObject CtAttrs CtSetter CtApi CtBuild CtBuildProps CtParse CtParseSafe TlvTable CtParseTree CtWire CtGetter CtRoundTrip NfqMsg NfnlMsg Nfnl NfnlProps CtQuery.

(** * The header of a request *)

(** The 20 bytes before the attributes. *)
Definition ct_header (type flags family version : Z) : list Z :=
  le_enc 4 20 ++ le_enc 2 (wrap 16 (Z.lor (Z.shiftl NFNL_SUBSYS_CTNETLINK 8) type)) ++ le_enc 2 flags ++
  le_enc 4 0 ++ le_enc 4 0 ++ le_enc 1 family ++ le_enc 1 version ++ le_enc 2 0.

(** The statements that [__build_conntrack] and [nfct_fill_hdr] share. *)
Definition put_ct_header (req type flags family version : Z) : M Z :=
  let! nlh := mnl_nlmsg_put_header req in
  set_nlmsg_type nlh (wrap 16 (Z.lor (Z.shiftl NFNL_SUBSYS_CTNETLINK 8) type)) ;;;
  set_nlmsg_flags nlh flags ;;;
  set_nlmsg_seq nlh 0 ;;;
  let! nfh := mnl_nlmsg_put_extra_header nlh sizeof_nfgenmsg in
  put_nfgenmsg nfh family version 0 ;;;
  ret nlh.

Lemma put_ct_header_run req type flags family version w :
  0 <= req -> req + 20 <= zlen (w_mem w) -> zlen (w_mem w) < 2 ^ 31 ->
  put_ct_header req type flags family version w
  = Ok (req, with_mem (splice req (ct_header type flags family version) (w_mem w)) w).
Proof.
  intros Hb Hfit Hz. set (m := w_mem w) in *.
  cut (wp False (put_ct_header req type flags family version)
         (fun x w' => x = req /\ w' = with_mem (splice req (ct_header type flags family version) m) w) w).
  { intros H. apply wp_run in H as (x & w' & -> & -> & ->). done. }
  unfold put_ct_header. apply wp_bind. unfold mnl_nlmsg_put_header.
  change (MNL_ALIGN 64 sizeof_nlmsghdr) with 16. apply wp_bind, wp_store_bytes; [lia|zl; fold m; lia|].
  fold m. set (w1 := with_mem (splice req (replicate _ 0) m) w).
  assert (w_mem w1 = splice req (replicate 16 0) m) as H1 by done.
  apply wp_bind. unfold set_nlmsg_len, store32. rewrite <- (Z.add_0_r req) at 1.
  eapply store_within; [exact H1|lia|zl|lia|zl|]. apply wp_ret, wp_bind.
  unfold set_nlmsg_type, set_nlmsg_flags, set_nlmsg_seq, store16, store32.
  eapply store_within; [reflexivity|lia|..]; [hz..|]. apply wp_bind.
  eapply store_within; [reflexivity|lia|..]; [hz..|]. apply wp_bind.
  eapply store_within; [reflexivity|lia|..]; [hz..|].
  set (h := splice 8 _ _). cbn in h. apply wp_bind. unfold mnl_nlmsg_put_extra_header, nlmsg_len, load32.
  match goal with |- wp _ _ _ ?x => set (w2 := x) end. assert (w_mem w2 = splice req h m) as H2 by done.
  assert (zlen (w_mem w2) = zlen m) as Hz2 by (rewrite H2; apply zlen_splice; [lia|hz]).
  apply wp_bind, wp_load; [lia|lia|].
  assert (rd 4 req (w_mem w2) = 16) as ->.
  { unfold rd. rewrite H2. rewrite (slice_ext req 4 _ (splice req (take 4 h) m)); [|lia|].
    - change 4 with (zlen (take 4 h)) at 1. rewrite slice_splice_eq; [done|lia|hz].
    - intros i Hi. rewrite !lookup_splice_in by hz. symmetry. apply lookup_take_lt. lia. }
  change (MNL_ALIGN 64 sizeof_nfgenmsg) with 4. change (wrap 32 (16 + 4)) with 20.
  apply wp_bind. unfold set_nlmsg_len, store32. rewrite <- (Z.add_0_r req) at 1.
  eapply store_within; [exact H2|lia|hz|lia|hz|]. apply wp_bind.
  set (h' := splice 0 _ h). cbn in h'. apply wp_store_bytes; [lia|cbn [w_mem with_mem]|].
  { rewrite zlen_splice; [zl|lia|hz]. }
  apply wp_ret. cbn [w_mem with_mem].
  pose proof (splice_adjacent req h' (replicate (Z.to_nat 4) 0) m) as Hadj.
  change (zlen h') with 16 in Hadj. rewrite Hadj by hz. clear Hadj.
  match goal with |- wp _ _ _ ?x => set (w3 := x) end. set (h3 := h' ++ _) in *. cbn in h3.
  assert (w_mem w3 = splice req h3 m) as H3 by done. unfold put_nfgenmsg, store16.
  apply wp_bind, wp_bind. eapply store_within; [exact H3|lia|hz|lia|hz|]. apply wp_bind.
  rewrite <- Z.add_assoc. eapply store_within; [reflexivity|lia|hz|lia|hz|].
  rewrite <- Z.add_assoc. eapply store_within; [reflexivity|lia|hz|lia|hz|]. apply wp_ret.
  by split.
Qed.

(** * Requests *)

(** The buffer holds at [req] a conntrack message with the attributes [ts]. *)
Record request_at (m : list Z) (req type flags family : Z) (ts : list tlv) : Prop := {
  ra_len : rd 4 req m = 20 + tlvs_size ts;
  ra_type : rd 2 (req + 4) m = wrap 16 (Z.lor (Z.shiftl NFNL_SUBSYS_CTNETLINK 8) type);
  ra_flags : rd 2 (req + 6) m = wrap 16 flags;
  ra_seq : rd 4 (req + 8) m = 0;
  ra_family : rd 1 (req + 16) m = wrap 8 family;
  ra_attrs : attrs_at m (req + 20) ts
}.

(** Reading a field of a block that was written. *)
Lemma rd_splice_in n o o' bs m :
  0 <= o -> o + zlen bs <= zlen m -> 0 <= o' -> o' + Z.of_nat n <= zlen bs ->
  rd n (o + o') (splice o bs m) = rd n o' bs.
Proof.
  intros. unfold rd. f_equal. apply list_eq. intros i. destruct (decide (Z.of_nat i < Z.of_nat n)).
  - rewrite !lookup_slice by lia. rewrite lookup_splice_in by lia. f_equal. lia.
  - unfold slice. rewrite !lookup_take_ge by lia. done.
Qed.

Lemma ct_header_fields req type flags family m :
  0 <= req -> req + 20 <= zlen m ->
  request_at (splice req (ct_header type flags family NFNETLINK_V0) m) req type flags family [].
Proof.
  intros. set (h := ct_header _ _ _ _). assert (zlen h = 20) as Hh by done.
  split; try (rewrite rd_splice_in by lia; unfold h, ct_header, rd).
  - rewrite <- (Z.add_0_r req) at 1. rewrite rd_splice_in by lia. done.
  - change (slice 4 _ _) with (le_enc 2 (wrap 16 (Z.lor (Z.shiftl NFNL_SUBSYS_CTNETLINK 8) type))).
    rewrite le_dec_enc. unfold wrap. by rewrite Z.mod_mod.
  - change (slice 6 _ _) with (le_enc 2 flags). apply le_dec_enc.
  - done.
  - change (slice 16 _ _) with (le_enc 1 family). apply le_dec_enc.
  - cbn [attrs_at]. rewrite zlen_splice by lia. lia.
Qed.

Lemma build_conntrack_split req size type flags ct w :
  attr_is_set ATTR_ORIG_L3PROTO ct = true ->
  __build_conntrack req size type flags ct w =
    (zero_bytes req size ;;;
     let! nlh := put_ct_header req type flags (tp_l3protonum (ct_orig ct)) NFNETLINK_V0 in
     nfct_nlmsg_build nlh ct) w.
Proof.
  intros Hl3. unfold __build_conntrack, put_ct_header. rewrite Hl3. cbn [negb]. unfold bind, ret.
  repeat (case_match; simplify_eq; try done).
Qed.

(** The state in which the attributes are written. *)
Lemma header_msg_len req size type flags family w :
  0 <= req -> 20 <= size -> req + size <= zlen (w_mem w) -> zlen (w_mem w) < 2 ^ 31 ->
  exists w1, (zero_bytes req size ;;; put_ct_header req type flags family NFNETLINK_V0) w = Ok (req, w1) /\
    zlen (w_mem w1) = zlen (w_mem w) /\ w_alloc w1 = w_alloc w /\ msg_len req 20 w1 /\
    request_at (w_mem w1) req type flags family [] /\
    forall i : nat, Z.of_nat i < req -> w_mem w1 !! i = w_mem w !! i.
Proof.
  intros. unfold bind, zero_bytes, store_bytes. set (z := replicate _ 0).
  assert (zlen z = size) as Hz by (unfold z; zl).
  rewrite (proj2 (in_range_true req (zlen z) (w_mem w))) by lia.
  assert (zlen (splice req z (w_mem w)) = zlen (w_mem w)) as Hs by (apply zlen_splice; lia).
  rewrite put_ct_header_run by (cbn; lia). eexists. split; [done|]. cbn [w_mem with_mem w_alloc].
  set (h := ct_header _ _ _ _). assert (zlen h = 20) as Hh by done.
  pose proof (ct_header_fields req type flags family (splice req z (w_mem w)) ltac:(lia) ltac:(lia)) as Hr.
  fold h in Hr. rewrite zlen_splice by lia. split_and!; [done|done| |done|].
  - split; cbn [w_mem with_mem]; try done; rewrite ?zlen_splice by lia; try lia. apply Hr.
  - intros i Hi. by rewrite !lookup_splice_out by lia.
Qed.

(** A request with attributes appended. *)
Lemma request_append req type flags family ts w w' :
  0 <= req -> request_at (w_mem w) req type flags family [] -> same_msg req 20 w w' ->
  msg_len req (20 + tlvs_size ts) w' -> attrs_at (w_mem w') (req + 20) ts ->
  request_at (w_mem w') req type flags family ts.
Proof.
  intros ? [_ Ht Hf Hs Hfam _] [_ _ _ Hb] [Hl _ _ _ _ _] Ha.
  assert (forall n o, 4 <= o -> o + Z.of_nat n <= 20 ->
            rd n (req + o) (w_mem w') = rd n (req + o) (w_mem w)) as Hrd.
  { intros n o ? ?. apply rd_ext; [lia|]. intros i Hi. apply Hb. lia. }
  split; rewrite ?Hrd by lia; done.
Qed.

(** [nfct_build_conntrack] on a buffer with room for the object returns what
    the description of the message says and leaves a message with the given type
    and flags, the family of the original tuple and exactly the described
    attributes; nothing before the buffer changes. *)
Lemma nfct_build_conntrack_run req size type flags ct w :
  ct_ok ct -> build_ok ct -> attr_is_set ATTR_ORIG_L3PROTO ct = true ->
  0 <= req -> 20 + build_room ct <= size -> req + size <= zlen (w_mem w) -> zlen (w_mem w) < 2 ^ 31 ->
  exists w', nfct_build_conntrack req size type flags ct w = Ok (fst (ct_tlvs ct), w') /\
    request_at (w_mem w') req type flags (tp_l3protonum (ct_orig ct)) (snd (ct_tlvs ct)) /\
    zlen (w_mem w') = zlen (w_mem w) /\ w_alloc w' = w_alloc w /\
    forall i : nat, Z.of_nat i < req -> w_mem w' !! i = w_mem w !! i.
Proof.
  intros Hok Hbo Hl3 ? Hroom ? ?.
  assert (0 <= build_room ct) as Hbr.
  { pose proof (info_room_nonneg ct Hok). pose proof (labels_room_nonneg ct Hok). unfold build_room. lia. }
  destruct (header_msg_len req size type flags (tp_l3protonum (ct_orig ct)) w)
    as (w1 & Hh & Hz1 & Ha1 & Hm1 & Hr1 & Hb1); [lia..|].
  destruct (emits_build req ct Hok Hbo Hl3) as [Hb _].
  destruct (wp_run _ _ _ (Hb w1 20 Hm1 ltac:(lia))) as (r & w' & Hrun & <- & Hm' & Hat & Hsame).
  exists w'. split.
  { unfold nfct_build_conntrack. rewrite build_conntrack_split by done.
    unfold bind in Hh |- *. destruct (zero_bytes req size w) as [[[] w0]| | |]; try done.
    rewrite Hh. exact Hrun. }
  split; [by eapply request_append|]. destruct Hsame as [Hz' _ Ha' Hb'].
  split_and!; [congruence|congruence|]. intros i Hi. rewrite Hb', Hb1 by lia. done.
Qed.

(** * Events *)

Lemma nfa_type_of_tlv m o t : attr_at m o t -> nfa_type_of m o = tlv_type t.
Proof.
  assert (forall ty, 0 <= ty < 2 ^ 14 -> Z.land ty 0x7fff = ty) as Hty.
  { intros ty ?. change 0x7fff with (Z.ones 15). rewrite Z.land_ones, Z.mod_small by lia. done. }
  unfold nfa_type_of. destruct t as [ty d|ty l].
  - intros (_ & _ & -> & _ & _ & _ & ?). by apply Hty.
  - rewrite attr_at_Nest. intros (_ & _ & -> & _ & ? & _).
    rewrite Z.land_lor_distr_l, (Hty ty) by done. apply Z.lor_0_l.
Qed.

Lemma forest_nfattrs m o l : attrs_at m o l -> nfattrs m o (tlvs_size l) = map fst (offs o l).
Proof.
  intros. unfold nfattrs. apply attr_list_forest; [|done]. unfold loop_fuel. lia.
Qed.

Lemma forest_end m o l : attrs_at m o l -> attrs_end m o (map fst (offs o l)) = o + tlvs_size l.
Proof.
  revert o. induction l as [|t l IH]; intros o; cbn [attrs_at offs map attrs_end tlvs_size]; [lia|].
  intros [Ht Hl]. cbn [fst]. rewrite (attr_at_next _ _ _ Ht), IH by done. lia.
Qed.

Lemma forest_types m o l :
  attrs_at m o l -> Forall (fun t => tlv_type t <> 0) l ->
  existsb (fun a => nfa_type_of m a =? 0) (map fst (offs o l)) = false.
Proof.
  revert o. induction l as [|t l IH]; intros o; [done|]. cbn [attrs_at offs map existsb fst].
  intros [Ht Hl] [H0 Hls]%Forall_cons. rewrite (nfa_type_of_tlv _ _ _ Ht).
  rewrite (proj2 (Z.eqb_neq _ 0)) by done. by apply IH.
Qed.

(** The types of the attributes of a request. *)
Lemma ct_tlvs_types ct :
  ct_ok ct -> build_ok ct -> fst (ct_tlvs ct) = 0 -> Forall (fun t => tlv_type t <> 0) (snd (ct_tlvs ct)).
Proof.
  intros Hok Hbo Hsend. rewrite sent_eq by done. unfold rest_tlvs. rewrite sent_master, protoinfo_tlvs_eq.
  unfold nat_tlvs. rewrite !Forall_app. split_and!; try (apply Forall_opt; intros _; done).
  destruct (attr_is_set ATTR_CONNLABELS ct) eqn:Hb; [|constructor]. cbn [opt_tlvs].
  rewrite sent_labels by done. apply Forall_cons_2; [done|]. unfold mask_tlvs.
  repeat case_match; first [apply Forall_opt; intros _; done|constructor].
Qed.

(** The kind of event a message reports. *)
Definition event_kind (type flags : Z) : Z :=
  if type =? IPCTNL_MSG_CT_NEW then
    if negb (Z.land (wrap 16 flags) (Z.lor NLM_F_CREATE NLM_F_EXCL) =? 0) then NFCT_T_NEW else NFCT_T_UPDATE
  else NFCT_T_DESTROY.

Section Event.
Context {S : Type}.

(** The handle delivers new and destroyed connections to [c]. *)
Definition delivers (h : @nfnl_handle S) (c : @data_container S) : Prop :=
  exists ss, h_subsys h !! Z.to_nat NFNL_SUBSYS_CTNETLINK = Some ss /\
    forall type, type = IPCTNL_MSG_CT_NEW \/ type = IPCTNL_MSG_CT_DELETE ->
      type < ss_cb_count ss /\
      forall w, get_cb ss type w = Ok (mk_callback (Some (__callback c)) 0 CTA_MAX, w).

(** A handle as [nfct_open] leaves it. *)
Record nfct_handle_ok (h : @nfct_handle S) : Prop := {
  nho_ssh : nh_ssh h = Some NFNL_SUBSYS_CTNETLINK;
  nho_ok : handle_ok (nh_nfnlh h);
  nho_count : exists ss, h_subsys (nh_nfnlh h) !! Z.to_nat NFNL_SUBSYS_CTNETLINK = Some ss /\
                ss_cb_count ss = IPCTNL_MSG_MAX
}.

(** [nfct_open] returns such a handle, whatever the operating system does. *)
Lemma nfct_open_ok (os : @os_calls S) s w h s' w' :
  nfct_open os s w = Ok ((Some h, s'), w') -> nfct_handle_ok h.
Proof.
  intros H. unfold nfct_open in H. run_in H; simplify_eq.
  match goal with E : nfnl_open _ _ _ = _ |- _ => apply nfnl_open_ok in E as Hok end.
  match goal with E : nfnl_subsys_open _ _ _ _ _ _ _ = _ |- _ =>
    unfold nfnl_subsys_open in E; run_in E; simplify_eq end.
  match goal with E : recalc_rebind_subscriptions _ _ _ _ = _ |- _ => apply recalc_subsys in E as Hs end.
  cbn [nh_ssh nh_nfnlh] in *. split; cbn [nh_ssh nh_nfnlh]; [done| |].
  - eapply handle_ok_subsys; [exact Hs|]. apply put_subsys_ok; [done|]. split; cbn -[replicate]; [done|].
    split; [by zl|]. apply Forall_replicate. done.
  - rewrite Hs. eexists. split; [apply list_lookup_insert_eq|reflexivity].
    pose proof (ho_subsys _ Hok) as Hl. unfold zlen in Hl.
    unfold NFNL_MAX_SUBSYS in Hl. unfold NFNL_SUBSYS_CTNETLINK. lia.
Qed.

(** One registration on a subsystem with room for it. *)
Lemma register_run (h : @nfnl_handle S) id type cb ss cbs w :
  handle_ok h -> h_subsys h !! Z.to_nat id = Some ss -> ss_cb ss = Some cbs ->
  0 <= type < ss_cb_count ss -> 0 <= cb_attr_count cb < 2 ^ 16 ->
  exists h' ss', nfnl_callback_register h id type cb w = Ok ((0, h'), w) /\ handle_ok h' /\
    h_subsys h' !! Z.to_nat id = Some ss' /\ ss_cb_count ss' = ss_cb_count ss /\
    ss_cb ss' = Some (<[Z.to_nat type := cb]> cbs).
Proof.
  intros Hok Hss Hcbs Ht Hn. pose proof (Forall_lookup_1 _ _ _ _ (ho_each _ Hok) Hss) as [Hc Ha].
  rewrite Hcbs in Ha. destruct Ha as [Hl Hf].
  assert (exists h', nfnl_callback_register h id type cb w = Ok ((0, h'), w) /\
            h' = put_subsys id (mk_subsys (ss_subscriptions ss) (ss_subsys_id ss) (ss_cb_count ss)
                                  (Some (<[Z.to_nat type := cb]> cbs))) h) as (h' & Hr & Hh').
  { unfold nfnl_callback_register, bind, get_subsys. rewrite Hss. unfold ret at 1.
    rewrite (proj2 (Z.leb_gt _ type)) by lia. unfold put_cb. rewrite Hcbs.
    rewrite (proj2 (Z.ltb_lt type _)) by lia. by eexists. }
  exists h'. eexists. split; [exact Hr|]. split.
  { rewrite Hh'. apply put_subsys_ok; [done|]. split; cbn; [lia|]. split; [unfold zlen in *; by rewrite length_insert|].
    by apply Forall_insert. }
  rewrite Hh'. cbn.
  split; [apply list_lookup_insert_eq; by eapply lookup_lt_Some|by split].
Qed.

(** After [nfct_callback_register] the handle delivers to the new container. *)
Lemma register_delivers (h : @nfct_handle S) type cb data w :
  nfct_handle_ok h -> w_alloc w = [] ->
  exists h', nfct_callback_register h type (Some cb) data w = Ok ((0, h'), w) /\
             delivers (nh_nfnlh h') (mk_container (Some cb) (nh_cb2 h) type data).
Proof.
  intros [Hssh Hok (ss & Hss & Hn)] Hw. unfold nfct_callback_register, register_both, with_ssh. rewrite Hssh.
  pose proof (Forall_lookup_1 _ _ _ _ (ho_each _ Hok) Hss) as [_ Ha].
  destruct (ss_cb ss) as [cbs|] eqn:Hcbs; [|by rewrite Hn in Ha]. destruct Ha as [Hl _].
  set (c := mk_callback _ _ _). assert (0 <= cb_attr_count c < 2 ^ 16) as Hc by done.
  unfold bind at 1, malloc_ok. rewrite Hw. cbn [negb]. unfold bind at 1 2.
  destruct (register_run (nh_nfnlh h) NFNL_SUBSYS_CTNETLINK IPCTNL_MSG_CT_NEW c ss cbs w)
    as (h1 & ss1 & -> & Hok1 & Hss1 & Hn1 & Hcbs1); [done..|by rewrite Hn|done|]. unfold bind at 1.
  destruct (register_run h1 NFNL_SUBSYS_CTNETLINK IPCTNL_MSG_CT_DELETE c ss1 _ w Hok1 Hss1 Hcbs1)
    as (h2 & ss2 & -> & Hok2 & Hss2 & Hn2 & Hcbs2); [by rewrite Hn1, Hn|done|].
  eexists. split; [done|]. cbn [nh_nfnlh]. exists ss2. split; [done|]. rewrite Hn2, Hn1, Hn.
  rewrite Hn in Hl. unfold zlen, IPCTNL_MSG_MAX in Hl.
  intros t [-> | ->]; (split; [done|]); intros w'; unfold get_cb; rewrite Hcbs2.
  - change (Z.to_nat IPCTNL_MSG_CT_NEW) with 0%nat. change (Z.to_nat IPCTNL_MSG_CT_DELETE) with 2%nat.
    by rewrite list_lookup_insert_ne, list_lookup_insert_eq by lia.
  - change (Z.to_nat IPCTNL_MSG_CT_DELETE) with 2%nat.
    by rewrite list_lookup_insert_eq by (rewrite length_insert; lia).
Qed.

(** The callback on an event message. *)
Lemma callback_run (c : @data_container S) cb nlh tb d type flags family l s w :
  let m := w_mem w in
  dc_cb c = Some cb -> request_at m nlh type flags family l ->
  type = IPCTNL_MSG_CT_NEW \/ type = IPCTNL_MSG_CT_DELETE ->
  Z.land (event_kind type flags) (dc_type c) <> 0 ->
  0 <= nlh -> zlen m < 2 ^ 31 - 4 -> 0 <= family < 256 -> w_alloc w = [] -> wf_ct l ->
  exists w', w_mem w' = m /\
    __callback c nlh tb d s w =
      (let! (r, s) := cb (event_kind type flags) (tree_parse family l zero_ct) (dc_data c) s in
       ret (if r =? NFCT_CB_STOLEN then NFNL_CB_CONTINUE else r, s)) w'.
Proof.
  intros m Hcb [Hlen Ht Hf Hs Hfam Hat] Htype Hk ? ? ? Ha Hwf.
  pose proof (tlvs_size_nonneg l). pose proof (attrs_at_bound _ _ _ Hat).
  rewrite wrap_small in Hfam by done.
  destruct (nlmsg_parse_run nlh l zero_ct w) as (w' & Hp & Hw'); [done|done|done|fold m; lia|done..|].
  fold m in Hp, Hw'. rewrite Hfam in Hp. exists w'. split; [done|].
  unfold __callback, __parse_message_type, nlmsg_type, nlmsg_flags, nlmsg_len, load16, load32.
  unfold bind at 1. rewrite load_ok by (fold m; lia). fold m. rewrite Ht. cbn zeta.
  unfold bind at 1. rewrite load_ok by (fold m; lia). fold m. rewrite Hlen.
  change (NLMSG_LENGTH sizeof_nfgenmsg) with 20. rewrite (proj2 (Z.ltb_ge _ 20)) by lia.
  unfold bind at 1 2. rewrite load_ok by (fold m; lia). fold m. rewrite Ht.
  unfold bind at 1. rewrite load_ok by (fold m; lia). fold m. rewrite Hf. unfold ret at 1.
  match goal with |- context [Z.land ?x (dc_type c)] => assert (x = event_kind type flags) as -> end.
  { by destruct Htype as [-> | ->]. }
  rewrite (proj2 (Z.eqb_neq _ 0)) by done. set (t := Z.lor _ _).
  assert (NFNL_SUBSYS_ID (wrap 16 t) = NFNL_SUBSYS_CTNETLINK) as -> by by destruct Htype as [-> | ->].
  rewrite Z.eqb_refl. unfold bind at 1 2, nfct_new. unfold bind at 1, malloc_ok. rewrite Ha. unfold ret at 1.
  unfold bind at 1. rewrite Hp, Hcb. done.
Qed.

(** An event message can be read by libnfnetlink. *)
Lemma request_msg_room m nlh l :
  0 <= nlh -> zlen m < 2 ^ 31 - 4 -> rd 4 nlh m = 20 + tlvs_size l -> attrs_at m (nlh + 20) l ->
  msg_room m nlh.
Proof.
  intros ? ? Hlen Hat. pose proof (tlvs_size_nonneg l). pose proof (attrs_at_bound _ _ _ Hat).
  pose proof (tlvs_size_mod l). split; rewrite ?Hlen; [lia..|]. intros _.
  replace (20 + tlvs_size l - 20) with (tlvs_size l) by lia. split; lia.
Qed.

(** An event message on a handle that delivers to [c]. *)
Lemma step_delivers_run (h : @nfnl_handle S) (c : @data_container S) cb nlh type flags family l s w :
  let m := w_mem w in
  delivers h c -> dc_cb c = Some cb ->
  request_at m nlh type flags family l -> type = IPCTNL_MSG_CT_NEW \/ type = IPCTNL_MSG_CT_DELETE ->
  Z.land (event_kind type flags) (dc_type c) <> 0 ->
  0 <= nlh -> zlen m < 2 ^ 31 - 4 -> 0 <= family < 256 -> w_alloc w = [] ->
  wf_ct l -> Forall (fun t => tlv_type t <> 0) l ->
  exists w', w_mem w' = m /\
    nfnl_step h nlh s w =
      (let! (r, s) := cb (event_kind type flags) (tree_parse family l zero_ct) (dc_data c) s in
       ret (if r =? NFCT_CB_STOLEN then NFNL_CB_CONTINUE else r, s)) w'.
Proof.
  intros m (ss & Hss & Hcbs) Hcb Hra Htype Hk ? ? ? Ha Hwf Hty.
  destruct (Hcbs type Htype) as [Hlt Hget].
  destruct (callback_run c cb nlh (tb_spec m CTA_MAX (map fst (offs (nlh + 20) l))) 0 type flags family l s w)
    as (w' & Hw' & Hrun); [done..|].
  exists w'. split; [done|]. etransitivity; [|exact Hrun]. clear Hrun.
  destruct Hra as [Hlen Ht _ _ _ Hat]. fold m in Hlen, Ht, Hat.
  pose proof (tlvs_size_nonneg l). pose proof (attrs_at_bound _ _ _ Hat).
  assert (NFNL_MSG_TYPE (rd 2 (nlh + 4) m) = type) as Hmt by (rewrite Ht; by destruct Htype as [-> | ->]).
  assert (NFNL_SUBSYS_ID (rd 2 (nlh + 4) m) = NFNL_SUBSYS_CTNETLINK) as Hsub
    by (rewrite Ht; by destruct Htype as [-> | ->]).
  assert (nfattrs m (nlh + 20) (20 + tlvs_size l - 20) = map fst (offs (nlh + 20) l)) as Hl.
  { replace (20 + tlvs_size l - 20) with (tlvs_size l) by lia. by apply forest_nfattrs. }
  pose proof (step_dispatch_run h nlh ss (mk_callback (Some (__callback c)) 0 CTA_MAX) (__callback c) s w) as E.
  cbn zeta in E. fold m in E. rewrite Hmt, Hsub, Hlen, Hl in E. apply E; clear E; try done.
  - by apply (request_msg_room m nlh l).
  - lia.
  - rewrite Ht. by destruct Htype as [-> | ->].
  - rewrite Ht. by destruct Htype as [-> | ->].
  - by apply forest_types.
  - rewrite forest_end by done. lia.
Qed.

(** C24: once the client has opened a handle and registered a callback, an event message with a
    well-formed attribute forest reaches it through the dispatch of libnfnetlink
    as the object that the forest describes, with the kind of the event and the
    client's data; a verdict that keeps the object counts as going on. *)
Theorem conntrack_event_delivered (os : @os_calls S) s0 s1 wo (h : @nfct_handle S) mask cb data nlh type flags family l s w0 w :
  let m := w_mem w in
  nfct_open os s0 wo = Ok ((Some h, s1), w0) -> w_alloc w0 = [] ->
  request_at m nlh type flags family l -> type = IPCTNL_MSG_CT_NEW \/ type = IPCTNL_MSG_CT_DELETE ->
  Z.land (event_kind type flags) mask <> 0 ->
  0 <= nlh -> zlen m < 2 ^ 31 - 4 -> 0 <= family < 256 -> w_alloc w = [] ->
  wf_ct l -> Forall (fun t => tlv_type t <> 0) l ->
  exists h' w', nfct_callback_register h mask (Some cb) data w0 = Ok ((0, h'), w0) /\ w_mem w' = m /\
    nfnl_step (nh_nfnlh h') nlh s w =
      (let! (r, s) := cb (event_kind type flags) (tree_parse family l zero_ct) data s in
       ret (if r =? NFCT_CB_STOLEN then NFNL_CB_CONTINUE else r, s)) w'.
Proof.
  intros m Hh%nfct_open_ok Hw0 Hra Htype Hk ? ? ? Ha Hwf Hty.
  destruct (register_delivers h mask cb data w0 Hh Hw0) as (h' & Hreg & Hd).
  destruct (step_delivers_run (nh_nfnlh h') _ cb nlh type flags family l s w Hd) as (w' & ? & ?); [done..|].
  by exists h', w'.
Qed.

(** C23: a request that [nfct_build_conntrack] writes comes back whole: when the
    object can be sent, the builder returns 0, and handing the message to the
    dispatcher of an open handle with a registered callback calls the client with the
    kind of event that the flags say and an object that has exactly the
    attributes of the wire format, each with the value that was sent. *)
Theorem query_event_roundtrip (os : @os_calls S) s0 s1 wo (h : @nfct_handle S) mask cb data req size type flags ct s w0 w :
  nfct_open os s0 wo = Ok ((Some h, s1), w0) -> w_alloc w0 = [] ->
  ct_ok ct -> build_ok ct -> fst (ct_tlvs ct) = 0 -> one_family ct ->
  attr_is_set ATTR_ORIG_L3PROTO ct = true ->
  type = IPCTNL_MSG_CT_NEW \/ type = IPCTNL_MSG_CT_DELETE -> Z.land (event_kind type flags) mask <> 0 ->
  0 <= req -> 20 + build_room ct <= size -> req + size <= zlen (w_mem w) -> zlen (w_mem w) < 2 ^ 31 - 4 ->
  w_alloc w = [] ->
  exists h' w1 w2 ct',
    nfct_callback_register h mask (Some cb) data w0 = Ok ((0, h'), w0) /\
    nfct_build_conntrack req size type flags ct w = Ok (0, w1) /\
    w_mem w2 = w_mem w1 /\
    nfnl_step (nh_nfnlh h') req s w1 =
      (let! (r, s) := cb (event_kind type flags) ct' data s in
       ret (if r =? NFCT_CB_STOLEN then NFNL_CB_CONTINUE else r, s)) w2 /\
    forall a, attr_is_set a ct' = bool_decide (a ∈ wire_attrs ct) /\
              (a ∈ wire_attrs ct -> get_attr_array a ct' = wire_value a ct).
Proof.
  intros Hh%nfct_open_ok Hw0 Hok Hbo Hsend Hfam Hl3 Htype Hk ? ? ? ? Ha.
  destruct (register_delivers h mask cb data w0 Hh Hw0) as (h' & Hreg & Hd).
  destruct (nfct_build_conntrack_run req size type flags ct w)
    as (w1 & Hb & Hra & Hz1 & Ha1 & _); [done..|lia|]. rewrite Hsend in Hb.
  destruct (step_delivers_run (nh_nfnlh h') _ cb req type flags _ _ s w1 Hd eq_refl Hra) as (w2 & ? & ?);
    try done; [by rewrite Hz1|apply (ok_orig _ Hok)|congruence|by apply wf_sent|by apply ct_tlvs_types|].
  exists h', w1, w2. eexists. do 4 (split; [done|]). by apply tree_parse_wire.
Qed.
End Event.

(** * Examples *)

(** A client that counts its events, and a kernel where every call succeeds. *)
Definition count_cb : @nfct_cb Z := fun _ _ _ n => ret (NFCT_CB_STOLEN, n + 1).
Definition count_os : @os_calls Z :=
  let nl := mk_sockaddr_nl AF_NETLINK 7 0 in
  mk_os (fun s => ret (3, s)) (fun _ s => ret (0, s)) (fun _ _ s => ret (0, s))
        (fun _ s => ret ((0, nl, 12), s)) (fun s => ret (1000, s)) (fun _ _ n _ s => ret (n, s))
        (fun _ _ _ s => ret ((0, nl, 12), s)) (fun _ _ _ s => ret (0, s))
        (fun _ _ _ s => ret ((0, nl, 12, 0), s)) (fun _ _ _ _ s => ret (0, s))
        (fun _ _ _ s => ret ((0, 0), s)).
Definition count_handle : @nfct_handle Z :=
  match nfct_open count_os 0 log_world with
  | Ok ((Some h, _), _) => h
  | _ => mk_nfct_handle zero_handle None no_callback None None
  end.

(** The message of [build_example], as the kernel reports a new connection. *)
Definition event_world : world :=
  match nfct_build_conntrack 0 1000 IPCTNL_MSG_CT_NEW NLM_F_CREATE build_example
          (mk_world (replicate 1000 0) 0 []) with
  | Ok (_, w) => w
  | _ => log_world
  end.

Lemma event_request :
  request_at (w_mem event_world) 0 IPCTNL_MSG_CT_NEW NLM_F_CREATE AF_INET (snd (ct_tlvs build_example)).
Proof.
  destruct (nfct_build_conntrack_run 0 1000 IPCTNL_MSG_CT_NEW NLM_F_CREATE build_example
              (mk_world (replicate 1000 0) 0 [])) as (w & Hw & Hr & _).
  - apply build_example_ok.
  - split; try done; vm_compute; congruence.
  - reflexivity.
  - done.
  - vm_compute. congruence.
  - done.
  - done.
  - unfold event_world. rewrite Hw. exact Hr.
Qed.

Lemma conntrack_event_delivered_witness :
  let ct := tree_parse AF_INET (snd (ct_tlvs build_example)) zero_ct in
  exists h' w',
    nfct_callback_register count_handle NFCT_T_ALL (Some count_cb) 0 log_world = Ok ((0, h'), log_world) /\
    w_mem w' = w_mem event_world /\
    nfnl_step (nh_nfnlh h') 0 5 event_world =
      (let! (r, s) := count_cb NFCT_T_NEW ct 0 5 in
       ret (if r =? NFCT_CB_STOLEN then NFNL_CB_CONTINUE else r, s)) w'.
Proof.
  apply (conntrack_event_delivered count_os 0 0 log_world count_handle NFCT_T_ALL count_cb 0 0
           IPCTNL_MSG_CT_NEW NLM_F_CREATE AF_INET (snd (ct_tlvs build_example)) 5 log_world event_world).
  - vm_compute. reflexivity.
  - reflexivity.
  - apply event_request.
  - by left.
  - vm_compute. congruence.
  - lia.
  - vm_compute. reflexivity.
  - by vm_compute.
  - vm_compute. reflexivity.
  - apply wf_sent; [apply build_example_ok| |reflexivity]. split; try done; vm_compute; congruence.
  - apply ct_tlvs_types; [apply build_example_ok| |reflexivity]. split; try done; vm_compute; congruence.
Defined.

Lemma query_event_roundtrip_witness :
  exists h' w1 w2 ct',
    nfct_callback_register count_handle NFCT_T_ALL (Some count_cb) 0 log_world = Ok ((0, h'), log_world) /\
    nfct_build_conntrack 0 1000 IPCTNL_MSG_CT_NEW NLM_F_CREATE build_example
      (mk_world (replicate 1000 0) 0 []) = Ok (0, w1) /\
    w_mem w2 = w_mem w1 /\
    nfnl_step (nh_nfnlh h') 0 5 w1 =
      (let! (r, s) := count_cb NFCT_T_NEW ct' 0 5 in
       ret (if r =? NFCT_CB_STOLEN then NFNL_CB_CONTINUE else r, s)) w2 /\
    forall a, attr_is_set a ct' = bool_decide (a ∈ wire_attrs build_example) /\
              (a ∈ wire_attrs build_example -> get_attr_array a ct' = wire_value a build_example).
Proof.
  apply (query_event_roundtrip count_os 0 0 log_world count_handle NFCT_T_ALL count_cb 0 0 1000
           IPCTNL_MSG_CT_NEW NLM_F_CREATE build_example 5 log_world (mk_world (replicate 1000 0) 0 [])).
  - vm_compute. reflexivity.
  - reflexivity.
  - apply build_example_ok.
  - split; try done; vm_compute; congruence.
  - vm_compute. reflexivity.
  - by split.
  - reflexivity.
  - by left.
  - vm_compute. congruence.
  - lia.
  - vm_compute. congruence.
  - vm_compute. congruence.
  - vm_compute. reflexivity.
  - reflexivity.
Defined.
