(* ===== verification/CDouble.v ===== *)
(** The C library's double-precision numbers as cjson.c uses them: IEEE 754
    binary64 values, [strtod] and the conversion ["%lg"] of [sscanf] on numbers in
    decimal notation, the conversion ["%1.<p>g"] of [sprintf], comparison and
    conversion with [int].

    A finite number is its sign, mantissa and exponent, the exact value of a
    decimal or binary number is a fraction of integers, and both conversions round
    this value to the nearest, ties to even. *)
From S2P Require Import Prelude.

(** * Values *)

Inductive double :=
| DNan
| DInf (s : bool)
| DFin (s : bool) (m e : Z).   (** (-1)^s m 2^e *)

(** The representations of binary64: normal numbers, subnormal numbers and zero. *)
Definition double_ok (d : double) : Prop :=
  match d with
  | DFin _ m e => 0 <= m < 2 ^ 53 /\ -1074 <= e <= 971 /\ (2 ^ 52 <= m \/ e = -1074)
  | _ => True
  end.

Definition dzero (s : bool) : double := DFin s 0 (-1074).

(** * Rounding a fraction *)

(** 2^k and 10^k as fractions: [p2 k / p2 (-k)] and [p10 k / p10 (-k)]. *)
Definition p2 (k : Z) : Z := 2 ^ Z.max k 0.
Definition p10 (k : Z) : Z := 10 ^ Z.max k 0.

(** [a / b] rounded to the nearest integer, ties to even. *)
Definition rhe (a b : Z) : Z :=
  let q := a / b in
  let r := a mod b in
  if 2 * r <? b then q else if b <? 2 * r then q + 1 else if Z.even q then q else q + 1.

(** The largest k with 2^k <= n / d. *)
Definition qlog2 (n d : Z) : Z :=
  let k := Z.log2 n - Z.log2 d in
  if d * p2 k <=? n * p2 (- k) then k else k - 1.

(** The double nearest to [n / d], for [0 <= n] and [0 < d]. *)
Definition make_double (s : bool) (n d : Z) : double :=
  if n =? 0 then dzero s else
  let e := Z.max (qlog2 n d - 52) (-1074) in
  let m := rhe (n * p2 (- e)) (d * p2 e) in
  let '(m, e) := if m =? 2 ^ 53 then (2 ^ 52, e + 1) else (m, e) in
  if 971 <? e then DInf s else DFin s m e.

(** * Decimal digits *)

Fixpoint digits_rev (fuel : nat) (z : Z) : list Z :=
  match fuel with
  | O => []
  | S fuel => z mod 10 :: (if z / 10 =? 0 then [] else digits_rev fuel (z / 10))
  end.

(** The digits of [z], most significant first. *)
Definition dec_digits (z : Z) : list Z := rev (digits_rev (S (Z.to_nat (Z.log2 z))) z).

Definition dec_val (l : list Z) : Z := fold_left (fun a d => 10 * a + d) l 0.

(** ASCII digits. *)
Definition isdigit (c : Z) : bool := (48 <=? c) && (c <=? 57).
Definition to_char (d : Z) : Z := 48 + d.

(** The longest prefix of digits, as values, and the rest. *)
Fixpoint span_digits (l : list Z) : list Z * list Z :=
  match l with
  | c :: k => if isdigit c then let '(ds, r) := span_digits k in (c - 48 :: ds, r) else ([], l)
  | [] => ([], [])
  end.

(** The characters of decimal notation. *)
Definition num_char (c : Z) : bool :=
  isdigit c || (c =? 43) || (c =? 45) || (c =? 101) || (c =? 69) || (c =? 46).

(** * strtod *)

(** [n] 10^[k]; beyond these exponents the number is out of the range of double,
    for the at most 63 digits a text has here. *)
Definition decimal (s : bool) (n k : Z) : double :=
  if n =? 0 then dzero s
  else if 400 <? k then DInf s
  else if k <? -600 then dzero s
  else make_double s (n * p10 k) (p10 (- k)).

(** The sign and the rest. *)
Definition take_sign (l : list Z) : bool * list Z :=
  match l with
  | c :: k => if c =? 45 then (true, k) else if c =? 43 then (false, k) else (false, l)
  | [] => (false, [])
  end.

(** The fraction after a point. *)
Definition take_fraction (l : list Z) : list Z * list Z :=
  match l with
  | c :: k => if c =? 46 then span_digits k else ([], l)
  | [] => ([], [])
  end.

(** The exponent, when it has digits. *)
Definition take_exponent (l : list Z) : Z * list Z :=
  match l with
  | c :: k =>
      if (c =? 101) || (c =? 69) then
        let '(s, k) := take_sign k in
        match span_digits k with
        | ([], _) => (0, l)
        | (ds, r) => (if s then - dec_val ds else dec_val ds, r)
        end
      else (0, l)
  | [] => (0, [])
  end.

(** The value of the longest prefix in decimal notation and its length, 0 when
    there is none. A point without digits around it is not a number. *)
Definition strtod (l : list Z) : double * Z :=
  let '(s, l1) := take_sign l in
  let '(int, l2) := span_digits l1 in
  let '(frac, l3) := take_fraction l2 in
  match int ++ frac with
  | [] => (dzero false, 0)
  | ds =>
      let '(e, l4) := take_exponent l3 in
      (decimal s (dec_val ds) (e - zlen frac), zlen l - zlen l4)
  end.

(** * sprintf("%1.<p>g") *)

(** The [p] decimal digits of [n / d] as an integer and the exponent of the first. *)
Definition sci (p n d : Z) : Z * Z :=
  let x := zlen (dec_digits (n * 10 ^ 400 / d)) - 401 in
  let q := x - p + 1 in
  let v := rhe (n * p10 (- q)) (d * p10 q) in
  if v =? 10 ^ p then (10 ^ (p - 1), x + 1) else (v, x).

Fixpoint strip_zeros (l : list Z) : list Z :=
  match l with
  | 0 :: k => strip_zeros k
  | _ => l
  end.

Definition strip_trailing (l : list Z) : list Z := rev (strip_zeros (rev l)).

Definition with_point (int frac : list Z) : list Z :=
  match frac with [] => int | _ => int ++ 46 :: frac end.

(** The exponent with at least two digits. *)
Definition print_exponent (x : Z) : list Z :=
  let ds := dec_digits (Z.abs x) in
  101 :: (if x <? 0 then 45 else 43) :: (if zlen ds <? 2 then [48] else []) ++ map to_char ds.

(** The number with the digits [ds] and the exponent [x] of the first. *)
Definition print_digits (p : Z) (ds : list Z) (x : Z) : list Z :=
  let ds := map to_char (strip_trailing ds) in
  if (x <? -4) || (p <=? x) then with_point (take 1 ds) (drop 1 ds) ++ print_exponent x
  else if x <? 0 then 48 :: 46 :: replicate (Z.to_nat (- x - 1)) 48 ++ ds
  else
    let n := Z.to_nat (x + 1) in
    with_point (take n ds ++ replicate (n - length ds) 48) (drop n ds).

Definition print_sign (s : bool) : list Z := if s then [45] else [].

Definition sprintf_g (p : Z) (d : double) : list Z :=
  match d with
  | DNan => [110; 97; 110]
  | DInf s => print_sign s ++ [105; 110; 102]
  | DFin s m e =>
      if m =? 0 then print_sign s ++ [48] else
      let '(v, x) := sci p (m * p2 e) (p2 (- e)) in
      print_sign s ++ print_digits p (dec_digits v) x
  end.

(** * Comparison and conversion *)

Definition is_finite (d : double) : bool := match d with DFin _ _ _ => true | _ => false end.

Definition signed (s : bool) (z : Z) : Z := if s then - z else z.

(** [d1 == d2]. *)
Definition deqb (d1 d2 : double) : bool :=
  match d1, d2 with
  | DFin s1 m1 e1, DFin s2 m2 e2 =>
      (signed s1 m1 * p2 e1 * p2 (- e2) =? signed s2 m2 * p2 e2 * p2 (- e1))
  | DInf s1, DInf s2 => Bool.eqb s1 s2
  | _, _ => false
  end.

(** [d >= n] and [d <= n] for an integer. *)
Definition dge (d : double) (n : Z) : bool :=
  match d with
  | DFin s m e => n * p2 (- e) <=? signed s m * p2 e
  | DInf s => negb s
  | DNan => false
  end.
Definition dle (d : double) (n : Z) : bool :=
  match d with
  | DFin s m e => signed s m * p2 e <=? n * p2 (- e)
  | DInf s => s
  | DNan => false
  end.

(** [(int)d], when the value fits. *)
Definition dtrunc (d : double) : Z :=
  match d with
  | DFin s m e => signed s (m * p2 e / p2 (- e))
  | _ => 0
  end.

(** [(double)n]. *)
Definition of_int (n : Z) : double := make_double (n <? 0) (Z.abs n) 1.
