(* ===== verification/CText.v ===== *)
(** The C library's formatted output, as far as the sources use it: strings, the
    conversions of [printf] and [snprintf] into a buffer.

    A string is the list of its characters, a buffer the list of its bytes; a
    write outside of the buffer is a fault. *)
From Stdlib Require Import Strings.String Strings.Ascii.
From S2P Require Import Prelude CMonad CDouble.

(** * Strings *)

Definition text (s : string) : list Z :=
  (fun a => Z.of_nat (nat_of_ascii a)) <$> list_ascii_of_string s.

(** The bytes of a string up to its terminator. *)
Fixpoint c_string (l : list Z) : list Z :=
  match l with
  | c :: l => if c =? 0 then [] else c :: c_string l
  | [] => []
  end.

Definition INT_MAX : Z := 2 ^ 31 - 1.
Definition INT_MIN : Z := - 2 ^ 31.

(** * Conversions *)

Definition hex_char (d : Z) : Z := if d <? 10 then 48 + d else 87 + d.

Fixpoint hex_rev (fuel : nat) (z : Z) : list Z :=
  match fuel with
  | O => []
  | S fuel => z mod 16 :: (if z / 16 =? 0 then [] else hex_rev fuel (z / 16))
  end.

(** [%u], [%llu]; [%d]; [%x] of an integer of at most 64 bits. *)
Definition fmt_u (z : Z) : list Z := map to_char (dec_digits z).
Definition fmt_d (z : Z) : list Z := if z <? 0 then 45 :: fmt_u (- z) else fmt_u z.
Definition fmt_x (z : Z) : list Z := map hex_char (rev (hex_rev 16 z)).

(** Field widths: [%9s], [%02d]; [%-8s]. *)
Definition pad_left (c : Z) (n : nat) (l : list Z) : list Z := replicate (n - length l) c ++ l.
Definition pad_right (c : Z) (n : nat) (l : list Z) : list Z := l ++ replicate (n - length l) c.

(** * snprintf *)

(** The characters that fit into [len] bytes with the terminator. *)
Definition cut (len : Z) (t : list Z) : list Z := if zlen t <? len then t else take (Z.to_nat (len - 1)) t.

(** What [snprintf(buf + offset, len, ...)] leaves in the buffer. *)
Definition put_text (buf : list Z) (offset len : Z) (t : list Z) : list Z :=
  if len =? 0 then buf else splice offset (cut len t ++ [0]) buf.

(** The result is an [int]; a text that is too long for it is an error. *)
Definition snprintf (buf : list Z) (offset len : Z) (t : list Z) : M (Z * list Z) :=
  if INT_MAX <? zlen t then ret (-1, buf) else
  if len =? 0 then ret (zlen t, buf) else
  if in_range offset (zlen (cut len t ++ [0])) buf
  then ret (zlen t, put_text buf offset len t) else ub.

(** * Lemmas *)

Lemma zlen_take_le {A} (n : nat) (l : list A) : zlen (take n l) <= Z.of_nat n.
Proof. unfold zlen. rewrite length_take. lia. Qed.

Lemma cut_take len t : cut len t = take (Z.to_nat (len - 1)) t.
Proof. unfold cut. destruct (Z.ltb_spec (zlen t) len); [|done]. rewrite take_ge; [done|]. unfold zlen in *. lia. Qed.

Lemma snprintf_run buf offset len t w :
  zlen t <= INT_MAX -> 0 <= offset -> 0 <= len -> offset + len <= zlen buf ->
  snprintf buf offset len t w = Ok ((zlen t, put_text buf offset len t), w).
Proof.
  intros Ht ? ? Hb. unfold snprintf, put_text. rewrite cut_take. rewrite (proj2 (Z.ltb_ge _ _)) by done.
  destruct (Z.eqb_spec len 0); [done|]. rewrite (proj2 (in_range_true _ _ _)); [done|].
  pose proof (zlen_take_le (Z.to_nat (len - 1)) t). pose proof (zlen_nonneg (take (Z.to_nat (len - 1)) t)). zl.
Qed.

(** A text that fits needs only room for itself and its terminator. *)
Lemma snprintf_fits buf offset len t w :
  zlen t <= INT_MAX -> 0 <= offset -> zlen t < len -> offset + zlen t < zlen buf ->
  snprintf buf offset len t w = Ok ((zlen t, splice offset (t ++ [0]) buf), w).
Proof.
  intros ? ? ? ?. pose proof (zlen_nonneg t). unfold snprintf, put_text. rewrite cut_take, (proj2 (Z.ltb_ge _ _)) by done.
  rewrite (proj2 (Z.eqb_neq len 0)) by lia. rewrite take_ge by (unfold zlen in *; lia).
  rewrite (proj2 (in_range_true _ _ _)) by zl. done.
Qed.

Lemma zlen_put_text buf offset len t :
  0 <= offset -> 0 <= len -> offset + len <= zlen buf -> zlen (put_text buf offset len t) = zlen buf.
Proof.
  intros. unfold put_text. rewrite cut_take. destruct (Z.eqb_spec len 0); [done|]. apply zlen_splice; [lia|].
  pose proof (zlen_take_le (Z.to_nat (len - 1)) t). zl.
Qed.

Lemma splice_splice_prefix o a b m :
  0 <= o -> o + zlen a <= zlen m -> zlen a <= zlen b -> o + zlen b <= zlen m ->
  splice o b (splice o a m) = splice o b m.
Proof.
  intros. assert (zlen (splice o a m) = zlen m) by (by apply zlen_splice).
  apply list_eq. intros i. destruct (decide (o <= Z.of_nat i < o + zlen b)).
  - by rewrite !lookup_splice_in by lia.
  - by rewrite !lookup_splice_out by lia.
Qed.

(** Writing on over the terminator of a text that fitted. *)
Lemma put_text_app_fits buf offset len t u :
  0 <= offset -> zlen t < len -> offset + len <= zlen buf ->
  put_text (put_text buf offset len t) (offset + zlen t) (len - zlen t) u = put_text buf offset len (t ++ u).
Proof.
  intros Ho Ht Hb. pose proof (zlen_nonneg t). unfold put_text. rewrite !cut_take.
  rewrite (proj2 (Z.eqb_neq len 0)), (proj2 (Z.eqb_neq (len - zlen t) 0)) by lia.
  rewrite (take_ge t) by (unfold zlen in *; lia). rewrite take_app.
  rewrite (take_ge t) by (unfold zlen in *; lia).
  replace (Z.to_nat (len - 1) - length t)%nat with (Z.to_nat (len - zlen t - 1)) by (unfold zlen; lia).
  set (v := take _ u). assert (zlen v <= len - zlen t - 1) as Hv.
  { pose proof (zlen_take_le (Z.to_nat (len - zlen t - 1)) u). subst v. lia. }
  pose proof (zlen_nonneg v). set (m1 := splice offset (t ++ [0]) buf).
  assert (zlen m1 = zlen buf) as Hm1 by (apply zlen_splice; zl).
  apply list_eq. intros i.
  destruct (decide (offset + zlen t <= Z.of_nat i < offset + zlen t + zlen (v ++ [0]))) as [Hi|Hi]; zl.
  - rewrite !lookup_splice_in by zl. rewrite <- app_assoc. rewrite (lookup_app_r t) by (unfold zlen in *; lia).
    f_equal. unfold zlen. lia.
  - rewrite lookup_splice_out by zl. destruct (decide (offset <= Z.of_nat i < offset + zlen t)).
    + unfold m1. rewrite !lookup_splice_in by zl. rewrite <- app_assoc.
      rewrite !lookup_app_l by (unfold zlen in *; lia). done.
    + unfold m1. rewrite !lookup_splice_out by zl. done.
Qed.

(** A text that did not fit keeps the next one out. *)
Lemma put_text_app_full buf offset len t u :
  0 <= len <= zlen t -> put_text buf offset len t = put_text buf offset len (t ++ u).
Proof.
  intros. unfold put_text. rewrite !cut_take. destruct (Z.eqb_spec len 0); [done|]. do 2 f_equal. rewrite take_app.
  replace (Z.to_nat (len - 1) - length t)%nat with 0%nat by (unfold zlen in *; lia).
  by rewrite take_0, app_nil_r.
Qed.

Lemma put_text_app buf offset len t u :
  0 <= offset -> 0 <= len -> offset + len <= zlen buf ->
  put_text (put_text buf offset len t) (offset + Z.min (zlen t) len) (len - Z.min (zlen t) len) u
  = put_text buf offset len (t ++ u).
Proof.
  intros. destruct (Z.lt_ge_cases (zlen t) len).
  - rewrite Z.min_l by lia. by apply put_text_app_fits.
  - rewrite Z.min_r, Z.sub_diag by lia. rewrite <- (put_text_app_full _ _ _ t u) by lia. done.
Qed.

Lemma put_text_fits buf o len t : zlen t < len -> put_text buf o len t = splice o (t ++ [0]) buf.
Proof.
  intros. pose proof (zlen_nonneg t). unfold put_text. rewrite cut_take, (proj2 (Z.eqb_neq len 0)) by lia.
  by rewrite take_ge by (unfold zlen in *; lia).
Qed.

(** The buffer after a text was printed; an empty text is not printed at all. *)
Definition wrote (buf : list Z) (o len : Z) (t : list Z) : list Z :=
  match t with [] => buf | _ => put_text buf o len t end.

Lemma zlen_wrote buf o len t :
  0 <= o -> 0 <= len -> o + len <= zlen buf -> zlen (wrote buf o len t) = zlen buf.
Proof. intros. destruct t; [done|]. by apply zlen_put_text. Qed.

Lemma wrote_put buf o len t : t <> [] -> wrote buf o len t = put_text buf o len t.
Proof. by destruct t. Qed.

Lemma wrote_app buf o len t u :
  0 <= o -> 0 <= len -> o + len <= zlen buf ->
  wrote (wrote buf o len t) (o + Z.min (zlen t) len) (len - Z.min (zlen t) len) u = wrote buf o len (t ++ u).
Proof.
  intros. destruct t as [|x t].
  { change (zlen (@nil Z)) with 0. rewrite Z.min_l, Z.add_0_r, Z.sub_0_r by lia. done. }
  destruct u as [|y u]; [by rewrite app_nil_r|]. cbn [app wrote]. by rewrite put_text_app.
Qed.
