(* ===== verification/CDoubleProps.v ===== *)
(** Rounding to binary64 and decimal notation: a number printed with 17 digits is
    read back as the same number, and what a printed number looks like. *)
From S2P Require Import Prelude CDouble.

Lemma zlen_cons_pos {A} (x : A) l : 0 < zlen (x :: l).
Proof. unfold zlen. cbn. lia. Qed.

(** * Powers as fractions *)

Lemma p2_pos k : 0 < p2 k.
Proof. unfold p2. apply Z.pow_pos_nonneg; lia. Qed.
Lemma p10_pos k : 0 < p10 k.
Proof. unfold p10. apply Z.pow_pos_nonneg; lia. Qed.

Lemma pow_shift b i j :
  0 < b -> i <= j ->
  b ^ Z.max j 0 * b ^ Z.max (- i) 0 = b ^ (j - i) * (b ^ Z.max i 0 * b ^ Z.max (- j) 0).
Proof.
  intros Hb Hij. rewrite <- !Z.pow_add_r by lia. f_equal. lia.
Qed.

Lemma p2_shift i j : i <= j -> p2 j * p2 (- i) = 2 ^ (j - i) * (p2 i * p2 (- j)).
Proof. intros. by apply pow_shift. Qed.
Lemma p10_shift i j : i <= j -> p10 j * p10 (- i) = 10 ^ (j - i) * (p10 i * p10 (- j)).
Proof. intros. by apply pow_shift. Qed.

(** Cancelling a positive factor. *)
Lemma le_cancel c a b : 0 < c -> c * a <= c * b -> a <= b.
Proof. intros ? H. by apply Z.mul_le_mono_pos_l in H. Qed.
Lemma lt_cancel c a b : 0 < c -> c * a < c * b -> a < b.
Proof. intros ? H. by apply Z.mul_lt_mono_pos_l in H. Qed.

(** * Rounding to an integer *)

Lemma rhe_near a b k : 2 * Z.abs (a - k * b) < b -> rhe a b = k.
Proof.
  intros H. unfold rhe. assert (0 < b) as Hb by lia.
  pose proof (Z.div_mod a b ltac:(lia)). pose proof (Z.mod_pos_bound a b Hb).
  set (q := a / b) in *. set (r := a mod b) in *.
  assert (a - k * b = (q - k) * b + r) as Hk by lia. rewrite Hk in H.
  destruct (Z.ltb_spec (2 * r) b); [nia|]. destruct (Z.ltb_spec b (2 * r)); [nia|].
  destruct (Z.le_gt_cases k q); nia.
Qed.

Lemma rhe_error a b : 0 < b -> 2 * Z.abs (a - rhe a b * b) <= b.
Proof.
  intros Hb. unfold rhe. pose proof (Z.div_mod a b ltac:(lia)). pose proof (Z.mod_pos_bound a b Hb).
  set (q := a / b) in *. set (r := a mod b) in *.
  destruct (Z.ltb_spec (2 * r) b); [|destruct (Z.ltb_spec b (2 * r)); [|destruct (Z.even q)]]; lia.
Qed.

Lemma rhe_cross a b a' b' : 0 < b -> 0 < b' -> a * b' = a' * b -> rhe a b = rhe a' b'.
Proof.
  intros Hb Hb' E.
  pose proof (Z.div_mod a b ltac:(lia)) as Ha. pose proof (Z.mod_pos_bound a b Hb) as Hr.
  pose proof (Z.div_mod a' b' ltac:(lia)) as Ha'. pose proof (Z.mod_pos_bound a' b' Hb') as Hr'.
  unfold rhe. set (q := a / b) in *. set (r := a mod b) in *.
  set (q' := a' / b') in *. set (r' := a' mod b') in *.
  assert ((q - q') * (b * b') = r' * b - r * b') as Hq by (rewrite Ha, Ha' in E; lia).
  assert (0 <= r' * b < b * b') by nia. assert (0 <= r * b' < b * b') by nia.
  assert (q = q') as <-.
  { set (c := b * b') in *. destruct (Z.lt_trichotomy q q') as [?|[?|?]]; [nia|done|nia]. }
  assert (r * b' = r' * b) as Hrr by lia.
  assert ((2 * r <? b) = (2 * r' <? b')) as ->.
  { destruct (Z.ltb_spec (2 * r) b), (Z.ltb_spec (2 * r') b'); try done; nia. }
  assert ((b <? 2 * r) = (b' <? 2 * r')) as -> by
    (destruct (Z.ltb_spec b (2 * r)), (Z.ltb_spec b' (2 * r')); try done; nia).
  done.
Qed.

(** * The binary exponent *)

(** 2^k <= n / d. *)
Definition le2 (k n d : Z) : Prop := d * p2 k <= n * p2 (- k).

#[global] Instance le2_dec k n d : Decision (le2 k n d).
Proof. unfold le2. apply _. Defined.

Lemma pow_scale B i j n d :
  0 < B -> i <= j ->
  d * B ^ Z.max j 0 <= n * B ^ Z.max (- j) 0 <->
  B ^ (j - i) * (d * B ^ Z.max i 0) <= n * B ^ Z.max (- i) 0.
Proof.
  intros HB Hij. pose proof (pow_shift B i j HB Hij) as Hs.
  assert (forall k, 0 < B ^ Z.max k 0) as Hp by (intros; apply Z.pow_pos_nonneg; lia).
  pose proof (Hp i). pose proof (Hp (- j)). pose proof (Hp (- i)). pose proof (Hp j).
  set (a := B ^ Z.max i 0) in *. set (b := B ^ Z.max j 0) in *.
  set (a' := B ^ Z.max (- i) 0) in *. set (b' := B ^ Z.max (- j) 0) in *.
  split; intros H'.
  - apply (le_cancel b'); [done|].
    replace (b' * (B ^ (j - i) * (d * a))) with (d * (b * a')) by (rewrite Hs; lia). nia.
  - apply (le_cancel a'); [done|].
    replace (a' * (d * b)) with (b' * (B ^ (j - i) * (d * a)))
      by (transitivity (d * (b * a')); [rewrite Hs; lia|lia]). nia.
Qed.

Lemma le2_scale i j n d :
  i <= j -> le2 j n d <-> 2 ^ (j - i) * (d * p2 i) <= n * p2 (- i).
Proof. by apply pow_scale. Qed.

Lemma le2_mono i j n d : 0 < d -> i <= j -> le2 j n d -> le2 i n d.
Proof.
  intros Hd Hij H. apply (le2_scale i j) in H; [|done]. unfold le2.
  pose proof (p2_pos i). assert (1 <= 2 ^ (j - i)) by (apply Z.lt_pred_le, Z.pow_pos_nonneg; lia). nia.
Qed.

Lemma le2_cross k n d n' d' : 0 < d -> 0 < d' -> n * d' = n' * d -> le2 k n d -> le2 k n' d'.
Proof.
  unfold le2. intros Hd Hd' E H. pose proof (p2_pos k). pose proof (p2_pos (- k)).
  apply (le_cancel d); [done|]. nia.
Qed.

Lemma qlog2_spec n d :
  0 < n -> 0 < d -> le2 (qlog2 n d) n d /\ ~ le2 (qlog2 n d + 1) n d.
Proof.
  intros Hn Hd. pose proof (Z.log2_spec n Hn) as [Hn1 Hn2]. pose proof (Z.log2_spec d Hd) as [Hd1 Hd2].
  pose proof (Z.log2_nonneg n). pose proof (Z.log2_nonneg d).
  set (a := Z.log2 n) in *. set (b := Z.log2 d) in *.
  assert (forall i j k, 0 <= i -> 0 <= j -> i - j = k -> 2 ^ j * p2 k = 2 ^ i * p2 (- k)) as Hp.
  { intros i j k ? ? <-. unfold p2. rewrite <- !Z.pow_add_r by lia. f_equal. lia. }
  assert (~ le2 (a - b + 1) n d) as Hup.
  { unfold le2. pose proof (Hp (a + 1) b (a - b + 1) ltac:(lia) ltac:(lia) ltac:(lia)).
    pose proof (p2_pos (a - b + 1)). pose proof (p2_pos (- (a - b + 1))).
    change (Z.succ a) with (a + 1) in Hn2. nia. }
  assert (le2 (a - b - 1) n d) as Hlo.
  { unfold le2. pose proof (Hp a (b + 1) (a - b - 1) ltac:(lia) ltac:(lia) ltac:(lia)).
    pose proof (p2_pos (a - b - 1)). pose proof (p2_pos (- (a - b - 1))).
    change (Z.succ b) with (b + 1) in Hd2. nia. }
  unfold qlog2. fold a b. cbn zeta. destruct (Z.leb_spec (d * p2 (a - b)) (n * p2 (- (a - b)))) as [Hk|Hk].
  - by split.
  - split; [done|]. unfold le2. replace (a - b - 1 + 1) with (a - b) by lia. lia.
Qed.

Lemma qlog2_unique k n d : 0 < n -> 0 < d -> le2 k n d -> ~ le2 (k + 1) n d -> qlog2 n d = k.
Proof.
  intros Hn Hd Hk Hk1. destruct (qlog2_spec n d Hn Hd) as [H1 H2].
  destruct (Z.lt_trichotomy (qlog2 n d) k) as [Hlt|[?|Hlt]]; [|done|].
  - destruct H2. by apply (le2_mono _ k); [|lia|].
  - destruct Hk1. by apply (le2_mono _ (qlog2 n d)); [|lia|].
Qed.

Lemma qlog2_cross n d n' d' :
  0 < n -> 0 < d -> 0 < n' -> 0 < d' -> n * d' = n' * d -> qlog2 n d = qlog2 n' d'.
Proof.
  intros Hn Hd Hn' Hd' E. destruct (qlog2_spec n' d' Hn' Hd') as [H1 H2]. apply qlog2_unique; [done..| |].
  - by apply (le2_cross _ n' d').
  - intros H. apply H2. by apply (le2_cross _ n d).
Qed.

(** * Rounding to a double *)

Lemma make_double_cross s n d n' d' :
  0 <= n -> 0 < d -> 0 <= n' -> 0 < d' -> n * d' = n' * d -> make_double s n d = make_double s n' d'.
Proof.
  intros Hn Hd Hn' Hd' E. unfold make_double.
  destruct (Z.eqb_spec n 0) as [->|Hn0].
  { assert (n' = 0) as -> by nia. done. }
  rewrite (proj2 (Z.eqb_neq n' 0)) by nia. rewrite (qlog2_cross n d n' d') by nia.
  set (e := Z.max _ _). cbn zeta. pose proof (p2_pos e). pose proof (p2_pos (- e)).
  rewrite (rhe_cross (n * p2 (- e)) (d * p2 e) (n' * p2 (- e)) (d' * p2 e)); [done|nia|nia|].
  transitivity (n * d' * (p2 (- e) * p2 e)); [lia|]. rewrite E. lia.
Qed.

(** The last step of the rounding. *)
Lemma make_double_unfold s n d e :
  0 < n -> Z.max (qlog2 n d - 52) (-1074) = e ->
  make_double s n d =
    (let m := rhe (n * p2 (- e)) (d * p2 e) in
     let '(m, e) := if m =? 2 ^ 53 then (2 ^ 52, e + 1) else (m, e) in
     if 971 <? e then DInf s else DFin s m e).
Proof. intros Hn <-. unfold make_double. by rewrite (proj2 (Z.eqb_neq n 0)) by lia. Qed.

Section Near.
Context (s : bool) (n d m e : Z) (Hn : 0 < n) (Hd : 0 < d) (Hok : double_ok (DFin s m e)).
Let a := n * p2 (- e).
Let b := d * p2 e.
Hypothesis Hnear : 2 * Z.abs (a - m * b) < b.

Lemma near_scale j : 0 <= j -> le2 (e + j) n d <-> 2 ^ j * b <= a.
Proof. intros. rewrite (le2_scale e) by lia. fold a b. by replace (e + j - e) with j by lia. Qed.

Lemma near_below : ~ le2 (e + 53) n d.
Proof.
  destruct Hok as (? & _). rewrite near_scale by lia.
  assert (m * b <= (2 ^ 53 - 1) * b) by (apply Z.mul_le_mono_nonneg_r; lia). lia.
Qed.

(** In the binade of the number. *)
Lemma near_inside : le2 (e + 52) n d \/ e = -1074 -> make_double s n d = DFin s m e.
Proof.
  destruct Hok as (? & ? & _). intros H52.
  rewrite (make_double_unfold s n d e Hn); fold a b.
  - cbn zeta. rewrite (rhe_near a b m Hnear), (proj2 (Z.eqb_neq m _)) by lia.
    by rewrite (proj2 (Z.ltb_ge 971 e)) by lia.
  - destruct H52 as [H52|He].
    + rewrite (qlog2_unique (e + 52)); [lia|done..|].
      replace (e + 52 + 1) with (e + 53) by lia. apply near_below.
    + destruct (qlog2_spec n d Hn Hd) as [Hq _].
      destruct (Z.le_gt_cases (qlog2 n d) (e + 52)); [lia|]. destruct near_below.
      by apply (le2_mono _ (qlog2 n d)); [|lia|].
Qed.

(** Just below a power of two. *)
Lemma near_power :
  m = 2 ^ 52 -> -1074 < e -> ~ le2 (e + 52) n d -> 4 * (m * b - a) < b -> make_double s n d = DFin s m e.
Proof.
  destruct Hok as (_ & ? & _). intros Hm ? Hl Hlow. rewrite (make_double_unfold s n d (e - 1) Hn).
  - cbn zeta. rewrite (rhe_cross _ _ (2 * a) b); [|pose proof (p2_pos (e - 1)); nia|lia|].
    + rewrite (rhe_near (2 * a) b (2 ^ 53)) by (rewrite near_scale in Hl by lia; lia). rewrite Z.eqb_refl.
      replace (e - 1 + 1) with e by lia. rewrite Hm. by rewrite (proj2 (Z.ltb_ge 971 e)) by lia.
    + pose proof (p2_shift (e - 1) e ltac:(lia)) as Hs. replace (e - (e - 1)) with 1 in Hs by lia.
      unfold a, b. change (2 ^ 1) with 2 in Hs.
      transitivity (n * d * (p2 e * p2 (- (e - 1)))); [lia|]. rewrite Hs. lia.
  - rewrite (qlog2_unique (e + 51)); [lia|done..| |].
    + rewrite near_scale by lia. lia.
    + by replace (e + 51 + 1) with (e + 52) by lia.
Qed.

(** A fraction closer to a number than to the middle to its neighbours. *)
Lemma make_double_near :
  (m = 2 ^ 52 -> a < m * b -> 4 * (m * b - a) < b) -> make_double s n d = DFin s m e.
Proof.
  intros Hlow. destruct (decide (le2 (e + 52) n d)) as [H52|H52]; [by apply near_inside; left|].
  destruct (decide (e = -1074)); [by apply near_inside; right|].
  pose proof H52 as Hl. rewrite near_scale in Hl by lia. destruct Hok as (? & ? & [Hnorm|]); [|done].
  destruct (Z.eq_dec m (2 ^ 52)) as [Hm|].
  - apply near_power; [done|lia|done|]. apply Hlow; [done|lia].
  - assert ((2 ^ 52 + 1) * b <= m * b) by (apply Z.mul_le_mono_nonneg_r; lia). lia.
Qed.
End Near.

(** * Digits *)

Definition is_dec (d : Z) : Prop := 0 <= d <= 9.

Lemma fold_dec l a : fold_left (fun a d => 10 * a + d) l a = a * 10 ^ zlen l + dec_val l.
Proof.
  unfold dec_val. revert a. induction l as [|d l IH]; intros a; cbn [fold_left].
  - change (zlen []) with 0. lia.
  - rewrite IH, (IH (10 * 0 + d)). replace (zlen (d :: l)) with (1 + zlen l) by zl.
    pose proof (zlen_nonneg l). rewrite Z.pow_add_r by lia. lia.
Qed.

Lemma dec_val_app l k : dec_val (l ++ k) = dec_val l * 10 ^ zlen k + dec_val k.
Proof. unfold dec_val at 1. rewrite fold_left_app. apply fold_dec. Qed.

Lemma dec_val_cons d l : dec_val (d :: l) = d * 10 ^ zlen l + dec_val l.
Proof. apply (dec_val_app [d] l). Qed.

Lemma dec_val_zeros n : dec_val (replicate n 0) = 0.
Proof. induction n as [|n IH]; [done|]. cbn [replicate]. by rewrite dec_val_cons, IH. Qed.

Lemma dec_val_nonneg l : Forall is_dec l -> 0 <= dec_val l < 10 ^ zlen l.
Proof.
  induction 1 as [|d l Hd _ IH]; [done|]. rewrite dec_val_cons. unfold is_dec in Hd.
  replace (zlen (d :: l)) with (1 + zlen l) by zl. pose proof (zlen_nonneg l).
  rewrite Z.pow_add_r by lia. change (10 ^ 1) with 10. nia.
Qed.

Lemma digits_rev_spec fuel z :
  0 <= z < 2 ^ Z.of_nat fuel -> (0 < fuel)%nat ->
  let l := rev (digits_rev fuel z) in
  dec_val l = z /\ Forall is_dec l /\ 0 < zlen l /\ (0 < z -> 10 ^ (zlen l - 1) <= z).
Proof.
  revert z. induction fuel as [|fuel IH]; intros z Hz Hf; [lia|]. cbn zeta. cbn [digits_rev rev].
  pose proof (Z.mod_pos_bound z 10 ltac:(lia)) as Hm. pose proof (Z.div_mod z 10 ltac:(lia)) as Hd.
  assert (Forall is_dec [z mod 10]) as Hlast by (repeat constructor; unfold is_dec; lia).
  destruct (Z.eqb_spec (z / 10) 0) as [E|E].
  - cbn [rev app]. split_and!; [|done|done|intros; change (10 ^ (zlen [z mod 10] - 1)) with 1; lia].
    cbn. lia.
  - assert (0 <= z / 10) by (apply Z.div_pos; lia).
    assert (2 ^ Z.of_nat (S fuel) = 2 * 2 ^ Z.of_nat fuel) as Hp.
    { rewrite <- Z.pow_succ_r by lia. f_equal. lia. }
    destruct fuel as [|fuel]; [change (2 ^ Z.of_nat 1) with 2 in Hz; lia|].
    destruct (IH (z / 10)) as (Hv & Hall & Hlen & Hlow); [lia|lia|].
    set (l := rev (digits_rev (S fuel) (z / 10))) in *. specialize (Hlow ltac:(lia)).
    assert (zlen (l ++ [z mod 10]) = zlen l + 1) as Hz1 by zl.
    rewrite Hz1, dec_val_app, Hv. split_and!; [change (10 ^ zlen [z mod 10]) with 10; cbn; lia| |lia|].
    + by apply Forall_app.
    + intros _. replace (zlen l + 1 - 1) with (1 + (zlen l - 1)) by lia.
      rewrite Z.pow_add_r by lia. lia.
Qed.

Lemma dec_digits_spec z :
  0 <= z -> let l := dec_digits z in
  dec_val l = z /\ Forall is_dec l /\ 0 < zlen l /\ (0 < z -> 10 ^ (zlen l - 1) <= z < 10 ^ zlen l).
Proof.
  intros Hz. unfold dec_digits. destruct (digits_rev_spec (S (Z.to_nat (Z.log2 z))) z) as (Hv & Hf & Hl & Hb).
  - pose proof (Z.log2_nonneg z). rewrite Nat2Z.inj_succ, Z2Nat.id by lia.
    destruct (Z.eq_dec z 0) as [->|]; [done|]. pose proof (Z.log2_spec z ltac:(lia)). lia.
  - lia.
  - cbn zeta. split_and!; try done. intros H. split; [by apply Hb|]. rewrite <- Hv at 1.
    by apply dec_val_nonneg.
Qed.

(** The number of digits. *)
Lemma dec_digits_length z p : 0 < p -> 10 ^ (p - 1) <= z < 10 ^ p -> zlen (dec_digits z) = p.
Proof.
  intros Hp [H1 H2]. assert (0 < 10 ^ (p - 1)) by (apply Z.pow_pos_nonneg; lia).
  destruct (dec_digits_spec z ltac:(lia)) as (_ & _ & Hl & Hb). specialize (Hb ltac:(lia)) as [Hb1 Hb2].
  set (l := zlen (dec_digits z)) in *.
  assert (p - 1 < l) by (apply (Z.pow_lt_mono_r_iff 10); lia).
  assert (l - 1 < p) by (apply (Z.pow_lt_mono_r_iff 10); lia). lia.
Qed.

Lemma strip_zeros_spec l : exists k, l = replicate k 0 ++ strip_zeros l.
Proof.
  induction l as [|d l [k IH]]; [by exists 0%nat|]. destruct (Z.eq_dec d 0) as [->|Hd].
  - exists (S k). cbn. by rewrite <- IH.
  - exists 0%nat. cbn. by destruct d.
Qed.

Lemma strip_trailing_spec l : exists k, l = strip_trailing l ++ replicate k 0.
Proof.
  destruct (strip_zeros_spec (rev l)) as [k Hk]. exists k. unfold strip_trailing.
  apply (f_equal (@rev Z)) in Hk. rewrite rev_involutive, rev_app_distr in Hk. rewrite Hk at 1. f_equal.
  rewrite rev_alt. apply reverse_replicate.
Qed.

(** * Reading printed numbers *)

(** The texts after a number: nothing that continues it. *)
Definition stops (l : list Z) : Prop := match l with c :: _ => isdigit c = false | [] => True end.

Lemma isdigit_to_char d : is_dec d -> isdigit (to_char d) = true.
Proof. unfold is_dec, isdigit, to_char. intros. apply andb_true_intro. rewrite !Z.leb_le. lia. Qed.

Lemma span_digits_print ds r :
  Forall is_dec ds -> stops r -> span_digits (map to_char ds ++ r) = (ds, r).
Proof.
  induction 1 as [|d ds Hd _ IH]; intros Hr.
  - destruct r as [|c r]; [done|]. cbn in *. by rewrite Hr.
  - cbn [map app span_digits]. rewrite isdigit_to_char, IH by done. unfold to_char. f_equal. f_equal. lia.
Qed.

(** The digits of the exponent, padded to two. *)
Lemma exponent_digits x :
  0 <= x -> exists ds, (if zlen (dec_digits x) <? 2 then [48] else []) ++ map to_char (dec_digits x) = map to_char ds /\
    Forall is_dec ds /\ dec_val ds = x /\ ds <> [].
Proof.
  intros Hx. destruct (dec_digits_spec x Hx) as (Hv & Hf & Hl & _).
  destruct (zlen (dec_digits x) <? 2).
  - exists (0 :: dec_digits x). rewrite dec_val_cons. split_and!; [done| |lia|done].
    constructor; [unfold is_dec; lia|done].
  - exists (dec_digits x). split_and!; [done..|]. by destruct (dec_digits x).
Qed.

Lemma take_exponent_print x : take_exponent (print_exponent x) = (x, []).
Proof.
  unfold print_exponent. destruct (exponent_digits (Z.abs x) ltac:(lia)) as (ds & -> & Hf & Hv & Hne).
  cbn [take_exponent]. change ((101 =? 101) || (101 =? 69)) with true. cbn iota.
  assert (span_digits (map to_char ds) = (ds, [])) as Hspan.
  { rewrite <- (app_nil_r (map _ _)). by apply span_digits_print. }
  destruct (Z.ltb_spec x 0); cbn [take_sign].
  - change (45 =? 45) with true. cbn iota beta. rewrite Hspan. destruct ds; [done|]. rewrite Hv. f_equal. lia.
  - change (43 =? 45) with false. change (43 =? 43) with true. cbn iota beta. rewrite Hspan.
    destruct ds; [done|]. rewrite Hv. f_equal. lia.
Qed.

(** The texts that can follow the digits, with their exponent. *)
Definition exponent_text (l : list Z) (x : Z) : Prop := (l = [] /\ x = 0) \/ l = print_exponent x.

Lemma take_exponent_text l x : exponent_text l x -> take_exponent l = (x, []).
Proof. intros [[-> ->]| ->]; [done|]. apply take_exponent_print. Qed.

Lemma exponent_stops l x : exponent_text l x -> stops l.
Proof. by intros [[-> _]| ->]. Qed.

Lemma take_sign_print s d k :
  is_dec d -> take_sign (print_sign s ++ to_char d :: k) = (s, to_char d :: k).
Proof.
  intros Hd. destruct s; [done|]. cbn. unfold to_char, is_dec in *.
  rewrite (proj2 (Z.eqb_neq _ 45)), (proj2 (Z.eqb_neq _ 43)) by lia. done.
Qed.

Lemma strtod_number s int frac tail x :
  int <> [] -> Forall is_dec int -> Forall is_dec frac -> exponent_text tail x ->
  let l := print_sign s ++ with_point (map to_char int) (map to_char frac) ++ tail in
  strtod l = (decimal s (dec_val (int ++ frac)) (x - zlen frac), zlen l).
Proof.
  intros Hne Hi Hf Ht. cbn zeta. unfold strtod. set (body := with_point _ _ ++ tail).
  assert (take_sign (print_sign s ++ body) = (s, body)) as ->.
  { destruct int as [|d int]; [done|]. apply Forall_cons in Hi as [Hd _].
    assert (exists k, body = to_char d :: k) as [k ->]
      by (unfold body, with_point; destruct (map to_char frac); cbn; by eexists).
    by apply take_sign_print. }
  assert (exists r, span_digits body = (int, r) /\ take_fraction r = (frac, tail)) as (r & -> & ->).
  { unfold body, with_point. destruct frac as [|f frac]; cbn [map].
    - exists tail. split; [by eapply span_digits_print, exponent_stops|]. destruct Ht as [[-> _]| ->]; done.
    - eexists. rewrite <- app_assoc. split; [by apply span_digits_print|].
      cbn [app take_fraction]. change (46 =? 46) with true. cbn iota.
      apply (span_digits_print (f :: frac)); [done|]. by eapply exponent_stops. }
  destruct (int ++ frac) eqn:E; [by destruct int|]. rewrite (take_exponent_text _ _ Ht).
  f_equal. change (zlen []) with 0. lia.
Qed.

(** The digits of a printed number, without the zeros at its end. *)
Lemma stripped_digits p v :
  0 < p -> 10 ^ (p - 1) <= v < 10 ^ p ->
  let ds := strip_trailing (dec_digits v) in
  Forall is_dec ds /\ ds <> [] /\ zlen ds <= p /\ v = dec_val ds * 10 ^ (p - zlen ds).
Proof.
  intros Hp Hv. cbn zeta. assert (0 < 10 ^ (p - 1)) by (apply Z.pow_pos_nonneg; lia).
  destruct (dec_digits_spec v ltac:(lia)) as (Hval & Hf & _ & _).
  pose proof (dec_digits_length v p Hp Hv) as Hlen.
  destruct (strip_trailing_spec (dec_digits v)) as [k Hk]. set (ds := strip_trailing _) in *.
  assert (zlen ds + Z.of_nat k = p) as Hz.
  { rewrite <- Hlen, Hk at 1. unfold zlen. rewrite length_app, length_replicate. lia. }
  rewrite Hk, Forall_app in Hf. rewrite Hk, dec_val_app, dec_val_zeros in Hval.
  assert (zlen (replicate k 0) = Z.of_nat k) as Hzk by (unfold zlen; by rewrite length_replicate).
  rewrite Hzk in Hval. split_and!; [apply Hf| |lia|].
  - intros E. rewrite E in Hval. change (dec_val []) with 0 in Hval. lia.
  - replace (p - zlen ds) with (Z.of_nat k) by lia. lia.
Qed.

(** What [strtod] makes of the three notations of ["%g"]: the digits and their
    exponent, or the integer they denote. *)
Section Notation.
Context (s : bool) (t : list Z) (x : Z) (Hne : t <> []) (Hf : Forall is_dec t).
Let k := x + 1 - zlen t.
Let ds := map to_char t.

Lemma strtod_sci :
  let l := print_sign s ++ with_point (take 1 ds) (drop 1 ds) ++ print_exponent x in
  strtod l = (decimal s (dec_val t) k, zlen l).
Proof.
  unfold k, ds. destruct t as [|d r]; [done|]. apply Forall_cons in Hf as [Hd Hr].
  pose proof (strtod_number s [d] r (print_exponent x) x) as Hs. cbn zeta in *.
  change (take 1 (map to_char (d :: r))) with (map to_char [d]).
  change (drop 1 (map to_char (d :: r))) with (map to_char r).
  rewrite Hs; [|done|by constructor|done|by right]. f_equal. f_equal. zl.
Qed.

Lemma strtod_small :
  x < 0 ->
  let l := print_sign s ++ 48 :: 46 :: replicate (Z.to_nat (- x - 1)) 48 ++ ds in
  strtod l = (decimal s (dec_val t) k, zlen l).
Proof.
  intros Hx. cbn zeta. unfold k, ds. set (z := Z.to_nat (- x - 1)).
  pose proof (strtod_number s [0] (replicate z 0 ++ t) [] 0) as Hs. cbn zeta in Hs.
  assert (with_point (map to_char [0]) (map to_char (replicate z 0 ++ t)) ++ [] =
          48 :: 46 :: replicate z 48 ++ map to_char t) as E.
  { rewrite app_nil_r, map_app, (fmap_replicate to_char). unfold with_point.
    destruct (replicate z (to_char 0) ++ map to_char t) eqn:E'.
    - apply app_eq_nil in E' as [_ E']. by apply map_eq_nil in E'.
    - change (to_char 0) with 48 in E'. by rewrite <- E'. }
  rewrite E in Hs. rewrite Hs; [|done|repeat constructor; unfold is_dec; lia| |by left].
  - rewrite !dec_val_app, dec_val_zeros. change (dec_val [0]) with 0. f_equal. f_equal.
    unfold zlen. rewrite length_app, length_replicate. unfold z. lia.
  - apply Forall_app. split; [|done]. apply Forall_replicate. unfold is_dec. lia.
Qed.

Lemma strtod_plain :
  0 <= x ->
  let n := Z.to_nat (x + 1) in
  let l := print_sign s ++ with_point (take n ds ++ replicate (n - length ds) 48) (drop n ds) in
  strtod l = (decimal s (dec_val t) k, zlen l) \/
  (0 <= k /\ strtod l = (decimal s (dec_val t * 10 ^ k) 0, zlen l)).
Proof.
  intros Hx n. cbn zeta. unfold k, ds. rewrite length_map.
  destruct (decide (length t <= n)%nat) as [Hl|Hl].
  - right. split; [unfold n in Hl; unfold zlen; lia|].
    rewrite take_ge, drop_ge by (rewrite length_map; lia).
    pose proof (strtod_number s (t ++ replicate (n - length t) 0) [] [] 0) as Hs. cbn zeta in Hs.
    rewrite map_app, (fmap_replicate to_char) in Hs. change (map to_char []) with (@nil Z) in Hs.
    rewrite !app_nil_r in Hs. change (to_char 0) with 48 in Hs. rewrite Hs; [|by destruct t| |done|by left].
    + f_equal. rewrite dec_val_app, dec_val_zeros, Z.add_0_r. change (0 - zlen []) with 0. do 3 f_equal.
      unfold zlen. rewrite length_replicate. unfold n in *. lia.
    + apply Forall_app. split; [done|]. apply Forall_replicate. unfold is_dec. lia.
  - left. replace (n - length t)%nat with 0%nat by lia. cbn [replicate].
    pose proof (strtod_number s (take n t) (drop n t) [] 0) as Hs. cbn zeta in Hs.
    rewrite app_nil_r in Hs. rewrite app_nil_r, firstn_map, skipn_map.
    rewrite Hs; [| |by apply Forall_take|by apply Forall_drop|by left].
    + rewrite take_drop. f_equal. f_equal. unfold zlen. rewrite length_drop. unfold n in *. lia.
    + unfold n. destruct t; [done|]. by replace (Z.to_nat (x + 1)) with (S (Z.to_nat x)) by lia.
Qed.
End Notation.

Lemma strtod_print_digits p s ds x :
  strip_trailing ds <> [] -> Forall is_dec (strip_trailing ds) ->
  let l := print_sign s ++ print_digits p ds x in
  let n := dec_val (strip_trailing ds) in
  let k := x + 1 - zlen (strip_trailing ds) in
  strtod l = (decimal s n k, zlen l) \/ (0 <= k /\ strtod l = (decimal s (n * 10 ^ k) 0, zlen l)).
Proof.
  intros Hne Hf. cbn zeta. unfold print_digits.
  destruct ((x <? -4) || (p <=? x)); [left; by apply strtod_sci|].
  destruct (Z.ltb_spec x 0); [left; by apply strtod_small|by apply strtod_plain].
Qed.

Lemma decimal_make s n k :
  0 <= n -> -600 <= k <= 400 -> decimal s n k = make_double s (n * p10 k) (p10 (- k)).
Proof.
  intros Hn Hk. unfold decimal. destruct (Z.eqb_spec n 0) as [->|]; [done|].
  by rewrite (proj2 (Z.ltb_ge 400 k)), (proj2 (Z.ltb_ge k (-600))) by lia.
Qed.

(** Reading back [p] digits: the double nearest to the decimal number. *)
Lemma strtod_print p s v x :
  0 < p <= 100 -> -400 <= x <= 350 -> 10 ^ (p - 1) <= v < 10 ^ p ->
  let l := print_sign s ++ print_digits p (dec_digits v) x in
  let q := x + 1 - p in
  strtod l = (make_double s (v * p10 q) (p10 (- q)), zlen l).
Proof.
  intros Hp Hx Hv. cbn zeta. destruct (stripped_digits p v ltac:(lia) Hv) as (Hf & Hne & Hlen & Hval).
  set (t := strip_trailing (dec_digits v)) in *. pose proof (dec_val_nonneg t Hf) as [Hn _].
  pose proof (zlen_nonneg t). set (q := x + 1 - p). set (k := x + 1 - zlen t).
  assert (0 < 10 ^ (p - 1)) by (apply Z.pow_pos_nonneg; lia).
  pose proof (p10_pos q). pose proof (p10_pos (- q)). pose proof (p10_pos k). pose proof (p10_pos (- k)).
  assert (make_double s (dec_val t * p10 k) (p10 (- k)) = make_double s (v * p10 q) (p10 (- q))) as Hmk.
  { apply make_double_cross; try nia. rewrite Hval.
    pose proof (p10_shift q k ltac:(lia)) as Hs. replace (k - q) with (p - zlen t) in Hs by lia.
    transitivity (dec_val t * (p10 k * p10 (- q))); [lia|]. rewrite Hs. lia. }
  destruct (strtod_print_digits p s (dec_digits v) x Hne Hf) as [-> | [Hk ->]]; fold t k; f_equal.
  - rewrite decimal_make by lia. done.
  - fold t k in Hk. rewrite decimal_make by nia. rewrite <- Hmk. change (p10 0) with 1. change (p10 (- 0)) with 1.
    apply make_double_cross; try nia.
    assert (p10 k = 10 ^ k) as -> by (unfold p10; f_equal; lia).
    assert (p10 (- k) = 1) as -> by (unfold p10; by rewrite Z.max_r by lia). lia.
Qed.

(** * Printing digits *)

Lemma rhe_lower a b k : 0 < b -> k * b <= a -> k <= rhe a b.
Proof.
  intros Hb Hk. assert (k <= a / b) by (apply Z.div_le_lower_bound; lia).
  unfold rhe. repeat case_match; lia.
Qed.

Lemma rhe_upper a b k : 0 < b -> a < k * b -> rhe a b <= k.
Proof.
  intros Hb Hk. assert (a / b < k) by (apply Z.div_lt_upper_bound; lia).
  unfold rhe. repeat case_match; lia.
Qed.

(** 10^k <= n / d. *)
Definition le10 (k n d : Z) : Prop := d * p10 k <= n * p10 (- k).

Lemma le10_scale i j n d : i <= j -> le10 j n d <-> 10 ^ (j - i) * (d * p10 i) <= n * p10 (- i).
Proof. by apply pow_scale. Qed.

(** The exponent that [sci] starts with. *)
Lemma sci_exponent n d :
  0 < n -> 0 < d -> d <= n * 10 ^ 400 ->
  let x := zlen (dec_digits (n * 10 ^ 400 / d)) - 401 in
  -400 <= x /\ le10 x n d /\ ~ le10 (x + 1) n d.
Proof.
  intros Hn Hd H1. cbn zeta. set (c := 10 ^ 400) in *. set (f := n * c / d).
  assert (0 < f) as Hf by (apply Z.div_str_pos; lia).
  destruct (dec_digits_spec f ltac:(lia)) as (_ & _ & Hl & Hb). specialize (Hb Hf) as [Hb1 Hb2].
  set (l := zlen (dec_digits f)) in *. split; [lia|].
  pose proof (Z.mul_div_le (n * c) d Hd) as Hlo. pose proof (Z.mul_succ_div_gt (n * c) d Hd) as Hhi.
  fold f in Hlo, Hhi.
  assert (forall k, -400 <= k -> le10 k n d <-> 10 ^ (k + 400) * d <= n * c) as Hsc.
  { intros k Hk. rewrite (le10_scale (-400) k) by lia. change (p10 (- -400)) with c.
    change (p10 (-400)) with 1. replace (k - -400) with (k + 400) by lia. lia. }
  rewrite !Hsc by lia. replace (l - 401 + 400) with (l - 1) by lia.
  replace (l - 401 + 1 + 400) with l by lia. split.
  - transitivity (d * f); [nia|done].
  - intros H. assert (d * (f + 1) <= 10 ^ l * d) by nia. lia.
Qed.

(** The digits [V] that [sci] rounds to and their exponent [q] before a carry. *)
Lemma sci_spec p n d :
  0 < p -> 0 < n -> 0 < d -> d <= n * 10 ^ 400 ->
  let '(v, x) := sci p n d in
  exists x0 V, let q := x0 + 1 - p in
    -400 <= x0 /\ le10 x0 n d /\ x0 <= x <= x0 + 1 /\ 0 < V /\
    2 * Z.abs (n * p10 (- q) - V * (d * p10 q)) <= d * p10 q /\
    10 ^ (p - 1) <= v < 10 ^ p /\
    v * p10 (x + 1 - p) * p10 (- q) = V * p10 q * p10 (- (x + 1 - p)).
Proof.
  intros Hp Hn Hd H1. unfold sci. destruct (sci_exponent n d Hn Hd H1) as (Hx & Hle & Hgt).
  set (x0 := zlen _ - 401) in *. cbn zeta. replace (x0 - p + 1) with (x0 + 1 - p) by lia.
  set (q := x0 + 1 - p). set (V := rhe _ _).
  assert (0 < d * p10 q) as Hb by (pose proof (p10_pos q); nia).
  assert (0 < 10 ^ (p - 1)) by (apply Z.pow_pos_nonneg; lia).
  assert (10 ^ p = 10 * 10 ^ (p - 1)) as H10.
  { replace p with (1 + (p - 1)) at 1 by lia. rewrite Z.pow_add_r by lia. done. }
  assert (10 ^ (p - 1) <= V) as HV1.
  { apply rhe_lower; [done|]. apply (le10_scale q x0) in Hle; [|lia].
    by replace (x0 - q) with (p - 1) in Hle by lia. }
  assert (V <= 10 ^ p) as HV2.
  { apply rhe_upper; [done|]. rewrite (le10_scale q) in Hgt by lia.
    replace (x0 + 1 - q) with p in Hgt by lia. lia. }
  pose proof (rhe_error (n * p10 (- q)) (d * p10 q) Hb) as Herr. fold V in Herr.
  destruct (Z.eqb_spec V (10 ^ p)) as [HV|HV]; exists x0, V; fold q; split_and!; try done; try lia.
  pose proof (p10_shift q (q + 1) ltac:(lia)) as Hs. replace (q + 1 - q) with 1 in Hs by lia.
  replace (x0 + 1 + 1 - p) with (q + 1) by lia. change (10 ^ 1) with 10 in Hs. rewrite HV, H10.
  transitivity (10 ^ (p - 1) * (p10 (q + 1) * p10 (- q))); [lia|]. rewrite Hs. lia.
Qed.

(** The range of the exponents. *)
Lemma p2_mono i j : i <= j -> p2 i <= p2 j.
Proof. intros. unfold p2. apply Z.pow_le_mono_r; lia. Qed.

Lemma double_exponent s m e x :
  double_ok (DFin s m e) -> 0 < m ->
  p2 (- e) <= m * p2 e * 10 ^ 400 /\ (le10 x (m * p2 e) (p2 (- e)) -> x <= 308).
Proof.
  intros (Hm & He & _) Hpos. pose proof (p2_pos e). pose proof (p2_pos (- e)). split.
  - transitivity (p2 1074); [by apply p2_mono; lia|]. transitivity (10 ^ 400); [by vm_compute|].
    assert (0 < 10 ^ 400) by (by vm_compute). set (c := 10 ^ 400) in *. nia.
  - intros Hx. destruct (Z.le_gt_cases x 308); [done|]. exfalso.
    apply (le10_scale 309) in Hx; [|lia]. change (p10 309) with (10 ^ 309) in Hx. change (p10 (- (309))) with 1 in Hx.
    assert (1 <= 10 ^ (x - 309)) by (apply Z.lt_pred_le, Z.pow_pos_nonneg; lia).
    assert (p2 e <= p2 971) by (by apply p2_mono; lia).
    assert (2 ^ 53 * p2 971 < 10 ^ 309) by (by vm_compute).
    set (c := 10 ^ 309) in *. set (z := 10 ^ (x - 309)) in *. set (y := p2 971) in *.
    assert (m * p2 e <= 2 ^ 53 * y) by (apply Z.mul_le_mono_nonneg; lia).
    assert (0 < c) by (by vm_compute). assert (1 * c <= p2 (- e) * c) by (apply Z.mul_le_mono_nonneg_r; lia).
    assert (1 * (p2 (- e) * c) <= z * (p2 (- e) * c)) by (apply Z.mul_le_mono_nonneg_r; lia). lia.
Qed.

(** [sprintf] and [strtod] together, for any number of digits. *)
Lemma strtod_sprintf p s m e :
  0 < p <= 100 -> double_ok (DFin s m e) -> 0 < m ->
  exists V q, 0 < V /\ le10 (q + p - 1) (m * p2 e) (p2 (- e)) /\
    2 * Z.abs (m * p2 e * p10 (- q) - V * (p2 (- e) * p10 q)) <= p2 (- e) * p10 q /\
    strtod (sprintf_g p (DFin s m e)) =
      (make_double s (V * p10 q) (p10 (- q)), zlen (sprintf_g p (DFin s m e))).
Proof.
  intros Hp Hok Hm. pose proof (p2_pos e). pose proof (p2_pos (- e)).
  destruct (double_exponent s m e 0 Hok Hm) as [Hbig _].
  pose proof (sci_spec p (m * p2 e) (p2 (- e)) ltac:(lia) ltac:(nia) ltac:(done) Hbig) as Hsci.
  cbn [sprintf_g]. rewrite (proj2 (Z.eqb_neq m 0)) by lia.
  destruct (sci p (m * p2 e) (p2 (- e))) as [v x].
  destruct Hsci as (x0 & V & Hx0 & Hle & Hx & HV & Herr & Hv & Hcross).
  destruct (double_exponent s m e x0 Hok Hm) as [_ Hmax]. specialize (Hmax Hle).
  exists V, (x0 + 1 - p). replace (x0 + 1 - p + p - 1) with x0 by lia. split_and!; [done..|].
  rewrite strtod_print by lia. f_equal. assert (0 < 10 ^ (p - 1)) by (apply Z.pow_pos_nonneg; lia).
  pose proof (p10_pos (x + 1 - p)). pose proof (p10_pos (x0 + 1 - p)).
  apply make_double_cross; [nia|apply p10_pos|nia|apply p10_pos|]. lia.
Qed.

(** Seventeen digits are enough. *)
Lemma strtod_sprintf_17 d :
  double_ok d -> is_finite d = true -> strtod (sprintf_g 17 d) = (d, zlen (sprintf_g 17 d)).
Proof.
  destruct d as [| |s m e]; [done..|]. intros Hok _.
  destruct (Z.eq_dec m 0) as [->|Hm0].
  { destruct Hok as (_ & _ & [?| ->]); [lia|]. by destruct s. }
  assert (0 < m) as Hm by (destruct Hok; lia).
  destruct (strtod_sprintf 17 s m e ltac:(lia) Hok Hm) as (V & q & HV & Hle & Herr & ->). f_equal.
  pose proof (p2_pos e). pose proof (p2_pos (- e)). pose proof (p10_pos q). pose proof (p10_pos (- q)).
  apply (le10_scale q) in Hle; [|lia]. replace (q + 17 - 1 - q) with 16 in Hle by lia.
  destruct Hok as (Hm53 & He & Hn).
  set (A := p2 (- e) * p10 q) in *. set (B := p10 (- q) * p2 e).
  assert (m * p2 e * p10 (- q) = m * B) as HB by (unfold B; lia). rewrite HB in Herr, Hle.
  assert (V * p10 q * p2 (- e) = V * A) as HA by (unfold A; lia).
  assert (0 < A) by (unfold A; nia). assert (0 < B) by (unfold B; nia).
  assert (m * B <= (2 ^ 53 - 1) * B) by (apply Z.mul_le_mono_nonneg_r; lia).
  apply make_double_near; [nia|done|by unfold double_ok|..]; fold B; rewrite HA; [lia|].
  intros Hpow _. rewrite Hpow in *. lia.
Qed.

(** * Well-formed results *)

Lemma make_double_ok s n d : 0 <= n -> 0 < d -> double_ok (make_double s n d).
Proof.
  intros Hn Hd. unfold make_double. destruct (Z.eqb_spec n 0) as [->|Hn0]; [cbn; lia|].
  destruct (qlog2_spec n d ltac:(lia) Hd) as [Hlo Hhi]. set (k := qlog2 n d) in *.
  set (e := Z.max (k - 52) (-1074)). cbn zeta. set (a := n * p2 (- e)). set (b := d * p2 e).
  pose proof (p2_pos e). pose proof (p2_pos (- e)).
  assert (0 < b) as Hb by (unfold b; nia). assert (0 <= a) as Ha by (unfold a; nia).
  assert (rhe a b <= 2 ^ 53) as Hup.
  { apply rhe_upper; [done|]. apply Z.nle_gt. intros H'. apply Hhi.
    apply (le2_mono _ (e + 53)); [done|unfold e; lia|].
    apply (le2_scale e); [lia|]. fold a b. by replace (e + 53 - e) with 53 by lia. }
  assert (e = -1074 \/ 2 ^ 52 <= rhe a b) as Hnorm.
  { destruct (Z.le_gt_cases (k - 52) (-1074)) as [|Hk]; [left; unfold e; lia|right].
    apply rhe_lower; [done|]. apply (le2_scale e k) in Hlo; [|unfold e; lia]. fold a b in Hlo.
    by replace (k - e) with 52 in Hlo by (unfold e; lia). }
  assert (0 <= rhe a b) as Hge by (apply rhe_lower; lia).
  destruct (Z.eqb_spec (rhe a b) (2 ^ 53)).
  - destruct (Z.ltb_spec 971 (e + 1)); [done|]. cbn. unfold e in *. lia.
  - destruct (Z.ltb_spec 971 e); [done|]. cbn. unfold e in *. lia.
Qed.

Lemma decimal_ok s n k : 0 <= n -> double_ok (decimal s n k).
Proof.
  intros. unfold decimal. repeat case_match; try (cbn; lia); try done.
  apply make_double_ok; [|apply p10_pos]. pose proof (p10_pos k). nia.
Qed.

Lemma span_digits_dec l : Forall is_dec (fst (span_digits l)).
Proof.
  induction l as [|c l IH]; cbn; [constructor|]. destruct (isdigit c) eqn:E; [|constructor].
  destruct (span_digits l). cbn in *. constructor; [|done].
  unfold isdigit in E. apply andb_true_iff in E as [?%Z.leb_le ?%Z.leb_le]. unfold is_dec. lia.
Qed.

Lemma strtod_ok l : double_ok (fst (strtod l)).
Proof.
  unfold strtod. destruct (take_sign l) as [s l1]. pose proof (span_digits_dec l1) as Hi.
  destruct (span_digits l1) as [int l2]. pose proof (span_digits_dec (drop 1 l2)) as Hf.
  assert (Forall is_dec (fst (take_fraction l2))) as Hf'.
  { unfold take_fraction. destruct l2 as [|c l2]; [constructor|]. cbn [drop] in Hf.
    destruct (c =? 46); [done|constructor]. }
  destruct (take_fraction l2) as [frac l3]. cbn [fst] in *.
  assert (0 <= dec_val (int ++ frac)) as Hv by (apply dec_val_nonneg, Forall_app; by split).
  destruct (int ++ frac) as [|d ds]; [cbn; lia|]. destruct (take_exponent l3). by apply decimal_ok.
Qed.

(** [==] on numbers other than zero is equality. *)
Lemma deqb_eq s1 m1 e1 s2 m2 e2 :
  double_ok (DFin s1 m1 e1) -> double_ok (DFin s2 m2 e2) -> deqb (DFin s1 m1 e1) (DFin s2 m2 e2) = true ->
  m2 <> 0 -> DFin s1 m1 e1 = DFin s2 m2 e2.
Proof.
  assert (forall s1 m1 e1 s2 m2 e2, 0 <= m1 < 2 ^ 53 -> (2 ^ 52 <= m2 \/ e2 = -1074) -> 0 <= m2 -> -1074 <= e1 ->
            e1 < e2 -> signed s1 m1 * (p2 e1 * p2 (- e2)) = signed s2 m2 * (p2 e2 * p2 (- e1)) -> False) as Hlt.
  { intros t1 n1 f1 t2 n2 f2 Hn1 Hn2 ? ? Hf E. rewrite (p2_shift f1 f2) in E by lia.
    pose proof (p2_pos f1). pose proof (p2_pos (- f2)). set (c := p2 f1 * p2 (- f2)) in *.
    assert (signed t1 n1 = signed t2 n2 * 2 ^ (f2 - f1)) as E' by (apply (Z.mul_reg_r _ _ c); [unfold c; nia|lia]).
    assert (2 ^ 1 <= 2 ^ (f2 - f1)) by (apply Z.pow_le_mono_r; lia). destruct Hn2 as [Hn2|]; [|lia].
    unfold signed in E'. destruct t1, t2; nia. }
  intros (? & ? & ?) (? & ? & ?) E%Z.eqb_eq Hm. rewrite <- !Z.mul_assoc in E.
  destruct (Z.lt_trichotomy e1 e2) as [He|[->|He]];
    [destruct (Hlt s1 m1 e1 s2 m2 e2); try done; lia| |destruct (Hlt s2 m2 e2 s1 m1 e1); try done; lia].
  pose proof (p2_pos e2). pose proof (p2_pos (- e2)).
  apply Z.mul_reg_r in E; [|nia]. unfold signed in E. destruct s1, s2; f_equal; lia.
Qed.

(** * The text of a number *)

(** What [print_number] writes: 15 digits when they are read back as the number,
    17 otherwise. *)
Definition shortest (d : double) : list Z :=
  let t := sprintf_g 15 d in
  if deqb (fst (strtod t)) d then t else sprintf_g 17 d.

Lemma shortest_reads_back d :
  double_ok d -> is_finite d = true -> strtod (shortest d) = (d, zlen (shortest d)).
Proof.
  intros Hok Hfin. unfold shortest. destruct (deqb _ d) eqn:E; [|by apply strtod_sprintf_17].
  destruct d as [| |s m e]; [done..|]. destruct (Z.eq_dec m 0) as [->|Hm0].
  { destruct Hok as (_ & _ & [?| ->]); [lia|]. by destruct s. }
  destruct (strtod_sprintf 15 s m e ltac:(lia) Hok ltac:(destruct Hok; lia)) as (V & q & _ & _ & _ & Hs).
  pose proof (strtod_ok (sprintf_g 15 (DFin s m e))) as Hok'. rewrite Hs in *. cbn [fst] in *. f_equal.
  destruct (make_double _ _ _) as [| |s' m' e']; [done..|]. by apply deqb_eq.
Qed.

Lemma num_to_char ds : Forall is_dec ds -> Forall (fun c => num_char c = true) (map to_char ds).
Proof.
  intros H. apply Forall_map. eapply Forall_impl; [exact H|]. intros d Hd. cbn. unfold num_char.
  by rewrite isdigit_to_char.
Qed.

Lemma with_point_num int frac :
  Forall (fun c => num_char c = true) int -> Forall (fun c => num_char c = true) frac ->
  Forall (fun c => num_char c = true) (with_point int frac) /\ zlen (with_point int frac) <= zlen int + zlen frac + 1.
Proof.
  intros Hi Hf. unfold with_point. destruct frac as [|c frac]; [split; [done|zl]|].
  split; [|zl]. apply Forall_app. split; [done|]. by constructor.
Qed.

Lemma print_exponent_num x :
  -999 <= x <= 999 -> Forall (fun c => num_char c = true) (print_exponent x) /\ zlen (print_exponent x) <= 5.
Proof.
  intros Hx. unfold print_exponent. destruct (dec_digits_spec (Z.abs x) ltac:(lia)) as (_ & Hf & Hl & Hb).
  set (ds := dec_digits (Z.abs x)) in *.
  assert (zlen ds <= 3) as H3.
  { destruct (Z.eq_dec x 0) as [->|]; [by vm_compute|]. specialize (Hb ltac:(lia)).
    assert (zlen ds - 1 < 3) by (apply (Z.pow_lt_mono_r_iff 10); lia). lia. }
  assert (zlen (map to_char ds) = zlen ds) as Hm by (unfold zlen; by rewrite length_map).
  split.
  - constructor; [done|]. constructor; [by destruct (x <? 0)|]. apply Forall_app.
    split; [by destruct (_ <? 2); repeat constructor|by apply num_to_char].
  - destruct (Z.ltb_spec (zlen ds) 2); zl.
Qed.

Lemma print_digits_num p ds x :
  0 < p <= 17 -> -400 <= x <= 309 -> Forall is_dec (strip_trailing ds) -> strip_trailing ds <> [] ->
  zlen (strip_trailing ds) <= p ->
  Forall (fun c => num_char c = true) (print_digits p ds x) /\ 0 < zlen (print_digits p ds x) <= 23.
Proof.
  intros Hp Hx Hf Hne Hlen. unfold print_digits. set (t := map to_char (strip_trailing ds)).
  assert (zlen t = zlen (strip_trailing ds)) as Ht by (unfold t, zlen; by rewrite length_map).
  assert (0 < zlen t) as Hpos by (rewrite Ht; unfold zlen; destruct (strip_trailing ds); [done|cbn; lia]).
  pose proof (num_to_char _ Hf) as Hnum. fold t in Hnum.
  assert (forall n, zlen (take n t) <= zlen t /\ zlen (take n t) + zlen (drop n t) = zlen t) as Hsplit.
  { intros n. unfold zlen. rewrite length_take, length_drop. lia. }
  destruct ((x <? -4) || (p <=? x)) eqn:Ee; [|apply orb_false_iff in Ee as [?%Z.ltb_ge ?%Z.leb_gt];
    destruct (Z.ltb_spec x 0)].
  - destruct (with_point_num (take 1 t) (drop 1 t)) as [Hw1 Hw2]; [by apply Forall_take|by apply Forall_drop|].
    destruct (print_exponent_num x ltac:(lia)) as [He1 He2]. split; [by apply Forall_app|].
    pose proof (Hsplit 1%nat). pose proof (zlen_nonneg (with_point (take 1 t) (drop 1 t))).
    assert (0 < zlen (print_exponent x)) by apply zlen_cons_pos. zl.
  - split.
    + do 2 (constructor; [done|]). apply Forall_app. split; [by apply Forall_replicate|done].
    + split; [apply zlen_cons_pos|]. unfold zlen in *. cbn [length]. rewrite length_app, length_replicate. lia.
  - set (n := Z.to_nat (x + 1)). set (int := take n t ++ replicate (n - length t) 48).
    assert (zlen int <= 17 /\ 0 < zlen int /\ zlen int + zlen (drop n t) <= 17) as (Hi & Hi0 & Hid).
    { unfold int, n, zlen in *. rewrite length_app, length_take, length_drop, length_replicate. lia. }
    destruct (with_point_num int (drop n t)) as [Hw1 Hw2];
      [by apply Forall_app; split; [apply Forall_take|apply Forall_replicate]|by apply Forall_drop|].
    split; [done|]. split; [|lia]. unfold with_point. destruct (drop n t); [done|]. unfold zlen. rewrite length_app. cbn. lia.
Qed.

(** A number of at most 17 digits fits the buffers of cjson.c and consists of the
    characters that [parse_number] takes. *)
Lemma sprintf_g_num p s m e :
  0 < p <= 17 -> double_ok (DFin s m e) ->
  let l := sprintf_g p (DFin s m e) in
  Forall (fun c => num_char c = true) l /\ 0 < zlen l <= 24.
Proof.
  intros Hp Hok. cbn zeta. cbn [sprintf_g]. destruct (Z.eqb_spec m 0) as [->|Hm0].
  { destruct s; cbn; (split; [by repeat constructor|by vm_compute]). }
  assert (0 < m) as Hm by (destruct Hok; lia). pose proof (p2_pos e). pose proof (p2_pos (- e)).
  destruct (double_exponent s m e 0 Hok Hm) as [Hbig _].
  pose proof (sci_spec p (m * p2 e) (p2 (- e)) ltac:(lia) ltac:(nia) ltac:(done) Hbig) as Hsci.
  destruct (sci p (m * p2 e) (p2 (- e))) as [v x].
  destruct Hsci as (x0 & V & Hx0 & Hle & Hx & _ & _ & Hv & _).
  destruct (double_exponent s m e x0 Hok Hm) as [_ Hmax]. specialize (Hmax Hle).
  destruct (stripped_digits p v ltac:(lia) Hv) as (Hf & Hne & Hlen & _).
  destruct (print_digits_num p (dec_digits v) x ltac:(lia) ltac:(lia) Hf Hne Hlen) as [Hn1 Hn2].
  split; [apply Forall_app; split; [by destruct s; repeat constructor|done]|].
  destruct s; cbn [print_sign]; zl.
Qed.

Lemma shortest_num d :
  double_ok d -> is_finite d = true ->
  Forall (fun c => num_char c = true) (shortest d) /\ 0 < zlen (shortest d) <= 24.
Proof.
  destruct d as [| |s m e]; [done..|]. intros Hok _. unfold shortest.
  case_match; by apply sprintf_g_num.
Qed.

(** ** The first character *)

Lemma print_digits_head p ds x :
  Forall is_dec (strip_trailing ds) -> strip_trailing ds <> [] ->
  exists c r, print_digits p ds x = c :: r /\ isdigit c = true.
Proof.
  intros Hf Hne. unfold print_digits. destruct (strip_trailing ds) as [|d l]; [done|].
  apply Forall_cons in Hf as [Hd _]. apply isdigit_to_char in Hd. cbn [map].
  destruct (_ || _) eqn:Ee; [|apply orb_false_iff in Ee as [?%Z.ltb_ge ?%Z.leb_gt]; destruct (Z.ltb_spec x 0)].
  - exists (to_char d). cbn [take drop]. rewrite take_0, drop_0. unfold with_point.
    destruct (map to_char l); cbn [app]; eauto.
  - eauto.
  - replace (Z.to_nat (x + 1)) with (S (Z.to_nat x)) by lia. exists (to_char d). cbn [take drop].
    unfold with_point. destruct (drop _ _); cbn [app]; eauto.
Qed.

Lemma sprintf_g_head p s m e :
  0 < p <= 17 -> double_ok (DFin s m e) ->
  exists c r, sprintf_g p (DFin s m e) = c :: r /\ (c = 45 \/ isdigit c = true).
Proof.
  intros Hp Hok. cbn [sprintf_g]. destruct (Z.eqb_spec m 0) as [->|Hm0]; [destruct s; cbn; eauto|].
  assert (0 < m) as Hm by (destruct Hok; lia). pose proof (p2_pos e). pose proof (p2_pos (- e)).
  destruct (double_exponent s m e 0 Hok Hm) as [Hbig _].
  pose proof (sci_spec p (m * p2 e) (p2 (- e)) ltac:(lia) ltac:(nia) ltac:(done) Hbig) as Hsci.
  destruct (sci p (m * p2 e) (p2 (- e))) as [v x].
  destruct Hsci as (x0 & V & Hx0 & Hle & Hx & _ & _ & Hv & _).
  destruct (stripped_digits p v ltac:(lia) Hv) as (Hf & Hne & _).
  destruct (print_digits_head p (dec_digits v) x Hf Hne) as (c & r & -> & Hc).
  destruct s; cbn [print_sign app]; eauto.
Qed.

Lemma shortest_head d :
  double_ok d -> is_finite d = true -> exists c r, shortest d = c :: r /\ (c = 45 \/ isdigit c = true).
Proof.
  destruct d as [| |s m e]; [done..|]. intros Hok _. unfold shortest. case_match; by apply sprintf_g_head.
Qed.
