(* ===== verification/MnlPrint.v ===== *)
(** libmnl/mnlmsg.c: the dump of messages for debugging.

    The functions return the text that they write to the file; a byte of a message that is
    outside of the buffer is a fault. *)
From Stdlib Require Import Strings.String.
From S2P Require Import Prelude CMonad MnlMsg MnlAttr Tlv TlvParse NfnlMsg CDouble CText.

Definition TAB : Z := 9.
Definition NL : Z := 10.
Definition ESC : Z := 27.

(** [%.010u], [%.05u], [%.2x]: at least as many digits. *)
Definition dec_n (n : nat) (z : Z) : list Z := pad_left 48 n (fmt_u z).
Definition hex_2 (z : Z) : list Z := pad_left 48 2 (fmt_x z).
Definition letter (b : bool) (c : string) : list Z := if b then text c else text "-".
Definition flag_in (flags f : Z) : bool := negb (Z.land flags f =? 0).

Definition rule : list Z := text "----------------" ++ [TAB] ++ text "------------------" ++ [NL].

Definition header_rows (len type flags seq pid : Z) : list Z :=
  rule ++
  text "|  " ++ dec_n 10 len ++ text "  |" ++ [TAB] ++ text "| message length |" ++ [NL] ++
  text "| " ++ dec_n 5 type ++ text " | " ++
    letter (flag_in flags NLM_F_REQUEST) "R" ++ letter (flag_in flags NLM_F_MULTI) "M" ++
    letter (flag_in flags NLM_F_ACK) "A" ++ letter (flag_in flags NLM_F_ECHO) "E" ++
    text " |" ++ [TAB] ++ text "|  type | flags  |" ++ [NL] ++
  text "|  " ++ dec_n 10 seq ++ text "  |" ++ [TAB] ++ text "| sequence number|" ++ [NL] ++
  text "|  " ++ dec_n 10 pid ++ text "  |" ++ [TAB] ++ text "|     port ID    |" ++ [NL] ++
  rule.

Definition mnl_nlmsg_fprintf_header (nlh : Z) : M (list Z) :=
  let! len := nlmsg_len nlh in
  let! type := nlmsg_type nlh in
  let! flags := nlmsg_flags nlh in
  let! seq := nlmsg_seq nlh in
  let! pid := nlmsg_pid nlh in
  ret (header_rows len type flags seq pid).

(** The four bytes of a row, in hexadecimal. *)
Definition word_row (w : list Z) : list Z :=
  text "| " ++ hex_2 (nth 0 w 0) ++ text " " ++ hex_2 (nth 1 w 0) ++ text " " ++ hex_2 (nth 2 w 0) ++ text " " ++
  hex_2 (nth 3 w 0) ++ text "  |" ++ [TAB].

(** [isprint(c) ? c : ' '] of a [char]: bytes above 127 are negative and not printable. *)
Definition shown (c : Z) : Z := if (32 <=? c) && (c <=? 126) then c else 32.

Definition control_row (w : list Z) : list Z := word_row w ++ text "|                |" ++ [NL].
Definition extra_row (w : list Z) : list Z := word_row w ++ text "|  extra header  |" ++ [NL].
Definition data_row (w : list Z) : list Z :=
  word_row w ++ text "|      data      |" ++ [TAB; 32; shown (nth 0 w 0); 32; shown (nth 1 w 0); 32; shown (nth 2 w 0); 32;
                                                   shown (nth 3 w 0); NL].
Definition color (c : string) (t : list Z) : list Z := [ESC] ++ text "[1;" ++ text c ++ text "m" ++ t ++ [ESC] ++ text "[0m".
Definition attr_row (len type : Z) : list Z :=
  text "|" ++ color "31" (dec_n 5 len) ++ text "|" ++
  color "32" (letter (flag_in type NLA_F_NESTED) "N" ++ letter (flag_in type NLA_F_NET_BYTEORDER) "B") ++ text "|" ++
  color "34" (dec_n 5 (Z.land type NLA_TYPE_MASK)) ++ text "|" ++ [TAB] ++ text "|len |flags| type|" ++ [NL].

(** [rem = NLA_ALIGN(attr->nla_len) - sizeof(struct nlattr)], an [int]. *)
Definition payload_rem (len : Z) : Z := sint 32 (Z.land (len + 4 - 1) (Z.lnot (4 - 1)) - 4).

(** The loop at byte [i] of the message. *)
Fixpoint payload_loop (fuel : nat) (nlh i extra_header_size rem : Z) : M (list Z) :=
  match fuel with
  | O => no_fuel
  | S fuel =>
      let! len := nlmsg_len nlh in
      if negb (i <? len) then ret [] else
      let! type := nlmsg_type nlh in
      let attr := nlh + i in
      let next := payload_loop fuel nlh (wrap 32 (i + 4)) in
      if type <? NLMSG_MIN_TYPE then
        let! b := load_bytes attr 4 in
        let! t := next extra_header_size rem in ret (control_row b ++ t)
      else if 0 <? extra_header_size then
        let! b := load_bytes attr 4 in
        let! t := next (wrap 64 (extra_header_size - 4)) rem in ret (extra_row b ++ t)
      else
      let! is_attr := (if rem =? 0 then let! ty := nla_type attr in ret (negb (Z.land ty NLA_TYPE_MASK =? 0)) else ret false) in
      if is_attr : bool then
        let! l := nla_len attr in
        let! ty := nla_type attr in
        let! t := next extra_header_size (if flag_in ty NLA_F_NESTED then rem else payload_rem l) in
        ret (attr_row l ty ++ t)
      else if 0 <? rem then
        let! b := load_bytes attr 4 in
        let! t := next extra_header_size (rem - 4) in ret (data_row b ++ t)
      else next extra_header_size rem
  end.

(** The number of rounds is at most the length of the message. *)
Definition mnl_nlmsg_fprintf_payload (nlh extra_header_size : Z) : M (list Z) :=
  let! len := nlmsg_len nlh in
  let! t := payload_loop (loop_fuel len) nlh sizeof_nlmsghdr extra_header_size 0 in
  ret (t ++ rule).

Fixpoint fprintf_loop (fuel : nat) (nlh len extra_header_size : Z) : M (list Z) :=
  match fuel with
  | O => no_fuel
  | S fuel =>
      let! ok := mnl_nlmsg_ok nlh len in
      if negb ok then ret [] else
      let! h := mnl_nlmsg_fprintf_header nlh in
      let! p := mnl_nlmsg_fprintf_payload nlh extra_header_size in
      let! (nlh, len) := mnl_nlmsg_next nlh len in
      let! t := fprintf_loop fuel nlh len extra_header_size in
      ret (h ++ p ++ t)
  end.

Definition mnl_nlmsg_fprintf (data datalen extra_header_size : Z) : M (list Z) :=
  let len := sint 32 datalen in
  fprintf_loop (loop_fuel len) data len extra_header_size.

(** * The rows of a message *)

(** The rows of [k] words from [o] on. *)
Definition rows (row : list Z -> list Z) (m : list Z) (o : Z) (k : nat) : list Z :=
  concat (map (fun i => row (slice (o + 4 * Z.of_nat i) 4 m)) (seq 0 k)).

Section Rows.
Context (m : list Z).

(** The rows of an attribute: its header and its padded payload, or the attributes in it. *)
Fixpoint dump_tlv (o : Z) (t : tlv) {struct t} : list Z :=
  match t with
  | Leaf ty d => attr_row (4 + zlen d) ty ++ rows data_row m (o + 4) (Z.to_nat (align4 (zlen d) / 4))
  | Nest ty l => attr_row (tlv_size t) (Z.lor NLA_F_NESTED ty) ++
      (fix go o l := match l with [] => [] | t :: l => dump_tlv o t ++ go (o + tlv_size t) l end) (o + 4) l
  end.
Fixpoint dump_tlvs (o : Z) (l : list tlv) {struct l} : list Z :=
  match l with [] => [] | t :: l => dump_tlv o t ++ dump_tlvs (o + tlv_size t) l end.
End Rows.

(** No attribute has the type 0, at any depth. *)
Fixpoint typed (t : tlv) : Prop :=
  match t with
  | Leaf ty _ => ty <> 0
  | Nest ty l => ty <> 0 /\ (fix go l := match l with [] => True | t :: l => typed t /\ go l end) l
  end.
Fixpoint all_typed (l : list tlv) : Prop := match l with [] => True | t :: l => typed t /\ all_typed l end.

Lemma dump_tlv_Nest m o ty l :
  dump_tlv m o (Nest ty l) = attr_row (4 + tlvs_size l) (Z.lor NLA_F_NESTED ty) ++ dump_tlvs m (o + 4) l.
Proof. reflexivity. Qed.
Lemma typed_Nest ty l : typed (Nest ty l) <-> ty <> 0 /\ all_typed l.
Proof. reflexivity. Qed.

Lemma rows_S row m o k : rows row m o (S k) = row (slice o 4 m) ++ rows row m (o + 4) k.
Proof.
  unfold rows. cbn [seq map concat]. replace (o + 4 * Z.of_nat 0) with o by lia. f_equal. f_equal.
  rewrite <- seq_shift, map_map. apply map_ext. intros i. do 2 f_equal. lia.
Qed.

Section Dump.
Context (w : world) (nlh : Z).
Let m := w_mem w.
Let len := rd 4 nlh m.
Context (Hnlh : 0 <= nlh) (Hhdr : nlh + 16 <= zlen m) (Hlen : len < 2 ^ 32 - 4) (Htype : NLMSG_MIN_TYPE <= rd 2 (nlh + 4) m).

(** The loop prints [t], whatever the fuel above the bytes left. *)
Definition prints (extra i rem : Z) (t : list Z) : Prop :=
  forall fuel, (Z.to_nat (len - i) < fuel)%nat -> payload_loop fuel nlh i extra rem w = Ok (t, w).

Lemma prints_end extra i rem : len <= i -> prints extra i rem [].
Proof.
  intros Hi [|fuel] Hf; [lia|]. cbn [payload_loop]. unfold bind, nlmsg_len, load32. rewrite load_ok by (fold m; lia). fold m len.
  by rewrite (proj2 (Z.ltb_ge i len)) by lia.
Qed.

(** The start of a round. *)
Lemma round_run fuel extra i rem :
  0 <= i < len ->
  payload_loop (S fuel) nlh i extra rem w =
    (let attr := nlh + i in
     let next := payload_loop fuel nlh (i + 4) in
     if 0 <? extra then
       let! b := load_bytes attr 4 in
       let! t := next (wrap 64 (extra - 4)) rem in ret (extra_row b ++ t)
     else
     let! is_attr := (if rem =? 0 then let! ty := nla_type attr in ret (negb (Z.land ty NLA_TYPE_MASK =? 0)) else ret false) in
     if is_attr : bool then
       let! l := nla_len attr in
       let! ty := nla_type attr in
       let! t := next extra (if flag_in ty NLA_F_NESTED then rem else payload_rem l) in
       ret (attr_row l ty ++ t)
     else if 0 <? rem then
       let! b := load_bytes attr 4 in
       let! t := next extra (rem - 4) in ret (data_row b ++ t)
     else next extra rem) w.
Proof.
  intros Hi. cbn [payload_loop]. unfold bind at 1, nlmsg_len, load32. rewrite load_ok by (fold m; lia). fold m len.
  rewrite (proj2 (Z.ltb_lt i len)) by lia. cbn [negb]. unfold bind at 1, nlmsg_type, load16. rewrite load_ok by (fold m; lia).
  fold m. rewrite (proj2 (Z.ltb_ge (rd 2 (nlh + 4) m) NLMSG_MIN_TYPE)) by lia. by rewrite (wrap_small 32 (i + 4)) by lia.
Qed.

Lemma word_run o : 0 <= o -> o + 4 <= zlen m -> load_bytes o 4 w = Ok (slice o 4 m, w).
Proof. intros. unfold load_bytes. fold m. by rewrite (proj2 (in_range_true o 4 m)) by lia. Qed.

Lemma prints_extra extra i rem t :
  0 <= i < len -> nlh + i + 4 <= zlen m -> 4 <= extra < 2 ^ 64 -> prints (extra - 4) (i + 4) rem t ->
  prints extra i rem (extra_row (slice (nlh + i) 4 m) ++ t).
Proof.
  intros Hi Hr He Ht [|fuel] Hf; [lia|]. rewrite round_run by done. cbn zeta. rewrite (proj2 (Z.ltb_lt 0 extra)) by lia.
  unfold bind at 1. rewrite word_run by lia. rewrite wrap_small by lia. unfold bind. by rewrite Ht by lia.
Qed.

Lemma prints_data i rem t :
  0 <= i < len -> nlh + i + 4 <= zlen m -> 0 < rem -> prints 0 (i + 4) (rem - 4) t ->
  prints 0 i rem (data_row (slice (nlh + i) 4 m) ++ t).
Proof.
  intros Hi Hr He Ht [|fuel] Hf; [lia|]. rewrite round_run by done. cbn zeta. change (0 <? 0) with false. cbn iota.
  rewrite (proj2 (Z.eqb_neq rem 0)), (proj2 (Z.ltb_lt 0 rem)) by lia. unfold bind at 1, ret at 1.
  unfold bind at 1. rewrite word_run by lia. unfold bind. by rewrite Ht by lia.
Qed.

Lemma prints_attr i t :
  0 <= i < len -> nlh + i + 4 <= zlen m ->
  let l := rd 2 (nlh + i) m in let ty := rd 2 (nlh + i + 2) m in
  Z.land ty NLA_TYPE_MASK <> 0 -> prints 0 (i + 4) (if flag_in ty NLA_F_NESTED then 0 else payload_rem l) t ->
  prints 0 i 0 (attr_row l ty ++ t).
Proof.
  intros Hi Hr l ty Hty Ht [|fuel] Hf; [lia|]. rewrite round_run by done. cbn zeta. change (0 <? 0) with false. change (0 =? 0) with true.
  cbn iota. unfold bind at 1 2, nla_type, nla_len, load16. rewrite load_ok by (fold m; lia). fold m ty. unfold ret at 1.
  rewrite (proj2 (Z.eqb_neq _ 0)) by done. cbn [negb]. unfold bind at 1. rewrite load_ok by (fold m; lia). fold m l.
  unfold bind at 1. rewrite load_ok by (fold m; lia). fold m ty. unfold bind. by rewrite Ht by lia.
Qed.

Lemma prints_extra_rows k extra i rem t :
  extra = 4 * Z.of_nat k -> extra < 2 ^ 64 -> 0 <= i -> i + extra <= len -> nlh + i + extra <= zlen m ->
  prints 0 (i + extra) rem t -> prints extra i rem (rows extra_row m (nlh + i) k ++ t).
Proof.
  revert extra i. induction k as [|k IH]; intros extra i He ? ? ? ? Ht.
  - cbn in He. subst extra. by rewrite Z.add_0_r in Ht.
  - rewrite rows_S, <- app_assoc. apply prints_extra; [lia..|]. rewrite <- Z.add_assoc. apply IH; [lia..|].
    by replace (i + 4 + (extra - 4)) with (i + extra) by lia.
Qed.

Lemma prints_data_rows k i t :
  0 <= i -> i + 4 * Z.of_nat k <= len -> nlh + i + 4 * Z.of_nat k <= zlen m -> prints 0 (i + 4 * Z.of_nat k) 0 t ->
  prints 0 i (4 * Z.of_nat k) (rows data_row m (nlh + i) k ++ t).
Proof.
  revert i. induction k as [|k IH]; intros i ? ? ? Ht; [by rewrite Z.add_0_r in Ht|].
  rewrite rows_S, <- app_assoc. apply prints_data; [lia..|]. rewrite <- Z.add_assoc.
  replace (4 * Z.of_nat (S k) - 4) with (4 * Z.of_nat k) by lia. apply IH; [lia..|].
  by replace (i + 4 + 4 * Z.of_nat k) with (i + 4 * Z.of_nat (S k)) by lia.
Qed.

Lemma flag_nested_leaf ty : 0 <= ty < 2 ^ 14 -> flag_in ty NLA_F_NESTED = false.
Proof.
  intros H. unfold flag_in. apply negb_false_iff, Z.eqb_eq. apply Z.bits_inj'. intros n Hn. rewrite Z.land_spec, Z.bits_0.
  change NLA_F_NESTED with (2 ^ 15). rewrite Z.pow2_bits_eqb by lia. destruct (Z.eqb_spec 15 n) as [<-|]; [|by rewrite andb_false_r].
  rewrite (Z.bits_above_log2 ty 15); [done|lia|]. destruct (decide (ty = 0)) as [->|]; [done|].
  apply Z.log2_lt_pow2; lia.
Qed.

Lemma flag_nested_nest ty : flag_in (Z.lor NLA_F_NESTED ty) NLA_F_NESTED = true.
Proof.
  unfold flag_in. apply negb_true_iff, Z.eqb_neq. intros E. assert (Z.testbit (Z.land (Z.lor NLA_F_NESTED ty) NLA_F_NESTED) 15 = true) as Ht
    by (rewrite Z.land_spec, Z.lor_spec; done).
  by rewrite E in Ht.
Qed.

Lemma payload_rem_leaf n : 0 <= n < 2 ^ 16 -> payload_rem (4 + n) = 4 * Z.of_nat (Z.to_nat (align4 n / 4)).
Proof.
  intros H. unfold payload_rem. change (Z.land (4 + n + 4 - 1) (Z.lnot (4 - 1))) with (NFA_ALIGN (4 + n)).
  rewrite NFA_ALIGN_align4, align4_pad. pose proof (align4_spec n) as [? Hm]. rewrite sint_small by lia.
  rewrite Z2Nat.id by (apply Z.div_pos; lia). pose proof (Z.div_mod (align4 n) 4). lia.
Qed.

Lemma prints_forest :
  (forall t i rest, attr_at m (nlh + i) t -> typed t -> 0 <= i -> i + tlv_size t <= len -> prints 0 (i + tlv_size t) 0 rest ->
     prints 0 i 0 (dump_tlv m (nlh + i) t ++ rest)) /\
  (forall l i rest, attrs_at m (nlh + i) l -> all_typed l -> 0 <= i -> i + tlvs_size l <= len -> prints 0 (i + tlvs_size l) 0 rest ->
     prints 0 i 0 (dump_tlvs m (nlh + i) l ++ rest)).
Proof.
  apply tlv_forest_ind.
  - intros ty d i rest (_ & Hl & Hty & _ & Hroom & Hmax & Hrange) Hnz Hi Hfit Hrest. cbn [dump_tlv typed tlv_size] in *.
    rewrite align4_pad in *. pose proof (align4_spec (zlen d)) as [? Hm4]. pose proof (zlen_nonneg d). rewrite <- app_assoc, <- Hl, <- Hty.
    apply prints_attr; [lia|lia|rewrite Hty, type_mask by done; done|]. rewrite Hty, flag_nested_leaf, Hl, payload_rem_leaf by (done || lia).
    rewrite <- Z.add_assoc. assert (4 * Z.of_nat (Z.to_nat (align4 (zlen d) / 4)) = align4 (zlen d)) as E.
    { rewrite Z2Nat.id by (apply Z.div_pos; lia). pose proof (Z.div_mod (align4 (zlen d)) 4). lia. }
    apply prints_data_rows; [lia|lia|lia|]. rewrite E. by replace (i + 4 + align4 (zlen d)) with (i + (4 + align4 (zlen d))) by lia.
  - intros ty l IH i rest Hat [Hnz Hl]%typed_Nest Hi Hfit Hrest. rewrite attr_at_Nest in Hat. destruct Hat as (_ & Hlen' & Hty & _ & Hrange & Hats).
    rewrite tlv_size_Nest in *. rewrite dump_tlv_Nest, <- app_assoc, <- Hlen', <- Hty.
    pose proof (attrs_at_bound _ _ _ Hats). pose proof (tlvs_size_nonneg l). apply prints_attr; [lia|lia|rewrite Hty, type_mask_nested by done; done|].
    rewrite Hty, flag_nested_nest, <- Z.add_assoc. apply IH; [by rewrite Z.add_assoc|done|lia|lia|].
    by replace (i + 4 + tlvs_size l) with (i + (4 + tlvs_size l)) by lia.
  - intros i rest _ _ _ _ Hrest. cbn in *. by rewrite Z.add_0_r in Hrest.
  - intros t l IHt IHl i rest [Ht Hl] [Hyt Hyl] Hi Hfit Hrest. cbn [dump_tlvs tlvs_size] in *. rewrite <- app_assoc.
    pose proof (tlv_size_ge t). pose proof (tlvs_size_nonneg l).
    apply IHt; [done|done|done|lia|]. rewrite <- Z.add_assoc. apply IHl; [by rewrite Z.add_assoc|done|lia|lia|].
    by rewrite <- Z.add_assoc.
Qed.
End Dump.

(** * Messages *)

(** A message at [nlh] with an extra header of [extra] bytes and the attributes [ts]. *)
Record printable (m : list Z) (nlh extra : Z) (ts : list tlv) : Prop := {
  pm_nlh : 0 <= nlh;
  pm_len : rd 4 nlh m = 16 + extra + tlvs_size ts;
  pm_max : 16 + extra + tlvs_size ts < 2 ^ 31 - 4;
  pm_type : NLMSG_MIN_TYPE <= rd 2 (nlh + 4) m;
  pm_attrs : attrs_at m (nlh + 16 + extra) ts;
  pm_typed : all_typed ts
}.

Definition message_rows (m : list Z) (nlh extra : Z) (ts : list tlv) : list Z :=
  header_rows (rd 4 nlh m) (rd 2 (nlh + 4) m) (rd 2 (nlh + 6) m) (rd 4 (nlh + 8) m) (rd 4 (nlh + 12) m) ++
  (rows extra_row m (nlh + 16) (Z.to_nat (extra / 4)) ++ dump_tlvs m (nlh + 16 + extra) ts) ++ rule.

(** Messages one after the other up to [e]. *)
Fixpoint printable_all (m : list Z) (extra o e : Z) (tss : list (list tlv)) : Prop :=
  match tss with
  | [] => o = e
  | ts :: tss => printable m o extra ts /\ printable_all m extra (o + (16 + extra + tlvs_size ts)) e tss
  end.
Fixpoint messages_rows (m : list Z) (extra o : Z) (tss : list (list tlv)) : list Z :=
  match tss with
  | [] => []
  | ts :: tss => message_rows m o extra ts ++ messages_rows m extra (o + (16 + extra + tlvs_size ts)) tss
  end.

Lemma message_run nlh extra ts w :
  printable (w_mem w) nlh extra ts -> 0 <= extra -> extra mod 4 = 0 ->
  (let! h := mnl_nlmsg_fprintf_header nlh in let! p := mnl_nlmsg_fprintf_payload nlh extra in ret (h ++ p)) w
  = Ok (message_rows (w_mem w) nlh extra ts, w).
Proof.
  intros [? Hlen ? ? Hats ?] He Hm4. pose proof (attrs_at_bound _ _ _ Hats). pose proof (tlvs_size_nonneg ts).
  assert (mnl_nlmsg_fprintf_header nlh w = Ok (header_rows (rd 4 nlh (w_mem w)) (rd 2 (nlh + 4) (w_mem w)) (rd 2 (nlh + 6) (w_mem w))
            (rd 4 (nlh + 8) (w_mem w)) (rd 4 (nlh + 12) (w_mem w)), w)) as Hh.
  { unfold mnl_nlmsg_fprintf_header, nlmsg_len, nlmsg_type, nlmsg_flags, nlmsg_seq, nlmsg_pid, load16, load32, bind.
    by rewrite !load_ok by lia. }
  assert (prints w nlh extra 16 0 (rows extra_row (w_mem w) (nlh + 16) (Z.to_nat (extra / 4)) ++ dump_tlvs (w_mem w) (nlh + 16 + extra) ts)) as Hp.
  { pose proof (Z.div_mod extra 4). pose proof (Z.div_pos extra 4).
    apply prints_extra_rows; try done; try lia.
    rewrite <- (app_nil_r (dump_tlvs _ _ _)), <- Z.add_assoc. apply prints_forest; try done; try lia; [by rewrite Z.add_assoc|].
    apply prints_end; lia. }
  unfold bind at 1. rewrite Hh. unfold mnl_nlmsg_fprintf_payload, bind, nlmsg_len, load32. rewrite load_ok by lia.
  rewrite Hp; [done|]. unfold loop_fuel, sizeof_nlmsghdr. lia.
Qed.

Lemma fprintf_loop_run fuel extra o e tss w :
  printable_all (w_mem w) extra o e tss -> 0 <= extra -> extra mod 4 = 0 -> e - o < 2 ^ 31 -> (Z.to_nat (e - o) < fuel)%nat ->
  fprintf_loop fuel o (e - o) extra w = Ok (messages_rows (w_mem w) extra o tss, w).
Proof.
  intros Hall He Hm4. revert fuel o Hall. induction tss as [|ts tss IH]; intros [|fuel] o Hall Hmax Hf; try lia; cbn [fprintf_loop messages_rows].
  - cbn in Hall. subst. replace (e - e) with 0 by lia. done.
  - destruct Hall as [Hp Hall]. pose proof Hp as [Ho Hlen ? ? Hats _]. pose proof (attrs_at_bound _ _ _ Hats).
    pose proof (tlvs_size_nonneg ts). pose proof (tlvs_size_mod ts) as Hmod. set (n := 16 + extra + tlvs_size ts) in *.
    assert (o + n <= e) as Hfit.
    { clear - Hall He. revert Hall. generalize (o + n). induction tss as [|ts' tss IH]; intros p Hall; [cbn in Hall; lia|].
      destruct Hall as [_ Hall]. apply IH in Hall. pose proof (tlvs_size_nonneg ts'). lia. }
    assert (MNL_ALIGN 32 n = n) as Hal.
    { rewrite MNL_ALIGN_align4 by lia. apply align4_id. pose proof (Z.div_mod extra 4). pose proof (Z.div_mod (tlvs_size ts) 4).
      replace n with ((4 + extra / 4 + tlvs_size ts / 4) * 4) by lia. apply Z.mod_mul. lia. }
    unfold bind at 1, mnl_nlmsg_ok. change sizeof_nlmsghdr with 16. rewrite (proj2 (Z.leb_le 16 (e - o))) by lia.
    unfold bind at 1, nlmsg_len, load32. rewrite load_ok by lia. rewrite Hlen. unfold ret at 1.
    rewrite (proj2 (Z.leb_le 16 n)), sint_small, (proj2 (Z.leb_le n (e - o))) by lia. cbn [andb negb].
    pose proof (message_run o extra ts w Hp He Hm4) as Hrun. unfold bind at 1 in Hrun. unfold bind at 1.
    destruct (mnl_nlmsg_fprintf_header o w) as [[h w1]| | |]; try done. unfold bind at 1 in Hrun. unfold bind at 1.
    destruct (mnl_nlmsg_fprintf_payload o extra w1) as [[p w2]| | |]; try done. unfold ret in Hrun. injection Hrun as Hrow ->.
    unfold mnl_nlmsg_next, bind, nlmsg_len, load32. rewrite load_ok by lia. rewrite Hlen, Hal. unfold ret at 1.
    rewrite sint_small by lia. replace (e - o - n) with (e - (o + n)) by lia. rewrite IH by (done || lia). unfold ret.
    by rewrite app_assoc, Hrow.
Qed.

(** C20: the dump of a buffer of messages, each with the same extra header and attributes nested
    in any way, prints for each message its header, the words of the extra header, for every
    attribute a row with its length, flags and type and the words of its payload, and a rule;
    nothing outside of the messages is read and every loop ends. *)
Theorem mnl_nlmsg_fprintf_text data datalen extra tss w :
  printable_all (w_mem w) extra data (data + datalen) tss -> 0 <= extra -> extra mod 4 = 0 -> 0 <= datalen < 2 ^ 31 ->
  mnl_nlmsg_fprintf data datalen extra w = Ok (messages_rows (w_mem w) extra data tss, w).
Proof.
  intros Hall He Hm Hd. unfold mnl_nlmsg_fprintf. rewrite sint_small by lia. replace datalen with (data + datalen - data) at 2 by lia.
  apply fprintf_loop_run; [done..|lia|]. unfold loop_fuel. lia.
Qed.

(** A message whose length is not a multiple of four is printed with the bytes after it: at the
    end of the buffer they are read outside of it. *)
Definition short_message : world := mk_world (le_enc 4 17 ++ le_enc 2 2 ++ replicate 11 0) 0 [].
Lemma fprintf_overread : mnl_nlmsg_fprintf 0 17 0 short_message = Ub.
Proof. vm_compute. reflexivity. Qed.

(** The message of the documentation: extra header, one attribute. *)
Definition link_message : list Z :=
  le_enc 4 32 ++ le_enc 2 16 ++ le_enc 2 5 ++ le_enc 4 1289148991 ++ le_enc 4 0 ++ [1; 0; 0; 0; 1; 0; 0; 0] ++
  le_enc 2 8 ++ le_enc 2 3 ++ text "eth0".
Definition link_world : world := mk_world (link_message ++ link_message) 0 [].

Lemma mnl_nlmsg_fprintf_text_witness :
  mnl_nlmsg_fprintf 0 64 8 link_world =
    Ok (messages_rows (w_mem link_world) 8 0 [[Leaf 3 (text "eth0")]; [Leaf 3 (text "eth0")]], link_world).
Proof.
  apply (mnl_nlmsg_fprintf_text 0 64 8 [[Leaf 3 (text "eth0")]; [Leaf 3 (text "eth0")]] link_world); [|lia|reflexivity|lia].
  repeat split; try reflexivity; vm_compute; intuition congruence.
Defined.
