(* ===== verification/CtSnprintf.v ===== *)
(** libnetfilter_conntrack/snprintf.c, snprintf_default.c and their entry points in
    api.c: the text of a conntrack object.

    A function that prints gets the buffer, the offset it starts at and the bytes
    that are left there, and returns the characters it would print and the buffer.
    The clock and [ctime], which depends on the time zone, are a parameter. *)
From Stdlib Require Import Strings.String.
From S2P Require Import Prelude CMonad CDouble CText Bitops CtObject CtSetter CtGetter CtCopy CtApi Ctnl CtCompare CtFilter CtLabels CtQuery.

(** * Names *)

Definition AF_MAX : Z := 46.
Definition TCP_CONNTRACK_NONE : Z := 0.
Definition TCP_CONNTRACK_MAX : Z := 10.
Definition IPS_SEEN_REPLY : Z := Z.shiftl 1 1.
Definition IPS_ASSURED : Z := Z.shiftl 1 2.
Definition IPS_OFFLOAD : Z := Z.shiftl 1 14.
Definition NFCT_OF_SHOW_LAYER3 : Z := Z.shiftl 1 0.
Definition NFCT_OF_TIME : Z := Z.shiftl 1 1.
Definition NFCT_OF_ID : Z := Z.shiftl 1 2.
Definition NFCT_OF_TIMESTAMP : Z := Z.shiftl 1 3.
Definition NFCT_O_DEFAULT : Z := 0.
Definition NFCT_O_XML : Z := 1.
Definition NSEC_PER_SEC : Z := 1000000000.
Definition INET6_ADDRSTRLEN : Z := 46.

(** The name of a family; the table ends at [AF_MAX]. *)
Definition l3proto2str (i : Z) : M (option (list Z)) :=
  if AF_MAX <=? i then ub else
  ret (if i =? AF_INET then Some (text "ipv4") else if i =? AF_INET6 then Some (text "ipv6") else None).

Definition proto2str (i : Z) : M (option (list Z)) :=
  if IPPROTO_MAX <=? i then ub else
  ret (if i =? IPPROTO_TCP then Some (text "tcp")
       else if i =? IPPROTO_UDP then Some (text "udp")
       else if i =? IPPROTO_UDPLITE then Some (text "udplite")
       else if i =? IPPROTO_ICMP then Some (text "icmp")
       else if i =? IPPROTO_ICMPV6 then Some (text "icmpv6")
       else if i =? IPPROTO_SCTP then Some (text "sctp")
       else if i =? IPPROTO_GRE then Some (text "gre")
       else if i =? IPPROTO_DCCP then Some (text "dccp")
       else None).

Definition states : list (list Z) :=
  [text "NONE"; text "SYN_SENT"; text "SYN_RECV"; text "ESTABLISHED"; text "FIN_WAIT"; text "CLOSE_WAIT";
   text "LAST_ACK"; text "TIME_WAIT"; text "CLOSE"; text "SYN_SENT2"].

(** * Addresses as text *)

(** [inet_ntoa] on the four bytes of an address in memory order. *)
Definition inet_ntoa (b : list Z) : list Z :=
  match b with
  | [b0; b1; b2; b3] => fmt_u b0 ++ text "." ++ fmt_u b1 ++ text "." ++ fmt_u b2 ++ text "." ++ fmt_u b3
  | _ => []
  end.

(** The 16-bit groups of an IPv6 address. *)
Fixpoint groups (b : list Z) : list Z :=
  match b with x :: y :: b => 256 * x + y :: groups b | _ => [] end.

(** The first of the longest runs of zero groups as its start and length, [best];
    [cur] is the run that ends before group [i]. *)
Fixpoint zero_run (i : Z) (l : list Z) (cur best : Z * Z) : Z * Z :=
  let closed := if (0 <? snd cur) && (snd best <? snd cur) then cur else best in
  match l with
  | [] => if snd closed <? 2 then (-1, 0) else closed
  | g :: l => if g =? 0 then zero_run (i + 1) l (if 0 <? snd cur then (fst cur, snd cur + 1) else (i, 1)) best
              else zero_run (i + 1) l (-1, 0) closed
  end.

(** The groups from the [i]th on; [v4] is the text of the last four bytes. *)
Fixpoint print_groups (base len : Z) (embedded : bool) (v4 : list Z) (i : Z) (l : list Z) : list Z :=
  match l with
  | [] => []
  | g :: l =>
      if (base <=? i) && (i <? base + len) && (0 <=? base) then
        (if i =? base then [58] else []) ++ print_groups base len embedded v4 (i + 1) l
      else
        (if i =? 0 then [] else [58]) ++
        (if (i =? 6) && embedded then v4 else fmt_x g ++ print_groups base len embedded v4 (i + 1) l)
  end.

(** [inet_ntop] on the 16 bytes of an IPv6 address. *)
Definition inet_ntop6 (b : list Z) : list Z :=
  let l := groups b in
  let '(base, len) := zero_run 0 l (-1, 0) (-1, 0) in
  let embedded := (base =? 0) && ((len =? 6) || ((len =? 5) && (default 0 (l !! 5%nat) =? 0xffff))) in
  print_groups base len embedded (inet_ntoa (drop 12 b)) 0 l ++
  (if (0 <=? base) && (base + len =? 8) then [58] else []).

(** * The cursor *)

(** [size] and [offset] are [int], [len] is unsigned; the buffer is with them. *)
Record cursor := mk_cursor { cu_buf : list Z; cu_size : Z; cu_len : Z; cu_offset : Z }.

(** [BUFFER_SIZE(ret, size, len, offset)]; the comparison is unsigned. *)
Definition BUFFER_SIZE (ret : Z) (c : cursor) : cursor :=
  let r := if cu_len c <? wrap 32 ret then sint 32 (cu_len c) else ret in
  mk_cursor (cu_buf c) (sint 32 (cu_size c + ret)) (wrap 32 (cu_len c - r)) (sint 32 (cu_offset c + r)).

Definition printer : Type := list Z -> Z -> Z -> M (Z * list Z).

(** [ret = f(buf + offset, len); BUFFER_SIZE(ret, size, len, offset)], with [base]
    the place of the buffer that the calling function was given. *)
Definition print_part (base : Z) (f : printer) (c : cursor) : M cursor :=
  let! (r, buf) := f (cu_buf c) (base + cu_offset c) (cu_len c) in
  ret (BUFFER_SIZE r (mk_cursor buf (cu_size c) (cu_len c) (cu_offset c))).

(** A sequence of such steps, each under its condition. *)
Fixpoint print_steps (base : Z) (l : list (bool * printer)) (c : cursor) : M cursor :=
  match l with
  | [] => ret c
  | (b, f) :: l => let! c := (if b : bool then print_part base f c else ret c) in print_steps base l c
  end.

Definition start (buf : list Z) (len : Z) : cursor := mk_cursor buf 0 len 0.

(** [snprintf(buf, len, ...)] of a text. *)
Definition out (t : list Z) : printer := fun buf o len => snprintf buf o len t.

(** No text. *)
Definition nothing : printer := fun buf _ _ => ret (0, buf).

(** * The parts of the text *)

Section Printers.
(** [time(NULL)] and [ctime]. *)
Record clock := mk_clock { ck_time : Z; ck_ctime : Z -> list Z }.
Context (clk : clock).

Definition __snprintf_l3protocol (ct : nf_conntrack) : printer := fun buf o len =>
  let! name := l3proto2str (tp_l3protonum (ct_orig ct)) in
  out (pad_right 32 8 (default (text "unknown") name) ++ text " " ++ fmt_u (tp_l3protonum (ct_orig ct)) ++ text " ")
    buf o len.

Definition __snprintf_protocol (ct : nf_conntrack) : printer := fun buf o len =>
  let! name := proto2str (tp_protonum (ct_orig ct)) in
  out (pad_right 32 8 (default (text "unknown") name) ++ text " " ++ fmt_u (tp_protonum (ct_orig ct)) ++ text " ")
    buf o len.

Definition __snprintf_timeout (ct : nf_conntrack) : printer := out (fmt_u (ct_timeout ct) ++ text " ").

(** The name of the TCP state. *)
Definition tcp_state_name (ct : nf_conntrack) : list Z :=
  let s := u_get 1 tcp_state_off (ct_protoinfo ct) in
  default [] (states !! Z.to_nat (if s <? TCP_CONNTRACK_MAX then s else TCP_CONNTRACK_NONE)).

Definition __snprintf_protoinfo (ct : nf_conntrack) : printer := out (tcp_state_name ct ++ text " ").

Definition __snprintf_address_ipv4 (t : __nfct_tuple) (src_tag dst_tag : list Z) : printer := fun buf o len =>
  let! c := print_steps o
    [(true, out (src_tag ++ text "=" ++ inet_ntoa (take 4 (tp_src t)) ++ text " "));
     (true, out (dst_tag ++ text "=" ++ inet_ntoa (take 4 (tp_dst t)) ++ text " "))] (start buf len) in
  ret (cu_size c, cu_buf c).

(** The second [snprintf] gets [len - size] although [len] was reduced already. *)
Definition __snprintf_address_ipv6 (t : __nfct_tuple) (src_tag dst_tag : list Z) : printer := fun buf o len =>
  let src := inet_ntop6 (tp_src t) in
  if INET6_ADDRSTRLEN <? zlen src + 1 then ret (-1, buf) else
  let! c := print_part o (out (src_tag ++ text "=" ++ src ++ text " ")) (start buf len) in
  let dst := inet_ntop6 (tp_dst t) in
  if INET6_ADDRSTRLEN <? zlen dst + 1 then ret (-1, cu_buf c) else
  let! (r, buf) := out (dst_tag ++ text "=" ++ dst ++ text " ")
                       (cu_buf c) (o + cu_offset c) (wrap 32 (cu_len c - cu_size c)) in
  let c := BUFFER_SIZE r (mk_cursor buf (cu_size c) (cu_len c) (cu_offset c)) in
  ret (cu_size c, cu_buf c).

Definition __snprintf_address (t : __nfct_tuple) (src_tag dst_tag : list Z) : printer :=
  if tp_l3protonum t =? AF_INET then __snprintf_address_ipv4 t src_tag dst_tag
  else if tp_l3protonum t =? AF_INET6 then __snprintf_address_ipv6 t src_tag dst_tag
  else nothing.

Definition __snprintf_proto (t : __nfct_tuple) : printer :=
  let p := tp_protonum t in
  if (p =? IPPROTO_TCP) || (p =? IPPROTO_UDP) || (p =? IPPROTO_UDPLITE) || (p =? IPPROTO_SCTP) || (p =? IPPROTO_DCCP)
  then out (text "sport=" ++ fmt_u (ntohs (tp_l4src t)) ++ text " dport=" ++ fmt_u (ntohs (l4dst_all (tp_l4dst t))) ++ text " ")
  else if p =? IPPROTO_GRE
  then out (text "srckey=0x" ++ fmt_x (ntohs (tp_l4src t)) ++ text " dstkey=0x" ++ fmt_x (ntohs (l4dst_all (tp_l4dst t))) ++ text " ")
  else if (p =? IPPROTO_ICMP) || (p =? IPPROTO_ICMPV6)
  then out (text "type=" ++ fmt_d (icmp_type (tp_l4dst t)) ++ text " code=" ++ fmt_d (icmp_code (tp_l4dst t)) ++
            text " id=" ++ fmt_d (ntohs (tp_l4src t)) ++ text " ")
  else nothing.

Definition __snprintf_tuple_zone (pfx : list Z) (t : __nfct_tuple) : printer :=
  out (text "zone-" ++ pfx ++ text "=" ++ fmt_u (tp_zone t) ++ text " ").

Definition __snprintf_status_assured (ct : nf_conntrack) : printer :=
  if negb (Z.land (ct_status ct) IPS_OFFLOAD =? 0) then out (text "[OFFLOAD] ")
  else if negb (Z.land (ct_status ct) IPS_ASSURED =? 0) then out (text "[ASSURED] ")
  else nothing.

Definition __snprintf_status_not_seen_reply (ct : nf_conntrack) : printer :=
  if Z.land (ct_status ct) IPS_SEEN_REPLY =? 0 then out (text "[UNREPLIED] ") else nothing.

Definition __snprintf_counters (ct : nf_conntrack) (dir : nfct_dir) : printer :=
  let c := dget dir (ct_counters ct) in
  out (text "packets=" ++ fmt_u (ctr_packets c) ++ text " bytes=" ++ fmt_u (ctr_bytes c) ++ text " ").

Definition __snprintf_mark (ct : nf_conntrack) : printer := out (text "mark=" ++ fmt_u (ct_mark ct) ++ text " ").
Definition __snprintf_secmark (ct : nf_conntrack) : printer :=
  out (text "secmark=" ++ fmt_u (ct_secmark ct) ++ text " ").
Definition __snprintf_use (ct : nf_conntrack) : printer := out (text "use=" ++ fmt_u (ct_use ct) ++ text " ").
Definition __snprintf_id (ct : nf_conntrack) : printer := out (text "id=" ++ fmt_u (ct_id ct) ++ text " ").
Definition __snprintf_zone (ct : nf_conntrack) : printer := out (text "zone=" ++ fmt_u (ct_zone ct) ++ text " ").

(** A string without a terminator, or a null pointer, is a fault. *)
Definition out_string (s : option (list Z)) (k : list Z -> list Z) : printer := fun buf o len =>
  match s with
  | Some l => match cstring l with Some _ => out (k (c_string l)) buf o len | None => ub end
  | None => ub
  end.

Definition __snprintf_secctx (ct : nf_conntrack) : printer :=
  out_string (ct_secctx ct) (fun t => text "secctx=" ++ t ++ text " ").

(** The text of [ctime] without its line end. *)
Definition out_ctime (t : Z) (k : list Z -> list Z) : printer := fun buf o len =>
  match ck_ctime clk t with [] => ub | tmp => out (k (removelast tmp)) buf o len end.

Definition __snprintf_timestamp_start (ct : nf_conntrack) : printer :=
  out_ctime (ts_start (ct_timestamp ct) / NSEC_PER_SEC) (fun t => text "[start=" ++ t ++ text "] ").
Definition __snprintf_timestamp_stop (ct : nf_conntrack) : printer :=
  out_ctime (ts_stop (ct_timestamp ct) / NSEC_PER_SEC) (fun t => text "[stop=" ++ t ++ text "] ").

Definition __snprintf_timestamp_delta (ct : nf_conntrack) : printer :=
  let stop := if ts_stop (ct_timestamp ct) =? 0 then ck_time clk else ts_stop (ct_timestamp ct) / NSEC_PER_SEC in
  let delta_time := stop - ts_start (ct_timestamp ct) / NSEC_PER_SEC in
  out (text "delta-time=" ++ fmt_u (wrap 64 delta_time) ++ text " ").

Definition __snprintf_helper_name (ct : nf_conntrack) : printer :=
  out_string (Some (ct_helper_name ct)) (fun t => text "helper=" ++ t ++ text " ").

(** The loop over the bits from [i] on, [n] of them; it ends when the buffer is full. *)
Fixpoint connlabels_loop (base : Z) (map : nfct_labelmap) (b : nfct_bitmask) (n : nat) (i : Z) (c : cursor) : M cursor :=
  match n with
  | O => ret c
  | S n =>
      if cu_len c =? 0 then ret c else
      let! present := nfct_bitmask_test_bit b i in
      let! c := (if negb present then ret c else
                 match __labelmap_get_name map i with
                 | None | Some [] => ret c
                 | Some name => print_part base (out (name ++ text ",")) c
                 end) in
      connlabels_loop base map b n (i + 1) c
  end.

Definition __snprintf_connlabels (map : nfct_labelmap) (b : nfct_bitmask) : printer := fun buf o len =>
  let! c := connlabels_loop o map b (Z.to_nat (nfct_bitmask_maxbit b + 1)) 0 (start buf len) in
  ret (cu_size c, cu_buf c).

Definition __snprintf_clabels (ct : nf_conntrack) (map : nfct_labelmap) : printer := fun buf o len =>
  match ct_connlabels ct with
  | None => ret (0, buf)
  | Some b =>
      let! c := print_steps o [(true, out (text "labels=")); (true, __snprintf_connlabels map b)] (start buf len) in
      let c := mk_cursor (cu_buf c) (cu_size c - 1) (cu_len c) (cu_offset c - 1) in
      let! c := print_part o (out (text " ")) c in
      ret (cu_size c, cu_buf c)
  end.

(** The kind of event in front. *)
Definition out_event (msg_type : Z) : printer :=
  if msg_type =? NFCT_T_NEW then out (pad_left 32 9 (text "[NEW]") ++ text " ")
  else if msg_type =? NFCT_T_UPDATE then out (pad_left 32 9 (text "[UPDATE]") ++ text " ")
  else if msg_type =? NFCT_T_DESTROY then out (pad_left 32 9 (text "[DESTROY]") ++ text " ")
  else nothing.

Definition flag_set (flags f : Z) : bool := negb (Z.land flags f =? 0).

(** The steps of [__snprintf_conntrack_default] in order. *)
Definition default_steps (ct : nf_conntrack) (msg_type flags : Z) (map : option nfct_labelmap) : list (bool * printer) :=
  let has a := attr_is_set a ct in
  [(true, out_event msg_type);
   (flag_set flags NFCT_OF_SHOW_LAYER3, __snprintf_l3protocol ct);
   (true, __snprintf_protocol ct);
   (has ATTR_TIMEOUT, __snprintf_timeout ct);
   (has ATTR_TCP_STATE, __snprintf_protoinfo ct);
   (true, __snprintf_address (ct_orig ct) (text "src") (text "dst"));
   (true, __snprintf_proto (ct_orig ct));
   (has ATTR_ORIG_ZONE, __snprintf_tuple_zone (text "orig") (ct_orig ct));
   (has ATTR_ORIG_COUNTER_PACKETS && has ATTR_ORIG_COUNTER_BYTES, __snprintf_counters ct DIR_ORIG);
   (has ATTR_STATUS, __snprintf_status_not_seen_reply ct);
   (true, __snprintf_address (ct_repl ct) (text "src") (text "dst"));
   (true, __snprintf_proto (ct_repl ct));
   (has ATTR_REPL_ZONE, __snprintf_tuple_zone (text "reply") (ct_repl ct));
   (has ATTR_REPL_COUNTER_PACKETS && has ATTR_REPL_COUNTER_BYTES, __snprintf_counters ct DIR_REPL);
   (has ATTR_STATUS, __snprintf_status_assured ct);
   (has ATTR_MARK, __snprintf_mark ct);
   (has ATTR_SECMARK, __snprintf_secmark ct);
   (has ATTR_SECCTX, __snprintf_secctx ct);
   (has ATTR_ZONE, __snprintf_zone ct);
   (has ATTR_TIMESTAMP_START, __snprintf_timestamp_delta ct);
   (flag_set flags NFCT_OF_TIMESTAMP && has ATTR_TIMESTAMP_START, __snprintf_timestamp_start ct);
   (flag_set flags NFCT_OF_TIMESTAMP && has ATTR_TIMESTAMP_STOP, __snprintf_timestamp_stop ct);
   (has ATTR_HELPER_NAME, __snprintf_helper_name ct);
   (has ATTR_USE, __snprintf_use ct);
   (flag_set flags NFCT_OF_ID && has ATTR_ID, __snprintf_id ct);
   (bool_decide (is_Some map) && has ATTR_CONNLABELS,
    match map with Some m => __snprintf_clabels ct m | None => nothing end)].

Definition __snprintf_conntrack_default (ct : nf_conntrack) (msg_type flags : Z) (map : option nfct_labelmap) : printer :=
  fun buf o len =>
    let! c := print_steps o (default_steps ct msg_type flags map) (start buf len) in
    ret (sint 32 (cu_size c - 1), cu_buf c).

(** [buf[i] = 0]. *)
Definition terminate (buf : list Z) (i : Z) : M (list Z) :=
  if in_range i 1 buf then ret (splice i [0] buf) else ub.

(** [size + 1 > len] compares unsigned integers; [msg_output] is not looked at. *)
Definition __snprintf_conntrack (buf : list Z) (len : Z) (ct : nf_conntrack) (msg_type msg_output flags : Z)
    (map : option nfct_labelmap) : M (Z * list Z) :=
  let! (size, buf) := __snprintf_conntrack_default ct msg_type flags map buf 0 len in
  let! buf := terminate buf (if len <? wrap 32 (size + 1) then wrap 32 (len - 1) else size) in
  ret (size, buf).

Definition nfct_snprintf (buf : list Z) (size : Z) (ct : nf_conntrack) (msg_type out_type flags : Z) : M (Z * list Z) :=
  if negb (0 <? size) then exit else __snprintf_conntrack buf size ct msg_type out_type flags None.

Definition nfct_snprintf_labels (buf : list Z) (size : Z) (ct : nf_conntrack) (msg_type out_type flags : Z)
    (map : option nfct_labelmap) : M (Z * list Z) :=
  __snprintf_conntrack buf size ct msg_type out_type flags map.
End Printers.
