(* ===== verification/CtSnprintfProps.v ===== *)
(** The text of a conntrack object: which text [nfct_snprintf] prints, that it is
    cut like the text of one [snprintf], and where the code departs from that. *)
From Stdlib Require Import Strings.String.
From S2P Require Import Prelude CMonad CDouble CDoubleProps CText Bitops CtObject CtSetter CtGetter CtCopy CtApi Ctnl CtCompare CtFilter CtLabels CtBuildProps CtQuery CtSnprintf.

(** * Printers that print a text *)

(** The room a printer asks for: none, or its text and 64 bytes ([roomy]). *)
Definition need (roomy : bool) (t : list Z) : Z := if roomy then zlen t + 64 else 0.

(** [f] prints [t], cut to the room it is given. *)
Definition prints (roomy : bool) (f : printer) (t : list Z) : Prop :=
  zlen t <= INT_MAX -> forall buf o len w,
  0 <= o -> need roomy t <= len -> 0 <= len <= INT_MAX -> o + len <= zlen buf ->
  f buf o len w = Ok ((zlen t, wrote buf o len t), w).

(** A step under a condition prints [t] or does nothing. *)
Definition step_prints (roomy : bool) (s : bool * printer) (t : list Z) : Prop :=
  if s.1 then prints roomy s.2 t else t = [].

Lemma prints_out t : t <> [] -> prints false (out t) t.
Proof.
  intros Ht Hz buf o len w ? _ ? ?. unfold out. rewrite snprintf_run by lia. by destruct t.
Qed.

Lemma prints_nothing : prints false nothing [].
Proof. intros _ buf o len w _ _ _ _. done. Qed.

Lemma prints_roomy r f t : prints false f t -> prints r f t.
Proof. intros H Hz buf o len w ? Hn ? ?. apply H; try done. unfold need. lia. Qed.

(** * Sequences *)

(** The cursor after [done] was printed into [size] bytes. *)
Definition after (buf : list Z) (o size : Z) (d : list Z) : cursor :=
  mk_cursor (wrote buf o size d) (zlen d) (size - Z.min (zlen d) size) (Z.min (zlen d) size).

Section Sequences.
Context (buf : list Z) (o size : Z).
Context (Ho : 0 <= o) (Hs : 0 <= size <= INT_MAX) (Hb : o + size <= zlen buf).

Lemma start_after : start buf size = after buf o size [].
Proof.
  unfold start, after. change (zlen (@nil Z)) with 0. rewrite Z.min_l, Z.sub_0_r by lia. done.
Qed.

Lemma BUFFER_SIZE_after b (d t : list Z) :
  zlen (d ++ t) <= INT_MAX ->
  BUFFER_SIZE (zlen t) (mk_cursor b (zlen d) (size - Z.min (zlen d) size) (Z.min (zlen d) size))
  = mk_cursor b (zlen (d ++ t)) (size - Z.min (zlen (d ++ t)) size) (Z.min (zlen (d ++ t)) size).
Proof.
  intros H. pose proof (zlen_nonneg d). pose proof (zlen_nonneg t). unfold INT_MAX in *. rewrite zlen_app in *.
  unfold BUFFER_SIZE. cbn [cu_buf cu_size cu_len cu_offset]. rewrite (wrap_small 32 (zlen t)) by lia.
  rewrite (sint_small 32 (zlen d + zlen t)) by lia.
  destruct (Z.ltb_spec (size - Z.min (zlen d) size) (zlen t)).
  - rewrite (sint_small 32 (size - _)) by lia. rewrite wrap_small, sint_small by lia. f_equal; lia.
  - rewrite wrap_small, sint_small by lia. f_equal; lia.
Qed.

Lemma BUFFER_SIZE_fits b (d t : list Z) :
  zlen (d ++ t) <= size ->
  BUFFER_SIZE (zlen t) (mk_cursor b (zlen d) (size - zlen d) (zlen d))
  = mk_cursor b (zlen (d ++ t)) (size - zlen (d ++ t)) (zlen (d ++ t)).
Proof.
  intros H. pose proof (zlen_nonneg t). rewrite zlen_app in H. pose proof (BUFFER_SIZE_after b d t) as E.
  rewrite zlen_app in E. rewrite !Z.min_l in E by lia. rewrite zlen_app. apply E. lia.
Qed.

Lemma print_part_after r f d t w :
  prints r f t -> zlen (d ++ t) <= INT_MAX -> (r = true -> zlen (d ++ t) + 64 <= size) ->
  print_part o f (after buf o size d) w = Ok (after buf o size (d ++ t), w).
Proof.
  intros Hf Hz Hr. pose proof (zlen_nonneg d). pose proof (zlen_nonneg t). unfold print_part, bind, after.
  cbn [cu_buf cu_size cu_len cu_offset]. rewrite Hf.
  - unfold ret. rewrite BUFFER_SIZE_after by done. by rewrite wrote_app by lia.
  - rewrite zlen_app in Hz. lia.
  - lia.
  - unfold need. destruct r; [|lia]. specialize (Hr eq_refl). rewrite zlen_app in Hr. lia.
  - lia.
  - rewrite zlen_wrote by lia. lia.
Qed.

Lemma print_steps_after r l ts d w :
  Forall2 (step_prints r) l ts -> zlen (d ++ concat ts) <= INT_MAX ->
  (r = true -> zlen (d ++ concat ts) + 64 <= size) ->
  print_steps o l (after buf o size d) w = Ok (after buf o size (d ++ concat ts), w).
Proof.
  intros H. revert d. induction H as [|[b f] t l ts Hst _ IH]; intros d Hz Hr; cbn [print_steps concat].
  { by rewrite app_nil_r. }
  cbn [concat] in Hz, Hr. rewrite app_assoc in Hz, Hr. pose proof (zlen_nonneg (concat ts)) as Hc.
  rewrite zlen_app in Hz, Hr. unfold bind at 1.
  assert ((if b then print_part o f (after buf o size d) else ret (after buf o size d)) w
          = Ok (after buf o size (d ++ t), w)) as ->.
  { destruct b; [apply (print_part_after r); [exact Hst|lia|intros E; specialize (Hr E); lia]|].
    cbn in Hst. subst t. by rewrite app_nil_r. }
  rewrite IH; [by rewrite app_assoc|by rewrite zlen_app|by rewrite zlen_app].
Qed.
End Sequences.

Lemma prints_steps r l ts :
  Forall2 (step_prints r) l ts ->
  prints r (fun buf o len => let! c := print_steps o l (start buf len) in ret (cu_size c, cu_buf c)) (concat ts).
Proof.
  intros Hl Hz buf o len w Ho Hn Hlen Hb. unfold bind. rewrite (start_after buf o len) by lia.
  rewrite (print_steps_after buf o len Ho Hlen Hb r l ts); [done|done|done|].
  intros ->. exact Hn.
Qed.

(** * Addresses *)

Lemma fmt_u_length z p : 0 <= z < 10 ^ p -> 0 < p -> 0 < zlen (fmt_u z) <= p.
Proof.
  intros Hz Hp. unfold fmt_u. assert (zlen (map to_char (dec_digits z)) = zlen (dec_digits z)) as ->
    by (unfold zlen; by rewrite length_map).
  destruct (dec_digits_spec z ltac:(lia)) as (_ & _ & Hl & Hb). split; [lia|].
  destruct (Z.eq_dec z 0) as [->|]; [change (zlen (dec_digits 0)) with 1; lia|].
  specialize (Hb ltac:(lia)). destruct (Z.le_gt_cases (zlen (dec_digits z)) p) as [|Hgt]; [done|].
  pose proof (Z.pow_le_mono_r 10 p (zlen (dec_digits z) - 1)). lia.
Qed.

Lemma hex_rev_length fuel p z : 0 <= z < 16 ^ Z.of_nat p -> (0 < p)%nat -> zlen (hex_rev fuel z) <= Z.of_nat p.
Proof.
  revert p z. induction fuel as [|fuel IH]; intros p z Hz Hp; cbn [hex_rev]; [zl|]. rewrite zlen_cons.
  destruct (Z.eqb_spec (z / 16) 0) as [E|E]; [zl|]. destruct p as [|[|p]]; [lia| |].
  - change (16 ^ Z.of_nat 1) with 16 in Hz. rewrite Z.div_small in E by lia. lia.
  - specialize (IH (S p) (z / 16)). rewrite Nat2Z.inj_succ, Z.pow_succ_r in Hz by lia.
    assert (0 <= z / 16) by (apply Z.div_pos; lia).
    assert (z / 16 < 16 ^ Z.of_nat (S p)) by (apply Z.div_lt_upper_bound; lia). lia.
Qed.

Lemma fmt_x_length z : 0 <= z < 65536 -> zlen (fmt_x z) <= 4.
Proof.
  intros. unfold fmt_x. pose proof (hex_rev_length 16 4 z ltac:(cbn; lia) ltac:(lia)).
  unfold zlen in *. rewrite length_map, length_rev. lia.
Qed.

Lemma inet_ntoa_length b : Forall byte_ok b -> zlen (inet_ntoa b) <= 15.
Proof.
  intros Hb. unfold inet_ntoa. repeat (case_match; [done|]). case_match; [|done]. subst.
  repeat match goal with H : Forall _ (_ :: _) |- _ => apply Forall_cons in H as [? H] end.
  unfold byte_ok in *. repeat match goal with H : 0 <= ?z < 256 |- _ => 
    pose proof (fmt_u_length z 3 ltac:(lia) ltac:(lia)); clear H end.
  change (text ".") with [46]. zl.
Qed.

Lemma groups_ok b : Forall byte_ok b -> Forall (fun g => 0 <= g < 65536) (groups b).
Proof.
  remember (length b) as n eqn:Hn. revert b Hn. induction n as [n IH] using lt_wf_ind.
  intros [|x [|y b]] Hn Hb; [constructor|constructor|]. cbn [groups].
  apply Forall_cons in Hb as [Hx [Hy Hb]%Forall_cons]. unfold byte_ok in *. constructor; [lia|].
  eapply IH; [|reflexivity|done]. cbn in Hn. lia.
Qed.

Lemma groups_length b : zlen b = 16 -> zlen (groups b) = 8.
Proof. intros H. unfold zlen in *. do 17 (destruct b as [|? b]; [cbn in *; lia|]). cbn in H. lia. Qed.

Lemma print_groups_length base len v4 i l :
  Forall (fun g => 0 <= g < 65536) l -> zlen (print_groups base len false v4 i l) <= 5 * zlen l.
Proof.
  intros H. revert i. induction H as [|g l Hg _ IH]; intros i; cbn [print_groups]; [done|].
  specialize (IH (i + 1)). pose proof (fmt_x_length g Hg). rewrite andb_false_r.
  case_match; [destruct (i =? base)|destruct (i =? 0)]; zl.
Qed.

Lemma print_groups_embedded base len v4 i l :
  Forall (fun g => 0 <= g < 65536) l -> zlen v4 <= 15 -> base + len <= 6 -> 0 <= i <= 6 -> zlen l = 8 - i ->
  zlen (print_groups base len true v4 i l) <= 5 * (6 - i) + 16.
Proof.
  intros H ? ?. revert i. induction H as [|g l Hg _ IH]; intros i Hi Hl; [zl|]. cbn [print_groups].
  pose proof (fmt_x_length g Hg). rewrite zlen_cons in Hl. rewrite andb_true_r.
  destruct (Z.eqb_spec i 6) as [->|].
  - rewrite (proj2 (Z.ltb_ge 6 _)), andb_false_r by lia. cbn [andb Z.eqb]. zl.
  - specialize (IH (i + 1) ltac:(lia) ltac:(lia)). case_match; [destruct (i =? base)|destruct (i =? 0)]; zl.
Qed.

(** The longest text of an address fits into [INET6_ADDRSTRLEN]. *)
Lemma inet_ntop6_length b : blob 16 b -> zlen (inet_ntop6 b) <= 45.
Proof.
  intros [Hl Hb]. unfold inet_ntop6. pose proof (groups_ok b Hb) as Hg. pose proof (groups_length b Hl) as Hgl.
  pose proof (inet_ntoa_length (drop 12 b) (Forall_drop _ _ _ Hb)) as H4.
  destruct (zero_run 0 (groups b) _ _) as [base len].
  destruct ((base =? 0) && _) eqn:He.
  - rewrite andb_true_iff, Z.eqb_eq, orb_true_iff, andb_true_iff, !Z.eqb_eq in He. destruct He as [-> He].
    destruct (groups b) as [|g l] eqn:Eg; [by cbn in Hgl|]. apply Forall_cons in Hg as [_ Hg]. rewrite zlen_cons in Hgl.
    cbn [print_groups]. rewrite (proj2 (Z.ltb_lt 0 (0 + len))) by lia. cbn [Z.leb Z.compare andb Z.eqb].
    pose proof (print_groups_embedded 0 len (inet_ntoa (drop 12 b)) 1 l Hg H4 ltac:(lia) ltac:(lia) ltac:(lia)) as Hp.
    change (0 + 1) with 1. destruct (0 + len =? 8); zl.
  - pose proof (print_groups_length base len (inet_ntoa (drop 12 b)) 0 _ Hg) as Hp.
    case_match; zl.
Qed.

Definition address_text (src dst : list Z) : list Z :=
  (text "src=" ++ src ++ text " ") ++ (text "dst=" ++ dst ++ text " ").

(** A text that has a literal is not empty. *)
Ltac nonempty := intros Hnil; apply (f_equal length) in Hnil; rewrite ?length_app in Hnil; cbn in Hnil; lia.

Lemma prints_ipv4 t :
  prints false (__snprintf_address_ipv4 t (text "src") (text "dst"))
    (address_text (inet_ntoa (take 4 (tp_src t))) (inet_ntoa (take 4 (tp_dst t)))).
Proof.
  set (l := [text "src=" ++ inet_ntoa (take 4 (tp_src t)) ++ text " ";
             text "dst=" ++ inet_ntoa (take 4 (tp_dst t)) ++ text " "]).
  replace (address_text _ _) with (concat l) by (cbn; by rewrite app_nil_r).
  apply prints_steps. do 2 (constructor; [apply prints_out; nonempty|]). constructor.
Qed.

(** The room of the second text is counted down twice, hence the demand for more. *)
Lemma prints_ipv6 t :
  tuple_ok t ->
  prints true (__snprintf_address_ipv6 t (text "src") (text "dst"))
    (address_text (inet_ntop6 (tp_src t)) (inet_ntop6 (tp_dst t))).
Proof.
  intros Ht Hz buf o len w Ho Hn Hlen Hb. unfold __snprintf_address_ipv6.
  pose proof (inet_ntop6_length _ (proj1 Ht)) as L1. pose proof (inet_ntop6_length _ (proj1 (proj2 Ht))) as L2.
  rewrite !(proj2 (Z.ltb_ge INET6_ADDRSTRLEN _)) by (unfold INET6_ADDRSTRLEN; lia).
  unfold address_text, need in *.
  change (text "src" ++ text "=" ++ inet_ntop6 (tp_src t) ++ text " ")
    with (text "src=" ++ inet_ntop6 (tp_src t) ++ text " ").
  change (text "dst" ++ text "=" ++ inet_ntop6 (tp_dst t) ++ text " ")
    with (text "dst=" ++ inet_ntop6 (tp_dst t) ++ text " ").
  set (t1 := text "src=" ++ _) in *. set (t2 := text "dst=" ++ _) in *.
  assert (0 < zlen t1 <= 50) as Hl1 by (subst t1; change (text "src=") with [115; 114; 99; 61];
    change (text " ") with [32]; pose proof (zlen_nonneg (inet_ntop6 (tp_src t))); zl).
  assert (prints false (out t1) t1) as P1 by (apply prints_out; intros E; rewrite E in Hl1; by destruct Hl1).
  pose proof (zlen_nonneg t2). rewrite zlen_app in Hz, Hn. unfold bind at 1. rewrite (start_after buf o len) by lia.
  rewrite (print_part_after buf o len Ho Hlen Hb false (out t1) [] t1 w P1); [|cbn [app]; lia|done]. cbn [app].
  unfold after. cbn [cu_buf cu_size cu_len cu_offset]. rewrite Z.min_l by lia.
  unfold bind, out. rewrite (wrap_small 32 (len - zlen t1 - zlen t1)) by (unfold INT_MAX in *; lia).
  rewrite snprintf_run; [|unfold INT_MAX in *; rewrite ?zlen_wrote; lia..].
  unfold ret. do 2 f_equal. rewrite BUFFER_SIZE_fits by (rewrite ?zlen_app; lia). cbn [cu_buf cu_size]. f_equal.
  rewrite <- wrote_app, Z.min_l by lia. rewrite (wrote_put _ _ _ t2) by (subst t2; nonempty).
  by rewrite !put_text_fits by lia.
Qed.

(** * Labels *)

Fixpoint labels_text (map : nfct_labelmap) (b : nfct_bitmask) (n : nat) (i : Z) : list Z :=
  match n with
  | O => []
  | S n =>
      (if negb (bm_has b i) then [] else
       match __labelmap_get_name map i with None | Some [] => [] | Some name => name ++ text "," end) ++
      labels_text map b n (i + 1)
  end.

Definition clabels_text (ct : nf_conntrack) (map : nfct_labelmap) : list Z :=
  match ct_connlabels ct with
  | None => []
  | Some b => removelast (text "labels=" ++ labels_text map b (Z.to_nat (nfct_bitmask_maxbit b + 1)) 0) ++ text " "
  end.

Lemma connlabels_loop_run buf o size map b n i d w :
  bitmask_ok b -> 0 <= i -> 0 <= o -> 0 <= size <= INT_MAX -> o + size <= zlen buf -> zlen (d ++ labels_text map b n i) < size ->
  connlabels_loop o map b n i (after buf o size d) w = Ok (after buf o size (d ++ labels_text map b n i), w).
Proof.
  intros Hok Hi Ho Hs Hb. revert i d Hi. induction n as [|n IH]; intros i d Hi Hr; cbn [connlabels_loop labels_text].
  { by rewrite app_nil_r. }
  cbn [labels_text] in Hr. set (t := if _ : bool then _ else _) in *. rewrite app_assoc in Hr |- *.
  pose proof (zlen_nonneg (labels_text map b n (i + 1))). rewrite zlen_app in Hr.
  pose proof (zlen_nonneg t). pose proof (zlen_nonneg d). pose proof (zlen_app d t).
  unfold after at 1. cbn [cu_len]. rewrite (proj2 (Z.eqb_neq _ 0)) by lia. unfold bind. rewrite bitmask_test_bit_run by done.
  match goal with |- match ?c w with _ => _ end = _ => assert (c w = Ok (after buf o size (d ++ t), w)) as -> end.
  { subst t. destruct (bm_has b i); cbn [negb] in *; [|by rewrite app_nil_r].
    destruct (__labelmap_get_name map i) as [[|x name]|]; try by rewrite app_nil_r.
    apply (print_part_after buf o size Ho Hs Hb false); [by apply prints_out|lia|done]. }
  apply IH; [lia|]. rewrite zlen_app. lia.
Qed.

Lemma prints_connlabels map b : bitmask_ok b ->
  prints true (__snprintf_connlabels map b) (labels_text map b (Z.to_nat (nfct_bitmask_maxbit b + 1)) 0).
Proof.
  intros Hok Hz buf o len w Ho Hn Hlen Hb. unfold __snprintf_connlabels, bind, need in *.
  rewrite (start_after buf o len), connlabels_loop_run by (done || (cbn [app]; lia)). done.
Qed.

(** Over the last character that was printed. *)
Lemma splice_last o a c c' m :
  0 <= o -> o + zlen a + 2 <= zlen m ->
  splice (o + zlen a) [c'; 0] (splice o (a ++ [c; 0]) m) = splice o (a ++ [c'; 0]) m.
Proof.
  intros. pose proof (zlen_nonneg a).
  assert (zlen (splice o (a ++ [c; 0]) m) = zlen m) by (apply zlen_splice; zl).
  apply list_eq. intros i. destruct (decide (o + zlen a <= Z.of_nat i < o + zlen a + 2)).
  - rewrite !lookup_splice_in by zl. rewrite (lookup_app_r a) by (unfold zlen in *; lia).
    f_equal. unfold zlen in *. lia.
  - rewrite lookup_splice_out by zl. destruct (decide (o <= Z.of_nat i < o + zlen a)).
    + rewrite !lookup_splice_in by zl. by rewrite !(lookup_app_l a) by (unfold zlen in *; lia).
    + by rewrite !lookup_splice_out by zl.
Qed.

(** The list ends with a comma, over which the blank is written. *)
Lemma prints_clabels ct map : from_option bitmask_ok True (ct_connlabels ct) ->
  prints true (__snprintf_clabels ct map) (clabels_text ct map).
Proof.
  intros Hbm Hz buf o len w Ho Hn Hlen Hb. unfold __snprintf_clabels, clabels_text, need in *.
  destruct (ct_connlabels ct) as [b|]; [|done]. set (l := labels_text _ _ _ _) in *.
  set (x := text "labels=" ++ l) in *.
  assert (x = removelast x ++ [List.last x 0]) as Ex by (apply app_removelast_last; subst x; nonempty).
  set (a := removelast x) in *. set (c := List.last x 0) in *.
  change (text " ") with [32] in *. rewrite zlen_app in Hz, Hn. change (zlen [32]) with 1 in *. pose proof (zlen_nonneg a).
  assert (zlen x = zlen a + 1) as Hlx by (rewrite Ex; zl).
  unfold bind at 1. rewrite (start_after buf o len) by lia.
  rewrite (print_steps_after buf o len Ho Hlen Hb true _ [text "labels="; l]); cbn [app concat]; rewrite ?app_nil_r.
  - fold x. unfold after, print_part, bind, out. cbn [cu_buf cu_size cu_len cu_offset].
    rewrite Z.min_l, Hlx by lia. change (text " ") with [32].
    assert (wrote buf o len x = splice o (a ++ [c; 0]) buf) as ->.
    { rewrite wrote_put by (subst x; nonempty). rewrite put_text_fits by lia.
      rewrite Ex, <- app_assoc. done. }
    replace (o + (zlen a + 1 - 1)) with (o + zlen a) by lia.
    rewrite snprintf_fits; [|done|lia|change (zlen [32]) with 1; lia|rewrite zlen_splice; change (zlen [32]) with 1; zl].
    unfold ret. cbn [app]. rewrite splice_last by lia. do 2 f_equal. change (zlen [32]) with 1.
    replace (zlen a + 1 - 1) with (zlen a) by lia. replace (len - (zlen a + 1)) with (len - 1 - zlen a) by lia.
    unfold BUFFER_SIZE. cbn [cu_buf cu_size cu_len cu_offset]. change (wrap 32 1) with 1.
    rewrite (sint_small 32 (zlen a + 1)) by (unfold INT_MAX in *; lia). f_equal; [zl|].
    rewrite wrote_put by nonempty. rewrite put_text_fits by zl. by rewrite <- app_assoc.
  - constructor; [by apply prints_roomy, prints_out|]. constructor; [by apply prints_connlabels|constructor].
  - fold x. lia.
  - intros _. fold x. lia.
Qed.

(** * The whole text *)

Definition when (b : bool) (t : list Z) : list Z := if b then t else [].

Definition name_or_unknown (c : M (option (list Z))) : list Z :=
  match c (mk_world [] 0 []) with Ok (Some n, _) => n | _ => text "unknown" end.

(** A name in a column of eight characters and its number. *)
Definition column_text (name : list Z) (n : Z) : list Z := pad_right 32 8 name ++ text " " ++ fmt_u n ++ text " ".

Definition event_text (msg_type : Z) : list Z :=
  if msg_type =? NFCT_T_NEW then text "    [NEW] "
  else if msg_type =? NFCT_T_UPDATE then text " [UPDATE] "
  else if msg_type =? NFCT_T_DESTROY then text "[DESTROY] "
  else [].

Definition tuple_address_text (t : __nfct_tuple) : list Z :=
  if tp_l3protonum t =? AF_INET then address_text (inet_ntoa (take 4 (tp_src t))) (inet_ntoa (take 4 (tp_dst t)))
  else if tp_l3protonum t =? AF_INET6 then address_text (inet_ntop6 (tp_src t)) (inet_ntop6 (tp_dst t))
  else [].

Definition has_ports (p : Z) : bool :=
  bool_decide (p ∈ [IPPROTO_TCP; IPPROTO_UDP; IPPROTO_UDPLITE; IPPROTO_SCTP; IPPROTO_DCCP]).

Definition tuple_proto_text (t : __nfct_tuple) : list Z :=
  let p := tp_protonum t in
  if has_ports p then
    text "sport=" ++ fmt_u (ntohs (tp_l4src t)) ++ text " dport=" ++ fmt_u (ntohs (l4dst_all (tp_l4dst t))) ++ text " "
  else if p =? IPPROTO_GRE then
    text "srckey=0x" ++ fmt_x (ntohs (tp_l4src t)) ++ text " dstkey=0x" ++ fmt_x (ntohs (l4dst_all (tp_l4dst t))) ++ text " "
  else if (p =? IPPROTO_ICMP) || (p =? IPPROTO_ICMPV6) then
    text "type=" ++ fmt_d (icmp_type (tp_l4dst t)) ++ text " code=" ++ fmt_d (icmp_code (tp_l4dst t)) ++
    text " id=" ++ fmt_d (ntohs (tp_l4src t)) ++ text " "
  else [].

Definition counters_text (c : __nfct_counters) : list Z :=
  text "packets=" ++ fmt_u (ctr_packets c) ++ text " bytes=" ++ fmt_u (ctr_bytes c) ++ text " ".

Section Text.
Context (clk : clock) (ct : nf_conntrack) (msg_type flags : Z) (map : option nfct_labelmap).

Definition seconds (ns : Z) : Z := ns / NSEC_PER_SEC.

Definition default_texts : list (list Z) :=
  let has a := attr_is_set a ct in
  let ts := ct_timestamp ct in
  [event_text msg_type;
   when (flag_set flags NFCT_OF_SHOW_LAYER3)
     (column_text (name_or_unknown (l3proto2str (tp_l3protonum (ct_orig ct)))) (tp_l3protonum (ct_orig ct)));
   column_text (name_or_unknown (proto2str (tp_protonum (ct_orig ct)))) (tp_protonum (ct_orig ct));
   when (has ATTR_TIMEOUT) (fmt_u (ct_timeout ct) ++ text " ");
   when (has ATTR_TCP_STATE) (tcp_state_name ct ++ text " ");
   tuple_address_text (ct_orig ct);
   tuple_proto_text (ct_orig ct);
   when (has ATTR_ORIG_ZONE) (text "zone-orig=" ++ fmt_u (tp_zone (ct_orig ct)) ++ text " ");
   when (has ATTR_ORIG_COUNTER_PACKETS && has ATTR_ORIG_COUNTER_BYTES) (counters_text (d_orig (ct_counters ct)));
   when (has ATTR_STATUS) (when (Z.land (ct_status ct) IPS_SEEN_REPLY =? 0) (text "[UNREPLIED] "));
   tuple_address_text (ct_repl ct);
   tuple_proto_text (ct_repl ct);
   when (has ATTR_REPL_ZONE) (text "zone-reply=" ++ fmt_u (tp_zone (ct_repl ct)) ++ text " ");
   when (has ATTR_REPL_COUNTER_PACKETS && has ATTR_REPL_COUNTER_BYTES) (counters_text (d_repl (ct_counters ct)));
   when (has ATTR_STATUS)
     (if negb (Z.land (ct_status ct) IPS_OFFLOAD =? 0) then text "[OFFLOAD] "
      else when (negb (Z.land (ct_status ct) IPS_ASSURED =? 0)) (text "[ASSURED] "));
   when (has ATTR_MARK) (text "mark=" ++ fmt_u (ct_mark ct) ++ text " ");
   when (has ATTR_SECMARK) (text "secmark=" ++ fmt_u (ct_secmark ct) ++ text " ");
   when (has ATTR_SECCTX) (text "secctx=" ++ c_string (default [] (ct_secctx ct)) ++ text " ");
   when (has ATTR_ZONE) (text "zone=" ++ fmt_u (ct_zone ct) ++ text " ");
   when (has ATTR_TIMESTAMP_START)
     (text "delta-time=" ++
      fmt_u (wrap 64 ((if ts_stop ts =? 0 then ck_time clk else seconds (ts_stop ts)) - seconds (ts_start ts))) ++ text " ");
   when (flag_set flags NFCT_OF_TIMESTAMP && has ATTR_TIMESTAMP_START)
     (text "[start=" ++ removelast (ck_ctime clk (seconds (ts_start ts))) ++ text "] ");
   when (flag_set flags NFCT_OF_TIMESTAMP && has ATTR_TIMESTAMP_STOP)
     (text "[stop=" ++ removelast (ck_ctime clk (seconds (ts_stop ts))) ++ text "] ");
   when (has ATTR_HELPER_NAME) (text "helper=" ++ c_string (ct_helper_name ct) ++ text " ");
   when (has ATTR_USE) (text "use=" ++ fmt_u (ct_use ct) ++ text " ");
   when (flag_set flags NFCT_OF_ID && has ATTR_ID) (text "id=" ++ fmt_u (ct_id ct) ++ text " ");
   match map with Some m => when (has ATTR_CONNLABELS) (clabels_text ct m) | None => [] end].

(** The line, with the blank at its end. *)
Definition ct_text : list Z := concat default_texts.

(** What the object needs to be printed: a family inside of the table of names,
    strings that end, and a [ctime] that returns a line. *)
Record printable : Prop := {
  pr_family : flag_set flags NFCT_OF_SHOW_LAYER3 = true -> tp_l3protonum (ct_orig ct) < AF_MAX;
  pr_secctx : attr_is_set ATTR_SECCTX ct = true -> exists l, ct_secctx ct = Some l /\ is_Some (cstring l);
  pr_helper : attr_is_set ATTR_HELPER_NAME ct = true -> is_Some (cstring (ct_helper_name ct));
  pr_ctime : forall t, ck_ctime clk t <> []
}.

(** No text is counted twice: no IPv6 address and no labels. *)
Definition plain : Prop :=
  map = None /\ tp_l3protonum (ct_orig ct) <> AF_INET6 /\ tp_l3protonum (ct_repl ct) <> AF_INET6.

(** ** Each part *)

Lemma step_when r b f t : (b = true -> prints r f t) -> step_prints r (b, f) (when b t).
Proof. unfold step_prints, when. cbn. destruct b; auto. Qed.

Lemma prints_event : prints false (out_event msg_type) (event_text msg_type).
Proof.
  unfold out_event, event_text. repeat case_match; first [apply prints_nothing|by apply prints_out].
Qed.

(** A printer that looks up a name first. *)
Lemma prints_column (c : M (option (list Z))) n name :
  (forall w, c w = Ok (name, w)) ->
  prints false (fun buf o len => let! name := c in
                  out (pad_right 32 8 (default (text "unknown") name) ++ text " " ++ fmt_u n ++ text " ") buf o len)
    (column_text (name_or_unknown c) n).
Proof.
  intros Hc Hz buf o len w Ho Hn Hlen Hb. unfold bind. rewrite Hc. unfold column_text, name_or_unknown in *.
  rewrite Hc in *. destruct name; (apply prints_out; [nonempty|done..]).
Qed.

Lemma prints_l3 : tp_l3protonum (ct_orig ct) < AF_MAX ->
  prints false (__snprintf_l3protocol ct)
    (column_text (name_or_unknown (l3proto2str (tp_l3protonum (ct_orig ct)))) (tp_l3protonum (ct_orig ct))).
Proof.
  intros H. eapply prints_column. intros w. unfold l3proto2str. rewrite (proj2 (Z.leb_gt _ _)) by done. reflexivity.
Qed.

Lemma prints_l4 : ct_ok ct ->
  prints false (__snprintf_protocol ct)
    (column_text (name_or_unknown (proto2str (tp_protonum (ct_orig ct)))) (tp_protonum (ct_orig ct))).
Proof.
  intros (_ & _ & _ & H & _)%ok_orig. eapply prints_column. intros w. unfold proto2str, IPPROTO_MAX.
  unfold uint in H. rewrite (proj2 (Z.leb_gt _ _)) by lia. reflexivity.
Qed.

Lemma prints_address r t :
  tuple_ok t -> (r = false -> tp_l3protonum t <> AF_INET6) ->
  prints r (__snprintf_address t (text "src") (text "dst")) (tuple_address_text t).
Proof.
  intros Ht Hr. unfold __snprintf_address, tuple_address_text. destruct (tp_l3protonum t =? AF_INET).
  { apply prints_roomy, prints_ipv4. }
  destruct (Z.eqb_spec (tp_l3protonum t) AF_INET6); [|apply prints_roomy, prints_nothing].
  destruct r; [by apply prints_ipv6|by destruct Hr].
Qed.

Lemma prints_proto t : prints false (__snprintf_proto t) (tuple_proto_text t).
Proof.
  unfold __snprintf_proto, tuple_proto_text, has_ports. set (p := tp_protonum t).
  match goal with |- prints _ (if ?b then _ else _) (if ?c then _ else _) => assert (b = c) as -> end.
  { apply eq_true_iff_eq. rewrite bool_decide_eq_true, !orb_true_iff, !Z.eqb_eq, !elem_of_cons, elem_of_nil. tauto. }
  repeat case_match; first [apply prints_nothing|apply prints_out; nonempty].
Qed.

Lemma prints_string l k :
  is_Some (cstring l) -> k (c_string l) <> [] -> prints false (out_string (Some l) k) (k (c_string l)).
Proof.
  intros [s Hs] Hk Hz buf o len w ? ? ? ?. unfold out_string. rewrite Hs. by apply prints_out.
Qed.

Lemma prints_ctime t k :
  (forall x, ck_ctime clk x <> []) -> k (removelast (ck_ctime clk t)) <> [] ->
  prints false (out_ctime clk t k) (k (removelast (ck_ctime clk t))).
Proof.
  intros Hc Hk Hz buf o len w ? ? ? ?. unfold out_ctime. specialize (Hc t).
  destruct (ck_ctime clk t) eqn:E; [done|]. by apply prints_out.
Qed.

Lemma prints_steps_default r :
  ct_ok ct -> printable -> (r = false -> plain) ->
  Forall2 (step_prints r) (default_steps clk ct msg_type flags map) default_texts.
Proof.
  intros Hok [Hfam Hsec Hhelp Hctime] Hr. unfold default_steps, default_texts.
  repeat match goal with |- Forall2 _ (_ :: _) (_ :: _) => constructor end; [..|constructor];
    try (apply step_when; intros Hb); try (unfold step_prints; cbn [fst snd]).
  all: try (apply prints_roomy; apply prints_out; nonempty).
  - apply prints_roomy, prints_event.
  - by apply prints_roomy, prints_l3, Hfam.
  - by apply prints_roomy, prints_l4.
  - apply prints_address; [by apply ok_orig|]. intros E. apply (Hr E).
  - apply prints_roomy, prints_proto.
  - apply prints_roomy. unfold __snprintf_status_not_seen_reply, when.
    case_match; first [apply prints_nothing|by apply prints_out].
  - apply prints_address; [by apply ok_repl|]. intros E. apply (Hr E).
  - apply prints_roomy, prints_proto.
  - apply prints_roomy. unfold __snprintf_status_assured, when.
    repeat case_match; first [apply prints_nothing|by apply prints_out].
  - destruct (Hsec Hb) as (l & El & Hl). apply prints_roomy. unfold __snprintf_secctx. rewrite El.
    apply prints_string; [done|nonempty].
  - apply prints_roomy. apply prints_ctime; [done|nonempty].
  - apply prints_roomy. apply prints_ctime; [done|nonempty].
  - apply prints_roomy. apply (prints_string _ (fun t => text "helper=" ++ t ++ text " ")); [by apply Hhelp|nonempty].
  - destruct r; [|by destruct (Hr eq_refl) as [-> _]].
    destruct map as [m|]; cbn [bool_decide is_Some_dec andb]; [|done].
    apply (step_when true (attr_is_set ATTR_CONNLABELS ct)). intros _. apply prints_clabels, ok_connlabels, Hok.
Qed.
End Text.

(** * The line *)

Lemma ct_text_nonempty clk ct msg_type flags map : 1 <= zlen (ct_text clk ct msg_type flags map).
Proof.
  unfold ct_text, default_texts. cbn zeta. cbn [concat]. unfold column_text at 2. change (text " ") with [32].
  repeat match goal with |- context [zlen (?a ++ ?b)] => rewrite (zlen_app a b) end.
  repeat match goal with |- context [zlen ?x] => lazymatch goal with _ : 0 <= zlen x |- _ => fail | _ => pose proof (zlen_nonneg x) end end.
  change (zlen [32]) with 1 in *. lia.
Qed.

(** The buffer as a terminated string. *)
Lemma terminate_text buf size t i w :
  0 < size -> size <= zlen buf -> t <> [] -> i = Z.min (zlen t - 1) (size - 1) ->
  exists rest, terminate (wrote buf 0 size t) i w = Ok (take (Z.to_nat (size - 1)) (removelast t) ++ 0 :: rest, w) /\
    zlen (take (Z.to_nat (size - 1)) (removelast t) ++ 0 :: rest) = zlen buf /\
    drop (Z.to_nat size) (take (Z.to_nat (size - 1)) (removelast t) ++ 0 :: rest) = drop (Z.to_nat size) buf.
Proof.
  intros Hs Hb Ht Hi. rewrite wrote_put by done. unfold put_text. rewrite cut_take, (proj2 (Z.eqb_neq size 0)) by lia.
  assert (t = removelast t ++ [List.last t 0]) as Et by by apply app_removelast_last.
  set (a := removelast t) in *. set (c := List.last t 0) in *.
  assert (zlen t = zlen a + 1) as Hta by (rewrite Et; zl). pose proof (zlen_nonneg a).
  assert (take (Z.to_nat i) t = take (Z.to_nat (size - 1)) a) as Ea.
  { rewrite Et, take_app_le by (unfold zlen in *; lia). destruct (Z.le_gt_cases (zlen a) (size - 1)).
    - rewrite !take_ge by (unfold zlen in *; lia). done.
    - f_equal. lia. }
  set (s := take (Z.to_nat (size - 1)) t ++ [0]).
  assert (i < zlen s <= size) as Hls.
  { subst s. unfold zlen in *. rewrite length_app, length_take. cbn [length]. lia. }
  assert (zlen (splice 0 s buf) = zlen buf) as Hz by (apply zlen_splice; lia).
  assert (splice i [0] (splice 0 s buf) = take (Z.to_nat i) t ++ 0 :: drop (Z.to_nat i + 1) (splice 0 s buf)) as Hres.
  { unfold splice at 1. change (length [0]) with 1%nat. f_equal. unfold splice. change (Z.to_nat 0) with 0%nat.
    rewrite take_0. cbn [app]. rewrite take_app_le by (unfold zlen in *; lia). subst s.
    rewrite take_app_le by (rewrite length_take; unfold zlen in *; lia). rewrite take_take. f_equal. lia. }
  rewrite <- Ea. exists (drop (Z.to_nat i + 1) (splice 0 s buf)). unfold terminate.
  rewrite (proj2 (in_range_true i 1 _)) by lia. rewrite <- Hres. split_and!; [done|rewrite zlen_splice; zl|].
  apply list_eq. intros k. rewrite !lookup_drop, !lookup_splice_out; [done|zl..].
Qed.

(** A connection between two IPv6 addresses. *)
Definition v6_example : nf_conntrack :=
  let addr := 32 :: 1 :: 13 :: 184 :: replicate 11 17 ++ [1] in
  with_ct_head (mk_head (mk_tuple addr addr AF_INET6 IPPROTO_TCP 0 80 [0; 80]) (head_set (ct_head zero_ct))) zero_ct.

(** The second address of a tuple is printed with a size that was counted down twice
    and wraps around: in a buffer that it does not fit into it is written after the
    end of the buffer. *)
Lemma ipv6_overflow clk w :
  nfct_snprintf clk (replicate 80 0) 80 v6_example NFCT_T_UNKNOWN NFCT_O_DEFAULT 0 w = Ub /\
  zlen (ct_text clk v6_example NFCT_T_UNKNOWN 0 None) = 118.
Proof. split; by vm_compute. Qed.


(** * Where the code departs from it *)

(** Without [assert(size > 0)] a size of zero makes the terminator be written at
    offset 2^32 - 1. *)
Lemma snprintf_labels_zero_size clk w :
  nfct_snprintf_labels clk [] 0 zero_ct NFCT_T_UNKNOWN NFCT_O_DEFAULT 0 None w = Ub.
Proof. by vm_compute. Qed.

(** The table of family names is read at any number that the attribute holds. *)
Lemma l3proto_overread clk w :
  nfct_snprintf clk (replicate 80 0) 80
    (with_ct_head (mk_head (with_tp_l3protonum AF_MAX (ct_orig zero_ct)) (head_set (ct_head zero_ct))) zero_ct)
    NFCT_T_UNKNOWN NFCT_O_DEFAULT NFCT_OF_SHOW_LAYER3 w = Ub.
Proof. by vm_compute. Qed.

(** The XML output and the current time, which the documentation offers, are not printed: every
    output type prints the default line, with or without [NFCT_OF_TIME]. *)
Theorem snprintf_no_xml_no_time clk buf size ct msg_type out_type flags w :
  nfct_snprintf clk buf size ct msg_type out_type (Z.lor flags NFCT_OF_TIME) w =
  nfct_snprintf clk buf size ct msg_type NFCT_O_DEFAULT flags w.
Proof.
  assert (H : forall f, Z.land NFCT_OF_TIME f = 0 -> flag_set (Z.lor flags NFCT_OF_TIME) f = flag_set flags f).
  { intros f Hf. unfold flag_set. by rewrite Z.land_lor_distr_l, Hf, Z.lor_0_r. }
  unfold nfct_snprintf, __snprintf_conntrack, __snprintf_conntrack_default, default_steps. by rewrite !H.
Qed.

(** * Examples *)

Definition example_clock : clock := mk_clock 1000 (fun _ => text "Thu Jan  1 00:00:00 1970" ++ [10]).

