(* ===== verification/LinuxList.v ===== *)
(** libnfnetlink/linux_list.h (and its two copies in libnetfilter_conntrack): circular
    doubly linked lists and lists with a single pointer as head.

    A heap has the [struct list_head] objects by address; an access to an address that has
    none is a fault, [None].  The objects that contain a list head are not in the heap: a
    pointer to one is the address of its member minus the offset of the member. *)
From stdpp Require Import gmap.
From S2P Require Import Prelude.

Definition LIST_POISON1 : Z := 0x00100100.
Definition LIST_POISON2 : Z := 0x00200200.

(** [struct list_head]. *)
Record list_head := mk_list { l_next : Z; l_prev : Z }.
Abbreviation lheap := (gmap Z list_head).

Definition get_next (a : Z) (h : lheap) : option Z := l_next <$> h !! a.
Definition get_prev (a : Z) (h : lheap) : option Z := l_prev <$> h !! a.
Definition set_l_next (a v : Z) (h : lheap) : option lheap :=
  n ← h !! a; Some (<[a := mk_list v (l_prev n)]> h).
Definition set_l_prev (a v : Z) (h : lheap) : option lheap :=
  n ← h !! a; Some (<[a := mk_list (l_next n) v]> h).

Definition INIT_LIST_HEAD (ptr : Z) (h : lheap) : option lheap := h ← set_l_next ptr ptr h; set_l_prev ptr ptr h.

(** * Adding *)

Definition __list_add (new prev next : Z) (h : lheap) : option lheap :=
  h ← set_l_prev next new h;
  h ← set_l_next new next h;
  h ← set_l_prev new prev h;
  set_l_next prev new h.

Definition list_add (new head : Z) (h : lheap) : option lheap :=
  next ← get_next head h; __list_add new head next h.
Definition list_add_tail (new head : Z) (h : lheap) : option lheap :=
  prev ← get_prev head h; __list_add new prev head h.

Definition __list_add_rcu (new prev next : Z) (h : lheap) : option lheap :=
  h ← set_l_next new next h;
  h ← set_l_prev new prev h;
  h ← set_l_prev next new h;
  set_l_next prev new h.

Definition list_add_rcu (new head : Z) (h : lheap) : option lheap :=
  next ← get_next head h; __list_add_rcu new head next h.
Definition list_add_tail_rcu (new head : Z) (h : lheap) : option lheap :=
  prev ← get_prev head h; __list_add_rcu new prev head h.

(** * Removing *)

Definition __list_del (prev next : Z) (h : lheap) : option lheap :=
  h ← set_l_prev next prev h; set_l_next prev next h.

(** [__list_del(entry->prev, entry->next)]. *)
Definition unlink (entry : Z) (h : lheap) : option lheap :=
  prev ← get_prev entry h; next ← get_next entry h; __list_del prev next h.

Definition list_del (entry : Z) (h : lheap) : option lheap :=
  h ← unlink entry h; h ← set_l_next entry LIST_POISON1 h; set_l_prev entry LIST_POISON2 h.
Definition list_del_rcu (entry : Z) (h : lheap) : option lheap :=
  h ← unlink entry h; set_l_prev entry LIST_POISON2 h.
Definition list_del_init (entry : Z) (h : lheap) : option lheap :=
  h ← unlink entry h; INIT_LIST_HEAD entry h.
Definition list_move (list head : Z) (h : lheap) : option lheap :=
  h ← unlink list h; list_add list head h.
Definition list_move_tail (list head : Z) (h : lheap) : option lheap :=
  h ← unlink list h; list_add_tail list head h.

(** * Tests and joining *)

Definition list_empty (head : Z) (h : lheap) : option bool := next ← get_next head h; Some (next =? head).
Definition list_empty_careful (head : Z) (h : lheap) : option bool :=
  next ← get_next head h;
  if negb (next =? head) then Some false else prev ← get_prev head h; Some (next =? prev).

Definition __list_splice (list head : Z) (h : lheap) : option lheap :=
  first ← get_next list h;
  last ← get_prev list h;
  at_ ← get_next head h;
  h ← set_l_prev first head h;
  h ← set_l_next head first h;
  h ← set_l_next last at_ h;
  set_l_prev at_ last h.

Definition list_splice (list head : Z) (h : lheap) : option lheap :=
  e ← list_empty list h; if negb e then __list_splice list head h else Some h.
Definition list_splice_init (list head : Z) (h : lheap) : option lheap :=
  e ← list_empty list h;
  if negb e then h ← __list_splice list head h; INIT_LIST_HEAD list h else Some h.

(** * Loops

    The body gets the position and the state [A] of the loop; it can change the heap.  The
    fuel bounds the number of rounds. *)
Section Loops.
Context {A : Type} (body : Z -> A -> lheap -> option (A * lheap)).

Fixpoint each_loop (step : Z -> lheap -> option Z) (fuel : nat) (pos head : Z) (a : A) (h : lheap) : option (A * lheap) :=
  match fuel with
  | O => None
  | S fuel =>
      if pos =? head then Some (a, h) else
      '(a, h) ← body pos a h;
      next ← step pos h;
      each_loop step fuel next head a h
  end.

Definition list_for_each (fuel : nat) (head : Z) (a : A) (h : lheap) : option (A * lheap) :=
  pos ← get_next head h; each_loop get_next fuel pos head a h.
Definition list_for_each_prev (fuel : nat) (head : Z) (a : A) (h : lheap) : option (A * lheap) :=
  pos ← get_prev head h; each_loop get_prev fuel pos head a h.

(** The next position is read before the body. *)
Fixpoint each_safe_loop (fuel : nat) (pos n head : Z) (a : A) (h : lheap) : option (A * lheap) :=
  match fuel with
  | O => None
  | S fuel =>
      if pos =? head then Some (a, h) else
      '(a, h) ← body pos a h;
      next ← get_next n h;
      each_safe_loop fuel n next head a h
  end.

Definition list_for_each_safe (fuel : nat) (head : Z) (a : A) (h : lheap) : option (A * lheap) :=
  pos ← get_next head h; n ← get_next pos h; each_safe_loop fuel pos n head a h.
End Loops.

(** The loops over the objects that contain the heads: the body gets the object. *)
Definition list_entry (offset ptr : Z) : Z := ptr - offset.
Definition list_for_each_entry {A} (offset : Z) (body : Z -> A -> lheap -> option (A * lheap)) :=
  list_for_each (fun pos => body (list_entry offset pos)).
Definition list_for_each_entry_reverse {A} (offset : Z) (body : Z -> A -> lheap -> option (A * lheap)) :=
  list_for_each_prev (fun pos => body (list_entry offset pos)).
Definition list_for_each_entry_safe {A} (offset : Z) (body : Z -> A -> lheap -> option (A * lheap)) :=
  list_for_each_safe (fun pos => body (list_entry offset pos)).

(** * Sequences *)

(** From [a] over the nodes [l] to [b], in both directions. *)
Fixpoint links (h : lheap) (a : Z) (l : list Z) (b : Z) : Prop :=
  match l with
  | [] => get_next a h = Some b /\ get_prev b h = Some a
  | x :: l => get_next a h = Some x /\ get_prev x h = Some a /\ links h x l b
  end.

(** The list at [head] has the nodes [l]. *)
Definition ring (h : lheap) (head : Z) (l : list Z) : Prop := links h head l head /\ NoDup (head :: l).

Definition first (l : list Z) (b : Z) : Z := default b (head l).
Definition final (a : Z) (l : list Z) : Z := default a (last l).

(** ** What the assignments do *)

Definition upd (f : Z -> option Z) (a v : Z) : Z -> option Z := fun b => if decide (b = a) then Some v else f b.

(** The pointers of a heap as functions. *)
Definition pointers (h : lheap) (N P : Z -> option Z) : Prop := forall b, get_next b h = N b /\ get_prev b h = P b.

Lemma upd_eq f a v : upd f a v a = Some v.
Proof. unfold upd. by rewrite decide_True. Qed.
Lemma upd_ne f a v b : b <> a -> upd f a v b = f b.
Proof. intros. unfold upd. by rewrite decide_False. Qed.

Lemma pointers_self h : pointers h (fun b => get_next b h) (fun b => get_prev b h).
Proof. done. Qed.

Lemma next_is_some h a : is_Some (get_next a h) <-> is_Some (h !! a).
Proof. unfold get_next. by rewrite fmap_is_Some. Qed.
Lemma prev_is_some h a : is_Some (get_prev a h) <-> is_Some (h !! a).
Proof. unfold get_prev. by rewrite fmap_is_Some. Qed.

Lemma set_next_run h N P a v :
  pointers h N P -> is_Some (h !! a) ->
  exists h', set_l_next a v h = Some h' /\ pointers h' (upd N a v) P /\ dom h' = dom h.
Proof.
  intros Hp [n Hn]. unfold set_l_next. rewrite Hn. eexists. split; [done|]. split.
  - intros b. destruct (Hp b) as [E1 E2]. unfold upd, get_next, get_prev in *. destruct (decide (b = a)) as [->|];
      [rewrite lookup_insert_eq; rewrite Hn in E1, E2; cbn in *; by split|by rewrite lookup_insert_ne].
  - rewrite dom_insert_L. apply (elem_of_dom_2 (D := gset Z)) in Hn. set_solver.
Qed.

Lemma set_prev_run h N P a v :
  pointers h N P -> is_Some (h !! a) ->
  exists h', set_l_prev a v h = Some h' /\ pointers h' N (upd P a v) /\ dom h' = dom h.
Proof.
  intros Hp [n Hn]. unfold set_l_prev. rewrite Hn. eexists. split; [done|]. split.
  - intros b. destruct (Hp b) as [E1 E2]. unfold upd, get_next, get_prev in *. destruct (decide (b = a)) as [->|];
      [rewrite lookup_insert_eq; rewrite Hn in E1, E2; cbn in *; by split|by rewrite lookup_insert_ne].
  - rewrite dom_insert_L. apply (elem_of_dom_2 (D := gset Z)) in Hn. set_solver.
Qed.

Lemma alive_dom (h h' : lheap) a : dom h' = dom h -> is_Some (h !! a) -> is_Some (h' !! a).
Proof. intros E. rewrite <- !elem_of_dom. by rewrite E. Qed.

(** Runs one assignment. *)
Ltac assign_with lem h a v :=
  let h' := fresh "h" in let Hp := fresh "Hp" in let Hd := fresh "Hd" in let Hr := fresh "Hr" in
  edestruct (fun N P => lem h N P a v) as (h' & Hr & Hp & Hd);
    [eassumption|eauto 6 using alive_dom|rewrite Hr; clear Hr; cbn [mbind option_bind]].
Ltac assign :=
  match goal with
  | |- context [set_l_next ?a ?v ?h] => assign_with set_next_run h a v
  | |- context [set_l_prev ?a ?v ?h] => assign_with set_prev_run h a v
  end.

Lemma list_add_raw h new prev next :
  is_Some (h !! new) -> is_Some (h !! prev) -> is_Some (h !! next) ->
  exists h', __list_add new prev next h = Some h' /\ dom h' = dom h /\
    pointers h' (upd (upd (fun b => get_next b h) new next) prev new)
                (upd (upd (fun b => get_prev b h) next new) new prev).
Proof.
  intros ? ? ?. unfold __list_add. pose proof (pointers_self h) as Hp0.
  repeat assign. eexists. split; [done|]. split; [congruence|done].
Qed.

Lemma list_del_raw h prev next :
  is_Some (h !! prev) -> is_Some (h !! next) ->
  exists h', __list_del prev next h = Some h' /\ dom h' = dom h /\
    pointers h' (upd (fun b => get_next b h) prev next) (upd (fun b => get_prev b h) next prev).
Proof.
  intros ? ?. unfold __list_del. pose proof (pointers_self h) as Hp0.
  repeat assign. eexists. split; [done|]. split; [congruence|done].
Qed.

Lemma init_run h N P a :
  pointers h N P -> is_Some (h !! a) ->
  exists h', INIT_LIST_HEAD a h = Some h' /\ dom h' = dom h /\ pointers h' (upd N a a) (upd P a a).
Proof.
  intros ? ?. unfold INIT_LIST_HEAD. repeat assign. eexists. split; [done|]. split; [congruence|done].
Qed.

(** An object is what its two pointers are. *)
Lemma lookup_pointers (h h' : lheap) z :
  get_next z h' = get_next z h -> get_prev z h' = get_prev z h -> h' !! z = h !! z.
Proof.
  unfold get_next, get_prev. destruct (h !! z) as [[? ?]|], (h' !! z) as [[? ?]|]; cbn; congruence.
Qed.

(** ** Sequences in parts *)

Lemma list_final_cons a x l : final a (x :: l) = final x l.
Proof. unfold final. rewrite last_cons. by destruct (last l). Qed.
Lemma final_elem a l : final a l ∈ a :: l.
Proof.
  revert a. induction l as [|x l IH]; intros a; [left|]. rewrite list_final_cons. right. apply IH.
Qed.
Lemma first_elem l b : first l b ∈ l ++ [b].
Proof. destruct l; left. Qed.

(** The nodes from [a] on without what follows the last one, and those up to [b]. *)
Fixpoint left_part (h : lheap) (a : Z) (l : list Z) : Prop :=
  match l with
  | [] => True
  | x :: l => get_next a h = Some x /\ get_prev x h = Some a /\ left_part h x l
  end.
Definition right_part (h : lheap) (l : list Z) (b : Z) : Prop :=
  match l with [] => True | x :: l => links h x l b end.

Lemma links_right h a l b :
  links h a l b <-> (get_next a h = Some (first l b) /\ get_prev (first l b) h = Some a) /\ right_part h l b.
Proof. destruct l; cbn; tauto. Qed.

Lemma links_parts h a l1 lm l2 b :
  links h a (l1 ++ lm ++ l2) b <->
  left_part h a l1 /\ links h (final a l1) lm (first l2 b) /\ right_part h l2 b.
Proof.
  revert a. induction l1 as [|x l1 IH]; intros a; cbn [app left_part].
  - change (final a []) with a. revert a. induction lm as [|y lm IH]; intros a; cbn [app links].
    + rewrite links_right. tauto.
    + rewrite IH. tauto.
  - cbn [links]. rewrite IH, list_final_cons. tauto.
Qed.

Lemma left_frame h h' a l :
  NoDup (a :: l) -> (forall x, x ∈ a :: l -> x <> final a l -> get_next x h' = get_next x h) ->
  (forall x, x ∈ l -> get_prev x h' = get_prev x h) -> left_part h a l -> left_part h' a l.
Proof.
  revert a. induction l as [|x l IH]; intros a; [done|]. cbn [left_part]. rewrite list_final_cons.
  intros [Ha Hd]%NoDup_cons Hn Hp (? & ? & Hl). rewrite Hn, Hp; [|left|left|].
  - split_and!; try done. apply IH; try done; intros y Hy; [intros ?; apply Hn; [by right|done]|apply Hp; by right].
  - intros ->. apply Ha, final_elem.
Qed.

Lemma links_frame h h' a l b :
  (forall x, x ∈ a :: l -> get_next x h' = get_next x h) -> (forall x, x ∈ l ++ [b] -> get_prev x h' = get_prev x h) ->
  links h a l b -> links h' a l b.
Proof.
  revert a. induction l as [|x l IH]; intros a Hn Hp; cbn [links].
  - rewrite Hn, Hp by left. done.
  - intros (? & ? & Hl). rewrite Hn, Hp by left. split_and!; try done.
    apply IH; try done; intros y Hy; [apply Hn|apply Hp]; by right.
Qed.

Lemma right_frame h h' l b :
  NoDup (l ++ [b]) -> (forall x, x ∈ l -> get_next x h' = get_next x h) ->
  (forall x, x ∈ l ++ [b] -> x <> first l b -> get_prev x h' = get_prev x h) -> right_part h l b -> right_part h' l b.
Proof.
  destruct l as [|x l]; [done|]. cbn [app right_part]. intros [Hx Hd]%NoDup_cons Hn Hp. apply links_frame; [done|].
  intros y Hy. apply Hp; [by right|]. by intros ->.
Qed.

(** A change between [l1] and [l2]: the pointers of the others stay. *)
Record around (h h' : lheap) (head : Z) (l1 l2 : list Z) : Prop := {
  ar_next : forall x, x ∈ head :: l1 ++ l2 -> x <> final head l1 -> get_next x h' = get_next x h;
  ar_prev : forall x, x ∈ head :: l1 ++ l2 -> x <> first l2 head -> get_prev x h' = get_prev x h
}.

Lemma ring_replace h h' head l1 lm lm' l2 :
  ring h head (l1 ++ lm ++ l2) -> around h h' head l1 l2 -> links h' (final head l1) lm' (first l2 head) ->
  NoDup (head :: l1 ++ lm' ++ l2) -> ring h' head (l1 ++ lm' ++ l2).
Proof.
  intros [Hl Hd] [Hn Hp] Hm Hd'. split; [|done]. apply links_parts in Hl as (H1 & _ & H2). apply links_parts.
  assert (NoDup (head :: l1 ++ l2)) as Hd0.
  { eapply sublist_NoDup; [exact Hd|]. apply sublist_skip, sublist_app; [done|]. by apply sublist_inserts_l. }
  pose proof Hd0 as [Hh (Hd1 & Hx & Hd2)%NoDup_app]%NoDup_cons. rewrite not_elem_of_app in Hh. destruct Hh as [Hh1 Hh2].
  assert (forall x, x ∈ l1 -> x <> first l2 head) as Hf.
  { intros x Hin ->. destruct l2 as [|z l2]; [done|]. apply (Hx z); [done|left]. }
  assert (forall x, x ∈ l2 -> x <> final head l1) as Hf2.
  { intros x Hin ->. pose proof (final_elem head l1) as [E|He]%elem_of_cons; [by rewrite E in Hin|by eapply Hx]. }
  split_and!; [|done|].
  - apply (left_frame h); try done; [by apply NoDup_cons| |].
    + intros x Hin ?. apply Hn; [|done]. apply elem_of_cons in Hin as [->|]; [left|right; apply elem_of_app; auto].
    + intros x Hin. apply Hp; [|auto]. right. apply elem_of_app. auto.
  - apply (right_frame h); try done.
    + apply NoDup_app. split_and!; [done| |apply NoDup_singleton]. intros x ? E%list_elem_of_singleton. by subst.
    + intros x Hin. apply Hn; [|auto]. right. apply elem_of_app. auto.
    + intros x [Hin|Hin%list_elem_of_singleton]%elem_of_app ?; subst; apply Hp; try done; [right; apply elem_of_app; auto|left].
Qed.

(** ** Operations *)

(** Everything but the objects [X] stays. *)
Definition keeps (h h' : lheap) (X : list Z) : Prop := forall z, z ∉ X -> h' !! z = h !! z.

Lemma ring_frame h h' head l : ring h head l -> (forall x, x ∈ head :: l -> h' !! x = h !! x) -> ring h' head l.
Proof.
  intros [Hl Hd] Hx. split; [|done]. apply (links_frame h); [..|done]; unfold get_next, get_prev; intros x Hin.
  - by rewrite Hx.
  - rewrite Hx; [done|]. rewrite elem_of_app in Hin. destruct Hin as [?|Hin%list_elem_of_singleton]; [by right|subst; left].
Qed.

Lemma ring_middle h head l1 l2 :
  ring h head (l1 ++ l2) ->
  get_next (final head l1) h = Some (first l2 head) /\ get_prev (first l2 head) h = Some (final head l1).
Proof. intros [Hl _]. change (l1 ++ l2) with (l1 ++ [] ++ l2) in Hl. by apply links_parts in Hl as (_ & Hl & _). Qed.

Lemma links_alive h a l b x : links h a l b -> x ∈ a :: l -> is_Some (h !! x).
Proof.
  revert a. induction l as [|y l IH]; intros a; cbn [links].
  - intros [Hn _] Hx%list_elem_of_singleton. subst. apply next_is_some. by eexists.
  - intros (Hn & _ & Hl) [->|Hx]%elem_of_cons; [apply next_is_some; by eexists|by eapply IH].
Qed.

Lemma ring_alive h head l x : ring h head l -> x ∈ head :: l -> is_Some (h !! x).
Proof. intros [Hl _]. by apply (links_alive h head l head). Qed.

Lemma final_app_elem head l1 l2 : final head l1 ∈ head :: l1 ++ l2.
Proof. pose proof (final_elem head l1) as [->|?]%elem_of_cons; [left|right; apply elem_of_app; auto]. Qed.
Lemma first_app_elem head l1 l2 : first l2 head ∈ head :: l1 ++ l2.
Proof. destruct l2; [left|]. right. apply elem_of_app. right. left. Qed.

Lemma pointers_keeps h h' N P X :
  pointers h' N P -> (forall z, z ∉ X -> N z = get_next z h /\ P z = get_prev z h) -> keeps h h' X.
Proof.
  intros Hp HX z Hz. destruct (Hp z) as [E1 E2], (HX z Hz). apply lookup_pointers; congruence.
Qed.

Lemma NoDup_insert (head new : Z) l1 l2 :
  NoDup (head :: l1 ++ l2) -> new ∉ head :: l1 ++ l2 -> NoDup (head :: l1 ++ new :: l2).
Proof.
  intros Hd Hn. assert ((head :: l1) ++ new :: l2 ≡ₚ new :: head :: l1 ++ l2) as E
    by (symmetry; apply (Permutation_middle (head :: l1))).
  cbn [app] in E. rewrite E. by apply NoDup_cons.
Qed.

Lemma insert_run h head l1 l2 new :
  ring h head (l1 ++ l2) -> is_Some (h !! new) -> new ∉ head :: l1 ++ l2 ->
  exists h', __list_add new (final head l1) (first l2 head) h = Some h' /\
    ring h' head (l1 ++ new :: l2) /\ dom h' = dom h /\ keeps h h' (new :: head :: l1 ++ l2).
Proof.
  intros Hr Hnew Hout. pose proof (final_app_elem head l1 l2) as Hp. pose proof (first_app_elem head l1 l2) as Hn.
  destruct (list_add_raw h new (final head l1) (first l2 head)) as (h' & Hrun & Hd & Hptr);
    [done|by eapply ring_alive..|].
  assert (forall x, x ∈ head :: l1 ++ l2 -> x <> new) as Hne by (intros x ? ->; done).
  exists h'. split; [done|]. split; [|split; [done|]].
  - apply (ring_replace h h' head l1 [] [new] l2); [done| | |].
    + split; intros x Hx Hx'; destruct (Hptr x) as [E1 E2]; [rewrite E1|rewrite E2]; by rewrite !upd_ne by auto.
    + cbn. destruct (Hptr (final head l1)) as [-> _], (Hptr new) as [-> ->], (Hptr (first l2 head)) as [_ ->].
      rewrite !upd_eq, (upd_ne _ _ _ new), upd_eq, (upd_ne _ new _ (first l2 head)), upd_eq; auto.
      intros E. symmetry in E. by apply (Hne _ Hp).
    + by apply NoDup_insert; [apply Hr|].
  - eapply pointers_keeps; [done|]. intros z [Hz1 Hz2]%not_elem_of_cons.
    rewrite !upd_ne; [done|..]; (by intros ->) || done.
Qed.

Lemma NoDup_remove_node (head e : Z) l1 l2 :
  NoDup (head :: l1 ++ e :: l2) -> e ∉ head :: l1 ++ l2 /\ NoDup (head :: l1 ++ l2).
Proof.
  assert ((head :: l1) ++ e :: l2 ≡ₚ e :: head :: l1 ++ l2) as E by (symmetry; apply (Permutation_middle (head :: l1))).
  cbn [app] in E. rewrite E. by intros ?%NoDup_cons.
Qed.

(** The node is out, and its own pointers are as they were. *)
Lemma unlink_run h head l1 e l2 :
  ring h head (l1 ++ e :: l2) ->
  exists h', unlink e h = Some h' /\ ring h' head (l1 ++ l2) /\ dom h' = dom h /\ h' !! e = h !! e /\
    keeps h h' (head :: l1 ++ l2).
Proof.
  intros Hr. pose proof Hr as [Hl Hd]. destruct (NoDup_remove_node _ _ _ _ Hd) as [He Hd'].
  destruct (ring_middle h head l1 (e :: l2) Hr) as [_ Hprev].
  assert (get_next e h = Some (first l2 head)) as Hnext.
  { pose proof (ring_middle h head (l1 ++ [e]) l2) as Hm. rewrite <- app_assoc in Hm. apply Hm in Hr as [Hm' _].
    unfold final in Hm'. by rewrite last_snoc in Hm'. }
  cbn in Hprev. unfold unlink. rewrite Hprev, Hnext. cbn [mbind option_bind].
  pose proof (final_app_elem head l1 l2) as Hp. pose proof (first_app_elem head l1 l2) as Hn.
  assert (forall x, x ∈ head :: l1 ++ l2 -> is_Some (h !! x)) as Hal.
  { intros x Hx. apply (ring_alive h head (l1 ++ e :: l2)); [done|]. rewrite <- (Permutation_middle l1 l2 e).
    apply elem_of_cons in Hx as [->|]; [left|right; by right]. }
  destruct (list_del_raw h (final head l1) (first l2 head)) as (h' & Hrun & Hdom & Hptr); [by apply Hal..|].
  assert (keeps h h' (head :: l1 ++ l2)) as Hk.
  { eapply pointers_keeps; [done|]. intros z Hz. by rewrite !upd_ne by (intros ->; done). }
  exists h'. split_and!; [done| |done|by apply Hk|done].
  apply (ring_replace h h' head l1 [e] [] l2); [done| | |done].
  - split; intros x Hx Hx'; destruct (Hptr x) as [E1 E2]; [rewrite E1|rewrite E2]; by rewrite !upd_ne by auto.
  - cbn. destruct (Hptr (final head l1)) as [-> _], (Hptr (first l2 head)) as [_ ->]. by rewrite !upd_eq.
Qed.

Lemma keeps_trans h h1 h2 X Y Z : keeps h h1 X -> keeps h1 h2 Y -> X ⊆ Z -> Y ⊆ Z -> keeps h h2 Z.
Proof. intros H1 H2 ? ? z Hz. rewrite H2, H1; [done|set_solver..]. Qed.

(** Assignments to an object outside of the list. *)
Lemma ring_outside h h' head l e : ring h head l -> e ∉ head :: l -> keeps h h' [e] -> ring h' head l.
Proof.
  intros Hr He Hk. apply (ring_frame h); [done|]. intros x Hx. apply Hk. intros E%list_elem_of_singleton. by subst.
Qed.

Lemma del_run h head l1 e l2 :
  ring h head (l1 ++ e :: l2) ->
  exists h', list_del e h = Some h' /\ ring h' head (l1 ++ l2) /\ dom h' = dom h /\
    h' !! e = Some (mk_list LIST_POISON1 LIST_POISON2) /\ keeps h h' (e :: head :: l1 ++ l2).
Proof.
  intros Hr. destruct (unlink_run _ _ _ _ _ Hr) as (h1 & Hrun & Hr1 & Hd1 & He & Hk1). unfold list_del. rewrite Hrun.
  cbn [mbind option_bind]. destruct (NoDup_remove_node _ _ _ _ (proj2 Hr)) as [Hout _].
  destruct (ring_alive h head (l1 ++ e :: l2) e Hr) as [n Hn]; [rewrite <- (Permutation_middle l1 l2 e); right; left|].
  rewrite Hn in He. unfold set_l_next, set_l_prev. rewrite He. cbn [mbind option_bind]. rewrite lookup_insert_eq.
  cbn [mbind option_bind]. rewrite insert_insert_eq. eexists. split; [done|].
  assert (keeps h1 (<[e := mk_list LIST_POISON1 LIST_POISON2]> h1) [e]) as Hk2.
  { intros z Hz. apply lookup_insert_ne. intros ->. apply Hz. left. }
  split_and!; [by eapply ring_outside| |apply lookup_insert_eq|].
  - rewrite dom_insert_L, <- Hd1. apply (elem_of_dom_2 (D := gset Z)) in He. set_solver.
  - eapply keeps_trans; [done|done|set_solver..].
Qed.

Lemma del_init_run h head l1 e l2 :
  ring h head (l1 ++ e :: l2) ->
  exists h', list_del_init e h = Some h' /\ ring h' head (l1 ++ l2) /\ ring h' e [] /\ dom h' = dom h /\
    keeps h h' (e :: head :: l1 ++ l2).
Proof.
  intros Hr. destruct (unlink_run _ _ _ _ _ Hr) as (h1 & Hrun & Hr1 & Hd1 & He & Hk1). unfold list_del_init. rewrite Hrun.
  cbn [mbind option_bind]. destruct (NoDup_remove_node _ _ _ _ (proj2 Hr)) as [Hout _].
  destruct (init_run h1 _ _ e (pointers_self h1)) as (h2 & Hrun2 & Hd2 & Hp2).
  { rewrite He. apply (ring_alive h head (l1 ++ e :: l2) e Hr). rewrite <- (Permutation_middle l1 l2 e). right. left. }
  assert (keeps h1 h2 [e]) as Hk2.
  { eapply pointers_keeps; [done|]. intros z Hz. by rewrite !upd_ne by (intros ->; apply Hz; left). }
  exists h2. split; [done|]. split_and!; [by eapply ring_outside| |congruence|eapply keeps_trans; [done|done|set_solver..]].
  split; [|apply NoDup_singleton]. cbn. destruct (Hp2 e) as [-> ->]. by rewrite !upd_eq.
Qed.

Lemma add_run h head l new :
  ring h head l -> is_Some (h !! new) -> new ∉ head :: l ->
  exists h', list_add new head h = Some h' /\ ring h' head (new :: l) /\ dom h' = dom h /\ keeps h h' (new :: head :: l).
Proof.
  intros Hr Hnew Hout. destruct (ring_middle h head [] l Hr) as [Hn _]. unfold list_add.
  change (get_next head h) with (get_next (final head []) h). rewrite Hn. cbn [mbind option_bind].
  by apply (insert_run h head [] l new).
Qed.

Lemma add_tail_run h head l new :
  ring h head l -> is_Some (h !! new) -> new ∉ head :: l ->
  exists h', list_add_tail new head h = Some h' /\ ring h' head (l ++ [new]) /\ dom h' = dom h /\ keeps h h' (new :: head :: l).
Proof.
  intros Hr Hnew Hout. pose proof (insert_run h head l [] new) as Hins. pose proof (ring_middle h head l []) as Hm.
  rewrite app_nil_r in Hins, Hm. destruct (Hm Hr) as [_ Hp].
  unfold list_add_tail. change (get_prev head h) with (get_prev (first [] head) h). rewrite Hp. by apply Hins.
Qed.

Lemma empty_run h head l : ring h head l -> list_empty head h = Some (bool_decide (l = [])).
Proof.
  intros [Hl [Hd _]%NoDup_cons]. unfold list_empty. destruct l as [|x l]; cbn in Hl; destruct Hl as [-> _]; cbn.
  - by rewrite Z.eqb_refl.
  - f_equal. apply Z.eqb_neq. intros ->. apply Hd. left.
Qed.

(** ** Moving *)

(** What [add] does with an object outside of the list at [b]. *)
Definition adds (add : Z -> Z -> lheap -> option lheap) (b e : Z) (lb lb' : list Z) : Prop :=
  forall h, ring h b lb -> is_Some (h !! e) -> e ∉ b :: lb ->
  exists h', add e b h = Some h' /\ ring h' b lb' /\ dom h' = dom h /\ keeps h h' (e :: b :: lb).

(** From one list to another. *)
Lemma moved add h a l1 e l2 b lb lb' :
  adds add b e lb lb' ->
  ring h a (l1 ++ e :: l2) -> ring h b lb -> (forall x, x ∈ a :: l1 ++ e :: l2 -> x ∉ b :: lb) ->
  exists h', (h ← unlink e h; add e b h) = Some h' /\ ring h' a (l1 ++ l2) /\ ring h' b lb' /\
    keeps h h' ((a :: l1 ++ e :: l2) ++ b :: lb).
Proof.
  intros Hadd Ha Hb Hdis. destruct (unlink_run _ _ _ _ _ Ha) as (h1 & -> & Ha1 & Hd1 & He & Hk1).
  cbn [mbind option_bind]. destruct (NoDup_remove_node _ _ _ _ (proj2 Ha)) as [Hout _].
  assert (forall x, x ∈ a :: l1 ++ l2 -> x ∉ b :: lb) as Hdis1 by (intros x Hx; apply Hdis; set_solver).
  assert (e ∈ a :: l1 ++ e :: l2) as Hin by set_solver.
  assert (ring h1 b lb) as Hb1.
  { apply (ring_frame h); [done|]. intros x Hx. apply Hk1. intros Hx'. by apply (Hdis1 x Hx'). }
  destruct (Hadd h1 Hb1) as (h2 & Hrun2 & Hb2 & Hd2 & Hk2); [rewrite He; by apply (ring_alive h a (l1 ++ e :: l2))|by apply Hdis|].
  exists h2. split_and!; [done| |done|].
  - apply (ring_frame h1); [done|]. intros x Hx. apply Hk2. apply not_elem_of_cons. split; [by intros ->|by apply Hdis1].
  - eapply keeps_trans; [exact Hk1|exact Hk2|set_solver..].
Qed.

(** Inside of a list. *)
Lemma moved_inside add h head l1 e l2 l' :
  adds add head e (l1 ++ l2) l' -> ring h head (l1 ++ e :: l2) ->
  exists h', (h ← unlink e h; add e head h) = Some h' /\ ring h' head l' /\ keeps h h' (head :: l1 ++ e :: l2).
Proof.
  intros Hadd Hr. destruct (unlink_run _ _ _ _ _ Hr) as (h1 & -> & Hr1 & Hd1 & He & Hk1).
  cbn [mbind option_bind]. destruct (NoDup_remove_node _ _ _ _ (proj2 Hr)) as [Hout _].
  destruct (Hadd h1 Hr1) as (h2 & ? & ? & _ & Hk2); [|done|].
  { rewrite He. apply (ring_alive h head (l1 ++ e :: l2) e Hr). set_solver. }
  exists h2. split_and!; [done|done|]. eapply keeps_trans; [exact Hk1|exact Hk2|set_solver..].
Qed.

Lemma adds_front b e lb : adds list_add b e lb (e :: lb).
Proof. intros h. apply add_run. Qed.
Lemma adds_tail b e lb : adds list_add_tail b e lb (lb ++ [e]).
Proof. intros h. apply add_tail_run. Qed.

(** ** Joining *)

Lemma splice_raw h list x ls head l :
  ring h list (x :: ls) -> ring h head l -> (forall z, z ∈ list :: x :: ls -> z ∉ head :: l) ->
  exists h', __list_splice list head h = Some h' /\ dom h' = dom h /\
    pointers h' (upd (upd (fun b => get_next b h) head x) (final x ls) (first l head))
                (upd (upd (fun b => get_prev b h) x head) (first l head) (final x ls)).
Proof.
  intros Hls Hl Hdis. destruct (ring_middle h list [] (x :: ls) Hls) as [E1 _].
  pose proof (ring_middle h list (x :: ls) []) as E2. rewrite app_nil_r in E2. destruct (E2 Hls) as [_ E2'].
  destruct (ring_middle h head [] l Hl) as [E3 _]. rewrite list_final_cons in E2'.
  change (final list []) with list in E1. change (first [] list) with list in E2'. change (final head []) with head in E3.
  unfold __list_splice. rewrite E1, E2', E3. cbn [mbind option_bind]. change (first (x :: ls) list) with x.
  pose proof (pointers_self h) as Hp0.
  assert (is_Some (h !! x)) by (eapply ring_alive; [exact Hls|right; left]).
  assert (is_Some (h !! head)) by (eapply ring_alive; [exact Hl|left]).
  assert (is_Some (h !! final x ls)) by (eapply ring_alive; [exact Hls|right; apply final_elem]).
  assert (is_Some (h !! first l head)) by (eapply ring_alive; [exact Hl|apply (first_app_elem head [] l)]).
  repeat assign. eexists. split; [done|]. split; [congruence|done].
Qed.

Lemma splice_run h list x ls head l :
  ring h list (x :: ls) -> ring h head l -> (forall z, z ∈ list :: x :: ls -> z ∉ head :: l) ->
  exists h', __list_splice list head h = Some h' /\ ring h' head ((x :: ls) ++ l) /\ dom h' = dom h /\
    keeps h h' (head :: (x :: ls) ++ l).
Proof.
  intros Hls Hl Hdis. destruct (splice_raw _ _ _ _ _ _ Hls Hl Hdis) as (h' & Hrun & Hd & Hptr).
  pose proof (first_app_elem head [] l) as Hat. cbn [app] in Hat.
  assert (forall z, z ∈ x :: ls -> z ∉ head :: l) as Hdis1 by (intros z Hz; apply Hdis; by right).
  assert (forall z y, z ∈ x :: ls -> y ∈ head :: l -> z <> y) as Hne by (intros z y Hz Hy ->; by apply (Hdis1 y)).
  pose proof (final_elem x ls) as Hlast. destruct Hls as [Hlinks [_ Hnd]%NoDup_cons].
  exists h'. split; [done|]. split_and!; [|done|].
  - apply (ring_replace h h' head [] [] (x :: ls) l); [done| | |].
    + split; intros z Hz Hz'; destruct (Hptr z) as [E1 E2]; [rewrite E1|rewrite E2]; rewrite !upd_ne; try done; intros ->;
        [by apply (Hdis1 (final x ls))|apply (Hdis1 x); [left|done]].
    + change (final head []) with head. cbn [links]. destruct (Hptr head) as [-> _], (Hptr x) as [_ ->].
      assert (x ∈ x :: ls) as Hx by left.
      assert (x <> first l head) by by apply Hne. assert (head <> final x ls) by (apply not_eq_sym, Hne; [done|left]).
      rewrite (upd_ne _ (final x ls)), upd_eq, (upd_ne _ (first l head)), upd_eq by done. split_and!; try done.
      destruct Hlinks as (_ & _ & Hlinks).
      rewrite <- (app_nil_r ls) in Hlinks. apply (links_parts h x ls [] []) in Hlinks as (Hleft & _ & _).
      rewrite <- (app_nil_r ls). apply (links_parts h' x ls [] []). split_and!; [|cbn|done].
      * apply (left_frame h); [done| | |done]; intros z Hz; [intros Hz'|]; destruct (Hptr z) as [E1 E2];
          [rewrite E1|rewrite E2]; rewrite !upd_ne; try done.
        -- intros ->. by apply (Hdis1 head); [|left].
        -- intros ->. by apply NoDup_cons in Hnd as [? _].
        -- intros ->. by apply (Hdis1 (first l head)); [right|].
      * destruct (Hptr (final x ls)) as [-> _], (Hptr (first l head)) as [_ ->]. by rewrite !upd_eq.
    + destruct Hl as [_ [Hh Hndl]%NoDup_cons]. cbn [app]. apply NoDup_cons. split.
      * intros [->|[Hin|Hin]%elem_of_app]%elem_of_cons; [by apply (Hdis1 x); left| |done].
        by apply (Hdis1 head); [right|left].
      * apply (NoDup_app (x :: ls) l). split_and!; [done| |done]. intros z Hz Hz'. apply (Hdis1 z); [done|by right].
  - eapply pointers_keeps; [done|]. intros z Hz.
    assert (forall y, y ∈ head :: (x :: ls) ++ l -> z <> y) as Hzy by (intros y Hy ->; done).
    rewrite !upd_ne; [done|apply Hzy..].
    + right. left.
    + apply elem_of_cons in Hat as [->|Hat]; [left|right; apply elem_of_app; by right].
    + left.
    + right. apply elem_of_app. by left.
Qed.

Lemma splice_list_run h list ls head l :
  ring h list ls -> ring h head l -> (forall z, z ∈ list :: ls -> z ∉ head :: l) ->
  (exists h', list_splice list head h = Some h' /\ ring h' head (ls ++ l) /\ keeps h h' (head :: ls ++ l)) /\
  (exists h', list_splice_init list head h = Some h' /\ ring h' head (ls ++ l) /\ ring h' list [] /\
              keeps h h' (list :: head :: ls ++ l)).
Proof.
  intros Hls Hl Hdis. unfold list_splice, list_splice_init. rewrite (empty_run h list ls) by done. cbn [mbind option_bind].
  destruct ls as [|x ls]; [by split; exists h|]. change (bool_decide (x :: ls = [])) with false. cbn [negb].
  destruct (splice_run _ _ _ _ _ _ Hls Hl Hdis) as (h1 & Hrun & Hr & Hd & Hk). rewrite Hrun. cbn [mbind option_bind].
  split; [by exists h1|]. destruct (init_run h1 _ _ list (pointers_self h1)) as (h2 & Hrun2 & Hd2 & Hp2).
  { apply (alive_dom h); [done|]. eapply ring_alive; [exact Hls|left]. }
  assert (keeps h1 h2 [list]) as Hk2.
  { eapply pointers_keeps; [done|]. intros z Hz. by rewrite !upd_ne by (intros ->; apply Hz; left). }
  exists h2. split; [done|]. split_and!.
  - apply (ring_outside h1 h2 head _ list); [done| |done].
    destruct Hls as [_ [Hin _]%NoDup_cons]. intros [->|[?|?]%elem_of_app]%elem_of_cons; [by apply (Hdis head); left|done|].
    apply (Hdis list); [left|by right].
  - split; [|apply NoDup_singleton]. cbn. destruct (Hp2 list) as [-> ->]. by rewrite !upd_eq.
  - eapply keeps_trans; [exact Hk|exact Hk2|set_solver..].
Qed.

(** ** Lists that are read while they change *)

Lemma pointers_eq h h' N P : pointers h N P -> pointers h' N P -> h = h'.
Proof.
  intros H H'. apply map_eq. intros z. destruct (H z), (H' z). apply lookup_pointers; congruence.
Qed.

(** The other order of the assignments gives the same heap. *)
Lemma add_rcu_same h new prev next :
  is_Some (h !! new) -> is_Some (h !! prev) -> is_Some (h !! next) -> new <> next ->
  __list_add_rcu new prev next h = __list_add new prev next h.
Proof.
  intros Hn Hp Hx Hne. destruct (list_add_raw h new prev next Hn Hp Hx) as (h' & -> & _ & Hptr).
  unfold __list_add_rcu. pose proof (pointers_self h) as Hp0. repeat assign. f_equal.
  eapply pointers_eq; [eassumption|]. intros z. destruct (Hptr z) as [-> ->]. split; [done|].
  unfold upd. repeat case_decide; congruence.
Qed.

(** After [list_del_rcu] a reader that is at the entry goes on to the entries after it. *)
Lemma del_rcu_run h head l1 e l2 :
  ring h head (l1 ++ e :: l2) ->
  exists h', list_del_rcu e h = Some h' /\ ring h' head (l1 ++ l2) /\
    get_next e h' = Some (first l2 head) /\ right_part h' l2 head.
Proof.
  intros Hr. destruct (unlink_run _ _ _ _ _ Hr) as (h1 & Hrun & Hr1 & Hd1 & He & Hk1). unfold list_del_rcu. rewrite Hrun.
  cbn [mbind option_bind]. destruct (NoDup_remove_node _ _ _ _ (proj2 Hr)) as [Hout _].
  assert (get_next e h = Some (first l2 head)) as Hnext.
  { pose proof (ring_middle h head (l1 ++ [e]) l2) as Hm. rewrite <- app_assoc in Hm. apply Hm in Hr as [Hm' _].
    unfold final in Hm'. by rewrite last_snoc in Hm'. }
  destruct (set_prev_run h1 _ _ e LIST_POISON2 (pointers_self h1)) as (h2 & Hrun2 & Hp2 & _).
  { apply (alive_dom h); [done|]. apply (ring_alive h head (l1 ++ e :: l2) e Hr).
    rewrite <- (Permutation_middle l1 l2 e). right. left. }
  assert (ring h2 head (l1 ++ l2)) as Hr2.
  { apply (ring_outside h1 h2 head _ e); [done|done|]. eapply pointers_keeps; [done|]. intros z Hz.
    by rewrite !upd_ne by (intros ->; apply Hz; left). }
  exists h2. split_and!; [done|done| |].
  - destruct (Hp2 e) as [-> _]. unfold get_next in *. by rewrite He.
  - destruct Hr2 as [Hl _]. change (l1 ++ l2) with (l1 ++ [] ++ l2) in Hl. by apply links_parts in Hl as (_ & _ & Hl).
Qed.

(** ** Loops *)

Section Visits.
Context {A : Type} (f : Z -> A -> A).

(** A body that only reads the heap visits the nodes in order. *)
Lemma each_next_run h fuel a l b x :
  links h a l b -> b ∉ l -> (length l < fuel)%nat ->
  each_loop (fun pos x h => Some (f pos x, h)) get_next fuel (first l b) b x h = Some (foldl (fun x pos => f pos x) x l, h).
Proof.
  revert fuel a x. induction l as [|y l IH]; intros [|fuel] a x Hl Hb Hf; try (cbn in Hf; lia); cbn [each_loop].
  - by rewrite Z.eqb_refl.
  - change (first (y :: l) b) with y. apply not_elem_of_cons in Hb as [Hne Hb].
    rewrite (proj2 (Z.eqb_neq y b)) by done. cbn [mbind option_bind]. destruct Hl as (_ & _ & Hl).
    pose proof Hl as Hl'. apply links_right in Hl' as [[-> _] _]. cbn [mbind option_bind foldl]. apply (IH fuel y); [done|done|cbn in Hf; lia].
Qed.

Lemma links_final h a l x b : links h a (l ++ [x]) b <-> links h a l x /\ get_next x h = Some b /\ get_prev b h = Some x.
Proof. revert a. induction l as [|y l IH]; intros a; cbn [app links]; [|rewrite IH]; tauto. Qed.

Lemma each_prev_run h fuel a l b x :
  links h a l b -> a ∉ l -> (length l < fuel)%nat ->
  each_loop (fun pos x h => Some (f pos x, h)) get_prev fuel (final a l) a x h = Some (foldl (fun x pos => f pos x) x (rev l), h).
Proof.
  revert fuel b x. induction l as [|y l IH] using rev_ind; intros [|fuel] b x Hl Ha Hf; rewrite ?length_app in Hf; try (cbn in Hf; lia);
    cbn [each_loop].
  - by rewrite Z.eqb_refl.
  - assert (final a (l ++ [y]) = y) as -> by (unfold final; by rewrite last_snoc). rewrite not_elem_of_app in Ha. destruct Ha as [Ha Hy].
    rewrite (proj2 (Z.eqb_neq y a)) by (intros ->; apply Hy; left). cbn [mbind option_bind].
    apply links_final in Hl as (Hl & _ & _).
    assert (get_prev y h = Some (final a l)) as ->.
    { pose proof (links_parts h a l [] [] y) as Hp. cbn [app] in Hp. rewrite app_nil_r in Hp. apply Hp in Hl as (_ & [_ ?] & _). done. }
    cbn [mbind option_bind]. rewrite rev_app_distr. cbn [rev app foldl]. apply (IH fuel y); [done|done|cbn in Hf; lia].
Qed.
End Visits.

(** A body that deletes the entry it gets. *)
Definition del_body (pos : Z) (seen : list Z) (h : lheap) : option (list Z * lheap) :=
  h ← list_del pos h; Some (seen ++ [pos], h).

Lemma each_safe_del fuel head l n seen h :
  ring h head l -> get_next (first l head) h = Some n -> (length l < fuel)%nat ->
  exists h', each_safe_loop del_body fuel (first l head) n head seen h = Some (seen ++ l, h') /\ ring h' head [].
Proof.
  revert fuel n seen h. induction l as [|x l IH]; intros [|fuel] n seen h Hr Hn Hf; try (cbn in Hf; lia); cbn [each_safe_loop].
  - exists h. change (first [] head) with head. by rewrite Z.eqb_refl, app_nil_r.
  - change (first (x :: l) head) with x in *. pose proof Hr as [(_ & _ & Hl) [Hx _]%NoDup_cons].
    rewrite (proj2 (Z.eqb_neq x head)) by (intros ->; apply Hx; left).
    assert (n = first l head) as -> by (apply links_right in Hl as [[Hl _] _]; congruence).
    destruct (del_run h head [] x l Hr) as (h1 & Hrun & Hr1 & _). assert (del_body x seen h = Some (seen ++ [x], h1)) as -> by (unfold del_body; by rewrite Hrun).
    cbn [mbind option_bind].
    destruct (ring_alive h1 head l (first l head) Hr1) as [o Ho]; [apply (first_app_elem head [] l)|].
    assert (get_next (first l head) h1 = Some (l_next o)) as Hn1 by (unfold get_next; by rewrite Ho).
    rewrite Hn1. cbn [mbind option_bind].
    destruct (IH fuel (l_next o) (seen ++ [x]) h1 Hr1 Hn1) as (h' & -> & Hr'); [cbn in Hf; lia|].
    exists h'. by rewrite <- app_assoc.
Qed.

(** C32: the lists of linux_list.h are sequences.  Adding in front or at the end, deleting with
    and without initialisation, moving an entry to either end of its own list or of another one,
    testing for emptiness and joining two lists do on the circular lists what they do on the
    sequences of their entries.  Every one of them writes only to objects of the lists it is
    about, so that all other objects, and with them all other lists, stay as they are. *)
Theorem list_refines_sequence h head l :
  ring h head l ->
  (forall new, is_Some (h !! new) -> new ∉ head :: l ->
     (exists h', list_add new head h = Some h' /\ ring h' head (new :: l) /\ keeps h h' (new :: head :: l)) /\
     (exists h', list_add_tail new head h = Some h' /\ ring h' head (l ++ [new]) /\ keeps h h' (new :: head :: l))) /\
  (forall l1 e l2, l = l1 ++ e :: l2 ->
     (exists h', list_del e h = Some h' /\ ring h' head (l1 ++ l2) /\ keeps h h' (e :: head :: l1 ++ l2) /\
                 h' !! e = Some (mk_list LIST_POISON1 LIST_POISON2)) /\
     (exists h', list_del_init e h = Some h' /\ ring h' head (l1 ++ l2) /\ ring h' e [] /\ keeps h h' (e :: head :: l1 ++ l2)) /\
     (exists h', list_move e head h = Some h' /\ ring h' head (e :: l1 ++ l2) /\ keeps h h' (head :: l)) /\
     (exists h', list_move_tail e head h = Some h' /\ ring h' head ((l1 ++ l2) ++ [e]) /\ keeps h h' (head :: l))) /\
  list_empty head h = Some (bool_decide (l = [])) /\
  (forall head2 l', ring h head2 l' -> (forall z, z ∈ head :: l -> z ∉ head2 :: l') ->
     (forall l1 e l2, l = l1 ++ e :: l2 ->
        (exists h', list_move e head2 h = Some h' /\ ring h' head (l1 ++ l2) /\ ring h' head2 (e :: l') /\
                    keeps h h' ((head :: l) ++ head2 :: l')) /\
        (exists h', list_move_tail e head2 h = Some h' /\ ring h' head (l1 ++ l2) /\ ring h' head2 (l' ++ [e]) /\
                    keeps h h' ((head :: l) ++ head2 :: l'))) /\
     (exists h', list_splice head head2 h = Some h' /\ ring h' head2 (l ++ l') /\ keeps h h' (head2 :: l ++ l')) /\
     (exists h', list_splice_init head head2 h = Some h' /\ ring h' head2 (l ++ l') /\ ring h' head [] /\
                 keeps h h' (head :: head2 :: l ++ l'))) /\
  (forall h' X head2 l', ring h head2 l' -> keeps h h' X -> (forall z, z ∈ head2 :: l' -> z ∉ X) -> ring h' head2 l').
Proof.
  intros Hr. split_and!.
  - intros new Hn Hout. destruct (add_run h head l new) as (h1 & ? & ? & _ & ?), (add_tail_run h head l new) as (h2 & ? & ? & _ & ?); eauto 8.
  - intros l1 e l2 ->. destruct (del_run _ _ _ _ _ Hr) as (h1 & ? & ? & _ & ? & ?), (del_init_run _ _ _ _ _ Hr) as (h2 & ? & ? & ? & _ & ?).
    split_and!; [by eauto 8|by eauto 8|..]; (by eapply moved_inside; [apply adds_front || apply adds_tail|]).
  - by apply empty_run.
  - intros head2 l' Hr2 Hdis. split; [|by apply splice_list_run]. intros l1 e l2 ->.
    split; (by eapply moved; [apply adds_front || apply adds_tail|..]).
  - intros h' X head2 l' Hr2 Hk HX. apply (ring_frame h); [done|]. intros x Hx. by apply Hk, HX.
Qed.

(** A loop over a list whose body only reads visits the entries in order, the loop
    backwards in the reverse order, and the loop that is safe against removal visits all
    entries when its body deletes each one, and leaves the empty list. *)
Theorem list_loops_visit {A} (f : Z -> A -> A) h head l x fuel :
  ring h head l -> (length l < fuel)%nat ->
  list_for_each (fun pos x h => Some (f pos x, h)) fuel head x h = Some (foldl (fun x pos => f pos x) x l, h) /\
  list_for_each_prev (fun pos x h => Some (f pos x, h)) fuel head x h = Some (foldl (fun x pos => f pos x) x (rev l), h) /\
  exists h', list_for_each_safe del_body fuel head [] h = Some (l, h') /\ ring h' head [].
Proof.
  intros Hr Hf. pose proof Hr as [Hl [Hd _]%NoDup_cons]. destruct (ring_middle h head [] l Hr) as [Hn _].
  pose proof (ring_middle h head l []) as Hp. rewrite app_nil_r in Hp. destruct (Hp Hr) as [_ Hp'].
  change (final head []) with head in Hn. change (first [] head) with head in Hp'.
  unfold list_for_each, list_for_each_prev, list_for_each_safe. rewrite Hn, Hp'. cbn [mbind option_bind]. split_and!.
  - by apply (each_next_run f h fuel head).
  - by apply (each_prev_run f h fuel head l head).
  - destruct (ring_alive h head l (first l head) Hr) as [o Ho]; [apply (first_app_elem head [] l)|].
    assert (get_next (first l head) h = Some (l_next o)) as Hn1 by (unfold get_next; by rewrite Ho).
    rewrite Hn1. cbn [mbind option_bind]. by apply (each_safe_del fuel head l (l_next o) [] h).
Qed.

(** * Examples *)

(** A list at 1 with the entries 2 and 3, a list at 5 with the entry 6, and the object 4. *)
Definition example_heap : lheap :=
  list_to_map [(1, mk_list 2 3); (2, mk_list 3 1); (3, mk_list 1 2); (4, mk_list 0 0); (5, mk_list 6 6); (6, mk_list 5 5)].

Lemma example_ring : ring example_heap 1 [2; 3].
Proof. split; [done|]. by apply (bool_decide_unpack _). Qed.
Lemma example_ring2 : ring example_heap 5 [6].
Proof. split; [done|]. by apply (bool_decide_unpack _). Qed.

Lemma list_refines_sequence_witness :
  (exists h', list_add 4 1 example_heap = Some h' /\ ring h' 1 [4; 2; 3]) /\
  (exists h', list_del 2 example_heap = Some h' /\ ring h' 1 [3]) /\
  (exists h', list_move_tail 2 5 example_heap = Some h' /\ ring h' 1 [3] /\ ring h' 5 [6; 2]) /\
  (exists h', list_splice 1 5 example_heap = Some h' /\ ring h' 5 [2; 3; 6]).
Proof.
  destruct (list_refines_sequence example_heap 1 [2; 3] example_ring) as (Hadd & Hdel & _ & Htwo & _).
  destruct (Htwo 5 [6] example_ring2) as (Hmove & (h1 & ? & ? & _) & _).
  { intros z Hz. repeat (apply elem_of_cons in Hz as [->|Hz]; [by apply (bool_decide_unpack _)|]). by apply elem_of_nil in Hz. }
  split_and!.
  - destruct (proj1 (Hadd 4 ltac:(by eexists) ltac:(by apply (bool_decide_unpack _)))) as (h' & ? & ? & _). by exists h'.
  - destruct (proj1 (Hdel [] 2 [3] eq_refl)) as (h' & ? & ? & _). by exists h'.
  - destruct (proj2 (Hmove [] 2 [3] eq_refl)) as (h' & ? & ? & ? & _). by exists h'.
  - by exists h1.
Defined.

Lemma list_loops_visit_witness :
  list_for_each (fun pos x h => Some (x + pos, h)) 3 1 0 example_heap = Some (5, example_heap) /\
  exists h', list_for_each_safe del_body 3 1 [] example_heap = Some ([2; 3], h') /\ ring h' 1 [].
Proof.
  destruct (list_loops_visit (fun pos x => x + pos) example_heap 1 [2; 3] 0 3 example_ring ltac:(cbn; lia)) as (H1 & _ & H2).
  by split.
Defined.
