(* ===== verification/LinuxHlist.v ===== *)
(** libnfnetlink/linux_list.h: lists with a single pointer as head.

    A node has the address of the pointer that points to it: the field [first] of a head or
    the field [next] of the node before.  [slot] is the type of these addresses.  NULL is 0. *)
From stdpp Require Import gmap.
From S2P Require Import Prelude LinuxList.

Definition NULL : Z := 0.

Inductive slot :=
| SNull
| SPoison
| SFirst (h : Z)
| SNext (n : Z).

#[global] Instance slot_eq_dec : EqDecision slot.
Proof. solve_decision. Defined.

(** [struct hlist_node]; of [struct hlist_head] the heap has the field [first]. *)
Record hlist_node := mk_hnode { hn_next : Z; hn_pprev : slot }.
Record hheap := mk_hheap { hh_heads : gmap Z Z; hh_nodes : gmap Z hlist_node }.

(** * Accesses *)

(** [*p]. *)
Definition slot_val (p : slot) (h : hheap) : option Z :=
  match p with
  | SFirst a => hh_heads h !! a
  | SNext n => hn_next <$> hh_nodes h !! n
  | SNull | SPoison => None
  end.
Definition set_slot (p : slot) (v : Z) (h : hheap) : option hheap :=
  match p with
  | SFirst a => _ ← hh_heads h !! a; Some (mk_hheap (<[a := v]> (hh_heads h)) (hh_nodes h))
  | SNext n => x ← hh_nodes h !! n; Some (mk_hheap (hh_heads h) (<[n := mk_hnode v (hn_pprev x)]> (hh_nodes h)))
  | SNull | SPoison => None
  end.
Definition get_pprev (n : Z) (h : hheap) : option slot := hn_pprev <$> hh_nodes h !! n.
Definition set_pprev (n : Z) (p : slot) (h : hheap) : option hheap :=
  x ← hh_nodes h !! n; Some (mk_hheap (hh_heads h) (<[n := mk_hnode (hn_next x) p]> (hh_nodes h))).

(** * Operations *)

Definition INIT_HLIST_HEAD (ptr : Z) (h : hheap) : option hheap := set_slot (SFirst ptr) NULL h.
Definition INIT_HLIST_NODE (ptr : Z) (h : hheap) : option hheap := h ← set_slot (SNext ptr) NULL h; set_pprev ptr SNull h.

Definition hlist_unhashed (n : Z) (h : hheap) : option bool := p ← get_pprev n h; Some (bool_decide (p = SNull)).
Definition hlist_empty (a : Z) (h : hheap) : option bool := f ← slot_val (SFirst a) h; Some (f =? NULL).

Definition __hlist_del (n : Z) (h : hheap) : option hheap :=
  next ← slot_val (SNext n) h;
  pprev ← get_pprev n h;
  h ← set_slot pprev next h;
  if negb (next =? NULL) then set_pprev next pprev h else Some h.

Definition hlist_del (n : Z) (h : hheap) : option hheap :=
  h ← __hlist_del n h; h ← set_slot (SNext n) LIST_POISON1 h; set_pprev n SPoison h.
Definition hlist_del_rcu (n : Z) (h : hheap) : option hheap := h ← __hlist_del n h; set_pprev n SPoison h.
Definition hlist_del_init (n : Z) (h : hheap) : option hheap :=
  p ← get_pprev n h;
  if bool_decide (p = SNull) then Some h else h ← __hlist_del n h; INIT_HLIST_NODE n h.

Definition hlist_add_head (n a : Z) (h : hheap) : option hheap :=
  first ← slot_val (SFirst a) h;
  h ← set_slot (SNext n) first h;
  h ← (if negb (first =? NULL) then set_pprev first (SNext n) h else Some h);
  h ← set_slot (SFirst a) n h;
  set_pprev n (SFirst a) h.

Definition hlist_add_head_rcu (n a : Z) (h : hheap) : option hheap :=
  first ← slot_val (SFirst a) h;
  h ← set_slot (SNext n) first h;
  h ← set_pprev n (SFirst a) h;
  h ← (if negb (first =? NULL) then set_pprev first (SNext n) h else Some h);
  set_slot (SFirst a) n h.

Definition hlist_add_before (n next : Z) (h : hheap) : option hheap :=
  p ← get_pprev next h;
  h ← set_pprev n p h;
  h ← set_slot (SNext n) next h;
  h ← set_pprev next (SNext n) h;
  p ← get_pprev n h;
  set_slot p n h.

(** [next] goes after [n]. *)
Definition hlist_add_after (n next : Z) (h : hheap) : option hheap :=
  x ← slot_val (SNext n) h;
  h ← set_slot (SNext next) x h;
  h ← set_slot (SNext n) next h;
  h ← set_pprev next (SNext n) h;
  y ← slot_val (SNext next) h;
  if negb (y =? NULL) then set_pprev y (SNext next) h else Some h.

(** The body can change the heap; the fuel bounds the number of rounds. *)
Fixpoint hlist_loop {A} (body : Z -> A -> hheap -> option (A * hheap)) (fuel : nat) (pos : Z) (x : A) (h : hheap) : option (A * hheap) :=
  match fuel with
  | O => None
  | S fuel =>
      if pos =? NULL then Some (x, h) else
      '(x, h) ← body pos x h;
      next ← slot_val (SNext pos) h;
      hlist_loop body fuel next x h
  end.
Definition hlist_for_each {A} (body : Z -> A -> hheap -> option (A * hheap)) (fuel : nat) (a : Z) (x : A) (h : hheap) :
    option (A * hheap) :=
  pos ← slot_val (SFirst a) h; hlist_loop body fuel pos x h.

(** * Sequences *)

(** The pointer at [p] starts the nodes [l], each of which has the address of the pointer to it. *)
Fixpoint hseq (h : hheap) (p : slot) (l : list Z) : Prop :=
  match l with
  | [] => slot_val p h = Some NULL
  | x :: l => slot_val p h = Some x /\ x <> NULL /\ get_pprev x h = Some p /\ hseq h (SNext x) l
  end.
Definition hlist (h : hheap) (a : Z) (l : list Z) : Prop := hseq h (SFirst a) l /\ NoDup l.

Definition hupd {K V} `{EqDecision K} (f : K -> option V) (k : K) (v : V) : K -> option V :=
  fun b => if decide (b = k) then Some v else f b.

(** The pointers of a heap as functions. *)
Definition hpointers (h : hheap) (N : slot -> option Z) (P : Z -> option slot) : Prop :=
  (forall p, slot_val p h = N p) /\ (forall x, get_pprev x h = P x).

Lemma set_slot_run h N P p v :
  hpointers h N P -> is_Some (N p) -> exists h', set_slot p v h = Some h' /\ hpointers h' (hupd N p v) P.
Proof.
  intros [HN HP] [y Hy]. rewrite <- HN in Hy. destruct p as [| |a|n]; try done; cbn in *.
  - rewrite Hy. eexists. split; [done|]. split; [|done]. intros q. unfold hupd. rewrite <- HN.
    destruct (decide (q = SFirst a)) as [->|Hne]; cbn; [by rewrite lookup_insert_eq|].
    destruct q; try done. cbn. rewrite lookup_insert_ne; [done|congruence].
  - apply fmap_Some in Hy as (x & Hx & ->). rewrite Hx. eexists. split; [done|]. split.
    + intros q. unfold hupd. rewrite <- HN. destruct (decide (q = SNext n)) as [->|Hne]; cbn; [by rewrite lookup_insert_eq|].
      destruct q; try done. cbn. rewrite lookup_insert_ne; [done|congruence].
    + intros q. rewrite <- HP. unfold get_pprev. cbn. destruct (decide (q = n)) as [->|];
        [by rewrite lookup_insert_eq, Hx|by rewrite lookup_insert_ne].
Qed.

Lemma set_pprev_run h N P n p :
  hpointers h N P -> is_Some (P n) -> exists h', set_pprev n p h = Some h' /\ hpointers h' N (hupd P n p).
Proof.
  intros [HN HP] [y Hy]. rewrite <- HP in Hy. unfold get_pprev in Hy. apply fmap_Some in Hy as (x & Hx & ->).
  unfold set_pprev. rewrite Hx. eexists. split; [done|]. split.
  - intros q. rewrite <- HN. destruct q as [| |a|m]; try done. cbn. destruct (decide (m = n)) as [->|];
      [by rewrite lookup_insert_eq, Hx|by rewrite lookup_insert_ne].
  - intros q. unfold hupd. rewrite <- HP. unfold get_pprev. cbn. destruct (decide (q = n)) as [->|];
      [by rewrite lookup_insert_eq|by rewrite lookup_insert_ne].
Qed.

(** ** Sequences in parts *)

Definition hfinal (p : slot) (l : list Z) : slot := match last l with Some x => SNext x | None => p end.
Definition hfirst (l : list Z) : Z := default NULL (head l).

Fixpoint hleft (h : hheap) (p : slot) (l : list Z) : Prop :=
  match l with
  | [] => True
  | x :: l => slot_val p h = Some x /\ x <> NULL /\ get_pprev x h = Some p /\ hleft h (SNext x) l
  end.
(** The pointer at [q] to the first of [l] and back, and what follows. *)
Definition hlink (h : hheap) (q : slot) (l : list Z) : Prop :=
  slot_val q h = Some (hfirst l) /\ match l with [] => True | x :: _ => x <> NULL /\ get_pprev x h = Some q end.
Definition hright (h : hheap) (l : list Z) : Prop := match l with [] => True | x :: l => hseq h (SNext x) l end.

Lemma hseq_link h q l : hseq h q l <-> hlink h q l /\ hright h l.
Proof. destruct l; unfold hlink; cbn; tauto. Qed.

Lemma hfinal_cons p x l : hfinal p (x :: l) = hfinal (SNext x) l.
Proof. unfold hfinal. rewrite last_cons. by destruct (last l). Qed.

Lemma hseq_parts h p l1 l2 : hseq h p (l1 ++ l2) <-> hleft h p l1 /\ hlink h (hfinal p l1) l2 /\ hright h l2.
Proof.
  revert p. induction l1 as [|x l1 IH]; intros p; cbn [app hleft].
  - change (hfinal p []) with p. rewrite hseq_link. tauto.
  - cbn [hseq]. rewrite IH, hfinal_cons. tauto.
Qed.

Lemma hfinal_elem p l : hfinal p l ∈ p :: map SNext l.
Proof. revert p. induction l as [|x l IH]; intros p; [left|]. rewrite hfinal_cons. right. apply IH. Qed.

Lemma hleft_nonnull h p l x : hleft h p l -> x ∈ l -> x <> NULL.
Proof.
  revert p. induction l as [|y l IH]; intros p; [by intros _ ?%elem_of_nil|].
  intros (_ & ? & _ & Hl) [->|Hin]%elem_of_cons; [done|by eapply IH].
Qed.

Lemma hleft_frame h h' p l :
  NoDup (p :: map SNext l) -> (forall q, q ∈ p :: map SNext l -> q <> hfinal p l -> slot_val q h' = slot_val q h) ->
  (forall x, x ∈ l -> get_pprev x h' = get_pprev x h) -> hleft h p l -> hleft h' p l.
Proof.
  revert p. induction l as [|x l IH]; intros p; [done|]. cbn [hleft map]. rewrite hfinal_cons.
  intros [Hp Hd]%NoDup_cons Hn Hx (? & ? & ? & Hl). rewrite Hn, Hx; [|left|left|].
  - split_and!; try done. apply IH; try done; intros y Hy; [intros ?; apply Hn; [by right|done]|apply Hx; by right].
  - intros ->. apply Hp, hfinal_elem.
Qed.

Lemma hseq_frame h h' p l :
  (forall q, q ∈ p :: map SNext l -> slot_val q h' = slot_val q h) -> (forall x, x ∈ l -> get_pprev x h' = get_pprev x h) ->
  hseq h p l -> hseq h' p l.
Proof.
  revert p. induction l as [|x l IH]; intros p Hn Hx; cbn [hseq]; rewrite Hn by left; [done|].
  rewrite Hx by left. intros (? & ? & ? & Hl). split_and!; try done.
  apply IH; try done; intros y Hy; [apply Hn|apply Hx]; by right.
Qed.

Lemma NoDup_slots a l : NoDup l -> NoDup (SFirst a :: map SNext l).
Proof.
  intros Hd. apply NoDup_cons. split; [by intros (x & [=] & _)%list_elem_of_fmap|].
  change (NoDup (SNext <$> l)). apply NoDup_fmap_2; [by intros ? ? [= ->]|done].
Qed.

(** The pointers around a change between [l1] and [l2]. *)
Record haround (h h' : hheap) (a : Z) (l1 l2 : list Z) : Prop := {
  ha_slot : forall q, q ∈ SFirst a :: map SNext (l1 ++ l2) -> q <> hfinal (SFirst a) l1 -> slot_val q h' = slot_val q h;
  ha_pprev : forall x, x ∈ l1 ++ l2 -> x <> NULL -> x <> hfirst l2 -> get_pprev x h' = get_pprev x h
}.

Lemma parts_frame h h' a l1 l2 :
  NoDup (l1 ++ l2) -> haround h h' a l1 l2 -> hleft h (SFirst a) l1 -> hright h l2 -> Forall (fun x => x <> NULL) l2 ->
  hleft h' (SFirst a) l1 /\ hright h' l2.
Proof.
  intros (Hd1 & Hx & Hd2)%NoDup_app [Hs Hp] Hleft Hright Hnn. split.
  - apply (hleft_frame h); [by apply NoDup_slots| | |done].
    + intros q Hq. apply Hs. rewrite map_app. apply elem_of_cons in Hq as [->|]; [left|right; apply elem_of_app; auto].
    + intros x Hin. apply Hp; [apply elem_of_app; auto|by eapply hleft_nonnull|]. destruct l2 as [|y l2]; [by eapply hleft_nonnull|].
      intros ->. apply (Hx y); [done|left].
  - destruct l2 as [|y l2]; [done|]. apply NoDup_cons in Hd2 as [Hy Hd2]. apply Forall_cons in Hnn as [? Hnn].
    apply (hseq_frame h); [| |done].
    + intros q Hq. apply Hs; [rewrite map_app; right; apply elem_of_app; by right|]. intros E.
      change (SNext y :: map SNext l2) with (map SNext (y :: l2)) in Hq. apply list_elem_of_fmap in Hq as (x & -> & Hin).
      pose proof (hfinal_elem (SFirst a) l1) as Hf. rewrite <- E in Hf. apply elem_of_cons in Hf as [[=]|Hf].
      apply list_elem_of_fmap in Hf as (x' & [= <-] & Hin'). by apply (Hx x).
    + intros x Hin. apply Hp; [apply elem_of_app; right; by right| |]; [by eapply Forall_forall in Hnn|].
      intros ->. done.
Qed.

Lemma hseq_nonnull h p l : hseq h p l -> Forall (fun x => x <> NULL) l.
Proof.
  revert p. induction l as [|x l IH]; intros p; [constructor|]. cbn [hseq]. intros (_ & ? & _ & Hl). constructor; [done|by eapply IH].
Qed.

(** ** Changes *)

(** [n] between the pointer at [q] and the node [y] (or NULL). *)
Record inserted (h h' : hheap) (q : slot) (n y : Z) : Prop := {
  in_slot : forall p, slot_val p h' = if decide (p = q) then Some n else if decide (p = SNext n) then Some y else slot_val p h;
  in_pprev : forall x, x <> NULL -> get_pprev x h' =
    if decide (x = n) then Some q else if decide (x = y) then Some (SNext n) else get_pprev x h
}.

Lemma insert_seq h h' a l1 l2 n :
  hlist h a (l1 ++ l2) -> n <> NULL -> n ∉ l1 ++ l2 -> inserted h h' (hfinal (SFirst a) l1) n (hfirst l2) ->
  hlist h' a (l1 ++ n :: l2).
Proof.
  intros [Hs Hd] Hn Hout [Hv Hp]. pose proof (hseq_nonnull _ _ _ Hs) as [_ Hnn2]%Forall_app.
  apply hseq_parts in Hs as (Hl & [_ Hk] & Hr).
  assert (forall q, q ∈ SFirst a :: map SNext (l1 ++ l2) -> q <> SNext n) as Hne.
  { intros q [->|(x & -> & Hin)%list_elem_of_fmap]%elem_of_cons; [done|]. by intros [= ->]. }
  destruct (parts_frame h h' a l1 l2) as [Hl' Hr']; [done| |done|done|done|].
  { split.
    - intros q Hq Hq'. rewrite Hv, decide_False, decide_False by auto. done.
    - intros x Hx ? ?. rewrite Hp, decide_False, decide_False by (done || by intros ->). done. }
  split.
  - apply hseq_parts. split_and!; [done| |].
    + split; [by rewrite Hv, decide_True|]. split; [done|]. by rewrite Hp, decide_True.
    + cbn. apply hseq_link. split; [|done]. assert (SNext n <> hfinal (SFirst a) l1) as Hnf.
      { intros E. pose proof (hfinal_elem (SFirst a) l1) as Hf. rewrite <- E in Hf. apply (Hne (SNext n)); [|done].
        rewrite map_app. apply elem_of_cons in Hf as [[=]|?]. right. apply elem_of_app. auto. }
      split; [by rewrite Hv, decide_False, decide_True|]. destruct l2 as [|y l2]; [done|]. destruct Hk as [? _].
      split; [done|]. rewrite Hp, decide_False, decide_True; try done. intros ->. apply Hout, elem_of_app. right. left.
  - assert (l1 ++ n :: l2 ≡ₚ n :: l1 ++ l2) as -> by (symmetry; apply Permutation_middle). by apply NoDup_cons.
Qed.

(** The pointer at [q] goes on to [y] (or NULL). *)
Record removed (h h' : hheap) (q : slot) (e y : Z) : Prop := {
  rm_slot : forall p, p <> SNext e -> slot_val p h' = if decide (p = q) then Some y else slot_val p h;
  rm_pprev : forall x, x <> NULL -> x <> e -> get_pprev x h' = if decide (x = y) then Some q else get_pprev x h
}.

Lemma hfinal_ne_in a l1 x : x ∉ l1 -> SNext x <> hfinal (SFirst a) l1.
Proof.
  intros Hx E. pose proof (hfinal_elem (SFirst a) l1) as Hf. rewrite <- E in Hf.
  apply elem_of_cons in Hf as [[=]|(x' & [= <-] & Hin)%list_elem_of_fmap]. done.
Qed.

Lemma remove_seq h h' a l1 e l2 :
  hlist h a (l1 ++ e :: l2) -> removed h h' (hfinal (SFirst a) l1) e (hfirst l2) -> hlist h' a (l1 ++ l2).
Proof.
  intros [Hs Hd] [Hv Hp]. pose proof (hseq_nonnull _ _ _ Hs) as [_ [_ Hnn2]%Forall_cons]%Forall_app.
  assert (l1 ++ e :: l2 ≡ₚ e :: l1 ++ l2) as E by (symmetry; apply Permutation_middle). rewrite E in Hd.
  apply NoDup_cons in Hd as [He Hd]. apply hseq_parts in Hs as (Hl & _ & Hr). cbn in Hr. apply hseq_link in Hr as [[_ Hk] Hr].
  destruct (parts_frame h h' a l1 l2) as [Hl' Hr']; [done| |done|done|done|].
  { split.
    - intros q Hq Hq'. rewrite Hv, decide_False; [done|done|].
      apply elem_of_cons in Hq as [->|(x & -> & Hin)%list_elem_of_fmap]; [done|]. by intros [= ->].
    - intros x Hx ? ?. rewrite Hp, decide_False by (done || by intros ->). done. }
  split; [|done]. apply hseq_parts. split_and!; [done| |done]. split.
  - rewrite Hv, decide_True; [done|done|]. intros E'. symmetry in E'. revert E'. apply hfinal_ne_in.
    intros ?. apply He, elem_of_app. auto.
  - destruct l2 as [|y l2]; [done|]. destruct Hk as [? _]. split; [done|]. rewrite Hp, decide_True; try done.
    intros ->. apply He, elem_of_app. right. left.
Qed.

(** ** Operations *)

Lemma hpointers_self h : hpointers h (fun p => slot_val p h) (fun x => get_pprev x h).
Proof. done. Qed.

Ltac alive := cbv beta; unfold hupd; repeat case_decide; subst; eauto; try congruence.
(** Runs one assignment. *)
Ltac hassign :=
  let h' := fresh "h" in let Hp := fresh "Hp" in let Hr := fresh "Hr" in
  match goal with
  | |- context [set_slot ?p ?v ?h] =>
      edestruct (fun N P => set_slot_run h N P p v) as (h' & Hr & Hp); [eassumption|alive|rewrite Hr; clear Hr; cbn [mbind option_bind]]
  | |- context [set_pprev ?n ?p ?h] =>
      edestruct (fun N P => set_pprev_run h N P n p) as (h' & Hr & Hp); [eassumption|alive|rewrite Hr; clear Hr; cbn [mbind option_bind]]
  end.

(** What the pointers at a node of the list are. *)
Lemma hlist_at h a l1 e l2 :
  hlist h a (l1 ++ e :: l2) ->
  e <> NULL /\ slot_val (SNext e) h = Some (hfirst l2) /\ get_pprev e h = Some (hfinal (SFirst a) l1) /\
  slot_val (hfinal (SFirst a) l1) h = Some e /\ e ∉ l1 ++ l2 /\ (hfirst l2 <> NULL -> get_pprev (hfirst l2) h = Some (SNext e)).
Proof.
  intros [Hs Hd]. assert (l1 ++ e :: l2 ≡ₚ e :: l1 ++ l2) as E by (symmetry; apply Permutation_middle). rewrite E in Hd.
  apply NoDup_cons in Hd as [He _]. apply hseq_parts in Hs as (_ & [Hv [Hn Hp]] & Hr). cbn in Hr.
  apply hseq_link in Hr as [[Hv2 Hk2] _]. split_and!; try done. destruct l2; [done|]. intros _. by destruct Hk2.
Qed.

Lemma hdel_raw h a l1 e l2 :
  hlist h a (l1 ++ e :: l2) ->
  exists h', __hlist_del e h = Some h' /\ removed h h' (hfinal (SFirst a) l1) e (hfirst l2) /\
    slot_val (SNext e) h' = Some (hfirst l2) /\ is_Some (get_pprev e h').
Proof.
  intros Hl. destruct (hlist_at _ _ _ _ _ Hl) as (Hne & Hnext & Hpp & Hq & Hout & Hback).
  assert (SNext e <> hfinal (SFirst a) l1) as Hqe by (apply hfinal_ne_in; intros ?; apply Hout, elem_of_app; auto).
  unfold __hlist_del. rewrite Hnext, Hpp. cbn [mbind option_bind]. pose proof (hpointers_self h) as Hp0.
  destruct (Z.eqb_spec (hfirst l2) NULL) as [Hy|Hy]; cbn [negb].
  - hassign. eexists. split; [done|]. destruct Hp as [HN HP]. split_and!.
    + split; [intros p ?; rewrite HN; unfold hupd; done|]. intros x ? ?. rewrite HP, Hy, decide_False by done. done.
    + rewrite HN. unfold hupd. by rewrite decide_False.
    + rewrite HP. eauto.
  - specialize (Hback Hy). hassign. hassign. eexists. split; [done|]. destruct Hp1 as [HN HP]. split_and!.
    + split; [intros p ?; rewrite HN; unfold hupd; done|]. intros x ? ?. by rewrite HP.
    + rewrite HN. unfold hupd. by rewrite decide_False.
    + rewrite HP. alive.
Qed.

(** Assignments to the removed node. *)
Lemma removed_more h h1 h2 q e y :
  removed h h1 q e y -> (forall p, p <> SNext e -> slot_val p h2 = slot_val p h1) ->
  (forall x, x <> e -> get_pprev x h2 = get_pprev x h1) -> removed h h2 q e y.
Proof. intros [Hv Hp] H1 H2. split; intros; [by rewrite H1, Hv|by rewrite H2, Hp]. Qed.

Lemma hdel_run h a l1 e l2 :
  hlist h a (l1 ++ e :: l2) ->
  (exists h', hlist_del e h = Some h' /\ hlist h' a (l1 ++ l2)) /\
  (exists h', hlist_del_rcu e h = Some h' /\ hlist h' a (l1 ++ l2) /\ slot_val (SNext e) h' = Some (hfirst l2)) /\
  (exists h', hlist_del_init e h = Some h' /\ hlist h' a (l1 ++ l2) /\ hlist_unhashed e h' = Some true).
Proof.
  intros Hl. destruct (hdel_raw _ _ _ _ _ Hl) as (h1 & Hrun & Hrm & Hn & Hpe).
  destruct (hlist_at _ _ _ _ _ Hl) as (_ & _ & Hpp & Hq & _).
  unfold hlist_del, hlist_del_rcu, hlist_del_init, INIT_HLIST_NODE. rewrite Hrun, Hpp. cbn [mbind option_bind].
  rewrite bool_decide_eq_false_2 by (intros E; rewrite E in Hq; done).
  pose proof (hpointers_self h1) as Hp0. split_and!.
  - hassign. hassign. eexists. split; [done|]. apply (remove_seq h _ a l1 e l2); [done|]. apply (removed_more h h1); [done| |].
    + intros p ?. destruct Hp1 as [-> _]. unfold hupd. by rewrite decide_False.
    + intros x ?. destruct Hp1 as [_ ->]. unfold hupd. by rewrite decide_False.
  - hassign. eexists. split; [done|]. split; [apply (remove_seq h _ a l1 e l2); [done|]; apply (removed_more h h1); [done| |]|].
    + intros p ?. by destruct Hp as [-> _].
    + intros x ?. destruct Hp as [_ ->]. unfold hupd. by rewrite decide_False.
    + by destruct Hp as [-> _].
  - hassign. hassign. eexists. split; [done|]. split; [apply (remove_seq h _ a l1 e l2); [done|]; apply (removed_more h h1); [done| |]|].
    + intros p ?. destruct Hp1 as [-> _]. unfold hupd. by rewrite decide_False.
    + intros x ?. destruct Hp1 as [_ ->]. unfold hupd. by rewrite decide_False.
    + unfold hlist_unhashed. destruct Hp1 as [_ ->]. unfold hupd. by rewrite decide_True.
Qed.

(** A node of the heap: it has both fields. *)
Definition node_alive (h : hheap) (n : Z) : Prop := is_Some (slot_val (SNext n) h) /\ is_Some (get_pprev n h).

Lemma hadd_head_run h a l n :
  hlist h a l -> node_alive h n -> n <> NULL -> n ∉ l ->
  exists h', hlist_add_head n a h = Some h' /\ hlist h' a (n :: l).
Proof.
  intros Hl [Hn1 Hn2] Hn Hout. pose proof Hl as [Hs _]. apply hseq_link in Hs as [[Hv Hk] _].
  unfold hlist_add_head. rewrite Hv. cbn [mbind option_bind]. pose proof (hpointers_self h) as Hp0.
  assert (forall x, x ∈ l -> x <> n) as Hne by (intros x ? ->; done).
  destruct (Z.eqb_spec (hfirst l) NULL) as [Hy|Hy]; cbn [negb].
  - hassign. hassign. hassign. eexists. split; [done|]. destruct Hp2 as [HN HP]. apply (insert_seq h _ a [] l n); try done. split.
    + intros p. by rewrite HN.
    + intros x ?. rewrite HP. unfold hupd. rewrite Hy, (decide_False _ _ H). done.
  - destruct l as [|y l]; [done|]. change (hfirst (y :: l)) with y in *. destruct Hk as [_ Hk].
    hassign. hassign. hassign. hassign. eexists. split; [done|]. destruct Hp3 as [HN HP].
    by apply (insert_seq h _ a [] (y :: l) n).
Qed.

(** The order of the assignments for readers that run at the same time. *)
Lemma hadd_head_rcu_run h a l n :
  hlist h a l -> node_alive h n -> n <> NULL -> n ∉ l ->
  exists h', hlist_add_head_rcu n a h = Some h' /\ hlist h' a (n :: l).
Proof.
  intros Hl [Hn1 Hn2] Hn Hout. pose proof Hl as [Hs _]. apply hseq_link in Hs as [[Hv Hk] _].
  unfold hlist_add_head_rcu. rewrite Hv. cbn [mbind option_bind]. pose proof (hpointers_self h) as Hp0.
  destruct l as [|y l]; cbn [negb Z.eqb].
  - change (hfirst [] =? NULL) with true. cbn [negb]. hassign. hassign. cbn [mbind option_bind]. hassign. eexists. split; [done|].
    destruct Hp2 as [HN HP]. apply (insert_seq h _ a [] [] n); try done. split; [intros p; by rewrite HN|].
    intros x Hx. rewrite HP. unfold hupd. change (hfirst []) with NULL. by rewrite (decide_False _ _ Hx).
  - change (hfirst (y :: l)) with y in *. destruct Hk as [Hy Hk]. rewrite (proj2 (Z.eqb_neq y NULL)) by done. cbn [negb].
    assert (y <> n) as Hyn by (intros ->; apply Hout; left).
    hassign. hassign. hassign. hassign. eexists. split; [done|]. destruct Hp3 as [HN HP].
    apply (insert_seq h _ a [] (y :: l) n); try done. split; [intros p; by rewrite HN|].
    intros x ?. rewrite HP. unfold hupd. change (hfirst (y :: l)) with y. change (hfinal (SFirst a) []) with (SFirst a).
    repeat case_decide; congruence.
Qed.

Lemma hadd_before_run h a l1 next l2 n :
  hlist h a (l1 ++ next :: l2) -> node_alive h n -> n <> NULL -> n ∉ l1 ++ next :: l2 ->
  exists h', hlist_add_before n next h = Some h' /\ hlist h' a (l1 ++ n :: next :: l2).
Proof.
  intros Hl [Hn1 Hn2] Hn Hout. destruct (hlist_at _ _ _ _ _ Hl) as (Hnext & Hv & Hpp & Hq & _ & _).
  assert (n <> next) as Hne by (intros ->; apply Hout, elem_of_app; right; left).
  assert (SNext n <> hfinal (SFirst a) l1) as Hqn by (apply hfinal_ne_in; intros ?; apply Hout, elem_of_app; auto).
  unfold hlist_add_before. rewrite Hpp. cbn [mbind option_bind]. pose proof (hpointers_self h) as Hp0.
  hassign. hassign. hassign.
  assert (get_pprev n h2 = Some (hfinal (SFirst a) l1)) as ->.
  { destruct Hp2 as [_ ->]. unfold hupd. by rewrite decide_False, decide_True by done. }
  cbn [mbind option_bind]. hassign. eexists. split; [done|]. destruct Hp3 as [HN HP].
  apply (insert_seq h _ a l1 (next :: l2) n); try done. split; [intros p; by rewrite HN|]. intros x ?. rewrite HP. unfold hupd.
  change (hfirst (next :: l2)) with next. repeat case_decide; congruence.
Qed.

Lemma hadd_after_run h a l1 n l2 next :
  hlist h a (l1 ++ n :: l2) -> node_alive h next -> next <> NULL -> next ∉ l1 ++ n :: l2 ->
  exists h', hlist_add_after n next h = Some h' /\ hlist h' a (l1 ++ n :: next :: l2).
Proof.
  intros Hl [Hn1 Hn2] Hnn Hout. destruct (hlist_at _ _ _ _ _ Hl) as (_ & Hv & Hpp & Hq & _ & Hback).
  assert (n <> next) as Hne by (intros ->; apply Hout, elem_of_app; right; left).
  unfold hlist_add_after. rewrite Hv. cbn [mbind option_bind]. pose proof (hpointers_self h) as Hp0.
  hassign. hassign. hassign.
  assert (slot_val (SNext next) h2 = Some (hfirst l2)) as ->.
  { destruct Hp2 as [-> _]. unfold hupd. rewrite decide_False, decide_True by congruence. done. }
  cbn [mbind option_bind].
  assert (hlist h a ((l1 ++ [n]) ++ l2)) as Hl2 by by rewrite <- app_assoc.
  assert (hfinal (SFirst a) (l1 ++ [n]) = SNext n) as Hf by (unfold hfinal; by rewrite last_snoc).
  assert (next ∉ (l1 ++ [n]) ++ l2) as Hout2 by by rewrite <- app_assoc.
  replace (l1 ++ n :: next :: l2) with ((l1 ++ [n]) ++ next :: l2) by by rewrite <- app_assoc.
  destruct (Z.eqb_spec (hfirst l2) NULL) as [Hy|Hy]; cbn [negb].
  - eexists. split; [done|]. destruct Hp2 as [HN HP]. apply (insert_seq h _ a (l1 ++ [n]) l2 next); try done. rewrite Hf. split.
    + intros p. rewrite HN. unfold hupd. repeat case_decide; congruence.
    + intros x Hx. rewrite HP. unfold hupd. rewrite Hy, (decide_False _ _ Hx). done.
  - specialize (Hback Hy). hassign. eexists. split; [done|]. destruct Hp3 as [HN HP].
    apply (insert_seq h _ a (l1 ++ [n]) l2 next); try done. rewrite Hf. split.
    + intros p. rewrite HN. unfold hupd. repeat case_decide; congruence.
    + intros x Hx. rewrite HP. unfold hupd. assert (hfirst l2 <> next) as Hfn.
      { intros E. apply Hout2, elem_of_app. right. destruct l2; [done|]. rewrite <- E. left. }
      repeat case_decide; congruence.
Qed.

Lemma hempty_run h a l : hlist h a l -> hlist_empty a h = Some (bool_decide (l = [])).
Proof.
  intros [Hs _]. unfold hlist_empty. destruct l as [|x l]; cbn [hseq] in Hs.
  - rewrite Hs. done.
  - destruct Hs as (-> & Hx & _). cbn. f_equal. by apply Z.eqb_neq.
Qed.

Lemma hloop_run {A} (f : Z -> A -> A) h fuel p l x :
  hseq h p l -> (length l < fuel)%nat ->
  hlist_loop (fun pos x h => Some (f pos x, h)) fuel (hfirst l) x h = Some (foldl (fun x pos => f pos x) x l, h).
Proof.
  revert fuel p x. induction l as [|y l IH]; intros [|fuel] p x Hs Hf; try (cbn in Hf; lia); cbn [hlist_loop]; [done|].
  change (hfirst (y :: l)) with y. destruct Hs as (_ & Hy & _ & Hs). rewrite (proj2 (Z.eqb_neq y NULL)) by done.
  cbn [mbind option_bind]. pose proof Hs as [[Hv _] _]%hseq_link. rewrite Hv. cbn [mbind option_bind foldl].
  apply (IH fuel (SNext y)); [done|cbn in Hf; lia].
Qed.

(** The lists with a single pointer as head are sequences: adding in front, before and
    after a node, deleting a node in the three ways, testing for emptiness and the loop do on
    the linked nodes what they do on the sequence; every node keeps the address of the pointer
    to it. *)
Theorem hlist_refines_sequence h a l :
  hlist h a l ->
  (forall n, node_alive h n -> n <> NULL -> n ∉ l -> exists h', hlist_add_head n a h = Some h' /\ hlist h' a (n :: l)) /\
  (forall l1 e l2, l = l1 ++ e :: l2 ->
     (exists h', hlist_del e h = Some h' /\ hlist h' a (l1 ++ l2)) /\
     (exists h', hlist_del_rcu e h = Some h' /\ hlist h' a (l1 ++ l2) /\ slot_val (SNext e) h' = Some (hfirst l2)) /\
     (exists h', hlist_del_init e h = Some h' /\ hlist h' a (l1 ++ l2) /\ hlist_unhashed e h' = Some true) /\
     forall n, node_alive h n -> n <> NULL -> n ∉ l ->
       (exists h', hlist_add_before n e h = Some h' /\ hlist h' a (l1 ++ n :: e :: l2)) /\
       (exists h', hlist_add_after e n h = Some h' /\ hlist h' a (l1 ++ e :: n :: l2))) /\
  hlist_empty a h = Some (bool_decide (l = [])) /\
  (forall A (f : Z -> A -> A) x fuel, (length l < fuel)%nat ->
     hlist_for_each (fun pos x h => Some (f pos x, h)) fuel a x h = Some (foldl (fun x pos => f pos x) x l, h)).
Proof.
  intros Hl. split_and!.
  - intros n. by apply hadd_head_run.
  - intros l1 e l2 ->. destruct (hdel_run _ _ _ _ _ Hl) as (? & ? & ?). split_and!; try done.
    intros n ? ? ?. split; [by apply hadd_before_run|by apply hadd_after_run].
  - by apply hempty_run.
  - intros A f x fuel Hf. pose proof Hl as [Hs _]. pose proof Hs as [[Hv _] _]%hseq_link. unfold hlist_for_each. rewrite Hv.
    by apply (hloop_run f h fuel (SFirst a)).
Qed.

(** * Examples *)

Definition example_hheap : hheap :=
  mk_hheap {[ 1 := 2 ]} (list_to_map [(2, mk_hnode 3 (SFirst 1)); (3, mk_hnode NULL (SNext 2)); (4, mk_hnode NULL SNull)]).

Lemma example_hlist : hlist example_hheap 1 [2; 3].
Proof. split; [by split_and!|]. by apply (bool_decide_unpack _). Qed.

Lemma hlist_refines_sequence_witness :
  (exists h', hlist_add_head 4 1 example_hheap = Some h' /\ hlist h' 1 [4; 2; 3]) /\
  (exists h', hlist_add_after 2 4 example_hheap = Some h' /\ hlist h' 1 [2; 4; 3]).
Proof.
  assert (node_alive example_hheap 4) as H4 by (split; by eexists).
  destruct (hlist_refines_sequence example_hheap 1 [2; 3] example_hlist) as (Hadd & Hat & _). split.
  - apply Hadd; [done|done|by apply (bool_decide_unpack _)].
  - apply (proj2 (proj2 (proj2 (proj2 (Hat [] 2 [3] eq_refl))) 4 H4 ltac:(done) ltac:(by apply (bool_decide_unpack _)))).
Defined.
