(* ===== verification/Chain.v ===== *)
(** Singly linked lists in a store: nodes with a link, addressed by numbers.  The
    interface [Linked] is what a node type provides; the queue handles of
    libnetfilter_queue and the handlers of rtnl are its instances. *)
From stdpp Require Import gmap.
From S2P Require Import Prelude.

(** A node type: its link, the node with another link, and the rest of it. *)
Class Linked (N V : Type) := {
  link : N -> option Z;
  set_link : option Z -> N -> N;
  content : N -> V;
  link_set : forall p n, link (set_link p n) = p;
  content_set : forall p n, content (set_link p n) = content n
}.

Section Chain.
Context {N V : Type} `{L : !Linked N V}.
Abbreviation entry := (Z * V)%type.
Implicit Types (l : list entry) (s : gmap Z N).

(** The pointer [p] starts the list with the addresses and contents [l]. *)
Fixpoint chain s (p : option Z) l : Prop :=
  match l with
  | [] => p = None
  | (q, v) :: l => p = Some q /\ exists n, s !! q = Some n /\ content n = v /\ chain s (link n) l
  end.

Lemma chain_elem s p l q v : chain s p l -> (q, v) ∈ l -> exists n, s !! q = Some n /\ content n = v.
Proof.
  revert p. induction l as [|[q' v'] l IH]; intros p; [by intros _ ?%elem_of_nil|].
  intros [-> (n & Hn & Hv & Hl)] [[= -> ->]|Hin]%elem_of_cons; [by exists n|by eapply IH].
Qed.

Lemma chain_frame s s' p l : (forall q, q ∈ l.*1 -> s' !! q = s !! q) -> chain s p l -> chain s' p l.
Proof.
  revert p. induction l as [|[q v] l IH]; intros p Hq; [done|]. intros [-> (n & Hn & Hv & Hl)].
  split; [done|]. exists n. rewrite Hq by (cbn; left). split_and!; try done.
  apply IH; [|done]. intros q' ?. apply Hq. by right.
Qed.

Lemma chain_length s p l : chain s p l -> NoDup l.*1 -> (length l <= size s)%nat.
Proof.
  intros Hc Hd. rewrite <- (length_fmap fst), <- size_dom, <- (size_list_to_set (C := gset Z)) by done.
  apply subseteq_size. intros q [[q' v] [-> Hin]]%elem_of_list_to_set%list_elem_of_fmap.
  destruct (chain_elem _ _ _ _ _ Hc Hin) as (n & Hn & _). by apply elem_of_dom.
Qed.

(** A new first node. *)
Lemma chain_push s p l q n :
  chain s p l -> s !! q = Some n -> q ∉ l.*1 -> chain (<[q := set_link p n]> s) (Some q) ((q, content n) :: l).
Proof.
  intros Hc Hn Hq. split; [done|]. exists (set_link p n). rewrite lookup_insert_eq, link_set, content_set.
  split_and!; try done. apply (chain_frame s); [|done]. intros q' Hq'. apply lookup_insert_ne. by intros ->.
Qed.

(** The list without the node at an address. *)
Definition without (q : Z) l : list entry := filter (fun e => e.1 <> q) l.

Lemma without_id q l : q ∉ l.*1 -> without q l = l.
Proof.
  unfold without. induction l as [|e l IH]; [done|]. rewrite fmap_cons, not_elem_of_cons. intros [? ?].
  rewrite filter_cons_True by congruence. by rewrite IH.
Qed.

Lemma without_app q v l1 l2 : NoDup (l1 ++ (q, v) :: l2).*1 -> without q (l1 ++ (q, v) :: l2) = l1 ++ l2.
Proof.
  rewrite fmap_app. cbn. intros (Hd1 & Hn & [Hq Hd2]%NoDup_cons)%NoDup_app.
  assert (without q l1 = l1) as E1 by (apply without_id; intros Hin; apply (Hn q Hin); left).
  unfold without in *. rewrite filter_app, filter_cons_False by (cbn; auto). rewrite E1. f_equal. by apply without_id.
Qed.

Lemma without_notin q l : q ∉ (without q l).*1.
Proof. intros ([q' v] & -> & [Hne _]%list_elem_of_filter)%list_elem_of_fmap. by apply Hne. Qed.

Lemma without_in q l e : e ∈ without q l <-> e ∈ l /\ e.1 <> q.
Proof. unfold without. rewrite list_elem_of_filter. tauto. Qed.

(** A key of the entries stays without duplicates. *)
Lemma NoDup_without {K} (f : entry -> K) q l : NoDup (map f l) -> NoDup (map f (without q l)).
Proof.
  unfold without. induction l as [|e l IH]; [done|]. cbn [map]. intros [Hn Hd]%NoDup_cons.
  destruct (decide (e.1 <> q)); [rewrite filter_cons_True by done|rewrite filter_cons_False by done; auto].
  cbn [map]. apply NoDup_cons. split; [|auto]. intros (e' & He & [_ Hin]%list_elem_of_filter)%list_elem_of_fmap.
  apply Hn, list_elem_of_fmap. by exists e'.
Qed.

(** The link of the node before moved on: the node is out of the list. *)
Lemma chain_unlink s p l1 pr vp q v l2 n np :
  chain s p (l1 ++ (pr, vp) :: (q, v) :: l2) -> NoDup (l1 ++ (pr, vp) :: (q, v) :: l2).*1 ->
  s !! q = Some n -> s !! pr = Some np ->
  chain (<[pr := set_link (link n) np]> s) p (l1 ++ (pr, vp) :: l2).
Proof.
  revert p. induction l1 as [|[q1 v1] l1 IH]; intros p; cbn [app].
  - intros [-> (n1 & Hn1 & Hv & [Hq (n2 & Hn2 & _ & Hl)])] Hd ? ?. simplify_eq.
    cbn in Hd. apply NoDup_cons in Hd as [Hpr Hd]. apply not_elem_of_cons in Hpr as [_ Hpr].
    split; [done|]. exists (set_link (link n2) n1). rewrite lookup_insert_eq, link_set, content_set. split_and!; try done.
    apply (chain_frame s); [|done]. intros q' Hq'. apply lookup_insert_ne. by intros ->.
  - intros [-> (n1 & Hn1 & Hv & Hl)] Hd Hn Hnp. cbn in Hd. apply NoDup_cons in Hd as [Hq1 Hd].
    split; [done|]. exists n1. rewrite lookup_insert_ne; [split_and!; try done; by apply IH|].
    intros ->. apply Hq1. rewrite fmap_app. cbn. set_solver.
Qed.

(** The first node leaves the list. *)
Lemma chain_pop s p q v l n : chain s p ((q, v) :: l) -> s !! q = Some n -> chain s (link n) l.
Proof. intros [_ (n' & Hn' & _ & Hl)] ?. by simplify_eq. Qed.

Lemma NoDup_remove_addr l1 q v l2 : NoDup (l1 ++ (q, v) :: l2).*1 -> q ∉ l1.*1 /\ NoDup (l1 ++ l2).*1.
Proof.
  rewrite !fmap_app. cbn. intros (? & Hx & [? ?]%NoDup_cons)%NoDup_app. split.
  - intros Hin. apply (Hx q Hin). left.
  - apply NoDup_app. split_and!; [done| |done]. intros x Hin. specialize (Hx x Hin). set_solver.
Qed.

(** The first entry whose content satisfies a test. *)
Definition find_entry (f : V -> bool) l : option Z := fst <$> List.find (fun e => f e.2) l.

Lemma find_entry_cons f q v l : find_entry f ((q, v) :: l) = if f v then Some q else find_entry f l.
Proof. unfold find_entry. cbn. by destruct (f v). Qed.
End Chain.
