(* ===== verification/Rtnl.v ===== *)
(** libnfnetlink/rtnl.c: the routing socket, its handlers and the dispatch of what it
    receives.

    The handle and the handlers live in an [rstate], which the handlers reach through
    their arguments; the handler structures belong to the client, and a pointer to one
    is its address in the store.  The function of a handler is a number, which the
    parameter [client] resolves.  [C] is the rest of the state. *)
From stdpp Require Import gmap.
From S2P Require Import Prelude CMonad CtSetter MnlMsg MnlAttr MnlCallback Tlv TlvParse Ctnl NfnlMsg Nfnl NfnlProps Chain.

Definition sizeof_rtattr : Z := 4.
Definition RTA_ALIGN (len : Z) : Z := Z.land (len + 4 - 1) (Z.lnot (4 - 1)).
Definition rta_len (rta : Z) : M Z := load16 rta.
Definition rta_type (rta : Z) : M Z := load16 (rta + 2).

(** [len] is an [int]. *)
Definition RTA_OK (rta len : Z) : M bool :=
  if sizeof_rtattr <=? len then
    let! l := rta_len rta in ret ((sizeof_rtattr <=? l) && (l <=? len))
  else ret false.
Definition RTA_NEXT (rta len : Z) : M (Z * Z) :=
  let! l := rta_len rta in ret (rta + RTA_ALIGN l, sint 32 (len - RTA_ALIGN l)).

(** The group of link changes, and the size of [struct rtgenmsg] after a header. *)
Definition RTMGRP_LINK : Z := 1.
Definition sizeof_req : Z := 20.
Definition sizeof_buf : Z := 8192.

(** [struct rtnl_handler]. *)
Record rtnl_handler := mk_handler {
  rh_next : option Z;
  rh_type : Z;
  rh_fn : Z;
  rh_arg : Z
}.

(** [struct rtnl_handle]. *)
Record rtnl_handle := mk_rtnl {
  rtnl_fd : Z;
  rtnl_seq : Z;
  rtnl_dump : Z;
  rtnl_local : sockaddr_nl;
  handlers : option Z
}.

Record rstate (C : Type) := mk_rstate {
  rs_handle : rtnl_handle;
  rs_handlers : gmap Z rtnl_handler;
  rs_client : C
}.
Arguments mk_rstate {C} _ _ _.
Arguments rs_handle {C} _.
Arguments rs_handlers {C} _.
Arguments rs_client {C} _.

Definition set_rh_next (p : option Z) (n : rtnl_handler) : rtnl_handler :=
  mk_handler p (rh_type n) (rh_fn n) (rh_arg n).

Section Rtnl.
Context {C : Type}.
Abbreviation S := (rstate C).

Definition set_handlers (p : option Z) (s : S) : S :=
  let h := rs_handle s in
  mk_rstate (mk_rtnl (rtnl_fd h) (rtnl_seq h) (rtnl_dump h) (rtnl_local h) p) (rs_handlers s) (rs_client s).
Definition set_handler (a : Z) (n : rtnl_handler) (s : S) : S :=
  mk_rstate (rs_handle s) (<[a := n]> (rs_handlers s)) (rs_client s).
Definition set_dump (seq dump : Z) (s : S) : S :=
  let h := rs_handle s in
  mk_rstate (mk_rtnl (rtnl_fd h) seq dump (rtnl_local h) (handlers h)) (rs_handlers s) (rs_client s).

(** Reading through a pointer; a pointer that is not in the store is a fault. *)
Definition get_handler (a : Z) (s : S) : M rtnl_handler :=
  match rs_handlers s !! a with Some n => ret n | None => ub end.
Definition handler_fuel (s : S) : nat := Datatypes.S (size (rs_handlers s)).

(** * Handlers *)

Fixpoint find_handler_loop (fuel : nat) (type : Z) (h : option Z) (s : S) : M (option Z) :=
  match fuel with
  | O => no_fuel
  | Datatypes.S fuel =>
      match h with
      | None => ret None
      | Some a => let! n := get_handler a s in
                  if rh_type n =? type then ret h else find_handler_loop fuel type (rh_next n) s
      end
  end.

Definition find_handler (type : Z) (s : S) : M (option Z) :=
  find_handler_loop (handler_fuel s) type (handlers (rs_handle s)) s.

(** The function of a handler: header, argument. *)
Definition handlefn : Type := Z -> Z -> S -> M (Z * S).
Context (client : Z -> handlefn).

Definition call_handler (type hdr : Z) (s : S) : M (Z * S) :=
  let! h := find_handler type s in
  match h with
  | None => ret (0, s)
  | Some a => let! n := get_handler a s in client (rh_fn n) hdr (rh_arg n) s
  end.

Definition rtnl_handler_register (hdlr : Z) (s : S) : M (Z * S) :=
  let! n := get_handler hdlr s in
  ret (1, set_handlers (Some hdlr) (set_handler hdlr (set_rh_next (handlers (rs_handle s)) n) s)).

Fixpoint unregister_loop (fuel : nat) (hdlr : Z) (h prev : option Z) (s : S) : M (Z * S) :=
  match fuel with
  | O => no_fuel
  | Datatypes.S fuel =>
      match h with
      | None => ret (0, s)
      | Some a =>
          let! n := get_handler a s in
          if a =? hdlr then
            match prev with
            | Some p => let! np := get_handler p s in ret (1, set_handler p (set_rh_next (rh_next n) np) s)
            | None => ret (1, set_handlers (rh_next n) s)
            end
          else unregister_loop fuel hdlr (rh_next n) h s
      end
  end.

Definition rtnl_handler_unregister (hdlr : Z) (s : S) : M (Z * S) :=
  unregister_loop (handler_fuel s) hdlr (handlers (rs_handle s)) None s.

(** * Attributes *)

Fixpoint rtattr_loop (fuel : nat) (max : Z) (tb : list (option Z)) (rta len : Z) : M (Z * list (option Z)) :=
  match fuel with
  | O => no_fuel
  | Datatypes.S fuel =>
      let! ok := RTA_OK rta len in
      if ok : bool then
        let! t := rta_type rta in
        let! tb := (if t <=? max then set_tb tb t rta else ret tb) in
        let! (rta, len) := RTA_NEXT rta len in
        rtattr_loop fuel max tb rta len
      else ret (len, tb)
  end.

Definition rtnl_parse_rtattr (tb : list (option Z)) (max rta len : Z) : M (Z * list (option Z)) :=
  let! tb := clear_tb tb max in
  let! (len, tb) := rtattr_loop (loop_fuel len) max tb rta len in
  if negb (len =? 0) then ret (-1, tb) else ret (0, tb).

(** * Sending *)

Context (os : @os_calls S).

(** The increment of an [int] at its maximum is a fault. *)
Definition rtnl_dump_type (type : Z) (s : S) : M (Z * S) :=
  with_buffer sizeof_req (fun req =>
    set_nlmsg_len req sizeof_req ;;;
    set_nlmsg_type req (wrap 16 type) ;;;
    set_nlmsg_flags req (Z.lor (Z.lor NLM_F_ROOT NLM_F_MATCH) NLM_F_REQUEST) ;;;
    set_nlmsg_pid req 0 ;;;
    let seq := rtnl_seq (rs_handle s) in
    if seq =? 2 ^ 31 - 1 then ub else
    let s := set_dump (seq + 1) (seq + 1) s in
    set_nlmsg_seq req (wrap 32 (seq + 1)) ;;;
    store 1 (req + 16) AF_INET ;;;
    os_sendto os (rtnl_fd (rs_handle s)) req sizeof_req (mk_sockaddr_nl AF_NETLINK 0 0) s).

(** * Receiving *)

(** [status] is the [int] of the bytes left; the macro reads the length of the message
    again after its handler. *)
Fixpoint receive_loop (fuel : nat) (h status : Z) (s : S) : M (Z * S) :=
  match fuel with
  | O => no_fuel
  | Datatypes.S fuel =>
      let! ok := NLMSG_OK h status in
      if negb ok then ret (1, s) else
      let! type := nlmsg_type h in
      if type =? NLMSG_DONE then ret (0, s) else
      if type =? NLMSG_ERROR then
        let err := NLMSG_DATA h in
        let! l := nlmsg_len h in
        (if NLMSG_LENGTH sizeof_nlmsgerr <=? l
         then let! e := load32 err in set_errno (sint 32 (- sint 32 e)) else ret tt) ;;;
        ret (-1, s)
      else
      let! (_, s) := call_handler type h s in
      let! l := nlmsg_len h in
      receive_loop fuel (h + NLMSG_ALIGN l) (sint 32 (status - NLMSG_ALIGN l)) s
  end.

Definition rtnl_receive (s : S) : M (Z * S) :=
  with_buffer sizeof_buf (fun buf =>
    let! (r, s) := os_recvmsg os (rtnl_fd (rs_handle s)) buf sizeof_buf s in
    let '(status, _, msg_namelen, _) := r in
    if status <? 0 then
      let! e := get_errno in
      if e =? EINTR then ret (0, s) else ret (-1, s)
    else if status =? 0 then ret (-1, s)
    else if negb (msg_namelen =? sizeof_sockaddr_nl) then ret (-1, s)
    else receive_loop (loop_fuel status) buf status s).

(** The fuel bounds the number of datagrams. *)
Fixpoint rtnl_receive_multi (fuel : nat) (s : S) : M (Z * S) :=
  match fuel with
  | O => no_fuel
  | Datatypes.S fuel =>
      let! (r, s) := rtnl_receive s in
      if r <=? 0 then ret (1, s) else rtnl_receive_multi fuel s
  end.

(** * The handle *)

(** The process number that [rtnl_open] writes first is cleared before it is used. *)
Definition rtnl_open (s : S) : M (option rtnl_handle * S) :=
  let! ok := malloc_ok in
  if negb ok then ret (None, s) else
  let! (fd, s) := os_socket os s in
  if fd <? 0 then ret (None, s) else
  let err_close s := let! (_, s) := os_close os fd s in ret (None, s) in
  let! (r, s) := os_bind os fd (mk_sockaddr_nl AF_NETLINK 0 RTMGRP_LINK) s in
  if r <? 0 then err_close s else
  let! (r, s) := os_getsockname os fd s in
  let '(r, local, addrlen) := r in
  if r <? 0 then err_close s else
  if negb (addrlen =? sizeof_sockaddr_nl) then err_close s else
  if negb (nl_family local =? AF_NETLINK) then err_close s else
  let! (t, s) := os_time os s in
  ret (Some (mk_rtnl fd (sint 32 t) 0 local None), s).

Definition rtnl_close (h : rtnl_handle) (s : S) : M S :=
  let! (_, s) := os_close os (rtnl_fd h) s in ret s.
End Rtnl.

(** * The list of handlers *)

#[global] Instance handler_linked : Linked rtnl_handler (Z * Z * Z) :=
  {| link := rh_next; set_link := set_rh_next; content n := (rh_type n, rh_fn n, rh_arg n);
     link_set _ _ := eq_refl; content_set _ _ := eq_refl |}.

Section Handlers.
Context {C : Type}.
Implicit Types (s : rstate C) (l : list (Z * (Z * Z * Z))).

(** The handle has the handlers [l]: addresses with type, function and argument. *)
Definition registered s l : Prop := chain (rs_handlers s) (handlers (rs_handle s)) l /\ NoDup l.*1.

(** The handler of a type: the last one registered. *)
Definition handler_of (type : Z) l : option Z := find_entry (fun v => v.1.1 =? type) l.

Lemma find_handler_loop_run fuel type p l s w :
  chain (rs_handlers s) p l -> (length l < fuel)%nat -> find_handler_loop fuel type p s w = Ok (handler_of type l, w).
Proof.
  revert fuel p. induction l as [|[a v] l IH]; intros [|fuel] p Hc Hf; try (cbn in Hf; lia); cbn [find_handler_loop].
  - cbn in Hc. by subst p.
  - destruct Hc as [-> (n & Hn & Hv & Hl)]. unfold bind, get_handler. rewrite Hn. unfold ret, handler_of.
    rewrite find_entry_cons. subst v. change ((content n).1.1) with (rh_type n).
    destruct (rh_type n =? type); [done|]. apply IH; [done|cbn in Hf; lia].
Qed.

Lemma find_handler_run type s l w : registered s l -> find_handler type s w = Ok (handler_of type l, w).
Proof.
  intros [Hc Hd]. apply find_handler_loop_run; [done|]. pose proof (chain_length _ _ _ Hc Hd). unfold handler_fuel. lia.
Qed.

Lemma rtnl_register_run a n s l w :
  registered s l -> rs_handlers s !! a = Some n -> a ∉ l.*1 ->
  exists s', rtnl_handler_register a s w = Ok ((1, s'), w) /\ registered s' ((a, content n) :: l) /\ rs_client s' = rs_client s.
Proof.
  intros [Hc Hd] Hn Ha. unfold rtnl_handler_register, bind, get_handler. rewrite Hn. unfold ret.
  eexists. split; [done|]. split; [|done]. split; [exact (chain_push _ _ _ _ _ Hc Hn Ha)|by apply NoDup_cons].
Qed.

(** The loop over a list without the handler, and at the handler. *)
Lemma unregister_loop_absent fuel a p l prev s w :
  chain (rs_handlers s) p l -> a ∉ l.*1 -> (length l < fuel)%nat -> unregister_loop fuel a p prev s w = Ok ((0, s), w).
Proof.
  revert fuel p prev. induction l as [|[q v] l IH]; intros [|fuel] p prev Hc Ha Hf; try (cbn in Hf; lia); cbn [unregister_loop].
  - cbn in Hc. by subst p.
  - destruct Hc as [-> (n & Hn & _ & Hl)]. cbn in Ha. apply not_elem_of_cons in Ha as [Hne Ha].
    unfold bind at 1, get_handler at 1. rewrite Hn. unfold ret at 1. rewrite (proj2 (Z.eqb_neq q a)) by done.
    apply IH; [done|done|cbn in Hf; lia].
Qed.

Lemma unregister_loop_run fuel a v p l1 l2 prev s w :
  chain (rs_handlers s) p (l1 ++ (a, v) :: l2) -> a ∉ l1.*1 -> (length l1 < fuel)%nat ->
  exists n, rs_handlers s !! a = Some n /\
    unregister_loop fuel a p prev s w =
      match (match last l1.*1 with Some pr => Some pr | None => prev end) with
      | Some pr => (let! np := get_handler pr s in ret (1, set_handler pr (set_rh_next (rh_next n) np) s)) w
      | None => Ok ((1, set_handlers (rh_next n) s), w)
      end.
Proof.
  revert fuel p prev. induction l1 as [|[q1 v1] l1 IH]; intros [|fuel] p prev Hc Hq Hf; try (cbn in Hf; lia);
    cbn [app] in Hc; cbn [unregister_loop].
  - destruct Hc as [-> (n & Hn & _ & _)]. exists n. split; [done|]. unfold bind at 1, get_handler at 1. rewrite Hn.
    unfold ret at 1. rewrite Z.eqb_refl. by destruct prev.
  - destruct Hc as [-> (n & Hn & _ & Hl)]. cbn in Hq. apply not_elem_of_cons in Hq as [Hne Hq].
    destruct (IH fuel (rh_next n) (Some q1) Hl Hq ltac:(cbn in Hf; lia)) as (nq & Hnq & Hrun).
    exists nq. split; [done|]. unfold bind at 1, get_handler at 1. rewrite Hn. unfold ret at 1.
    rewrite (proj2 (Z.eqb_neq q1 a)) by done. rewrite Hrun, fmap_cons, last_cons. by destruct (last l1.*1).
Qed.

Lemma unregister_run a s l w :
  registered s l ->
  exists s', rtnl_handler_unregister a s w = Ok ((if decide (a ∈ l.*1) then 1 else 0, s'), w) /\
             registered s' (without a l) /\ rs_client s' = rs_client s.
Proof.
  intros [Hc Hd]. pose proof (chain_length _ _ _ Hc Hd) as Hlen. unfold rtnl_handler_unregister.
  destruct (decide (a ∈ l.*1)) as [Hin|Hn].
  2: { exists s. rewrite without_id by done. split; [|done].
       apply (unregister_loop_absent _ _ _ l); [done|done|unfold handler_fuel; lia]. }
  apply list_elem_of_fmap in Hin as ([a' v] & [= <-] & Hin).
  apply list_elem_of_split in Hin as (l1 & l2 & ->). rewrite length_app in Hlen. cbn in Hlen.
  destruct (NoDup_remove_addr _ _ _ _ Hd) as [Hq Hd'].
  destruct (unregister_loop_run (handler_fuel s) a v _ l1 l2 None s w Hc Hq) as (n & Hn & Hrun);
    [unfold handler_fuel; lia|].
  rewrite Hrun, without_app by done. destruct l1 as [|[pr vp] l1' _] using rev_ind.
  - eexists. split; [done|]. split; [|done]. split; [exact (chain_pop _ _ _ _ _ n Hc Hn)|done].
  - rewrite fmap_app. change ([(pr, vp)].*1) with [pr]. rewrite last_snoc. rewrite <- app_assoc in *. cbn [app] in *.
    destruct (chain_elem _ _ _ pr vp Hc) as (np & Hnp & _); [set_solver|].
    unfold bind, get_handler. rewrite Hnp. unfold ret. eexists. split; [done|]. split; [|done].
    split; [exact (chain_unlink _ _ _ _ _ _ _ _ _ _ Hc Hd Hn Hnp)|done].
Qed.

(** The linked list of a handle is a stack of handlers: registering puts a handler that
    is not registered in front, unregistering takes it out wherever it is and says whether it
    was there, and find_handler returns the handler of the type registered last. *)
Theorem rtnl_handlers_refine s l w :
  registered s l ->
  (forall a n, rs_handlers s !! a = Some n -> a ∉ l.*1 ->
     exists s', rtnl_handler_register a s w = Ok ((1, s'), w) /\
                registered s' ((a, (rh_type n, rh_fn n, rh_arg n)) :: l) /\ rs_client s' = rs_client s) /\
  (forall a, exists s', rtnl_handler_unregister a s w = Ok ((if decide (a ∈ l.*1) then 1 else 0, s'), w) /\
                        registered s' (without a l) /\ rs_client s' = rs_client s) /\
  (forall type, find_handler type s w = Ok (handler_of type l, w)).
Proof.
  intros Hr. split_and!; intros; [by apply rtnl_register_run|by apply unregister_run|by apply find_handler_run].
Qed.

(** A handler that is registered again while it is the first one points to itself: the
    search for a type without handler does not end. *)
Lemma register_twice_diverges a v l s w type :
  registered s ((a, v) :: l) -> v.1.1 <> type ->
  exists s', rtnl_handler_register a s w = Ok ((1, s'), w) /\
    forall fuel, find_handler_loop fuel type (handlers (rs_handle s')) s' w = Fuel.
Proof.
  intros [[Hp (n & Hn & Hv & _)] _] Hne. unfold rtnl_handler_register, bind, get_handler. rewrite Hn, Hp. unfold ret.
  eexists. split; [done|]. cbn. induction fuel as [|fuel IH]; [done|]. cbn [find_handler_loop].
  unfold bind, get_handler. cbn. rewrite lookup_insert_eq. unfold ret. cbn.
  rewrite (proj2 (Z.eqb_neq (rh_type n) type)) by (subst v; done). exact IH.
Qed.
End Handlers.

(** * Receiving *)

Section Receive.
Context {C : Type} (client : Z -> @handlefn C) (os : @os_calls (rstate C)).

(** Each message in order: the end of a dump, an error, or a call of its handler. *)
Fixpoint dispatch_msgs (m : list Z) (l : list Z) (s : rstate C) : M (Z * rstate C) :=
  match l with
  | [] => ret (1, s)
  | h :: l =>
      let type := rd 2 (h + 4) m in
      if type =? NLMSG_DONE then ret (0, s) else
      if type =? NLMSG_ERROR then
        (if 36 <=? rd 4 h m then set_errno (sint 32 (- sint 32 (rd 4 (h + 16) m))) else ret tt) ;;; ret (-1, s)
      else
      let! (_, s) := call_handler client type h s in dispatch_msgs m l s
  end.

(** The functions of the handlers leave the datagram as it is. *)
Definition client_reads : Prop := forall fn hdr arg s, reads (client fn hdr arg s).

Lemma find_handler_loop_reads fuel type p (s : rstate C) : reads (find_handler_loop fuel type p s).
Proof.
  revert p. induction fuel as [|fuel IH]; intros p w a w' H; [done|]. cbn [find_handler_loop] in H.
  destruct p as [q|]; [|unfold ret in H; by simplify_eq]. unfold bind, get_handler in H.
  destruct (rs_handlers s !! q); [|done]. unfold ret in H. case_match; [by simplify_eq|by eapply IH].
Qed.

Lemma call_handler_reads type hdr s : client_reads -> reads (call_handler client type hdr s).
Proof.
  intros Hc w a w' H. unfold call_handler, bind at 1 in H.
  destruct (find_handler type s w) as [[[q|] w1]| | |] eqn:E; try done; apply find_handler_loop_reads in E.
  - unfold bind, get_handler in H. destruct (rs_handlers s !! q); [|done]. unfold ret in H. apply Hc in H. congruence.
  - unfold ret in H. by simplify_eq.
Qed.

Lemma receive_loop_run fuel m h status s w :
  client_reads -> w_mem w = m -> Forall byte_ok m -> 0 <= h -> status < 2 ^ 31 - 4 -> -4 < status ->
  h + status <= zlen m -> (Z.to_nat status < fuel)%nat ->
  receive_loop client fuel h status s w = dispatch_msgs m (msg_list fuel m (h + status) h) s w.
Proof.
  intros Hc Hw Hb. revert h status s w Hw.
  induction fuel as [|fuel IH]; intros h status s w Hw ? ? ? ? Hf; [lia|].
  cbn [receive_loop msg_list]. replace (h + status - h) with status by lia.
  unfold bind at 1, NLMSG_OK. change sizeof_nlmsghdr with 16.
  destruct (Z.leb_spec 16 status) as [Hl|Hl]; [|done]. cbn [andb].
  unfold bind at 1, nlmsg_len at 1, load32 at 1. rewrite load_ok, Hw by (rewrite ?Hw; lia). unfold ret at 1.
  set (l := rd 4 h m). destruct ((16 <=? l) && (l <=? status)) eqn:Hok; [|done]. cbn [negb].
  apply andb_true_iff in Hok as [?%Z.leb_le ?%Z.leb_le]. cbn [dispatch_msgs].
  unfold bind at 1, nlmsg_type, load16. rewrite load_ok, Hw by (rewrite ?Hw; lia). cbn zeta. set (t := rd 2 (h + 4) m).
  destruct (t =? NLMSG_DONE); [done|]. destruct (t =? NLMSG_ERROR).
  - unfold bind at 1 2, nlmsg_len, load32. rewrite load_ok, Hw by (rewrite ?Hw; lia). fold l.
    change (NLMSG_LENGTH sizeof_nlmsgerr) with 36. change (NLMSG_DATA h) with (h + 16).
    destruct (Z.leb_spec 36 l); [|done]. unfold bind at 1 2. by rewrite load_ok, Hw by (rewrite ?Hw; lia).
  - unfold bind at 1 3. destruct (call_handler client t h s w) as [[[r1 s1] w1]| | |] eqn:Hst; try done.
    apply call_handler_reads in Hst; [|done].
    unfold bind at 1, nlmsg_len, load32. rewrite load_ok, Hst, Hw by (rewrite ?Hst, ?Hw; lia). fold l.
    rewrite NLMSG_ALIGN_align4 by lia. pose proof (align4_spec l) as [? _]. rewrite sint_small by lia.
    rewrite IH; [|congruence|lia..]. by replace (h + align4 l + (status - align4 l)) with (h + status) by lia.
Qed.

(** What [rtnl_receive] leaves of the memory: without its buffer. *)
Definition leave {A} (base : Z) (o : res (A * world)) : res (A * world) :=
  match o with
  | Ok (a, w) => Ok (a, with_mem (take (Z.to_nat base) (w_mem w)) w)
  | Ub => Ub
  | Exit => Exit
  | Fuel => Fuel
  end.

(** A datagram of [st] bytes received from the kernel into the local buffer. *)
Record datagram (s : rstate C) (w : world) (st : Z) (s1 : rstate C) (w1 : world) : Prop := {
  dg_recv : exists peer flags, os_recvmsg os (rtnl_fd (rs_handle s)) (zlen (w_mem w)) sizeof_buf s
              (with_mem (w_mem w ++ replicate (Z.to_nat sizeof_buf) 0) w)
            = Ok (((st, peer, sizeof_sockaddr_nl, flags), s1), w1);
  dg_size : 0 < st <= sizeof_buf;
  dg_room : zlen (w_mem w1) = zlen (w_mem w) + sizeof_buf;
  dg_bytes : Forall byte_ok (w_mem w1)
}.

Lemma receive_run s w st s1 w1 :
  client_reads -> datagram s w st s1 w1 ->
  rtnl_receive client os s w =
    leave (zlen (w_mem w))
      (dispatch_msgs (w_mem w1) (msg_list (loop_fuel st) (w_mem w1) (zlen (w_mem w) + st) (zlen (w_mem w))) s1 w1).
Proof.
  intros Hc [(peer & flags & Hrecv) Hst Hroom Hb]. unfold sizeof_buf in *.
  unfold rtnl_receive, with_buffer, bind at 1. unfold sizeof_buf. rewrite Hrecv. cbn iota beta.
  rewrite (proj2 (Z.ltb_ge st 0)), (proj2 (Z.eqb_neq st 0)) by lia. rewrite Z.eqb_refl. cbn [negb].
  rewrite (receive_loop_run _ (w_mem w1)); try done; [unfold zlen; lia|lia..|unfold loop_fuel; lia].
Qed.

(** The handler of the handlers [l] that a message of a type is for: the first one with that
    type, if any. *)
Definition wanted_by (l : list (Z * (Z * Z * Z))) (type : Z) : option (Z * (Z * Z * Z)) :=
  List.find (fun '(_, (ty, _, _)) => ty =? type) l.

Lemma call_handler_run type hdr s l w :
  registered s l ->
  call_handler client type hdr s w =
    match wanted_by l type with
    | Some (_, (_, fn, arg)) => client fn hdr arg s w
    | None => Ok ((0, s), w)
    end.
Proof.
  intros Hr. unfold call_handler, bind at 1. rewrite (find_handler_run type s l) by done.
  unfold handler_of, find_entry, wanted_by.
  assert (List.find (fun e : Z * (Z * Z * Z) => e.2.1.1 =? type) l = List.find (fun '(_, (ty, _, _)) => ty =? type) l) as ->.
  { clear Hr. induction l as [|[a [[ty fn] arg]] l IH]; [done|]. cbn. by rewrite IH. }
  destruct (List.find _ l) as [[a [[ty fn] arg]]|] eqn:E; [|done]. cbn.
  apply List.find_some in E as [Hin%list_elem_of_In _]. pose proof Hr as [Hch _].
  destruct (chain_elem _ _ _ _ _ Hch Hin) as (n & Hn & Hv). unfold bind, get_handler. rewrite Hn. unfold ret.
  cbn in Hv. by simplify_eq.
Qed.

(** What the datagram with the messages [msgs] makes happen when the handlers are [l]: in the
    order of the messages, the function of the handler that wants it is called with the message
    and the handler's argument, and a message nobody wants is passed over; the end of a dump and
    an error message end it. *)
Fixpoint deliver_msgs (l : list (Z * (Z * Z * Z))) (m : list Z) (msgs : list Z) (s : rstate C) : M (Z * rstate C) :=
  match msgs with
  | [] => ret (1, s)
  | msg :: msgs =>
      let type := rd 2 (msg + 4) m in
      if type =? NLMSG_DONE then ret (0, s)
      else if type =? NLMSG_ERROR then fun w =>
        Ok ((-1, s), if 36 <=? rd 4 msg m then with_errno (sint 32 (- sint 32 (rd 4 (msg + 16) m))) w else w)
      else match wanted_by l type with
           | Some (_, (_, fn, arg)) => let! (_, s) := client fn msg arg s in deliver_msgs l m msgs s
           | None => deliver_msgs l m msgs s
           end
  end.

(** The functions of the handlers, when they return, leave the list of handlers as it is. *)
Definition client_keeps (l : list (Z * (Z * Z * Z))) : Prop :=
  forall fn hdr arg s w r s' w', registered s l -> client fn hdr arg s w = Ok ((r, s'), w') -> registered s' l.

Lemma dispatch_delivers l m msgs s w :
  client_keeps l -> registered s l -> dispatch_msgs m msgs s w = deliver_msgs l m msgs s w.
Proof.
  intros Hk. revert s w. induction msgs as [|msg msgs IH]; intros s w Hr; [done|]. cbn [dispatch_msgs deliver_msgs].
  cbn zeta. destruct (_ =? NLMSG_DONE); [done|]. destruct (_ =? NLMSG_ERROR); [by destruct (36 <=? _)|].
  unfold bind at 1. rewrite (call_handler_run _ _ s l) by done.
  destruct (wanted_by l _) as [[a [[ty fn] arg]]|]; [|by apply IH]. unfold bind.
  destruct (client fn msg arg s w) as [[[r s'] w']| | |] eqn:E; [|done..]. apply IH. by eapply Hk.
Qed.

(** C30: a datagram from the kernel is split into its messages, whatever its bytes and its
    length are, and nothing after its end is looked at.  The messages are taken in order; for
    each, the function of the handler registered last for its type is called with the message
    and the argument of the handler, and a message without handler is passed over.  The end of a
    dump ends it with 0 and an error message with -1 (with its error number, when it has one),
    and 1 is returned when there are no messages left.  The functions of the handlers leave the
    datagram and the list of handlers as they are. *)
Theorem rtnl_receive_spec s w st s1 w1 l :
  client_reads -> client_keeps l -> datagram s w st s1 w1 -> registered s1 l ->
  rtnl_receive client os s w =
    leave (zlen (w_mem w))
      (deliver_msgs l (w_mem w1) (msg_list (loop_fuel st) (w_mem w1) (zlen (w_mem w) + st) (zlen (w_mem w))) s1 w1).
Proof. intros Hc Hk Hd Hr. rewrite (receive_run s w st s1 w1) by done. by rewrite (dispatch_delivers l). Qed.

(** The functions of the handlers return, keep the datagram and the list of handlers. *)
Definition client_safe (l : list (Z * (Z * Z * Z))) : Prop :=
  forall fn hdr arg s w, registered s l ->
  wp True (client fn hdr arg s) (fun '(_, s') w' => registered s' l /\ w_mem w' = w_mem w) w.

Lemma call_handler_safe type hdr s l w :
  client_safe l -> registered s l ->
  wp True (call_handler client type hdr s) (fun '(_, s') w' => registered s' l /\ w_mem w' = w_mem w) w.
Proof.
  intros Hc Hr. unfold wp. rewrite (call_handler_run type hdr s l) by done.
  destruct (wanted_by l type) as [[a [[ty fn] arg]]|]; [|by split]. by apply Hc.
Qed.

Lemma dispatch_safe m msgs s l w :
  client_safe l -> registered s l ->
  wp True (dispatch_msgs m msgs s) (fun '(r, s') w' => (r = -1 \/ r = 0 \/ r = 1) /\ registered s' l /\ w_mem w' = w_mem w) w.
Proof.
  intros Hc. revert s w. induction msgs as [|h msgs IH]; intros s w Hr; cbn [dispatch_msgs].
  - apply wp_ret. auto.
  - cbn zeta. destruct (_ =? NLMSG_DONE); [apply wp_ret; auto|]. destruct (_ =? NLMSG_ERROR).
    + by destruct (36 <=? rd 4 h m); cbn; auto.
    + apply wp_bind. eapply wp_mono; [by apply call_handler_safe|]. intros [r s'] w' [Hr' Hm]. cbn beta iota.
      eapply wp_mono; [by apply IH|]. intros [r2 s2] w2 (? & ? & ?). split_and!; [done|done|congruence].
Qed.

(** C31: with handlers that return and keep the datagram and the list of handlers,
    rtnl_receive ends without a fault on every datagram, returns -1, 0 or 1 and leaves the
    memory of its caller. *)
Theorem rtnl_receive_safe s w st s1 w1 l :
  client_safe l -> client_reads -> datagram s w st s1 w1 -> registered s1 l ->
  take (length (w_mem w)) (w_mem w1) = w_mem w ->
  wp True (rtnl_receive client os s)
     (fun '(r, s') w' => (r = -1 \/ r = 0 \/ r = 1) /\ registered s' l /\ w_mem w' = w_mem w) w.
Proof.
  intros Hs Hc Hd Hr Hm. unfold wp. rewrite (receive_run s w st s1 w1) by done.
  set (msgs := msg_list _ _ _ _). pose proof (dispatch_safe (w_mem w1) msgs s1 l w1 Hs Hr) as Hw. unfold wp in Hw.
  destruct (dispatch_msgs _ msgs s1 w1) as [[[r s'] w']| | |]; try done. cbn.
  destruct Hw as (? & ? & E). split_and!; try done. rewrite E. unfold zlen. by rewrite Nat2Z.id.
Qed.
End Receive.

(** * Attributes *)

(** The last attribute with the type in its 16-bit field. *)
Definition last_rta (m : list Z) (ty : Z) (l : list Z) : option Z := last (filter (fun a => rd 2 (a + 2) m = ty) l).

Definition rta_put (m : list Z) (max : Z) (tb : list (option Z)) (a : Z) : list (option Z) :=
  if rd 2 (a + 2) m <=? max then <[Z.to_nat (rd 2 (a + 2) m) := Some a]> tb else tb.

Lemma last_rta_cons m ty a l :
  last_rta m ty (a :: l) = match last_rta m ty l with
                           | Some x => Some x
                           | None => if rd 2 (a + 2) m =? ty then Some a else None
                           end.
Proof.
  unfold last_rta. rewrite filter_cons.
  destruct (Z.eqb_spec (rd 2 (a + 2) m) ty); [rewrite decide_True by done; rewrite last_cons|rewrite decide_False by done];
    by destruct (last _).
Qed.

Lemma rd_nonneg n o m : Forall byte_ok m -> 0 <= rd n o m.
Proof. intros Hb. unfold rd. by apply le_dec_range, slice_bytes. Qed.

Lemma rta_fold_lookup m max l tb (i : nat) :
  Forall byte_ok m -> (i < length tb)%nat ->
  fold_left (rta_put m max) l tb !! i =
    if Z.of_nat i <=? max
    then match last_rta m (Z.of_nat i) l with Some a => Some (Some a) | None => tb !! i end
    else tb !! i.
Proof.
  intros Hb. revert tb. induction l as [|a l IH]; intros tb Hi; [by destruct (_ <=? _)|]. cbn [fold_left].
  rewrite IH; [|unfold rta_put; destruct (rd 2 (a + 2) m <=? max); [rewrite length_insert|]; exact Hi]. rewrite last_rta_cons.
  pose proof (rd_nonneg 2 (a + 2) m Hb) as Hr. unfold rta_put. destruct (Z.leb_spec (Z.of_nat i) max).
  - destruct (last_rta m (Z.of_nat i) l); [done|]. destruct (Z.eqb_spec (rd 2 (a + 2) m) (Z.of_nat i)) as [He|He].
    + rewrite He, (proj2 (Z.leb_le _ _)) by lia. by rewrite Nat2Z.id, list_lookup_insert_eq.
    + destruct (_ <=? _); [|done]. rewrite list_lookup_insert_ne; [done|lia].
  - destruct (Z.leb_spec (rd 2 (a + 2) m) max); [|done]. rewrite list_lookup_insert_ne; [done|lia].
Qed.

Lemma RTA_ALIGN_align4 n : RTA_ALIGN n = align4 n.
Proof. apply NFA_ALIGN_align4. Qed.

Lemma rtattr_loop_run fuel max tb rta len w :
  let m := w_mem w in
  Forall byte_ok m -> 0 <= rta -> - 2 ^ 31 <= len < 2 ^ 31 - 4 -> rta + len <= zlen m ->
  0 <= max < zlen tb -> (Z.to_nat len < fuel)%nat ->
  let l := attr_list fuel m (rta + len) rta in
  rtattr_loop fuel max tb rta len w = Ok ((rta + len - attrs_end m rta l, fold_left (rta_put m max) l tb), w).
Proof.
  intros m Hb. revert tb rta len. induction fuel as [|fuel IH]; intros tb rta len ? ? ? Hmax Hf; [lia|].
  cbn [rtattr_loop attr_list]. replace (rta + len - rta) with len by lia. set (n := rd 2 rta m).
  assert (RTA_OK rta len w = Ok ((4 <=? n) && (n <=? len), w)) as Hok.
  { unfold RTA_OK. change sizeof_rtattr with 4. destruct (Z.leb_spec 4 len).
    - unfold bind, rta_len, load16. by rewrite load_ok by (fold m; lia).
    - unfold ret. do 3 f_equal. symmetry. apply andb_false_iff.
      destruct (Z.leb_spec 4 n); [right; apply Z.leb_gt; lia|by left]. }
  unfold bind at 1. rewrite Hok. destruct ((4 <=? n) && (n <=? len)) eqn:Hb1; [|cbn; unfold ret; do 3 f_equal; lia].
  apply andb_true_iff in Hb1 as [?%Z.leb_le ?%Z.leb_le]. cbn [attrs_end fold_left].
  unfold bind at 1, rta_type, load16. rewrite load_ok by (fold m; lia). fold m.
  pose proof (rd_nonneg 2 (rta + 2) m Hb) as Hr. set (t := rd 2 (rta + 2) m) in *.
  assert ((if t <=? max then set_tb tb t rta else ret tb) w = Ok (rta_put m max tb rta, w)) as Hput.
  { unfold rta_put. fold t. destruct (Z.leb_spec t max); [|done]. unfold set_tb.
    by rewrite (proj2 (Z.leb_le 0 t)), (proj2 (Z.ltb_lt t (zlen tb))) by lia. }
  unfold bind at 1. rewrite Hput. unfold bind at 1, RTA_NEXT, rta_len, load16. unfold bind at 1.
  rewrite load_ok by (fold m; lia). fold m n. unfold ret at 1. rewrite RTA_ALIGN_align4.
  pose proof (align4_spec n) as [? _]. rewrite sint_small by lia. fold n.
  rewrite IH; [|lia..| |lia].
  - by replace (rta + align4 n + (len - align4 n)) with (rta + len) by lia.
  - unfold rta_put, zlen. destruct (_ <=? _); rewrite ?length_insert; exact Hmax.
Qed.

(** On arbitrary bytes [rtnl_parse_rtattr] with a table of at least [max + 1] entries returns
    0 when the attributes fill the bytes and -1 otherwise, and for each type up to [max] the
    table has the last attribute of the type; for a type without attribute the entry is
    cleared, except the last one, which keeps what the caller left there. *)
Lemma rtnl_parse_rtattr_spec tb max rta len w :
  let m := w_mem w in
  Forall byte_ok m -> 0 <= rta -> - 2 ^ 31 <= len < 2 ^ 31 - 4 -> rta + len <= zlen m -> 0 <= max < zlen tb ->
  let l := nfattrs m rta len in
  exists tb', rtnl_parse_rtattr tb max rta len w = Ok ((if attrs_end m rta l =? rta + len then 0 else -1, tb'), w) /\
    forall i : nat, Z.of_nat i <= max ->
      tb' !! i = match last_rta m (Z.of_nat i) l with
                 | Some a => Some (Some a)
                 | None => if Z.of_nat i <? max then Some None else tb !! i
                 end.
Proof.
  intros m Hb ? ? ? Hmax l. unfold rtnl_parse_rtattr, bind, clear_tb. rewrite (proj2 (Z.leb_le max _)) by lia. unfold ret at 1.
  set (tb0 := replicate _ None ++ _).
  assert (length tb0 = length tb) as Hlen.
  { unfold tb0, zlen in *. rewrite length_app, length_replicate, length_drop. lia. }
  assert (zlen tb0 = zlen tb) as Hz by (unfold zlen; by rewrite Hlen).
  rewrite (rtattr_loop_run _ max tb0 rta len w); [|done..|lia|unfold loop_fuel; lia]. fold m l.
  fold (nfattrs m rta len). fold l.
  exists (fold_left (rta_put m max) l tb0). split.
  - destruct (Z.eqb_spec (rta + len - attrs_end m rta l) 0), (Z.eqb_spec (attrs_end m rta l) (rta + len)); done || lia.
  - intros i Hi. unfold zlen in *. rewrite rta_fold_lookup; [|done|rewrite Hlen; lia]. rewrite (proj2 (Z.leb_le (Z.of_nat i) max)) by lia.
    destruct (last_rta m (Z.of_nat i) l); [done|]. unfold tb0. destruct (Z.ltb_spec (Z.of_nat i) max).
    + rewrite lookup_app_l by (rewrite length_replicate; lia). apply lookup_replicate_2. lia.
    + rewrite lookup_app_r by (rewrite length_replicate; lia). rewrite lookup_drop, length_replicate. f_equal. lia.
Qed.

(** * Examples *)

Section RtnlExample.
(** Two handlers that add their argument to a counter, and a kernel that delivers a link
    message, an address message and a third one whose last byte is missing. *)
Definition add_client (fn : Z) : @handlefn Z := fun _ arg s =>
  ret (1, mk_rstate (rs_handle s) (rs_handlers s) (rs_client s + arg)).
Definition link_msgs : list Z :=
  le_enc 4 17 ++ le_enc 2 16 ++ replicate 10 0 ++ [7; 0; 0; 0] ++ le_enc 4 16 ++ le_enc 2 20 ++ replicate 10 0
  ++ le_enc 4 20 ++ le_enc 2 16 ++ replicate 13 0.
Definition link_os : @os_calls (rstate Z) :=
  let nl := mk_sockaddr_nl AF_NETLINK 7 0 in
  mk_os (fun s => ret (3, s)) (fun _ s => ret (0, s)) (fun _ _ s => ret (0, s))
        (fun _ s => ret ((0, nl, 12), s)) (fun s => ret (1000, s)) (fun _ _ n _ s => ret (n, s))
        (fun _ _ _ s => ret ((0, nl, 12), s)) (fun _ _ _ s => ret (0, s))
        (fun _ buf _ s => store_bytes buf link_msgs ;;; ret ((55, nl, 12, 0), s))
        (fun _ _ _ _ s => ret (0, s)) (fun _ _ _ s => ret ((0, 0), s)).
Definition link_handlers : list (Z * (Z * Z * Z)) := [(2, (20, 1, 500)); (1, (16, 1, 30))].
Definition link_state : rstate Z :=
  mk_rstate (mk_rtnl 3 0 0 (mk_sockaddr_nl AF_NETLINK 7 0) (Some 2))
            (<[2 := mk_handler (Some 1) 20 1 500]> (<[1 := mk_handler None 16 1 30]> ∅)) 0.
Definition link_w : world := mk_world [] 0 [].
Definition link_w1 : world := mk_world (splice 0 link_msgs (replicate (Z.to_nat sizeof_buf) 0)) 0 [].

Lemma link_registered : registered link_state link_handlers.
Proof.
  split; [|apply (bool_decide_unpack _); vm_compute; exact I].
  split; [done|]. exists (mk_handler (Some 1) 20 1 500). split_and!; try done.
  split; [done|]. exists (mk_handler None 16 1 30). by split_and!.
Qed.

Lemma add_client_reads : client_reads add_client.
Proof. intros fn hdr arg s. apply reads_ret. Qed.

Lemma add_client_keeps : client_keeps add_client link_handlers.
Proof. intros fn hdr arg s w r s' w' Hr [= <- <- <-]. exact Hr. Qed.

Lemma add_client_safe : client_safe add_client link_handlers.
Proof. intros fn hdr arg s w Hr. by apply wp_ret. Qed.

Lemma link_datagram : datagram link_os link_state link_w 55 link_state link_w1.
Proof.
  split.
  - exists (mk_sockaddr_nl AF_NETLINK 7 0), 0. vm_compute. reflexivity.
  - unfold sizeof_buf. lia.
  - vm_compute. reflexivity.
  - by apply bytes_okb_ok.
Qed.

Lemma rtnl_handlers_refine_witness :
  find_handler 16 link_state link_w = Ok (Some 1, link_w) /\
  exists s', rtnl_handler_unregister 1 link_state link_w = Ok ((1, s'), link_w) /\ registered s' [(2, (20, 1, 500))].
Proof.
  destruct (rtnl_handlers_refine link_state link_handlers link_w link_registered) as (_ & Hun & Hfind). split.
  - rewrite Hfind. reflexivity.
  - destruct (Hun 1) as (s' & Hrun & Hr & _). exists s'. split; [exact Hrun|exact Hr].
Defined.

Lemma rtnl_receive_spec_witness :
  exists s', rtnl_receive add_client link_os link_state link_w = Ok ((1, s'), link_w) /\ rs_client s' = 530.
Proof.
  eexists. split; [|shelve].
  etransitivity; [apply (rtnl_receive_spec add_client link_os link_state link_w 55 link_state link_w1 link_handlers);
                  [apply add_client_reads|apply add_client_keeps|apply link_datagram|apply link_registered]|vm_compute; reflexivity].
  Unshelve. vm_compute. reflexivity.
Defined.

Lemma rtnl_receive_safe_witness :
  wp True (rtnl_receive add_client link_os link_state)
     (fun '(r, s') w' => (r = -1 \/ r = 0 \/ r = 1) /\ registered s' link_handlers /\ w_mem w' = w_mem link_w) link_w.
Proof.
  apply (rtnl_receive_safe add_client link_os link_state link_w 55 link_state link_w1 link_handlers);
    [apply add_client_safe|apply add_client_reads|apply link_datagram|apply link_registered|reflexivity].
Defined.
End RtnlExample.
