(* ===== verification/NfqHandle.v ===== *)
(** libnetfilter_queue/libnetfilter_queue.c: the queue handle over libnfnetlink, its
    list of queues, the configuration and verdict messages, the callback that
    dispatches packets to queues, the readers of packet attributes and the text of a
    packet.

    The queue handles live in a [store], because the callback reaches them through
    the data pointer it was registered with; a pointer to a handle is its address
    there.  [C] is the rest of the state outside of the library.  The function a
    queue calls is a number, which the parameter [client] resolves. *)
From stdpp Require Import gmap.
From Stdlib Require Import Strings.String.
From S2P Require Import Prelude CMonad MnlMsg MnlAttr Ctnl NfqMsg NfnlMsg Nfnl CDouble CText.

Definition ENODEV : Z := 19.
Definition NFQNL_MSG_VERDICT_BATCH : Z := 3.
Definition NFQNL_MSG_MAX : Z := 4.
Definition NFQA_CFG_MASK : Z := 4.
Definition NFQA_CFG_FLAGS : Z := 5.
Definition NFQNL_CFG_CMD_BIND : Z := 1.
Definition NFQNL_CFG_CMD_UNBIND : Z := 2.
Definition NFQNL_CFG_CMD_PF_BIND : Z := 3.
Definition NFQNL_CFG_CMD_PF_UNBIND : Z := 4.

Definition NFNL_HEADER_LEN : Z := NLMSG_ALIGN sizeof_nlmsghdr + NLMSG_ALIGN sizeof_nfgenmsg.

(** The size of a union of [n] bytes with a [struct nlmsghdr]. *)
Definition sizeof_union (n : Z) : Z := 4 * ((Z.max n sizeof_nlmsghdr + 3) / 4).

(** * The store *)

(** [struct nfq_q_handle]. *)
Record nfq_q_handle := mk_qh {
  qh_next : option Z;
  qh_h : Z;
  qh_id : Z;
  qh_cb : option Z;
  qh_data : Z
}.

(** The field [qh_list] of each [struct nfq_handle], the queue handles, the next
    address that [malloc] returns and [nfq_errno]. *)
Record store (C : Type) := mk_store {
  st_lists : gmap Z (option Z);
  st_queues : gmap Z nfq_q_handle;
  st_fresh : Z;
  nfq_errno : Z;
  st_client : C
}.
Arguments mk_store {C} _ _ _ _ _.
Arguments st_lists {C} _.
Arguments st_queues {C} _.
Arguments st_fresh {C} _.
Arguments nfq_errno {C} _.
Arguments st_client {C} _.

Section Handle.
Context {C : Type}.
Abbreviation S := (store C).

Definition set_list (h : Z) (p : option Z) (s : S) : S :=
  mk_store (<[h := p]> (st_lists s)) (st_queues s) (st_fresh s) (nfq_errno s) (st_client s).
Definition set_queue (q : Z) (n : nfq_q_handle) (s : S) : S :=
  mk_store (st_lists s) (<[q := n]> (st_queues s)) (st_fresh s) (nfq_errno s) (st_client s).
Definition free_queue (q : Z) (s : S) : S :=
  mk_store (st_lists s) (delete q (st_queues s)) (st_fresh s) (nfq_errno s) (st_client s).
Definition set_nfq_errno (e : Z) (s : S) : S :=
  mk_store (st_lists s) (st_queues s) (st_fresh s) e (st_client s).

(** Reading through a pointer; a pointer that is not in the store is a fault. *)
Definition get_list (h : Z) (s : S) : M (option Z) :=
  match st_lists s !! h with Some p => ret p | None => ub end.
Definition get_queue (q : Z) (s : S) : M nfq_q_handle :=
  match st_queues s !! q with Some n => ret n | None => ub end.

Definition set_next (p : option Z) (n : nfq_q_handle) : nfq_q_handle :=
  mk_qh p (qh_h n) (qh_id n) (qh_cb n) (qh_data n).

Definition queue_fuel (s : S) : nat := Datatypes.S (size (st_queues s)).

(** * The list of queues *)

Fixpoint del_loop (fuel : nat) (qh : Z) (cur_qh prev_qh : option Z) (s : S) : M S :=
  match fuel with
  | O => no_fuel
  | Datatypes.S fuel =>
      match cur_qh with
      | None => ret s
      | Some cur =>
          if cur =? qh then
            let! n := get_queue qh s in
            match prev_qh with
            | Some prev => let! p := get_queue prev s in ret (set_queue prev (set_next (qh_next n) p) s)
            | None => ret (set_list (qh_h n) (qh_next n) s)
            end
          else
            let! n := get_queue cur s in del_loop fuel qh (qh_next n) cur_qh s
      end
  end.

Definition del_qh (qh : Z) (s : S) : M S :=
  let! n := get_queue qh s in
  let! list := get_list (qh_h n) s in
  del_loop (queue_fuel s) qh list None s.

Definition add_qh (qh : Z) (s : S) : M S :=
  let! n := get_queue qh s in
  let! list := get_list (qh_h n) s in
  ret (set_list (qh_h n) (Some qh) (set_queue qh (set_next list n) s)).

Fixpoint find_loop (fuel : nat) (id : Z) (qh : option Z) (s : S) : M (option Z) :=
  match fuel with
  | O => no_fuel
  | Datatypes.S fuel =>
      match qh with
      | None => ret None
      | Some q => let! n := get_queue q s in
                  if qh_id n =? id then ret qh else find_loop fuel id (qh_next n) s
      end
  end.

Definition find_qh (h id : Z) (s : S) : M (option Z) :=
  let! list := get_list h s in find_loop (queue_fuel s) id list s.

(** * The handle *)

(** [struct nfq_handle] at address [nq_self]; its list of queues is in the store. *)
Record nfq_handle := mk_nfq_handle {
  nq_self : Z;
  nq_nfnlh : @nfnl_handle S;
  nq_nfnlssh : Z
}.
Definition set_nfnlh (nh : @nfnl_handle S) (h : nfq_handle) : nfq_handle :=
  mk_nfq_handle (nq_self h) nh (nq_nfnlssh h).

Context (os : @os_calls S).

(** A client function: queue, nfnetlink header, attributes, data. *)
Definition nfq_callback : Type := Z -> Z -> list (option Z) -> Z -> S -> M (Z * S).
Context (client : Z -> nfq_callback).

(** A configuration message with the given attributes is built in a local buffer of
    [size] bytes and sent, and its answer awaited. *)
Definition send_config (fuel : nat) (h : nfq_handle) (size queuenum : Z) (attrs : Z -> M unit) (s : S) :
    M (Z * nfq_handle * S) :=
  with_buffer size (fun u =>
    let! (nh, s) := nfnl_fill_hdr os (nq_nfnlh h) (nq_nfnlssh h) u 0 AF_UNSPEC queuenum NFQNL_MSG_CONFIG
                      (Z.lor NLM_F_REQUEST NLM_F_ACK) s in
    attrs u ;;;
    let! (r, s) := nfnl_query os fuel nh u s in
    ret (r, set_nfnlh nh h, s)).

Definition __build_send_cfg_msg (fuel : nat) (h : nfq_handle) (command queuenum pf : Z) (s : S) :
    M (Z * nfq_handle * S) :=
  let size := sizeof_union (NFNL_HEADER_LEN + NFA_LENGTH 4) in
  send_config fuel h size queuenum
    (fun u => nfnl_addattr_l u size NFQA_CFG_CMD (nfqnl_msg_config_cmd command pf) 4 ;;; ret tt) s.

Definition __nfq_rcv_pkt : @nfnl_call S := fun nlh nfa data s =>
  let nfmsg := NLMSG_DATA nlh in
  let! res_id := load16 (nfmsg + 2) in
  let! qh := find_qh data (ntohs res_id) s in
  match qh with
  | None => ret (- ENODEV, s)
  | Some q =>
      let! n := get_queue q s in
      match qh_cb n with
      | None => ret (- ENODEV, s)
      | Some cb => client cb q nfmsg nfa (qh_data n) s
      end
  end.

Definition nfq_nfnlh (h : nfq_handle) : @nfnl_handle S := nq_nfnlh h.
Definition nfq_fd (h : nfq_handle) : Z := nfnl_fd (nfq_nfnlh h).

(** The handle is None when it cannot be created; the netlink handle is returned for
    the caller, which closes it. *)
Definition nfq_open_nfnl (nfnlh : @nfnl_handle S) (s : S) : M ((option nfq_handle * @nfnl_handle S) * S) :=
  let! ok := malloc_ok in
  if negb ok then ret ((None, nfnlh), s) else
  let h := st_fresh s in
  let s := mk_store (<[h := None]> (st_lists s)) (st_queues s) (h + 1) (nfq_errno s) (st_client s) in
  let out_free s := mk_store (delete h (st_lists s)) (st_queues s) (st_fresh s) (nfq_errno s) (st_client s) in
  let! (r, s) := nfnl_subsys_open os nfnlh NFNL_SUBSYS_QUEUE NFQNL_MSG_MAX 0 s in
  let '(ssh, nfnlh) := r in
  match ssh with
  | None => ret ((None, nfnlh), out_free s)
  | Some ssh =>
      let! (err, nfnlh) := nfnl_callback_register nfnlh ssh NFQNL_MSG_PACKET
                             (mk_callback (Some __nfq_rcv_pkt) h NFQA_MAX) in
      if err <? 0 then
        let s := set_nfq_errno err s in
        let! nfnlh := nfnl_subsys_close nfnlh ssh in
        ret ((None, nfnlh), out_free s)
      else ret ((Some (mk_nfq_handle h nfnlh ssh), nfnlh), s)
  end.

Definition nfq_open (s : S) : M (option nfq_handle * S) :=
  let! (nfnlh, s) := nfnl_open os s in
  match nfnlh with
  | None => ret (None, s)
  | Some nfnlh =>
      let nfnlh := nfnl_unset_sequence_tracking nfnlh in
      let! (r, s) := nfq_open_nfnl nfnlh s in
      match r with
      | (Some h, _) => ret (Some h, s)
      | (None, nfnlh) => let! (_, s) := nfnl_close os nfnlh s in ret (None, s)
      end
  end.

(** The handle is freed when the result is zero; its queues are not. *)
Definition nfq_close (h : nfq_handle) (s : S) : M (Z * S) :=
  let! (r, s) := nfnl_close os (nq_nfnlh h) s in
  if fst r =? 0
  then ret (fst r, mk_store (delete (nq_self h) (st_lists s)) (st_queues s) (st_fresh s) (nfq_errno s) (st_client s))
  else ret (fst r, s).

Definition nfq_bind_pf (fuel : nat) (h : nfq_handle) (pf : Z) (s : S) : M (Z * nfq_handle * S) :=
  __build_send_cfg_msg fuel h NFQNL_CFG_CMD_PF_BIND 0 pf s.
Definition nfq_unbind_pf (fuel : nat) (h : nfq_handle) (pf : Z) (s : S) : M (Z * nfq_handle * S) :=
  __build_send_cfg_msg fuel h NFQNL_CFG_CMD_PF_UNBIND 0 pf s.

Definition nfq_create_queue (fuel : nat) (h : nfq_handle) (num : Z) (cb : option Z) (data : Z) (s : S) :
    M (option Z * nfq_handle * S) :=
  let! found := find_qh (nq_self h) num s in
  match found with
  | Some _ => ret (None, h, s)
  | None =>
      let! ok := malloc_ok in
      if negb ok then ret (None, h, s) else
      let qh := st_fresh s in
      let s := mk_store (st_lists s) (<[qh := mk_qh None (nq_self h) num cb data]> (st_queues s)) (qh + 1)
                        (nfq_errno s) (st_client s) in
      let! (r, h, s) := __build_send_cfg_msg fuel h NFQNL_CFG_CMD_BIND num 0 s in
      if r <? 0 then ret (None, h, free_queue qh (set_nfq_errno r s)) else
      let! s := add_qh qh s in
      ret (Some qh, h, s)
  end.

(** The functions on a queue handle; [h] is the handle the queue points to. *)
Definition with_queue {A} (h : nfq_handle) (qh : Z) (s : S) (f : nfq_q_handle -> M A) : M A :=
  let! n := get_queue qh s in if qh_h n =? nq_self h then f n else ub.

Definition nfq_destroy_queue (fuel : nat) (h : nfq_handle) (qh : Z) (s : S) : M (Z * nfq_handle * S) :=
  with_queue h qh s (fun n =>
    let! (r, h, s) := __build_send_cfg_msg fuel h NFQNL_CFG_CMD_UNBIND (qh_id n) 0 s in
    if r =? 0 then let! s := del_qh qh s in ret (r, h, free_queue qh s) else ret (r, h, s)).

Definition nfq_handle_packet (h : nfq_handle) (buf len : Z) (s : S) : M (Z * S) :=
  nfnl_handle_packet (nq_nfnlh h) buf len s.

Definition nfq_set_mode (fuel : nat) (h : nfq_handle) (qh mode range : Z) (s : S) : M (Z * nfq_handle * S) :=
  with_queue h qh s (fun n =>
    let size := sizeof_union (NFNL_HEADER_LEN + NFA_LENGTH 5) in
    send_config fuel h size (qh_id n)
      (fun u => nfnl_addattr_l u size NFQA_CFG_PARAMS (nfqnl_msg_config_params range mode) 5 ;;; ret tt) s).

Definition nfq_set_queue_flags (fuel : nat) (h : nfq_handle) (qh mask flags : Z) (s : S) : M (Z * nfq_handle * S) :=
  with_queue h qh s (fun n =>
    let size := sizeof_union (NFNL_HEADER_LEN + NFA_LENGTH (4 + NFA_LENGTH 4)) in
    send_config fuel h size (qh_id n)
      (fun u => nfnl_addattr32 u size NFQA_CFG_FLAGS (htonl flags) ;;;
                nfnl_addattr32 u size NFQA_CFG_MASK (htonl mask) ;;; ret tt) s).

Definition nfq_set_queue_maxlen (fuel : nat) (h : nfq_handle) (qh queuelen : Z) (s : S) : M (Z * nfq_handle * S) :=
  with_queue h qh s (fun n =>
    let size := sizeof_union (NFNL_HEADER_LEN + NFA_LENGTH 5) in
    send_config fuel h size (qh_id n)
      (fun u => nfnl_addattr_l u size NFQA_CFG_QUEUE_MAXLEN (le_enc 4 (htonl queuelen)) 4 ;;; ret tt) s).

(** * Verdicts *)

(** [data] is the place of the packet in the buffer; the attribute header of the
    payload is a local variable after the message. *)
Definition __set_verdict (h : nfq_handle) (qh id verdict mark : Z) (set_mark : bool) (data_len data type : Z) (s : S) :
    M (Z * nfq_handle * S) :=
  with_queue h qh s (fun n =>
    let size := sizeof_union (NFNL_HEADER_LEN + NFA_LENGTH 4 + NFA_LENGTH 8) in
    with_buffer (size + sizeof_nfattr) (fun u =>
      let data_attr := u + size in
      let! (nh, s) := nfnl_fill_hdr os (nq_nfnlh h) (nq_nfnlssh h) u 0 AF_UNSPEC (qh_id n) type NLM_F_REQUEST s in
      nfnl_addattr_l u size NFQA_VERDICT_HDR (nfqnl_msg_verdict_hdr verdict id) 8 ;;;
      (if set_mark then nfnl_addattr32 u size NFQA_MARK mark ;;; ret tt else ret tt) ;;;
      let! tail := NLMSG_TAIL u in
      let iov0 := mk_iovec u (tail - u) in
      let! iov := (if negb (data_len =? 0) then
                     let! (iov1, iov2) := nfnl_build_nfa_iovec data_attr NFQA_PAYLOAD data_len data in
                     let! l := nlmsg_len u in
                     let! a := nfa_len data_attr in
                     set_nlmsg_len u (wrap 32 (l + a)) ;;;
                     ret [iov0; iov1; iov2]
                   else ret [iov0]) in
      let! (r, s) := nfnl_sendiov os nh iov 0 s in
      ret (r, set_nfnlh nh h, s))).

Definition nfq_set_verdict (h : nfq_handle) (qh id verdict data_len buf : Z) (s : S) : M (Z * nfq_handle * S) :=
  __set_verdict h qh id verdict 0 false data_len buf NFQNL_MSG_VERDICT s.
Definition nfq_set_verdict2 (h : nfq_handle) (qh id verdict mark data_len buf : Z) (s : S) : M (Z * nfq_handle * S) :=
  __set_verdict h qh id verdict (htonl mark) true data_len buf NFQNL_MSG_VERDICT s.
Definition nfq_set_verdict_batch (h : nfq_handle) (qh id verdict : Z) (s : S) : M (Z * nfq_handle * S) :=
  __set_verdict h qh id verdict 0 false 0 0 NFQNL_MSG_VERDICT_BATCH s.
Definition nfq_set_verdict_batch2 (h : nfq_handle) (qh id verdict mark : Z) (s : S) : M (Z * nfq_handle * S) :=
  __set_verdict h qh id verdict (htonl mark) true 0 0 NFQNL_MSG_VERDICT_BATCH s.
Definition nfq_set_verdict_mark (h : nfq_handle) (qh id verdict mark data_len buf : Z) (s : S) : M (Z * nfq_handle * S) :=
  __set_verdict h qh id verdict mark true data_len buf NFQNL_MSG_VERDICT s.
End Handle.
