(* ===== verification/NfqPacket.v ===== *)
(** libnetfilter_queue/libnetfilter_queue.c: the readers of the attributes of a packet
    and [nfq_snprintf_xml], and that the text it builds piece by piece is what one
    [snprintf] of the whole text would leave.

    [struct nfq_data] is the table of attributes that the callback of a queue gets;
    the attributes are offsets in the message buffer.  The buffer that is printed
    into is a list of its own. *)
From Stdlib Require Import Strings.String.
From S2P Require Import Prelude CMonad MnlMsg MnlAttr Tlv TlvParse Ctnl NfqMsg NfnlMsg CDouble CText.

Definition nfq_data : Type := list (option Z).

Definition NFQ_XML_HW : Z := Z.shiftl 1 0.
Definition NFQ_XML_MARK : Z := Z.shiftl 1 1.
Definition NFQ_XML_DEV : Z := Z.shiftl 1 2.
Definition NFQ_XML_PHYSDEV : Z := Z.shiftl 1 3.
Definition NFQ_XML_PAYLOAD : Z := Z.shiftl 1 4.
Definition NFQ_XML_TIME : Z := Z.shiftl 1 5.
Definition NFQ_XML_UID : Z := Z.shiftl 1 6.
Definition NFQ_XML_GID : Z := Z.shiftl 1 7.

(** * Readers *)

Definition nfq_get_msg_packet_hdr (nfad : nfq_data) : M (option Z) := nfnl_get_pointer_to_data nfad NFQA_PACKET_HDR.

Definition nfq_get_nfmark (nfad : nfq_data) : M Z :=
  let! v := nfnl_get_data nfad NFQA_MARK 4 in ret (ntohl v).

(** The result and, when it is zero, the seconds and microseconds. *)
Definition nfq_get_timestamp (nfad : nfq_data) : M (Z * option (Z * Z)) :=
  let! qpt := nfnl_get_pointer_to_data nfad NFQA_TIMESTAMP in
  match qpt with
  | None => ret (-1, None)
  | Some qpt =>
      let! sec := load64 qpt in
      let! usec := load64 (qpt + 8) in
      ret (0, Some (be64toh sec, be64toh usec))
  end.

Definition nfq_get_indev (nfad : nfq_data) : M Z :=
  let! v := nfnl_get_data nfad NFQA_IFINDEX_INDEV 4 in ret (ntohl v).
Definition nfq_get_physindev (nfad : nfq_data) : M Z :=
  let! v := nfnl_get_data nfad NFQA_IFINDEX_PHYSINDEV 4 in ret (ntohl v).
Definition nfq_get_outdev (nfad : nfq_data) : M Z :=
  let! v := nfnl_get_data nfad NFQA_IFINDEX_OUTDEV 4 in ret (ntohl v).
Definition nfq_get_physoutdev (nfad : nfq_data) : M Z :=
  let! v := nfnl_get_data nfad NFQA_IFINDEX_PHYSOUTDEV 4 in ret (ntohl v).

Definition nfq_get_packet_hw (nfad : nfq_data) : M (option Z) := nfnl_get_pointer_to_data nfad NFQA_HWADDR.

Definition nfq_get_skbinfo (nfad : nfq_data) : M Z :=
  let! present := nfnl_attr_present nfad NFQA_SKB_INFO in
  match present with
  | None => ret 0
  | Some _ => let! v := nfnl_get_data nfad NFQA_SKB_INFO 4 in ret (ntohl v)
  end.

(** The result and what it is written to the pointer. *)
Definition nfq_get_uid (nfad : nfq_data) : M (Z * option Z) :=
  let! present := nfnl_attr_present nfad NFQA_UID in
  match present with
  | None => ret (0, None)
  | Some _ => let! v := nfnl_get_data nfad NFQA_UID 4 in ret (1, Some (ntohl v))
  end.
Definition nfq_get_gid (nfad : nfq_data) : M (Z * option Z) :=
  let! present := nfnl_attr_present nfad NFQA_GID in
  match present with
  | None => ret (0, None)
  | Some _ => let! v := nfnl_get_data nfad NFQA_GID 4 in ret (1, Some (ntohl v))
  end.

(** The length of the payload of [nfad->data[attr - 1]]. *)
Definition payload_size (nfad : nfq_data) (attr : Z) : M Z :=
  let! a := nfnl_attr_present nfad attr in
  match a with Some a => let! n := NFA_PAYLOAD a in ret (sint 32 n) | None => ub end.

Definition nfq_get_secctx (nfad : nfq_data) : M (Z * option Z) :=
  let! present := nfnl_attr_present nfad NFQA_SECCTX in
  match present with
  | None => ret (-1, None)
  | Some _ =>
      let! secdata := nfnl_get_pointer_to_data nfad NFQA_SECCTX in
      match secdata with
      | Some _ => let! n := payload_size nfad NFQA_SECCTX in ret (n, secdata)
      | None => ret (0, secdata)
      end
  end.

Definition nfq_get_payload (nfad : nfq_data) : M (Z * option Z) :=
  let! data := nfnl_get_pointer_to_data nfad NFQA_PAYLOAD in
  match data with
  | Some _ => let! n := payload_size nfad NFQA_PAYLOAD in ret (n, data)
  | None => ret (-1, data)
  end.

(** * The text of a packet *)

(** [struct tm] as [localtime_r] fills it from [time(NULL)]. *)
Record tm := mk_tm {
  tm_sec : Z;
  tm_min : Z;
  tm_hour : Z;
  tm_mday : Z;
  tm_mon : Z;
  tm_year : Z;
  tm_wday : Z
}.

Definition flag_on (flags f : Z) : bool := negb (Z.land flags f =? 0).

Definition element (tag : string) (t : list Z) : list Z :=
  text "<" ++ text tag ++ text ">" ++ t ++ text "</" ++ text tag ++ text ">".

(** [%02x] and [%04x]. *)
Definition hex2 (z : Z) : list Z := pad_left 48 2 (fmt_x z).
Definition hex4 (z : Z) : list Z := pad_left 48 4 (fmt_x z).
Definition dec2 (z : Z) : list Z := pad_left 48 2 (fmt_d z).

(** The bytes that a pointer designates, one [%02x] each; [limit] is the size of the
    array they are in. *)
Fixpoint hex_bytes (n : nat) (i p limit : Z) : M (list (list Z)) :=
  match n with
  | O => ret []
  | S n =>
      if limit <=? i then ub else
      let! b := load8 (p + i) in
      let! l := hex_bytes n (i + 1) p limit in
      ret (hex2 b :: l)
  end.

(** The pieces that are printed, in order; [None] is the return of -1. *)
Definition pieces : Type := M (option (list (list Z))).

Definition when_piece (b : bool) (t : list Z) : pieces := ret (Some (if b then [t] else [])).

Definition time_pieces (now : option tm) (flags : Z) : pieces :=
  if negb (flag_on flags NFQ_XML_TIME) then ret (Some []) else
  match now with
  | None => ret None
  | Some t =>
      ret (Some [text "<when>"; element "hour" (fmt_d (tm_hour t)); element "min" (dec2 (tm_min t));
                 element "sec" (dec2 (tm_sec t)); element "wday" (fmt_d (tm_wday t + 1));
                 element "day" (fmt_d (tm_mday t)); element "month" (fmt_d (tm_mon t + 1));
                 element "year" (fmt_d (1900 + tm_year t)); text "</when>"])
  end.

Definition hdr_pieces (tb : nfq_data) (flags : Z) : pieces :=
  let! ph := nfq_get_msg_packet_hdr tb in
  match ph with
  | None => ret (Some [])
  | Some ph =>
      let! hook := load8 (ph + 6) in
      let! packet_id := load32 ph in
      let first := element "hook" (fmt_u hook) ++ element "id" (fmt_u (ntohl packet_id)) in
      let! hwph := nfq_get_packet_hw tb in
      if negb (flag_on flags NFQ_XML_HW) then ret (Some [first]) else
      match hwph with
      | Some hwph =>
          let! hw_addrlen := load16 hwph in
          let hlen := ntohs hw_addrlen in
          let! hw_protocol := load16 (ph + 4) in
          let! addr := hex_bytes (Z.to_nat hlen) 0 (hwph + 4) 8 in
          ret (Some ([first; text "<hw>" ++ element "proto" (hex4 (ntohs hw_protocol)); text "<src>"] ++ addr ++
                     [text "</src></hw>"]))
      | None =>
          let! hw_protocol := load16 (ph + 4) in
          ret (Some [first; element "hw" (element "proto" (hex4 (ntohs hw_protocol)))])
      end
  end.

(** A number that is printed when it is not zero. *)
Definition number_pieces (c : M Z) (on : bool) (tag : string) : pieces :=
  let! v := c in when_piece (negb (v =? 0) && on) (element tag (fmt_u v)).

Definition owner_pieces (c : M (Z * option Z)) (on : bool) (tag : string) : pieces :=
  let! (r, v) := c in when_piece (negb (r =? 0) && on) (element tag (fmt_u (default 0 v))).

Definition payload_pieces (tb : nfq_data) (flags : Z) : pieces :=
  let! (r, data) := nfq_get_payload tb in
  match data with
  | Some data =>
      if (0 <=? r) && flag_on flags NFQ_XML_PAYLOAD then
        let! l := hex_bytes (Z.to_nat r) 0 data r in
        ret (Some ([text "<payload>"] ++ l ++ [text "</payload>"]))
      else ret (Some [])
  | None => ret (Some [])
  end.

Definition xml_steps (now : option tm) (tb : nfq_data) (flags : Z) : list pieces :=
  [ret (Some [text "<pkt>"]);
   time_pieces now flags;
   hdr_pieces tb flags;
   number_pieces (nfq_get_nfmark tb) (flag_on flags NFQ_XML_MARK) "mark";
   number_pieces (nfq_get_indev tb) (flag_on flags NFQ_XML_DEV) "indev";
   number_pieces (nfq_get_outdev tb) (flag_on flags NFQ_XML_DEV) "outdev";
   number_pieces (nfq_get_physindev tb) (flag_on flags NFQ_XML_PHYSDEV) "physindev";
   number_pieces (nfq_get_physoutdev tb) (flag_on flags NFQ_XML_PHYSDEV) "physoutdev";
   owner_pieces (nfq_get_uid tb) (flag_on flags NFQ_XML_UID) "uid";
   owner_pieces (nfq_get_gid tb) (flag_on flags NFQ_XML_GID) "gid";
   payload_pieces tb flags;
   ret (Some [text "</pkt>"])].

(** The variables of the function: [rem] is a [size_t], [offset] and [len] are [int]. *)
Record xml_cursor := mk_xml { x_buf : list Z; x_rem : Z; x_offset : Z; x_len : Z }.

(** [SNPRINTF_FAILURE(ret, rem, offset, len)] after a call that returned [ret] without an error. *)
Definition SNPRINTF_FAILURE (ret : Z) (c : xml_cursor) : xml_cursor :=
  let r := if x_rem c <? ret then sint 32 (x_rem c) else ret in
  mk_xml (x_buf c) (wrap 64 (x_rem c - r)) (sint 32 (x_offset c + r)) (sint 32 (x_len c + ret)).

(** Printing pieces; [inr] is the result of a function that returned early. *)
Fixpoint print_pieces (l : list (list Z)) (c : xml_cursor) : M (xml_cursor + Z * list Z) :=
  match l with
  | [] => ret (inl c)
  | t :: l =>
      let! (size, buf) := snprintf (x_buf c) (x_offset c) (x_rem c) t in
      if size <? 0 then ret (inr (size, buf)) else
      print_pieces l (SNPRINTF_FAILURE size (mk_xml buf (x_rem c) (x_offset c) (x_len c)))
  end.

Fixpoint run_steps (l : list pieces) (c : xml_cursor) : M (xml_cursor + Z * list Z) :=
  match l with
  | [] => ret (inl c)
  | p :: l =>
      let! ts := p in
      match ts with
      | None => ret (inr (-1, x_buf c))
      | Some ts =>
          let! r := print_pieces ts c in
          match r with inl c => run_steps l c | inr e => ret (inr e) end
      end
  end.

Definition nfq_snprintf_xml (now : option tm) (buf : list Z) (rem : Z) (tb : nfq_data) (flags : Z) : M (Z * list Z) :=
  let! r := run_steps (xml_steps now tb flags) (mk_xml buf rem 0 0) in
  match r with inl c => ret (x_len c, x_buf c) | inr e => ret e end.

(** * One text *)

(** The attribute of the table, and what a packet whose attributes can be read is. *)
Definition fld (tb : nfq_data) (attr : Z) : option Z := default None (tb !! Z.to_nat (attr - 1)).

Definition min_size (attr : Z) : Z :=
  if attr =? NFQA_PACKET_HDR then sizeof_nfqnl_msg_packet_hdr
  else if attr =? NFQA_HWADDR then sizeof_nfqnl_msg_packet_hw
  else if attr =? NFQA_TIMESTAMP then sizeof_nfqnl_msg_packet_timestamp
  else if bool_decide (attr ∈ [NFQA_MARK; NFQA_IFINDEX_INDEV; NFQA_IFINDEX_OUTDEV; NFQA_IFINDEX_PHYSINDEV;
                               NFQA_IFINDEX_PHYSOUTDEV; NFQA_SKB_INFO; NFQA_UID; NFQA_GID]) then 4
  else 0.

Record packet_ok (m : list Z) (tb : nfq_data) : Prop := {
  pk_size : zlen tb = NFQA_MAX;
  pk_attrs : forall attr a, fld tb attr = Some a ->
    0 <= a /\ a + rd 2 a m <= zlen m /\ 4 + min_size attr <= rd 2 a m < 2 ^ 16;
  pk_hw : forall a, fld tb NFQA_HWADDR = Some a -> ntohs (rd 2 (a + 4) m) <= 8
}.

(** A number in network byte order. *)
Definition be_field (m : list Z) (a : option Z) : Z := match a with Some a => ntohl (rd 4 (a + 4) m) | None => 0 end.

Definition hex_text (l : list Z) : list Z := concat (map hex2 l).

Definition time_text (now : option tm) (flags : Z) : list Z :=
  match now with
  | Some t =>
      if flag_on flags NFQ_XML_TIME then
        text "<when>" ++ element "hour" (fmt_d (tm_hour t)) ++ element "min" (dec2 (tm_min t)) ++
        element "sec" (dec2 (tm_sec t)) ++ element "wday" (fmt_d (tm_wday t + 1)) ++
        element "day" (fmt_d (tm_mday t)) ++ element "month" (fmt_d (tm_mon t + 1)) ++
        element "year" (fmt_d (1900 + tm_year t)) ++ text "</when>"
      else []
  | None => []
  end.

Definition hdr_text (m : list Z) (tb : nfq_data) (flags : Z) : list Z :=
  match fld tb NFQA_PACKET_HDR with
  | None => []
  | Some a =>
      let proto := element "proto" (hex4 (ntohs (rd 2 (a + 8) m))) in
      element "hook" (fmt_u (rd 1 (a + 10) m)) ++ element "id" (fmt_u (ntohl (rd 4 (a + 4) m))) ++
      if flag_on flags NFQ_XML_HW then
        match fld tb NFQA_HWADDR with
        | Some hw => element "hw" (proto ++ element "src" (hex_text (slice (hw + 8) (ntohs (rd 2 (hw + 4) m)) m)))
        | None => element "hw" proto
        end
      else []
  end.

Definition number_text_of (v : Z) (on : bool) (tag : string) : list Z :=
  if negb (v =? 0) && on then element tag (fmt_u v) else [].

Definition owner_text (m : list Z) (a : option Z) (on : bool) (tag : string) : list Z :=
  match a with Some _ => if on then element tag (fmt_u (be_field m a)) else [] | None => [] end.

Definition payload_text (m : list Z) (tb : nfq_data) (flags : Z) : list Z :=
  match fld tb NFQA_PAYLOAD with
  | Some a => if flag_on flags NFQ_XML_PAYLOAD then element "payload" (hex_text (slice (a + 4) (rd 2 a m - 4) m)) else []
  | None => []
  end.

Definition xml_texts (now : option tm) (m : list Z) (tb : nfq_data) (flags : Z) : list (list Z) :=
  [text "<pkt>"; time_text now flags; hdr_text m tb flags;
   number_text_of (be_field m (fld tb NFQA_MARK)) (flag_on flags NFQ_XML_MARK) "mark";
   number_text_of (be_field m (fld tb NFQA_IFINDEX_INDEV)) (flag_on flags NFQ_XML_DEV) "indev";
   number_text_of (be_field m (fld tb NFQA_IFINDEX_OUTDEV)) (flag_on flags NFQ_XML_DEV) "outdev";
   number_text_of (be_field m (fld tb NFQA_IFINDEX_PHYSINDEV)) (flag_on flags NFQ_XML_PHYSDEV) "physindev";
   number_text_of (be_field m (fld tb NFQA_IFINDEX_PHYSOUTDEV)) (flag_on flags NFQ_XML_PHYSDEV) "physoutdev";
   owner_text m (fld tb NFQA_UID) (flag_on flags NFQ_XML_UID) "uid";
   owner_text m (fld tb NFQA_GID) (flag_on flags NFQ_XML_GID) "gid";
   payload_text m tb flags; text "</pkt>"].

(** The XML text of a packet. *)
Definition xml_text (now : option tm) (m : list Z) (tb : nfq_data) (flags : Z) : list Z :=
  concat (xml_texts now m tb flags).

(** ** The pieces of each step *)

(** [p] reads without a fault and yields non-empty pieces that make up [t]. *)
Definition yields (w : world) (p : pieces) (t : list Z) : Prop :=
  exists ts, p w = Ok (Some ts, w) /\ concat ts = t /\ Forall (fun x => x <> []) ts.

Section Packet.
Context (w : world) (tb : nfq_data) (Hok : packet_ok (w_mem w) tb).
Local Abbreviation m := (w_mem w).

Lemma present_run attr : 1 <= attr <= NFQA_MAX -> nfnl_attr_present tb attr w = Ok (fld tb attr, w).
Proof.
  intros H. pose proof (pk_size _ _ Hok) as Hz. unfold nfnl_attr_present, fld, nfq_data in *.
  rewrite (proj2 (Z.leb_le 1 attr)) by lia. destruct (lookup_lt_is_Some_2 (tb : list (option Z)) (Z.to_nat (attr - 1))) as [x ->]; [|done]. unfold zlen, NFQA_MAX in *. lia.
Qed.

Lemma pointer_run attr :
  1 <= attr <= NFQA_MAX -> nfnl_get_pointer_to_data tb attr w = Ok ((fun a => a + 4) <$> fld tb attr, w).
Proof.
  intros H. unfold nfnl_get_pointer_to_data, bind. rewrite present_run by done. by destruct (fld tb attr).
Qed.

Lemma be_run attr :
  1 <= attr <= NFQA_MAX -> min_size attr = 4 ->
  (let! v := nfnl_get_data tb attr 4 in ret (ntohl v)) w = Ok (be_field m (fld tb attr), w).
Proof.
  intros H Hmin. unfold nfnl_get_data, bind. rewrite present_run by done.
  destruct (fld tb attr) as [a|] eqn:E; [|done]. destruct (pk_attrs _ _ Hok _ _ E). change (NFA_DATA a) with (a + 4).
  rewrite load_ok by lia. done.
Qed.

Lemma payload_size_run attr a :
  1 <= attr <= NFQA_MAX -> fld tb attr = Some a -> payload_size tb attr w = Ok (rd 2 a m - 4, w).
Proof.
  intros H E. unfold payload_size, bind. rewrite present_run, E by done. unfold NFA_PAYLOAD, nfa_len, load16, bind.
  destruct (pk_attrs _ _ Hok _ _ E). assert (0 <= min_size attr) by (unfold min_size; repeat case_match; done).
  rewrite load_ok by lia. unfold ret. change (NFA_LENGTH 0) with 4. by rewrite wrap_small, sint_small by lia.
Qed.

Lemma hex_bytes_run n i p limit :
  0 <= p -> 0 <= i -> i + Z.of_nat n <= limit -> p + i + Z.of_nat n <= zlen m ->
  hex_bytes n i p limit w = Ok (map hex2 (slice (p + i) (Z.of_nat n) m), w).
Proof.
  revert i. induction n as [|n IH]; intros i ? ? ? ?; cbn [hex_bytes].
  { unfold slice. change (Z.to_nat (Z.of_nat 0)) with 0%nat. by rewrite take_0. }
  rewrite (proj2 (Z.leb_gt limit i)) by lia. unfold bind, load8. rewrite load_ok by lia. rewrite IH by lia.
  unfold ret. do 2 f_equal.
  assert (slice (p + i) (Z.of_nat (S n)) m = rd 1 (p + i) m :: slice (p + (i + 1)) (Z.of_nat n) m) as ->; [|done].
  unfold rd, slice. destruct (lookup_lt_is_Some_2 m (Z.to_nat (p + i))) as [x Hx]; [unfold zlen in *; lia|].
  rewrite (drop_S _ _ _ Hx). rewrite !Nat2Z.id. cbn [take]. rewrite ?take_0. f_equal; [change (x = x + 256 * 0); lia|].
  do 2 f_equal. lia.
Qed.

Lemma element_nonempty tag t : element tag t <> [].
Proof. by unfold element. Qed.

Lemma hex2_nonempty b : hex2 b <> [].
Proof.
  unfold hex2, pad_left. intros H. apply (f_equal length) in H. rewrite length_app, length_replicate in H. cbn [length] in H. lia.
Qed.

Lemma hex_pieces_ok l : Forall (fun x => x <> []) (map hex2 l).
Proof. induction l; constructor; [apply hex2_nonempty|done]. Qed.

Lemma yields_time now flags :
  (flag_on flags NFQ_XML_TIME = true -> now <> None) -> yields w (time_pieces now flags) (time_text now flags).
Proof.
  intros H. unfold time_pieces, time_text. destruct (flag_on flags NFQ_XML_TIME); cbn [negb].
  - destruct now as [t|]; [|by destruct H]. eexists. split; [done|]. split; [|by repeat constructor].
    cbn [concat]. by rewrite app_nil_r.
  - exists []. split; [done|]. split; [by destruct now|constructor].
Qed.

Lemma yields_number c v on tag : c w = Ok (v, w) -> yields w (number_pieces c on tag) (number_text_of v on tag).
Proof.
  intros H. unfold number_pieces, number_text_of, when_piece, bind, yields. rewrite H.
  destruct (negb (v =? 0) && on); (eexists; split; [done|]); cbn [concat]; rewrite ?app_nil_r;
    (split; [done|]); repeat constructor. apply element_nonempty.
Qed.

Lemma yields_owner c a on tag :
  c w = Ok ((match a with Some _ => 1 | None => 0 end, be_field m <$> (Some <$> a)), w) ->
  yields w (owner_pieces c on tag) (owner_text m a on tag).
Proof.
  intros H. unfold owner_pieces, owner_text, when_piece, bind, yields. rewrite H. destruct a as [a|]; cbn.
  - destruct on; cbn; (eexists; split; [done|]); cbn [concat]; rewrite ?app_nil_r; (split; [done|]);
      repeat constructor. apply element_nonempty.
  - exists []. by repeat constructor.
Qed.

Lemma uid_run : nfq_get_uid tb w =
  Ok ((match fld tb NFQA_UID with Some _ => 1 | None => 0 end, be_field m <$> (Some <$> fld tb NFQA_UID)), w).
Proof.
  unfold nfq_get_uid, bind. rewrite present_run by done. pose proof (be_run NFQA_UID ltac:(done) eq_refl) as Hb.
  destruct (fld tb NFQA_UID); [|done]. unfold bind, ret in *. destruct (nfnl_get_data tb NFQA_UID 4 w) as [[v w1]| | |]; simplify_eq. cbn. by rewrite Hb.
Qed.

Lemma gid_run : nfq_get_gid tb w =
  Ok ((match fld tb NFQA_GID with Some _ => 1 | None => 0 end, be_field m <$> (Some <$> fld tb NFQA_GID)), w).
Proof.
  unfold nfq_get_gid, bind. rewrite present_run by done. pose proof (be_run NFQA_GID ltac:(done) eq_refl) as Hb.
  destruct (fld tb NFQA_GID); [|done]. unfold bind, ret in *. destruct (nfnl_get_data tb NFQA_GID 4 w) as [[v w1]| | |]; simplify_eq. cbn. by rewrite Hb.
Qed.

Lemma yields_payload flags : yields w (payload_pieces tb flags) (payload_text m tb flags).
Proof.
  unfold payload_pieces, payload_text, nfq_get_payload, yields. unfold bind at 1 2. rewrite pointer_run by done.
  destruct (fld tb NFQA_PAYLOAD) as [a|] eqn:E; cbn [fmap option_fmap option_map]; [|exists []; by repeat constructor].
  destruct (pk_attrs _ _ Hok _ _ E) as (? & ? & Hmin). change (min_size NFQA_PAYLOAD) with 0 in Hmin.
  unfold bind at 1. rewrite (payload_size_run _ a) by done. unfold ret at 1.
  rewrite (proj2 (Z.leb_le 0 _)) by lia. cbn [andb]. destruct (flag_on flags NFQ_XML_PAYLOAD); [|exists []; by repeat constructor].
  unfold bind. rewrite hex_bytes_run by lia. rewrite Z.add_0_r, Z2Nat.id by lia. eexists. split; [done|]. split.
  - unfold element, hex_text. cbn [app concat]. by rewrite concat_app.
  - constructor; [done|]. apply Forall_app. split; [apply hex_pieces_ok|by repeat constructor].
Qed.

Lemma yields_hdr flags : yields w (hdr_pieces tb flags) (hdr_text m tb flags).
Proof.
  unfold hdr_pieces, hdr_text, nfq_get_msg_packet_hdr, nfq_get_packet_hw, yields, load8, load16, load32.
  unfold bind at 1. rewrite pointer_run by done.
  destruct (fld tb NFQA_PACKET_HDR) as [a|] eqn:E; cbn [fmap option_fmap option_map]; [|exists []; by repeat constructor].
  destruct (pk_attrs _ _ Hok _ _ E) as (? & ? & Hmin). change (min_size NFQA_PACKET_HDR) with 7 in Hmin.
  unfold bind at 1. rewrite load_ok by lia. unfold bind at 1. rewrite load_ok by lia. unfold bind at 1.
  rewrite pointer_run by done. replace (a + 4 + 6) with (a + 10) by lia. replace (a + 4 + 4) with (a + 8) by lia.
  destruct (flag_on flags NFQ_XML_HW); cbn [negb].
  2: { eexists. split; [done|]. cbn [concat]. rewrite !app_nil_r. split; [done|by repeat constructor]. }
  destruct (fld tb NFQA_HWADDR) as [hw|] eqn:Eh; cbn [fmap option_fmap option_map]; unfold bind.
  - destruct (pk_attrs _ _ Hok _ _ Eh) as (? & ? & Hminh). change (min_size NFQA_HWADDR) with 12 in Hminh.
    pose proof (pk_hw _ _ Hok _ Eh). rewrite load_ok by lia. rewrite load_ok by lia.
    pose proof (bswap_range 2 (rd 2 (hw + 4) m)) as Hr. change (bswap 2 (rd 2 (hw + 4) m)) with (ntohs (rd 2 (hw + 4) m)) in Hr.
    rewrite hex_bytes_run by lia. rewrite Z2Nat.id by lia. replace (hw + 4 + 4 + 0) with (hw + 8) by lia.
    eexists. split; [done|]. split.
    + cbn [app concat]. rewrite concat_app. cbn [concat]. unfold hex_text, element. by rewrite <- ?app_assoc.
    + do 3 (constructor; [done|]). apply Forall_app. split; [apply hex_pieces_ok|by repeat constructor].
  - rewrite load_ok by lia. eexists. split; [done|]. cbn [concat]. rewrite app_nil_r, <- app_assoc. split; [done|by repeat constructor].
Qed.

Lemma xml_steps_yield now flags :
  (flag_on flags NFQ_XML_TIME = true -> now <> None) ->
  Forall2 (yields w) (xml_steps now tb flags) (xml_texts now m tb flags).
Proof.
  intros Ht. unfold xml_steps, xml_texts.
  repeat match goal with |- Forall2 _ (_ :: _) _ => constructor end; [..|constructor].
  - eexists. split; [done|]. by repeat constructor.
  - by apply yields_time.
  - apply yields_hdr.
  - by apply yields_number, be_run.
  - by apply yields_number, be_run.
  - by apply yields_number, be_run.
  - by apply yields_number, be_run.
  - by apply yields_number, be_run.
  - apply yields_owner, uid_run.
  - apply yields_owner, gid_run.
  - apply yields_payload.
  - eexists. split; [done|]. by repeat constructor.
Qed.
End Packet.

(** ** Printing the pieces *)

(** The variables after [d] was printed into [rem] bytes. *)
Definition xml_after (buf : list Z) (rem : Z) (d : list Z) : xml_cursor :=
  mk_xml (wrote buf 0 rem d) (rem - Z.min (zlen d) rem) (Z.min (zlen d) rem) (zlen d).

Section Printing.
Context (buf : list Z) (rem : Z) (Hr : 0 <= rem <= INT_MAX) (Hb : rem <= zlen buf).

Lemma print_pieces_run ts d w :
  Forall (fun x => x <> []) ts -> zlen (d ++ concat ts) <= INT_MAX ->
  print_pieces ts (xml_after buf rem d) w = Ok (inl (xml_after buf rem (d ++ concat ts)), w).
Proof.
  intros H. revert d. induction H as [|t ts Ht _ IH]; intros d Hz; cbn [print_pieces concat]; [by rewrite app_nil_r|].
  cbn [concat] in Hz. rewrite app_assoc in Hz |- *. pose proof (zlen_nonneg (concat ts)). rewrite zlen_app in Hz.
  pose proof (zlen_nonneg d). pose proof (zlen_nonneg t). pose proof (zlen_app d t) as Hdt.
  assert (snprintf (x_buf (xml_after buf rem d)) (x_offset (xml_after buf rem d)) (x_rem (xml_after buf rem d)) t w
          = Ok ((zlen t, wrote buf 0 rem (d ++ t)), w)) as Hs.
  { unfold xml_after. cbn [x_buf x_offset x_rem]. rewrite snprintf_run; [|rewrite ?zlen_wrote; lia..].
    rewrite <- wrote_app, (wrote_put _ _ _ t) by (done || lia). done. }
  unfold bind. rewrite Hs, (proj2 (Z.ltb_ge (zlen t) 0)) by lia.
  rewrite <- IH by (rewrite zlen_app; lia). f_equal. unfold SNPRINTF_FAILURE, xml_after, INT_MAX in *.
  cbn [x_buf x_rem x_offset x_len]. rewrite Hdt, (sint_small 32 (zlen d + zlen t)) by lia.
  destruct (Z.ltb_spec (rem - Z.min (zlen d) rem) (zlen t)).
  - rewrite (sint_small 32 (rem - _)) by lia. rewrite wrap_small, sint_small by lia. f_equal; lia.
  - rewrite wrap_small, sint_small by lia. f_equal; lia.
Qed.

Lemma run_steps_run ps ts d w :
  Forall2 (yields w) ps ts -> zlen (d ++ concat ts) <= INT_MAX ->
  run_steps ps (xml_after buf rem d) w = Ok (inl (xml_after buf rem (d ++ concat ts)), w).
Proof.
  intros H. revert d. induction H as [|p t ps ts (l & Hp & <- & Hl) _ IH]; intros d Hz; cbn [run_steps concat].
  { by rewrite app_nil_r. }
  cbn [concat] in Hz. rewrite app_assoc in Hz |- *. pose proof (zlen_nonneg (concat ts)).
  unfold bind at 1. rewrite Hp. unfold bind at 1.
  rewrite print_pieces_run; [|done|rewrite zlen_app in Hz; lia]. by rewrite IH.
Qed.
End Printing.

(** C29: on a packet whose attributes have the sizes that their types have, nfq_snprintf_xml
    prints the XML text of the packet: it reads inside of the attributes, and leaves what one
    snprintf of the whole text would leave, cut to the buffer and terminated, with the length of
    the whole text as result. *)
Theorem nfq_snprintf_xml_text now buf rem tb flags w :
  let t := xml_text now (w_mem w) tb flags in
  packet_ok (w_mem w) tb -> (flag_on flags NFQ_XML_TIME = true -> now <> None) ->
  0 <= rem <= INT_MAX -> rem <= zlen buf -> zlen t <= INT_MAX ->
  nfq_snprintf_xml now buf rem tb flags w = Ok ((zlen t, put_text buf 0 rem t), w).
Proof.
  intros t Hok Hn Hr Hb Hz. unfold nfq_snprintf_xml, bind.
  replace (mk_xml buf rem 0 0) with (xml_after buf rem [])
    by (unfold xml_after; change (zlen (@nil Z)) with 0; rewrite Z.min_l, Z.sub_0_r by lia; done).
  rewrite (run_steps_run buf rem Hr Hb _ _ [] w (xml_steps_yield w tb Hok now flags Hn)) by done. cbn [app].
  change (concat _) with t. done.
Qed.

(** * Faults *)

(** The length of the hardware address is taken from the packet: one that says more than
    eight bytes makes nfq_snprintf_xml read after the array. *)
Definition hw_world (len : Z) : world :=
  mk_world (le_enc 2 11 ++ le_enc 2 1 ++ [0; 0; 0; 1; 8; 0; 3; 0] ++
            le_enc 2 16 ++ le_enc 2 9 ++ [0; len; 0; 0; 1; 2; 3; 4; 5; 6; 7; 8] ++ [9; 9; 9; 9]) 0 [].
Definition hw_table : nfq_data := Some 0 :: replicate 7 None ++ Some 12 :: replicate 9 None.

Lemma xml_hw_overread : nfq_snprintf_xml None (replicate 200 0) 200 hw_table NFQ_XML_HW (hw_world 9) = Ub.
Proof. by vm_compute. Qed.

(** The readers do not compare the length of an attribute with the size of what they
    read: a short one at the end of the buffer is read after its end. *)
Lemma nfmark_overread :
  nfq_get_nfmark (replicate 2 None ++ Some 0 :: replicate 15 None) (mk_world (le_enc 2 5 ++ le_enc 2 3 ++ [1]) 0 []) = Ub.
Proof. by vm_compute. Qed.

Lemma hw_table_fields attr a :
  fld hw_table attr = Some a -> attr <= 1 /\ a = 0 \/ attr = NFQA_HWADDR /\ a = 12.
Proof.
  unfold fld. intros H. destruct (Z.to_nat (attr - 1)) as [|n] eqn:E; [cbn in H; simplify_eq; lia|].
  do 7 (destruct n as [|n]; [done|]). destruct n as [|n]; [cbn in H; simplify_eq; unfold NFQA_HWADDR; lia|].
  by do 10 (destruct n as [|n]; [done|]).
Qed.

Lemma hw_packet_ok : packet_ok (w_mem (hw_world 6)) hw_table.
Proof.
  split; [done| |].
  - intros attr a [[Ha ->]|[-> ->]]%hw_table_fields; [|by vm_compute].
    destruct (Z.eq_dec attr 1) as [->|]; [by vm_compute|]. assert (min_size attr = 0) as ->; [|by vm_compute].
    unfold min_size. rewrite !(proj2 (Z.eqb_neq attr _)) by (unfold NFQA_PACKET_HDR, NFQA_HWADDR, NFQA_TIMESTAMP; lia).
    rewrite bool_decide_eq_false_2; [done|]. rewrite !elem_of_cons, elem_of_nil. 
    unfold NFQA_MARK, NFQA_IFINDEX_INDEV, NFQA_IFINDEX_OUTDEV, NFQA_IFINDEX_PHYSINDEV, NFQA_IFINDEX_PHYSOUTDEV,
      NFQA_SKB_INFO, NFQA_UID, NFQA_GID. lia.
  - intros a [[? ->]|[_ ->]]%hw_table_fields; by vm_compute.
Qed.

Lemma nfq_snprintf_xml_text_witness :
  let t := text "<pkt><hook>3</hook><id>1</id><hw><proto>0800</proto><src>010203040506</src></hw></pkt>" in
  nfq_snprintf_xml None (replicate 40 0) 40 hw_table NFQ_XML_HW (hw_world 6) =
    Ok ((zlen t, put_text (replicate 40 0) 0 40 t), hw_world 6).
Proof.
  assert (xml_text None (w_mem (hw_world 6)) hw_table NFQ_XML_HW =
          text "<pkt><hook>3</hook><id>1</id><hw><proto>0800</proto><src>010203040506</src></hw></pkt>") as E
    by (vm_compute; reflexivity).
  cbv zeta. rewrite <- E.
  apply (nfq_snprintf_xml_text None (replicate 40 0) 40 hw_table NFQ_XML_HW (hw_world 6) hw_packet_ok).
  - intros H. vm_compute in H. discriminate H.
  - by vm_compute.
  - by vm_compute.
  - by vm_compute.
Defined.
