(* ===== verification/NfqHandleProps.v ===== *)
(** Properties of the queue handle: the linked list of queues is a list of queues with
    different numbers, a packet reaches the function of its queue, and what the
    messages to the kernel hold. *)
From stdpp Require Import gmap.
From S2P Require Import Prelude CMonad MnlMsg MnlAttr MnlCallback Tlv TlvParse Ctnl NfqMsg NfnlMsg Nfnl NfnlProps Chain NfqHandle.

(** * The list of queues *)

(** The content of a queue: its handle, number, function and data. *)
Definition view (n : nfq_q_handle) : Z * Z * option Z * Z := (qh_h n, qh_id n, qh_cb n, qh_data n).
Abbreviation entry := (Z * (Z * Z * option Z * Z))%type.
Definition e_h (e : entry) : Z := e.2.1.1.1.
Definition e_id (e : entry) : Z := e.2.1.1.2.

#[global] Instance queue_linked : Linked nfq_q_handle (Z * Z * option Z * Z) :=
  {| link := qh_next; set_link := set_next; content := view;
     link_set _ _ := eq_refl; content_set _ _ := eq_refl |}.

Section Lists.
Context {C : Type}.
Implicit Types (s : store C) (l : list entry) (qs : gmap Z nfq_q_handle).

Definition queues s (h : Z) l : Prop :=
  exists p, st_lists s !! h = Some p /\ chain (st_queues s) p l /\ NoDup l.*1 /\ Forall (fun e => e_h e = h) l.

(** The first queue with the number. *)
Definition find_id (id : Z) (l : list entry) : option Z := find_entry (fun v => v.1.1.2 =? id) l.

Lemma find_loop_run fuel id p l s w :
  chain (st_queues s) p l -> (length l < fuel)%nat -> find_loop fuel id p s w = Ok (find_id id l, w).
Proof.
  revert fuel p. induction l as [|[q v] l IH]; intros [|fuel] p Hc Hf; try (cbn in Hf; lia); cbn [find_loop].
  - cbn in Hc. by subst p.
  - destruct Hc as [-> (n & Hn & Hv & Hl)]. unfold bind, get_queue. rewrite Hn. unfold ret, find_id.
    rewrite find_entry_cons. subst v. change ((content n).1.1.2) with (qh_id n).
    destruct (qh_id n =? id); [done|]. apply IH; [done|cbn in Hf; lia].
Qed.

Lemma find_qh_run s h l id w : queues s h l -> find_qh h id s w = Ok (find_id id l, w).
Proof.
  intros (p & Hp & Hc & Hd & _). unfold find_qh, get_list, bind. rewrite Hp. unfold ret.
  apply find_loop_run; [done|]. pose proof (chain_length _ _ _ Hc Hd). unfold queue_fuel. lia.
Qed.

Lemma find_id_none id l : find_id id l = None <-> id ∉ map e_id l.
Proof.
  unfold find_id. induction l as [|[q v] l IH]; [split; [intros _ ?%elem_of_nil|]; done|].
  rewrite find_entry_cons. cbn [map]. rewrite not_elem_of_cons, <- IH. change (e_id (q, v)) with (v.1.1.2).
  destruct (Z.eqb_spec (v.1.1.2) id); naive_solver.
Qed.

Lemma find_id_in id l q v : NoDup (map e_id l) -> (q, v) ∈ l -> e_id (q, v) = id -> find_id id l = Some q.
Proof.
  unfold find_id. induction l as [|[q' v'] l IH]; [by intros _ ?%elem_of_nil|]. cbn [map].
  rewrite find_entry_cons. intros [Hn Hd]%NoDup_cons [[= -> ->]|Hin]%elem_of_cons Hid.
  - change (v'.1.1.2) with (e_id (q', v')). by rewrite Hid, Z.eqb_refl.
  - rewrite (proj2 (Z.eqb_neq _ id)); [by apply IH|]. intros He. apply Hn. change (v'.1.1.2) with (e_id (q', v')) in He.
    rewrite He, <- Hid. apply list_elem_of_fmap. by exists (q, v).
Qed.

(** ** Adding *)

Lemma add_qh_run s h l q n w :
  queues s h l -> st_queues s !! q = Some n -> qh_h n = h -> q ∉ l.*1 ->
  exists s', add_qh q s w = Ok (s', w) /\ queues s' h ((q, view n) :: l) /\ st_fresh s' = st_fresh s.
Proof.
  intros (p & Hp & Hc & Hd & Hh') Hn Hh Hq. unfold add_qh, get_queue, get_list, bind, ret. rewrite Hn, Hh, Hp.
  eexists. split; [done|]. split; [|done].
  exists (Some q). cbn [st_lists st_queues set_list set_queue]. rewrite lookup_insert_eq. split_and!; [done| |by apply NoDup_cons|].
  - exact (chain_push (st_queues s) p l q n Hc Hn Hq).
  - by apply Forall_cons.
Qed.

(** ** Removing *)

(** The loop stops at the queue with the queue before it. *)
Lemma del_loop_run fuel q v p l1 l2 prev s w :
  chain (st_queues s) p (l1 ++ (q, v) :: l2) -> q ∉ l1.*1 -> (length l1 < fuel)%nat ->
  exists n, st_queues s !! q = Some n /\
    del_loop fuel q p prev s w =
      match (match last l1.*1 with Some pr => Some pr | None => prev end) with
      | Some pr => (let! np := get_queue pr s in ret (set_queue pr (set_next (qh_next n) np) s)) w
      | None => Ok (set_list (qh_h n) (qh_next n) s, w)
      end.
Proof.
  revert fuel p prev. induction l1 as [|[q1 v1] l1 IH]; intros [|fuel] p prev Hc Hq Hf; try (cbn in Hf; lia); cbn [app] in Hc.
  - destruct Hc as [-> (n & Hn & _ & _)]. exists n. split; [done|]. cbn [del_loop]. rewrite Z.eqb_refl.
    unfold bind, get_queue at 1. rewrite Hn. unfold ret at 1. by destruct prev.
  - destruct Hc as [-> (n & Hn & _ & Hl)]. cbn in Hq. apply not_elem_of_cons in Hq as [Hne Hq].
    destruct (IH fuel (qh_next n) (Some q1) Hl Hq ltac:(cbn in Hf; lia)) as (nq & Hnq & Hrun).
    exists nq. split; [done|]. cbn [del_loop]. rewrite (proj2 (Z.eqb_neq q1 q)) by done.
    unfold bind at 1, get_queue at 1. rewrite Hn. unfold ret at 1. rewrite Hrun, fmap_cons, last_cons.
    by destruct (last l1.*1).
Qed.

Lemma queues_del s h l q v w :
  queues s h l -> (q, v) ∈ l ->
  exists s', del_qh q s w = Ok (s', w) /\ queues s' h (without q l) /\ st_fresh s' = st_fresh s.
Proof.
  intros (p & Hp & Hc & Hd & Hh) Hin. pose proof (chain_length _ _ _ Hc Hd) as Hlen.
  apply list_elem_of_split in Hin as (l1 & l2 & ->). rewrite length_app in Hlen. cbn in Hlen.
  destruct (NoDup_remove_addr _ _ _ _ Hd) as [Hq Hd'].
  destruct (del_loop_run (queue_fuel s) q v p l1 l2 None s w Hc Hq) as (n & Hn & Hrun); [unfold queue_fuel; lia|].
  assert (Forall (fun e => e_h e = h) (l1 ++ l2)) as Hh2
    by (apply Forall_app in Hh as [? [_ ?]%Forall_cons]; by apply Forall_app).
  assert (qh_h n = h) as Hhn.
  { destruct (chain_elem _ _ _ q v Hc) as (n' & Hn' & Hv); [set_solver|]. simplify_eq.
    apply Forall_app in Hh as [_ [Hh _]%Forall_cons]. by unfold e_h in Hh. }
  unfold del_qh, get_queue at 1, get_list, bind at 1 2. rewrite Hn. unfold ret at 1. rewrite Hhn, Hp. unfold ret at 1.
  rewrite Hrun, without_app, Hhn by done. destruct l1 as [|[pr vp] l1' _] using rev_ind.
  - eexists. split; [done|]. split; [|done]. exists (qh_next n). cbn. rewrite lookup_insert_eq.
    split_and!; try done. by apply (chain_pop _ _ _ _ _ n Hc).
  - rewrite fmap_app. change ([(pr, vp)].*1) with [pr]. rewrite last_snoc. rewrite <- app_assoc in *. cbn [app] in *.
    destruct (chain_elem _ _ _ pr vp Hc) as (np & Hnp & _); [set_solver|].
    unfold bind, get_queue. rewrite Hnp. unfold ret. eexists. split; [done|]. split; [|done].
    exists p. split; [done|]. split_and!; [exact (chain_unlink _ _ _ _ _ _ _ _ _ _ Hc Hd Hn Hnp)|done|done].
Qed.

Lemma queues_free s h l q : queues s h l -> q ∉ l.*1 -> queues (free_queue q s) h l.
Proof.
  intros (p & Hp & Hc & Hd) Hq. exists p. split; [done|]. split; [|done]. apply (chain_frame (st_queues s)); [|done].
  intros q' Hq'. cbn. apply lookup_delete_ne. by intros ->.
Qed.
End Lists.

(** * What the exchange with the kernel keeps *)

Section Respect.
Context {S : Type} (os : @os_calls S) (R : relation S) `{!PreOrder R}.

(** The calls of the operating system and the callbacks of a handle move the state
    only along [R]. *)
Record os_respects : Prop := {
  or_sendto : forall fd n len peer s w r s' w', os_sendto os fd n len peer s w = Ok ((r, s'), w') -> R s s';
  or_recvfrom : forall fd buf len s w r s' w', os_recvfrom os fd buf len s w = Ok ((r, s'), w') -> R s s';
  or_time : forall s w r s' w', os_time os s w = Ok ((r, s'), w') -> R s s';
  or_bind : forall fd a s w r s' w', os_bind os fd a s w = Ok ((r, s'), w') -> R s s';
  or_sendmsg : forall fd msg flags s w r s' w', os_sendmsg os fd msg flags s w = Ok ((r, s'), w') -> R s s'
}.

Definition callbacks_respect (h : @nfnl_handle S) : Prop :=
  forall ss cbs cb call, ss ∈ h_subsys h -> ss_cb ss = Some cbs -> cb ∈ cbs -> cb_call cb = Some call ->
  forall nlh tb s w r s' w', call nlh tb (cb_data cb) s w = Ok ((r, s'), w') -> R s s'.

Context (Hos : os_respects).

Lemma step_respects h nlh s w r s' w' :
  callbacks_respect h -> nfnl_step h nlh s w = Ok ((r, s'), w') -> R s s'.
Proof.
  intros Hcb H. unfold nfnl_step in H. run_in H; simplify_eq; try reflexivity.
  match goal with E : get_subsys _ _ _ = _ |- _ => unfold get_subsys in E; run_in E; simplify_eq end.
  match goal with E : get_cb _ _ _ = _ |- _ => unfold get_cb in E; run_in E; simplify_eq end.
  eapply Hcb; [by eapply list_elem_of_lookup_2|done|by eapply list_elem_of_lookup_2|done..].
Qed.

Lemma process_loop_respects fuel h nlh len r0 s w r s' w' :
  callbacks_respect h -> process_loop fuel h nlh len r0 s w = Ok ((r, s'), w') -> R s s'.
Proof.
  intros Hcb. revert nlh len r0 s w. induction fuel as [|fuel IH]; intros nlh len r0 s w H; [done|].
  cbn [process_loop] in H. run_in H; simplify_eq; try reflexivity;
    match goal with E : nfnl_step _ _ _ _ = _ |- _ => apply (step_respects _ _ _ _ _ _ _ Hcb) in E end; [done|].
  etransitivity; [done|]. by eapply IH.
Qed.

Lemma recv_respects h buf len s w r s' w' : nfnl_recv os h buf len s w = Ok ((r, s'), w') -> R s s'.
Proof.
  intros H. unfold nfnl_recv in H. run_in H; simplify_eq; try reflexivity; by eapply (or_recvfrom Hos).
Qed.

Lemma with_buffer_inv {A} n (f : Z -> M A) w a w' :
  with_buffer n f w = Ok (a, w') -> exists b w1 w2, f b w1 = Ok (a, w2).
Proof. unfold with_buffer. case_match; try done. case_match. intros [= -> <-]. eauto. Qed.

Lemma catch_respects fuel h s w r s' w' :
  callbacks_respect h -> nfnl_catch os fuel h s w = Ok ((r, s'), w') -> R s s'.
Proof.
  intros Hcb. revert s w. induction fuel as [|fuel IH]; intros s w H; [done|]. cbn [nfnl_catch] in H.
  unfold bind at 1 in H. destruct (with_buffer _ _ w) as [[out w1]| | |] eqn:E; try done.
  assert (R s (match out with inl (_, s1) => s1 | inr s1 => s1 end)) as Hs.
  { apply with_buffer_inv in E as (b & w2 & w3 & E). run_in E; simplify_eq;
      match goal with E' : nfnl_recv _ _ _ _ _ _ = _ |- _ => apply recv_respects in E' end; try done;
      (etransitivity; [done|]);
      match goal with E' : nfnl_process _ _ _ _ _ _ = _ |- _ => unfold nfnl_process in E'; run_in E'; simplify_eq end;
      try reflexivity; by eapply process_loop_respects. }
  destruct out as [[r1 s1]|s1]; [unfold ret in H; by simplify_eq|]. etransitivity; [done|by eapply IH].
Qed.

Lemma query_respects fuel h nlh s w r s' w' :
  callbacks_respect h -> nfnl_query os fuel h nlh s w = Ok ((r, s'), w') -> R s s'.
Proof.
  intros Hcb H. unfold nfnl_query in H. unfold bind at 1 in H. destruct (nfnl_send os h nlh s w) as [[[r1 s1] w1]| | |] eqn:E; try done.
  assert (R s s1) as Hs by (unfold nfnl_send in E; run_in E; simplify_eq; by eapply (or_sendto Hos)).
  run_in H; simplify_eq; [done|]. etransitivity; [done|by eapply catch_respects].
Qed.

Lemma fill_hdr_respects h ssh nlh len family res_id type flags s w h' s' w' :
  nfnl_fill_hdr os h ssh nlh len family res_id type flags s w = Ok ((h', s'), w') -> R s s' /\ h_subsys h' = h_subsys h.
Proof.
  intros H. unfold nfnl_fill_hdr in H. run_in H; simplify_eq.
  match goal with E : next_seq _ _ _ _ = _ |- _ => split; [|by eapply next_seq_subsys in E]; unfold next_seq in E; run_in E end;
    simplify_eq; try reflexivity; by eapply (or_time Hos).
Qed.
End Respect.

(** * The table of attributes *)

Lemma last_of_type_nonzero m ty l :
  ty <> 0 -> last_of_type m ty (filter (fun a => nfa_type_of m a <> 0) l) = last_of_type m ty l.
Proof.
  intros Hty. induction l as [|a l IH]; [done|]. rewrite last_of_type_cons.
  destruct (decide (nfa_type_of m a <> 0)) as [Hn|Hn]; [rewrite filter_cons_True by done|rewrite filter_cons_False by done].
  - by rewrite last_of_type_cons, IH.
  - rewrite IH, (proj2 (Z.eqb_neq (nfa_type_of m a) ty)) by lia. by destruct (last_of_type m ty l).
Qed.

Lemma tb_spec_nonzero m max l : tb_spec m max (filter (fun a => nfa_type_of m a <> 0) l) = tb_spec m max l.
Proof. unfold tb_spec. apply map_ext. intros i. apply last_of_type_nonzero. lia. Qed.

(** [nfnl_check_attributes] ignores attributes of type zero. *)
Lemma check_attr_loop_table fuel count nfa attr len w :
  attr_room (w_mem w) attr len -> 0 <= count <= zlen nfa -> (Z.to_nat len < fuel)%nat ->
  let m := w_mem w in
  check_attr_loop fuel count nfa attr len w =
    Ok (tb_fold m count (filter (fun a => nfa_type_of m a <> 0) (attr_list fuel m (attr + len) attr)) nfa, w).
Proof.
  intros Hr Hc Hf m. revert nfa attr len Hr Hc Hf. induction fuel as [|fuel IH]; intros nfa attr len Hr Hc Hf; [lia|].
  cbn [check_attr_loop attr_list]. unfold bind at 1. rewrite NFA_OK_run by done. fold m.
  replace (attr + len - attr) with len by lia.
  destruct ((4 <=? rd 2 attr m) && (rd 2 attr m <=? len)) eqn:Hok; [|done].
  apply andb_true_iff in Hok as [?%Z.leb_le ?%Z.leb_le].
  unfold bind at 1. rewrite (NFA_TYPE_run attr len) by (done || lia). fold m. set (t := nfa_type_of m attr).
  pose proof (nfa_type_of_range m attr). fold t in H1.
  assert (exists nfa1, (if negb (t =? 0) && negb (count <? t) then set_tb nfa (t - 1) attr else ret nfa) w = Ok (nfa1, w) /\
            zlen nfa1 = zlen nfa /\ nfa1 = if decide (t <> 0) then tb_put m count nfa attr else nfa) as (nfa1 & Hput & Hz & Hnfa).
  { unfold tb_put. fold t. destruct (Z.eqb_spec t 0) as [E|E]; cbn [negb andb].
    - eexists. split; [done|]. split; [done|]. by rewrite decide_False by lia.
    - rewrite decide_True by done. destruct (Z.ltb_spec count t); cbn [negb].
      + rewrite (proj2 (Z.leb_gt t count)) by lia. eauto.
      + rewrite (proj2 (Z.leb_le t count)) by lia. unfold set_tb.
        rewrite (proj2 (Z.leb_le 0 _)), (proj2 (Z.ltb_lt _ (zlen nfa))) by lia. eexists. split; [done|].
        unfold zlen. by rewrite length_insert. }
  unfold bind at 1. rewrite Hput. unfold bind at 1. rewrite NFA_NEXT_run by (done || lia). fold m.
  pose proof (align4_spec (rd 2 attr m)). pose proof (attr_room_next _ _ _ Hr ltac:(done)) as [Hr' _].
  rewrite (IH nfa1 (attr + align4 (rd 2 attr m)) (len - align4 (rd 2 attr m)) Hr') by lia.
  replace (attr + align4 (rd 2 attr m) + (len - align4 (rd 2 attr m))) with (attr + len) by lia.
  rewrite Hnfa. destruct (decide (t <> 0)); [rewrite filter_cons_True by done|rewrite filter_cons_False by done]; done.
Qed.

Lemma check_attributes_table {S} (h : @nfnl_handle S) nlh ss cb w :
  let m := w_mem w in
  let t := rd 2 (nlh + 4) m in
  0 <= nlh -> 20 <= rd 4 nlh m -> attr_room m (nlh + 20) (rd 4 nlh m - 20) ->
  NFNL_SUBSYS_ID t <= NFNL_MAX_SUBSYS -> h_subsys h !! Z.to_nat (NFNL_SUBSYS_ID t) = Some ss ->
  NFNL_MSG_TYPE t < ss_cb_count ss -> get_cb ss (NFNL_MSG_TYPE t) w = Ok (cb, w) -> 0 <= cb_attr_count cb ->
  nfnl_check_attributes h nlh (replicate (Z.to_nat (cb_attr_count cb)) None) w
  = Ok ((0, tb_spec m (cb_attr_count cb) (nfattrs m (nlh + 20) (rd 4 nlh m - 20))), w).
Proof.
  intros m t ? Hl Hroom Hid Hss Hty Hcb Hn. pose proof Hroom as [? ? ? _].
  unfold nfnl_check_attributes, nlmsg_type, nlmsg_len, load16, load32.
  unfold bind at 1. rewrite load_ok by (fold m; lia). fold m t. cbn zeta.
  rewrite (proj2 (Z.ltb_ge _ (NFNL_SUBSYS_ID t))) by lia.
  unfold bind at 1, get_subsys. rewrite Hss. unfold ret at 1.
  rewrite (proj2 (Z.leb_gt (ss_cb_count ss) _)) by lia.
  unfold bind at 1. rewrite load_ok by (fold m; lia). fold m.
  change (NLMSG_SPACE sizeof_nfgenmsg) with 20. rewrite (proj2 (Z.ltb_ge (rd 4 nlh m) 20)) by lia.
  unfold bind at 1. rewrite Hcb. unfold bind at 1, clear_tb.
  rewrite (proj2 (Z.leb_le _ (zlen (replicate _ _)))) by zl. unfold ret at 1.
  set (r := replicate _ _) at 1. assert (drop (Z.to_nat (cb_attr_count cb)) (replicate (Z.to_nat (cb_attr_count cb)) (@None Z)) = []) as Hd
    by (apply drop_ge; rewrite length_replicate; lia).
  assert (forall L, tb_fold m (cb_attr_count cb) (filter (fun a => nfa_type_of m a <> 0) L) r = tb_spec m (cb_attr_count cb) L) as Hfold.
  { intros L. subst r. pose proof (tb_fold_cleared m (cb_attr_count cb) (filter (fun a => nfa_type_of m a <> 0) L)
      (replicate (Z.to_nat (cb_attr_count cb)) None)) as E. rewrite Hd, !app_nil_r in E.
    rewrite E, tb_spec_nonzero; [done|zl|]. apply Forall_forall. by intros a [? _]%list_elem_of_filter. }
  rewrite Hd, app_nil_r. destruct (Z.ltb_spec 20 (rd 4 nlh m)).
  - change (NLMSG_ALIGN 20) with 20. change (NFM_NFA (NLMSG_DATA nlh)) with (nlh + 16 + 4).
    replace (nlh + 16 + 4) with (nlh + 20) by lia. rewrite sint_small by lia. unfold bind at 1.
    rewrite check_attr_loop_table; [|done|subst r; zl|unfold loop_fuel; lia]. fold m.
    by rewrite Hfold.
  - replace (rd 4 nlh m - 20) with 0 by lia. unfold ret. do 3 f_equal. rewrite <- Hfold.
    unfold nfattrs, loop_fuel. cbn [Z.to_nat Nat.add attr_list].
    replace ((4 <=? rd 2 (nlh + 20) m) && (rd 2 (nlh + 20) m <=? nlh + 20 + 0 - (nlh + 20))) with false
      by (destruct (Z.leb_spec 4 (rd 2 (nlh + 20) m)); [symmetry; apply Z.leb_gt; lia|done]).
    cbn [andb]. by rewrite ?app_nil_r.
Qed.

(** * Histories of a handle *)

Section History.
Context {C : Type} (os : @os_calls (store C)) (client : Z -> @nfq_callback C).
Abbreviation S := (store C).

(** The handles of the library are the same. *)
Definition same_handles : relation S := fun s s' =>
  st_lists s' = st_lists s /\ st_queues s' = st_queues s /\ st_fresh s' = st_fresh s.

#[local] Instance same_handles_preorder : PreOrder same_handles.
Proof. split; [done|]. intros s1 s2 s3 (? & ? & ?) (? & ? & ?). repeat split; congruence. Qed.

(** The functions of the client do not create or destroy queues. *)
Definition client_keeps : Prop := forall cb q nfmsg tb data s w r s' w',
  client cb q nfmsg tb data s w = Ok ((r, s'), w') -> same_handles s s'.

Context (Hos : os_respects os same_handles) (Hclient : client_keeps).

Lemma queues_same s s' h l : same_handles s s' -> queues s h l -> queues s' h l.
Proof. intros (E1 & E2 & _). unfold queues. by rewrite E1, E2. Qed.

Lemma rcv_pkt_keeps nlh tb data s w r s' w' :
  __nfq_rcv_pkt client nlh tb data s w = Ok ((r, s'), w') -> same_handles s s'.
Proof.
  intros H. unfold __nfq_rcv_pkt in H. run_in H; simplify_eq; try reflexivity. by eapply Hclient.
Qed.

(** What [nfq_open] sets up. *)
Record nfq_ok (h : @nfq_handle C) : Prop := {
  qo_ssh : nq_nfnlssh h = NFNL_SUBSYS_QUEUE;
  qo_subsys : exists ss cbs, h_subsys (nq_nfnlh h) !! Z.to_nat NFNL_SUBSYS_QUEUE = Some ss /\
    ss_subsys_id ss = NFNL_SUBSYS_QUEUE /\ ss_cb_count ss = NFQNL_MSG_MAX /\ ss_cb ss = Some cbs /\
    cbs !! Z.to_nat NFQNL_MSG_PACKET = Some (mk_callback (Some (__nfq_rcv_pkt client)) (nq_self h) NFQA_MAX);
  qo_respect : callbacks_respect same_handles (nq_nfnlh h)
}.

Lemma nfq_ok_subsys h nh : nfq_ok h -> h_subsys nh = h_subsys (nq_nfnlh h) -> nfq_ok (set_nfnlh nh h).
Proof.
  intros [H1 H2 H3] E. split; [done|cbn; by rewrite E|]. unfold callbacks_respect in *. cbn. by rewrite E.
Qed.

(** A configuration message keeps the handles. *)
Lemma send_config_keeps fuel h size num attrs s w r h' s' w' :
  nfq_ok h -> send_config os fuel h size num attrs s w = Ok ((r, h', s'), w') ->
  nfq_ok h' /\ nq_self h' = nq_self h /\ same_handles s s'.
Proof.
  intros Hh H. unfold send_config in H. apply with_buffer_inv in H as (b & w1 & w2 & H). run_in H; simplify_eq.
  match goal with E : nfnl_fill_hdr _ _ _ _ _ _ _ _ _ _ _ = _ |- _ =>
    apply (fill_hdr_respects os same_handles Hos) in E as [Hs1 Hsub] end.
  split; [by apply nfq_ok_subsys|]. split; [done|]. etransitivity; [done|].
  eapply (query_respects os same_handles Hos); [|done]. pose proof (qo_respect _ Hh) as Hr.
  unfold callbacks_respect in *. by rewrite Hsub.
Qed.

Lemma cfg_msg_keeps fuel h command num pf s w r h' s' w' :
  nfq_ok h -> __build_send_cfg_msg os fuel h command num pf s w = Ok ((r, h', s'), w') ->
  nfq_ok h' /\ nq_self h' = nq_self h /\ same_handles s s'.
Proof. apply send_config_keeps. Qed.

Lemma verdict_keeps h q id verdict mark set_mark data_len data type s w r h' s' w' :
  nfq_ok h -> __set_verdict os h q id verdict mark set_mark data_len data type s w = Ok ((r, h', s'), w') ->
  nfq_ok h' /\ nq_self h' = nq_self h /\ same_handles s s'.
Proof.
  intros Hh H. unfold __set_verdict, with_queue in H. run_in H; simplify_eq.
  apply with_buffer_inv in H as (b & w1 & w2 & H). unfold bind at 1 in H.
  destruct (nfnl_fill_hdr _ _ _ _ _ _ _ _ _ _ _) as [[[nh s1] w3]| | |] eqn:Ef; try done.
  apply (fill_hdr_respects os same_handles Hos) in Ef as [Hs1 Hsub].
  run_in H; simplify_eq; (split; [by apply nfq_ok_subsys|]; split; [done|]; etransitivity; [done|]);
    match goal with E' : nfnl_sendiov _ _ _ _ _ _ = _ |- _ => by eapply (or_sendmsg _ _ Hos) in E' end.
Qed.

Lemma handle_msg_keeps h nlh len s w r s' w' :
  callbacks_respect same_handles h -> __nfnl_handle_msg h nlh len s w = Ok ((r, s'), w') -> same_handles s s'.
Proof.
  intros Hcb H. unfold __nfnl_handle_msg in H. run_in H; simplify_eq; try reflexivity.
  match goal with E' : get_subsys _ _ _ = _ |- _ => unfold get_subsys in E'; run_in E'; simplify_eq end.
  match goal with E' : get_cb _ _ _ = _ |- _ => unfold get_cb in E'; run_in E'; simplify_eq end.
  eapply Hcb; [by eapply list_elem_of_lookup_2|done|by eapply list_elem_of_lookup_2|done..].
Qed.

Lemma handle_packet_keeps h buf len s w r s' w' :
  nfq_ok h -> nfq_handle_packet h buf len s w = Ok ((r, s'), w') -> same_handles s s'.
Proof.
  intros Hh. unfold nfq_handle_packet, nfnl_handle_packet. generalize (loop_fuel len). intros fuel. revert buf len s w.
  induction fuel as [|fuel IH]; intros buf len s w H; [done|]. cbn [handle_packet_loop] in H.
  run_in H; simplify_eq; try reflexivity;
    match goal with E' : __nfnl_handle_msg _ _ _ _ _ = _ |- _ => apply handle_msg_keeps in E'; [|apply Hh] end; [done|].
  etransitivity; [done|by eapply IH].
Qed.

(** The queues of a handle, all with different numbers and older than the next
    allocation. *)
Record holds (h : @nfq_handle C) (s : S) (l : list entry) : Prop := {
  ho_nfq : nfq_ok h;
  ho_list : queues s (nq_self h) l;
  ho_ids : NoDup (map e_id l);
  ho_fresh : forall q, q ∈ l.*1 -> q < st_fresh s
}.

Lemma holds_same h h' s s' l :
  nfq_ok h' -> nq_self h' = nq_self h -> same_handles s s' -> holds h s l -> holds h' s' l.
Proof.
  intros Hh' E Hs [_ Hl Hi Hf]. split; [done|rewrite E; by eapply queues_same|done|]. destruct Hs as (_ & _ & ->). done.
Qed.

(** A queue is created at the front of the list, or the list stays. *)
Lemma create_holds fuel h num cb data s l w r h' s' w' :
  holds h s l -> nfq_create_queue os fuel h num cb data s w = Ok ((r, h', s'), w') ->
  match r with
  | Some q => num ∉ map e_id l /\ holds h' s' ((q, (nq_self h, num, cb, data)) :: l)
  | None => holds h' s' l
  end.
Proof.
  intros Hold H. pose proof Hold as [Hh Hl Hi Hf]. unfold nfq_create_queue in H. unfold bind at 1 in H.
  rewrite (find_qh_run _ _ l) in H by done. destruct (find_id num l) as [q|] eqn:Ef; [unfold ret in H; by simplify_eq|].
  apply find_id_none in Ef. unfold bind at 1 in H. destruct (malloc_ok w) as [[ok w1]| | |]; try done.
  destruct ok; cbn [negb] in H; [|unfold ret in H; by simplify_eq].
  set (n := mk_qh None (nq_self h) num cb data) in *. set (q := st_fresh s) in *.
  set (s1 := mk_store (st_lists s) (<[q := n]> (st_queues s)) _ _ _) in *.
  assert (q ∉ l.*1) as Hq by (intros Hin; apply Hf in Hin; subst q; lia).
  assert (queues s1 (nq_self h) l) as Hl1.
  { destruct Hl as (p & Hp & Hc & Hd). exists p. split; [done|]. split; [|done].
    apply (chain_frame (st_queues s)); [|done]. intros q' Hq'. cbn. apply lookup_insert_ne. by intros ->. }
  unfold bind at 1 in H. destruct (__build_send_cfg_msg _ _ _ _ _ _ _ _) as [[[[r1 h1] s2] w2]| | |] eqn:Ec; try done.
  apply cfg_msg_keeps in Ec as (Hh1 & Es & Hs); [|done]. pose proof Hs as (_ & E2 & E3).
  destruct (r1 <? 0).
  - unfold ret in H. simplify_eq. split; [done| |done|].
    + rewrite Es. apply queues_free; [|done]. by apply (queues_same s1).
    + intros q' Hin. cbn. rewrite E3. cbn. apply Hf in Hin. subst q. lia.
  - unfold bind in H. destruct (add_qh_run s2 (nq_self h) l q n w2) as (s3 & Hadd & Hq3 & E4);
      [by apply (queues_same s1)|rewrite E2; apply lookup_insert_eq|done|done|].
    rewrite Hadd in H. unfold ret in H. simplify_eq. split; [done|]. split; [done|by rewrite Es| |].
    + cbn. apply NoDup_cons. split; [by unfold e_id at 1|done].
    + intros q' Hin. rewrite E4, E3. cbn. cbn in Hin. apply elem_of_cons in Hin as [->|Hin]; [lia|].
      apply Hf in Hin. subst q. lia.
Qed.

(** A queue is removed when the kernel acknowledged it, or the list stays. *)
Lemma destroy_holds fuel h q v s l w r h' s' w' :
  holds h s l -> (q, v) ∈ l -> nfq_destroy_queue os fuel h q s w = Ok ((r, h', s'), w') ->
  holds h' s' (if r =? 0 then without q l else l).
Proof.
  intros Hold Hin H. pose proof Hold as [Hh Hl Hi Hf]. unfold nfq_destroy_queue, with_queue in H.
  unfold bind at 1 in H. destruct (get_queue q s w) as [[n w1]| | |]; try done.
  destruct (qh_h n =? nq_self h); [|done]. unfold bind at 1 in H.
  destruct (__build_send_cfg_msg _ _ _ _ _ _ _ _) as [[[[r1 h1] s1] w2]| | |] eqn:Ec; try done.
  apply cfg_msg_keeps in Ec as (Hh1 & Es & Hs); [|done]. pose proof Hs as (_ & _ & E3).
  assert (holds h1 s1 l) as Hold1 by by eapply holds_same.
  destruct (r1 =? 0) eqn:Er; [|unfold ret in H; simplify_eq; by rewrite Er].
  unfold bind in H. destruct (queues_del s1 (nq_self h) l q v w2) as (s2 & Hdel & Hq2 & E4);
    [by eapply queues_same|done|]. rewrite Hdel in H. unfold ret in H. simplify_eq. rewrite Er. split; [done| | |].
  - rewrite Es. apply queues_free; [done|apply without_notin].
  - by apply NoDup_without.
  - intros q' (e & -> & He)%list_elem_of_fmap. cbn. rewrite E4, E3. apply Hf. apply without_in in He as [He _].
    apply list_elem_of_fmap. by exists e.
Qed.

(** The handles the client went through: opened, then any operations, with the queues
    that were created and not destroyed since. *)
Inductive history : @nfq_handle C -> S -> list entry -> Prop :=
| hist_open s w h s' w' :
    nfq_open os client s w = Ok ((Some h, s'), w') -> history h s' []
| hist_create fuel h s l num cb data w r h' s' w' :
    history h s l -> nfq_create_queue os fuel h num cb data s w = Ok ((r, h', s'), w') ->
    history h' s' (match r with Some q => (q, (nq_self h, num, cb, data)) :: l | None => l end)
| hist_destroy fuel h s l q v w r h' s' w' :
    history h s l -> (q, v) ∈ l -> nfq_destroy_queue os fuel h q s w = Ok ((r, h', s'), w') ->
    history h' s' (if r =? 0 then without q l else l)
| hist_bind fuel h s l pf w r h' s' w' :
    history h s l -> nfq_bind_pf os fuel h pf s w = Ok ((r, h', s'), w') -> history h' s' l
| hist_unbind fuel h s l pf w r h' s' w' :
    history h s l -> nfq_unbind_pf os fuel h pf s w = Ok ((r, h', s'), w') -> history h' s' l
| hist_mode fuel h s l q mode range w r h' s' w' :
    history h s l -> nfq_set_mode os fuel h q mode range s w = Ok ((r, h', s'), w') -> history h' s' l
| hist_flags fuel h s l q mask flags w r h' s' w' :
    history h s l -> nfq_set_queue_flags os fuel h q mask flags s w = Ok ((r, h', s'), w') -> history h' s' l
| hist_maxlen fuel h s l q n w r h' s' w' :
    history h s l -> nfq_set_queue_maxlen os fuel h q n s w = Ok ((r, h', s'), w') -> history h' s' l
| hist_verdict h s l q id verdict mark set_mark data_len data type w r h' s' w' :
    history h s l -> __set_verdict os h q id verdict mark set_mark data_len data type s w = Ok ((r, h', s'), w') ->
    history h' s' l
| hist_packet h s l buf len w r s' w' :
    history h s l -> nfq_handle_packet h buf len s w = Ok ((r, s'), w') -> history h s' l.

Lemma nfnl_open_subsys s w nh s' w' :
  nfnl_open os s w = Ok ((Some nh, s'), w') -> h_subsys nh = h_subsys (@zero_handle S).
Proof.
  intros H. unfold nfnl_open, open_failed in H. run_in H; simplify_eq.
  match goal with E' : recalc_rebind_subscriptions _ _ _ _ = _ |- _ => by apply recalc_subsys in E' end.
Qed.

Definition empty_callbacks : list (@nfnl_callback S) := replicate (Z.to_nat NFQNL_MSG_MAX) (mk_callback None 0 0).

Lemma subsys_open_queue nh s w ssh nh' s' w' :
  nfnl_subsys_open os nh NFNL_SUBSYS_QUEUE NFQNL_MSG_MAX 0 s w = Ok (((Some ssh, nh'), s'), w') ->
  ssh = NFNL_SUBSYS_QUEUE /\ same_handles s s' /\
  h_subsys nh' = <[Z.to_nat NFNL_SUBSYS_QUEUE := mk_subsys 0 NFNL_SUBSYS_QUEUE NFQNL_MSG_MAX (Some empty_callbacks)]> (h_subsys nh).
Proof.
  intros H. unfold nfnl_subsys_open in H. run_in H; simplify_eq.
  match goal with E' : recalc_rebind_subscriptions _ _ _ _ = _ |- _ => pose proof (recalc_subsys _ _ _ _ _ _ _ _ E') as Hs;
    unfold recalc_rebind_subscriptions in E'; run_in E'; simplify_eq end.
  split; [done|]. split; [by eapply (or_bind _ _ Hos)|exact Hs].
Qed.

Lemma register_queue (nh : @nfnl_handle S) ss cbs cb w r nh' w' :
  h_subsys nh !! Z.to_nat NFNL_SUBSYS_QUEUE = Some ss -> ss_cb_count ss = NFQNL_MSG_MAX -> ss_cb ss = Some cbs ->
  zlen cbs = NFQNL_MSG_MAX ->
  nfnl_callback_register nh NFNL_SUBSYS_QUEUE NFQNL_MSG_PACKET cb w = Ok ((r, nh'), w') ->
  h_subsys nh' = <[Z.to_nat NFNL_SUBSYS_QUEUE := mk_subsys (ss_subscriptions ss) (ss_subsys_id ss) (ss_cb_count ss)
                                                   (Some (<[Z.to_nat NFQNL_MSG_PACKET := cb]> cbs))]> (h_subsys nh).
Proof.
  intros Hss Hn Hcbs Hz H. unfold nfnl_callback_register, bind, get_subsys, put_cb in H. rewrite Hss in H.
  unfold ret at 1 in H. rewrite Hn in H. cbn [NFQNL_MSG_MAX NFQNL_MSG_PACKET Z.leb Z.compare] in H. rewrite Hcbs, Hz in H.
  cbn in H. unfold ret in H. simplify_eq. cbn. by rewrite Hn.
Qed.

Lemma nfq_open_holds s w h s' w' : nfq_open os client s w = Ok ((Some h, s'), w') -> holds h s' [].
Proof.
  intros H. unfold nfq_open in H. unfold bind at 1 in H. destruct (nfnl_open os s w) as [[[[nh|] s0] w0]| | |] eqn:Eo; try done.
  apply nfnl_open_subsys in Eo. unfold nfq_open_nfnl in H. run_in H; simplify_eq. run_in E; simplify_eq.
  match goal with E' : nfnl_subsys_open _ _ _ _ _ _ _ = _ |- _ => apply subsys_open_queue in E' as (-> & Hs & Esub) end.
  change (h_subsys (nfnl_unset_sequence_tracking nh)) with (h_subsys nh) in Esub. rewrite Eo in Esub.
  match goal with E' : nfnl_callback_register _ _ _ _ _ = _ |- _ =>
    eapply register_queue in E' as Ereg; [|rewrite Esub; reflexivity|reflexivity..] end.
  rewrite Esub in Ereg. clear Esub.
  destruct Hs as (F1 & F2 & F3). split.
  - split; [done|cbn; rewrite Ereg; by repeat eexists|].
    intros ss cbs cb call Hss Hcbs Hcb Hcall. cbn [nq_nfnlh] in Hss. rewrite Ereg in Hss.
    repeat (apply elem_of_cons in Hss as [->|Hss]; [cbn in Hcbs; simplify_eq; try done|]); [|by apply elem_of_nil in Hss].
    repeat (apply elem_of_cons in Hcb as [->|Hcb]; [cbn in Hcall; simplify_eq; try done|]); [|by apply elem_of_nil in Hcb].
    intros ? ? ? ? ? ? ? Hr. by eapply rcv_pkt_keeps.
  - exists None. cbn. rewrite F1. cbn. rewrite lookup_insert_eq. repeat split; constructor.
  - constructor.
  - by intros q ?%elem_of_nil.
Qed.

Lemma with_config_keeps fuel h size q attrs s w r h' s' w' :
  nfq_ok h -> with_queue h q s (fun n => send_config os fuel h size (qh_id n) attrs s) w = Ok ((r, h', s'), w') ->
  nfq_ok h' /\ nq_self h' = nq_self h /\ same_handles s s'.
Proof. intros Hh H. unfold with_queue in H. run_in H; simplify_eq. by eapply send_config_keeps. Qed.

Lemma history_holds h s l : history h s l -> holds h s l.
Proof.
  induction 1; match goal with IH : holds _ _ _ |- _ => pose proof (ho_nfq _ _ _ IH) as Hn | _ => idtac end.
  - by eapply nfq_open_holds.
  - match goal with H' : nfq_create_queue _ _ _ _ _ _ _ _ = _ |- _ => eapply create_holds in H'; [|done] end.
    by destruct r as [q|]; [destruct_and!|].
  - by eapply destroy_holds.
  - match goal with H' : nfq_bind_pf _ _ _ _ _ _ = _ |- _ => apply cfg_msg_keeps in H' as (? & ? & ?); [|done] end.
    by eapply holds_same.
  - match goal with H' : nfq_unbind_pf _ _ _ _ _ _ = _ |- _ => apply cfg_msg_keeps in H' as (? & ? & ?); [|done] end.
    by eapply holds_same.
  - match goal with H' : nfq_set_mode _ _ _ _ _ _ _ _ = _ |- _ => apply with_config_keeps in H' as (? & ? & ?); [|done] end.
    by eapply holds_same.
  - match goal with H' : nfq_set_queue_flags _ _ _ _ _ _ _ _ = _ |- _ => apply with_config_keeps in H' as (? & ? & ?); [|done] end.
    by eapply holds_same.
  - match goal with H' : nfq_set_queue_maxlen _ _ _ _ _ _ _ = _ |- _ => apply with_config_keeps in H' as (? & ? & ?); [|done] end.
    by eapply holds_same.
  - match goal with H' : __set_verdict _ _ _ _ _ _ _ _ _ _ _ _ = _ |- _ => apply verdict_keeps in H' as (? & ? & ?); [|done] end.
    by eapply holds_same.
  - match goal with H' : nfq_handle_packet _ _ _ _ _ = _ |- _ => apply handle_packet_keeps in H'; [|done] end.
    by eapply holds_same.
Qed.

(** C27: in every history of a queue handle, the linked list that the handle keeps is the list of
    the queues that were created and not destroyed since, the last one first; their numbers are
    different, and find_qh returns the queue with a number, or NULL when there is none. *)
Theorem nfq_queues_refine h s l :
  history h s l ->
  queues s (nq_self h) l /\ NoDup (map e_id l) /\
  forall id w, (forall q v, (q, v) ∈ l -> e_id (q, v) = id -> find_qh (nq_self h) id s w = Ok (Some q, w)) /\
               (id ∉ map e_id l -> find_qh (nq_self h) id s w = Ok (None, w)).
Proof.
  intros [_ Hl Hi _]%history_holds. split; [done|]. split; [done|]. intros id w. rewrite (find_qh_run _ _ l) by done. split.
  - intros q v Hin Hid. by rewrite (find_id_in id l q v).
  - intros Hn. by rewrite (proj2 (find_id_none id l)).
Qed.

(** ** Packets *)

(** The callback of the handle on a packet for a queue number. *)
Lemma rcv_pkt_run h s l nlh tb w :
  holds h s l -> 0 <= nlh -> nlh + 20 <= zlen (w_mem w) ->
  let id := ntohs (rd 2 (nlh + 18) (w_mem w)) in
  (forall q cb data, (q, (nq_self h, id, Some cb, data)) ∈ l ->
     __nfq_rcv_pkt client nlh tb (nq_self h) s w = client cb q (nlh + 16) tb data s w) /\
  (id ∉ map e_id l -> __nfq_rcv_pkt client nlh tb (nq_self h) s w = Ok ((- ENODEV, s), w)).
Proof.
  intros [_ Hl Hi _] ? ? id.
  assert (__nfq_rcv_pkt client nlh tb (nq_self h) s w =
            match find_id id l with
            | None => Ok ((- ENODEV, s), w)
            | Some q => (let! n := get_queue q s in
                         match qh_cb n with
                         | None => ret (- ENODEV, s)
                         | Some cb => client cb q (nlh + 16) tb (qh_data n) s
                         end) w
            end) as ->.
  { unfold __nfq_rcv_pkt, load16. change (NLMSG_DATA nlh) with (nlh + 16). cbn zeta.
    replace (nlh + 16 + 2) with (nlh + 18) by lia. unfold bind at 1. rewrite load_ok by lia. fold id.
    unfold bind at 1. rewrite (find_qh_run _ _ l) by done. by destruct (find_id id l). }
  split.
  - intros q cb data Hin. rewrite (find_id_in id l q (nq_self h, id, Some cb, data)) by done.
    destruct Hl as (p & _ & Hc & _). destruct (chain_elem _ _ _ _ _ Hc Hin) as (n & Hn & [= _ _ E1 E2]).
    unfold bind, get_queue. rewrite Hn. unfold ret. by rewrite E1, E2.
  - intros Hn. by rewrite (proj2 (find_id_none id l)).
Qed.

(** A message of the queue subsystem reaches that callback. *)
Lemma queue_msg_run h s nlh len w :
  let m := w_mem w in let l := rd 4 nlh m in
  nfq_ok h -> 0 <= nlh -> 20 <= l -> rd 2 (nlh + 4) m = NFNL_SUBSYS_QUEUE * 256 + NFQNL_MSG_PACKET ->
  attr_room m (nlh + 20) (l - 20) ->
  __nfnl_handle_msg (nq_nfnlh h) nlh len s w
  = __nfq_rcv_pkt client nlh (tb_spec m NFQA_MAX (nfattrs m (nlh + 20) (l - 20))) (nq_self h) s w.
Proof.
  intros m l [_ (ss & cbs & Hss & _ & Hn & Hcbs & Hcb) _] ? Hl Ht Hroom. pose proof Hroom as [? ? ? _].
  unfold __nfnl_handle_msg, nlmsg_type, nlmsg_len, load16, load32.
  unfold bind at 1. rewrite load_ok by (fold m; lia). fold m. rewrite Ht. cbn zeta.
  change (NFNL_SUBSYS_ID _) with NFNL_SUBSYS_QUEUE. change (NFNL_MSG_TYPE _) with NFQNL_MSG_PACKET.
  change (NFNL_MAX_SUBSYS <? NFNL_SUBSYS_QUEUE) with false. cbn iota.
  unfold bind at 1, get_subsys. rewrite Hss. unfold ret at 1. unfold bind at 1. rewrite load_ok by (fold m; lia).
  fold m l. change (NLMSG_LENGTH (NLMSG_ALIGN sizeof_nfgenmsg)) with 20. rewrite (proj2 (Z.ltb_ge l 20)) by lia.
  rewrite Hn. change (NFQNL_MSG_MAX <=? NFQNL_MSG_PACKET) with false. cbn iota.
  unfold bind at 1, get_cb. rewrite Hcbs, Hcb. unfold ret at 1. cbn [cb_attr_count cb_call cb_data].
  change (negb (NFQA_MAX =? 0)) with true. cbn iota. unfold bind at 1.
  rewrite (check_attributes_table (nq_nfnlh h) nlh ss (mk_callback (Some (__nfq_rcv_pkt client)) (nq_self h) NFQA_MAX)); try done.
  all: fold m; rewrite ?Ht; cbn [ss_cb_count]; rewrite ?Hn; try done.
  change (NFNL_MSG_TYPE _) with NFQNL_MSG_PACKET. unfold get_cb. by rewrite Hcbs, Hcb.
Qed.

(** C28: once queues were created, a packet message is handed to the function of the queue with its
    number, with the address of its header, a table of the last attribute of each type and the
    data of the queue, and nfq_handle_packet reports its failure; a packet for another number is
    an error. *)
Theorem nfq_packet_delivered h s l buf len w :
  let m := w_mem w in
  let id := ntohs (rd 2 (buf + 18) m) in
  let tb := tb_spec m NFQA_MAX (nfattrs m (buf + 20) (len - 20)) in
  history h s l -> 0 <= buf -> 20 <= len -> rd 4 buf m = len ->
  rd 2 (buf + 4) m = NFNL_SUBSYS_QUEUE * 256 + NFQNL_MSG_PACKET -> attr_room m (buf + 20) (len - 20) ->
  (forall q cb data, (q, (nq_self h, id, Some cb, data)) ∈ l ->
     nfq_handle_packet h buf len s w =
       (let! (r, s) := client cb q (buf + 16) tb data s in ret (if r <? 0 then -1 else 0, s)) w) /\
  (id ∉ map e_id l -> nfq_handle_packet h buf len s w = Ok ((-1, s), w)).
Proof.
  intros m id tb Hh%history_holds ? ? Hlen Ht Hroom. pose proof Hroom as [? ? ? _].
  assert (nfq_handle_packet h buf len s w =
            (let! (r, s) := __nfq_rcv_pkt client buf tb (nq_self h) s in ret (if r <? 0 then -1 else 0, s)) w) as Hrun.
  { unfold nfq_handle_packet, nfnl_handle_packet. replace (loop_fuel len) with (Datatypes.S (Datatypes.S (Z.to_nat (len - 1)))) by (unfold loop_fuel; lia).
    cbn [handle_packet_loop]. change (NLMSG_SPACE 0) with 16. change sizeof_nlmsghdr with 16.
    rewrite (wrap_small 32 len) by lia. rewrite (proj2 (Z.leb_le 16 len)) by lia. cbn zeta.
    unfold nlmsg_len, load32. unfold bind at 1. rewrite load_ok by (fold m; lia). fold m. rewrite Hlen.
    rewrite (proj2 (Z.ltb_ge len 16)), (proj2 (Z.ltb_ge len len)), NLMSG_ALIGN_align4 by lia. cbn [orb].
    pose proof (align4_spec len). replace (if len <? align4 len then len else align4 len) with len
      by (destruct (Z.ltb_spec len (align4 len)); lia).
    unfold bind at 1. rewrite (queue_msg_run h s buf (sint 32 len) w); [|by apply Hh|done|fold m; lia|done|fold m; by rewrite Hlen].
    fold m. rewrite Hlen. fold tb. unfold bind. destruct (__nfq_rcv_pkt _ _ _ _ _ _) as [[[r s1] w1]| | |]; try done.
    replace (len - len) with 0 by lia. by destruct (r <? 0). }
  destruct (rcv_pkt_run h s l buf tb w) as [Hf Hn]; [done|done|fold m; lia|]. fold m id in Hf, Hn.
  rewrite Hrun. unfold bind. split.
  - intros q cb data Hin. by rewrite (Hf q cb data Hin).
  - intros Hid. by rewrite (Hn Hid).
Qed.
End History.

(** * Examples *)

(** A kernel that acknowledges every request, and a client that counts its packets. *)
Definition queue_ack : list Z :=
  le_enc 4 36 ++ le_enc 2 NLMSG_ERROR ++ replicate 30 0.
Definition queue_os : @os_calls (store Z) :=
  let nl := mk_sockaddr_nl AF_NETLINK 7 0 in
  mk_os (fun s => ret (3, s)) (fun _ s => ret (0, s)) (fun _ _ s => ret (0, s))
        (fun _ s => ret ((0, nl, 12), s)) (fun s => ret (1000, s)) (fun _ _ n _ s => ret (n, s))
        (fun _ buf _ s => store_bytes buf queue_ack ;;; ret ((36, mk_sockaddr_nl AF_NETLINK 0 0, 12), s))
        (fun _ _ _ s => ret (0, s)) (fun _ _ _ s => ret ((0, nl, 12, 0), s)) (fun _ _ _ _ s => ret (0, s))
        (fun _ _ _ s => ret ((0, 0), s)).
Definition queue_client (cb : Z) : @nfq_callback Z := fun _ _ _ data s =>
  ret (0, mk_store (st_lists s) (st_queues s) (st_fresh s) (nfq_errno s) (st_client s + data)).

Definition queue_s0 : store Z := mk_store ∅ ∅ 1 0 0.
Definition queue_w0 : world := mk_world [] 0 [].
Definition no_nfq : @nfq_handle Z := mk_nfq_handle 0 zero_handle 0.
Definition queue_1 : @nfq_handle Z * store Z :=
  match nfq_open queue_os queue_client queue_s0 queue_w0 with Ok ((Some h, s), _) => (h, s) | _ => (no_nfq, queue_s0) end.
Definition queue_2 : @nfq_handle Z * store Z :=
  match nfq_create_queue queue_os 10 queue_1.1 5 (Some 8) 70 queue_1.2 queue_w0 with Ok ((_, h, s), _) => (h, s) | _ => (no_nfq, queue_s0) end.
Definition queue_3 : @nfq_handle Z * store Z :=
  match nfq_create_queue queue_os 10 queue_2.1 6 (Some 9) 80 queue_2.2 queue_w0 with Ok ((_, h, s), _) => (h, s) | _ => (no_nfq, queue_s0) end.

Lemma queue_os_respects : os_respects queue_os same_handles.
Proof.
  split; unfold queue_os; cbn; unfold ret, bind; intros; simplify_eq; try done.
  destruct (store_bytes _ _ _) as [[? ?]| | |]; by simplify_eq.
Qed.

Lemma queue_client_keeps : client_keeps queue_client.
Proof. intros cb q nfmsg tb data s w r s' w'. unfold queue_client, ret. intros. by simplify_eq. Qed.

Lemma queue_history :
  history queue_os queue_client queue_3.1 queue_3.2 [(3, (1, 6, Some 9, 80)); (2, (1, 5, Some 8, 70))].
Proof.
  apply (hist_create queue_os queue_client 10 queue_2.1 queue_2.2 [(2, (1, 5, Some 8, 70))] 6 (Some 9) 80 queue_w0 (Some 3) _ _ queue_w0);
    [|vm_compute; reflexivity].
  apply (hist_create queue_os queue_client 10 queue_1.1 queue_1.2 [] 5 (Some 8) 70 queue_w0 (Some 2) _ _ queue_w0);
    [|vm_compute; reflexivity].
  apply (hist_open queue_os queue_client queue_s0 queue_w0 _ _ queue_w0). vm_compute. reflexivity.
Qed.

Lemma nfq_queues_refine_witness :
  find_qh (nq_self queue_3.1) 5 queue_3.2 queue_w0 = Ok (Some 2, queue_w0) /\
  find_qh (nq_self queue_3.1) 7 queue_3.2 queue_w0 = Ok (None, queue_w0).
Proof.
  destruct (nfq_queues_refine queue_os queue_client queue_os_respects queue_client_keeps queue_3.1 queue_3.2 _ queue_history)
    as (_ & _ & Hfind). split.
  - apply (proj1 (Hfind 5 queue_w0) 2 (1, 5, Some 8, 70)); [|done].
    apply elem_of_cons. right. by apply list_elem_of_singleton.
  - apply (proj2 (Hfind 7 queue_w0)). by apply (bool_decide_unpack _).
Defined.

(** A packet for queue 5 with a mark. *)
Definition queue_packet : list Z :=
  le_enc 4 28 ++ le_enc 2 0x300 ++ replicate 12 0 ++ [0; 5] ++ le_enc 2 8 ++ le_enc 2 NFQA_MARK ++ [0; 0; 0; 1].
Definition queue_w : world := mk_world queue_packet 0 [].

Lemma nfq_packet_delivered_witness :
  exists s', nfq_handle_packet queue_3.1 0 28 queue_3.2 queue_w = Ok ((0, s'), queue_w) /\ st_client s' = 70.
Proof.
  destruct (nfq_packet_delivered queue_os queue_client queue_os_respects queue_client_keeps queue_3.1 queue_3.2
              _ 0 28 queue_w queue_history) as [Hrun _].
  - lia.
  - lia.
  - reflexivity.
  - reflexivity.
  - split; [lia|lia|vm_compute; congruence|right; vm_compute; congruence].
  - rewrite (Hrun 2 8 70) by (apply elem_of_cons; right; apply elem_of_cons; by left).
    eexists. split; reflexivity.
Defined.
