(* ===== verification/CJson.v ===== *)
(** cjson.c: the item type and the parser.

    A C string is its bytes; the pointers of the parser are offsets into the text,
    and a read outside of it is a fault, as is a write after the end of an
    allocated object.  An item and the chain of its children form a tree, which is
    what the parser builds and the printer reads; CJsonHeap.v models the pointers
    of the chains.  [get_decimal_point] is ['.']: the library is built without
    [ENABLE_LOCALES]. *)
From Stdlib Require Import Strings.String Strings.Ascii.
From S2P Require Import Prelude CMonad MnlAttr CDouble CText.

(** * Characters *)

Abbreviation c_quote := 34 (only parsing).
Abbreviation c_comma := 44 (only parsing).
Abbreviation c_colon := 58 (only parsing).
Abbreviation c_open_bracket := 91 (only parsing).
Abbreviation c_backslash := 92 (only parsing).
Abbreviation c_close_bracket := 93 (only parsing).
Abbreviation c_u := 117 (only parsing).
Abbreviation c_open_brace := 123 (only parsing).
Abbreviation c_close_brace := 125 (only parsing).

(** * Items *)

Definition cJSON_Invalid : Z := 0.
Definition cJSON_False : Z := Z.shiftl 1 0.
Definition cJSON_True : Z := Z.shiftl 1 1.
Definition cJSON_NULL : Z := Z.shiftl 1 2.
Definition cJSON_Number : Z := Z.shiftl 1 3.
Definition cJSON_String : Z := Z.shiftl 1 4.
Definition cJSON_Array : Z := Z.shiftl 1 5.
Definition cJSON_Object : Z := Z.shiftl 1 6.
Definition cJSON_Raw : Z := Z.shiftl 1 7.
Definition cJSON_IsReference : Z := 256.
Definition cJSON_StringIsConst : Z := 512.

Definition CJSON_NESTING_LIMIT : Z := 1000.

Inductive cJSON := mk_cJSON
  (type : Z) (valuestring : option (list Z)) (valueint : Z) (valuedouble : double)
  (name : option (list Z)) (child : list cJSON).

Definition cj_type (i : cJSON) : Z := let 'mk_cJSON t _ _ _ _ _ := i in t.
Definition cj_valuestring (i : cJSON) : option (list Z) := let 'mk_cJSON _ v _ _ _ _ := i in v.
Definition cj_valueint (i : cJSON) : Z := let 'mk_cJSON _ _ n _ _ _ := i in n.
Definition cj_valuedouble (i : cJSON) : double := let 'mk_cJSON _ _ _ d _ _ := i in d.
Definition cj_string (i : cJSON) : option (list Z) := let 'mk_cJSON _ _ _ _ s _ := i in s.
Definition cj_child (i : cJSON) : list cJSON := let 'mk_cJSON _ _ _ _ _ c := i in c.

Definition set_type (t : Z) (i : cJSON) : cJSON :=
  let 'mk_cJSON _ v n d s c := i in mk_cJSON t v n d s c.
Definition set_valuestring (v : option (list Z)) (i : cJSON) : cJSON :=
  let 'mk_cJSON t _ n d s c := i in mk_cJSON t v n d s c.
Definition set_number (n : Z) (d : double) (i : cJSON) : cJSON :=
  let 'mk_cJSON t v _ _ s c := i in mk_cJSON t v n d s c.
Definition set_valueint (n : Z) (i : cJSON) : cJSON :=
  let 'mk_cJSON t v _ d s c := i in mk_cJSON t v n d s c.
Definition set_string (s : option (list Z)) (i : cJSON) : cJSON :=
  let 'mk_cJSON t v n d _ c := i in mk_cJSON t v n d s c.
Definition set_child (c : list cJSON) (i : cJSON) : cJSON :=
  let 'mk_cJSON t v n d s _ := i in mk_cJSON t v n d s c.

(** An item of zero bytes. *)
Definition zero_item : cJSON := mk_cJSON 0 None 0 (dzero false) None [].

Definition cJSON_New_Item : M (option cJSON) :=
  let! ok := malloc_ok in ret (if ok : bool then Some zero_item else None).

(** * The parse buffer *)

Record parse_buffer := mk_pb {
  pb_content : list Z;
  pb_length : Z;
  pb_offset : Z;
  pb_depth : Z
}.

Definition set_offset (o : Z) (b : parse_buffer) : parse_buffer :=
  mk_pb (pb_content b) (pb_length b) o (pb_depth b).
Definition set_depth (d : Z) (b : parse_buffer) : parse_buffer :=
  mk_pb (pb_content b) (pb_length b) (pb_offset b) d.
Definition advance (n : Z) (b : parse_buffer) : parse_buffer := set_offset (pb_offset b + n) b.

Definition can_read (b : parse_buffer) (size : Z) : bool := pb_offset b + size <=? pb_length b.
Definition can_access_at_index (b : parse_buffer) (i : Z) : bool := pb_offset b + i <? pb_length b.

(** Reading through a pointer into the text. *)
Definition char_at (content : list Z) (o : Z) : M Z :=
  match (if 0 <=? o then content !! Z.to_nat o else None) with
  | Some c => ret c
  | None => ub
  end.
Definition buffer_at_offset (b : parse_buffer) (i : Z) : M Z := char_at (pb_content b) (pb_offset b + i).

(** Whether the buffer can be read at its position and holds [c] there. *)
Definition at_char (b : parse_buffer) (c : Z) : M bool :=
  if can_access_at_index b 0 then let! x := buffer_at_offset b 0 in ret (x =? c) else ret false.

(** [strncmp(content + o, s, strlen(s)) == 0]. *)
Fixpoint strncmp_eq (content : list Z) (o : Z) (s : list Z) : M bool :=
  match s with
  | [] => ret true
  | c :: s =>
      let! x := char_at content o in
      if x =? c then strncmp_eq content (o + 1) s else ret false
  end.

Fixpoint skip_loop (fuel : nat) (b : parse_buffer) : M parse_buffer :=
  match fuel with
  | O => no_fuel
  | S fuel =>
      if can_access_at_index b 0 then
        let! c := buffer_at_offset b 0 in
        if c <=? 32 then skip_loop fuel (advance 1 b) else ret b
      else ret b
  end.

(** A bound on the steps that each take at least one character. *)
Definition text_fuel (b : parse_buffer) : nat := S (Z.to_nat (pb_length b - pb_offset b)).

Definition buffer_skip_whitespace (b : parse_buffer) : M parse_buffer :=
  let! b := skip_loop (text_fuel b) b in
  ret (if pb_offset b =? pb_length b then advance (-1) b else b).

Definition skip_utf8_bom (b : parse_buffer) : M (option parse_buffer) :=
  if negb (pb_offset b =? 0) then ret None else
  if can_access_at_index b 4 then
    let! bom := strncmp_eq (pb_content b) (pb_offset b) [239; 187; 191] in
    ret (Some (if bom : bool then advance 3 b else b))
  else ret (Some b).

(** * Numbers *)

(** The conversion to [valueint], with saturation. *)
Definition to_valueint (d : double) : M Z :=
  if dge d INT_MAX then ret INT_MAX
  else if dle d INT_MIN then ret INT_MIN
  else match d with DNan => ub | _ => ret (dtrunc d) end.

(** At most [n] characters of a number, from index [i]. *)
Fixpoint number_chars (n : nat) (b : parse_buffer) (i : Z) : M (list Z) :=
  match n with
  | O => ret []
  | S n =>
      if can_access_at_index b i then
        let! c := buffer_at_offset b i in
        if num_char c then let! l := number_chars n b (i + 1) in ret (c :: l) else ret []
      else ret []
  end.

Definition sizeof_number_c_string : Z := 64.

Definition parse_number (item : cJSON) (b : parse_buffer) : M (option cJSON * parse_buffer) :=
  let! number_c_string := number_chars (Z.to_nat (sizeof_number_c_string - 1)) b 0 in
  let '(number, after_end) := strtod number_c_string in
  if after_end =? 0 then ret (None, b) else
  let! n := to_valueint number in
  ret (Some (set_type cJSON_Number (set_number n number item)), advance after_end b).

Definition cJSON_SetNumberHelper (object : cJSON) (number : double) : M (double * cJSON) :=
  let! n := to_valueint number in
  ret (number, set_number n number object).

(** * Strings *)

Definition hex_digit (c : Z) : option Z :=
  if (48 <=? c) && (c <=? 57) then Some (c - 48)
  else if (65 <=? c) && (c <=? 70) then Some (10 + c - 65)
  else if (97 <=? c) && (c <=? 102) then Some (10 + c - 97)
  else None.

(** The loop of [parse_hex4] with [n] digits left. *)
Fixpoint hex4_loop (n : nat) (content : list Z) (input h : Z) : M Z :=
  match n with
  | O => ret h
  | S n =>
      let! c := char_at content input in
      match hex_digit c with
      | Some d =>
          let h := wrap 32 (h + d) in
          hex4_loop n content (input + 1) (match n with O => h | S _ => wrap 32 (Z.shiftl h 4) end)
      | None => ret 0
      end
  end.

Definition parse_hex4 (content : list Z) (input : Z) : M Z := hex4_loop 4 content input 0.

(** The string that is written: the size of the allocation and the bytes before
    the output pointer. *)
Record out_buffer := mk_out { ob_size : Z; ob_data : list Z }.

Definition put_bytes (o : out_buffer) (l : list Z) : M out_buffer :=
  if zlen (ob_data o) + zlen l <=? ob_size o then ret (mk_out (ob_size o) (ob_data o ++ l)) else ub.

(** The code point of one or two sequences and their length, 0 on failure. *)
Definition utf16_codepoint (content : list Z) (first_sequence input_end : Z) : M (Z * Z) :=
  if input_end - first_sequence <? 6 then ret (0, 0) else
  let! first_code := parse_hex4 content (first_sequence + 2) in
  if (0xDC00 <=? first_code) && (first_code <=? 0xDFFF) then ret (0, 0) else
  if (0xD800 <=? first_code) && (first_code <=? 0xDBFF) then
    let second_sequence := first_sequence + 6 in
    if input_end - second_sequence <? 6 then ret (0, 0) else
    let! c0 := char_at content second_sequence in
    let! c1 := (if c0 =? c_backslash then char_at content (second_sequence + 1) else ret 0) in
    if negb (c0 =? c_backslash) || negb (c1 =? c_u) then ret (0, 0) else
    let! second_code := parse_hex4 content (second_sequence + 2) in
    if (second_code <? 0xDC00) || (0xDFFF <? second_code) then ret (0, 0) else
    ret (0x10000 + Z.lor (Z.shiftl (Z.land first_code 0x3FF) 10) (Z.land second_code 0x3FF), 12)
  else ret (first_code, 6).

(** The continuation bytes, last first. *)
Fixpoint utf8_tail (n : nat) (codepoint : Z) (acc : list Z) : Z * list Z :=
  match n with
  | O => (codepoint, acc)
  | S n => utf8_tail n (Z.shiftr codepoint 6) (Z.land (Z.lor codepoint 0x80) 0xBF :: acc)
  end.

(** The bytes of a code point with the length and the mark of its first byte. *)
Definition utf8_bytes (utf8_length : nat) (first_byte_mark codepoint : Z) : list Z :=
  let '(c, l) := utf8_tail (utf8_length - 1) codepoint [] in
  (if (1 <? utf8_length)%nat then Z.land (Z.lor c first_byte_mark) 0xFF else Z.land c 0x7F) :: l.

Definition utf16_literal_to_utf8 (content : list Z) (input_pointer input_end : Z) (output : out_buffer) :
    M (Z * out_buffer) :=
  let! (codepoint, sequence_length) := utf16_codepoint content input_pointer input_end in
  if sequence_length =? 0 then ret (0, output) else
  if codepoint <? 0x80 then
    let! output := put_bytes output (utf8_bytes 1 0 codepoint) in ret (sequence_length, output)
  else if codepoint <? 0x800 then
    let! output := put_bytes output (utf8_bytes 2 0xC0 codepoint) in ret (sequence_length, output)
  else if codepoint <? 0x10000 then
    let! output := put_bytes output (utf8_bytes 3 0xE0 codepoint) in ret (sequence_length, output)
  else if codepoint <=? 0x10FFFF then
    let! output := put_bytes output (utf8_bytes 4 0xF0 codepoint) in ret (sequence_length, output)
  else ret (0, output).

(** The end of the literal from [input_end] and the number of escapes before it;
    [None] when the text ends in a backslash. *)
Fixpoint string_end (fuel : nat) (b : parse_buffer) (input_end skipped_bytes : Z) : M (option (Z * Z)) :=
  match fuel with
  | O => no_fuel
  | S fuel =>
      if input_end <? pb_length b then
        let! c := char_at (pb_content b) input_end in
        if c =? c_quote then ret (Some (input_end, skipped_bytes))
        else if c =? c_backslash then
          if pb_length b <=? input_end + 1 then ret None
          else string_end fuel b (input_end + 2) (skipped_bytes + 1)
        else string_end fuel b (input_end + 1) skipped_bytes
      else ret (Some (input_end, skipped_bytes))
  end.

(** The escapes of one character. *)
Definition simple_escape (c : Z) : option Z :=
  if c =? 98 then Some 8
  else if c =? 102 then Some 12
  else if c =? 110 then Some 10
  else if c =? 114 then Some 13
  else if c =? 116 then Some 9
  else if (c =? c_quote) || (c =? c_backslash) || (c =? 47) then Some c
  else None.

(** The second pass: the output, or [None] on failure, and the input pointer. *)
Fixpoint unescape (fuel : nat) (content : list Z) (input_pointer input_end : Z) (output : out_buffer) :
    M (option out_buffer * Z) :=
  match fuel with
  | O => no_fuel
  | S fuel =>
      if input_pointer <? input_end then
        let! c := char_at content input_pointer in
        if negb (c =? c_backslash) then
          let! output := put_bytes output [c] in unescape fuel content (input_pointer + 1) input_end output
        else if input_end - input_pointer <? 1 then ret (None, input_pointer) else
        let! c := char_at content (input_pointer + 1) in
        match simple_escape c with
        | Some x =>
            let! output := put_bytes output [x] in unescape fuel content (input_pointer + 2) input_end output
        | None =>
            if c =? c_u then
              let! (sequence_length, output) := utf16_literal_to_utf8 content input_pointer input_end output in
              if sequence_length =? 0 then ret (None, input_pointer)
              else unescape fuel content (input_pointer + sequence_length) input_end output
            else ret (None, input_pointer)
        end
      else ret (Some output, input_pointer)
  end.

Definition parse_string (item : cJSON) (b : parse_buffer) : M (option cJSON * parse_buffer) :=
  let input_pointer := pb_offset b + 1 in
  let fail ip : M (option cJSON * parse_buffer) := ret (None, set_offset ip b) in
  let! c := buffer_at_offset b 0 in
  if negb (c =? c_quote) then fail input_pointer else
  let! r := string_end (text_fuel b) b input_pointer 0 in
  match r with
  | None => fail input_pointer
  | Some (input_end, skipped_bytes) =>
      let! closed := (if pb_length b <=? input_end then ret false
                      else let! c := char_at (pb_content b) input_end in ret (c =? c_quote)) in
      if negb closed then fail input_pointer else
      let allocation_length := input_end - pb_offset b - skipped_bytes in
      let! ok := malloc_ok in
      if negb ok then fail input_pointer else
      let! (r, ip) := unescape (text_fuel b) (pb_content b) input_pointer input_end
                        (mk_out (allocation_length + 1) []) in
      match r with
      | None => fail ip
      | Some output =>
          put_bytes output [0] ;;;
          ret (Some (set_type cJSON_String (set_valuestring (Some (ob_data output)) item)),
               set_offset (input_end + 1) b)
      end
  end.

(** * Values *)

(** [parse_value], for the items of an array or object. *)
Definition parser : Type := cJSON -> parse_buffer -> M (option cJSON * parse_buffer).

Section Parse.
Context (parse_value : parser).

(** The loop over the elements, from the character before the first; [l] are the
    items of the list so far. *)
Fixpoint array_loop (fuel : nat) (b : parse_buffer) (l : list cJSON) : M (option (list cJSON) * parse_buffer) :=
  match fuel with
  | O => no_fuel
  | S fuel =>
      let! new_item := cJSON_New_Item in
      match new_item with
      | None => ret (None, b)
      | Some new_item =>
          let! b := buffer_skip_whitespace (advance 1 b) in
          let! (r, b) := parse_value new_item b in
          match r with
          | None => ret (None, b)
          | Some item =>
              let! b := buffer_skip_whitespace b in
              let! more := at_char b c_comma in
              if more : bool then array_loop fuel b (l ++ [item]) else ret (Some (l ++ [item]), b)
          end
      end
  end.

Definition parse_array : parser := fun item b =>
  if CJSON_NESTING_LIMIT <=? pb_depth b then ret (None, b) else
  let b := set_depth (pb_depth b + 1) b in
  let success (head : list cJSON) (b : parse_buffer) : M (option cJSON * parse_buffer) :=
    ret (Some (set_type cJSON_Array (set_child head item)), advance 1 (set_depth (pb_depth b - 1) b)) in
  let! c := buffer_at_offset b 0 in
  if negb (c =? c_open_bracket) then ret (None, b) else
  let! b := buffer_skip_whitespace (advance 1 b) in
  let! empty := at_char b c_close_bracket in
  if empty : bool then success [] b else
  if negb (can_access_at_index b 0) then ret (None, advance (-1) b) else
  let b := advance (-1) b in
  let! (r, b) := array_loop (text_fuel b) b [] in
  match r with
  | None => ret (None, b)
  | Some head =>
      let! closed := at_char b c_close_bracket in
      if negb closed then ret (None, b) else success head b
  end.

Fixpoint object_loop (fuel : nat) (b : parse_buffer) (l : list cJSON) : M (option (list cJSON) * parse_buffer) :=
  match fuel with
  | O => no_fuel
  | S fuel =>
      let! new_item := cJSON_New_Item in
      match new_item with
      | None => ret (None, b)
      | Some new_item =>
          let! b := buffer_skip_whitespace (advance 1 b) in
          let! (r, b) := parse_string new_item b in
          match r with
          | None => ret (None, b)
          | Some item =>
              let! b := buffer_skip_whitespace b in
              let item := set_valuestring None (set_string (cj_valuestring item) item) in
              let! colon := at_char b c_colon in
              if negb colon then ret (None, b) else
              let! b := buffer_skip_whitespace (advance 1 b) in
              let! (r, b) := parse_value item b in
              match r with
              | None => ret (None, b)
              | Some item =>
                  let! b := buffer_skip_whitespace b in
                  let! more := at_char b c_comma in
                  if more : bool then object_loop fuel b (l ++ [item]) else ret (Some (l ++ [item]), b)
              end
          end
      end
  end.

Definition parse_object : parser := fun item b =>
  if CJSON_NESTING_LIMIT <=? pb_depth b then ret (None, b) else
  let b := set_depth (pb_depth b + 1) b in
  let success (head : list cJSON) (b : parse_buffer) : M (option cJSON * parse_buffer) :=
    ret (Some (set_type cJSON_Object (set_child head item)), advance 1 (set_depth (pb_depth b - 1) b)) in
  let! opened := at_char b c_open_brace in
  if negb opened then ret (None, b) else
  let! b := buffer_skip_whitespace (advance 1 b) in
  let! empty := at_char b c_close_brace in
  if empty : bool then success [] b else
  if negb (can_access_at_index b 0) then ret (None, advance (-1) b) else
  let b := advance (-1) b in
  let! (r, b) := object_loop (text_fuel b) b [] in
  match r with
  | None => ret (None, b)
  | Some head =>
      let! closed := at_char b c_close_brace in
      if negb closed then ret (None, b) else success head b
  end.

(** The literals [null], [false] and [true]. *)
Definition at_text (b : parse_buffer) (s : list Z) : M bool :=
  if can_read b (zlen s) then strncmp_eq (pb_content b) (pb_offset b) s else ret false.

Definition value_body : parser := fun item b =>
  let! null := at_text b (text "null") in
  if null : bool then ret (Some (set_type cJSON_NULL item), advance 4 b) else
  let! false_ := at_text b (text "false") in
  if false_ : bool then ret (Some (set_type cJSON_False item), advance 5 b) else
  let! true_ := at_text b (text "true") in
  if true_ : bool then ret (Some (set_valueint 1 (set_type cJSON_True item)), advance 4 b) else
  if can_access_at_index b 0 then
    let! c := buffer_at_offset b 0 in
    if c =? c_quote then parse_string item b
    else if (c =? 45) || ((48 <=? c) && (c <=? 57)) then parse_number item b
    else if c =? c_open_bracket then parse_array item b
    else if c =? c_open_brace then parse_object item b
    else ret (None, b)
  else ret (None, b).
End Parse.

(** [n] bounds the nesting of the calls. *)
Fixpoint parse_value (n : nat) : parser :=
  match n with
  | O => fun _ _ => no_fuel
  | S n => value_body (parse_value n)
  end.

(** One more than the nesting that the depth counter admits. *)
Definition nesting_fuel : nat := Z.to_nat (CJSON_NESTING_LIMIT + 1).

(** The item, the position stored in [*return_parse_end] and [global_error] after
    the call, as the position in the text. *)
Record parse_result := mk_result {
  pr_item : option cJSON;
  pr_end : option Z;
  pr_error : option Z
}.

(** The positions after a failure. *)
Definition parse_failed (b : parse_buffer) : parse_result :=
  let position :=
    if pb_offset b <? pb_length b then pb_offset b
    else if 0 <? pb_length b then pb_length b - 1 else 0 in
  mk_result None (Some position) (Some position).

Definition cJSON_ParseWithOpts (value : option (list Z)) (require_null_terminated : bool) : M parse_result :=
  match value with
  | None => ret (mk_result None None None)
  | Some content =>
      let! n := strlen content in
      let buffer := mk_pb content (n + 1) 0 0 in
      let! item := cJSON_New_Item in
      match item with
      | None => ret (parse_failed buffer)
      | Some item =>
          let! b := skip_utf8_bom buffer in
          match b with
          | None => ret (parse_failed buffer)
          | Some b =>
              let! b := buffer_skip_whitespace b in
              let! (r, b) := parse_value nesting_fuel item b in
              match r with
              | None => ret (parse_failed b)
              | Some item =>
                  if require_null_terminated then
                    let! b := buffer_skip_whitespace b in
                    if pb_length b <=? pb_offset b then ret (parse_failed b) else
                    let! c := buffer_at_offset b 0 in
                    if negb (c =? 0) then ret (parse_failed b)
                    else ret (mk_result (Some item) (Some (pb_offset b)) None)
                  else ret (mk_result (Some item) (Some (pb_offset b)) None)
              end
          end
      end
  end.

Definition cJSON_Parse (value : option (list Z)) : M parse_result := cJSON_ParseWithOpts value false.
