(* ===== verification/CJsonParse.v ===== *)
(** Safety of the parser of cjson.c: on every text it returns, reads only the text,
    writes only inside of the strings it allocates, and what it returns is a
    well-formed item that is nested no deeper than the limit. *)
From S2P Require Import Prelude CMonad MnlAttr CDouble CText CDoubleProps CJson.

(** * Well-formed buffers and items *)

(** The text ends in a zero byte and the position is in it. *)
Record pb_ok (b : parse_buffer) : Prop := {
  po_length : pb_length b <= zlen (pb_content b);
  po_end : pb_content b !! Z.to_nat (pb_length b - 1) = Some 0;
  po_offset : 0 <= pb_offset b < pb_length b
}.

(** The same text and depth, further on. *)
Record pb_next (b b' : parse_buffer) : Prop := {
  pn_content : pb_content b' = pb_content b;
  pn_length : pb_length b' = pb_length b;
  pn_depth : pb_depth b' = pb_depth b;
  pn_offset : pb_offset b <= pb_offset b'
}.

(** A position in the text of [b], on success and failure alike. *)
Record pb_in (b b' : parse_buffer) : Prop := {
  pi_content : pb_content b' = pb_content b;
  pi_length : pb_length b' = pb_length b;
  pi_offset : 0 <= pb_offset b' <= pb_length b
}.

Definition value_type (t : Z) : Prop :=
  t = cJSON_NULL \/ t = cJSON_False \/ t = cJSON_True \/ t = cJSON_Number \/
  t = cJSON_String \/ t = cJSON_Array \/ t = cJSON_Object.

(** An item nested at most [n] deep. *)
Fixpoint wf_item (n : nat) (i : cJSON) : Prop :=
  match n with
  | O => False
  | S n =>
      value_type (cj_type i) /\
      (cj_type i = cJSON_String <-> is_Some (cj_valuestring i)) /\
      double_ok (cj_valuedouble i) /\ INT_MIN <= cj_valueint i <= INT_MAX /\
      (cj_type i = cJSON_Object -> Forall (fun c => is_Some (cj_string c)) (cj_child i)) /\
      match cj_child i with
      | [] => True
      | l => (cj_type i = cJSON_Array \/ cj_type i = cJSON_Object) /\ Forall (wf_item n) l
      end
  end.

(** An item whose value is still to be parsed. *)
Definition fresh (i : cJSON) : Prop := exists t s, i = mk_cJSON t None 0 (dzero false) s [].

(** * Reading *)

Lemma wp_char_at (E : Prop) content o Q w :
  0 <= o < zlen content -> (forall c, content !! Z.to_nat o = Some c -> Q c w) ->
  wp E (char_at content o) Q w.
Proof.
  intros Ho HQ. unfold char_at. rewrite (proj2 (Z.leb_le 0 o)) by lia.
  destruct (lookup_lt_is_Some_2 content (Z.to_nat o)) as [c Hc]; [unfold zlen in *; lia|].
  rewrite Hc. apply wp_ret. by apply HQ.
Qed.

(** The text [s] is at offset [o]. *)
Definition matches (content : list Z) (o : Z) (s : list Z) : Prop :=
  forall j c, s !! j = Some c -> content !! (Z.to_nat o + j)%nat = Some c.

Lemma wp_strncmp E content o s (Q : bool -> world -> Prop) w :
  0 <= o -> o + zlen s <= zlen content -> (matches content o s -> Q true w) -> Q false w ->
  wp E (strncmp_eq content o s) Q w.
Proof.
  revert o. induction s as [|c s IH]; intros o Ho Hl HT HF; cbn [strncmp_eq]; [by apply wp_ret, HT|].
  assert (zlen (c :: s) = 1 + zlen s) as Hz by zl. pose proof (zlen_nonneg s).
  apply wp_bind, wp_char_at; [lia|]. intros x Hx. destruct (Z.eqb_spec x c) as [->|]; [|by apply wp_ret].
  apply IH; [lia|lia| |done]. intros Hm. apply HT. intros [|j] c' Hj.
  - cbn in Hj. rewrite Nat.add_0_r. congruence.
  - replace (Z.to_nat o + S j)%nat with (Z.to_nat (o + 1) + j)%nat by lia. by apply Hm.
Qed.

Section Buffer.
Context (E : Prop).

Lemma wp_at b Q w :
  pb_ok b -> (forall c, pb_content b !! Z.to_nat (pb_offset b) = Some c -> Q c w) ->
  wp E (buffer_at_offset b 0) Q w.
Proof.
  intros [Hl _ Ho] HQ. unfold buffer_at_offset. rewrite Z.add_0_r. apply wp_char_at; [lia|done].
Qed.

Lemma wp_at_char b c Q w :
  pb_ok b -> (pb_content b !! Z.to_nat (pb_offset b) = Some c -> Q true w) -> Q false w ->
  wp E (at_char b c) Q w.
Proof.
  intros Hb Ht Hf. unfold at_char. case_match; [|by apply wp_ret]. apply wp_bind, wp_at; [done|].
  intros x Hx. apply wp_ret. destruct (Z.eqb_spec x c) as [->|]; auto.
Qed.

(** A character other than the terminator is followed by another one. *)
Lemma advance_ok b c n :
  pb_ok b -> pb_content b !! Z.to_nat (pb_offset b) = Some c -> c <> 0 -> n = 1 -> pb_ok (advance n b).
Proof.
  intros [Hl He Ho] Hc Hc0 ->. split; [done|done|]. cbn. destruct (Z.eq_dec (pb_offset b) (pb_length b - 1)) as [E'|];
    [|lia]. rewrite E' in Hc. congruence.
Qed.

Lemma next_refl b : pb_next b b.
Proof. by split. Qed.

Lemma next_trans b1 b2 b3 : pb_next b1 b2 -> pb_next b2 b3 -> pb_next b1 b3.
Proof. intros [] []. split; [congruence..|lia]. Qed.

Lemma next_advance b n : 0 <= n -> pb_next b (advance n b).
Proof. intros. split; try done. cbn. lia. Qed.

Lemma next_in b b' : pb_next b b' -> pb_ok b' -> pb_in b b'.
Proof. intros [Hc Hl _ _] [_ _ Ho]. split; [done..|]. rewrite <- Hl. lia. Qed.

Lemma in_trans b1 b2 b3 : pb_in b1 b2 -> pb_in b2 b3 -> pb_in b1 b3.
Proof. intros [] []. split; [congruence..|lia]. Qed.

Lemma wp_skip_loop fuel b Q w :
  pb_length b <= zlen (pb_content b) -> 0 <= pb_offset b <= pb_length b ->
  (Z.to_nat (pb_length b - pb_offset b) < fuel)%nat ->
  (forall b', pb_next b b' -> pb_offset b' <= pb_length b -> Q b' w) -> wp E (skip_loop fuel b) Q w.
Proof.
  revert b. induction fuel as [|fuel IH]; intros b Hl Ho Hf HQ; [lia|]. cbn [skip_loop].
  unfold can_access_at_index. rewrite Z.add_0_r. destruct (Z.ltb_spec (pb_offset b) (pb_length b)).
  - apply wp_bind. unfold buffer_at_offset. rewrite Z.add_0_r. apply wp_char_at; [lia|]. intros c _.
    destruct (c <=? 32).
    + apply IH; cbn; [lia..|]. intros b' Hb' Hle. apply HQ; [|done].
      eapply next_trans; [|exact Hb']. by apply next_advance.
    + apply wp_ret, HQ; [apply next_refl|lia].
  - apply wp_ret, HQ; [apply next_refl|lia].
Qed.

Lemma wp_skip b Q w :
  pb_ok b -> (forall b', pb_ok b' -> pb_next b b' -> Q b' w) -> wp E (buffer_skip_whitespace b) Q w.
Proof.
  intros [Hl He Ho] HQ. unfold buffer_skip_whitespace. apply wp_bind, wp_skip_loop; [done|lia|unfold text_fuel; lia|].
  intros b' [Hc Hl' Hd Hn] Hle. apply wp_ret. destruct (Z.eqb_spec (pb_offset b') (pb_length b')).
  - apply HQ; [|split; cbn; [done..|lia]]. split; cbn; rewrite ?Hc, ?Hl'; [done..|lia].
  - apply HQ; [|by split]. split; rewrite ?Hc, ?Hl'; [done..|lia].
Qed.

(** Skipping after a character of the text. *)
Lemma wp_skip_after b c Q w :
  pb_ok b -> pb_content b !! Z.to_nat (pb_offset b) = Some c -> c <> 0 ->
  (forall b', pb_ok b' -> pb_next b b' -> pb_offset b < pb_offset b' -> Q b' w) ->
  wp E (buffer_skip_whitespace (advance 1 b)) Q w.
Proof.
  intros Hb Hc Hc0 HQ. apply wp_skip; [by eapply advance_ok|]. intros b' Hb' Hn. apply HQ; [done| |].
  - eapply next_trans; [|exact Hn]. by apply next_advance.
  - destruct Hn as [_ _ _ Hn]. cbn in Hn. lia.
Qed.
End Buffer.

(** * Numbers *)

Lemma dtrunc_range d :
  is_finite d = true -> double_ok d -> dge d INT_MAX = false -> dle d INT_MIN = false ->
  INT_MIN <= dtrunc d <= INT_MAX.
Proof.
  destruct d as [| |s m e]; [done..|]. intros _ [Hm _]. cbn [dge dle dtrunc].
  pose proof (p2_pos (- e)) as Hp. pose proof (p2_pos e). set (a := p2 e) in *. set (b := p2 (- e)) in *.
  intros H1%Z.leb_gt H2%Z.leb_gt. pose proof (Z.mul_div_le (m * a) b Hp). pose proof (Z.mul_succ_div_gt (m * a) b Hp).
  assert (0 <= m * a / b) by (apply Z.div_pos; nia). unfold INT_MAX, INT_MIN, signed in *.
  set (q := m * a / b) in *. destruct s; nia.
Qed.

Lemma wp_to_valueint E d (Q : Z -> world -> Prop) w :
  double_ok d -> d <> DNan -> (forall n, INT_MIN <= n <= INT_MAX -> Q n w) -> wp E (to_valueint d) Q w.
Proof.
  intros Hok Hnan HQ. unfold to_valueint.
  destruct (dge d INT_MAX) eqn:H1; [apply wp_ret, HQ; done|].
  destruct (dle d INT_MIN) eqn:H2; [apply wp_ret, HQ; done|].
  destruct d as [|[]|s m e]; [done..|]. apply wp_ret, HQ. by apply dtrunc_range.
Qed.

Lemma make_double_not_nan s n d : make_double s n d <> DNan.
Proof. unfold make_double. repeat case_match; done. Qed.

Lemma strtod_not_nan l : fst (strtod l) <> DNan.
Proof.
  unfold strtod, decimal. repeat case_match; try done; apply make_double_not_nan.
Qed.

Lemma span_digits_length l : zlen (snd (span_digits l)) <= zlen l.
Proof.
  induction l as [|c l IH]; cbn; [done|]. destruct (isdigit c); [|done]. destruct (span_digits l). cbn in *. zl.
Qed.

Lemma take_sign_length l : zlen (snd (take_sign l)) <= zlen l.
Proof. unfold take_sign. destruct l as [|c l]; [done|]. repeat case_match; cbn [snd]; zl. Qed.

Lemma take_fraction_length l : zlen (snd (take_fraction l)) <= zlen l.
Proof.
  unfold take_fraction. destruct l as [|c l]; [done|]. destruct (c =? 46); [|done].
  pose proof (span_digits_length l). zl.
Qed.

Lemma take_exponent_length l : zlen (snd (take_exponent l)) <= zlen l.
Proof.
  unfold take_exponent. destruct l as [|c l]; [done|]. destruct (_ || _); [|done].
  pose proof (take_sign_length l). destruct (take_sign l) as [s k]. cbn [snd] in *.
  pose proof (span_digits_length k). destruct (span_digits k) as [[|d ds] r]; cbn [snd] in *; zl.
Qed.

Lemma strtod_consumed l : 0 <= snd (strtod l) <= zlen l.
Proof.
  unfold strtod. pose proof (take_sign_length l). destruct (take_sign l) as [s l1].
  pose proof (span_digits_length l1). destruct (span_digits l1) as [int l2].
  pose proof (take_fraction_length l2). destruct (take_fraction l2) as [frac l3].
  destruct (int ++ frac); [cbn; pose proof (zlen_nonneg l); lia|].
  pose proof (take_exponent_length l3). destruct (take_exponent l3) as [x l4]. cbn [snd] in *.
  pose proof (zlen_nonneg l4). lia.
Qed.

Lemma wp_number_chars E n b i (Q : list Z -> world -> Prop) w :
  pb_ok b -> 0 <= i -> pb_offset b + i < pb_length b ->
  (forall l, pb_offset b + i + zlen l < pb_length b -> Q l w) -> wp E (number_chars n b i) Q w.
Proof.
  intros [Hl He Ho]. revert i Q. induction n as [|n IH]; intros i Q Hi Hlt HQ; cbn [number_chars].
  { apply wp_ret, HQ. zl. }
  assert (Q [] w) as HQ0 by (apply HQ; zl).
  unfold can_access_at_index. case_match; [|by apply wp_ret].
  apply wp_bind. unfold buffer_at_offset. apply wp_char_at; [lia|]. intros c Hc.
  destruct (num_char c) eqn:Hn; [|by apply wp_ret]. apply wp_bind.
  assert (pb_offset b + i <> pb_length b - 1) by (intros E'; rewrite E' in Hc; simplify_eq; done).
  apply IH; [lia|lia|]. intros l Hl'. apply wp_ret, HQ. zl.
Qed.

(** What a parse function leaves: on success a well-formed item and the buffer
    further on, on failure a position in the text. *)
Definition parsed (b : parse_buffer) (P : cJSON -> Prop) (r : option cJSON * parse_buffer) (_ : world) : Prop :=
  match r with
  | (Some i, b') => P i /\ pb_ok b' /\ pb_next b b' /\ pb_offset b < pb_offset b'
  | (None, b') => pb_in b b'
  end.

Lemma parsed_fail b P w : pb_ok b -> parsed b P (None, b) w.
Proof. intros [_ _ Ho]. split; [done..|lia]. Qed.

Lemma parsed_mono b (P P' : cJSON -> Prop) r w : (forall i, P i -> P' i) -> parsed b P r w -> parsed b P' r w.
Proof. destruct r as [[i|] b']; cbn; [|done]. intros HP (? & ? & ? & ?). auto. Qed.

(** Items without children. *)
Lemma wf_leaf n t v k d s :
  value_type t -> (t = cJSON_String <-> is_Some v) -> double_ok d -> INT_MIN <= k <= INT_MAX ->
  wf_item (S n) (mk_cJSON t v k d s []).
Proof. intros Ht Hs Hd [? ?]. cbn. by split_and!. Qed.

Lemma wf_number n i d v :
  fresh i -> double_ok d -> INT_MIN <= v <= INT_MAX -> wf_item (S n) (set_type cJSON_Number (set_number v d i)).
Proof.
  intros (t & s & ->) ? ?. apply wf_leaf; [unfold value_type; tauto| |done..]. split; [done|by intros [? ?]].
Qed.

Lemma parse_number_safe n i b w :
  fresh i -> pb_ok b ->
  wp False (parse_number i b) (parsed b (fun i' => wf_item (S n) i' /\ cj_string i' = cj_string i)) w.
Proof.
  intros Hi Hb. unfold parse_number. apply wp_bind, wp_number_chars; [done|lia|destruct Hb; lia|].
  intros l Hl. pose proof (strtod_consumed l) as Hc. pose proof (strtod_ok l) as Hok.
  pose proof (strtod_not_nan l). destruct (strtod l) as [d k]. cbn [fst snd] in *.
  destruct (Z.eqb_spec k 0); [by apply wp_ret, parsed_fail|].
  apply wp_bind, wp_to_valueint; [done..|]. intros v Hv. apply wp_ret. cbn [parsed].
  split_and!; [by apply wf_number|by destruct Hi as (? & ? & ->)| |apply next_advance; lia|cbn; lia].
  destruct Hb as [? ? ?]. split; cbn; [done..|lia].
Qed.

(** * Strings *)

(** The bytes that the first pass of [parse_string] takes for the start of an
    escape, when it is at a character that is escaped or not. *)
Fixpoint skips (esc : bool) (l : list Z) : Z :=
  match l with
  | [] => 0
  | c :: r => if esc then skips false r else if c =? 92 then 1 + skips true r else skips false r
  end.

Fixpoint esc_run (esc : bool) (l : list Z) : bool :=
  match l with
  | [] => esc
  | c :: r => esc_run (if esc then false else c =? 92) r
  end.

Lemma skips_app esc x r : skips esc (x ++ r) = skips esc x + skips (esc_run esc x) r.
Proof.
  revert esc. induction x as [|c x IH]; intros esc; [done|]. cbn [app skips esc_run].
  destruct esc; [by rewrite IH|]. destruct (c =? 92); rewrite IH; lia.
Qed.

Lemma esc_run_app esc x r : esc_run esc (x ++ r) = esc_run (esc_run esc x) r.
Proof. revert esc. induction x as [|c x IH]; intros esc; [done|]. cbn. by rewrite IH. Qed.

Lemma skips_half esc l : 0 <= 2 * skips esc l <= zlen l + (if esc then 0 else 1).
Proof.
  revert esc. induction l as [|c l IH]; intros esc; [by destruct esc|]. cbn [skips].
  assert (zlen (c :: l) = 1 + zlen l) as -> by zl. pose proof (IH true). pose proof (IH false).
  destruct esc; [lia|]. destruct (c =? 92); lia.
Qed.

Lemma slice_cons o n (m : list Z) c :
  0 <= o -> 0 < n -> m !! Z.to_nat o = Some c -> slice o n m = c :: slice (o + 1) (n - 1) m.
Proof.
  intros Ho Hn Hc. unfold slice. apply drop_S in Hc. rewrite Hc.
  replace (Z.to_nat n) with (S (Z.to_nat (n - 1))) by lia.
  replace (Z.to_nat (o + 1)) with (S (Z.to_nat o)) by lia. done.
Qed.

(** The first pass finds the quote that ends the literal. *)
Lemma wp_string_end fuel b e k (Q : option (Z * Z) -> world -> Prop) w :
  pb_length b <= zlen (pb_content b) -> 0 <= e <= pb_length b ->
  (Z.to_nat (pb_length b - e) < fuel)%nat -> Q None w ->
  (forall e', e <= e' -> e' <= pb_length b ->
     let inner := slice e (e' - e) (pb_content b) in
     (e' < pb_length b -> pb_content b !! Z.to_nat e' = Some 34 /\ esc_run false inner = false) ->
     Q (Some (e', k + skips false inner)) w) ->
  wp False (string_end fuel b e k) Q w.
Proof.
  intros Hl. revert e k Q. induction fuel as [|fuel IH]; intros e k Q He Hf Hnone HQ; [lia|]. cbn [string_end].
  assert (slice e (e - e) (pb_content b) = []) as Hnil by (unfold slice; by rewrite Z.sub_diag).
  destruct (Z.ltb_spec e (pb_length b)).
  2: { apply wp_ret. specialize (HQ e). cbn zeta in HQ. rewrite Hnil, Z.add_0_r in HQ. apply HQ; lia. }
  apply wp_bind, wp_char_at; [lia|]. intros c Hc. destruct (Z.eqb_spec c 34) as [->|Hq].
  { apply wp_ret. specialize (HQ e). cbn zeta in HQ. rewrite Hnil, Z.add_0_r in HQ. by apply HQ; [lia..|]. }
  assert (forall e', e + 1 <= e' -> slice e (e' - e) (pb_content b) = c :: slice (e + 1) (e' - (e + 1)) (pb_content b)) as Hs.
  { intros e' ?. rewrite (slice_cons _ _ _ c) by (done || lia). do 2 f_equal. lia. }
  destruct (Z.eqb_spec c 92) as [->|Hb].
  - destruct (Z.leb_spec (pb_length b) (e + 1)); [by apply wp_ret|].
    destruct (lookup_lt_is_Some_2 (pb_content b) (Z.to_nat (e + 1))) as [c1 Hc1]; [unfold zlen in *; lia|].
    apply IH; [lia|lia|done|]. intros e' ? ? inner Hend. cbn zeta in HQ.
    specialize (HQ e' ltac:(lia) ltac:(lia)). rewrite Hs in HQ by lia.
    rewrite (slice_cons (e + 1) _ _ c1) in HQ by (done || lia).
    replace (e + 1 + 1) with (e + 2) in HQ by lia. replace (e' - (e + 1) - 1) with (e' - (e + 2)) in HQ by lia.
    fold inner in HQ. cbn [skips esc_run] in HQ. change (92 =? 92) with true in HQ. cbn iota in HQ.
    rewrite <- Z.add_assoc. by apply HQ.
  - apply IH; [lia|lia|done|]. intros e' ? ? inner Hend. cbn zeta in HQ.
    specialize (HQ e' ltac:(lia) ltac:(lia)). rewrite Hs in HQ by lia. fold inner in HQ.
    cbn [skips esc_run] in HQ. rewrite (proj2 (Z.eqb_neq c 92)) in HQ by done. by apply HQ.
Qed.

Lemma hex_digit_range c d : hex_digit c = Some d -> 0 <= d < 16.
Proof.
  unfold hex_digit. intros H. repeat case_match; simplify_eq;
    match goal with H : _ && _ = true |- _ => apply andb_true_iff in H as [?%Z.leb_le ?%Z.leb_le] end; lia.
Qed.

Lemma wp_hex4_loop E n content o h (Q : Z -> world -> Prop) w :
  0 <= o -> o + Z.of_nat n <= zlen content -> (n <= 4)%nat ->
  0 <= h -> (if (n =? 0)%nat then h < 65536 else h <= 16 ^ (5 - Z.of_nat n) - 16) ->
  (forall h, 0 <= h < 65536 -> Q h w) -> wp E (hex4_loop n content o h) Q w.
Proof.
  revert o h. induction n as [|n IH]; intros o h Ho Hl Hn Hh Hb HQ; cbn [hex4_loop]; [by apply wp_ret, HQ|].
  apply wp_bind, wp_char_at; [lia|]. intros c _.
  destruct (hex_digit c) as [d|] eqn:Hd; [|by apply wp_ret, HQ]. apply hex_digit_range in Hd. cbn zeta.
  cbn [Nat.eqb] in Hb. replace (5 - Z.of_nat (S n)) with (4 - Z.of_nat n) in Hb by lia.
  assert (16 ^ (4 - Z.of_nat n) <= 16 ^ 4) by (apply Z.pow_le_mono_r; lia).
  rewrite (wrap_small 32 (h + d)) by lia. apply IH; [lia|lia|lia|..]; destruct n as [|n]; cbn [Nat.eqb] in *; try done.
  - lia.
  - apply wrap_range. lia.
  - change (16 ^ (4 - Z.of_nat 0)) with (16 ^ 4) in Hb. lia.
  - rewrite Z.shiftl_mul_pow2 by lia. replace (5 - Z.of_nat (S n)) with (1 + (4 - Z.of_nat (S n))) by lia.
    rewrite Z.pow_add_r by lia. rewrite wrap_small; lia.
Qed.

Lemma wp_parse_hex4 content o (Q : Z -> world -> Prop) w :
  0 <= o -> o + 4 <= zlen content -> (forall h, 0 <= h < 65536 -> Q h w) -> wp False (parse_hex4 content o) Q w.
Proof. intros. by apply wp_hex4_loop. Qed.

(** The sequences of a literal lie before its end. *)
Lemma wp_codepoint content ip ie (Q : Z * Z -> world -> Prop) w :
  0 <= ip < ie -> ie <= zlen content ->
  (forall c n, n = 0 \/ (n = 6 /\ c < 0x10000 \/ n = 12) /\ ip + n <= ie -> Q (c, n) w) ->
  wp False (utf16_codepoint content ip ie) Q w.
Proof.
  intros Hip Hie HQ. unfold utf16_codepoint. assert (Q (0, 0) w) as H0 by (apply HQ; by left).
  destruct (Z.ltb_spec (ie - ip) 6); [done|].
  apply wp_bind, wp_parse_hex4; [lia|lia|]. intros h Hh. destruct (_ && _); [done|].
  destruct (_ && _); [|apply wp_ret, HQ; right; lia]. cbn zeta.
  destruct (Z.ltb_spec (ie - (ip + 6)) 6); [done|].
  apply wp_bind, wp_char_at; [lia|]. intros c0 _. apply wp_bind.
  assert (forall Q' : Z -> world -> Prop, (forall c, Q' c w) ->
    wp False (if c0 =? 92 then char_at content (ip + 6 + 1) else ret 0) Q' w) as Hc1.
  { intros Q' HQ'. destruct (c0 =? 92); [|by apply wp_ret]. apply wp_char_at; [lia|]. auto. }
  apply Hc1. intros c1. destruct (_ || _); [done|].
  apply wp_bind, wp_parse_hex4; [lia|lia|]. intros h2 _. destruct (_ || _); [done|]. apply wp_ret, HQ. right. lia.
Qed.

Lemma utf8_tail_length n c acc : zlen (snd (utf8_tail n c acc)) = Z.of_nat n + zlen acc.
Proof. revert c acc. induction n as [|n IH]; intros c acc; cbn [utf8_tail]; [done|]. rewrite IH. zl. Qed.

Lemma utf8_bytes_length n mark c : (0 < n)%nat -> zlen (utf8_bytes n mark c) = Z.of_nat n.
Proof.
  intros Hn. unfold utf8_bytes. pose proof (utf8_tail_length (n - 1) c []) as Hl.
  destruct (utf8_tail (n - 1) c []) as [c' l]. cbn [snd] in Hl. zl.
Qed.

Lemma wp_put E o l (Q : out_buffer -> world -> Prop) w :
  zlen (ob_data o) + zlen l <= ob_size o -> Q (mk_out (ob_size o) (ob_data o ++ l)) w -> wp E (put_bytes o l) Q w.
Proof. intros H HQ. unfold put_bytes. rewrite (proj2 (Z.leb_le _ _)) by done. by apply wp_ret. Qed.

(** A literal writes at most three bytes for a sequence, four for two. *)
Lemma wp_utf16 content ip ie out (Q : Z * out_buffer -> world -> Prop) w :
  0 <= ip < ie -> ie <= zlen content ->
  (ip + 6 <= ie -> zlen (ob_data out) + 3 <= ob_size out) ->
  (ip + 12 <= ie -> zlen (ob_data out) + 4 <= ob_size out) ->
  (forall out', Q (0, out') w) ->
  (forall n l, ip + n <= ie -> (n = 6 /\ zlen l <= 3 \/ n = 12 /\ zlen l <= 4) ->
     Q (n, mk_out (ob_size out) (ob_data out ++ l)) w) ->
  wp False (utf16_literal_to_utf8 content ip ie out) Q w.
Proof.
  intros Hip Hie H6 H12 H0 HQ. unfold utf16_literal_to_utf8. apply wp_bind, wp_codepoint; [done..|].
  intros c n Hn. destruct (Z.eqb_spec n 0); [apply wp_ret, H0|].
  assert (forall k mark, (0 < k)%nat -> (n = 6 /\ Z.of_nat k <= 3 \/ n = 12 /\ Z.of_nat k <= 4) ->
    wp False (let! output := put_bytes out (utf8_bytes k mark c) in ret (n, output)) Q w) as Hput.
  { intros k mark Hk Hk'. pose proof (utf8_bytes_length k mark c Hk) as Hlen.
    apply wp_bind, wp_put; [rewrite Hlen; lia|]. apply wp_ret, HQ; [lia|]. rewrite Hlen. lia. }
  destruct (Z.ltb_spec c 0x80); [apply Hput; lia|]. destruct (Z.ltb_spec c 0x800); [apply Hput; lia|].
  destruct (Z.ltb_spec c 0x10000); [apply Hput; lia|]. destruct (Z.leb_spec c 0x10FFFF); [|apply wp_ret, H0].
  apply Hput; lia.
Qed.

(** The room that is left after a step that takes [n] characters. *)
Lemma consume content ip ie n esc :
  0 <= ip -> 0 <= n -> ip + n <= ie -> ie <= zlen content ->
  let l := slice ip (ie - ip) content in
  let x := slice ip n content in
  let l' := slice (ip + n) (ie - (ip + n)) content in
  esc_run (esc_run esc x) l' = esc_run esc l /\
  zlen l' - skips (esc_run esc x) l' = zlen l - skips esc l - (n - skips esc x) /\
  n - skips esc x <= zlen l - skips esc l.
Proof.
  intros ? ? ? ?. cbn zeta. rewrite (slice_split ip (ie - ip) n) by lia.
  replace (ie - ip - n) with (ie - (ip + n)) by lia.
  rewrite esc_run_app, skips_app. split; [done|]. rewrite zlen_app, !zlen_slice by lia. split; [lia|].
  set (e := esc_run _ _). set (r := slice (ip + n) _ _).
  pose proof (skips_half e r) as Hh. assert (zlen r = ie - (ip + n)) as Hr by (apply zlen_slice; lia).
  rewrite Hr in Hh. case_match; lia.
Qed.

(** The second pass stays in the allocation: every step writes no more bytes than
    it takes without the escapes that the first pass counted. *)
Lemma wp_unescape fuel content ip ie out esc (Q : option out_buffer * Z -> world -> Prop) w :
  let l := slice ip (ie - ip) content in
  0 <= ip -> ip <= ie + 1 -> ie < zlen content -> (Z.to_nat (ie + 1 - ip) < fuel)%nat ->
  esc_run esc l = false -> zlen (ob_data out) + (zlen l - skips esc l) < ob_size out ->
  (forall ip', 0 <= ip' <= ie -> Q (None, ip') w) ->
  (forall data ip', zlen data < ob_size out -> Q (Some (mk_out (ob_size out) data), ip') w) ->
  wp False (unescape fuel content ip ie out) Q w.
Proof.
  cbn zeta. revert ip out esc.
  induction fuel as [|fuel IH]; intros ip out esc Hip Hle Hie Hf Hesc Hcap Hnone HQ; [lia|].
  cbn [unescape]. destruct (Z.ltb_spec ip ie) as [Hlt|Hge].
  2: { apply wp_ret. destruct out as [size data]. apply HQ. cbn in *. rewrite slice_nil in Hcap by lia.
       change (zlen []) with 0 in Hcap. cbn in Hcap. lia. }
  set (l := slice ip (ie - ip) content) in *.
  assert (zlen l = ie - ip) as Hl by (unfold l; rewrite zlen_slice; lia).
  assert (forall n (bs : list Z), 0 < n -> ip + n <= ie -> zlen bs <= n - skips esc (slice ip n content) ->
            zlen (ob_data out) + zlen bs <= ob_size out /\
            wp False (unescape fuel content (ip + n) ie (mk_out (ob_size out) (ob_data out ++ bs))) Q w) as Hstep.
  { intros n bs Hn Hn' Hbs. destruct (consume content ip ie n esc) as (He & Hc & Hc'); [lia..|].
    fold l in He, Hc, Hc'. split; [lia|].
    apply (IH _ _ (esc_run esc (slice ip n content))); cbn [ob_size ob_data]; try done; try lia.
    - by rewrite He.
    - rewrite Hc, zlen_app. lia. }
  pose proof (skips_half esc l) as Hhalf.
  apply wp_bind, wp_char_at; [lia|]. intros c Hc. destruct (Z.eqb_spec c 92) as [->|Hc92]; cbn [negb].
  2: { assert (zlen [c] <= 1 - skips esc (slice ip 1 content)) as H1.
       { rewrite (slice_cons ip 1 content c), (slice_nil (ip + 1)) by (done || lia). cbn [skips].
         rewrite (proj2 (Z.eqb_neq c 92)) by done. by destruct esc. }
       destruct (Hstep 1 [c]); [lia..|]. by apply wp_bind, wp_put. }
  rewrite (proj2 (Z.ltb_ge (ie - ip) 1)) by lia. apply wp_bind, wp_char_at; [lia|]. intros c1 Hc1.
  destruct (simple_escape c1) as [x|].
  - destruct (Z.eq_dec (ip + 1) ie) as [Elast|Elast].
    + assert (l = [92]) as El.
      { unfold l. rewrite (slice_cons ip (ie - ip) content 92) by (done || lia).
        by rewrite (slice_nil (ip + 1)) by lia. }
      rewrite El in *. destruct esc; [|done]. cbn [skips] in Hcap. change (zlen [92]) with 1 in Hcap.
      apply wp_bind, wp_put; [change (zlen [x]) with 1; lia|].
      apply (IH _ _ false); cbn [ob_size ob_data]; rewrite ?slice_nil by lia; try done; try lia.
      rewrite zlen_app. change (zlen [x]) with 1. change (zlen []) with 0. cbn [skips]. lia.
    + assert (zlen [x] <= 2 - skips esc (slice ip 2 content)) as H1.
      { rewrite (slice_cons ip 2 content 92), (slice_cons (ip + 1) _ content c1), slice_nil by (done || lia).
        cbn [skips]. change (92 =? 92) with true. destruct esc; [|done]. by destruct (c1 =? 92). }
      destruct (Hstep 2 [x]); [lia..|]. by apply wp_bind, wp_put.
  - destruct (c1 =? 117); [|apply wp_ret, Hnone; lia].
    apply wp_bind, wp_utf16; [lia|lia|case_match; lia|case_match; lia|by intros; apply wp_ret, Hnone; lia|].
    intros n bs Hn Hbs. rewrite (proj2 (Z.eqb_neq n 0)) by lia.
    pose proof (skips_half esc (slice ip n content)) as Hx. rewrite zlen_slice in Hx by lia.
    apply Hstep; [lia|lia|]. case_match; lia.
Qed.

Definition string_item (i i' : cJSON) : Prop :=
  exists v, i' = set_type cJSON_String (set_valuestring (Some v) i).

Lemma pb_in_offset b o : 0 <= o <= pb_length b -> pb_in b (set_offset o b).
Proof. by split. Qed.

Lemma parse_string_safe i b w : pb_ok b -> wp False (parse_string i b) (parsed b (string_item i)) w.
Proof.
  intros Hb. pose proof Hb as [Hl He Ho]. unfold parse_string. apply wp_bind, wp_at; [done|]. intros c Hc.
  assert (forall ip w', 0 <= ip <= pb_length b -> parsed b (string_item i) (None, set_offset ip b) w') as Hfail
    by (intros; by apply pb_in_offset).
  destruct (Z.eqb_spec c 34) as [->|]; cbn [negb]; [|apply wp_ret, Hfail; lia].
  apply wp_bind, wp_string_end; [lia|lia|unfold text_fuel; lia|by apply wp_ret, Hfail; lia|].
  intros ie Hie Hie' inner Hend. apply wp_bind. destruct (Z.leb_spec (pb_length b) ie) as [Hge|Hlt].
  { apply wp_ret. cbn [negb]. apply wp_ret, Hfail. lia. }
  destruct (Hend Hlt) as [Hq Hesc]. apply wp_bind, wp_char_at; [lia|]. intros c Hc'. apply wp_ret.
  assert (c = 34) as -> by congruence. cbn [negb Z.eqb Pos.eqb]. apply wp_bind, wp_malloc. intros ok al.
  destruct ok; cbn [negb]; [|apply wp_ret, Hfail; lia].
  assert (zlen inner = ie - (pb_offset b + 1)) as Hzl by (apply zlen_slice; lia).
  apply wp_bind, (wp_unescape _ _ _ _ _ false).
  - lia.
  - lia.
  - lia.
  - unfold text_fuel. lia.
  - done.
  - fold inner. cbn [ob_data ob_size]. change (zlen []) with 0. lia.
  - intros ip' Hip'. apply wp_ret, Hfail. lia.
  - intros data ip' Hdata. cbn [ob_size] in *. apply wp_bind, wp_put.
    { cbn [ob_data ob_size]. change (zlen [0]) with 1. lia. }
    apply wp_ret. cbn [parsed ob_data]. split_and!; [by eexists| | |cbn; lia].
    + split; cbn; [done..|]. destruct (Z.eq_dec ie (pb_length b - 1)) as [->|]; [congruence|lia].
    + split; cbn; [done..|lia].
Qed.

Lemma wf_string n i v : fresh i -> wf_item (S n) (set_type cJSON_String (set_valuestring (Some v) i)).
Proof. intros (t & s & ->). apply wf_leaf; [unfold value_type; tauto|done|cbn; lia|done]. Qed.

(** The literals. *)
Lemma wf_literal n i t : fresh i -> t = cJSON_NULL \/ t = cJSON_False -> wf_item (S n) (set_type t i).
Proof.
  intros (t' & s & ->) Ht. apply wf_leaf; [unfold value_type; tauto| |cbn; lia|done].
  split; [|by intros [? ?]]. by destruct Ht as [-> | ->].
Qed.

Lemma wf_true n i : fresh i -> wf_item (S n) (set_valueint 1 (set_type cJSON_True i)).
Proof.
  intros (t & s & ->). apply wf_leaf; [unfold value_type; tauto| |cbn; lia|done].
  split; [done|by intros [? ?]].
Qed.

(** * Arrays and objects *)

Section Nested.
Context (n : nat) (pv : parser).

(** The parser of the elements, at depth [d]. *)
Definition element_safe (d : Z) : Prop := forall i b w,
  fresh i -> pb_ok b -> pb_depth b = d ->
  wp False (pv i b) (parsed b (fun i' => wf_item n i' /\ cj_string i' = cj_string i)) w.

(** What the loops over elements leave. *)
Definition elements (b : parse_buffer) (P : cJSON -> Prop) (r : option (list cJSON) * parse_buffer) (_ : world) : Prop :=
  match r with
  | (Some l, b') => Forall P l /\ pb_ok b' /\ pb_next b b' /\ pb_offset b < pb_offset b'
  | (None, b') => pb_in b b'
  end.

Lemma wp_new_item (Q : option cJSON -> world -> Prop) w :
  (forall al, Q None (with_alloc al w)) -> (forall al, Q (Some zero_item) (with_alloc al w)) ->
  wp False cJSON_New_Item Q w.
Proof. intros HN HS. unfold cJSON_New_Item. apply wp_bind, wp_malloc. intros [] al; apply wp_ret; auto. Qed.

Lemma array_loop_safe d fuel b l w :
  element_safe d -> 0 <= pb_offset b -> pb_ok (advance 1 b) -> pb_depth b = d ->
  (Z.to_nat (pb_length b - pb_offset b) < fuel)%nat -> Forall (wf_item n) l ->
  wp False (array_loop pv fuel b l) (elements b (wf_item n)) w.
Proof.
  intros Hpv. revert b l w. induction fuel as [|fuel IH]; intros b l w H0 Hb Hd Hf Hl; [lia|].
  cbn [array_loop]. apply wp_bind, wp_new_item; intros al.
  { apply wp_ret. cbn. destruct Hb as [_ _ Ho]. cbn in Ho. split; [done..|lia]. }
  apply wp_bind, wp_skip; [done|]. intros b1 Hb1 Hn0.
  assert (pb_next b b1) as Hn1 by (eapply next_trans; [by apply (next_advance b 1)|done]).
  assert (pb_depth b1 = d) as Hd1 by (destruct Hn1; congruence).
  apply wp_bind. eapply wp_mono; [apply Hpv; [by exists 0, None|done..]|].
  intros [[i|] b2] w2; cbn [parsed].
  2: { intros Hin. apply wp_ret. cbn. eapply in_trans; [by apply next_in|done]. }
  intros ((Hi & _) & Hb2 & Hn2 & Hlt2). apply wp_bind, wp_skip; [done|]. intros b3 Hb3 Hn3.
  assert (pb_next b b3) as Hn by (eapply next_trans; [exact Hn1|]; by eapply next_trans).
  assert (Forall (wf_item n) (l ++ [i])) as Hl' by (apply Forall_app; split; [done|by constructor]).
  apply wp_bind, wp_at_char; [done| |].
  - intros Hcomma. eapply wp_mono; [apply IH; try done|].
    + destruct Hb3; lia.
    + by eapply advance_ok.
    + destruct Hn. congruence.
    + destruct Hn as [_ Hlen _ _], Hn1, Hn3, Hb3. rewrite Hlen in *. lia.
    + intros [[l'|] b4] w4; cbn.
      * intros (? & ? & ? & ?). split_and!; try done; [by eapply next_trans|].
        repeat match goal with H : pb_next _ _ |- _ => destruct H end. lia.
      * intros Hin. eapply in_trans; [by apply next_in|done].
  - apply wp_ret. cbn. split_and!; [done..|].
    repeat match goal with H : pb_next _ _ |- _ => destruct H end. lia.
Qed.

Lemma object_loop_safe d fuel b l w :
  element_safe d -> 0 <= pb_offset b -> pb_ok (advance 1 b) -> pb_depth b = d ->
  (Z.to_nat (pb_length b - pb_offset b) < fuel)%nat ->
  Forall (fun i => wf_item n i /\ is_Some (cj_string i)) l ->
  wp False (object_loop pv fuel b l) (elements b (fun i => wf_item n i /\ is_Some (cj_string i))) w.
Proof.
  intros Hpv. revert b l w. induction fuel as [|fuel IH]; intros b l w H0 Hb Hd Hf Hl; [lia|].
  cbn [object_loop]. apply wp_bind, wp_new_item; intros al.
  { apply wp_ret. cbn. destruct Hb as [_ _ Ho]. cbn in Ho. split; [done..|lia]. }
  apply wp_bind, wp_skip; [done|]. intros b1 Hb1 Hn0.
  assert (pb_next b b1) as Hn1 by (eapply next_trans; [by apply (next_advance b 1)|done]).
  apply wp_bind. eapply wp_mono; [by apply parse_string_safe|]. intros [[i|] b2] w2; cbn [parsed].
  2: { intros Hin. apply wp_ret. cbn. eapply in_trans; [by apply next_in|done]. }
  intros ([v ->] & Hb2 & Hn2 & Hlt2). apply wp_bind, wp_skip; [done|]. intros b3 Hb3 Hn3.
  assert (pb_next b b3) as Hn by (eapply next_trans; [exact Hn1|]; by eapply next_trans).
  cbn [cj_valuestring set_type set_valuestring zero_item set_string]. apply wp_bind, wp_at_char; [done| |].
  2: { cbn [negb]. apply wp_ret. by apply next_in. }
  intros Hcolon. cbn [negb]. apply wp_bind. eapply wp_skip_after; [done|done|done|]. intros b4 Hb4 Hn4 Hlt4.
  apply wp_bind. eapply wp_mono; [apply Hpv; [by eexists _, _|done|destruct Hn, Hn4; congruence]|].
  assert (pb_next b b4) as Hn' by by eapply next_trans.
  intros [[i|] b5] w5; cbn [parsed].
  2: { intros Hin. apply wp_ret. cbn. eapply in_trans; [by apply next_in|done]. }
  cbn [cj_string]. intros ((Hi & His) & Hb5 & Hn5 & Hlt5). apply wp_bind, wp_skip; [done|]. intros b6 Hb6 Hn6.
  assert (pb_next b b6) as Hn'' by (eapply next_trans; [exact Hn'|]; by eapply next_trans).
  assert (Forall (fun i => wf_item n i /\ is_Some (cj_string i)) (l ++ [i])) as Hl'.
  { apply Forall_app. split; [done|]. constructor; [|done]. split; [done|]. rewrite His. by eexists. }
  apply wp_bind, wp_at_char; [done| |].
  - intros Hcomma. eapply wp_mono; [apply IH; try done|].
    + destruct Hb6; lia.
    + by eapply advance_ok.
    + destruct Hn''. congruence.
    + destruct Hn'' as [_ Hlen _ _], Hn, Hn4, Hn5, Hn6, Hb6. rewrite Hlen in *. lia.
    + intros [[l'|] b7] w7; cbn.
      * intros (? & ? & ? & ?). split_and!; try done; [by eapply next_trans|].
        repeat match goal with H : pb_next _ _ |- _ => destruct H end. lia.
      * intros Hin. eapply in_trans; [by apply next_in|done].
  - apply wp_ret. cbn. split_and!; [done..|].
    repeat match goal with H : pb_next _ _ |- _ => destruct H end. lia.
Qed.

(** An item of children at depth [d]. *)
Lemma wf_nested i t l :
  fresh i -> t = cJSON_Array \/ t = cJSON_Object -> Forall (wf_item n) l ->
  (t = cJSON_Object -> Forall (fun c => is_Some (cj_string c)) l) ->
  wf_item (S n) (set_type t (set_child l i)).
Proof.
  intros (t' & s & ->) Ht Hl Hs. cbn. split; [unfold value_type; tauto|].
  split; [split; [by destruct Ht as [-> | ->]|by intros [? ?]]|].
  split; [cbn; lia|]. split; [done|]. split; [done|]. destruct l; [done|by split].
Qed.

(** What the functions for arrays and objects do after their bracket, with the
    loop [loop] over the elements. *)
Lemma nested_safe b0 b close t (loop : parse_buffer -> M (option (list cJSON) * parse_buffer)) P i w :
  fresh i -> t = cJSON_Array \/ t = cJSON_Object -> close <> 0 ->
  (forall x, P x -> wf_item n x /\ (t = cJSON_Object -> is_Some (cj_string x))) ->
  pb_ok b0 -> pb_ok b -> pb_depth b = pb_depth b0 + 1 -> pb_in b0 b -> pb_offset b0 < pb_offset b ->
  (forall b w, 0 <= pb_offset b -> pb_ok (advance 1 b) -> pb_depth b = pb_depth b0 + 1 ->
     wp False (loop b) (elements b P) w) ->
  let success (head : list cJSON) (b : parse_buffer) : M (option cJSON * parse_buffer) :=
    ret (Some (set_type t (set_child head i)), advance 1 (set_depth (pb_depth b - 1) b)) in
  wp False
    (let! empty := at_char b close in
     if empty : bool then success [] b else
     if negb (can_access_at_index b 0) then ret (None, advance (-1) b) else
     let b := advance (-1) b in
     let! (r, b) := loop b in
     match r with
     | None => ret (None, b)
     | Some head =>
         let! closed := at_char b close in
         if negb closed then ret (None, b) else success head b
     end) (parsed b0 (fun i' => wf_item (S n) i' /\ cj_string i' = cj_string i)) w.
Proof.
  intros Hi Ht Hclose HP Hb0 Hb Hd Hin Hlt Hloop success.
  assert (forall l b' w', Forall P l -> pb_ok b' -> pb_in b0 b' -> pb_depth b' = pb_depth b0 + 1 ->
    pb_offset b0 < pb_offset b' -> pb_content b' !! Z.to_nat (pb_offset b') = Some close ->
    wp False (success l b') (parsed b0 (fun i' => wf_item (S n) i' /\ cj_string i' = cj_string i)) w') as Hok.
  { intros l b' w' Hl Hb' [Hc' Hl' _] Hd' Hlt' Hcl. apply wp_ret. cbn [parsed].
    rewrite Forall_forall in Hl. split_and!.
    - apply wf_nested; [done..| |intros Ht']; apply Forall_forall; intros x Hx; by apply (HP x (Hl x Hx)).
    - by destruct Hi as (? & ? & ->).
    - pose proof (advance_ok b' close 1 Hb' Hcl Hclose eq_refl) as [? ? ?]. by split.
    - split; cbn; [done|done|lia|lia].
    - cbn. lia. }
  apply wp_bind, wp_at_char; [done|intros Hc; by apply Hok|].
  destruct (can_access_at_index b 0); cbn [negb].
  2: { apply wp_ret. cbn. destruct Hin as [? ? ?], Hb0. split; cbn; [done..|lia]. }
  apply wp_bind. eapply wp_mono.
  { apply Hloop; cbn; [destruct Hb0; lia| |done]. destruct Hb as [? ? ?]. split; cbn; [done..|lia]. }
  intros [[l|] b2] w2; cbn [elements].
  2: { intros Hin2. apply wp_ret. cbn. destruct Hin, Hin2. cbn in *. split; [congruence..|lia]. }
  intros (Hl & Hb2 & Hn2 & Hlt2).
  assert (pb_in b0 b2) as Hin2.
  { destruct Hin as [Hc1 Hl1 _], Hn2 as [Hc2 Hl2 _ _], Hb2 as [_ _ Ho2]. cbn in *.
    split; [congruence|congruence|]. rewrite <- Hl1, <- Hl2. lia. }
  apply wp_bind, wp_at_char; [done| |].
  - intros Hc. cbn [negb]. apply Hok; try done; destruct Hn2; cbn in *; [congruence|lia].
  - cbn [negb]. by apply wp_ret.
Qed.

(** The buffer after the opening bracket. *)
Lemma open_bracket b c (Q : parse_buffer -> world -> Prop) w :
  pb_ok b -> pb_content b !! Z.to_nat (pb_offset b) = Some c -> c <> 0 ->
  (forall b', pb_ok b' -> pb_depth b' = pb_depth b + 1 -> pb_in b b' -> pb_offset b < pb_offset b' -> Q b' w) ->
  wp False (buffer_skip_whitespace (advance 1 (set_depth (pb_depth b + 1) b))) Q w.
Proof.
  intros [? ? ?] Hc Hc0 HQ. eapply wp_skip_after; [by split|done|done|]. intros b' Hb' [Hc' Hl' Hd' _] Hlt.
  apply HQ; [done..| |done]. destruct Hb'. split; cbn in *; [done..|lia].
Qed.

Lemma parse_array_safe i b w :
  element_safe (pb_depth b + 1) -> fresh i -> pb_ok b ->
  wp False (parse_array pv i b) (parsed b (fun i' => wf_item (S n) i' /\ cj_string i' = cj_string i)) w.
Proof.
  intros Hpv Hi Hb. unfold parse_array. destruct (_ <=? _); [by apply wp_ret, parsed_fail|].
  apply wp_bind, wp_at; [by destruct Hb|]. intros c Hc. cbn in Hc.
  destruct (Z.eqb_spec c 91) as [->|]; cbn [negb]; [|apply wp_ret; destruct Hb; split; cbn; [done..|lia]].
  apply wp_bind, (open_bracket b 91); [done..|]. intros b1 Hb1 Hd1 Hin1 Hlt1.
  apply (nested_safe b b1 93 cJSON_Array (fun b => array_loop pv (text_fuel b) b []) (wf_item n)); try done.
  - by left.
  - intros b2 w2 H0 Hb2 Hd2. eapply array_loop_safe; try done. unfold text_fuel. lia.
Qed.

Lemma parse_object_safe i b w :
  element_safe (pb_depth b + 1) -> fresh i -> pb_ok b ->
  wp False (parse_object pv i b) (parsed b (fun i' => wf_item (S n) i' /\ cj_string i' = cj_string i)) w.
Proof.
  intros Hpv Hi Hb. unfold parse_object. destruct (_ <=? _); [by apply wp_ret, parsed_fail|].
  apply wp_bind, wp_at_char; [by destruct Hb| |].
  2: { cbn [negb]. apply wp_ret; destruct Hb; split; cbn; [done..|lia]. }
  intros Hc. cbn in Hc. cbn [negb]. apply wp_bind, (open_bracket b 123); [done..|]. intros b1 Hb1 Hd1 Hin1 Hlt1.
  apply (nested_safe b b1 125 cJSON_Object (fun b => object_loop pv (text_fuel b) b [])
           (fun i => wf_item n i /\ is_Some (cj_string i))); try done.
  - by right.
  - by intros x [? ?].
  - intros b2 w2 H0 Hb2 Hd2. eapply object_loop_safe; try done. unfold text_fuel. lia.
Qed.
End Nested.

(** * Values and texts *)

(** A text without zero bytes is followed by another character. *)
Lemma wp_at_text b s (Q : bool -> world -> Prop) w :
  pb_ok b -> (exists l c, s = l ++ [c] /\ c <> 0) ->
  (pb_ok (advance (zlen s) b) -> Q true w) -> Q false w -> wp False (at_text b s) Q w.
Proof.
  intros [Hl He Ho] (l & c & Hs & Hc) HT HF. unfold at_text, can_read.
  destruct (Z.leb_spec (pb_offset b + zlen s) (pb_length b)); [|by apply wp_ret].
  apply wp_strncmp; [lia|lia| |done]. intros Hm. apply HT. pose proof (zlen_nonneg s).
  split; cbn; [done..|]. split; [lia|].
  destruct (Z.eq_dec (pb_offset b + zlen s) (pb_length b)) as [E'|]; [|lia]. exfalso.
  assert (zlen s = zlen l + 1) as Hz by (rewrite Hs; zl). specialize (Hm (length l) c).
  rewrite Hs, lookup_app_r, Nat.sub_diag in Hm by lia. specialize (Hm eq_refl).
  replace (Z.to_nat (pb_offset b) + length l)%nat with (Z.to_nat (pb_length b - 1)) in Hm by (unfold zlen in *; lia).
  congruence.
Qed.

Lemma value_body_safe n pv i b w :
  (CJSON_NESTING_LIMIT <= pb_depth b \/ element_safe n pv (pb_depth b + 1)) -> fresh i -> pb_ok b ->
  wp False (value_body pv i b) (parsed b (fun i' => wf_item (S n) i' /\ cj_string i' = cj_string i)) w.
Proof.
  intros Hpv Hi Hb. unfold value_body.
  assert (forall i' k w', 0 < k -> pb_ok (advance k b) -> wf_item (S n) i' -> cj_string i' = cj_string i ->
    parsed b (fun i' => wf_item (S n) i' /\ cj_string i' = cj_string i) (Some i', advance k b) w') as Hdone.
  { intros i' k w' Hk Hbk Hwf Hstr. split_and!; try done; [apply next_advance; lia|cbn; lia]. }
  pose proof Hi as (t & s & Ei).
  apply wp_bind, wp_at_text; [done|by eexists [110; 117; 108], 108| |].
  { intros Hb4. apply wp_ret, Hdone; [lia|done| |by rewrite Ei].
    apply wf_literal; [done|tauto]. }
  apply wp_bind, wp_at_text; [done|by eexists [102; 97; 108; 115], 101| |].
  { intros Hb4. apply wp_ret, Hdone; [lia|done| |by rewrite Ei].
    apply wf_literal; [done|tauto]. }
  apply wp_bind, wp_at_text; [done|by eexists [116; 114; 117], 101| |].
  { intros Hb4. apply wp_ret, Hdone; [lia|done| |by rewrite Ei]. by apply wf_true. }
  destruct (can_access_at_index b 0); [|by apply wp_ret, parsed_fail].
  apply wp_bind, wp_at; [done|]. intros c Hc. destruct (c =? 34).
  { eapply wp_mono; [by apply parse_string_safe|]. intros r w'. apply parsed_mono.
    intros i' [v ->]. split; [by apply wf_string|by rewrite Ei]. }
  destruct (_ || _).
  { by apply parse_number_safe. }
  assert (forall p, (p = parse_array pv \/ p = parse_object pv) ->
    wp False (p i b) (parsed b (fun i' => wf_item (S n) i' /\ cj_string i' = cj_string i)) w) as Hnest.
  { intros p Hp. destruct Hpv as [Hlim|Hpv].
    - destruct Hp as [-> | ->]; unfold parse_array, parse_object; rewrite (proj2 (Z.leb_le _ _)) by done;
        by apply wp_ret, parsed_fail.
    - destruct Hp as [-> | ->]; [by apply parse_array_safe|by apply parse_object_safe]. }
  destruct (c =? 91); [apply Hnest; tauto|]. destruct (c =? 123); [apply Hnest; tauto|].
  by apply wp_ret, parsed_fail.
Qed.

(** The nesting limit bounds the calls. *)
Lemma parse_value_safe k d :
  (0 < k)%nat -> CJSON_NESTING_LIMIT + 1 - d <= Z.of_nat k -> element_safe k (parse_value k) d.
Proof.
  revert d. induction k as [|k IH]; intros d Hk Hd; [lia|]. intros i b w Hi Hb Hbd. cbn [parse_value].
  apply value_body_safe; [|done..]. rewrite Hbd.
  destruct (Z.le_gt_cases CJSON_NESTING_LIMIT d) as [|Hlt]; [by left|right].
  apply IH; unfold CJSON_NESTING_LIMIT in *; lia.
Qed.

Lemma skip_bom_safe b (Q : option parse_buffer -> world -> Prop) w :
  pb_ok b -> pb_offset b = 0 -> (forall b', pb_ok b' -> pb_next b b' -> Q (Some b') w) ->
  wp False (skip_utf8_bom b) Q w.
Proof.
  intros Hb H0 HQ. unfold skip_utf8_bom. rewrite (proj2 (Z.eqb_eq (pb_offset b) 0)) by done. cbn [negb].
  unfold can_access_at_index. destruct (Z.ltb_spec (pb_offset b + 4) (pb_length b)).
  - apply wp_bind, wp_strncmp; [lia|change (zlen [239; 187; 191]) with 3; destruct Hb; lia| |].
    + intros _. apply wp_ret, HQ; [|by apply next_advance]. destruct Hb. split; cbn; [done..|lia].
    + apply wp_ret, HQ; [done|apply next_refl].
  - apply wp_ret, HQ; [done|apply next_refl].
Qed.

(** What a call of the parser returns on the text [s]. *)
Definition parse_outcome (s : list Z) (whole : bool) (r : parse_result) : Prop :=
  match pr_item r with
  | Some i => wf_item nesting_fuel i /\ pr_error r = None /\
              exists e, pr_end r = Some e /\ 0 <= e <= zlen s /\ (whole = true -> e = zlen s)
  | None => exists e, pr_end r = Some e /\ pr_error r = Some e /\ 0 <= e <= zlen s
  end.

Lemma strlen_run (s r : list Z) w : Forall (fun c => c <> 0) s -> strlen (s ++ 0 :: r) w = Ok (zlen s, w).
Proof.
  induction 1 as [|c s Hc _ IH]; [done|]. cbn [app strlen]. rewrite (proj2 (Z.eqb_neq c 0)) by done.
  unfold bind. rewrite IH. unfold ret. do 2 f_equal. zl.
Qed.

Lemma failed_outcome s whole b b' :
  pb_length b = zlen s + 1 -> pb_in b b' -> parse_outcome s whole (parse_failed b').
Proof.
  intros Hl [_ Hl' Ho]. unfold parse_outcome, parse_failed. cbn. eexists. split; [done|]. split; [done|].
  pose proof (zlen_nonneg s). destruct (Z.ltb_spec (pb_offset b') (pb_length b')); [lia|].
  destruct (Z.ltb_spec 0 (pb_length b')); lia.
Qed.

(** The end of the text is its only zero byte. *)
Lemma text_end s r o : Forall (fun c => c <> 0) s -> 0 <= o <= zlen s -> (s ++ 0 :: r) !! Z.to_nat o = Some 0 -> o = zlen s.
Proof.
  intros Hs Ho Hz. destruct (Z.eq_dec o (zlen s)); [done|]. unfold zlen in *. rewrite lookup_app_l in Hz by lia.
  rewrite Forall_lookup in Hs. by apply Hs in Hz.
Qed.

(** C6: on every C string, and whatever allocations fail, the parser returns: it
    reads only the string, writes only inside of the strings it allocates and
    recurses no deeper than the nesting limit. It returns a well-formed item nested
    at most that deep, with the end of the value in the text and, when this was
    asked for, nothing after it; or no item and the position of the error. *)
Theorem cJSON_ParseWithOpts_safe s r whole w :
  Forall (fun c => c <> 0) s ->
  exists res w', cJSON_ParseWithOpts (Some (s ++ 0 :: r)) whole w = Ok (res, w') /\ parse_outcome s whole res.
Proof.
  intros Hs. apply wp_run. unfold cJSON_ParseWithOpts. apply wp_bind. unfold wp. rewrite strlen_run by done.
  set (content := s ++ 0 :: r). set (b := mk_pb content (zlen s + 1) 0 0).
  pose proof (zlen_nonneg s) as Hs0. pose proof (zlen_nonneg r).
  assert (zlen content = zlen s + (1 + zlen r)) as Hzc by (unfold content; zl).
  assert (pb_ok b) as Hb.
  { split; cbn; [lia| |lia]. unfold content. rewrite lookup_app_r by (unfold zlen; lia).
    by replace (Z.to_nat (zlen s + 1 - 1) - length s)%nat with 0%nat by (unfold zlen; lia). }
  assert (forall b' w', pb_in b b' -> wp False (ret (parse_failed b')) (fun res _ => parse_outcome s whole res) w')
    as Hfail by (intros; by apply wp_ret, (failed_outcome s whole b)).
  apply wp_bind, wp_new_item; intros al; [apply Hfail; by apply next_in; [apply next_refl|]|].
  apply wp_bind, (skip_bom_safe b); [done|done|]. intros b1 Hb1 Hn1.
  apply wp_bind, wp_skip; [done|]. intros b2 Hb2 Hn2.
  assert (pb_next b b2) as Hn by by eapply next_trans. apply wp_bind. eapply wp_mono.
  { apply (parse_value_safe nesting_fuel 0); [vm_compute; lia|by vm_compute|by exists 0, None|done|by destruct Hn]. }
  intros [[i|] b3] w3; cbn [parsed].
  2: { intros Hin. apply Hfail. eapply in_trans; [by apply next_in|done]. }
  intros ((Hi & _) & Hb3 & Hn3 & _). assert (pb_next b b3) as Hnb3 by by eapply next_trans.
  destruct whole.
  - apply wp_bind, wp_skip; [done|]. intros b4 Hb4 Hn4. assert (pb_next b b4) as Hnb by by eapply next_trans.
    pose proof Hnb as [Hc Hl _ _]. pose proof (po_offset _ Hb4) as Ho. cbn in Hc, Hl.
    rewrite (proj2 (Z.leb_gt _ _)) by lia. apply wp_bind, wp_at; [done|]. intros c Hc'.
    destruct (Z.eqb_spec c 0) as [->|]; cbn [negb]; [|by apply Hfail, next_in].
    apply wp_ret. cbn. split_and!; [done..|]. exists (pb_offset b4). split; [done|]. split; [lia|].
    intros _. rewrite Hc in Hc'. by apply (text_end s r); [|lia|].
  - apply wp_ret. cbn. split_and!; [done..|]. exists (pb_offset b3). split; [done|]. split; [|done].
    destruct Hnb3 as [_ Hl _ _], Hb3. cbn in *. lia.
Qed.

(** A text with nesting, escapes, a pair of surrogates and something after it. *)
Definition example_text : list Z :=
  [32; 91; 49; 44; 34; 92; 117; 100; 56; 51; 100; 92; 117; 100; 101; 48; 48; 92; 110; 34; 44; 123; 125; 93; 32; 120].

Lemma cJSON_ParseWithOpts_safe_witness :
  exists res w', cJSON_ParseWithOpts (Some (example_text ++ 0 :: [])) true (mk_world [] 0 [true; true; false]) = Ok (res, w') /\
                 parse_outcome example_text true res.
Proof. apply (cJSON_ParseWithOpts_safe example_text [] true). repeat constructor; lia. Defined.
