(* ===== verification/CJsonPrint.v ===== *)
(** cjson.c: the printer.

    The buffer is the list of its bytes, of which those that were never written
    are unknown: reading one is a fault, as is an access outside of the buffer.
    [p_realloc] says whether the hooks have a [reallocate] function; without one
    [ensure] copies the buffer itself. *)
From Stdlib Require Import Strings.String.
From S2P Require Import Prelude CMonad CDouble CText CJson.

(** * The print buffer *)

Record printbuffer := mk_printbuffer {
  p_buffer : option (list (option Z));
  p_length : Z;
  p_offset : Z;
  p_depth : Z;
  p_noalloc : bool;
  p_format : bool;
  p_realloc : bool
}.

Definition with_buffer_length (buf : option (list (option Z))) (n : Z) (p : printbuffer) : printbuffer :=
  mk_printbuffer buf n (p_offset p) (p_depth p) (p_noalloc p) (p_format p) (p_realloc p).
Definition add_offset (n : Z) (p : printbuffer) : printbuffer :=
  mk_printbuffer (p_buffer p) (p_length p) (p_offset p + n) (p_depth p) (p_noalloc p) (p_format p) (p_realloc p).
Definition add_depth (n : Z) (p : printbuffer) : printbuffer :=
  mk_printbuffer (p_buffer p) (p_length p) (p_offset p) (p_depth p + n) (p_noalloc p) (p_format p) (p_realloc p).

(** [n] bytes of memory as an allocation returns them. *)
Definition unknown (n : Z) : list (option Z) := replicate (Z.to_nat n) None.

(** The contents of the buffer after it grew to [newsize]. *)
Definition grow_buffer (realloc : bool) (buf : list (option Z)) (offset newsize : Z) : M (list (option Z)) :=
  if realloc then ret (take (Z.to_nat newsize) buf ++ unknown (newsize - zlen buf))
  else if zlen buf <? offset + 1 then ub
  else ret (take (Z.to_nat (offset + 1)) buf ++ unknown (newsize - (offset + 1))).

(** The new size for [needed] bytes. *)
Definition new_size (needed : Z) : option Z :=
  if INT_MAX / 2 <? needed then if needed <=? INT_MAX then Some INT_MAX else None
  else Some (needed * 2).

(** Whether there is room for [needed] more bytes at the offset. *)
Definition ensure (p : printbuffer) (needed : Z) : M (bool * printbuffer) :=
  match p_buffer p with
  | None => ret (false, p)
  | Some buf =>
      if (0 <? p_length p) && (p_length p <=? p_offset p) then ret (false, p) else
      if INT_MAX <? needed then ret (false, p) else
      let needed := needed + p_offset p + 1 in
      if needed <=? p_length p then ret (true, p) else
      if p_noalloc p then ret (false, p) else
      match new_size needed with
      | None => ret (false, p)
      | Some newsize =>
          let! ok := malloc_ok in
          if negb ok then ret (false, with_buffer_length None 0 p) else
          let! buf := grow_buffer (p_realloc p) buf (p_offset p) newsize in
          ret (true, with_buffer_length (Some buf) newsize p)
      end
  end.

(** Writing [l] from index [i] of the buffer. *)
Definition write_bytes (p : printbuffer) (i : Z) (l : list Z) : M printbuffer :=
  match p_buffer p with
  | None => ub
  | Some buf =>
      if (0 <=? i) && (i + zlen l <=? zlen buf) then
        ret (with_buffer_length
               (Some (take (Z.to_nat i) buf ++ (Some <$> l) ++ drop (Z.to_nat i + length l) buf)) (p_length p) p)
      else ub
  end.

(** [strlen] of the bytes [l]. *)
Fixpoint written_length (l : list (option Z)) : M Z :=
  match l with
  | Some c :: l => if c =? 0 then ret 0 else let! n := written_length l in ret (n + 1)
  | _ => ub
  end.

Definition update_offset (p : printbuffer) : M printbuffer :=
  match p_buffer p with
  | None => ret p
  | Some buf => let! n := written_length (drop (Z.to_nat (p_offset p)) buf) in ret (add_offset n p)
  end.

(** [ensure] and the writes at its pointer, in the order of the code; each write
    is an index from the pointer and bytes. *)
Definition ensure_write (p : printbuffer) (needed : Z) (k : printbuffer -> M (bool * printbuffer)) :
    M (bool * printbuffer) :=
  let! (ok, p) := ensure p needed in
  if negb ok then ret (false, p) else k p.

(** * Numbers and strings *)

(** [sscanf(s, "%lg", &test)] and the comparison of [test] with [d]. *)
Definition reads_back (s : list Z) (d : double) : bool :=
  let '(test, n) := strtod s in negb (n =? 0) && deqb test d.

Definition sizeof_number_buffer : Z := 26.

(** The contents of [number_buffer]; a longer text is an overrun of it. *)
Definition number_text (d : double) : list Z :=
  if negb (is_finite d) then text "null" else
  let s := sprintf_g 15 d in
  if reads_back s d then s else sprintf_g 17 d.

Definition print_number (item : cJSON) (p : printbuffer) : M (bool * printbuffer) :=
  let number_buffer := number_text (cj_valuedouble item) in
  let length := zlen number_buffer in
  if sizeof_number_buffer <? length + 1 then ub else
  ensure_write p (length + 1) (fun p =>
    let! p := write_bytes p (p_offset p) number_buffer in
    let! p := write_bytes p (p_offset p + length) [0] in
    ret (true, add_offset length p)).

(** The additional characters for escaping [c]. *)
Definition escape_size (c : Z) : Z :=
  if (c =? 34) || (c =? 92) || (c =? 8) || (c =? 12) || (c =? 10) || (c =? 13) || (c =? 9) then 1
  else if c <? 32 then 5 else 0.

Fixpoint escape_characters (l : list Z) : Z :=
  match l with
  | [] => 0
  | c :: l => escape_size c + escape_characters l
  end.

(** The character after the backslash, if [c] has one of its own. *)
Definition short_escape (c : Z) : option Z :=
  if c =? 92 then Some 92
  else if c =? 34 then Some 34
  else if c =? 8 then Some 98
  else if c =? 12 then Some 102
  else if c =? 10 then Some 110
  else if c =? 13 then Some 114
  else if c =? 9 then Some 116
  else None.

(** [sprintf("u%04x", c)] for a byte. *)
Definition sprintf_u (c : Z) : list Z := [117; 48; 48; hex_char (c / 16); hex_char (c mod 16)].

(** The copying loop from the output pointer [o]. *)
Fixpoint escape_loop (l : list Z) (o : Z) (p : printbuffer) : M printbuffer :=
  match l with
  | [] => ret p
  | c :: l =>
      if (31 <? c) && negb (c =? 34) && negb (c =? 92) then
        let! p := write_bytes p o [c] in escape_loop l (o + 1) p
      else
        let! p := write_bytes p o [92] in
        match short_escape c with
        | Some x => let! p := write_bytes p (o + 1) [x] in escape_loop l (o + 2) p
        | None => let! p := write_bytes p (o + 1) (sprintf_u c ++ [0]) in escape_loop l (o + 6) p
        end
  end.

Definition print_string_ptr (input : option (list Z)) (p : printbuffer) : M (bool * printbuffer) :=
  match input with
  | None => ensure_write p 3 (fun p => let! p := write_bytes p (p_offset p) [34; 34; 0] in ret (true, p))
  | Some input =>
      let input := c_string input in
      let escapes := escape_characters input in
      let output_length := zlen input + escapes in
      ensure_write p (output_length + 3) (fun p =>
        let! p := write_bytes p (p_offset p) [34] in
        let! p := (if escapes =? 0 then write_bytes p (p_offset p + 1) input
                   else escape_loop input (p_offset p + 1) p) in
        let! p := write_bytes p (p_offset p + output_length + 1) [34; 0] in
        ret (true, p))
  end.

Definition print_string (item : cJSON) (p : printbuffer) : M (bool * printbuffer) :=
  print_string_ptr (cj_valuestring item) p.

(** * Values *)

(** [strcpy] of a literal. *)
Definition print_literal (s : list Z) (p : printbuffer) : M (bool * printbuffer) :=
  ensure_write p (zlen s + 1) (fun p => let! p := write_bytes p (p_offset p) (s ++ [0]) in ret (true, p)).

Section Print.
Context (print_value : cJSON -> printbuffer -> M (bool * printbuffer)).

Fixpoint print_elements (l : list cJSON) (p : printbuffer) : M (bool * printbuffer) :=
  match l with
  | [] => ret (true, p)
  | current_element :: next =>
      let! (ok, p) := print_value current_element p in
      if negb ok then ret (false, p) else
      let! p := update_offset p in
      match next with
      | [] => ret (true, p)
      | _ =>
          let length := if p_format p then 2 else 1 in
          ensure_write p (length + 1) (fun p =>
            let! p := write_bytes p (p_offset p) (44 :: (if p_format p then [32] else []) ++ [0]) in
            print_elements next (add_offset length p))
      end
  end.

Definition print_array (child : list cJSON) (p : printbuffer) : M (bool * printbuffer) :=
  ensure_write p 1 (fun p =>
    let! p := write_bytes p (p_offset p) [91] in
    let! (ok, p) := print_elements child (add_depth 1 (add_offset 1 p)) in
    if negb ok then ret (false, p) else
    ensure_write p 2 (fun p =>
      let! p := write_bytes p (p_offset p) [93; 0] in
      ret (true, add_depth (-1) p))).

(** The tabs before a key. *)
Definition print_tabs (p : printbuffer) (k : printbuffer -> M (bool * printbuffer)) : M (bool * printbuffer) :=
  if p_format p then
    ensure_write p (p_depth p) (fun p =>
      let! p := write_bytes p (p_offset p) (replicate (Z.to_nat (p_depth p)) 9) in
      k (add_offset (p_depth p) p))
  else k p.

Fixpoint print_members (l : list cJSON) (p : printbuffer) : M (bool * printbuffer) :=
  match l with
  | [] => ret (true, p)
  | current_item :: next =>
      print_tabs p (fun p =>
        let! (ok, p) := print_string_ptr (cj_string current_item) p in
        if negb ok then ret (false, p) else
        let! p := update_offset p in
        let length := if p_format p then 2 else 1 in
        ensure_write p length (fun p =>
          let! p := write_bytes p (p_offset p) (58 :: (if p_format p then [9] else [])) in
          let! (ok, p) := print_value current_item (add_offset length p) in
          if negb ok then ret (false, p) else
          let! p := update_offset p in
          let comma := match next with [] => [] | _ => [44] end in
          let newline := if p_format p then [10] else [] in
          let length := zlen newline + zlen comma in
          ensure_write p (length + 1) (fun p =>
            let! p := write_bytes p (p_offset p) (comma ++ newline ++ [0]) in
            print_members next (add_offset length p))))
  end.

Definition print_object (child : list cJSON) (p : printbuffer) : M (bool * printbuffer) :=
  let length := if p_format p then 2 else 1 in
  ensure_write p (length + 1) (fun p =>
    let! p := write_bytes p (p_offset p) (123 :: (if p_format p then [10] else [])) in
    let! (ok, p) := print_members child (add_offset length (add_depth 1 p)) in
    if negb ok then ret (false, p) else
    ensure_write p (if p_format p then p_depth p + 1 else 2) (fun p =>
      let tabs := if p_format p then replicate (Z.to_nat (p_depth p - 1)) 9 else [] in
      let! p := write_bytes p (p_offset p) (tabs ++ [125; 0]) in
      ret (true, add_depth (-1) p))).
End Print.

Definition print_raw (item : cJSON) (p : printbuffer) : M (bool * printbuffer) :=
  match cj_valuestring item with
  | None => ret (false, p)
  | Some s => print_literal (c_string s) p
  end.

Fixpoint print_value (item : cJSON) (p : printbuffer) {struct item} : M (bool * printbuffer) :=
  let 'mk_cJSON type valuestring _ _ _ child := item in
  let t := Z.land type 0xFF in
  if t =? cJSON_NULL then print_literal (text "null") p
  else if t =? cJSON_False then print_literal (text "false") p
  else if t =? cJSON_True then print_literal (text "true") p
  else if t =? cJSON_Number then print_number item p
  else if t =? cJSON_Raw then print_raw item p
  else if t =? cJSON_String then print_string item p
  else if t =? cJSON_Array then print_array print_value child p
  else if t =? cJSON_Object then print_object print_value child p
  else ret (false, p).

(** * The entry points *)

Definition default_buffer_size : Z := 256.

(** The memory of the string that is returned. *)
Definition print (item : option cJSON) (format realloc : bool) : M (option (list (option Z))) :=
  let! ok := malloc_ok in
  if negb ok then ret None else
  match item with
  | None => ret None
  | Some item =>
      let p := mk_printbuffer (Some (unknown default_buffer_size)) default_buffer_size 0 0 false format realloc in
      let! (ok, p) := print_value item p in
      if negb ok then ret None else
      let! p := update_offset p in
      match p_buffer p with
      | None => ret None
      | Some buf =>
          let! ok := malloc_ok in
          if negb ok then ret None else
          if realloc then
            ret (Some (take (Z.to_nat (p_offset p + 1)) buf ++ unknown (p_offset p + 1 - zlen buf)))
          else
            let n := Z.min (p_length p) (p_offset p + 1) in
            if zlen buf <? n then ub else
            ret (Some (<[Z.to_nat (p_offset p) := Some 0]>
                         (take (Z.to_nat n) buf ++ unknown (p_offset p + 1 - n))))
      end
  end.

Definition cJSON_Print (item : option cJSON) (realloc : bool) := print item true realloc.
Definition cJSON_PrintUnformatted (item : option cJSON) (realloc : bool) := print item false realloc.

Definition cJSON_PrintBuffered (item : option cJSON) (prebuffer : Z) (fmt realloc : bool) :
    M (option (list (option Z))) :=
  if prebuffer <? 0 then ret None else
  let! ok := malloc_ok in
  if negb ok then ret None else
  match item with
  | None => ret None
  | Some item =>
      let! (ok, p) := print_value item
        (mk_printbuffer (Some (unknown prebuffer)) prebuffer 0 0 false fmt realloc) in
      ret (if negb ok then None else p_buffer p)
  end.

(** The buffer of the caller is left with what was written. *)
Definition cJSON_PrintPreallocated (item : option cJSON) (buf : option (list (option Z))) (len : Z)
    (fmt realloc : bool) : M (bool * option (list (option Z))) :=
  if len <? 0 then ret (false, buf) else
  match buf, item with
  | Some _, Some item =>
      let! (ok, p) := print_value item (mk_printbuffer buf len 0 0 true fmt realloc) in
      ret (ok, p_buffer p)
  | _, _ => ret (false, buf)
  end.
