(* ===== verification/CJsonPrintProps.v ===== *)
(** What the printer of cjson.c writes: the text of an item as a function, and that
    the printer produces exactly this text, inside of its buffer, whenever the
    buffer is large enough or can grow. *)
From Stdlib Require Import Strings.String.
From S2P Require Import Prelude CMonad CDouble CText CDoubleProps CJson CJsonPrint.

(** * The text of an item *)

Definition escape (c : Z) : list Z :=
  if (31 <? c) && negb (c =? 34) && negb (c =? 92) then [c]
  else 92 :: match short_escape c with Some x => [x] | None => sprintf_u c end.

(** A string literal; a null pointer is the empty string. *)
Definition quoted (s : option (list Z)) : list Z :=
  34 :: concat (map escape (c_string (default [] s))) ++ [34].

Section Render.
Context (fmt : bool) (rv : cJSON -> option (list Z)).

Definition separator : list Z := 44 :: if fmt then [32] else [].

Fixpoint render_elements (l : list cJSON) : option (list Z) :=
  match l with
  | [] => Some []
  | x :: r =>
      t ← rv x;
      match r with
      | [] => Some t
      | _ => s ← render_elements r; Some (t ++ separator ++ s)
      end
  end.

(** The members of an object, each behind [tabs] tabs. *)
Fixpoint render_members (tabs : nat) (l : list cJSON) : option (list Z) :=
  match l with
  | [] => Some []
  | x :: r =>
      t ← rv x;
      s ← render_members tabs r;
      Some ((if fmt then replicate tabs 9 else []) ++ quoted (cj_string x) ++
            (58 :: if fmt then [9] else []) ++ t ++
            (match r with [] => [] | _ => [44] end ++ if fmt then [10] else []) ++ s)
  end.
End Render.

Fixpoint render (fmt : bool) (depth : nat) (item : cJSON) {struct item} : option (list Z) :=
  let 'mk_cJSON type valuestring _ d _ child := item in
  let t := Z.land type 0xFF in
  if t =? cJSON_NULL then Some (text "null")
  else if t =? cJSON_False then Some (text "false")
  else if t =? cJSON_True then Some (text "true")
  else if t =? cJSON_Number then Some (number_text d)
  else if t =? cJSON_Raw then c_string <$> valuestring
  else if t =? cJSON_String then Some (quoted valuestring)
  else if t =? cJSON_Array then
    s ← render_elements fmt (render fmt (S depth)) child; Some (91 :: s ++ [93])
  else if t =? cJSON_Object then
    s ← render_members fmt (render fmt (S depth)) (S depth) child;
    Some ((123 :: if fmt then [10] else []) ++ s ++ (if fmt then replicate depth 9 else []) ++ [125])
  else None.

(** * Buffers *)

(** The number of bytes the buffer can have. *)
Definition cap (p : printbuffer) : Z := if p_noalloc p then p_length p else INT_MAX.

(** The buffer starts with [x]. *)
Definition known (p : printbuffer) (x : list Z) : Prop :=
  exists buf, p_buffer p = Some buf /\ zlen buf = p_length p /\ zlen x <= p_length p /\
              take (length x) buf = Some <$> x.

(** The same printer. *)
Record same (p p' : printbuffer) : Prop := {
  sa_depth : p_depth p' = p_depth p;
  sa_noalloc : p_noalloc p' = p_noalloc p;
  sa_format : p_format p' = p_format p;
  sa_realloc : p_realloc p' = p_realloc p;
  sa_length : p_noalloc p = true -> p_length p' = p_length p
}.

(** The text [u] was written and the offset is after it. *)
Record holds (p : printbuffer) (u : list Z) : Prop := {
  ho_known : known p u;
  ho_offset : p_offset p = zlen u;
  ho_room : zlen u < p_length p \/ u = [] /\ p_length p = 0 /\ p_realloc p = true;
  ho_max : p_length p <= INT_MAX
}.

Lemma same_refl p : same p p.
Proof. by split. Qed.

Lemma same_trans p1 p2 p3 : same p1 p2 -> same p2 p3 -> same p1 p3.
Proof. intros [] []. split; try congruence. intros H. rewrite <- sa_length0 by done. apply sa_length1. congruence. Qed.

Lemma same_cap p p' : same p p' -> cap p' = cap p.
Proof. intros [_ Hn _ _ Hl]. unfold cap. rewrite Hn. destruct (p_noalloc p); [by apply Hl|done]. Qed.

Lemma known_prefix p x y : known p (x ++ y) -> known p x.
Proof.
  intros (buf & Hb & Hz & Hl & Ht). exists buf. split_and!; [done..| |].
  - pose proof (zlen_nonneg y). rewrite zlen_app in Hl. lia.
  - apply (f_equal (take (length x))) in Ht. rewrite take_take, Nat.min_l in Ht by (rewrite length_app; lia).
    rewrite Ht, fmap_app, take_app_length' by (by rewrite length_fmap). done.
Qed.

Lemma wp_write (E : Prop) p x l (Q : printbuffer -> world -> Prop) w :
  known p x -> zlen x + zlen l <= p_length p ->
  (forall p', known p' (x ++ l) -> same p p' -> p_offset p' = p_offset p -> p_length p' = p_length p -> Q p' w) ->
  wp E (write_bytes p (zlen x) l) Q w.
Proof.
  intros (buf & Hb & Hz & Hl & Ht) Hfit HQ. unfold write_bytes. rewrite Hb. pose proof (zlen_nonneg x).
  rewrite (proj2 (Z.leb_le 0 _)), (proj2 (Z.leb_le _ (zlen buf))) by lia. cbn [andb]. apply wp_ret, HQ; [|by split|done..].
  replace (Z.to_nat (zlen x)) with (length x) by (unfold zlen; lia). unfold zlen in *.
  eexists. cbn. split_and!; [done| |unfold zlen; rewrite length_app; lia|].
  - unfold zlen. rewrite !length_app, length_take, length_drop, length_fmap. lia.
  - rewrite Ht, app_assoc, <- fmap_app. rewrite take_app_length' by (by rewrite length_fmap). done.
Qed.

(** * Growing *)

Lemma new_size_spec n : 0 <= n <= INT_MAX -> exists k, new_size n = Some k /\ n <= k.
Proof.
  intros Hn. unfold new_size. destruct (Z.ltb_spec (INT_MAX / 2) n).
  - rewrite (proj2 (Z.leb_le n INT_MAX)) by lia. exists INT_MAX. split; [done|lia].
  - exists (n * 2). split; [done|lia].
Qed.

Lemma new_size_none n : INT_MAX < n -> new_size n = None.
Proof.
  intros Hn. unfold new_size. destruct (Z.ltb_spec (INT_MAX / 2) n) as [_|Hle].
  - by rewrite (proj2 (Z.leb_gt n _)).
  - change (INT_MAX / 2) with 1073741823 in Hle. unfold INT_MAX in Hn. lia.
Qed.

(** Why a printer gave up: an allocation failed, or [n] bytes are too many. *)
Definition gave_up (p : printbuffer) (w : world) (n : Z) : Prop :=
  p_noalloc p = false /\ w_alloc w <> [] \/ cap p < n.

Lemma gave_up_mono p p' w w' n n' :
  same p p' -> (w_alloc w = [] -> w_alloc w' = []) -> n <= n' -> gave_up p' w' n -> gave_up p w n'.
Proof.
  intros Hs Ha Hn [[Hna Hw]|Hc].
  - left. rewrite <- (sa_noalloc _ _ Hs). split; [done|]. intros E. by apply Hw, Ha.
  - right. rewrite <- (same_cap _ _ Hs). lia.
Qed.

Lemma gave_up_le p w n n' : n <= n' -> gave_up p w n -> gave_up p w n'.
Proof. intros. by apply (gave_up_mono p p w w n); [apply same_refl|..]. Qed.

Lemma grow_known p buf u newsize w :
  holds p u -> p_buffer p = Some buf -> p_length p <= newsize -> zlen u < newsize ->
  exists buf', grow_buffer (p_realloc p) buf (p_offset p) newsize w = Ok (buf', w) /\
               zlen buf' = newsize /\ take (length u) buf' = Some <$> u.
Proof.
  intros [(b & Hb & Hz & Hl & Ht) Ho Hroom _] Hbuf Hn Hu. assert (b = buf) as -> by congruence.
  unfold grow_buffer, unknown. pose proof (zlen_nonneg u) as Hu0. rewrite Ho. destruct (p_realloc p) eqn:Hr.
  - eexists. split; [done|]. rewrite take_ge by (unfold zlen in *; lia).
    split; [unfold zlen in *; rewrite length_app, length_replicate; lia|].
    rewrite take_app_le by (unfold zlen in *; lia). done.
  - destruct Hroom as [Hroom|(_ & _ & Hr')]; [|congruence].
    rewrite (proj2 (Z.ltb_ge _ _)) by lia. eexists. split; [done|].
    split; [unfold zlen in *; rewrite length_app, length_take, length_replicate; lia|].
    rewrite take_app_le by (rewrite length_take; unfold zlen in *; lia).
    rewrite take_take, Nat.min_l by (unfold zlen; lia). done.
Qed.

Lemma new_size_max n k : 0 <= n -> new_size n = Some k -> k <= INT_MAX.
Proof.
  unfold new_size. intros Hn H. repeat case_match; simplify_eq; [done|].
  match goal with H : (_ <? _) = false |- _ => apply Z.ltb_ge in H as Hle end.
  change (INT_MAX / 2) with 1073741823 in Hle. unfold INT_MAX. lia.
Qed.

(** [ensure] either makes room or says why not. *)
Lemma wp_ensure p u n (Q : bool * printbuffer -> world -> Prop) w :
  holds p u -> 0 <= n ->
  (forall p' w', gave_up p w (zlen u + n + 1) -> (w_alloc w = [] -> w_alloc w' = []) -> Q (false, p') w') ->
  (forall p' w', holds p' u -> same p p' -> zlen u + n + 1 <= p_length p' -> zlen u + n + 1 <= cap p ->
     (w_alloc w = [] -> w_alloc w' = []) -> Q (true, p') w') ->
  wp False (ensure p n) Q w.
Proof.
  intros Hh Hn HF HT. pose proof Hh as [(buf & Hb & Hz & Hl & Ht) Ho Hroom Hmax].
  pose proof (zlen_nonneg u) as Hu0. unfold ensure. rewrite Hb.
  replace ((0 <? p_length p) && (p_length p <=? p_offset p)) with false.
  2: { rewrite Ho. destruct (Z.ltb_spec 0 (p_length p)); [|done]. cbn. symmetry. apply Z.leb_gt. lia. }
  assert (p_length p <= cap p <= INT_MAX) as Hcap by (unfold cap; destruct (p_noalloc p); lia).
  destruct (Z.ltb_spec INT_MAX n) as [Hbig|Hbig]; [apply wp_ret, HF; [right; lia|done]|].
  rewrite Ho. replace (n + zlen u + 1) with (zlen u + n + 1) by lia.
  destruct (Z.leb_spec (zlen u + n + 1) (p_length p)) as [Hfit|Hfit].
  { apply wp_ret, HT; [done|apply same_refl|done|lia|done]. }
  destruct (p_noalloc p) eqn:Hna.
  { apply wp_ret, HF; [right; unfold cap; by rewrite Hna|done]. }
  assert (cap p = INT_MAX) as Hcap' by (unfold cap; by rewrite Hna).
  destruct (Z.le_gt_cases (zlen u + n + 1) INT_MAX) as [Hle|Hgt].
  2: { rewrite new_size_none by lia. apply wp_ret, HF; [right; lia|done]. }
  destruct (new_size_spec (zlen u + n + 1)) as (k & Hk & Hk'); [lia|]. rewrite Hk.
  assert (k <= INT_MAX) as Hkm by (eapply new_size_max; [|exact Hk]; lia). apply wp_bind.
  assert (forall b al, (w_alloc w = [] -> b = true /\ al = []) ->
    wp False (if negb b then ret (false, with_buffer_length None 0 p)
              else let! buf := grow_buffer (p_realloc p) buf (zlen u) k in
                   ret (true, with_buffer_length (Some buf) k p)) Q (with_alloc al w)) as Hgrow.
  { intros b al Hal. assert (w_alloc w = [] -> w_alloc (with_alloc al w) = []) as Hal' by (intros; by apply Hal).
    destruct b; cbn [negb].
    - destruct (grow_known p buf u k (with_alloc al w) Hh Hb ltac:(lia) ltac:(lia)) as (buf' & Hg & Hz' & Ht').
      rewrite Ho in Hg. apply wp_bind. unfold wp at 1. rewrite Hg. apply wp_ret, HT; cbn; try done; try lia.
      + split; cbn; [|done|lia|lia]. exists buf'. split_and!; [done..|cbn; lia|done].
      + split; cbn; try done. congruence.
    - apply wp_ret, HF; [|done]. left. split; [done|]. intros Hw. by destruct (Hal Hw). }
  unfold wp, malloc_ok. destruct w as [m e [|b al]]; cbn [w_alloc] in *.
  - by apply (Hgrow true []).
  - by apply (Hgrow b al).
Qed.

(** * Pieces of text *)

(** The result of printing [t] after [u]. *)
Definition prints (u : list Z) (p : printbuffer) (w : world) (t : option (list Z))
    (r : bool * printbuffer) (w' : world) : Prop :=
  (w_alloc w = [] -> w_alloc w' = []) /\
  match r with
  | (true, p') => exists s, t = Some s /\ known p' (u ++ s ++ [0]) /\
                  zlen u <= p_offset p' <= zlen u + zlen s /\ same p p' /\
                  p_length p' <= INT_MAX /\ zlen u + zlen s + 2 <= cap p
  | (false, _) => forall s, t = Some s -> gave_up p w (zlen u + zlen s + 2)
  end.

Lemma wp_ensure_write p u n k (Q : bool * printbuffer -> world -> Prop) w :
  holds p u -> 0 <= n ->
  (forall p' w', gave_up p w (zlen u + n + 1) -> (w_alloc w = [] -> w_alloc w' = []) -> Q (false, p') w') ->
  (forall p' w', holds p' u -> same p p' -> zlen u + n + 1 <= p_length p' -> zlen u + n + 1 <= cap p ->
     (w_alloc w = [] -> w_alloc w' = []) -> wp False (k p') Q w') ->
  wp False (ensure_write p n k) Q w.
Proof.
  intros Hh Hn HF HT. unfold ensure_write. apply wp_bind. eapply wp_ensure; [done..| |].
  - intros p' w' Hg Ha. by apply wp_ret, HF.
  - intros p' w' Hh' Hs Hl Hc Ha. by apply HT.
Qed.

(** Writing at the offset. *)
Lemma wp_write_here p u l (Q : printbuffer -> world -> Prop) w :
  holds p u -> zlen u + zlen l <= p_length p ->
  (forall p', known p' (u ++ l) -> same p p' -> p_offset p' = zlen u -> p_length p' = p_length p -> Q p' w) ->
  wp False (write_bytes p (p_offset p) l) Q w.
Proof.
  intros [Hk Ho _ _] Hl HQ. rewrite Ho. apply wp_write; [done..|]. intros p' Hk' Hs Ho' Hl'. apply HQ; [done..| |done].
  by rewrite Ho'.
Qed.

Lemma print_literal_prints p u s w :
  holds p u -> wp False (print_literal s p) (prints u p w (Some s)) w.
Proof.
  intros Hh. pose proof (zlen_nonneg s). unfold print_literal.
  apply (wp_ensure_write p u); [done|lia| |].
  - intros p' w' Hg Ha. split; [done|]. intros s' [= <-]. by replace (zlen u + zlen s + 2) with (zlen u + (zlen s + 1) + 1) by lia.
  - intros p1 w1 Hh1 Hs1 Hl1 Hc1 Ha1. apply wp_bind, (wp_write_here p1 u); [done|zl|].
    intros p2 Hk2 Hs2 Ho2 Hl2. apply wp_ret. split; [done|]. exists s. destruct Hh1.
    split_and!; [done..|lia|lia|by eapply same_trans|lia|lia].
Qed.

(** ** Numbers *)

Lemma number_text_shortest d : double_ok d -> is_finite d = true -> number_text d = shortest d.
Proof.
  intros Hok Hfin. unfold number_text, shortest, reads_back. rewrite Hfin. cbn [negb].
  destruct d as [| |s m e]; [done..|]. destruct (Z.eq_dec m 0) as [->|Hm].
  { by destruct Hok as (_ & _ & [?| ->]); [lia|destruct s]. }
  destruct (strtod_sprintf 15 s m e ltac:(lia) Hok ltac:(destruct Hok; lia)) as (V & q & _ & _ & _ & ->).
  destruct (sprintf_g_num 15 s m e ltac:(lia) Hok) as [_ Hl]. cbn [fst].
  by rewrite (proj2 (Z.eqb_neq _ 0)) by lia.
Qed.

Lemma num_char_pos c : num_char c = true -> 0 < c.
Proof.
  unfold num_char, isdigit. rewrite !orb_true_iff, andb_true_iff, !Z.leb_le, !Z.eqb_eq. lia.
Qed.

Lemma number_text_ok d :
  double_ok d -> Forall (fun c => 0 < c) (number_text d) /\ zlen (number_text d) <= 25.
Proof.
  intros Hok. destruct (is_finite d) eqn:Hf.
  - rewrite number_text_shortest by done. destruct (shortest_num d Hok Hf) as [Hn Hl].
    split; [|lia]. eapply Forall_impl; [exact Hn|]. intros c. apply num_char_pos.
  - unfold number_text. rewrite Hf. split; [by repeat constructor|by vm_compute].
Qed.

Lemma print_number_prints i p u w :
  double_ok (cj_valuedouble i) -> holds p u ->
  wp False (print_number i p) (prints u p w (Some (number_text (cj_valuedouble i)))) w.
Proof.
  intros Hok Hh. unfold print_number. destruct (number_text_ok _ Hok) as [_ Hlen].
  set (t := number_text _) in *. pose proof (zlen_nonneg t).
  rewrite (proj2 (Z.ltb_ge _ _)) by (unfold sizeof_number_buffer; lia).
  apply (wp_ensure_write p u); [done|lia| |].
  - intros p' w' Hg Ha. split; [done|]. intros s' [= <-]. by replace (zlen u + zlen t + 2) with (zlen u + (zlen t + 1) + 1) by lia.
  - intros p1 w1 Hh1 Hs1 Hl1 Hc1 Ha1. apply wp_bind, (wp_write_here p1 u); [done|lia|].
    intros p2 Hk2 Hs2 Ho2 Hl2. apply wp_bind. rewrite Ho2, <- zlen_app.
    apply wp_write; [done|zl|]. intros p3 Hk3 Hs3 Ho3 Hl3. apply wp_ret. split; [done|]. exists t. destruct Hh1.
    rewrite <- app_assoc in Hk3. cbn. rewrite Ho3, Ho2.
    split_and!; [done..|lia|lia| |lia|lia].
    eapply same_trans; [exact Hs1|]. eapply same_trans; [exact Hs2|]. by destruct Hs3; split.
Qed.

(** ** Strings *)

Lemma escape_length c : zlen (escape c) = 1 + escape_size c.
Proof.
  unfold escape, escape_size, short_escape.
  destruct (Z.ltb_spec 31 c), (Z.eqb_spec c 34), (Z.eqb_spec c 92), (Z.eqb_spec c 8), (Z.eqb_spec c 12),
    (Z.eqb_spec c 10), (Z.eqb_spec c 13), (Z.eqb_spec c 9), (Z.ltb_spec c 32); try lia; done.
Qed.

Definition escaped (l : list Z) : list Z := concat (map escape l).

Lemma escape_size_nonneg c : 0 <= escape_size c.
Proof. unfold escape_size. repeat case_match; lia. Qed.

Lemma escaped_length l : zlen (escaped l) = zlen l + escape_characters l.
Proof.
  unfold escaped. induction l as [|c l IH]; [done|]. cbn [map concat escape_characters].
  rewrite zlen_app, escape_length, IH. zl.
Qed.

Lemma escape_characters_nonneg l : 0 <= escape_characters l.
Proof. induction l as [|c l IH]; cbn; [done|]. pose proof (escape_size_nonneg c). lia. Qed.

(** Nothing is escaped when nothing needs it. *)
Lemma escaped_none l : escape_characters l = 0 -> escaped l = l.
Proof.
  unfold escaped. induction l as [|c l IH]; [done|]. cbn [escape_characters map concat]. intros H.
  pose proof (escape_size_nonneg c). pose proof (escape_characters_nonneg l).
  rewrite IH by lia. pose proof (escape_length c) as Hl. replace (escape_size c) with 0 in Hl by lia.
  unfold escape in *. destruct (_ && _); [done|]. destruct (short_escape c); done.
Qed.

Lemma escape_loop_run l p x (Q : printbuffer -> world -> Prop) w :
  known p x -> zlen x + zlen (escaped l) + 1 <= p_length p ->
  (forall p', known p' (x ++ escaped l) -> same p p' -> p_offset p' = p_offset p -> p_length p' = p_length p -> Q p' w) ->
  wp False (escape_loop l (zlen x) p) Q w.
Proof.
  revert p x. induction l as [|c l IH]; intros p x Hk Hl HQ; cbn [escape_loop].
  { apply wp_ret, HQ; [|apply same_refl|done..]. unfold escaped. cbn. by rewrite app_nil_r. }
  assert (escaped (c :: l) = escape c ++ escaped l) as He by done. rewrite He, zlen_app in Hl.
  pose proof (zlen_nonneg (escaped l)).
  assert (forall p', known p' (x ++ escape c) -> same p p' -> p_offset p' = p_offset p -> p_length p' = p_length p ->
            wp False (escape_loop l (zlen (x ++ escape c)) p') Q w) as Hnext.
  { intros p' Hk' Hs' Ho' Hl'. apply IH; [done|rewrite zlen_app; lia|]. intros p2 Hk2 Hs2 Ho2 Hl2.
    apply HQ; [by rewrite He, app_assoc|by eapply same_trans|congruence..]. }
  unfold escape in *. destruct ((31 <? c) && negb (c =? 34) && negb (c =? 92)).
  { change (zlen [c]) with 1 in Hl. apply wp_bind, wp_write; [done|change (zlen [c]) with 1; lia|].
    intros p1 Hk1 Hs1 Ho1 Hl1. replace (zlen x + 1) with (zlen (x ++ [c])) by zl. by apply Hnext. }
  assert (forall k : list Z, zlen (92 :: k) = 1 + zlen k) as Hcons by (intros; zl). rewrite Hcons in Hl.
  assert (0 <= zlen (match short_escape c with Some x => [x] | None => sprintf_u c end)) by apply zlen_nonneg.
  apply wp_bind, wp_write; [done|change (zlen [92]) with 1; lia|]. intros p1 Hk1 Hs1 Ho1 Hl1.
  replace (zlen x + 1) with (zlen (x ++ [92])) by zl. destruct (short_escape c) as [y|].
  - change (zlen [y]) with 1 in Hl. apply wp_bind, wp_write; [done|zl|]. intros p2 Hk2 Hs2 Ho2 Hl2.
    rewrite <- app_assoc in Hk2. cbn in Hk2. replace (zlen x + 2) with (zlen (x ++ [92; y])) by zl.
    apply Hnext; [done|by eapply same_trans|congruence..].
  - change (zlen (sprintf_u c)) with 5 in Hl.
    apply wp_bind, wp_write; [done|rewrite zlen_app; change (zlen [92]) with 1; change (zlen (sprintf_u c ++ [0])) with 6; lia|].
    intros p2 Hk2 Hs2 Ho2 Hl2. replace (zlen x + 6) with (zlen (x ++ 92 :: sprintf_u c)) by (by rewrite zlen_app).
    apply Hnext; [|by eapply same_trans|congruence..]. apply (known_prefix _ _ [0]).
    by rewrite <- !app_assoc in Hk2 |- *.
Qed.

Lemma quoted_length s : zlen (quoted s) = zlen (escaped (c_string (default [] s))) + 2.
Proof. unfold quoted. fold (escaped (c_string (default [] s))). zl. Qed.

Lemma print_string_ptr_prints s p u w :
  holds p u -> wp False (print_string_ptr s p) (prints u p w (Some (quoted s))) w.
Proof.
  intros Hh. pose proof (quoted_length s) as Hq. unfold print_string_ptr. destruct s as [s|]; cbn [default id] in *.
  2: { change (zlen (quoted None)) with 2 in Hq. apply (wp_ensure_write p u); [done|lia| |].
    - intros p' w' Hg Ha. split; [done|]. intros s' [= <-]. change (zlen (quoted None)) with 2.
      by replace (zlen u + 2 + 2) with (zlen u + 3 + 1) by lia.
    - intros p1 w1 Hh1 Hs1 Hl1 Hc1 Ha1. apply wp_bind, (wp_write_here p1 u); [done|change (zlen [34; 34; 0]) with 3; lia|].
      intros p2 Hk2 Hs2 Ho2 Hl2. apply wp_ret. split; [done|]. exists [34; 34]. destruct Hh1.
      change (zlen [34; 34]) with 2. split_and!; [done..|lia|lia|by eapply same_trans|lia|lia]. }
  set (l := c_string s) in *. rewrite escaped_length in Hq.
  pose proof (escape_characters_nonneg l). pose proof (zlen_nonneg l). set (n := zlen l + escape_characters l) in *.
  apply (wp_ensure_write p u); [done|lia| |].
  - intros p' w' Hg Ha. split; [done|]. intros s' [= <-]. rewrite Hq.
    by replace (zlen u + (n + 2) + 2) with (zlen u + (n + 3) + 1) by lia.
  - intros p1 w1 Hh1 Hs1 Hl1 Hc1 Ha1. apply wp_bind, (wp_write_here p1 u); [done|change (zlen [34]) with 1; lia|].
    intros p2 Hk2 Hs2 Ho2 Hl2. apply wp_bind. rewrite Ho2.
    replace (zlen u + 1) with (zlen (u ++ [34])) by zl.
    assert (forall Q : printbuffer -> world -> Prop,
      (forall p', known p' ((u ++ [34]) ++ escaped l) -> same p2 p' -> p_offset p' = p_offset p2 -> p_length p' = p_length p2 -> Q p' w1) ->
      wp False (if escape_characters l =? 0 then write_bytes p2 (zlen (u ++ [34])) l else escape_loop l (zlen (u ++ [34])) p2) Q w1) as Hcopy.
    { intros Q HQ. destruct (Z.eqb_spec (escape_characters l) 0) as [E|E].
      - apply wp_write; [done|zl|]. rewrite escaped_none in HQ by done. done.
      - apply escape_loop_run; [done| |done]. rewrite escaped_length. zl. }
    apply Hcopy. intros p3 Hk3 Hs3 Ho3 Hl3. apply wp_bind.
    assert (zlen u + 1 + n = zlen ((u ++ [34]) ++ escaped l)) as Hpos by (rewrite !zlen_app, escaped_length; unfold n; zl).
    rewrite Ho3, Ho2. replace (zlen u + n + 1) with (zlen u + 1 + n) by lia. rewrite Hpos.
    apply wp_write; [done|change (zlen [34; 0]) with 2; lia|]. intros p4 Hk4 Hs4 Ho4 Hl4.
    apply wp_ret. split; [done|]. exists (quoted (Some s)). rewrite Hq. destruct Hh1.
    split_and!; [done| |lia|lia| |lia|lia].
    + unfold quoted. cbn [default id]. fold l. fold (escaped l). rewrite <- !app_assoc in Hk4.
      cbn [app] in *. by rewrite <- app_assoc.
    + do 3 (eapply same_trans; [eassumption|]). done.
Qed.

(** * Sequences *)

Lemma written_length_run l r w :
  Forall (fun c => 0 < c) l -> written_length ((Some <$> l) ++ Some 0 :: r) w = Ok (zlen l, w).
Proof.
  induction 1 as [|c l Hc _ IH]; [done|]. cbn. rewrite (proj2 (Z.eqb_neq c 0)) by lia.
  unfold bind. rewrite IH. unfold ret. do 2 f_equal. zl.
Qed.

Lemma wp_update_known p u s (Q : printbuffer -> world -> Prop) w :
  known p (u ++ s ++ [0]) -> zlen u <= p_offset p <= zlen u + zlen s -> p_length p <= INT_MAX ->
  Forall (fun c => 0 < c) s ->
  (forall p', holds p' (u ++ s) -> known p' (u ++ s ++ [0]) -> same p p' -> Q p' w) ->
  wp False (update_offset p) Q w.
Proof.
  intros Hk Ho Hm Hs HQ. pose proof Hk as (buf & Hb & Hz & Hl & Ht). unfold update_offset. rewrite Hb.
  assert (buf = (Some <$> (u ++ s)) ++ Some 0 :: drop (length (u ++ s ++ [0])) buf) as Hbuf.
  { rewrite <- (take_drop (length (u ++ s ++ [0])) buf) at 1. rewrite Ht.
    by rewrite (app_assoc u s), !fmap_app, <- !app_assoc. }
  set (r := drop _ buf) in *. set (k := Z.to_nat (p_offset p - zlen u)).
  assert (drop (Z.to_nat (p_offset p)) buf = (Some <$> drop k s) ++ Some 0 :: r) as Hd.
  { rewrite Hbuf at 1. unfold zlen in *. rewrite drop_app_le by (rewrite length_fmap, length_app; lia).
    f_equal. rewrite <- fmap_drop. f_equal. rewrite drop_app_ge by lia. f_equal. unfold k, zlen. lia. }
  apply wp_bind. unfold wp at 1. rewrite Hd, written_length_run by (by apply Forall_drop).
  apply wp_ret, HQ; [|by destruct Hk as (b' & ? & ? & ? & ?); exists b'|by split].
  assert (p_offset p + zlen (drop k s) = zlen (u ++ s)) as Ho'.
  { unfold zlen in *. rewrite length_drop, length_app. unfold k. lia. }
  rewrite app_assoc in Hk. split; cbn [p_offset add_offset p_length]; [|done|left|done].
  - apply known_prefix in Hk as (b' & ? & ? & ? & ?). by exists b'.
  - rewrite !zlen_app in *. change (zlen [0]) with 1 in Hl. lia.
Qed.

Lemma wp_update p u s (Q : printbuffer -> world -> Prop) w :
  known p (u ++ s ++ [0]) -> zlen u <= p_offset p <= zlen u + zlen s -> p_length p <= INT_MAX ->
  Forall (fun c => 0 < c) s ->
  (forall p', holds p' (u ++ s) -> same p p' -> Q p' w) -> wp False (update_offset p) Q w.
Proof. intros Hk Ho Hm Hs HQ. apply (wp_update_known p u s); auto. Qed.

(** One piece: room for [n] bytes, the bytes [l] and perhaps a terminator. *)
Lemma wp_piece p u n (mf : printbuffer -> Z) (lf : printbuffer -> list Z) l z k
    (Q : bool * printbuffer -> world -> Prop) w :
  holds p u -> (forall p', same p p' -> lf p' = l ++ z) -> (forall p', same p p' -> mf p' = zlen l) ->
  zlen l + zlen z <= n + 1 -> zlen l <= n ->
  (forall p' w', gave_up p w (zlen u + n + 1) -> (w_alloc w = [] -> w_alloc w' = []) -> Q (false, p') w') ->
  (forall p' w', holds p' (u ++ l) -> same p p' -> (w_alloc w = [] -> w_alloc w' = []) -> wp False (k p') Q w') ->
  wp False (ensure_write p n (fun p =>
    let! p := write_bytes p (p_offset p) (lf p) in k (add_offset (mf p) p))) Q w.
Proof.
  intros Hh Hlf Hmf Hn Hn' HF HT. pose proof (zlen_nonneg l). apply (wp_ensure_write p u); [done|lia|done|].
  intros p1 w1 Hh1 Hs1 Hl1 Hc1 Ha1. apply wp_bind, (wp_write_here p1 u); [done|rewrite Hlf, zlen_app by done; lia|].
  intros p2 Hk2 Hs2 Ho2 Hl2. rewrite Hlf, app_assoc in Hk2 by done. assert (same p p2) as Hs by by eapply same_trans.
  rewrite Hmf by done. apply HT; [|by destruct Hs; split|done].
  destruct Hh1. apply known_prefix in Hk2 as (b & Hb & Hz & Hlen & Ht).
  split; cbn [add_offset p_offset p_length]; [by exists b|rewrite Ho2; zl|left; rewrite zlen_app; lia|lia].
Qed.

(** The result of printing [t] after [u] and going on behind it. *)
Definition runs (u : list Z) (p : printbuffer) (w : world) (t : option (list Z))
    (r : bool * printbuffer) (w' : world) : Prop :=
  (w_alloc w = [] -> w_alloc w' = []) /\
  match r with
  | (true, p') => exists s, t = Some s /\ holds p' (u ++ s) /\ same p p'
  | (false, _) => forall s, t = Some s -> gave_up p w (zlen u + zlen s + 2)
  end.

(** [t] after [x]. *)
Definition after (x : list Z) (t : option (list Z)) : option (list Z) := s ← t; Some (x ++ s).

(** Going on after a first piece [x]. *)
Lemma runs_app u x p p' w w1 t r w' :
  same p p' -> (w_alloc w = [] -> w_alloc w1 = []) -> runs (u ++ x) p' w1 t r w' -> runs u p w (after x t) r w'.
Proof.
  intros Hs Ha [Ha' Hr]. split; [auto|]. destruct r as [[] q].
  - destruct Hr as (s & -> & Hh & Hs'). exists (x ++ s). split; [done|]. rewrite app_assoc.
    split; [done|by eapply same_trans].
  - intros s. destruct t as [s'|]; [|done]. cbn. intros [= <-].
    eapply gave_up_mono; [done..| |by apply Hr]. rewrite !zlen_app. lia.
Qed.

Lemma runs_nil u p w : holds p u -> runs u p w (Some []) (true, p) w.
Proof. intros. split; [done|]. exists []. rewrite app_nil_r. split; [done|]. split; [done|apply same_refl]. Qed.

(** A piece and what follows. *)
Lemma runs_piece p u n mf lf l z k t w :
  holds p u -> (forall p', same p p' -> lf p' = l ++ z) -> (forall p', same p p' -> mf p' = zlen l) ->
  zlen l + zlen z <= n + 1 -> zlen l <= n <= zlen l + 1 ->
  (forall p' w', holds p' (u ++ l) -> same p p' -> wp False (k p') (runs (u ++ l) p' w' t) w') ->
  wp False (ensure_write p n (fun p =>
    let! p := write_bytes p (p_offset p) (lf p) in k (add_offset (mf p) p))) (runs u p w (after l t)) w.
Proof.
  intros Hh Hlf Hmf Hn Hn' Hk. eapply (wp_piece p u _ _ _ l z); [done..|lia| |].
  - intros q w' Hg Ha. split; [done|]. intros s. destruct t as [s'|]; [|done]. cbn. intros [= <-].
    eapply gave_up_le; [|exact Hg]. pose proof (zlen_nonneg s'). rewrite zlen_app. lia.
  - intros p1 w1 Hh1 Hs1 Ha1. eapply wp_mono; [by apply Hk|]. intros r w'. by apply runs_app.
Qed.

(** A value, [update_offset] and what follows. *)
Lemma runs_value p u (c : M (bool * printbuffer)) x k t w :
  wp False c (prints u p w x) w -> (forall s, x = Some s -> Forall (fun c => 0 < c) s) ->
  (forall s p' w', x = Some s -> holds p' (u ++ s) -> same p p' -> wp False (k p') (runs (u ++ s) p' w' t) w') ->
  wp False (let! (ok, p) := c in
            if negb ok then ret (false, p) else let! p := update_offset p in k p)
    (runs u p w (s ← x; after s t)) w.
Proof.
  intros Hc Hpos Hk. apply wp_bind. eapply wp_mono; [exact Hc|]. intros [[] p1] w1 [Ha1 Hr]; cbn [negb].
  - destruct Hr as (s & -> & Hk1 & Ho & Hs & Hm & _). apply wp_bind. eapply wp_update; [done..|by apply Hpos|].
    intros p2 Hh2 Hs2. assert (same p p2) as Hsp by by eapply same_trans.
    eapply wp_mono; [by apply Hk|]. intros r w'. by apply runs_app.
  - apply wp_ret. split; [done|]. intros s. destruct x as [s1|]; [|done]. destruct t as [s2|]; [|done].
    cbn. intros [= <-]. eapply gave_up_le; [|by apply Hr]. pose proof (zlen_nonneg s2). rewrite zlen_app. lia.
Qed.

(** The last piece. *)
Lemma prints_close p u p0 u0 n (nf : printbuffer -> Z) (lf : printbuffer -> list Z) l (c : M (bool * printbuffer)) x t w :
  wp False c (runs u p w t) w -> u = u0 ++ x -> same p0 (add_depth (-1) p) -> p_noalloc p = p_noalloc p0 -> cap p = cap p0 ->
  (forall p', same p p' -> nf p' = n) -> n = zlen l + 1 -> (forall p', same p p' -> lf p' = l ++ [0]) ->
  wp False (let! (ok, p) := c in
            if negb ok then ret (false, p) else
            ensure_write p (nf p) (fun p =>
              let! p := write_bytes p (p_offset p) (lf p) in ret (true, add_depth (-1) p)))
    (prints u0 p0 w (s ← t; Some (x ++ s ++ l))) w.
Proof.
  intros Hc -> Hs0 Hna Hcap Hnf -> Hlf. pose proof (zlen_nonneg l). pose proof (zlen_nonneg x).
  assert (forall n, gave_up p w n -> gave_up p0 w n) as Hg0 by (unfold gave_up; by rewrite Hna, Hcap).
  apply wp_bind. eapply wp_mono; [exact Hc|]. intros [[] p1] w1 [Ha1 Hr]; cbn [negb].
  - destruct Hr as (s & -> & Hh1 & Hs1). pose proof (zlen_nonneg s). rewrite Hnf by done. cbn.
    apply (wp_ensure_write p1 ((u0 ++ x) ++ s)); [done|lia| |].
    + intros q w' Hg Ha. split; [auto|]. intros s' [= <-]. apply Hg0.
      eapply gave_up_mono; [done..| |exact Hg]. rewrite !zlen_app. lia.
    + intros p2 w2 Hh2 Hs2 Hl2 Hc2 Ha2. assert (same p p2) as Hsp by by eapply same_trans.
      apply wp_bind, (wp_write_here p2 ((u0 ++ x) ++ s)); [done|rewrite Hlf by done; zl|]. rewrite Hlf by done.
      intros p3 Hk3 Hs3 Ho3 Hl3. apply wp_ret. split; [auto|]. exists (x ++ s ++ l). destruct Hh2.
      rewrite <- !app_assoc in Hk3. rewrite (same_cap _ _ Hs1), Hcap in Hc2. rewrite !zlen_app in *.
      split_and!; [done| |cbn; lia|cbn; lia| |cbn; lia|lia].
      * rewrite <- !app_assoc. destruct Hk3 as (b & ? & ? & ? & ?). by exists b.
      * assert (same p p3) as [] by by eapply same_trans. destruct Hs0. split; cbn in *; try congruence.
        intros Hn. rewrite <- sa_length1 by done. apply sa_length0. congruence.
  - apply wp_ret. split; [done|]. intros s. destruct t as [s'|]; [|done]. cbn. intros [= <-].
    apply Hg0. eapply gave_up_le; [|by apply Hr]. rewrite !zlen_app. lia.
Qed.

Section Nested.
Context (fmt : bool) (d : nat) (pv : cJSON -> printbuffer -> M (bool * printbuffer)) (rv : cJSON -> option (list Z)).

(** The printer of the children, at depth [d]. *)
Definition printer_ok (i : cJSON) : Prop :=
  (forall p u w, holds p u -> p_depth p = Z.of_nat d -> p_format p = fmt -> wp False (pv i p) (prints u p w (rv i)) w) /\
  (forall t, rv i = Some t -> Forall (fun c => 0 < c) t) /\
  Forall (fun c => 0 < c) (quoted (cj_string i)).

Lemma print_elements_runs l p u w :
  Forall printer_ok l -> holds p u -> p_depth p = Z.of_nat d -> p_format p = fmt ->
  wp False (print_elements pv l p) (runs u p w (render_elements fmt rv l)) w.
Proof.
  intros Hl. revert p u w. induction Hl as [|x l [Hx [Hpos _]] Hl IH]; intros p u w Hh Hd Hf;
    cbn [print_elements render_elements]; [by apply wp_ret, runs_nil|].
  set (rest := match l with [] => Some [] | _ => after (separator fmt) (render_elements fmt rv l) end).
  assert ((t ← rv x; match l with [] => Some t | _ => s ← render_elements fmt rv l; Some (t ++ separator fmt ++ s) end)
          = (s ← rv x; after s rest)) as ->.
  { destruct (rv x) as [t|]; [|done]. unfold rest, after. destruct l; [by cbn; rewrite app_nil_r|].
    by destruct (render_elements _ _ _). }
  apply runs_value; [by apply Hx|done|]. intros t p1 w1 _ Hh1 [Hd1 _ Hf1 _ _]. rewrite Hf in Hf1.
  unfold rest. destruct l as [|y l]; [by apply wp_ret, runs_nil|].
  assert (zlen (separator fmt) = if fmt then 2 else 1) as Hsep by by destruct fmt. rewrite Hf1.
  eapply (runs_piece p1 _ _ (fun _ => if fmt then 2 else 1) _ (separator fmt) [0]);
    [done| |by intros|rewrite Hsep; cbn; by destruct fmt|rewrite Hsep; lia|].
  - intros p' [_ _ Hf' _ _]. rewrite Hf', Hf1. by destruct fmt.
  - intros p2 w2 Hh2 [Hd2 _ Hf2 _ _]. apply IH; congruence.
Qed.

(** The pieces of a member. *)
Definition tabs : list Z := if fmt then replicate d 9 else [].
Definition colon : list Z := 58 :: if fmt then [9] else [].
Definition member_end (next : list cJSON) : list Z :=
  match next with [] => [] | _ => [44] end ++ if fmt then [10] else [].

Lemma print_tabs_runs p u k t w :
  holds p u -> p_depth p = Z.of_nat d -> p_format p = fmt ->
  (forall p' w', holds p' (u ++ tabs) -> same p p' -> wp False (k p') (runs (u ++ tabs) p' w' t) w') ->
  wp False (print_tabs p k) (runs u p w (after tabs t)) w.
Proof.
  intros Hh Hd Hf Hk. unfold print_tabs. rewrite Hf. destruct fmt eqn:Hfmt.
  - assert (zlen tabs = Z.of_nat d) as Hz by (unfold tabs, zlen; rewrite Hfmt, length_replicate; lia).
    eapply (runs_piece p u _ p_depth _ tabs []); [done| | | | |done].
    + intros p' [Hd' _ _ _ _]. rewrite Hd', Hd, Nat2Z.id, app_nil_r. unfold tabs. by rewrite Hfmt.
    + intros p' [Hd' _ _ _ _]. lia.
    + rewrite Hd, Hz. change (zlen []) with 0. lia.
    + rewrite Hd, Hz. lia.
  - assert (tabs = []) as Ht by (unfold tabs; by rewrite Hfmt). rewrite Ht in *.
    specialize (Hk p w). rewrite app_nil_r in Hk.
    assert (after [] t = t) as -> by (by destruct t). apply Hk; [done|apply same_refl].
Qed.

(** What follows the value of a member. *)
Definition member_rest (next : list cJSON) (p : printbuffer) : M (bool * printbuffer) :=
  let comma := match next with [] => [] | _ => [44] end in
  let newline := if p_format p then [10] else [] in
  let length := zlen newline + zlen comma in
  ensure_write p (length + 1) (fun p =>
    let! p := write_bytes p (p_offset p) (comma ++ newline ++ [0]) in
    print_members pv next (add_offset length p)).

Lemma print_members_runs l p u w :
  Forall printer_ok l -> holds p u -> p_depth p = Z.of_nat d -> p_format p = fmt ->
  wp False (print_members pv l p) (runs u p w (render_members fmt rv d l)) w.
Proof.
  intros Hl. revert p u w. induction Hl as [|x l [Hx [Hpos Hkey]] Hl IH]; intros p u w Hh Hd Hf;
    cbn [print_members render_members]; [by apply wp_ret, runs_nil|].
  set (rest := render_members fmt rv d l) in *.
  assert ((t ← rv x; s ← rest; Some ((if fmt then replicate d 9 else []) ++ quoted (cj_string x) ++
             (58 :: if fmt then [9] else []) ++ t ++ (match l with [] => [] | _ => [44] end ++ if fmt then [10] else []) ++ s))
          = after tabs (s ← Some (quoted (cj_string x)); after s (after colon
              (s ← rv x; after s (after (member_end l) rest))))) as ->.
  { destruct (rv x); [|done]. destruct rest; [|done]. unfold after, tabs, colon, member_end. done. }
  apply print_tabs_runs; [done..|]. intros p1 w1 Hh1 [Hd1 _ Hf1 _ _]. rewrite Hf in Hf1. rewrite Hd in Hd1.
  apply runs_value; [by apply print_string_ptr_prints|by intros s [= <-]|].
  intros _ p2 w2 [= <-] Hh2 [Hd2 _ Hf2 _ _]. rewrite Hf1 in Hf2. rewrite Hd1 in Hd2. rewrite Hf2.
  assert (zlen colon = if fmt then 2 else 1) as Hcol by (unfold colon; by destruct fmt).
  eapply (runs_piece p2 _ _ (fun _ => if fmt then 2 else 1) (fun p => 58 :: (if p_format p then [9] else [])) colon []
            (fun p => let! (ok, p) := pv x p in
                      if negb ok then ret (false, p) else let! p := update_offset p in member_rest l p));
    [done| |by intros|rewrite Hcol; change (zlen []) with 0; lia|rewrite Hcol; lia|].
  { intros p' [_ _ Hf' _ _]. rewrite Hf', Hf2, app_nil_r. done. }
  intros p3 w3 Hh3 [Hd3 _ Hf3 _ _]. rewrite Hf2 in Hf3. rewrite Hd2 in Hd3.
  apply runs_value; [by apply Hx|done|]. intros t p4 w4 _ Hh4 [Hd4 _ Hf4 _ _]. rewrite Hf3 in Hf4. rewrite Hd3 in Hd4.
  unfold member_rest. rewrite Hf4. set (comma := match l with [] => [] | _ => [44] end).
  assert (zlen (if fmt then [10] else []) + zlen comma = zlen (member_end l)) as Hend
    by (unfold member_end; rewrite zlen_app; fold comma; lia). rewrite Hend.
  pose proof (zlen_nonneg (member_end l)).
  eapply (runs_piece p4 _ _ (fun _ => zlen (member_end l)) _ (member_end l) [0]);
    [done| |by intros|change (zlen [0]) with 1; lia|lia|].
  { intros p' [_ _ Hf' _ _]. unfold member_end. by rewrite <- app_assoc. }
  intros p5 w5 Hh5 [Hd5 _ Hf5 _ _]. apply IH; congruence.
Qed.
End Nested.

(** The buffer one level deeper. *)
Lemma holds_deeper p u : holds p u -> holds (add_depth 1 p) u.
Proof. intros [(b & ? & ? & ? & ?) ? ? ?]. split; [by exists b|done..]. Qed.

Lemma prints_world u p w w1 t r w' :
  (w_alloc w = [] -> w_alloc w1 = []) -> prints u p w1 t r w' -> prints u p w t r w'.
Proof.
  intros Ha [Ha' Hr]. split; [auto|]. destruct r as [[] q]; [done|]. intros s Hs.
  eapply gave_up_mono; [apply same_refl|exact Ha|reflexivity|by apply Hr].
Qed.

(** An opening piece, the children one level deeper and a closing piece. *)
Lemma nested_prints p u n1 l1 (lf1 : printbuffer -> list Z) (body : printbuffer -> M (bool * printbuffer))
    (nf : printbuffer -> Z) lf l t w :
  holds p u -> (forall p', same p p' -> lf1 p' = l1) -> zlen l1 <= n1 <= zlen l1 + 1 ->
  (forall p' w', holds p' (u ++ l1) -> same p p' -> wp False (body (add_depth 1 p')) (runs (u ++ l1) (add_depth 1 p') w' t) w') ->
  (forall p', p_format p' = p_format p -> p_depth p' = p_depth p + 1 -> nf p' = zlen l + 1 /\ lf p' = l ++ [0]) ->
  wp False (ensure_write p n1 (fun p =>
    let! p := write_bytes p (p_offset p) (lf1 p) in
    let! (ok, p) := body (add_depth 1 (add_offset (zlen l1) p)) in
    if negb ok then ret (false, p) else
    ensure_write p (nf p) (fun p =>
      let! p := write_bytes p (p_offset p) (lf p) in ret (true, add_depth (-1) p))))
    (prints u p w (s ← t; Some (l1 ++ s ++ l))) w.
Proof.
  intros Hh Hlf1 Hn1 Hbody Hclose.
  eapply (wp_piece p u n1 (fun _ => zlen l1) lf1 l1 [] (fun p =>
    let! (ok, p) := body (add_depth 1 p) in
    if negb ok then ret (false, p) else
    ensure_write p (nf p) (fun p => let! p := write_bytes p (p_offset p) (lf p) in ret (true, add_depth (-1) p))));
    [done|intros; rewrite app_nil_r; auto|done|change (zlen []) with 0; lia|lia| |].
  - intros q w' Hg Ha. split; [done|]. intros s. destruct t as [s'|]; [|done]. cbn. intros [= <-].
    eapply gave_up_le; [|exact Hg]. pose proof (zlen_nonneg s'). pose proof (zlen_nonneg l). rewrite !zlen_app. lia.
  - intros p1 w1 Hh1 Hs1 Ha1. pose proof Hs1 as [Hd1 Hna1 Hf1 Hr1 Hl1].
    assert (forall p', same (add_depth 1 p1) p' -> nf p' = zlen l + 1 /\ lf p' = l ++ [0]) as Hcl.
    { intros p' [Hd' _ Hf' _ _]. cbn in *. apply Hclose; [congruence|lia]. }
    eapply wp_mono; [|intros r w'; by apply prints_world].
    eapply (prints_close (add_depth 1 p1) (u ++ l1) p u (zlen l + 1) nf lf l _ l1).
    + by apply Hbody.
    + done.
    + split; cbn; [lia|done..].
    + done.
    + by apply (same_cap p p1).
    + intros p' Hp'. by apply Hcl.
    + done.
    + intros p' Hp'. by apply Hcl.
Qed.

Lemma print_array_prints fmt d pv rv child p u w :
  Forall (printer_ok fmt (S d) pv rv) child -> holds p u -> p_depth p = Z.of_nat d -> p_format p = fmt ->
  wp False (print_array pv child p) (prints u p w (s ← render_elements fmt rv child; Some (91 :: s ++ [93]))) w.
Proof.
  intros Hc Hh Hd Hf. apply (nested_prints p u 1 [91] (fun _ => [91]) (print_elements pv child) (fun _ => 2) (fun _ => [93; 0]) [93]);
    try done.
  intros p1 w1 Hh1 [Hd1 _ Hf1 _ _]. apply (print_elements_runs fmt (S d)); [done|by apply holds_deeper|cbn; lia|cbn; congruence].
Qed.

Lemma print_object_prints fmt d pv rv child p u w :
  Forall (printer_ok fmt (S d) pv rv) child -> holds p u -> p_depth p = Z.of_nat d -> p_format p = fmt ->
  wp False (print_object pv child p)
    (prints u p w (s ← render_members fmt rv (S d) child;
       Some ((123 :: if fmt then [10] else []) ++ s ++ (if fmt then replicate d 9 else []) ++ [125]))) w.
Proof.
  intros Hc Hh Hd Hf. unfold print_object. rewrite Hf.
  assert (zlen (123 :: if fmt then [10] else []) = if fmt then 2 else 1) as Hz by by destruct fmt. rewrite <- Hz.
  apply (nested_prints p u _ (123 :: if fmt then [10] else []) (fun p => 123 :: if p_format p then [10] else [])
           (print_members pv child) (fun p => if p_format p then p_depth p + 1 else 2)
           (fun p => (if p_format p then replicate (Z.to_nat (p_depth p - 1)) 9 else []) ++ [125; 0])
           ((if fmt then replicate d 9 else []) ++ [125])); [done| |lia| |].
  - intros p' [_ _ Hf' _ _]. by rewrite Hf', Hf.
  - intros p1 w1 Hh1 [Hd1 _ Hf1 _ _]. apply (print_members_runs fmt (S d)); [done|by apply holds_deeper|cbn; lia|cbn; congruence].
  - intros p' Hf' Hd'. rewrite Hf', Hf, Hd', Hd. replace (Z.to_nat (Z.of_nat d + 1 - 1)) with d by lia.
    split; [|by rewrite <- app_assoc]. rewrite zlen_app. destruct fmt; [|done].
    unfold zlen. rewrite length_replicate. cbn. lia.
Qed.

(** * Items *)

Definition node_ok (i : cJSON) : Prop :=
  double_ok (cj_valuedouble i) /\ Forall byte_ok (default [] (cj_valuestring i)) /\
  Forall byte_ok (default [] (cj_string i)).

(** Every node of the tree satisfies [P]. *)
Inductive tree (P : cJSON -> Prop) : cJSON -> Prop :=
| tree_node i : P i -> Forall (tree P) (cj_child i) -> tree P i.

Lemma cJSON_nested_ind (P : cJSON -> Prop) :
  (forall t v n d s c, Forall P c -> P (mk_cJSON t v n d s c)) -> forall i, P i.
Proof.
  intros H. fix IH 1. intros [t v n d s c]. apply H. induction c as [|x c IHc]; constructor; [apply IH|exact IHc].
Qed.

Lemma c_string_pos l : Forall byte_ok l -> Forall byte_ok (c_string l) /\ Forall (fun c => 0 < c) (c_string l).
Proof.
  induction 1 as [|c l Hc _ [IH1 IH2]]; cbn; [by split|]. destruct (Z.eqb_spec c 0); [by split|].
  unfold byte_ok in Hc. split; constructor; try done; unfold byte_ok; lia.
Qed.

Lemma escape_pos c : 0 < c < 256 -> Forall (fun c => 0 < c) (escape c).
Proof.
  intros Hc. unfold escape. destruct (_ && _) eqn:E; [by repeat constructor; lia|].
  constructor; [lia|]. destruct (short_escape c) as [x|] eqn:Hx.
  - constructor; [|done]. unfold short_escape in Hx. repeat case_match; simplify_eq; lia.
  - assert (forall d, 0 <= d -> 0 < hex_char d) as Hhex by (intros; unfold hex_char; case_match; lia).
    pose proof (Z.mod_pos_bound c 16 ltac:(lia)). pose proof (Z.div_pos c 16 ltac:(lia) ltac:(lia)).
    repeat constructor; try lia; apply Hhex; lia.
Qed.

Lemma quoted_pos s : Forall byte_ok (default [] s) -> Forall (fun c => 0 < c) (quoted s).
Proof.
  intros H. apply c_string_pos in H as [Hb Hp]. unfold quoted. constructor; [lia|]. apply Forall_app.
  split; [|repeat constructor; lia]. apply Forall_concat, Forall_map.
  rewrite Forall_forall in Hb, Hp |- *. intros c Hc. apply escape_pos. split; [by apply Hp|by apply Hb].
Qed.

Section RenderPos.
Context (fmt : bool) (rv : cJSON -> option (list Z)).
Let pos (t : list Z) : Prop := Forall (fun c => 0 < c) t.

Lemma render_elements_pos l t :
  Forall (fun i => forall t, rv i = Some t -> pos t) l -> render_elements fmt rv l = Some t -> pos t.
Proof.
  intros Hl. revert t. induction Hl as [|x l Hx _ IH]; intros t; cbn [render_elements]; [intros [= <-]; constructor|].
  destruct (rv x) as [s|]; [|done]. cbn [mbind option_bind]. destruct l; [intros E; by apply (Hx t)|].
  destruct (render_elements fmt rv _) as [r|]; [|done]. cbn. intros [= <-]. unfold pos in *.
  apply Forall_app. split; [by apply (Hx s)|]. constructor; [lia|]. apply Forall_app.
  split; [destruct fmt; repeat constructor; lia|by apply IH].
Qed.

Lemma render_members_pos k l t :
  Forall (fun i => forall t, rv i = Some t -> pos t) l -> Forall (fun i => pos (quoted (cj_string i))) l ->
  render_members fmt rv k l = Some t -> pos t.
Proof.
  intros Hl. revert t. induction Hl as [|x l Hx _ IH]; intros t Hq; cbn [render_members]; [intros [= <-]; constructor|].
  apply Forall_cons in Hq as [Hq1 Hq2].
  destruct (rv x) as [s|]; [|done]. destruct (render_members fmt rv k l) as [r|]; [|done].
  cbn [mbind option_bind]. intros E. apply (inj Some) in E as <-. unfold pos in *. rewrite !Forall_app.
  split_and!; try done.
  - destruct fmt; [apply Forall_replicate; lia|done].
  - constructor; [lia|]. destruct fmt; repeat constructor; lia.
  - by apply Hx.
  - destruct l; repeat constructor; lia.
  - destruct fmt; repeat constructor; lia.
  - by apply IH.
Qed.
End RenderPos.

Lemma tree_inv P i : tree P i -> P i /\ Forall (tree P) (cj_child i).
Proof. by intros []. Qed.

Lemma tree_root P i : tree P i -> P i.
Proof. by intros []. Qed.

Lemma keys_pos l : Forall (tree node_ok) l -> Forall (fun i => Forall (fun c => 0 < c) (quoted (cj_string i))) l.
Proof. intros H. eapply Forall_impl; [exact H|]. intros i [_ [_ Hs]]%tree_root. by apply quoted_pos. Qed.

Lemma render_pos fmt d i t : tree node_ok i -> render fmt d i = Some t -> Forall (fun c => 0 < c) t.
Proof.
  revert d t. induction i as [ty v n db s c IH] using cJSON_nested_ind. intros d t Hi.
  apply tree_inv in Hi as [(Hd & Hv & _) Hc]. cbn in Hd, Hv, Hc. cbn [render].
  assert (forall k, Forall (fun i => forall t, render fmt k i = Some t -> Forall (fun c => 0 < c) t) c) as Hch.
  { intros k. rewrite Forall_forall in IH, Hc |- *. intros x Hx t' Ht'. by eapply IH; [| |exact Ht']; [|apply Hc]. }
  repeat match goal with |- context [Z.land ty 255 =? ?x] => destruct (Z.land ty 255 =? x) end;
    try done; try (intros [= <-]; by repeat constructor).
  - intros [= <-]. by apply number_text_ok.
  - destruct v as [v|]; [|done]. intros [= <-]. by apply c_string_pos.
  - intros E'. apply (inj Some) in E' as <-. by apply quoted_pos.
  - destruct (render_elements _ _ _) as [e|] eqn:He; [|done]. cbn. intros [= <-].
    apply render_elements_pos in He; [|done]. constructor; [lia|]. apply Forall_app. split; [done|repeat constructor; lia].
  - destruct (render_members _ _ _ _) as [e|] eqn:He; [|done]. intros E'. apply (inj Some) in E' as <-.
    apply render_members_pos in He; [|done|by apply keys_pos]. rewrite !Forall_app. split_and!; try done.
    + constructor; [lia|]. destruct fmt; repeat constructor; lia.
    + destruct fmt; [apply Forall_replicate; lia|done].
    + repeat constructor; lia.
Qed.

(** Printing an item writes its text. *)
Lemma print_value_prints fmt d i p u w :
  tree node_ok i -> holds p u -> p_depth p = Z.of_nat d -> p_format p = fmt ->
  wp False (print_value i p) (prints u p w (render fmt d i)) w.
Proof.
  revert d p u w. induction i as [ty v n db s c IH] using cJSON_nested_ind. intros d p u w Hi Hh Hd Hf.
  apply tree_inv in Hi as [(Hdb & Hv & _) Hc]. cbn in Hdb, Hv, Hc. cbn [print_value render].
  assert (Forall (printer_ok fmt (S d) print_value (render fmt (S d))) c) as Hch.
  { pose proof (keys_pos _ Hc) as Hk. rewrite Forall_forall in IH, Hc, Hk |- *. intros x Hx. split_and!.
    - intros p' u' w' Hh' Hd' Hf'. apply (IH x Hx (S d)); [by apply Hc|done..].
    - intros t Ht. eapply render_pos; [|exact Ht]. by apply Hc.
    - by apply Hk. }
  repeat match goal with |- context [Z.land ty 255 =? ?x] => destruct (Z.land ty 255 =? x) end.
  - by apply print_literal_prints.
  - by apply print_literal_prints.
  - by apply print_literal_prints.
  - by apply (print_number_prints (mk_cJSON ty v n db s c)).
  - unfold print_raw. cbn. destruct v as [v|]; [by apply print_literal_prints|]. by apply wp_ret.
  - by apply print_string_ptr_prints.
  - by eapply print_array_prints.
  - by eapply print_object_prints.
  - by apply wp_ret.
Qed.

(** * The entry points *)

Lemma start_holds p buf :
  p_buffer p = Some buf -> zlen buf = p_length p -> p_offset p = 0 -> 0 < p_length p <= INT_MAX -> holds p [].
Proof.
  intros Hb Hl Ho Hp. split; [|done|left; change (zlen []) with 0; lia|lia]. exists buf.
  split_and!; [done..|change (zlen []) with 0; lia|done].
Qed.

Lemma take_known (buf : list (option Z)) t :
  take (length t) buf = Some <$> t -> exists rest, buf = (Some <$> t) ++ rest.
Proof. intros H. exists (drop (length t) buf). by rewrite <- H, take_drop. Qed.

(** C18: cJSON_PrintPreallocated never writes outside of the buffer of the caller,
    whatever the item: it returns true exactly when the item has a text and the buffer
    has two bytes more than it, and then the buffer starts with the text and its
    terminator and keeps its size. *)
Theorem cJSON_PrintPreallocated_spec i buf len fmt realloc w :
  tree node_ok i -> zlen buf = len -> 0 < len <= INT_MAX ->
  wp False (cJSON_PrintPreallocated (Some i) (Some buf) len fmt realloc) (fun '(ok, buf') _ =>
    match render fmt 0 i with
    | Some t =>
        (ok = true <-> zlen t + 2 <= len) /\
        (ok = true -> exists rest, buf' = Some ((Some <$> t ++ [0]) ++ rest) /\ zlen t + 1 + zlen rest = len)
    | None => ok = false
    end) w.
Proof.
  intros Hi Hlen Hpos. unfold cJSON_PrintPreallocated. rewrite (proj2 (Z.ltb_ge len 0)) by lia. apply wp_bind.
  set (p := mk_printbuffer _ _ _ _ _ _ _).
  eapply wp_mono; [apply (print_value_prints fmt 0 i p []); [done|by apply (start_holds _ buf)|done..]|].
  intros [[] p'] w' [_ Hr]; apply wp_ret.
  - destruct Hr as (t & -> & (b & Hb & Hz & _ & Ht) & _ & Hs & _ & Hc). cbn in Hc. split; [by split|].
    intros _. apply take_known in Ht as [rest ->]. exists rest. split; [done|].
    pose proof (sa_length _ _ Hs eq_refl) as Hl. cbn in Hl. revert Hz. rewrite Hl. unfold zlen.
    rewrite length_app, length_fmap. cbn [app length]. rewrite length_app. change (length [0]) with 1%nat. lia.
  - destruct (render fmt 0 i) as [t|]; [|done]. split; [|done]. split; [done|].
    destruct (Hr t eq_refl) as [[? _]|Hc]; [done|]. unfold cap in Hc. cbn in Hc. change (zlen []) with 0 in Hc. lia.
Qed.

(** The string that [print] returns after the text [t] was written. *)
Lemma print_result p t buf (realloc : bool) w :
  holds p t -> known p (t ++ [0]) -> p_buffer p = Some buf ->
  (if realloc then ret (Some (take (Z.to_nat (p_offset p + 1)) buf ++ unknown (p_offset p + 1 - zlen buf)))
   else
     let n := Z.min (p_length p) (p_offset p + 1) in
     if zlen buf <? n then ub else
     ret (Some (<[Z.to_nat (p_offset p) := Some 0]> (take (Z.to_nat n) buf ++ unknown (p_offset p + 1 - n))))) w
  = Ok (Some (Some <$> t ++ [0]), w).
Proof.
  intros [_ Ho _ _] (b & Hb & Hz & Hl & Ht) Hbuf. assert (b = buf) as -> by congruence. rewrite Ho. rewrite zlen_app in Hl.
  change (zlen [0]) with 1 in Hl. pose proof (zlen_nonneg t).
  replace (length (t ++ [0])) with (Z.to_nat (zlen t + 1)) in Ht by (unfold zlen; rewrite length_app; cbn; lia).
  rewrite Hz. destruct realloc.
  - unfold unknown. rewrite Ht. replace (Z.to_nat (zlen t + 1 - p_length p)) with 0%nat by lia. by rewrite app_nil_r.
  - cbv zeta. rewrite Z.min_r by lia. rewrite (proj2 (Z.ltb_ge _ _)) by lia. rewrite Ht, Z.sub_diag.
    unfold unknown. cbn [Z.to_nat replicate]. rewrite app_nil_r, fmap_app.
    replace (Z.to_nat (zlen t)) with (length (Some <$> t) + 0)%nat by (rewrite length_fmap; unfold zlen; lia).
    by rewrite insert_app_r.
Qed.

(** The string of [print]: the text of the item, or nothing when an allocation failed or
    the text does not fit in INT_MAX bytes. *)
Lemma print_spec i fmt realloc w :
  tree node_ok i ->
  wp False (print (Some i) fmt realloc) (fun r _ =>
    match r with
    | Some s => exists t, render fmt 0 i = Some t /\ s = Some <$> t ++ [0]
    | None => forall t, render fmt 0 i = Some t -> w_alloc w <> [] \/ INT_MAX < zlen t + 2
    end) w.
Proof.
  intros Hi. unfold print. apply wp_bind. unfold wp at 1.
  destruct (malloc_ok w) as [[ok w1]| | |] eqn:Hm; unfold malloc_ok in Hm; [|by destruct (w_alloc w)..].
  assert (w_alloc w = [] -> ok = true /\ w_alloc w1 = []) as Ha by (by intros E; rewrite E in Hm; simplify_eq).
  destruct ok; cbn [negb]; [|apply wp_ret; intros t _; left; intros E; by destruct (Ha E)].
  set (p := mk_printbuffer _ _ _ _ _ _ _). apply wp_bind.
  eapply wp_mono; [apply (print_value_prints fmt 0 i p []); [done|by eapply (start_holds p)|done..]|].
  intros [[] p1] w2 [Ha2 Hr]; cbn [negb].
  - destruct Hr as (t & Et & Hk & Ho & Hs & Hmax & Hc).
    apply wp_bind, (wp_update_known p1 [] t); [done..|by eapply render_pos|].
    intros p2 Hh Hk2 Hs2. pose proof Hk2 as (buf & Hb2 & _). rewrite Hb2. apply wp_bind. unfold wp at 1.
    destruct (malloc_ok w2) as [[ok w3]| | |] eqn:Hm2; unfold malloc_ok in Hm2; [|by destruct (w_alloc w2)..].
    destruct ok; cbn [negb].
    + unfold wp. rewrite (print_result p2 t) by done. by exists t.
    + apply wp_ret. intros t' _. left. intros E. destruct (Ha E) as [_ E1]. rewrite (Ha2 E1) in Hm2. simplify_eq.
  - apply wp_ret. intros t Et. destruct (Hr t Et) as [[_ Hw]|Hc]; [left|right].
    + intros E. by destruct (Ha E) as [_ ?].
    + unfold cap in Hc. cbn in Hc. change (zlen []) with 0 in Hc. lia.
Qed.

(** C7: cJSON_Print and cJSON_PrintUnformatted never read or write outside of their
    buffer and never run into bytes that were not written, whichever allocations fail.
    The string they return is the text of the item and its terminator, and they return
    one whenever the item has a text, no allocation fails and the text with two more bytes
    is not longer than INT_MAX. *)
Theorem cJSON_Print_spec i (fmt : bool) realloc w :
  tree node_ok i ->
  wp False ((if fmt then cJSON_Print else cJSON_PrintUnformatted) (Some i) realloc) (fun r _ =>
    (forall s, r = Some s -> exists t, render fmt 0 i = Some t /\ s = Some <$> t ++ [0]) /\
    (forall t, w_alloc w = [] -> render fmt 0 i = Some t -> zlen t + 2 <= INT_MAX -> r = Some (Some <$> t ++ [0]))) w.
Proof.
  intros Hi. assert ((if fmt then cJSON_Print else cJSON_PrintUnformatted) (Some i) realloc
    = print (Some i) fmt realloc) as -> by (by destruct fmt).
  eapply wp_mono; [by apply print_spec|]. intros [s|] w' Hr; split.
  - by intros ? [= <-].
  - intros t Ha Ht Hl. destruct Hr as (t' & Ht' & ->). congruence.
  - done.
  - intros t Ha Ht Hl. destruct (Hr t Ht); [done|lia].
Qed.

(** [ensure] of an empty buffer copies the byte at the offset when the hooks have no
    [reallocate]: printing with a prebuffer of no bytes reads outside of it. *)
Lemma PrintBuffered_empty_overread i fmt w :
  w_alloc w = [] -> cJSON_PrintBuffered (Some (set_type cJSON_True i)) 0 fmt false w = Ub.
Proof. destruct w as [m e l]. cbn [w_alloc]. intros ->. by destruct i, fmt. Qed.

(** * Examples *)

Definition example_object : cJSON :=
  mk_cJSON cJSON_Object None 0 (dzero false) None
    [mk_cJSON cJSON_Number None 0 (DFin false (3 * 2 ^ 51) (-52)) (Some (text "a")) [];
     mk_cJSON cJSON_Array None 0 (dzero false) (Some [10; 34])
       [mk_cJSON cJSON_True None 1 (dzero false) None [];
        mk_cJSON cJSON_String (Some (text "x/y")) 0 (dzero false) None []]].

(** The object with the member a, a number, and one with a key of a newline and a quote, an array. *)
Definition example_printed : list Z :=
  [123; 34; 97; 34; 58; 49; 46; 53; 44; 34; 92; 110; 92; 34; 34; 58; 91; 116; 114; 117; 101; 44; 34; 120; 47; 121; 34; 93; 125].

Lemma example_object_ok : tree node_ok example_object.
Proof. repeat constructor; by vm_compute. Qed.

Lemma cJSON_PrintPreallocated_spec_witness :
  wp False (cJSON_PrintPreallocated (Some example_object) (Some (unknown 40)) 40 false true) (fun '(ok, buf') _ =>
    ok = true /\ exists rest, buf' = Some ((Some <$> example_printed ++ [0]) ++ rest)) (mk_world [] 0 []).
Proof.
  eapply wp_mono; [apply (cJSON_PrintPreallocated_spec example_object (unknown 40) 40 false true);
    [exact example_object_ok|reflexivity|unfold INT_MAX; lia]|].
  intros [ok buf'] w' H. change (render false 0 example_object) with (Some example_printed) in H.
  destruct H as [H1 H2]. assert (ok = true) as Hok by (apply H1; vm_compute; discriminate).
  split; [exact Hok|]. destruct (H2 Hok) as (rest & H & _). by exists rest.
Defined.

Lemma cJSON_Print_spec_witness :
  wp False (cJSON_PrintUnformatted (Some example_object) true) (fun r _ =>
    r = Some (Some <$> example_printed ++ [0])) (mk_world [] 0 []).
Proof.
  eapply wp_mono; [apply (cJSON_Print_spec example_object false true (mk_world [] 0 [])); exact example_object_ok|].
  intros r w' [_ H]. apply H; [reflexivity..|vm_compute; discriminate].
Defined.
