(* ===== verification/CJsonRoundTrip.v ===== *)
(** The parser of cjson.c reads back what the printer wrote: the runs of the parse
    functions on the text of an item, and the round trip of cJSON_Print and
    cJSON_Parse. *)
From Stdlib Require Import Strings.String.
From S2P Require Import Prelude CMonad CDouble CText CDoubleProps CJson CJsonParse CJsonPrint CJsonPrintProps.

(** * Runs *)

Lemma bind_step {A B} (c : M A) (k : A -> M B) w a w' : c w = Ok (a, w') -> bind c k w = k a w'.
Proof. unfold bind. by intros ->. Qed.

Ltac step H := erewrite bind_step by (apply H; eassumption || done).

Lemma malloc_run w : w_alloc w = [] -> malloc_ok w = Ok (true, w).
Proof. unfold malloc_ok. by intros ->. Qed.

Lemma new_item_run w : w_alloc w = [] -> cJSON_New_Item w = Ok (Some zero_item, w).
Proof. intros H. unfold cJSON_New_Item. by rewrite (bind_step _ _ _ _ _ (malloc_run w H)). Qed.

(** ** The text at a position *)

Lemma matches_head content o c r w : 0 <= o -> matches content o (c :: r) -> char_at content o w = Ok (c, w).
Proof.
  intros Ho Hm. unfold char_at. rewrite (proj2 (Z.leb_le 0 o)) by done.
  specialize (Hm 0%nat c eq_refl). rewrite Nat.add_0_r in Hm. by rewrite Hm.
Qed.

Lemma matches_after content o x r : 0 <= o -> matches content o (x ++ r) -> matches content (o + zlen x) r.
Proof.
  intros Ho Hm j c Hj. replace (Z.to_nat (o + zlen x) + j)%nat with (Z.to_nat o + (length x + j))%nat
    by (unfold zlen; lia).
  apply Hm. rewrite lookup_app_r by lia. by replace (length x + j - length x)%nat with j by lia.
Qed.

Lemma matches_tail content o c r : 0 <= o -> matches content o (c :: r) -> matches content (o + 1) r.
Proof. intros Ho Hm. by apply (matches_after content o [c]). Qed.

Lemma matches_prefix content o x r : matches content o (x ++ r) -> matches content o x.
Proof. intros Hm j c Hj. apply Hm. by apply lookup_app_l_Some. Qed.

(** The buffer is before [x], the rest of the text. *)
Record here (b : parse_buffer) (x : list Z) : Prop := {
  he_offset : 0 <= pb_offset b;
  he_length : pb_offset b + zlen x = pb_length b;
  he_text : matches (pb_content b) (pb_offset b) x
}.

Lemma here_advance b x r n : here b (x ++ r) -> n = zlen x -> here (advance n b) r.
Proof.
  intros [Ho Hl Ht] ->. pose proof (zlen_nonneg x). rewrite zlen_app in Hl.
  split; cbn; [lia|lia|by apply matches_after].
Qed.

Lemma here_tail b c r : here b (c :: r) -> here (advance 1 b) r.
Proof. intros H. by apply (here_advance b [c]). Qed.

Lemma advance_advance n m b : advance n (advance m b) = advance (m + n) b.
Proof. unfold advance, set_offset. cbn. f_equal. lia. Qed.

Lemma advance_0 b : advance 0 b = b.
Proof. unfold advance, set_offset. destruct b. cbn. f_equal. lia. Qed.

Lemma here_access b c r : here b (c :: r) -> can_access_at_index b 0 = true.
Proof. intros [Ho Hl _]. unfold can_access_at_index. apply Z.ltb_lt. pose proof (zlen_nonneg r). zl. Qed.

Lemma here_char b c r w : here b (c :: r) -> buffer_at_offset b 0 w = Ok (c, w).
Proof. intros [Ho Hl Ht]. unfold buffer_at_offset. rewrite Z.add_0_r. by apply (matches_head _ _ _ r). Qed.

Lemma at_char_run b c r x w : here b (c :: r) -> at_char b x w = Ok (c =? x, w).
Proof.
  intros H. unfold at_char. rewrite (here_access b c r H). by rewrite (bind_step _ _ _ _ _ (here_char b c r w H)).
Qed.

(** ** White space *)

Lemma skip_loop_run ws c r fuel b w :
  here b (ws ++ c :: r) -> Forall (fun x => x <= 32) ws -> 32 < c -> (length ws < fuel)%nat ->
  skip_loop fuel b w = Ok (advance (zlen ws) b, w).
Proof.
  revert b fuel. induction ws as [|x ws IH]; intros b fuel Hh Hws Hc Hf; (destruct fuel as [|fuel]; [cbn in Hf; lia|]);
    cbn [skip_loop app] in *.
  - rewrite (here_access _ _ _ Hh), (bind_step _ _ _ _ _ (here_char _ _ _ _ Hh)), (proj2 (Z.leb_gt c 32)) by done.
    by rewrite advance_0.
  - apply Forall_cons in Hws as [Hx Hws]. rewrite (here_access _ _ _ Hh), (bind_step _ _ _ _ _ (here_char _ _ _ _ Hh)).
    rewrite (proj2 (Z.leb_le x 32)) by done. rewrite (IH (advance 1 b)) by (done || (by eapply here_tail) || cbn in Hf; lia).
    rewrite advance_advance. do 3 f_equal. zl.
Qed.

Lemma here_fuel b x : here b x -> text_fuel b = S (length x).
Proof. intros [Ho Hl _]. unfold text_fuel, zlen in *. lia. Qed.

Lemma skip_run ws c r b w :
  here b (ws ++ c :: r) -> Forall (fun x => x <= 32) ws -> 32 < c ->
  buffer_skip_whitespace b w = Ok (advance (zlen ws) b, w).
Proof.
  intros Hh Hws Hc. unfold buffer_skip_whitespace.
  rewrite (bind_step _ _ _ (advance (zlen ws) b) w).
  2: { apply (skip_loop_run ws c r); [done..|]. rewrite (here_fuel _ _ Hh), length_app. lia. }
  rewrite (proj2 (Z.eqb_neq _ _)); [done|]. destruct Hh as [Ho Hl _]. cbn. rewrite zlen_app in Hl.
  pose proof (zlen_nonneg r). unfold zlen in *. cbn [length] in Hl. lia.
Qed.

(** Nothing to skip. *)
Lemma skip_none c r b w : here b (c :: r) -> 32 < c -> buffer_skip_whitespace b w = Ok (b, w).
Proof. intros Hh Hc. rewrite (skip_run [] c r) by done. by rewrite advance_0. Qed.

(** The terminator of the text is skipped and restored. *)
Lemma skip_end b w : here b [0] -> buffer_skip_whitespace b w = Ok (b, w).
Proof.
  intros Hh. unfold buffer_skip_whitespace. rewrite (here_fuel _ _ Hh). cbn [length skip_loop].
  rewrite (bind_step _ _ _ (advance 1 b) w).
  - destruct Hh as [Ho Hl _]. change (zlen [0]) with 1 in Hl. cbn. rewrite (proj2 (Z.eqb_eq _ _)) by lia.
    by rewrite advance_advance, advance_0.
  - rewrite (here_access _ _ _ Hh), (bind_step _ _ _ _ _ (here_char _ _ _ _ Hh)). cbn [Z.leb Z.compare].
    destruct Hh as [Ho Hl _]. change (zlen [0]) with 1 in Hl. unfold can_access_at_index. cbn.
    by rewrite (proj2 (Z.ltb_ge _ _)) by lia.
Qed.

(** ** Literals *)

Lemma strncmp_run content o s r w : 0 <= o -> matches content o (s ++ r) -> strncmp_eq content o s w = Ok (true, w).
Proof.
  revert o. induction s as [|c s IH]; intros o Ho Hm; [done|]. cbn [strncmp_eq app] in *.
  rewrite (bind_step _ _ _ _ _ (matches_head _ _ _ _ _ Ho Hm)), Z.eqb_refl.
  apply IH; [lia|by eapply matches_tail].
Qed.

Lemma at_text_run b s r w : here b (s ++ r) -> at_text b s w = Ok (true, w).
Proof.
  intros [Ho Hl Ht]. unfold at_text, can_read. rewrite zlen_app in Hl. pose proof (zlen_nonneg r).
  rewrite (proj2 (Z.leb_le _ _)) by lia. by eapply strncmp_run.
Qed.

Lemma at_text_other b c r x s w : here b (c :: r) -> c <> x -> at_text b (x :: s) w = Ok (false, w).
Proof.
  intros [Ho Hl Ht] Hc. unfold at_text. destruct (can_read _ _); [|done]. cbn [strncmp_eq].
  rewrite (bind_step _ _ _ _ _ (matches_head _ _ _ _ _ Ho Ht)). by rewrite (proj2 (Z.eqb_neq c x)).
Qed.

(** * Numbers *)

(** The rest starts with a character that is not one of a number. *)
Definition stops (r : list Z) : Prop := exists c l, r = c :: l /\ num_char c = false.

Lemma number_chars_run t r n b i w :
  here b (t ++ r) -> 0 <= i <= zlen t -> stops r -> Forall (fun c => num_char c = true) t ->
  zlen t - i < Z.of_nat n -> number_chars n b i w = Ok (drop (Z.to_nat i) t, w).
Proof.
  intros [Ho Hl Ht] Hi (c & l & -> & Hc) Hnum. revert i Hi. induction n as [|n IH]; intros i Hi Hn; [lia|].
  cbn [number_chars]. rewrite zlen_app in Hl. assert (zlen (c :: l) = 1 + zlen l) as Hcl by zl. pose proof (zlen_nonneg l).
  unfold can_access_at_index. rewrite (proj2 (Z.ltb_lt _ _)) by lia.
  assert (forall x, (t ++ c :: l) !! Z.to_nat i = Some x -> buffer_at_offset b i w = Ok (x, w)) as Hat.
  { intros x Hx. unfold buffer_at_offset, char_at. rewrite (proj2 (Z.leb_le _ _)) by lia.
    replace (Z.to_nat (pb_offset b + i)) with (Z.to_nat (pb_offset b) + Z.to_nat i)%nat by lia. by rewrite (Ht _ _ Hx). }
  destruct (Z.eq_dec i (zlen t)) as [->|Hne].
  - rewrite (bind_step _ _ _ c w).
    2: { apply Hat. rewrite lookup_app_r by (unfold zlen; lia). by replace (_ - _)%nat with 0%nat by (unfold zlen; lia). }
    rewrite Hc, drop_ge by (unfold zlen; lia). done.
  - destruct (lookup_lt_is_Some_2 t (Z.to_nat i)) as [x Hx]; [unfold zlen in *; lia|].
    rewrite (bind_step _ _ _ x w) by (apply Hat; by apply lookup_app_l_Some).
    rewrite (proj1 (Forall_lookup _ t) Hnum _ _ Hx), (bind_step _ _ _ _ _ (IH (i + 1) ltac:(lia) ltac:(lia))).
    rewrite (drop_S _ _ _ Hx). by replace (Z.to_nat (i + 1)) with (S (Z.to_nat i)) by lia.
Qed.

(** The conversion that [cJSON_SetNumberHelper] makes for a number that is not NaN. *)
Definition valueint_of (d : double) : Z :=
  if dge d INT_MAX then INT_MAX else if dle d INT_MIN then INT_MIN else dtrunc d.

Lemma to_valueint_run d w : d <> DNan -> to_valueint d w = Ok (valueint_of d, w).
Proof. intros Hd. unfold to_valueint, valueint_of. destruct (dge _ _); [done|]. destruct (dle _ _); [done|]. by destruct d. Qed.

Lemma parse_number_run d r i b w :
  double_ok d -> is_finite d = true -> here b (number_text d ++ r) -> stops r ->
  parse_number i b w = Ok (Some (set_type cJSON_Number (set_number (valueint_of d) d i)),
                           advance (zlen (number_text d)) b, w).
Proof.
  intros Hok Hfin. rewrite number_text_shortest by done. intros Hh Hr.
  destruct (shortest_num d Hok Hfin) as [Hnum Hlen]. unfold parse_number.
  rewrite (bind_step _ _ _ (shortest d) w).
  2: { pose proof (number_chars_run (shortest d) r (Z.to_nat (sizeof_number_c_string - 1)) b 0 w Hh ltac:(lia) Hr Hnum) as Hn.
       apply Hn. unfold sizeof_number_c_string. lia. }
  rewrite shortest_reads_back by done. rewrite (proj2 (Z.eqb_neq _ _)) by lia.
  by rewrite (bind_step _ _ _ _ _ (to_valueint_run d w ltac:(by destruct d))).
Qed.

(** * Strings *)

Definition char_ok (c : Z) : Prop := 0 < c < 256.

Lemma c_string_ok l : Forall char_ok l -> c_string l = l.
Proof.
  induction 1 as [|c l Hc _ IH]; [done|]. cbn. unfold char_ok in Hc. rewrite (proj2 (Z.eqb_neq c 0)) by lia. by rewrite IH.
Qed.

(** The bytes of an escape: the first pass takes one character or two. *)
Lemma escape_cases c :
  char_ok c ->
  (c <> 34 /\ c <> 92 /\ escape c = [c]) \/
  (exists x, escape c = [92; x] /\ simple_escape x = Some c) \/
  (c < 32 /\ escape c = 92 :: sprintf_u c).
Proof.
  intros Hc. unfold escape. destruct ((31 <? c) && negb (c =? 34) && negb (c =? 92)) eqn:E.
  { left. rewrite !andb_true_iff, !negb_true_iff, !Z.eqb_neq in E. tauto. }
  right. unfold short_escape.
  repeat match goal with |- context [if c =? ?x then _ else _] =>
    destruct (Z.eqb_spec c x) as [->|]; [left; by eexists|] end.
  right. split; [|done]. destruct (Z.ltb_spec 31 c); [done|lia].
Qed.

Lemma hex_digit_char d : 0 <= d < 16 -> hex_digit (hex_char d) = Some d.
Proof.
  intros Hd. unfold hex_digit, hex_char. destruct (Z.ltb_spec d 10).
  - rewrite (proj2 (Z.leb_le 48 _)), (proj2 (Z.leb_le _ 57)) by lia. cbn [andb]. f_equal. lia.
  - rewrite (proj2 (Z.leb_le 48 _)), (proj2 (Z.leb_gt _ 57)) by lia. cbn [andb].
    rewrite (proj2 (Z.leb_le 65 _)), (proj2 (Z.leb_gt _ 70)) by lia. cbn [andb].
    rewrite (proj2 (Z.leb_le 97 _)), (proj2 (Z.leb_le _ 102)) by lia. cbn [andb]. f_equal. lia.
Qed.

Lemma hex4_step n content o h ch d r w :
  0 <= o -> matches content o (ch :: r) -> hex_digit ch = Some d ->
  hex4_loop (S n) content o h w =
    hex4_loop n content (o + 1) (match n with O => wrap 32 (h + d) | S _ => wrap 32 (Z.shiftl (wrap 32 (h + d)) 4) end) w.
Proof. intros Ho Hm Hd. cbn [hex4_loop]. rewrite (bind_step _ _ _ _ _ (matches_head _ _ _ _ _ Ho Hm)). by rewrite Hd. Qed.

(** The four digits of a control character. *)
Lemma parse_hex4_run content o c r w :
  0 <= o -> 0 < c < 32 -> matches content o ([48; 48; hex_char (c / 16); hex_char (c mod 16)] ++ r) ->
  parse_hex4 content o w = Ok (c, w).
Proof.
  intros Ho Hc Hm. unfold parse_hex4. cbn [app] in Hm.
  pose proof (Z.mod_pos_bound c 16 ltac:(lia)). pose proof (Z.div_pos c 16 ltac:(lia) ltac:(lia)).
  pose proof (Z.div_mod c 16 ltac:(lia)). set (q := c / 16) in *. set (m := c mod 16) in *.
  erewrite hex4_step by (exact Hm || done). apply matches_tail in Hm; [|lia].
  erewrite hex4_step by (exact Hm || done || lia). apply matches_tail in Hm; [|lia].
  erewrite hex4_step by (exact Hm || (apply hex_digit_char; lia) || lia). apply matches_tail in Hm; [|lia].
  erewrite hex4_step by (exact Hm || (apply hex_digit_char; lia) || lia). cbn [hex4_loop]. unfold ret. do 2 f_equal.
  assert (forall v, 0 <= v < 2 ^ 32 -> wrap 32 v = v) as Hw by (intros; by apply Z.mod_small).
  change (wrap 32 (Z.shiftl (wrap 32 (wrap 32 (Z.shiftl (wrap 32 (0 + (48 - 48))) 4) + (48 - 48))) 4)) with 0.
  rewrite Z.shiftl_mul_pow2 by lia.
  rewrite (Hw (0 + q)) by lia. rewrite (Hw ((0 + q) * 2 ^ 4)) by lia. rewrite Hw by lia. lia.
Qed.

Lemma utf16_run content o ie c r out w :
  0 <= o -> 0 < c < 32 -> matches content o ((92 :: sprintf_u c) ++ r) -> o + 6 <= ie ->
  zlen (ob_data out) + 1 <= ob_size out ->
  utf16_literal_to_utf8 content o ie out w = Ok (6, mk_out (ob_size out) (ob_data out ++ [c]), w).
Proof.
  intros Ho Hc Hm He Hsz. unfold utf16_literal_to_utf8.
  rewrite (bind_step _ _ _ (c, 6) w).
  - cbn [Z.eqb]. rewrite (proj2 (Z.ltb_lt c 128)) by lia. unfold utf8_bytes. cbn [utf8_tail Nat.sub Nat.ltb Nat.leb].
    replace (Z.land c 127) with c by (change 127 with (Z.ones 7); rewrite Z.land_ones, Z.mod_small; lia).
    rewrite (bind_step _ _ _ (mk_out (ob_size out) (ob_data out ++ [c])) w); [done|].
    unfold put_bytes. rewrite (proj2 (Z.leb_le _ _)); [done|]. by change (zlen [c]) with 1.
  - unfold utf16_codepoint. rewrite (proj2 (Z.ltb_ge _ _)) by lia.
    rewrite (bind_step _ _ _ c w).
    + rewrite !(proj2 (Z.leb_gt _ c)) by lia. done.
    + apply (parse_hex4_run _ _ _ r); [lia|done|].
      exact (matches_after content o [92; 117] _ Ho Hm).
Qed.

(** The escapes of a string. *)
Fixpoint escape_count (l : list Z) : Z :=
  match l with
  | [] => 0
  | c :: l => (if escape_size c =? 0 then 0 else 1) + escape_count l
  end.

Lemma escaped_cons c l : escaped (c :: l) = escape c ++ escaped l.
Proof. done. Qed.

Lemma escape_count_le l : zlen l + escape_count l <= zlen (escaped l).
Proof.
  induction l as [|c l IH]; [done|]. rewrite escaped_cons, zlen_app, escape_length. cbn [escape_count].
  assert (zlen (c :: l) = 1 + zlen l) as -> by zl. pose proof (escape_size_nonneg c).
  destruct (Z.eqb_spec (escape_size c) 0); lia.
Qed.

(** One character of the first pass. *)
Lemma string_end_plain fuel b o k c r w :
  0 <= o -> matches (pb_content b) o (c :: r) -> o < pb_length b -> c <> 34 -> c <> 92 ->
  string_end (S fuel) b o k w = string_end fuel b (o + 1) k w.
Proof.
  intros Ho Hm Hl H1 H2. cbn [string_end]. rewrite (proj2 (Z.ltb_lt _ _)) by done.
  rewrite (bind_step _ _ _ _ _ (matches_head _ _ _ _ _ Ho Hm)).
  by rewrite (proj2 (Z.eqb_neq c 34)), (proj2 (Z.eqb_neq c 92)).
Qed.

Lemma string_end_escape fuel b o k r w :
  0 <= o -> matches (pb_content b) o (92 :: r) -> o + 1 < pb_length b ->
  string_end (S fuel) b o k w = string_end fuel b (o + 2) (k + 1) w.
Proof.
  intros Ho Hm Hl. cbn [string_end]. rewrite (proj2 (Z.ltb_lt _ _)) by lia.
  rewrite (bind_step _ _ _ _ _ (matches_head _ _ _ _ _ Ho Hm)). by rewrite (proj2 (Z.leb_gt _ _)).
Qed.

Lemma hex_char_plain d : 0 <= d < 16 -> hex_char d <> 34 /\ hex_char d <> 92.
Proof. unfold hex_char. destruct (Z.ltb_spec d 10); lia. Qed.

Lemma string_end_run l r fuel b o k w :
  Forall char_ok l -> 0 <= o -> matches (pb_content b) o (escaped l ++ 34 :: r) ->
  o + zlen (escaped l) < pb_length b -> (length (escaped l) < fuel)%nat ->
  string_end fuel b o k w = Ok (Some (o + zlen (escaped l), k + escape_count l), w).
Proof.
  intros Hl. revert fuel o k. induction Hl as [|c l Hc _ IH]; intros fuel o k Ho Hm Hb Hf;
    (destruct fuel as [|fuel]; [lia|]).
  - change (escaped []) with (@nil Z) in *. change (zlen []) with 0 in *. cbn [string_end escape_count app] in *.
    rewrite (proj2 (Z.ltb_lt _ _)) by lia. rewrite (bind_step _ _ _ _ _ (matches_head _ _ _ _ _ Ho Hm)). cbn [Z.eqb Pos.eqb].
    by rewrite !Z.add_0_r.
  - rewrite escaped_cons in *. rewrite <- app_assoc in Hm. rewrite zlen_app, length_app in *.
    pose proof (matches_after _ _ _ _ Ho Hm) as Hm'. pose proof (zlen_nonneg (escaped l)).
    pose proof (escape_length c) as Hel. cbn [escape_count].
    destruct (escape_cases c Hc) as [(H1 & H2 & He)|[(x & He & Hx)|(Hlt & He)]]; rewrite He in *.
    + change (zlen [c]) with 1 in *. rewrite (proj2 (Z.eqb_eq _ 0)) by lia.
      erewrite string_end_plain by (exact Hm || done || lia). rewrite IH by (done || (cbn in Hf; lia) || lia).
      do 4 f_equal. lia.
    + change (zlen [92; x]) with 2 in *. rewrite (proj2 (Z.eqb_neq _ 0)) by lia.
      erewrite string_end_escape by (exact Hm || lia). rewrite IH by (done || (cbn in Hf; lia) || lia).
      do 4 f_equal; lia.
    + change (zlen (92 :: sprintf_u c)) with 6 in *. rewrite (proj2 (Z.eqb_neq _ 0)) by lia.
      cbn [length sprintf_u] in Hf. do 4 (destruct fuel as [|fuel]; [lia|]). unfold char_ok in Hc.
      erewrite string_end_escape by (exact Hm || lia).
      pose proof (Z.mod_pos_bound c 16 ltac:(lia)). pose proof (Z.div_pos c 16 ltac:(lia) ltac:(lia)).
      assert (c / 16 < 16) by (apply Z.div_lt_upper_bound; lia).
      apply (matches_after _ _ [92; 117]) in Hm; [|done]. change (zlen [92; 117]) with 2 in Hm. cbn [app] in Hm.
      do 4 (erewrite string_end_plain; [|lia|exact Hm|lia|first [lia|by apply hex_char_plain]..]; apply matches_tail in Hm; [|lia]).
      rewrite <- !Z.add_assoc. cbn [Z.add Pos.add Pos.succ]. rewrite IH by (done || lia). do 4 f_equal; lia.
Qed.

(** ** The second pass *)

Lemma put_run out l w :
  zlen (ob_data out) + zlen l <= ob_size out -> put_bytes out l w = Ok (mk_out (ob_size out) (ob_data out ++ l), w).
Proof. intros H. unfold put_bytes. by rewrite (proj2 (Z.leb_le _ _)). Qed.

Lemma unescape_run l r fuel content o ie out w :
  Forall char_ok l -> 0 <= o -> matches content o (escaped l ++ 34 :: r) -> ie = o + zlen (escaped l) ->
  zlen (ob_data out) + zlen l <= ob_size out -> (length (escaped l) < fuel)%nat ->
  unescape fuel content o ie out w = Ok (Some (mk_out (ob_size out) (ob_data out ++ l)), ie, w).
Proof.
  intros Hl. revert fuel o out. induction Hl as [|c l Hc _ IH]; intros fuel o out Ho Hm He Hsz Hf;
    (destruct fuel as [|fuel]; [lia|]); cbn [unescape].
  - change (zlen (escaped [])) with 0 in He. rewrite (proj2 (Z.ltb_ge _ _)) by lia. rewrite app_nil_r.
    destruct out. unfold ret. do 3 f_equal. lia.
  - rewrite escaped_cons in *. rewrite <- app_assoc in Hm. rewrite zlen_app, length_app in *.
    pose proof (matches_after _ _ _ _ Ho Hm) as Hm'. pose proof (zlen_nonneg (escaped l)). pose proof (zlen_nonneg l).
    assert (zlen (c :: l) = 1 + zlen l) as Hcl by zl. rewrite Hcl in Hsz.
    assert (forall n, o + n = o + zlen (escape c) -> (length (escaped l) < fuel)%nat ->
      unescape fuel content (o + n) ie (mk_out (ob_size out) (ob_data out ++ [c])) w
      = Ok (Some (mk_out (ob_size out) (ob_data out ++ c :: l)), ie, w)) as Hnext.
    { intros n Hn Hf'. rewrite IH; cbn [ob_size ob_data]; [by rewrite <- app_assoc| |by rewrite Hn|lia| |done].
      - pose proof (zlen_nonneg (escape c)). lia.
      - rewrite zlen_app. change (zlen [c]) with 1. lia. }
    assert (put_bytes out [c] w = Ok (mk_out (ob_size out) (ob_data out ++ [c]), w)) as Hput
      by (apply put_run; change (zlen [c]) with 1; lia).
    destruct (escape_cases c Hc) as [(H1 & H2 & Hes)|[(x & Hes & Hx)|(Hlt & Hes)]]; rewrite Hes in *.
    + change (zlen [c]) with 1 in *. rewrite (proj2 (Z.ltb_lt _ _)) by lia.
      rewrite (bind_step _ _ _ _ _ (matches_head _ _ _ _ _ Ho Hm)), (proj2 (Z.eqb_neq c 92)) by done. cbn [negb].
      rewrite (bind_step _ _ _ _ _ Hput). apply Hnext; [done|cbn in Hf; lia].
    + change (zlen [92; x]) with 2 in *. rewrite (proj2 (Z.ltb_lt _ _)) by lia.
      rewrite (bind_step _ _ _ _ _ (matches_head _ _ _ _ _ Ho Hm)). cbn [negb Z.eqb Pos.eqb].
      rewrite (proj2 (Z.ltb_ge _ _)) by lia. apply matches_tail in Hm; [|done].
      erewrite bind_step by (eapply matches_head; [|exact Hm]; lia). rewrite Hx, (bind_step _ _ _ _ _ Hput).
      apply Hnext; [done|cbn in Hf; lia].
    + change (zlen (92 :: sprintf_u c)) with 6 in *. rewrite (proj2 (Z.ltb_lt _ _)) by lia.
      rewrite (bind_step _ _ _ _ _ (matches_head _ _ _ _ _ Ho Hm)). cbn [negb Z.eqb Pos.eqb].
      rewrite (proj2 (Z.ltb_ge _ _)) by lia. pose proof Hm as Hm1. apply matches_tail in Hm1; [|done].
      erewrite bind_step by (eapply matches_head; [|exact Hm1]; lia). cbn [simple_escape Z.eqb Pos.eqb orb].
      erewrite bind_step by (eapply (utf16_run _ _ _ c); [done|unfold char_ok in Hc; lia|exact Hm|lia|lia]).
      cbn [Z.eqb]. apply Hnext; [done|cbn in Hf; lia].
Qed.

Lemma quoted_some s : Forall char_ok s -> quoted (Some s) = 34 :: escaped s ++ [34].
Proof. intros H. unfold quoted. cbn [default id]. by rewrite c_string_ok. Qed.

Lemma parse_string_run s r i b w :
  Forall char_ok s -> here b (quoted (Some s) ++ r) -> w_alloc w = [] ->
  parse_string i b w = Ok (Some (set_type cJSON_String (set_valuestring (Some s) i)), advance (zlen (quoted (Some s))) b, w).
Proof.
  intros Hs Hh Ha. rewrite (quoted_some s Hs) in *. cbn [app] in Hh. rewrite <- app_assoc in Hh. cbn [app] in Hh.
  pose proof (here_fuel _ _ Hh) as Hfuel. unfold parse_string.
  rewrite (bind_step _ _ _ _ _ (here_char _ _ _ _ Hh)). cbn [negb Z.eqb Pos.eqb].
  pose proof Hh as [Ho Hl Ht]. apply matches_tail in Ht; [|done].
  assert (zlen (34 :: escaped s ++ 34 :: r) = zlen (escaped s) + zlen r + 2) as Hz by zl. rewrite Hz in Hl.
  pose proof (zlen_nonneg r). pose proof (zlen_nonneg (escaped s)).
  assert (length (escaped s) < text_fuel b)%nat as Hfu by (rewrite Hfuel; cbn [length]; rewrite length_app; lia).
  erewrite bind_step by (eapply string_end_run; [done|lia|exact Ht|lia|done]).
  cbv beta iota zeta. rewrite (proj2 (Z.leb_gt _ _)) by lia. apply matches_after in Ht as Hq; [|lia].
  erewrite (bind_step (bind _ _)).
  2: { erewrite bind_step by (eapply matches_head; [|exact Hq]; lia). reflexivity. }
  cbn [negb Z.eqb Pos.eqb]. rewrite (bind_step _ _ _ _ _ (malloc_run w Ha)). cbn [negb].
  pose proof (escape_count_le s).
  erewrite bind_step by (eapply unescape_run; [done|lia|exact Ht|done|cbn [ob_size ob_data]; change (zlen []) with 0; lia|done]).
  cbn [ob_size ob_data app]. erewrite bind_step by (apply put_run; cbn [ob_size ob_data]; change (zlen [0]) with 1; lia).
  unfold ret, advance. do 4 f_equal. zl.
Qed.

(** * Arrays and objects *)

(** The first character of a value. *)
Definition starts (t : list Z) : Prop := exists c l, t = c :: l /\ 32 < c /\ c <> 93 /\ c < 128.

Lemma here_drop b x r : here b (x ++ r) -> here (advance (zlen x) b) r.
Proof. intros H. by apply (here_advance b x). Qed.

Section Loops.
Context (fmt : bool) (pv : parser) (rv : cJSON -> option (list Z)) (d : Z) (w : world).
Context (Ha : w_alloc w = []).

(** The parser reads [i] from its text. *)
Definition reads (i : cJSON) : Prop := exists t, rv i = Some t /\ starts t /\
  forall i0 b r, fresh i0 -> cj_string i0 = cj_string i -> here b (t ++ r) -> stops r -> pb_depth b = d ->
    pv i0 b w = Ok (Some i, advance (zlen t) b, w).

Lemma skip_before ws t r b :
  here b (ws ++ t ++ r) -> Forall (fun x => x <= 32) ws -> starts t ->
  buffer_skip_whitespace b w = Ok (advance (zlen ws) b, w).
Proof. intros Hh Hws (c & l & -> & Hc & _). by apply (skip_run ws c (l ++ r)). Qed.

Lemma fresh_zero : fresh zero_item.
Proof. by do 2 eexists. Qed.

Lemma separator_parts : exists ws, separator fmt = 44 :: ws /\ Forall (fun x => x <= 32) ws.
Proof. unfold separator. destruct fmt; eexists; split; try done; repeat constructor; lia. Qed.

Lemma array_loop_run l t r fuel b ws acc :
  l <> [] -> Forall reads l -> Forall (fun x => cj_string x = None) l -> render_elements fmt rv l = Some t ->
  here (advance 1 b) (ws ++ t ++ 93 :: r) -> Forall (fun x => x <= 32) ws -> pb_depth b = d -> (length t < fuel)%nat ->
  array_loop pv fuel b acc w = Ok (Some (acc ++ l), advance (1 + zlen ws + zlen t) b, w).
Proof.
  intros Hne Hl. revert fuel t b ws acc Hne.
  induction Hl as [|x l (tx & Htx & Hst & Hx) Hl IH]; intros fuel t b ws acc Hne Hnm Ht Hh Hws Hd Hf; [done|].
  destruct fuel as [|fuel]; [lia|]. apply Forall_cons in Hnm as [Hnx Hnm]. cbn [render_elements] in Ht. rewrite Htx in Ht.
  cbn [mbind option_bind] in Ht. cbn [array_loop]. rewrite (bind_step _ _ _ _ _ (new_item_run w Ha)).
  assert (exists rest, t = tx ++ rest /\ (rest = [] /\ l = [] \/
    exists s ws', rest = 44 :: ws' ++ s /\ render_elements fmt rv l = Some s /\ l <> [] /\ Forall (fun x => x <= 32) ws'))
    as (rest & -> & Hrest).
  { destruct l as [|y l]; [injection Ht as <-; exists []; rewrite app_nil_r; auto|].
    destruct (render_elements fmt rv (y :: l)) as [s|]; [|done]. cbn [mbind option_bind] in Ht.
    apply (inj Some) in Ht as <-. destruct separator_parts as (ws' & -> & Hws'). eexists. split; [done|]. right. exists s, ws'. by split_and!. }
  rewrite <- app_assoc in Hh. rewrite (bind_step _ _ _ _ _ (skip_before _ _ _ _ Hh Hws Hst)).
  apply here_drop in Hh. rewrite advance_advance in *.
  assert (exists c l', rest ++ 93 :: r = c :: l' /\ num_char c = false /\ 32 < c) as (c & l' & Hc & Hn & Hc32).
  { destruct Hrest as [[-> _]|(s & ws' & -> & _)]; cbn; do 2 eexists; split_and!; done. }
  rewrite (bind_step _ _ _ _ _ (Hx zero_item _ _ fresh_zero (eq_sym Hnx) Hh ltac:(by exists c, l') Hd)). cbn beta iota.
  apply here_advance with (n := zlen tx) in Hh; [|done]. rewrite advance_advance in *.
  rewrite Hc in Hh. rewrite (bind_step _ _ _ _ _ (skip_none c l' _ w Hh Hc32)), (bind_step _ _ _ _ _ (at_char_run _ _ _ 44 w Hh)).
  destruct Hrest as [[-> ->]|(s & ws' & -> & Hs & Hl0 & Hws')]; injection Hc as <- <-; cbn [Z.eqb Pos.eqb].
  - rewrite app_nil_r. done.
  - rewrite <- app_assoc in Hh. apply here_tail in Hh. rewrite (IH fuel s _ ws'); [|done..|].
    + rewrite <- app_assoc, advance_advance. do 4 f_equal. zl.
    + rewrite !length_app in Hf. cbn [length] in Hf. rewrite length_app in Hf. lia.
Qed.

(** ** Members *)

Definition named (x : cJSON) : Prop := exists key, cj_string x = Some key /\ Forall char_ok key.

Definition newline : list Z := if fmt then [10] else [].
Definition tabs (k : nat) : list Z := if fmt then replicate k 9 else [].
Definition after_colon : list Z := if fmt then [9] else [].

(** The member [x] with the text [tx] of its value and the text [s] of the other members. *)
Definition member_text (x : cJSON) (l : list cJSON) (tx s : list Z) : list Z :=
  quoted (cj_string x) ++ (58 :: after_colon) ++ tx ++ (match l with [] => [] | _ => [44] end ++ newline) ++ s.

Lemma render_members_cons k x l tx s :
  rv x = Some tx -> render_members fmt rv k l = Some s ->
  render_members fmt rv k (x :: l) = Some (tabs k ++ member_text x l tx s).
Proof. intros Hx Hs. cbn [render_members]. rewrite Hx, Hs. done. Qed.

Lemma newline_space : Forall (fun x => x <= 32) newline.
Proof. unfold newline. destruct fmt; repeat constructor; lia. Qed.

Lemma tabs_space k : Forall (fun x => x <= 32) (tabs k).
Proof. unfold tabs. destruct fmt; [apply Forall_replicate; lia|done]. Qed.

Lemma after_colon_space : Forall (fun x => x <= 32) after_colon.
Proof. unfold after_colon. destruct fmt; repeat constructor; lia. Qed.

(** The item of a member after its key was read. *)
Definition keyed (key : list Z) : cJSON := mk_cJSON cJSON_String None 0 (dzero false) (Some key) [].

(** One member: the key, the colon and the value. *)
Lemma member_run x tx r fuel b ws acc key :
  (forall i0 b r, fresh i0 -> cj_string i0 = cj_string x -> here b (tx ++ r) -> stops r -> pb_depth b = d ->
    pv i0 b w = Ok (Some x, advance (zlen tx) b, w)) -> starts tx ->
  cj_string x = Some key -> Forall char_ok key ->
  here (advance 1 b) (ws ++ quoted (Some key) ++ (58 :: after_colon) ++ tx ++ r) -> Forall (fun x => x <= 32) ws ->
  pb_depth b = d -> stops r ->
  let b' := advance (1 + zlen ws + zlen (quoted (Some key)) + 1 + zlen after_colon + zlen tx) b in
  object_loop pv (S fuel) b acc w =
    (let! b := buffer_skip_whitespace b' in
     let! more := at_char b c_comma in
     if more : bool then object_loop pv fuel b (acc ++ [x]) else ret (Some (acc ++ [x]), b)) w.
Proof.
  intros Hx Hst Hkey Hok Hh Hws Hd Hr b'. cbn [object_loop]. rewrite (bind_step _ _ _ _ _ (new_item_run w Ha)).
  assert (starts (quoted (Some key))) as Hsq by (rewrite quoted_some by done; by do 2 eexists).
  rewrite (bind_step _ _ _ _ _ (skip_before _ _ _ _ Hh Hws Hsq)). apply here_drop in Hh. rewrite advance_advance in *.
  rewrite (bind_step _ _ _ _ _ (parse_string_run key _ zero_item _ w Hok Hh Ha)). cbn beta iota.
  apply here_advance with (n := zlen (quoted (Some key))) in Hh; [|done]. rewrite advance_advance in *. cbn [app] in Hh.
  rewrite (bind_step _ _ _ _ _ (skip_none 58 _ _ w Hh ltac:(lia))), (bind_step _ _ _ _ _ (at_char_run _ _ _ 58 w Hh)).
  cbn [Z.eqb Pos.eqb negb]. apply here_tail in Hh. rewrite advance_advance in *.
  rewrite (bind_step _ _ _ _ _ (skip_before _ _ _ _ Hh after_colon_space Hst)). apply here_drop in Hh. rewrite advance_advance in *.
  rewrite (bind_step _ _ _ (Some x, b') w); [done|]. unfold b'.
  rewrite (Hx (keyed key) _ r); [|by do 2 eexists|done|done|done|done]. by rewrite advance_advance.
Qed.

Lemma comma_stops r : stops (44 :: r).
Proof. by exists 44, r. Qed.

Lemma newline_stops ws r : Forall (fun x => x <= 32) ws -> stops (ws ++ 125 :: r).
Proof.
  intros Hws. destruct ws as [|c ws]; [by exists 125, r|]. apply Forall_cons in Hws as [Hc _].
  exists c, (ws ++ 125 :: r). split; [done|]. unfold num_char, isdigit.
  rewrite (proj2 (Z.leb_gt 48 c)) by lia. cbn [andb orb].
  repeat (rewrite (proj2 (Z.eqb_neq c _)) by lia). done.
Qed.

Lemma object_loop_run k l : forall x tx s r fuel b ws ws' acc,
  Forall reads (x :: l) -> Forall named (x :: l) -> rv x = Some tx -> render_members fmt rv k l = Some s ->
  here (advance 1 b) (ws ++ member_text x l tx s ++ ws' ++ 125 :: r) -> Forall (fun x => x <= 32) ws ->
  Forall (fun x => x <= 32) ws' -> pb_depth b = d -> (length (member_text x l tx s) < fuel)%nat ->
  object_loop pv fuel b acc w
    = Ok (Some (acc ++ x :: l), advance (1 + zlen ws + zlen (member_text x l tx s) + zlen ws') b, w).
Proof.
  induction l as [|y l IH]; intros x tx s r fuel b ws ws' acc Hrd Hnm Htx Hs Hh Hws Hws' Hd Hf;
    apply Forall_cons in Hrd as [(tx' & Htx' & Hst & Hx) Hrd]; apply Forall_cons in Hnm as [(key & Hkey & Hok) Hnm];
    assert (tx' = tx) as -> by congruence; (destruct fuel as [|fuel]; [lia|]);
    unfold member_text in Hh, Hf |- *; rewrite Hkey in Hh, Hf |- *; rewrite <- !app_assoc in Hh.
  - injection Hs as <-. rewrite !app_nil_r in *. cbn [app] in Hh |- *.
    assert (Forall (fun x => x <= 32) (newline ++ ws')) as Hnl by (apply Forall_app; split; [apply newline_space|done]).
    rewrite (member_run x tx (newline ++ ws' ++ 125 :: r) fuel b ws acc key); [|exact Hx|done|done|done|exact Hh|done|done|].
    2: { rewrite app_assoc. by apply newline_stops. }
    set (n := 1 + _ + _ + _ + _ + _).
    assert (here (advance n b) ((newline ++ ws') ++ 125 :: r)) as Hb.
    { do 2 apply here_drop in Hh. cbn [app] in Hh. apply here_tail in Hh. apply here_drop in Hh.
      apply here_advance with (n := zlen tx) in Hh; [|done]. rewrite !advance_advance in Hh. rewrite <- app_assoc.
      unfold n. by rewrite !Z.add_assoc in Hh. }
    rewrite (bind_step _ _ _ _ _ (skip_run _ 125 r _ w Hb Hnl ltac:(lia))). apply here_advance with (n := zlen (newline ++ ws')) in Hb; [|done].
    rewrite (bind_step _ _ _ _ _ (at_char_run _ _ _ 44 w Hb)). cbn [Z.eqb Pos.eqb].
    unfold ret. rewrite advance_advance. do 4 f_equal. unfold n. zl.
  - pose proof (Forall_cons_1 _ _ _ Hrd) as [(ty & Hty & _) _].
    destruct (render_members fmt rv k l) as [s'|] eqn:Hs'; [|by cbn [render_members] in Hs; rewrite Hty, Hs' in Hs].
    rewrite (render_members_cons k y l ty s' Hty Hs') in Hs. apply (inj Some) in Hs as <-.
    rewrite <- (app_assoc (tabs k)) in Hh.
    rewrite (member_run x tx (44 :: newline ++ tabs k ++ member_text y l ty s' ++ ws' ++ 125 :: r) fuel b ws acc key);
      [|done|done|done|done| |done|done|apply comma_stops].
    2: { exact Hh. }
    set (n := 1 + _ + _ + _ + _ + _).
    assert (here (advance n b) (44 :: (newline ++ tabs k) ++ member_text y l ty s' ++ ws' ++ 125 :: r)) as Hb.
    { do 2 apply here_drop in Hh. cbn [app] in Hh. apply here_tail in Hh. apply here_drop in Hh.
      apply here_advance with (n := zlen tx) in Hh; [|done]. rewrite !advance_advance in Hh. rewrite <- app_assoc. cbn [app] in Hh.
      unfold n. by rewrite !Z.add_assoc in Hh. }
    rewrite (bind_step _ _ _ _ _ (skip_none 44 _ _ w Hb ltac:(lia))), (bind_step _ _ _ _ _ (at_char_run _ _ _ 44 w Hb)).
    cbn [Z.eqb Pos.eqb]. rewrite (IH y ty s' r fuel _ (newline ++ tabs k) ws'); [|done..|by apply here_tail in Hb| | | |].
    + rewrite <- app_assoc, advance_advance. do 4 f_equal. unfold n. zl.
    + apply Forall_app. split; [apply newline_space|apply tabs_space].
    + done.
    + done.
    + rewrite !length_app in Hf. cbn [length] in Hf. lia.
Qed.

(** ** Brackets *)

Lemma depth_bound b : pb_depth b + 1 = d -> d <= CJSON_NESTING_LIMIT -> (CJSON_NESTING_LIMIT <=? pb_depth b) = false.
Proof. intros. apply Z.leb_gt. lia. Qed.

Lemma here_depth b n x : here b x -> here (set_depth n b) x.
Proof. by intros []. Qed.

(** The position after the closing bracket, with the depth restored. *)
Lemma leave_nested b n :
  let b1 := set_depth (pb_depth b + 1) b in
  advance 1 (set_depth (pb_depth (advance n b1) - 1) (advance n b1)) = advance (n + 1) b.
Proof. unfold advance, set_offset, set_depth. cbn. f_equal; lia. Qed.

Lemma parse_array_run l t r i b :
  Forall reads l -> Forall (fun x => cj_string x = None) l -> render_elements fmt rv l = Some t ->
  here b (91 :: t ++ 93 :: r) -> pb_depth b + 1 = d -> d <= CJSON_NESTING_LIMIT ->
  parse_array pv i b w = Ok (Some (set_type cJSON_Array (set_child l i)), advance (zlen t + 2) b, w).
Proof.
  intros Hl Hnm Ht Hh Hd Hlim. unfold parse_array. rewrite (depth_bound b Hd Hlim).
  set (b1 := set_depth (pb_depth b + 1) b).
  assert (here b1 (91 :: t ++ 93 :: r)) as Hh1 by (by apply here_depth).
  rewrite (bind_step _ _ _ _ _ (here_char _ _ _ _ Hh1)). cbn [Z.eqb Pos.eqb negb]. apply here_tail in Hh1.
  pose proof (leave_nested b) as Hend. cbv zeta in Hend. fold b1 in Hend.
  destruct l as [|x l].
  { injection Ht as <-. cbn [app] in Hh1. rewrite (bind_step _ _ _ _ _ (skip_none 93 r _ w Hh1 ltac:(lia))).
    rewrite (bind_step _ _ _ _ _ (at_char_run _ _ _ 93 w Hh1)). cbn [Z.eqb Pos.eqb]. by rewrite Hend. }
  assert (starts t) as Hst.
  { pose proof (Forall_cons_1 _ _ _ Hl) as [(tx & Htx & (c & k & -> & Hc) & _) _]. cbn [render_elements] in Ht.
    rewrite Htx in Ht. cbn [mbind option_bind] in Ht. destruct l; [injection Ht as <-; by exists c, k|].
    destruct (render_elements _ _ _); [|done]. apply (inj Some) in Ht as <-. by do 2 eexists. }
  pose proof Hst as (c & k & Hk & Hc & Hc93 & _). pose proof Hh1 as Hc1. rewrite Hk in Hc1. cbn [app] in Hc1.
  rewrite (bind_step _ _ _ _ _ (skip_none c _ _ w Hc1 Hc)).
  rewrite (bind_step _ _ _ _ _ (at_char_run _ _ _ 93 w Hc1)), (proj2 (Z.eqb_neq c 93)) by done.
  rewrite (here_access _ _ _ Hc1). cbn [negb]. cbv zeta. rewrite advance_advance.
  erewrite bind_step by (apply (array_loop_run (x :: l) t r _ _ []);
    [done..|by rewrite advance_advance|done|done|]; rewrite (here_fuel _ (91 :: t ++ 93 :: r)) by (rewrite advance_0; by apply here_depth);
    cbn [length]; rewrite length_app; cbn; lia).
  cbn beta iota. rewrite !advance_advance. change (zlen []) with 0. cbn [app].
  apply here_drop in Hh1. rewrite advance_advance in Hh1. replace (1 + -1 + (1 + 0 + zlen t)) with (1 + zlen t) by lia.
  rewrite (bind_step _ _ _ _ _ (at_char_run _ _ _ 93 w Hh1)). cbn [Z.eqb Pos.eqb negb]. rewrite Hend.
  unfold ret. do 4 f_equal. lia.
Qed.

Lemma parse_object_run k l t r ws i b :
  Forall reads l -> Forall named l -> render_members fmt rv k l = Some t ->
  here b (123 :: newline ++ t ++ ws ++ 125 :: r) -> Forall (fun x => x <= 32) ws ->
  pb_depth b + 1 = d -> d <= CJSON_NESTING_LIMIT ->
  parse_object pv i b w
    = Ok (Some (set_type cJSON_Object (set_child l i)), advance (zlen newline + zlen t + zlen ws + 2) b, w).
Proof.
  intros Hl Hnm Ht Hh Hws Hd Hlim. unfold parse_object. rewrite (depth_bound b Hd Hlim).
  set (b1 := set_depth (pb_depth b + 1) b).
  assert (here b1 (123 :: newline ++ t ++ ws ++ 125 :: r)) as Hh1 by (by apply here_depth).
  rewrite (bind_step _ _ _ _ _ (at_char_run _ _ _ 123 w Hh1)). cbn [Z.eqb Pos.eqb negb]. apply here_tail in Hh1.
  pose proof (leave_nested b) as Hend. cbv zeta in Hend. fold b1 in Hend.
  destruct l as [|x l].
  { injection Ht as <-. cbn [app] in Hh1. rewrite app_assoc in Hh1.
    assert (Forall (fun x => x <= 32) (newline ++ ws)) as Hs by (apply Forall_app; split; [apply newline_space|done]).
    rewrite (bind_step _ _ _ _ _ (skip_run _ 125 r _ w Hh1 Hs ltac:(lia))). apply here_drop in Hh1.
    rewrite (bind_step _ _ _ _ _ (at_char_run _ _ _ 125 w Hh1)). cbn [Z.eqb Pos.eqb].
    rewrite advance_advance, Hend. unfold ret. do 4 f_equal. zl. }
  pose proof (Forall_cons_1 _ _ _ Hl) as [(tx & Htx & _) _].
  destruct (render_members fmt rv k l) as [s|] eqn:Hs; [|by cbn [render_members] in Ht; rewrite Htx, Hs in Ht].
  rewrite (render_members_cons k x l tx s Htx Hs) in Ht. apply (inj Some) in Ht as <-.
  set (m := member_text x l tx s) in *.
  assert (exists m', m = 34 :: m') as [m' Hm'].
  { pose proof (Forall_cons_1 _ _ _ Hnm) as [(key & Hkey & Hok) _]. unfold m, member_text.
    rewrite Hkey, quoted_some by done. by eexists. }
  rewrite <- app_assoc in Hh1. rewrite app_assoc in Hh1.
  assert (Forall (fun x => x <= 32) (newline ++ tabs k)) as Hsp
    by (apply Forall_app; split; [apply newline_space|apply tabs_space]).
  pose proof Hh1 as Hq. rewrite Hm' in Hq. cbn [app] in Hq.
  rewrite (bind_step _ _ _ _ _ (skip_run _ 34 _ _ w Hq Hsp ltac:(lia))). apply here_drop in Hq, Hh1.
  rewrite advance_advance in Hq, Hh1. rewrite advance_advance.
  rewrite (bind_step _ _ _ _ _ (at_char_run _ _ _ 125 w Hq)). cbn [Z.eqb Pos.eqb].
  rewrite (here_access _ _ _ Hq). cbn [negb]. cbv zeta. rewrite advance_advance.
  set (n := 1 + zlen (newline ++ tabs k)) in *.
  assert (length m < text_fuel (advance (n + -1) b1))%nat as Hfuel.
  { pose proof (he_length _ _ Hh1) as Hlen. rewrite zlen_app in Hlen. pose proof (zlen_nonneg (ws ++ 125 :: r)).
    unfold text_fuel. cbn [pb_offset pb_length advance set_offset] in Hlen |- *. unfold zlen in Hlen at 1. unfold zlen in *. lia. }
  erewrite bind_step.
  2: { apply (object_loop_run k l x tx s r _ _ [] ws); [done|done|done|done| |done|done|done|exact Hfuel].
       rewrite advance_advance. by replace (n + -1 + 1) with n by lia. }
  fold m. cbn beta iota. rewrite advance_advance. change (zlen []) with 0. cbn [app].
  do 2 apply here_drop in Hh1. rewrite !advance_advance in Hh1.
  replace (n + -1 + (1 + 0 + zlen m + zlen ws)) with (n + (zlen m + zlen ws)) by lia.
  rewrite (bind_step _ _ _ _ _ (at_char_run _ _ _ 125 w Hh1)). cbn [Z.eqb Pos.eqb negb]. rewrite Hend.
  unfold ret. do 4 f_equal. unfold n. zl.
Qed.
End Loops.

(** * Values *)

(** The items that the parser builds from texts without the null character escaped and
    without numbers that overflow; [n] bounds the nesting. *)
Inductive canonical : nat -> cJSON -> Prop :=
| canonical_null n s : canonical (S n) (mk_cJSON cJSON_NULL None 0 (dzero false) s [])
| canonical_false n s : canonical (S n) (mk_cJSON cJSON_False None 0 (dzero false) s [])
| canonical_true n s : canonical (S n) (mk_cJSON cJSON_True None 1 (dzero false) s [])
| canonical_number n s d : double_ok d -> is_finite d = true ->
    canonical (S n) (mk_cJSON cJSON_Number None (valueint_of d) d s [])
| canonical_string n s v : Forall char_ok v ->
    canonical (S n) (mk_cJSON cJSON_String (Some v) 0 (dzero false) s [])
| canonical_array n s c : (0 < n)%nat -> Forall (canonical n) c -> Forall (fun x => cj_string x = None) c ->
    canonical (S n) (mk_cJSON cJSON_Array None 0 (dzero false) s c)
| canonical_object n s c : (0 < n)%nat -> Forall (canonical n) c -> Forall named c ->
    canonical (S n) (mk_cJSON cJSON_Object None 0 (dzero false) s c).

Section Values.
Context (w : world) (Ha : w_alloc w = []).

Lemma value_literal pv i0 b s r (v : cJSON) :
  here b (s ++ r) ->
  s = text "null" /\ v = set_type cJSON_NULL i0 \/ s = text "false" /\ v = set_type cJSON_False i0 \/
  s = text "true" /\ v = set_valueint 1 (set_type cJSON_True i0) ->
  value_body pv i0 b w = Ok (Some v, advance (zlen s) b, w).
Proof.
  intros Hh Hs. unfold value_body. destruct Hs as [[-> ->]|[[-> ->]|[-> ->]]].
  - by rewrite (bind_step _ _ _ _ _ (at_text_run _ _ _ w Hh)).
  - rewrite (bind_step _ _ _ false w) by (eapply at_text_other; [exact Hh|done]).
    by rewrite (bind_step _ _ _ _ _ (at_text_run _ _ _ w Hh)).
  - rewrite (bind_step _ _ _ false w) by (eapply at_text_other; [exact Hh|done]).
    rewrite (bind_step _ _ _ false w) by (eapply at_text_other; [exact Hh|done]).
    by rewrite (bind_step _ _ _ _ _ (at_text_run _ _ _ w Hh)).
Qed.

(** The other values are told from their first character. *)
Lemma value_other pv i0 b c r :
  here b (c :: r) -> c <> 110 -> c <> 102 -> c <> 116 ->
  value_body pv i0 b w =
    (if c =? c_quote then parse_string i0 b
     else if (c =? 45) || ((48 <=? c) && (c <=? 57)) then parse_number i0 b
     else if c =? c_open_bracket then parse_array pv i0 b
     else if c =? c_open_brace then parse_object pv i0 b
     else ret (None, b)) w.
Proof.
  intros Hh H1 H2 H3. unfold value_body. do 3 (rewrite (bind_step _ _ _ false w) by (eapply at_text_other; [exact Hh|done])).
  rewrite (here_access _ _ _ Hh). by rewrite (bind_step _ _ _ _ _ (here_char _ _ _ w Hh)).
Qed.

(** The texts of elements that are read exist. *)
Lemma elements_rendered fmt pv rv d l :
  Forall (reads pv rv d w) l -> exists t, render_elements fmt rv l = Some t.
Proof.
  induction 1 as [|x l (t & Ht & _) _ [s Hs]]; cbn [render_elements]; [by eexists|]. rewrite Ht. cbn [mbind option_bind].
  destruct l; [by eexists|]. rewrite Hs. by eexists.
Qed.

Lemma members_rendered fmt pv rv d k l :
  Forall (reads pv rv d w) l -> exists t, render_members fmt rv k l = Some t.
Proof.
  induction 1 as [|x l (t & Ht & _) _ [s Hs]]; cbn [render_members]; [by eexists|]. rewrite Ht, Hs. by eexists.
Qed.

Lemma fresh_item i0 s : fresh i0 -> cj_string i0 = s -> exists t, i0 = mk_cJSON t None 0 (dzero false) s [].
Proof. intros (t & s' & ->). cbn. intros ->. by eexists. Qed.

Lemma starts_cons c l : 32 < c -> c <> 93 -> c < 128 -> starts (c :: l).
Proof. intros. by exists c, l. Qed.

Lemma number_starts d :
  double_ok d -> is_finite d = true ->
  exists c l, number_text d = c :: l /\ ((c =? 45) || ((48 <=? c) && (c <=? 57))) = true /\ (c = 45 \/ 48 <= c <= 57).
Proof.
  intros Hok Hfin. rewrite number_text_shortest by done. destruct (shortest_head d Hok Hfin) as (c & l & -> & Hc).
  exists c, l. split; [done|]. unfold isdigit in Hc. destruct Hc as [->|Hc]; [split; [done|lia]|].
  rewrite Hc, orb_true_r. split; [done|]. apply andb_true_iff in Hc as [?%Z.leb_le ?%Z.leb_le]. lia.
Qed.

(** The parser reads the text of a canonical item. *)
Lemma parse_value_run fmt n k i d :
  canonical n i -> d = CJSON_NESTING_LIMIT + 1 - Z.of_nat n -> reads (parse_value n) (render fmt k) d w i.
Proof.
  revert k i d. induction n as [|n IH]; intros k i d Hc Hd; inversion Hc; subst; cbn [parse_value];
    unfold reads; cbn [render].
  - exists (text "null"). split_and!; [done|by apply starts_cons|]. intros i0 b r Hi0 Hs Hh _ _.
    destruct (fresh_item i0 _ Hi0 Hs) as [t ->]. apply (value_literal _ _ _ _ r); [done|]. auto.
  - exists (text "false"). split_and!; [done|by apply starts_cons|]. intros i0 b r Hi0 Hs Hh _ _.
    destruct (fresh_item i0 _ Hi0 Hs) as [t ->]. apply (value_literal _ _ _ _ r); [done|]. auto.
  - exists (text "true"). split_and!; [done|by apply starts_cons|]. intros i0 b r Hi0 Hs Hh _ _.
    destruct (fresh_item i0 _ Hi0 Hs) as [t ->]. apply (value_literal _ _ _ _ r); [done|]. auto.
  - exists (number_text d0). destruct (number_starts d0) as (c & l & Ht & Hc1 & Hc2); [done..|].
    split_and!; [done|rewrite Ht; apply starts_cons; lia|]. intros i0 b r Hi0 Hs Hh Hr _.
    destruct (fresh_item i0 _ Hi0 Hs) as [t ->]. pose proof Hh as Hh'. rewrite Ht in Hh'. cbn [app] in Hh'.
    rewrite (value_other _ _ _ _ _ Hh') by lia. rewrite (proj2 (Z.eqb_neq c 34)), Hc1 by lia.
    by rewrite (parse_number_run d0 r).
  - exists (quoted (Some v)). split_and!; [done|by apply starts_cons|]. intros i0 b r Hi0 Hs Hh _ _.
    destruct (fresh_item i0 _ Hi0 Hs) as [t ->]. rewrite (value_other _ _ _ 34 _ Hh) by lia. cbn [Z.eqb Pos.eqb].
    by rewrite (parse_string_run v r).
  - set (d' := CJSON_NESTING_LIMIT + 1 - Z.of_nat n).
    assert (Forall (reads (parse_value n) (render fmt (S k)) d' w) c) as Hl by (apply (Forall_impl (canonical n)); [done|]; intros; by apply IH).
    destruct (elements_rendered fmt _ _ _ _ Hl) as [t Ht]. exists (91 :: t ++ [93]).
    split_and!; [cbn; by rewrite Ht|by apply starts_cons|]. intros i0 b r Hi0 Hs Hh _ Hb.
    destruct (fresh_item i0 _ Hi0 Hs) as [ty ->]. cbn [app] in Hh. rewrite <- app_assoc in Hh. cbn [app] in Hh.
    rewrite (value_other _ _ _ 91 _ Hh) by lia. cbn [Z.eqb Pos.eqb Z.leb Z.compare Pos.compare Pos.compare_cont orb andb].
    rewrite (parse_array_run fmt _ (render fmt (S k)) d' w Ha c t r); [|done..|unfold d'; lia|unfold d'; lia].
    do 4 f_equal. zl.
  - set (d' := CJSON_NESTING_LIMIT + 1 - Z.of_nat n).
    assert (Forall (reads (parse_value n) (render fmt (S k)) d' w) c) as Hl by (apply (Forall_impl (canonical n)); [done|]; intros; by apply IH).
    destruct (members_rendered fmt _ _ _ (S k) _ Hl) as [t Ht]. exists (123 :: newline fmt ++ t ++ tabs fmt k ++ [125]).
    split_and!; [cbn; by rewrite Ht|by apply starts_cons|]. intros i0 b r Hi0 Hs Hh _ Hb.
    destruct (fresh_item i0 _ Hi0 Hs) as [ty ->]. cbn [app] in Hh. rewrite <- !app_assoc in Hh. cbn [app] in Hh.
    rewrite (value_other _ _ _ 123 _ Hh) by lia. cbn [Z.eqb Pos.eqb Z.leb Z.compare Pos.compare Pos.compare_cont orb andb].
    rewrite (parse_object_run fmt _ (render fmt (S k)) d' w Ha (S k) c t r (tabs fmt k)); [|done..|apply tabs_space|unfold d'; lia|unfold d'; lia].
    do 4 f_equal. zl.
Qed.

(** ** Texts *)

Lemma here_start s rest d : here (mk_pb (s ++ 0 :: rest) (zlen s + 1) 0 d) (s ++ [0]).
Proof.
  split; cbn; [done|zl|]. intros j c Hj. cbn. change (0 :: rest) with ([0] ++ rest). rewrite app_assoc.
  by apply lookup_app_l_Some.
Qed.

Lemma skip_bom_run b t r : here b (t ++ r) -> starts t -> pb_offset b = 0 -> skip_utf8_bom b w = Ok (Some b, w).
Proof.
  intros [Ho Hl Ht] (c & l & -> & _ & _ & Hc) H0. unfold skip_utf8_bom. rewrite (proj2 (Z.eqb_eq _ _)) by done. cbn [negb].
  destruct (can_access_at_index b 4); [|done]. rewrite (bind_step _ _ _ false w); [done|]. cbn [strncmp_eq].
  rewrite (bind_step _ _ _ _ _ (matches_head _ _ _ _ _ Ho Ht)). by rewrite (proj2 (Z.eqb_neq c 239)) by lia.
Qed.

(** Parsing the text of a canonical item. *)
Lemma parse_text_run fmt i t rest whole :
  canonical nesting_fuel i -> cj_string i = None -> render fmt 0 i = Some t -> Forall (fun c => c <> 0) t ->
  cJSON_ParseWithOpts (Some (t ++ 0 :: rest)) whole w = Ok (mk_result (Some i) (Some (zlen t)) None, w).
Proof.
  intros Hc Hn Ht Hz.
  destruct (parse_value_run fmt nesting_fuel 0 i 0 Hc ltac:(done)) as (t' & Ht' & Hst & Hread).
  assert (t' = t) as -> by congruence. unfold cJSON_ParseWithOpts.
  rewrite (bind_step _ _ _ _ _ (strlen_run t rest w Hz)), (bind_step _ _ _ _ _ (new_item_run w Ha)).
  set (b := mk_pb _ _ _ _). assert (here b (t ++ [0])) as Hh by apply here_start.
  rewrite (bind_step _ _ _ _ _ (skip_bom_run b t [0] Hh Hst eq_refl)).
  rewrite (bind_step _ _ _ b w).
  2: { destruct Hst as (c & l & -> & Hc32 & _). by apply (skip_none c (l ++ [0])). }
  rewrite (bind_step _ _ _ _ _ (Hread zero_item b [0] fresh_zero (eq_sym Hn) Hh ltac:(by exists 0, []) eq_refl)).
  apply here_drop in Hh. cbn beta iota. destruct whole; [|done].
  rewrite (bind_step _ _ _ _ _ (skip_end _ w Hh)). pose proof (he_length _ _ Hh) as Hlen. change (zlen [0]) with 1 in Hlen.
  rewrite (proj2 (Z.leb_gt _ _)) by lia. by rewrite (bind_step _ _ _ _ _ (here_char _ _ _ w Hh)).
Qed.
End Values.

(** * The round trip *)

Lemma named_node x : named x -> Forall byte_ok (default [] (cj_string x)).
Proof. intros (key & -> & H). cbn. eapply Forall_impl; [exact H|]. unfold char_ok, byte_ok. lia. Qed.

Lemma canonical_tree n i :
  canonical n i -> Forall byte_ok (default [] (cj_string i)) -> tree node_ok i.
Proof.
  revert i. induction n as [|n IH]; intros i Hc Hs; inversion Hc; subst; (constructor; [split_and!|]);
    cbn [cj_valuedouble cj_valuestring cj_child default id] in *; try done; try (cbn; lia).
  - eapply Forall_impl; [eassumption|]. unfold char_ok, byte_ok. cbn. lia.
  - rewrite Forall_forall in *. intros x Hx. apply IH; [auto|]. replace (cj_string x) with (@None (list Z)); [done|].
    symmetry. auto.
  - rewrite Forall_forall in *. intros x Hx. apply IH; [auto|]. apply named_node. auto.
Qed.

(** C5: what cJSON_Print and cJSON_PrintUnformatted print for a canonical item (at most
    1000 levels of arrays and objects, finite numbers with the integer that belongs to
    them, strings and keys without null characters, keys in objects and only there) is
    read back by cJSON_Parse as the same item, numbers bit for bit, whichever characters
    have to be escaped, and the whole text is taken. *)
Theorem cJSON_print_parse_roundtrip i (fmt : bool) realloc whole w :
  canonical nesting_fuel i -> cj_string i = None -> w_alloc w = [] ->
  (forall t, render fmt 0 i = Some t -> zlen t + 2 <= INT_MAX) ->
  exists t w', (if fmt then cJSON_Print else cJSON_PrintUnformatted) (Some i) realloc w
                 = Ok (Some (Some <$> t ++ [0]), w') /\
    forall rest w2, w_alloc w2 = [] ->
      cJSON_ParseWithOpts (Some (t ++ 0 :: rest)) whole w2 = Ok (mk_result (Some i) (Some (zlen t)) None, w2).
Proof.
  intros Hc Hn Ha Hlen. assert (tree node_ok i) as Htree by (eapply canonical_tree; [done|by rewrite Hn]).
  destruct (parse_value_run w Ha fmt nesting_fuel 0 i 0 Hc ltac:(done)) as (t & Ht & _).
  pose proof (print_spec i fmt realloc w Htree) as Hp. unfold wp in Hp.
  assert ((if fmt then cJSON_Print else cJSON_PrintUnformatted) (Some i) realloc
    = print (Some i) fmt realloc) as -> by (by destruct fmt).
  destruct (print (Some i) fmt realloc w) as [[[s|] w']| | |]; [|destruct (Hp t Ht) as [?|?]; [done|specialize (Hlen t Ht); lia]|done..].
  destruct Hp as (t' & Ht' & ->). assert (t' = t) as -> by congruence. exists t, w'. split; [done|].
  intros rest w2 Ha2. apply (parse_text_run w2 Ha2 fmt); try done.
  eapply Forall_impl; [eapply render_pos; done|]. cbn. lia.
Qed.

(** * Example *)

Definition example_item : cJSON :=
  mk_cJSON cJSON_Object None 0 (dzero false) None
    [mk_cJSON cJSON_Number None 1 (DFin false (3 * 2 ^ 51) (-52)) (Some (text "a")) [];
     mk_cJSON cJSON_Array None 0 (dzero false) (Some [10; 34; 1])
       [mk_cJSON cJSON_True None 1 (dzero false) None [];
        mk_cJSON cJSON_String (Some (text "x/y")) 0 (dzero false) None [];
        mk_cJSON cJSON_Object None 0 (dzero false) None []]].

Lemma chars_ok l : forallb (fun c => (0 <? c) && (c <? 256)) l = true -> Forall char_ok l.
Proof.
  induction l as [|c l IH]; [constructor|]. cbn. intros [[?%Z.ltb_lt ?%Z.ltb_lt]%andb_true_iff Hl]%andb_true_iff.
  constructor; [by split|by apply IH].
Qed.

Lemma example_canonical : canonical nesting_fuel example_item.
Proof.
  change nesting_fuel with 1001%nat. apply canonical_object; [lia| |].
  - constructor; [|constructor; [|constructor]].
    + apply (canonical_number _ _ (DFin false (3 * 2 ^ 51) (-52))); [cbn; lia|done].
    + apply canonical_array; [lia| |by repeat constructor].
      repeat constructor; lia.
  - constructor; [|constructor; [|constructor]]; (eexists; split; [reflexivity|by apply chars_ok]).
Qed.

Lemma cJSON_print_parse_roundtrip_witness :
  exists t w', cJSON_Print (Some example_item) true (mk_world [] 0 []) = Ok (Some (Some <$> t ++ [0]), w') /\
    cJSON_ParseWithOpts (Some (t ++ [0])) true (mk_world [] 0 [])
      = Ok (mk_result (Some example_item) (Some (zlen t)) None, mk_world [] 0 []).
Proof.
  destruct (cJSON_print_parse_roundtrip example_item true true true (mk_world [] 0 [])) as (t & w' & H1 & H2).
  - exact example_canonical.
  - reflexivity.
  - reflexivity.
  - intros t Ht. vm_compute in Ht. injection Ht as <-. vm_compute. discriminate.
  - exists t, w'. split; [exact H1|]. apply (H2 []). reflexivity.
Defined.
