(* ===== verification/CJsonHeap.v ===== *)
(** cjson.c: the items as objects of memory.

    An item is a node with pointers to its neighbours, its first child and its
    strings; the heap maps the addresses of the live nodes and strings to their
    contents, so that a read or write through a null or dangling pointer and a second
    release of an object are faults.  A string is its bytes before the terminator.
    New objects get new addresses, and each allocation can fail.  The loops over
    chains and the recursion over trees take the number of live nodes as fuel, which
    only a cyclic structure exhausts. *)
From stdpp Require Import gmap.
From S2P Require Import Prelude CMonad CDouble CText CJson.

(** * The heap *)

Abbreviation ptr := (option Z).

Record node := mk_node {
  n_next : ptr;
  n_prev : ptr;
  n_child : ptr;
  n_type : Z;
  n_valuestring : ptr;
  n_valueint : Z;
  n_valuedouble : double;
  n_string : ptr
}.

Definition with_next (p : ptr) (n : node) : node :=
  mk_node p (n_prev n) (n_child n) (n_type n) (n_valuestring n) (n_valueint n) (n_valuedouble n) (n_string n).
Definition with_prev (p : ptr) (n : node) : node :=
  mk_node (n_next n) p (n_child n) (n_type n) (n_valuestring n) (n_valueint n) (n_valuedouble n) (n_string n).
Definition with_child (p : ptr) (n : node) : node :=
  mk_node (n_next n) (n_prev n) p (n_type n) (n_valuestring n) (n_valueint n) (n_valuedouble n) (n_string n).
Definition with_type (t : Z) (n : node) : node :=
  mk_node (n_next n) (n_prev n) (n_child n) t (n_valuestring n) (n_valueint n) (n_valuedouble n) (n_string n).
Definition with_valuestring (p : ptr) (n : node) : node :=
  mk_node (n_next n) (n_prev n) (n_child n) (n_type n) p (n_valueint n) (n_valuedouble n) (n_string n).
Definition with_value (i : Z) (d : double) (n : node) : node :=
  mk_node (n_next n) (n_prev n) (n_child n) (n_type n) (n_valuestring n) i d (n_string n).
Definition with_string (p : ptr) (n : node) : node :=
  mk_node (n_next n) (n_prev n) (n_child n) (n_type n) (n_valuestring n) (n_valueint n) (n_valuedouble n) p.

Record heap := mk_heap {
  hp_items : gmap Z node;
  hp_strings : gmap Z (list Z);
  hp_fresh : Z;
  hp_alloc : list bool  (** outcome of each coming allocation; succeeds when exhausted *)
}.

Definition with_items (m : gmap Z node) (h : heap) : heap :=
  mk_heap m (hp_strings h) (hp_fresh h) (hp_alloc h).
Definition with_strings (m : gmap Z (list Z)) (h : heap) : heap :=
  mk_heap (hp_items h) m (hp_fresh h) (hp_alloc h).

(** ** The monad *)

Definition H (A : Type) : Type := heap -> res (A * heap).

Definition hret {A} (a : A) : H A := fun h => Ok (a, h).
Definition hub {A} : H A := fun _ => Ub.
Definition hfuel {A} : H A := fun _ => Fuel.

Definition hbind {A B} (c : H A) (k : A -> H B) : H B := fun h =>
  match c h with
  | Ok (a, h') => k a h'
  | Ub => Ub
  | Exit => Exit
  | Fuel => Fuel
  end.

Notation "'let*' x := c 'in' k" := (hbind c (fun x => k))
  (at level 10, x pattern, c at level 200, k at level 200) : c_scope.
Notation "c ;;* k" := (hbind c (fun _ => k))
  (at level 199, k at level 200, right associativity) : c_scope.

(** The number of live nodes bounds the steps over a structure without cycles. *)
Definition with_fuel {A} (f : nat -> H A) : H A := fun h => f (S (size (hp_items h))) h.

(** ** Objects *)

Definition deref (p : ptr) : H node := fun h =>
  match p ≫= (fun l => hp_items h !! l) with Some n => Ok (n, h) | None => Ub end.

Definition update (p : ptr) (f : node -> node) : H unit := fun h =>
  match p with
  | Some l =>
      match hp_items h !! l with
      | Some n => Ok (tt, with_items (<[l := f n]> (hp_items h)) h)
      | None => Ub
      end
  | None => Ub
  end.

Definition read_string (p : ptr) : H (list Z) := fun h =>
  match p ≫= (fun l => hp_strings h !! l) with Some s => Ok (s, h) | None => Ub end.

(** Whether the next allocation succeeds, and its address. *)
Definition allocate : H ptr := fun h =>
  let ok := match hp_alloc h with [] => true | b :: _ => b end in
  Ok (if ok then Some (hp_fresh h) else None,
      mk_heap (hp_items h) (hp_strings h) (if ok then hp_fresh h + 1 else hp_fresh h) (tail (hp_alloc h))).

Definition free_string (p : ptr) : H unit := fun h =>
  match p with
  | Some l => if hp_strings h !! l is Some _ then Ok (tt, with_strings (delete l (hp_strings h)) h) else Ub
  | None => Ok (tt, h)
  end.
Definition free_item (p : ptr) : H unit := fun h =>
  match p with
  | Some l => if hp_items h !! l is Some _ then Ok (tt, with_items (delete l (hp_items h)) h) else Ub
  | None => Ok (tt, h)
  end.

Definition zero_node : node := mk_node None None None 0 None 0 (dzero false) None.

Definition new_item : H ptr :=
  let* p := allocate in
  match p with
  | None => hret None
  | Some l => fun h => Ok (Some l, with_items (<[l := zero_node]> (hp_items h)) h)
  end.

Definition cJSON_strdup (string : ptr) : H ptr :=
  match string with
  | None => hret None
  | Some _ =>
      let* s := read_string string in
      let* p := allocate in
      match p with
      | None => hret None
      | Some l => fun h => Ok (Some l, with_strings (<[l := s]> (hp_strings h)) h)
      end
  end.

Definition has_flag (n : node) (f : Z) : bool := negb (Z.land (n_type n) f =? 0).

(** * Deletion *)

Fixpoint delete_chain (fuel : nat) (item : ptr) : H unit :=
  match fuel with
  | O => hfuel
  | S fuel =>
      match item with
      | None => hret tt
      | Some _ =>
          let* n := deref item in
          (if negb (has_flag n cJSON_IsReference) && bool_decide (n_child n <> None)
           then delete_chain fuel (n_child n) else hret tt) ;;*
          (if negb (has_flag n cJSON_IsReference) && bool_decide (n_valuestring n <> None)
           then free_string (n_valuestring n) else hret tt) ;;*
          (if negb (has_flag n cJSON_StringIsConst) && bool_decide (n_string n <> None)
           then free_string (n_string n) else hret tt) ;;*
          free_item item ;;*
          delete_chain fuel (n_next n)
      end
  end.

Definition cJSON_Delete (item : ptr) : H unit := with_fuel (fun fuel => delete_chain fuel item).

(** * Reading *)

Definition signed32 (z : Z) : Z := let v := z mod 2 ^ 32 in if v <? 2 ^ 31 then v else v - 2 ^ 32.

Fixpoint count_loop (fuel : nat) (child : ptr) (size : Z) : H Z :=
  match fuel with
  | O => hfuel
  | S fuel =>
      match child with
      | None => hret size
      | Some _ => let* n := deref child in count_loop fuel (n_next n) (size + 1)
      end
  end.

Definition cJSON_GetArraySize (array : ptr) : H Z :=
  match array with
  | None => hret 0
  | Some _ =>
      let* n := deref array in
      let* size := with_fuel (fun fuel => count_loop fuel (n_child n) 0) in
      hret (signed32 size)
  end.

Fixpoint item_loop (fuel : nat) (current_child : ptr) (index : Z) : H ptr :=
  match fuel with
  | O => hfuel
  | S fuel =>
      match current_child with
      | None => hret None
      | Some _ =>
          if 0 <? index then let* n := deref current_child in item_loop fuel (n_next n) (index - 1)
          else hret current_child
      end
  end.

Definition get_array_item (array : ptr) (index : Z) : H ptr :=
  match array with
  | None => hret None
  | Some _ => let* n := deref array in with_fuel (fun fuel => item_loop fuel (n_child n) index)
  end.

Definition cJSON_GetArrayItem (array : ptr) (index : Z) : H ptr :=
  if index <? 0 then hret None else get_array_item array index.

Definition tolower (c : Z) : Z := if (65 <=? c) && (c <=? 90) then c + 32 else c.

(** The difference at the first characters that differ, of strings without their terminators. *)
Fixpoint strcmp_from (f : Z -> Z) (s1 s2 : list Z) : Z :=
  match s1, s2 with
  | [], [] => 0
  | [], c2 :: _ => f 0 - f c2
  | c1 :: _, [] => f c1 - f 0
  | c1 :: s1, c2 :: s2 => if f c1 =? f c2 then strcmp_from f s1 s2 else f c1 - f c2
  end.

Definition case_insensitive_strcmp (string1 string2 : ptr) : H Z :=
  match string1, string2 with
  | Some l1, Some l2 =>
      if l1 =? l2 then hret 0 else
      let* s1 := read_string string1 in
      let* s2 := read_string string2 in
      hret (strcmp_from tolower s1 s2)
  | _, _ => hret 1
  end.

Definition strcmp (string1 string2 : ptr) : H Z :=
  let* s1 := read_string string1 in
  let* s2 := read_string string2 in
  hret (strcmp_from id s1 s2).

Fixpoint name_loop (fuel : nat) (case_sensitive : bool) (name current_element : ptr) : H ptr :=
  match fuel with
  | O => hfuel
  | S fuel =>
      match current_element with
      | None => hret None
      | Some _ =>
          let* n := deref current_element in
          let* c := (if case_sensitive then strcmp else case_insensitive_strcmp) name (n_string n) in
          if c =? 0 then hret current_element else name_loop fuel case_sensitive name (n_next n)
      end
  end.

Definition get_object_item (object name : ptr) (case_sensitive : bool) : H ptr :=
  match object, name with
  | Some _, Some _ =>
      let* n := deref object in
      with_fuel (fun fuel => name_loop fuel case_sensitive name (n_child n))
  | _, _ => hret None
  end.

Definition cJSON_GetObjectItem (object string : ptr) : H ptr := get_object_item object string false.
Definition cJSON_GetObjectItemCaseSensitive (object string : ptr) : H ptr := get_object_item object string true.
Definition cJSON_HasObjectItem (object string : ptr) : H bool :=
  let* p := cJSON_GetObjectItem object string in hret (bool_decide (p <> None)).

(** Whether the type of an item, without its flags, is [t]. *)
Definition type_is (t : Z) (item : ptr) : H bool :=
  match item with
  | None => hret false
  | Some _ => let* n := deref item in hret (Z.land (n_type n) 0xFF =? t)
  end.

Definition cJSON_IsInvalid (item : ptr) : H bool := type_is cJSON_Invalid item.
Definition cJSON_IsFalse (item : ptr) : H bool := type_is cJSON_False item.
Definition cJSON_IsTrue (item : ptr) : H bool := type_is cJSON_True item.
Definition cJSON_IsBool (item : ptr) : H bool :=
  match item with
  | None => hret false
  | Some _ => let* n := deref item in hret (negb (Z.land (n_type n) (Z.lor cJSON_True cJSON_False) =? 0))
  end.
Definition cJSON_IsNull (item : ptr) : H bool := type_is cJSON_NULL item.
Definition cJSON_IsNumber (item : ptr) : H bool := type_is cJSON_Number item.
Definition cJSON_IsString (item : ptr) : H bool := type_is cJSON_String item.
Definition cJSON_IsArray (item : ptr) : H bool := type_is cJSON_Array item.
Definition cJSON_IsObject (item : ptr) : H bool := type_is cJSON_Object item.
Definition cJSON_IsRaw (item : ptr) : H bool := type_is cJSON_Raw item.

Definition cJSON_GetStringValue (item : ptr) : H ptr :=
  let* string := cJSON_IsString item in
  if negb string then hret None else let* n := deref item in hret (n_valuestring n).

(** * Creation *)

Definition create (f : node -> node) : H ptr :=
  let* item := new_item in
  match item with
  | None => hret None
  | Some _ => update item f ;;* hret item
  end.

Definition cJSON_CreateNull : H ptr := create (with_type cJSON_NULL).
Definition cJSON_CreateTrue : H ptr := create (with_type cJSON_True).
Definition cJSON_CreateFalse : H ptr := create (with_type cJSON_False).
Definition cJSON_CreateBool (b : bool) : H ptr := create (with_type (if b then cJSON_True else cJSON_False)).
Definition cJSON_CreateArray : H ptr := create (with_type cJSON_Array).
Definition cJSON_CreateObject : H ptr := create (with_type cJSON_Object).

(** [(int)num] with saturation; the conversion of a NaN is undefined. *)
Definition saturated (num : double) : H Z :=
  if dge num INT_MAX then hret INT_MAX
  else if dle num INT_MIN then hret INT_MIN
  else match num with DNan => hub | _ => hret (dtrunc num) end.

Definition cJSON_CreateNumber (num : double) : H ptr :=
  let* item := new_item in
  match item with
  | None => hret None
  | Some _ =>
      update item (with_type cJSON_Number) ;;*
      let* i := saturated num in
      update item (with_value i num) ;;* hret item
  end.

(** A string or raw text, with a copy of it. *)
Definition create_text (type : Z) (string : ptr) : H ptr :=
  let* item := new_item in
  match item with
  | None => hret None
  | Some _ =>
      update item (with_type type) ;;*
      let* copy := cJSON_strdup string in
      update item (with_valuestring copy) ;;*
      match copy with
      | None => cJSON_Delete item ;;* hret None
      | Some _ => hret item
      end
  end.

Definition cJSON_CreateString (string : ptr) : H ptr := create_text cJSON_String string.
Definition cJSON_CreateRaw (raw : ptr) : H ptr := create_text cJSON_Raw raw.

Definition cJSON_CreateStringReference (string : ptr) : H ptr :=
  create (fun n => with_valuestring string (with_type (Z.lor cJSON_String cJSON_IsReference) n)).
Definition cJSON_CreateObjectReference (child : ptr) : H ptr :=
  create (fun n => with_child child (with_type (Z.lor cJSON_Object cJSON_IsReference) n)).
Definition cJSON_CreateArrayReference (child : ptr) : H ptr :=
  create (fun n => with_child child (with_type (Z.lor cJSON_Array cJSON_IsReference) n)).

Definition suffix_object (prev item : ptr) : H unit :=
  update prev (with_next item) ;;* update item (with_prev prev).

(** The loops of the functions that create an array from [count] values; [p] is the last
    element so far and [values] are those from index [i]. *)
Fixpoint create_loop {A} (create : A -> H ptr) (a p : ptr) (values : list A) (count : nat) : H ptr :=
  match count with
  | O => hret a
  | S count =>
      match values with
      | [] => hub
      | v :: values =>
          let* n := create v in
          match n with
          | None => cJSON_Delete a ;;* hret None
          | Some _ =>
              (match p with None => update a (with_child n) | Some _ => suffix_object p n end) ;;*
              create_loop create a n values count
          end
      end
  end.

Definition create_array {A} (create : A -> H ptr) (values : option (list A)) (count : Z) : H ptr :=
  match values with
  | None => hret None
  | Some values =>
      if count <? 0 then hret None else
      let* a := cJSON_CreateArray in
      match a with
      | None => hret None
      | Some _ => create_loop create a None values (Z.to_nat count)
      end
  end.

Definition cJSON_CreateIntArray (numbers : option (list Z)) (count : Z) : H ptr :=
  create_array (fun n => cJSON_CreateNumber (of_int n)) numbers count.
(** A float is given as the double it converts to. *)
Definition cJSON_CreateFloatArray (numbers : option (list double)) (count : Z) : H ptr :=
  create_array cJSON_CreateNumber numbers count.
Definition cJSON_CreateDoubleArray (numbers : option (list double)) (count : Z) : H ptr :=
  create_array cJSON_CreateNumber numbers count.
Definition cJSON_CreateStringArray (strings : option (list ptr)) (count : Z) : H ptr :=
  create_array cJSON_CreateString strings count.

(** * Adding *)

Definition create_reference (item : ptr) : H ptr :=
  match item with
  | None => hret None
  | Some _ =>
      let* reference := new_item in
      match reference with
      | None => hret None
      | Some _ =>
          let* n := deref item in
          update reference (fun _ =>
            with_next None (with_prev None
              (with_type (Z.lor (n_type n) cJSON_IsReference) (with_string None n)))) ;;*
          hret reference
      end
  end.

(** The last element from [child]. *)
Fixpoint last_loop (fuel : nat) (child : ptr) : H ptr :=
  match fuel with
  | O => hfuel
  | S fuel =>
      let* n := deref child in
      match n_next n with
      | None => hret child
      | Some _ => last_loop fuel (n_next n)
      end
  end.

Definition add_item_to_array (array item : ptr) : H bool :=
  match item, array with
  | Some _, Some _ =>
      let* a := deref array in
      match n_child a with
      | None => update array (with_child item) ;;* hret true
      | Some _ =>
          let* child := with_fuel (fun fuel => last_loop fuel (n_child a)) in
          suffix_object child item ;;* hret true
      end
  | _, _ => hret false
  end.

Definition cJSON_AddItemToArray (array item : ptr) : H unit := add_item_to_array array item ;;* hret tt.

Definition add_item_to_object (object string item : ptr) (constant_key : bool) : H bool :=
  match object, string, item with
  | Some _, Some _, Some _ =>
      let* new_key := (if constant_key then hret string else cJSON_strdup string) in
      match new_key with
      | None => hret false
      | Some _ =>
          let* n := deref item in
          let new_type := if constant_key then Z.lor (n_type n) cJSON_StringIsConst
                          else Z.land (n_type n) (Z.lnot cJSON_StringIsConst) in
          (if negb (has_flag n cJSON_StringIsConst) && bool_decide (n_string n <> None)
           then free_string (n_string n) else hret tt) ;;*
          update item (with_string new_key) ;;*
          update item (with_type new_type) ;;*
          add_item_to_array object item
      end
  | _, _, _ => hret false
  end.

Definition cJSON_AddItemToObject (object string item : ptr) : H unit :=
  add_item_to_object object string item false ;;* hret tt.
Definition cJSON_AddItemToObjectCS (object string item : ptr) : H unit :=
  add_item_to_object object string item true ;;* hret tt.

Definition cJSON_AddItemReferenceToArray (array item : ptr) : H unit :=
  match array with
  | None => hret tt
  | Some _ => let* r := create_reference item in add_item_to_array array r ;;* hret tt
  end.

Definition cJSON_AddItemReferenceToObject (object string item : ptr) : H unit :=
  match object, string with
  | Some _, Some _ => let* r := create_reference item in add_item_to_object object string r false ;;* hret tt
  | _, _ => hret tt
  end.

(** Creating an item and adding it, or deleting it again. *)
Definition add_created (create : H ptr) (object name : ptr) : H ptr :=
  let* item := create in
  let* ok := add_item_to_object object name item false in
  if ok : bool then hret item else cJSON_Delete item ;;* hret None.

Definition cJSON_AddNullToObject (object name : ptr) : H ptr := add_created cJSON_CreateNull object name.
Definition cJSON_AddTrueToObject (object name : ptr) : H ptr := add_created cJSON_CreateTrue object name.
Definition cJSON_AddFalseToObject (object name : ptr) : H ptr := add_created cJSON_CreateFalse object name.
Definition cJSON_AddBoolToObject (object name : ptr) (boolean : bool) : H ptr :=
  add_created (cJSON_CreateBool boolean) object name.
Definition cJSON_AddNumberToObject (object name : ptr) (number : double) : H ptr :=
  add_created (cJSON_CreateNumber number) object name.
Definition cJSON_AddStringToObject (object name string : ptr) : H ptr :=
  add_created (cJSON_CreateString string) object name.
Definition cJSON_AddRawToObject (object name raw : ptr) : H ptr := add_created (cJSON_CreateRaw raw) object name.
Definition cJSON_AddObjectToObject (object name : ptr) : H ptr := add_created cJSON_CreateObject object name.
Definition cJSON_AddArrayToObject (object name : ptr) : H ptr := add_created cJSON_CreateArray object name.

(** * Removing and replacing *)

Definition cJSON_DetachItemViaPointer (parent item : ptr) : H ptr :=
  match parent, item with
  | Some _, Some _ =>
      let* n := deref item in
      (match n_prev n with None => hret tt | Some _ => update (n_prev n) (with_next (n_next n)) end) ;;*
      let* n := deref item in
      (match n_next n with None => hret tt | Some _ => update (n_next n) (with_prev (n_prev n)) end) ;;*
      let* p := deref parent in
      let* n := deref item in
      (if bool_decide (item = n_child p) then update parent (with_child (n_next n)) else hret tt) ;;*
      update item (with_prev None) ;;*
      update item (with_next None) ;;*
      hret item
  | _, _ => hret None
  end.

Definition cJSON_DetachItemFromArray (array : ptr) (which : Z) : H ptr :=
  if which <? 0 then hret None else
  let* item := get_array_item array which in cJSON_DetachItemViaPointer array item.

Definition cJSON_DeleteItemFromArray (array : ptr) (which : Z) : H unit :=
  let* item := cJSON_DetachItemFromArray array which in cJSON_Delete item.

Definition cJSON_DetachItemFromObject (object string : ptr) : H ptr :=
  let* to_detach := cJSON_GetObjectItem object string in cJSON_DetachItemViaPointer object to_detach.
Definition cJSON_DetachItemFromObjectCaseSensitive (object string : ptr) : H ptr :=
  let* to_detach := cJSON_GetObjectItemCaseSensitive object string in cJSON_DetachItemViaPointer object to_detach.

Definition cJSON_DeleteItemFromObject (object string : ptr) : H unit :=
  let* item := cJSON_DetachItemFromObject object string in cJSON_Delete item.
Definition cJSON_DeleteItemFromObjectCaseSensitive (object string : ptr) : H unit :=
  let* item := cJSON_DetachItemFromObjectCaseSensitive object string in cJSON_Delete item.

Definition cJSON_InsertItemInArray (array : ptr) (which : Z) (newitem : ptr) : H unit :=
  if which <? 0 then hret tt else
  let* after_inserted := get_array_item array which in
  match after_inserted with
  | None => add_item_to_array array newitem ;;* hret tt
  | Some _ =>
      update newitem (with_next after_inserted) ;;*
      let* n := deref after_inserted in
      update newitem (with_prev (n_prev n)) ;;*
      update after_inserted (with_prev newitem) ;;*
      let* a := deref array in
      if bool_decide (after_inserted = n_child a) then update array (with_child newitem)
      else let* n := deref newitem in update (n_prev n) (with_next newitem)
  end.

Definition cJSON_ReplaceItemViaPointer (parent item replacement : ptr) : H bool :=
  match parent, replacement, item with
  | Some _, Some _, Some _ =>
      if bool_decide (replacement = item) then hret true else
      let* n := deref item in
      update replacement (with_next (n_next n)) ;;*
      let* n := deref item in
      update replacement (with_prev (n_prev n)) ;;*
      let* r := deref replacement in
      (match n_next r with None => hret tt | Some _ => update (n_next r) (with_prev replacement) end) ;;*
      let* r := deref replacement in
      (match n_prev r with None => hret tt | Some _ => update (n_prev r) (with_next replacement) end) ;;*
      let* p := deref parent in
      (if bool_decide (n_child p = item) then update parent (with_child replacement) else hret tt) ;;*
      update item (with_next None) ;;*
      update item (with_prev None) ;;*
      cJSON_Delete item ;;*
      hret true
  | _, _, _ => hret false
  end.

Definition cJSON_ReplaceItemInArray (array : ptr) (which : Z) (newitem : ptr) : H unit :=
  if which <? 0 then hret tt else
  let* item := get_array_item array which in
  cJSON_ReplaceItemViaPointer array item newitem ;;* hret tt.

Definition replace_item_in_object (object string replacement : ptr) (case_sensitive : bool) : H bool :=
  match replacement, string with
  | Some _, Some _ =>
      let* n := deref replacement in
      (if negb (has_flag n cJSON_StringIsConst) && bool_decide (n_string n <> None)
       then free_string (n_string n) else hret tt) ;;*
      let* copy := cJSON_strdup string in
      update replacement (with_string copy) ;;*
      let* n := deref replacement in
      update replacement (with_type (Z.land (n_type n) (Z.lnot cJSON_StringIsConst))) ;;*
      let* item := get_object_item object string case_sensitive in
      cJSON_ReplaceItemViaPointer object item replacement ;;*
      hret true
  | _, _ => hret false
  end.

Definition cJSON_ReplaceItemInObject (object string newitem : ptr) : H unit :=
  replace_item_in_object object string newitem false ;;* hret tt.
Definition cJSON_ReplaceItemInObjectCaseSensitive (object string newitem : ptr) : H unit :=
  replace_item_in_object object string newitem true ;;* hret tt.

(** * Duplication *)

Section Duplicate.
Context (duplicate : ptr -> H ptr).

(** The loop over the children; [next] is the last child of the copy. *)
Fixpoint duplicate_loop (fuel : nat) (newitem child next : ptr) : H ptr :=
  match fuel with
  | O => hfuel
  | S fuel =>
      match child with
      | None => hret newitem
      | Some _ =>
          let* newchild := duplicate child in
          match newchild with
          | None => cJSON_Delete newitem ;;* hret None
          | Some _ =>
              (match next with
               | Some _ => update next (with_next newchild) ;;* update newchild (with_prev next)
               | None => update newitem (with_child newchild)
               end) ;;*
              let* n := deref child in
              duplicate_loop fuel newitem (n_next n) newchild
          end
      end
  end.

(** The fields of the new item; false when a copy of a string fails. *)
Definition duplicate_fields (item newitem : ptr) : H bool :=
  let* n := deref item in
  update newitem (fun m =>
    with_value (n_valueint n) (n_valuedouble n)
      (with_type (Z.land (n_type n) (Z.lnot cJSON_IsReference)) m)) ;;*
  let* ok := (match n_valuestring n with
              | None => hret true
              | Some _ =>
                  let* copy := cJSON_strdup (n_valuestring n) in
                  update newitem (with_valuestring copy) ;;* hret (bool_decide (copy <> None))
              end) in
  if negb ok then hret false else
  match n_string n with
  | None => hret true
  | Some _ =>
      let* copy := (if has_flag n cJSON_StringIsConst then hret (n_string n) else cJSON_strdup (n_string n)) in
      update newitem (with_string copy) ;;* hret (bool_decide (copy <> None))
  end.

Definition duplicate_body (fuel : nat) (item : ptr) (recurse : bool) : H ptr :=
  match item with
  | None => hret None
  | Some _ =>
      let* newitem := new_item in
      match newitem with
      | None => hret None
      | Some _ =>
          let* ok := duplicate_fields item newitem in
          if negb ok then cJSON_Delete newitem ;;* hret None else
          if negb recurse then hret newitem else
          let* n := deref item in
          duplicate_loop fuel newitem (n_child n) None
      end
  end.
End Duplicate.

Fixpoint duplicate (fuel : nat) (item : ptr) (recurse : bool) : H ptr :=
  match fuel with
  | O => hfuel
  | S fuel => duplicate_body (fun child => duplicate fuel child true) (S fuel) item recurse
  end.

Definition cJSON_Duplicate (item : ptr) (recurse : bool) : H ptr :=
  with_fuel (fun fuel => duplicate fuel item recurse).

(** * Comparison *)

Definition known_type (t : Z) : bool :=
  (t =? cJSON_False) || (t =? cJSON_True) || (t =? cJSON_NULL) || (t =? cJSON_Number) ||
  (t =? cJSON_String) || (t =? cJSON_Raw) || (t =? cJSON_Array) || (t =? cJSON_Object).

Section Compare.
Context (compare : ptr -> ptr -> H bool) (case_sensitive : bool).

Fixpoint compare_elements (fuel : nat) (a_element b_element : ptr) : H bool :=
  match fuel with
  | O => hfuel
  | S fuel =>
      match a_element, b_element with
      | Some _, Some _ =>
          let* same := compare a_element b_element in
          if negb same then hret false else
          let* a := deref a_element in
          let* b := deref b_element in
          compare_elements fuel (n_next a) (n_next b)
      | _, _ => hret (bool_decide (a_element = b_element))
      end
  end.

(** Whether every member from [element] has an equal one in the object [other]. *)
Fixpoint compare_members (fuel : nat) (element other : ptr) : H bool :=
  match fuel with
  | O => hfuel
  | S fuel =>
      match element with
      | None => hret true
      | Some _ =>
          let* e := deref element in
          let* found := get_object_item other (n_string e) case_sensitive in
          match found with
          | None => hret false
          | Some _ =>
              let* same := compare element found in
              if negb same then hret false else compare_members fuel (n_next e) other
          end
      end
  end.

Definition compare_body (fuel : nat) (a b : ptr) : H bool :=
  match a, b with
  | Some _, Some _ =>
      let* x := deref a in
      let* y := deref b in
      let t := Z.land (n_type x) 0xFF in
      if negb (t =? Z.land (n_type y) 0xFF) then hret false else
      let* invalid := cJSON_IsInvalid a in
      if (invalid : bool) then hret false else
      if negb (known_type t) then hret false else
      if bool_decide (a = b) then hret true else
      if (t =? cJSON_False) || (t =? cJSON_True) || (t =? cJSON_NULL) then hret true
      else if t =? cJSON_Number then hret (deqb (n_valuedouble x) (n_valuedouble y))
      else if (t =? cJSON_String) || (t =? cJSON_Raw) then
        match n_valuestring x, n_valuestring y with
        | Some _, Some _ => let* c := strcmp (n_valuestring x) (n_valuestring y) in hret (c =? 0)
        | _, _ => hret false
        end
      else if t =? cJSON_Array then compare_elements fuel (n_child x) (n_child y)
      else
        let* subset := compare_members fuel (n_child x) b in
        if negb subset then hret false else compare_members fuel (n_child y) a
  | _, _ => hret false
  end.
End Compare.

Fixpoint compare (fuel : nat) (case_sensitive : bool) (a b : ptr) : H bool :=
  match fuel with
  | O => hfuel
  | S fuel => compare_body (compare fuel case_sensitive) case_sensitive (S fuel) a b
  end.

Definition cJSON_Compare (a b : ptr) (case_sensitive : bool) : H bool :=
  with_fuel (fun fuel => compare fuel case_sensitive a b).

(** * Hooks *)

(** The functions of the C library and those of the client. *)
Inductive hook := libc_function | client_function (id : Z).

Record internal_hooks := mk_hooks { hk_allocate : hook; hk_deallocate : hook; hk_reallocate : option hook }.

(** [None] for a null [hooks] pointer; a component is [None] for a null function pointer. *)
Definition cJSON_InitHooks (hooks : option (option Z * option Z)) : internal_hooks :=
  match hooks with
  | None => mk_hooks libc_function libc_function (Some libc_function)
  | Some (malloc_fn, free_fn) =>
      let allocate := from_option client_function libc_function malloc_fn in
      let deallocate := from_option client_function libc_function free_fn in
      mk_hooks allocate deallocate
        (match allocate, deallocate with
         | libc_function, libc_function => Some libc_function
         | _, _ => None
         end)
  end.
