(* ===== verification/CJsonHeapProps.v ===== *)
(** The chains of items of cjson.c: the children of an array or object form a doubly
    linked list, and the functions that add, insert, detach and look up children behave
    as operations on lists. *)
From stdpp Require Import gmap.
From S2P Require Import Prelude CMonad CDouble CText CJson CJsonHeap.

(** * Runs *)

(** [hwp c Q h]: run from [h], [c] returns [a] in a heap [h'] with [Q a h']. *)
Definition hwp {A} (c : H A) (Q : A -> heap -> Prop) (h : heap) : Prop :=
  match c h with
  | Ok (a, h') => Q a h'
  | _ => False
  end.

Section Hwp.
Context {A B : Type}.

Lemma hwp_ret (a : A) (Q : A -> heap -> Prop) h : Q a h -> hwp (hret a) Q h.
Proof. done. Qed.

Lemma hwp_bind (c : H A) (k : A -> H B) Q h : hwp c (fun a h' => hwp (k a) Q h') h -> hwp (hbind c k) Q h.
Proof. unfold hwp, hbind. by destruct (c h) as [[? ?]| | |]. Qed.

Lemma hwp_mono (c : H A) (P Q : A -> heap -> Prop) h :
  hwp c P h -> (forall a h', P a h' -> Q a h') -> hwp c Q h.
Proof. unfold hwp. destruct (c h) as [[? ?]| | |]; auto. Qed.

Lemma hwp_fuel (f : nat -> H A) Q h : hwp (f (S (size (hp_items h)))) Q h -> hwp (with_fuel f) Q h.
Proof. done. Qed.
End Hwp.

Lemma hwp_deref l n (Q : node -> heap -> Prop) h :
  hp_items h !! l = Some n -> Q n h -> hwp (deref (Some l)) Q h.
Proof. intros Hl HQ. unfold hwp, deref. cbn. by rewrite Hl. Qed.

(** Memory with the items [m]. *)
Definition put (h : heap) (m : gmap Z node) : heap := with_items m h.

Lemma put_put h m m' : put (put h m) m' = put h m'.
Proof. done. Qed.

Lemma put_same h : put h (hp_items h) = h.
Proof. by destruct h. Qed.

Lemma hwp_update l f (Q : unit -> heap -> Prop) h :
  is_Some (hp_items h !! l) -> Q tt (put h (alter f l (hp_items h))) -> hwp (update (Some l) f) Q h.
Proof.
  intros [n Hl] HQ. unfold hwp, update. rewrite Hl. unfold put in HQ.
  replace (<[l:=f n]> (hp_items h)) with (alter f l (hp_items h)); [done|].
  apply map_eq. intros k. destruct (decide (l = k)) as [->|Hk].
  - by rewrite lookup_alter_eq, Hl, lookup_insert_eq.
  - by rewrite lookup_alter_ne, lookup_insert_ne.
Qed.

(** * Segments *)

Definition first (ls : list Z) (next : ptr) : ptr := match ls with [] => next | l :: _ => Some l end.
Definition final (prev : ptr) (ls : list Z) : ptr := match last ls with None => prev | Some l => Some l end.

(** [ls] are linked, between [prev] and [next]. *)
Fixpoint seg (m : gmap Z node) (prev : ptr) (ls : list Z) (next : ptr) : Prop :=
  match ls with
  | [] => True
  | l :: r => exists n, m !! l = Some n /\ n_prev n = prev /\ n_next n = first r next /\ seg m (Some l) r next
  end.

Lemma first_app l1 l2 next : first (l1 ++ l2) next = first l1 (first l2 next).
Proof. by destruct l1. Qed.

Lemma final_cons prev l ls : final prev (l :: ls) = final (Some l) ls.
Proof. unfold final. destruct ls as [|x ls]; [done|]. cbn [last]. by destruct (last (x :: ls)) eqn:E; [|apply last_None in E]. Qed.

Lemma final_snoc prev ls l : final prev (ls ++ [l]) = Some l.
Proof. unfold final. by rewrite last_snoc. Qed.

Lemma seg_app m prev l1 l2 next :
  seg m prev (l1 ++ l2) next <-> seg m prev l1 (first l2 next) /\ seg m (final prev l1) l2 next.
Proof.
  revert prev. induction l1 as [|l l1 IH]; intros prev; [cbn; tauto|]. cbn [app seg]. rewrite final_cons. split.
  - intros (n & Hn & Hp & Hx & Hs). apply IH in Hs as [Hs1 Hs2]. rewrite first_app in Hx. split; [by exists n|done].
  - intros [(n & Hn & Hp & Hx & Hs1) Hs2]. exists n. rewrite first_app. split_and!; [done..|]. by apply IH.
Qed.

Lemma seg_lookup m prev ls next l : seg m prev ls next -> l ∈ ls -> is_Some (m !! l).
Proof.
  revert prev. induction ls as [|x ls IH]; intros prev; [by intros _ ?%not_elem_of_nil|]. intros (n & Hn & _ & _ & Hs).
  intros [->|Hl]%elem_of_cons; [by exists n|by eapply IH].
Qed.

(** Only the links matter. *)
Lemma seg_links m m' prev ls next :
  (forall l n, l ∈ ls -> m !! l = Some n -> exists n', m' !! l = Some n' /\ n_prev n' = n_prev n /\ n_next n' = n_next n) ->
  seg m prev ls next -> seg m' prev ls next.
Proof.
  revert prev. induction ls as [|x ls IH]; intros prev Hk; [done|]. intros (n & Hn & Hp & Hx & Hs).
  destruct (Hk x n) as (n' & Hn' & Hp' & Hx'); [set_solver|done|]. exists n'. rewrite Hp', Hx'. split_and!; [done..|].
  apply IH; [|done]. intros l k Hl. apply Hk. set_solver.
Qed.

Lemma seg_other f l m prev ls next : l ∉ ls -> seg m prev ls next -> seg (alter f l m) prev ls next.
Proof.
  intros Hl. apply seg_links. intros x n Hx Hn. exists n. rewrite lookup_alter_ne by set_solver. done.
Qed.

Lemma seg_data f l m prev ls next :
  (forall n, n_prev (f n) = n_prev n /\ n_next (f n) = n_next n) ->
  seg m prev ls next -> seg (alter f l m) prev ls next.
Proof.
  intros Hf. apply seg_links. intros x n Hx Hn. destruct (decide (l = x)) as [->|].
  - exists (f n). rewrite lookup_alter_eq, Hn. split; [done|apply Hf].
  - exists n. by rewrite lookup_alter_ne.
Qed.

(** Changing an object through a pointer that may be null. *)
Definition alter_opt (f : node -> node) (p : ptr) (m : gmap Z node) : gmap Z node :=
  match p with None => m | Some l => alter f l m end.

Lemma seg_new_next m prev ls next q :
  NoDup ls -> seg m prev ls next -> seg (alter_opt (with_next q) (final None ls) m) prev ls q.
Proof.
  intros Hnd Hs. destruct ls as [|x ls _] using rev_ind; [done|]. rewrite final_snoc. cbn [alter_opt].
  apply seg_app in Hs as [Hs1 (n & Hn & Hp & _ & _)]. apply NoDup_app in Hnd as (_ & Hx & _). apply seg_app. split.
  - apply seg_other; [|done]. intros Hi. apply (Hx x Hi). set_solver.
  - exists (with_next q n). rewrite lookup_alter_eq, Hn. split_and!; [done| |done|done].
    revert Hp. unfold final. by destruct (last ls).
Qed.

Lemma seg_new_prev m prev ls next q :
  NoDup ls -> seg m prev ls next -> seg (alter_opt (with_prev q) (first ls None) m) q ls next.
Proof.
  intros Hnd Hs. destruct ls as [|x ls]; [done|]. cbn [first alter_opt]. apply NoDup_cons in Hnd as [Hx _].
  destruct Hs as (n & Hn & _ & Hx' & Hs). exists (with_prev q n). rewrite lookup_alter_eq, Hn.
  split_and!; [done..|]. by apply seg_other.
Qed.

Lemma seg_other_opt f p m prev ls next :
  (forall l, p = Some l -> l ∉ ls) -> seg m prev ls next -> seg (alter_opt f p m) prev ls next.
Proof. destruct p as [l|]; [|done]. intros H. apply seg_other. by apply H. Qed.

Lemma final_in ls l : final None ls = Some l -> l ∈ ls.
Proof. unfold final. destruct (last ls) eqn:E; [|done]. intros [= <-]. by apply last_Some_elem_of. Qed.

Lemma first_in ls l : first ls None = Some l -> l ∈ ls.
Proof. destruct ls as [|x ls]; [done|]. intros [= <-]. set_solver. Qed.

(** * Children *)

(** The fields of a node other than its pointers to other nodes. *)
Definition data (n : node) : Z * ptr * Z * double * ptr :=
  (n_type n, n_valuestring n, n_valueint n, n_valuedouble n, n_string n).

(** Nothing changes but the links of [X] and the child pointer of [p]. *)
Record kept (p : Z) (X : list Z) (m m' : gmap Z node) : Prop := {
  ke_other : forall l, l <> p -> l ∉ X -> m' !! l = m !! l;
  ke_data : forall l, data <$> m' !! l = data <$> m !! l;
  ke_child : forall l, l <> p -> n_child <$> m' !! l = n_child <$> m !! l
}.

(** The children of [p] are [ls]. *)
Record children (m : gmap Z node) (p : Z) (ls : list Z) : Prop := {
  ch_node : exists n, m !! p = Some n /\ n_child n = first ls None;
  ch_seg : seg m None ls None;
  ch_nodup : NoDup (p :: ls)
}.

(** An item that is not in a chain. *)
Definition loose (m : gmap Z node) (x : Z) : Prop :=
  exists n, m !! x = Some n /\ n_prev n = None /\ n_next n = None.

Lemma kept_refl p X m : kept p X m m.
Proof. by split. Qed.

Lemma kept_trans p X m1 m2 m3 : kept p X m1 m2 -> kept p X m2 m3 -> kept p X m1 m3.
Proof.
  intros [H1 H2 H3] [K1 K2 K3]. split.
  - intros l Hl HX. by rewrite K1, H1.
  - intros l. by rewrite K2, H2.
  - intros l Hl. by rewrite K3, H3.
Qed.

Lemma kept_alter p X f l m :
  (forall n, data (f n) = data n) ->
  l = p \/ l ∈ X /\ (forall n, n_child (f n) = n_child n) -> kept p X m (alter f l m).
Proof.
  intros Hd Hl. split.
  - intros k Hk HX. apply lookup_alter_ne. intros ->. destruct Hl as [?|[? _]]; done.
  - intros k. destruct (decide (l = k)) as [->|]; [|by rewrite lookup_alter_ne].
    rewrite lookup_alter_eq. destruct (m !! k); [|done]. cbn. by rewrite Hd.
  - intros k Hk. destruct (decide (l = k)) as [->|]; [|by rewrite lookup_alter_ne].
    destruct Hl as [->|[_ Hc]]; [done|]. rewrite lookup_alter_eq. destruct (m !! k); [|done]. cbn. by rewrite Hc.
Qed.

Lemma kept_step p X f l m m' :
  kept p X m m' -> (forall n, data (f n) = data n) ->
  l = p \/ l ∈ X /\ (forall n, n_child (f n) = n_child n) -> kept p X m (alter f l m').
Proof. intros Hk Hd Hl. eapply kept_trans; [exact Hk|by apply kept_alter]. Qed.

Lemma kept_alter_opt p X f q m :
  (forall n, data (f n) = data n) -> (forall n, n_child (f n) = n_child n) ->
  (forall l, q = Some l -> l ∈ X) -> kept p X m (alter_opt f q m).
Proof. intros Hd Hc Hq. destruct q as [l|]; [|apply kept_refl]. apply kept_alter; [done|right]. auto. Qed.

Lemma kept_more p X Y m m' : (forall l, l ∈ X -> l ∈ Y) -> kept p X m m' -> kept p Y m m'.
Proof. intros HX [H1 H2 H3]. split; [|done..]. intros l Hl HY. apply H1; auto. Qed.

Lemma kept_some p X m m' l : kept p X m m' -> is_Some (m !! l) -> is_Some (m' !! l).
Proof. intros [_ Hd _] [n Hn]. specialize (Hd l). rewrite Hn in Hd. destruct (m' !! l); [by eexists|done]. Qed.

Lemma alter_opt_ne f q l m : q <> Some l -> alter_opt f q m !! l = m !! l.
Proof. destruct q as [k|]; [|done]. intros Hk. apply lookup_alter_ne. congruence. Qed.

(** ** Reading a chain *)

Lemma nodes_bound (m : gmap Z node) ls : NoDup ls -> (forall l, l ∈ ls -> is_Some (m !! l)) -> (length ls <= size m)%nat.
Proof.
  intros Hnd Hl. rewrite <- (size_dom m), <- (size_list_to_set (C := gset Z) ls) by done.
  apply subseteq_size. intros l Hi. apply elem_of_list_to_set in Hi. by apply elem_of_dom, Hl.
Qed.

Lemma children_bound m p ls : children m p ls -> (length ls < size m)%nat.
Proof.
  intros [(n & Hn & _) Hs Hnd]. apply (nodes_bound m (p :: ls)); [done|].
  intros l [->|Hl]%elem_of_cons; [by eexists|by eapply seg_lookup].
Qed.

Lemma item_loop_spec ls : forall prev fuel i (Q : ptr -> heap -> Prop) h,
  seg (hp_items h) prev ls None -> 0 <= i -> (length ls < fuel)%nat -> Q (ls !! Z.to_nat i) h ->
  hwp (item_loop fuel (first ls None) i) Q h.
Proof.
  induction ls as [|l ls IH]; intros prev fuel i Q h Hs Hi Hf HQ; (destruct fuel as [|fuel]; [cbn in Hf; lia|]);
    cbn [item_loop first]; [by apply hwp_ret|].
  destruct (Z.ltb_spec 0 i) as [H0|H0].
  - destruct Hs as (n & Hn & _ & Hx & Hs). apply hwp_bind, (hwp_deref l n); [done|]. rewrite Hx.
    eapply IH; [exact Hs|lia|cbn in Hf; lia|]. by replace (Z.to_nat i) with (S (Z.to_nat (i - 1))) in HQ by lia.
  - apply hwp_ret. by replace (Z.to_nat i) with 0%nat in HQ by lia.
Qed.

Lemma get_array_item_spec p ls i (Q : ptr -> heap -> Prop) h :
  children (hp_items h) p ls -> 0 <= i -> Q (ls !! Z.to_nat i) h -> hwp (get_array_item (Some p) i) Q h.
Proof.
  intros Hc Hi HQ. pose proof (children_bound _ _ _ Hc). destruct Hc as [(n & Hn & Hch) Hs _]. cbn [get_array_item].
  apply hwp_bind, (hwp_deref p n); [done|]. rewrite Hch. eapply hwp_fuel, item_loop_spec; [done|done|lia|done].
Qed.

Lemma count_loop_spec ls : forall prev fuel k (Q : Z -> heap -> Prop) h,
  seg (hp_items h) prev ls None -> (length ls < fuel)%nat -> Q (k + zlen ls) h ->
  hwp (count_loop fuel (first ls None) k) Q h.
Proof.
  induction ls as [|l ls IH]; intros prev fuel k Q h Hs Hf HQ; (destruct fuel as [|fuel]; [cbn in Hf; lia|]);
    cbn [count_loop first].
  - apply hwp_ret. by rewrite Z.add_0_r in HQ.
  - destruct Hs as (n & Hn & _ & Hx & Hs). apply hwp_bind, (hwp_deref l n); [done|]. rewrite Hx.
    eapply IH; [exact Hs|cbn in Hf; lia|]. by replace (k + 1 + zlen ls) with (k + zlen (l :: ls)) by zl.
Qed.

Lemma GetArraySize_spec p ls (Q : Z -> heap -> Prop) h :
  children (hp_items h) p ls -> Q (signed32 (zlen ls)) h -> hwp (cJSON_GetArraySize (Some p)) Q h.
Proof.
  intros Hc HQ. pose proof (children_bound _ _ _ Hc). destruct Hc as [(n & Hn & Hch) Hs _]. cbn [cJSON_GetArraySize].
  apply hwp_bind, (hwp_deref p n); [done|]. rewrite Hch. eapply hwp_bind, hwp_fuel, count_loop_spec; [done|lia|].
  by apply hwp_ret.
Qed.

Lemma last_loop_spec ls : forall prev fuel (Q : ptr -> heap -> Prop) h,
  ls <> [] -> seg (hp_items h) prev ls None -> (length ls <= fuel)%nat -> Q (final None ls) h ->
  hwp (last_loop fuel (first ls None)) Q h.
Proof.
  induction ls as [|l ls IH]; intros prev fuel Q h Hne Hs Hf HQ; [done|]. destruct fuel as [|fuel]; [cbn in Hf; lia|].
  cbn [last_loop first]. destruct Hs as (n & Hn & _ & Hx & Hs). apply hwp_bind, (hwp_deref l n); [done|]. rewrite Hx.
  destruct ls as [|x ls]; [by apply hwp_ret|]. cbn [first]. rewrite final_cons in HQ.
  apply (IH (Some l) fuel); [done|done|cbn in Hf |- *; lia|]. revert HQ. by rewrite !final_cons.
Qed.

(** ** Changing a chain *)

(** The node of a container after its chain was relinked. *)
Lemma children_intro m' p ls n :
  m' !! p = Some n -> n_child n = first ls None -> seg m' None ls None -> NoDup (p :: ls) -> children m' p ls.
Proof. intros. by split; [exists n|..]. Qed.

Lemma with_links_data q n :
  data (with_next q n) = data n /\ data (with_prev q n) = data n /\ data (with_child q n) = data n /\
  n_child (with_next q n) = n_child n /\ n_child (with_prev q n) = n_child n.
Proof. done. Qed.

Lemma loose_alter f l x m : l <> x -> loose m x -> loose (alter f l m) x.
Proof. intros Hl (n & Hn & H). exists n. by rewrite lookup_alter_ne. Qed.

Lemma add_item_spec p ls x (Q : bool -> heap -> Prop) h :
  let m := hp_items h in
  children m p ls -> loose m x -> x ∉ p :: ls ->
  (forall m', children m' p (ls ++ [x]) -> kept p (x :: ls) m m' -> Q true (put h m')) ->
  hwp (add_item_to_array (Some p) (Some x)) Q h.
Proof.
  cbv zeta. intros Hc (nx & Hx & Hxp & Hxn) Hni HQ. pose proof (children_bound _ _ _ Hc) as Hb.
  destruct Hc as [(n & Hn & Hch) Hs Hnd]. apply not_elem_of_cons in Hni as [Hxp' Hxl].
  assert (NoDup (p :: ls ++ [x])) as Hnd'.
  { apply NoDup_cons in Hnd as [Hp Hl]. apply NoDup_cons. split; [set_solver|]. apply NoDup_app.
    split; [done|]. split; [|apply NoDup_singleton]. set_solver. }
  cbn [add_item_to_array]. apply hwp_bind, (hwp_deref p n); [done|]. rewrite Hch.
  destruct (first ls None) as [y|] eqn:Hy.
  - assert (ls <> []) as Hne by (by intros ->). rewrite <- Hy.
    apply hwp_bind. eapply hwp_fuel, last_loop_spec; [done|exact Hs|lia|].
    destruct (final None ls) as [z|] eqn:Hz; [|unfold final in Hz; destruct (last ls) eqn:E; [done|by apply last_None in E]].
    pose proof (final_in _ _ Hz) as Hzl. apply hwp_bind. unfold suffix_object.
    apply hwp_bind, hwp_update; [by eapply seg_lookup|]. apply hwp_update.
    { cbn. rewrite lookup_alter_ne by set_solver. by eexists. }
    apply hwp_ret. rewrite put_put. apply NoDup_cons in Hnd as [Hp Hnd]. apply HQ.
    + apply (children_intro _ _ _ n); [cbn; by rewrite !lookup_alter_ne by set_solver| | |done].
      * rewrite first_app. destruct ls; [done|]. by rewrite Hch, <- Hy.
      * apply seg_app. split.
        -- apply seg_other; [done|]. pose proof (seg_new_next _ None ls None (Some x) Hnd Hs) as Hs'. by rewrite Hz in Hs'.
        -- rewrite Hz. exists (with_prev (Some z) nx). cbn. rewrite lookup_alter_eq, lookup_alter_ne by set_solver.
           by rewrite Hx.
    + eapply kept_trans; apply kept_alter; try done; right; (split; [set_solver|done]).
  - assert (ls = []) as -> by (by destruct ls).
    apply hwp_bind, hwp_update; [by eexists|]. apply hwp_ret, HQ.
    + apply (children_intro _ _ _ (with_child (Some x) n)); [by rewrite lookup_alter_eq, Hn|done| |done].
      exists nx. by rewrite lookup_alter_ne.
    + apply kept_alter; [done|by left].
Qed.

(** A node of a chain. *)
Lemma seg_middle m l1 x l2 :
  seg m None (l1 ++ x :: l2) None ->
  exists n, m !! x = Some n /\ n_prev n = final None l1 /\ n_next n = first l2 None /\
            seg m None l1 (Some x) /\ seg m (Some x) l2 None.
Proof. intros [Hs1 (n & Hn & Hp & Hx & Hs2)]%seg_app. exists n. by split_and!. Qed.

(** Updating through a pointer that may be null. *)
Lemma hwp_update_opt q f (Q : unit -> heap -> Prop) h :
  (forall l, q = Some l -> is_Some (hp_items h !! l)) -> Q tt (put h (alter_opt f q (hp_items h))) ->
  hwp (match q with None => hret tt | Some _ => update q f end) Q h.
Proof.
  intros Hq HQ. destruct q as [l|]; [apply hwp_update; auto|]. apply hwp_ret. cbn in HQ. by rewrite put_same in HQ.
Qed.

(** Taking [x] out of the chain. *)
Lemma seg_unlink m l1 x l2 :
  NoDup (l1 ++ x :: l2) -> seg m None (l1 ++ x :: l2) None ->
  seg (alter_opt (with_prev (final None l1)) (first l2 None)
        (alter_opt (with_next (first l2 None)) (final None l1) m)) None (l1 ++ l2) None.
Proof.
  intros Hnd (n & _ & _ & _ & Hs1 & Hs2)%seg_middle. apply NoDup_app in Hnd as (Hnd1 & Hd & Hnd2).
  apply NoDup_cons in Hnd2 as [Hx Hnd2]. apply seg_app. split.
  - apply seg_other_opt; [|by eapply seg_new_next]. intros l Hl%first_in Hi. apply (Hd l Hi). set_solver.
  - eapply seg_new_prev; [done|]. apply seg_other_opt; [|done]. intros l Hl%final_in Hi. apply (Hd l Hl). set_solver.
Qed.

Lemma children_middle p l1 x l2 m :
  children m p (l1 ++ x :: l2) ->
  p <> x /\ (p ∉ l1) /\ (p ∉ l2) /\ (x ∉ l1) /\ (x ∉ l2) /\ NoDup (l1 ++ x :: l2) /\ NoDup (p :: l1 ++ l2) /\
  final None l1 <> Some x /\ first l2 None <> Some x /\ final None l1 <> Some p /\ first l2 None <> Some p.
Proof.
  intros [_ _ Hnd]. pose proof Hnd as [Hp Hl]%NoDup_cons. pose proof Hl as (H1 & Hd & [Hx H2]%NoDup_cons)%NoDup_app.
  assert (x ∉ l1) by (intros Hi; apply (Hd x Hi); set_solver).
  split_and!; try set_solver.
  - apply NoDup_cons. split; [set_solver|]. apply NoDup_app. split_and!; try done. set_solver.
  - by intros ?%final_in.
  - by intros ?%first_in.
  - intros ?%final_in. set_solver.
  - intros ?%first_in. set_solver.
Qed.

(** The pointer of the container to its first child. *)
Lemma relink_child p np q l1 x l2 (Q : unit -> heap -> Prop) h :
  hp_items h !! p = Some np -> n_child np = first (l1 ++ x :: l2) None -> x ∉ l1 ->
  (forall m' np', m' = hp_items h \/ m' = alter (with_child q) p (hp_items h) -> m' !! p = Some np' ->
     n_child np' = first l1 q -> Q tt (put h m')) ->
  hwp (if bool_decide (Some x = n_child np) then update (Some p) (with_child q) else hret tt) Q h.
Proof.
  intros Hp Hc Hx HQ. rewrite Hc, first_app. destruct l1 as [|y l1]; cbn [first].
  - rewrite bool_decide_eq_true_2 by done. apply hwp_update; [by eexists|].
    apply (HQ _ (with_child q np)); [by right|by rewrite lookup_alter_eq, Hp|done].
  - rewrite bool_decide_eq_false_2 by set_solver. apply hwp_ret.
    rewrite <- (put_same h). apply (HQ _ np); [by left|done|]. by rewrite Hc.
Qed.

Lemma detach_spec p l1 x l2 (Q : ptr -> heap -> Prop) h :
  children (hp_items h) p (l1 ++ x :: l2) ->
  (forall m', children m' p (l1 ++ l2) -> loose m' x -> kept p (l1 ++ x :: l2) (hp_items h) m' -> Q (Some x) (put h m')) ->
  hwp (cJSON_DetachItemViaPointer (Some p) (Some x)) Q h.
Proof.
  intros Hc HQ. pose proof (children_middle _ _ _ _ _ Hc) as (Hpx & Hp1 & Hp2 & Hx1 & Hx2 & Hnd & Hnd' & F1 & F2 & F3 & F4).
  destruct Hc as [(np & Hnp & Hch) Hs _]. pose proof (seg_unlink _ _ _ _ Hnd Hs) as Hs'.
  pose proof (seg_middle _ _ _ _ Hs) as (n & Hn & Hnprev & Hnnext & Hs1 & Hs2).
  cbn [cJSON_DetachItemViaPointer]. apply hwp_bind, (hwp_deref x n); [done|]. rewrite Hnprev, Hnnext.
  apply hwp_bind, hwp_update_opt; [intros l Hl%final_in; by apply (seg_lookup _ _ _ _ _ Hs1)|].
  set (m1 := alter_opt _ _ (hp_items h)) in *. apply hwp_bind, (hwp_deref x n); [cbn; unfold m1; by rewrite alter_opt_ne|].
  rewrite Hnprev, Hnnext. apply hwp_bind, hwp_update_opt.
  { intros l Hl%first_in. cbn. eapply kept_some with (p := p) (X := l1); [|by apply (seg_lookup _ _ _ _ _ Hs2)].
    unfold m1. apply kept_alter_opt; [done..|]. by intros k ?%final_in. }
  cbn [hp_items put with_items]. set (m2 := alter_opt _ _ m1) in *. rewrite put_put.
  assert (m2 !! p = Some np) as Hp by (unfold m2, m1; by rewrite !alter_opt_ne).
  assert (m2 !! x = Some n) as Hx by (unfold m2, m1; by rewrite !alter_opt_ne).
  apply hwp_bind, (hwp_deref p np); [done|]. apply hwp_bind, (hwp_deref x n); [done|]. rewrite Hnnext.
  apply hwp_bind. apply (relink_child p np _ l1 x l2); [done..|]. cbn [hp_items put with_items]. intros m3 np' Hm3 Hp' Hch'.
  rewrite put_put. assert (m3 !! x = Some n) as Hx3 by (destruct Hm3 as [->| ->]; [done|by rewrite lookup_alter_ne]).
  apply hwp_bind, hwp_update; [cbn; by eexists|]. apply hwp_bind, hwp_update; [cbn; rewrite lookup_alter_eq, Hx3; by eexists|].
  cbn [hp_items put with_items]. apply hwp_ret, HQ.
  - apply (children_intro _ _ _ np'); [by rewrite !lookup_alter_ne|by rewrite first_app| |done].
    do 2 (apply seg_other; [set_solver|]). destruct Hm3 as [->| ->]; [done|]. by apply seg_data.
  - exists (with_next None (with_prev None n)). by rewrite !lookup_alter_eq, Hx3.
  - do 2 (apply kept_step; [|done|right; split; [set_solver|done]]).
    eapply (kept_trans _ _ _ m1); [|eapply (kept_trans _ _ _ m2)].
    + apply kept_alter_opt; [done..|]. intros l ?%final_in. set_solver.
    + apply kept_alter_opt; [done..|]. intros l ?%first_in. set_solver.
    + destruct Hm3 as [->| ->]; [apply kept_refl|]. apply kept_alter; [done|by left].
Qed.

(** Putting [x] between two parts of a chain. *)
Lemma seg_link m l1 x l2 nx :
  NoDup (l1 ++ l2) -> x ∉ l1 -> x ∉ l2 -> seg m None (l1 ++ l2) None ->
  m !! x = Some nx -> n_prev nx = final None l1 -> n_next nx = first l2 None ->
  seg (alter_opt (with_next (Some x)) (final None l1) (alter_opt (with_prev (Some x)) (first l2 None) m))
    None (l1 ++ x :: l2) None.
Proof.
  intros (Hn1 & Hd & Hn2)%NoDup_app Hx1 Hx2 [Hs1 Hs2]%seg_app Hx Hp Hx'. apply seg_app. split.
  - eapply seg_new_next; [done|]. apply seg_other_opt; [|done]. intros l Hl%first_in Hi. by apply (Hd l).
  - exists nx. rewrite !alter_opt_ne by (by intros ?%first_in || by intros ?%final_in). split_and!; [done..|].
    apply seg_other_opt; [intros l Hl%final_in Hi; by apply (Hd l)|]. by eapply seg_new_prev.
Qed.

Lemma insert_spec p ls which x (Q : unit -> heap -> Prop) h :
  children (hp_items h) p ls -> loose (hp_items h) x -> x ∉ p :: ls -> 0 <= which ->
  (forall m', children m' p (take (Z.to_nat which) ls ++ x :: drop (Z.to_nat which) ls) ->
     kept p (x :: ls) (hp_items h) m' -> Q tt (put h m')) ->
  hwp (cJSON_InsertItemInArray (Some p) which (Some x)) Q h.
Proof.
  intros Hc Hx Hni Hw HQ. unfold cJSON_InsertItemInArray. rewrite (proj2 (Z.ltb_ge which 0)) by done.
  apply hwp_bind, (get_array_item_spec p ls); [done..|]. destruct (ls !! Z.to_nat which) as [y|] eqn:Hy.
  2: { apply hwp_bind, (add_item_spec p ls); [done..|]. intros m' Hc' Hk. apply hwp_ret, HQ; [|done].
       apply lookup_ge_None in Hy. by rewrite take_ge, drop_ge. }
  pose proof (take_drop_middle _ _ _ Hy) as Hls. set (l1 := take _ ls) in *. rewrite (drop_S _ _ _ Hy) in HQ.
  set (l2 := drop (S _) ls) in *. clearbody l1 l2. subst ls. apply not_elem_of_cons in Hni as [Hxp Hxl].
  pose proof (children_middle _ _ _ _ _ Hc) as (Hpy & Hp1 & Hp2 & Hy1 & Hy2 & Hnd & _ & F1 & _ & F3 & _).
  destruct Hc as [(np & Hnp & Hch) Hs Hndp]. destruct Hx as (nx & Hnx & Hxprev & Hxnext).
  pose proof (seg_middle _ _ _ _ Hs) as (n & Hn & Hnprev & Hnnext & Hs1 & Hs2).
  assert (x <> y /\ (x ∉ l1) /\ (x ∉ l2)) as (Hxy & Hx1 & Hx2) by set_solver.
  apply hwp_bind, hwp_update; [by eexists|]. cbn [put hp_items with_items].
  apply hwp_bind, (hwp_deref y n); [cbn; by rewrite lookup_alter_ne|]. rewrite Hnprev.
  apply hwp_bind, hwp_update; [cbn; rewrite lookup_alter_eq, Hnx; by eexists|]. cbn [put hp_items with_items].
  set (m1 := alter _ x (alter _ x (hp_items h))).
  assert (m1 !! x = Some (with_prev (final None l1) (with_next (Some y) nx))) as Hx' by (unfold m1; by rewrite !lookup_alter_eq, Hnx).
  assert (seg m1 None (l1 ++ y :: l2) None) as Hs' by (do 2 (apply seg_other; [done|]); done).
  apply hwp_bind, hwp_update; [cbn; unfold m1; rewrite !lookup_alter_ne by done; by eexists|]. cbn [put hp_items with_items].
  pose proof (seg_link m1 l1 x (y :: l2) _ Hnd Hx1 ltac:(set_solver) Hs' Hx' eq_refl eq_refl) as Hlink. cbn [first alter_opt] in Hlink.
  set (m2 := alter _ y m1) in *.
  assert (m2 !! p = Some np) as Hp by (unfold m2, m1; by rewrite !lookup_alter_ne).
  apply hwp_bind, (hwp_deref p np); [done|]. rewrite Hch, first_app. cbn [first].
  assert (kept p (x :: l1 ++ y :: l2) (hp_items h) m2) as Hk2.
  { unfold m2, m1. do 3 (apply kept_step; [|done|right; split; [set_solver|done]]). apply kept_refl. }
  destruct l1 as [|z l1]; cbn [first].
  - rewrite bool_decide_eq_true_2 by done. apply hwp_update; [by eexists|]. apply HQ.
    + apply (children_intro _ _ _ (with_child (Some x) np)); [cbn; by rewrite lookup_alter_eq, Hp|done|by apply seg_data|].
      apply NoDup_cons in Hndp as [? ?]. apply NoDup_cons. split; [set_solver|]. apply NoDup_cons. split; [set_solver|done].
    + eapply kept_trans; [exact Hk2|]. apply kept_alter; [done|by left].
  - rewrite bool_decide_eq_false_2 by set_solver.
    apply hwp_bind, (hwp_deref x (with_prev (final None (z :: l1)) (with_next (Some y) nx))).
    { cbn. unfold m2. by rewrite lookup_alter_ne. }
    destruct (final None (z :: l1)) as [k|] eqn:Hk; [|unfold final in Hk; destruct (last (z :: l1)) eqn:E; [done|by apply last_None in E]].
    pose proof (final_in _ _ Hk) as Hkl. cbn [n_prev with_prev alter_opt] in *.
    assert (k <> p /\ k <> y) as [Hkp Hky] by (split; [|intros ->]; set_solver).
    apply hwp_update.
    { cbn. eapply kept_some; [exact Hk2|]. by apply (seg_lookup _ _ _ _ _ Hs1). }
    apply HQ.
    + apply (children_intro _ _ _ np); [cbn; by rewrite lookup_alter_ne|by rewrite Hch|done|].
      apply NoDup_cons in Hndp as [? Hnn]. apply NoDup_cons. split; [set_solver|].
      apply NoDup_app in Hnn as (? & Hd & ?). apply NoDup_app. split_and!; [done| |apply NoDup_cons; split; [set_solver|done]].
      intros u Hu. specialize (Hd u Hu). set_solver.
    + eapply kept_trans; [exact Hk2|]. apply kept_alter; [done|right; split; [set_solver|done]].
Qed.

(** * Arrays as lists *)

Inductive array_op :=
| AddItem (x : Z)
| InsertItem (which x : Z)
| DetachItem (which : Z)
| GetItem (index : Z)
| GetSize.

Inductive answer := Done | Item (p : ptr) | Size (n : Z).

(** The operations on the array [p]. *)
Definition run_op (p : Z) (op : array_op) : H answer :=
  match op with
  | AddItem x => cJSON_AddItemToArray (Some p) (Some x) ;;* hret Done
  | InsertItem which x => cJSON_InsertItemInArray (Some p) which (Some x) ;;* hret Done
  | DetachItem which => let* r := cJSON_DetachItemFromArray (Some p) which in hret (Item r)
  | GetItem index => let* r := cJSON_GetArrayItem (Some p) index in hret (Item r)
  | GetSize => let* n := cJSON_GetArraySize (Some p) in hret (Size n)
  end.

Fixpoint run_ops (p : Z) (ops : list array_op) : H (list answer) :=
  match ops with
  | [] => hret []
  | op :: ops => let* a := run_op p op in let* r := run_ops p ops in hret (a :: r)
  end.

(** The array as the list of its elements, and the items that are in no array. *)
Record array_state := mk_array { ar_elements : list Z; ar_loose : list Z }.

Definition spec_op (op : array_op) (s : array_state) : answer * array_state :=
  let 'mk_array ls lo := s in
  match op with
  | AddItem x => (Done, mk_array (ls ++ [x]) (filter (fun y => y <> x) lo))
  | InsertItem which x =>
      if which <? 0 then (Done, s)
      else (Done, mk_array (take (Z.to_nat which) ls ++ x :: drop (Z.to_nat which) ls) (filter (fun y => y <> x) lo))
  | DetachItem which =>
      if which <? 0 then (Item None, s) else
      match ls !! Z.to_nat which with
      | None => (Item None, s)
      | Some x => (Item (Some x), mk_array (delete (Z.to_nat which) ls) (x :: lo))
      end
  | GetItem index => (Item (if index <? 0 then None else ls !! Z.to_nat index), s)
  | GetSize => (Size (signed32 (zlen ls)), s)
  end.

Fixpoint spec_ops (ops : list array_op) (s : array_state) : list answer * array_state :=
  match ops with
  | [] => ([], s)
  | op :: ops => let '(a, s) := spec_op op s in let '(r, s) := spec_ops ops s in (a :: r, s)
  end.

(** Only items that are in no array are added. *)
Definition legal_op (op : array_op) (s : array_state) : Prop :=
  match op with
  | AddItem x | InsertItem _ x => x ∈ ar_loose s
  | _ => True
  end.

Fixpoint legal_ops (ops : list array_op) (s : array_state) : Prop :=
  match ops with
  | [] => True
  | op :: ops => legal_op op s /\ legal_ops ops (snd (spec_op op s))
  end.

Record array_ok (m : gmap Z node) (p : Z) (s : array_state) : Prop := {
  ao_children : children m p (ar_elements s);
  ao_loose : Forall (loose m) (ar_loose s);
  ao_apart : forall x, x ∈ ar_loose s -> x ∉ p :: ar_elements s
}.

(** The values of the items and everything but the items stay. *)
Definition values_kept (h h' : heap) : Prop :=
  (forall l, data <$> hp_items h' !! l = data <$> hp_items h !! l) /\
  hp_strings h' = hp_strings h /\ hp_fresh h' = hp_fresh h /\ hp_alloc h' = hp_alloc h.

Lemma loose_kept p X m m' x : kept p X m m' -> x <> p -> x ∉ X -> loose m x -> loose m' x.
Proof. intros [Hk _ _] Hp HX (n & Hn & H). exists n. by rewrite Hk. Qed.

(** The other items stay apart when [x] joins the elements. *)
Lemma join_ok m m' p ls lo x ls' :
  array_ok m p (mk_array ls lo) -> x ∈ lo -> children m' p ls' -> kept p (x :: ls) m m' ->
  (forall y, y ∈ ls' -> y = x \/ y ∈ ls) -> array_ok m' p (mk_array ls' (filter (fun y => y <> x) lo)).
Proof.
  intros [_ Hlo Hap] Hx Hc Hk Hls. cbn [ar_elements ar_loose] in *. split; cbn [ar_elements ar_loose]; [done| |].
  - rewrite Forall_forall in *. intros y [Hyx Hy]%list_elem_of_filter. specialize (Hap y Hy).
    apply (loose_kept p (x :: ls) m); [done|set_solver|set_solver|auto].
  - intros y [Hyx Hy]%list_elem_of_filter. specialize (Hap y Hy). intros [->|Hi]%elem_of_cons; [set_solver|].
    destruct (Hls y Hi); set_solver.
Qed.

Lemma run_op_refines p op s h :
  array_ok (hp_items h) p s -> legal_op op s ->
  hwp (run_op p op) (fun a h' => a = fst (spec_op op s) /\ array_ok (hp_items h') p (snd (spec_op op s)) /\ values_kept h h') h.
Proof.
  destruct s as [ls lo]. intros Hok Hleg. pose proof Hok as [Hc Hlo Hap]. cbn [ar_elements ar_loose] in *.
  assert (values_kept h h) as Hrefl by done.
  assert (forall m' X, kept p X (hp_items h) m' -> values_kept h (put h m')) as Hval by (intros m' X [_ Hd _]; by split).
  destruct op as [x|which x|which|index|]; cbn [run_op spec_op legal_op fst snd ar_loose] in *.
  - rewrite Forall_forall in Hlo. unfold cJSON_AddItemToArray.
    apply hwp_bind, hwp_bind, (add_item_spec p ls); [done|by apply Hlo|by apply Hap|].
    intros m' Hc' Hk. do 2 apply hwp_ret. split_and!; [done| |by eapply Hval].
    apply (join_ok (hp_items h) _ _ ls); try done. set_solver.
  - unfold cJSON_InsertItemInArray. destruct (Z.ltb_spec which 0) as [Hw|Hw].
    { apply hwp_bind. do 2 apply hwp_ret. done. }
    rewrite Forall_forall in Hlo. apply hwp_bind.
    assert (hwp (cJSON_InsertItemInArray (Some p) which (Some x)) (fun _ h' => exists m', h' = put h m' /\
      children m' p (take (Z.to_nat which) ls ++ x :: drop (Z.to_nat which) ls) /\ kept p (x :: ls) (hp_items h) m') h) as Hi.
    { apply (insert_spec p ls); [done|by apply Hlo|by apply Hap|done|]. intros m' Hc' Hk. by exists m'. }
    unfold cJSON_InsertItemInArray in Hi. rewrite (proj2 (Z.ltb_ge which 0)) in Hi by done.
    eapply hwp_mono; [exact Hi|]. intros _ h' (m' & -> & Hc' & Hk). apply hwp_ret. split_and!; [done| |by eapply Hval].
    apply (join_ok (hp_items h) _ _ ls); try done. intros y [Hy|[->|Hy]%elem_of_cons]%elem_of_app; [|by left|].
    + right. apply elem_of_take in Hy as (i & Hy & _). apply list_elem_of_lookup. by eexists.
    + right. apply list_elem_of_lookup in Hy as [i Hy]. rewrite lookup_drop in Hy. apply list_elem_of_lookup. by eexists.
  - unfold cJSON_DetachItemFromArray. destruct (Z.ltb_spec which 0) as [Hw|Hw].
    { apply hwp_bind. do 2 apply hwp_ret. done. }
    apply hwp_bind, hwp_bind, (get_array_item_spec p ls); [done..|]. destruct (ls !! Z.to_nat which) as [x|] eqn:Hx.
    2: { do 2 apply hwp_ret. done. }
    pose proof (take_drop_middle _ _ _ Hx) as Hls. rewrite delete_take_drop.
    set (l1 := take _ ls) in *. set (l2 := drop (S _) ls) in *. clearbody l1 l2. subst ls.
    pose proof (children_middle _ _ _ _ _ Hc) as (Hpx & Hp1 & Hp2 & Hx1 & Hx2 & _).
    apply (detach_spec p l1 x l2); [done|]. intros m' Hc' Hl' Hk. apply hwp_ret. split_and!; [done| |by eapply Hval].
    split; cbn [ar_elements ar_loose]; [done| |].
    + constructor; [done|]. rewrite Forall_forall in *. intros y Hy. specialize (Hap y Hy).
      apply (loose_kept p _ _ _ _ Hk); [set_solver|set_solver|auto].
    + intros y [->|Hy]%elem_of_cons; [set_solver|]. specialize (Hap y Hy). set_solver.
  - unfold cJSON_GetArrayItem. destruct (Z.ltb_spec index 0) as [Hw|Hw].
    { apply hwp_bind. do 2 apply hwp_ret. done. }
    apply hwp_bind, (get_array_item_spec p ls); [done..|]. by apply hwp_ret.
  - apply hwp_bind, (GetArraySize_spec p ls); [done|]. by apply hwp_ret.
Qed.

(** C8: an array is a list: whatever sequence of cJSON_AddItemToArray,
    cJSON_InsertItemInArray, cJSON_DetachItemFromArray, cJSON_GetArrayItem and
    cJSON_GetArraySize runs on it, with items added that are in no array, no call faults or
    loops, each answers as the operation on the list of the elements does, the chain stays
    doubly linked, and the values of all items stay as they were. *)
Theorem array_refines_list p ops s h :
  array_ok (hp_items h) p s -> legal_ops ops s ->
  hwp (run_ops p ops) (fun answers h' =>
    answers = fst (spec_ops ops s) /\ array_ok (hp_items h') p (snd (spec_ops ops s)) /\ values_kept h h') h.
Proof.
  revert s h. induction ops as [|op ops IH]; intros s h Hok Hleg; cbn [run_ops spec_ops].
  { apply hwp_ret. cbn. by split_and!. }
  destruct Hleg as [Hop Hleg]. apply hwp_bind. eapply hwp_mono; [by apply (run_op_refines p op s)|].
  destruct (spec_op op s) as [a s'] eqn:Hs. cbn [fst snd] in *. intros a' h' (-> & Hok' & Hk1 & Hk2 & Hk3 & Hk4).
  apply hwp_bind. eapply hwp_mono; [by apply (IH s' h')|]. destruct (spec_ops ops s') as [r s'']. cbn [fst snd].
  intros r' h'' (-> & Hok'' & Hl1 & Hl2 & Hl3 & Hl4). apply hwp_ret. split_and!; [done..|].
  split_and!; [intros l; by rewrite Hl1|congruence..].
Qed.

(** * Names *)

(** The child that a lookup finds: the first whose name is equal, by the comparison of
    the case. *)
Definition name_matches (h : heap) (case_sensitive : bool) (name : list Z) (l : Z) : bool :=
  match (n ← hp_items h !! l; s ← n_string n; hp_strings h !! s) with
  | Some s => strcmp_from (if case_sensitive then id else tolower) name s =? 0
  | None => false
  end.

Definition find_name (h : heap) (case_sensitive : bool) (name : list Z) (ls : list Z) : ptr :=
  snd <$> list_find (fun l => name_matches h case_sensitive name l) ls.

(** Every item of the list has a live name. *)
Definition names_live (h : heap) (l : Z) : Prop :=
  exists n s t, hp_items h !! l = Some n /\ n_string n = Some s /\ hp_strings h !! s = Some t.

Lemma strcmp_refl f s : strcmp_from f s s = 0.
Proof. induction s as [|c s IH]; [done|]. cbn. by rewrite Z.eqb_refl. Qed.

Lemma find_name_cons h cs name l ls :
  find_name h cs name (l :: ls) = if name_matches h cs name l then Some l else find_name h cs name ls.
Proof.
  unfold find_name. cbn [list_find]. destruct (name_matches h cs name l) eqn:E.
  - by rewrite decide_True by done.
  - rewrite decide_False by (by intros []). by destruct (list_find _ ls) as [[i x]|].
Qed.

Lemma name_loop_spec ls : forall prev fuel cs k name (Q : ptr -> heap -> Prop) h,
  seg (hp_items h) prev ls None -> Forall (names_live h) ls -> hp_strings h !! k = Some name ->
  (length ls < fuel)%nat -> Q (find_name h cs name ls) h ->
  hwp (name_loop fuel cs (Some k) (first ls None)) Q h.
Proof.
  induction ls as [|l ls IH]; intros prev fuel cs k name Q h Hs Hl Hk Hf HQ; (destruct fuel as [|fuel]; [cbn in Hf; lia|]);
    cbn [name_loop first]; [by apply hwp_ret|].
  destruct Hs as (n & Hn & _ & Hx & Hs). apply Forall_cons in Hl as [(n' & s & t & Hn' & Hst & Ht) Hl].
  assert (n' = n) as -> by congruence. apply hwp_bind, (hwp_deref l n); [done|]. rewrite Hst, Hx. apply hwp_bind.
  rewrite find_name_cons in HQ. unfold name_matches in HQ. rewrite Hn in HQ. cbn in HQ. rewrite Hst in HQ. cbn in HQ.
  rewrite Ht in HQ.
  assert (forall f, hwp (let* s1 := read_string (Some k) in let* s2 := read_string (Some s) in hret (strcmp_from f s1 s2))
    (fun c h' => c = strcmp_from f name t /\ h' = h) h) as Hcmp.
  { intros f. unfold hwp, hbind, read_string, hret. cbn. rewrite Hk. cbn. by rewrite Ht. }
  assert (hwp ((if cs then strcmp else case_insensitive_strcmp) (Some k) (Some s))
    (fun c h' => c = strcmp_from (if cs then id else tolower) name t /\ h' = h) h) as Hc.
  { destruct cs; [apply Hcmp|]. unfold case_insensitive_strcmp. destruct (Z.eqb_spec k s) as [->|]; [|apply Hcmp].
    apply hwp_ret. assert (t = name) as -> by congruence. by rewrite strcmp_refl. }
  eapply hwp_mono; [exact Hc|]. intros c h' [-> ->]. destruct (_ =? 0); [by apply hwp_ret|].
  eapply IH; [exact Hs|done|done|cbn in Hf; lia|done].
Qed.

Lemma get_object_item_spec p ls cs k name (Q : ptr -> heap -> Prop) h :
  children (hp_items h) p ls -> Forall (names_live h) ls -> hp_strings h !! k = Some name ->
  Q (find_name h cs name ls) h -> hwp (get_object_item (Some p) (Some k) cs) Q h.
Proof.
  intros Hc Hl Hk HQ. pose proof (children_bound _ _ _ Hc). destruct Hc as [(n & Hn & Hch) Hs _].
  cbn [get_object_item]. apply hwp_bind, (hwp_deref p n); [done|]. rewrite Hch.
  eapply hwp_fuel, name_loop_spec; [done..|lia|done].
Qed.

(** ** Adding a member *)

(** New addresses are unused. *)
Definition heap_ok (h : heap) : Prop :=
  (forall l, is_Some (hp_items h !! l) -> l < hp_fresh h) /\ (forall l, is_Some (hp_strings h !! l) -> l < hp_fresh h).

Lemma strings_fresh h : heap_ok h -> hp_strings h !! hp_fresh h = None.
Proof. intros [_ Hs]. destruct (hp_strings h !! hp_fresh h) eqn:E; [|done]. specialize (Hs (hp_fresh h) ltac:(by eexists)). lia. Qed.

(** The key of a member: a copy of the name, or the name itself. *)
Lemma key_spec (constant_key : bool) k name (Q : ptr -> heap -> Prop) h :
  heap_ok h -> hp_strings h !! k = Some name -> hp_alloc h = [] ->
  (forall s h', hp_items h' = hp_items h -> hp_strings h' !! s = Some name ->
     (forall l t, hp_strings h !! l = Some t -> hp_strings h' !! l = Some t) -> Q (Some s) h') ->
  hwp (if constant_key then hret (Some k) else cJSON_strdup (Some k)) Q h.
Proof.
  intros Hok Hk Ha HQ. destruct constant_key; [apply hwp_ret, HQ; auto|].
  unfold cJSON_strdup, hwp, hbind, read_string, allocate. cbn. rewrite Hk, Ha. cbn. apply HQ; cbn; [done|by rewrite lookup_insert_eq|].
  intros l t Hl. rewrite lookup_insert_ne; [done|]. intros <-. by rewrite strings_fresh in Hl.
Qed.

Lemma names_live_data h h' l :
  (data <$> hp_items h' !! l = data <$> hp_items h !! l) ->
  (forall l t, hp_strings h !! l = Some t -> hp_strings h' !! l = Some t) ->
  names_live h l -> names_live h' l /\ forall cs name, name_matches h' cs name l = name_matches h cs name l.
Proof.
  intros Hd Hs (n & s & t & Hn & Hst & Ht). rewrite Hn in Hd. destruct (hp_items h' !! l) as [n'|] eqn:Hn'; [|done].
  cbn in Hd. assert (n_string n' = n_string n) as Hnn by (unfold data in Hd; congruence).
  split; [exists n', s, t; split_and!; [done|congruence|auto]|]. intros cs name. unfold name_matches.
  rewrite Hn, Hn'. cbn. rewrite Hnn, Hst. cbn. by rewrite Ht, (Hs _ _ Ht).
Qed.

Lemma find_name_app h cs name l1 l2 :
  find_name h cs name (l1 ++ l2) = match find_name h cs name l1 with Some x => Some x | None => find_name h cs name l2 end.
Proof.
  induction l1 as [|l l1 IH]; [done|]. cbn [app]. rewrite !find_name_cons. by destruct (name_matches h cs name l).
Qed.

Lemma find_name_ext h h' cs name ls :
  Forall (fun l => name_matches h' cs name l = name_matches h cs name l) ls -> find_name h' cs name ls = find_name h cs name ls.
Proof. induction 1 as [|l ls Hl _ IH]; [done|]. by rewrite !find_name_cons, Hl, IH. Qed.

(** Adding an item under a name and looking the name up: cJSON_AddItemToObject and
    cJSON_AddItemToObjectCS append the item to the members, and a lookup of the name, with
    or without regard to case, finds the member it found before or, if there was none, the
    new item. *)
Theorem object_add_lookup p ls x nx k name (constant_key case_sensitive : bool) h :
  heap_ok h -> children (hp_items h) p ls -> Forall (names_live h) ls -> x ∉ p :: ls ->
  hp_items h !! x = Some nx -> n_prev nx = None -> n_next nx = None -> n_string nx = None ->
  hp_strings h !! k = Some name -> hp_alloc h = [] ->
  hwp (let* ok := add_item_to_object (Some p) (Some k) (Some x) constant_key in
       let* found := get_object_item (Some p) (Some k) case_sensitive in hret (ok, found))
    (fun '(ok, found) h' =>
       ok = true /\ children (hp_items h') p (ls ++ [x]) /\
       found = match find_name h case_sensitive name ls with Some y => Some y | None => Some x end) h.
Proof.
  intros Hok Hc Hl Hni Hx Hxp Hxn Hxs Hk Ha. pose proof Hni as [Hxp' Hxl]%not_elem_of_cons.
  apply hwp_bind. cbn [add_item_to_object]. apply hwp_bind, (key_spec _ k name); [done..|].
  intros s h1 Hi1 Hs Hs1. apply hwp_bind, (hwp_deref x nx); [by rewrite Hi1|]. rewrite Hxs, bool_decide_eq_false_2 by (by intros []).
  rewrite andb_false_r. apply hwp_bind, hwp_ret. set (ty := if constant_key then _ else _).
  apply hwp_bind, hwp_update; [rewrite Hi1; by eexists|].
  apply hwp_bind, hwp_update; [cbn; rewrite Hi1, lookup_alter_eq, Hx; by eexists|]. cbn [hp_items put with_items]. rewrite Hi1.
  set (m1 := alter _ x (alter _ x (hp_items h))). set (nx' := with_type ty (with_string (Some s) nx)).
  assert (m1 !! x = Some nx') as Hx1 by (unfold m1; by rewrite !lookup_alter_eq, Hx).
  assert (forall l, l <> x -> m1 !! l = hp_items h !! l) as Hne by (intros; unfold m1; by rewrite !lookup_alter_ne).
  assert (children m1 p ls) as Hc1.
  { destruct Hc as [(n & Hn & Hch) Hsg Hnd]. split; [exists n; by rewrite Hne| |done].
    unfold m1. by do 2 (apply seg_data; [done|]). }
  apply (add_item_spec p ls x); [done|by exists nx'|done|]. cbn [hp_items put with_items]. intros m2 Hc2 [Ho2 Hd2 _].
  set (h2 := put _ m2). apply hwp_bind.
  assert (names_live h2 x /\ name_matches h2 case_sensitive name x = true) as [Hlx Hmx].
  { specialize (Hd2 x). rewrite Hx1 in Hd2. destruct (m2 !! x) as [n2|] eqn:E2; [|done]. cbn in Hd2.
    assert (n_string n2 = Some s) as Hn2 by (unfold data in Hd2; cbn in Hd2; congruence).
    split; [by exists n2, s, name|]. unfold name_matches. cbn. rewrite E2. cbn. rewrite Hn2. cbn. by rewrite Hs, strcmp_refl. }
  assert (Forall (fun l => names_live h2 l /\ forall cs name, name_matches h2 cs name l = name_matches h cs name l) ls) as Hl2.
  { apply Forall_forall. intros l Hin. apply names_live_data; [|done|by eapply Forall_forall in Hl].
    cbn. rewrite Hd2, Hne; [done|]. intros ->. done. }
  apply (get_object_item_spec p (ls ++ [x]) _ k name); [done| |by apply Hs1|].
  { apply Forall_app. split; [|by constructor]. eapply Forall_impl; [exact Hl2|]. by intros l [? _]. }
  apply hwp_ret. split_and!; [done..|]. rewrite find_name_app, find_name_cons, Hmx.
  rewrite (find_name_ext h); [done|]. eapply Forall_impl; [exact Hl2|]. intros l [_ Hm]. apply Hm.
Qed.

(** * Faults *)

(** replace_item_in_object releases the name of the replacement before it copies the name
    it is given: a client that passes the replacement's own name makes it read released
    memory. *)
Lemma replace_own_name_faults object x nx s cs h :
  hp_items h !! x = Some nx -> n_string nx = Some s -> has_flag nx cJSON_StringIsConst = false ->
  is_Some (hp_strings h !! s) -> replace_item_in_object object (Some s) (Some x) cs h = Ub.
Proof.
  intros Hx Hs Hf [t Ht]. unfold replace_item_in_object, hbind, deref. cbn. rewrite Hx, Hf, Hs. cbn.
  rewrite Ht. unfold cJSON_strdup, hbind, read_string. cbn. by rewrite lookup_delete_eq.
Qed.

(** cJSON_InsertItemInArray does not test the new item, unlike the functions that add one. *)
Lemma insert_null_faults p ls which h :
  children (hp_items h) p ls -> 0 <= which < zlen ls -> cJSON_InsertItemInArray (Some p) which None h = Ub.
Proof.
  intros Hc Hw. unfold cJSON_InsertItemInArray. rewrite (proj2 (Z.ltb_ge which 0)) by lia.
  assert (hwp (get_array_item (Some p) which) (fun r h' => r = ls !! Z.to_nat which /\ h' = h) h) as Hg
    by (by apply (get_array_item_spec p ls); [|lia|]).
  destruct (lookup_lt_is_Some_2 ls (Z.to_nat which)) as [y Hy]; [unfold zlen in Hw; lia|].
  unfold hwp in Hg. unfold hbind at 1. destruct (get_array_item (Some p) which h) as [[r h']| | |]; [|done..].
  destruct Hg as [-> ->]. by rewrite Hy.
Qed.

(** * Examples *)

Definition example_items : gmap Z node :=
  <[1 := with_type cJSON_Object zero_node]> (<[2 := with_type cJSON_True zero_node]>
    (<[3 := with_type cJSON_NULL zero_node]> ∅)).

Definition example_heap : heap := mk_heap example_items {[10 := [97]]} 100 [].

Lemma example_children : children example_items 1 [].
Proof. split; [by eexists|done|apply NoDup_singleton]. Qed.

Lemma array_refines_list_witness :
  hwp (run_ops 1 [AddItem 2; InsertItem 0 3; DetachItem 1; GetItem 0; GetSize]) (fun answers h' =>
    answers = [Done; Done; Item (Some 2); Item (Some 3); Size 1] /\ children (hp_items h') 1 [3]) example_heap.
Proof.
  eapply hwp_mono; [apply (array_refines_list 1 _ (mk_array [] [2; 3]) example_heap)|].
  - split.
    + exact example_children.
    + constructor; [|constructor; [|constructor]]; (eexists; split_and!; reflexivity).
    + cbn. set_solver.
  - cbn. set_solver.
  - intros a h' (-> & [Hc _ _] & _). split; [reflexivity|exact Hc].
Defined.

Lemma object_add_lookup_witness :
  hwp (let* ok := add_item_to_object (Some 1) (Some 10) (Some 2) false in
       let* found := get_object_item (Some 1) (Some 10) true in hret (ok, found))
    (fun '(ok, found) _ => ok = true /\ found = Some 2) example_heap.
Proof.
  eapply hwp_mono;
    [apply (object_add_lookup 1 [] 2 (with_type cJSON_True zero_node) 10 [97] false true example_heap); try reflexivity|].
  - split; cbn; intros l Hl.
    + unfold example_items in Hl. rewrite !lookup_insert_is_Some in Hl. rewrite lookup_empty in Hl.
      destruct Hl as [?|[_ [?|[_ [?|[_ [? ?]]]]]]]; [lia..|done].
    + apply lookup_singleton_is_Some in Hl. lia.
  - exact example_children.
  - constructor.
  - set_solver.
  - intros [ok found] h' (-> & _ & ->). split; reflexivity.
Defined.
