(* ===== verification/CJsonTree.v ===== *)
(** Trees of items of cjson.c: cJSON_Delete releases exactly the objects of a tree, and
    cJSON_Duplicate builds a copy out of new objects, or releases what it built when an
    allocation fails. *)
From stdpp Require Import gmap.
From S2P Require Import Prelude CMonad CDouble CText CJson CJsonHeap CJsonHeapProps.

(** * Shapes *)

(** An item with its children and the items after it. *)
Inductive shape := Nil | Cell (l : Z) (child next : shape).

Definition root (s : shape) : ptr := match s with Nil => None | Cell l _ _ => Some l end.

Fixpoint locs (s : shape) : list Z :=
  match s with Nil => [] | Cell l c x => l :: locs c ++ locs x end.

(** The strings that an item owns. *)
Definition own_strings (n : node) : list Z :=
  (if has_flag n cJSON_IsReference then [] else option_list (n_valuestring n)) ++
  (if has_flag n cJSON_StringIsConst then [] else option_list (n_string n)).

Definition strings_at (m : gmap Z node) (l : Z) : list Z := from_option own_strings [] (m !! l).

Fixpoint strs (m : gmap Z node) (s : shape) : list Z :=
  match s with Nil => [] | Cell l c x => strs m c ++ strings_at m l ++ strs m x end.

(** The memory has the shape [s]; the child of a reference belongs to another item. *)
Fixpoint owns (m : gmap Z node) (s : shape) : Prop :=
  match s with
  | Nil => True
  | Cell l c x => exists n, m !! l = Some n /\ n_next n = root x /\
      (if has_flag n cJSON_IsReference then c = Nil else n_child n = root c) /\ owns m c /\ owns m x
  end.

Lemma owns_agree m m' s : (forall l, l ∈ locs s -> m' !! l = m !! l) -> owns m s -> owns m' s.
Proof.
  induction s as [|l c IHc x IHx]; [done|]. intros Hl (n & Hn & Hx & Hc & Hoc & Hox). exists n.
  rewrite Hl by (cbn; set_solver). split_and!; [done..|apply IHc|apply IHx]; try done;
    (intros k Hk; apply Hl; cbn; set_solver).
Qed.

Lemma strs_agree m m' s : (forall l, l ∈ locs s -> m' !! l = m !! l) -> strs m' s = strs m s.
Proof.
  induction s as [|l c IHc x IHx]; [done|]. intros Hl. cbn. unfold strings_at. rewrite (Hl l) by (cbn; set_solver).
  rewrite IHc, IHx; [done|intros k Hk; apply Hl; cbn; set_solver..].
Qed.

Lemma owns_lookup m s l : owns m s -> l ∈ locs s -> is_Some (m !! l).
Proof.
  induction s as [|k c IHc x IHx]; [by intros _ ?%not_elem_of_nil|]. intros (n & Hn & _ & _ & Hc & Hx). cbn.
  intros [->|[Hl|Hl]%elem_of_app]%elem_of_cons; [by eexists|auto..].
Qed.

(** * Deletion *)

Definition delete_all {A} (ls : list Z) (m : gmap Z A) : gmap Z A := foldr delete m ls.

Lemma delete_all_in {A} ls (m : gmap Z A) l : l ∈ ls -> delete_all ls m !! l = None.
Proof.
  induction ls as [|k ls IH]; [by intros ?%not_elem_of_nil|]. cbn. intros Hl. destruct (decide (k = l)) as [->|].
  - apply lookup_delete_eq.
  - rewrite lookup_delete_ne by done. apply IH. set_solver.
Qed.

Lemma delete_all_out {A} ls (m : gmap Z A) l : l ∉ ls -> delete_all ls m !! l = m !! l.
Proof.
  induction ls as [|k ls IH]; [done|]. cbn. intros Hl. rewrite lookup_delete_ne by set_solver. apply IH. set_solver.
Qed.

(** The objects with the given addresses are released, and nothing else happens. *)
Record freed (h h' : heap) (L S : list Z) : Prop := {
  fr_items : hp_items h' = delete_all L (hp_items h);
  fr_strings : hp_strings h' = delete_all S (hp_strings h);
  fr_fresh : hp_fresh h' = hp_fresh h;
  fr_alloc : hp_alloc h' = hp_alloc h
}.

Lemma delete_all_app {A} l1 l2 (m : gmap Z A) : delete_all (l1 ++ l2) m = delete_all l2 (delete_all l1 m).
Proof.
  apply map_eq. intros l. destruct (decide (l ∈ l2)) as [H2|H2].
  - rewrite !delete_all_in; [done|done|set_solver].
  - rewrite (delete_all_out l2) by done. destruct (decide (l ∈ l1)) as [H1|H1].
    + rewrite !delete_all_in; [done|done|set_solver].
    + rewrite !delete_all_out; [done|done|set_solver].
Qed.

Lemma delete_all_perm {A} l1 l2 (m : gmap Z A) : l1 ≡ₚ l2 -> delete_all l1 m = delete_all l2 m.
Proof.
  intros Hp. apply map_eq. intros l. destruct (decide (l ∈ l2)) as [H2|H2].
  - rewrite !delete_all_in; [done|done|by rewrite Hp].
  - rewrite !delete_all_out; [done|done|by rewrite Hp].
Qed.

Lemma freed_trans h1 h2 h3 L1 L2 S1 S2 : freed h1 h2 L1 S1 -> freed h2 h3 L2 S2 -> freed h1 h3 (L1 ++ L2) (S1 ++ S2).
Proof. intros [A1 A2 A3 A4] [B1 B2 B3 B4]. split; [by rewrite delete_all_app, <- A1|by rewrite delete_all_app, <- A2|congruence..]. Qed.

Lemma freed_perm h h' L L' S S' : L ≡ₚ L' -> S ≡ₚ S' -> freed h h' L S -> freed h h' L' S'.
Proof. intros HL HS [A1 A2 A3 A4]. split; [by rewrite <- (delete_all_perm L)|by rewrite <- (delete_all_perm S)|done..]. Qed.

Lemma freed_refl h : freed h h [] [].
Proof. by split. Qed.

Lemma hwp_free_string p (b : bool) (Q : unit -> heap -> Prop) h :
  (forall l, p = Some l -> b = true -> is_Some (hp_strings h !! l)) ->
  (forall h', freed h h' [] (if b then option_list p else []) -> Q tt h') ->
  hwp (if b && bool_decide (p <> None) then free_string p else hret tt) Q h.
Proof.
  intros Hp HQ. destruct b; [|apply hwp_ret, HQ, freed_refl]. destruct p as [l|]; cbn [andb].
  - rewrite bool_decide_eq_true_2 by done. destruct (Hp l eq_refl eq_refl) as [s Hs].
    unfold hwp, free_string. rewrite Hs. apply HQ. by split.
  - rewrite bool_decide_eq_false_2 by (by intros []). apply hwp_ret, HQ, freed_refl.
Qed.

Lemma hwp_free_item l (Q : unit -> heap -> Prop) h :
  is_Some (hp_items h !! l) -> (forall h', freed h h' [l] [] -> Q tt h') -> hwp (free_item (Some l)) Q h.
Proof. intros [n Hn] HQ. unfold hwp, free_item. rewrite Hn. apply HQ. by split. Qed.

Lemma freed_item h h' L S l : freed h h' L S -> l ∉ L -> hp_items h' !! l = hp_items h !! l.
Proof. intros [-> _ _ _] Hl. by apply delete_all_out. Qed.

Lemma freed_string h h' L S l : freed h h' L S -> l ∉ S -> hp_strings h' !! l = hp_strings h !! l.
Proof. intros [_ -> _ _] Hl. by apply delete_all_out. Qed.

Lemma delete_chain_spec s : forall fuel (Q : unit -> heap -> Prop) h,
  owns (hp_items h) s -> NoDup (locs s) -> NoDup (strs (hp_items h) s) ->
  (forall l, l ∈ strs (hp_items h) s -> is_Some (hp_strings h !! l)) -> (length (locs s) < fuel)%nat ->
  (forall h', freed h h' (locs s) (strs (hp_items h) s) -> Q tt h') ->
  hwp (delete_chain fuel (root s)) Q h.
Proof.
  induction s as [|l c IHc x IHx]; intros fuel Q h Ho Hnd Hns Hlive Hf HQ; (destruct fuel as [|fuel]; [cbn in Hf; lia|]);
    cbn [delete_chain root]; [by apply hwp_ret, HQ, freed_refl|].
  destruct Ho as (n & Hn & Hx & Hc & Hoc & Hox). cbn [locs strs] in *.
  apply NoDup_cons in Hnd as [Hl Hnd]. apply NoDup_app in Hnd as (Hnc & Hdcx & Hnx).
  assert (strings_at (hp_items h) l = own_strings n) as Hst by (unfold strings_at; by rewrite Hn). rewrite Hst in *.
  apply NoDup_app in Hns as (Hsc & Hsd & (Hsn & Hsx & Hs2)%NoDup_app). unfold own_strings in *.
  set (vs := if has_flag n cJSON_IsReference then [] else option_list (n_valuestring n)) in *.
  set (ns := if has_flag n cJSON_StringIsConst then [] else option_list (n_string n)) in *.
  apply NoDup_app in Hsn as (_ & Hvn & _). cbn [length] in Hf. rewrite length_app in Hf.
  apply hwp_bind, (hwp_deref l n); [done|]. apply hwp_bind.
  assert (hwp (if negb (has_flag n cJSON_IsReference) && bool_decide (n_child n <> None)
               then delete_chain fuel (n_child n) else hret tt)
    (fun _ h' => freed h h' (locs c) (strs (hp_items h) c)) h) as Hchild.
  { destruct (has_flag n cJSON_IsReference); [subst c; by apply hwp_ret, freed_refl|]. cbn [negb andb]. rewrite Hc.
    destruct c as [|k cc cx]; [by apply hwp_ret, freed_refl|]. cbn [root]. rewrite bool_decide_eq_true_2 by done.
    apply (IHc fuel _ h); [done|done|done| |lia|done]. intros k' Hk'. apply Hlive. set_solver. }
  eapply hwp_mono; [exact Hchild|]. intros [] h1 F1. cbn beta in F1. apply hwp_bind.
  apply hwp_free_string.
  { intros k Ek Hb. rewrite (freed_string _ _ _ _ _ F1).
    - apply Hlive. unfold vs. apply negb_true_iff in Hb. rewrite Hb, Ek. cbn. set_solver.
    - intros Hi. apply (Hsd k Hi). unfold vs. apply negb_true_iff in Hb. rewrite Hb, Ek. cbn. set_solver. }
  intros h2 F2. apply hwp_bind, hwp_free_string.
  { intros k Ek Hb. apply negb_true_iff in Hb. assert (k ∈ ns) as Hk by (unfold ns; rewrite Hb, Ek; cbn; set_solver).
    rewrite (freed_string _ _ _ _ _ F2), (freed_string _ _ _ _ _ F1).
    - apply Hlive. set_solver.
    - intros Hi. apply (Hsd k Hi). set_solver.
    - intros Hi. apply (Hvn k); [|done]. unfold vs. by destruct (has_flag n cJSON_IsReference). }
  intros h3 F3. pose proof (freed_trans _ _ _ _ _ _ _ F1 (freed_trans _ _ _ _ _ _ _ F2 F3)) as F.
  cbn [app] in F. rewrite app_nil_r in F. apply hwp_bind, hwp_free_item.
  { rewrite (freed_item _ _ _ _ _ F) by set_solver. by eexists. }
  intros h4 F4. pose proof (freed_trans _ _ _ _ _ _ _ F F4) as F'. rewrite app_nil_r in F'. rewrite Hx.
  assert (forall k, k ∈ locs x -> hp_items h4 !! k = hp_items h !! k) as Hag.
  { intros k Hk. apply (freed_item _ _ _ _ _ F'). intros [Hi|Hi]%elem_of_app; [by apply (Hdcx k)|]. set_solver. }
  apply (IHx fuel _ h4); [by eapply owns_agree|done|by rewrite (strs_agree (hp_items h))| |lia|].
  { intros k Hk. rewrite (strs_agree (hp_items h)) in Hk by done. rewrite (freed_string _ _ _ _ _ F').
    - apply Hlive. set_solver.
    - intros Hi. apply elem_of_app in Hi as [Hi|Hi]; [apply (Hsd k Hi); set_solver|]. apply (Hsx k); [|done].
      unfold vs, ns. revert Hi. destruct (has_flag n cJSON_IsReference), (has_flag n cJSON_StringIsConst); cbn; set_solver. }
  intros h5 F5. rewrite (strs_agree (hp_items h)) in F5 by done. apply HQ.
  eapply freed_perm; [| |exact (freed_trans _ _ _ _ _ _ _ F' F5)].
  - rewrite <- app_assoc. cbn. symmetry. apply Permutation_middle.
  - rewrite <- !app_assoc. unfold vs, ns. by destruct (has_flag n cJSON_IsReference), (has_flag n cJSON_StringIsConst).
Qed.

Lemma delete_run s h :
  owns (hp_items h) s -> NoDup (locs s) -> NoDup (strs (hp_items h) s) ->
  (forall l, l ∈ strs (hp_items h) s -> is_Some (hp_strings h !! l)) ->
  hwp (cJSON_Delete (root s)) (fun _ h' => freed h h' (locs s) (strs (hp_items h) s)) h.
Proof.
  intros Ho Hnd Hns Hl. unfold cJSON_Delete. apply hwp_fuel, delete_chain_spec; [done..| |done].
  pose proof (nodes_bound (hp_items h) (locs s) Hnd ltac:(intros l Hi; by eapply owns_lookup)). lia.
Qed.

(** C9: cJSON_Delete of an item releases the items and strings that belong to it, to the
    items after it and to their children, each exactly once, and nothing else: the children
    and texts of references and constant names stay.  It ends on every tree. *)
Theorem cJSON_Delete_frees s h :
  owns (hp_items h) s -> NoDup (locs s) -> NoDup (strs (hp_items h) s) ->
  (forall l, l ∈ strs (hp_items h) s -> is_Some (hp_strings h !! l)) ->
  hwp (cJSON_Delete (root s)) (fun _ h' => freed h h' (locs s) (strs (hp_items h) s)) h.
Proof. apply delete_run. Qed.

(** * Copies *)

(** A doubly linked tree without references. *)
Fixpoint linked (m : gmap Z node) (prev : ptr) (s : shape) : Prop :=
  match s with
  | Nil => True
  | Cell l c x => exists n, m !! l = Some n /\ n_prev n = prev /\ n_next n = root x /\ n_child n = root c /\
      has_flag n cJSON_IsReference = false /\ linked m None c /\ linked m (Some l) x
  end.

Lemma linked_owns m prev s : linked m prev s -> owns m s.
Proof.
  revert prev. induction s as [|l c IHc x IHx]; intros prev; [done|]. intros (n & Hn & _ & Hx & Hc & Hr & Hlc & Hlx).
  exists n. rewrite Hr. split_and!; eauto.
Qed.

Lemma linked_agree m m' prev s : (forall l, l ∈ locs s -> m' !! l = m !! l) -> linked m prev s -> linked m' prev s.
Proof.
  revert prev. induction s as [|l c IHc x IHx]; intros prev; [done|].
  intros Hl (n & Hn & Hp & Hx & Hc & Hr & Hlc & Hlx). exists n. rewrite Hl by (cbn; set_solver).
  split_and!; [done..|apply IHc|apply IHx]; try done; (intros k Hk; apply Hl; cbn; set_solver).
Qed.

(** The chain [s] with one more item at its end. *)
Fixpoint snoc (s : shape) (k : Z) (c : shape) : shape :=
  match s with Nil => Cell k c Nil | Cell l d x => Cell l d (snoc x k c) end.

Fixpoint end_of (prev : ptr) (s : shape) : ptr :=
  match s with Nil => prev | Cell l _ x => end_of (Some l) x end.

Lemma root_snoc s k c : root (snoc s k c) = match root s with None => Some k | Some l => Some l end.
Proof. by destruct s. Qed.

Lemma locs_snoc s k c : locs (snoc s k c) ≡ₚ locs s ++ k :: locs c.
Proof.
  induction s as [|l d _ x IH]; cbn; [by rewrite app_nil_r|]. by rewrite IH, <- app_assoc.
Qed.

Lemma strs_snoc m s k c : strs m (snoc s k c) = strs m s ++ strs m c ++ strings_at m k.
Proof.
  induction s as [|l d _ x IH]; cbn; [by rewrite app_nil_r|]. by rewrite IH, <- !app_assoc.
Qed.

Lemma end_of_in s l : end_of None s = Some l -> l ∈ locs s.
Proof.
  assert (forall p, end_of p s = Some l -> p = Some l \/ l ∈ locs s) as H.
  { induction s as [|k c _ x IH]; intros p; [by left|]. cbn. intros [[= ->]|Hi]%IH; right; set_solver. }
  intros [?|?]%H; done.
Qed.

Lemma end_of_some p q k c x : end_of p (Cell k c x) = end_of q (Cell k c x).
Proof. done. Qed.

(** Linking an item to the end of a chain. *)
Definition link_end (s : shape) (k : Z) (m : gmap Z node) : gmap Z node :=
  alter (with_prev (end_of None s)) k (alter_opt (with_next (Some k)) (end_of None s) m).

Lemma linked_snoc m s k c : forall prev,
  s <> Nil -> linked m prev s -> linked m None (Cell k c Nil) -> NoDup (locs s ++ k :: locs c) ->
  linked (link_end s k m) prev (snoc s k c).
Proof.
  induction s as [|l d IHd x IHx]; intros prev Hne; [done|]. intros (n & Hn & Hp & Hx & Hc & Hr & Hld & Hlx).
  intros Hk Hnd. pose proof Hk as (nk & Hnk & _ & Hknx & Hkc & Hkr & Hlc & _).
  cbn [locs app] in Hnd. apply NoDup_cons in Hnd as [Hl Hnd]. rewrite <- app_assoc in Hnd.
  apply NoDup_app in Hnd as (Hndd & Hdd & Hndx). pose proof Hndx as (_ & Hdx & [Hkc' _]%NoDup_cons)%NoDup_app.
  assert (l <> k) as Hlk by set_solver. cbn [snoc linked]. destruct x as [|l' d' x'].
  - cbn [snoc root] in *. unfold link_end. cbn [end_of alter_opt].
    assert (forall u, u <> l -> u <> k -> alter (with_prev (Some l)) k (alter (with_next (Some k)) l m) !! u = m !! u) as Hag
      by (intros; by rewrite !lookup_alter_ne).
    exists (with_next (Some k) n). rewrite lookup_alter_ne, lookup_alter_eq, Hn by done. split_and!; [done|done|done|done|done| |].
    + eapply linked_agree; [|exact Hld]. intros u Hu. apply Hag; [set_solver|]. intros ->. apply (Hdd k Hu). set_solver.
    + exists (with_prev (Some l) nk). rewrite lookup_alter_eq, lookup_alter_ne, Hnk by done. split_and!; [done|done|done|done|done| |done].
      eapply linked_agree; [|exact Hlc]. intros u Hu. apply Hag; [set_solver|]. by intros ->.
  - assert (link_end (Cell l d (Cell l' d' x')) k m = link_end (Cell l' d' x') k m) as -> by done.
    set (s' := Cell l' d' x') in *.
    assert (forall u, u ∉ locs s' -> u <> k -> link_end s' k m !! u = m !! u) as Hag.
    { intros u Hu Huk. unfold link_end. rewrite lookup_alter_ne by done. apply alter_opt_ne. by intros ?%end_of_in. }
    exists n. rewrite Hag by set_solver. split_and!; try done.
    + eapply linked_agree; [|exact Hld]. intros u Hu. apply Hag; [|intros ->]; intros; [intros Hi|]; eapply (Hdd _ Hu); set_solver.
    + by apply (IHx (Some l)).
Qed.

(** ** What is read *)

(** The memory has the shape [s], with the children of references and all texts. *)
Fixpoint source (h : heap) (s : shape) : Prop :=
  match s with
  | Nil => True
  | Cell l c x => exists n, hp_items h !! l = Some n /\ n_next n = root x /\ n_child n = root c /\
      (forall k, n_valuestring n = Some k -> is_Some (hp_strings h !! k)) /\
      (forall k, n_string n = Some k -> is_Some (hp_strings h !! k)) /\ source h c /\ source h x
  end.

(** The items of a chain as values. *)
Definition value_of (h : heap) (l : Z) (c : list cJSON) : list cJSON :=
  match hp_items h !! l with
  | Some n => [mk_cJSON (n_type n) (n_valuestring n ≫= fun s => hp_strings h !! s) (n_valueint n) (n_valuedouble n)
                 (n_string n ≫= fun s => hp_strings h !! s) c]
  | None => []
  end.

Fixpoint contents (h : heap) (s : shape) : list cJSON :=
  match s with Nil => [] | Cell l c x => value_of h l (contents h c) ++ contents h x end.

Lemma contents_snoc h s k c : contents h (snoc s k c) = contents h s ++ value_of h k (contents h c).
Proof. induction s as [|l d _ x IH]; cbn; [by rewrite app_nil_r|]. by rewrite IH, app_assoc. Qed.

(** The values depend on the data of the nodes and on the strings they use. *)
Definition same_value (h h' : heap) (l : Z) : Prop :=
  data <$> hp_items h' !! l = data <$> hp_items h !! l /\
  (forall n s, hp_items h !! l = Some n -> n_valuestring n = Some s \/ n_string n = Some s ->
     hp_strings h' !! s = hp_strings h !! s).

Lemma value_agree h h' l c : same_value h h' l -> value_of h' l c = value_of h l c.
Proof.
  intros [Hd Hs]. unfold value_of. destruct (hp_items h !! l) as [n|] eqn:En, (hp_items h' !! l) as [n'|] eqn:En'; try done.
  cbn in Hd. unfold data in Hd. injection Hd as H1 H2 H3 H4 H5. rewrite H1, H2, H3, H4, H5.
  assert (forall p, p = n_valuestring n \/ p = n_string n ->
    (p ≫= fun s => hp_strings h' !! s) = (p ≫= fun s => hp_strings h !! s)) as Hp.
  { intros [s|] Hp; [|done]. cbn. apply (Hs n); [done|]. destruct Hp as [-> | ->]; auto. }
  by rewrite !Hp by auto.
Qed.

Lemma contents_agree h h' s : Forall (same_value h h') (locs s) -> contents h' s = contents h s.
Proof.
  induction s as [|l c IHc x IHx]; [done|]. cbn [locs contents]. intros [Hl [Hc Hx]%Forall_app]%Forall_cons.
  by rewrite IHc, IHx, (value_agree h).
Qed.

(** ** New objects *)

Definition uses (n : node) (k : Z) : Prop := n_valuestring n = Some k \/ n_string n = Some k.

(** [h'] is [h] with a new tree of the shape [s]. *)
Record grown (h h' : heap) (s : shape) : Prop := {
  gr_linked : linked (hp_items h') None s;
  gr_locs : NoDup (locs s);
  gr_strs : NoDup (strs (hp_items h') s);
  gr_items : forall l, l ∉ locs s -> hp_items h' !! l = hp_items h !! l;
  gr_strings : forall l, l ∉ strs (hp_items h') s -> hp_strings h' !! l = hp_strings h !! l;
  gr_new : forall l, l ∈ locs s -> hp_fresh h <= l;
  gr_live : forall l, l ∈ strs (hp_items h') s -> hp_fresh h <= l /\ is_Some (hp_strings h' !! l);
  gr_used : forall l n k, l ∈ locs s -> hp_items h' !! l = Some n -> uses n k -> is_Some (hp_strings h' !! k);
  gr_ok : heap_ok h';
  gr_fresh : hp_fresh h <= hp_fresh h'
}.

Lemma items_fresh h l : heap_ok h -> hp_fresh h <= l -> hp_items h !! l = None.
Proof. intros [Hi _] Hl. destruct (hp_items h !! l) eqn:E; [|done]. specialize (Hi l ltac:(by eexists)). lia. Qed.

Lemma strings_fresh_from h l : heap_ok h -> hp_fresh h <= l -> hp_strings h !! l = None.
Proof. intros [_ Hi] Hl. destruct (hp_strings h !! l) eqn:E; [|done]. specialize (Hi l ltac:(by eexists)). lia. Qed.

(** Deleting the new tree gives the old memory back. *)
Lemma grown_undo h h' s :
  heap_ok h -> grown h h' s ->
  hwp (cJSON_Delete (root s)) (fun _ h'' => hp_items h'' = hp_items h /\ hp_strings h'' = hp_strings h /\
    hp_fresh h'' = hp_fresh h' /\ hp_alloc h'' = hp_alloc h') h'.
Proof.
  intros Hok [Hl Hn Hns Hi Hs Hnew Hlive _ _ _]. eapply hwp_mono.
  - apply delete_run; [by eapply linked_owns|done|done|]. intros l Hx. by apply Hlive.
  - intros [] h'' [F1 F2 F3 F4]. rewrite F1, F2. split_and!; [| |done|done]; apply map_eq; intros l.
    + destruct (decide (l ∈ locs s)) as [Hin|Hout].
      * rewrite delete_all_in by done. symmetry. apply items_fresh; auto.
      * rewrite delete_all_out by done. auto.
    + destruct (decide (l ∈ strs (hp_items h') s)) as [Hin|Hout].
      * rewrite delete_all_in by done. symmetry. apply strings_fresh_from; [done|]. by apply Hlive.
      * rewrite delete_all_out by done. auto.
Qed.

(** A heap after an allocation. *)
Lemma hwp_allocate (Q : ptr -> heap -> Prop) h :
  (hp_alloc h <> [] -> Q None (mk_heap (hp_items h) (hp_strings h) (hp_fresh h) (tail (hp_alloc h)))) ->
  Q (Some (hp_fresh h)) (mk_heap (hp_items h) (hp_strings h) (hp_fresh h + 1) (tail (hp_alloc h))) ->
  hwp allocate Q h.
Proof. intros HN HS. unfold hwp, allocate. destruct (hp_alloc h) as [|[] l] eqn:E; cbn in *; auto. Qed.

Lemma hwp_new_item (Q : ptr -> heap -> Prop) h :
  (hp_alloc h <> [] -> Q None (mk_heap (hp_items h) (hp_strings h) (hp_fresh h) (tail (hp_alloc h)))) ->
  Q (Some (hp_fresh h)) (mk_heap (<[hp_fresh h := zero_node]> (hp_items h)) (hp_strings h) (hp_fresh h + 1) (tail (hp_alloc h))) ->
  hwp new_item Q h.
Proof. intros HN HS. unfold new_item. apply hwp_bind, hwp_allocate; [|done]. intros Ha. by apply hwp_ret, HN. Qed.

Lemma hwp_strdup k t (Q : ptr -> heap -> Prop) h :
  hp_strings h !! k = Some t ->
  (hp_alloc h <> [] -> Q None (mk_heap (hp_items h) (hp_strings h) (hp_fresh h) (tail (hp_alloc h)))) ->
  Q (Some (hp_fresh h)) (mk_heap (hp_items h) (<[hp_fresh h := t]> (hp_strings h)) (hp_fresh h + 1) (tail (hp_alloc h))) ->
  hwp (cJSON_strdup (Some k)) Q h.
Proof.
  intros Hk HN HS. unfold cJSON_strdup. apply hwp_bind. unfold hwp at 1, read_string. cbn. rewrite Hk.
  apply hwp_bind, hwp_allocate; [|done]. intros Ha. by apply hwp_ret, HN.
Qed.

Lemma heap_ok_same h h' :
  heap_ok h -> hp_items h' = hp_items h -> hp_strings h' = hp_strings h -> hp_fresh h <= hp_fresh h' -> heap_ok h'.
Proof. intros [H1 H2] Hi Hs Hf. split; intros l; [rewrite Hi|rewrite Hs]; intros Hl; [specialize (H1 l Hl)|specialize (H2 l Hl)]; lia. Qed.

Lemma grown_alloc h0 h s al :
  grown h0 h s -> grown h0 (mk_heap (hp_items h) (hp_strings h) (hp_fresh h) al) s.
Proof. intros []. by split. Qed.

(** A first node. *)
Lemma grown_node h al :
  heap_ok h -> grown h (mk_heap (<[hp_fresh h := zero_node]> (hp_items h)) (hp_strings h) (hp_fresh h + 1) al)
                 (Cell (hp_fresh h) Nil Nil).
Proof.
  intros Hok. split; cbn; try (by repeat constructor).
  - exists zero_node. rewrite lookup_insert_eq. by split_and!.
  - apply NoDup_singleton.
  - unfold strings_at. rewrite lookup_insert_eq. constructor.
  - intros l Hl. apply lookup_insert_ne. set_solver.
  - set_solver.
  - unfold strings_at. rewrite lookup_insert_eq. cbn. set_solver.
  - intros l n k [->|?%not_elem_of_nil]%elem_of_cons; [|done]. rewrite lookup_insert_eq. intros [= <-]. by intros [?|?].
  - destruct Hok as [H1 H2]. split; cbn; intros l Hl; [|specialize (H2 l Hl); lia].
    apply lookup_insert_is_Some in Hl as [<-|[_ Hl]]; [lia|]. specialize (H1 l Hl). lia.
  - lia.
Qed.

(** Changing a field of a single new node that owns the same strings as before. *)
Lemma grown_same_strings h0 h k n f :
  grown h0 h (Cell k Nil Nil) -> hp_items h !! k = Some n -> own_strings (f n) = own_strings n ->
  n_prev (f n) = n_prev n -> n_next (f n) = n_next n -> n_child (f n) = n_child n -> has_flag (f n) cJSON_IsReference = false ->
  (forall s, uses (f n) s -> is_Some (hp_strings h !! s)) ->
  grown h0 (put h (alter f k (hp_items h))) (Cell k Nil Nil).
Proof.
  intros [Hl Hn Hns Hi Hs Hnew Hlive Hus Hok Hf] Hk Hown Hp Hx Hc Hr Huse. cbn in *. unfold strings_at in *.
  rewrite Hk in Hns, Hs, Hlive. cbn in Hns, Hs, Hlive.
  split; cbn; unfold strings_at; rewrite ?lookup_alter_eq, ?Hk; cbn; rewrite ?Hown; try done.
  - destruct Hl as (n' & Hn' & Hp' & Hx' & Hc' & _). assert (n' = n) as -> by congruence.
    exists (f n). rewrite Hp, Hx, Hc. by split_and!.
  - intros l Hl'. rewrite lookup_alter_ne by set_solver. auto.
  - intros l u s [->|?%not_elem_of_nil]%elem_of_cons; [|done]. rewrite lookup_alter_eq, Hk. intros [= <-]. apply Huse.
  - destruct Hok as [H1 H2]. split; [|done]. cbn. intros l Hl'. apply H1. destruct (decide (k = l)) as [->|]; [by eexists|].
    by rewrite lookup_alter_ne in Hl'.
Qed.

(** Giving a new node a new string. *)
Lemma grown_new_string h0 h k n f t al :
  grown h0 h (Cell k Nil Nil) -> hp_items h !! k = Some n -> own_strings (f n) ≡ₚ hp_fresh h :: own_strings n ->
  n_prev (f n) = n_prev n -> n_next (f n) = n_next n -> n_child (f n) = n_child n -> has_flag (f n) cJSON_IsReference = false ->
  (forall s, uses (f n) s -> s = hp_fresh h \/ uses n s) ->
  grown h0 (put (mk_heap (hp_items h) (<[hp_fresh h := t]> (hp_strings h)) (hp_fresh h + 1) al) (alter f k (hp_items h)))
    (Cell k Nil Nil).
Proof.
  intros [Hl Hn Hns Hi Hs Hnew Hlive Hus Hok Hf] Hk Hown Hp Hx Hc Hr Huse. cbn in *. unfold strings_at in *.
  rewrite Hk in Hns, Hs, Hlive. cbn in Hns, Hs, Hlive. rewrite app_nil_r in Hns, Hs, Hlive.
  assert (hp_fresh h ∉ own_strings n) as Hfr.
  { intros Hi'. destruct (Hlive _ Hi') as [_ Hsome]. rewrite strings_fresh in Hsome by done. by destruct Hsome. }
  split; cbn; unfold strings_at; rewrite ?lookup_alter_eq, ?Hk; cbn; rewrite ?app_nil_r; try done.
  - destruct Hl as (n' & Hn' & Hp' & Hx' & Hc' & _). assert (n' = n) as -> by congruence.
    exists (f n). rewrite Hp, Hx, Hc. by split_and!.
  - rewrite Hown. by apply NoDup_cons.
  - intros l Hl'. rewrite lookup_alter_ne by set_solver. auto.
  - intros l Hl'. rewrite Hown in Hl'. rewrite lookup_insert_ne by set_solver. apply Hs. set_solver.
  - intros l Hl'. rewrite Hown in Hl'. apply elem_of_cons in Hl' as [->|Hl'].
    + rewrite lookup_insert_eq. split; [lia|by eexists].
    + rewrite lookup_insert_ne by set_solver. auto.
  - intros l u s [->|?%not_elem_of_nil]%elem_of_cons; [|done]. rewrite lookup_alter_eq, Hk. intros [= <-] Hu.
    destruct (decide (s = hp_fresh h)) as [->|Hne]; [rewrite lookup_insert_eq; by eexists|].
    rewrite lookup_insert_ne by done. destruct (Huse s Hu) as [->|Hu']; [done|]. eapply (Hus k); [set_solver|done|done].
  - destruct Hok as [H1 H2]. split; cbn; intros l Hl'.
    + assert (l < hp_fresh h); [|lia]. apply H1. destruct (decide (k = l)) as [->|]; [by eexists|].
      by rewrite lookup_alter_ne in Hl'.
    + apply lookup_insert_is_Some in Hl' as [<-|[_ Hl']]; [lia|]. specialize (H2 l Hl'). lia.
  - lia.
Qed.

(** ** The fields of a copy *)

Definition text_at (h : heap) (p : ptr) : option (list Z) := p ≫= fun s => hp_strings h !! s.

Lemma ref_cleared t n : has_flag (with_type (Z.land t (Z.lnot cJSON_IsReference)) n) cJSON_IsReference = false.
Proof.
  unfold has_flag. cbn [n_type with_type]. rewrite <- Z.land_assoc. change (Z.land (Z.lnot cJSON_IsReference) cJSON_IsReference) with 0.
  by rewrite Z.land_0_r.
Qed.

Lemma const_kept t : Z.land (Z.land t (Z.lnot cJSON_IsReference)) cJSON_StringIsConst = Z.land t cJSON_StringIsConst.
Proof. by rewrite <- Z.land_assoc. Qed.

(** The strings of the old memory are in the new one. *)
Lemma grown_old_string h0 h s k : heap_ok h0 -> grown h0 h s -> is_Some (hp_strings h0 !! k) -> hp_strings h !! k = hp_strings h0 !! k.
Proof.
  intros [_ Hok] Hg Hk. apply (gr_strings _ _ _ Hg). intros Hi. destruct (gr_live _ _ _ Hg _ Hi) as [? _].
  specialize (Hok k Hk). lia.
Qed.

Lemma grown_old_item h0 h s l : heap_ok h0 -> grown h0 h s -> is_Some (hp_items h0 !! l) -> hp_items h !! l = hp_items h0 !! l.
Proof.
  intros [Hok _] Hg Hl. apply (gr_items _ _ _ Hg). intros Hi. pose proof (gr_new _ _ _ Hg _ Hi). specialize (Hok l Hl). lia.
Qed.

(** A field that holds a copy of the string [p], if there is one, or of nothing when the
    allocation fails. *)
Lemma copy_string h0 h k n (set : ptr -> node -> node) p (Q : bool -> heap -> Prop) :
  heap_ok h0 -> grown h0 h (Cell k Nil Nil) -> hp_items h !! k = Some n ->
  (forall s, p = Some s -> is_Some (hp_strings h0 !! s)) ->
  (forall q, n_prev (set q n) = n_prev n /\ n_next (set q n) = n_next n /\ n_child (set q n) = n_child n /\
     has_flag (set q n) cJSON_IsReference = false) ->
  own_strings (set None n) = own_strings n -> set None n = n -> (forall s, own_strings (set (Some s) n) ≡ₚ s :: own_strings n) ->
  (forall q s, uses (set q n) s -> q = Some s \/ uses n s) ->
  (forall h', grown h0 h' (Cell k Nil Nil) -> hp_alloc h <> [] -> Q false h') ->
  (forall h' q, grown h0 h' (Cell k Nil Nil) -> hp_items h' !! k = Some (set q n) -> text_at h' q = text_at h0 p ->
     (forall s, is_Some (hp_strings h !! s) -> hp_strings h' !! s = hp_strings h !! s) ->
     (hp_alloc h = [] -> hp_alloc h' = []) -> Q true h') ->
  hwp (match p with
       | None => hret true
       | Some _ => let* copy := cJSON_strdup p in update (Some k) (set copy) ;;* hret (bool_decide (copy <> None))
       end) Q h.
Proof.
  intros Hok Hg Hk Hp Hset Hnone Hsame Hown Huse HF HT. destruct p as [s|].
  2: { apply hwp_ret, (HT h None); try done. by rewrite Hsame. }
  destruct (Hp s eq_refl) as [t Ht]. pose proof (grown_old_string _ _ _ s Hok Hg ltac:(by eexists)) as Hs. rewrite Ht in Hs.
  destruct (Hset None) as (N1 & N2 & N3 & N4).
  apply hwp_bind, (hwp_strdup s t); [done| |].
  - intros Ha. apply hwp_bind, hwp_update; [by eexists|]. apply hwp_ret. rewrite bool_decide_eq_false_2 by (by intros []).
    apply HF; [|done]. apply (grown_same_strings h0 (mk_heap (hp_items h) (hp_strings h) (hp_fresh h) (tail (hp_alloc h))) k n); try done.
    + by apply grown_alloc.
    + intros s' Hu. rewrite Hsame in Hu. eapply (gr_used _ _ _ Hg k n); [cbn; set_solver|done|done].
  - destruct (Hset (Some (hp_fresh h))) as (M1 & M2 & M3 & M4).
    apply hwp_bind, hwp_update; [by eexists|]. apply hwp_ret. rewrite bool_decide_eq_true_2 by done.
    apply (HT _ (Some (hp_fresh h))).
    + apply (grown_new_string h0 h k n); try done. intros s' [[= ->]|?]%Huse; auto.
    + cbn. by rewrite lookup_alter_eq, Hk.
    + cbn. by rewrite lookup_insert_eq, Ht.
    + intros s' Hs'. cbn. rewrite lookup_insert_ne; [done|]. intros <-. rewrite strings_fresh in Hs' by apply Hg. by destruct Hs'.
    + cbn. by intros ->.
Qed.

(** The value of the copy of the node [n], with its children. *)
Definition copy_value (h : heap) (n : node) (cs : list cJSON) : cJSON :=
  mk_cJSON (Z.land (n_type n) (Z.lnot cJSON_IsReference)) (text_at h (n_valuestring n)) (n_valueint n) (n_valuedouble n)
    (text_at h (n_string n)) cs.

Lemma duplicate_fields_spec h0 h l n k (Q : bool -> heap -> Prop) :
  heap_ok h0 -> grown h0 h (Cell k Nil Nil) -> hp_items h !! k = Some zero_node ->
  hp_items h0 !! l = Some n ->
  (forall s, n_valuestring n = Some s \/ n_string n = Some s -> is_Some (hp_strings h0 !! s)) ->
  (hp_alloc h0 = [] -> hp_alloc h = []) ->
  (forall h', grown h0 h' (Cell k Nil Nil) -> hp_alloc h0 <> [] -> Q false h') ->
  (forall h', grown h0 h' (Cell k Nil Nil) -> (forall cs, value_of h' k cs = [copy_value h0 n cs]) ->
     (hp_alloc h0 = [] -> hp_alloc h' = []) -> Q true h') ->
  hwp (duplicate_fields (Some l) (Some k)) Q h.
Proof.
  intros Hok Hg Hk Hl Hlive Ha HF HT. unfold duplicate_fields.
  apply hwp_bind, (hwp_deref l n); [by rewrite (grown_old_item h0 h (Cell k Nil Nil))|].
  apply hwp_bind, hwp_update; [by eexists|].
  set (n1 := with_value (n_valueint n) (n_valuedouble n) (with_type (Z.land (n_type n) (Z.lnot cJSON_IsReference)) zero_node)).
  set (h1 := put h _).
  assert (has_flag n1 cJSON_IsReference = false) as Hr by exact (ref_cleared (n_type n) zero_node).
  assert (has_flag n1 cJSON_StringIsConst = has_flag n cJSON_StringIsConst) as Hcst.
  { unfold has_flag. cbn [n_type n1 with_value with_type]. by rewrite const_kept. }
  assert (own_strings n1 = []) as Hown1.
  { unfold own_strings. rewrite Hr. change (n_valuestring n1) with (@None Z). change (n_string n1) with (@None Z).
    by destruct (has_flag n1 cJSON_StringIsConst). }
  assert (grown h0 h1 (Cell k Nil Nil)) as Hg1 by (apply (grown_same_strings h0 h k zero_node); try done; by intros s [?|?]).
  assert (hp_items h1 !! k = Some n1) as Hk1 by (cbn; by rewrite lookup_alter_eq, Hk).
  apply hwp_bind, (copy_string h0 h1 k n1 with_valuestring);
    [done..|auto|done|done|done| |by intros q s [?|?]; [left|right; right]| |].
  { intros s. rewrite Hown1. unfold own_strings. change (has_flag (with_valuestring (Some s) n1)) with (has_flag n1). rewrite Hr.
    change (n_string (with_valuestring (Some s) n1)) with (@None Z). by destruct (has_flag n1 cJSON_StringIsConst). }
  { intros h2 Hg2 Ha2. apply hwp_ret, HF; [done|]. intros E. by apply Ha2, Ha. }
  intros h2 vs Hg2 Hk2 Hvs Hold2 Ha2. cbn [negb]. set (n2 := with_valuestring vs n1) in *.
  assert (forall p q h3, grown h0 h3 (Cell k Nil Nil) -> hp_items h3 !! k = Some (with_string q n2) -> text_at h3 q = text_at h0 p ->
    (forall s, is_Some (hp_strings h2 !! s) -> hp_strings h3 !! s = hp_strings h2 !! s) -> (hp_alloc h2 = [] -> hp_alloc h3 = []) ->
    p = n_string n -> Q true h3) as Hend.
  { intros p q h3 Hg3 Hk3 Hq Hold3 Ha3 ->. apply HT; [done| |auto]. intros cs. unfold value_of. rewrite Hk3. unfold copy_value.
    do 2 f_equal; [|done]. cbn. rewrite <- Hvs. destruct vs as [s|]; [|done]. cbn. apply Hold3.
    apply (gr_live _ _ _ Hg2). cbn. unfold strings_at. rewrite Hk2. cbn. unfold own_strings.
    change (has_flag n2) with (has_flag n1). rewrite Hr. cbn. set_solver. }
  destruct (has_flag n cJSON_StringIsConst) eqn:Hc.
  - destruct (n_string n) as [s|] eqn:Es; [|by apply hwp_ret, (Hend None None)].
    apply hwp_bind, hwp_ret, hwp_bind, hwp_update; [by eexists|]. apply hwp_ret. rewrite bool_decide_eq_true_2 by done.
    apply (Hend (Some s) (Some s)); try done.
    + apply (grown_same_strings h0 h2 k n2); try done.
      * unfold own_strings. change (has_flag (with_string (Some s) n2)) with (has_flag n1).
        change (has_flag n2) with (has_flag n1). by rewrite Hcst.
      * intros s' [Hu|[= <-]].
        -- eapply (gr_used _ _ _ Hg2 k n2); [cbn; set_solver|done|by left].
        -- rewrite (grown_old_string h0 h2 (Cell k Nil Nil)) by auto. auto.
    + cbn. by rewrite lookup_alter_eq, Hk2.
    + cbn. apply (grown_old_string h0 h2 (Cell k Nil Nil)); auto.
  - apply (copy_string h0 h2 k n2 with_string);
      [done..|auto|done|done|done| |by intros q s [?|?]; [right; left|left]| |].
    + intros s. unfold own_strings. change (has_flag (with_string (Some s) n2)) with (has_flag n1).
      change (has_flag n2) with (has_flag n1). rewrite Hcst, Hr. cbn. by rewrite app_nil_r, Permutation_app_comm.
    + intros h3 Hg3 Ha3. apply HF; [done|]. auto.
    + intros h3 q Hg3 Hk3 Hq Hold3 Ha3. by eapply Hend.
Qed.

(** ** Children of a copy *)

Lemma strings_at_data m m' l : data <$> m' !! l = data <$> m !! l -> strings_at m' l = strings_at m l.
Proof.
  intros Hd. unfold strings_at. destruct (m !! l) as [n|], (m' !! l) as [n'|]; try done. cbn in *. unfold data in Hd.
  injection Hd as H1 H2 _ _ H5. unfold own_strings, has_flag. by rewrite H1, H2, H5.
Qed.

Lemma strs_data m m' s : (forall l, data <$> m' !! l = data <$> m !! l) -> strs m' s = strs m s.
Proof. intros Hd. induction s as [|l c IHc x IHx]; [done|]. cbn. by rewrite IHc, IHx, (strings_at_data m). Qed.

Lemma alter_data f l (m : gmap Z node) : (forall n, data (f n) = data n) -> forall k, data <$> alter f l m !! k = data <$> m !! k.
Proof.
  intros Hf k. destruct (decide (l = k)) as [->|]; [|by rewrite lookup_alter_ne]. rewrite lookup_alter_eq.
  destruct (m !! k); [|done]. cbn. by rewrite Hf.
Qed.

Lemma link_end_data s k m l : data <$> link_end s k m !! l = data <$> m !! l.
Proof. unfold link_end. rewrite alter_data by done. destruct (end_of None s); [by apply alter_data|done]. Qed.

Lemma grown_bound h h' s l : grown h h' s -> l ∈ locs s -> l < hp_fresh h'.
Proof.
  intros Hg Hl. pose proof (gr_ok _ _ _ Hg) as [Hi _]. apply Hi. eapply owns_lookup; [|done].
  eapply linked_owns, Hg.
Qed.

Lemma grown_bound_string h h' s l : grown h h' s -> l ∈ strs (hp_items h') s -> l < hp_fresh h'.
Proof. intros Hg Hl. pose proof (gr_ok _ _ _ Hg) as [_ Hi]. apply Hi. by apply (gr_live _ _ _ Hg). Qed.

(** The memory after the new child [k] was linked to the others. *)
Definition link_child (a : Z) (done : shape) (k : Z) (m : gmap Z node) : gmap Z node :=
  match done with Nil => alter (with_child (Some k)) a m | _ => link_end done k m end.

Lemma link_child_data a done k m l : data <$> link_child a done k m !! l = data <$> m !! l.
Proof. destruct done; [by apply alter_data|apply link_end_data]. Qed.

Lemma link_child_end a done k m : done <> Nil -> link_child a done k m = link_end done k m.
Proof. by destruct done. Qed.

Lemma link_child_other a done k m l : l <> a -> l ∉ locs done -> l <> k -> link_child a done k m !! l = m !! l.
Proof.
  intros Ha Hd Hk. destruct done as [|u d x] eqn:E; [by apply lookup_alter_ne|]. rewrite <- E in *.
  replace (link_child a done k m) with (link_end done k m) by (by rewrite E). unfold link_end.
  rewrite lookup_alter_ne by done. apply alter_opt_ne. by intros ?%end_of_in.
Qed.

Section Append.
Context (h0 h h2 : heap) (a k : Z) (done c : shape).
Context (G1 : grown h0 h (Cell a done Nil)) (G2 : grown h h2 (Cell k c Nil)).
Let m3 := link_child a done k (hp_items h2).

Lemma append_apart l : l ∈ locs (Cell a done Nil) -> l ∉ locs (Cell k c Nil).
Proof. intros H1%(grown_bound _ _ _ _ G1) H2%(gr_new _ _ _ G2). lia. Qed.

Lemma append_old l : l ∈ locs (Cell a done Nil) -> hp_items h2 !! l = hp_items h !! l.
Proof. intros Hl. apply (gr_items _ _ _ G2). by apply append_apart. Qed.

Lemma append_linked : linked m3 None (Cell a (snoc done k c) Nil).
Proof.
  pose proof (gr_linked _ _ _ G1) as (n & Hn & Hp & Hx & Hc & Hr & Hd & _). pose proof (gr_linked _ _ _ G2) as Hk.
  pose proof (gr_locs _ _ _ G1) as Hn1. pose proof (gr_locs _ _ _ G2) as Hn2. cbn in Hn1, Hn2. rewrite !app_nil_r in Hn1, Hn2.
  apply NoDup_cons in Hn1 as [Ha Hn1].
  assert (a ∉ k :: locs c) as Hak by (pose proof (append_apart a) as Hap; cbn in Hap; rewrite !app_nil_r in Hap; apply Hap; set_solver).
  assert (hp_items h2 !! a = Some n) as Hna by (rewrite append_old; [done|cbn; set_solver]).
  unfold m3. cbn [linked]. assert (done = Nil \/ done <> Nil) as [E|E] by (destruct done; auto).
  - rewrite E in Hd |- *. cbn [link_child snoc root]. exists (with_child (Some k) n). rewrite lookup_alter_eq, Hna. split_and!; try done.
    eapply linked_agree; [|exact Hk]. intros l Hl. apply lookup_alter_ne. cbn in Hl. rewrite app_nil_r in Hl. by intros <-.
  - rewrite link_child_end by done. exists n. split_and!; try done.
    + rewrite <- Hna. unfold link_end. rewrite lookup_alter_ne by set_solver. apply alter_opt_ne. by intros ?%end_of_in.
    + rewrite root_snoc, Hc. by destruct (root done) eqn:Er; [|destruct done].
    + apply linked_snoc; [done| |done|].
      * eapply linked_agree; [|exact Hd]. intros l Hl. apply append_old. cbn. set_solver.
      * apply NoDup_app. split_and!; [done| |done]. intros l Hl Hi. eapply (append_apart l); cbn; set_solver.
Qed.

Lemma append_strs :
  strs m3 (Cell a (snoc done k c) Nil) ≡ₚ strs (hp_items h) (Cell a done Nil) ++ strs (hp_items h2) (Cell k c Nil).
Proof.
  rewrite (strs_data (hp_items h2)) by (intros; apply link_child_data). cbn. rewrite strs_snoc, !app_nil_r.
  rewrite (strs_agree (hp_items h)) by (intros; apply append_old; cbn; set_solver).
  replace (strings_at (hp_items h2) a) with (strings_at (hp_items h) a)
    by (unfold strings_at; by rewrite append_old by (cbn; set_solver)).
  rewrite <- !app_assoc. apply Permutation_app_head. rewrite app_assoc. apply Permutation_app_comm.
Qed.

Lemma append_strs_apart l : l ∈ strs (hp_items h) (Cell a done Nil) -> l ∉ strs (hp_items h2) (Cell k c Nil).
Proof. intros H1%(grown_bound_string _ _ _ _ G1) [H2 _]%(gr_live _ _ _ G2). lia. Qed.

Lemma append_old_string s : is_Some (hp_strings h !! s) -> hp_strings h2 !! s = hp_strings h !! s.
Proof. apply (grown_old_string h h2 (Cell k c Nil)); [apply G1|done]. Qed.

Lemma append_locs : locs (Cell a (snoc done k c) Nil) ≡ₚ locs (Cell a done Nil) ++ locs (Cell k c Nil).
Proof. cbn. by rewrite !app_nil_r, locs_snoc. Qed.

Lemma grown_append : grown h0 (put h2 m3) (Cell a (snoc done k c) Nil).
Proof.
  pose proof (gr_fresh _ _ _ G1). pose proof (gr_fresh _ _ _ G2).
  split; cbn [hp_items hp_strings hp_fresh put with_items].
  - apply append_linked.
  - rewrite append_locs. apply NoDup_app. split_and!; [apply G1|apply append_apart|apply G2].
  - rewrite append_strs. apply NoDup_app. split_and!; [apply G1|apply append_strs_apart|apply G2].
  - intros l Hl. rewrite append_locs in Hl. apply not_elem_of_app in Hl as [H1 H2]. unfold m3.
    rewrite link_child_other by (cbn in H1, H2; rewrite app_nil_r in H1, H2; set_solver).
    by rewrite (gr_items _ _ _ G2), (gr_items _ _ _ G1).
  - intros l Hl. rewrite append_strs in Hl. apply not_elem_of_app in Hl as [H1 H2].
    by rewrite (gr_strings _ _ _ G2), (gr_strings _ _ _ G1).
  - intros l Hl. rewrite append_locs in Hl. apply elem_of_app in Hl as [Hl|Hl].
    + by apply (gr_new _ _ _ G1).
    + pose proof (gr_new _ _ _ G2 _ Hl). lia.
  - intros l Hl. rewrite append_strs in Hl. apply elem_of_app in Hl as [Hl|Hl].
    + destruct (gr_live _ _ _ G1 _ Hl) as [H1 H2]. split; [done|]. rewrite (gr_strings _ _ _ G2); [done|]. by apply append_strs_apart.
    + destruct (gr_live _ _ _ G2 _ Hl) as [H1 H2]. split; [lia|done].
  - intros l n s Hl Hn Hu. pose proof (link_child_data a done k (hp_items h2) l) as Hd. fold m3 in Hd. rewrite Hn in Hd.
    destruct (hp_items h2 !! l) as [n'|] eqn:Hn'; [|done]. assert (uses n' s) as Hu'
      by (unfold data in Hd; cbn in Hd; unfold uses in *; injection Hd as _ H1 _ _ H2; by rewrite <- H1, <- H2).
    rewrite append_locs in Hl. apply elem_of_app in Hl as [Hl|Hl]; [|by eapply (gr_used _ _ _ G2)].
    assert (is_Some (hp_strings h !! s)) as Hs by (eapply (gr_used _ _ _ G1); [done|rewrite <- append_old; done|done]).
    by rewrite append_old_string.
  - destruct (gr_ok _ _ _ G2) as [H1 H2]. split; [|done]. cbn. intros l Hl. apply H1.
    pose proof (link_child_data a done k (hp_items h2) l) as Hd. fold m3 in Hd. destruct Hl as [n Hl]. rewrite Hl in Hd.
    destruct (hp_items h2 !! l); [by eexists|done].
  - lia.
Qed.

(** The values after the child was linked. *)
Lemma append_same l : l ∈ locs (Cell a done Nil) -> same_value h (put h2 m3) l.
Proof.
  intros Hl. split; cbn.
  - unfold m3. by rewrite link_child_data, append_old.
  - intros n s Hn Hu. by eapply append_old_string, (gr_used _ _ _ G1).
Qed.

Lemma append_same_new l : same_value h2 (put h2 m3) l.
Proof. split; [apply link_child_data|done]. Qed.

Lemma append_contents : contents (put h2 m3) (snoc done k c) = contents h done ++ contents h2 (Cell k c Nil).
Proof.
  rewrite contents_snoc. cbn [contents]. rewrite app_nil_r. f_equal.
  - apply contents_agree, Forall_forall. intros l Hl. apply append_same. cbn. set_solver.
  - rewrite (contents_agree h2) by (apply Forall_forall; intros; apply append_same_new).
    apply value_agree, append_same_new.
Qed.

Lemma append_value cs : value_of (put h2 m3) a cs = value_of h a cs.
Proof. apply value_agree, append_same. cbn. set_solver. Qed.
End Append.

(** ** Duplication *)

(** The value of a copy. *)
Fixpoint plain (i : cJSON) : cJSON :=
  let 'mk_cJSON t v n d s c := i in mk_cJSON (Z.land t (Z.lnot cJSON_IsReference)) v n d s (map plain c).

(** The copy of a value [v], or nothing and the memory as it was. *)
Definition copied (h : heap) (v : list cJSON) (r : ptr) (h' : heap) : Prop :=
  (hp_alloc h = [] -> hp_alloc h' = []) /\
  match r with
  | None => hp_alloc h <> [] /\ hp_items h' = hp_items h /\ hp_strings h' = hp_strings h /\ hp_fresh h <= hp_fresh h'
  | Some k => exists c, grown h h' (Cell k c Nil) /\ contents h' (Cell k c Nil) = v
  end.

Lemma source_agree h h' s :
  (forall l, is_Some (hp_items h !! l) -> hp_items h' !! l = hp_items h !! l) ->
  (forall l, is_Some (hp_strings h !! l) -> hp_strings h' !! l = hp_strings h !! l) -> source h s ->
  source h' s /\ contents h' s = contents h s.
Proof.
  intros Hi Hs. induction s as [|l c IHc x IHx]; [done|]. intros (n & Hn & Hx & Hc & Hv & Hm & Hsc & Hsx).
  destruct (IHc Hsc) as [IHc1 IHc2]. destruct (IHx Hsx) as [IHx1 IHx2]. assert (hp_items h' !! l = Some n) as Hn' by (by rewrite Hi).
  split.
  - exists n. split_and!; try done; intros k Hk; rewrite Hs; auto.
  - cbn. rewrite IHc2, IHx2. f_equal. apply value_agree. split; [by rewrite Hn, Hn'|].
    intros n' k Hn2 Hk. assert (n' = n) as -> by congruence. apply Hs. destruct Hk; auto.
Qed.

Lemma source_grown h h' s t : heap_ok h -> grown h h' t -> source h s -> source h' s /\ contents h' s = contents h s.
Proof. intros Hok Hg. apply source_agree; intros l Hl; [by eapply grown_old_item|by eapply grown_old_string]. Qed.

Lemma value_copy h l n cs : hp_items h !! l = Some n -> [copy_value h n (map plain cs)] = map plain (value_of h l cs).
Proof. intros Hn. unfold value_of. by rewrite Hn. Qed.

Lemma end_of_snoc p s k c : end_of p (snoc s k c) = Some k.
Proof. revert p. induction s as [|l d _ x IH]; intros p; [done|]. apply IH. Qed.

Lemma grown_same_mem h0 h h' s :
  grown h0 h s -> hp_items h' = hp_items h -> hp_strings h' = hp_strings h -> hp_fresh h <= hp_fresh h' -> grown h0 h' s.
Proof.
  intros [] Hi Hs Hf. split; rewrite ?Hi, ?Hs; try done; [by eapply heap_ok_same|lia].
Qed.

(** Giving up releases what was built. *)
Lemma duplicate_fail h0 h h' a c v :
  heap_ok h0 -> grown h0 h (Cell a c Nil) -> hp_items h' = hp_items h -> hp_strings h' = hp_strings h ->
  hp_fresh h <= hp_fresh h' -> hp_alloc h0 <> [] ->
  hwp (cJSON_Delete (Some a) ;;* hret None) (copied h0 v) h'.
Proof.
  intros Hok Hg Hi Hs Hf Ha. pose proof (grown_same_mem _ _ _ _ Hg Hi Hs Hf) as Hg'. apply hwp_bind.
  eapply hwp_mono; [exact (grown_undo h0 h' _ Hok Hg')|]. intros [] h'' (F1 & F2 & F3 & F4). apply hwp_ret.
  split; [done|]. split_and!; try done. pose proof (gr_fresh _ _ _ Hg). lia.
Qed.

(** Linking a new child. *)
Lemma hwp_link h0 h h2 a done k c (Q : unit -> heap -> Prop) :
  grown h0 h (Cell a done Nil) -> grown h h2 (Cell k c Nil) ->
  Q tt (put h2 (link_child a done k (hp_items h2))) ->
  hwp (match end_of None done with
       | Some _ => update (end_of None done) (with_next (Some k)) ;;* update (Some k) (with_prev (end_of None done))
       | None => update (Some a) (with_child (Some k))
       end) Q h2.
Proof.
  intros G1 G2 HQ.
  assert (forall l, l ∈ locs (Cell a done Nil) -> is_Some (hp_items h2 !! l)) as Hold.
  { intros l Hl. rewrite (append_old h0 h h2 a k done c G1 G2 l Hl). eapply owns_lookup; [|exact Hl]. eapply linked_owns, G1. }
  destruct done as [|u d x] eqn:E; [by apply hwp_update; [apply Hold; cbn; set_solver|]|]. rewrite <- E in *.
  rewrite link_child_end in HQ by (by rewrite E). destruct (end_of None done) as [e|] eqn:He.
  2: { rewrite E in He. exfalso. clear -He. cbn in He. revert u He. induction x as [|v w _ y IH]; intros u He; [done|]. by apply (IH v). }
  pose proof (end_of_in _ _ He) as Hed. assert (k <> e) as Hke.
  { intros ->. apply (append_apart h0 h h2 a e done c G1 G2 e); cbn; set_solver. }
  apply hwp_bind, hwp_update; [apply Hold; cbn; set_solver|]. apply hwp_update.
  { cbn. rewrite lookup_alter_ne by done. eapply owns_lookup; [eapply linked_owns, G2|cbn; set_solver]. }
  unfold link_end in HQ. rewrite He in HQ. exact HQ.
Qed.

(** One item, when its children can be copied. *)
Lemma duplicate_item F l n c h :
  (forall h0 h a n' done ds,
     heap_ok h0 -> grown h0 h (Cell a done Nil) -> (forall cs, value_of h a cs = [copy_value h0 n' cs]) ->
     contents h done = ds -> source h0 c -> (hp_alloc h0 = [] -> hp_alloc h = []) ->
     hwp (duplicate_loop (fun child => duplicate F child true) (S F) (Some a) (root c) (end_of None done))
       (copied h0 [copy_value h0 n' (ds ++ map plain (contents h0 c))]) h) ->
  heap_ok h -> hp_items h !! l = Some n -> n_child n = root c -> (forall s, uses n s -> is_Some (hp_strings h !! s)) ->
  source h c ->
  hwp (duplicate (S F) (Some l) true) (copied h (map plain (value_of h l (contents h c)))) h.
Proof.
  intros Hloop Hok Hn Hc Huse Hsrc. cbn [duplicate duplicate_body]. apply hwp_bind, hwp_new_item.
  { intros Ha. apply hwp_ret. split; [by intros ->|]. by split_and!. }
  set (k := hp_fresh h). set (h1 := mk_heap _ _ _ _).
  assert (grown h h1 (Cell k Nil Nil)) as Hg1 by (by apply grown_node).
  apply hwp_bind, (duplicate_fields_spec h h1 l n k); [done|done|cbn; by rewrite lookup_insert_eq|done|done|cbn; by intros ->| |].
  - intros h2 Hg2 Ha. cbn [negb]. apply (duplicate_fail h h2 h2 k Nil); done || lia.
  - intros h2 Hg2 Hv Ha2. cbn [negb]. apply hwp_bind, (hwp_deref l n).
    { by rewrite (grown_old_item h h2 (Cell k Nil Nil)) by (done || by eexists). }
    rewrite Hc, <- (value_copy h l n) by done.
    exact (Hloop h h2 k n Nil [] Hok Hg2 Hv eq_refl Hsrc Ha2).
Qed.

Lemma duplicate_loop_spec s : forall F fuel h0 h a n done ds,
  heap_ok h0 -> grown h0 h (Cell a done Nil) -> (forall cs, value_of h a cs = [copy_value h0 n cs]) ->
  contents h done = ds -> source h0 s -> (length (locs s) <= F)%nat -> (length (locs s) < fuel)%nat ->
  (hp_alloc h0 = [] -> hp_alloc h = []) ->
  hwp (duplicate_loop (fun child => duplicate F child true) fuel (Some a) (root s) (end_of None done))
    (copied h0 [copy_value h0 n (ds ++ map plain (contents h0 s))]) h.
Proof.
  induction s as [|l c IHc x IHx]; intros F fuel h0 h a n done ds Hok Hg Hv Hds Hsrc HF Hfuel Ha;
    (destruct fuel as [|fuel]; [lia|]); cbn [duplicate_loop root].
  { apply hwp_ret. split; [done|]. exists done. split; [done|]. cbn. by rewrite Hv, Hds, !app_nil_r. }
  pose proof Hsrc as (nl & Hnl & Hnx & Hnc & Hvs & Hns & Hsc & Hsx). cbn [locs length] in HF, Hfuel. rewrite length_app in HF, Hfuel.
  destruct F as [|F]; [lia|].
  destruct (source_grown _ _ _ _ Hok Hg Hsc) as [Hsc' Hcc].
  pose proof (grown_old_item _ _ _ l Hok Hg ltac:(by eexists)) as Hnl'. rewrite Hnl in Hnl'.
  assert (forall s, uses nl s -> is_Some (hp_strings h !! s)) as Huse.
  { intros s Hu. rewrite (grown_old_string _ _ _ _ Hok Hg) by (destruct Hu; auto). destruct Hu; auto. }
  assert (value_of h l (contents h c) = value_of h0 l (contents h0 c)) as Hval.
  { rewrite Hcc. apply value_agree. split; [by rewrite Hnl, Hnl'|]. intros n' s Hn' Hu. assert (n' = nl) as -> by congruence.
    apply (grown_old_string _ _ _ _ Hok Hg). destruct Hu; auto. }
  apply hwp_bind. eapply hwp_mono; [apply (duplicate_item F l nl c h); [|apply Hg|done|done|done|done]|].
  { intros h0' h' a' n' done' ds' ? ? ? ? ? ?. apply (IHc F (S F)); [done..|lia|lia|done]. }
  intros [k|] h2 [Ha2 Hr].
  2: { destruct Hr as (Hne & Hi & Hs & Hf). apply (duplicate_fail h0 h h2 a done); auto. }
  destruct Hr as (c' & G2 & Hcont). apply hwp_bind, (hwp_link h0 h h2 a done k c'); [done|done|].
  pose proof (grown_append h0 h h2 a k done c' Hg G2) as G3. set (h3 := put h2 _) in *.
  apply hwp_bind, (hwp_deref l nl); [by rewrite (grown_old_item h0 h3 _ l Hok G3) by (by eexists)|]. rewrite Hnx.
  rewrite <- (end_of_snoc None done k c').
  eapply hwp_mono; [apply (IHx (S F) fuel h0 h3 a n (snoc done k c') (ds ++ map plain (value_of h0 l (contents h0 c))));
    [done|done| | |done|lia|lia|]|].
  - intros cs. rewrite <- Hv. apply (append_value h0 h h2 a k done c' Hg G2).
  - rewrite <- Hval, <- Hcont, <- Hds. apply (append_contents h0 h h2 a k done c' Hg G2).
  - intros E. cbn. auto.
  - cbn [contents]. by rewrite map_app, app_assoc.
Qed.

(** C10: cJSON_Duplicate of a tree builds a tree of new items and new strings, doubly
    linked and without references, whose value is that of the original, children of
    references included; everything that was there stays as it was.  When an allocation
    fails it returns NULL and has released all that it allocated. *)
Theorem cJSON_Duplicate_copies l c x h :
  heap_ok h -> source h (Cell l c x) -> NoDup (l :: locs c) ->
  hwp (cJSON_Duplicate (Some l) true) (fun r h' =>
    match r with
    | Some k => exists c', grown h h' (Cell k c' Nil) /\
                  contents h' (Cell k c' Nil) = map plain (contents h (Cell l c Nil))
    | None => hp_alloc h <> [] /\ hp_items h' = hp_items h /\ hp_strings h' = hp_strings h
    end) h.
Proof.
  intros Hok (n & Hn & _ & Hc & Hv & Hs & Hsc & _) Hnd. unfold cJSON_Duplicate. apply hwp_fuel.
  assert (length (l :: locs c) <= size (hp_items h))%nat as Hsz.
  { apply nodes_bound; [done|]. intros k [->|Hk]%elem_of_cons; [by eexists|]. clear -Hsc Hk.
    induction c as [|u d IHd y IHy]; [by apply not_elem_of_nil in Hk|]. destruct Hsc as (n & Hn & _ & _ & _ & _ & Hd & Hy).
    cbn in Hk. apply elem_of_cons in Hk as [->|[Hk|Hk]%elem_of_app]; [by eexists|auto..]. }
  cbn [length] in Hsz. eapply hwp_mono.
  - apply (duplicate_item (size (hp_items h)) l n c h); [|done|done|done|intros s [?|?]; auto|done].
    intros h0 h' a n' done ds ? ? ? ? ? ?. apply duplicate_loop_spec; [done..|lia|lia|done].
  - intros [k|] h' [_ Hr]; [|by destruct Hr as (? & ? & ? & _)].
    destruct Hr as (c' & Hg & Hcont). exists c'. split; [done|]. rewrite Hcont. cbn [contents]. by rewrite app_nil_r.
Qed.

(** * Replacement *)

(** The chain after [y] took the place of [x]. *)
Lemma seg_replace m l1 x l2 y ny :
  NoDup (l1 ++ x :: l2) -> y ∉ l1 ++ x :: l2 -> seg m None (l1 ++ x :: l2) None ->
  m !! y = Some ny -> n_prev ny = final None l1 -> n_next ny = first l2 None ->
  seg (alter_opt (with_next (Some y)) (final None l1) (alter_opt (with_prev (Some y)) (first l2 None) m))
    None (l1 ++ y :: l2) None.
Proof.
  intros (Hn1 & Hd & [Hx Hn2]%NoDup_cons)%NoDup_app Hy (n & _ & _ & _ & Hs1 & Hs2)%seg_middle Hny Hp Hnx. apply seg_app. split.
  - eapply seg_new_next; [done|]. apply seg_other_opt; [|done]. intros l Hl%first_in Hi. apply (Hd l Hi). set_solver.
  - exists ny. rewrite !alter_opt_ne by (first [intros ?%first_in|intros ?%final_in]; set_solver). split_and!; [done..|].
    apply seg_other_opt; [intros l Hl%final_in Hi; apply (Hd l Hl); set_solver|]. by eapply seg_new_prev.
Qed.

Lemma children_agree m m' p ls : (forall l, l ∈ p :: ls -> m' !! l = m !! l) -> children m p ls -> children m' p ls.
Proof.
  intros Hag [(n & Hn & Hc) Hs Hnd]. split; [exists n; by rewrite Hag by set_solver| |done].
  eapply seg_links; [|exact Hs]. intros l k Hl Hk. exists k. rewrite Hag by set_solver. done.
Qed.

(** The relinking of cJSON_ReplaceItemViaPointer, before the old item is deleted. *)
Lemma replace_links p l1 x l2 y (Q : bool -> heap -> Prop) h :
  children (hp_items h) p (l1 ++ x :: l2) -> is_Some (hp_items h !! y) -> y ∉ p :: l1 ++ x :: l2 ->
  (forall m', children m' p (l1 ++ y :: l2) -> loose m' x -> kept p (y :: l1 ++ x :: l2) (hp_items h) m' ->
     hwp (cJSON_Delete (Some x) ;;* hret true) Q (put h m')) ->
  hwp (cJSON_ReplaceItemViaPointer (Some p) (Some x) (Some y)) Q h.
Proof.
  intros Hc [ny Hny] Hyn HQ. pose proof (children_middle _ _ _ _ _ Hc) as (Hpx & Hp1 & Hp2 & Hx1 & Hx2 & Hnd & Hnd' & F1 & F2 & F3 & F4).
  destruct Hc as [(np & Hnp & Hch) Hs Hndp]. pose proof (seg_middle _ _ _ _ Hs) as (n & Hn & Hnprev & Hnnext & Hs1 & Hs2).
  pose proof Hyn as [Hyp Hyl]%not_elem_of_cons. assert (y <> x) as Hyx by set_solver.
  cbn [cJSON_ReplaceItemViaPointer]. rewrite bool_decide_eq_false_2 by congruence.
  apply hwp_bind, (hwp_deref x n); [done|]. rewrite Hnnext. apply hwp_bind, hwp_update; [by eexists|]. cbn [put hp_items with_items].
  apply hwp_bind, (hwp_deref x n); [cbn; by rewrite lookup_alter_ne|]. rewrite Hnprev.
  apply hwp_bind, hwp_update; [cbn; rewrite lookup_alter_eq, Hny; by eexists|]. cbn [put hp_items with_items].
  set (ny' := with_prev (final None l1) (with_next (first l2 None) ny)). set (m1 := alter _ y (alter _ y (hp_items h))).
  assert (m1 !! y = Some ny') as Hy1 by (unfold m1; by rewrite !lookup_alter_eq, Hny).
  assert (forall l, l <> y -> m1 !! l = hp_items h !! l) as Hm1 by (intros; unfold m1; by rewrite !lookup_alter_ne).
  assert (seg m1 None (l1 ++ x :: l2) None) as Hs' by (unfold m1; do 2 (apply seg_other; [done|]); done).
  pose proof (seg_replace m1 l1 x l2 y ny' Hnd Hyl Hs' Hy1 eq_refl eq_refl) as Hrep.
  apply hwp_bind, (hwp_deref y ny'); [done|]. cbn [n_next n_prev ny' with_prev with_next].
  apply hwp_bind, hwp_update_opt.
  { intros l Hl%first_in. cbn. rewrite Hm1 by set_solver. by apply (seg_lookup _ _ _ _ _ Hs2). }
  cbn [put hp_items with_items]. set (m2 := alter_opt _ _ m1) in *.
  assert (m2 !! y = Some ny') as Hy2 by (unfold m2; rewrite alter_opt_ne; [done|intros ?%first_in; set_solver]).
  apply hwp_bind, (hwp_deref y ny'); [done|]. cbn [n_next n_prev ny' with_prev with_next].
  apply hwp_bind, hwp_update_opt.
  { intros l Hl%final_in. cbn. eapply (kept_some p l2 m1).
    - unfold m2. apply kept_alter_opt; [done..|]. by intros u ?%first_in.
    - rewrite Hm1 by set_solver. by apply (seg_lookup _ _ _ _ _ Hs1). }
  cbn [put hp_items with_items]. set (m3 := alter_opt _ _ m2) in *.
  assert (m3 !! p = Some np) as Hp3 by (unfold m3, m2; rewrite !alter_opt_ne, Hm1; congruence).
  assert (m3 !! x = Some n) as Hx3 by (unfold m3, m2; rewrite !alter_opt_ne, Hm1; congruence).
  assert (kept p (y :: l1 ++ x :: l2) (hp_items h) m3) as Hk3.
  { apply (kept_trans _ _ _ m2); [apply (kept_trans _ _ _ m1)|].
    - unfold m1. do 2 (apply kept_step; [|done|right; split; [set_solver|done]]). apply kept_refl.
    - apply kept_alter_opt; [done..|]. intros l ?%first_in. set_solver.
    - apply kept_alter_opt; [done..|]. intros l ?%final_in. set_solver. }
  apply hwp_bind, (hwp_deref p np); [done|]. apply hwp_bind.
  replace (bool_decide (n_child np = Some x)) with (bool_decide (Some x = n_child np)) by (apply bool_decide_ext; naive_solver).
  apply (relink_child p np _ l1 x l2); [done..|]. cbn [hp_items put with_items]. intros m4 np' Hm4 Hp4 Hch4. rewrite ?put_put.
  assert (m4 !! x = Some n) as Hx4 by (destruct Hm4 as [->| ->]; [done|by rewrite lookup_alter_ne]).
  apply hwp_bind, hwp_update; [cbn; by eexists|]. apply hwp_bind, hwp_update; [cbn; rewrite lookup_alter_eq, Hx4; by eexists|].
  cbn [hp_items put with_items]. apply HQ.
  - apply (children_intro _ _ _ np'); [by rewrite !lookup_alter_ne|by rewrite first_app| |].
    + do 2 (apply seg_other; [set_solver|]). destruct Hm4 as [->| ->]; [done|]. by apply seg_data.
    + apply NoDup_cons in Hnd' as [? Hnn]. apply NoDup_cons. split; [set_solver|]. rewrite <- Permutation_middle.
      apply NoDup_cons. split; [set_solver|done].
  - exists (with_prev None (with_next None n)). by rewrite !lookup_alter_eq, Hx4.
  - do 2 (apply kept_step; [|done|right; split; [set_solver|done]]). eapply kept_trans; [exact Hk3|].
    destruct Hm4 as [->| ->]; [apply kept_refl|]. apply kept_alter; [done|by left].
Qed.

(** C11: cJSON_ReplaceItemViaPointer puts the replacement in the place of the item, keeps
    the other elements and their order, and releases the item with its children and
    strings, each once, and nothing else. *)
Theorem cJSON_Replace_spec p l1 x l2 y nx c h :
  children (hp_items h) p (l1 ++ x :: l2) -> is_Some (hp_items h !! y) -> y ∉ p :: l1 ++ x :: l2 ->
  hp_items h !! x = Some nx -> (if has_flag nx cJSON_IsReference then c = Nil else n_child nx = root c) ->
  owns (hp_items h) c -> NoDup (locs c) -> (forall l, l ∈ locs c -> l ∉ p :: y :: l1 ++ x :: l2) ->
  NoDup (strs (hp_items h) (Cell x c Nil)) ->
  (forall l, l ∈ strs (hp_items h) (Cell x c Nil) -> is_Some (hp_strings h !! l)) ->
  hwp (cJSON_ReplaceItemViaPointer (Some p) (Some x) (Some y)) (fun ok h' =>
    ok = true /\ children (hp_items h') p (l1 ++ y :: l2) /\
    (forall l, l ∈ x :: locs c -> hp_items h' !! l = None) /\
    (forall l, l ∉ x :: locs c -> data <$> hp_items h' !! l = data <$> hp_items h !! l) /\
    hp_strings h' = delete_all (strs (hp_items h) (Cell x c Nil)) (hp_strings h)) h.
Proof.
  intros Hc Hy Hyn Hx Href Ho Hnd Hap Hns Hlive. pose proof (children_middle _ _ _ _ _ Hc) as (Hpx & Hp1 & Hp2 & Hx1 & Hx2 & _).
  apply (replace_links p l1 x l2 y); [done..|]. intros m' Hc' (nx' & Hx' & Hxp & Hxn) [Hko Hkd Hkc]. apply hwp_bind.
  pose proof (strs_data (hp_items h) m' (Cell x c Nil) Hkd) as Hst.
  assert (owns m' (Cell x c Nil)) as Ho'.
  { exists nx'. pose proof (Hkd x) as Hd. pose proof (Hkc x ltac:(done)) as Hch. rewrite Hx, Hx' in Hd, Hch. cbn in Hd, Hch.
    unfold data in Hd. injection Hd as Ht _ _ _ _. injection Hch as Hch. unfold has_flag in *. rewrite Ht, Hch.
    split_and!; try done. eapply owns_agree; [|exact Ho]. intros l Hl. specialize (Hap l Hl). apply Hko; set_solver. }
  assert (NoDup (locs (Cell x c Nil))) as Hnd'.
  { cbn. rewrite app_nil_r. apply NoDup_cons. split; [|done]. intros Hi. specialize (Hap x Hi). set_solver. }
  eapply hwp_mono; [apply (delete_run (Cell x c Nil) (put h m')); cbn [hp_items hp_strings put with_items];
    [done|done|by rewrite Hst|by rewrite Hst]|].
  intros [] h' [Fi Fs _ _]. cbn [hp_items hp_strings put with_items] in Fi, Fs. rewrite Hst in Fs. apply hwp_ret.
  cbn [locs] in Fi. rewrite app_nil_r in Fi. split_and!; [done| | | |done].
  - rewrite Fi. eapply children_agree; [|exact Hc']. intros l Hl. apply delete_all_out. intros Hi.
    apply elem_of_cons in Hi as [->|Hi]; [set_solver|]. specialize (Hap l Hi). set_solver.
  - intros l Hl. rewrite Fi. by apply delete_all_in.
  - intros l Hl. by rewrite Fi, delete_all_out.
Qed.

(** * Examples *)

Definition tree_items : gmap Z node :=
  <[1 := with_child (Some 2) (with_type cJSON_Array zero_node)]>
    (<[2 := with_next (Some 3) (with_valuestring (Some 10) (with_type cJSON_String zero_node))]>
      (<[3 := with_prev (Some 2) (with_type cJSON_True zero_node)]>
        (<[4 := with_type cJSON_NULL zero_node]> ∅))).

(** An array of a string and true, and a further item. *)
Definition tree_heap : heap := mk_heap tree_items {[10 := [97; 98]]} 100 [].

Definition tree_shape : shape := Cell 1 (Cell 2 Nil (Cell 3 Nil Nil)) Nil.

Lemma tree_heap_ok : heap_ok tree_heap.
Proof.
  split; cbn; intros l Hl.
  - unfold tree_items in Hl. rewrite !lookup_insert_is_Some, lookup_empty in Hl.
    destruct Hl as [?|[_ [?|[_ [?|[_ [?|[_ [? ?]]]]]]]]]; [lia..|done].
  - apply lookup_singleton_is_Some in Hl. lia.
Qed.

Ltac heap_facts :=
  try unfold tree_shape; cbn [owns source seg root first app];
  repeat match goal with
  | |- if ?b then _ else _ => let v := eval vm_compute in b in change b with v; cbv iota
  | |- exists _, _ => eexists
  | |- _ /\ _ => split
  | |- True => exact I
  | |- _ = _ => reflexivity
  | |- forall k, _ = Some k -> _ => let k := fresh in let E := fresh in intros k E; try discriminate E; injection E as <-
  | |- is_Some _ => eexists
  end.

Lemma cJSON_Delete_frees_witness :
  hwp (cJSON_Delete (Some 1)) (fun _ h' => freed tree_heap h' [1; 2; 3] [10]) tree_heap.
Proof.
  apply (cJSON_Delete_frees tree_shape tree_heap).
  - heap_facts.
  - apply (bool_decide_unpack _). vm_compute. exact I.
  - apply (bool_decide_unpack _). vm_compute. exact I.
  - intros l Hl. assert (strs (hp_items tree_heap) tree_shape = [10]) as Hst by reflexivity. rewrite Hst in Hl.
    apply elem_of_cons in Hl as [->|Hl%not_elem_of_nil]; [eexists; reflexivity|destruct Hl].
Defined.

Lemma cJSON_Duplicate_copies_witness :
  hwp (cJSON_Duplicate (Some 1) true) (fun r h' => exists k c', r = Some k /\ grown tree_heap h' (Cell k c' Nil) /\
    contents h' (Cell k c' Nil) = contents tree_heap tree_shape) tree_heap.
Proof.
  eapply hwp_mono; [apply (cJSON_Duplicate_copies 1 (Cell 2 Nil (Cell 3 Nil Nil)) Nil tree_heap)|].
  - exact tree_heap_ok.
  - heap_facts.
  - apply (bool_decide_unpack _). vm_compute. exact I.
  - intros [k|] h' Hr; [|destruct Hr as [Hr _]; destruct (Hr eq_refl)]. destruct Hr as (c' & Hg & Hcont).
    exists k, c'. split; [reflexivity|]. split; [exact Hg|]. rewrite Hcont. reflexivity.
Defined.

Lemma cJSON_Replace_spec_witness :
  hwp (cJSON_ReplaceItemViaPointer (Some 1) (Some 2) (Some 4)) (fun ok h' =>
    ok = true /\ children (hp_items h') 1 [4; 3] /\ hp_items h' !! 2 = None) tree_heap.
Proof.
  eapply hwp_mono; [apply (cJSON_Replace_spec 1 [] 2 [3] 4
    (with_next (Some 3) (with_valuestring (Some 10) (with_type cJSON_String zero_node))) Nil tree_heap)|].
  - split; [heap_facts|heap_facts|apply (bool_decide_unpack _); vm_compute; exact I].
  - heap_facts.
  - apply (bool_decide_unpack _). vm_compute. exact I.
  - reflexivity.
  - reflexivity.
  - exact I.
  - constructor.
  - intros l Hl. apply not_elem_of_nil in Hl. destruct Hl.
  - apply (bool_decide_unpack _). vm_compute. exact I.
  - intros l Hl. assert (strs (hp_items tree_heap) (Cell 2 Nil Nil) = [10]) as Hst by reflexivity. rewrite Hst in Hl.
    apply elem_of_cons in Hl as [->|Hl%not_elem_of_nil]; [eexists; reflexivity|destruct Hl].
  - intros ok h' (-> & Hc & Hnone & _). split; [reflexivity|]. split; [exact Hc|]. apply Hnone. set_solver.
Defined.
