(* ===== verification/CJsonMinify.v ===== *)
(** cjson.c: cJSON_Minify, which removes the white space and the comments of a text in
    place, and that it turns the formatted text of an item into the unformatted one. *)
From Stdlib Require Import Strings.String.
From S2P Require Import Prelude CMonad CDouble CText CDoubleProps CJson CJsonPrint CJsonPrintProps CJsonRoundTrip.

(** * The function *)

(** [*into = c], inside of the text. *)
Definition write_char (buf : list Z) (into c : Z) : M (list Z) :=
  if (0 <=? into) && (into <? zlen buf) then ret (<[Z.to_nat into := c]> buf) else ub.

(** The end of a comment to the end of the line. *)
Fixpoint line_comment (fuel : nat) (buf : list Z) (json : Z) : M Z :=
  match fuel with
  | O => no_fuel
  | S fuel =>
      let! c := char_at buf json in
      if (c =? 0) || (c =? 10) then ret json else line_comment fuel buf (json + 1)
  end.

(** The end of a comment of several lines. *)
Fixpoint block_comment (fuel : nat) (buf : list Z) (json : Z) : M Z :=
  match fuel with
  | O => no_fuel
  | S fuel =>
      let! c := char_at buf json in
      if c =? 0 then ret json else
      let! close := (if c =? 42 then let! d := char_at buf (json + 1) in ret (d =? 47) else ret false) in
      if close : bool then ret json else block_comment fuel buf (json + 1)
  end.

(** The characters of a string literal up to its closing quote. *)
Fixpoint string_chars (fuel : nat) (buf : list Z) (json into : Z) : M (list Z * Z * Z) :=
  match fuel with
  | O => no_fuel
  | S fuel =>
      let! c := char_at buf json in
      if (c =? 0) || (c =? c_quote) then ret (buf, json, into) else
      let! (buf, json, into) :=
        (if c =? c_backslash then let! buf := write_char buf into c in ret (buf, json + 1, into + 1)
         else ret (buf, json, into)) in
      let! c := char_at buf json in
      let! buf := write_char buf into c in
      string_chars fuel buf (json + 1) (into + 1)
  end.

Fixpoint minify_loop (fuel : nat) (buf : list Z) (json into : Z) : M (list Z) :=
  match fuel with
  | O => no_fuel
  | S fuel =>
      let! c := char_at buf json in
      if c =? 0 then write_char buf into 0
      else if (c =? 32) || (c =? 9) || (c =? 13) || (c =? 10) then minify_loop fuel buf (json + 1) into
      else
        let! d := (if c =? 47 then char_at buf (json + 1) else ret 0) in
        if (c =? 47) && (d =? 47) then
          let! json := line_comment (S (length buf)) buf json in minify_loop fuel buf json into
        else if (c =? 47) && (d =? 42) then
          let! json := block_comment (S (length buf)) buf json in minify_loop fuel buf (json + 2) into
        else if c =? c_quote then
          let! buf := write_char buf into c in
          let! (buf, json, into) := string_chars (S (length buf)) buf (json + 1) (into + 1) in
          let! c := char_at buf json in
          let! buf := write_char buf into c in
          minify_loop fuel buf (json + 1) (into + 1)
        else
          let! buf := write_char buf into c in
          minify_loop fuel buf (json + 1) (into + 1)
  end.

Definition cJSON_Minify (json : option (list Z)) : M (option (list Z)) :=
  match json with
  | None => ret None
  | Some buf => let! buf := minify_loop (S (length buf)) buf 0 0 in ret (Some buf)
  end.

(** * Runs *)

(** The state: the text that was written, the bytes that were passed over, the rest. *)
Definition layout (out gap rest : list Z) : list Z := out ++ gap ++ rest.

Definition json_at (out gap : list Z) : Z := zlen out + zlen gap.

Lemma char_at_layout out gap c rest w : char_at (layout out gap (c :: rest)) (json_at out gap) w = Ok (c, w).
Proof.
  unfold char_at, layout, json_at. pose proof (zlen_nonneg out). pose proof (zlen_nonneg gap).
  rewrite (proj2 (Z.leb_le 0 _)) by lia. rewrite app_assoc, lookup_app_r by (unfold zlen; rewrite length_app; lia).
  by replace (_ - _)%nat with 0%nat by (unfold zlen; rewrite length_app; lia).
Qed.

(** Copying a character: it is written over the first byte of the gap, or over itself. *)
Lemma copy_char out gap c rest w :
  exists gap', length gap' = length gap /\
    write_char (layout out gap (c :: rest)) (zlen out) c w = Ok (layout (out ++ [c]) gap' rest, w).
Proof.
  assert (exists x gap', gap ++ c :: rest = x :: gap' ++ rest /\ length gap' = length gap) as (x & gap' & Hg & Hl).
  { destruct gap as [|x gap]; [by exists c, []|]. exists x, (gap ++ [c]). cbn. rewrite <- app_assoc, length_app. cbn. split; [done|lia]. }
  exists gap'. split; [done|]. unfold write_char, layout. rewrite Hg. pose proof (zlen_nonneg out).
  rewrite (proj2 (Z.leb_le 0 _)) by done. rewrite (proj2 (Z.ltb_lt _ _)) by (unfold zlen; rewrite length_app; cbn; lia). cbn [andb]. unfold ret. do 2 f_equal.
  replace (Z.to_nat (zlen out)) with (length out + 0)%nat by (unfold zlen; lia). by rewrite insert_app_r, <- app_assoc.
Qed.

(** The loop takes [t] and writes [u]. *)
Definition minifies (t u : list Z) : Prop := forall fuel out gap rest w,
  (length (t ++ rest) < fuel)%nat ->
  exists fuel' gap', (length rest < fuel')%nat /\ zlen gap' = zlen gap + zlen t - zlen u /\
    minify_loop fuel (layout out gap (t ++ rest)) (json_at out gap) (zlen out) w
    = minify_loop fuel' (layout (out ++ u) gap' rest) (json_at (out ++ u) gap') (zlen (out ++ u)) w.

Lemma minifies_nil : minifies [] [].
Proof. intros fuel out gap rest w Hf. exists fuel, gap. rewrite app_nil_r. cbn [app] in *. split_and!; [done|zl|done]. Qed.

Lemma minifies_app t1 u1 t2 u2 : minifies t1 u1 -> minifies t2 u2 -> minifies (t1 ++ t2) (u1 ++ u2).
Proof.
  intros H1 H2 fuel out gap rest w Hf. rewrite <- app_assoc in *. destruct (H1 fuel out gap (t2 ++ rest) w Hf) as (f1 & g1 & Hf1 & Hg1 & ->).
  destruct (H2 f1 (out ++ u1) g1 rest w Hf1) as (f2 & g2 & Hf2 & Hg2 & ->). exists f2, g2. rewrite !app_assoc.
  split_and!; [done|rewrite !zlen_app; lia|done].
Qed.

(** Skipping and copying one character. *)
Lemma minifies_space c : c = 32 \/ c = 9 \/ c = 13 \/ c = 10 -> minifies [c] [].
Proof.
  intros Hc fuel out gap rest w Hf. destruct fuel as [|fuel]; [lia|]. exists fuel, (gap ++ [c]). cbn [app length] in *.
  split; [lia|]. split; [rewrite zlen_app; change (zlen []) with 0; lia|]. cbn [minify_loop].
  rewrite (bind_step _ _ _ _ _ (char_at_layout _ _ _ _ w)), app_nil_r.
  assert (layout out (gap ++ [c]) rest = layout out gap (c :: rest)) as -> by (unfold layout; by rewrite <- !app_assoc).
  assert (json_at out (gap ++ [c]) = json_at out gap + 1) as -> by (unfold json_at; zl).
  by destruct Hc as [->|[->|[->| ->]]].
Qed.

Definition plain_char (c : Z) : Prop := 32 < c /\ c <> 34 /\ c <> 47.

Lemma minifies_char c : plain_char c -> minifies [c] [c].
Proof.
  intros (H1 & H2 & H3) fuel out gap rest w Hf. destruct fuel as [|fuel]; [lia|].
  destruct (copy_char out gap c rest w) as (gap' & Hl & Hw). exists fuel, gap'. cbn [app length] in *. split; [lia|].
  split; [unfold zlen; rewrite Hl; lia|]. cbn [minify_loop]. rewrite (bind_step _ _ _ _ _ (char_at_layout _ _ _ _ w)).
  repeat (rewrite (proj2 (Z.eqb_neq c _)) by lia). cbn [orb andb].
  rewrite (bind_step _ _ _ _ _ eq_refl), (bind_step _ _ _ _ _ Hw). f_equal.
  - unfold json_at. rewrite zlen_app. unfold zlen. rewrite Hl. cbn. lia.
  - by rewrite zlen_app.
Qed.

Lemma minifies_plain t : Forall plain_char t -> minifies t t.
Proof.
  induction 1 as [|c t Hc _ IH]; [apply minifies_nil|]. apply (minifies_app [c] [c] t t); [by apply minifies_char|done].
Qed.

(** ** String literals *)

(** The loop over a literal copies [t]. *)
Definition copies (t : list Z) : Prop := forall fuel out gap rest w,
  (length (t ++ rest) < fuel)%nat ->
  exists fuel' gap', (length rest < fuel')%nat /\ length gap' = length gap /\
    string_chars fuel (layout out gap (t ++ rest)) (json_at out gap) (zlen out) w
    = string_chars fuel' (layout (out ++ t) gap' rest) (json_at (out ++ t) gap') (zlen (out ++ t)) w.

Lemma copies_nil : copies [].
Proof. intros fuel out gap rest w Hf. exists fuel, gap. by rewrite app_nil_r. Qed.

Lemma copies_app t1 t2 : copies t1 -> copies t2 -> copies (t1 ++ t2).
Proof.
  intros H1 H2 fuel out gap rest w Hf. rewrite <- app_assoc in *. destruct (H1 fuel out gap (t2 ++ rest) w Hf) as (f1 & g1 & Hf1 & Hg1 & ->).
  destruct (H2 f1 (out ++ t1) g1 rest w Hf1) as (f2 & g2 & Hf2 & Hg2 & ->). exists f2, g2. rewrite !app_assoc.
  split_and!; [done|congruence|done].
Qed.

Lemma json_copied out c (gap gap' : list Z) : length gap' = length gap -> json_at out gap + 1 = json_at (out ++ [c]) gap'.
Proof. intros Hl. unfold json_at. rewrite zlen_app. unfold zlen. rewrite Hl. cbn. lia. Qed.

Lemma into_copied (out : list Z) c : zlen out + 1 = zlen (out ++ [c]).
Proof. by rewrite zlen_app. Qed.

Lemma copies_char c : c <> 0 -> c <> 34 -> c <> 92 -> copies [c].
Proof.
  intros H1 H2 H3 fuel out gap rest w Hf. destruct fuel as [|fuel]; [lia|].
  destruct (copy_char out gap c rest w) as (gap' & Hl & Hw). exists fuel, gap'. cbn [app length] in *. split_and!; [lia|done|].
  cbn [string_chars]. rewrite (bind_step _ _ _ _ _ (char_at_layout _ _ _ _ w)).
  repeat (rewrite (proj2 (Z.eqb_neq c _)) by lia). cbn [orb]. rewrite (bind_step _ _ _ _ _ eq_refl). cbn beta iota.
  rewrite (bind_step _ _ _ _ _ (char_at_layout _ _ _ _ w)), (bind_step _ _ _ _ _ Hw).
  by rewrite (json_copied out c gap gap'), (into_copied out c).
Qed.

Lemma copies_escape x : copies [92; x].
Proof.
  intros fuel out gap rest w Hf. destruct fuel as [|fuel]; [lia|].
  destruct (copy_char out gap 92 (x :: rest) w) as (g1 & Hl1 & Hw1).
  destruct (copy_char (out ++ [92]) g1 x rest w) as (g2 & Hl2 & Hw2). exists fuel, g2. cbn [app length] in *.
  split_and!; [lia|congruence|]. cbn [string_chars]. rewrite (bind_step _ _ _ _ _ (char_at_layout _ _ _ _ w)). cbn [Z.eqb Pos.eqb orb].
  rewrite (bind_step _ _ _ (layout (out ++ [92]) g1 (x :: rest), json_at out gap + 1, zlen out + 1) w)
    by (by rewrite (bind_step _ _ _ _ _ Hw1)).
  cbn beta iota. rewrite (json_copied out 92 gap g1), (into_copied out 92) by done.
  rewrite (bind_step _ _ _ _ _ (char_at_layout _ _ _ _ w)), (bind_step _ _ _ _ _ Hw2).
  by rewrite (json_copied _ x g1 g2), (into_copied _ x), <- app_assoc.
Qed.

Lemma copies_escaped l : Forall char_ok l -> copies (escaped l).
Proof.
  induction 1 as [|c l Hc _ IH]; [apply copies_nil|]. rewrite escaped_cons. apply copies_app; [|done].
  destruct (escape_cases c Hc) as [(H1 & H2 & ->)|[(x & -> & _)|(Hlt & ->)]].
  - apply copies_char; [|done..]. unfold char_ok in Hc. lia.
  - apply copies_escape.
  - unfold char_ok in Hc. pose proof (Z.mod_pos_bound c 16 ltac:(lia)). pose proof (Z.div_pos c 16 ltac:(lia) ltac:(lia)).
    assert (c / 16 < 16) by (apply Z.div_lt_upper_bound; lia).
    assert (forall d, 0 <= d < 16 -> copies [hex_char d]) as Hhex.
    { intros d Hd. destruct (hex_char_plain d Hd). apply copies_char; [|done..]. unfold hex_char. case_match; lia. }
    change (92 :: sprintf_u c) with ([92; 117] ++ [48] ++ [48] ++ [hex_char (c / 16)] ++ [hex_char (c mod 16)]).
    repeat apply copies_app; [apply copies_escape|by apply copies_char|by apply copies_char|by apply Hhex..].
Qed.

Lemma minifies_literal t : copies t -> minifies (34 :: t ++ [34]) (34 :: t ++ [34]).
Proof.
  intros Ht fuel out gap rest w Hf. destruct fuel as [|fuel]; [lia|]. cbn [app length] in Hf |- *. rewrite <- app_assoc in Hf |- *.
  cbn [app] in Hf |- *. destruct (copy_char out gap 34 (t ++ 34 :: rest) w) as (g1 & Hl1 & Hw1).
  set (b1 := layout (out ++ [34]) g1 (t ++ 34 :: rest)) in *.
  destruct (Ht (S (length b1)) (out ++ [34]) g1 (34 :: rest) w) as (f2 & g2 & Hf2 & Hl2 & Hrun).
  { unfold b1, layout. rewrite !length_app. lia. }
  destruct (copy_char ((out ++ [34]) ++ t) g2 34 rest w) as (g3 & Hl3 & Hw3).
  exists fuel, g3. split; [rewrite length_app in Hf; cbn in Hf; lia|]. split; [unfold zlen; rewrite Hl3, Hl2, Hl1; lia|].
  cbn [minify_loop]. rewrite (bind_step _ _ _ _ _ (char_at_layout _ _ _ _ w)). cbn [Z.eqb Pos.eqb orb andb].
  rewrite (bind_step _ _ _ _ _ eq_refl), (bind_step _ _ _ _ _ Hw1). fold b1.
  rewrite (json_copied out 34 gap g1), (into_copied out 34) by done.
  erewrite bind_step.
  2: { unfold b1 at 2. rewrite Hrun. destruct f2 as [|f2]; [cbn in Hf2; lia|]. cbn [string_chars].
       rewrite (bind_step _ _ _ _ _ (char_at_layout _ _ _ _ w)). reflexivity. }
  cbn beta iota. rewrite (bind_step _ _ _ _ _ (char_at_layout _ _ _ _ w)), (bind_step _ _ _ _ _ Hw3).
  rewrite (json_copied _ 34 g2 g3), (into_copied _ 34) by done. by rewrite <- !app_assoc.
Qed.

Lemma minifies_quoted s : Forall byte_ok (default [] s) -> minifies (quoted s) (quoted s).
Proof.
  intros Hs. unfold quoted. apply minifies_literal, copies_escaped. apply c_string_pos in Hs as [Hb Hp].
  rewrite Forall_forall in Hb, Hp |- *. intros c Hc. specialize (Hb c Hc). specialize (Hp c Hc). unfold byte_ok in Hb. split; lia.
Qed.

(** * The text of an item *)

Lemma minifies_spaces t : Forall (fun c => c = 32 \/ c = 9 \/ c = 13 \/ c = 10) t -> minifies t [].
Proof.
  induction 1 as [|c t Hc _ IH]; [apply minifies_nil|]. apply (minifies_app [c] [] t []); [by apply minifies_space|done].
Qed.

Lemma minifies_tabs n : minifies (replicate n 9) [].
Proof. apply minifies_spaces, Forall_replicate. auto. Qed.

Section Items.
Context (rt rf : cJSON -> option (list Z)).

(** The formatted and the unformatted text of [i]. *)
Definition shrinks (i : cJSON) : Prop := forall t, rt i = Some t -> exists u, rf i = Some u /\ minifies t u.

Lemma elements_shrink l t :
  Forall shrinks l -> render_elements true rt l = Some t -> exists u, render_elements false rf l = Some u /\ minifies t u.
Proof.
  intros Hl. revert t. induction Hl as [|x l Hx _ IH]; intros t; cbn [render_elements].
  { intros [= <-]. exists []. split; [done|apply minifies_nil]. }
  destruct (rt x) as [tx|] eqn:Ex; [|done]. destruct (Hx tx Ex) as (ux & -> & Hmx). cbn [mbind option_bind].
  destruct l as [|y l]; [intros [= <-]; by exists ux|].
  destruct (render_elements true rt (y :: l)) as [s|]; [|done]. destruct (IH s eq_refl) as (us & -> & Hms). cbn [mbind option_bind].
  intros E. apply (inj Some) in E as <-. eexists. split; [done|]. apply minifies_app; [done|]. apply minifies_app; [|done].
  apply (minifies_app [44] [44] [32] []); [by apply minifies_char|apply minifies_space; auto].
Qed.

Lemma members_shrink j k l t :
  Forall shrinks l -> Forall (fun i => Forall byte_ok (default [] (cj_string i))) l ->
  render_members true rt j l = Some t -> exists u, render_members false rf k l = Some u /\ minifies t u.
Proof.
  intros Hl. revert t. induction Hl as [|x l Hx _ IH]; intros t Hk; cbn [render_members].
  { intros [= <-]. exists []. split; [done|apply minifies_nil]. }
  apply Forall_cons in Hk as [Hkx Hk]. destruct (rt x) as [tx|] eqn:Ex; [|done]. destruct (Hx tx Ex) as (ux & -> & Hmx).
  cbn [mbind option_bind]. destruct (render_members true rt j l) as [s|]; [|done]. destruct (IH s Hk eq_refl) as (us & -> & Hms).
  cbn [mbind option_bind]. intros E. apply (inj Some) in E as <-. eexists. split; [done|].
  repeat apply minifies_app; try done.
  - apply minifies_tabs.
  - by apply minifies_quoted.
  - apply (minifies_app [58] [58] [9] []); [by apply minifies_char|apply minifies_space; auto].
  - destruct l; [apply minifies_nil|by apply minifies_char].
  - apply minifies_space. auto.
Qed.
End Items.

(** Items without raw texts. *)
Definition no_raw (i : cJSON) : Prop := node_ok i /\ Z.land (cj_type i) 0xFF <> cJSON_Raw.

Lemma number_text_plain d : double_ok d -> Forall plain_char (number_text d).
Proof.
  intros Hok. destruct (is_finite d) eqn:Hf.
  - rewrite number_text_shortest by done. destruct (shortest_num d Hok Hf) as [Hn _]. eapply Forall_impl; [exact Hn|].
    intros c. unfold num_char, isdigit, plain_char. rewrite !orb_true_iff, andb_true_iff, !Z.leb_le, !Z.eqb_eq. lia.
  - unfold number_text. rewrite Hf. by repeat constructor.
Qed.

Lemma render_minifies j k i t :
  tree no_raw i -> render true j i = Some t -> exists u, render false k i = Some u /\ minifies t u.
Proof.
  revert j k t. induction i as [ty v n db s c IH] using cJSON_nested_ind. intros j k t Hi.
  apply tree_inv in Hi as [[(Hd & Hv & _) Hraw] Hc]. cbn in Hd, Hv, Hc, Hraw. cbn [render].
  assert (forall a b, Forall (shrinks (render true a) (render false b)) c) as Hch.
  { intros a b. rewrite Forall_forall in IH, Hc |- *. intros x Hx t' Ht'. by apply (IH x Hx a b t' (Hc x Hx)). }
  assert (Forall (fun i => Forall byte_ok (default [] (cj_string i))) c) as Hk.
  { eapply Forall_impl; [exact Hc|]. by intros x [(_ & _ & ?) _]%tree_root. }
  assert (forall l, forallb (fun c => (32 <? c) && negb (c =? 34) && negb (c =? 47)) l = true -> minifies l l) as Hlit.
  { intros l Hl. apply minifies_plain. rewrite forallb_forall in Hl. apply Forall_forall. intros x Hx%list_elem_of_In.
    specialize (Hl x Hx). rewrite !andb_true_iff, !negb_true_iff, !Z.eqb_neq, Z.ltb_lt in Hl. unfold plain_char. tauto. }
  rewrite (proj2 (Z.eqb_neq (Z.land ty 255) cJSON_Raw)) by done.
  repeat match goal with |- context [Z.land ty 255 =? ?x] => destruct (Z.land ty 255 =? x) end;
    try done; try (intros [= <-]; eexists; split; [done|by apply Hlit]).
  - intros [= <-]. eexists. split; [done|]. by apply minifies_plain, number_text_plain.
  - intros E. apply (inj Some) in E as <-. eexists. split; [done|]. by apply minifies_quoted.
  - destruct (render_elements true _ c) as [e|] eqn:He; [|done]. destruct (elements_shrink _ (render false (S k)) c e (Hch _ _) He) as (u & -> & Hm).
    cbn. intros [= <-]. eexists. split; [done|]. apply (minifies_app [91] [91]); [by apply minifies_char|].
    apply minifies_app; [done|by apply minifies_char].
  - destruct (render_members true _ _ c) as [e|] eqn:He; [|done].
    destruct (members_shrink _ (render false (S k)) _ (S k) c e (Hch _ _) Hk He) as (u & -> & Hm).
    cbn [mbind option_bind]. intros E. apply (inj Some) in E as <-. eexists. split; [done|].
    apply (minifies_app [123; 10] [123]); [apply (minifies_app [123] [123] [10] []); [by apply minifies_char|apply minifies_space; auto]|].
    apply minifies_app; [done|]. apply (minifies_app _ [] _ [125]); [apply minifies_tabs|by apply minifies_char].
Qed.

Lemma minify_render i t rest w :
  tree no_raw i -> render true 0 i = Some t ->
  exists u rest', render false 0 i = Some u /\
    cJSON_Minify (Some (t ++ 0 :: rest)) w = Ok (Some (u ++ 0 :: rest'), w) /\
    zlen u <= zlen t /\ zlen (u ++ 0 :: rest') = zlen (t ++ 0 :: rest).
Proof.
  intros Hi Ht. destruct (render_minifies 0 0 i t Hi Ht) as (u & Hu & Hm).
  destruct (Hm (S (length (t ++ 0 :: rest))) [] [] (0 :: rest) w ltac:(lia)) as (fuel & gap & Hf & Hg & Hrun).
  destruct (copy_char u gap 0 rest w) as (gap' & Hl & Hw). pose proof (zlen_nonneg gap). change (zlen (@nil Z)) with 0 in Hg.
  exists u, (gap' ++ rest). split; [done|]. split_and!.
  - unfold cJSON_Minify. rewrite (bind_step _ _ _ (layout (u ++ [0]) gap' rest) w); [unfold layout; by rewrite <- app_assoc|].
    change (t ++ 0 :: rest) with (layout [] [] (t ++ 0 :: rest)) at 2. change (json_at [] []) with 0 in Hrun. change (zlen []) with 0 in Hrun.
    rewrite Hrun. destruct fuel as [|fuel]; [cbn in Hf; lia|]. cbn [app minify_loop]. rewrite (bind_step _ _ _ _ _ (char_at_layout _ _ _ _ w)).
    done.
  - lia.
  - rewrite !zlen_app. unfold zlen in *. cbn [length]. rewrite length_app. lia.
Qed.

Lemma no_raw_ok i : tree no_raw i -> tree node_ok i.
Proof.
  induction i as [ty v n db s c IH] using cJSON_nested_ind. intros [[Hok _] Hc]%tree_inv. constructor; [done|].
  rewrite Forall_forall in IH, Hc |- *. intros x Hx. apply IH; [done|]. by apply Hc.
Qed.

(** C12: when cJSON_Print returned a string for an item without raw texts, cJSON_Minify turns
    that string, in place, into the string that cJSON_PrintUnformatted returns for the item
    (whenever it returns one, which it does when no allocation fails and the text is not longer
    than INT_MAX); the characters of strings are kept, those that look like white space,
    comments or quotes included. *)
Theorem cJSON_Minify_print i realloc s w w1 :
  tree no_raw i -> cJSON_Print (Some i) realloc w = Ok (Some s, w1) ->
  exists t u, s = Some <$> t ++ [0] /\ zlen u <= zlen t /\
    (forall w2, exists rest, cJSON_Minify (Some (t ++ [0])) w2 = Ok (Some (u ++ 0 :: rest), w2) /\
                             zlen (u ++ 0 :: rest) = zlen (t ++ [0])) /\
    (forall realloc' w2, wp False (cJSON_PrintUnformatted (Some i) realloc') (fun r _ =>
       (forall s', r = Some s' -> s' = Some <$> u ++ [0]) /\
       (w_alloc w2 = [] -> zlen u + 2 <= INT_MAX -> r = Some (Some <$> u ++ [0]))) w2).
Proof.
  intros Hi Hp. pose proof (print_spec i true realloc w (no_raw_ok i Hi)) as Hs. unfold wp, cJSON_Print in *.
  rewrite Hp in Hs. destruct Hs as (t & Ht & ->). destruct (minify_render i t [] w Hi Ht) as (u & _ & Hu & _ & Hz & _).
  exists t, u. split_and!; [done|done| |].
  - intros w2. destruct (minify_render i t [] w2 Hi Ht) as (u2 & rest & Hu2 & ? & _ & ?).
    assert (u2 = u) as -> by congruence. by exists rest.
  - intros realloc' w2. eapply wp_mono; [by apply print_spec, no_raw_ok|]. intros [s|] w' Hr; split.
    + intros s' [= <-]. destruct Hr as (u2 & Hu2 & ->). congruence.
    + destruct Hr as (u2 & Hu2 & ->). intros _ _. congruence.
    + done.
    + intros Ha Hl. destruct (Hr u Hu); [done|lia].
Qed.

(** * Faults *)

(** A comment or a string that does not end makes cJSON_Minify read after the terminator. *)
Lemma minify_open_comment w : cJSON_Minify (Some [47; 42; 0]) w = Ub.
Proof. done. Qed.

Lemma minify_open_string w : cJSON_Minify (Some [34; 97; 0]) w = Ub.
Proof. done. Qed.

Lemma example_item_no_raw : tree no_raw example_item.
Proof. repeat constructor; by vm_compute. Qed.

Lemma example_item_printed w : w_alloc w = [] ->
  exists s w1, cJSON_Print (Some example_item) true w = Ok (Some s, w1) /\ zlen s <= 1000.
Proof.
  intros Ha. assert (exists t, render true 0 example_item = Some t /\ zlen t <= 900) as (t & Ht & Hz).
  { eexists. split; [reflexivity|]. by vm_compute. }
  pose proof (print_spec example_item true true w (no_raw_ok _ example_item_no_raw)) as Hp. unfold wp in Hp.
  unfold cJSON_Print. destruct (print _ _ _ w) as [[[s|] w1]| | |]; [|by destruct (Hp t Ht) as [?|?]; [done|unfold INT_MAX in *; lia]|done..].
  exists s, w1. split; [done|]. destruct Hp as (t' & Ht' & ->). assert (t' = t) as -> by congruence.
  unfold zlen in *. rewrite length_fmap, length_app. cbn [length]. lia.
Qed.

Lemma cJSON_Minify_print_witness :
  exists t u w1, cJSON_Print (Some example_item) true (mk_world [] 0 []) = Ok (Some (Some <$> t ++ [0]), w1) /\
    (exists rest, cJSON_Minify (Some (t ++ [0])) w1 = Ok (Some (u ++ 0 :: rest), w1)) /\
    (exists w2, cJSON_PrintUnformatted (Some example_item) true (mk_world [] 0 []) = Ok (Some (Some <$> u ++ [0]), w2)).
Proof.
  destruct (example_item_printed (mk_world [] 0 []) eq_refl) as (s & w1 & Hp & Hs).
  destruct (cJSON_Minify_print example_item true s (mk_world [] 0 []) w1 example_item_no_raw Hp) as (t & u & Es & Hz & Hm & Hu).
  exists t, u, w1. split; [rewrite <- Es; exact Hp|]. split.
  - destruct (Hm w1) as (rest & Hrest & _). exists rest. exact Hrest.
  - destruct (wp_run _ _ _ (Hu true (mk_world [] 0 []))) as (r & w2 & Hrun & _ & Hr). exists w2. rewrite Hrun.
    rewrite Hr; [reflexivity|reflexivity|]. subst s. unfold zlen in *. rewrite length_fmap, length_app in Hs. unfold INT_MAX. lia.
Defined.
